(* ===== verification/_CoqProject ===== *)
-Q . S2P
Prelude.v
Platform.v
Printf.v
Sleeptimer.v
SleepTimers.v
Sntp.v
MqttPacket.v
MqttServer.v
MqttReader.v
MqttClient.v
MqttExchange.v
MqttUiso.v
Monitor.v
Network.v
MqttTask.v
WifiService.v
Lwm2mCore.v
ServerObject.v
Memtrace.v
Statistics.v
Jsmn.v
JsmnDoc.v
JsonValue.v
Config.v
Lwm2mObjects.v
Lwm2mConnection.v
MbedtlsAdapter.v
MbedtlsConnector.v
Lwm2mClient.v
SdCard.v
SdCardModel.v
FatTable.v
FatChain.v
FatFile.v
FatTransfer.v
FatSeek.v
FatSync.v
FatShare.v
FatDir.v
FatEntries.v
FatName.v
FatOnCard.v
Bma2.v
BoardI2c.v
SensorService.v
SystemTasks.v
