(* ===== verification/Prelude.v ===== *)
(** * Verification of the uiso firmware

    uiso is the firmware of a battery-powered sensor node (Bosch XDK110: an
    EFM32 microcontroller with a TI CC3100 Wi-Fi processor).  It connects to an
    access point, sets its clock by SNTP, and then serves an LwM2M client and
    an MQTT client over plain or TLS connections.  This library models the
    program's own logic, written in C under [src/], and proves the properties
    that make its components correct.

    ** The parts of the program and how they interact

    - the configuration ([config.c] with the tokeniser [jsmn.h]): a JSON file on
      the SD card, read once at start-up into character arrays that the Wi-Fi
      service and the LwM2M security object take their settings from;
    - the SD card driver ([board/sdmm.c]) below the FAT file system
      ([ff15/source/ff.c]), which keeps files in chains of clusters;
    - the clock and the timers ([sl_sleeptimer.c]): seconds since a base time,
      set by the SNTP client and read by everything that waits or schedules, and
      the list of software timers behind two interrupts;
    - the SNTP client ([uiso_ntp.c], [sntp_packet.c]): one datagram exchange,
      validation of the reply, setting of the clock;
    - the Wi-Fi service ([wifi_service.c]): driver events are collected as bits
      in a task notification; a task reacts to them, runs the SNTP client from a
      timer, and suspends and resumes the other tasks;
    - network connections ([network.c], first half of the file's functions):
      per-service contexts, connecting, TLS handshakes, sending and reading;
    - the network monitor ([network.c], the select task): services register a
      deadline and sleep until their socket is ready;
    - the MQTT client ([mqtt/MQTTClient.c]) over the paho packet library, with
      its port layer on sockets and timers ([mqtt/MQTTuiso.c]), and the task that
      publishes with it ([mqtt/mqtt_client.c]);
    - the LwM2M client ([lwm2m/lightclient/uiso_lightclient.c]): a task that
      creates the objects ([object_*.c]), gives the LwM2M core its sessions over
      the transport ([lwm2m/connection.c]) after the TLS set-up
      ([mbedtls_connector.c]), and turns notifications into calls of the core;
      with the allocation tracer ([lwm2m/memtrace.c]);
    - the functions mbedTLS asks its platform for ([mbedtls_adapter/]);
    - the sensor service ([sensor_service.c]): reads full windows of the
      accelerometer, through Bosch's driver ([BMA2-Sensor-API-master/bma2.c]) and
      the I2C bus ([board/board_i2c_sensors.c], [board/board_bma280.c]), averages
      them ([statistics.c]) and gives the means to the LwM2M client;
    - the system monitor ([monitor_service.c]), which logs to the SD card, and
      the user task ([user.c]), which runs the LwM2M client.

    ** The files

    - [Prelude.v]: machine integers, bit masks, byte order; shared lemmas and
      tactics.
    - [Printf.v]: the decimal conversions of formatted output.
    - [Platform.v]: what the firmware runs on, as interfaces: the SimpleLink
      driver ([SimpleLink], [SimpleLinkLaws]), mbedTLS ([MbedTLS],
      [MbedTLSLaws]) and task notifications ([TaskNotify], [TaskNotifyLaws]).
      Every driver or TLS call is logged in a trace, so that theorems about any
      driver can speak of the calls made.
    - [Sleeptimer.v], [SleepTimers.v], [Sntp.v]: the clock, the software timers
      and the SNTP client.
    - [Jsmn.v], [JsmnDoc.v], [JsonValue.v], [Config.v]: the tokeniser; the
      tokeniser on one lexeme after the other; JSON values and their tokens,
      defined without the tokeniser; the configuration loader.
    - [SdCard.v], [SdCardModel.v]: the SD card driver against the bus interface
      [SdBus], and a card for it, byte by byte.
    - [FatTable.v], [FatChain.v]: the file system's window, table and chains over
      any disk ([DiskIo], [SectorDisk]); [FatFile.v], [FatTransfer.v],
      [FatSeek.v], [FatSync.v]: open files, with the invariant of an open file
      and the rules to reason about effects in the first, one operation after the
      other in the rest, and the file as an array of bytes in the last;
      [FatShare.v]: the table of shared files; [FatDir.v], [FatEntries.v]:
      directories, walked and searched in the first, changed in the second;
      [FatName.v]: short names; [FatOnCard.v]: open files on the SD card driver.
    - [MqttPacket.v], [MqttServer.v], [MqttReader.v]: the packet library: the
      client's side, the broker's side, and the readers over a stream
      ([ByteSource], [BlockingSource]).
    - [MqttClient.v], [MqttExchange.v], [MqttUiso.v], [MqttTask.v]: the client
      against the port interface [MqttPort]; its exchanges with a broker that
      answers ([PromptPeer]); the firmware's port, an instance of [MqttPort] that
      satisfies [MqttPortLaws]; the task over all of them and the monitor.
    - [Monitor.v], [Network.v]: the two halves of [network.c].
    - [WifiService.v]: event handlers, timer callback and task turns.
    - [Lwm2mCore.v]: the interfaces of the LwM2M core ([Lwm2mList], [Lwm2mData]),
      the heap, and what the objects share; [ServerObject.v], [Lwm2mObjects.v]:
      the objects; [Lwm2mConnection.v], [MbedtlsConnector.v]: transport and TLS
      set-up; [Lwm2mClient.v]: the client task against the core's operations
      ([Lwm2mLib]); [Memtrace.v]: the allocation tracer.
    - [MbedtlsAdapter.v]: delay timers, mutexes and calendar for mbedTLS.
    - [Statistics.v]: means of sample windows; [Bma2.v], [BoardI2c.v],
      [SensorService.v]: the accelerometer driver over an I2C bus, the bus shared
      by two tasks, and the service against the LwM2M client ([SensorClient]).
    - [SystemTasks.v]: the system monitor over the file system ([FatFs],
      [FatFsLaws]) and the user task.

    Each file has one Module of its name.  C functions keep their names (a
    leading underscore is dropped); a C structure is a Record with the fields
    the modelled code uses, an enumeration an Inductive type, and state is
    passed explicitly or, in [MqttClient.v], by a state monad with the outcomes
    of the C code: a result, undefined behaviour, a mutex taken twice, or fuel
    that ran out.

    ** What the theorems show

    - Clock: calendar conversion agrees with the Gregorian calendar, outside
      the days where the code's leap-year rule fails (these are stated and
      reported); conversions to a date and to NTP time and back are the
      identity on their ranges; the clock counts ticks exactly across counter
      overflows.
    - Timers: the list of differences refines a table of deadlines under every
      operation and the overflow interrupt; a compare interrupt serves, by
      priority, every one-shot timer that comes due while it runs, whatever time
      its callbacks and its readings of the counter take; periodic timers keep
      their rhythm when its readings take none.
    - Configuration: the tokeniser ends on every text, stays in bounds, returns
      well-formed tokens, and makes of the text of a JSON value exactly its
      tokens; a file in the loader's layout is loaded exactly; on any file loading
      ends with the buffers released, or has one of four hazards, none of which
      the sample file has.
    - SD card: with a card that keeps the time limits the driver refines an array
      of sectors; the capacity is the one of the SD specification; every operation
      releases the bus.
    - File system: the table is a store of numbers in all three formats, with
      equal copies after a flush; chains stay disjoint and the count of free
      clusters right; every operation on the table ends, whatever the table holds;
      an open file is an array of bytes with a pointer, bounded by the capacity of
      the disk, and calls on it change no sector of another file; a flushed file
      is found again by its directory entry; a directory is a map from names to
      entries, and a listed name opens the entry it was listed for; a file open for
      writing is open once;
      on an SD card that keeps the time limits what is said
      of open files holds of the bytes on the bus.
    - SNTP: a successful request validated every field it relies on and set the
      clock to the server's time; the poll interval is bounded; the socket is
      closed on every path; the request has the prescribed wire format.
    - MQTT packets: serialisers stay inside their buffer and produce the wire
      format; what they write is read back, by the client's functions and by the
      broker's; the remaining-length code is exact; a packet that arrives in
      pieces is assembled as if it had come at once.
    - MQTT client: the handler table refines a finite map with five entries;
      topic matching by pointer walking is matching level by level; messages
      reach exactly the matching handlers; an invariant holds after any sequence
      of calls; errors close the session; with a broker that answers, connect,
      publish, subscribe and the QoS 1 and 2 handshakes send exactly the right
      packets and return; the task, from its start through any history of timer
      and monitor, sends exactly the messages that are due, and is never woken
      for incoming data, because the monitor does not know its socket.
    - Monitor: timeouts respect every deadline, and a service is woken only for
      a live deadline of its own.
    - Network: every way a connection attempt ends, with the sockets opened and
      closed; a close after it releases them exactly once (socket 0 excepted, which
      the code opens but does not close); sends hand the buffer over completely,
      once and in order, or return the error.
    - Wi-Fi: no event bit is lost between turns; the effect of a turn for every
      combination of bits; in every interleaving the LwM2M task runs only after
      a successful synchronisation.
    - LwM2M: the server object keeps its invariant under all requests, reads
      return what was written, creation is atomic; the other objects answer as
      tables of their resources; from the configuration file to the session, the
      client connects with exactly the host, port, key and identity of the file;
      in every run of the client, whatever the core does with sessions and objects,
      each heap block is released at most once and accounted for; the tracer's accounts are exact and double releases are
      reported.
    - mbedTLS adapter: where the delay timers keep the documented contract, and
      where not.
    - Statistics: no overflow, exact means.
    - Sensors: a full FIFO is decoded and its means reach the LwM2M client; set-up
      leaves the registers it means to; each task gets the result of its own
      I2C transfer.
    - System monitor: the text added to the log reads back as one line for each
      minute that was served.

    Where the code does not do what it means to, a lemma states what it does on
    the inputs concerned, for example [writable_socket_undefined],
    [connect_error_ignored], [coalesced_reconnect_stops_timer],
    [shorter_binding_keeps_tail], [last_key_overruns], [lost_session_faults].

    ** Fuel

    Loops whose recursion is not structural take fuel, and the theorems prove
    that the fuel used is enough: the calendar loops are
    structural; the remaining-length loops need at most four or five passes
    (five bytes are an error); a plain send needs one pass per byte, because a
    pass that goes on has sent one; a socket read likewise; the tokeniser needs
    one pass per character and one step per token when it closes a container
    ([jsmn_parse_returns]); the loop that serves due timers ends within a fuel
    stated in [compare_irq_serves].  The SD card driver bounds its own loops, and
    the limits on the card in [disk_refines_array] are those bounds.  Transfers
    of files take one pass per byte at most, seeks one per cluster of the way,
    walks through a directory one per entry of the largest directory (65536),
    operations on chains one per entry of the table.  Loops that
    wait for
    a peer (TLS retries, MQTT waits) end only if the peer lets them: for the
    retries [retry_ends] gives the pass at which they end and [retry_fuel_mono]
    that more fuel changes nothing; the MQTT exchanges are proved to return for
    every [PromptPeer] with a fuel stated in each theorem.

    ** Limits

    Not modelled: FreeRTOS, mbedTLS, liblwm2m and the SimpleLink driver, which
    are parameters here (three of them are submodules that are not part of the
    repository); board support, which is input and output; of the file system
    the walk along a path over several directories, the calls that take a path,
    mounting and formatting: the configuration loader and the system monitor see the file system through interfaces of their own;
    the environment sensor's driver, which computes in floating point and is an
    interface of the sensor service; the functions of the accelerometer driver
    for taps, orientation, offsets and the like, and the texts of MQTT packets for
    debugging, which the firmware does not use; the command line, the tinydtls transport and the example
    program of the upstream LwM2M client, which the firmware does not use; task
    scheduling below the granularity of handlers and turns ([react_posts_late]
    shows that a handler running during a turn has the effect of one after it).
    In the compare interrupt of the timers time passes before each reading of the
    hardware counter; the operations that programs call see the counter as one
    value.
    Next in the plan: mounting, and the calls of the file system that take a path;
    the rest of the mbedTLS adapter and of the Wi-Fi start-up; the board's buttons
    and supervision. *)

(** ** Shared foundations

    Machine-width integers written as [Z] with their wrap-around, byte strings
    as [list Z], the byte-order helpers of the Cortex-M ([__REV], [__REV16]),
    bit masks, and the generic lemmas and tactics the component files share. *)

From Stdlib Require Export ZArith Lia Bool.
From Stdlib Require Ascii String.
From stdpp Require Export base list numbers.

#[global] Open Scope Z_scope.
#[global] Set Default Goal Selector "!".

Declare Scope uiso_scope.
Delimit Scope uiso_scope with uiso.

Create HintDb uiso.

(** Linear arithmetic with divisions and remainders by constants. *)
Ltac divlia := Z.to_euclidean_division_equations; lia.

(** ** Fixed-width integers *)

Definition u8 (z : Z) : Z := z mod 2 ^ 8.
Definition u16 (z : Z) : Z := z mod 2 ^ 16.
Definition u32 (z : Z) : Z := z mod 2 ^ 32.
Definition s16 (z : Z) : Z := (z + 2 ^ 15) mod 2 ^ 16 - 2 ^ 15.
Definition s32 (z : Z) : Z := (z + 2 ^ 31) mod 2 ^ 32 - 2 ^ 31.

Definition UINT32_MAX : Z := 2 ^ 32 - 1.
Definition INT32_MIN : Z := - 2 ^ 31.

Definition is_u8 (z : Z) : Prop := 0 <= z < 2 ^ 8.
Definition is_u16 (z : Z) : Prop := 0 <= z < 2 ^ 16.
Definition is_u32 (z : Z) : Prop := 0 <= z < 2 ^ 32.
Definition is_s16 (z : Z) : Prop := - 2 ^ 15 <= z < 2 ^ 15.
Definition is_s32 (z : Z) : Prop := - 2 ^ 31 <= z < 2 ^ 31.

Lemma u8_range z : is_u8 (u8 z).
Proof. apply Z.mod_pos_bound. lia. Qed.
Lemma u16_range z : is_u16 (u16 z).
Proof. apply Z.mod_pos_bound. lia. Qed.
Lemma u32_range z : is_u32 (u32 z).
Proof. apply Z.mod_pos_bound. lia. Qed.
Lemma s16_range z : is_s16 (s16 z).
Proof. pose proof (Z.mod_pos_bound (z + 2 ^ 15) (2 ^ 16)). unfold is_s16, s16. lia. Qed.
Lemma s32_range z : is_s32 (s32 z).
Proof. pose proof (Z.mod_pos_bound (z + 2 ^ 31) (2 ^ 32)). unfold is_s32, s32. lia. Qed.

Lemma u8_id z : is_u8 z -> u8 z = z.
Proof. apply Z.mod_small. Qed.
Lemma u16_id z : is_u16 z -> u16 z = z.
Proof. apply Z.mod_small. Qed.
Lemma u32_id z : is_u32 z -> u32 z = z.
Proof. apply Z.mod_small. Qed.
Lemma s16_id z : is_s16 z -> s16 z = z.
Proof. unfold is_s16, s16. intros. rewrite Z.mod_small; lia. Qed.
Lemma s32_id z : is_s32 z -> s32 z = z.
Proof. unfold is_s32, s32. intros. rewrite Z.mod_small; lia. Qed.

#[export] Hint Resolve u8_range u16_range u32_range s16_range s32_range : uiso.

(** ** Bit masks *)

Notation "a .& b" := (Z.land a b) (at level 40, left associativity) : uiso_scope.
Notation "a .| b" := (Z.lor a b) (at level 50, left associativity) : uiso_scope.
Open Scope uiso_scope.

(** C's truth value of [v & mask]. *)
Definition test_mask (v mask : Z) : bool := negb (v .& mask =? 0).

Lemma test_mask_false v m : test_mask v m = false <-> v .& m = 0.
Proof. unfold test_mask. rewrite negb_false_iff. lia. Qed.

Lemma test_mask_true v m : test_mask v m = true <-> v .& m <> 0.
Proof. unfold test_mask. rewrite negb_true_iff. lia. Qed.

Lemma lor_eq_0 a b : 0 <= a -> 0 <= b -> (a .| b =? 0) = (a =? 0) && (b =? 0).
Proof.
  intros Ha Hb. apply eq_true_iff_eq.
  rewrite andb_true_iff, !Z.eqb_eq, Z.lor_eq_0_iff. done.
Qed.

Lemma test_mask_lor a b m : 0 <= m -> test_mask (a .| b) m = test_mask a m || test_mask b m.
Proof.
  intros Hm. unfold test_mask. rewrite Z.land_lor_distr_l, lor_eq_0.
  - by rewrite negb_andb.
  - by apply Z.land_nonneg; right.
  - by apply Z.land_nonneg; right.
Qed.

Lemma test_mask_0 m : test_mask 0 m = false.
Proof. done. Qed.

(** ** Byte strings and byte order *)

Abbreviation bytes := (list Z).
Definition is_bytes (l : bytes) : Prop := Forall is_u8 l.

(** A string literal, without its terminator. *)
Definition lit (s : String.string) : bytes := map (fun a => Z.of_N (Ascii.N_of_ascii a)) (String.list_ascii_of_string s).
Arguments lit _%_string_scope.

(** [__REV]: reverse the byte order of a 32-bit word. *)
Definition rev32 (z : Z) : Z :=
  Z.lor (Z.shiftl (z .& 255) 24)
 (Z.lor (Z.shiftl (Z.shiftr z 8 .& 255) 16)
 (Z.lor (Z.shiftl (Z.shiftr z 16 .& 255) 8)
        (Z.shiftr z 24 .& 255))).

(** [__REV16] on a value whose upper half is zero. *)
Definition rev16 (z : Z) : Z :=
  Z.lor (Z.shiftl (z .& 255) 8) (Z.shiftr z 8 .& 255).

(** A little-endian machine word read from, and written to, four bytes. *)
Definition le32 (b : bytes) : Z :=
  match b with
  | [b0; b1; b2; b3] => b0 + 2 ^ 8 * b1 + 2 ^ 16 * b2 + 2 ^ 24 * b3
  | _ => 0
  end.
Definition to_le32 (z : Z) : bytes :=
  [z mod 2 ^ 8; z / 2 ^ 8 mod 2 ^ 8; z / 2 ^ 16 mod 2 ^ 8; z / 2 ^ 24 mod 2 ^ 8].

(** The network (big-endian) reading of the same four bytes. *)
Definition be32 (b : bytes) : Z :=
  match b with
  | [b0; b1; b2; b3] => 2 ^ 24 * b0 + 2 ^ 16 * b1 + 2 ^ 8 * b2 + b3
  | _ => 0
  end.
Definition to_be32 (z : Z) : bytes := rev (to_le32 z).

(** A shifted word and a value below the shift have no common bit: their
    disjunction is their sum. *)
Lemma shiftl_lor_add a b n :
  0 <= n -> 0 <= b < 2 ^ n -> Z.lor (Z.shiftl a n) b = a * 2 ^ n + b.
Proof.
  intros Hn Hb.
  assert (Z.land (Z.shiftl a n) b = 0) as Hland.
  { apply Z.bits_inj'. intros i Hi. rewrite Z.land_spec, Z.bits_0, Z.shiftl_spec by done.
    destruct (Z.ltb_spec i n) as [Hlt | Hge]; [by rewrite Z.testbit_neg_r by lia |].
    rewrite <- (Z.mod_small b (2 ^ n)) by done.
    rewrite Z.mod_pow2_bits_high by lia. apply andb_false_r. }
  rewrite <- Z.shiftl_mul_pow2 by done.
  rewrite Z.add_nocarry_lxor by done. by rewrite Z.lxor_lor.
Qed.

Lemma land_255 z : z .& 255 = z mod 2 ^ 8.
Proof. change 255 with (Z.ones 8). by rewrite Z.land_ones. Qed.

Lemma rev32_arith z :
  rev32 z = (z mod 2 ^ 8) * 2 ^ 24 + (z / 2 ^ 8 mod 2 ^ 8) * 2 ^ 16
            + (z / 2 ^ 16 mod 2 ^ 8) * 2 ^ 8 + z / 2 ^ 24 mod 2 ^ 8.
Proof.
  unfold rev32. rewrite !land_255, !Z.shiftr_div_pow2 by done.
  pose proof (u8_range z) as H0. pose proof (u8_range (z / 2 ^ 8)) as H1.
  pose proof (u8_range (z / 2 ^ 16)) as H2. pose proof (u8_range (z / 2 ^ 24)) as H3.
  unfold is_u8, u8 in *.
  rewrite (shiftl_lor_add _ _ 8), (shiftl_lor_add _ _ 16), (shiftl_lor_add _ _ 24) by lia. lia.
Qed.

Lemma rev16_arith z : rev16 z = (z mod 2 ^ 8) * 2 ^ 8 + z / 2 ^ 8 mod 2 ^ 8.
Proof.
  unfold rev16. rewrite !land_255, !Z.shiftr_div_pow2 by done.
  pose proof (u8_range (z / 2 ^ 8)) as H1. unfold is_u8, u8 in *.
  rewrite !shiftl_lor_add by lia. lia.
Qed.

Lemma rev32_range z : is_u32 (rev32 z).
Proof.
  rewrite rev32_arith.
  pose proof (u8_range z). pose proof (u8_range (z / 2 ^ 8)).
  pose proof (u8_range (z / 2 ^ 16)). pose proof (u8_range (z / 2 ^ 24)).
  unfold is_u8, is_u32, u8 in *. lia.
Qed.

(** The four bytes of a word are its base-256 digits. *)
Lemma le32_digits b0 b1 b2 b3 :
  is_u8 b0 -> is_u8 b1 -> is_u8 b2 -> is_u8 b3 ->
  to_le32 (b0 + 2 ^ 8 * b1 + 2 ^ 16 * b2 + 2 ^ 24 * b3) = [b0; b1; b2; b3].
Proof.
  unfold is_u8, to_le32. intros H0 H1 H2 H3.
  set (z := b0 + 2 ^ 8 * b1 + 2 ^ 16 * b2 + 2 ^ 24 * b3).
  assert (z / 2 ^ 8 = b1 + 2 ^ 8 * b2 + 2 ^ 16 * b3) as E1
    by (symmetry; apply Z.div_unique with b0; subst z; lia).
  assert (z / 2 ^ 16 = b2 + 2 ^ 8 * b3) as E2
    by (symmetry; apply Z.div_unique with (b0 + 2 ^ 8 * b1); subst z; lia).
  assert (z / 2 ^ 24 = b3) as E3
    by (symmetry; apply Z.div_unique with (b0 + 2 ^ 8 * b1 + 2 ^ 16 * b2); subst z; lia).
  rewrite E1, E2, E3. repeat f_equal; symmetry.
  - apply Z.mod_unique with (b1 + 2 ^ 8 * b2 + 2 ^ 16 * b3); subst z; lia.
  - apply Z.mod_unique with (b2 + 2 ^ 8 * b3); lia.
  - apply Z.mod_unique with b3; lia.
  - apply Z.mod_unique with 0; lia.
Qed.

Lemma u32_bytes z : is_u32 z ->
  exists b0 b1 b2 b3, is_u8 b0 /\ is_u8 b1 /\ is_u8 b2 /\ is_u8 b3 /\
    z = b0 + 2 ^ 8 * b1 + 2 ^ 16 * b2 + 2 ^ 24 * b3.
Proof.
  intros Hz. exists (z mod 2 ^ 8), (z / 2 ^ 8 mod 2 ^ 8), (z / 2 ^ 16 mod 2 ^ 8), (z / 2 ^ 24).
  unfold is_u32, is_u8 in *.
  assert (z / 2 ^ 16 = z / 2 ^ 8 / 2 ^ 8) as E2 by (rewrite Z.div_div; [done | lia | lia]).
  assert (z / 2 ^ 24 = z / 2 ^ 16 / 2 ^ 8) as E3 by (rewrite Z.div_div; [done | lia | lia]).
  pose proof (Z.div_mod z (2 ^ 8)). pose proof (Z.div_mod (z / 2 ^ 8) (2 ^ 8)).
  pose proof (Z.div_mod (z / 2 ^ 16) (2 ^ 8)).
  pose proof (Z.mod_pos_bound z (2 ^ 8)). pose proof (Z.mod_pos_bound (z / 2 ^ 8) (2 ^ 8)).
  pose proof (Z.mod_pos_bound (z / 2 ^ 16) (2 ^ 8)).
  assert (0 <= z / 2 ^ 24 < 2 ^ 8) by (split; [apply Z.div_pos; lia | apply Z.div_lt_upper_bound; lia]).
  repeat split; lia.
Qed.

Lemma rev32_digits b0 b1 b2 b3 :
  is_u8 b0 -> is_u8 b1 -> is_u8 b2 -> is_u8 b3 ->
  rev32 (b0 + 2 ^ 8 * b1 + 2 ^ 16 * b2 + 2 ^ 24 * b3)
  = b3 + 2 ^ 8 * b2 + 2 ^ 16 * b1 + 2 ^ 24 * b0.
Proof.
  intros H0 H1 H2 H3. rewrite rev32_arith.
  pose proof (le32_digits b0 b1 b2 b3 H0 H1 H2 H3) as E. unfold to_le32 in E.
  injection E as -> -> -> ->. lia.
Qed.

(** Byte reversal is an involution on 32-bit words. *)
Lemma rev32_invol z : is_u32 z -> rev32 (rev32 z) = z.
Proof.
  intros (b0 & b1 & b2 & b3 & H0 & H1 & H2 & H3 & ->)%u32_bytes.
  by rewrite !rev32_digits.
Qed.

(** [__REV] of a word loaded from memory is its network-order reading. *)
Lemma rev32_le32 b : is_bytes b -> length b = 4%nat -> rev32 (le32 b) = be32 b.
Proof.
  intros Hb Hl. destruct b as [|b0 [|b1 [|b2 [|b3 [|]]]]]; try discriminate.
  unfold is_bytes in Hb. rewrite !Forall_cons_iff in Hb. destruct Hb as (H0 & H1 & H2 & H3 & _).
  unfold le32, be32. rewrite rev32_digits by done. lia.
Qed.

Lemma to_le32_rev32 z : is_u32 z -> to_le32 (rev32 z) = to_be32 z.
Proof.
  intros (b0 & b1 & b2 & b3 & H0 & H1 & H2 & H3 & ->)%u32_bytes.
  unfold to_be32. by rewrite rev32_digits, !le32_digits.
Qed.

Lemma be32_to_be32 z : is_u32 z -> be32 (to_be32 z) = z.
Proof.
  intros (b0 & b1 & b2 & b3 & H0 & H1 & H2 & H3 & ->)%u32_bytes.
  unfold to_be32. rewrite le32_digits by done. simpl. lia.
Qed.

Lemma rev16_invol z : is_u16 z -> rev16 (rev16 z) = z.
Proof.
  unfold is_u16. intros Hz. rewrite (rev16_arith (rev16 z)), rev16_arith.
  assert (0 <= z / 2 ^ 8 < 2 ^ 8) by (split; [apply Z.div_pos; lia | apply Z.div_lt_upper_bound; lia]).
  pose proof (Z.div_mod z (2 ^ 8)). pose proof (Z.mod_pos_bound z (2 ^ 8)).
  rewrite (Z.mod_small (z / 2 ^ 8)) by lia.
  set (l := z mod 2 ^ 8) in *. set (h := z / 2 ^ 8) in *.
  rewrite <- (Z.mod_unique (l * 2 ^ 8 + h) (2 ^ 8) l h) by lia.
  rewrite <- (Z.div_unique (l * 2 ^ 8 + h) (2 ^ 8) l h) by lia.
  rewrite Z.mod_small by lia. lia.
Qed.

Lemma is_bytes_to_le32 z : is_bytes (to_le32 z).
Proof. unfold is_bytes, to_le32. repeat constructor; apply Z.mod_pos_bound; lia. Qed.

Lemma is_bytes_to_be32 z : is_bytes (to_be32 z).
Proof. apply Forall_rev, is_bytes_to_le32. Qed.

#[export] Hint Resolve rev32_range is_bytes_to_le32 is_bytes_to_be32 : uiso.

#[global] Arguments u8 : simpl never.
#[global] Arguments u16 : simpl never.
#[global] Arguments u32 : simpl never.
#[global] Arguments s16 : simpl never.
#[global] Arguments s32 : simpl never.
#[global] Arguments rev32 : simpl never.
#[global] Arguments rev16 : simpl never.
#[global] Arguments le32 : simpl never.
#[global] Arguments test_mask : simpl never.
