(* ===== verification/Platform.v ===== *)
(** * The platform: the SimpleLink driver and the RTOS, as interfaces

    The firmware runs on the CC3100 SimpleLink driver and on FreeRTOS.  Neither
    is modelled: the driver is the class [SimpleLink] over an arbitrary device
    state [W], one operation per host-driver call the firmware makes, and
    [SimpleLinkLaws] states the documented bounds of their results.  Every call
    goes through a logging wrapper, so that a theorem about any driver can
    speak of the sequence of calls.  FreeRTOS task notifications are the class
    [TaskNotify] with its laws. *)

From S2P Require Import Prelude.

(** ** Socket addresses *)

Record sockaddr := mk_sockaddr { sin_family : Z; sin_port : Z; s_addr : Z }.
#[export] Instance sockaddr_eq_dec : EqDecision sockaddr.
Proof. solve_decision. Defined.

Definition sockaddr_zero : sockaddr := mk_sockaddr 0 0 0.

(** Constants of [simplelink/include/socket.h]. *)
Definition SL_AF_INET : Z := 2.
Definition SL_SOCK_STREAM : Z := 1.
Definition SL_SOCK_DGRAM : Z := 2.
Definition SL_IPPROTO_TCP : Z := 6.
Definition SL_IPPROTO_UDP : Z := 17.
Definition SL_EAGAIN : Z := -11.

(** ** The driver *)

Class SimpleLink (W : Type) := {
  dns_get_host_by_name : bytes -> W -> (Z * Z) * W;     (* status, address *)
  sl_socket : Z -> Z -> Z -> W -> Z * W;
  sl_bind : Z -> sockaddr -> W -> Z * W;
  sl_connect : Z -> sockaddr -> W -> Z * W;
  sl_close : Z -> W -> Z * W;
  sl_send : Z -> bytes -> W -> Z * W;
  sl_sendto : Z -> bytes -> sockaddr -> W -> Z * W;
  sl_recv : Z -> Z -> W -> (Z * bytes) * W;             (* result, bytes stored *)
  sl_recvfrom : Z -> Z -> W -> (Z * bytes * sockaddr) * W;
  sl_set_nonblocking : Z -> W -> Z * W;
  sl_devset_datetime : list Z -> W -> Z * W;
}.

(** Documented bounds: a transfer never reports more than was asked for, and a
    receive call stores as many bytes as it reports. *)
Class SimpleLinkLaws (W : Type) {S : SimpleLink W} := {
  sl_send_le sd b w : fst (sl_send sd b w) <= Z.of_nat (length b);
  sl_sendto_le sd b a w : fst (sl_sendto sd b a w) <= Z.of_nat (length b);
  sl_recv_length sd len w : 0 <= len ->
    let '(r, b) := fst (sl_recv sd len w) in
    r <= len /\ Z.of_nat (length b) = Z.max 0 r /\ is_bytes b;
  sl_recvfrom_length sd len w : 0 <= len ->
    let '(r, b, _) := fst (sl_recvfrom sd len w) in
    r <= len /\ Z.of_nat (length b) = Z.max 0 r /\ is_bytes b;
}.

(** ** The TLS library

    mbedTLS is not part of the repository: its error codes and operations are
    parameters.  Errors are negative and success is zero.  A call may run the registered BIO
    callbacks, so that it changes the device state; a write never accepts more
    than it was given, and a read stores as many bytes as it reports. *)
Class MbedTLS (W : Type) := {
  ERR_SSL_WANT_READ : Z;
  ERR_SSL_WANT_WRITE : Z;
  ERR_SSL_ASYNC_IN_PROGRESS : Z;
  ERR_SSL_CRYPTO_IN_PROGRESS : Z;
  ERR_SSL_CLIENT_RECONNECT : Z;
  SSL_CID_DISABLED : Z;
  ssl_handshake : W -> Z * W;
  ssl_renegotiate : W -> Z * W;
  ssl_close_notify : W -> Z * W;
  ssl_session_reset : W -> Z * W;
  ssl_get_peer_cid : W -> (Z * Z) * W;                   (* status, cid enabled *)
  ssl_read : Z -> W -> (Z * bytes) * W;
  ssl_write : bytes -> W -> Z * W;
}.

Class MbedTLSLaws (W : Type) {T : MbedTLS W} := {
  ssl_errors_negative : ERR_SSL_WANT_READ < 0 /\ ERR_SSL_WANT_WRITE < 0 /\
    ERR_SSL_ASYNC_IN_PROGRESS < 0 /\ ERR_SSL_CRYPTO_IN_PROGRESS < 0 /\ ERR_SSL_CLIENT_RECONNECT < 0;
  ssl_handshake_le w : fst (ssl_handshake w) <= 0;
  ssl_session_reset_le w : fst (ssl_session_reset w) <= 0;
  ssl_get_peer_cid_le w : fst (fst (ssl_get_peer_cid w)) <= 0;
  ssl_write_le b w : fst (ssl_write b w) <= Z.of_nat (length b);
  ssl_read_length len w : 0 <= len ->
    let '(r, b) := fst (ssl_read len w) in
    r <= len /\ Z.of_nat (length b) = Z.max 0 r /\ is_bytes b;
}.

(** ** Logged calls *)

(** Calls of the TLS library; [SslSetBio] records whether the datagram or the
    stream callbacks were registered. *)
Inductive ssl_op :=
  | SslSetBio (datagram : bool)
  | SslSetMtu (mtu : Z)
  | SslHandshake
  | SslRenegotiate
  | SslCloseNotify
  | SslSessionReset
  | SslRead (len : Z)
  | SslWrite (data : bytes).
#[export] Instance ssl_op_eq_dec : EqDecision ssl_op.
Proof. solve_decision. Defined.

Inductive io_event :=
  | EvSsl (op : ssl_op) (r : Z)
  | EvDns (host : bytes) (status : Z)
  | EvSocket (type protocol sd : Z)
  | EvBind (sd : Z) (a : sockaddr) (r : Z)
  | EvConnect (sd : Z) (a : sockaddr) (r : Z)
  | EvClose (sd r : Z)
  | EvSend (sd : Z) (b : bytes) (r : Z)
  | EvSendTo (sd : Z) (b : bytes) (a : sockaddr) (r : Z)
  | EvRecv (sd len r : Z)
  | EvRecvFrom (sd len r : Z)
  | EvNonblock (sd r : Z)
  | EvDateTime (dt : list Z) (r : Z).
#[export] Instance io_event_eq_dec : EqDecision io_event.
Proof. solve_decision. Defined.

Record net (W : Type) := mk_net { dev : W; trace : list io_event }.
Arguments mk_net {W}. Arguments dev {W}. Arguments trace {W}.

Section Calls.
Context {W : Type} {SL : SimpleLink W}.

Definition logged {A} (r : A * W) (e : A -> io_event) (n : net W) : A * net W :=
  (fst r, mk_net (snd r) (trace n ++ [e (fst r)])).

Definition call_dns (host : bytes) (n : net W) : (Z * Z) * net W :=
  logged (dns_get_host_by_name host (dev n)) (fun r => EvDns host (fst r)) n.
Definition call_socket (type protocol : Z) (n : net W) : Z * net W :=
  logged (sl_socket SL_AF_INET type protocol (dev n)) (EvSocket type protocol) n.
Definition call_bind (sd : Z) (a : sockaddr) (n : net W) : Z * net W :=
  logged (sl_bind sd a (dev n)) (EvBind sd a) n.
Definition call_connect (sd : Z) (a : sockaddr) (n : net W) : Z * net W :=
  logged (sl_connect sd a (dev n)) (EvConnect sd a) n.
Definition call_close (sd : Z) (n : net W) : Z * net W :=
  logged (sl_close sd (dev n)) (EvClose sd) n.
Definition call_send (sd : Z) (b : bytes) (n : net W) : Z * net W :=
  logged (sl_send sd b (dev n)) (EvSend sd b) n.
Definition call_sendto (sd : Z) (b : bytes) (a : sockaddr) (n : net W) : Z * net W :=
  logged (sl_sendto sd b a (dev n)) (EvSendTo sd b a) n.
Definition call_recv (sd len : Z) (n : net W) : (Z * bytes) * net W :=
  logged (sl_recv sd len (dev n)) (fun r => EvRecv sd len (fst r)) n.
Definition call_recvfrom (sd len : Z) (n : net W) : (Z * bytes * sockaddr) * net W :=
  logged (sl_recvfrom sd len (dev n)) (fun r => EvRecvFrom sd len (fst (fst r))) n.
Definition call_nonblock (sd : Z) (n : net W) : Z * net W :=
  logged (sl_set_nonblocking sd (dev n)) (EvNonblock sd) n.
Definition call_datetime (dt : list Z) (n : net W) : Z * net W :=
  logged (sl_devset_datetime dt (dev n)) (EvDateTime dt) n.
End Calls.

#[global] Arguments call_dns : simpl never.
#[global] Arguments call_socket : simpl never.
#[global] Arguments call_bind : simpl never.
#[global] Arguments call_connect : simpl never.
#[global] Arguments call_close : simpl never.
#[global] Arguments call_send : simpl never.
#[global] Arguments call_sendto : simpl never.
#[global] Arguments call_recv : simpl never.
#[global] Arguments call_recvfrom : simpl never.
#[global] Arguments call_nonblock : simpl never.
#[global] Arguments call_datetime : simpl never.

(** What each call appends to the trace. *)
Section CallTraces.
Context {W : Type} {SL : SimpleLink W}.
Implicit Types n : net W.

Lemma call_dns_trace h n r n' : call_dns h n = (r, n') -> trace n' = trace n ++ [EvDns h (fst r)].
Proof. by intros [= <- <-]. Qed.
Lemma call_socket_trace t p n r n' : call_socket t p n = (r, n') -> trace n' = trace n ++ [EvSocket t p r].
Proof. by intros [= <- <-]. Qed.
Lemma call_bind_trace sd a n r n' : call_bind sd a n = (r, n') -> trace n' = trace n ++ [EvBind sd a r].
Proof. by intros [= <- <-]. Qed.
Lemma call_connect_trace sd a n r n' : call_connect sd a n = (r, n') -> trace n' = trace n ++ [EvConnect sd a r].
Proof. by intros [= <- <-]. Qed.
Lemma call_close_trace sd n r n' : call_close sd n = (r, n') -> trace n' = trace n ++ [EvClose sd r].
Proof. by intros [= <- <-]. Qed.
Lemma call_send_trace sd b n r n' : call_send sd b n = (r, n') -> trace n' = trace n ++ [EvSend sd b r].
Proof. by intros [= <- <-]. Qed.
Lemma call_sendto_trace sd b a n r n' :
  call_sendto sd b a n = (r, n') -> trace n' = trace n ++ [EvSendTo sd b a r].
Proof. by intros [= <- <-]. Qed.
Lemma call_recv_trace sd l n r n' : call_recv sd l n = (r, n') -> trace n' = trace n ++ [EvRecv sd l (fst r)].
Proof. by intros [= <- <-]. Qed.
Lemma call_recvfrom_trace sd l n r n' :
  call_recvfrom sd l n = (r, n') -> trace n' = trace n ++ [EvRecvFrom sd l (fst (fst r))].
Proof. by intros [= <- <-]. Qed.
Lemma call_nonblock_trace sd n r n' : call_nonblock sd n = (r, n') -> trace n' = trace n ++ [EvNonblock sd r].
Proof. by intros [= <- <-]. Qed.
Lemma call_datetime_trace d n r n' : call_datetime d n = (r, n') -> trace n' = trace n ++ [EvDateTime d r].
Proof. by intros [= <- <-]. Qed.
End CallTraces.

(** Turn every equation about a logged call into its trace equation. *)
Ltac trace_calls :=
  repeat match goal with
  | H : call_dns _ _ = _ |- _ => apply call_dns_trace in H
  | H : call_socket _ _ _ = _ |- _ => apply call_socket_trace in H
  | H : call_bind _ _ _ = _ |- _ => apply call_bind_trace in H
  | H : call_connect _ _ _ = _ |- _ => apply call_connect_trace in H
  | H : call_close _ _ = _ |- _ => apply call_close_trace in H
  | H : call_send _ _ _ = _ |- _ => apply call_send_trace in H
  | H : call_sendto _ _ _ _ = _ |- _ => apply call_sendto_trace in H
  | H : call_recv _ _ _ = _ |- _ => apply call_recv_trace in H
  | H : call_recvfrom _ _ _ = _ |- _ => apply call_recvfrom_trace in H
  | H : call_nonblock _ _ = _ |- _ => apply call_nonblock_trace in H
  | H : call_datetime _ _ = _ |- _ => apply call_datetime_trace in H
  end.

(** Rewrite a trace to the events appended to the initial one. *)
Ltac trace_rewrite :=
  repeat match goal with H : trace ?n = _ |- context [trace ?n] => rewrite H end;
  rewrite <- ?app_assoc; cbn [app].

(** Socket accounting on a trace. *)
Definition opened (l : list io_event) : list Z :=
  omap (fun e => match e with EvSocket _ _ sd => if 0 <=? sd then Some sd else None | _ => None end) l.
Definition closed (l : list io_event) : list Z :=
  omap (fun e => match e with EvClose sd _ => Some sd | _ => None end) l.

(** ** Scripted drivers

    Closed instances for concrete runs: a driver whose every answer is fixed,
    and one that replays a list of transfer results. *)

Record answers := mk_answers {
  a_dns : Z * Z; a_socket : Z; a_bind : Z; a_connect : Z; a_close : Z; a_send : Z;
  a_recv : Z * bytes; a_from : sockaddr; a_datetime : Z }.

Definition scripted (a : answers) : SimpleLink unit := {|
  dns_get_host_by_name _ w := (a_dns a, w);
  sl_socket _ _ _ w := (a_socket a, w);
  sl_bind _ _ w := (a_bind a, w);
  sl_connect _ _ w := (a_connect a, w);
  sl_close _ w := (a_close a, w);
  sl_send _ b w := (Z.min (a_send a) (Z.of_nat (length b)), w);
  sl_sendto _ b _ w := (Z.min (a_send a) (Z.of_nat (length b)), w);
  sl_recv _ _ w := (a_recv a, w);
  sl_recvfrom _ _ w := ((a_recv a, a_from a), w);
  sl_set_nonblocking _ w := (0, w);
  sl_devset_datetime _ w := (a_datetime a, w) |}.

(** A TLS library that accepts [k] bytes per write and has no data to read; the
    error codes are those of mbedTLS 2.28. *)
Definition scripted_tls (k : Z) : MbedTLS unit := {|
  ERR_SSL_WANT_READ := -26880; ERR_SSL_WANT_WRITE := -26752;
  ERR_SSL_ASYNC_IN_PROGRESS := -25856; ERR_SSL_CRYPTO_IN_PROGRESS := -28672;
  ERR_SSL_CLIENT_RECONNECT := -26496; SSL_CID_DISABLED := 0;
  ssl_handshake w := (0, w); ssl_renegotiate w := (0, w);
  ssl_close_notify w := (0, w); ssl_session_reset w := (0, w);
  ssl_get_peer_cid w := ((0, 0), w);
  ssl_read _ w := ((0, []), w);
  ssl_write b w := (Z.min k (Z.of_nat (length b)), w) |}.

Lemma scripted_tls_laws k : MbedTLSLaws unit (T := scripted_tls k).
Proof. split; try done; intros; simpl; split_and?; try done; try lia. constructor. Qed.

(** ** Task notifications

    A FreeRTOS task owns a 32-bit notification word with a pending flag.  The
    kernel is not part of the repository: the operations are the class
    [TaskNotify], and [TaskNotifyLaws] states what the kernel documents of
    [xTaskNotify(.., eSetBits)] and of [xTaskNotifyWait] with an exit mask of
    [UINT32_MAX] (the entry mask is applied only when nothing is pending). *)

Class TaskNotify (N : Type) := {
  notify_word : N -> Z;
  notify_pending : N -> bool;
  notify_set_bits : Z -> N -> N;
  notify_wait : Z -> N -> option Z * N;
}.

Class TaskNotifyLaws (N : Type) {T : TaskNotify N} := {
  notify_set_bits_word b n : notify_word (notify_set_bits b n) = Z.lor (notify_word n) b;
  notify_set_bits_pending b n : notify_pending (notify_set_bits b n) = true;
  notify_wait_some e n : notify_pending n = true ->
    fst (notify_wait e n) = Some (notify_word n)
    /\ notify_word (snd (notify_wait e n)) = 0 /\ notify_pending (snd (notify_wait e n)) = false;
  notify_wait_none e n : notify_pending n = false ->
    fst (notify_wait e n) = None
    /\ notify_word (snd (notify_wait e n)) = Z.land (notify_word n) (Z.lnot e)
    /\ notify_pending (snd (notify_wait e n)) = false;
}.

(** The obvious implementation, for concrete runs. *)
Record notif := mk_notif { n_value : Z; n_pending : bool }.

#[export] Instance notif_ops : TaskNotify notif := {|
  notify_word := n_value;
  notify_pending := n_pending;
  notify_set_bits bits n := mk_notif (Z.lor (n_value n) bits) true;
  notify_wait entry n :=
    if n_pending n then (Some (n_value n), mk_notif 0 false)
    else (None, mk_notif (Z.land (n_value n) (Z.lnot entry)) false) |}.

#[export] Instance notif_laws : TaskNotifyLaws notif.
Proof. split; try done; intros e [v p]; simpl; by intros ->. Qed.
