(* ===== verification/Printf.v ===== *)
(** * Decimal conversions of printf

    What the firmware uses of the C library's formatted output: [%u] and [%d]
    with a literal text around them, into a character array.  The digits are
    written by repeated division; the length and the value of what is written
    are proved for every number of the type. *)

From S2P Require Import Prelude.

Module Printf.

(** Decimal digits, most significant first. *)
Fixpoint digits (fuel : nat) (n : Z) : bytes :=
  match fuel with
  | O => []
  | S fuel => (if n <? 10 then [] else digits fuel (n / 10)) ++ [48 + n mod 10]
  end.

(** An [unsigned int] has at most ten digits. *)
Definition fmt_u (n : Z) : bytes := digits 10 n.
Definition fmt_d (n : Z) : bytes := if n <? 0 then 45 :: fmt_u (- n) else fmt_u n.

(** [sprintf] into an array of [size] characters: the text and its terminator
    have to fit, or the behaviour is undefined ([None]). *)
Definition sprintf (size : nat) (text : bytes) : option bytes :=
  if decide (length text < size)%nat then Some text else None.

(** The number a string of digits denotes. *)
Definition decimal_value (s : bytes) : Z := foldl (fun v c => 10 * v + (c - 48)) 0 s.

Definition is_digit (c : Z) : Prop := 48 <= c <= 57.

Lemma digits_spec fuel n :
  0 <= n < 10 ^ Z.of_nat fuel ->
  decimal_value (digits fuel n) = n /\ Forall is_digit (digits fuel n) /\
  (length (digits fuel n) <= fuel)%nat /\ ((0 < fuel)%nat -> (1 <= length (digits fuel n))%nat).
Proof.
  revert n. induction fuel as [| fuel IH]; intros n Hn.
  { change (10 ^ Z.of_nat 0) with 1 in Hn. assert (n = 0) as -> by lia. split_and!; [done | constructor | done | lia]. }
  assert (10 ^ Z.of_nat (S fuel) = 10 * 10 ^ Z.of_nat fuel) as E by (rewrite Nat2Z.inj_succ, Z.pow_succ_r; lia).
  assert (0 <= n mod 10 < 10) as Hm by (apply Z.mod_pos_bound; lia).
  cbn [digits]. unfold decimal_value. rewrite foldl_app, length_app, Forall_app. cbn [foldl length].
  destruct (Z.ltb_spec n 10) as [Hlt | Hge].
  - split_and!; [rewrite Z.mod_small by lia; simpl; lia | constructor | | simpl; lia | simpl; lia].
    apply list.Forall_singleton. unfold is_digit. lia.
  - destruct (IH (n / 10)) as (Hv & Hd & Hl & _); [rewrite E in Hn; divlia |].
    fold (decimal_value (digits fuel (n / 10))). rewrite Hv.
    split_and!; [divlia | done | | lia | lia]. apply list.Forall_singleton. unfold is_digit. lia.
Qed.

(** [%u] of any 32-bit number: one to ten digits, with its value. *)
Lemma fmt_u_spec n : is_u32 n ->
  decimal_value (fmt_u n) = n /\ Forall is_digit (fmt_u n) /\ (1 <= length (fmt_u n) <= 10)%nat.
Proof.
  intros Hn. destruct (digits_spec 10 n) as (? & ? & ? & ?); [unfold is_u32 in Hn; lia |].
  split_and!; try done. unfold fmt_u. lia.
Qed.

Lemma fmt_u_inj a b : is_u32 a -> is_u32 b -> fmt_u a = fmt_u b -> a = b.
Proof.
  intros Ha Hb E. destruct (fmt_u_spec a Ha) as [<- _]. destruct (fmt_u_spec b Hb) as [<- _]. by rewrite E.
Qed.

Lemma digits_bytes s : Forall is_digit s -> is_bytes s.
Proof. apply Forall_impl. unfold is_digit, is_u8. intros; lia. Qed.

Lemma fmt_d_nonneg n : 0 <= n -> fmt_d n = fmt_u n.
Proof. intros H. unfold fmt_d. by rewrite (proj2 (Z.ltb_ge _ _)). Qed.

End Printf.
