(* ===== verification/Sleeptimer.v ===== *)
(** * The wall clock: [system/src/gecko_sdk/service/sleeptimer/src/sl_sleeptimer.c]

    The clock every service of the firmware reads ([sl_sleeptimer_get_time])
    and the SNTP client sets: its state, the conversions between Unix, NTP and
    calendar time, and the calendar arithmetic.  Theorems: the NTP/Unix
    conversions are mutually inverse on their common range; setting the clock
    and reading it back gives the time set; the calendar conversion agrees with
    the proleptic Gregorian calendar and round-trips, for every day the 31-bit
    Unix range can express, except on the days where the code's leap-year
    arithmetic is wrong (31 December 1972, and 29 February to 31 December
    2000), which are stated as what the code does there. *)

From S2P Require Import Prelude.

Module Sleeptimer.

(** ** Constants *)

Definition TIME_NTP_UNIX_EPOCH_DIFF : Z := 1970 - 1900.
Definition TIME_DAY_COUNT_NTP_TO_UNIX_EPOCH : Z := TIME_NTP_UNIX_EPOCH_DIFF * 365 + 17.
Definition TIME_SEC_PER_DAY : Z := 60 * 60 * 24.
Definition TIME_NTP_EPOCH_OFFSET_SEC : Z := TIME_DAY_COUNT_NTP_TO_UNIX_EPOCH * TIME_SEC_PER_DAY.
Definition TIME_DAY_PER_YEAR : Z := 365.
Definition TIME_SEC_PER_YEAR : Z := TIME_SEC_PER_DAY * TIME_DAY_PER_YEAR.
Definition TIME_UNIX_TIMESTAMP_MAX : Z := 0x7FFFFFFF.
Definition TIME_UNIX_YEAR_MAX : Z := 2038 - 1900.
Definition TIME_LEAP_DAYS_UP_TO_YEAR (year : Z) : Z := (year - 3) ÷ 4 + 1.

Inductive time_format := TIME_FORMAT_UNIX | TIME_FORMAT_NTP | TIME_FORMAT_ZIGBEE_CLUSTER.

Inductive sl_status := SL_STATUS_OK | SL_STATUS_INVALID_PARAMETER.
#[export] Instance sl_status_eq_dec : EqDecision sl_status.
Proof. solve_decision. Defined.

Record date := mk_date {
  d_sec : Z; d_min : Z; d_hour : Z; d_month_day : Z; d_month : Z; d_year : Z;
  d_day_of_week : Z; d_day_of_year : Z; d_time_zone : Z }.
#[export] Instance date_eq_dec : EqDecision date.
Proof. solve_decision. Defined.

Definition days_in_month (leap : bool) : list Z :=
  [31; if leap then 29 else 28; 31; 30; 31; 30; 31; 31; 30; 31; 30; 31].

(** ** Validity and calendar helpers *)

Definition is_leap_year (year : Z) : bool :=
  (year mod 4 =? 0) && (negb (year mod 100 =? 0) || (year mod 400 =? 0)).

Definition compute_day_of_week (day : Z) : Z := u32 (day + 4) mod 7.

Definition is_valid_time (time : Z) (format : time_format) (time_zone : Z) : bool :=
  let valid := ((time_zone <? 0) && (Z.abs time_zone <? time))
               || ((0 <=? time_zone) && (time <=? UINT32_MAX - time_zone)) in
  match format with
  | TIME_FORMAT_UNIX => if TIME_UNIX_TIMESTAMP_MAX <? time then false else valid
  | TIME_FORMAT_NTP => if TIME_NTP_EPOCH_OFFSET_SEC <=? time then valid else false
  | TIME_FORMAT_ZIGBEE_CLUSTER =>
      if time <=? TIME_UNIX_TIMESTAMP_MAX - (30 * 365 + 7) * TIME_SEC_PER_DAY then valid else false
  end.

Definition is_valid_date (d : date) : bool :=
  negb ((TIME_UNIX_YEAR_MAX <? d_year d)
        || (11 <? d_month d)
        || (d_month_day d =? 0)
        || (default 0 (days_in_month (is_leap_year (d_year d)) !! Z.to_nat (d_month d)) <? d_month_day d)
        || (23 <? d_hour d) || (59 <? d_min d) || (59 <? d_sec d))
  && (if d_year d =? TIME_UNIX_YEAR_MAX
      then if 0 <? u8 (d_month d) then false
           else if 19 <? d_month_day d then false
           else if 3 <? d_hour d then false
           else if 14 <? d_min d then false
           else if 7 <? d_sec d then false else true
      else true).

(** ** NTP and Unix time *)

Definition sl_sleeptimer_convert_unix_time_to_ntp (time : Z) : sl_status * option Z :=
  let temp := u32 (time + TIME_NTP_EPOCH_OFFSET_SEC) in
  if negb (is_valid_time temp TIME_FORMAT_NTP 0) then (SL_STATUS_INVALID_PARAMETER, None)
  else (SL_STATUS_OK, Some temp).

Definition sl_sleeptimer_convert_ntp_time_to_unix (ntp_time : Z) : sl_status * option Z :=
  let temp := u32 (ntp_time - TIME_NTP_EPOCH_OFFSET_SEC) in
  if negb (is_valid_time temp TIME_FORMAT_UNIX 0) then (SL_STATUS_INVALID_PARAMETER, None)
  else (SL_STATUS_OK, Some temp).

(** ** Calendar conversion *)

(** The month loop of [sl_sleeptimer_convert_time_to_date]: [None] is a read
    past the twelve entries of the month table. *)
Fixpoint month_loop (table : list Z) (time current_month : Z) : option (Z * Z) :=
  match table with
  | [] => None
  | d :: rest => if d <=? time then month_loop rest (time - d) (current_month + 1)
                 else Some (time, current_month)
  end.

Inductive conversion :=
  | Converted (d : date)
  | Rejected               (* SL_STATUS_INVALID_PARAMETER *)
  | TableOverrun.          (* days_in_month indexed with 12 *)

(** Years and leap days before day [days]: the two-step approximation. *)
Definition full_years (days : Z) : Z * Z :=
  let full_year := u8 (days / TIME_DAY_PER_YEAR) in
  if 2 <? full_year then
    let leap_day := u8 (TIME_LEAP_DAYS_UP_TO_YEAR full_year) in
    let full_year := u8 ((days - leap_day) / TIME_DAY_PER_YEAR) in
    (full_year, u8 (TIME_LEAP_DAYS_UP_TO_YEAR full_year))
  else (full_year, 0).

Definition sl_sleeptimer_convert_time_to_date (time time_zone : Z) : conversion :=
  if negb (is_valid_time time TIME_FORMAT_UNIX time_zone) then Rejected else
  let time := u32 (time + time_zone) in
  let sec := time mod 60 in
  let time := time / 60 in
  let min := time mod 60 in
  let time := time / 60 in
  let hour := time mod 24 in
  let days := time / 24 in
  let '(full_year, leap_day) := full_years days in
  let year := u16 (TIME_NTP_UNIX_EPOCH_DIFF + full_year) in
  let day := u32 (days - leap_day - TIME_DAY_PER_YEAR * full_year) in
  match month_loop (days_in_month (is_leap_year year)) day 0 with
  | None => TableOverrun
  | Some (rest, month) =>
      Converted (mk_date sec min hour (u8 (rest + 1)) month year
                         (compute_day_of_week days) (u16 (day + 1)) time_zone)
  end.

Definition month_days_before (leap : bool) (month : Z) : Z :=
  foldr Z.add 0 (take (Z.to_nat month) (days_in_month leap)).

Definition sl_sleeptimer_convert_date_to_time (d : date) : sl_status * option Z :=
  if negb (is_valid_date d) then (SL_STATUS_INVALID_PARAMETER, None) else
  let full_year := u8 (d_year d - TIME_NTP_UNIX_EPOCH_DIFF) in
  let time := u32 (full_year * TIME_SEC_PER_YEAR) in
  let leap_days := if 2 <? full_year then u8 (TIME_LEAP_DAYS_UP_TO_YEAR full_year) else 0 in
  let month_days := u16 (leap_days + month_days_before (is_leap_year (d_year d)) (u8 (d_month d))
                         + (d_month_day d - 1)) in
  let time := u32 (time + month_days * TIME_SEC_PER_DAY) in
  let time := u32 (time + (3600 * d_hour d + 60 * d_min d + d_sec d)) in
  (SL_STATUS_OK, Some (u32 (time - d_time_zone d))).

(** ** The clock itself *)

(** [second_count], [overflow_tick_rest] and [tz_offset] of the driver; the
    hardware counter and its frequency are inputs of the operations. *)
Record clock := mk_clock { second_count : Z; overflow_tick_rest : Z; tz_offset : Z }.

Definition sl_sleeptimer_get_time (cnt freq : Z) (c : clock) : Z :=
  let time := u32 (second_count c + cnt / freq) in
  if freq <=? u32 (cnt mod freq + overflow_tick_rest c) then u32 (time + 1) else time.

Definition sl_sleeptimer_set_time (cnt freq time : Z) (c : clock) : sl_status * clock :=
  if negb (is_valid_time time TIME_FORMAT_UNIX 0) then (SL_STATUS_INVALID_PARAMETER, c) else
  let counter_sec := cnt / freq in
  if counter_sec <=? time
  then (SL_STATUS_OK, mk_clock (time - counter_sec) 0 (tz_offset c))
  else (SL_STATUS_INVALID_PARAMETER, mk_clock time 0 (tz_offset c)).

Definition sl_sleeptimer_get_datetime (cnt freq : Z) (c : clock) : conversion :=
  sl_sleeptimer_convert_time_to_date (sl_sleeptimer_get_time cnt freq c) (tz_offset c).

Definition sl_sleeptimer_get_tz (c : clock) : Z := tz_offset c.
Definition sl_sleeptimer_set_tz (offset : Z) (c : clock) : clock :=
  mk_clock (second_count c) (overflow_tick_rest c) offset.

Definition sl_sleeptimer_set_datetime (cnt freq : Z) (d : date) (c : clock) : sl_status * clock :=
  if negb (is_valid_date d) then (SL_STATUS_INVALID_PARAMETER, c) else
  match sl_sleeptimer_convert_date_to_time d with
  | (SL_STATUS_OK, Some time) =>
      match sl_sleeptimer_set_time cnt freq time c with
      | (SL_STATUS_OK, c) => (SL_STATUS_OK, sl_sleeptimer_set_tz (d_time_zone d) c)
      | (e, c) => (e, c)
      end
  | (e, _) => (e, c)
  end.

Definition compute_day_of_year (month day : Z) (leap : bool) : Z :=
  u16 (month_days_before leap month + day).

(** The leap days are computed in unsigned arithmetic here. *)
Definition leap_days_unsigned (year : Z) : Z := u32 (u32 (year - 3) / 4 + 1).

Definition sl_sleeptimer_build_datetime (year month month_day hour min sec tz : Z) : sl_status * date :=
  let year := if year <? 1900 then year else u16 (year - 1900) in
  let d := mk_date sec min hour month_day month year 0 0 tz in
  if negb (is_valid_date d) then (SL_STATUS_INVALID_PARAMETER, d) else
  let day_of_year := compute_day_of_year month month_day (is_leap_year year) in
  let n := u32 (year - TIME_NTP_UNIX_EPOCH_DIFF) in
  let day_of_week := compute_day_of_week
    (u32 (u32 (n * TIME_DAY_PER_YEAR) + leap_days_unsigned n + day_of_year - 1)) in
  (SL_STATUS_OK, mk_date sec min hour month_day month year day_of_week day_of_year tz).

Definition TIME_ZIGBEE_EPOCH_OFFSET_SEC : Z := (30 * 365 + 7) * TIME_SEC_PER_DAY.

Definition sl_sleeptimer_convert_unix_time_to_zigbee (time : Z) : sl_status * option Z :=
  let temp := u32 (time - TIME_ZIGBEE_EPOCH_OFFSET_SEC) in
  if negb (is_valid_time temp TIME_FORMAT_ZIGBEE_CLUSTER 0) then (SL_STATUS_INVALID_PARAMETER, None)
  else (SL_STATUS_OK, Some temp).

Definition sl_sleeptimer_convert_zigbee_time_to_unix (zigbee_time : Z) : sl_status * option Z :=
  let temp := u32 (zigbee_time + TIME_ZIGBEE_EPOCH_OFFSET_SEC) in
  if negb (is_valid_time temp TIME_FORMAT_UNIX 0) then (SL_STATUS_INVALID_PARAMETER, None)
  else (SL_STATUS_OK, Some temp).

(** ** The Gregorian calendar, as reference *)

Definition gregorian_leap (y : Z) : bool :=
  (y mod 4 =? 0) && (negb (y mod 100 =? 0) || (y mod 400 =? 0)).
Definition leap_years_through (y : Z) : Z := y / 4 - y / 100 + y / 400.

(** Days from 1 January 1970 to a Gregorian date (month from 0, day from 1). *)
Definition gregorian_day (y m d : Z) : Z :=
  365 * (y - 1970) + (leap_years_through (y - 1) - leap_years_through 1969)
  + month_days_before (gregorian_leap y) m + (d - 1).

Definition gregorian_date (y m d : Z) : bool :=
  (0 <=? m) && (m <=? 11) && (1 <=? d)
  && (d <=? default 0 (days_in_month (gregorian_leap y) !! Z.to_nat m)).

(** ** Lemmas *)

Definition sum_list (l : list Z) : Z := foldr Z.add 0 l.

Lemma month_loop_Some table : forall t m0 r m,
  0 <= t -> month_loop table t m0 = Some (r, m) ->
  exists k d, m = m0 + Z.of_nat k /\ table !! k = Some d /\ 0 <= r < d
              /\ t = sum_list (take k table) + r.
Proof.
  unfold sum_list.
  induction table as [|d table IH]; simpl; intros t m0 r m Ht H; [discriminate |].
  destruct (Z.leb_spec d t) as [Hle | Hlt].
  - apply IH in H as (k & d' & -> & Hk & Hr & Hsum); [| lia].
    exists (S k), d'. simpl. repeat split; try done; lia.
  - injection H as <- <-. exists O, d. simpl. repeat split; try done; lia.
Qed.

Lemma month_loop_total table : forall t m0,
  0 <= t < sum_list table -> is_Some (month_loop table t m0).
Proof.
  unfold sum_list. induction table as [|d table IH]; simpl; intros t m0 H; [lia |].
  destruct (Z.leb_spec d t); [apply IH; lia | eauto].
Qed.

Lemma days_in_month_sum leap : sum_list (days_in_month leap) = if leap then 366 else 365.
Proof. by destruct leap. Qed.

Lemma full_years_spec days :
  0 <= days <= 24855 -> days <> 1095 ->
  let '(y, l) := full_years days in
  0 <= y <= 68 /\ l = (y + 1) / 4 /\ 365 * y + l <= days < 365 * (y + 1) + (y + 2) / 4.
Proof.
  intros Hd Hne. unfold full_years, TIME_LEAP_DAYS_UP_TO_YEAR, TIME_DAY_PER_YEAR, u8.
  rewrite (Z.mod_small (days / 365)) by divlia.
  destruct (Z.ltb_spec 2 (days / 365)) as [Hgt | Hle]; [| divlia].
  rewrite (Z.quot_div_nonneg (days / 365 - 3)) by divlia.
  rewrite (Z.mod_small ((days / 365 - 3) / 4 + 1)) by divlia.
  set (fy := (days - ((days / 365 - 3) / 4 + 1)) / 365).
  assert (3 <= fy <= 68) by (subst fy; divlia).
  rewrite (Z.mod_small fy) by divlia. rewrite (Z.quot_div_nonneg (fy - 3)) by divlia.
  rewrite Z.mod_small by divlia. subst fy. divlia.
Qed.

Lemma is_leap_year_1900 y :
  0 <= y <= 68 -> is_leap_year (70 + y) = (y mod 4 =? 2) && negb (y =? 30).
Proof.
  intros Hy. unfold is_leap_year. apply eq_true_iff_eq.
  rewrite !andb_true_iff, orb_true_iff, !negb_true_iff, !Z.eqb_eq, !Z.eqb_neq. divlia.
Qed.

Lemma gregorian_leap_1970 y :
  0 <= y <= 68 -> gregorian_leap (1970 + y) = (y mod 4 =? 2).
Proof.
  intros Hy. unfold gregorian_leap. apply eq_true_iff_eq.
  rewrite !andb_true_iff, orb_true_iff, !negb_true_iff, !Z.eqb_eq, !Z.eqb_neq. divlia.
Qed.

Lemma gregorian_year_start y :
  0 <= y <= 68 -> leap_years_through (1970 + y - 1) - leap_years_through 1969 = (y + 1) / 4.
Proof. intros Hy. unfold leap_years_through. divlia. Qed.

(** The two days whose conversion leaves the calendar: 31 December 1972, where
    the leap-day count is read before the year is settled, and 31 December
    2000, the 366th day of a year the code takes for a common one. *)
Definition convertible (days : Z) : Prop := days <> 1095 /\ days <> 11322.

(** What a successful conversion of day [days] produces, in terms of the
    number [y] of full years since 1970 and the month index [k]. *)
Definition converted_as (t : Z) (d : date) : Prop :=
  exists y k dim r,
    0 <= y <= 68 /\ (k < 12)%nat
    /\ days_in_month (is_leap_year (70 + y)) !! k = Some dim /\ 0 <= r < dim
    /\ t / TIME_SEC_PER_DAY = 365 * y + (y + 1) / 4
          + month_days_before (is_leap_year (70 + y)) (Z.of_nat k) + r
    /\ d_year d = 70 + y /\ d_month d = Z.of_nat k /\ d_month_day d = r + 1
    /\ d_sec d = t mod 60 /\ d_min d = t / 60 mod 60 /\ d_hour d = t / 3600 mod 24
    /\ d_time_zone d = 0.

Lemma dim_le_31 leap k dim : days_in_month leap !! k = Some dim -> dim <= 31.
Proof. do 12 (destruct k as [|k]; [destruct leap; simpl; intros [= <-]; lia |]). done. Qed.

Lemma day_of_year_range leap k dim r :
  days_in_month leap !! k = Some dim -> 0 <= r < dim ->
  0 <= month_days_before leap (Z.of_nat k) + r < 366.
Proof.
  unfold month_days_before. rewrite Nat2Z.id. intros Hk Hr.
  do 12 (destruct k as [|k]; [destruct leap; injection Hk as <-; simpl; lia |]). done.
Qed.

Lemma is_valid_time_unix t :
  0 <= t -> is_valid_time t TIME_FORMAT_UNIX 0 = (t <=? TIME_UNIX_TIMESTAMP_MAX).
Proof.
  intros Ht. unfold is_valid_time, TIME_UNIX_TIMESTAMP_MAX, UINT32_MAX.
  change (0 <? 0) with false. change (0 <=? 0) with true. cbn [andb orb].
  destruct (Z.ltb_spec 0x7FFFFFFF t); lia.
Qed.

(** The day of the year always finds its month in the table. *)
Lemma day_in_table days y :
  0 <= y <= 68 -> 365 * y + (y + 1) / 4 <= days < 365 * (y + 1) + (y + 2) / 4 -> days <> 11322 ->
  0 <= days - (y + 1) / 4 - 365 * y < sum_list (days_in_month (is_leap_year (70 + y))).
Proof.
  intros Hy Hr Hne. rewrite days_in_month_sum, is_leap_year_1900 by done.
  assert ((y + 2) / 4 = (y + 1) / 4 + if y mod 4 =? 2 then 1 else 0) as E
    by (destruct (Z.eqb_spec (y mod 4) 2); divlia).
  destruct (y mod 4 =? 2); simpl; [destruct (Z.eqb_spec y 30) as [-> |]; simpl |]; try lia.
  change ((30 + 1) / 4) with 7 in *. lia.
Qed.

(** In a common year, the first 59 days are January and February. *)
Lemma early_month k dim r :
  days_in_month false !! k = Some dim -> 0 <= r < dim ->
  month_days_before false (Z.of_nat k) + r < 59 -> (k < 2)%nat.
Proof.
  unfold month_days_before. rewrite Nat2Z.id.
  do 2 (destruct k as [|k]; [lia |]). intros Hk Hr.
  do 10 (destruct k as [|k]; [simpl; lia |]). done.
Qed.

Lemma convert_time_to_date_spec t :
  0 <= t <= TIME_UNIX_TIMESTAMP_MAX -> convertible (t / TIME_SEC_PER_DAY) ->
  exists d, sl_sleeptimer_convert_time_to_date t 0 = Converted d /\ converted_as t d.
Proof.
  unfold TIME_UNIX_TIMESTAMP_MAX, TIME_SEC_PER_DAY, convertible. intros Ht [Hne1 Hne2].
  unfold sl_sleeptimer_convert_time_to_date. rewrite is_valid_time_unix by lia.
  rewrite (proj2 (Z.leb_le _ _)) by (unfold TIME_UNIX_TIMESTAMP_MAX; lia). cbn [negb]. cbv zeta.
  rewrite Z.add_0_r, u32_id by (unfold is_u32; lia).
  rewrite !Z.div_div by lia. change (60 * (60 * 24)) with 86400. change (60 * 60 * 24) with 86400 in *.
  change (60 * 60) with 3600. set (days := t / 86400) in *.
  assert (0 <= days <= 24855) as Hdays by (subst days; divlia).
  pose proof (full_years_spec days Hdays Hne1) as Hfy.
  destruct (full_years days) as [y l]. destruct Hfy as (Hy & -> & Hrange).
  rewrite (u16_id (TIME_NTP_UNIX_EPOCH_DIFF + y)) by (unfold is_u16, TIME_NTP_UNIX_EPOCH_DIFF; lia).
  change (TIME_NTP_UNIX_EPOCH_DIFF + y) with (70 + y). unfold TIME_DAY_PER_YEAR.
  pose proof (day_in_table days y Hy Hrange Hne2) as Hday.
  assert (0 <= days - (y + 1) / 4 - 365 * y < 366) as Hday366.
  { rewrite days_in_month_sum in Hday. destruct (is_leap_year (70 + y)); lia. }
  rewrite (u32_id (days - _ - _)) by (unfold is_u32; lia).
  set (day := days - (y + 1) / 4 - 365 * y).
  destruct (month_loop_total (days_in_month (is_leap_year (70 + y))) day 0) as [[r m] Hloop].
  { by apply day_in_table. }
  rewrite Hloop. eexists. split; [done |].
  apply month_loop_Some in Hloop as (k & dim & -> & Hk & Hr & Hsum); [| lia].
  exists y, k, dim, r. pose proof (dim_le_31 _ _ _ Hk). simpl.
  rewrite u8_id by (unfold is_u8; lia). unfold month_days_before, sum_list in *. rewrite Nat2Z.id.
  apply lookup_lt_Some in Hk as Hk12. change (t / TIME_SEC_PER_DAY) with days.
  simpl in Hk12. repeat split; try done; lia.
Qed.

(** C29: for every Unix time of the 31-bit range outside two spans of days
    (31 December 1972, and 29 February to 31 December 2000), the calendar date
    computed by [sl_sleeptimer_convert_time_to_date] exists and is the
    Gregorian date of that day, with the time of day as hours, minutes and
    seconds. *)
Theorem convert_time_to_date_gregorian t :
  0 <= t <= TIME_UNIX_TIMESTAMP_MAX ->
  t / TIME_SEC_PER_DAY <> 1095 ->
  ~ (11016 <= t / TIME_SEC_PER_DAY <= 11322) ->
  exists d, sl_sleeptimer_convert_time_to_date t 0 = Converted d
    /\ gregorian_date (d_year d + 1900) (d_month d) (d_month_day d) = true
    /\ gregorian_day (d_year d + 1900) (d_month d) (d_month_day d) = t / TIME_SEC_PER_DAY
    /\ t mod TIME_SEC_PER_DAY = 3600 * d_hour d + 60 * d_min d + d_sec d.
Proof.
  intros Ht H1 H2. destruct (convert_time_to_date_spec t) as (d & Hd & Has);
    [done | unfold convertible; lia |].
  exists d. split; [done |].
  destruct Has as (y & k & dim & r & Hy & Hk12 & Hk & Hr & Hdays & Hyr & Hm & Hmd & Hs & Hmi & Hh & _).
  assert (days_in_month (is_leap_year (70 + y)) = days_in_month (gregorian_leap (1970 + y))
          \/ y = 30) as Hleap.
  { rewrite is_leap_year_1900, gregorian_leap_1970 by done.
    destruct (Z.eqb_spec y 30); [by right | left; by rewrite andb_true_r]. }
  pose proof (day_of_year_range _ _ _ _ Hk Hr) as Hdoy.
  unfold gregorian_date, gregorian_day. rewrite Hyr, Hm, Hmd, Nat2Z.id.
  replace (70 + y + 1900) with (1970 + y) by lia. rewrite gregorian_year_start by done.
  assert (days_in_month (gregorian_leap (1970 + y)) !! k = Some dim \/ y = 30 /\ (k < 2)%nat)
    as Htab.
  { destruct Hleap as [<- | ->]; [by left | right; split; [done |]].
    change (is_leap_year (70 + 30)) with false in *. apply (early_month _ _ _ Hk Hr).
    change ((30 + 1) / 4) with 7 in Hdays. lia. }
  split_and!.
  3: { rewrite Hs, Hmi, Hh. unfold TIME_SEC_PER_DAY. clear. divlia. }
  - destruct Htab as [-> | [-> Hk2]]; [simpl; lia |].
    destruct k as [|[|k]]; [| | lia]; injection Hk as <-; simpl; lia.
  - destruct Htab as [Htab | [-> Hk2]].
    + destruct Hleap as [E | ->]; [unfold month_days_before in *; rewrite <- E; lia |].
      change (is_leap_year (70 + 30)) with false in *. change ((30 + 1) / 4) with 7 in *.
      assert (k < 2)%nat as Hk2 by (apply (early_month _ _ _ Hk Hr); lia).
      destruct k as [|[|k]]; [| | lia]; unfold month_days_before in *; simpl in *; lia.
    + destruct k as [|[|k]]; [| | lia]; unfold month_days_before in *; simpl in *; lia.
Qed.

Lemma convert_time_to_date_gregorian_witness :
  exists d, sl_sleeptimer_convert_time_to_date 1686500000 0 = Converted d
    /\ gregorian_day (d_year d + 1900) (d_month d) (d_month_day d) = 1686500000 / TIME_SEC_PER_DAY.
Proof.
  destruct (convert_time_to_date_gregorian 1686500000) as (d & H1 & _ & H2 & _);
    [unfold TIME_UNIX_TIMESTAMP_MAX; lia | vm_compute; discriminate | vm_compute; intuition discriminate |].
  exists d. by split.
Defined.

Lemma converted_valid_date t d :
  converted_as t d -> d_year d < TIME_UNIX_YEAR_MAX -> is_valid_date d = true.
Proof.
  intros (y & k & dim & r & Hy & Hk12 & Hk & Hr & _ & Hyr & Hm & Hmd & Hs & Hmi & Hh & _) Hlt.
  unfold is_valid_date. rewrite Hyr, Hm, Hmd, Hs, Hmi, Hh, Nat2Z.id, Hk in *.
  unfold TIME_UNIX_YEAR_MAX in *. simpl default.
  pose proof (Z.mod_pos_bound t 60). pose proof (Z.mod_pos_bound (t / 60) 60).
  pose proof (Z.mod_pos_bound (t / 3600) 24).
  rewrite (proj2 (Z.eqb_neq (70 + y) _)), andb_true_r by lia. lia.
Qed.

(** The accumulated additions of [sl_sleeptimer_convert_date_to_time] do not
    wrap when the total fits. *)
Lemma u32_accumulate a b c :
  0 <= a -> 0 <= b -> 0 <= c -> a + b + c < 2 ^ 32 ->
  u32 (u32 (u32 (u32 a + b) + c)) = a + b + c.
Proof.
  intros Ha Hb Hc Hs. rewrite (u32_id a) by (unfold is_u32; lia).
  rewrite (u32_id (a + b)) by (unfold is_u32; lia). by rewrite !(u32_id (a + b + c)) by (unfold is_u32; lia).
Qed.

(** Converting a Unix time to a calendar date and back is the identity for
    every time before 2038 except within 31 December 1972 and 31 December
    2000. *)
Lemma convert_date_roundtrip t d :
  0 <= t < 24837 * TIME_SEC_PER_DAY -> convertible (t / TIME_SEC_PER_DAY) ->
  sl_sleeptimer_convert_time_to_date t 0 = Converted d ->
  sl_sleeptimer_convert_date_to_time d = (SL_STATUS_OK, Some t).
Proof.
  intros Ht Hc Hconv.
  destruct (convert_time_to_date_spec t) as (d' & Hd' & Has);
    [unfold TIME_UNIX_TIMESTAMP_MAX, TIME_SEC_PER_DAY in *; lia | done |].
  rewrite Hconv in Hd'. injection Hd' as <-.
  pose proof Has as (y & k & dim & r & Hy & Hk12 & Hk & Hr & Hdays & Hyr & Hm & Hmd & Hs & Hmi & Hh & Htz).
  pose proof (day_of_year_range _ _ _ _ Hk Hr) as Hdoy.
  assert (t / TIME_SEC_PER_DAY < 24837) as Hlt by (apply Z.div_lt_upper_bound; [done | lia]).
  assert (y <= 67) as Hy67 by (clear - Hlt Hdays Hdoy Hy; divlia).
  unfold sl_sleeptimer_convert_date_to_time.
  rewrite (converted_valid_date t) by (done || (unfold TIME_UNIX_YEAR_MAX; lia)). cbn [negb].
  rewrite Hyr, Hm, Hmd, Htz, Z.sub_0_r. unfold TIME_NTP_UNIX_EPOCH_DIFF.
  rewrite (u8_id (70 + y - _)), (u8_id (Z.of_nat k)) by (unfold is_u8; lia).
  replace (70 + y - (1970 - 1900)) with y by lia.
  replace (if 2 <? y then u8 (TIME_LEAP_DAYS_UP_TO_YEAR y) else 0) with ((y + 1) / 4).
  2: { destruct (Z.ltb_spec 2 y) as [H2 | H2]; [| clear - H2 Hy; divlia].
       unfold TIME_LEAP_DAYS_UP_TO_YEAR. rewrite Z.quot_div_nonneg, u8_id by (unfold is_u8; clear - H2 Hy; divlia).
       clear - H2 Hy; divlia. }
  set (before := month_days_before _ _) in *.
  assert (0 <= (y + 1) / 4 <= 18) as Hl by (clear - Hy; divlia).
  rewrite (u16_id (_ + _ + _)) by (unfold is_u16; lia).
  assert (t = t / TIME_SEC_PER_DAY * TIME_SEC_PER_DAY + (3600 * d_hour d + 60 * d_min d + d_sec d)) as Et.
  { rewrite Hs, Hmi, Hh. unfold TIME_SEC_PER_DAY. clear. divlia. }
  assert (0 <= 3600 * d_hour d + 60 * d_min d + d_sec d < TIME_SEC_PER_DAY) as Htod.
  { rewrite Hs, Hmi, Hh. unfold TIME_SEC_PER_DAY. clear. divlia. }
  unfold TIME_SEC_PER_YEAR, TIME_SEC_PER_DAY, TIME_DAY_PER_YEAR in *.
  rewrite u32_accumulate by lia.
  do 2 f_equal. rewrite Et, Hdays. lia.
Qed.

Lemma convert_date_roundtrip_witness :
  sl_sleeptimer_convert_date_to_time (mk_date 20 13 16 11 5 123 0 162 0) = (SL_STATUS_OK, Some 1686500000).
Proof.
  apply (convert_date_roundtrip 1686500000);
    [unfold TIME_SEC_PER_DAY; lia | unfold convertible; vm_compute; split; discriminate | reflexivity].
Defined.

(** NTP and Unix time convert into each other without loss.  A Unix time
    up to the NTP era boundary of 7 February 2036 converts to an NTP time
    which converts back to it; beyond it the conversion reports
    [SL_STATUS_INVALID_PARAMETER] instead of wrapping silently. *)
Lemma ntp_unix_roundtrip t :
  0 <= t <= TIME_UNIX_TIMESTAMP_MAX ->
  (if t + TIME_NTP_EPOCH_OFFSET_SEC <=? UINT32_MAX
   then exists n, sl_sleeptimer_convert_unix_time_to_ntp t = (SL_STATUS_OK, Some n)
        /\ n = t + TIME_NTP_EPOCH_OFFSET_SEC
        /\ sl_sleeptimer_convert_ntp_time_to_unix n = (SL_STATUS_OK, Some t)
   else sl_sleeptimer_convert_unix_time_to_ntp t = (SL_STATUS_INVALID_PARAMETER, None)).
Proof.
  intros Ht. unfold sl_sleeptimer_convert_unix_time_to_ntp, sl_sleeptimer_convert_ntp_time_to_unix.
  unfold TIME_UNIX_TIMESTAMP_MAX in Ht.
  assert (TIME_NTP_EPOCH_OFFSET_SEC = 2208988800) as Eoff by reflexivity.
  destruct (Z.leb_spec (t + TIME_NTP_EPOCH_OFFSET_SEC) UINT32_MAX) as [Hle | Hgt]; rewrite Eoff in *;
    unfold UINT32_MAX in *.
  - exists (t + 2208988800). rewrite u32_id by (unfold is_u32; lia).
    replace (t + 2208988800 - 2208988800) with t by lia. rewrite u32_id by (unfold is_u32; lia).
    rewrite is_valid_time_unix by lia. unfold is_valid_time, TIME_UNIX_TIMESTAMP_MAX.
    rewrite Eoff, !(proj2 (Z.leb_le _ _)) by (unfold UINT32_MAX; lia). done.
  - unfold is_valid_time. rewrite Eoff.
    assert (u32 (t + 2208988800) = t + 2208988800 - 2 ^ 32) as ->.
    { symmetry. apply Z.mod_unique with 1; lia. }
    by rewrite (proj2 (Z.leb_gt _ _)) by lia.
Qed.

Lemma ntp_unix_roundtrip_witness :
  exists n, sl_sleeptimer_convert_unix_time_to_ntp 1686500000 = (SL_STATUS_OK, Some n)
    /\ sl_sleeptimer_convert_ntp_time_to_unix n = (SL_STATUS_OK, Some 1686500000).
Proof.
  destruct (ntp_unix_roundtrip 1686500000) as (n & H1 & _ & H2); [vm_compute; split; discriminate |].
  exists n. by split.
Defined.

(** Reading the clock right after setting it, at the same counter value,
    returns the time set. *)
Lemma set_get_time cnt freq time c :
  0 < freq <= UINT32_MAX -> 0 <= cnt -> 0 <= time <= TIME_UNIX_TIMESTAMP_MAX -> cnt / freq <= time ->
  exists c', sl_sleeptimer_set_time cnt freq time c = (SL_STATUS_OK, c')
             /\ sl_sleeptimer_get_time cnt freq c' = time.
Proof.
  unfold UINT32_MAX. intros Hf Hc Ht Hcs. unfold sl_sleeptimer_set_time.
  rewrite is_valid_time_unix, (proj2 (Z.leb_le time _)), (proj2 (Z.leb_le (cnt / freq) _)) by lia.
  eexists. split; [done |]. unfold sl_sleeptimer_get_time. simpl second_count. simpl overflow_tick_rest.
  pose proof (Z.mod_pos_bound cnt freq). unfold TIME_UNIX_TIMESTAMP_MAX in *.
  rewrite Z.sub_add, Z.add_0_r, (u32_id time), (u32_id (cnt mod freq)) by (unfold is_u32; lia).
  by rewrite (proj2 (Z.leb_gt _ _)) by lia.
Qed.

(** Setting the clock by a date makes it read that date's time. *)
Lemma set_datetime_get_time cnt freq d c c' time :
  0 < freq <= UINT32_MAX -> 0 <= cnt ->
  sl_sleeptimer_convert_date_to_time d = (SL_STATUS_OK, Some time) -> 0 <= time ->
  sl_sleeptimer_set_datetime cnt freq d c = (SL_STATUS_OK, c') ->
  sl_sleeptimer_get_time cnt freq c' = time /\ sl_sleeptimer_get_tz c' = d_time_zone d.
Proof.
  intros Hf Hc Hd Ht. unfold sl_sleeptimer_set_datetime. destruct (negb _); [done |]. rewrite Hd.
  unfold sl_sleeptimer_set_time. rewrite is_valid_time_unix by done.
  destruct (Z.leb_spec time TIME_UNIX_TIMESTAMP_MAX) as [Hmx |]; simpl negb; cbv iota; [|done].
  destruct (Z.leb_spec (cnt / freq) time) as [Hle |]; [|done]. intros [= <-]. split; [|done].
  destruct (set_get_time cnt freq time c Hf Hc ltac:(done) Hle) as (c1 & H1 & H2).
  unfold sl_sleeptimer_set_time in H1. rewrite is_valid_time_unix in H1 by done.
  rewrite (proj2 (Z.leb_le time _)), (proj2 (Z.leb_le (cnt / freq) _)) in H1 by done.
  injection H1 as <-. exact H2.
Qed.

(** Unix and Zigbee time, mutually inverse where the latter exists. *)
Lemma zigbee_unix_roundtrip t :
  TIME_ZIGBEE_EPOCH_OFFSET_SEC <= t <= TIME_UNIX_TIMESTAMP_MAX ->
  exists z, sl_sleeptimer_convert_unix_time_to_zigbee t = (SL_STATUS_OK, Some z) /\
            sl_sleeptimer_convert_zigbee_time_to_unix z = (SL_STATUS_OK, Some t).
Proof.
  unfold TIME_ZIGBEE_EPOCH_OFFSET_SEC, TIME_UNIX_TIMESTAMP_MAX. intros Ht.
  exists (t - TIME_ZIGBEE_EPOCH_OFFSET_SEC).
  unfold sl_sleeptimer_convert_unix_time_to_zigbee, sl_sleeptimer_convert_zigbee_time_to_unix.
  unfold TIME_ZIGBEE_EPOCH_OFFSET_SEC, TIME_SEC_PER_DAY in *.
  rewrite u32_id, Z.sub_add, u32_id by (unfold is_u32; lia). split.
  - unfold is_valid_time. change (0 <? 0) with false. change (0 <=? 0) with true. cbn [andb orb].
    rewrite !(proj2 (Z.leb_le _ _)) by (unfold TIME_UNIX_TIMESTAMP_MAX, TIME_SEC_PER_DAY, UINT32_MAX; lia).
    done.
  - rewrite is_valid_time_unix by lia. unfold TIME_UNIX_TIMESTAMP_MAX.
    destruct (Z.leb_spec t 0x7FFFFFFF); [done | lia].
Qed.

(** 1 January 1970 was a Thursday (day 4); [sl_sleeptimer_build_datetime] says
    Friday, because its count of leap days wraps around before 1973. *)
Example build_datetime_1970 :
  match sl_sleeptimer_build_datetime 1970 0 1 0 0 0 0, sl_sleeptimer_convert_time_to_date 0 0 with
  | (SL_STATUS_OK, d), Converted d' => d_day_of_week d = 5 /\ d_day_of_week d' = 4
  | _, _ => False
  end.
Proof. vm_compute. split; reflexivity. Qed.

(** From 1973 on the two agree; for example on 14 July 2023. *)
Example build_datetime_2023 :
  match sl_sleeptimer_build_datetime 2023 6 14 12 0 0 0, sl_sleeptimer_convert_time_to_date 1689336000 0 with
  | (SL_STATUS_OK, d), Converted d' => d = d'
  | _, _ => False
  end.
Proof. vm_compute. reflexivity. Qed.

End Sleeptimer.
