(* ===== verification/SleepTimers.v ===== *)
(** * Software timers: [system/src/gecko_sdk/service/sleeptimer/src/sl_sleeptimer.c]

    The timer queue of the clock driver: a list in which each timer stores only
    its delay after the timer before it, one hardware comparator armed for the
    head, and two interrupts (counter overflow, compare match).  The chain of
    handles that starts at [timer_head] is the list [timers]; a handle is
    identified by its address [id].  The hardware counter is part of the state:
    it advances between operations, while callbacks run, and before each of the
    compare interrupt's readings of it; the operations that programs call see it
    as one value.  What a callback does and how much time passes before a
    reading are parameters ([Callbacks]); theorems about expiry assume of them
    only what they say.

    Theorems: the delta list refines a table of absolute deadlines, for every
    operation and across counter wrap-around; the compare interrupt serves
    exactly the timers that come due while it runs, by priority, and arms the
    comparator for the next; periodic timers keep their rhythm, up to the time
    that passes inside the interrupt; the wall clock loses no tick at an
    overflow. *)

From S2P Require Import Prelude Sleeptimer.

Module SleepTimers.
Import Sleeptimer.

(** ** Data *)

Record timer := mk_timer {
  id : Z; delta : Z; priority : Z; option_flags : Z; timeout_periodic : Z;
  timeout_expected_tc : Z; has_callback : bool }.

Definition set_delta (d : Z) (t : timer) : timer :=
  mk_timer (id t) d (priority t) (option_flags t) (timeout_periodic t) (timeout_expected_tc t)
           (has_callback t).
Definition set_expected (e : Z) (t : timer) : timer :=
  mk_timer (id t) (delta t) (priority t) (option_flags t) (timeout_periodic t) e (has_callback t).

Inductive status :=
  | OK | NULL_POINTER | NOT_READY | INVALID_STATE | INVALID_PARAMETER | INVALID_CONFIGURATION | EMPTY.
#[export] Instance status_eq_dec : EqDecision status.
Proof. solve_decision. Defined.

Definition SLEEPTIMER_EVENT_OF : Z := 1.
Definition SLEEPTIMER_EVENT_COMP : Z := 2.
Definition POWER_MANAGER_EARLY_WAKEUP_TIMER_FLAG : Z := 2.

(** The comparator: its interrupt enabled, the value it waits for, and whether
    the interrupt was raised by hand. *)
Record comparator := mk_comp { comp_enabled : bool; comp_value : Z; comp_forced : bool }.

Record sleeptimer := mk_st {
  counter : Z;                        (* the hardware counter *)
  timers : list timer;                (* from [timer_head] *)
  last_delta_update_count : Z;
  overflow_counter : Z;
  clk : clock;
  timer_frequency : Z;
  comp : comparator;
  next_is_power_manager : bool;
  sleep_on_isr_exit : bool }.

Definition set_counter (c : Z) (s : sleeptimer) : sleeptimer :=
  mk_st c (timers s) (last_delta_update_count s) (overflow_counter s) (clk s) (timer_frequency s)
        (comp s) (next_is_power_manager s) (sleep_on_isr_exit s).
Definition set_timers (l : list timer) (s : sleeptimer) : sleeptimer :=
  mk_st (counter s) l (last_delta_update_count s) (overflow_counter s) (clk s) (timer_frequency s)
        (comp s) (next_is_power_manager s) (sleep_on_isr_exit s).
Definition set_last (c : Z) (s : sleeptimer) : sleeptimer :=
  mk_st (counter s) (timers s) c (overflow_counter s) (clk s) (timer_frequency s)
        (comp s) (next_is_power_manager s) (sleep_on_isr_exit s).
Definition set_comp (c : comparator) (s : sleeptimer) : sleeptimer :=
  mk_st (counter s) (timers s) (last_delta_update_count s) (overflow_counter s) (clk s)
        (timer_frequency s) c (next_is_power_manager s) (sleep_on_isr_exit s).
Definition set_next_pm (b : bool) (s : sleeptimer) : sleeptimer :=
  mk_st (counter s) (timers s) (last_delta_update_count s) (overflow_counter s) (clk s)
        (timer_frequency s) (comp s) b (sleep_on_isr_exit s).
Definition set_sleep (b : bool) (s : sleeptimer) : sleeptimer :=
  mk_st (counter s) (timers s) (last_delta_update_count s) (overflow_counter s) (clk s)
        (timer_frequency s) (comp s) (next_is_power_manager s) b.
Definition set_clock (o : Z) (c : clock) (s : sleeptimer) : sleeptimer :=
  mk_st (counter s) (timers s) (last_delta_update_count s) o c (timer_frequency s)
        (comp s) (next_is_power_manager s) (sleep_on_isr_exit s).

(** ** The delta list *)

(** The loop of [delta_list_insert_timer]: pass every timer that expires no
    later, then link the handle and shorten the delay of the next one. *)
Fixpoint insert_after (h : timer) (local_handle_delta : Z) (l : list timer) : list timer :=
  match l with
  | [] => [set_delta local_handle_delta h]
  | current :: rest =>
      if (delta current <=? local_handle_delta) || (delta current =? 0)
         || ((u32 (local_handle_delta - delta current) =? 0) && (priority current <? priority h))
      then current :: insert_after h (u32 (local_handle_delta - delta current)) rest
      else set_delta local_handle_delta h
           :: set_delta (u32 (delta current - local_handle_delta)) current :: rest
  end.

Definition delta_list_insert_timer (h : timer) (timeout : Z) (s : sleeptimer) : sleeptimer :=
  set_timers (insert_after h timeout (timers s)) s.

(** Unlink the handle and give its delay to the next timer; [None] when it is
    not in the list. *)
Fixpoint remove_from (handle : Z) (l : list timer) : option (list timer) :=
  match l with
  | [] => None
  | current :: rest =>
      if id current =? handle
      then match rest with
           | [] => Some []
           | next :: rest => Some (set_delta (u32 (delta next + delta current)) next :: rest)
           end
      else rest ← remove_from handle rest; Some (current :: rest)
  end.

Definition delta_list_remove_timer (handle : Z) (s : sleeptimer) : status * sleeptimer :=
  match remove_from handle (timers s) with
  | Some l => (OK, set_timers l s)
  | None => (INVALID_STATE, s)
  end.

(** The loop of [update_delta_list]: spend the elapsed time on the delays. *)
Fixpoint elapse (time_diff : Z) (l : list timer) : list timer :=
  match l with
  | [] => []
  | t :: rest =>
      if 0 <? time_diff then
        if time_diff <=? delta t then set_delta (delta t - time_diff) t :: rest
        else set_delta 0 t :: elapse (time_diff - delta t) rest
      else t :: rest
  end.

Definition update_delta_list (s : sleeptimer) : sleeptimer :=
  set_last (counter s)
    (set_timers (elapse (u32 (counter s - last_delta_update_count s)) (timers s)) s).

(** [while (delta_diff_with_first <= 1)]: is one of the timers due with the
    first one the power manager's? *)
Fixpoint pm_loop (delta_diff_with_first : Z) (current : timer) (rest : list timer) : bool :=
  if delta_diff_with_first <=? 1 then
    if test_mask (option_flags current) POWER_MANAGER_EARLY_WAKEUP_TIMER_FLAG then true
    else match rest with
         | [] => false
         | next :: rest => pm_loop (u32 (delta_diff_with_first + delta next)) next rest
         end
  else false.

Definition update_next_timer_to_expire_is_power_manager (s : sleeptimer) : sleeptimer :=
  set_next_pm (match timers s with [] => false | t :: rest => pm_loop 0 t rest end) s.

(** The callers check that there is a first timer. *)
Definition set_comparator_for_next_timer (s : sleeptimer) : sleeptimer :=
  match timers s with
  | [] => s
  | t :: _ =>
      let s := if 0 <? delta t
               then set_comp (mk_comp true (u32 (last_delta_update_count s + delta t))
                                      (comp_forced (comp s))) s
               else set_comp (mk_comp true (comp_value (comp s)) true) s in
      update_next_timer_to_expire_is_power_manager s
  end.

Definition disable_comparator (s : sleeptimer) : sleeptimer :=
  set_comp (mk_comp false (comp_value (comp s)) (comp_forced (comp s))) s.

(** ** Callbacks *)

(** What the callback of a timer does: any change of the state, for example
    starting and stopping timers, and time passing; and how many ticks pass
    before the interrupt's next reading of the counter. *)
Class Callbacks := {
  run_callback : timer -> sleeptimer -> sleeptimer;
  passing : sleeptimer -> Z }.

Definition tick (d : Z) (s : sleeptimer) : sleeptimer := set_counter (u32 (counter s + d)) s.

(** The state when the interrupt next reads the counter. *)
Definition later `{Callbacks} (s : sleeptimer) : sleeptimer := tick (passing s) s.

(** ** Operations *)

Definition sl_sleeptimer_is_timer_running (handle : Z) (s : sleeptimer) : bool :=
  existsb (fun t => id t =? handle) (timers s).

Section operations.
Context `{Callbacks}.

Definition create_timer (handle timeout_initial timeout_per prio flags : Z) (callback : bool)
  (s : sleeptimer) : status * sleeptimer :=
  let h := mk_timer handle 0 prio flags timeout_per (u32 (counter s + timeout_per)) callback in
  let arm timeout s :=
    let s := update_delta_list s in
    let s := delta_list_insert_timer h timeout s in
    let s := match timers s with
             | t :: _ => if id t =? handle then set_comparator_for_next_timer s else s
             | [] => s
             end in
    (OK, s) in
  if timeout_initial =? 0 then
    let s := if callback then run_callback h s else s in
    if timeout_per =? 0 then (OK, s) else arm timeout_per s
  else arm timeout_initial s.

Definition sl_sleeptimer_start_timer (handle timeout prio flags : Z) (callback : bool)
  (s : sleeptimer) : status * sleeptimer :=
  if sl_sleeptimer_is_timer_running handle s then (NOT_READY, s)
  else create_timer handle timeout 0 prio flags callback s.

Definition sl_sleeptimer_start_periodic_timer (handle timeout prio flags : Z) (callback : bool)
  (s : sleeptimer) : status * sleeptimer :=
  if sl_sleeptimer_is_timer_running handle s then (INVALID_STATE, s)
  else create_timer handle timeout timeout prio flags callback s.

Definition sl_sleeptimer_stop_timer (handle : Z) (s : sleeptimer) : status * sleeptimer :=
  let s := update_delta_list s in
  let set_comparator := match timers s with t :: _ => id t =? handle | [] => false end in
  let '(error, s) := delta_list_remove_timer handle s in
  if decide (error <> OK) then (error, s)
  else
    let s := match timers s with
             | _ :: _ => if set_comparator then set_comparator_for_next_timer s else s
             | [] => disable_comparator s
             end in
    (OK, s).

Definition sl_sleeptimer_restart_timer (handle timeout prio flags : Z) (callback : bool)
  (s : sleeptimer) : status * sleeptimer :=
  let '(_, s) := sl_sleeptimer_stop_timer handle s in
  create_timer handle timeout 0 prio flags callback s.

Definition sl_sleeptimer_restart_periodic_timer (handle timeout prio flags : Z) (callback : bool)
  (s : sleeptimer) : status * sleeptimer :=
  let '(_, s) := sl_sleeptimer_stop_timer handle s in
  create_timer handle timeout timeout prio flags callback s.

(** The sum of the delays up to a handle, with the loop's wrap-around. *)
Fixpoint sum_until (handle time : Z) (l : list timer) : option Z :=
  match l with
  | [] => None
  | t :: rest => if id t =? handle then Some (u32 (time + delta t))
                 else sum_until handle (u32 (time + delta t)) rest
  end.

Definition since_update (time : Z) (s : sleeptimer) : Z :=
  let gone := u32 (counter s - last_delta_update_count s) in
  if gone <? time then u32 (time - gone) else 0.

Definition sl_sleeptimer_get_timer_time_remaining (handle : Z) (s : sleeptimer)
  : status * option Z * sleeptimer :=
  let s := update_delta_list s in
  match sum_until handle 0 (timers s) with
  | None => (NOT_READY, None, s)
  | Some time => (OK, Some (since_update time s), s)
  end.

(** The loop over the timers with the flags asked for. *)
Fixpoint first_with_flags (flags time : Z) (l : list timer) : option Z :=
  match l with
  | [] => None
  | t :: rest => if option_flags t =? flags then Some (u32 (time + delta t))
                 else first_with_flags flags (u32 (time + delta t)) rest
  end.

Definition sl_sleeptimer_get_remaining_time_of_first_timer (flags : Z) (s : sleeptimer)
  : status * option Z :=
  match first_with_flags flags 0 (timers s) with
  | None => (EMPTY, None)
  | Some time => (OK, Some (since_update time s))
  end.

(** ** Interrupts *)

(** Counter overflow: the wall clock, then the queue. *)
Definition clock_overflow (freq : Z) (c : clock) : clock :=
  let rest := u32 (overflow_tick_rest c + 2 ^ 32 mod freq) in
  let '(sec, rest) := if freq <=? rest then (u32 (second_count c + 1), u32 (rest - freq))
                      else (second_count c, rest) in
  mk_clock (u32 (sec + u32 (2 ^ 32 / freq))) rest (tz_offset c).

Definition overflow_irq (s : sleeptimer) : sleeptimer :=
  let s := set_clock (u16 (overflow_counter s + 1)) (clock_overflow (timer_frequency s) (clk s)) s in
  let s := update_delta_list s in
  match timers s with [] => s | _ :: _ => set_comparator_for_next_timer s end.

(** The timer to serve among those at the head that are due: the first with
    the highest priority. *)
Fixpoint select_due (current : timer) (l : list timer) : timer :=
  match l with
  | [] => current
  | temp :: rest =>
      if delta temp =? 0
      then select_due (if priority temp <? priority current then temp else current) rest
      else current
  end.

Definition change_timer (handle : Z) (f : timer -> timer) (l : list timer) : list timer :=
  (fun t => if id t =? handle then f t else t) <$> l.

(** Serving one timer: remove it, or keep a periodic one that is late by more
    than its period; re-insert a periodic one in its rhythm. *)
Definition serve (current : timer) (s : sleeptimer) : sleeptimer :=
  let bump := change_timer (id current)
                (fun t => set_expected (u32 (timeout_expected_tc t + timeout_periodic t)) t) in
  if timeout_periodic current =? 0 then snd (delta_list_remove_timer (id current) s)
  else
    let s := later s in
    let periodic_correction := s32 (u32 (counter s - timeout_expected_tc current)) in
    if timeout_periodic current <? periodic_correction
    then set_timers (bump (timers s)) s
    else
      let s := snd (delta_list_remove_timer (id current) s) in
      let s := delta_list_insert_timer current
                 (u32 (timeout_periodic current - periodic_correction)) s in
      set_timers (bump (timers s)) s.

(** The loop over the expired timers; the log of the handles served is the
    model's.  [None]: fuel used up. *)
Fixpoint expire_loop (fuel : nat) (log : list timer) (s : sleeptimer)
  : option (list timer * sleeptimer) :=
  match timers s with
  | t :: rest =>
      if delta t =? 0 then
        match fuel with
        | O => None
        | S fuel =>
            let current := select_due t (t :: rest) in
            let s := serve current s in
            let s := if has_callback current then run_callback current s else s in
            expire_loop fuel (log ++ [current]) (update_delta_list (later s))
        end
      else Some (log, s)
  | [] => Some (log, s)
  end.

Definition compare_irq (fuel : nat) (s : sleeptimer) : option (list timer * sleeptimer) :=
  '(log, s) ← expire_loop fuel [] (update_delta_list (later s));
  let sleep := match log with
               | [t] => option_flags t =? POWER_MANAGER_EARLY_WAKEUP_TIMER_FLAG
               | _ => false
               end in
  let s := set_sleep sleep s in
  Some (log, match timers s with [] => disable_comparator s | _ :: _ => set_comparator_for_next_timer s end).

Definition process_timer_irq (fuel : nat) (local_flag : Z) (s : sleeptimer)
  : option (list timer * sleeptimer) :=
  let s := if test_mask local_flag SLEEPTIMER_EVENT_OF then overflow_irq s else s in
  if test_mask local_flag SLEEPTIMER_EVENT_COMP then compare_irq fuel s else Some ([], s).
End operations.


(** ** The specification: a table of absolute deadlines *)

(** Timers with the absolute time, in ticks since the start, at which each is
    due. *)
Abbreviation table := (list (Z * Z)).

(** A new timer goes after all that are due no later. *)
Fixpoint enter (i D : Z) (A : table) : table :=
  match A with
  | [] => [(i, D)]
  | (j, E) :: A => if E <=? D then (j, E) :: enter i D A else (i, D) :: (j, E) :: A
  end.

Definition leave (i : Z) (A : table) : table := filter (fun e => e.1 <> i) A.

(** How long each timer has to go at time [T]. *)
Definition due_in (T : Z) (A : table) : list (Z * Z) := (fun '(i, D) => (i, Z.max 0 (D - T))) <$> A.

(** ** Abstraction of the delta list *)

(** The remaining times: sums of the delays. *)
Fixpoint sums (a : Z) (l : list timer) : list (Z * Z) :=
  match l with
  | [] => []
  | t :: l => (id t, a + delta t) :: sums (a + delta t) l
  end.

(** Delays are not negative and no timer has 2^32 ticks or more to go. *)
Definition delays_ok (a : Z) (l : list timer) : Prop :=
  Forall (fun t => 0 <= delta t) l /\ Forall (fun e => e.2 < 2 ^ 32) (sums a l).

Lemma delays_ok_cons a t l :
  delays_ok a (t :: l) <-> 0 <= delta t /\ a + delta t < 2 ^ 32 /\ delays_ok (a + delta t) l.
Proof. unfold delays_ok. cbn [sums]. rewrite !list.Forall_cons. simpl. tauto. Qed.

Lemma sums_shift a c l : sums (a + c) l = (fun '(i, w) => (i, w + c)) <$> sums a l.
Proof.
  revert a. induction l as [|t l IH]; intros a; cbn [sums]; [done |].
  rewrite fmap_cons. f_equal; [f_equal; lia |]. rewrite <- IH. f_equal. lia.
Qed.

Lemma sums_ge a l : Forall (fun t => 0 <= delta t) l -> Forall (fun e => a <= e.2) (sums a l).
Proof.
  revert a. induction l as [|t l IH]; intros a Hl; cbn [sums]; [constructor |].
  apply list.Forall_cons in Hl as [Ht Hl]. constructor; simpl; [lia |].
  eapply list.Forall_impl; [by apply (IH (a + delta t)) |]. simpl. intros [? ?]. simpl. lia.
Qed.

Lemma sums_ids a l : (sums a l).*1 = id <$> l.
Proof. revert a. induction l as [|t l IH]; intros a; [done |]. cbn [sums]. rewrite !fmap_cons. by rewrite IH. Qed.

(** The loop's condition is that the timer is due no later: its clause about
    priorities never decides. *)
Lemma insert_condition c x h :
  0 <= delta c < 2 ^ 32 -> 0 <= x < 2 ^ 32 ->
  (delta c <=? x) || (delta c =? 0) || ((u32 (x - delta c) =? 0) && (priority c <? priority h))
  = (delta c <=? x).
Proof.
  intros Hc Hx. destruct (Z.leb_spec (delta c) x) as [| Hlt]; [done |].
  destruct (Z.eqb_spec (delta c) 0); [lia |].
  destruct (Z.eqb_spec (u32 (x - delta c)) 0) as [E | ]; [|done].
  unfold u32 in E. apply Z.mod_divide in E; [|lia]. destruct E as [q E]. nia.
Qed.

Fixpoint place (i w : Z) (l : list (Z * Z)) : list (Z * Z) :=
  match l with
  | [] => [(i, w)]
  | (j, v) :: l => if v <=? w then (j, v) :: place i w l else (i, w) :: (j, v) :: l
  end.

Lemma sums_insert h l : forall a x,
  0 <= a -> delays_ok a l -> 0 <= x -> a + x < 2 ^ 32 ->
  sums a (insert_after h x l) = place (id h) (a + x) (sums a l) /\ delays_ok a (insert_after h x l).
Proof.
  induction l as [|c l IH]; intros a x Ha Hok Hx Hmx; cbn [insert_after].
  { cbn [sums place]. split; [done |]. apply delays_ok_cons. simpl. split_and!; (done || apply Hok). }
  apply delays_ok_cons in Hok as (Hc & Hac & Hok).
  rewrite insert_condition by lia. cbn [sums place].
  replace (a + delta c <=? a + x) with (delta c <=? x) by (destruct (Z.leb_spec (delta c) x), (Z.leb_spec (a + delta c) (a + x)); lia).
  destruct (Z.leb_spec (delta c) x) as [Hle | Hgt].
  - rewrite u32_id by (unfold is_u32; lia). cbn [sums].
    destruct (IH (a + delta c) (x - delta c)) as [-> Hd]; [lia | done | lia | lia |].
    split; [do 2 f_equal; lia |]. by apply delays_ok_cons.
  - rewrite u32_id by (unfold is_u32; lia). cbn [sums id delta set_delta].
    replace (a + x + (delta c - x)) with (a + delta c) by lia. split; [done |].
    apply delays_ok_cons. simpl. split; [done |]. split; [done |].
    apply delays_ok_cons. simpl. replace (a + x + (delta c - x)) with (a + delta c) by lia.
    split; [lia |]. by split.
Qed.

Lemma sums_remove i l : forall a l',
  0 <= a -> delays_ok a l -> NoDup (id <$> l) -> remove_from i l = Some l' ->
  sums a l' = filter (fun e => e.1 <> i) (sums a l) /\ delays_ok a l'.
Proof.
  assert (forall (r : list (Z * Z)), i ∉ r.*1 -> filter (fun e => e.1 <> i) r = r) as Hkeep.
  { intros r Hr. induction r as [|[j w] r IH]; [done |]. rewrite fmap_cons, not_elem_of_cons in Hr.
    destruct Hr as [Hj Hr]. rewrite filter_cons_True by (simpl in *; congruence). f_equal. by apply IH. }
  induction l as [|c l IH]; intros a l' Ha Hok Hnd; cbn [remove_from]; [done |].
  rewrite fmap_cons, list.NoDup_cons in Hnd. destruct Hnd as [Hnew Hnd].
  apply delays_ok_cons in Hok as (Hc & Hac & Hok). cbn [sums].
  destruct (Z.eqb_spec (id c) i) as [Hci | Hne].
  - rewrite filter_cons_False by (simpl; intros Hx; by apply Hx).
    rewrite Hkeep by (rewrite sums_ids; by rewrite <- Hci).
    destruct l as [|n l]; intros [= <-]; [done |].
    apply delays_ok_cons in Hok as (Hn & Han & Hok). cbn [sums id delta set_delta].
    rewrite u32_id by (unfold is_u32; lia). replace (a + (delta n + delta c)) with (a + delta c + delta n) by lia.
    split; [done |]. apply delays_ok_cons. simpl.
    replace (a + (delta n + delta c)) with (a + delta c + delta n) by lia. split; [lia |]. by split.
  - destruct (remove_from i l) as [r|] eqn:Hr; cbn [mbind option_bind]; [|done]. intros [= <-].
    rewrite filter_cons_True by done. destruct (IH (a + delta c) r) as [Hs Hd]; [lia | done.. |].
    cbn [sums]. rewrite Hs. split; [done |]. by apply delays_ok_cons.
Qed.

Lemma remove_from_None i l : remove_from i l = None <-> i ∉ (id <$> l).
Proof.
  induction l as [|c l IH]; cbn [remove_from]; [split; [intros _; apply not_elem_of_nil | done] |].
  rewrite fmap_cons, not_elem_of_cons. destruct (Z.eqb_spec (id c) i) as [-> | Hne].
  - split; [by destruct l | by intros [Hx _]].
  - rewrite <- IH. destruct (remove_from i l) as [r|]; cbn [mbind option_bind]; [|by split].
    split; [done | by intros [_ Hx]].
Qed.

Lemma sums_elapse l : forall d, 0 <= d -> delays_ok 0 l ->
  sums 0 (elapse d l) = (fun '(i, w) => (i, Z.max 0 (w - d))) <$> sums 0 l /\ delays_ok 0 (elapse d l).
Proof.
  induction l as [|t l IH]; intros d Hd Hok; cbn [elapse]; [done |].
  pose proof Hok as Hok0. apply delays_ok_cons in Hok as (Ht & Hat & Hok). rewrite Z.add_0_l in *.
  assert (Forall (fun e => delta t <= e.2) (sums (delta t) l)) as Hge by (apply sums_ge, Hok).
  destruct (Z.ltb_spec 0 d) as [Hpos | Hz].
  - destruct (Z.leb_spec d (delta t)) as [Hle | Hgt]; cbn [sums id delta set_delta]; rewrite fmap_cons.
    + replace (0 + (delta t - d)) with (delta t + (- d)) by lia. rewrite sums_shift.
      split; [f_equal; [f_equal; lia |] | ].
      * apply list_fmap_ext. intros k [i w] Hk. rewrite list.Forall_forall in Hge.
        specialize (Hge (i, w) (list_elem_of_lookup_2 _ _ _ Hk)). simpl in Hge. f_equal. lia.
      * apply delays_ok_cons. cbn [delta set_delta]. split; [lia |]. split; [lia |].
        destruct Hok as [H1 H2]. split; [done |].
        replace (0 + (delta t - d)) with (delta t + (- d)) by lia. rewrite sums_shift, Forall_fmap. eapply list.Forall_impl; [exact H2 |]. intros [? ?]; simpl; lia.
    + assert (delays_ok 0 l) as Hl0.
      { destruct Hok as [H1 H2]. split; [done |]. rewrite (sums_shift 0 (delta t)), Forall_fmap in H2.
        eapply list.Forall_impl; [exact H2 |]. intros [? ?]; simpl; lia. }
      destruct (IH (d - delta t)) as [Hs Hd']; [lia | done |].
      rewrite !Z.add_0_l, Hs. rewrite <- (Z.add_0_l (delta t)) at 2. rewrite (sums_shift 0 (delta t)), <- list_fmap_compose.
      split; [f_equal; [f_equal; lia |] |].
      * apply list_fmap_ext. intros k [i w] Hk. simpl. f_equal. lia.
      * apply delays_ok_cons. simpl. split; [lia |]. split; [lia |]. done.
  - split; [|done]. rewrite <- (list_fmap_id (sums 0 (t :: l))) at 1.
    apply list_fmap_ext. intros k [i w] Hk. simpl.
    pose proof (sums_ge 0 (t :: l)) as Hg. rewrite !list.Forall_forall in Hg.
    assert (0 <= (i, w).2); [|simpl in *; f_equal; lia].
    apply Hg; [|by eapply list_elem_of_lookup_2]. apply list.Forall_forall. apply Hok0.
Qed.

(** ** What the list operations keep of the timers *)

Definition erase (t : timer) : timer := set_delta 0 t.

Lemma erase_elapse d l : erase <$> elapse d l = erase <$> l.
Proof.
  revert d. induction l as [|t l IH]; intros d; cbn [elapse]; [done |].
  destruct (0 <? d); [|done]. destruct (d <=? delta t); rewrite !fmap_cons; [done |]. by rewrite IH.
Qed.

Lemma erase_insert h x l : erase <$> insert_after h x l ≡ₚ erase h :: (erase <$> l).
Proof.
  revert x. induction l as [|c l IH]; intros x; cbn [insert_after]; [done |].
  destruct (_ || _ || _); rewrite !fmap_cons; [|done]. rewrite IH. apply Permutation_swap.
Qed.

Lemma erase_remove i l l' :
  NoDup (id <$> l) -> remove_from i l = Some l' ->
  erase <$> l' = filter (fun t => id t <> i) (erase <$> l).
Proof.
  revert l'. induction l as [|c l IH]; intros l' Hnd; cbn [remove_from]; [done |].
  rewrite !fmap_cons, list.NoDup_cons in *. destruct Hnd as [Hnew Hnd].
  destruct (Z.eqb_spec (id c) i) as [Hci | Hne].
  - rewrite filter_cons_False by (simpl; intros Hx; by apply Hx).
    assert (filter (fun t => id t <> i) (erase <$> l) = erase <$> l) as ->.
    { subst i. clear IH Hnd. induction l as [|n l IH]; [done |].
      rewrite fmap_cons, not_elem_of_cons in Hnew. destruct Hnew as [Hn Hl].
      rewrite fmap_cons, filter_cons_True by (simpl; congruence). f_equal. by apply IH. }
    destruct l as [|n l]; by intros [= <-].
  - destruct (remove_from i l) as [r|] eqn:Hr; cbn [mbind option_bind]; [|done]. intros [= <-].
    rewrite fmap_cons, filter_cons_True by done. f_equal. by apply IH.
Qed.

Lemma erase_elem t (l : list timer) : t ∈ l -> erase t ∈ erase <$> l.
Proof. apply list_elem_of_fmap_2. Qed.

Lemma ids_erase (l : list timer) : id <$> (erase <$> l) = id <$> l.
Proof. rewrite <- list_fmap_compose. done. Qed.

(** ** Refinement *)

(** A periodic timer expects to be served at its deadline. *)
Definition in_rhythm (A : table) (t : timer) : Prop :=
  timeout_periodic t <> 0 ->
  0 < timeout_periodic t < 2 ^ 32 /\ forall D, (id t, D) ∈ A -> timeout_expected_tc t = u32 D.

(** The state at time [T], with the list last updated at [T0], represents the
    table [A]. *)
Record rep (T T0 : Z) (A : table) (s : sleeptimer) : Prop := {
  rep_counter : counter s = u32 T;
  rep_last : last_delta_update_count s = u32 T0;
  rep_time : 0 <= T0 <= T /\ T - T0 < 2 ^ 32;
  rep_sums : sums 0 (timers s) = due_in T0 A;
  rep_delays : delays_ok 0 (timers s);
  rep_nodup : NoDup A.*1;
  rep_rhythm : Forall (in_rhythm A) (timers s) }.

Lemma due_in_ids T A : (due_in T A).*1 = A.*1.
Proof. unfold due_in. rewrite <- list_fmap_compose. apply list_fmap_ext. by intros ? []. Qed.

Lemma rep_ids T T0 A s : rep T T0 A s -> id <$> timers s = A.*1.
Proof. intros []. by rewrite <- (sums_ids 0), rep_sums0, due_in_ids. Qed.

Lemma in_rhythm_erase A t : in_rhythm A t <-> in_rhythm A (erase t).
Proof. done. Qed.

Lemma rhythm_erased A (l l' : list timer) :
  (forall t, t ∈ erase <$> l' -> t ∈ erase <$> l) -> Forall (in_rhythm A) l -> Forall (in_rhythm A) l'.
Proof.
  intros Hsub Hl. apply list.Forall_forall. intros t Ht. apply in_rhythm_erase.
  apply erase_elem, Hsub, list_elem_of_fmap in Ht as (u & -> & Hu).
  rewrite list.Forall_forall in Hl. apply -> in_rhythm_erase. by apply Hl.
Qed.

Lemma u32_diff a b : 0 <= a - b < 2 ^ 32 -> u32 (u32 a - u32 b) = a - b.
Proof.
  intros H. unfold u32. rewrite <- Zminus_mod. by apply Z.mod_small.
Qed.

Lemma u32_add a b : u32 (u32 a + b) = u32 (a + b).
Proof. unfold u32. apply Zplus_mod_idemp_l. Qed.

Lemma update_refines T T0 A s : rep T T0 A s -> rep T T A (update_delta_list s).
Proof.
  intros [Hc Hl [Ht Hw] Hs Hd Hn Hr]. unfold update_delta_list.
  rewrite Hc, Hl, u32_diff by lia.
  destruct (sums_elapse (timers s) (T - T0)) as [Hs' Hd']; [lia | done |].
  split; simpl; try done; [lia | |].
  - rewrite Hs', Hs. unfold due_in. rewrite <- list_fmap_compose. apply list_fmap_ext.
    intros k [i D] _. simpl. f_equal. lia.
  - eapply rhythm_erased; [|exact Hr]. intros t. by rewrite erase_elapse.
Qed.

Lemma place_enter T i D A : T <= D -> place i (D - T) (due_in T A) = due_in T (enter i D A).
Proof.
  intros HD. induction A as [|[j E] A IH]; simpl; [unfold due_in; simpl; by rewrite Z.max_r by lia |].
  assert ((Z.max 0 (E - T) <=? D - T) = (E <=? D)) as ->
    by (destruct (Z.leb_spec (Z.max 0 (E - T)) (D - T)), (Z.leb_spec E D); lia).
  destruct (E <=? D); unfold due_in in *; simpl; [by rewrite IH |]. by rewrite (Z.max_r 0 (D - T)) by lia.
Qed.

Lemma enter_perm i D A : enter i D A ≡ₚ (i, D) :: A.
Proof.
  induction A as [|[j E] A IH]; simpl; [done |]. destruct (E <=? D); [|done].
  rewrite IH. apply Permutation_swap.
Qed.

Lemma insert_refines T A s h D :
  rep T T A s -> id h ∉ A.*1 -> T <= D -> D - T < 2 ^ 32 -> in_rhythm [(id h, D)] h ->
  rep T T (enter (id h) D A) (delta_list_insert_timer h (D - T) s).
Proof.
  intros [Hc Hl Ht Hs Hd Hn Hr] Hnew HD Hmx Hh.
  destruct (sums_insert h (timers s) 0 (D - T)) as [Hs' Hd']; [lia | done | lia | lia |].
  split; simpl; try done.
  - rewrite Hs', Hs. by apply place_enter.
  - rewrite enter_perm. simpl. by apply list.NoDup_cons.
  - apply list.Forall_forall. intros t Htin. apply in_rhythm_erase.
    apply erase_elem in Htin. rewrite erase_insert, elem_of_cons in Htin.
    destruct Htin as [-> | (u & -> & Hu)%list_elem_of_fmap].
    + intros Hp. destruct (Hh Hp) as [Hp' HDh]. split; [done |]. intros D' HD'.
      rewrite enter_perm, elem_of_cons in HD'. destruct HD' as [[= ->] | Hin].
      * apply HDh. apply list_elem_of_here.
      * exfalso. apply Hnew. by apply (list_elem_of_fmap_2 fst) in Hin.
    + rewrite list.Forall_forall in Hr. intros Hp. destruct (Hr u Hu Hp) as [Hp' HDu].
      split; [done |]. intros D' HD'. rewrite enter_perm, elem_of_cons in HD'.
      destruct HD' as [[= Hid _] | Hin]; [|by apply HDu]. exfalso. apply Hnew.
      rewrite <- Hid, <- due_in_ids with (T := T), <- Hs, sums_ids. by apply (list_elem_of_fmap_2 id).
Qed.

Lemma due_in_leave T i A : due_in T (leave i A) = filter (fun e => e.1 <> i) (due_in T A).
Proof.
  unfold due_in, leave. induction A as [|[j E] A IH]; [done |]. rewrite fmap_cons.
  destruct (decide (j = i)) as [-> | Hne].
  - rewrite (filter_cons_False _ (i, E) A), filter_cons_False by (simpl; intros Hx; by apply Hx). apply IH.
  - rewrite (filter_cons_True _ (j, E) A), filter_cons_True by done. rewrite fmap_cons. f_equal. apply IH.
Qed.

Lemma leave_sub i A e : e ∈ leave i A -> e ∈ A.
Proof. unfold leave. rewrite list_elem_of_filter. by intros [_ ?]. Qed.

Lemma leave_nodup i A : NoDup A.*1 -> NoDup (leave i A).*1.
Proof.
  intros Hn. assert (sublist (leave i A) A) as Hsub by apply sublist_filter.
  eapply sublist_NoDup; [exact Hn |]. by apply fmap_sublist.
Qed.

Lemma remove_refines T A s i :
  rep T T A s -> i ∈ A.*1 ->
  exists s', delta_list_remove_timer i s = (OK, s') /\ rep T T (leave i A) s' /\
    erase <$> timers s' = filter (fun t => id t <> i) (erase <$> timers s) /\ counter s' = counter s.
Proof.
  intros Hrep Hin. pose proof (rep_ids _ _ _ _ Hrep) as Hids. destruct Hrep as [Hc Hl Ht Hs Hd Hn Hr].
  unfold delta_list_remove_timer. destruct (remove_from i (timers s)) as [l'|] eqn:Hrm.
  2:{ apply remove_from_None in Hrm. by rewrite Hids in Hrm. }
  assert (NoDup (id <$> timers s)) as Hnd by (by rewrite Hids).
  destruct (sums_remove i (timers s) 0 l') as [Hs' Hd']; [lia | done.. |].
  pose proof (erase_remove _ _ _ Hnd Hrm) as He.
  eexists. split; [done |]. split; [|done]. split; simpl; try done.
  - by rewrite Hs', Hs, due_in_leave.
  - by apply leave_nodup.
  - assert (Forall (in_rhythm A) l') as Hr'.
    { eapply rhythm_erased; [|exact Hr]. intros t. rewrite He. rewrite list_elem_of_filter. by intros [_ ?]. }
    eapply list.Forall_impl; [exact Hr' |]. intros t Htr Hp. destruct (Htr Hp) as [Hp' HD].
    split; [done |]. intros D HDin. apply HD. by eapply leave_sub.
Qed.

(** ** The comparator *)

Lemma rep_same T T0 A s s' :
  rep T T0 A s -> counter s' = counter s -> last_delta_update_count s' = last_delta_update_count s ->
  timers s' = timers s -> rep T T0 A s'.
Proof. intros [] Hc Hl Ht. split; rewrite ?Hc, ?Hl, ?Ht; done. Qed.

(** The comparator's interrupt is on, and it waits for the first deadline or
    the interrupt has been raised. *)
Definition armed (A : table) (s : sleeptimer) : Prop :=
  match A with
  | [] => True
  | (_, D) :: _ => comp_enabled (comp s) = true /\
                   (comp_value (comp s) = u32 D \/ comp_forced (comp s) = true)
  end.

Lemma rep_head T T0 A s :
  rep T T0 A s ->
  match timers s, A with
  | [], [] => True
  | t :: _, (i, D) :: _ => id t = i /\ delta t = Z.max 0 (D - T0)
  | _, _ => False
  end.
Proof.
  intros []. destruct (timers s) as [|t l], A as [|[i D] A]; simpl in *; try done.
  injection rep_sums0 as Hi Hd. split; [done | lia].
Qed.

Lemma set_comparator_refines T T0 A s :
  rep T T0 A s -> timers s <> [] ->
  rep T T0 A (set_comparator_for_next_timer s) /\ armed A (set_comparator_for_next_timer s) /\
  timers (set_comparator_for_next_timer s) = timers s.
Proof.
  intros Hrep Hne. pose proof (rep_head _ _ _ _ Hrep) as Hh.
  assert (timers (set_comparator_for_next_timer s) = timers s) as Ht.
  { unfold set_comparator_for_next_timer. destruct (timers s) eqn:E; [done |]. by destruct (0 <? _). }
  split; [|split; [|done]].
  - apply (rep_same _ _ _ _ _ Hrep); [| |done]; unfold set_comparator_for_next_timer;
      destruct (timers s); try done; by destruct (0 <? _).
  - unfold set_comparator_for_next_timer. destruct (timers s) as [|t l]; [done |].
    destruct A as [|[i D] A]; [done |]. destruct Hh as [_ Hd].
    destruct (Z.ltb_spec 0 (delta t)) as [Hpos | Hz]; simpl; (split; [done |]); [left | by right].
    destruct Hrep as [_ -> _ _ _ _ _]. rewrite u32_add. f_equal. lia.
Qed.

Lemma rep_tick T T0 A s d :
  rep T T0 A s -> 0 <= d -> T + d - T0 < 2 ^ 32 -> rep (T + d) T0 A (set_counter (u32 (counter s + d)) s).
Proof.
  intros [Hc Hl [Ht Hw] Hs Hd Hn Hr] Hd0 Hmx. split; simpl; try done; [by rewrite Hc, u32_add | lia].
Qed.

(** The head of the table stays unless something is entered before it or it leaves. *)
Lemma armed_enter A s i D :
  armed A s -> match enter i D A with (j, _) :: _ => j <> i | [] => True end -> armed (enter i D A) s.
Proof.
  destruct A as [|[j E] A]; simpl; [done |]. by destruct (E <=? D).
Qed.

Section operations_refine.
Context `{Callbacks}.

Lemma arm_refines T T0 A s i timeout per prio flags cb :
  rep T T0 A s -> armed A s -> i ∉ A.*1 -> 0 < timeout < 2 ^ 32 -> per = 0 \/ per = timeout ->
  exists s', create_timer i timeout per prio flags cb s = (OK, s') /\
    rep T T (enter i (T + timeout) A) s' /\ armed (enter i (T + timeout) A) s'.
Proof.
  intros Hrep Harm Hnew Hto Hper. unfold create_timer. destruct (Z.eqb_spec timeout 0); [lia |].
  set (h := mk_timer i 0 prio flags per (u32 (counter s + per)) cb).
  pose proof (update_refines _ _ _ _ Hrep) as Hup.
  pose proof (insert_refines T A _ h (T + timeout) Hup) as Hins.
  rewrite Z.add_simpl_l in Hins. cbn [id h] in Hins.
  assert (rep T T (enter i (T + timeout) A) (delta_list_insert_timer h timeout (update_delta_list s))) as Hr1.
  { apply Hins; [done | lia | lia |]. intros Hp. simpl in Hp. split; [simpl; lia |].
    intros D HD. apply list_elem_of_singleton in HD. injection HD as ->. simpl.
    rewrite (rep_counter _ _ _ _ Hrep), u32_add. f_equal. lia. }
  eexists. split; [done |]. pose proof (rep_head _ _ _ _ Hr1) as Hh.
  assert (comp (delta_list_insert_timer h timeout (update_delta_list s)) = comp s) as Hcomp by done.
  set (s1 := delta_list_insert_timer h timeout (update_delta_list s)) in *. clearbody s1.
  destruct (timers s1) as [|t l] eqn:Hts.
  { destruct (enter i (T + timeout) A) as [|[? ?] ?] eqn:He; [|done].
    destruct A as [|[? ?] ?]; simpl in He; [done |]. by destruct (_ <=? _). }
  destruct (Z.eqb_spec (id t) i) as [Hti | Hti].
  - destruct (set_comparator_refines _ _ _ _ Hr1) as (? & ? & _); [by rewrite Hts | done].
  - split; [done |]. assert (armed (enter i (T + timeout) A) s); [|by unfold armed in *; rewrite Hcomp].
    apply armed_enter; [done |]. destruct (enter i (T + timeout) A) as [|[j D] ?]; [done |].
    destruct Hh as [<- _]. done.
Qed.

Lemma is_running_ids i s : sl_sleeptimer_is_timer_running i s = bool_decide (i ∈ (id <$> timers s)).
Proof.
  unfold sl_sleeptimer_is_timer_running. apply eq_true_iff_eq.
  rewrite existsb_exists, bool_decide_eq_true, list_elem_of_fmap.
  split; intros (t & H1 & H2); exists t.
  - apply Z.eqb_eq in H2. split; [done | by apply list_elem_of_In].
  - split; [by apply list_elem_of_In | lia].
Qed.

Lemma running_refines T T0 A s i :
  rep T T0 A s -> sl_sleeptimer_is_timer_running i s = bool_decide (i ∈ A.*1).
Proof. intros Hrep. by rewrite is_running_ids, (rep_ids _ _ _ _ Hrep). Qed.

Lemma leave_notin i A : i ∉ (leave i A).*1.
Proof.
  unfold leave. intros ([j D] & -> & Hin)%list_elem_of_fmap.
  apply list_elem_of_filter in Hin as [Hx _]. by apply Hx.
Qed.

Lemma armed_leave A s i :
  armed A s -> match A with (j, _) :: _ => j <> i | [] => True end -> armed (leave i A) s.
Proof.
  destruct A as [|[j E] A]; [done |]. intros Ha Hne. unfold leave. by rewrite filter_cons_True.
Qed.

Lemma stop_refines T T0 A s i :
  rep T T0 A s -> armed A s -> i ∈ A.*1 ->
  exists s', sl_sleeptimer_stop_timer i s = (OK, s') /\ rep T T (leave i A) s' /\ armed (leave i A) s'.
Proof.
  intros Hrep Harm Hin. unfold sl_sleeptimer_stop_timer.
  pose proof (update_refines _ _ _ _ Hrep) as Hup. pose proof (rep_head _ _ _ _ Hup) as Hh.
  assert (armed A (update_delta_list s)) as Ha by done.
  set (s0 := update_delta_list s) in *. clearbody s0. cbv zeta.
  destruct (remove_refines T A s0 i Hup Hin) as (s1 & Hs1 & Hr1 & _). rewrite Hs1.
  assert (comp s1 = comp s0) as Hcomp.
  { unfold delta_list_remove_timer in Hs1. destruct (remove_from i (timers s0)); [|done].
    by injection Hs1 as <-. }
  rewrite decide_False by (intros Hx; by apply Hx).
  eexists. split; [done |]. pose proof (rep_head _ _ _ _ Hr1) as Hh1.
  destruct (timers s1) as [|t1 l1] eqn:Hts.
  { split; [by apply (rep_same _ _ _ _ _ Hr1) |]. by destruct (leave i A) as [|[? ?] ?]. }
  destruct (timers s0) as [|t0 l0] eqn:Hts0.
  { destruct A as [|[? ?] ?]; [by apply not_elem_of_nil in Hin | done]. }
  destruct (Z.eqb_spec (id t0) i) as [Ht0 | Ht0].
  - destruct (set_comparator_refines _ _ _ _ Hr1) as (? & ? & _); [by rewrite Hts | done].
  - split; [done |]. assert (armed (leave i A) s0); [|by unfold armed in *; rewrite Hcomp].
    apply armed_leave; [done |]. destruct A as [|[j D] ?]; [done |]. destruct Hh as [<- _]. done.
Qed.

Lemma stop_not_running T T0 A s i :
  rep T T0 A s -> armed A s -> i ∉ A.*1 ->
  exists s', sl_sleeptimer_stop_timer i s = (INVALID_STATE, s') /\ rep T T A s' /\ armed A s'.
Proof.
  intros Hrep Harm Hin. unfold sl_sleeptimer_stop_timer, delta_list_remove_timer.
  pose proof (update_refines _ _ _ _ Hrep) as Hup.
  assert (remove_from i (timers (update_delta_list s)) = None) as ->
    by (apply remove_from_None; by rewrite (rep_ids _ _ _ _ Hup)).
  rewrite decide_True by done. by eexists.
Qed.

End operations_refine.

(** ** Queries *)

Lemma sum_until_found i l : forall a w,
  0 <= a -> delays_ok a l -> NoDup (id <$> l) -> (i, w) ∈ sums a l -> sum_until i a l = Some w.
Proof.
  induction l as [|t l IH]; intros a w Ha Hok Hnd; cbn [sums sum_until]; [by intros ?%not_elem_of_nil |].
  apply delays_ok_cons in Hok as (Ht & Hat & Hok).
  rewrite fmap_cons, list.NoDup_cons in Hnd. destruct Hnd as [Hnew Hnd].
  rewrite u32_id by (unfold is_u32; lia). rewrite elem_of_cons. intros [[= -> ->] | Hin].
  - by rewrite Z.eqb_refl.
  - destruct (Z.eqb_spec (id t) i) as [Heq | Hne]; [|apply IH; (done || lia)].
    exfalso. apply Hnew. rewrite Heq, <- (sums_ids (a + delta t)). by apply (list_elem_of_fmap_2 fst) in Hin.
Qed.

Lemma sum_until_None i l : forall a, i ∉ (id <$> l) -> sum_until i a l = None.
Proof.
  induction l as [|t l IH]; intros a; cbn [sum_until]; [done |].
  rewrite fmap_cons, not_elem_of_cons. intros [Hne Hl].
  destruct (Z.eqb_spec (id t) i); [congruence | by apply IH].
Qed.

Lemma time_remaining_refines T T0 A s i :
  rep T T0 A s ->
  exists s', sl_sleeptimer_get_timer_time_remaining i s
    = (if decide (i ∈ A.*1) then OK else NOT_READY,
       (fun '(_, e) => Z.max 0 (e.2 - T)) <$> list_find (fun e => e.1 = i) A, s') /\
    rep T T A s' /\ comp s' = comp s.
Proof.
  intros Hrep. pose proof (update_refines _ _ _ _ Hrep) as Hup.
  exists (update_delta_list s). split; [|done]. unfold sl_sleeptimer_get_timer_time_remaining.
  set (s0 := update_delta_list s) in *. clearbody s0. clear Hrep.
  pose proof (rep_ids _ _ _ _ Hup) as Hids. destruct Hup as [Hc Hl Ht Hs Hd Hn _].
  destruct (decide (i ∈ A.*1)) as [Hin | Hout].
  - apply list_elem_of_fmap in Hin as ([j D] & -> & Hin). simpl fst in *.
    rewrite (sum_until_found j (timers s0) 0 (Z.max 0 (D - T))); [| lia | done | by rewrite Hids |].
    2:{ rewrite Hs. unfold due_in. apply list_elem_of_fmap. by exists (j, D). }
    destruct (list_find (fun e => e.1 = j) A) as [[k [j' D']]|] eqn:Hf.
    + apply list_find_Some in Hf as (Hk & Hj & _). simpl in Hj. subst j'. simpl.
      assert (D' = D) as ->.
      { apply list_elem_of_lookup in Hin as [k' Hk'].
        assert (k = k') as -> by (eapply (NoDup_lookup A.*1); [done | | ]; by rewrite list_lookup_fmap, ?Hk, ?Hk').
        congruence. }
      do 2 f_equal. unfold since_update. rewrite Hc, Hl, Z.sub_diag. change (u32 0) with 0.
      f_equal. destruct (Z.ltb_spec 0 (Z.max 0 (D - T))); [|lia]. rewrite Z.sub_0_r. apply u32_id.
      unfold is_u32. split; [lia |]. destruct Hd as [_ Hb]. rewrite Hs, list.Forall_forall in Hb.
      apply (Hb (j, Z.max 0 (D - T))). unfold due_in. apply list_elem_of_fmap. by exists (j, D).
    + exfalso. apply list_find_None in Hf. rewrite list.Forall_forall in Hf. by apply (Hf _ Hin).
  - rewrite sum_until_None by (by rewrite Hids).
    destruct (list_find (fun e => e.1 = i) A) as [[k [j D]]|] eqn:Hf; [|done].
    apply list_find_Some in Hf as (Hk & <- & _). exfalso. apply Hout.
    apply list_elem_of_fmap. exists (j, D). split; [done | by eapply list_elem_of_lookup_2].
Qed.

(** ** Reachable states *)

(** The state of the driver after [sl_sleeptimer_init]. *)
Definition sl_sleeptimer_init (freq : Z) (s : sleeptimer) : status * sleeptimer :=
  if freq =? 0 then (INVALID_CONFIGURATION, set_clock 0 (clk s) (set_last 0 (set_timers [] s)))
  else (OK, mk_st (counter s) [] 0 0 (mk_clock 0 (overflow_tick_rest (clk s)) (tz_offset (clk s)))
              freq (comp s) (next_is_power_manager s) (sleep_on_isr_exit s)).

Section reachable.
Context `{Callbacks}.

(** Sequences of calls, time passing and overflow interrupts, with the table
    that specifies them.  Time may pass as long as the list is brought up to
    date within one turn of the counter, which the overflow interrupt does. *)
Inductive reach : Z -> Z -> table -> sleeptimer -> Prop :=
  | reach_init freq s0 s :
      counter s0 = 0 -> sl_sleeptimer_init freq s0 = (OK, s) -> reach 0 0 [] s
  | reach_tick T T0 A s d :
      reach T T0 A s -> 0 <= d -> T + d - T0 < 2 ^ 32 ->
      reach (T + d) T0 A (set_counter (u32 (counter s + d)) s)
  | reach_start T T0 A s s' i timeout prio flags cb :
      reach T T0 A s -> 0 < timeout < 2 ^ 32 ->
      sl_sleeptimer_start_timer i timeout prio flags cb s = (OK, s') ->
      reach T T (enter i (T + timeout) A) s'
  | reach_periodic T T0 A s s' i timeout prio flags cb :
      reach T T0 A s -> 0 < timeout < 2 ^ 32 ->
      sl_sleeptimer_start_periodic_timer i timeout prio flags cb s = (OK, s') ->
      reach T T (enter i (T + timeout) A) s'
  | reach_restart T T0 A s s' i timeout prio flags cb :
      reach T T0 A s -> 0 < timeout < 2 ^ 32 ->
      sl_sleeptimer_restart_timer i timeout prio flags cb s = (OK, s') ->
      reach T T (enter i (T + timeout) (leave i A)) s'
  | reach_restart_periodic T T0 A s s' i timeout prio flags cb :
      reach T T0 A s -> 0 < timeout < 2 ^ 32 ->
      sl_sleeptimer_restart_periodic_timer i timeout prio flags cb s = (OK, s') ->
      reach T T (enter i (T + timeout) (leave i A)) s'
  | reach_stop T T0 A s s' i r :
      reach T T0 A s -> sl_sleeptimer_stop_timer i s = (r, s') -> reach T T (leave i A) s'
  | reach_overflow T T0 A s : reach T T0 A s -> reach T T A (overflow_irq s).

Lemma leave_absent i A : i ∉ A.*1 -> leave i A = A.
Proof.
  induction A as [|[j E] A IH]; [done |]. rewrite fmap_cons, not_elem_of_cons. intros [Hj HA].
  unfold leave. rewrite filter_cons_True by (simpl in *; congruence). f_equal. by apply IH.
Qed.

Lemma stop_outcome T T0 A s i :
  rep T T0 A s -> armed A s ->
  exists s', sl_sleeptimer_stop_timer i s = (if decide (i ∈ A.*1) then OK else INVALID_STATE, s') /\
    rep T T (leave i A) s' /\ armed (leave i A) s'.
Proof.
  intros Hrep Harm. destruct (decide (i ∈ A.*1)) as [Hin | Hout].
  - by eapply stop_refines.
  - rewrite leave_absent by done. by eapply stop_not_running.
Qed.

Lemma overflow_refines T T0 A s : rep T T0 A s -> armed A s -> rep T T A (overflow_irq s) /\ armed A (overflow_irq s).
Proof.
  intros Hrep Harm. unfold overflow_irq. set (s1 := set_clock _ _ s).
  assert (rep T T0 A s1) as Hr1 by (by apply (rep_same _ _ _ _ _ Hrep)).
  assert (armed A s1) as Ha1 by done. clearbody s1.
  pose proof (update_refines _ _ _ _ Hr1) as Hup. assert (armed A (update_delta_list s1)) by done.
  destruct (timers (update_delta_list s1)) eqn:Ht; [by split |].
  destruct (set_comparator_refines _ _ _ _ Hup) as (? & ? & _); [by rewrite Ht | by split].
Qed.

Lemma reach_refines T T0 A s : reach T T0 A s -> rep T T0 A s /\ armed A s.
Proof.
  induction 1 as [freq s0 s Hc Hi | T T0 A s d _ [IHr IHa] Hd Hw | T T0 A s s' i to pr fl cb _ [IHr IHa] Hto Hs
    | T T0 A s s' i to pr fl cb _ [IHr IHa] Hto Hs | T T0 A s s' i to pr fl cb _ [IHr IHa] Hto Hs
    | T T0 A s s' i to pr fl cb _ [IHr IHa] Hto Hs | T T0 A s s' i r _ [IHr IHa] Hs | T T0 A s _ [IHr IHa]].
  - unfold sl_sleeptimer_init in Hi. destruct (freq =? 0); [done |]. injection Hi as <-.
    split; [|done]. split; simpl; try done; try lia; constructor.
  - split; [by apply rep_tick | done].
  - unfold sl_sleeptimer_start_timer in Hs. rewrite (running_refines _ _ _ _ _ IHr) in Hs.
    destruct (bool_decide_reflect (i ∈ A.*1)); [done |].
    edestruct (arm_refines T T0 A s i to 0) as (s1 & H1 & ? & ?); [done.. | by left |].
    rewrite H1 in Hs. by injection Hs as <-.
  - unfold sl_sleeptimer_start_periodic_timer in Hs. rewrite (running_refines _ _ _ _ _ IHr) in Hs.
    destruct (bool_decide_reflect (i ∈ A.*1)); [done |].
    edestruct (arm_refines T T0 A s i to to) as (s1 & H1 & ? & ?); [done.. | by right |].
    rewrite H1 in Hs. by injection Hs as <-.
  - unfold sl_sleeptimer_restart_timer in Hs. destruct (stop_outcome _ _ _ _ i IHr IHa) as (s0 & Hs0 & Hr0 & Ha0).
    rewrite Hs0 in Hs. edestruct (arm_refines T T (leave i A) s0 i to 0) as (s1 & H1 & ? & ?);
      [done | done | apply leave_notin | done | by left |]. rewrite H1 in Hs. by injection Hs as <-.
  - unfold sl_sleeptimer_restart_periodic_timer in Hs. destruct (stop_outcome _ _ _ _ i IHr IHa) as (s0 & Hs0 & Hr0 & Ha0).
    rewrite Hs0 in Hs. edestruct (arm_refines T T (leave i A) s0 i to to) as (s1 & H1 & ? & ?);
      [done | done | apply leave_notin | done | by right |]. rewrite H1 in Hs. by injection Hs as <-.
  - destruct (stop_outcome _ _ _ _ i IHr IHa) as (s0 & Hs0 & Hr0 & Ha0). rewrite Hs0 in Hs. by injection Hs as _ <-.
  - by eapply overflow_refines.
Qed.
End reachable.

(** ** Serving one expired timer *)

(** The next expected time of a periodic timer. *)
Definition next_expected (t : timer) : timer :=
  set_expected (u32 (timeout_expected_tc t + timeout_periodic t)) t.

Lemma change_fresh i f (l : list timer) : i ∉ (id <$> l) -> change_timer i f l = l.
Proof.
  unfold change_timer. induction l as [|t l IH]; [done |]. rewrite !fmap_cons, not_elem_of_cons.
  intros [Hne Hl]. destruct (Z.eqb_spec (id t) i); [congruence |]. by rewrite IH.
Qed.

Lemma change_insert h l : forall x, id h ∉ (id <$> l) ->
  change_timer (id h) next_expected (insert_after h x l) = insert_after (next_expected h) x l.
Proof.
  unfold change_timer. induction l as [|c l IH]; intros x Hnew; cbn [insert_after].
  - simpl. by rewrite Z.eqb_refl.
  - rewrite fmap_cons, not_elem_of_cons in Hnew. destruct Hnew as [Hne Hl].
    change (priority (next_expected h)) with (priority h).
    destruct (_ || _ || _); rewrite !fmap_cons.
    + destruct (Z.eqb_spec (id c) (id h)); [congruence |]. by rewrite IH.
    + simpl. rewrite Z.eqb_refl. destruct (Z.eqb_spec (id c) (id h)); [congruence |].
      do 2 f_equal. by apply change_fresh.
Qed.

(** The deadline of one timer moved by its period. *)
Definition advance (i P : Z) (A : table) : table :=
  (fun e => if e.1 =? i then (e.1, e.2 + P) else e) <$> A.

Lemma advance_fresh i P A : i ∉ A.*1 -> advance i P A = A.
Proof.
  unfold advance. induction A as [|[j E] A IH]; [done |]. rewrite !fmap_cons, not_elem_of_cons.
  intros [Hne HA]. simpl in *. destruct (Z.eqb_spec j i); [congruence |]. by rewrite IH.
Qed.

Lemma advance_perm i P D A :
  NoDup A.*1 -> (i, D) ∈ A -> advance i P A ≡ₚ (i, D + P) :: leave i A.
Proof.
  induction A as [|[j E] A IH]; intros Hnd Hin; [by apply not_elem_of_nil in Hin |].
  rewrite fmap_cons, list.NoDup_cons in Hnd. destruct Hnd as [Hj Hnd].
  unfold advance, leave. rewrite fmap_cons. simpl fst. apply elem_of_cons in Hin as [[= -> ->] | Hin].
  - rewrite Z.eqb_refl, filter_cons_False by (simpl; intros Hx; by apply Hx).
    change (_ <$> A) with (advance j P A). rewrite advance_fresh by done.
    change (filter _ A) with (leave j A). by rewrite leave_absent.
  - assert (j <> i) by (intros ->; apply Hj; by apply (list_elem_of_fmap_2 fst) in Hin).
    destruct (Z.eqb_spec j i); [done |]. rewrite filter_cons_True by done.
    change (_ <$> A) with (advance i P A). change (filter _ A) with (leave i A).
    rewrite IH by done. apply Permutation_swap.
Qed.

(** No time passes before the interrupt's readings. *)
Class Steady `{Callbacks} : Prop := no_passing s : passing s = 0.

Lemma later_steady `{Callbacks} `{!Steady} s : is_u32 (counter s) -> later s = s.
Proof. intros Hc. unfold later, tick. rewrite no_passing, Z.add_0_r, u32_id by done. by destruct s. Qed.

Section serving.
Context `{Callbacks} (T : Z) (A : table) (s : sleeptimer) (t : timer) (D : Z).
Hypothesis Hrep : rep T T A s.
Hypothesis Ht : t ∈ timers s.
Hypothesis HD : (id t, D) ∈ A.

Lemma unique_timer u : u ∈ timers s -> id u = id t -> u = t.
Proof using Hrep Ht.
  intros Hu Hid. apply list_elem_of_lookup in Hu as [k Hk], Ht as [k' Hk'].
  pose proof (rep_ids _ _ _ _ Hrep) as Hids. destruct Hrep as [_ _ _ _ _ Hn _].
  rewrite <- Hids in Hn. assert (k = k') as ->; [|congruence].
  eapply (NoDup_lookup (id <$> timers s) _ _ (id t)); [done | |]; rewrite list_lookup_fmap, ?Hk, ?Hk'; simpl; congruence.
Qed.

Lemma unique_deadline E : (id t, E) ∈ A -> E = D.
Proof using Hrep HD.
  intros HE. apply list_elem_of_lookup in HE as [k Hk], HD as [k' Hk'].
  destruct Hrep as [_ _ _ _ _ Hn _].
  assert (k = k') as ->; [|congruence].
  eapply (NoDup_lookup A.*1); [done | |]; rewrite list_lookup_fmap, ?Hk, ?Hk'; done.
Qed.

Lemma serve_one_shot :
  timeout_periodic t = 0 ->
  rep T T (leave (id t) A) (serve t s) /\
  erase <$> timers (serve t s) = filter (fun u => id u <> id t) (erase <$> timers s).
Proof using Hrep HD.
  intros Hp. unfold serve. rewrite Hp. simpl.
  destruct (remove_refines T A s (id t) Hrep) as (s' & -> & Hr & He & _); [|done].
  by apply (list_elem_of_fmap_2 fst) in HD.
Qed.

(** A periodic timer moves by exactly its period, however late it is served. *)
Lemma serve_periodic `{!Steady} :
  timeout_periodic t <> 0 -> D <= T -> T - D < 2 ^ 31 ->
  exists A', rep T T A' (serve t s) /\ A' ≡ₚ (id t, D + timeout_periodic t) :: leave (id t) A.
Proof using Hrep Ht HD.
  intros Hp HDT Hlate. pose proof (rep_ids _ _ _ _ Hrep) as Hids.
  pose proof (rep_rhythm _ _ _ _ Hrep) as Hrh. rewrite list.Forall_forall in Hrh.
  destruct (Hrh t Ht Hp) as [HP Hexp]. specialize (Hexp D HD). unfold serve.
  destruct (Z.eqb_spec (timeout_periodic t) 0); [done |].
  rewrite later_steady by (rewrite (rep_counter _ _ _ _ Hrep); apply u32_range).
  rewrite (rep_counter _ _ _ _ Hrep), Hexp, u32_diff, s32_id by (unfold is_s32; lia). cbv zeta.
  change (change_timer (id t) _) with (change_timer (id t) next_expected).
  destruct (Z.ltb_spec (timeout_periodic t) (T - D)) as [Hskip | Hstay].
  - exists (advance (id t) (timeout_periodic t) A). split; [|by apply advance_perm; [apply Hrep |]].
    assert ((advance (id t) (timeout_periodic t) A).*1 = A.*1) as Hfst.
    { unfold advance. rewrite <- list_fmap_compose. apply list_fmap_ext. intros k [j E] _. simpl.
      by destruct (j =? id t). }
    destruct Hrep as [Hc Hl Htm Hs Hd Hn Hr].
    assert (sums 0 (change_timer (id t) next_expected (timers s)) = sums 0 (timers s)) as Hsums.
    { generalize 0. generalize (timers s). intros l. induction l as [|u l IH]; intros a; [done |].
      unfold change_timer in *. rewrite fmap_cons. cbn [sums].
      destruct (id u =? id t); simpl; by rewrite IH. }
    split; simpl; try done.
    + rewrite Hsums, Hs. unfold due_in, advance. rewrite <- list_fmap_compose. apply list_fmap_ext.
      intros k [j E] Hk. simpl. destruct (Z.eqb_spec j (id t)) as [-> |]; [|done]. f_equal.
      apply list_elem_of_lookup_2, unique_deadline in Hk. subst E. lia.
    + split; [|by rewrite Hsums; apply Hd]. unfold change_timer. rewrite Forall_fmap.
      eapply list.Forall_impl; [apply Hd |]. intros u Hu. simpl. by destruct (id u =? id t).
    + by rewrite Hfst.
    + apply list.Forall_forall. intros u' (u & -> & Hu)%list_elem_of_fmap.
      destruct (Z.eqb_spec (id u) (id t)) as [Hid | Hid].
      * apply unique_timer in Hid as ->; [|done]. intros _. split; [done |]. simpl. intros E HE.
        rewrite (advance_perm _ _ D), elem_of_cons in HE by done.
        destruct HE as [[= ->] | HE]; [by rewrite Hexp, u32_add |].
        exfalso. apply (leave_notin (id t) A). by apply (list_elem_of_fmap_2 fst) in HE.
      * intros Hpu. destruct (Hrh u Hu Hpu) as [HPu HEu]. split; [done |]. intros E HE.
        rewrite (advance_perm _ _ D), elem_of_cons in HE by done.
        destruct HE as [[= ? _] | HE]; [done |]. apply HEu. by eapply leave_sub.
  - exists (enter (id t) (D + timeout_periodic t) (leave (id t) A)). split; [|apply enter_perm].
    destruct (remove_refines T A s (id t) Hrep) as (s1 & Hs1 & Hr1 & _).
    { by apply (list_elem_of_fmap_2 fst) in HD. }
    rewrite Hs1. simpl snd. rewrite u32_id by (unfold is_u32; lia).
    pose proof (insert_refines T (leave (id t) A) s1 (next_expected t) (D + timeout_periodic t) Hr1) as Hins.
    assert (set_timers (change_timer (id t) next_expected
              (timers (delta_list_insert_timer t (timeout_periodic t - (T - D)) s1)))
              (delta_list_insert_timer t (timeout_periodic t - (T - D)) s1)
            = delta_list_insert_timer (next_expected t) (D + timeout_periodic t - T) s1) as ->.
    { unfold delta_list_insert_timer. simpl. rewrite change_insert.
      2:{ rewrite (rep_ids _ _ _ _ Hr1). apply leave_notin. }
      by replace (D + timeout_periodic t - T) with (timeout_periodic t - (T - D)) by lia. }
    apply Hins; simpl; [apply leave_notin | lia | lia |].
    intros _. split; [done |]. intros E HE. apply list_elem_of_singleton in HE. injection HE as ->.
    cbn [next_expected set_expected timeout_expected_tc]. by rewrite Hexp, u32_add.
Qed.
End serving.

(** ** The timers that are due *)

Fixpoint due_prefix (l : list timer) : list timer :=
  match l with
  | t :: l => if delta t =? 0 then t :: due_prefix l else []
  | [] => []
  end.

Lemma due_prefix_sub l t : t ∈ due_prefix l -> t ∈ l.
Proof.
  induction l as [|u l IH]; simpl; [done |]. destruct (delta u =? 0); [|by intros ?%not_elem_of_nil].
  rewrite !elem_of_cons. tauto.
Qed.

Lemma due_prefix_sums l i :
  Forall (fun t => 0 <= delta t) l -> (i, 0) ∈ sums 0 l <-> i ∈ id <$> due_prefix l.
Proof.
  intros Hl. induction l as [|t l IH]; cbn [sums due_prefix].
  { split; by intros ?%not_elem_of_nil. }
  apply list.Forall_cons in Hl as [Ht Hl]. rewrite elem_of_cons, Z.add_0_l.
  destruct (Z.eqb_spec (delta t) 0) as [Hz | Hnz].
  - rewrite Hz, fmap_cons, elem_of_cons, <- IH by done. split; (intros [Hx | Hx]; [left | by right]); congruence.
  - split; [|by intros ?%not_elem_of_nil]. intros [[= _ Hx] | Hx]; [congruence |].
    pose proof (sums_ge (delta t) l Hl) as Hg. rewrite list.Forall_forall in Hg.
    apply Hg in Hx. simpl in Hx. lia.
Qed.

Lemma select_due_spec l : forall c,
  (select_due c l = c \/ select_due c l ∈ due_prefix l) /\
  priority (select_due c l) <= priority c /\
  forall u, u ∈ due_prefix l -> priority (select_due c l) <= priority u.
Proof.
  induction l as [|t l IH]; intros c; simpl.
  { split; [by left |]. split; [lia |]. by intros u ?%not_elem_of_nil. }
  destruct (delta t =? 0).
  2:{ split; [by left |]. split; [lia |]. by intros u ?%not_elem_of_nil. }
  destruct (IH (if priority t <? priority c then t else c)) as (H1 & H2 & H3).
  destruct (Z.ltb_spec (priority t) (priority c)).
  - split; [right; rewrite elem_of_cons; tauto |]. split; [lia |].
    intros u [-> | Hu]%elem_of_cons; [done | by apply H3].
  - split; [destruct H1 as [-> | H1]; [by left | right; rewrite elem_of_cons; by right] |]. split; [lia |].
    intros u [-> | Hu]%elem_of_cons; [lia | by apply H3].
Qed.

Section due.
Context (T : Z) (A : table) (s : sleeptimer).
Hypothesis Hrep : rep T T A s.

Lemma due_in_prefix i : (exists D, (i, D) ∈ A /\ D <= T) <-> i ∈ id <$> due_prefix (timers s).
Proof using Hrep.
  destruct Hrep as [_ _ _ Hs [Hd _] _ _]. rewrite <- due_prefix_sums by done. rewrite Hs.
  unfold due_in. rewrite list_elem_of_fmap. split.
  - intros (D & Hin & HD). exists (i, D). split; [f_equal; lia | done].
  - intros ([j D] & [= -> Hmax] & Hin). exists D. split; [done | lia].
Qed.

Lemma nothing_due : due_prefix (timers s) = [] -> Forall (fun e => T < e.2) A.
Proof using Hrep.
  intros Hnil. apply list.Forall_forall. intros [i D] Hin. simpl.
  destruct (Z.lt_ge_cases T D) as [| Hge]; [done |]. exfalso.
  assert (i ∈ id <$> due_prefix (timers s)) as Hx by (apply due_in_prefix; by exists D).
  rewrite Hnil in Hx. by apply not_elem_of_nil in Hx.
Qed.

(** The timer selected is due, and none that is due has a higher priority. *)
Lemma selected_due t rest :
  timers s = t :: rest -> delta t = 0 ->
  let c := select_due t (t :: rest) in
  c ∈ timers s /\ (exists D, (id c, D) ∈ A /\ D <= T) /\
  forall u, u ∈ timers s -> (exists D, (id u, D) ∈ A /\ D <= T) -> priority c <= priority u.
Proof using Hrep.
  intros Hts Hz c. destruct (select_due_spec (t :: rest) t) as (Hin & _ & Hmin). fold c in Hin, Hmin.
  assert (c ∈ due_prefix (timers s)) as Hc.
  { rewrite Hts. destruct Hin as [-> | Hin]; [|done]. simpl. rewrite Hz. apply list_elem_of_here. }
  split; [by apply due_prefix_sub |]. split.
  { apply due_in_prefix. by apply (list_elem_of_fmap_2 id). }
  intros u Hu Hdue. apply due_in_prefix, list_elem_of_fmap in Hdue as (v & Hid & Hv).
  rewrite <- Hts in Hmin. apply Hmin.
  assert (u = v) as ->; [|done]. apply (unique_timer T A s v Hrep (due_prefix_sub _ _ Hv) u Hu Hid).
Qed.
End due.

(** ** Expiry, as seen in the table *)

(** Timers served one after the other, each due at its time: a one-shot leaves
    the table, a periodic one moves by its period. *)
Inductive served : Z -> table -> list timer -> Z -> table -> Prop :=
  | served_nil T A : served T A [] T A
  | served_cons T A t l D T1 A1 T' A' :
      (id t, D) ∈ A -> D <= T <= T1 ->
      A1 ≡ₚ (if timeout_periodic t =? 0 then leave (id t) A
             else (id t, D + timeout_periodic t) :: leave (id t) A) ->
      served T1 A1 l T' A' -> served T A (t :: l) T' A'.

(** Callbacks that use no timers and take at most [eps] ticks, and at most [eps]
    ticks before a reading. *)
Class Leisurely `{Callbacks} (eps : Z) : Prop := {
  callback_time t s : is_u32 (counter s) -> exists d, 0 <= d <= eps /\ run_callback t s = tick d s;
  passing_time s : 0 <= passing s <= eps }.

Section expiry.
Context `{Callbacks} (eps : Z) `{!Leisurely eps}.
Hypothesis Heps : 0 <= eps < 2 ^ 31.

(** A reading brings the list up to date; the table is the same. *)
Lemma reading_refines T T0 A s :
  rep T T0 A s -> T + eps - T0 < 2 ^ 32 ->
  exists T1, T <= T1 <= T + eps /\ (Steady -> T1 = T) /\ rep T1 T1 A (update_delta_list (later s)).
Proof using Leisurely0.
  intros Hrep Hw. pose proof (passing_time s) as Hp. exists (T + passing s). split; [lia |].
  split; [intros Hs; rewrite (no_passing s); lia |]. unfold later.
  eapply update_refines, rep_tick; [done | lia | lia].
Qed.

(** After the callback and the update, time has passed and the table is the same. *)
Lemma callback_refines T A s t :
  rep T T A s ->
  exists T1, T <= T1 <= T + 2 * eps /\ (Steady -> T1 <= T + eps) /\
    rep T1 T1 A (update_delta_list (later (if has_callback t then run_callback t s else s))).
Proof using Leisurely0 Heps.
  intros Hrep. destruct (has_callback t).
  - destruct (callback_time t s) as (d & Hd & ->); [rewrite (rep_counter _ _ _ _ Hrep); apply u32_range |].
    destruct (reading_refines (T + d) T A (tick d s)) as (T1 & HT1 & Hs & Hr); [apply rep_tick; (done || lia) | lia |].
    exists T1. split; [lia |]. split; [intros Hst; specialize (Hs Hst); lia | done].
  - destruct (reading_refines T T A s Hrep) as (T1 & HT1 & Hs & Hr); [lia |].
    exists T1. split; [lia |]. split; [intros Hst; specialize (Hs Hst); lia | done].
Qed.

Lemma callback_timers s t :
  is_u32 (counter s) ->
  erase <$> timers (update_delta_list (later (if has_callback t then run_callback t s else s))) = erase <$> timers s.
Proof using Leisurely0.
  intros Hc. unfold update_delta_list, later, tick. simpl. rewrite erase_elapse. destruct (has_callback t); [|done].
  by destruct (callback_time t s) as (d & _ & ->).
Qed.

Section rhythm.
Context {Hst : Steady}.

Lemma serve_refines T A s t D :
  rep T T A s -> t ∈ timers s -> (id t, D) ∈ A -> D <= T -> T - D < 2 ^ 31 ->
  exists A', rep T T A' (serve t s) /\
    A' ≡ₚ (if timeout_periodic t =? 0 then leave (id t) A
           else (id t, D + timeout_periodic t) :: leave (id t) A).
Proof using Hst.
  intros Hrep Ht HD HDT Hlate. destruct (Z.eqb_spec (timeout_periodic t) 0) as [Hp | Hp].
  - exists (leave (id t) A). split; [|done]. by eapply serve_one_shot.
  - by eapply serve_periodic.
Qed.

Lemma expire_loop_refines fuel : forall log s T A log' s',
  rep T T A s -> Forall (fun e => T + Z.of_nat fuel * eps - e.2 < 2 ^ 31) A ->
  expire_loop fuel log s = Some (log', s') ->
  exists l T' A', log' = log ++ l /\ served T A l T' A' /\ rep T' T' A' s' /\
    Forall (fun e => T' < e.2) A'.
Proof using Leisurely0 Heps Hst.
  induction fuel as [|fuel IH]; intros log s T A log' s' Hrep Hlate Hrun; cbn [expire_loop] in Hrun;
    destruct (timers s) as [|t rest] eqn:Hts.
  1,3: injection Hrun as <- <-; exists [], T, A; rewrite app_nil_r; split; [done |]; split; [constructor |];
       split; [done |]; apply (nothing_due T A s Hrep); by rewrite Hts.
  all: destruct (Z.eqb_spec (delta t) 0) as [Hz | Hnz].
  1: done.
  1,3: injection Hrun as <- <-; exists [], T, A; rewrite app_nil_r; split; [done |]; split; [constructor |];
       split; [done |]; apply (nothing_due T A s Hrep); rewrite Hts; simpl; by destruct (Z.eqb_spec (delta t) 0).
  destruct (selected_due T A s Hrep t rest Hts Hz) as (Hc & (D & HD & HDT) & _).
  set (c := select_due t (t :: rest)) in *.
  rewrite list.Forall_forall in Hlate. pose proof (Hlate _ HD) as HlD. cbn [snd] in HlD.
  destruct (serve_refines T A s c D Hrep Hc HD HDT) as (A1 & Hr1 & HA1); [nia |].
  destruct (callback_refines T A1 (serve c s) c Hr1) as (T1 & [HT1 _] & HT1' & Hr2). specialize (HT1' _).
  assert (Forall (fun e => T1 + Z.of_nat fuel * eps - e.2 < 2 ^ 31) A1) as Hlate1.
  { apply list.Forall_forall. intros [j E] HE. simpl. rewrite HA1 in HE.
    assert (exists E', E' <= E /\ ((j, E') ∈ A)) as (E' & HE' & Hin).
    { destruct (Z.eqb_spec (timeout_periodic c) 0); [exists E; split; [lia | by eapply leave_sub] |].
      apply elem_of_cons in HE as [[= -> ->] | HE]; [exists D | exists E; split; [lia | by eapply leave_sub]].
      split; [|done]. pose proof (rep_rhythm _ _ _ _ Hrep) as Hrh. rewrite list.Forall_forall in Hrh.
      destruct (Hrh c Hc) as [? _]; [done | lia]. }
    specialize (Hlate _ Hin). cbn [snd] in Hlate. rewrite Nat2Z.inj_succ, Z.mul_succ_l in Hlate. lia. }
  destruct (IH _ _ T1 A1 _ _ Hr2 Hlate1 Hrun) as (l & T' & A' & -> & Hsv & Hr' & Hnd).
  exists (c :: l), T', A'. split; [by rewrite <- app_assoc |].
  split; [|done]. apply (served_cons T A c l D T1 A1 T' A'); [exact HD | lia | exact HA1 | exact Hsv].
Qed.
End rhythm.
End expiry.

Lemma leave_perm i D A : NoDup A.*1 -> (i, D) ∈ A -> A ≡ₚ (i, D) :: leave i A.
Proof.
  intros Hn Hin.
  pose proof (advance_perm i 0 D A Hn Hin) as Hp. rewrite Z.add_0_r in Hp. rewrite <- Hp.
  unfold advance. replace ((fun e => _) <$> A) with A; [done |].
  rewrite <- (list_fmap_id A) at 1. apply list_fmap_ext. intros k [j E] _. simpl.
  destruct (j =? i); [by rewrite Z.add_0_r | done].
Qed.

Lemma filter_leave (P : Z * Z -> Prop) `{!forall e, Decision (P e)} i A :
  (forall e, e ∈ A -> e.1 = i -> ~ P e) -> filter P (leave i A) = filter P A.
Proof.
  unfold leave. induction A as [|[j E] A IH]; intros Hno; [done |].
  assert (filter P (filter (fun e => e.1 <> i) A) = filter P A) as IH'
    by (apply IH; intros e He; apply Hno; by apply list_elem_of_further).
  destruct (decide (j = i)) as [-> | Hne].
  - rewrite (filter_cons_False _ (i, E) A) by (simpl; intros Hx; by apply Hx).
    rewrite (filter_cons_False P (i, E)) by (apply Hno; [apply list_elem_of_here | done]). done.
  - rewrite (filter_cons_True _ (j, E) A) by done.
    destruct (decide (P (j, E))).
    + rewrite !(filter_cons_True P) by done. by rewrite IH'.
    + rewrite !(filter_cons_False P) by done. done.
Qed.

(** What the interrupt leaves the comparator in. *)
Definition rearm (s : sleeptimer) : sleeptimer :=
  match timers s with [] => disable_comparator s | _ :: _ => set_comparator_for_next_timer s end.

Definition waits_for (A : table) (s : sleeptimer) : Prop :=
  match A with
  | [] => comp_enabled (comp s) = false
  | (_, D) :: _ => comp_enabled (comp s) = true /\ comp_value (comp s) = u32 D
  end.

Lemma rearm_refines T A s :
  rep T T A s -> Forall (fun e => T < e.2) A -> rep T T A (rearm s) /\ waits_for A (rearm s).
Proof.
  intros Hrep Hlate. pose proof (rep_head _ _ _ _ Hrep) as Hh. unfold rearm.
  destruct (timers s) as [|t l] eqn:Hts; destruct A as [|[i D] A]; try done.
  - split; [by apply (rep_same _ _ _ _ _ Hrep) | done].
  - destruct (set_comparator_refines _ _ _ _ Hrep) as (Hr & _ & _); [by rewrite Hts |].
    split; [done |]. destruct Hh as [_ Hd]. apply list.Forall_cons in Hlate as [HD _]. simpl in HD.
    unfold set_comparator_for_next_timer. rewrite Hts.
    destruct (Z.ltb_spec 0 (delta t)); [|lia]. simpl. split; [done |].
    rewrite (rep_last _ _ _ _ Hrep), u32_add. f_equal. lia.
Qed.

(** In the log [l], whoever was due at [T] comes after nobody of less priority. *)
Definition by_priority (T : Z) (A : table) (l : list timer) : Prop :=
  forall l1 t l2 u D, l = l1 ++ t :: l2 -> u ∈ l2 -> (id u, D) ∈ A -> D <= T -> priority t <= priority u.

(** What serving one-shot timers until [T'] does: who was due is called, the
    others stay. *)
Record one_shots_served (T T' : Z) (A : table) (s : sleeptimer) (l : list timer) (s' : sleeptimer) : Prop := {
  os_table : rep T' T' (filter (fun e => T' < e.2) A) s';
  os_called : id <$> l ≡ₚ (filter (fun e => e.2 <= T') A).*1;
  os_order : by_priority T A l;
  os_from : Forall (fun t => t ∈ erase <$> timers s) (erase <$> l) }.

Lemma filter_late T A : Forall (fun e : Z * Z => T < e.2) A -> filter (fun e => T < e.2) A = A.
Proof. intros HA. induction HA as [|e A He HA IH]; [done |]. by rewrite filter_cons_True, IH. Qed.

Lemma filter_due_none T A : Forall (fun e : Z * Z => T < e.2) A -> filter (fun e => e.2 <= T) A = [].
Proof. intros HA. induction HA as [|e A He HA IH]; [done |]. rewrite filter_cons_False; [done | lia]. Qed.

Lemma nobody_served T A s : rep T T A s -> due_prefix (timers s) = [] -> one_shots_served T T A s [] s.
Proof.
  intros Hrep Hnil. pose proof (nothing_due T A s Hrep Hnil) as Hl.
  split; [by rewrite filter_late | by rewrite filter_due_none | by intros [] | constructor].
Qed.

(** One timer served at [T], the others from [T1] on. *)
Lemma one_more_served T T1 T' A s c D s1 l s' :
  rep T T A s -> c ∈ timers s -> (id c, D) ∈ A -> D <= T <= T1 -> T1 <= T' ->
  (forall u, u ∈ timers s -> (exists D, (id u, D) ∈ A /\ D <= T) -> priority c <= priority u) ->
  (forall u, u ∈ erase <$> timers s1 -> u ∈ erase <$> timers s) ->
  one_shots_served T1 T' (leave (id c) A) s1 l s' -> one_shots_served T T' A s (c :: l) s'.
Proof.
  intros Hrep Hc HD HDT HT' Hmin Hsub [Htab Hcall Hord Hfrom].
  assert (forall e, e ∈ A -> e.1 = id c -> e.2 = D) as Huniq.
  { intros [j E] He Hj. simpl in *. subst j. by apply (unique_deadline T A s c D Hrep HD). }
  rewrite list.Forall_forall in Hfrom. split.
  - rewrite <- (filter_leave (fun e => T' < e.2) (id c) A); [done |].
    intros e He Hj Hx. rewrite (Huniq e He Hj) in Hx. lia.
  - rewrite (leave_perm (id c) D A (rep_nodup _ _ _ _ Hrep) HD), filter_cons_True by (simpl; lia).
    rewrite !fmap_cons. simpl. by rewrite Hcall.
  - intros l1 t l2 u E Hl Hu HE HET. destruct l1 as [|c' l1]; injection Hl as <- Hl.
    + assert (erase u ∈ erase <$> timers s) as Hin by (apply Hsub, Hfrom; rewrite Hl; by apply (list_elem_of_fmap_2 erase)).
      apply list_elem_of_fmap in Hin as (v & Hv & Hin). change (priority u) with (priority (erase u)). rewrite Hv.
      apply (Hmin v Hin). exists E. change (id v) with (id (erase v)). by rewrite <- Hv.
    + apply (Hord l1 t l2 u E Hl Hu); [|lia]. unfold leave. apply list_elem_of_filter. split; [|done]. simpl.
      intros Hid. assert (id u ∈ id <$> l) as Hx by (apply (list_elem_of_fmap_2 id); rewrite Hl, elem_of_app, elem_of_cons; auto).
      rewrite Hcall in Hx. apply list_elem_of_fmap in Hx as (e & He1 & He). apply list_elem_of_filter in He as [_ He].
      apply (leave_notin (id c) A), list_elem_of_fmap. exists e. split; [congruence | done].
  - rewrite fmap_cons. constructor; [by apply erase_elem |]. apply list.Forall_forall. intros u Hu. by apply Hsub, Hfrom.
Qed.

Lemma one_shots_erased (l l' : list timer) :
  (forall u, u ∈ erase <$> l' -> u ∈ erase <$> l) ->
  Forall (fun t => timeout_periodic t = 0) l -> Forall (fun t => timeout_periodic t = 0) l'.
Proof.
  intros Hsub Hl. apply list.Forall_forall. intros u Hu. apply erase_elem, Hsub, list_elem_of_fmap in Hu as (v & Hv & Hin).
  rewrite list.Forall_forall in Hl. change (timeout_periodic u) with (timeout_periodic (erase u)).
  rewrite Hv. by apply (Hl v).
Qed.

Section one_shot.
Context `{Callbacks} (eps : Z) `{!Leisurely eps}.
Hypothesis Heps : 0 <= eps < 2 ^ 31.

Lemma expire_one_shot fuel : forall log s T A,
  rep T T A s -> Forall (fun t => timeout_periodic t = 0) (timers s) -> (length (timers s) <= fuel)%nat ->
  exists l s' T', expire_loop fuel log s = Some (log ++ l, s') /\
    T <= T' <= T + Z.of_nat (length (timers s)) * (2 * eps) /\ one_shots_served T T' A s l s'.
Proof using Leisurely0 Heps.
  induction fuel as [|fuel IH]; intros log s T A Hrep Hos Hlen; cbn [expire_loop];
    destruct (timers s) as [|t rest] eqn:Hts.
  1,3: exists [], s, T; rewrite app_nil_r; split; [done |]; split; [lia |]; apply nobody_served; [done | by rewrite Hts].
  all: destruct (Z.eqb_spec (delta t) 0) as [Hz | Hnz].
  1: simpl in Hlen; lia.
  1,3: exists [], s, T; rewrite app_nil_r; split; [done |]; split; [lia |]; apply nobody_served; [done |];
       rewrite Hts; simpl; by destruct (Z.eqb_spec (delta t) 0).
  destruct (selected_due T A s Hrep t rest Hts Hz) as (Hc & (D & HD & HDT) & Hmin).
  set (c := select_due t (t :: rest)) in *. rewrite <- Hts in *.
  assert (timeout_periodic c = 0) as Hpc by (rewrite list.Forall_forall in Hos; by apply Hos).
  destruct (serve_one_shot T A s c D Hrep HD Hpc) as [Hr1 He1].
  destruct (callback_refines eps Heps T (leave (id c) A) (serve c s) c Hr1) as (T1 & HT1 & _ & Hr2).
  pose proof (callback_timers eps (serve c s) c) as He2. rewrite (rep_counter _ _ _ _ Hr1) in He2.
  specialize (He2 (u32_range _)). set (s1 := update_delta_list _) in *.
  assert (forall u, u ∈ erase <$> timers s1 -> u ∈ erase <$> timers s) as Hsub.
  { intros u. rewrite He2, He1, list_elem_of_filter. by intros [_ ?]. }
  assert (length (timers s) = S (length (timers s1))) as Hn.
  { pose proof (rep_ids _ _ _ _ Hr2) as Hi2. pose proof (rep_ids _ _ _ _ Hrep) as Hi.
    apply (f_equal length) in Hi, Hi2. rewrite !length_fmap in Hi, Hi2.
    pose proof (leave_perm (id c) D A (rep_nodup _ _ _ _ Hrep) HD) as Hperm.
    apply Permutation_length in Hperm. simpl in Hperm. lia. }
  destruct (IH (log ++ [c]) s1 T1 (leave (id c) A) Hr2) as (l & s' & T' & Hrun & HT' & Hsv);
    [by eapply one_shots_erased | lia |].
  exists (c :: l), s', T'. rewrite Hrun, <- app_assoc. split; [done |]. split; [nia |].
  by apply (one_more_served T T1 T' A s c D s1 l s'); [| | | lia | lia | | |].
Qed.
End one_shot.

(** ** Ticks, milliseconds and the wall clock *)

(** [overflow_counter] and the counter as one number; [pending] is an overflow
    interrupt not served yet. *)
Definition sl_sleeptimer_get_tick_count64 (pending : bool) (s : sleeptimer) : Z :=
  let of_cnt := if pending then u32 (overflow_counter s + 1) else overflow_counter s in
  Z.shiftl of_cnt 32 .| counter s.

Definition sl_sleeptimer_ms_to_tick (freq time_ms : Z) : Z := u32 (u32 (time_ms * freq) + 999) / 1000.

Definition max_millisecond_conversion (freq : Z) : Z := u32 (UINT32_MAX * 1000 / freq).

Definition sl_sleeptimer_ms32_to_tick (freq time_ms : Z) : status * option Z :=
  if time_ms <=? max_millisecond_conversion freq
  then (OK, Some (u32 ((time_ms * freq + 999) / 1000)))
  else (INVALID_PARAMETER, None).

(** [31 - __CLZ(div)] is the position of the highest bit. *)
Definition div_to_log2 (div : Z) : Z := 31 - (31 - Z.log2 div).
Definition is_power_of_2 (nbr : Z) : bool := negb (nbr =? 0) && (nbr .& (nbr - 1) =? 0).

Definition sl_sleeptimer_tick_to_ms (freq tick : Z) : Z :=
  if negb (freq =? 0) then
    if is_power_of_2 freq then u32 (Z.shiftr (tick * 1000) (div_to_log2 freq))
    else u32 (tick * 1000 / freq)
  else 0.

Definition sl_sleeptimer_tick64_to_ms (freq tick : Z) : status * option Z :=
  if (tick <=? (2 ^ 64 - 1) / 1000) && negb (freq =? 0) then
    (OK, Some (if is_power_of_2 freq then Z.shiftr (tick * 1000) (div_to_log2 freq)
               else tick * 1000 / freq))
  else (INVALID_PARAMETER, None).

Lemma power_of_2_log2 n : 0 < n -> is_power_of_2 n = true -> n = 2 ^ Z.log2 n.
Proof.
  unfold is_power_of_2. intros Hn [_ Hl]%andb_true_iff. apply Z.eqb_eq in Hl.
  pose proof (Z.log2_spec n Hn) as Hs. destruct (decide (n = 2 ^ Z.log2 n)) as [| Hne]; [done |].
  exfalso. apply (f_equal (fun z => Z.testbit z (Z.log2 n))) in Hl.
  rewrite Z.land_spec, Z.bits_0, Z.bit_log2 in Hl by done.
  assert (Z.log2 (n - 1) = Z.log2 n) as Hlog by (apply Z.log2_unique; [apply Z.log2_nonneg | lia]).
  rewrite <- Hlog, Z.bit_log2 in Hl; [done |].
  pose proof (Z.pow_pos_nonneg 2 (Z.log2 n) ltac:(lia) (Z.log2_nonneg n)). lia.
Qed.

Lemma log2_shift freq x : 0 < freq -> is_power_of_2 freq = true -> Z.shiftr x (div_to_log2 freq) = x / freq.
Proof.
  intros Hf Hp. unfold div_to_log2. replace (31 - (31 - Z.log2 freq)) with (Z.log2 freq) by lia.
  rewrite Z.shiftr_div_pow2 by apply Z.log2_nonneg. by rewrite <- power_of_2_log2.
Qed.

Lemma tick_to_ms_exact freq tick :
  0 < freq -> sl_sleeptimer_tick_to_ms freq tick = u32 (tick * 1000 / freq).
Proof.
  intros Hf. unfold sl_sleeptimer_tick_to_ms. destruct (Z.eqb_spec freq 0); [lia |]. cbn [negb].
  destruct (is_power_of_2 freq) eqn:Hp; [|done]. by rewrite log2_shift.
Qed.

(** Milliseconds are rounded up, and what is accepted does not overflow. *)
Lemma ms32_to_tick_exact freq ms tick :
  0 < freq < 2 ^ 32 -> 0 <= ms -> sl_sleeptimer_ms32_to_tick freq ms = (OK, Some tick) ->
  1000 * (tick - 1) < ms * freq <= 1000 * tick /\ is_u32 tick.
Proof.
  unfold sl_sleeptimer_ms32_to_tick, max_millisecond_conversion. intros Hf Hms.
  destruct (Z.leb_spec ms (u32 (UINT32_MAX * 1000 / freq))) as [Hle |]; [|done]. intros [= <-].
  assert (ms * freq <= UINT32_MAX * 1000) as Hb.
  { assert (u32 (UINT32_MAX * 1000 / freq) <= UINT32_MAX * 1000 / freq) as Hu.
    { apply Z.mod_le; [|lia]. apply Z.div_pos; unfold UINT32_MAX; lia. }
    pose proof (Z.mul_div_le (UINT32_MAX * 1000) freq). nia. }
  unfold UINT32_MAX in Hb.
  assert (0 <= (ms * freq + 999) / 1000 < 2 ^ 32) as Hr.
  { split; [apply Z.div_pos; nia |]. apply Z.div_lt_upper_bound; lia. }
  rewrite u32_id by done. split; [|done].
  pose proof (Z.div_mod (ms * freq + 999) 1000). pose proof (Z.mod_pos_bound (ms * freq + 999) 1000). lia.
Qed.

Lemma tick_count64_value s :
  is_u32 (counter s) -> 0 <= overflow_counter s ->
  sl_sleeptimer_get_tick_count64 false s = overflow_counter s * 2 ^ 32 + counter s.
Proof. intros Hc Ho. unfold sl_sleeptimer_get_tick_count64. by rewrite shiftl_lor_add. Qed.

(** The ticks a clock stands for, with the counter at [cnt]. *)
Definition clock_ticks (freq cnt : Z) (c : clock) : Z :=
  second_count c * freq + overflow_tick_rest c + cnt.

Lemma get_time_ticks freq cnt c :
  0 < freq <= 2 ^ 31 -> 0 <= cnt < 2 ^ 32 -> 0 <= overflow_tick_rest c < freq -> 0 <= second_count c ->
  clock_ticks freq cnt c / freq < 2 ^ 32 ->
  sl_sleeptimer_get_time cnt freq c = clock_ticks freq cnt c / freq.
Proof.
  intros Hf Hc Hr Hs Hmx. unfold sl_sleeptimer_get_time, clock_ticks in *.
  pose proof (Z.div_mod cnt freq). pose proof (Z.mod_pos_bound cnt freq).
  assert (0 <= cnt / freq) by (apply Z.div_pos; lia).
  set (q := cnt / freq) in *. set (r := cnt mod freq) in *.
  replace (second_count c * freq + overflow_tick_rest c + cnt)
    with (overflow_tick_rest c + r + (second_count c + q) * freq) in * by lia.
  rewrite Z.div_add in * by lia.
  rewrite (u32_id (r + _)) by (unfold is_u32; lia).
  destruct (Z.leb_spec freq (r + overflow_tick_rest c)) as [Hge | Hlt].
  - assert ((overflow_tick_rest c + r) / freq = 1) as E
      by (symmetry; apply Z.div_unique with (overflow_tick_rest c + r - freq); lia).
    rewrite E in *. rewrite (u32_id (second_count c + q)), u32_id by (unfold is_u32; lia). lia.
  - rewrite (Z.div_small (_ + r)) in * by lia. rewrite u32_id by (unfold is_u32; lia). lia.
Qed.

Lemma clock_overflow_exact freq c :
  0 < freq <= 2 ^ 31 -> 0 <= overflow_tick_rest c < freq -> 0 <= second_count c ->
  second_count c + 2 ^ 32 / freq + 1 < 2 ^ 32 ->
  clock_ticks freq 0 (clock_overflow freq c) = clock_ticks freq (2 ^ 32) c /\
  0 <= overflow_tick_rest (clock_overflow freq c) < freq.
Proof.
  intros Hf Hr Hs Hmx. unfold clock_overflow, clock_ticks.
  pose proof (Z.div_mod (2 ^ 32) freq). pose proof (Z.mod_pos_bound (2 ^ 32) freq).
  assert (0 <= 2 ^ 32 / freq) by (apply Z.div_pos; lia).
  set (q := 2 ^ 32 / freq) in *. set (r := 2 ^ 32 mod freq) in *.
  rewrite (u32_id q) by (unfold is_u32; lia).
  rewrite (u32_id (overflow_tick_rest c + r)) by (unfold is_u32; lia).
  destruct (Z.leb_spec freq (overflow_tick_rest c + r)); simpl.
  - rewrite (u32_id (second_count c + 1)), (u32_id (_ - freq)), u32_id by (unfold is_u32; lia). nia.
  - rewrite u32_id by (unfold is_u32; lia). nia.
Qed.

(** ** Theorems *)

(** C16: The delta list is a faithful table of absolute deadlines: after any
    sequence of starts, restarts and stops, with time passing and the counter
    wrapping around, a timer is reported running exactly when it is in the
    table, its remaining time is the distance to its deadline (zero when
    overdue), timers are kept in the table's order, and the comparator waits for
    the first deadline or its interrupt has been raised. *)
Theorem timers_refine `{Callbacks} T T0 (A : table) s :
  reach T T0 A s ->
  id <$> timers s = A.*1 /\
  (forall i, sl_sleeptimer_is_timer_running i s = bool_decide (i ∈ A.*1)) /\
  (forall i, exists s', sl_sleeptimer_get_timer_time_remaining i s
     = (if decide (i ∈ A.*1) then OK else NOT_READY,
        (fun '(_, e) => Z.max 0 (e.2 - T)) <$> list_find (fun e => e.1 = i) A, s')) /\
  armed A s.
Proof.
  intros [Hrep Harm]%reach_refines. split; [by eapply rep_ids |]. split; [intros i; by eapply running_refines |].
  split; [|done]. intros i. destruct (time_remaining_refines T T0 A s i Hrep) as (s' & Hs & _). by exists s'.
Qed.

(** Callbacks that do nothing, for examples. *)
Definition no_callbacks : Callbacks := {| run_callback := fun _ s => s; passing := fun _ => 0 |}.

Definition blank_state : sleeptimer :=
  mk_st 0 [] 0 0 (mk_clock 0 0 0) 0 (mk_comp false 0 false) false false.

(** Two timers, the later one started first, 100 ticks in. *)
Definition one_timer : sleeptimer :=
  Eval vm_compute in
  let _ := no_callbacks in
  snd (sl_sleeptimer_start_timer 1 1000 0 0 true (snd (sl_sleeptimer_init 32768 blank_state))).
Definition two_timers : sleeptimer :=
  Eval vm_compute in
  let _ := no_callbacks in
  snd (sl_sleeptimer_start_timer 2 500 1 0 true (set_counter 100 one_timer)).

Lemma two_timers_reach : @reach no_callbacks 100 100 [(2, 600); (1, 1000)] two_timers.
Proof.
  apply (@reach_start no_callbacks 100 0 [(1, 1000)] (set_counter 100 one_timer) two_timers 2 500 1 0 true);
    [| lia | vm_compute; reflexivity].
  apply (@reach_tick no_callbacks 0 0 [(1, 1000)] one_timer 100); [| lia | lia].
  apply (@reach_start no_callbacks 0 0 [] (snd (sl_sleeptimer_init 32768 blank_state)) one_timer 1 1000 0 0 true);
    [| lia | vm_compute; reflexivity].
  by apply (@reach_init no_callbacks 32768 blank_state).
Qed.

Lemma timers_refine_witness :
  let s := two_timers in
  id <$> timers s = [2; 1] /\
  (forall i, sl_sleeptimer_is_timer_running i s = bool_decide (i ∈ [2; 1])) /\
  (forall i, exists s', sl_sleeptimer_get_timer_time_remaining i s
     = (if decide (i ∈ [2; 1]) then OK else NOT_READY,
        (fun '(_, e) => Z.max 0 (e.2 - 100)) <$> list_find (fun e => e.1 = i) [(2, 600); (1, 1000)], s')) /\
  armed [(2, 600); (1, 1000)] s.
Proof. exact (@timers_refine no_callbacks 100 100 [(2, 600); (1, 1000)] two_timers two_timers_reach). Defined.


#[export] Instance no_callbacks_leisurely : @Leisurely no_callbacks 0.
Proof.
  split; [|done]. intros t s Hc. exists 0. split; [lia |]. unfold tick.
  rewrite Z.add_0_r, u32_id by done. by destruct s.
Qed.

#[export] Instance no_callbacks_steady : @Steady no_callbacks.
Proof. done. Qed.

(** Callbacks of ten ticks, and three ticks before each reading. *)
Definition slow_callbacks : Callbacks := {| run_callback := fun _ s => tick 10 s; passing := fun _ => 3 |}.

#[export] Instance slow_callbacks_leisurely : @Leisurely slow_callbacks 10.
Proof. split; [|simpl; lia]. intros t s Hc. exists 10. by split; [lia |]. Qed.

(** [two_timers] at tick 990: the first timer is due, and the second comes due
    during the first one's callback. *)
Definition late_timers : sleeptimer := Eval vm_compute in set_counter 990 two_timers.

Example second_during_callback :
  exists log s', @compare_irq slow_callbacks 2 late_timers = Some (log, s') /\
    id <$> log = [2; 1] /\ counter s' = 1019 /\ timers s' = [].
Proof. do 2 eexists. vm_compute. repeat split. Qed.


(** Periodic timers keep their rhythm, when no time passes before the
    interrupt's readings: every timer it serves was due, a periodic one next
    expires exactly one period after its previous deadline, other deadlines do
    not move, and afterwards nothing due is left and the comparator waits for
    the next deadline. *)
Lemma periodic_rhythm `{Callbacks} eps `{!Leisurely eps} `{!Steady} T T0 (A : table) s fuel log s' :
  0 <= eps < 2 ^ 31 -> rep T T0 A s -> T + eps - T0 < 2 ^ 32 ->
  Forall (fun e => T + Z.of_nat fuel * eps - e.2 < 2 ^ 31) A ->
  compare_irq fuel s = Some (log, s') ->
  exists T' A', served T A log T' A' /\ rep T' T' A' s' /\
    Forall (fun e => T' < e.2) A' /\ waits_for A' s'.
Proof.
  intros Heps Hrep Hgap Hlate. destruct (reading_refines eps T T0 A s Hrep Hgap) as (T1 & _ & HT1 & Hup).
  rewrite HT1 in Hup by done. unfold compare_irq.
  destruct (expire_loop fuel [] (update_delta_list (later s))) as [[l s1]|] eqn:Hrun; cbn [mbind option_bind]; [|done].
  intros [= <- <-].
  destruct (expire_loop_refines eps Heps fuel [] _ T A _ _ Hup Hlate Hrun) as (l' & T' & A' & -> & Hsv & Hr1 & Hnd).
  set (s2 := set_sleep _ s1). assert (rep T' T' A' s2) as Hr2 by (by apply (rep_same _ _ _ _ _ Hr1)).
  destruct (rearm_refines T' _ s2 Hr2 Hnd) as [Hr3 Hw].
  exists T', A'. split; [done |]. split; [exact Hr3 |]. split; [done | exact Hw].
Qed.

(** A periodic timer of 100 ticks, first due at 100, found at tick 250. *)
Definition late_periodic : sleeptimer :=
  Eval vm_compute in
  let _ := no_callbacks in
  set_counter 250 (snd (sl_sleeptimer_start_periodic_timer 7 100 0 0 true (snd (sl_sleeptimer_init 32768 blank_state)))).

(** It is called twice and its next deadline is 300. *)
Example late_periodic_catches_up :
  exists log s', @compare_irq no_callbacks 5 late_periodic = Some (log, s') /\
    id <$> log = [7; 7] /\ comp_value (comp s') = 300.
Proof. do 2 eexists. vm_compute. repeat split. Qed.

Lemma late_periodic_rep : rep 250 0 [(7, 100)] late_periodic.
Proof.
  apply (rep_tick 0 0 [(7, 100)] (snd (@sl_sleeptimer_start_periodic_timer no_callbacks 7 100 0 0 true
           (snd (sl_sleeptimer_init 32768 blank_state)))) 250); [| lia | lia].
  eapply (@reach_refines no_callbacks).
  apply (@reach_periodic no_callbacks 0 0 [] (snd (sl_sleeptimer_init 32768 blank_state)) _ 7 100 0 0 true);
    [| lia | vm_compute; reflexivity].
  by apply (@reach_init no_callbacks 32768 blank_state).
Qed.

Lemma late_periodic_rhythm :
  exists log s' T' A', @compare_irq no_callbacks 5 late_periodic = Some (log, s') /\
    served 250 [(7, 100)] log T' A' /\ rep T' T' A' s' /\
    Forall (fun e => T' < e.2) A' /\ waits_for A' s'.
Proof.
  destruct (@compare_irq no_callbacks 5 late_periodic) as [[log s']|] eqn:E;
    [|vm_compute in E; discriminate].
  exists log, s'.
  destruct (@periodic_rhythm no_callbacks 0 _ _ 250 0 [(7, 100)] late_periodic 5 log s') as (T' & A' & Hx);
    [lia | exact late_periodic_rep | lia | repeat constructor; vm_compute; reflexivity | exact E |].
  exists T', A'. split; [reflexivity | exact Hx].
Qed.

(** The time between the update of the list and the reading that corrects the
    period is not in the correction: the next expiry is early by it, here by
    three ticks (297 for 300); what the timer expects is not. *)
Example periodic_early_by_passing :
  exists log s', @compare_irq slow_callbacks 5 late_periodic = Some (log, s') /\
    id <$> log = [7; 7] /\ comp_value (comp s') = 297 /\
    timeout_expected_tc <$> timers s' = [300].
Proof. do 2 eexists. vm_compute. repeat split. Qed.

(** The wall clock does not drift: it reads the whole seconds of the ticks
    counted since it was set, before and after a counter overflow, and the
    overflow interrupt accounts for exactly 2^32 ticks. *)
Lemma wall_clock_exact freq cnt c :
  0 < freq <= 2 ^ 31 -> 0 <= cnt < 2 ^ 32 -> 0 <= overflow_tick_rest c < freq -> 0 <= second_count c ->
  second_count c + 2 * (2 ^ 32 / freq) + 3 < 2 ^ 32 ->
  sl_sleeptimer_get_time cnt freq c = clock_ticks freq cnt c / freq /\
  sl_sleeptimer_get_time cnt freq (clock_overflow freq c) = clock_ticks freq (2 ^ 32 + cnt) c / freq.
Proof.
  intros Hf Hc Hr Hs Hmx.
  assert (0 <= 2 ^ 32 / freq) by (apply Z.div_pos; lia).
  assert (forall x, 0 <= x < 2 ^ 32 -> x / freq <= 2 ^ 32 / freq) as Hdiv by (intros; apply Z.div_le_mono; lia).
  destruct (clock_overflow_exact freq c) as [He Hr']; [done | done | done | lia |].
  assert (clock_ticks freq cnt (clock_overflow freq c) = clock_ticks freq (2 ^ 32 + cnt) c) as E
    by (unfold clock_ticks in *; lia).
  assert (forall x b, 0 <= b < freq -> 0 <= x -> (second_count c * freq + b + x) / freq <= second_count c + x / freq + 1) as Hub.
  { intros x b Hb Hx. replace (second_count c * freq + b + x) with (b + x + second_count c * freq) by lia.
    rewrite Z.div_add by lia. pose proof (Z.div_mod x freq). pose proof (Z.mod_pos_bound x freq).
    assert ((b + x) / freq < x / freq + 2); [|lia]. apply Z.div_lt_upper_bound; nia. }
  split.
  - apply get_time_ticks; try done. unfold clock_ticks. specialize (Hub cnt _ Hr ltac:(lia)).
    specialize (Hdiv cnt Hc). lia.
  - rewrite <- E. apply get_time_ticks; try done.
    + unfold clock_overflow. destruct (_ <=? _); simpl; apply u32_range.
    + rewrite E. unfold clock_ticks. specialize (Hub (2 ^ 32 + cnt) _ Hr ltac:(lia)).
      assert ((2 ^ 32 + cnt) / freq <= 2 * (2 ^ 32 / freq) + 1); [|lia].
      pose proof (Z.div_mod (2 ^ 32) freq). pose proof (Z.mod_pos_bound (2 ^ 32) freq).
      assert ((2 ^ 32 + cnt) / freq < 2 * (2 ^ 32 / freq) + 2); [|lia].
      apply Z.div_lt_upper_bound; nia.
Qed.

Lemma wall_clock_exact_witness :
  sl_sleeptimer_get_time 65536 32768 (mk_clock 1700000000 5 0)
  = clock_ticks 32768 65536 (mk_clock 1700000000 5 0) / 32768 /\
  sl_sleeptimer_get_time 65536 32768 (clock_overflow 32768 (mk_clock 1700000000 5 0))
  = clock_ticks 32768 (2 ^ 32 + 65536) (mk_clock 1700000000 5 0) / 32768.
Proof.
  apply (wall_clock_exact 32768 65536 (mk_clock 1700000000 5 0));
    vm_compute; try (split; [discriminate | reflexivity]); try (split; [reflexivity | discriminate]);
    try discriminate; reflexivity.
Defined.

(** The priority clause of the insertion loop decides nothing: of two timers
    due together the one started later is behind, whatever its priority. *)
Example priority_ignored_at_insertion :
  id <$> insert_after (mk_timer 2 0 0 0 0 0 false) 10 [mk_timer 1 10 200 0 0 0 false] = [1; 2].
Proof. reflexivity. Qed.
End SleepTimers.
