(* ===== verification/MqttPacket.v ===== *)
(** * MQTT packets: the paho embedded serialiser

    Models [system/src/paho.mqtt.embedded-c-1.1.0/MQTTPacket/src]: the
    remaining-length code, the read and write primitives over a C buffer, and
    the serialisers and deserialisers of the packets the client exchanges.

    A C buffer is the list of its bytes and a pointer into it is an index; a
    write outside the buffer and a read outside it are [None], so a theorem
    that a function returns [Some] also says it stays inside its buffer.
    [char] is unsigned, as it is in the target's ABI.  Output parameters are
    passed in with the value the caller's variable has before the call. *)

From S2P Require Import Prelude.

Module MqttPacket.

(** ** Packet types, return codes and the header byte ([MQTTPacket.h]) *)

Definition MQTTPACKET_BUFFER_TOO_SHORT : Z := -2.
Definition MQTTPACKET_READ_ERROR : Z := -1.

Definition CONNECT : Z := 1.
Definition CONNACK : Z := 2.
Definition PUBLISH : Z := 3.
Definition PUBACK : Z := 4.
Definition PUBREC : Z := 5.
Definition PUBREL : Z := 6.
Definition PUBCOMP : Z := 7.
Definition SUBSCRIBE : Z := 8.
Definition SUBACK : Z := 9.
Definition UNSUBSCRIBE : Z := 10.
Definition UNSUBACK : Z := 11.
Definition PINGREQ : Z := 12.
Definition PINGRESP : Z := 13.
Definition DISCONNECT : Z := 14.

(** The bit field of [MQTTHeader]: retain, qos, dup and type from bit 0 up;
    an assignment keeps as many low bits as the field has. *)
Definition MQTTHeader (type dup qos retain : Z) : Z :=
  Z.shiftl (type .& 15) 4 .| Z.shiftl (dup .& 1) 3 .| Z.shiftl (qos .& 3) 1 .| (retain .& 1).

Definition bits_type (byte : Z) : Z := Z.shiftr byte 4 .& 15.
Definition bits_dup (byte : Z) : Z := Z.shiftr byte 3 .& 1.
Definition bits_qos (byte : Z) : Z := Z.shiftr byte 1 .& 3.
Definition bits_retain (byte : Z) : Z := byte .& 1.

(** A string is a C string, a counted string, or neither; the contents of a
    C string are its bytes without the terminator. *)
Record MQTTString := mk_MQTTString {
  cstring : option bytes;
  lenstring_len : Z;
  lenstring_data : option bytes;
}.

Definition MQTTString_initializer : MQTTString := mk_MQTTString None 0 None.

(** ** Writing ([MQTTPacket.c]) *)

Record wbuf := mk_wbuf { w_mem : bytes; w_ptr : nat }.

(** A writer stores bytes at the pointer and moves it; [w1 >> w2] runs two
    in order and [skip] writes nothing. *)
Definition writer := wbuf -> option wbuf.
Definition then_ (w1 w2 : writer) : writer := fun s => w1 s ≫= w2.
Definition skip : writer := Some.
Notation "w1 >> w2" := (then_ w1 w2) (at level 62, right associativity) : uiso_scope.

Definition writeChar (c : Z) (s : wbuf) : option wbuf :=
  if decide (w_ptr s < length (w_mem s))%nat
  then Some (mk_wbuf (<[w_ptr s := u8 c]> (w_mem s)) (S (w_ptr s)))
  else None.

Definition writeInt (anInt : Z) : writer :=
  writeChar (Z.quot anInt 256) >> writeChar (Z.rem anInt 256).

(** [memcpy] of [len] bytes of [src] to the pointer, which then moves. *)
Fixpoint copy_bytes (src : bytes) : writer :=
  match src with
  | [] => skip
  | c :: src => writeChar c >> copy_bytes src
  end.

Definition memcpy (src : option bytes) (len : Z) : writer :=
  if len =? 0 then skip
  else match src with
       | Some src => if (0 <=? len) && (len <=? Z.of_nat (length src))
                     then copy_bytes (take (Z.to_nat len) src) else fun _ => None
       | None => fun _ => None
       end.

Definition writeCString (string : bytes) : writer :=
  let len := Z.of_nat (length string) in
  writeInt len >> memcpy (Some string) len.

Definition writeMQTTString (m : MQTTString) : writer :=
  if 0 <? lenstring_len m
  then writeInt (lenstring_len m) >> memcpy (lenstring_data m) (lenstring_len m)
  else match cstring m with
       | Some string => writeCString string
       | None => writeInt 0
       end.

(** The do-while loop of [MQTTPacket_encode]; an [int] has at most five
    base-128 digits. *)
Fixpoint encode_loop (fuel : nat) (length : Z) : writer :=
  match fuel with
  | O => fun _ => None
  | S fuel =>
    let d := Z.rem length 128 in
    let length := Z.quot length 128 in
    let d := if 0 <? length then d .| 128 else d in
    writeChar d >> (if 0 <? length then encode_loop fuel length else skip)
  end.

Definition MQTTPacket_encode (length : Z) : writer := encode_loop 5 length.

Definition MQTTPacket_len (rem_len : Z) : Z :=
  let rem_len := rem_len + 1 in
  if rem_len <? 128 then rem_len + 1
  else if rem_len <? 16384 then rem_len + 2
  else if rem_len <? 2097151 then rem_len + 3
  else rem_len + 4.

Definition MQTTstrlen (m : MQTTString) : Z :=
  match cstring m with
  | Some string => Z.of_nat (length string)
  | None => lenstring_len m
  end.

(** ** Reading *)

Definition readChar (buf : bytes) (ptr : nat) : option (Z * nat) :=
  c ← buf !! ptr; Some (c, S ptr).

Definition readInt (buf : bytes) (ptr : nat) : option (Z * nat) :=
  hi ← buf !! ptr; lo ← buf !! S ptr; Some (256 * hi + lo, S (S ptr)).

(** [MQTTPacket_decode] over any byte source: [getcharfn] gives its return
    code and the byte it stored.  The result is the count returned and the
    value stored. *)
Section Decode.
Context {St : Type} (getcharfn : St -> option (Z * Z * St)).

Definition MAX_NO_OF_REMAINING_LENGTH_BYTES : Z := 4.

Fixpoint decode_loop (fuel : nat) (len multiplier value : Z) (s : St) : option (Z * Z * St) :=
  match fuel with
  | O => None
  | S fuel =>
    let len := len + 1 in
    if MAX_NO_OF_REMAINING_LENGTH_BYTES <? len then Some (len, value, s)
    else
      '(rc, c, s) ← getcharfn s;
      if negb (rc =? 1) then Some (len, value, s)
      else
        let value := value + (c .& 127) * multiplier in
        if negb (c .& 128 =? 0) then decode_loop fuel len (multiplier * 128) value s
        else Some (len, value, s)
  end.

Definition MQTTPacket_decode (s : St) : option (Z * Z * St) := decode_loop 5 0 1 0 s.
End Decode.

Definition bufchar (buf : bytes) (bufptr : nat) : option (Z * Z * nat) :=
  c ← buf !! bufptr; Some (1, c, S bufptr).

Definition MQTTPacket_decodeBuf (buf : bytes) (ptr : nat) : option (Z * Z) :=
  '(len, value, _) ← MQTTPacket_decode (bufchar buf) ptr; Some (len, value).

(** The string read keeps the [len] bytes its data pointer exposes.  The
    result is the return code, the string and the new pointer. *)
Definition readMQTTLenString (m : MQTTString) (buf : bytes) (ptr enddata : nat) :
    option (Z * MQTTString * nat) :=
  if 1 <? Z.of_nat enddata - Z.of_nat ptr then
    '(len, ptr) ← readInt buf ptr;
    if Z.of_nat ptr + len <=? Z.of_nat enddata
    then Some (1, mk_MQTTString None len (Some (take (Z.to_nat len) (drop ptr buf))),
               (ptr + Z.to_nat len)%nat)
    else Some (0, mk_MQTTString None len (lenstring_data m), ptr)
  else Some (0, mk_MQTTString None (lenstring_len m) (lenstring_data m), ptr).

(** [strncmp] of [n] bytes against a C string is 0; [None] when it would read
    past the first string. *)
Fixpoint strncmp_eq (n : nat) (a b : bytes) : option bool :=
  match n with
  | O => Some true
  | S n =>
    match a, b with
    | x :: a, y :: b => if x =? y then (if x =? 0 then Some true else strncmp_eq n a b) else Some false
    | x :: a, [] => Some (x =? 0)
    | [], _ => None
    end
  end.

Definition MQTTPacket_equals (a : MQTTString) (b : bytes) : option bool :=
  let '(aptr, alen) := match cstring a with
                       | Some string => (Some (string ++ [0]), Z.of_nat (length string))
                       | None => (lenstring_data a, lenstring_len a)
                       end in
  if alen =? Z.of_nat (length b)
  then match aptr with
       | Some aptr => strncmp_eq (Z.to_nat alen) aptr b
       | None => if alen =? 0 then Some true else None
       end
  else Some false.

(** ** Publish and acknowledgements *)

Definition MQTTSerialize_publishLength (qos : Z) (topicName : MQTTString) (payloadlen : Z) : Z :=
  let len := 2 + MQTTstrlen topicName + payloadlen in
  if 0 <? qos then len + 2 else len.

(** A serialiser returns its code and the buffer; it starts at its front. *)
Definition serialize (w : writer) (buf : bytes) : option (Z * bytes) :=
  s ← w (mk_wbuf buf 0); Some (Z.of_nat (w_ptr s), w_mem s).

Definition MQTTSerialize_publish (buf : bytes) (buflen dup qos retained packetid : Z)
    (topicName : MQTTString) (payload : option bytes) (payloadlen : Z) : option (Z * bytes) :=
  let rem_len := MQTTSerialize_publishLength qos topicName payloadlen in
  if buflen <? MQTTPacket_len rem_len then Some (MQTTPACKET_BUFFER_TOO_SHORT, buf)
  else serialize (
    writeChar (MQTTHeader PUBLISH dup qos retained) >>
    MQTTPacket_encode rem_len >>
    writeMQTTString topicName >>
    (if 0 <? qos then writeInt packetid else skip) >>
    memcpy payload payloadlen) buf.

Definition MQTTSerialize_ack (buf : bytes) (buflen packettype dup packetid : Z) :
    option (Z * bytes) :=
  if buflen <? 4 then Some (MQTTPACKET_BUFFER_TOO_SHORT, buf)
  else serialize (
    writeChar (MQTTHeader packettype dup (if packettype =? PUBREL then 1 else 0) 0) >>
    MQTTPacket_encode 2 >>
    writeInt packetid) buf.

Definition MQTTSerialize_puback (buf : bytes) (buflen packetid : Z) :=
  MQTTSerialize_ack buf buflen PUBACK 0 packetid.
Definition MQTTSerialize_pubrel (buf : bytes) (buflen dup packetid : Z) :=
  MQTTSerialize_ack buf buflen PUBREL dup packetid.
Definition MQTTSerialize_pubcomp (buf : bytes) (buflen packetid : Z) :=
  MQTTSerialize_ack buf buflen PUBCOMP 0 packetid.

(** The output parameters of [MQTTDeserialize_publish]; the payload pointer
    is an index into the packet's buffer. *)
Record publish_out := mk_publish_out {
  po_dup : Z; po_qos : Z; po_retained : Z; po_packetid : Z;
  po_topicName : MQTTString; po_payload : option nat; po_payloadlen : Z;
}.

Definition MQTTDeserialize_publish (o : publish_out) (buf : bytes) : option (Z * publish_out) :=
  '(byte, curdata) ← readChar buf 0;
  if negb (bits_type byte =? PUBLISH) then Some (0, o)
  else
    let qos := bits_qos byte in
    let o := mk_publish_out (bits_dup byte) qos (bits_retain byte) (po_packetid o)
               (po_topicName o) (po_payload o) (po_payloadlen o) in
    '(rc, mylen) ← MQTTPacket_decodeBuf buf curdata;
    let curdata := (curdata + Z.to_nat rc)%nat in
    let enddata := (curdata + Z.to_nat mylen)%nat in
    '(ok, topicName, curdata) ← readMQTTLenString (po_topicName o) buf curdata enddata;
    let o := mk_publish_out (po_dup o) qos (po_retained o) (po_packetid o) topicName
               (po_payload o) (po_payloadlen o) in
    if (ok =? 0) || (Z.of_nat enddata - Z.of_nat curdata <? 0) then Some (rc, o)
    else
      '(packetid, curdata) ← if 0 <? qos then readInt buf curdata
                             else Some (po_packetid o, curdata);
      Some (1, mk_publish_out (po_dup o) qos (po_retained o) packetid topicName
                 (Some curdata) (Z.of_nat enddata - Z.of_nat curdata)).

(** Result: the return code, the packet type, the dup flag and the packet
    identifier. *)
Definition MQTTDeserialize_ack (packetid : Z) (buf : bytes) : option (Z * Z * Z * Z) :=
  '(byte, curdata) ← readChar buf 0;
  let dup := bits_dup byte in
  let packettype := bits_type byte in
  '(rc, mylen) ← MQTTPacket_decodeBuf buf curdata;
  let curdata := (curdata + Z.to_nat rc)%nat in
  if mylen <? 2 then Some (rc, packettype, dup, packetid)
  else '(packetid, _) ← readInt buf curdata; Some (1, packettype, dup, packetid).

(** ** Subscribe, unsubscribe and their acknowledgements *)

Fixpoint topics_length (extra : Z) (topicFilters : list MQTTString) : Z :=
  match topicFilters with
  | [] => 0
  | t :: ts => 2 + MQTTstrlen t + extra + topics_length extra ts
  end.

Definition MQTTSerialize_subscribeLength (topicFilters : list MQTTString) : Z :=
  2 + topics_length 1 topicFilters.

Fixpoint write_topics_qos (topics : list (MQTTString * Z)) : writer :=
  match topics with
  | [] => skip
  | (t, qos) :: ts => writeMQTTString t >> writeChar qos >> write_topics_qos ts
  end.

(** The arrays [topicFilters] and [requestedQoSs] have [count] entries each. *)
Definition MQTTSerialize_subscribe (buf : bytes) (buflen dup packetid : Z)
    (topics : list (MQTTString * Z)) : option (Z * bytes) :=
  let rem_len := MQTTSerialize_subscribeLength (fst <$> topics) in
  if buflen <? MQTTPacket_len rem_len then Some (MQTTPACKET_BUFFER_TOO_SHORT, buf)
  else serialize (
    writeChar (MQTTHeader SUBSCRIBE dup 1 0) >>
    MQTTPacket_encode rem_len >>
    writeInt packetid >>
    write_topics_qos topics) buf.

Definition MQTTSerialize_unsubscribeLength (topicFilters : list MQTTString) : Z :=
  2 + topics_length 0 topicFilters.

Fixpoint write_topics (topics : list MQTTString) : writer :=
  match topics with
  | [] => skip
  | t :: ts => writeMQTTString t >> write_topics ts
  end.

Definition MQTTSerialize_unsubscribe (buf : bytes) (buflen dup packetid : Z)
    (topics : list MQTTString) : option (Z * bytes) :=
  let rem_len := MQTTSerialize_unsubscribeLength topics in
  if buflen <? MQTTPacket_len rem_len then Some (MQTTPACKET_BUFFER_TOO_SHORT, buf)
  else serialize (
    writeChar (MQTTHeader UNSUBSCRIBE dup 1 0) >>
    MQTTPacket_encode rem_len >>
    writeInt packetid >>
    write_topics topics) buf.

(** The loop storing the granted QoS values; a store outside the caller's
    array is [None].  It ends when [curdata] reaches [enddata]: the fuel is
    their distance. *)
Fixpoint suback_loop (fuel : nat) (maxcount count : Z) (granted : list Z) (buf : bytes)
    (curdata enddata : nat) : option (Z * Z * list Z) :=
  if decide (curdata < enddata)%nat then
    match fuel with
    | O => None
    | S fuel =>
      if maxcount <? count then Some (-1, count, granted)
      else
        '(c, curdata) ← readChar buf curdata;
        if decide (Z.to_nat count < length granted)%nat
        then suback_loop fuel maxcount (count + 1) (<[Z.to_nat count := c]> granted) buf curdata enddata
        else None
    end
  else Some (1, count, granted).

(** Result: return code, packet identifier, count and array. *)
Definition MQTTDeserialize_suback (packetid maxcount count : Z) (granted : list Z) (buf : bytes) :
    option (Z * Z * Z * list Z) :=
  '(byte, curdata) ← readChar buf 0;
  if negb (bits_type byte =? SUBACK) then Some (0, packetid, count, granted)
  else
    '(rc, mylen) ← MQTTPacket_decodeBuf buf curdata;
    let curdata := (curdata + Z.to_nat rc)%nat in
    let enddata := (curdata + Z.to_nat mylen)%nat in
    if mylen <? 2 then Some (rc, packetid, count, granted)
    else
      '(packetid, curdata) ← readInt buf curdata;
      '(rc, count, granted) ← suback_loop (Z.to_nat mylen) maxcount 0 granted buf curdata enddata;
      Some (rc, packetid, count, granted).

Definition MQTTDeserialize_unsuback (packetid : Z) (buf : bytes) : option (Z * Z) :=
  '(rc, type, _, packetid) ← MQTTDeserialize_ack packetid buf;
  Some (if type =? UNSUBACK then 1 else rc, packetid).

(** ** Connect, connack and the packets without a body *)

Record MQTTPacket_willOptions := mk_willOptions {
  will_topicName : MQTTString; will_message : MQTTString; will_retained : Z; will_qos : Z;
}.

Record MQTTPacket_connectData := mk_connectData {
  MQTTVersion : Z; clientID : MQTTString; opt_keepAliveInterval : Z; opt_cleansession : Z;
  willFlag : Z; will : MQTTPacket_willOptions; username : MQTTString; password : MQTTString;
}.

Definition MQTTPacket_willOptions_initializer : MQTTPacket_willOptions :=
  mk_willOptions MQTTString_initializer MQTTString_initializer 0 0.

Definition MQTTPacket_connectData_initializer : MQTTPacket_connectData :=
  mk_connectData 4 MQTTString_initializer 60 1 0 MQTTPacket_willOptions_initializer
    MQTTString_initializer MQTTString_initializer.

(** [s.cstring || s.lenstring.data]. *)
Definition string_present (m : MQTTString) : bool :=
  match cstring m, lenstring_data m with None, None => false | _, _ => true end.

Definition MQTTSerialize_connectLength (options : MQTTPacket_connectData) : Z :=
  (if MQTTVersion options =? 3 then 12 else if MQTTVersion options =? 4 then 10 else 0)
  + (MQTTstrlen (clientID options) + 2)
  + (if negb (willFlag options =? 0)
     then MQTTstrlen (will_topicName (will options)) + 2 + MQTTstrlen (will_message (will options)) + 2
     else 0)
  + (if string_present (username options) then MQTTstrlen (username options) + 2 else 0)
  + (if string_present (password options) then MQTTstrlen (password options) + 2 else 0).

(** The bit field of [MQTTConnectFlags]. *)
Definition MQTTConnectFlags (cleansession will willQoS willRetain password username : Z) : Z :=
  Z.shiftl (username .& 1) 7 .| Z.shiftl (password .& 1) 6 .| Z.shiftl (willRetain .& 1) 5
  .| Z.shiftl (willQoS .& 3) 3 .| Z.shiftl (will .& 1) 2 .| Z.shiftl (cleansession .& 1) 1.

Definition connect_flags (options : MQTTPacket_connectData) : Z :=
  let has_will := negb (willFlag options =? 0) in
  MQTTConnectFlags (opt_cleansession options) (Z.b2z has_will)
    (if has_will then will_qos (will options) else 0)
    (if has_will then will_retained (will options) else 0)
    (Z.b2z (string_present (password options))) (Z.b2z (string_present (username options))).

(** The literals "MQTT" and "MQIsdp". *)
Definition str_MQTT : bytes := [77; 81; 84; 84].
Definition str_MQIsdp : bytes := [77; 81; 73; 115; 100; 112].

Definition MQTTSerialize_connect (buf : bytes) (buflen : Z) (options : MQTTPacket_connectData) :
    option (Z * bytes) :=
  let len := MQTTSerialize_connectLength options in
  if buflen <? MQTTPacket_len len then Some (MQTTPACKET_BUFFER_TOO_SHORT, buf)
  else serialize (
    writeChar (MQTTHeader CONNECT 0 0 0) >>
    MQTTPacket_encode len >>
    (if MQTTVersion options =? 4 then writeCString str_MQTT >> writeChar 4
     else writeCString str_MQIsdp >> writeChar 3) >>
    writeChar (connect_flags options) >>
    writeInt (opt_keepAliveInterval options) >>
    writeMQTTString (clientID options) >>
    (if negb (willFlag options =? 0)
     then writeMQTTString (will_topicName (will options)) >> writeMQTTString (will_message (will options))
     else skip) >>
    (if string_present (username options) then writeMQTTString (username options) else skip) >>
    (if string_present (password options) then writeMQTTString (password options) else skip)) buf.

(** Result: the return code, the session-present flag and the connect code. *)
Definition MQTTDeserialize_connack (sessionPresent connack_rc : Z) (buf : bytes) :
    option (Z * Z * Z) :=
  '(byte, curdata) ← readChar buf 0;
  if negb (bits_type byte =? CONNACK) then Some (0, sessionPresent, connack_rc)
  else
    '(rc, mylen) ← MQTTPacket_decodeBuf buf curdata;
    let curdata := (curdata + Z.to_nat rc)%nat in
    if mylen <? 2 then Some (rc, sessionPresent, connack_rc)
    else
      '(flags, curdata) ← readChar buf curdata;
      '(connack_rc, _) ← readChar buf curdata;
      Some (1, flags .& 1, connack_rc).

Definition MQTTSerialize_zero (buf : bytes) (buflen packettype : Z) : option (Z * bytes) :=
  if buflen <? 2 then Some (MQTTPACKET_BUFFER_TOO_SHORT, buf)
  else serialize (writeChar (MQTTHeader packettype 0 0 0) >> MQTTPacket_encode 0) buf.

Definition MQTTSerialize_disconnect (buf : bytes) (buflen : Z) := MQTTSerialize_zero buf buflen DISCONNECT.
Definition MQTTSerialize_pingreq (buf : bytes) (buflen : Z) := MQTTSerialize_zero buf buflen PINGREQ.

(** ** The wire format

    Reference definitions, independent of the code: the variable-length code
    of MQTT 3.1.1 section 2.2.3, length-prefixed strings, and a packet as its
    fixed header followed by its body. *)

Definition varint (n : Z) : bytes :=
  if n <? 128 then [n]
  else if n <? 16384 then [128 + n mod 128; n / 128]
  else if n <? 2097152 then [128 + n mod 128; 128 + n / 128 mod 128; n / 16384]
  else [128 + n mod 128; 128 + n / 128 mod 128; 128 + n / 16384 mod 128; n / 2097152].

Definition MAX_REMAINING_LENGTH : Z := 268435455.

Definition be16 (n : Z) : bytes := [n / 256; n mod 256].
Definition wire_string (s : bytes) : bytes := be16 (Z.of_nat (length s)) ++ s.

Definition packet (type dup qos retain : Z) (body : bytes) : bytes :=
  MQTTHeader type dup qos retain :: varint (Z.of_nat (length body)) ++ body.

(** The characters an [MQTTString] stands for, and the strings for which its
    two alternatives are not both set and the length fits 16 bits. *)
Definition contents (m : MQTTString) : bytes :=
  match cstring m with
  | Some s => s
  | None => take (Z.to_nat (lenstring_len m)) (default [] (lenstring_data m))
  end.

Definition string_ok (m : MQTTString) : bool :=
  match cstring m, lenstring_data m with
  | Some s, _ => (lenstring_len m <=? 0) && (Z.of_nat (length s) <? 65536) && forallb (fun c => (0 <=? c) && (c <? 256)) s
  | None, Some d => (0 <=? lenstring_len m) && (lenstring_len m <=? Z.of_nat (length d))
                    && (lenstring_len m <? 65536) && forallb (fun c => (0 <=? c) && (c <? 256)) d
  | None, None => lenstring_len m =? 0
  end.

Definition cstr (s : bytes) : MQTTString := mk_MQTTString (Some s) 0 None.

(** ** Writers emit byte strings *)

(** [w] writes exactly [bs] at the pointer when they fit. *)
Definition emits (w : writer) (bs : bytes) : Prop :=
  forall pre rest, (length bs <= length rest)%nat ->
    w (mk_wbuf (pre ++ rest) (length pre))
    = Some (mk_wbuf ((pre ++ bs) ++ drop (length bs) rest) (length (pre ++ bs))).

Lemma emits_skip : emits skip [].
Proof. intros pre rest _. unfold skip. by rewrite app_nil_r, drop_0. Qed.

Lemma emits_then w1 w2 b1 b2 : emits w1 b1 -> emits w2 b2 -> emits (w1 >> w2) (b1 ++ b2).
Proof.
  intros H1 H2 pre rest Hl. rewrite length_app in Hl. unfold then_.
  rewrite H1 by lia. simpl. rewrite H2 by (rewrite length_drop; lia).
  rewrite drop_drop, <- length_app, <- !(assoc_L (++)). done.
Qed.

Lemma emits_eq w b b' : emits w b -> b = b' -> emits w b'.
Proof. by intros ? <-. Qed.

Lemma emits_writeChar c : is_u8 c -> emits (writeChar c) [c].
Proof.
  intros Hc pre rest Hl. destruct rest as [|x rest]; [simpl in Hl; lia |].
  unfold writeChar. cbn [w_ptr w_mem]. rewrite decide_True by (rewrite length_app; simpl; lia).
  f_equal. f_equal.
  - rewrite u8_id by done.
    rewrite insert_app_r_alt, Nat.sub_diag by lia. simpl. by rewrite drop_0, <- (assoc_L (++)).
  - rewrite length_app. simpl. lia.
Qed.

Lemma emits_writeInt n : is_u16 n -> emits (writeInt n) (be16 n).
Proof.
  unfold is_u16. intros Hn. unfold writeInt, be16.
  rewrite Z.quot_div_nonneg, Z.rem_mod_nonneg by lia.
  apply (emits_then _ _ [n / 256] [n mod 256]); apply emits_writeChar; unfold is_u8; divlia.
Qed.

Lemma emits_copy_bytes s : is_bytes s -> emits (copy_bytes s) s.
Proof.
  induction 1 as [|c s Hc Hs IH]; [apply emits_skip |].
  apply (emits_then _ _ [c] s); [by apply emits_writeChar | done].
Qed.

Lemma emits_memcpy s n :
  is_bytes s -> 0 <= n <= Z.of_nat (length s) -> emits (memcpy (Some s) n) (take (Z.to_nat n) s).
Proof.
  intros Hs Hn. unfold memcpy. destruct (Z.eqb_spec n 0) as [-> | Hne]; [apply emits_skip |].
  rewrite (proj2 (andb_true_iff _ _)) by (split; apply Z.leb_le; lia).
  by apply emits_copy_bytes, Forall_take.
Qed.

Lemma emits_writeCString s :
  is_bytes s -> Z.of_nat (length s) < 65536 -> emits (writeCString s) (wire_string s).
Proof.
  intros Hs Hl. apply emits_then; [apply emits_writeInt; unfold is_u16; lia |].
  eapply emits_eq; [apply emits_memcpy; [done | lia] |].
  by rewrite Nat2Z.id, take_ge.
Qed.

Lemma forallb_bytes s : forallb (fun c => (0 <=? c) && (c <? 256)) s = true -> is_bytes s.
Proof.
  rewrite forallb_forall. intros H. apply Forall_forall. intros c Hc.
  specialize (H c Hc). simpl in H. unfold is_u8. lia.
Qed.

Lemma string_ok_inv m : string_ok m = true ->
  is_bytes (contents m) /\ MQTTstrlen m = Z.of_nat (length (contents m)) /\
  Z.of_nat (length (contents m)) < 65536 /\ emits (writeMQTTString m) (wire_string (contents m)).
Proof.
  destruct m as [[s|] n [d|]]; unfold string_ok, contents, MQTTstrlen, writeMQTTString; simpl;
    rewrite ?andb_true_iff.
  1, 2: intros [[Hn Hl] Hs%forallb_bytes]; rewrite (proj2 (Z.ltb_ge 0 n)) by lia;
    split_and!; [done | done | lia | apply emits_writeCString; [done | lia]].
  - intros [[[Hn Hl] Hm] Hd%forallb_bytes].
    assert (Z.of_nat (length (take (Z.to_nat n) d)) = n) as El by (rewrite length_take; lia).
    split_and!; [by apply Forall_take | lia | lia |].
    unfold wire_string. rewrite El. destruct (Z.ltb_spec 0 n).
    + apply emits_then; [apply emits_writeInt; unfold is_u16; lia |].
      apply emits_memcpy; [done | lia].
    + assert (n = 0) as -> by lia. simpl. apply (emits_writeInt 0). unfold is_u16; lia.
  - intros ->%Z.eqb_eq. simpl. split_and!; [constructor | done | lia |].
    apply (emits_writeInt 0). unfold is_u16; lia.
Qed.

(** ** The remaining-length code *)

Lemma lor_128 d : 0 <= d < 128 -> d .| 128 = 128 + d.
Proof.
  intros Hd. rewrite Z.lor_comm. change 128 with (Z.shiftl 1 7) at 1.
  rewrite shiftl_lor_add by lia. lia.
Qed.

Lemma land_127 z : z .& 127 = z mod 128.
Proof. change 127 with (Z.ones 7). by rewrite Z.land_ones. Qed.

Lemma land_128_digit d : 0 <= d < 128 -> d .& 128 = 0.
Proof.
  intros Hd. apply Z.bits_inj'. intros i Hi. rewrite Z.land_spec, Z.bits_0.
  change 128 with (2 ^ 7). rewrite Z.pow2_bits_eqb by lia.
  destruct (Z.eqb_spec 7 i) as [<- | Hne]; [| apply andb_false_r].
  rewrite <- (Z.mod_small d (2 ^ 7)) by lia. by rewrite Z.mod_pow2_bits_high by lia.
Qed.

Lemma land_128_more d : 0 <= d < 128 -> (128 + d) .& 128 <> 0.
Proof.
  intros Hd H. rewrite <- lor_128, Z.land_lor_distr_l, land_128_digit in H by lia. done.
Qed.

Lemma encode_last fuel n : 0 <= n < 128 -> emits (encode_loop (S fuel) n) [n].
Proof.
  intros Hn. simpl. rewrite Z.rem_mod_nonneg, Z.quot_div_nonneg by lia.
  rewrite Z.div_small, Z.mod_small by lia. simpl.
  apply (emits_then _ _ [n] []); [apply emits_writeChar; unfold is_u8; lia | apply emits_skip].
Qed.

Lemma encode_more fuel n bs : 128 <= n ->
  emits (encode_loop fuel (n / 128)) bs -> emits (encode_loop (S fuel) n) ((128 + n mod 128) :: bs).
Proof.
  intros Hn Hbs. simpl. rewrite Z.rem_mod_nonneg, Z.quot_div_nonneg by lia.
  assert ((0 <? n / 128) = true) as -> by divlia.
  pose proof (Z.mod_pos_bound n 128 ltac:(lia)) as Hm. rewrite lor_128 by lia.
  apply (emits_then _ _ [_] bs); [apply emits_writeChar; unfold is_u8; lia | done].
Qed.

Lemma div_128_128 n : n / 128 / 128 = n / 16384.
Proof. by rewrite Z.div_div. Qed.
Lemma div_16384_128 n : n / 16384 / 128 = n / 2097152.
Proof. by rewrite Z.div_div. Qed.

(** [MQTTPacket_encode] writes the variable-length code, with no more than
    four bytes, for every length MQTT allows. *)
Lemma emits_encode n : 0 <= n <= MAX_REMAINING_LENGTH -> emits (MQTTPacket_encode n) (varint n).
Proof.
  unfold MAX_REMAINING_LENGTH, MQTTPacket_encode, varint. intros Hn.
  destruct (Z.ltb_spec n 128); [apply encode_last; lia |].
  destruct (Z.ltb_spec n 16384).
  { apply encode_more; [done |]. apply encode_last; divlia. }
  destruct (Z.ltb_spec n 2097152).
  - apply encode_more; [done |]. apply encode_more; [divlia |]. rewrite div_128_128.
    apply encode_last; divlia.
  - apply encode_more; [done |]. apply encode_more; [divlia |]. rewrite div_128_128.
    apply encode_more; [divlia |]. rewrite div_16384_128. apply encode_last. divlia.
Qed.

Lemma varint_length n : 0 <= n ->
  Z.of_nat (length (varint n)) =
    if n <? 128 then 1 else if n <? 16384 then 2 else if n <? 2097152 then 3 else 4.
Proof. intros Hn. unfold varint. repeat case_match; done. Qed.

(** One step of the decoding loop on a byte with, and without, the
    continuation bit. *)
Section DecodeSteps.
Context (buf : bytes).

Lemma bufchar_some ptr c : buf !! ptr = Some c -> bufchar buf ptr = Some (1, c, S ptr).
Proof. unfold bufchar. by intros ->. Qed.

Lemma decode_last fuel len mult value ptr d :
  0 <= d < 128 -> len < 4 -> buf !! ptr = Some d ->
  decode_loop (bufchar buf) (S fuel) len mult value ptr = Some (len + 1, value + d * mult, S ptr).
Proof.
  intros Hd Hl Hb. cbn [decode_loop].
  rewrite (proj2 (Z.ltb_ge _ _)) by (unfold MAX_NO_OF_REMAINING_LENGTH_BYTES; lia).
  rewrite (bufchar_some _ _ Hb). cbn [mbind option_bind].
  change (negb (1 =? 1)) with false. cbv iota.
  by rewrite land_127, land_128_digit, Z.mod_small by lia.
Qed.

Lemma decode_more fuel len mult value ptr d :
  0 <= d < 128 -> len < 4 -> buf !! ptr = Some (128 + d) ->
  decode_loop (bufchar buf) (S fuel) len mult value ptr
  = decode_loop (bufchar buf) fuel (len + 1) (mult * 128) (value + d * mult) (S ptr).
Proof.
  intros Hd Hl Hb. cbn [decode_loop].
  rewrite (proj2 (Z.ltb_ge _ _)) by (unfold MAX_NO_OF_REMAINING_LENGTH_BYTES; lia).
  rewrite (bufchar_some _ _ Hb). cbn [mbind option_bind].
  change (negb (1 =? 1)) with false. cbv iota.
  rewrite (proj2 (Z.eqb_neq _ _) (land_128_more d Hd)). cbn [negb].
  rewrite land_127. replace ((128 + d) mod 128) with d by divlia. done.
Qed.
End DecodeSteps.

Lemma lookup_after (pre bs rest : bytes) i :
  (i < length bs)%nat -> (pre ++ bs ++ rest) !! (length pre + i)%nat = bs !! i.
Proof.
  intros Hi. rewrite lookup_app_r by lia.
  replace (length pre + i - length pre)%nat with i by lia. by apply lookup_app_l.
Qed.

(** Decoding finds the length that was encoded, wherever the code stands in
    the buffer. *)
Lemma decodeBuf_varint n pre rest buf :
  0 <= n <= MAX_REMAINING_LENGTH -> buf = pre ++ varint n ++ rest ->
  MQTTPacket_decodeBuf buf (length pre) = Some (Z.of_nat (length (varint n)), n).
Proof.
  unfold MAX_REMAINING_LENGTH. intros Hn Hbuf.
  pose proof (fun i Hi => lookup_after pre (varint n) rest i Hi) as L. rewrite <- Hbuf in L.
  pose proof (L 0%nat) as L0. pose proof (L 1%nat) as L1.
  pose proof (L 2%nat) as L2. pose proof (L 3%nat) as L3. clear L Hbuf.
  rewrite Nat.add_0_r in L0. rewrite Nat.add_1_r in L1.
  replace (length pre + 2)%nat with (S (S (length pre))) in L2 by lia.
  replace (length pre + 3)%nat with (S (S (S (length pre)))) in L3 by lia.
  unfold MQTTPacket_decodeBuf, MQTTPacket_decode. unfold varint in *.
  destruct (Z.ltb_spec n 128); [| destruct (Z.ltb_spec n 16384); [| destruct (Z.ltb_spec n 2097152)]];
    simpl length in *; simpl lookup in *.
  - rewrite (decode_last _ _ _ _ _ _ n) by (try apply L0; lia). simpl. do 2 f_equal. lia.
  - rewrite (decode_more _ _ _ _ _ _ (n mod 128)) by (try apply L0; divlia).
    rewrite (decode_last _ _ _ _ _ _ (n / 128)) by (try apply L1; divlia).
    simpl. do 2 f_equal. divlia.
  - rewrite (decode_more _ _ _ _ _ _ (n mod 128)) by (try apply L0; divlia).
    rewrite (decode_more _ _ _ _ _ _ (n / 128 mod 128)) by (try apply L1; divlia).
    rewrite (decode_last _ _ _ _ _ _ (n / 16384)) by (try apply L2; divlia).
    simpl. do 2 f_equal. rewrite <- div_128_128. clear. divlia.
  - rewrite (decode_more _ _ _ _ _ _ (n mod 128)) by (try apply L0; divlia).
    rewrite (decode_more _ _ _ _ _ _ (n / 128 mod 128)) by (try apply L1; divlia).
    rewrite (decode_more _ _ _ _ _ _ (n / 16384 mod 128)) by (try apply L2; divlia).
    rewrite (decode_last _ _ _ _ _ _ (n / 2097152)) by (try apply L3; divlia).
    simpl. do 2 f_equal. rewrite <- div_16384_128, <- div_128_128. clear. divlia.
Qed.

(** ** Fixed header *)

Lemma land_1 z : z .& 1 = z mod 2.
Proof. change 1 with (Z.ones 1). by rewrite Z.land_ones. Qed.
Lemma land_3 z : z .& 3 = z mod 4.
Proof. change 3 with (Z.ones 2). by rewrite Z.land_ones. Qed.
Lemma land_15 z : z .& 15 = z mod 16.
Proof. change 15 with (Z.ones 4). by rewrite Z.land_ones. Qed.

Definition flag (z : Z) : Prop := z = 0 \/ z = 1.

Lemma MQTTHeader_arith type dup qos retain :
  0 <= type < 16 -> flag dup -> 0 <= qos < 4 -> flag retain ->
  MQTTHeader type dup qos retain = 16 * type + 8 * dup + 2 * qos + retain.
Proof.
  intros Ht Hd Hq Hr. unfold MQTTHeader, flag in *.
  rewrite land_15, land_3, !land_1, !Z.mod_small by lia.
  rewrite <- !Z.lor_assoc, (shiftl_lor_add qos), (shiftl_lor_add dup), shiftl_lor_add by lia. lia.
Qed.

Lemma header_bits type dup qos retain :
  0 <= type < 16 -> flag dup -> 0 <= qos < 4 -> flag retain ->
  let h := MQTTHeader type dup qos retain in
  is_u8 h /\ bits_type h = type /\ bits_dup h = dup /\ bits_qos h = qos /\ bits_retain h = retain.
Proof.
  intros Ht Hd Hq Hr h. subst h. rewrite MQTTHeader_arith by done.
  unfold bits_type, bits_dup, bits_qos, bits_retain, is_u8, flag in *.
  rewrite land_15, land_3, !land_1, !Z.shiftr_div_pow2 by lia.
  change (2 ^ 4) with 16. change (2 ^ 3) with 8. change (2 ^ 1) with 2. change (2 ^ 8) with 256.
  split_and!; divlia.
Qed.

(** ** Packets in a buffer *)

(** The length check of the serialisers covers the packet it guards. *)
Lemma packet_length_le type dup qos retain body :
  Z.of_nat (length (packet type dup qos retain body)) <= MQTTPacket_len (Z.of_nat (length body)).
Proof.
  unfold packet, MQTTPacket_len. cbn [length]. rewrite length_app.
  pose proof (varint_length (Z.of_nat (length body))).
  repeat case_match; lia.
Qed.

Lemma MQTTPacket_len_ge n : n <= MQTTPacket_len n.
Proof. unfold MQTTPacket_len. repeat case_match; lia. Qed.

Lemma serialize_emits w bs buf :
  emits w bs -> (length bs <= length buf)%nat ->
  serialize w buf = Some (Z.of_nat (length bs), bs ++ drop (length bs) buf).
Proof.
  intros Hw Hl. pose proof (Hw [] buf Hl) as H. simpl in H.
  unfold serialize. by rewrite H.
Qed.

(** A serialiser whose length computation agrees with what it writes stores
    the packet at the front of the buffer and nothing else. *)
Lemma serialize_packet w type dup qos retain body rem buf :
  emits w body -> rem = Z.of_nat (length body) ->
  0 <= type < 16 -> flag dup -> 0 <= qos < 4 -> flag retain ->
  MQTTPacket_len rem <= Z.of_nat (length buf) <= MAX_REMAINING_LENGTH ->
  serialize (writeChar (MQTTHeader type dup qos retain) >> MQTTPacket_encode rem >> w) buf
  = Some (Z.of_nat (length (packet type dup qos retain body)),
          packet type dup qos retain body ++ drop (length (packet type dup qos retain body)) buf).
Proof.
  intros Hw -> Ht Hd Hq Hr Hl.
  pose proof (packet_length_le type dup qos retain body).
  pose proof (MQTTPacket_len_ge (Z.of_nat (length body))).
  apply serialize_emits; [| lia].
  apply (emits_then _ _ [_]); [apply emits_writeChar, header_bits; done |].
  apply emits_then; [apply emits_encode; lia | done].
Qed.

(** What the deserialisers first read of a packet: header and length. *)
Lemma packet_front type dup qos retain body rest :
  Z.of_nat (length body) <= MAX_REMAINING_LENGTH ->
  let buf := packet type dup qos retain body ++ rest in
  readChar buf 0 = Some (MQTTHeader type dup qos retain, 1%nat) /\
  MQTTPacket_decodeBuf buf 1
  = Some (Z.of_nat (length (varint (Z.of_nat (length body)))), Z.of_nat (length body)).
Proof.
  intros Hl buf. split; [done |].
  apply (decodeBuf_varint _ [MQTTHeader type dup qos retain] (body ++ rest)); [lia |].
  subst buf. unfold packet. by rewrite <- app_comm_cons, <- (assoc_L (++)).
Qed.

Definition header_len (body : bytes) : nat := S (length (varint (Z.of_nat (length body)))).

Lemma drop_header type dup qos retain body rest :
  drop (header_len body) (packet type dup qos retain body ++ rest) = body ++ rest.
Proof.
  unfold packet, header_len. rewrite <- app_comm_cons. cbn [drop].
  rewrite <- (assoc_L (++)). apply drop_app_length.
Qed.

Lemma lookup_body type dup qos retain body rest i :
  (packet type dup qos retain body ++ rest) !! (header_len body + i)%nat = (body ++ rest) !! i.
Proof. by rewrite <- lookup_drop, drop_header. Qed.

Lemma be16_length n : length (be16 n) = 2%nat.
Proof. done. Qed.

Lemma be16_value n : is_u16 n -> 256 * (n / 256) + n mod 256 = n.
Proof. unfold is_u16. intros. divlia. Qed.

Lemma readInt_body type dup qos retain pre n post rest :
  is_u16 n ->
  let body := pre ++ be16 n ++ post in
  let ptr := (header_len body + length pre)%nat in
  readInt (packet type dup qos retain body ++ rest) ptr = Some (n, S (S ptr)).
Proof.
  intros Hn body ptr. unfold readInt.
  assert (forall i, (i < 2)%nat ->
    (packet type dup qos retain body ++ rest) !! (ptr + i)%nat = be16 n !! i) as H.
  { intros i Hi. subst ptr. rewrite <- Nat.add_assoc, lookup_body. subst body.
    rewrite <- !(assoc_L (++)). by apply lookup_after. }
  pose proof (H 0%nat ltac:(lia)) as H0. pose proof (H 1%nat ltac:(lia)) as H1.
  rewrite Nat.add_0_r in H0. rewrite Nat.add_1_r in H1. rewrite H0, H1. simpl.
  by rewrite be16_value.
Qed.

(** ** Publish *)

Definition publish_body (qos packetid : Z) (topic payload : bytes) : bytes :=
  wire_string topic ++ (if 0 <? qos then be16 packetid else []) ++ payload.

Lemma emits_opt (b : bool) w bs : emits w bs -> emits (if b then w else skip) (if b then bs else []).
Proof. intros H. destruct b; [done | apply emits_skip]. Qed.

Lemma length_opt {A} (b : bool) (l : list A) :
  length (if b then l else []) = if b then length l else 0%nat.
Proof. by destruct b. Qed.

Lemma length_wire_string s : length (wire_string s) = (2 + length s)%nat.
Proof. done. Qed.

Lemma serialize_publish_bytes buf dup qos retained packetid topic payload :
  string_ok topic = true -> is_bytes payload ->
  flag dup -> 0 <= qos < 4 -> flag retained -> is_u16 packetid ->
  MQTTPacket_len (MQTTSerialize_publishLength qos topic (Z.of_nat (length payload)))
    <= Z.of_nat (length buf) <= MAX_REMAINING_LENGTH ->
  let pkt := packet PUBLISH dup qos retained (publish_body qos packetid (contents topic) payload) in
  MQTTSerialize_publish buf (Z.of_nat (length buf)) dup qos retained packetid topic
    (Some payload) (Z.of_nat (length payload))
  = Some (Z.of_nat (length pkt), pkt ++ drop (length pkt) buf).
Proof.
  intros Hs Hp Hd Hq Hr Hi Hl pkt. destruct (string_ok_inv topic Hs) as (Hb & Hlen & Hmax & Hem).
  unfold MQTTSerialize_publish. rewrite (proj2 (Z.ltb_ge _ _)) by lia.
  apply serialize_packet; try done.
  - apply emits_then; [done |]. apply emits_then; [by apply emits_opt, emits_writeInt |].
    eapply emits_eq; [apply emits_memcpy; [done | lia] |]. by rewrite Nat2Z.id, take_ge.
  - unfold MQTTSerialize_publishLength, publish_body.
    rewrite Hlen, !length_app, length_wire_string, length_opt, be16_length. case_match; lia.
Qed.

(** Reading the length-prefixed string at the front of a packet's body. *)
Lemma readMQTTLenString_front type dup qos retain s post rest m :
  Z.of_nat (length s) < 65536 ->
  let body := wire_string s ++ post in
  let ptr := header_len body in
  readMQTTLenString m (packet type dup qos retain body ++ rest) ptr (ptr + length body)
  = Some (1, mk_MQTTString None (Z.of_nat (length s)) (Some s), (ptr + 2 + length s)%nat).
Proof.
  intros Hs body ptr. unfold readMQTTLenString.
  assert (length body = 2 + length s + length post)%nat as Hlb
    by (subst body; by rewrite length_app, length_wire_string).
  rewrite (proj2 (Z.ltb_lt 1 _)) by lia.
  pose proof (readInt_body type dup qos retain [] (Z.of_nat (length s)) (s ++ post) rest) as HR.
  cbv zeta in HR.
  change ([] ++ be16 (Z.of_nat (length s)) ++ s ++ post) with body in HR.
  change (length (@nil Z)) with 0%nat in HR. rewrite Nat.add_0_r in HR. fold ptr in HR.
  rewrite HR by (unfold is_u16; lia). cbn [mbind option_bind].
  rewrite (proj2 (Z.leb_le _ _)) by lia. rewrite Nat2Z.id.
  assert (drop (S (S ptr)) (packet type dup qos retain body ++ rest) = s ++ post ++ rest) as ->.
  { replace (S (S ptr)) with (ptr + 2)%nat by lia.
    rewrite <- drop_drop. subst ptr. rewrite drop_header. subst body.
    unfold wire_string. by rewrite <- !(assoc_L (++)). }
  rewrite take_app_length. do 3 f_equal. lia.
Qed.

Lemma deserialize_publish_bytes o dup qos retained packetid topic payload rest :
  Z.of_nat (length topic) < 65536 -> flag dup -> 0 <= qos < 4 -> flag retained -> is_u16 packetid ->
  let body := publish_body qos packetid topic payload in
  let buf := packet PUBLISH dup qos retained body ++ rest in
  Z.of_nat (length body) <= MAX_REMAINING_LENGTH ->
  exists idx,
    MQTTDeserialize_publish o buf
    = Some (1, mk_publish_out dup qos retained (if 0 <? qos then packetid else po_packetid o)
                 (mk_MQTTString None (Z.of_nat (length topic)) (Some topic))
                 (Some idx) (Z.of_nat (length payload)))
    /\ take (length payload) (drop idx buf) = payload.
Proof.
  intros Ht Hd Hq Hr Hi body buf Hl.
  destruct (packet_front PUBLISH dup qos retained body rest Hl) as [HF HD].
  destruct (header_bits PUBLISH dup qos retained) as (_ & Bt & Bd & Bq & Br); [done.. |].
  exists (header_len body + (2 + length topic + (if (0 <? qos)%Z then 2 else 0)))%nat.
  assert (length body = 2 + length topic + (if (0 <? qos)%Z then 2 else 0)
                        + length payload)%nat as Hlb
    by (unfold body, publish_body; rewrite !length_app, length_wire_string, length_opt, be16_length; lia).
  split.
  2: { rewrite <- drop_drop. subst buf. rewrite drop_header. subst body.
       unfold publish_body. rewrite (assoc_L (++)), <- (assoc_L (++)).
       rewrite drop_app_length' by (rewrite length_app, length_wire_string, length_opt; done).
       apply take_app_length. }
  pose proof (fun m => readMQTTLenString_front PUBLISH dup qos retained topic
    ((if 0 <? qos then be16 packetid else []) ++ payload) rest m Ht) as HS. cbv zeta in HS.
  fold (publish_body qos packetid topic payload) body in HS. fold buf in HS, HF, HD.
  unfold MQTTDeserialize_publish. rewrite HF. cbn [mbind option_bind]. rewrite Bt, Bd, Bq, Br.
  rewrite Z.eqb_refl. cbn [negb]. rewrite HD. cbn [mbind option_bind]. rewrite !Nat2Z.id.
  change (1 + length (varint (Z.of_nat (length body))))%nat with (header_len body).
  cbn [po_topicName po_dup po_retained po_packetid po_payload po_payloadlen].
  rewrite HS.
  cbn [mbind option_bind Z.eqb orb]. rewrite (proj2 (Z.ltb_ge _ 0)) by lia.
  destruct (0 <? qos) eqn:Eq.
  - pose proof (readInt_body PUBLISH dup qos retained (wire_string topic) packetid payload rest Hi) as HR.
    cbv zeta in HR.
    assert (wire_string topic ++ be16 packetid ++ payload = body) as Eb
      by (unfold body, publish_body; by rewrite Eq).
    rewrite Eb in HR. fold buf in HR. replace (header_len body + 2 + length topic)%nat
      with (header_len body + length (wire_string topic))%nat by (rewrite length_wire_string; lia).
    rewrite HR. cbn [mbind option_bind]. rewrite length_wire_string.
    do 4 f_equal; lia.
  - cbn [mbind option_bind]. do 4 f_equal; lia.
Qed.

(** C12: a publish packet that passes the length check is written inside the
    buffer, everything behind it stays as it was, and deserialising the buffer
    gives back the flags, QoS, packet identifier (for QoS above 0), topic and
    payload. *)
Theorem publish_roundtrip buf dup qos retained packetid topic payload o :
  string_ok topic = true -> is_bytes payload ->
  flag dup -> 0 <= qos < 4 -> flag retained -> is_u16 packetid ->
  MQTTPacket_len (MQTTSerialize_publishLength qos topic (Z.of_nat (length payload)))
    <= Z.of_nat (length buf) <= MAX_REMAINING_LENGTH ->
  exists (len : nat) buf' idx,
    MQTTSerialize_publish buf (Z.of_nat (length buf)) dup qos retained packetid topic
      (Some payload) (Z.of_nat (length payload)) = Some (Z.of_nat len, buf')
    /\ (len <= length buf)%nat /\ drop len buf' = drop len buf
    /\ MQTTDeserialize_publish o buf'
       = Some (1, mk_publish_out dup qos retained (if 0 <? qos then packetid else po_packetid o)
                    (mk_MQTTString None (Z.of_nat (length (contents topic))) (Some (contents topic)))
                    (Some idx) (Z.of_nat (length payload)))
    /\ take (length payload) (drop idx buf') = payload.
Proof.
  intros Hs Hp Hd Hq Hr Hi Hl. destruct (string_ok_inv topic Hs) as (Hb & Hlen & Hmax & _).
  set (body := publish_body qos packetid (contents topic) payload).
  assert (MQTTSerialize_publishLength qos topic (Z.of_nat (length payload)) = Z.of_nat (length body)) as EL.
  { unfold MQTTSerialize_publishLength, body, publish_body.
    rewrite Hlen, !length_app, length_wire_string, length_opt, be16_length. case_match; lia. }
  pose proof (packet_length_le PUBLISH dup qos retained body) as Hple. rewrite EL in Hl.
  pose proof (MQTTPacket_len_ge (Z.of_nat (length body))) as Hge.
  destruct (deserialize_publish_bytes o dup qos retained packetid (contents topic) payload
              (drop (length (packet PUBLISH dup qos retained body)) buf)) as (idx & HD & HP); [done.. | fold body; lia |].
  eexists _, _, idx. split; [apply serialize_publish_bytes; try done; by rewrite EL |].
  fold body. split; [lia |]. split; [by rewrite drop_app_length |]. split; [exact HD | exact HP].
Qed.

Lemma publish_roundtrip_witness :
  exists (len : nat) buf' idx,
    MQTTSerialize_publish (replicate 80 0) 80 0 1 0 7 (cstr [97; 47; 98]) (Some [1; 2]) 2
      = Some (Z.of_nat len, buf')
    /\ (len <= 80)%nat /\ drop len buf' = drop len (replicate 80 0)
    /\ MQTTDeserialize_publish (mk_publish_out 0 0 0 0 MQTTString_initializer None 0) buf'
       = Some (1, mk_publish_out 0 1 0 7 (mk_MQTTString None 3 (Some [97; 47; 98])) (Some idx) 2)
    /\ take 2 (drop idx buf') = [1; 2].
Proof.
  apply (publish_roundtrip (replicate 80 0) 0 1 0 7 (cstr [97; 47; 98]) [1; 2]
           (mk_publish_out 0 0 0 0 MQTTString_initializer None 0)).
  - reflexivity.
  - repeat constructor; discriminate.
  - by left.
  - lia.
  - by left.
  - unfold is_u16; lia.
  - vm_compute; split; discriminate.
Defined.

(** Every remaining length MQTT allows is written in at most four bytes
    and read back, wherever it stands in the buffer; and the packet length the
    serialisers check against the buffer is never below the real one, and at
    most one byte above it. *)
Lemma remaining_length_roundtrip n pre rest :
  0 <= n <= MAX_REMAINING_LENGTH -> (4 <= length rest)%nat ->
  exists buf' (len : nat),
    MQTTPacket_encode n (mk_wbuf (pre ++ rest) (length pre)) = Some (mk_wbuf buf' (length pre + len))
    /\ (len <= 4)%nat /\ take (length pre) buf' = pre /\ drop (length pre + len) buf' = drop len rest
    /\ MQTTPacket_decodeBuf buf' (length pre) = Some (Z.of_nat len, n)
    /\ 1 + Z.of_nat len + n <= MQTTPacket_len n <= 2 + Z.of_nat len + n.
Proof.
  intros Hn Hr. pose proof (varint_length n ltac:(lia)) as Hlen.
  assert (length (varint n) <= 4)%nat by (revert Hlen; repeat case_match; lia).
  exists ((pre ++ varint n) ++ drop (length (varint n)) rest), (length (varint n)).
  rewrite <- length_app. split_and!.
  - apply emits_encode; [done | lia].
  - done.
  - by rewrite <- (assoc_L (++)), take_app_length.
  - by rewrite drop_app_length.
  - apply (decodeBuf_varint n pre (drop (length (varint n)) rest)); [done |].
    by rewrite (assoc_L (++)).
  - revert Hlen. unfold MQTTPacket_len, MAX_REMAINING_LENGTH in *. repeat case_match; lia.
  - revert Hlen. unfold MQTTPacket_len, MAX_REMAINING_LENGTH in *. repeat case_match; lia.
Qed.

Lemma remaining_length_roundtrip_witness :
  exists buf' (len : nat),
    MQTTPacket_encode 321 (mk_wbuf ([48] ++ replicate 8 0) 1) = Some (mk_wbuf buf' (1 + len))
    /\ (len <= 4)%nat /\ take 1 buf' = [48] /\ drop (1 + len) buf' = drop len (replicate 8 0)
    /\ MQTTPacket_decodeBuf buf' 1 = Some (Z.of_nat len, 321)
    /\ 1 + Z.of_nat len + 321 <= MQTTPacket_len 321 <= 2 + Z.of_nat len + 321.
Proof.
  apply (remaining_length_roundtrip 321 [48] (replicate 8 0)).
  - unfold MAX_REMAINING_LENGTH; lia.
  - simpl; lia.
Defined.

(** ** Acknowledgements *)

Lemma serialize_ack_bytes buf type dup packetid :
  0 <= type < 16 -> flag dup -> is_u16 packetid ->
  4 <= Z.of_nat (length buf) <= MAX_REMAINING_LENGTH ->
  let pkt := packet type dup (if type =? PUBREL then 1 else 0) 0 (be16 packetid) in
  MQTTSerialize_ack buf (Z.of_nat (length buf)) type dup packetid = Some (4, pkt ++ drop 4 buf).
Proof.
  intros Ht Hd Hi Hl pkt. unfold MQTTSerialize_ack. rewrite (proj2 (Z.ltb_ge _ _)) by lia.
  apply (serialize_packet (writeInt packetid) type dup _ 0 (be16 packetid) 2); try done.
  - by apply emits_writeInt.
  - case_match; lia.
  - by left.
Qed.

Lemma deserialize_ack_bytes id0 type dup qos retain packetid post rest :
  0 <= type < 16 -> flag dup -> 0 <= qos < 4 -> flag retain -> is_u16 packetid ->
  Z.of_nat (2 + length post) <= MAX_REMAINING_LENGTH ->
  MQTTDeserialize_ack id0 (packet type dup qos retain (be16 packetid ++ post) ++ rest)
  = Some (1, type, dup, packetid).
Proof.
  intros Ht Hd Hq Hr Hi Hl.
  destruct (packet_front type dup qos retain (be16 packetid ++ post) rest Hl) as [HF HD].
  destruct (header_bits type dup qos retain) as (_ & Bt & Bd & _); [done.. |].
  pose proof (readInt_body type dup qos retain [] packetid post rest Hi) as HR. cbv zeta in HR.
  rewrite Nat.add_0_r in HR. change ([] ++ be16 packetid ++ post) with (be16 packetid ++ post) in HR.
  unfold MQTTDeserialize_ack. rewrite HF. cbn [mbind option_bind].
  rewrite HD. cbn [mbind option_bind]. rewrite Bt, Bd, Nat2Z.id.
  rewrite (proj2 (Z.ltb_ge _ _)) by (rewrite length_app, be16_length; lia).
  change (1 + length (varint (Z.of_nat (length (be16 packetid ++ post)))))%nat
    with (header_len (be16 packetid ++ post)).
  by rewrite HR.
Qed.

(** Acknowledgement packets of every type survive serialisation: the
    four bytes written deserialise to the same type, dup flag and packet
    identifier; PUBREL carries the reserved flags 0010. *)
Lemma ack_roundtrip buf type dup packetid id0 :
  0 <= type < 16 -> flag dup -> is_u16 packetid ->
  4 <= Z.of_nat (length buf) <= MAX_REMAINING_LENGTH ->
  exists buf',
    MQTTSerialize_ack buf (Z.of_nat (length buf)) type dup packetid = Some (4, buf')
    /\ drop 4 buf' = drop 4 buf
    /\ MQTTDeserialize_ack id0 buf' = Some (1, type, dup, packetid)
    /\ buf' !! 0%nat = Some (16 * type + 8 * dup + (if type =? PUBREL then 2 else 0)).
Proof.
  intros Ht Hd Hi Hl. eexists. split; [by apply serialize_ack_bytes |].
  split; [done |]. split.
  - rewrite <- (app_nil_r (be16 packetid)). apply deserialize_ack_bytes; try done; try by left.
    case_match; lia.
  - cbn. rewrite MQTTHeader_arith; [| done.. | by case_match | by left]. f_equal. case_match; lia.
Qed.

Lemma ack_roundtrip_witness :
  exists buf',
    MQTTSerialize_ack [0; 0; 0; 0; 9] 5 PUBREL 0 258 = Some (4, buf')
    /\ drop 4 buf' = [9]
    /\ MQTTDeserialize_ack 0 buf' = Some (1, PUBREL, 0, 258)
    /\ buf' !! 0%nat = Some 98.
Proof.
  apply (ack_roundtrip [0; 0; 0; 0; 9] PUBREL 0 258 0).
  - unfold PUBREL; lia.
  - by left.
  - unfold is_u16; lia.
  - unfold MAX_REMAINING_LENGTH; simpl; lia.
Defined.


(** ** Connect *)

Lemma connect_flags_arith clean wl q r p u :
  flag clean -> flag wl -> 0 <= q < 4 -> flag r -> flag p -> flag u ->
  MQTTConnectFlags clean wl q r p u = 128 * u + 64 * p + 32 * r + 8 * q + 4 * wl + 2 * clean.
Proof.
  unfold flag. intros. unfold MQTTConnectFlags.
  rewrite land_3, !land_1, !Z.mod_small by lia.
  rewrite <- !Z.lor_assoc, (Z.shiftl_mul_pow2 clean) by lia.
  rewrite (shiftl_lor_add wl), (shiftl_lor_add q), (shiftl_lor_add r), (shiftl_lor_add p),
    (shiftl_lor_add u) by lia. lia.
Qed.

Lemma flag_b2z b : flag (Z.b2z b).
Proof. destruct b; [by right | by left]. Qed.

(** Options a caller may pass: version 3 or 4, well-formed strings, values
    within their fields. *)
Record connect_ok (o : MQTTPacket_connectData) : Prop := {
  cok_version : MQTTVersion o = 3 \/ MQTTVersion o = 4;
  cok_keepalive : is_u16 (opt_keepAliveInterval o);
  cok_clean : flag (opt_cleansession o);
  cok_will_qos : 0 <= will_qos (will o) < 4;
  cok_will_retained : flag (will_retained (will o));
  cok_clientID : string_ok (clientID o) = true;
  cok_will_topic : string_ok (will_topicName (will o)) = true;
  cok_will_message : string_ok (will_message (will o)) = true;
  cok_username : string_ok (username o) = true;
  cok_password : string_ok (password o) = true;
}.

Lemma connect_flags_u8 o : connect_ok o -> is_u8 (connect_flags o).
Proof.
  intros H. unfold connect_flags.
  pose proof (cok_will_qos _ H). pose proof (cok_will_retained _ H). pose proof (cok_clean _ H).
  pose proof (flag_b2z (negb (willFlag o =? 0))). pose proof (flag_b2z (string_present (password o))).
  pose proof (flag_b2z (string_present (username o))).
  rewrite connect_flags_arith; try done; unfold flag, is_u8 in *; case_match; lia.
Qed.

(** The variable header and payload of a CONNECT packet (MQTT 3.1.1, 3.1). *)
Definition connect_body (o : MQTTPacket_connectData) : bytes :=
  (if MQTTVersion o =? 4 then wire_string str_MQTT ++ [4] else wire_string str_MQIsdp ++ [3])
  ++ [connect_flags o] ++ be16 (opt_keepAliveInterval o) ++ wire_string (contents (clientID o))
  ++ (if negb (willFlag o =? 0)
      then wire_string (contents (will_topicName (will o))) ++ wire_string (contents (will_message (will o)))
      else [])
  ++ (if string_present (username o) then wire_string (contents (username o)) else [])
  ++ (if string_present (password o) then wire_string (contents (password o)) else []).

Lemma emits_protocol o :
  emits (if MQTTVersion o =? 4 then writeCString str_MQTT >> writeChar 4
         else writeCString str_MQIsdp >> writeChar 3)
        (if MQTTVersion o =? 4 then wire_string str_MQTT ++ [4] else wire_string str_MQIsdp ++ [3]).
Proof.
  case_match; (apply emits_then; [apply emits_writeCString; [repeat constructor; done | done] |]);
    apply emits_writeChar; unfold is_u8; lia.
Qed.

Lemma emits_string m : string_ok m = true -> emits (writeMQTTString m) (wire_string (contents m)).
Proof. intros H. apply string_ok_inv, H. Qed.

Lemma MQTTstrlen_contents m : string_ok m = true -> MQTTstrlen m = Z.of_nat (length (contents m)).
Proof. intros H. apply string_ok_inv, H. Qed.

Lemma connectLength_body o : connect_ok o ->
  MQTTSerialize_connectLength o = Z.of_nat (length (connect_body o)).
Proof.
  intros []. unfold MQTTSerialize_connectLength, connect_body.
  rewrite !MQTTstrlen_contents, !length_app, !length_opt, !length_app, !length_wire_string, be16_length by done.
  cbn [length].
  destruct cok_version0 as [-> | ->]; cbn [Z.eqb Pos.eqb];
    change (length (wire_string str_MQTT ++ [4])) with 7%nat;
    change (length (wire_string str_MQIsdp ++ [3])) with 9%nat;
    repeat case_match; lia.
Qed.

Lemma serialize_connect_bytes o buf :
  connect_ok o ->
  MQTTPacket_len (MQTTSerialize_connectLength o) <= Z.of_nat (length buf) <= MAX_REMAINING_LENGTH ->
  let pkt := packet CONNECT 0 0 0 (connect_body o) in
  MQTTSerialize_connect buf (Z.of_nat (length buf)) o
  = Some (Z.of_nat (length pkt), pkt ++ drop (length pkt) buf).
Proof.
  intros Hok Hl pkt. unfold MQTTSerialize_connect. rewrite (proj2 (Z.ltb_ge _ _)) by lia.
  apply serialize_packet; try done; [| by apply connectLength_body | by left | by left].
  pose proof (connect_flags_u8 o Hok). destruct Hok.
  apply emits_then; [apply emits_protocol |].
  apply emits_then; [by apply emits_writeChar |].
  apply emits_then; [by apply emits_writeInt |].
  apply emits_then; [by apply emits_string |].
  repeat apply emits_then; apply emits_opt; auto using emits_then, emits_string.
Qed.

(** A CONNECT packet that passes the length check is exactly protocol
    name and level, flags, keep-alive and the strings the flags announce, with
    the right remaining length, written inside the buffer. *)
Lemma connect_format o buf :
  connect_ok o ->
  MQTTPacket_len (MQTTSerialize_connectLength o) <= Z.of_nat (length buf) <= MAX_REMAINING_LENGTH ->
  let pkt := packet CONNECT 0 0 0 (connect_body o) in
  MQTTSerialize_connect buf (Z.of_nat (length buf)) o
  = Some (Z.of_nat (length pkt), pkt ++ drop (length pkt) buf).
Proof. apply serialize_connect_bytes. Qed.

(** The options of the firmware's task: version 3, client "uiso". *)
Definition demo_options : MQTTPacket_connectData :=
  mk_connectData 3 (cstr [117; 105; 115; 111]) 600 1 0 MQTTPacket_willOptions_initializer
    MQTTString_initializer MQTTString_initializer.

Lemma connect_format_witness :
  MQTTSerialize_connect (replicate 80 0) 80 demo_options
  = Some (20, [16; 18; 0; 6; 77; 81; 73; 115; 100; 112; 3; 2; 2; 88; 0; 4; 117; 105; 115; 111]
              ++ replicate 60 0).
Proof.
  apply (connect_format demo_options (replicate 80 0)).
  - constructor; try reflexivity; try (by left); try (by right); vm_compute; split; congruence.
  - vm_compute; split; discriminate.
Defined.

(** ** Subscribe and unsubscribe *)

Definition subscribe_body (packetid : Z) (topics : list (MQTTString * Z)) : bytes :=
  be16 packetid ++ concat ((fun t => wire_string (contents (fst t)) ++ [snd t]) <$> topics).
Definition unsubscribe_body (packetid : Z) (topics : list MQTTString) : bytes :=
  be16 packetid ++ concat ((fun t => wire_string (contents t)) <$> topics).

Lemma emits_write_topics_qos topics :
  Forall (fun t => string_ok (fst t) = true /\ is_u8 (snd t)) topics ->
  emits (write_topics_qos topics)
    (concat ((fun t => wire_string (contents (fst t)) ++ [snd t]) <$> topics)).
Proof.
  induction 1 as [|[t q] ts [Ht Hq] _ IH]; [apply emits_skip |].
  rewrite fmap_cons, concat_cons, <- (assoc_L (++)).
  apply emits_then; [by apply emits_string |]. by apply (emits_then _ _ [q]); [apply emits_writeChar |].
Qed.

Lemma emits_write_topics topics :
  Forall (fun t => string_ok t = true) topics ->
  emits (write_topics topics) (concat ((fun t => wire_string (contents t)) <$> topics)).
Proof.
  induction 1 as [|t ts Ht _ IH]; [apply emits_skip |].
  by apply emits_then; [apply emits_string |].
Qed.

Lemma subscribe_length packetid topics :
  Forall (fun t => string_ok (fst t) = true /\ is_u8 (snd t)) topics ->
  MQTTSerialize_subscribeLength (fst <$> topics) = Z.of_nat (length (subscribe_body packetid topics)).
Proof.
  unfold MQTTSerialize_subscribeLength, subscribe_body. rewrite length_app, be16_length.
  induction 1 as [|[t q] ts [Ht Hq] _ IH]; [done |].
  rewrite !fmap_cons, concat_cons. cbn [topics_length fst snd] in *. rewrite length_app, length_app, length_wire_string, MQTTstrlen_contents by done. cbn [length]. lia.
Qed.

Lemma unsubscribe_length packetid topics :
  Forall (fun t => string_ok t = true) topics ->
  MQTTSerialize_unsubscribeLength topics = Z.of_nat (length (unsubscribe_body packetid topics)).
Proof.
  unfold MQTTSerialize_unsubscribeLength, unsubscribe_body. rewrite length_app, be16_length.
  induction 1 as [|t ts Ht _ IH]; [done |].
  rewrite fmap_cons, concat_cons. cbn [topics_length]. rewrite length_app, length_wire_string, MQTTstrlen_contents by done. cbn [length]. lia.
Qed.

Lemma serialize_subscribe_bytes buf packetid topics :
  Forall (fun t => string_ok (fst t) = true /\ is_u8 (snd t)) topics -> is_u16 packetid ->
  MQTTPacket_len (MQTTSerialize_subscribeLength (fst <$> topics)) <= Z.of_nat (length buf)
    <= MAX_REMAINING_LENGTH ->
  let sub := packet SUBSCRIBE 0 1 0 (subscribe_body packetid topics) in
  MQTTSerialize_subscribe buf (Z.of_nat (length buf)) 0 packetid topics
    = Some (Z.of_nat (length sub), sub ++ drop (length sub) buf).
Proof.
  intros Hts Hi Hl sub. unfold MQTTSerialize_subscribe. rewrite (proj2 (Z.ltb_ge _ _)) by lia.
  apply serialize_packet; try done; try (by left); [| by apply subscribe_length].
  apply emits_then; [by apply emits_writeInt | by apply emits_write_topics_qos].
Qed.

(** A SUBSCRIBE packet that passes the length check is the packet
    identifier followed by each filter with its requested QoS, an UNSUBSCRIBE
    packet the identifier and the filters; both carry the flags 0010 MQTT
    reserves for them. *)
Lemma subscribe_format buf packetid topics :
  Forall (fun t => string_ok (fst t) = true /\ is_u8 (snd t)) topics -> is_u16 packetid ->
  MQTTPacket_len (MQTTSerialize_subscribeLength (fst <$> topics)) <= Z.of_nat (length buf)
    <= MAX_REMAINING_LENGTH ->
  let sub := packet SUBSCRIBE 0 1 0 (subscribe_body packetid topics) in
  let unsub := packet UNSUBSCRIBE 0 1 0 (unsubscribe_body packetid (fst <$> topics)) in
  MQTTSerialize_subscribe buf (Z.of_nat (length buf)) 0 packetid topics
    = Some (Z.of_nat (length sub), sub ++ drop (length sub) buf) /\
  MQTTSerialize_unsubscribe buf (Z.of_nat (length buf)) 0 packetid (fst <$> topics)
    = Some (Z.of_nat (length unsub), unsub ++ drop (length unsub) buf) /\
  sub !! 0%nat = Some 130 /\ unsub !! 0%nat = Some 162.
Proof.
  intros Hts Hi Hl sub unsub.
  assert (Forall (fun t => string_ok t = true) (fst <$> topics)) as Hts'
    by (apply Forall_fmap; eapply Forall_impl; [| exact Hts]; by intros ? []).
  assert (MQTTSerialize_unsubscribeLength (fst <$> topics)
          <= MQTTSerialize_subscribeLength (fst <$> topics)) as Hle.
  { unfold MQTTSerialize_subscribeLength, MQTTSerialize_unsubscribeLength. clear.
    induction topics as [|t ts IH]; [done |]. rewrite fmap_cons. cbn [topics_length]. lia. }
  assert (MQTTPacket_len (MQTTSerialize_unsubscribeLength (fst <$> topics))
          <= MQTTPacket_len (MQTTSerialize_subscribeLength (fst <$> topics))) as Hle'
    by (revert Hle; unfold MQTTPacket_len; clear; repeat case_match; lia).
  split_and!; [| | done | done].
  - by apply serialize_subscribe_bytes.
  - unfold MQTTSerialize_unsubscribe. rewrite (proj2 (Z.ltb_ge _ _)) by lia.
    apply serialize_packet; try done; try (by left); [| by apply unsubscribe_length | lia].
    apply emits_then; [by apply emits_writeInt | by apply emits_write_topics].
Qed.

Lemma subscribe_format_witness :
  MQTTSerialize_subscribe (replicate 12 0) 12 0 2 [(cstr [97; 47; 35], 1)]
    = Some (10, [130; 8; 0; 2; 0; 3; 97; 47; 35; 1] ++ [0; 0]) /\
  MQTTSerialize_unsubscribe (replicate 12 0) 12 0 2 [cstr [97; 47; 35]]
    = Some (9, [162; 7; 0; 2; 0; 3; 97; 47; 35] ++ [0; 0; 0]) /\
  [130; 8; 0; 2; 0; 3; 97; 47; 35; 1] !! 0%nat = Some 130 /\
  [162; 7; 0; 2; 0; 3; 97; 47; 35] !! 0%nat = Some 162.
Proof.
  apply (subscribe_format (replicate 12 0) 2 [(cstr [97; 47; 35], 1)]).
  - repeat constructor; discriminate.
  - unfold is_u16; lia.
  - vm_compute; split; discriminate.
Defined.

(** ** Packets without a body, connack and suback *)

Lemma serialize_zero_bytes buf type :
  0 <= type < 16 -> 2 <= Z.of_nat (length buf) <= MAX_REMAINING_LENGTH ->
  MQTTSerialize_zero buf (Z.of_nat (length buf)) type
  = Some (2, packet type 0 0 0 [] ++ drop 2 buf).
Proof.
  intros Ht Hl. unfold MQTTSerialize_zero. rewrite (proj2 (Z.ltb_ge _ _)) by lia.
  apply (serialize_emits _ (packet type 0 0 0 [])); [| simpl; lia].
  apply (emits_then _ _ [_] [0]).
  - apply emits_writeChar, header_bits; try done; by left.
  - apply (emits_encode 0). unfold MAX_REMAINING_LENGTH; lia.
Qed.

Lemma readChar_lookup buf ptr c : buf !! ptr = Some c -> readChar buf ptr = Some (c, S ptr).
Proof. unfold readChar. by intros ->. Qed.

Lemma deserialize_connack_bytes s0 rc0 dup qos retain flags rc post rest :
  flag dup -> 0 <= qos < 4 -> flag retain ->
  Z.of_nat (2 + length post) <= MAX_REMAINING_LENGTH ->
  MQTTDeserialize_connack s0 rc0 (packet CONNACK dup qos retain (flags :: rc :: post) ++ rest)
  = Some (1, flags .& 1, rc).
Proof.
  intros Hd Hq Hr Hl. set (body := flags :: rc :: post).
  destruct (packet_front CONNACK dup qos retain body rest Hl) as [HF HD].
  destruct (header_bits CONNACK dup qos retain) as (_ & Bt & _); [done.. |].
  pose proof (lookup_body CONNACK dup qos retain body rest 0) as L0.
  pose proof (lookup_body CONNACK dup qos retain body rest 1) as L1.
  rewrite Nat.add_0_r in L0. rewrite Nat.add_1_r in L1.
  unfold MQTTDeserialize_connack. rewrite HF. cbn [mbind option_bind].
  rewrite Bt, Z.eqb_refl. cbn [negb]. rewrite HD. cbn [mbind option_bind].
  rewrite (proj2 (Z.ltb_ge _ _)) by (unfold body; simpl length; lia). rewrite Nat2Z.id.
  change (1 + length (varint (Z.of_nat (length body))))%nat with (header_len body).
  rewrite (readChar_lookup _ _ _ L0). cbn [mbind option_bind]. by rewrite (readChar_lookup _ _ _ L1).
Qed.

(** The QoS values are stored in order; the loop ends at the packet's end. *)
Lemma suback_loop_spec codes maxcount buf fuel cur count done_ todo :
  (length codes <= fuel)%nat ->
  (forall i, (i < length codes)%nat -> buf !! (cur + i)%nat = codes !! i) ->
  count = Z.of_nat (length done_) -> (length codes <= length todo)%nat ->
  Z.of_nat (length done_ + length codes) <= maxcount + 1 ->
  suback_loop fuel maxcount count (done_ ++ todo) buf cur (cur + length codes)
  = Some (1, count + Z.of_nat (length codes), done_ ++ codes ++ drop (length codes) todo).
Proof.
  revert fuel cur count done_ todo.
  induction codes as [|c codes IH]; intros fuel cur count done_ todo Hf Hb -> Ht Hm.
  - rewrite drop_0. simpl. replace (cur + 0)%nat with cur by lia.
    destruct fuel; simpl; rewrite decide_False by lia; do 2 f_equal; f_equal; lia.
  - destruct fuel as [|fuel]; [simpl in Hf; lia |]. destruct todo as [|x todo]; [simpl in Ht; lia |].
    cbn [suback_loop length] in *. rewrite decide_True by lia.
    rewrite (proj2 (Z.ltb_ge _ _)) by lia.
    pose proof (Hb 0%nat ltac:(lia)) as H0. rewrite Nat.add_0_r in H0.
    rewrite (readChar_lookup _ _ _ H0). cbn [mbind option_bind].
    rewrite Nat2Z.id, decide_True by (rewrite length_app; simpl; lia).
    replace (<[length done_:=c]> (done_ ++ x :: todo)) with ((done_ ++ [c]) ++ todo)
      by (rewrite insert_app_r_alt, Nat.sub_diag by lia; by rewrite <- (assoc_L (++))).
    replace (cur + S (length codes))%nat with (S cur + length codes)%nat by lia.
    rewrite IH.
    + rewrite <- (assoc_L (++)). do 2 f_equal. f_equal. lia.
    + lia.
    + intros i Hi. specialize (Hb (S i) ltac:(lia)). replace (S cur + i)%nat with (cur + S i)%nat by lia. done.
    + rewrite length_app. simpl. lia.
    + lia.
    + rewrite length_app. simpl. lia.
Qed.

Lemma deserialize_suback_bytes id0 count0 maxcount granted dup qos retain packetid codes rest :
  flag dup -> 0 <= qos < 4 -> flag retain -> is_u16 packetid ->
  (length codes <= length granted)%nat -> Z.of_nat (length codes) <= maxcount + 1 ->
  Z.of_nat (2 + length codes) <= MAX_REMAINING_LENGTH ->
  MQTTDeserialize_suback id0 maxcount count0 granted
    (packet SUBACK dup qos retain (be16 packetid ++ codes) ++ rest)
  = Some (1, packetid, Z.of_nat (length codes), codes ++ drop (length codes) granted).
Proof.
  intros Hd Hq Hr Hi Hg Hm Hl. set (body := be16 packetid ++ codes).
  destruct (packet_front SUBACK dup qos retain body rest Hl) as [HF HD].
  destruct (header_bits SUBACK dup qos retain) as (_ & Bt & _); [done.. |].
  pose proof (readInt_body SUBACK dup qos retain [] packetid codes rest Hi) as HR. cbv zeta in HR.
  rewrite Nat.add_0_r in HR. change ([] ++ be16 packetid ++ codes) with body in HR.
  assert (length body = S (S (length codes))) as Hlb by done.
  unfold MQTTDeserialize_suback. rewrite HF. cbn [mbind option_bind].
  rewrite Bt, Z.eqb_refl. cbn [negb]. rewrite HD. cbn [mbind option_bind].
  rewrite (proj2 (Z.ltb_ge _ _)) by lia. rewrite !Nat2Z.id.
  change (1 + length (varint (Z.of_nat (length body))))%nat with (header_len body).
  rewrite HR. cbn [mbind option_bind]. 
  replace (header_len body + length body)%nat
    with (S (S (header_len body)) + length codes)%nat by lia.
  pose proof (suback_loop_spec codes maxcount (packet SUBACK dup qos retain body ++ rest)
    (length body) (S (S (header_len body))) 0 [] granted) as HL. cbn [app] in HL.
  rewrite HL; [done | lia | | done | done | done].
  intros i Hlt. replace (S (S (header_len body)) + i)%nat with (header_len body + (2 + i))%nat by lia.
  rewrite lookup_body. unfold body. rewrite <- (assoc_L (++)).
  apply (lookup_after (be16 packetid) codes rest), Hlt.
Qed.

(** A SUBACK packet gives its packet identifier and its return codes in
    order, when the caller's array holds them all and there are at most
    [maxcount + 1] of them. *)
Lemma suback_decode id0 count0 maxcount granted dup qos retain packetid codes rest :
  flag dup -> 0 <= qos < 4 -> flag retain -> is_u16 packetid ->
  (length codes <= length granted)%nat -> Z.of_nat (length codes) <= maxcount + 1 ->
  Z.of_nat (2 + length codes) <= MAX_REMAINING_LENGTH ->
  MQTTDeserialize_suback id0 maxcount count0 granted
    (packet SUBACK dup qos retain (be16 packetid ++ codes) ++ rest)
  = Some (1, packetid, Z.of_nat (length codes), codes ++ drop (length codes) granted).
Proof. apply deserialize_suback_bytes. Qed.

Lemma suback_decode_witness :
  MQTTDeserialize_suback 0 1 0 [0] ([144; 3; 1; 2; 128] ++ [0; 0]) = Some (1, 258, 1, [128]).
Proof.
  apply (suback_decode 0 0 1 [0] 0 0 0 258 [128] [0; 0]).
  - by left.
  - lia.
  - by left.
  - unfold is_u16; lia.
  - simpl; lia.
  - simpl; lia.
  - unfold MAX_REMAINING_LENGTH; simpl; lia.
Defined.

(** ** Packets the deserialisers misjudge *)

(** The count check lets one code too many through: with room for [maxcount]
    codes, a packet with one more stores it outside the array. *)
Lemma suback_overflow :
  MQTTDeserialize_suback 0 1 0 [0] [144; 4; 0; 2; 0; 1] = None.
Proof. reflexivity. Qed.

(** A body too short for the packet identifier is reported as success when
    the length field takes one byte: the code returned is that byte count. *)
Lemma ack_short_body_success id0 type byte rest :
  byte = MQTTHeader type 0 0 0 -> 0 <= type < 16 ->
  MQTTDeserialize_ack id0 (byte :: 1 :: rest) = Some (1, type, 0, id0).
Proof.
  intros -> Ht. destruct (header_bits type 0 0 0) as (_ & Bt & Bd & _); [done | by left | done | by left |].
  unfold MQTTDeserialize_ack. cbn [readChar lookup list_lookup mbind option_bind].
  by rewrite (decodeBuf_varint 1 [MQTTHeader type 0 0 0] rest) by done; cbn; rewrite Bt, Bd.
Qed.

(** A publish packet without a topic is reported as success too, and the
    topic's data pointer is not set. *)
Lemma publish_without_topic_success o rest :
  MQTTDeserialize_publish o (48 :: 0 :: rest)
  = Some (1, mk_publish_out 0 0 0 (po_packetid o)
               (mk_MQTTString None (lenstring_len (po_topicName o)) (lenstring_data (po_topicName o)))
               (po_payload o) (po_payloadlen o)).
Proof. reflexivity. Qed.

(** A QoS 1 publish that ends with its topic has a negative payload length. *)
Lemma publish_negative_payload o x y :
  fst <$> (MQTTDeserialize_publish o [50; 3; 0; 1; 97; x; y]) = Some 1 /\
  po_payloadlen ∘ snd <$> MQTTDeserialize_publish o [50; 3; 0; 1; 97; x; y] = Some (-2).
Proof. split; reflexivity. Qed.

(** For any version but 3 and 4 the length leaves out the protocol name: the
    packet is written past the length that was checked. *)
Lemma connect_version_overflow :
  let o := mk_connectData 5 (cstr []) 60 1 0 MQTTPacket_willOptions_initializer
             MQTTString_initializer MQTTString_initializer in
  MQTTPacket_len (MQTTSerialize_connectLength o) = 4 /\
  MQTTSerialize_connect [0; 0; 0; 0] 4 o = None.
Proof. split; reflexivity. Qed.

End MqttPacket.
