(* ===== verification/MqttServer.v ===== *)
(** * MQTT packets: the other end of the exchange

    Models the broker's side of the packet library,
    [system/src/paho.mqtt.embedded-c-1.1.0/MQTTPacket/src]: [MQTTConnectServer.c],
    [MQTTSubscribeServer.c] and [MQTTUnsubscribeServer.c].  The firmware is a
    client and does not call these functions; they are the library's own reading
    of the packets the client writes, and its own writing of the answers the
    client reads.

    Buffers, pointers and output parameters are as in [MqttPacket.v].  An array
    of [MQTTString] or [int] that is filled is a list of its entries, and a store
    outside it is [None]. *)

From S2P Require Import Prelude MqttPacket.

Module MqttServer.
Import MqttPacket.

(** ** Connect and connack ([MQTTConnectServer.c]) *)

(** [memcmp (a, b, n) == 0]; [None] when it would read past [a]. *)
Definition memcmp_eq (n : Z) (a b : bytes) : option bool :=
  if Z.of_nat (length a) <? n then None
  else Some (bool_decide (take (Z.to_nat n) a = take (Z.to_nat n) b)).

Definition c_min (a b : Z) : Z := if a <? b then a else b.

Definition MQTTPacket_checkVersion (protocol : MQTTString) (version : Z) : option bool :=
  let data := default [] (lenstring_data protocol) in
  is31 ← if version =? 3 then memcmp_eq (c_min 6 (lenstring_len protocol)) data str_MQIsdp
         else Some false;
  if is31 : bool then Some true
  else if version =? 4 then memcmp_eq (c_min 4 (lenstring_len protocol)) data str_MQTT
  else Some false.

(** The fields of the flags byte. *)
Definition flags_cleansession (all : Z) : Z := Z.shiftr all 1 .& 1.
Definition flags_will (all : Z) : Z := Z.shiftr all 2 .& 1.
Definition flags_willQoS (all : Z) : Z := Z.shiftr all 3 .& 3.
Definition flags_willRetain (all : Z) : Z := Z.shiftr all 5 .& 1.
Definition flags_password (all : Z) : Z := Z.shiftr all 6 .& 1.
Definition flags_username (all : Z) : Z := Z.shiftr all 7 .& 1.

(** Assignments to the fields of the structure that is filled. *)
Definition set_session (clean keepalive : Z) (d : MQTTPacket_connectData) : MQTTPacket_connectData :=
  mk_connectData (MQTTVersion d) (clientID d) keepalive clean (willFlag d) (will d) (username d) (password d).
Definition set_clientID (s : MQTTString) (d : MQTTPacket_connectData) : MQTTPacket_connectData :=
  mk_connectData (MQTTVersion d) s (opt_keepAliveInterval d) (opt_cleansession d) (willFlag d) (will d)
    (username d) (password d).
Definition set_willFlag (f : Z) (d : MQTTPacket_connectData) : MQTTPacket_connectData :=
  mk_connectData (MQTTVersion d) (clientID d) (opt_keepAliveInterval d) (opt_cleansession d) f (will d)
    (username d) (password d).
Definition set_will (w : MQTTPacket_willOptions) (d : MQTTPacket_connectData) : MQTTPacket_connectData :=
  mk_connectData (MQTTVersion d) (clientID d) (opt_keepAliveInterval d) (opt_cleansession d) (willFlag d) w
    (username d) (password d).
Definition set_username (s : MQTTString) (d : MQTTPacket_connectData) : MQTTPacket_connectData :=
  mk_connectData (MQTTVersion d) (clientID d) (opt_keepAliveInterval d) (opt_cleansession d) (willFlag d)
    (will d) s (password d).
Definition set_password (s : MQTTString) (d : MQTTPacket_connectData) : MQTTPacket_connectData :=
  mk_connectData (MQTTVersion d) (clientID d) (opt_keepAliveInterval d) (opt_cleansession d) (willFlag d)
    (will d) (username d) s.

(** What is left between two pointers. *)
Definition remaining (enddata curdata : nat) : Z := Z.of_nat enddata - Z.of_nat curdata.

(** The two strings of the will: read when its flag is set.  Result: whether
    parsing goes on, the structure and the pointer. *)
Definition read_will (all : Z) (d : MQTTPacket_connectData) (buf : bytes) (curdata enddata : nat) :
    option (bool * MQTTPacket_connectData * nat) :=
  let d := set_willFlag (flags_will all) d in
  if flags_will all =? 0 then Some (true, d, curdata)
  else
    let w := will d in
    '(ok, topic, curdata) ← readMQTTLenString (will_topicName w) buf curdata enddata;
    let d := set_will (mk_willOptions topic (will_message w) (flags_willRetain all) (flags_willQoS all)) d in
    if ok =? 0 then Some (false, d, curdata)
    else
      '(ok, message, curdata) ← readMQTTLenString (will_message w) buf curdata enddata;
      let d := set_will (mk_willOptions topic message (flags_willRetain all) (flags_willQoS all)) d in
      Some (negb (ok =? 0), d, curdata).

(** User name and password, as far as the flags announce them. *)
Definition read_credentials (all : Z) (d : MQTTPacket_connectData) (buf : bytes) (curdata enddata : nat) :
    option (bool * MQTTPacket_connectData) :=
  if negb (flags_username all =? 0) then
    if remaining enddata curdata <? 3 then Some (false, d)
    else
      '(ok, user, curdata) ← readMQTTLenString (username d) buf curdata enddata;
      let d := set_username user d in
      if ok =? 0 then Some (false, d)
      else if negb (flags_password all =? 0) then
        if remaining enddata curdata <? 3 then Some (false, d)
        else
          '(ok, pass, curdata) ← readMQTTLenString (password d) buf curdata enddata;
          Some (negb (ok =? 0), set_password pass d)
      else Some (true, d)
  else Some (flags_password all =? 0, d).

(** Everything behind the version byte. *)
Definition read_options (d : MQTTPacket_connectData) (buf : bytes) (curdata enddata : nat) :
    option (Z * MQTTPacket_connectData) :=
  '(all, curdata) ← readChar buf curdata;
  '(keepalive, curdata) ← readInt buf curdata;
  let d := set_session (flags_cleansession all) keepalive d in
  '(ok, id, curdata) ← readMQTTLenString (clientID d) buf curdata enddata;
  let d := set_clientID id d in
  if ok =? 0 then Some (0, d)
  else
    '(go, d, curdata) ← read_will all d buf curdata enddata;
    if negb go then Some (0, d)
    else
      '(go, d) ← read_credentials all d buf curdata enddata;
      Some (if go : bool then 1 else 0, d).

Definition MQTTDeserialize_connect (data : MQTTPacket_connectData) (buf : bytes) (len : nat) :
    option (Z * MQTTPacket_connectData) :=
  let enddata := len in
  '(byte, curdata) ← readChar buf 0;
  if negb (bits_type byte =? CONNECT) then Some (0, data)
  else
    '(rc, mylen) ← MQTTPacket_decodeBuf buf curdata;
    let curdata := (curdata + Z.to_nat rc)%nat in
    '(ok, Protocol, curdata) ← readMQTTLenString MQTTString_initializer buf curdata enddata;
    if (ok =? 0) || (remaining enddata curdata <? 0) then Some (0, data)
    else
      '(version, curdata) ← readChar buf curdata;
      known ← MQTTPacket_checkVersion Protocol version;
      if known : bool then read_options data buf curdata enddata else Some (0, data).

Definition MQTTSerialize_connack (buf : bytes) (buflen connack_rc sessionPresent : Z) :
    option (Z * bytes) :=
  if buflen <? 2 then Some (MQTTPACKET_BUFFER_TOO_SHORT, buf)
  else serialize (
    writeChar (MQTTHeader CONNACK 0 0 0) >>
    MQTTPacket_encode 2 >>
    writeChar (sessionPresent .& 1) >>
    writeChar connack_rc) buf.

(** ** Subscribe and suback ([MQTTSubscribeServer.c]) *)

(** [a[i] = v] on the caller's array. *)
Definition store_at {A} (i : nat) (v : A) (a : list A) : option (list A) :=
  if decide (i < length a)%nat then Some (<[i := v]> a) else None.

(** The loop over filters and QoS values.  A turn that goes on has moved the
    pointer by three bytes or more, so that the distance to [enddata] is enough
    fuel.  Result: whether the end was reached, the count and the arrays. *)
Fixpoint subscribe_loop (fuel count : nat) (topicFilters : list MQTTString) (requestedQoSs : list Z)
    (buf : bytes) (curdata enddata : nat) : option (bool * nat * list MQTTString * list Z) :=
  if decide (curdata < enddata)%nat then
    match fuel with
    | O => None
    | S fuel =>
      old ← topicFilters !! count;
      '(ok, t, curdata) ← readMQTTLenString old buf curdata enddata;
      topicFilters ← store_at count t topicFilters;
      if ok =? 0 then Some (false, count, topicFilters, requestedQoSs)
      else if decide (enddata <= curdata)%nat then Some (false, count, topicFilters, requestedQoSs)
      else
        '(qos, curdata) ← readChar buf curdata;
        requestedQoSs ← store_at count qos requestedQoSs;
        subscribe_loop fuel (S count) topicFilters requestedQoSs buf curdata enddata
    end
  else Some (true, count, topicFilters, requestedQoSs).

(** Output parameters of the two deserialisers of requests; an unsubscribe
    request has no QoS values. *)
Record request_out := mk_request_out {
  ro_dup : Z; ro_packetid : Z; ro_count : Z; ro_topics : list MQTTString; ro_qos : list Z;
}.

Definition MQTTDeserialize_subscribe (maxcount : Z) (o : request_out) (buf : bytes) :
    option (Z * request_out) :=
  '(byte, curdata) ← readChar buf 0;
  if negb (bits_type byte =? SUBSCRIBE) then Some (-1, o)
  else
    '(rc, mylen) ← MQTTPacket_decodeBuf buf curdata;
    let curdata := (curdata + Z.to_nat rc)%nat in
    let enddata := (curdata + Z.to_nat mylen)%nat in
    '(packetid, curdata) ← readInt buf curdata;
    '(all, count, topics, qos) ←
      subscribe_loop (Z.to_nat mylen) 0 (ro_topics o) (ro_qos o) buf curdata enddata;
    Some (if all : bool then 1 else rc,
          mk_request_out (bits_dup byte) packetid (Z.of_nat count) topics qos).

(** The array [grantedQoSs] has [count] entries. *)
Fixpoint write_codes (codes : list Z) : writer :=
  match codes with
  | [] => skip
  | c :: cs => writeChar c >> write_codes cs
  end.

Definition MQTTSerialize_suback (buf : bytes) (buflen packetid : Z) (grantedQoSs : list Z) :
    option (Z * bytes) :=
  let count := Z.of_nat (length grantedQoSs) in
  if buflen <? 2 + count then Some (MQTTPACKET_BUFFER_TOO_SHORT, buf)
  else serialize (
    writeChar (MQTTHeader SUBACK 0 0 0) >>
    MQTTPacket_encode (2 + count) >>
    writeInt packetid >>
    write_codes grantedQoSs) buf.

(** ** Unsubscribe and unsuback ([MQTTUnsubscribeServer.c]) *)

Fixpoint unsubscribe_loop (fuel count : nat) (topicFilters : list MQTTString)
    (buf : bytes) (curdata enddata : nat) : option (bool * nat * list MQTTString) :=
  if decide (curdata < enddata)%nat then
    match fuel with
    | O => None
    | S fuel =>
      old ← topicFilters !! count;
      '(ok, t, curdata) ← readMQTTLenString old buf curdata enddata;
      topicFilters ← store_at count t topicFilters;
      if ok =? 0 then Some (false, count, topicFilters)
      else unsubscribe_loop fuel (S count) topicFilters buf curdata enddata
    end
  else Some (true, count, topicFilters).

Definition MQTTDeserialize_unsubscribe (maxcount : Z) (o : request_out) (buf : bytes) :
    option (Z * request_out) :=
  '(byte, curdata) ← readChar buf 0;
  if negb (bits_type byte =? UNSUBSCRIBE) then Some (0, o)
  else
    '(rc, mylen) ← MQTTPacket_decodeBuf buf curdata;
    let curdata := (curdata + Z.to_nat rc)%nat in
    let enddata := (curdata + Z.to_nat mylen)%nat in
    '(packetid, curdata) ← readInt buf curdata;
    '(all, count, topics) ← unsubscribe_loop (Z.to_nat mylen) 0 (ro_topics o) buf curdata enddata;
    Some (if all : bool then 1 else rc,
          mk_request_out (bits_dup byte) packetid (Z.of_nat count) topics (ro_qos o)).

Definition MQTTSerialize_unsuback (buf : bytes) (buflen packetid : Z) : option (Z * bytes) :=
  if buflen <? 2 then Some (MQTTPACKET_BUFFER_TOO_SHORT, buf)
  else serialize (
    writeChar (MQTTHeader UNSUBACK 0 0 0) >>
    MQTTPacket_encode 2 >>
    writeInt packetid) buf.


(** ** Reading at a cursor

    [drop ptr buf] is what a pointer still has before it; each primitive takes
    its bytes from the front of it. *)

Definition lenstr (s : bytes) : MQTTString := mk_MQTTString None (Z.of_nat (length s)) (Some s).

Section Cursor.
Context (buf : bytes).

Lemma drop_more ptr (s r : bytes) : drop ptr buf = s ++ r -> drop (ptr + length s) buf = r.
Proof. intros H. by rewrite <- drop_drop, H, drop_app_length. Qed.

Lemma lookup_cursor ptr (s : bytes) i : drop ptr buf = s -> buf !! (ptr + i)%nat = s !! i.
Proof. intros <-. by rewrite lookup_drop. Qed.

Lemma readChar_at ptr c r :
  drop ptr buf = c :: r -> readChar buf ptr = Some (c, S ptr) /\ drop (S ptr) buf = r.
Proof.
  intros H. split.
  - apply readChar_lookup. rewrite <- (Nat.add_0_r ptr). by rewrite (lookup_cursor _ _ _ H).
  - rewrite <- Nat.add_1_r. by apply (drop_more ptr [c]).
Qed.

Lemma readInt_at ptr n r :
  is_u16 n -> drop ptr buf = be16 n ++ r ->
  readInt buf ptr = Some (n, S (S ptr)) /\ drop (S (S ptr)) buf = r.
Proof.
  intros Hn H. split.
  - unfold readInt. pose proof (lookup_cursor _ _ 0 H) as H0. pose proof (lookup_cursor _ _ 1 H) as H1.
    rewrite Nat.add_0_r in H0. rewrite Nat.add_1_r in H1. rewrite H0, H1. simpl. by rewrite be16_value.
  - replace (S (S ptr)) with (ptr + length (be16 n))%nat by (rewrite be16_length; lia).
    by apply drop_more.
Qed.

Lemma readMQTTLenString_at m ptr enddata s r :
  Z.of_nat (length s) < 65536 -> drop ptr buf = wire_string s ++ r ->
  (ptr + length (wire_string s) <= enddata)%nat ->
  readMQTTLenString m buf ptr enddata = Some (1, lenstr s, (ptr + length (wire_string s))%nat)
  /\ drop (ptr + length (wire_string s)) buf = r.
Proof.
  intros Hs H He. split; [| by apply drop_more]. rewrite length_wire_string in *.
  unfold wire_string in H. rewrite <- (assoc_L (++)) in H.
  destruct (readInt_at ptr (Z.of_nat (length s)) (s ++ r) ltac:(unfold is_u16; lia) H) as [HR HD].
  unfold readMQTTLenString. rewrite (proj2 (Z.ltb_lt 1 _)) by lia. rewrite HR. cbn [mbind option_bind].
  rewrite (proj2 (Z.leb_le _ _)) by lia. rewrite Nat2Z.id, HD, take_app_length.
  unfold lenstr. do 2 f_equal. lia.
Qed.
End Cursor.

(** ** What the flags byte carries *)

Lemma flags_fields c w q r p u :
  flag c -> flag w -> 0 <= q < 4 -> flag r -> flag p -> flag u ->
  let all := MQTTConnectFlags c w q r p u in
  flags_cleansession all = c /\ flags_will all = w /\ flags_willQoS all = q /\
  flags_willRetain all = r /\ flags_password all = p /\ flags_username all = u.
Proof.
  intros Hc Hw Hq Hr Hp Hu. cbv zeta. rewrite connect_flags_arith by done.
  unfold flags_cleansession, flags_will, flags_willQoS, flags_willRetain, flags_password, flags_username.
  rewrite !land_1, !land_3, !Z.shiftr_div_pow2 by done. unfold flag in *.
  repeat split; divlia.
Qed.

(** The structure the broker has after a CONNECT packet with the options [o],
    when [d] was its contents before.  The protocol version is not stored. *)
Definition has_will (o : MQTTPacket_connectData) : bool := negb (willFlag o =? 0).

Definition connect_received (d o : MQTTPacket_connectData) : MQTTPacket_connectData :=
  mk_connectData (MQTTVersion d) (lenstr (contents (clientID o))) (opt_keepAliveInterval o)
    (opt_cleansession o) (Z.b2z (has_will o))
    (if has_will o
     then mk_willOptions (lenstr (contents (will_topicName (will o)))) (lenstr (contents (will_message (will o))))
            (will_retained (will o)) (will_qos (will o))
     else will d)
    (if string_present (username o) then lenstr (contents (username o)) else username d)
    (if string_present (password o) then lenstr (contents (password o)) else password d).

(** The options whose packets are accepted: a password comes with a user name,
    and the last of the two is not empty. *)
Definition connect_accepted (o : MQTTPacket_connectData) : bool :=
  if string_present (password o)
  then string_present (username o) && (0 <? Z.of_nat (length (contents (password o))))
  else negb (string_present (username o)) || (0 <? Z.of_nat (length (contents (username o)))).

Lemma connect_flags_fields o : connect_ok o ->
  let all := connect_flags o in
  flags_cleansession all = opt_cleansession o /\ flags_will all = Z.b2z (has_will o) /\
  (has_will o = true -> flags_willQoS all = will_qos (will o) /\ flags_willRetain all = will_retained (will o)) /\
  flags_password all = Z.b2z (string_present (password o)) /\
  flags_username all = Z.b2z (string_present (username o)).
Proof.
  intros H. cbv zeta. unfold connect_flags. fold (has_will o).
  destruct H as [_ _ Hc Hq Hr _ _ _ _ _].
  destruct (flags_fields (opt_cleansession o) (Z.b2z (has_will o))
              (if has_will o then will_qos (will o) else 0) (if has_will o then will_retained (will o) else 0)
              (Z.b2z (string_present (password o))) (Z.b2z (string_present (username o))))
    as (-> & -> & -> & -> & -> & ->); try apply flag_b2z; try done.
  - by destruct (has_will o).
  - destruct (has_will o); [done | by left].
  - split_and!; try done. by intros ->.
Qed.

Lemma string_max m : string_ok m = true -> Z.of_nat (length (contents m)) < 65536.
Proof. intros H. by destruct (string_ok_inv m H) as (_ & _ & ? & _). Qed.

Lemma b2z_zero b : (Z.b2z b =? 0) = negb b.
Proof. by destruct b. Qed.

(** ** A CONNECT packet is read back *)

Lemma read_will_at o d buf ptr enddata r :
  connect_ok o -> 
  let strings := if has_will o
    then wire_string (contents (will_topicName (will o))) ++ wire_string (contents (will_message (will o)))
    else [] in
  drop ptr buf = strings ++ r -> (ptr + length strings <= enddata)%nat ->
  read_will (connect_flags o) d buf ptr enddata
  = Some (true,
      set_will (if has_will o
                then mk_willOptions (lenstr (contents (will_topicName (will o))))
                       (lenstr (contents (will_message (will o)))) (will_retained (will o)) (will_qos (will o))
                else will d) (set_willFlag (Z.b2z (has_will o)) d),
      (ptr + length strings)%nat) /\ drop (ptr + length strings) buf = r.
Proof.
  intros H strings HD He. destruct (connect_flags_fields o H) as (_ & Fw & Fq & _).
  split; [| by apply drop_more]. unfold read_will. rewrite Fw, b2z_zero. subst strings.
  destruct (has_will o); simpl negb; cbv iota; [| by rewrite Nat.add_0_r; destruct d].
  destruct (Fq eq_refl) as [-> ->]. rewrite <- (assoc_L (++)) in HD. rewrite length_app in *.
  edestruct (readMQTTLenString_at buf) as [-> HD2]; [| exact HD | lia |]; [apply string_max, H |].
  cbn [mbind option_bind]. change (1 =? 0) with false. cbv iota.
  edestruct (readMQTTLenString_at buf) as [-> _]; [| exact HD2 | lia |]; [apply string_max, H |].
  cbn [mbind option_bind]. change (negb (1 =? 0)) with true. rewrite Nat.add_assoc. by destruct d.
Qed.

Lemma read_credentials_at o d buf ptr enddata r :
  connect_ok o ->
  let user := if string_present (username o) then wire_string (contents (username o)) else [] in
  let pass := if string_present (password o) then wire_string (contents (password o)) else [] in
  drop ptr buf = user ++ pass ++ r -> enddata = (ptr + length (user ++ pass))%nat ->
  exists d', read_credentials (connect_flags o) d buf ptr enddata = Some (connect_accepted o, d')
  /\ (connect_accepted o = true ->
      d' = set_password (if string_present (password o) then lenstr (contents (password o)) else password d)
             (set_username (if string_present (username o) then lenstr (contents (username o)) else username d) d)).
Proof.
  intros H user pass HD ->. destruct (connect_flags_fields o H) as (_ & _ & _ & Fp & Fu).
  unfold read_credentials, connect_accepted, remaining. rewrite Fu, Fp, !b2z_zero, !negb_involutive.
  rewrite length_app. subst user pass.
  destruct (string_present (username o)) eqn:EU; cycle 1.
  { destruct (string_present (password o)); eexists; split; try reflexivity; [done |].
    intros _. by destruct d. }
  destruct (string_present (password o)) eqn:EP; rewrite !length_wire_string; simpl negb; cbv iota.
  - rewrite (proj2 (Z.ltb_ge _ _)) by lia.
    edestruct (readMQTTLenString_at buf) as [-> HD2]; [| exact HD | rewrite length_wire_string; lia |]; [apply string_max, H |].
    cbn [mbind option_bind]. change (1 =? 0) with false. cbv iota. rewrite length_wire_string.
    destruct (Z.ltb_spec 0 (Z.of_nat (length (contents (password o))))).
    + rewrite (proj2 (Z.ltb_ge _ _)) by lia. rewrite length_wire_string in HD2.
      edestruct (readMQTTLenString_at buf) as [-> _]; [| exact HD2 | rewrite length_wire_string; lia |]; [apply string_max, H |].
      eexists. split; [reflexivity |]. intros _. by destruct d.
    + rewrite (proj2 (Z.ltb_lt _ _)) by lia. by eexists.
  - rewrite orb_false_l. destruct (Z.ltb_spec 0 (Z.of_nat (length (contents (username o))))).
    + rewrite (proj2 (Z.ltb_ge _ _)) by (simpl length; lia).
      edestruct (readMQTTLenString_at buf) as [-> _]; [| exact HD | rewrite length_wire_string; simpl length; lia |]; [apply string_max, H |].
      eexists. split; [reflexivity |]. intros _. by destruct d.
    + rewrite (proj2 (Z.ltb_lt _ _)) by (simpl length; lia). by eexists.
Qed.

(** The body from the flags byte on. *)
Definition connect_rest (o : MQTTPacket_connectData) : bytes :=
  [connect_flags o] ++ be16 (opt_keepAliveInterval o) ++ wire_string (contents (clientID o))
  ++ (if has_will o
      then wire_string (contents (will_topicName (will o))) ++ wire_string (contents (will_message (will o)))
      else [])
  ++ (if string_present (username o) then wire_string (contents (username o)) else [])
  ++ (if string_present (password o) then wire_string (contents (password o)) else []).

Lemma read_options_at o d buf ptr enddata r :
  connect_ok o -> drop ptr buf = connect_rest o ++ r -> enddata = (ptr + length (connect_rest o))%nat ->
  exists d', read_options d buf ptr enddata = Some (Z.b2z (connect_accepted o), d')
  /\ (connect_accepted o = true -> d' = connect_received d o).
Proof.
  intros H HD ->. unfold connect_rest in *. rewrite <- !(assoc_L (++)) in HD.
  rewrite !length_app in *. rewrite be16_length. change (length [connect_flags o]) with 1%nat.
  destruct (readChar_at buf ptr _ _ HD) as [HR HD1]. unfold read_options. rewrite HR. cbn [mbind option_bind].
  edestruct (readInt_at buf) as [HR2 HD2]; [| exact HD1 |]; [apply H |]. rewrite HR2. cbn [mbind option_bind].
  edestruct (readMQTTLenString_at buf) as [-> HD3]; [| exact HD2 | lia |]; [apply string_max, H |].
  cbn [mbind option_bind]. change (1 =? 0) with false. cbv iota.
  edestruct (read_will_at o) as [-> HD4]; [done | exact HD3 | lia |].
  cbn [mbind option_bind negb].
  edestruct (read_credentials_at o) as (d' & -> & Hd'); [done | exact HD4 | rewrite length_app; lia |].
  cbn [mbind option_bind]. exists d'. split; [by destruct (connect_accepted o) |].
  intros HA. rewrite (Hd' HA). destruct (connect_flags_fields o H) as (-> & _). by destruct d.
Qed.

Lemma connect_body_split o :
  connect_body o
  = (if MQTTVersion o =? 4 then wire_string str_MQTT ++ [4] else wire_string str_MQIsdp ++ [3]) ++ connect_rest o.
Proof. done. Qed.

(** Protocol name and version, as the library itself writes them. *)
Lemma protocol_known (v4 : bool) :
  MQTTPacket_checkVersion (lenstr (if v4 then str_MQTT else str_MQIsdp)) (if v4 then 4 else 3) = Some true.
Proof. by destruct v4. Qed.

Lemma deserialize_connect_bytes o d :
  connect_ok o -> Z.of_nat (length (connect_body o)) <= MAX_REMAINING_LENGTH ->
  forall rest, let pkt := packet CONNECT 0 0 0 (connect_body o) in
  exists d', MQTTDeserialize_connect d (pkt ++ rest) (length pkt) = Some (Z.b2z (connect_accepted o), d')
  /\ (connect_accepted o = true -> d' = connect_received d o).
Proof.
  intros H Hl rest pkt. destruct (packet_front CONNECT 0 0 0 (connect_body o) rest Hl) as [HF HDc].
  pose proof (drop_header CONNECT 0 0 0 (connect_body o) rest) as HD. fold pkt in HF, HDc, HD.
  assert (length pkt = header_len (connect_body o) + length (connect_body o))%nat as Hlen
    by (subst pkt; unfold packet, header_len; simpl; rewrite length_app; lia).
  unfold MQTTDeserialize_connect. rewrite HF. cbn [mbind option_bind].
  change (negb (bits_type (MQTTHeader CONNECT 0 0 0) =? CONNECT)) with false. cbv iota.
  rewrite HDc. cbn [mbind option_bind]. rewrite Nat2Z.id.
  change (1 + length (varint (Z.of_nat (length (connect_body o)))))%nat with (header_len (connect_body o)).
  rewrite Hlen. generalize (header_len (connect_body o)) HD. clear HF HDc HD Hlen. intros ptr HD.
  set (name := if MQTTVersion o =? 4 then str_MQTT else str_MQIsdp).
  set (version := if MQTTVersion o =? 4 then 4 else 3).
  assert (connect_body o = wire_string name ++ version :: connect_rest o) as EB.
  { subst name version. rewrite connect_body_split. by destruct (MQTTVersion o =? 4). }
  rewrite EB in *. rewrite <- (assoc_L (++)) in HD. rewrite length_app, length_cons.
  edestruct (readMQTTLenString_at (pkt ++ rest)) as [-> HD1]; [| exact HD | lia |].
  { subst name. by destruct (MQTTVersion o =? 4). }
  cbn [mbind option_bind]. change (1 =? 0) with false. unfold remaining.
  rewrite (proj2 (Z.ltb_ge _ _)) by lia. cbn [orb].
  destruct (readChar_at _ _ _ _ HD1) as [-> HD2]. cbn [mbind option_bind].
  subst name version. rewrite protocol_known. cbn [mbind option_bind].
  eapply read_options_at; [done | exact HD2 | lia].
Qed.

(** C33: a CONNECT packet written by the client is read back by the broker's
    function: every option arrives (the strings as counted strings), and the
    packet is refused exactly when it has a password without a user name, or an
    empty string as the last of the two; and the answer the broker writes gives
    the client its session flag and code. *)
Theorem connect_roundtrip o d buf abuf code session s0 rc0 :
  connect_ok o ->
  MQTTPacket_len (MQTTSerialize_connectLength o) <= Z.of_nat (length buf) <= MAX_REMAINING_LENGTH ->
  is_u8 code -> flag session -> 4 <= Z.of_nat (length abuf) <= MAX_REMAINING_LENGTH ->
  (exists (len : nat) buf' d',
     MQTTSerialize_connect buf (Z.of_nat (length buf)) o = Some (Z.of_nat len, buf')
     /\ MQTTDeserialize_connect d buf' len = Some (Z.b2z (connect_accepted o), d')
     /\ (connect_accepted o = true -> d' = connect_received d o)) /\
  (exists abuf',
     MQTTSerialize_connack abuf (Z.of_nat (length abuf)) code session = Some (4, abuf')
     /\ drop 4 abuf' = drop 4 abuf
     /\ MQTTDeserialize_connack s0 rc0 abuf' = Some (1, session, code)).
Proof.
  intros H Hl Hc Hs Ha. split.
  - set (pkt := packet CONNECT 0 0 0 (connect_body o)).
    pose proof (MQTTPacket_len_ge (MQTTSerialize_connectLength o)) as Hge.
    destruct (deserialize_connect_bytes o d H) with (rest := drop (length pkt) buf) as (d' & HD & HA).
    { rewrite <- connectLength_body by done. lia. }
    exists (length pkt), (pkt ++ drop (length pkt) buf), d'.
    split; [by apply serialize_connect_bytes | done].
  - exists (packet CONNACK 0 0 0 [session; code] ++ drop 4 abuf). split; [| split].
    + unfold MQTTSerialize_connack. rewrite (proj2 (Z.ltb_ge _ _)) by lia.
      apply (serialize_packet (writeChar (session .& 1) >> writeChar code) CONNACK 0 0 0 [session; code] 2);
        try done; try (by left); [].
      apply (emits_then _ _ [session] [code]); [| by apply emits_writeChar].
      replace (session .& 1) with session by (by destruct Hs as [-> | ->]).
      apply emits_writeChar. destruct Hs as [-> | ->]; split; by vm_compute.
    + done.
    + replace session with (session .& 1) at 2 by (by destruct Hs as [-> | ->]).
      apply (deserialize_connack_bytes s0 rc0 0 0 0 session code []); (done || by left).
Qed.

(** Options with a will, a user name and a password. *)
Definition full_options : MQTTPacket_connectData :=
  mk_connectData 4 (cstr [99]) 600 1 1 (mk_willOptions (cstr [116]) (cstr [109; 109]) 1 2)
    (cstr [117]) (lenstr [112; 113]).

Lemma connect_roundtrip_witness :
  (exists (len : nat) buf' d',
     MQTTSerialize_connect (replicate 80 0) 80 full_options = Some (Z.of_nat len, buf')
     /\ MQTTDeserialize_connect MQTTPacket_connectData_initializer buf' len = Some (1, d')
     /\ (true = true -> d' = connect_received MQTTPacket_connectData_initializer full_options)) /\
  (exists abuf',
     MQTTSerialize_connack (replicate 6 9) 6 5 1 = Some (4, abuf')
     /\ drop 4 abuf' = [9; 9]
     /\ MQTTDeserialize_connack 0 0 abuf' = Some (1, 1, 5)).
Proof.
  apply (connect_roundtrip full_options MQTTPacket_connectData_initializer (replicate 80 0) (replicate 6 9) 5 1 0 0).
  - constructor; first [by right | reflexivity | split; by vm_compute].
  - split; by vm_compute.
  - split; by vm_compute.
  - by right.
  - split; by vm_compute.
Defined.

(** ** Subscriptions are read back *)

Lemma store_at_middle {A} (pre post : list A) x v i :
  i = length pre -> store_at i v (pre ++ x :: post) = Some ((pre ++ [v]) ++ post).
Proof.
  intros ->. unfold store_at. rewrite decide_True by (rewrite length_app; simpl; lia).
  rewrite insert_app_r_alt, Nat.sub_diag by lia. by rewrite <- (assoc_L (++)).
Qed.

Definition received (m : MQTTString) : MQTTString := lenstr (contents m).

(** Both loops store what the filters stand for, in order, and end where the
    packet does. *)
Lemma subscribe_loop_spec buf enddata topics :
  forall fuel count doneT todoT doneQ todoQ ptr r,
  let body := concat ((fun t => wire_string (contents (fst t)) ++ [snd t]) <$> topics) in
  Forall (fun t => string_ok (fst t) = true /\ is_u8 (snd t)) topics ->
  drop ptr buf = body ++ r -> enddata = (ptr + length body)%nat -> (length body <= fuel)%nat ->
  count = length doneT -> count = length doneQ ->
  (length topics <= length todoT)%nat -> (length topics <= length todoQ)%nat ->
  subscribe_loop fuel count (doneT ++ todoT) (doneQ ++ todoQ) buf ptr enddata
  = Some (true, (count + length topics)%nat,
          doneT ++ (received ∘ fst <$> topics) ++ drop (length topics) todoT,
          doneQ ++ (snd <$> topics) ++ drop (length topics) todoQ).
Proof.
  induction topics as [| [t q] topics IH]; intros fuel count doneT todoT doneQ todoQ ptr r body Hok HD He Hf HT HQ HlT HlQ.
  - subst body. simpl in He. rewrite Nat.add_0_r in He. subst enddata. rewrite !Nat.add_0_r.
    destruct fuel; simpl; by rewrite decide_False by lia.
  - apply list.Forall_cons in Hok as [[Ht Hq] Hok]. simpl in Ht, Hq.
    destruct todoT as [| x todoT]; [simpl in HlT; lia |]. destruct todoQ as [| y todoQ]; [simpl in HlQ; lia |].
    subst body. rewrite fmap_cons, concat_cons in HD, He, Hf. cbn [fst snd] in HD, He, Hf.
    rewrite !length_app, ?length_wire_string in He, Hf. cbn [length] in He, Hf.
    rewrite <- !(assoc_L (++)) in HD. destruct fuel as [| fuel]; [lia |]. cbn [subscribe_loop].
    rewrite decide_True by lia. rewrite lookup_app_r, <- HT, HT, Nat.sub_diag by lia. cbn [lookup list_lookup mbind option_bind].
    edestruct (readMQTTLenString_at buf x ptr enddata (contents t)) as [-> HD1];
      [by apply string_max | exact HD | rewrite length_wire_string; lia |].
    cbn [mbind option_bind]. rewrite store_at_middle by done. cbn [mbind option_bind].
    change (1 =? 0) with false. cbv iota. rewrite length_wire_string in *. rewrite decide_False by lia.
    destruct (readChar_at _ _ _ _ HD1) as [-> HD2]. cbn [mbind option_bind].
    rewrite store_at_middle by congruence. cbn [mbind option_bind].
    rewrite (IH fuel _ (doneT ++ [lenstr (contents t)]) todoT (doneQ ++ [q]) todoQ _ r Hok HD2);
      rewrite ?length_app; cbn [length] in *; try lia.
    rewrite <- !(assoc_L (++)). do 4 f_equal. lia.
Qed.

Lemma unsubscribe_loop_spec buf enddata topics :
  forall fuel count doneT todoT ptr r,
  let body := concat ((fun t => wire_string (contents t)) <$> topics) in
  Forall (fun t => string_ok t = true) topics ->
  drop ptr buf = body ++ r -> enddata = (ptr + length body)%nat -> (length body <= fuel)%nat ->
  count = length doneT -> (length topics <= length todoT)%nat ->
  unsubscribe_loop fuel count (doneT ++ todoT) buf ptr enddata
  = Some (true, (count + length topics)%nat, doneT ++ (received <$> topics) ++ drop (length topics) todoT).
Proof.
  induction topics as [| t topics IH]; intros fuel count doneT todoT ptr r body Hok HD He Hf HT HlT.
  - subst body. simpl in He. rewrite Nat.add_0_r in He. subst enddata. rewrite !Nat.add_0_r.
    destruct fuel; simpl; by rewrite decide_False by lia.
  - apply list.Forall_cons in Hok as [Ht Hok]. destruct todoT as [| x todoT]; [simpl in HlT; lia |].
    subst body. rewrite fmap_cons, concat_cons in HD, He, Hf. rewrite !length_app, ?length_wire_string in He, Hf.
    rewrite <- !(assoc_L (++)) in HD. destruct fuel as [| fuel]; [lia |]. cbn [unsubscribe_loop].
    rewrite decide_True by lia. rewrite lookup_app_r, <- HT, HT, Nat.sub_diag by lia. cbn [lookup list_lookup mbind option_bind].
    edestruct (readMQTTLenString_at buf x ptr enddata (contents t)) as [-> HD1];
      [by apply string_max | exact HD | rewrite length_wire_string; lia |].
    cbn [mbind option_bind]. rewrite store_at_middle by done. cbn [mbind option_bind].
    change (1 =? 0) with false. cbv iota. rewrite length_wire_string in *.
    rewrite (IH fuel _ (doneT ++ [lenstr (contents t)]) todoT _ r Hok HD1);
      rewrite ?length_app; cbn [length] in *; try lia.
    rewrite <- !(assoc_L (++)). do 3 f_equal. lia.
Qed.

(** What both deserialisers of requests first read: header, length, packet
    identifier; and where that leaves the pointer. *)
Lemma request_front type packetid filters rest :
  0 <= type < 16 -> is_u16 packetid ->
  let body := be16 packetid ++ filters in
  let buf := packet type 0 1 0 body ++ rest in
  Z.of_nat (length body) <= MAX_REMAINING_LENGTH ->
  exists ptr,
    readChar buf 0 = Some (MQTTHeader type 0 1 0, 1%nat) /\
    MQTTPacket_decodeBuf buf 1 = Some (Z.of_nat ptr - 1, Z.of_nat (length body)) /\ (1 <= ptr)%nat /\
    readInt buf ptr = Some (packetid, S (S ptr)) /\ drop (S (S ptr)) buf = filters ++ rest.
Proof.
  intros Ht Hi body buf Hl. destruct (packet_front type 0 1 0 body rest Hl) as [HF HD].
  pose proof (drop_header type 0 1 0 body rest) as Hd. fold buf in HF, HD, Hd.
  exists (header_len body). split; [done |]. rewrite HD. unfold header_len at 1 2. split; [do 2 f_equal; lia |].
  split; [lia |]. subst body. rewrite <- (assoc_L (++)) in Hd. by apply readInt_at.
Qed.

Lemma header_type type : 0 <= type < 16 ->
  bits_type (MQTTHeader type 0 1 0) = type /\ bits_dup (MQTTHeader type 0 1 0) = 0.
Proof.
  intros Ht. destruct (header_bits type 0 1 0) as (_ & ? & ? & _); first [done | by left].
Qed.

Lemma deserialize_subscribe_bytes maxcount o packetid topics rest :
  Forall (fun t => string_ok (fst t) = true /\ is_u8 (snd t)) topics -> is_u16 packetid ->
  Z.of_nat (length (subscribe_body packetid topics)) <= MAX_REMAINING_LENGTH ->
  (length topics <= length (ro_topics o))%nat -> (length topics <= length (ro_qos o))%nat ->
  MQTTDeserialize_subscribe maxcount o (packet SUBSCRIBE 0 1 0 (subscribe_body packetid topics) ++ rest)
  = Some (1, mk_request_out 0 packetid (Z.of_nat (length topics))
               ((received ∘ fst <$> topics) ++ drop (length topics) (ro_topics o))
               ((snd <$> topics) ++ drop (length topics) (ro_qos o))).
Proof.
  intros Hok Hi Hl HT HQ. unfold subscribe_body in *. set (filters := concat _) in *.
  destruct (request_front SUBSCRIBE packetid filters rest) as (ptr & HF & HD & Hp & HR & Hd); [done.. |].
  destruct (header_type SUBSCRIBE) as [Bt Bd]; [done |].
  unfold MQTTDeserialize_subscribe. rewrite HF. cbn [mbind option_bind]. rewrite Bt, Bd, Z.eqb_refl. cbn [negb].
  rewrite HD. cbn [mbind option_bind].
  replace (1 + Z.to_nat (Z.of_nat ptr - 1))%nat with ptr by lia. rewrite HR. cbn [mbind option_bind].
  rewrite Nat2Z.id, length_app, be16_length.
  rewrite (subscribe_loop_spec _ _ topics (2 + length filters) 0 [] (ro_topics o) [] (ro_qos o) _ rest); try done;
    fold filters; lia.
Qed.

Lemma deserialize_unsubscribe_bytes maxcount o packetid topics rest :
  Forall (fun t => string_ok t = true) topics -> is_u16 packetid ->
  Z.of_nat (length (unsubscribe_body packetid topics)) <= MAX_REMAINING_LENGTH ->
  (length topics <= length (ro_topics o))%nat ->
  MQTTDeserialize_unsubscribe maxcount o (packet UNSUBSCRIBE 0 1 0 (unsubscribe_body packetid topics) ++ rest)
  = Some (1, mk_request_out 0 packetid (Z.of_nat (length topics))
               ((received <$> topics) ++ drop (length topics) (ro_topics o)) (ro_qos o)).
Proof.
  intros Hok Hi Hl HT. unfold unsubscribe_body in *. set (filters := concat _) in *.
  destruct (request_front UNSUBSCRIBE packetid filters rest) as (ptr & HF & HD & Hp & HR & Hd); [done.. |].
  destruct (header_type UNSUBSCRIBE) as [Bt Bd]; [done |].
  unfold MQTTDeserialize_unsubscribe. rewrite HF. cbn [mbind option_bind]. rewrite Bt, Bd, Z.eqb_refl. cbn [negb].
  rewrite HD. cbn [mbind option_bind].
  replace (1 + Z.to_nat (Z.of_nat ptr - 1))%nat with ptr by lia. rewrite HR. cbn [mbind option_bind].
  rewrite Nat2Z.id, length_app, be16_length.
  rewrite (unsubscribe_loop_spec _ _ topics (2 + length filters) 0 [] (ro_topics o) _ rest); try done;
    fold filters; lia.
Qed.

Lemma serialize_unsubscribe_bytes buf packetid topics :
  Forall (fun t => string_ok t = true) topics -> is_u16 packetid ->
  MQTTPacket_len (MQTTSerialize_unsubscribeLength topics) <= Z.of_nat (length buf) <= MAX_REMAINING_LENGTH ->
  let unsub := packet UNSUBSCRIBE 0 1 0 (unsubscribe_body packetid topics) in
  MQTTSerialize_unsubscribe buf (Z.of_nat (length buf)) 0 packetid topics
    = Some (Z.of_nat (length unsub), unsub ++ drop (length unsub) buf).
Proof.
  intros Hts Hi Hl unsub. unfold MQTTSerialize_unsubscribe. rewrite (proj2 (Z.ltb_ge _ _)) by lia.
  apply serialize_packet; try done; try (by left); [| by apply unsubscribe_length].
  apply emits_then; [by apply emits_writeInt | by apply emits_write_topics].
Qed.

Lemma emits_write_codes codes : is_bytes codes -> emits (write_codes codes) codes.
Proof.
  induction 1 as [| c codes Hc _ IH]; [apply emits_skip |].
  apply (emits_then _ _ [c] codes); [by apply emits_writeChar | done].
Qed.

(** The answers, in a buffer that has room for them. *)
Lemma serialize_suback_bytes buf packetid codes :
  is_bytes codes -> is_u16 packetid ->
  MQTTPacket_len (2 + Z.of_nat (length codes)) <= Z.of_nat (length buf) <= MAX_REMAINING_LENGTH ->
  let pkt := packet SUBACK 0 0 0 (be16 packetid ++ codes) in
  MQTTSerialize_suback buf (Z.of_nat (length buf)) packetid codes
  = Some (Z.of_nat (length pkt), pkt ++ drop (length pkt) buf).
Proof.
  intros Hc Hi Hl pkt. unfold MQTTSerialize_suback.
  pose proof (MQTTPacket_len_ge (2 + Z.of_nat (length codes))) as Hge.
  rewrite (proj2 (Z.ltb_ge _ _)) by lia.
  apply serialize_packet; try done; try (by left); [| rewrite length_app, be16_length; lia].
  apply emits_then; [by apply emits_writeInt | by apply emits_write_codes].
Qed.

Lemma serialize_unsuback_bytes buf packetid :
  is_u16 packetid -> 4 <= Z.of_nat (length buf) <= MAX_REMAINING_LENGTH ->
  MQTTSerialize_unsuback buf (Z.of_nat (length buf)) packetid
  = Some (4, packet UNSUBACK 0 0 0 (be16 packetid) ++ drop 4 buf).
Proof.
  intros Hi Hl. unfold MQTTSerialize_unsuback. rewrite (proj2 (Z.ltb_ge _ _)) by lia.
  apply (serialize_packet (writeInt packetid) UNSUBACK 0 0 0 (be16 packetid) 2); try done; try (by left).
  by apply emits_writeInt.
Qed.

(** A subscription goes through both ends of the library: the broker's
    function reads the packet identifier, the filters and the QoS values the
    client wrote, in order, when its arrays hold them; and the return codes the
    broker writes are the ones the client stores. *)
Lemma subscribe_roundtrip buf abuf packetid topics maxcount o codes id0 count0 max granted :
  Forall (fun t => string_ok (fst t) = true /\ is_u8 (snd t)) topics -> is_u16 packetid ->
  MQTTPacket_len (MQTTSerialize_subscribeLength (fst <$> topics)) <= Z.of_nat (length buf)
    <= MAX_REMAINING_LENGTH ->
  (length topics <= length (ro_topics o))%nat -> (length topics <= length (ro_qos o))%nat ->
  is_bytes codes ->
  MQTTPacket_len (2 + Z.of_nat (length codes)) <= Z.of_nat (length abuf) <= MAX_REMAINING_LENGTH ->
  (length codes <= length granted)%nat -> Z.of_nat (length codes) <= max + 1 ->
  (exists (len : nat) buf',
     MQTTSerialize_subscribe buf (Z.of_nat (length buf)) 0 packetid topics = Some (Z.of_nat len, buf')
     /\ MQTTDeserialize_subscribe maxcount o buf'
        = Some (1, mk_request_out 0 packetid (Z.of_nat (length topics))
                     ((received ∘ fst <$> topics) ++ drop (length topics) (ro_topics o))
                     ((snd <$> topics) ++ drop (length topics) (ro_qos o)))) /\
  (exists (len : nat) abuf',
     MQTTSerialize_suback abuf (Z.of_nat (length abuf)) packetid codes = Some (Z.of_nat len, abuf')
     /\ MQTTDeserialize_suback id0 max count0 granted abuf'
        = Some (1, packetid, Z.of_nat (length codes), codes ++ drop (length codes) granted)).
Proof.
  intros Hok Hi Hl HT HQ Hc Ha Hg Hm.
  pose proof (MQTTPacket_len_ge (MQTTSerialize_subscribeLength (fst <$> topics))) as Hge.
  pose proof (MQTTPacket_len_ge (2 + Z.of_nat (length codes))) as Hge'.
  split; eexists _, _.
  - split; [by apply serialize_subscribe_bytes | apply deserialize_subscribe_bytes; try done].
    rewrite <- subscribe_length by done. lia.
  - split; [by apply serialize_suback_bytes | apply deserialize_suback_bytes; try done; try (by left)]. lia.
Qed.

Lemma subscribe_roundtrip_witness :
  (exists (len : nat) buf',
     MQTTSerialize_subscribe (replicate 40 0) 40 0 7 [(cstr [97; 47; 35], 1); (cstr [98], 2)] = Some (Z.of_nat len, buf')
     /\ MQTTDeserialize_subscribe 2 (mk_request_out 0 0 0 (replicate 3 MQTTString_initializer) [0; 0]) buf'
        = Some (1, mk_request_out 0 7 2 [lenstr [97; 47; 35]; lenstr [98]; MQTTString_initializer] [1; 2])) /\
  (exists (len : nat) abuf',
     MQTTSerialize_suback (replicate 8 0) 8 7 [1; 128] = Some (Z.of_nat len, abuf')
     /\ MQTTDeserialize_suback 0 2 0 [0; 0] abuf' = Some (1, 7, 2, [1; 128])).
Proof.
  apply (subscribe_roundtrip (replicate 40 0) (replicate 8 0) 7 [(cstr [97; 47; 35], 1); (cstr [98], 2)] 2
           (mk_request_out 0 0 0 (replicate 3 MQTTString_initializer) [0; 0]) [1; 128] 0 0 2 [0; 0]);
    try (split; by vm_compute); try (simpl; lia).
  - repeat constructor; simpl; done.
  - repeat constructor; by vm_compute.
Defined.

(** The same for an UNSUBSCRIBE request and its answer. *)
Lemma unsubscribe_roundtrip buf abuf packetid topics maxcount o id0 :
  Forall (fun t => string_ok t = true) topics -> is_u16 packetid ->
  MQTTPacket_len (MQTTSerialize_unsubscribeLength topics) <= Z.of_nat (length buf) <= MAX_REMAINING_LENGTH ->
  (length topics <= length (ro_topics o))%nat ->
  4 <= Z.of_nat (length abuf) <= MAX_REMAINING_LENGTH ->
  (exists (len : nat) buf',
     MQTTSerialize_unsubscribe buf (Z.of_nat (length buf)) 0 packetid topics = Some (Z.of_nat len, buf')
     /\ MQTTDeserialize_unsubscribe maxcount o buf'
        = Some (1, mk_request_out 0 packetid (Z.of_nat (length topics))
                     ((received <$> topics) ++ drop (length topics) (ro_topics o)) (ro_qos o))) /\
  (exists abuf',
     MQTTSerialize_unsuback abuf (Z.of_nat (length abuf)) packetid = Some (4, abuf')
     /\ MQTTDeserialize_unsuback id0 abuf' = Some (1, packetid)).
Proof.
  intros Hok Hi Hl HT Ha.
  pose proof (MQTTPacket_len_ge (MQTTSerialize_unsubscribeLength topics)) as Hge.
  split.
  - eexists _, _. split; [by apply serialize_unsubscribe_bytes | apply deserialize_unsubscribe_bytes; try done].
    rewrite <- unsubscribe_length by done. lia.
  - eexists. split; [by apply serialize_unsuback_bytes |].
    unfold MQTTDeserialize_unsuback.
    pose proof (deserialize_ack_bytes id0 UNSUBACK 0 0 0 packetid [] (drop 4 abuf)) as HA.
    rewrite app_nil_r in HA. rewrite HA; first [done | by left].
Qed.

(** ** Packets and buffers the functions misjudge *)

(** The room for the answers is checked for two bytes and the codes, while the
    packets take four and the codes. *)
Lemma answers_overflow :
  MQTTSerialize_connack [0; 0] 2 0 0 = None /\ MQTTSerialize_unsuback [0; 0] 2 7 = None /\
  MQTTSerialize_suback [0; 0; 0] 3 7 [1] = None.
Proof. by repeat split. Qed.

(** A request whose filter is longer than the packet is reported as success
    with no filter: the code returned is the size of the length field. *)
Lemma truncated_subscribe_success :
  fst <$> MQTTDeserialize_subscribe 1 (mk_request_out 0 0 0 [MQTTString_initializer] [0])
            [130; 5; 0; 7; 0; 9; 97] = Some 1 /\
  ro_count ∘ snd <$> MQTTDeserialize_subscribe 1 (mk_request_out 0 0 0 [MQTTString_initializer] [0])
            [130; 5; 0; 7; 0; 9; 97] = Some 0.
Proof. done. Qed.

(** The number of entries of the caller's arrays is passed but not used: a
    second filter is stored behind an array of one. *)
Lemma subscribe_count_unchecked :
  MQTTDeserialize_subscribe 1 (mk_request_out 0 0 0 [MQTTString_initializer] [0])
    [130; 10; 0; 7; 0; 1; 97; 1; 0; 1; 98; 1] = None.
Proof. done. Qed.

(** Any beginning of the protocol name passes the check, also the empty one. *)
Lemma protocol_prefix_accepted k :
  MQTTPacket_checkVersion (lenstr (take k str_MQTT)) 4 = Some true.
Proof. by do 5 (destruct k as [| k]; [done |]). Qed.

(** An empty user name at the end of the packet, which MQTT allows, is refused. *)
Lemma empty_username_refused :
  let o := mk_connectData 4 (cstr [99]) 60 1 0 MQTTPacket_willOptions_initializer (cstr []) MQTTString_initializer in
  MQTTSerialize_connect (replicate 20 0) 20 o
    = Some (17, [16; 15; 0; 4; 77; 81; 84; 84; 4; 130; 0; 60; 0; 1; 99; 0; 0] ++ [0; 0; 0]) /\
  fst <$> MQTTDeserialize_connect MQTTPacket_connectData_initializer
            [16; 15; 0; 4; 77; 81; 84; 84; 4; 130; 0; 60; 0; 1; 99; 0; 0] 17 = Some 0.
Proof. done. Qed.
End MqttServer.
