(* ===== verification/MqttReader.v ===== *)
(** * MQTT packets: reading from a stream

    Models the two readers of the packet library ([MQTTPacket.c]) that assemble
    a packet from whatever supplies bytes: [MQTTPacket_read], which blocks, and
    [MQTTPacket_readnb], which may be told to call again and keeps where it is
    in an [MQTTTransport].  The firmware's client has a reader of its own
    ([MqttClient.v]); these two are the library's.

    The callback is a parameter with its own state.  It answers a request for
    [n] bytes with its return code, the bytes it has stored and its new state. *)

From S2P Require Import Prelude MqttPacket.

Module MqttReader.
Import MqttPacket.

(** Bytes stored by the callback at an index of the caller's buffer; [None]
    when they do not fit. *)
Definition write_bytes (buf : bytes) (ptr : nat) (bs : bytes) : option bytes :=
  if decide (ptr + length bs <= length buf)%nat
  then Some (take ptr buf ++ bs ++ drop (ptr + length bs) buf) else None.

(** [MQTTPacket_encode (buf + 1, rem_len)]: the count written and the buffer. *)
Definition encode_at (buf : bytes) (ptr : nat) (rem_len : Z) : option (nat * bytes) :=
  w ← MQTTPacket_encode rem_len (mk_wbuf buf ptr); Some ((w_ptr w - ptr)%nat, w_mem w).

Section Readers.
Context {St : Type} (getfn : St -> nat -> Z * bytes * St).

(** The callback as [MQTTPacket_decode] uses it: one character. *)
Definition getcharfn (s : St) : option (Z * Z * St) :=
  let '(rc, bs, s) := getfn s 1 in Some (rc, default 0 (head bs), s).

Definition MQTTPacket_read (buf : bytes) (buflen : Z) (s : St) : option (Z * bytes * St) :=
  let '(frc, bs, s) := getfn s 1 in
  buf ← write_bytes buf 0 bs;
  if negb (frc =? 1) then Some (-1, buf, s)
  else
    '(_, rem_len, s) ← MQTTPacket_decode getcharfn s;
    '(n, buf) ← encode_at buf 1 rem_len;
    let len := 1 + Z.of_nat n in
    if buflen <? rem_len + len then Some (-1, buf, s)
    else
      '(ok, buf, s) ← (if rem_len =? 0 then Some (true, buf, s)
                       else let '(frc, bs, s) := getfn s (Z.to_nat rem_len) in
                            buf ← write_bytes buf (Z.to_nat len) bs; Some (frc =? rem_len, buf, s));
      if negb ok then Some (-1, buf, s)
      else byte ← buf !! 0%nat; Some (bits_type byte, buf, s).

(** [MQTTTransport], without the callback and its argument. *)
Record MQTTTransport := mk_MQTTTransport { multiplier : Z; rem_len : Z; len : Z; state : Z }.

(** The do-while loop; the length it counts stops it after four passes. *)
Fixpoint decodenb_loop (fuel : nat) (t : MQTTTransport) (s : St) : option (Z * MQTTTransport * St) :=
  match fuel with
  | O => None
  | S fuel =>
    if MAX_NO_OF_REMAINING_LENGTH_BYTES <=? len t then Some (MQTTPACKET_READ_ERROR, t, s)
    else
      let '(frc, bs, s) := getfn s 1 in
      if frc =? -1 then Some (MQTTPACKET_READ_ERROR, t, s)
      else if frc =? 0 then Some (0, t, s)
      else
        c ← head bs;
        let t := mk_MQTTTransport (multiplier t * 128) (rem_len t + (c .& 127) * multiplier t) (len t + 1) (state t) in
        if negb (c .& 128 =? 0) then decodenb_loop fuel t s else Some (len t, t, s)
  end.

Definition MQTTPacket_decodenb (t : MQTTTransport) (s : St) : option (Z * MQTTTransport * St) :=
  let t := if len t =? 0 then mk_MQTTTransport 1 0 (len t) (state t) else t in
  decodenb_loop 5 t s.

Definition set_state (x : Z) (t : MQTTTransport) : MQTTTransport :=
  mk_MQTTTransport (multiplier t) (rem_len t) (len t) x.

(** The label [exit]: the state starts over. *)
Definition exit_ (rc : Z) (buf : bytes) (t : MQTTTransport) (s : St) :
    option (Z * bytes * MQTTTransport * St) := Some (rc, buf, set_state 0 t, s).

Definition case2 (buf : bytes) (t : MQTTTransport) (s : St) : option (Z * bytes * MQTTTransport * St) :=
  let finish buf t s := byte ← buf !! 0%nat; exit_ (bits_type byte) buf t s in
  if rem_len t =? 0 then finish buf t s
  else
    let '(frc, bs, s) := getfn s (Z.to_nat (rem_len t)) in
    buf ← write_bytes buf (Z.to_nat (len t)) bs;
    if frc =? -1 then exit_ (-1) buf t s
    else if frc =? 0 then Some (0, buf, t, s)
    else
      let t := mk_MQTTTransport (multiplier t) (rem_len t - frc) (len t + frc) (state t) in
      if negb (rem_len t =? 0) then Some (0, buf, t, s) else finish buf t s.

Definition case1 (buf : bytes) (buflen : Z) (t : MQTTTransport) (s : St) :
    option (Z * bytes * MQTTTransport * St) :=
  '(frc, t, s) ← MQTTPacket_decodenb t s;
  if frc =? MQTTPACKET_READ_ERROR then exit_ (-1) buf t s
  else if frc =? 0 then Some (0, buf, t, s)
  else
    '(n, buf) ← encode_at buf 1 (rem_len t);
    let t := mk_MQTTTransport (multiplier t) (rem_len t) (1 + Z.of_nat n) (state t) in
    if buflen <? rem_len t + len t then exit_ (-1) buf t s
    else case2 buf (set_state (state t + 1) t) s.

Definition case0 (buf : bytes) (buflen : Z) (t : MQTTTransport) (s : St) :
    option (Z * bytes * MQTTTransport * St) :=
  let '(frc, bs, s) := getfn s 1 in
  buf ← write_bytes buf 0 bs;
  if frc =? -1 then exit_ (-1) buf t s
  else if frc =? 0 then Some (0, buf, t, s)
  else case1 buf buflen (mk_MQTTTransport (multiplier t) (rem_len t) 0 (state t + 1)) s.

(** The switch; the cases fall through. *)
Definition MQTTPacket_readnb (buf : bytes) (buflen : Z) (t : MQTTTransport) (s : St) :
    option (Z * bytes * MQTTTransport * St) :=
  if state t =? 0 then case0 buf buflen t s
  else if state t =? 1 then case1 buf buflen t s
  else if state t =? 2 then case2 buf t s
  else case0 buf buflen (set_state 0 t) s.

End Readers.


(** ** Sources of bytes

    What the readers are told of their callback: it hands out a stream in
    pieces, at most as many bytes as asked for and none for "call again", and it
    does not say "call again" for ever while bytes are left: [effort] bounds how
    often it can still be asked. *)
Class ByteSource {St : Type} (getfn : St -> nat -> Z * bytes * St) := {
  pending : St -> bytes;
  effort : St -> nat;
  source_piece s n rc bs s' : (0 < n)%nat -> getfn s n = (rc, bs, s') ->
    rc = Z.of_nat (length bs) /\ (length bs <= n)%nat /\ pending s = bs ++ pending s' /\
    (pending s <> [] -> (effort s' < effort s)%nat);
}.

(** ** The bytes of a length field *)

(** Continuation bits on all bytes but the last, and the value of the digits. *)
Fixpoint terminated (ds : bytes) : bool :=
  match ds with
  | [] => false
  | [c] => c .& 128 =? 0
  | c :: ds => negb (c .& 128 =? 0) && terminated ds
  end.

Definition digits_value (ds : bytes) : Z := foldr (fun c v => (c .& 127) + 128 * v) 0 ds.

Lemma terminated_cons c d ds : terminated (c :: d :: ds) = negb (c .& 128 =? 0) && terminated (d :: ds).
Proof. done. Qed.

Lemma varint_digits n : 0 <= n <= MAX_REMAINING_LENGTH ->
  terminated (varint n) = true /\ digits_value (varint n) = n /\ (1 <= length (varint n) <= 4)%nat.
Proof.
  intros Hn. unfold MAX_REMAINING_LENGTH in Hn.
  assert (forall d, 0 <= d < 128 -> (d .& 128 =? 0) = true /\ d .& 127 = d) as Hlow.
  { intros d Hd. rewrite land_127, (land_128_digit d Hd), Z.mod_small by lia. done. }
  assert (forall d, 0 <= d < 128 -> ((128 + d) .& 128 =? 0) = false /\ (128 + d) .& 127 = d) as Hhigh.
  { intros d Hd. rewrite land_127. split; [apply Z.eqb_neq, land_128_more, Hd | divlia]. }
  assert (forall k, 0 < k -> 0 <= n / k mod 128 < 128) as Hmod by (intros; apply Z.mod_pos_bound; lia).
  assert (0 <= n mod 128 < 128) as Hm0 by (apply Z.mod_pos_bound; lia).
  unfold varint. repeat case_match; rewrite ?Z.ltb_lt, ?Z.ltb_ge in *; unfold digits_value; cbn [terminated foldr];
    repeat match goal with
    | |- context [(128 + ?d) .& 128 =? 0] => destruct (Hhigh d) as [-> ->]; [first [lia | auto with lia] |]
    end;
    match goal with
    | |- context [?d .& 128 =? 0] => destruct (Hlow d) as [-> ->]; [divlia |]
    end; split_and!; simpl; try lia; divlia.
Qed.

Section Reassembly.
Context {St : Type} (getfn : St -> nat -> Z * bytes * St) `{!ByteSource getfn}.

(** A request for one byte while bytes are left: nothing yet, or the next one. *)
Lemma get_one s c r :
  pending s = c :: r ->
  exists rc bs s', getfn s 1 = (rc, bs, s') /\ (effort s' < effort s)%nat /\
    ((rc = 0 /\ bs = [] /\ pending s' = c :: r) \/ (rc = 1 /\ bs = [c] /\ pending s' = r)).
Proof.
  intros Hp. destruct (getfn s 1) as [[rc bs] s'] eqn:E.
  destruct (source_piece s 1 rc bs s' ltac:(lia) E) as (Hrc & Hl & Hs & He).
  exists rc, bs, s'. split; [done |]. split; [apply He; by rewrite Hp |]. rewrite Hp in Hs.
  destruct bs as [| b [| b2 bs]]; simpl in *; [left | right | lia].
  - by rewrite Hs.
  - by simplify_eq.
Qed.

(** The transport has read [k] digits of the length field, [ds] are to come and
    [n] is what it will have. *)
Definition in_length (t : MQTTTransport) (ds : bytes) (n : Z) : Prop :=
  0 <= len t /\ len t + Z.of_nat (length ds) <= 4 /\ terminated ds = true /\
  (if len t =? 0 then n = digits_value ds
   else n = rem_len t + multiplier t * digits_value ds).

Lemma decodenb_loop_spec ds :
  forall fuel t s n r,
  0 <= len t -> len t + Z.of_nat (length ds) <= 4 -> terminated ds = true ->
  n = rem_len t + multiplier t * digits_value ds -> (length ds <= fuel)%nat ->
  pending s = ds ++ r ->
  exists rc t' s', decodenb_loop getfn fuel t s = Some (rc, t', s') /\ state t' = state t /\
    (effort s' < effort s)%nat /\
    ((rc = 0 /\ exists ds', 0 <= len t' /\ len t' + Z.of_nat (length ds') <= 4 /\ terminated ds' = true /\
        n = rem_len t' + multiplier t' * digits_value ds' /\ pending s' = ds' ++ r /\
        (len t' = 0 -> t' = t /\ ds' = ds))
     \/ (0 < rc /\ rem_len t' = n /\ pending s' = r)).
Proof.
  induction ds as [| c ds IH]; intros fuel t s n r H0 H4 Ht Hn Hf Hp; [done |].
  destruct fuel as [| fuel]; [simpl in Hf; lia |]. cbn [decodenb_loop]. unfold MAX_NO_OF_REMAINING_LENGTH_BYTES.
  cbn [length] in H4, Hf. rewrite (proj2 (Z.leb_gt _ _)) by lia.
  destruct (get_one s c (ds ++ r) Hp) as (rc & bs & s1 & -> & He & [(-> & -> & Hp1) | (-> & -> & Hp1)]).
  { exists 0, t, s1. split; [done |]. split; [done |]. split; [done |]. left. split; [done |].
    exists (c :: ds). split_and!; cbn [length]; try done. }
  change (1 =? -1) with false. change (1 =? 0) with false. cbn [head mbind option_bind].
  unfold digits_value in Hn. cbn [foldr] in Hn. fold (digits_value ds) in Hn.
  set (t1 := mk_MQTTTransport _ _ _ _).
  destruct ds as [| d ds].
  - cbn [terminated] in Ht. rewrite Ht. exists (len t1), t1, s1. split; [done |]. split; [done |]. split; [done |].
    right. subst t1. simpl in *. split_and!; [lia | rewrite Hn; unfold digits_value; simpl; lia | done].
  - rewrite terminated_cons in Ht. apply andb_true_iff in Ht as [Hc Ht]. rewrite Hc.
    destruct (IH fuel t1 s1 n r) as (rc & t' & s' & -> & Hst & He' & HC); try done;
      try (subst t1; simpl in *; lia).
    exists rc, t', s'. split; [done |]. split; [done |]. split; [lia |].
    destruct HC as [(-> & ds' & H1 & H2 & H3 & H5 & H6 & H7) | HC]; [left | by right].
    split; [done |]. exists ds'. split_and!; try done. all: intros Hz; destruct (H7 Hz) as [-> _]; subst t1; simpl in Hz; lia.
Qed.

Lemma decodenb_spec ds t s n r :
  in_length t ds n -> pending s = ds ++ r ->
  exists rc t' s', MQTTPacket_decodenb getfn t s = Some (rc, t', s') /\ state t' = state t /\
    (effort s' < effort s)%nat /\
    ((rc = 0 /\ exists ds', in_length t' ds' n /\ pending s' = ds' ++ r)
     \/ (0 < rc /\ rem_len t' = n /\ pending s' = r)).
Proof.
  intros (H0 & H4 & Ht & Hn) Hp. unfold MQTTPacket_decodenb.
  set (t1 := if len t =? 0 then _ else _).
  assert (len t1 = len t /\ state t1 = state t /\ n = rem_len t1 + multiplier t1 * digits_value ds) as (Hl & Hst & Hn1).
  { subst t1. destruct (len t =? 0) eqn:E; split_and!; simpl; lia. }
  destruct (decodenb_loop_spec ds 5 t1 s n r) as (rc & t' & s' & -> & Hst' & He & HC); try done; try lia.
  exists rc, t', s'. split; [done |]. split; [congruence |]. split; [done |].
  destruct HC as [(-> & ds' & H1 & H2 & H3 & H5 & H6 & H7) | HC]; [left | by right].
  split; [done |]. exists ds'. split; [| done]. split_and!; try done.
  destruct (Z.eqb_spec (len t') 0) as [E |]; [| done].
  destruct (H7 E) as [Et ->]. rewrite Et, Hl in E. by rewrite E in Hn.
Qed.
End Reassembly.

(** ** A packet, however it arrives *)

Lemma write_bytes_at buf ptr bs :
  (ptr + length bs <= length buf)%nat ->
  write_bytes buf ptr bs = Some (take ptr buf ++ bs ++ drop (ptr + length bs) buf).
Proof. intros H. unfold write_bytes. by rewrite decide_True. Qed.

Lemma write_bytes_nil buf ptr : (ptr <= length buf)%nat -> write_bytes buf ptr [] = Some buf.
Proof.
  intros H. rewrite write_bytes_at by (simpl; lia). simpl. by rewrite Nat.add_0_r, take_drop.
Qed.

Lemma encode_at_spec (pre suf : bytes) n :
  0 <= n <= MAX_REMAINING_LENGTH -> (length (varint n) <= length suf)%nat ->
  encode_at (pre ++ suf) (length pre) n
  = Some (length (varint n), pre ++ varint n ++ drop (length (varint n)) suf).
Proof.
  intros Hn Hl. unfold encode_at. rewrite (emits_encode n Hn pre suf Hl). cbn [mbind option_bind w_ptr w_mem].
  rewrite length_app. do 2 f_equal; [lia | by rewrite <- (assoc_L (++))].
Qed.

Section Packet.
Context {St : Type} (getfn : St -> nat -> Z * bytes * St) `{!ByteSource getfn}.
Context (type dup qos retain : Z) (body rest : bytes) (buf0 : bytes).
Context (Htype : 0 < type < 16) (Hdup : flag dup) (Hqos : 0 <= qos < 4) (Hretain : flag retain).

Let pkt : bytes := packet type dup qos retain body.
Let n : Z := Z.of_nat (length body).
Let hd : nat := header_len body.

Context (Hmax : n <= MAX_REMAINING_LENGTH) (Hfit : (length pkt <= length buf0)%nat).

#[local] Set Default Proof Using "Type*".

Lemma pkt_length : (length pkt = hd + length body)%nat.
Proof. unfold pkt, hd, packet, header_len. simpl. rewrite length_app. lia. Qed.

Lemma hd_varint : hd = S (length (varint n)).
Proof. done. Qed.

(** The buffer behind the packet is as it was. *)
Definition framed (buf : bytes) : Prop :=
  length buf = length buf0 /\ drop (length pkt) buf = drop (length pkt) buf0.

(** Where the reader can be between two calls. *)
Inductive reading (buf : bytes) (t : MQTTTransport) (s : St) : Prop :=
| at_header : framed buf -> state t = 0 -> pending s = pkt ++ rest -> reading buf t s
| at_length ds : framed buf -> state t = 1 -> buf !! 0%nat = Some (MQTTHeader type dup qos retain) ->
    in_length t ds n -> pending s = ds ++ body ++ rest -> reading buf t s
| at_body j : framed buf -> state t = 2 -> len t = Z.of_nat j -> rem_len t = Z.of_nat (length pkt) - Z.of_nat j ->
    (hd <= j < length pkt)%nat -> take j buf = take j pkt -> pending s = drop j pkt ++ rest -> reading buf t s.

Definition finished (buf : bytes) (t : MQTTTransport) (s : St) : Prop :=
  state t = 0 /\ buf = pkt ++ drop (length pkt) buf0 /\ pending s = rest.

Definition outcome (e : nat) (res : option (Z * bytes * MQTTTransport * St)) : Prop :=
  exists rc buf t s, res = Some (rc, buf, t, s) /\
    ((rc = 0 /\ reading buf t s /\ (effort s < e)%nat) \/ (rc = type /\ finished buf t s)).

Lemma outcome_mono e e' res : (e <= e')%nat -> outcome e res -> outcome e' res.
Proof.
  intros He (rc & buf & t & s & -> & HC). exists rc, buf, t, s. split; [done |].
  destruct HC as [(? & ? & ?) | HC]; [left; split_and!; try done; lia | by right].
Qed.

Lemma framed_write buf ptr bs : framed buf -> (ptr + length bs <= length pkt)%nat ->
  framed (take ptr buf ++ bs ++ drop (ptr + length bs) buf).
Proof.
  intros [Hl Hd] Hp. split.
  - rewrite !length_app, length_take, length_drop. lia.
  - rewrite <- Hd.
    replace (length pkt) with (length (take ptr buf ++ bs) + (length pkt - (ptr + length bs)))%nat at 1
      by (rewrite length_app, length_take; lia).
    rewrite (assoc_L (++)), <- drop_drop, drop_app_length, drop_drop. f_equal. lia.
Qed.

Lemma take_all_packet buf : framed buf -> take (length pkt) buf = pkt -> buf = pkt ++ drop (length pkt) buf0.
Proof. intros [_ Hd] Ht. by rewrite <- (take_drop (length pkt) buf), Ht, Hd. Qed.

Lemma bits_header : bits_type (MQTTHeader type dup qos retain) = type.
Proof. destruct (header_bits type dup qos retain) as (_ & -> & _); try done. lia. Qed.

(** The last case, with [j] bytes of the packet in the buffer. *)
Lemma case2_outcome buf t s j :
  framed buf -> state t = 2 -> len t = Z.of_nat j -> rem_len t = Z.of_nat (length pkt) - Z.of_nat j ->
  (hd <= j <= length pkt)%nat -> take j buf = take j pkt -> pending s = drop j pkt ++ rest ->
  outcome (effort s) (case2 getfn buf t s).
Proof.
  intros HF Hst Hlen Hrem Hj Htk Hp. pose proof HF as [Hbl _].
  assert (forall b t' s', framed b -> state t' = 2 -> take (length pkt) b = pkt -> pending s' = rest ->
    outcome (effort s) (byte ← b !! 0%nat; exit_ (bits_type byte) b t' s')) as Hfin.
  { intros b t' s' HFb Hs' Htb Hp'. rewrite (take_all_packet b HFb Htb).
    change ((pkt ++ drop (length pkt) buf0) !! 0%nat) with (Some (MQTTHeader type dup qos retain)).
    cbn [mbind option_bind]. rewrite bits_header. unfold exit_. eexists _, _, _, _. split; [done |].
    right. split; [done |]. split_and!; done. }
  unfold case2. destruct (Z.eqb_spec (rem_len t) 0) as [E | E].
  { apply Hfin; try done.
    - replace (length pkt) with j by lia. rewrite Htk. apply take_ge. lia.
    - rewrite Hp, drop_ge by lia. done. }
  destruct (getfn s (Z.to_nat (rem_len t))) as [[frc bs] s'] eqn:EG.
  destruct (source_piece s (Z.to_nat (rem_len t)) frc bs s' ltac:(lia) EG) as (-> & Hl & Hs & He).
  specialize (He ltac:(rewrite Hp; intros [Hnil _]%app_nil; apply (f_equal length) in Hnil; rewrite length_drop in Hnil; change (length (@nil Z)) with 0%nat in Hnil; lia)).
  rewrite Hp in Hs.
  rewrite Hlen, Nat2Z.id, write_bytes_at by lia. cbn [mbind option_bind].
  rewrite (proj2 (Z.eqb_neq _ (-1))) by lia.
  pose proof (framed_write buf j bs HF ltac:(lia)) as HF'.
  set (buf' := take j buf ++ bs ++ drop (j + length bs) buf) in *.
  assert (drop j pkt = bs ++ drop (j + length bs) pkt /\ pending s' = drop (j + length bs) pkt ++ rest) as [Hbs Hp'].
  { pose proof (take_drop (length bs) (drop j pkt)) as Htd. rewrite drop_drop in Htd. rewrite <- Htd in Hs.
    rewrite <- (assoc_L (++)) in Hs. apply app_inj_1 in Hs as [Hs1 Hs2].
    - split; [| done]. by rewrite <- Htd at 1; rewrite Hs1.
    - rewrite length_take, length_drop. lia. }
  assert (take (j + length bs) buf' = take (j + length bs) pkt) as Htk'.
  { subst buf'. rewrite Htk, (assoc_L (++)).
    replace (j + length bs)%nat with (length (take j pkt ++ bs)) at 1 by (rewrite length_app, length_take; lia).
    rewrite take_app_length, <- take_take_drop. by rewrite Hbs, take_app_length. }
  destruct (Z.eqb_spec (Z.of_nat (length bs)) 0) as [Eb | Eb].
  { eexists _, _, _, _. split; [done |]. left. split; [done |]. split; [| done].
    replace (j + length bs)%nat with j in * by lia. by apply (at_body _ _ _ j); try done; lia. }
  cbn [rem_len]. destruct (Z.eqb_spec (rem_len t - Z.of_nat (length bs)) 0) as [Er | Er]; cbn [negb].
  { apply Hfin; try done.
    - replace (length pkt) with (j + length bs)%nat by lia. rewrite Htk'. apply take_ge. lia.
    - rewrite Hp', drop_ge by lia. done. }
  eexists _, _, _, _. split; [done |]. left. split; [done |]. split; [| done].
  apply (at_body _ _ _ (j + length bs)%nat); try done; cbn [len rem_len]; lia.
Qed.

(** The length field, with the header byte in the buffer. *)
Lemma case1_outcome buf t s ds :
  framed buf -> state t = 1 -> buf !! 0%nat = Some (MQTTHeader type dup qos retain) ->
  in_length t ds n -> pending s = ds ++ body ++ rest ->
  outcome (effort s) (case1 getfn buf (Z.of_nat (length buf0)) t s).
Proof.
  intros HF Hst Hb Hin Hp. pose proof HF as [Hbl _]. pose proof pkt_length as Hpl.
  destruct (decodenb_spec getfn ds t s n (body ++ rest) Hin Hp) as (rc & t' & s' & HE & Hst' & He & HC).
  unfold case1. rewrite HE. cbn [mbind option_bind]. unfold MQTTPACKET_READ_ERROR.
  destruct HC as [(-> & ds' & Hin' & Hp') | (Hrc & Hrem & Hp')].
  { change (0 =? -1) with false. cbv iota. eexists _, _, _, _. split; [done |]. left. split; [done |].
    split; [| done]. apply (at_length _ _ _ ds'); try done. congruence. }
  rewrite (proj2 (Z.eqb_neq rc (-1))), (proj2 (Z.eqb_neq rc 0)) by lia.
  destruct buf as [| b suf]; [done |]. injection Hb as ->. cbn [length] in Hbl. rewrite Hrem.
  pose proof (encode_at_spec [MQTTHeader type dup qos retain] suf n ltac:(lia)) as HEn.
  rewrite hd_varint in Hpl. cbn [app] in HEn. change (length [_]) with 1%nat in HEn. rewrite HEn by lia. clear HEn.
  cbn [mbind option_bind len rem_len]. assert (n = Z.of_nat (length body)) as Hn by done.
  rewrite (proj2 (Z.ltb_ge _ _)) by lia.
  eapply outcome_mono; [apply Nat.lt_le_incl, He |].
  apply (case2_outcome _ _ _ hd); cbn [state set_state len rem_len].
  - pose proof (framed_write (MQTTHeader type dup qos retain :: suf) 1 (varint (Z.of_nat (length body))) HF ltac:(rewrite <- Hn; lia)) as HFw.
    by cbn [take drop app Nat.add] in HFw.
  - rewrite Hst', Hst. done.
  - rewrite hd_varint. lia.
  - rewrite hd_varint. lia.
  - rewrite pkt_length. lia.
  - rewrite hd_varint. unfold pkt, packet. cbn [take app]. by rewrite !take_app_length.
  - rewrite Hp'. unfold pkt, packet. rewrite hd_varint. cbn [drop]. by rewrite drop_app_length.
Qed.

Lemma case0_outcome buf t s :
  framed buf -> state t = 0 -> pending s = pkt ++ rest ->
  outcome (effort s) (case0 getfn buf (Z.of_nat (length buf0)) t s).
Proof.
  intros HF Hst Hp. pose proof HF as [Hbl Hd]. pose proof pkt_length as Hpl. rewrite hd_varint in Hpl.
  destruct (varint_digits n ltac:(lia)) as (Ht & Hv & Hl4).
  destruct (get_one getfn s (MQTTHeader type dup qos retain) (varint n ++ body ++ rest))
    as (rc & bs & s' & HG & He & HC).
  { rewrite Hp. unfold pkt, packet. by rewrite <- app_comm_cons, <- (assoc_L (++)). }
  unfold case0. rewrite HG. destruct HC as [(-> & -> & Hp') | (-> & -> & Hp')].
  - rewrite write_bytes_nil by lia. cbn [mbind option_bind]. change (0 =? -1) with false. cbv iota.
    eexists _, _, _, _. split; [done |]. left. split; [done |]. split; [| done]. apply at_header; try done.
    rewrite Hp'. unfold pkt, packet. by rewrite <- app_comm_cons, <- (assoc_L (++)).
  - rewrite write_bytes_at by (simpl; lia). cbn [mbind option_bind].
    change (1 =? -1) with false. change (1 =? 0) with false. cbv iota.
    eapply outcome_mono; [apply Nat.lt_le_incl, He |].
    apply (case1_outcome _ _ _ (varint n)); cbn [state]; try done.
    + apply (framed_write buf 0 [MQTTHeader type dup qos retain] HF). simpl. lia.
    + by rewrite Hst.
    + unfold in_length. cbn [len]. split_and!; try done; lia.
Qed.

(** One call, from wherever the reader is. *)
Lemma readnb_outcome buf t s :
  reading buf t s -> outcome (effort s) (MQTTPacket_readnb getfn buf (Z.of_nat (length buf0)) t s).
Proof.
  unfold MQTTPacket_readnb. intros [HF Hst Hp | ds HF Hst Hb Hin Hp | j HF Hst Hl Hr Hj Ht Hp]; rewrite Hst; simpl.
  - by apply case0_outcome.
  - by eapply case1_outcome.
  - apply (case2_outcome _ _ _ j); try done. lia.
Qed.

(** The caller's side of "call again". *)
Fixpoint poll (fuel : nat) (buf : bytes) (buflen : Z) (t : MQTTTransport) (s : St) :
    option (Z * bytes * MQTTTransport * St) :=
  match fuel with
  | O => None
  | S fuel =>
    '(rc, buf, t, s) ← MQTTPacket_readnb getfn buf buflen t s;
    if rc =? 0 then poll fuel buf buflen t s else Some (rc, buf, t, s)
  end.

Lemma poll_finishes fuel :
  forall buf t s, reading buf t s -> (effort s < fuel)%nat ->
  exists t' s', poll fuel buf (Z.of_nat (length buf0)) t s = Some (type, pkt ++ drop (length pkt) buf0, t', s')
    /\ state t' = 0 /\ pending s' = rest.
Proof.
  induction fuel as [| fuel IH]; intros buf t s HR Hf; [lia |]. cbn [poll].
  destruct (readnb_outcome buf t s HR) as (rc & b & t1 & s1 & -> & [(-> & HR1 & He) | (-> & Hst & -> & Hp)]);
    cbn [mbind option_bind].
  - rewrite Z.eqb_refl. apply IH; [done | lia].
  - rewrite (proj2 (Z.eqb_neq type 0)) by lia. eauto.
Qed.

End Packet.

(** ** The blocking reader *)

(** A source that gives what it is asked for, as long as it has it. *)
Class BlockingSource {St : Type} (getfn : St -> nat -> Z * bytes * St) := {
  stream : St -> bytes;
  blocking_piece s bs r : bs <> [] -> stream s = bs ++ r ->
    exists s', getfn s (length bs) = (Z.of_nat (length bs), bs, s') /\ stream s' = r;
}.

Section Blocking.
Context {St : Type} (getfn : St -> nat -> Z * bytes * St) `{!BlockingSource getfn}.

Lemma decode_blocking ds :
  forall fuel k mult value s r,
  terminated ds = true -> (length ds <= fuel)%nat -> 0 <= k -> k + Z.of_nat (length ds) <= 4 ->
  stream s = ds ++ r ->
  exists s', decode_loop (getcharfn getfn) fuel k mult value s
    = Some (k + Z.of_nat (length ds), value + mult * digits_value ds, s') /\ stream s' = r.
Proof.
  induction ds as [| c ds IH]; intros fuel k mult value s r Ht Hf Hk H4 Hp; [done |].
  destruct fuel as [| fuel]; [simpl in Hf; lia |]. cbn [length] in *.
  destruct (blocking_piece s [c] (ds ++ r)) as (s1 & HG & Hs1); [done | done |].
  cbn [decode_loop]. unfold MAX_NO_OF_REMAINING_LENGTH_BYTES. rewrite (proj2 (Z.ltb_ge _ _)) by lia.
  assert (getcharfn getfn s = Some (1, c, s1)) as -> by (unfold getcharfn; change (length [c]) with 1%nat in HG; by rewrite HG).
  cbn [mbind option_bind]. change (negb (1 =? 1)) with false. cbv iota.
  unfold digits_value. cbn [foldr]. fold (digits_value ds).
  destruct ds as [| d ds].
  - cbn [terminated] in Ht. rewrite Ht. exists s1. split; [| done]. cbn [negb length]. unfold digits_value. simpl.
    do 3 f_equal; lia.
  - rewrite terminated_cons in Ht. apply andb_true_iff in Ht as [Hc Ht]. rewrite Hc.
    destruct (IH fuel (k + 1) (mult * 128) (value + (c .& 127) * mult) s1 r) as (s' & -> & Hs'); try done; try lia.
    exists s'. split; [| done]. do 3 f_equal; lia.
Qed.

Lemma read_blocking type dup qos retain body rest buf s :
  0 < type < 16 -> flag dup -> 0 <= qos < 4 -> flag retain ->
  Z.of_nat (length body) <= MAX_REMAINING_LENGTH ->
  let pkt := packet type dup qos retain body in
  (length pkt <= length buf)%nat -> stream s = pkt ++ rest ->
  exists s', MQTTPacket_read getfn buf (Z.of_nat (length buf)) s
    = Some (type, pkt ++ drop (length pkt) buf, s') /\ stream s' = rest.
Proof.
  intros Ht Hd Hq Hr Hm pkt Hfit Hp. set (h := MQTTHeader type dup qos retain).
  set (n := Z.of_nat (length body)) in *.
  destruct (varint_digits n ltac:(lia)) as (Hterm & Hval & Hl4).
  assert (pkt = h :: varint n ++ body) as Epkt by done.
  assert (length pkt = S (length (varint n) + length body)) as Hpl by (by rewrite Epkt; simpl; rewrite length_app).
  destruct (blocking_piece s [h] (varint n ++ body ++ rest)) as (s1 & HG1 & Hs1); [done | |].
  { rewrite Hp, Epkt. by rewrite <- app_comm_cons, <- (assoc_L (++)). }
  destruct (decode_blocking (varint n) 5 0 1 0 s1 (body ++ rest)) as (s2 & HE & Hs2); try done; try lia.
  destruct buf as [| b suf]; [simpl in Hfit; lia |]. cbn [length] in Hfit.
  unfold MQTTPacket_read. change (length [h]) with 1%nat in HG1. rewrite HG1.
  rewrite write_bytes_at by (simpl; lia). cbn [mbind option_bind take drop app length Nat.add].
  change (negb (Z.of_nat 1 =? 1)) with false. cbv iota.
  unfold MQTTPacket_decode. rewrite HE. cbn [mbind option_bind]. rewrite Hval. replace (0 + 1 * n) with n by lia.
  pose proof (encode_at_spec [h] suf n ltac:(lia) ltac:(lia)) as HEn. cbn [app] in HEn.
  change (length [h]) with 1%nat in HEn. rewrite drop_0, HEn. cbn [mbind option_bind].
  rewrite (proj2 (Z.ltb_ge _ _)) by (cbn [length]; subst n; lia).
  set (got := if n =? 0 then _ else _).
  assert (exists s', got = Some (true, h :: varint n ++ body ++ drop (length (varint n) + length body) suf, s')
          /\ stream s' = rest) as (s' & -> & Hs').
  { subst got. destruct (Z.eqb_spec n 0) as [E0 | E0].
    - assert (body = []) as -> by (destruct body; [done | subst n; simpl in E0; lia]).
      exists s2. split; [| done]. rewrite Nat.add_0_r. done.
    - destruct (blocking_piece s2 body rest) as (s3 & HG3 & Hs3); [by intros -> | done |].
      exists s3. split; [| done]. unfold n at 1. rewrite Nat2Z.id, HG3.
      replace (Z.to_nat (1 + Z.of_nat (length (varint n)))) with (S (length (varint n))) by lia.
      rewrite write_bytes_at by (simpl; rewrite length_app, length_drop; lia).
      cbn [mbind option_bind]. unfold n at 1. rewrite Z.eqb_refl. do 3 f_equal.
      cbn [take drop Nat.add app]. rewrite take_app_length. do 3 f_equal.
      by rewrite <- drop_drop, drop_app_length, drop_drop. }
  cbn [mbind option_bind negb]. cbn [lookup list_lookup mbind option_bind].
  exists s'. split; [| done]. subst h. destruct (header_bits type dup qos retain) as (_ & -> & _); try done; [lia |].
  rewrite Hpl, Epkt. cbn [drop app]. by rewrite <- (assoc_L (++)).
Qed.
End Blocking.

(** C32: however a packet arrives, in pieces of any size and with any number of
    "call again" in between, the non-blocking reader called until it is done
    returns what the blocking reader returns on the same stream: the packet's
    type, with the packet at the front of the buffer, nothing behind it touched,
    nothing taken from the stream behind it, and the transport ready for the
    next one. *)
Theorem packet_reassembly {St1 St2 : Type} (get1 : St1 -> nat -> Z * bytes * St1)
    (get2 : St2 -> nat -> Z * bytes * St2) `{!ByteSource get1} `{!BlockingSource get2}
    type dup qos retain body rest buf t s1 s2 :
  0 < type < 16 -> flag dup -> 0 <= qos < 4 -> flag retain ->
  Z.of_nat (length body) <= MAX_REMAINING_LENGTH ->
  let pkt := packet type dup qos retain body in
  (length pkt <= length buf)%nat -> state t = 0 ->
  pending s1 = pkt ++ rest -> stream s2 = pkt ++ rest ->
  exists t' s1' s2',
    poll get1 (S (effort s1)) buf (Z.of_nat (length buf)) t s1
      = Some (type, pkt ++ drop (length pkt) buf, t', s1') /\
    MQTTPacket_read get2 buf (Z.of_nat (length buf)) s2 = Some (type, pkt ++ drop (length pkt) buf, s2') /\
    state t' = 0 /\ pending s1' = rest /\ stream s2' = rest.
Proof.
  intros Ht Hd Hq Hr Hm pkt Hfit Hst Hp1 Hp2.
  destruct (poll_finishes get1 type dup qos retain body rest buf Ht Hd Hq Hr Hm Hfit (S (effort s1)) buf t s1)
    as (t' & s1' & HP & Hst' & Hr1); [by apply at_header | lia |].
  destruct (read_blocking get2 type dup qos retain body rest buf s2) as (s2' & HR & Hr2); try done.
  by exists t', s1', s2'.
Qed.

(** ** Two sources *)

(** A stream cut into chunks; an empty chunk is a "call again". *)
Definition get_chunk (chunks : list bytes) (n : nat) : Z * bytes * list bytes :=
  match chunks with
  | [] => (0, [], [])
  | c :: cs =>
    let bs := take n c in
    (Z.of_nat (length bs), bs, match drop n c with [] => cs | c => c :: cs end)
  end.

#[export] Instance chunk_source : ByteSource get_chunk.
Proof.
  refine {| pending := @concat Z; effort cs := length cs + length (concat cs) |}%nat.
  intros [| c cs] n rc bs s' Hn [= <- <- <-]; [split_and!; [done | simpl; lia | done | done] |]. split; [done |]. split; [rewrite length_take; lia |].
  pose proof (take_drop n c) as Htd.
  destruct (drop n c) as [| x d] eqn:E; cbn [concat length]; rewrite ?length_app.
  - rewrite app_nil_r in Htd. rewrite Htd. split; [done |]. lia.
  - split; [by rewrite (assoc_L (++)), Htd |]. intros _.
    apply (f_equal length) in Htd. rewrite length_app, length_take in Htd. cbn [length] in *.
    assert (length c <> 0%nat) by (intros Hc; apply nil_length_inv in Hc as ->; by rewrite drop_nil in E). lia.
Defined.

(** A file of bytes. *)
Definition get_file (file : bytes) (n : nat) : Z * bytes * bytes :=
  (Z.of_nat (length (take n file)), take n file, drop n file).

#[export] Instance file_source : BlockingSource get_file.
Proof.
  refine {| stream f := f |}. intros s bs r _ ->. exists r. split; [| done].
  unfold get_file. by rewrite take_app_length, drop_app_length.
Defined.

Lemma packet_reassembly_witness :
  exists t' s1' s2',
    poll get_chunk 16 (replicate 12 0) 12 (mk_MQTTTransport 0 0 0 0) [[48]; []; [5; 0]; [1; 97]; []; [7; 8; 9; 9]]
      = Some (PUBLISH, [48; 5; 0; 1; 97; 7; 8] ++ replicate 5 0, t', s1') /\
    MQTTPacket_read get_file (replicate 12 0) 12 [48; 5; 0; 1; 97; 7; 8; 9; 9]
      = Some (PUBLISH, [48; 5; 0; 1; 97; 7; 8] ++ replicate 5 0, s2') /\
    state t' = 0 /\ pending s1' = [9; 9] /\ stream s2' = [9; 9].
Proof.
  assert (S (effort [[48]; []; [5; 0]; [1; 97]; []; [7; 8; 9; 9]]) = 16%nat) as E by done. rewrite <- E.
  apply (packet_reassembly get_chunk get_file PUBLISH 0 0 0 [0; 1; 97; 7; 8] [9; 9] (replicate 12 0)
           (mk_MQTTTransport 0 0 0 0) [[48]; []; [5; 0]; [1; 97]; []; [7; 8; 9; 9]] [48; 5; 0; 1; 97; 7; 8; 9; 9]);
    first [by left | done | simpl; lia].
Defined.

(** ** What the readers overlook *)

(** The blocking reader ignores that the length field is incomplete: after a
    failed read in its middle it reads as many bytes as the digits so far say. *)
Definition get_script (script : list (Z * bytes)) (n : nat) : Z * bytes * list (Z * bytes) :=
  match script with
  | [] => (-1, [], [])
  | (rc, bs) :: script => (rc, bs, script)
  end.

Lemma incomplete_length_ignored :
  (fun r => fst (fst r)) <$> MQTTPacket_read get_script (replicate 8 0) 8
    [(1, [48]); (1, [130]); (-1, []); (2, [0; 0])] = Some PUBLISH.
Proof. done. Qed.

(** The length field is put back into the buffer before the room is checked. *)
Lemma length_written_unchecked :
  MQTTPacket_readnb get_chunk [0; 0] 2 (mk_MQTTTransport 0 0 0 0) [[48; 128; 1]] = None.
Proof. done. Qed.
End MqttReader.
