(* ===== verification/MqttClient.v ===== *)
(** * The MQTT client

    Models [src/mqtt/MQTTClient.c].  The client is written against the port
    layer of paho (timers and a network with read and write functions), here
    the class [MqttPort]; [MqttUiso.v] gives the firmware's instance.

    The client state is the [MQTTClient] record; buffers are byte lists and
    message handlers are numbered function pointers whose calls are logged.
    Functions run in a monad whose outcomes are a result, [Undef] (an access
    outside a buffer or through an unset pointer), [Blocked] (a mutex taken
    twice) and [NoFuel] (a loop that did not end within the fuel given). *)

From stdpp Require Import sets gmap.
From S2P Require Import Prelude MqttPacket.
Import MqttPacket.

(** ** The port layer *)

(** [mqttread] gets the length asked for and the timeout, and gives its return
    value and the bytes stored; [mqttwrite] gets the bytes behind the pointer
    it is passed, as many as the length it is passed. *)
Class MqttPort (W : Type) := {
  Timer : Type;
  TimerInit : Timer;
  TimerCountdownMS : Z -> Timer -> W -> Timer * W;
  TimerIsExpired : Timer -> W -> (bool * Timer) * W;
  TimerLeftMS : Timer -> W -> (Z * Timer) * W;
  mqttread : Z -> Z -> W -> (Z * bytes) * W;
  mqttwrite : bytes -> Z -> W -> Z * W;
}.
#[global] Arguments Timer W {_}.

(** Results never exceed the length asked for; a read stores as many bytes as
    it reports. *)
Class MqttPortLaws (W : Type) {P : MqttPort W} := {
  mqttwrite_le data t w : fst (mqttwrite data t w) <= Z.of_nat (length data);
  mqttread_length len t w : 0 <= len ->
    let '(r, b) := fst (mqttread len t w) in
    r <= len /\ Z.of_nat (length b) = Z.max 0 r /\ is_bytes b;
}.

Module MqttClient.

Definition MAX_PACKET_ID : Z := 65535.
Definition MAX_MESSAGE_HANDLERS : nat := 5.
Definition QOS0 : Z := 0.
Definition QOS1 : Z := 1.
Definition QOS2 : Z := 2.
Definition SUBFAIL : Z := 128.
Definition BUFFER_OVERFLOW : Z := -2.
Definition FAILURE : Z := -1.
Definition SUCCESS : Z := 0.

(** A handler is a function pointer, known by a number. *)
Definition handler := Z.

Record MQTTMessage := mk_MQTTMessage {
  msg_qos : Z; msg_retained : Z; msg_dup : Z; msg_id : Z;
  msg_payload : option bytes; msg_payloadlen : Z;
}.

Inductive event :=
| Wrote (data : bytes) (rc : Z)
| Delivered (h : handler) (topicName : MQTTString) (message : MQTTMessage).

Section Client.
Context {W : Type} {P : MqttPort W}.

Record MQTTClient := mk_MQTTClient {
  next_packetid : Z;
  command_timeout_ms : Z;
  buf : bytes;
  readbuf : bytes;
  keepAliveInterval : Z;
  ping_outstanding : bool;
  isconnected : bool;
  cleansession : bool;
  messageHandlers : list (option bytes * option handler);
  defaultMessageHandler : option handler;
  last_sent : Timer W;
  last_received : Timer W;
  mutex_held : bool;
}.

Definition buf_size (c : MQTTClient) : Z := Z.of_nat (length (buf c)).
Definition readbuf_size (c : MQTTClient) : Z := Z.of_nat (length (readbuf c)).

(** Field updates. *)
Definition set_next_packetid v (c : MQTTClient) := mk_MQTTClient v (command_timeout_ms c) (buf c) (readbuf c) (keepAliveInterval c) (ping_outstanding c) (isconnected c) (cleansession c) (messageHandlers c) (defaultMessageHandler c) (last_sent c) (last_received c) (mutex_held c).
Definition set_buf v (c : MQTTClient) := mk_MQTTClient (next_packetid c) (command_timeout_ms c) v (readbuf c) (keepAliveInterval c) (ping_outstanding c) (isconnected c) (cleansession c) (messageHandlers c) (defaultMessageHandler c) (last_sent c) (last_received c) (mutex_held c).
Definition set_readbuf v (c : MQTTClient) := mk_MQTTClient (next_packetid c) (command_timeout_ms c) (buf c) v (keepAliveInterval c) (ping_outstanding c) (isconnected c) (cleansession c) (messageHandlers c) (defaultMessageHandler c) (last_sent c) (last_received c) (mutex_held c).
Definition set_session k cs (c : MQTTClient) := mk_MQTTClient (next_packetid c) (command_timeout_ms c) (buf c) (readbuf c) k (ping_outstanding c) (isconnected c) cs (messageHandlers c) (defaultMessageHandler c) (last_sent c) (last_received c) (mutex_held c).
Definition set_ping v (c : MQTTClient) := mk_MQTTClient (next_packetid c) (command_timeout_ms c) (buf c) (readbuf c) (keepAliveInterval c) v (isconnected c) (cleansession c) (messageHandlers c) (defaultMessageHandler c) (last_sent c) (last_received c) (mutex_held c).
Definition set_connected v (c : MQTTClient) := mk_MQTTClient (next_packetid c) (command_timeout_ms c) (buf c) (readbuf c) (keepAliveInterval c) (ping_outstanding c) v (cleansession c) (messageHandlers c) (defaultMessageHandler c) (last_sent c) (last_received c) (mutex_held c).
Definition set_handlers v (c : MQTTClient) := mk_MQTTClient (next_packetid c) (command_timeout_ms c) (buf c) (readbuf c) (keepAliveInterval c) (ping_outstanding c) (isconnected c) (cleansession c) v (defaultMessageHandler c) (last_sent c) (last_received c) (mutex_held c).
Definition set_last_sent v (c : MQTTClient) := mk_MQTTClient (next_packetid c) (command_timeout_ms c) (buf c) (readbuf c) (keepAliveInterval c) (ping_outstanding c) (isconnected c) (cleansession c) (messageHandlers c) (defaultMessageHandler c) v (last_received c) (mutex_held c).
Definition set_last_received v (c : MQTTClient) := mk_MQTTClient (next_packetid c) (command_timeout_ms c) (buf c) (readbuf c) (keepAliveInterval c) (ping_outstanding c) (isconnected c) (cleansession c) (messageHandlers c) (defaultMessageHandler c) (last_sent c) v (mutex_held c).
Definition set_mutex v (c : MQTTClient) := mk_MQTTClient (next_packetid c) (command_timeout_ms c) (buf c) (readbuf c) (keepAliveInterval c) (ping_outstanding c) (isconnected c) (cleansession c) (messageHandlers c) (defaultMessageHandler c) (last_sent c) (last_received c) v.

(** ** The monad *)

Record st := mk_st { client : MQTTClient; world : W; log : list event }.

Inductive outcome (A : Type) := Ret (a : A) (s : st) | Undef | Blocked | NoFuel.
Arguments Ret {A}. Arguments Undef {A}. Arguments Blocked {A}. Arguments NoFuel {A}.

Definition M (A : Type) : Type := st -> outcome A.

Definition ret {A} (a : A) : M A := fun s => Ret a s.
Definition bind {A B} (m : M A) (f : A -> M B) : M B := fun s =>
  match m s with
  | Ret a s => f a s
  | Undef => Undef
  | Blocked => Blocked
  | NoFuel => NoFuel
  end.
Notation "'let*' x := m 'in' k" := (bind m (fun x => k))
  (at level 10, x pattern, k at level 200) : uiso_scope.
Notation "'do*' m 'in' k" := (bind m (fun _ : unit => k)) (at level 10, k at level 200) : uiso_scope.

Definition get : M MQTTClient := fun s => Ret (client s) s.
Definition modify (f : MQTTClient -> MQTTClient) : M unit :=
  fun s => Ret () (mk_st (f (client s)) (world s) (log s)).
Definition undef {A} : M A := fun _ => Undef.
Definition no_fuel {A} : M A := fun _ => NoFuel.
Definition emit (e : event) : M unit := fun s => Ret () (mk_st (client s) (world s) (log s ++ [e])).

(** A call of the port layer, or of a kernel service, that changes the world. *)
Definition lift {A} (f : W -> A * W) : M A :=
  fun s => let '(a, w) := f (world s) in Ret a (mk_st (client s) w (log s)).

Definition of_option {A} (o : option A) : M A :=
  match o with Some a => ret a | None => undef end.

Definition TimerCountdown (timeout_s : Z) (t : Timer W) : W -> Timer W * W :=
  TimerCountdownMS (u32 (timeout_s * 1000)) t.

Definition MutexLock : M unit :=
  let* c := get in if mutex_held c then (fun _ => Blocked) else modify (set_mutex true).
Definition MutexUnlock : M unit := modify (set_mutex false).

(** Code between [MutexLock] and [MutexUnlock]. *)
Definition locked {A} (m : M A) : M A :=
  do* MutexLock in let* a := m in do* MutexUnlock in ret a.

(** ** Sending and receiving packets *)

Definition getNextPacketId : M Z :=
  let* c := get in
  let id := if next_packetid c =? MAX_PACKET_ID then 1 else next_packetid c + 1 in
  do* modify (set_next_packetid id) in ret id.

(** The bytes [mqttwrite] is shown: [length] of them from index [sent]; a
    range that leaves the buffer is undefined. *)
Definition buf_slice (sent len : Z) : M bytes :=
  let* c := get in
  if sent + len <=? buf_size c then ret (take (Z.to_nat len) (drop (Z.to_nat sent) (buf c))) else undef.

Fixpoint send_loop (fuel : nat) (len sent : Z) (timer : Timer W) : M (Z * Timer W) :=
  if negb (sent <? len) then ret (sent, timer)
  else match fuel with
  | O => no_fuel
  | S fuel =>
    let* (expired, timer) := lift (TimerIsExpired timer) in
    if expired then ret (sent, timer)
    else
      let* (left_ms, timer) := lift (TimerLeftMS timer) in
      let* data := buf_slice sent len in
      let* rc := lift (mqttwrite data left_ms) in
      do* emit (Wrote data rc) in
      if rc <? 0 then ret (sent, timer) else send_loop fuel len (sent + rc) timer
  end.

Definition sendPacket (fuel : nat) (len : Z) (timer : Timer W) : M (Z * Timer W) :=
  let* (sent, timer) := send_loop fuel len 0 timer in
  if sent =? len then
    let* c := get in
    let* t := lift (TimerCountdown (keepAliveInterval c) (last_sent c)) in
    do* modify (set_last_sent t) in ret (SUCCESS, timer)
  else ret (FAILURE, timer).

(** [decodePacket]'s loop; it ends after four bytes at most. *)
Fixpoint decodePacket_loop (fuel : nat) (len multiplier value timeout : Z) : M Z :=
  match fuel with
  | O => no_fuel
  | S fuel =>
    let len := len + 1 in
    if 4 <? len then ret value
    else
      let* (rc, i) := lift (mqttread 1 timeout) in
      if negb (rc =? 1) then ret value
      else
        let* i := of_option (i !! 0%nat) in
        let value := value + (i .& 127) * multiplier in
        if negb (i .& 128 =? 0) then decodePacket_loop fuel len (multiplier * 128) value timeout
        else ret value
  end.

(** The length decoded; its caller does not use the count of bytes. *)
Definition decodePacket (timeout : Z) : M Z := decodePacket_loop 5 0 1 0 timeout.

(** Bytes stored in the receive buffer by the network. *)
Definition store (at_ : nat) (b : bytes) : M unit :=
  let* c := get in
  if decide (at_ + length b <= length (readbuf c))%nat
  then modify (set_readbuf (take at_ (readbuf c) ++ b ++ drop (at_ + length b) (readbuf c)))
  else undef.

Definition readPacket (timer : Timer W) : M (Z * Timer W) :=
  let* (left_ms, timer) := lift (TimerLeftMS timer) in
  let* (rc, b) := lift (mqttread 1 left_ms) in
  do* store 0 b in
  if negb (rc =? 1) then ret (rc, timer)
  else
    let* (left_ms, timer) := lift (TimerLeftMS timer) in
    let* rem_len := decodePacket left_ms in
    let* c := get in
    let* w := of_option (MQTTPacket_encode rem_len (mk_wbuf (readbuf c) 1)) in
    do* modify (set_readbuf (w_mem w)) in
    let len := w_ptr w in
    if u32 (readbuf_size c - Z.of_nat len) <? u32 rem_len then ret (BUFFER_OVERFLOW, timer)
    else
      let* (ok, timer) :=
        (if 0 <? rem_len then
           let* (left_ms, timer) := lift (TimerLeftMS timer) in
           let* (rc, b) := lift (mqttread rem_len left_ms) in
           do* store len b in ret (rc =? rem_len, timer)
         else ret (true, timer)) in
      if negb ok then ret (0, timer)
      else
        let* c := get in
        let* byte := of_option (readbuf c !! 0%nat) in
        do* (if 0 <? keepAliveInterval c then
               let* t := lift (TimerCountdown (keepAliveInterval c) (last_received c)) in
               modify (set_last_received t)
             else ret ()) in
        ret (bits_type byte, timer).

(** ** Topics and delivery *)

Definition slash : Z := 47.
Definition plus : Z := 43.
Definition hash : Z := 35.

(** The inner loop of a [+]: the rest of the name from the next separator. *)
Fixpoint skip_level (name : bytes) : bytes :=
  match name with
  | [] => []
  | n :: ns => if n =? slash then n :: ns else skip_level ns
  end.

(** The loop of [isTopicMatched] on what is left of filter and name. *)
Fixpoint topic_loop (curf curn : bytes) : bool :=
  match curf, curn with
  | f :: fs, n :: ns =>
    if (n =? slash) && negb (f =? slash) then false
    else if negb (f =? plus) && negb (f =? hash) && negb (f =? n) then false
    else if f =? plus then topic_loop fs (skip_level ns)
    else if f =? hash then topic_loop fs []
    else topic_loop fs ns
  | [], [] => true
  | _, _ => false
  end.

(** A name with an unset data pointer cannot be read. *)
Definition isTopicMatched (topicFilter : bytes) (topicName : MQTTString) : option bool :=
  match lenstring_data topicName with
  | Some data => Some (if lenstring_len topicName <? 0 then false
                       else topic_loop topicFilter (take (Z.to_nat (lenstring_len topicName)) data))
  | None => if (0 <? lenstring_len topicName) && negb (bool_decide (topicFilter = [])) then None
            else Some ((lenstring_len topicName =? 0) && bool_decide (topicFilter = []))
  end.

(** [equals(...) || isTopicMatched(...)], for a slot that is in use. *)
Definition filter_matches (topicFilter : bytes) (topicName : MQTTString) : option bool :=
  b ← MQTTPacket_equals topicName topicFilter;
  if (b : bool) then Some true else isTopicMatched topicFilter topicName.

Fixpoint deliver_loop (slots : list (option bytes * option handler)) (topicName : MQTTString)
    (message : MQTTMessage) (rc : Z) : M Z :=
  match slots with
  | [] => ret rc
  | (Some f, fp) :: slots =>
    let* b := of_option (filter_matches f topicName) in
    match b, fp with
    | true, Some h => do* emit (Delivered h topicName message) in deliver_loop slots topicName message SUCCESS
    | _, _ => deliver_loop slots topicName message rc
    end
  | (None, _) :: slots => deliver_loop slots topicName message rc
  end.

Definition deliverMessage (topicName : MQTTString) (message : MQTTMessage) : M Z :=
  let* c := get in
  let* rc := deliver_loop (messageHandlers c) topicName message FAILURE in
  match rc =? FAILURE, defaultMessageHandler c with
  | true, Some h => do* emit (Delivered h topicName message) in ret SUCCESS
  | _, _ => ret rc
  end.

(** ** Sessions and the receive cycle *)

Definition MQTTCleanSession : M unit :=
  modify (fun c => set_handlers ((fun h => (None, snd h)) <$> messageHandlers c) c).

Definition MQTTCloseSession : M unit :=
  do* modify (set_ping false) in
  do* modify (set_connected false) in
  let* c := get in
  if cleansession c then MQTTCleanSession else ret ().

(** A serialiser fills the send buffer. *)
Definition fill (f : bytes -> Z -> option (Z * bytes)) : M Z :=
  let* c := get in
  let* (len, b) := of_option (f (buf c) (buf_size c)) in
  do* modify (set_buf b) in ret len.

Definition keepalive (fuel : nat) : M Z :=
  let* c := get in
  if keepAliveInterval c =? 0 then ret SUCCESS
  else
    let* (e1, t) := lift (TimerIsExpired (last_sent c)) in
    do* modify (set_last_sent t) in
    let* expired :=
      (if e1 then ret true
       else let* (e2, t) := lift (TimerIsExpired (last_received c)) in
            do* modify (set_last_received t) in ret e2) in
    if negb expired then ret SUCCESS
    else if ping_outstanding c then ret FAILURE
    else
      let* timer := lift (TimerCountdownMS 1000 TimerInit) in
      let* len := fill MQTTSerialize_pingreq in
      if 0 <? len then
        let* (rc, _) := sendPacket fuel len timer in
        do* (if rc =? SUCCESS then modify (set_ping true) else ret ()) in ret rc
      else ret SUCCESS.

(** The stack variables of [cycle] that a failing deserialiser leaves unset
    have the arbitrary contents [junk]. *)
Context (junk : publish_out).

Definition payload_bytes (o : publish_out) (b : bytes) : option bytes :=
  idx ← po_payload o; Some (take (Z.to_nat (u32 (po_payloadlen o))) (drop idx b)).

(** The result says whether the code jumps to [exit], and [rc] there. *)
Definition handle_publish (fuel : nat) (timer : Timer W) : M (bool * Z * Timer W) :=
  let* c := get in
  let* (ok, o) := of_option (MQTTDeserialize_publish
    (mk_publish_out (po_dup junk) (po_qos junk) (po_retained junk) (po_packetid junk)
       (po_topicName junk) (po_payload junk) 0) (readbuf c)) in
  if negb (ok =? 1) then ret (true, SUCCESS, timer)
  else
    let msg := mk_MQTTMessage (po_qos o) (po_retained o) (po_dup o) (po_packetid o)
                 (payload_bytes o (readbuf c)) (u32 (po_payloadlen o)) in
    let* _ := deliverMessage (po_topicName o) msg in
    if po_qos o =? QOS0 then ret (false, SUCCESS, timer)
    else
      let* len :=
        (if po_qos o =? QOS1 then fill (fun b n => MQTTSerialize_ack b n PUBACK 0 (po_packetid o))
         else if po_qos o =? QOS2 then fill (fun b n => MQTTSerialize_ack b n PUBREC 0 (po_packetid o))
         else ret 0) in
      let* (rc, timer) := (if len <=? 0 then ret (FAILURE, timer) else sendPacket fuel len timer) in
      ret (rc =? FAILURE, rc, timer).

Definition handle_pubrec_pubrel (fuel : nat) (packet_type : Z) (timer : Timer W) : M (Z * Timer W) :=
  let* c := get in
  let* (ok, type, dup, mypacketid) := of_option (MQTTDeserialize_ack (po_packetid junk) (readbuf c)) in
  if negb (ok =? 1) then ret (FAILURE, timer)
  else
    let* len := fill (fun b n => MQTTSerialize_ack b n (if packet_type =? PUBREC then PUBREL else PUBCOMP) 0 mypacketid) in
    if len <=? 0 then ret (FAILURE, timer) else sendPacket fuel len timer.

(** The code below label [exit] of [cycle]: [rc] is its value there. *)
Definition cycle_exit (rc packet_type : Z) (timer : Timer W) : M (Z * Timer W) :=
  if rc =? SUCCESS then ret (packet_type, timer)
  else let* c := get in
       do* (if isconnected c then MQTTCloseSession else ret ()) in ret (rc, timer).

Definition cycle_keepalive (fuel : nat) (rc packet_type : Z) (timer : Timer W) : M (Z * Timer W) :=
  let* k := keepalive fuel in
  cycle_exit (if negb (k =? SUCCESS) then FAILURE else rc) packet_type timer.

Definition cycle (fuel : nat) (timer : Timer W) : M (Z * Timer W) :=
  let* (packet_type, timer) := readPacket timer in
  if packet_type =? 0 then cycle_keepalive fuel SUCCESS packet_type timer
  else if (packet_type =? CONNACK) || (packet_type =? PUBACK) || (packet_type =? SUBACK)
  then cycle_keepalive fuel SUCCESS packet_type timer
  else if packet_type =? PUBLISH then
    let* (goto_exit, rc, timer) := handle_publish fuel timer in
    if goto_exit then cycle_exit rc packet_type timer
    else cycle_keepalive fuel rc packet_type timer
  else if (packet_type =? PUBREC) || (packet_type =? PUBREL) then
    let* (rc, timer) := handle_pubrec_pubrel fuel packet_type timer in
    if rc =? FAILURE then cycle_exit rc packet_type timer
    else cycle_keepalive fuel rc packet_type timer
  else if packet_type =? PUBCOMP then cycle_keepalive fuel SUCCESS packet_type timer
  else if packet_type =? PINGRESP then
    do* modify (set_ping false) in cycle_keepalive fuel SUCCESS packet_type timer
  else cycle_exit packet_type packet_type timer.

Fixpoint yield_loop (iterations fuel : nat) (timer : Timer W) : M Z :=
  match iterations with
  | O => no_fuel
  | S iterations =>
    let* (rc, timer) := cycle fuel timer in
    if rc <? 0 then ret FAILURE
    else
      let* (expired, timer) := lift (TimerIsExpired timer) in
      if expired then ret SUCCESS else yield_loop iterations fuel timer
  end.

Definition MQTTYield (fuel : nat) (timeout_ms : Z) : M Z :=
  let* timer := lift (TimerCountdownMS (u32 timeout_ms) TimerInit) in
  yield_loop fuel fuel timer.

(** One turn of the loop of [MQTTRun]. *)
Definition MQTTRun_turn (fuel : nat) (timer : Timer W) : M (Timer W) :=
  locked (
    let* timer := lift (TimerCountdownMS 500 timer) in
    let* (_, timer) := cycle fuel timer in ret timer).

(** The do-while loop of [waitfor]; [rc] is the value of the last cycle. *)
Fixpoint wait_loop (iterations fuel : nat) (packet_type rc : Z) (timer : Timer W) : M (Z * Timer W) :=
  match iterations with
  | O => no_fuel
  | S iterations =>
    let* (expired, timer) := lift (TimerIsExpired timer) in
    if expired then ret (rc, timer)
    else
      let* (rc, timer) := cycle fuel timer in
      if negb (rc =? packet_type) && (0 <=? rc) then wait_loop iterations fuel packet_type rc timer
      else ret (rc, timer)
  end.

Definition waitfor (fuel : nat) (packet_type : Z) (timer : Timer W) : M (Z * Timer W) :=
  wait_loop fuel fuel packet_type FAILURE timer.

(** ** The API *)

(** The keep-alive interval and the handler pointers are not initialised:
    [keepAlive0] and [fps] are what the memory held. *)
Definition MQTTClientInit (command_timeout_ms : Z) (sendbuf readbuf : bytes)
    (keepAlive0 : Z) (fps : list (option handler)) : MQTTClient :=
  mk_MQTTClient 1 command_timeout_ms sendbuf readbuf keepAlive0 false false false
    ((fun fp => (None, fp)) <$> fps) None TimerInit TimerInit false.

(** Result: return code, connect code and session-present flag. *)
Definition MQTTConnectWithResults (fuel : nat) (options : option MQTTPacket_connectData)
    (data : Z * Z) : M (Z * (Z * Z)) :=
  locked (
    let* c := get in
    let* (rc, data) :=
      (if isconnected c then ret (FAILURE, data)
       else
         let* timer := lift (TimerCountdownMS (command_timeout_ms c) TimerInit) in
         let options := default MQTTPacket_connectData_initializer options in
         do* modify (set_session (opt_keepAliveInterval options) (negb (opt_cleansession options =? 0))) in
         let* t := lift (TimerCountdown (opt_keepAliveInterval options) (last_received c)) in
         do* modify (set_last_received t) in
         let* len := fill (fun b n => MQTTSerialize_connect b n options) in
         if len <=? 0 then ret (FAILURE, data)
         else
           let* (rc, timer) := sendPacket fuel len timer in
           if negb (rc =? SUCCESS) then ret (rc, data)
           else
             let* (r, _) := waitfor fuel CONNACK timer in
             if r =? CONNACK then
               let* c := get in
               let* (ok, sp, crc) := of_option (MQTTDeserialize_connack 0 0 (readbuf c)) in
               ret (if ok =? 1 then crc else FAILURE, (crc, sp))
             else ret (FAILURE, data)) in
    do* (if rc =? SUCCESS then modify (fun c => set_ping false (set_connected true c)) else ret ()) in
    ret (rc, data)).

(** The first slot that holds the filter, and the first empty one. *)
Fixpoint find_slot (p : option bytes * option handler -> bool) (i : nat)
    (slots : list (option bytes * option handler)) : option nat :=
  match slots with
  | [] => None
  | s :: slots => if p s then Some i else find_slot p (S i) slots
  end.

Definition has_filter (topicFilter : bytes) (s : option bytes * option handler) : bool :=
  match fst s with Some f => bool_decide (f = topicFilter) | None => false end.
Definition is_empty (s : option bytes * option handler) : bool :=
  match fst s with Some _ => false | None => true end.

Definition MQTTSetMessageHandler (topicFilter : bytes) (messageHandler : option handler) : M Z :=
  let* c := get in
  let slots := messageHandlers c in
  match find_slot (has_filter topicFilter) 0 slots, messageHandler with
  | Some i, None => do* modify (set_handlers (<[i := (None, None)]> slots)) in ret SUCCESS
  | Some i, Some h => do* modify (set_handlers (<[i := (Some topicFilter, Some h)]> slots)) in ret SUCCESS
  | None, None => ret FAILURE
  | None, Some h =>
    match find_slot is_empty 0 slots with
    | Some i => do* modify (set_handlers (<[i := (Some topicFilter, Some h)]> slots)) in ret SUCCESS
    | None => ret FAILURE
    end
  end.

(** The common frame of the commands: lock, run when connected, close the
    session on failure, unlock. *)
Definition command {A} (not_connected : A) (body : MQTTClient -> M (Z * A)) : M (Z * A) :=
  locked (
    let* c := get in
    let* (rc, a) := (if negb (isconnected c) then ret (FAILURE, not_connected) else body c) in
    do* (if rc =? FAILURE then MQTTCloseSession else ret ()) in ret (rc, a)).

Definition MQTTSubscribeWithResults (fuel : nat) (topicFilter : bytes) (qos : Z)
    (messageHandler : option handler) (grantedQoS : Z) : M (Z * Z) :=
  command grantedQoS (fun c =>
    let* timer := lift (TimerCountdownMS (command_timeout_ms c) TimerInit) in
    let* id := getNextPacketId in
    let* len := fill (fun b n => MQTTSerialize_subscribe b n 0 id [(cstr topicFilter, qos)]) in
    if len <=? 0 then ret (FAILURE, grantedQoS)
    else
      let* (rc, timer) := sendPacket fuel len timer in
      if negb (rc =? SUCCESS) then ret (rc, grantedQoS)
      else
        let* (r, _) := waitfor fuel SUBACK timer in
        if r =? SUBACK then
          let* c := get in
          let* (ok, _, _, granted) :=
            of_option (MQTTDeserialize_suback (po_packetid junk) 1 0 [QOS0] (readbuf c)) in
          let g := default QOS0 (granted !! 0%nat) in
          if (ok =? 1) && negb (g =? SUBFAIL) then
            let* rc := MQTTSetMessageHandler topicFilter messageHandler in ret (rc, g)
          else ret (rc, g)
        else ret (FAILURE, grantedQoS)).

Definition MQTTUnsubscribe (fuel : nat) (topicFilter : bytes) : M (Z * unit) :=
  command () (fun c =>
    let* timer := lift (TimerCountdownMS (command_timeout_ms c) TimerInit) in
    let* id := getNextPacketId in
    let* len := fill (fun b n => MQTTSerialize_unsubscribe b n 0 id [cstr topicFilter]) in
    if len <=? 0 then ret (FAILURE, ())
    else
      let* (rc, timer) := sendPacket fuel len timer in
      if negb (rc =? SUCCESS) then ret (rc, ())
      else
        let* (r, _) := waitfor fuel UNSUBACK timer in
        if r =? UNSUBACK then
          let* c := get in
          let* (ok, _) := of_option (MQTTDeserialize_unsuback (po_packetid junk) (readbuf c)) in
          let* _ := (if ok =? 1 then MQTTSetMessageHandler topicFilter None else ret SUCCESS) in
          ret (rc, ())
        else ret (FAILURE, ())).

(** Wait for the acknowledgement that completes a publish. *)
Definition publish_wait (fuel : nat) (ack rc : Z) (timer : Timer W) : M Z :=
  let* (r, _) := waitfor fuel ack timer in
  if r =? ack then
    let* c := get in
    let* (ok, _, _, _) := of_option (MQTTDeserialize_ack (po_packetid junk) (readbuf c)) in
    ret (if negb (ok =? 1) then FAILURE else rc)
  else ret FAILURE.

(** Result: return code and the message's packet identifier. *)
Definition MQTTPublish (fuel : nat) (topicName : bytes) (message : MQTTMessage) : M (Z * Z) :=
  command (msg_id message) (fun c =>
    let* timer := lift (TimerCountdownMS (command_timeout_ms c) TimerInit) in
    let* id := (if (msg_qos message =? QOS1) || (msg_qos message =? QOS2)
                then let* id := getNextPacketId in ret (u16 id) else ret (msg_id message)) in
    let* len := fill (fun b n => MQTTSerialize_publish b n 0 (msg_qos message) (msg_retained message) id
                                   (cstr topicName) (msg_payload message) (msg_payloadlen message)) in
    if len <=? 0 then ret (FAILURE, id)
    else
      let* (rc, timer) := sendPacket fuel len timer in
      if negb (rc =? SUCCESS) then ret (rc, id)
      else if msg_qos message =? QOS1 then
        let* rc := publish_wait fuel PUBACK rc timer in ret (rc, id)
      else if msg_qos message =? QOS2 then
        let* rc := publish_wait fuel PUBCOMP rc timer in ret (rc, id)
      else ret (rc, id)).

Definition MQTTDisconnect (fuel : nat) : M Z :=
  locked (
    let* c := get in
    let* timer := lift (TimerCountdownMS (command_timeout_ms c) TimerInit) in
    let* len := fill MQTTSerialize_disconnect in
    let* rc := (if 0 <? len then let* (rc, _) := sendPacket fuel len timer in ret rc else ret FAILURE) in
    do* MQTTCloseSession in ret rc).

End Client.

Arguments Ret {W P A}.
Arguments Undef {W P A}.
Arguments Blocked {W P A}.
Arguments NoFuel {W P A}.

(** ** What the serialisers keep of a buffer *)

Definition keeps_length (w : writer) : Prop :=
  forall s s', w s = Some s' -> length (w_mem s') = length (w_mem s).

Create HintDb keeps.

Lemma keeps_writeChar c : keeps_length (writeChar c).
Proof. intros s s'. unfold writeChar. case_decide; [| done]. intros [= <-]. apply length_insert. Qed.
Lemma keeps_skip : keeps_length skip.
Proof. by intros s s' [= <-]. Qed.
Lemma keeps_none : keeps_length (fun _ => None).
Proof. done. Qed.
Lemma keeps_then w1 w2 : keeps_length w1 -> keeps_length w2 -> keeps_length (w1 >> w2).
Proof.
  intros H1 H2 s s'. unfold then_. destruct (w1 s) as [s1|] eqn:E; [| done]. simpl. intros E2.
  rewrite (H2 _ _ E2). apply (H1 _ _ E).
Qed.
Lemma keeps_if (b : bool) w1 w2 : keeps_length w1 -> keeps_length w2 -> keeps_length (if b then w1 else w2).
Proof. by destruct b. Qed.
#[local] Hint Resolve keeps_writeChar keeps_skip keeps_none keeps_then keeps_if : keeps.

Lemma keeps_writeInt n : keeps_length (writeInt n).
Proof. apply keeps_then; apply keeps_writeChar. Qed.
Lemma keeps_copy l : keeps_length (copy_bytes l).
Proof. induction l; simpl; auto with keeps. Qed.
Lemma keeps_memcpy src len : keeps_length (memcpy src len).
Proof. unfold memcpy. repeat case_match; auto using keeps_copy with keeps. Qed.
#[local] Hint Resolve keeps_writeInt keeps_copy keeps_memcpy : keeps.
Lemma keeps_writeCString s : keeps_length (writeCString s).
Proof. unfold writeCString. auto with keeps. Qed.
#[local] Hint Resolve keeps_writeCString : keeps.
Lemma keeps_writeMQTTString m : keeps_length (writeMQTTString m).
Proof. unfold writeMQTTString. repeat case_match; auto with keeps. Qed.
Lemma keeps_encode_loop fuel n : keeps_length (encode_loop fuel n).
Proof. revert n. induction fuel; intros n; simpl; auto with keeps. Qed.
Lemma keeps_encode n : keeps_length (MQTTPacket_encode n).
Proof. apply keeps_encode_loop. Qed.
#[local] Hint Resolve keeps_writeMQTTString keeps_encode : keeps.
Lemma keeps_topics_qos l : keeps_length (write_topics_qos l).
Proof. induction l as [|[]]; simpl; auto with keeps. Qed.
Lemma keeps_topics l : keeps_length (write_topics l).
Proof. induction l; simpl; auto with keeps. Qed.
#[local] Hint Resolve keeps_topics_qos keeps_topics : keeps.

(** A serialiser keeps the length of the buffer. *)
Definition serializer (f : bytes -> Z -> option (Z * bytes)) : Prop :=
  forall b n r b', f b n = Some (r, b') -> length b' = length b.

Lemma serializer_serialize w (test : bytes -> Z -> bool) :
  keeps_length w ->
  serializer (fun b n => if test b n then Some (MQTTPACKET_BUFFER_TOO_SHORT, b) else serialize w b).
Proof.
  intros Hw b n r b'. destruct (test b n); [by intros [= _ <-] |].
  unfold serialize. destruct (w _) as [s|] eqn:E; [| done]. simpl. intros [= _ <-].
  apply (Hw _ _ E).
Qed.

Ltac serializer_tac := apply (serializer_serialize _ (fun _ n => n <? _)); auto 12 with keeps.

Lemma serializer_zero type : serializer (fun b n => MQTTSerialize_zero b n type).
Proof. serializer_tac. Qed.
Lemma serializer_ack type dup id : serializer (fun b n => MQTTSerialize_ack b n type dup id).
Proof. serializer_tac. Qed.
Lemma serializer_publish dup qos ret id topic p n :
  serializer (fun b l => MQTTSerialize_publish b l dup qos ret id topic p n).
Proof. serializer_tac. Qed.
Lemma serializer_connect o : serializer (fun b n => MQTTSerialize_connect b n o).
Proof. serializer_tac. Qed.
Lemma serializer_subscribe dup id l : serializer (fun b n => MQTTSerialize_subscribe b n dup id l).
Proof. serializer_tac. Qed.
Lemma serializer_unsubscribe dup id l : serializer (fun b n => MQTTSerialize_unsubscribe b n dup id l).
Proof. serializer_tac. Qed.

(** ** Relations every run keeps

    [preserves R m]: whenever [m] returns, its end state is related to its
    start state.  For a preorder [R] it is compositional, so that a fact about
    a whole operation follows from the facts about the state updates in it. *)

Section Frames.
Context {W : Type} {P : MqttPort W}.
Implicit Types s : st (W := W).
Context (R : st -> st -> Prop) `{!PreOrder R}.

Definition preserves {A} (m : M A) : Prop := forall s a s', m s = Ret a s' -> R s s'.

Lemma preserves_ret {A} (a : A) : preserves (ret a).
Proof. by intros s ? s' [= <- <-]. Qed.
Lemma preserves_get : preserves get.
Proof. by intros s ? s' [= <- <-]. Qed.
Lemma preserves_undef {A} : preserves (undef (A := A)).
Proof. done. Qed.
Lemma preserves_no_fuel {A} : preserves (no_fuel (A := A)).
Proof. done. Qed.
Lemma preserves_of_option {A} (o : option A) : preserves (of_option o).
Proof. destruct o; [apply preserves_ret | apply preserves_undef]. Qed.

Lemma bind_Ret {A B} (m : M A) (f : A -> M B) s b s' :
  bind m f s = Ret b s' -> exists a s1, m s = Ret a s1 /\ f a s1 = Ret b s'.
Proof. unfold bind. destruct (m s) as [a s1| | |]; try done. eauto. Qed.

Lemma preserves_bind {A B} (m : M A) (f : A -> M B) :
  preserves m -> (forall a, preserves (f a)) -> preserves (bind m f).
Proof.
  intros Hm Hf s b s' (a & s1 & E1 & E2)%bind_Ret.
  etrans; [apply (Hm _ _ _ E1) | apply (Hf _ _ _ _ E2)].
Qed.

(** A bind that first reads the client: its continuation may use what it
    read. *)
Lemma preserves_get_bind {B} (f : MQTTClient -> M B) :
  (forall s b s', f (client s) s = Ret b s' -> R s s') -> preserves (bind get f).
Proof. intros Hf s b s' E. apply (Hf s b s'), E. Qed.

Lemma preserves_lift {A} (f : W -> A * W) :
  (forall c w w' l, R (mk_st c w l) (mk_st c w' l)) -> preserves (lift f).
Proof.
  intros H [c w l] a s'. unfold lift. simpl. destruct (f w) as [a' w']. intros [= <- <-]. apply H.
Qed.
Lemma preserves_emit e :
  (forall c w l, R (mk_st c w l) (mk_st c w (l ++ [e]))) -> preserves (emit e).
Proof. intros H [c w l] a s' [= <- <-]. apply H. Qed.
Lemma preserves_modify f :
  (forall c w l, R (mk_st c w l) (mk_st (f c) w l)) -> preserves (modify f).
Proof. intros H [c w l] a s' [= <- <-]. apply H. Qed.
End Frames.

Create HintDb frame.
#[export] Hint Resolve preserves_ret preserves_get preserves_undef preserves_no_fuel preserves_of_option : frame.

(** Walk through a monadic body, splitting its conditionals; the state updates
    are left to the hints of the frame at hand. *)
Ltac frame_step :=
  match goal with
  | |- preserves _ (bind _ _) => apply preserves_bind; [apply _ | | intros]
  | |- preserves _ (let _ := _ in _) => cbv zeta
  | |- preserves _ (match ?x with _ => _ end) => destruct x
  | |- preserves _ _ => solve [eauto with frame typeclass_instances]
  end.
Ltac frame := repeat frame_step.

(** ** The client invariant *)

(** The filters in use, in slot order. *)
Definition filters (slots : list (option bytes * option handler)) : list bytes := omap fst slots.

Record client_inv {W} {P : MqttPort W} (c : MQTTClient (W := W)) : Prop := {
  inv_packetid : 1 <= next_packetid c <= MAX_PACKET_ID;
  inv_slots : length (messageHandlers c) = MAX_MESSAGE_HANDLERS;
  inv_filters : NoDup (filters (messageHandlers c));
}.

(** What the parts of an operation keep: the invariant, the mutex, the sizes
    of the buffers, and the log grows. *)
Record client_frame {W} {P : MqttPort W} (s s' : st (W := W)) : Prop := {
  fr_inv : client_inv (client s) -> client_inv (client s');
  fr_mutex : mutex_held (client s') = mutex_held (client s);
  fr_buf : length (buf (client s')) = length (buf (client s));
  fr_readbuf : length (readbuf (client s')) = length (readbuf (client s));
  fr_log : log s `prefix_of` log s';
}.

#[export] Instance client_frame_preorder {W} {P : MqttPort W} : PreOrder (client_frame (W := W)).
Proof.
  split.
  - by intros s; split.
  - intros s1 s2 s3 [] []. split; [tauto | congruence.. | by etrans].
Qed.

Lemma filters_cleared slots :
  filters ((fun h : option bytes * option handler => (None, snd h)) <$> slots) = [].
Proof. induction slots as [|[]]; [done |]. simpl. done. Qed.

Section ClientFrame.
Context {W : Type} {P : MqttPort W}.
Abbreviation keeps m := (preserves (client_frame (W := W)) m).

Lemma keeps_lift {A} (f : W -> A * W) : keeps (lift f).
Proof. apply preserves_lift. by split. Qed.
Lemma keeps_emit e : keeps (emit e).
Proof. apply preserves_emit. intros. split; try done. simpl. by apply prefix_app_r. Qed.

Ltac frame_modify := apply preserves_modify; intros; split; simpl; try done; try (by intros []; split).

Lemma keeps_set_last_sent t : keeps (modify (set_last_sent t)).
Proof. frame_modify. Qed.
Lemma keeps_set_last_received t : keeps (modify (set_last_received t)).
Proof. frame_modify. Qed.
Lemma keeps_set_ping b : keeps (modify (set_ping b)).
Proof. frame_modify. Qed.
Lemma keeps_set_connected b : keeps (modify (set_connected b)).
Proof. frame_modify. Qed.
Lemma keeps_set_session k b : keeps (modify (set_session k b)).
Proof. frame_modify. Qed.
Lemma keeps_clean : keeps MQTTCleanSession.
Proof.
  frame_modify. intros []. split; simpl; [done | by rewrite length_fmap |].
  rewrite filters_cleared. constructor.
Qed.
Hint Resolve keeps_lift keeps_emit keeps_set_last_sent keeps_set_last_received keeps_set_ping
  keeps_set_connected keeps_set_session keeps_clean : frame.

Lemma keeps_getNextPacketId : keeps getNextPacketId.
Proof.
  apply preserves_get_bind. intros [c w l] b s' [= <- <-]. simpl. split; try done. simpl.
  intros []. split; simpl; try done. unfold MAX_PACKET_ID in *. case_match; lia.
Qed.

Lemma keeps_buf_slice sent len : keeps (buf_slice sent len).
Proof. unfold buf_slice. frame. Qed.
Hint Resolve keeps_getNextPacketId keeps_buf_slice : frame.

Lemma keeps_send_loop fuel len sent t : keeps (send_loop fuel len sent t).
Proof. revert sent t. induction fuel; intros; simpl; frame. Qed.
Hint Resolve keeps_send_loop : frame.
Lemma keeps_sendPacket fuel len t : keeps (sendPacket fuel len t).
Proof. unfold sendPacket. frame. Qed.

Lemma keeps_decodePacket fuel len m v t : keeps (decodePacket_loop fuel len m v t).
Proof. revert len m v. induction fuel; intros; cbn [decodePacket_loop]; frame. Qed.

Lemma keeps_store i b : keeps (store i b).
Proof.
  apply preserves_get_bind. intros [c w l] x s'. cbn [client]. case_decide; [| done]. intros [= <- <-].
  split; simpl; try done; [by intros []; split |].
  rewrite !length_app, length_take, length_drop. lia.
Qed.

Lemma keeps_fill f : serializer f -> keeps (fill f).
Proof.
  intros Hf. apply preserves_get_bind. intros [c w l] x s'. cbn [client].
  destruct (f (buf c) (buf_size c)) as [[n b]|] eqn:E; [| done]. intros [= <- <-].
  split; simpl; try done; [by intros []; split |]. apply (Hf _ _ _ _ E).
Qed.
Hint Resolve keeps_sendPacket keeps_decodePacket keeps_store keeps_fill : frame.
Hint Resolve serializer_zero serializer_ack serializer_publish serializer_connect
  serializer_subscribe serializer_unsubscribe : frame.

(** Storing the re-encoded remaining length back into the receive buffer. *)
Lemma keeps_reencode {B} n (k : MQTTClient -> wbuf -> M B) :
  (forall c w, keeps (k c w)) ->
  keeps (bind get (fun c => bind (of_option (MQTTPacket_encode n (mk_wbuf (readbuf c) 1)))
                              (fun w => bind (modify (set_readbuf (w_mem w))) (fun _ => k c w)))).
Proof.
  intros Hk. apply preserves_get_bind. intros [c w l] x s'. cbn [client].
  destruct (MQTTPacket_encode n _) as [wb|] eqn:E; [| done]. intros E2.
  etrans; [| apply (Hk _ _ _ _ _ E2)].
  split; simpl; try done; [by intros []; split |].
  apply (keeps_encode n _ _ E).
Qed.

Lemma keeps_readPacket t : keeps (readPacket t).
Proof. unfold readPacket, decodePacket. repeat first [apply keeps_reencode; intros | frame_step]. Qed.

Lemma keeps_deliver_loop slots topic msg rc : keeps (deliver_loop slots topic msg rc).
Proof. revert rc. induction slots as [|[[]]]; intros; cbn [deliver_loop]; frame. Qed.
Hint Resolve keeps_readPacket keeps_deliver_loop : frame.

Lemma keeps_deliverMessage topic msg : keeps (deliverMessage topic msg).
Proof. unfold deliverMessage. frame. Qed.
Lemma keeps_closeSession : keeps MQTTCloseSession.
Proof. unfold MQTTCloseSession. frame. Qed.
Lemma keeps_keepalive fuel : keeps (keepalive fuel).
Proof. unfold keepalive, MQTTSerialize_pingreq. frame. Qed.
Hint Resolve keeps_deliverMessage keeps_closeSession keeps_keepalive : frame.

Lemma keeps_cycle_exit rc p t : keeps (cycle_exit rc p t).
Proof. unfold cycle_exit. frame. Qed.
Hint Resolve keeps_cycle_exit : frame.
Lemma keeps_cycle_keepalive fuel rc p t : keeps (cycle_keepalive fuel rc p t).
Proof. unfold cycle_keepalive. frame. Qed.
Hint Resolve keeps_cycle_keepalive : frame.

Context (junk : publish_out).

Lemma keeps_handle_publish fuel t : keeps (handle_publish junk fuel t).
Proof. unfold handle_publish. frame. Qed.
Lemma keeps_handle_pubrec fuel p t : keeps (handle_pubrec_pubrel junk fuel p t).
Proof. unfold handle_pubrec_pubrel. frame. Qed.
Hint Resolve keeps_handle_publish keeps_handle_pubrec : frame.

Lemma keeps_cycle fuel t : keeps (cycle junk fuel t).
Proof. unfold cycle. frame. Qed.
Hint Resolve keeps_cycle : frame.

Lemma keeps_yield n fuel t : keeps (yield_loop junk n fuel t).
Proof. revert t. induction n; intros; cbn [yield_loop]; frame. Qed.
Lemma keeps_wait n fuel p rc t : keeps (wait_loop junk n fuel p rc t).
Proof. revert rc t. induction n; intros; cbn [wait_loop]; frame. Qed.
Hint Resolve keeps_yield keeps_wait : frame.
Lemma keeps_waitfor fuel p t : keeps (waitfor junk fuel p t).
Proof. apply keeps_wait. Qed.
Hint Resolve keeps_waitfor : frame.

(** ** The handler table *)

Lemma find_slot_Some p i slots j :
  find_slot p i slots = Some j ->
  exists k x, j = (i + k)%nat /\ slots !! k = Some x /\ p x = true.
Proof.
  revert i. induction slots as [|x slots IH]; intros i; simpl; [done |].
  destruct (p x) eqn:E.
  - intros [= <-]. exists 0%nat, x. by rewrite Nat.add_0_r.
  - intros (k & y & -> & Hk & Hy)%IH. exists (S k), y. split; [lia | done].
Qed.

Lemma find_slot_None p i slots x : find_slot p i slots = None -> x ∈ slots -> p x = false.
Proof.
  revert i. induction slots as [|y slots IH]; intros i; simpl; [by intros _ ?%not_elem_of_nil |].
  destruct (p y) eqn:E; [done |]. intros H [-> | Hx]%elem_of_cons; [done | by eapply IH].
Qed.

Lemma elem_of_filters f slots : f ∈ filters slots <-> exists fp, (Some f, fp) ∈ slots.
Proof.
  unfold filters. rewrite list_elem_of_omap. split.
  - intros ([g fp] & Hin & [= ->]). eauto.
  - intros (fp & Hin). exists (Some f, fp). done.
Qed.

Lemma has_filter_true f s : has_filter f s = true <-> fst s = Some f.
Proof.
  unfold has_filter. destruct (fst s) as [g|]; [| by split].
  rewrite bool_decide_eq_true. split; [by intros -> | by intros [= ->]].
Qed.

Lemma filters_app a b : filters (a ++ b) = filters a ++ filters b.
Proof. apply omap_app. Qed.

Lemma filters_insert slots i x : (i < length slots)%nat ->
  filters (<[i := x]> slots) = filters (take i slots) ++ filters [x] ++ filters (drop (S i) slots).
Proof.
  intros Hi. rewrite insert_take_drop by done. by rewrite <- !filters_app.
Qed.

Lemma filters_split slots i x : slots !! i = Some x ->
  filters slots = filters (take i slots) ++ filters [x] ++ filters (drop (S i) slots).
Proof.
  intros Hi. rewrite <- (take_drop_middle slots i x Hi) at 1.
  by rewrite <- !filters_app.
Qed.

Lemma NoDup_filters_replace slots i x y :
  slots !! i = Some x -> NoDup (filters slots) ->
  (filters [y] = [] \/ filters [y] = filters [x]
   \/ exists f, filters [y] = [f] /\ f ∉ filters slots) ->
  NoDup (filters (<[i := y]> slots)).
Proof.
  intros Hi Hnd Hy. pose proof (lookup_lt_Some _ _ _ Hi).
  rewrite filters_insert by done. rewrite (filters_split _ _ _ Hi) in Hnd.
  destruct Hy as [-> | [-> | (f & -> & Hf)]]; [| done |].
  - apply list.NoDup_app in Hnd as (? & ? & (? & ? & ?)%list.NoDup_app). apply list.NoDup_app. simpl.
    set_solver.
  - rewrite (filters_split _ _ _ Hi) in Hf.
    apply list.NoDup_app in Hnd as (? & ? & (? & ? & ?)%list.NoDup_app). apply list.NoDup_app.
    split; [done |]. split; [set_solver |]. apply list.NoDup_cons. set_solver.
Qed.

End ClientFrame.

(** The table as a finite map from filter to handler. *)
Definition entries (slots : list (option bytes * option handler)) : list (bytes * option handler) :=
  omap (fun s => f ← fst s; Some (f, snd s)) slots.
Definition table (slots : list (option bytes * option handler)) : gmap bytes (option handler) :=
  list_to_map (entries slots).

(** What [MQTTSetMessageHandler] promises: replace or add while there is
    room, remove, and an error when the table is full or the filter unknown. *)
Definition set_handler_spec (f : bytes) (h : option handler) (m : gmap bytes (option handler)) :
    Z * gmap bytes (option handler) :=
  match h with
  | Some h => if bool_decide (is_Some (m !! f)) || bool_decide (size m < MAX_MESSAGE_HANDLERS)%nat
              then (SUCCESS, <[f := Some h]> m) else (FAILURE, m)
  | None => if bool_decide (is_Some (m !! f)) then (SUCCESS, delete f m) else (FAILURE, m)
  end.

Lemma entries_keys slots : fst <$> entries slots = filters slots.
Proof.
  unfold entries, filters. induction slots as [|[[f|] fp] slots IH]; [done | | done].
  simpl. by f_equal.
Qed.

Lemma table_lookup slots f fp :
  NoDup (filters slots) -> table slots !! f = Some fp <-> (Some f, fp) ∈ slots.
Proof.
  intros Hnd. unfold table. rewrite <- elem_of_list_to_map by (by rewrite entries_keys).
  unfold entries. rewrite list_elem_of_omap. split.
  - intros ([[g|] p] & Hin & [= -> ->]). done.
  - intros Hin. by exists (Some f, fp).
Qed.

Lemma table_is_Some slots f :
  NoDup (filters slots) -> is_Some (table slots !! f) <-> f ∈ filters slots.
Proof.
  intros Hnd. rewrite elem_of_filters. unfold is_Some.
  split; intros [fp H]; exists fp; by apply table_lookup.
Qed.

Lemma table_size slots : NoDup (filters slots) -> size (table slots) = length (filters slots).
Proof.
  intros Hnd. unfold table. rewrite <- entries_keys in *.
  rewrite map_size_list_to_map by done. by rewrite length_fmap.
Qed.

Lemma filters_Some f fp slots : filters ((Some f, fp) :: slots) = f :: filters slots.
Proof. done. Qed.
Lemma filters_None fp slots : filters ((None, fp) :: slots) = filters slots.
Proof. done. Qed.

Lemma filters_full slots : find_slot is_empty 0 slots = None -> length (filters slots) = length slots.
Proof.
  generalize 0%nat. induction slots as [|[[f|] fp] slots IH]; intros i; simpl; [done | | done].
  intros H. f_equal. by eapply IH.
Qed.

Lemma filters_length_le slots : (length (filters slots) <= length slots)%nat.
Proof.
  induction slots as [|[[f|] fp] slots IH]; [done | |]; rewrite ?filters_Some, ?filters_None; simpl; lia.
Qed.

Lemma filters_room slots i : find_slot is_empty 0 slots = Some i -> (length (filters slots) < length slots)%nat.
Proof.
  generalize 0%nat. induction slots as [|[[f|] fp] slots IH]; intros j; cbn [find_slot is_empty fst]; [done | |].
  - intros H%IH. rewrite filters_Some. simpl. lia.
  - intros _. pose proof (filters_length_le slots). rewrite filters_None. simpl. lia.
Qed.

Lemma is_empty_true s : is_empty s = true <-> fst s = None.
Proof. unfold is_empty. by destruct (fst s). Qed.

Lemma slot_unique slots i j f a b :
  NoDup (filters slots) -> slots !! i = Some (Some f, a) -> slots !! j = Some (Some f, b) -> i = j.
Proof.
  intros Hnd. revert i j. induction slots as [|x slots IH]; intros i j Hi Hj; [done |].
  change (filters (x :: slots)) with (filters ([x] ++ slots)) in Hnd. rewrite filters_app in Hnd.
  apply list.NoDup_app in Hnd as (_ & Hx & Hnd).
  assert (forall k c, slots !! k = Some (Some f, c) -> f ∈ filters slots) as Hin.
  { intros k c Hk. apply elem_of_filters. exists c. by eapply list_elem_of_lookup_2. }
  destruct i as [|i], j as [|j]; simpl in *; [done | | | f_equal; by eapply IH].
  - injection Hi as ->. exfalso. apply (Hx f); [set_solver | by eapply Hin].
  - injection Hj as ->. exfalso. apply (Hx f); [set_solver | by eapply Hin].
Qed.

(** Overwriting slot [i], which held [x]: what the map gains and loses. *)
Lemma table_insert slots i x f h :
  slots !! i = Some x -> NoDup (filters slots) -> (fst x = Some f \/ (fst x = None /\ f ∉ filters slots)) ->
  NoDup (filters (<[i := (Some f, h)]> slots)) /\
  table (<[i := (Some f, h)]> slots) = <[f := h]> (table slots).
Proof.
  intros Hi Hnd Hx. pose proof (lookup_lt_Some _ _ _ Hi) as Hlt.
  assert (NoDup (filters (<[i := (Some f, h)]> slots))) as Hnd'.
  { eapply NoDup_filters_replace; [done | done |].
    destruct x as [o fp], Hx as [Hx | [Hx Hf]]; simpl in Hx; subst o; [by right; left | by right; right; exists f]. }
  split; [done |]. apply map_eq. intros k. apply option_eq. intros v.
  rewrite (table_lookup _ _ _ Hnd'), lookup_insert_Some, (table_lookup _ _ _ Hnd).
  rewrite !list_elem_of_lookup. setoid_rewrite list_lookup_insert_Some. split.
  - intros (j & [(-> & [= <- <-] & _) | (Hne & Hj)]); [by left |].
    right. split; [| by exists j]. intros <-.
    destruct x as [o fp], Hx as [Hx | [Hx Hf]]; simpl in Hx; subst o.
    + apply Hne. by eapply (slot_unique slots).
    + apply Hf, elem_of_filters. exists v. by eapply list_elem_of_lookup_2.
  - intros [(-> & ->) | (Hne & j & Hj)]; [by exists i; left |].
    exists j. right. split; [| done]. intros ->. rewrite Hi in Hj. injection Hj as ->.
    destruct Hx as [Hx | [Hx _]]; simpl in Hx; congruence.
Qed.

Lemma table_delete slots i x f :
  slots !! i = Some x -> NoDup (filters slots) -> fst x = Some f ->
  NoDup (filters (<[i := (None, None)]> slots)) /\
  table (<[i := (None, None)]> slots) = delete f (table slots).
Proof.
  intros Hi Hnd Hx. destruct x as [o fp]. simpl in Hx. subst o.
  pose proof (lookup_lt_Some _ _ _ Hi) as Hlt.
  assert (NoDup (filters (<[i := (None, None)]> slots))) as Hnd'
    by (eapply NoDup_filters_replace; [done | done | by left]).
  split; [done |]. apply map_eq. intros k. apply option_eq. intros v.
  rewrite (table_lookup _ _ _ Hnd'), lookup_delete_Some, (table_lookup _ _ _ Hnd).
  rewrite !list_elem_of_lookup. setoid_rewrite list_lookup_insert_Some. split.
  - intros (j & [(_ & [=] & _) | (Hne & Hj)]). split; [| by exists j]. intros <-.
    apply Hne. by eapply (slot_unique slots).
  - intros (Hne & j & Hj). exists j. right. split; [| done]. intros ->. congruence.
Qed.

Section Handlers.
Context {W : Type} {P : MqttPort W}.
Implicit Types s : st (W := W).

(** The four ways [MQTTSetMessageHandler] ends, on the slots. *)
Lemma set_handler_run f h s :
  client_inv (client s) ->
  let slots := messageHandlers (client s) in
  let '(rc, m) := set_handler_spec f h (table slots) in
  exists slots', MQTTSetMessageHandler f h s = Ret rc (mk_st (set_handlers slots' (client s)) (world s) (log s))
    /\ length slots' = length slots /\ NoDup (filters slots') /\ table slots' = m.
Proof.
  intros [_ Hlen Hnd] slots. subst slots.
  destruct s as [c w l]. simpl in *. set (slots := messageHandlers c) in *.
  pose proof (table_is_Some slots f Hnd) as Hin. pose proof (table_size slots Hnd) as Hsz.
  assert (set_handlers slots c = c) as Hid by (unfold slots; by destruct c).
  unfold set_handler_spec, MQTTSetMessageHandler, bind, get. cbn [client]. fold slots.
  destruct (find_slot (has_filter f) 0 slots) as [i|] eqn:E1.
  - apply find_slot_Some in E1 as (k & x & -> & Hk & Hx%has_filter_true). simpl.
    assert (f ∈ filters slots) as Hf
      by (apply elem_of_filters; exists (snd x); apply list_elem_of_lookup; exists k; rewrite Hk; by destruct x; simpl in *; subst).
    rewrite (bool_decide_eq_true_2 (is_Some (table slots !! f))) by (by apply Hin).
    destruct h as [h|].
    + destruct (table_insert slots k x f (Some h) Hk Hnd) as [H1 H2]; [by left |]. simpl.
      exists (<[k := (Some f, Some h)]> slots). rewrite length_insert. done.
    + destruct (table_delete slots k x f Hk Hnd Hx) as [H1 H2]. simpl.
      exists (<[k := (None, None)]> slots). rewrite length_insert. done.
  - assert (f ∉ filters slots) as Hf.
    { intros (fp & Hfp)%elem_of_filters. pose proof (find_slot_None _ _ _ _ E1 Hfp) as Hno.
      by rewrite (proj2 (has_filter_true f (Some f, fp))) in Hno. }
    rewrite (bool_decide_eq_false_2 (is_Some (table slots !! f))) by (by rewrite Hin).
    destruct h as [h|]; simpl.
    2: { exists slots. rewrite Hid. done. }
    destruct (find_slot is_empty 0 slots) as [i|] eqn:E2.
    + pose proof (filters_room _ _ E2). rewrite bool_decide_eq_true_2 by lia.
      apply find_slot_Some in E2 as (k & x & -> & Hk & Hx%is_empty_true). simpl.
      destruct (table_insert slots k x f (Some h) Hk Hnd) as [H1 H2]; [by right |].
      exists (<[k := (Some f, Some h)]> slots). rewrite length_insert. done.
    + pose proof (filters_full _ E2). rewrite bool_decide_eq_false_2 by lia.
      exists slots. rewrite Hid. done.
Qed.

(** C14: the handler table refines a finite map from topic filter to handler:
    [MQTTSetMessageHandler] replaces or adds an entry while there is room for
    five, removes an entry, fails without effect otherwise, and keeps the
    client invariant and everything but the table. *)
Theorem set_message_handler_refines f h s :
  client_inv (client s) ->
  exists c',
    MQTTSetMessageHandler f h s
      = Ret (fst (set_handler_spec f h (table (messageHandlers (client s))))) (mk_st c' (world s) (log s))
    /\ table (messageHandlers c') = snd (set_handler_spec f h (table (messageHandlers (client s))))
    /\ client_inv c' /\ c' = set_handlers (messageHandlers c') (client s).
Proof.
  intros Hinv. pose proof (set_handler_run f h s Hinv) as H. cbv zeta in H.
  destruct (set_handler_spec f h _) as [rc m]. destruct H as (slots' & HR & Hl & Hnd & Ht).
  exists (set_handlers slots' (client s)). destruct Hinv. split_and!; try done.
  split; simpl; [done | congruence | done].
Qed.

Lemma keeps_set_handler f h : preserves client_frame (MQTTSetMessageHandler (W := W) f h).
Proof.
  apply preserves_get_bind. intros s b s' E.
  assert (exists slots, s' = mk_st (set_handlers slots (client s)) (world s) (log s)) as [slots ->].
  { destruct s as [c w l]. revert E. cbn [client]. repeat case_match; intros [= <- <-];
      eexists; try done; simpl; by instantiate (1 := messageHandlers c); destruct c. }
  split; simpl; try done. intros Hinv. pose proof Hinv as [Hid Hlen Hnd].
  pose proof (set_handler_run f h s Hinv) as H. cbv zeta in H.
  destruct (set_handler_spec f h _) as [rc m]. destruct H as (slots' & HR & Hl & Hnd' & Ht).
  assert (MQTTSetMessageHandler f h s = Ret b (mk_st (set_handlers slots (client s)) (world s) (log s))) as HE
    by exact E.
  rewrite HR in HE. injection HE as _ ->. split; simpl; [done | congruence | done].
Qed.
End Handlers.

(** ** The API *)

Section Api.
Context {W : Type} {P : MqttPort W}.
Implicit Types s : st (W := W).

Definition with_mutex (b : bool) s : st := mk_st (set_mutex b (client s)) (world s) (log s).

(** Locked code runs with the mutex taken and gives it back. *)
Lemma locked_inv {A} (m : M A) s a s' :
  locked m s = Ret a s' ->
  mutex_held (client s) = false /\
  exists s1, m (with_mutex true s) = Ret a s1 /\ s' = with_mutex false s1.
Proof.
  unfold locked, MutexLock, MutexUnlock. destruct s as [c w l].
  unfold bind, get, modify. simpl. destruct (mutex_held c) eqn:E; [done |].
  fold (with_mutex true (mk_st c w l)). unfold with_mutex at 1. simpl.
  destruct (m _) as [a' s1| | |]; try done. intros [= <- <-]. split; [done |]. by exists s1.
Qed.

(** What a whole API call keeps; the mutex is free before and after. *)
Record api_frame s s' : Prop := {
  api_inv : client_inv (client s) -> client_inv (client s');
  api_mutex : mutex_held (client s) = false -> mutex_held (client s') = false;
  api_buf : length (buf (client s')) = length (buf (client s));
  api_readbuf : length (readbuf (client s')) = length (readbuf (client s));
  api_log : log s `prefix_of` log s';
}.

Lemma client_inv_mutex b (c : MQTTClient (W := W)) : client_inv (set_mutex b c) <-> client_inv c.
Proof. split; intros []; by split. Qed.

Lemma api_of_frame {A} (m : M A) : preserves client_frame m -> preserves api_frame m.
Proof. intros H s a s' E. destruct (H s a s' E). split; try done. congruence. Qed.

Lemma api_locked {A} (m : M A) : preserves client_frame m -> preserves api_frame (locked m).
Proof.
  intros H s a s' (Hm & s1 & E & ->)%locked_inv. destruct (H _ _ _ E) as [H1 H2 H3 H4 H5].
  split; simpl in *; try done. rewrite !client_inv_mutex in *. done.
Qed.

Context (junk : publish_out).

Inductive api_call :=
| Connect (options : option MQTTPacket_connectData)
| SetMessageHandler (f : bytes) (h : option handler)
| Subscribe (f : bytes) (qos : Z) (h : option handler)
| Unsubscribe (f : bytes)
| Publish (topic : bytes) (message : MQTTMessage)
| Yield (timeout_ms : Z)
| Run (timer : Timer W)
| Disconnect.

Definition run_api (fuel : nat) (call : api_call) : M Z :=
  match call with
  | Connect o => bind (MQTTConnectWithResults junk fuel o (0, 0)) (fun r => ret (fst r))
  | SetMessageHandler f h => MQTTSetMessageHandler f h
  | Subscribe f q h => bind (MQTTSubscribeWithResults junk fuel f q h 0) (fun r => ret (fst r))
  | Unsubscribe f => bind (MQTTUnsubscribe junk fuel f) (fun r => ret (fst r))
  | Publish t m => bind (MQTTPublish junk fuel t m) (fun r => ret (fst r))
  | Yield t => MQTTYield junk fuel t
  | Run t => bind (MQTTRun_turn junk fuel t) (fun _ => ret SUCCESS)
  | Disconnect => MQTTDisconnect fuel
  end.

Hint Resolve keeps_lift keeps_emit keeps_set_last_sent keeps_set_last_received keeps_set_ping
  keeps_set_connected keeps_set_session keeps_clean keeps_getNextPacketId keeps_sendPacket keeps_store
  keeps_fill serializer_zero serializer_ack serializer_publish serializer_connect
  serializer_subscribe serializer_unsubscribe keeps_closeSession keeps_cycle keeps_yield keeps_waitfor
  keeps_set_handler : frame.

Lemma keeps_command {A} (na : A) (body : MQTTClient -> M (Z * A)) :
  (forall c, preserves client_frame (body c)) -> preserves api_frame (command na body).
Proof. intros Hb. apply api_locked. frame. Qed.

Lemma api_map {A B} (m : M A) (g : A -> B) :
  preserves api_frame m -> preserves api_frame (bind m (fun a => ret (g a))).
Proof.
  intros H s b s' (a & s1 & E & E')%bind_Ret. injection E' as _ <-. apply (H _ _ _ E).
Qed.

Lemma keeps_connected_ping :
  preserves client_frame (modify (W := W) (fun c => set_ping false (set_connected true c))).
Proof. apply preserves_modify. intros. split; simpl; try done. by intros []. Qed.
Hint Resolve keeps_connected_ping : frame.

Lemma run_api_frame fuel call : preserves api_frame (run_api fuel call).
Proof.
  destruct call; simpl; try apply api_map.
  - apply api_locked. frame.
  - apply api_of_frame. frame.
  - apply keeps_command. intros. frame.
  - apply keeps_command. intros. frame.
  - apply keeps_command. intros. unfold publish_wait. frame.
  - apply api_of_frame. unfold MQTTYield. frame.
  - apply api_locked. frame.
  - apply api_locked. unfold MQTTSerialize_disconnect. frame.
Qed.

(** The states a client can reach from its initialisation by API calls. *)
Inductive reachable (init : MQTTClient (W := W)) : st -> Prop :=
| reachable_init w : reachable init (mk_st init w [])
| reachable_call fuel call s r s' :
    reachable init s -> run_api fuel call s = Ret r s' -> reachable init s'.
End Api.

Lemma init_inv {W} {P : MqttPort W} timeout sendbuf readbuf_ keepAlive0 fps :
  length fps = MAX_MESSAGE_HANDLERS -> client_inv (MQTTClientInit timeout sendbuf readbuf_ keepAlive0 fps).
Proof.
  intros Hfps. split; simpl.
  - unfold MAX_PACKET_ID; lia.
  - by rewrite length_fmap.
  - clear. induction fps; [constructor | done].
Qed.

(** C2: from initialisation on, after any sequence of API calls, packet
    identifiers stay in 1..65535, there are five handler slots with pairwise
    different filters, the buffers keep their sizes, and the mutex is free. *)
Theorem reachable_invariant {W} {P : MqttPort W} junk timeout sendbuf readbuf_ keepAlive0 fps s :
  length fps = MAX_MESSAGE_HANDLERS ->
  reachable junk (MQTTClientInit timeout sendbuf readbuf_ keepAlive0 fps) s ->
  client_inv (client s) /\ mutex_held (client s) = false
  /\ length (buf (client s)) = length sendbuf /\ length (readbuf (client s)) = length readbuf_.
Proof.
  intros Hfps. induction 1 as [w | fuel call s r s' _ (I1 & I2 & I3 & I4) E].
  - split_and!; try done. by apply init_inv.
  - destruct (run_api_frame junk fuel call s r s' E) as [F1 F2 F3 F4 _].
    split_and!; [by apply F1 | by apply F2 | congruence | congruence].
Qed.

(** A port for examples: the world is the byte stream the peer sends, reads
    take what is there, writes are complete, and timers do not expire. *)
Module Example.
Definition stream_read (len timeout : Z) (w : bytes) : (Z * bytes) * bytes :=
  let b := take (Z.to_nat len) w in ((Z.of_nat (length b), b), drop (Z.to_nat len) w).

#[export] Instance wire : MqttPort bytes := {|
  Timer := unit;
  TimerInit := tt;
  TimerCountdownMS _ _ w := (tt, w);
  TimerIsExpired _ w := ((false, tt), w);
  TimerLeftMS _ w := ((1000, tt), w);
  mqttread := stream_read;
  mqttwrite data _ w := (Z.of_nat (length data), w);
|}.

Definition no_junk : publish_out := mk_publish_out 0 0 0 0 MQTTString_initializer None 0.

Definition init : MQTTClient (W := bytes) :=
  MQTTClientInit 30000 (replicate 80 0) (replicate 80 0) 0 (replicate 5 None).

(** A connected client with one subscription, to "a/#" with handler 7. *)
Definition connected : MQTTClient (W := bytes) :=
  set_handlers (<[0%nat := (Some [97; 47; 35], Some 7)]> (messageHandlers init))
    (set_connected true (set_session 0 true init)).
End Example.
Import Example.

Lemma set_message_handler_refines_witness :
  exists c',
    MQTTSetMessageHandler [98] (Some 9) (mk_st connected [] [])
      = Ret (fst (set_handler_spec [98] (Some 9) (table (messageHandlers connected)))) (mk_st c' [] [])
    /\ table (messageHandlers c') = snd (set_handler_spec [98] (Some 9) (table (messageHandlers connected)))
    /\ client_inv c' /\ c' = set_handlers (messageHandlers c') connected.
Proof.
  apply (set_message_handler_refines [98] (Some 9) (mk_st connected [] [])).
  split; [split; discriminate | reflexivity | by apply NoDup_singleton].
Defined.

(** Connecting with the answer CONNACK 0 on the wire. *)
Lemma reachable_invariant_witness :
  exists s, client s <> init /\
  client_inv (client s) /\ mutex_held (client s) = false
  /\ length (buf (client s)) = 80%nat /\ length (readbuf (client s)) = 80%nat.
Proof.
  destruct (run_api no_junk 10 (Connect (Some demo_options)) (mk_st init [32; 2; 0; 0] []))
    as [r s| | |] eqn:E; vm_compute in E; try discriminate E.
  exists s. split; [injection E as _ <-; discriminate |].
  apply (reachable_invariant no_junk 30000 (replicate 80 0) (replicate 80 0) 0 (replicate 5 None) s).
  - reflexivity.
  - apply (reachable_call _ _ 10 (Connect (Some demo_options)) (mk_st init [32; 2; 0; 0] []) r s).
    + constructor.
    + vm_compute. exact E.
Defined.

(** ** Failures close the session *)

Section Failures.
Context {W : Type} {P : MqttPort W} (junk : publish_out).
Implicit Types s : st (W := W).

(** A closed session: not connected, no ping outstanding, and no handler left
    when the session was a clean one. *)
Definition closed_session (c : MQTTClient (W := W)) : Prop :=
  isconnected c = false /\ ping_outstanding c = false /\
  (cleansession c = true -> filters (messageHandlers c) = []).

Lemma MQTTCloseSession_run s :
  exists c', MQTTCloseSession s = Ret () (mk_st c' (world s) (log s)) /\ closed_session c'.
Proof.
  destruct s as [c w l]. unfold MQTTCloseSession, MQTTCleanSession, bind, modify, get. simpl.
  destruct (cleansession c) eqn:E; (eexists; split; [reflexivity |]); unfold closed_session; simpl.
  - by rewrite filters_cleared.
  - by rewrite E.
Qed.

Lemma closed_set_mutex b c : closed_session (set_mutex b c) <-> closed_session c.
Proof. done. Qed.

Lemma locked_run {A} (m : M A) s : mutex_held (client s) = false ->
  locked m s = match m (with_mutex true s) with
               | Ret a s1 => Ret a (with_mutex false s1)
               | Undef => Undef | Blocked => Blocked | NoFuel => NoFuel
               end.
Proof.
  intros Hm. unfold locked, MutexLock, MutexUnlock, bind, get, modify. rewrite Hm. simpl.
  fold (with_mutex true s). by destruct (m _).
Qed.

Lemma command_failure {A} (na : A) body s a s' :
  command na body s = Ret (FAILURE, a) s' -> closed_session (client s').
Proof.
  intros (_ & s1 & E & ->)%locked_inv. simpl. rewrite closed_set_mutex.
  apply bind_Ret in E as (c & s2 & _ & E). apply bind_Ret in E as ([rc a'] & s3 & _ & E).
  apply bind_Ret in E as ([] & s4 & EC & [= -> _ <-]).
  destruct (MQTTCloseSession_run s3) as (c' & E' & Hc). simpl in EC. rewrite E' in EC.
  by injection EC as <-.
Qed.

Lemma command_not_connected {A} (na : A) body s :
  isconnected (client s) = false -> mutex_held (client s) = false ->
  exists c', command na body s = Ret (FAILURE, na) (mk_st c' (world s) (log s)) /\ closed_session c'.
Proof.
  intros Hc Hm. unfold command. rewrite locked_run by done.
  unfold bind at 1, get. simpl. rewrite Hc. simpl. unfold bind, ret. simpl.
  destruct (MQTTCloseSession_run (with_mutex true s)) as (c' & E & Hcl). rewrite E.
  exists (set_mutex false c'). split; [done |]. by rewrite closed_set_mutex.
Qed.

Lemma command_not_connected_rc {A} (na : A) body s :
  isconnected (client s) = false -> mutex_held (client s) = false ->
  exists c', bind (command na body) (fun r => ret (fst r)) s
             = Ret FAILURE (mk_st c' (world s) (log s)) /\ closed_session c'.
Proof.
  intros Hc Hm. destruct (command_not_connected na body s Hc Hm) as (c' & E & H).
  exists c'. unfold bind. by rewrite E.
Qed.

(** The commands that need a connection. *)
Definition is_command (call : api_call (W := W)) : bool :=
  match call with Subscribe _ _ _ | Unsubscribe _ | Publish _ _ => true | _ => false end.

(** A subscribe, unsubscribe or publish that fails leaves the session
    closed, with all handlers dropped when it was a clean session; without a
    connection it fails at once, touching neither the network nor the log. *)
Lemma command_failure_closes fuel call s :
  is_command call = true ->
  (forall s', run_api junk fuel call s = Ret FAILURE s' -> closed_session (client s')) /\
  (isconnected (client s) = false -> mutex_held (client s) = false ->
   exists c', run_api junk fuel call s = Ret FAILURE (mk_st c' (world s) (log s)) /\ closed_session c').
Proof.
  intros Hcall. split.
  - intros s' E. destruct call; try done; simpl in E;
      apply bind_Ret in E as ([rc a] & s1 & E & [= -> <-]); by eapply command_failure.
  - intros Hc Hm. destruct call; try done; by apply command_not_connected_rc.
Qed.

(** ** The receive cycle *)

Lemma cycle_exit_inv rc p t s r t' s' :
  cycle_exit rc p t s = Ret (r, t') s' ->
  (rc = SUCCESS /\ r = p /\ s' = s) \/ (rc <> SUCCESS /\ r = rc /\ isconnected (client s') = false).
Proof.
  unfold cycle_exit. destruct (Z.eqb_spec rc SUCCESS) as [-> | Hne].
  - intros [= <- _ <-]. by left.
  - intros (c & s1 & [= <- <-] & E)%bind_Ret. right.
    destruct (isconnected (client s)) eqn:Ec.
    + destruct (MQTTCloseSession_run s) as (c' & E' & H & _).
      unfold bind in E. rewrite E' in E. by injection E as <- _ <-.
    + by injection E as <- _ <-.
Qed.

Lemma cycle_keepalive_inv fuel rc p t s r t' s' :
  cycle_keepalive fuel rc p t s = Ret (r, t') s' -> r = p \/ isconnected (client s') = false.
Proof.
  intros (k & s1 & _ & E)%bind_Ret. apply cycle_exit_inv in E as [(_ & -> & _) | (_ & _ & H)]; auto.
Qed.

(** A cycle that returns an error leaves the client disconnected: read
    errors, a packet too large for the buffer, failed acknowledgements and a
    missing ping response all close the session. *)
Lemma cycle_error_disconnects fuel t s r t' s' :
  cycle junk fuel t s = Ret (r, t') s' -> r < 0 -> isconnected (client s') = false.
Proof.
  intros ([p t1] & s1 & _ & E)%bind_Ret Hr.
  assert (forall q t s, cycle_keepalive fuel q p t s = Ret (r, t') s' -> 0 <= p ->
                        isconnected (client s') = false)
    as HK by (intros q t2 s2 [-> | H]%cycle_keepalive_inv ?; [lia | done]).
  assert (forall q t s, cycle_exit q p t s = Ret (r, t') s' -> 0 <= p -> isconnected (client s') = false)
    as HE by (intros q t2 s2 [(_ & -> & _) | (_ & _ & H)]%cycle_exit_inv ?; [lia | done]).
  destruct (Z.eqb_spec p 0) as [-> | H0]; [by eapply HK |].
  destruct ((p =? CONNACK) || (p =? PUBACK) || (p =? SUBACK)) eqn:E1.
  { eapply HK; [exact E |]. unfold CONNACK, PUBACK, SUBACK in E1. lia. }
  destruct (Z.eqb_spec p PUBLISH) as [-> | H3].
  { apply bind_Ret in E as ([[ex rc] t2] & s2 & _ & E). destruct ex; [by eapply HE | by eapply HK]. }
  destruct ((p =? PUBREC) || (p =? PUBREL)) eqn:E2.
  { assert (0 <= p) by (unfold PUBREC, PUBREL in E2; lia).
    apply bind_Ret in E as ([rc t2] & s2 & _ & E). destruct (rc =? FAILURE); [by eapply HE | by eapply HK]. }
  destruct (Z.eqb_spec p PUBCOMP) as [-> | H7]; [by eapply HK |].
  destruct (Z.eqb_spec p PINGRESP) as [-> | H13].
  { apply bind_Ret in E as (? & s2 & _ & E). by eapply HK. }
  apply cycle_exit_inv in E as [(-> & _ & _) | (_ & _ & H)]; done.
Qed.
End Failures.

Lemma command_failure_closes_witness :
  (forall s', run_api no_junk 10 (Publish [97] (mk_MQTTMessage 1 0 0 0 None 0)) (mk_st init [] []) = Ret FAILURE s' ->
              closed_session (client s')) /\
  (isconnected init = false -> mutex_held init = false ->
   exists c', run_api no_junk 10 (Publish [97] (mk_MQTTMessage 1 0 0 0 None 0)) (mk_st init [] [])
              = Ret FAILURE (mk_st c' [] []) /\ closed_session c').
Proof.
  apply (command_failure_closes no_junk 10 (Publish [97] (mk_MQTTMessage 1 0 0 0 None 0)) (mk_st init [] [])).
  reflexivity.
Defined.

(** A packet larger than the receive buffer: a PUBLISH of 200 bytes. *)
Definition oversized : st (W := bytes) := mk_st connected (48 :: 200 :: 1 :: replicate 200 1) [].

Lemma cycle_error_disconnects_witness :
  exists t' s', cycle (W := bytes) no_junk 10 TimerInit oversized = Ret (-2, t') s'
    /\ isconnected (client s') = false.
Proof.
  destruct (cycle (W := bytes) no_junk 10 TimerInit oversized)
    as [[r t'] s'| | |] eqn:E; pose proof E as E'; vm_compute in E; try discriminate E.
  assert (r = -2) as -> by (injection E; congruence).
  exists t', s'. split; [reflexivity |].
  apply (cycle_error_disconnects no_junk 10 TimerInit oversized (-2) t' s' E'). lia.
Defined.

(** ** Topic filters, level by level

    The reference: a topic is its levels, separated by slashes; [+] stands
    for one level that is not empty and [#], as the last level, for all the
    remaining levels, the first of which is not empty. *)

Fixpoint levels (s : bytes) : list bytes :=
  match s with
  | [] => [[]]
  | c :: s => if c =? slash then [] :: levels s
              else match levels s with l :: ls => (c :: l) :: ls | [] => [[c]] end
  end.

Fixpoint match_levels (filter topic : list bytes) : bool :=
  match filter, topic with
  | f :: fs, t :: ts =>
    if bool_decide (f = [hash]) && bool_decide (fs = []) then negb (bool_decide (t = []))
    else if bool_decide (f = [plus]) then negb (bool_decide (t = [])) && match_levels fs ts
    else bool_decide (f = t) && match_levels fs ts
  | [], [] => true
  | _, _ => false
  end.

(** The format the code assumes: wildcards stand alone in their level, and
    [#] only in the last one. *)
Definition plain (c : Z) : bool := negb (c =? plus) && negb (c =? hash) && negb (c =? 0).
Fixpoint filter_ok (filter : list bytes) : bool :=
  match filter with
  | [] => true
  | f :: fs => (bool_decide (f = [plus]) || forallb plain f
                || (bool_decide (f = [hash]) && bool_decide (fs = []))) && filter_ok fs
  end.
Definition wf_filter (f : bytes) : bool := filter_ok (levels f).

Definition no_slash (l : bytes) : Prop := Forall (fun c => c <> slash) l.

Lemma levels_last l : no_slash l -> levels l = [l].
Proof.
  induction 1 as [|c l Hc _ IH]; [done |]. simpl. rewrite (proj2 (Z.eqb_neq _ _) Hc), IH. done.
Qed.

Lemma levels_cut l s : no_slash l -> levels (l ++ slash :: s) = l :: levels s.
Proof.
  induction 1 as [|c l Hc _ IH]; [done |]. simpl. rewrite (proj2 (Z.eqb_neq _ _) Hc), IH. done.
Qed.

(** Every string is a last level, or a level, a slash and a shorter string. *)
Lemma cut_level s :
  no_slash s \/ exists l r, s = l ++ slash :: r /\ no_slash l.
Proof.
  induction s as [|c s IH]; [left; constructor |].
  destruct (Z.eq_dec c slash) as [-> | Hc].
  - right. exists [], s. split; [done | constructor].
  - destruct IH as [IH | (l & r & -> & Hl)]; [left; by constructor |].
    right. exists (c :: l), r. split; [done | by constructor].
Qed.

(** What follows a level: nothing, or a slash. *)
Definition tail_ok (r : bytes) : Prop := r = [] \/ exists r', r = slash :: r'.

Lemma skip_level_spec l r : no_slash l -> tail_ok r -> skip_level (l ++ r) = r.
Proof.
  intros Hl Hr. induction Hl as [|c l Hc _ IH]; simpl.
  - by destruct Hr as [-> | [r' ->]].
  - by rewrite (proj2 (Z.eqb_neq _ _) Hc).
Qed.

Lemma topic_plus rf l r : no_slash l -> tail_ok r ->
  topic_loop (plus :: rf) (l ++ r) = negb (bool_decide (l = [])) && topic_loop rf r.
Proof.
  intros Hl Hr. destruct Hl as [|c l Hc Hl]; simpl.
  - by destruct Hr as [-> | [r' ->]].
  - by rewrite (proj2 (Z.eqb_neq _ _) Hc), skip_level_spec.
Qed.

Lemma topic_hash l r : no_slash l -> tail_ok r ->
  topic_loop [hash] (l ++ r) = negb (bool_decide (l = [])).
Proof.
  intros Hl Hr. destruct Hl as [|c l Hc Hl]; simpl.
  - by destruct Hr as [-> | [r' ->]].
  - by rewrite (proj2 (Z.eqb_neq _ _) Hc).
Qed.

Lemma topic_literal f rf l r :
  forallb plain f = true -> no_slash f -> tail_ok rf -> no_slash l -> tail_ok r ->
  topic_loop (f ++ rf) (l ++ r) = bool_decide (f = l) && topic_loop rf r.
Proof.
  intros Hp Hf Hrf Hl Hr. revert l Hl. induction Hf as [|c f Hc Hf IH]; intros l Hl.
  - destruct Hl as [|n l Hn Hl]; [by rewrite bool_decide_eq_true_2 |].
    rewrite bool_decide_eq_false_2 by done. destruct Hrf as [-> | [rf' ->]]; [done |].
    cbn [topic_loop app]. rewrite (proj2 (Z.eqb_neq n slash) Hn).
    rewrite (proj2 (Z.eqb_neq slash n)) by congruence. done.
  - simpl in Hp. apply andb_true_iff in Hp as [Hc' Hp]. unfold plain in Hc'.
    apply andb_true_iff in Hc' as [Hc' _]. apply andb_true_iff in Hc' as [Hcp Hch].
    destruct Hl as [|n l Hn Hl].
    + rewrite bool_decide_eq_false_2 by done. destruct Hr as [-> | [r' ->]]; [done |]. simpl.
      by rewrite (proj2 (Z.eqb_neq _ _) Hc).
    + simpl. rewrite (proj2 (Z.eqb_neq n slash) Hn), Hcp, Hch. simpl.
      apply negb_true_iff in Hcp, Hch. rewrite Hcp, Hch.
      destruct (Z.eqb_spec c n) as [-> | Hne]; simpl.
      * rewrite IH by done. f_equal. apply bool_decide_ext. split; [by intros -> | by intros [= ->]].
      * by rewrite bool_decide_eq_false_2 by congruence.
Qed.

(** One level of the filter against one of the topic. *)
Lemma topic_level f rf l r (last : bool) :
  (bool_decide (f = [plus]) || forallb plain f || (bool_decide (f = [hash]) && last)) = true ->
  no_slash f -> tail_ok rf -> no_slash l -> tail_ok r -> (last = true -> rf = []) ->
  topic_loop (f ++ rf) (l ++ r)
  = if bool_decide (f = [hash]) && last then negb (bool_decide (l = []))
    else if bool_decide (f = [plus]) then negb (bool_decide (l = [])) && topic_loop rf r
    else bool_decide (f = l) && topic_loop rf r.
Proof.
  intros Hok Hf Hrf Hl Hr Hlast. destruct (decide (f = [plus])) as [-> | Hp].
  { rewrite (bool_decide_eq_true_2 ([plus] = [plus])) by done. by apply topic_plus. }
  rewrite (bool_decide_eq_false_2 (f = [plus])) in * by done. simpl in Hok.
  destruct (bool_decide (f = [hash]) && last) eqn:Eh.
  - apply andb_true_iff in Eh as [->%bool_decide_eq_true ->]. rewrite Hlast by done.
    by apply topic_hash.
  - rewrite orb_false_r in Hok. by apply topic_literal.
Qed.

Lemma levels_not_nil s : levels s <> [].
Proof.
  destruct (cut_level s) as [H | (l & r & -> & H)]; [by rewrite levels_last | by rewrite levels_cut].
Qed.

Lemma match_levels_nil_r f ls : match_levels (f :: ls) [] = false.
Proof. done. Qed.

Lemma topic_loop_levels n f t :
  (length f <= n)%nat -> wf_filter f = true -> topic_loop f t = match_levels (levels f) (levels t).
Proof.
  unfold wf_filter. revert f t. induction n as [n IH] using lt_wf_ind. intros f t Hn Hok.
  assert (exists l r, t = l ++ r /\ no_slash l /\ tail_ok r /\
            levels t = l :: match r with [] => [] | _ :: r' => levels r' end) as (l & r & -> & Hl & Hr & ->).
  { destruct (cut_level t) as [H | (l & r & -> & H)].
    - exists t, []. rewrite app_nil_r, levels_last by done. split_and!; [done | done | by left | done].
    - exists l, (slash :: r). rewrite levels_cut by done. split_and!; [done | done | right; by eexists | done]. }
  destruct (cut_level f) as [Hf | (fl & fr & -> & Hf)].
  - rewrite levels_last in * by done. simpl in Hok. rewrite andb_true_r in Hok.
    rewrite <- (app_nil_r f) at 1. rewrite (topic_level f [] l r true) by (done || by left).
    cbn [match_levels]. rewrite (bool_decide_eq_true_2 ([] = [])) by done.
    assert (topic_loop [] r = match_levels [] match r with [] => [] | _ :: r' => levels r' end) as ->.
    { destruct r as [|c r']; [done |]. simpl. destruct (levels r') eqn:E; [by apply levels_not_nil in E | done]. }
    done.
  - rewrite levels_cut in * by done. simpl in Hok. apply andb_true_iff in Hok as [Hok Hok'].
    rewrite (bool_decide_eq_false_2 (levels fr = [])) in Hok by apply levels_not_nil.
    rewrite (topic_level fl (slash :: fr) l r false) by (done || (right; by eexists)).
    cbn [match_levels]. rewrite (bool_decide_eq_false_2 (levels fr = [])) by apply levels_not_nil.
    assert (topic_loop (slash :: fr) r = match_levels (levels fr) match r with [] => [] | _ :: r' => levels r' end) as ->.
    { destruct Hr as [-> | [r' ->]].
      - destruct (levels fr) eqn:E; [by apply levels_not_nil in E | done].
      - simpl. apply (IH (length fr)); [| done | done]. rewrite length_app in Hn. simpl in Hn. lia. }
    done.
Qed.

Lemma match_levels_refl ls : filter_ok ls = true -> match_levels ls ls = true.
Proof.
  induction ls as [|f ls IH]; [done |]. simpl. intros [Hf Hls]%andb_true_iff. rewrite IH by done.
  repeat case_bool_decide; simpl; congruence.
Qed.

Lemma strncmp_eq_spec a b : length a = length b -> Forall (fun c => c <> 0) b ->
  strncmp_eq (length b) a b = Some (bool_decide (a = b)).
Proof.
  revert a. induction b as [|y b IH]; intros [|x a] Hl Hb; try done.
  apply list.Forall_cons in Hb as [Hy Hb]. simpl.
  destruct (Z.eqb_spec x y) as [-> | Hne]; [| by rewrite bool_decide_eq_false_2 by congruence].
  rewrite (proj2 (Z.eqb_neq _ _) Hy), IH by (done || by injection Hl).
  f_equal. apply bool_decide_ext. split; [by intros -> | by intros [= ->]].
Qed.

Lemma filter_ok_no_zero f : wf_filter f = true -> Forall (fun c => c <> 0) f.
Proof.
  unfold wf_filter. remember (length f) as n eqn:Hn. revert f Hn.
  induction n as [n IH] using lt_wf_ind. intros f -> Hok.
  assert (forall l b, bool_decide (l = [plus]) || forallb plain l || (bool_decide (l = [hash]) && b) = true ->
            Forall (fun c => c <> 0) l) as Hlvl.
  { intros l b [[Hl | Hl]%orb_true_iff | Hl]%orb_true_iff.
    - apply bool_decide_eq_true in Hl as ->. by repeat constructor.
    - apply Forall_forall. intros c Hc. rewrite forallb_forall in Hl. specialize (Hl c Hc).
      unfold plain in Hl. rewrite !andb_true_iff, !negb_true_iff, !Z.eqb_neq in Hl. tauto.
    - apply andb_true_iff in Hl as [->%bool_decide_eq_true _]. by repeat constructor. }
  destruct (cut_level f) as [Hf | (l & r & -> & Hl)].
  - rewrite levels_last in Hok by done. simpl in Hok. apply andb_true_iff in Hok as [Hok _]. by eapply Hlvl.
  - rewrite levels_cut in Hok by done. simpl in Hok. apply andb_true_iff in Hok as [Hok Hr].
    apply Forall_app. split; [by eapply Hlvl |]. constructor; [done |].
    apply (IH (length r)); [rewrite length_app; simpl; lia | done | done].
Qed.

(** A counted string, as a received topic name is. *)
Definition lenstr (t : bytes) : MQTTString := mk_MQTTString None (Z.of_nat (length t)) (Some t).

Lemma filter_matches_levels f t :
  wf_filter f = true -> filter_matches f (lenstr t) = Some (match_levels (levels f) (levels t)).
Proof.
  intros Hwf. unfold filter_matches, MQTTPacket_equals, isTopicMatched, lenstr. simpl.
  rewrite Nat2Z.id, take_ge by done. rewrite (proj2 (Z.ltb_ge _ 0)) by lia.
  rewrite (topic_loop_levels (length f) f t) by done.
  destruct (Z.eqb_spec (Z.of_nat (length t)) (Z.of_nat (length f))) as [Hl | Hl]; [| done].
  apply Nat2Z.inj in Hl. rewrite Hl, strncmp_eq_spec by auto using filter_ok_no_zero. simpl.
  case_bool_decide as E; [| done]. subst t. by rewrite match_levels_refl.
Qed.

(** C15: for a filter in the format the code assumes, the test that selects a
    handler, [MQTTPacket_equals || isTopicMatched], is matching level by level:
    [+] stands for one non-empty level and a final [#] for the remaining
    levels when the first of them is not empty. *)
Theorem topic_matching f t :
  wf_filter f = true -> filter_matches f (lenstr t) = Some (match_levels (levels f) (levels t)).
Proof.
  apply filter_matches_levels.
Qed.

(** "sport/+/score/#" matches "sport/tennis/score/today". *)
Lemma topic_matching_witness :
  filter_matches [115; 47; 43; 47; 120; 47; 35] (lenstr [115; 47; 97; 98; 47; 120; 47; 99; 47; 100]) = Some true.
Proof.
  apply (topic_matching [115; 47; 43; 47; 120; 47; 35] [115; 47; 97; 98; 47; 120; 47; 99; 47; 100]).
  reflexivity.
Defined.

(** The handlers a message for [t] is due to, in slot order. *)
Definition selected (t : bytes) (slots : list (option bytes * option handler)) : list handler :=
  omap (fun s => match s with
                 | (Some f, Some h) => if match_levels (levels f) (levels t) then Some h else None
                 | _ => None
                 end) slots.
Definition recipients {W} {P : MqttPort W} (c : MQTTClient (W := W)) (t : bytes) : list handler :=
  match selected t (messageHandlers c) with
  | [] => match defaultMessageHandler c with Some h => [h] | None => [] end
  | hs => hs
  end.

Definition wf_slots (slots : list (option bytes * option handler)) : Prop :=
  Forall (fun s => match fst s with Some f => wf_filter f = true | None => True end) slots.

Section Deliver.
Context {W : Type} {P : MqttPort W}.
Implicit Types s : st (W := W).

Lemma deliver_loop_run slots t msg rc s :
  wf_slots slots ->
  deliver_loop slots (lenstr t) msg rc s
  = Ret (match selected t slots with [] => rc | _ => SUCCESS end)
        (mk_st (client s) (world s) (log s ++ ((fun h => Delivered h (lenstr t) msg) <$> selected t slots))).
Proof.
  intros Hwf. revert rc s. induction Hwf as [|[o fp] slots Hf _ IH]; intros rc s.
  { simpl. rewrite app_nil_r. by destruct s. }
  destruct o as [f|]; [| apply IH]. cbn [deliver_loop]. simpl in Hf.
  rewrite filter_matches_levels by done. unfold bind, of_option, ret, emit.
  unfold selected. cbn [omap list_omap]. fold (selected t slots).
  destruct (match_levels (levels f) (levels t)), fp as [h|]; rewrite IH; try done.
  simpl. rewrite <- (assoc_L (++)). simpl. do 2 f_equal. by destruct (selected t slots).
Qed.

Lemma deliverMessage_run t msg s :
  wf_slots (messageHandlers (client s)) ->
  deliverMessage (lenstr t) msg s
  = Ret (match recipients (client s) t with [] => FAILURE | _ => SUCCESS end)
        (mk_st (client s) (world s)
               (log s ++ ((fun h => Delivered h (lenstr t) msg) <$> recipients (client s) t))).
Proof.
  intros Hwf. unfold deliverMessage, bind, get. rewrite deliver_loop_run by done.
  unfold recipients. destruct (selected t (messageHandlers (client s))) as [|h hs]; [| done].
  simpl. destruct (defaultMessageHandler (client s)); [| done].
  unfold emit, ret. simpl. by rewrite app_nil_r.
Qed.

(** A message is handed to the handler of every slot whose filter
    matches its topic, in slot order, and to the default handler exactly when
    there is none; success is reported when some handler was called. *)
Lemma deliver_message t msg s :
  wf_slots (messageHandlers (client s)) ->
  deliverMessage (lenstr t) msg s
  = Ret (match recipients (client s) t with [] => FAILURE | _ => SUCCESS end)
        (mk_st (client s) (world s)
               (log s ++ ((fun h => Delivered h (lenstr t) msg) <$> recipients (client s) t))).
Proof. apply deliverMessage_run. Qed.
End Deliver.

Lemma deliver_message_witness :
  deliverMessage (lenstr [97; 47; 98]) (mk_MQTTMessage 0 0 0 0 None 0) (mk_st connected [] [])
  = Ret SUCCESS (mk_st connected [] [Delivered 7 (lenstr [97; 47; 98]) (mk_MQTTMessage 0 0 0 0 None 0)]).
Proof.
  apply (deliver_message [97; 47; 98] (mk_MQTTMessage 0 0 0 0 None 0) (mk_st connected [] [])).
  repeat constructor.
Defined.


End MqttClient.
