(* ===== verification/MqttExchange.v ===== *)
(** * MQTT exchanges with a responsive broker

    Total correctness of the client's exchanges over a port whose reads return
    the bytes the broker sent, in order, whose writes are complete, and whose
    timers have not expired: the class [PromptPeer].  The theorems say which
    packets the client writes and how it ends, for any such port. *)

From S2P Require Import Prelude MqttPacket MqttClient.
Import MqttPacket MqttClient.

(** [stream] is what the broker has sent and the client has not yet read. *)
Class PromptPeer (W : Type) {P : MqttPort W} := {
  stream : W -> bytes;
  peer_read n t w : 0 < n <= Z.of_nat (length (stream w)) ->
    fst (mqttread n t w) = (n, take (Z.to_nat n) (stream w)) /\
    stream (snd (mqttread n t w)) = drop (Z.to_nat n) (stream w);
  peer_write data t w :
    fst (mqttwrite data t w) = Z.of_nat (length data) /\ stream (snd (mqttwrite data t w)) = stream w;
  peer_not_expired t w : fst (fst (TimerIsExpired t w)) = false;
  peer_expired_stream t w : stream (snd (TimerIsExpired t w)) = stream w;
  peer_left_stream t w : stream (snd (TimerLeftMS t w)) = stream w;
  peer_countdown_stream ms t w : stream (snd (TimerCountdownMS ms t w)) = stream w;
}.

Module MqttExchange.

(** Close a goal about the stream from what the calls said of it. *)
Ltac streams := cbn [client world log with_mutex] in *; congruence.

(** The example port is such a peer. *)
#[export] Instance wire_prompt : PromptPeer bytes (P := Example.wire).
Proof.
  refine (Build_PromptPeer bytes Example.wire (fun w => w) _ _ _ _ _ _).
  - intros n t w Hn. simpl. split; [| done]. f_equal. rewrite length_take. lia.
  - done.
  - done.
  - done.
  - done.
  - done.
Defined.

(** ** Total runs *)

Section Runs.
Context {W : Type} {P : MqttPort W} `{!PromptPeer W}.
Implicit Types s : st (W := W).
Implicit Types c : MQTTClient (W := W).

(** [m] returns from [s], with a result and state that satisfy [Q]. *)
Definition runs {A} (m : M A) s (Q : A -> st -> Prop) : Prop :=
  exists a s', m s = Ret a s' /\ Q a s'.

Lemma runs_ret {A} (a : A) s (Q : A -> st -> Prop) : Q a s -> runs (ret a) s Q.
Proof. by exists a, s. Qed.
Lemma runs_bind {A B} (m : M A) (f : A -> M B) s Q :
  runs m s (fun a s1 => runs (f a) s1 Q) -> runs (bind m f) s Q.
Proof. intros (a & s1 & E & b & s2 & E2 & HQ). exists b, s2. unfold bind. by rewrite E. Qed.
Lemma runs_assoc {A B C} (m : M A) (f : A -> M B) (g : B -> M C) s Q :
  runs (bind (bind m f) g) s Q -> runs (bind m (fun a => bind (f a) g)) s Q.
Proof. unfold runs, bind. by destruct (m s). Qed.
Lemma runs_get s (Q : MQTTClient -> st -> Prop) : Q (client s) s -> runs get s Q.
Proof. by exists (client s), s. Qed.
Lemma runs_modify f s (Q : unit -> st -> Prop) :
  Q () (mk_st (f (client s)) (world s) (log s)) -> runs (modify f) s Q.
Proof. by eexists _, _. Qed.
Lemma runs_of_option {A} (o : option A) a s (Q : A -> st -> Prop) :
  o = Some a -> Q a s -> runs (of_option o) s Q.
Proof. intros -> H. by apply runs_ret. Qed.
Lemma runs_emit e s (Q : unit -> st -> Prop) :
  Q () (mk_st (client s) (world s) (log s ++ [e])) -> runs (emit e) s Q.
Proof. by eexists _, _. Qed.
Lemma runs_lift {A} (f : W -> A * W) s (Q : A -> st -> Prop) :
  Q (fst (f (world s))) (mk_st (client s) (snd (f (world s))) (log s)) -> runs (lift f) s Q.
Proof. intros H. eexists _, _. split; [| exact H]. unfold lift. by destruct (f (world s)). Qed.
Lemma runs_conseq {A} (m : M A) s (Q Q' : A -> st -> Prop) :
  runs m s Q -> (forall a s', Q a s' -> Q' a s') -> runs m s Q'.
Proof. intros (a & s' & E & H) HQ. exists a, s'. auto. Qed.

(** Timer calls do not touch the stream; writes are complete. *)
Lemma runs_left t s (Q : Z * Timer W -> st -> Prop) :
  (forall ms t' w', stream w' = stream (world s) -> Q (ms, t') (mk_st (client s) w' (log s))) ->
  runs (lift (TimerLeftMS t)) s Q.
Proof.
  intros H. apply runs_lift. destruct (fst (TimerLeftMS t (world s))) as [ms t'] eqn:E.
  apply H, peer_left_stream.
Qed.
Lemma runs_countdown ms t s (Q : Timer W -> st -> Prop) :
  (forall t' w', stream w' = stream (world s) -> Q t' (mk_st (client s) w' (log s))) ->
  runs (lift (TimerCountdownMS ms t)) s Q.
Proof. intros H. apply runs_lift, H, peer_countdown_stream. Qed.
Lemma runs_not_expired t s (Q : bool * Timer W -> st -> Prop) :
  (forall t' w', stream w' = stream (world s) -> Q (false, t') (mk_st (client s) w' (log s))) ->
  runs (lift (TimerIsExpired t)) s Q.
Proof.
  intros H. apply runs_lift. pose proof (peer_not_expired t (world s)) as E.
  destruct (fst (TimerIsExpired t (world s))) as [e t'] eqn:E'. simpl in E. subst e.
  apply H, peer_expired_stream.
Qed.
Lemma runs_read n t s (Q : Z * bytes -> st -> Prop) :
  0 < n <= Z.of_nat (length (stream (world s))) ->
  (forall w', stream w' = drop (Z.to_nat n) (stream (world s)) ->
     Q (n, take (Z.to_nat n) (stream (world s))) (mk_st (client s) w' (log s))) ->
  runs (lift (mqttread n t)) s Q.
Proof.
  intros Hn H. apply runs_lift. destruct (peer_read n t (world s) Hn) as [-> E]. by apply H.
Qed.
Lemma runs_write data t s (Q : Z -> st -> Prop) :
  (forall w', stream w' = stream (world s) -> Q (Z.of_nat (length data)) (mk_st (client s) w' (log s))) ->
  runs (lift (mqttwrite data t)) s Q.
Proof. intros H. apply runs_lift. destruct (peer_write data t (world s)) as [-> E]. by apply H. Qed.

(** Reads of a client field through updates of others. *)
Ltac fields := cbn [client world log set_buf set_readbuf set_last_sent set_last_received set_session set_mutex
  set_ping set_connected set_next_packetid set_handlers next_packetid command_timeout_ms buf readbuf
  keepAliveInterval ping_outstanding isconnected cleansession messageHandlers defaultMessageHandler
  last_sent last_received mutex_held with_mutex].

(** Clients that differ only in their timers. *)
Definition same_session c c' : Prop :=
  exists t1 t2, c' = set_last_received t2 (set_last_sent t1 c).

#[global] Instance same_session_equiv : Equivalence same_session.
Proof.
  split.
  - intros c. exists (last_sent c), (last_received c). by destruct c.
  - intros c c' (t1 & t2 & ->). exists (last_sent c), (last_received c). by destruct c.
  - intros c1 c2 c3 (t1 & t2 & ->) (t3 & t4 & ->). by exists t3, t4.
Qed.

Lemma same_session_sent t c : same_session c (set_last_sent t c).
Proof. exists t, (last_received c). by destruct c. Qed.
Lemma same_session_received t c : same_session c (set_last_received t c).
Proof. exists (last_sent c), t. by destruct c. Qed.
#[global] Instance set_buf_proper b : Proper (same_session ==> same_session) (set_buf b).
Proof. intros c c' (t1 & t2 & ->). by exists t1, t2. Qed.
#[global] Instance set_readbuf_proper b : Proper (same_session ==> same_session) (set_readbuf b).
Proof. intros c c' (t1 & t2 & ->). by exists t1, t2. Qed.

(** ** Sending a packet *)

Lemma runs_sendPacket fuel len t s (Q : Z * Timer W -> st -> Prop) :
  (0 < fuel)%nat -> 0 < len <= buf_size (client s) ->
  (forall t' c' w', same_session (client s) c' -> stream w' = stream (world s) ->
     Q (SUCCESS, t') (mk_st c' w' (log s ++ [Wrote (take (Z.to_nat len) (buf (client s))) len]))) ->
  runs (sendPacket fuel len t) s Q.
Proof.
  intros Hf Hl HQ. destruct fuel as [|fuel]; [lia |]. unfold sendPacket.
  apply runs_bind. cbn [send_loop]. rewrite (proj2 (Z.ltb_lt 0 len)) by lia. cbn [negb].
  apply runs_bind, runs_not_expired. intros t1 w1 H1. cbn [client world log] in *.
  apply runs_bind, runs_left. intros ms t2 w2 H2. cbn [client world log] in *.
  apply runs_bind. unfold buf_slice. apply runs_bind, runs_get. cbn [client].
  rewrite (proj2 (Z.leb_le _ _)) by lia. apply runs_ret. change (Z.to_nat 0) with 0%nat. rewrite drop_0.
  apply runs_bind, runs_write. intros w3 H3. cbn [client world log] in *.
  assert (Z.of_nat (length (take (Z.to_nat len) (buf (client s)))) = len) as Hlen
    by (rewrite length_take; unfold buf_size in Hl; lia).
  rewrite Hlen. apply runs_bind, runs_emit. rewrite (proj2 (Z.ltb_ge _ 0)) by lia.
  replace (0 + len) with len by lia.
  assert (forall fuel t, send_loop fuel len len t = ret (len, t)) as Hend
    by (intros [|]; simpl; by rewrite Z.ltb_irrefl).
  rewrite Hend. apply runs_ret. rewrite Z.eqb_refl.
  apply runs_bind, runs_get. apply runs_bind, runs_countdown. intros t4 w4 H4. cbn [client world log] in *.
  apply runs_bind, runs_modify. apply runs_ret. apply HQ; [apply same_session_sent | streams].
Qed.

(** ** Receiving a packet *)

Lemma runs_decode_byte fuel len mult v t b rest s (Q : Z -> st -> Prop) :
  stream (world s) = b :: rest -> len < 4 ->
  (forall w', stream w' = rest ->
     runs (if negb (b .& 128 =? 0)
           then decodePacket_loop fuel (len + 1) (mult * 128) (v + (b .& 127) * mult) t
           else ret (v + (b .& 127) * mult)) (mk_st (client s) w' (log s)) Q) ->
  runs (decodePacket_loop (S fuel) len mult v t) s Q.
Proof.
  intros Hs Hl HQ. cbn [decodePacket_loop]. rewrite (proj2 (Z.ltb_ge 4 _)) by lia.
  apply runs_bind, runs_read; [rewrite Hs; simpl; lia |]. intros w' Hw. rewrite Hs in *.
  change (Z.to_nat 1) with 1%nat in *. simpl in Hw. cbn [negb Z.eqb Pos.eqb take].
  apply runs_bind, (runs_of_option _ b); [done |]. apply HQ. by rewrite Hw, drop_0.
Qed.

Lemma runs_decode_last fuel len mult v t d rest s (Q : Z -> st -> Prop) :
  0 <= d < 128 -> stream (world s) = d :: rest -> len < 4 ->
  (forall w', stream w' = rest -> Q (v + d * mult) (mk_st (client s) w' (log s))) ->
  runs (decodePacket_loop (S fuel) len mult v t) s Q.
Proof.
  intros Hd Hs Hl HQ. eapply runs_decode_byte; [exact Hs | done |]. intros w' Hw.
  rewrite land_128_digit, land_127, Z.mod_small by done. apply runs_ret, HQ, Hw.
Qed.

Lemma runs_decode_more fuel len mult v t d rest s (Q : Z -> st -> Prop) :
  0 <= d < 128 -> stream (world s) = (128 + d) :: rest -> len < 4 ->
  (forall w', stream w' = rest ->
     runs (decodePacket_loop fuel (len + 1) (mult * 128) (v + d * mult) t) (mk_st (client s) w' (log s)) Q) ->
  runs (decodePacket_loop (S fuel) len mult v t) s Q.
Proof.
  intros Hd Hs Hl HQ. eapply runs_decode_byte; [exact Hs | done |]. intros w' Hw.
  rewrite (proj2 (Z.eqb_neq _ _) (land_128_more d Hd)), land_127. cbn [negb].
  replace ((128 + d) mod 128) with d by (clear -Hd; divlia). apply HQ, Hw.
Qed.

Lemma runs_decodePacket n t rest s (Q : Z -> st -> Prop) :
  0 <= n <= MAX_REMAINING_LENGTH -> stream (world s) = varint n ++ rest ->
  (forall w', stream w' = rest -> Q n (mk_st (client s) w' (log s))) ->
  runs (decodePacket t) s Q.
Proof.
  unfold MAX_REMAINING_LENGTH, decodePacket, varint. intros Hn Hs HQ.
  destruct (Z.ltb_spec n 128) as [H1 | H1]; [| destruct (Z.ltb_spec n 16384) as [H2 | H2];
    [| destruct (Z.ltb_spec n 2097152) as [H3 | H3]]]; cbn [app] in Hs.
  - eapply runs_decode_last; [| exact Hs | lia |]; [lia |]. intros w' Hw.
    replace (0 + n * 1) with n by lia. by apply HQ.
  - eapply runs_decode_more; [| exact Hs | lia |]; [clear; divlia |]. intros w1 Hw1.
    eapply runs_decode_last; [| exact Hw1 | lia |]; [clear -H1 H2; divlia |]. intros w2 Hw2.
    replace (0 + n mod 128 * 1 + n / 128 * (1 * 128)) with n by (clear; divlia). by apply HQ.
  - eapply runs_decode_more; [| exact Hs | lia |]; [clear; divlia |]. intros w1 Hw1.
    eapply runs_decode_more; [| exact Hw1 | lia |]; [clear; divlia |]. intros w2 Hw2.
    eapply runs_decode_last; [| exact Hw2 | lia |]; [clear -H1 H3; divlia |]. intros w3 Hw3.
    replace (0 + n mod 128 * 1 + n / 128 mod 128 * (1 * 128) + n / 16384 * (1 * 128 * 128)) with n
      by (rewrite <- div_128_128; clear; divlia). by apply HQ.
  - eapply runs_decode_more; [| exact Hs | lia |]; [clear; divlia |]. intros w1 Hw1.
    eapply runs_decode_more; [| exact Hw1 | lia |]; [clear; divlia |]. intros w2 Hw2.
    eapply runs_decode_more; [| exact Hw2 | lia |]; [clear; divlia |]. intros w3 Hw3.
    eapply runs_decode_last; [| exact Hw3 | lia |]; [clear -Hn H1; divlia |]. intros w4 Hw4.
    replace (0 + n mod 128 * 1 + n / 128 mod 128 * (1 * 128) + n / 16384 mod 128 * (1 * 128 * 128)
             + n / 2097152 * (1 * 128 * 128 * 128)) with n
      by (rewrite <- div_16384_128, <- div_128_128; clear; divlia). by apply HQ.
Qed.

Lemma runs_store i b s (Q : unit -> st -> Prop) :
  (i + length b <= length (readbuf (client s)))%nat ->
  Q () (mk_st (set_readbuf (take i (readbuf (client s)) ++ b ++ drop (i + length b) (readbuf (client s)))
                 (client s)) (world s) (log s)) ->
  runs (store i b) s Q.
Proof.
  intros Hl HQ. unfold store. apply runs_bind, runs_get. rewrite decide_True by done.
  by apply runs_modify.
Qed.

(** The end of [readPacket]: the type is read back from the buffer. *)
Lemma runs_read_finish (timer : Timer W) h rb s (Q : Z * Timer W -> st -> Prop) :
  readbuf (client s) = h :: rb ->
  (forall c' w', same_session (client s) c' -> stream w' = stream (world s) ->
     Q (bits_type h, timer) (mk_st c' w' (log s))) ->
  runs (bind get (fun c => bind (of_option (readbuf c !! 0%nat)) (fun byte =>
          bind (if 0 <? keepAliveInterval c then
                  bind (lift (TimerCountdown (keepAliveInterval c) (last_received c)))
                    (fun t => modify (set_last_received t))
                else ret ()) (fun _ => ret (bits_type byte, timer))))) s Q.
Proof.
  intros Hrb HQ. apply runs_bind, runs_get. apply runs_bind, (runs_of_option _ h); [by rewrite Hrb |].
  apply runs_bind. case_match.
  - apply runs_bind, runs_countdown. intros t' w' Hw. apply runs_modify, runs_ret.
    apply HQ; [apply same_session_received | done].
  - apply runs_ret, runs_ret. destruct s. by apply HQ.
Qed.

(** The packet at the head of the stream ends up at the front of the receive
    buffer, and its type is returned. *)
Lemma runs_readPacket t type dup qos retain body rest s (Q : Z * Timer W -> st -> Prop) :
  let pkt := packet type dup qos retain body in
  0 <= type < 16 -> flag dup -> 0 <= qos < 4 -> flag retain ->
  stream (world s) = pkt ++ rest ->
  (length pkt <= length (readbuf (client s)))%nat ->
  Z.of_nat (length (readbuf (client s))) <= MAX_REMAINING_LENGTH ->
  (forall t' c' w',
     same_session (set_readbuf (pkt ++ drop (length pkt) (readbuf (client s))) (client s)) c' ->
     stream w' = rest -> Q (type, t') (mk_st c' w' (log s))) ->
  runs (readPacket t) s Q.
Proof.
  intros pkt Ht Hd Hq Hr Hs Hlen Hmax HQ. destruct s as [c w l]. cbn [client world log] in *.
  set (h := MQTTHeader type dup qos retain) in *. set (n := Z.of_nat (length body)).
  assert (length pkt = S (length (varint n) + length body)) as Hpl
    by (unfold pkt, packet; simpl; by rewrite length_app).
  assert (pkt = h :: varint n ++ body) as Hpkt by done.
  assert (n = Z.of_nat (length body)) as En by done. clearbody n.
  destruct (readbuf c) as [|x0 rb] eqn:Erb; [simpl in Hlen; lia |]. cbn [length] in Hlen, Hmax.
  unfold readPacket. apply runs_bind, runs_left. intros ms1 t1 w1 H1. cbn [client world log] in *.
  apply runs_bind, runs_read; [cbn [world]; rewrite H1, Hs, Hpkt; simpl; lia |]. intros w2 H2. cbn [client world log] in *.
  rewrite H1, Hs, Hpkt in *. change (Z.to_nat 1) with 1%nat in *. cbn [take drop app] in H2 |- *.
  rewrite drop_0 in H2. rewrite take_0.
  apply runs_bind, runs_store; [cbn [client]; rewrite Erb; simpl; lia |].
  cbn [client world log negb Z.eqb Pos.eqb]. rewrite Erb. cbn [take app length Nat.add drop]. rewrite drop_0.
  apply runs_bind, runs_left. intros ms2 t2 w3 H3. cbn [client world log] in *.
  rewrite H2, <- (assoc_L (++)) in H3.
  apply runs_bind. eapply (runs_decodePacket n); [lia | exact H3 |].
  intros w4 H4. cbn [client world log].
  apply runs_bind, runs_get. cbn [client]. cbn [readbuf set_readbuf].
  assert (length (varint n) <= length rb)%nat as Hvl by lia.
  apply runs_bind. eapply runs_of_option; [apply (emits_encode n ltac:(lia) [h] rb Hvl) |].
  cbn [w_mem w_ptr length app Nat.add].
  apply runs_bind, runs_modify. cbn [client world log].
  unfold readbuf_size. cbn [readbuf set_readbuf length].
  assert (MAX_REMAINING_LENGTH < 2 ^ 32) by (unfold MAX_REMAINING_LENGTH; lia).
  rewrite !u32_id by (unfold is_u32; lia).
  rewrite (proj2 (Z.ltb_ge _ _)) by lia.
  assert (bits_type h = type) as Hbt by (by apply header_bits).
  set (rb1 := h :: varint n ++ drop (length (varint n)) rb) in *.
  assert (take (S (length (varint n))) rb1 ++ body ++ drop (S (length (varint n)) + length body) rb1
          = (h :: varint n ++ body) ++ drop (length (h :: varint n ++ body)) (x0 :: rb)) as Hfin.
  { unfold rb1. cbn [take app drop Nat.add length]. f_equal. rewrite take_app_length, <- (assoc_L (++)). f_equal. f_equal.
    rewrite <- drop_drop, drop_app_length, drop_drop, length_app. done. }
  rewrite <- Hfin in HQ. apply runs_bind. destruct (Z.ltb_spec 0 n) as [Hn | Hn].
  - apply runs_bind, runs_left. intros ms3 t3 w5 H5. cbn [client world log] in *.
    rewrite H4 in H5.
    apply runs_bind, runs_read; [cbn [world]; rewrite H5, length_app; lia |].
    intros w6 H6. cbn [client world log] in *. rewrite H5 in *.
    replace (Z.to_nat n) with (length body) in * by lia. rewrite take_app_length. rewrite drop_app_length in H6.
    apply runs_bind, runs_store.
    { cbn [client readbuf set_readbuf]. unfold rb1. simpl. rewrite length_app, length_drop. lia. }
    apply runs_ret. rewrite Z.eqb_refl. cbn [negb client world log readbuf set_readbuf].
    eapply runs_read_finish; [cbn; reflexivity |].
    intros c' w' Hc Hw. rewrite Hbt. cbn [client world log] in *. apply HQ; [| congruence].
    exact Hc.
  - apply runs_ret. cbn [negb]. eapply runs_read_finish; [cbn; reflexivity |].
    intros c' w' Hc Hw. rewrite Hbt. cbn [client world log] in *.
    assert (body = []) as -> by (destruct body; [done | simpl in En; lia]).
    apply HQ; [| simpl in H4; congruence].
    rewrite app_nil_l, Nat.add_0_r, take_drop. exact Hc.
Qed.

(** ** The receive cycle *)

Lemma runs_fill f s len b (Q : Z -> st -> Prop) :
  f (buf (client s)) (buf_size (client s)) = Some (len, b) ->
  Q len (mk_st (set_buf b (client s)) (world s) (log s)) -> runs (fill f) s Q.
Proof.
  intros Hf HQ. unfold fill. apply runs_bind, runs_get. eapply runs_bind, runs_of_option; [exact Hf |].
  apply runs_bind, runs_modify. by apply runs_ret.
Qed.

Lemma runs_keepalive fuel s (Q : Z -> st -> Prop) :
  (forall c' w', same_session (client s) c' -> stream w' = stream (world s) ->
     Q SUCCESS (mk_st c' w' (log s))) ->
  runs (keepalive fuel) s Q.
Proof.
  intros HQ. unfold keepalive. apply runs_bind, runs_get. case_match.
  { apply runs_ret. destruct s. by apply HQ. }
  apply runs_bind, runs_not_expired. intros t1 w1 H1. apply runs_bind, runs_modify.
  apply runs_bind. apply runs_bind, runs_not_expired. intros t2 w2 H2. apply runs_bind, runs_modify.
  apply runs_ret. cbn [negb]. apply runs_ret. apply HQ; [| streams]. cbn [client].
  by exists t1, t2.
Qed.

Lemma runs_cycle_keepalive fuel p t s (Q : Z * Timer W -> st -> Prop) :
  (forall c' w', same_session (client s) c' -> stream w' = stream (world s) ->
     Q (p, t) (mk_st c' w' (log s))) ->
  runs (cycle_keepalive fuel SUCCESS p t) s Q.
Proof.
  intros HQ. unfold cycle_keepalive. apply runs_bind, runs_keepalive. intros c' w' Hc Hw.
  cbn [Z.eqb SUCCESS negb]. unfold cycle_exit. apply runs_ret. by apply HQ.
Qed.

(** Clients that differ only in their buffers and timers. *)
Definition same_but_buffers c c' : Prop :=
  exists b rb, same_session (set_buf b (set_readbuf rb c)) c'
    /\ length b = length (buf c) /\ length rb = length (readbuf c).

(** The acknowledgement a publish of each QoS is due. *)
Definition publish_reply (qos packetid : Z) : list bytes :=
  if qos =? QOS1 then [packet PUBACK 0 0 0 (be16 packetid)]
  else if qos =? QOS2 then [packet PUBREC 0 0 0 (be16 packetid)] else [].

Lemma packet_body_le type dup qos retain body :
  (length body <= length (packet type dup qos retain body))%nat.
Proof. unfold packet. simpl. rewrite length_app. lia. Qed.

Lemma ack_buffer_length type dup qos retain packetid (b : bytes) :
  4 <= Z.of_nat (length b) ->
  length (packet type dup qos retain (be16 packetid) ++ drop 4 b) = length b.
Proof.
  intros Hb. rewrite length_app, length_drop. change (length (packet _ _ _ _ _)) with 4%nat. lia.
Qed.

(** Fill the send buffer with an acknowledgement and send it. *)
Lemma runs_send_ack fuel type packetid t s (Q : Z * Timer W -> st -> Prop) :
  (0 < fuel)%nat -> 0 <= type < 16 -> is_u16 packetid ->
  4 <= Z.of_nat (length (buf (client s))) <= MAX_REMAINING_LENGTH ->
  let pkt := packet type 0 (if type =? PUBREL then 1 else 0) 0 (be16 packetid) in
  (forall t' c' w', same_session (set_buf (pkt ++ drop 4 (buf (client s))) (client s)) c' ->
     stream w' = stream (world s) -> Q (SUCCESS, t') (mk_st c' w' (log s ++ [Wrote pkt 4]))) ->
  runs (bind (fill (fun b n => MQTTSerialize_ack b n type 0 packetid))
          (fun len => if len <=? 0 then ret (FAILURE, t) else sendPacket fuel len t)) s Q.
Proof.
  intros Hf Ht Hi Hl pkt HQ. apply runs_bind. eapply runs_fill.
  { apply serialize_ack_bytes; try done. by left. }
  cbn [Z.leb Z.compare]. apply runs_sendPacket; [done | |].
  - unfold buf_size. cbn [client buf set_buf]. rewrite ack_buffer_length; lia.
  - intros t' c' w' Hc Hw. cbn [client buf set_buf world log] in *. by apply HQ.
Qed.

Context (junk : publish_out).

(** The message a handler receives. *)
Definition received (dup qos retained packetid : Z) (payload : bytes) : MQTTMessage :=
  mk_MQTTMessage qos retained dup (if 0 <? qos then packetid else po_packetid junk)
    (Some payload) (Z.of_nat (length payload)).

Lemma runs_handle_publish fuel t dup qos retained packetid topic payload rb s
    (Q : bool * Z * Timer W -> st -> Prop) :
  let pkt := packet PUBLISH dup qos retained (publish_body qos packetid topic payload) in
  (0 < fuel)%nat -> flag dup -> 0 <= qos <= 2 -> flag retained -> is_u16 packetid ->
  Z.of_nat (length topic) < 65536 ->
  Z.of_nat (length (publish_body qos packetid topic payload)) <= MAX_REMAINING_LENGTH ->
  readbuf (client s) = pkt ++ rb ->
  4 <= Z.of_nat (length (buf (client s))) <= MAX_REMAINING_LENGTH ->
  wf_slots (messageHandlers (client s)) ->
  (forall t' c' w' b, length b = length (buf (client s)) -> same_session (set_buf b (client s)) c' ->
     stream w' = stream (world s) ->
     Q (false, SUCCESS, t')
       (mk_st c' w' (log s ++ ((fun h => Delivered h (lenstr topic) (received dup qos retained packetid payload))
                               <$> recipients (client s) topic)
                      ++ ((fun p => Wrote p 4) <$> publish_reply qos packetid)))) ->
  runs (handle_publish junk fuel t) s Q.
Proof.
  intros pkt Hf Hd Hq Hr Hi Htl Hbl Hrb Hbuf Hwf HQ. unfold handle_publish.
  apply runs_bind, runs_get. apply runs_bind.
  set (o0 := mk_publish_out _ _ _ _ _ _ _).
  destruct (deserialize_publish_bytes o0 dup qos retained packetid topic payload rb) as (idx & HD & HP);
    [done | done | lia | done | done | done |].
  eapply runs_of_option; [rewrite Hrb; exact HD |].
  cbn [negb Z.eqb Pos.eqb po_qos po_topicName po_packetid po_retained po_dup po_payload po_payloadlen o0].
  assert (Z.of_nat (length payload) <= MAX_REMAINING_LENGTH) as Hpl.
  { revert Hbl. unfold publish_body. rewrite !length_app. lia. }
  assert (is_u32 (Z.of_nat (length payload))) as Hpu by (unfold is_u32, MAX_REMAINING_LENGTH in *; lia).
  unfold payload_bytes. cbn [mbind option_bind po_payload po_payloadlen]. rewrite Hrb, u32_id, Nat2Z.id by done.
  unfold pkt in *. rewrite HP. fold (received dup qos retained packetid payload). fold (lenstr topic).
  apply runs_bind. eexists _, _. split; [by apply deliverMessage_run |].
  unfold publish_reply, received in *. cbn [msg_qos].
  destruct (Z.eqb_spec qos QOS0) as [-> | H0]; [| destruct (Z.eqb_spec qos QOS1) as [-> | H1]].
  - apply runs_ret. specialize (HQ t (client s) (world s) (buf (client s)) eq_refl).
    rewrite app_nil_r in HQ. apply HQ; [| done]. by destruct (client s).
  - cbn [QOS1 QOS0 Z.eqb Pos.eqb].
    apply runs_assoc, runs_bind, runs_send_ack; [done | done | done | done |].
    intros t' c' w' Hc Hw. cbn [client world log] in *. apply runs_ret. rewrite <- (assoc_L (++)).
    eapply HQ; [| exact Hc | done]. apply ack_buffer_length; cbn [client buf set_readbuf set_last_sent set_last_received]; lia.
  - assert (qos = QOS2) as -> by (unfold QOS0, QOS1, QOS2 in *; lia). cbn [QOS2 QOS1 QOS0 Z.eqb Pos.eqb].
    apply runs_assoc, runs_bind, runs_send_ack; [done | done | done | done |].
    intros t' c' w' Hc Hw. cbn [client world log] in *. apply runs_ret. rewrite <- (assoc_L (++)).
    eapply HQ; [| exact Hc | done]. apply ack_buffer_length; cbn [client buf set_readbuf set_last_sent set_last_received]; lia.
Qed.

(** C28: receiving a PUBLISH of QoS 0, 1 or 2 hands topic and payload to the
    matching handlers and then sends nothing, PUBACK or PUBREC with the packet
    identifier received; the cycle returns PUBLISH and the session goes on. *)
Theorem cycle_publish fuel t dup qos retained packetid topic payload rest s :
  let pkt := packet PUBLISH dup qos retained (publish_body qos packetid topic payload) in
  (0 < fuel)%nat -> flag dup -> 0 <= qos <= 2 -> flag retained -> is_u16 packetid ->
  Z.of_nat (length topic) < 65536 -> stream (world s) = pkt ++ rest ->
  (length pkt <= length (readbuf (client s)))%nat ->
  Z.of_nat (length (readbuf (client s))) <= MAX_REMAINING_LENGTH ->
  4 <= Z.of_nat (length (buf (client s))) <= MAX_REMAINING_LENGTH ->
  wf_slots (messageHandlers (client s)) ->
  exists t' s', cycle junk fuel t s = Ret (PUBLISH, t') s' /\ stream (world s') = rest
    /\ same_but_buffers (client s) (client s')
    /\ log s' = log s
         ++ ((fun h => Delivered h (lenstr topic) (received dup qos retained packetid payload))
             <$> recipients (client s) topic)
         ++ ((fun p => Wrote p 4) <$> publish_reply qos packetid).
Proof.
  intros pkt Hf Hd Hq Hr Hi Htl Hs Hlen Hrb Hbuf Hwf.
  enough (runs (cycle junk fuel t) s (fun r s' => fst r = PUBLISH /\ stream (world s') = rest
    /\ same_but_buffers (client s) (client s') /\ log s' = log s
         ++ ((fun h => Delivered h (lenstr topic) (received dup qos retained packetid payload))
             <$> recipients (client s) topic)
         ++ ((fun p => Wrote p 4) <$> publish_reply qos packetid))) as ([r t'] & s' & E & <- & H)
    by (exists t', s'; by rewrite E).
  unfold cycle. apply runs_bind. eapply (runs_readPacket t PUBLISH dup qos retained);
    [done | done | lia | done | exact Hs | done | done |].
  intros t1 c1 w1 Hc1 Hw1. cbn [PUBLISH Z.eqb Pos.eqb CONNACK PUBACK SUBACK orb].
  destruct Hc1 as (ts & tr & ->). apply runs_bind.
  assert (Z.of_nat (length (publish_body qos packetid topic payload)) <= MAX_REMAINING_LENGTH).
  { pose proof (packet_body_le PUBLISH dup qos retained (publish_body qos packetid topic payload)).
    unfold pkt in Hlen. lia. }
  eapply (runs_handle_publish fuel t1 dup qos retained packetid topic payload); [done | done | done | done | done | done | done | reflexivity | done | done |].
  intros t2 c2 w2 b Hb Hc2 Hw2. cbn [client world log] in *.
  apply runs_cycle_keepalive. intros c3 w3 Hc3 Hw3. cbn [client world log fst] in *.
  split_and!; [done | congruence | | done].
  exists b, (pkt ++ drop (length pkt) (readbuf (client s))). split_and!.
  - rewrite <- Hc3, <- Hc2. by exists ts, tr.
  - done.
  - rewrite length_app, length_drop. lia.
Qed.

(** The receiver and sender halves of QoS 2: a PUBREC is answered with
    PUBREL and a PUBREL with PUBCOMP, for the packet identifier received. *)
Lemma cycle_qos2 fuel t type packetid rest s :
  let pkt := packet type 0 (if type =? PUBREL then 1 else 0) 0 (be16 packetid) in
  let answer := if type =? PUBREC then packet PUBREL 0 1 0 (be16 packetid)
                else packet PUBCOMP 0 0 0 (be16 packetid) in
  (0 < fuel)%nat -> type = PUBREC \/ type = PUBREL -> is_u16 packetid -> stream (world s) = pkt ++ rest ->
  4 <= Z.of_nat (length (readbuf (client s))) <= MAX_REMAINING_LENGTH ->
  4 <= Z.of_nat (length (buf (client s))) <= MAX_REMAINING_LENGTH ->
  exists t' s', cycle junk fuel t s = Ret (type, t') s' /\ stream (world s') = rest
    /\ same_but_buffers (client s) (client s') /\ log s' = log s ++ [Wrote answer 4].
Proof.
  intros pkt answer Hf Ht Hi Hs Hrb Hbuf.
  enough (runs (cycle junk fuel t) s (fun r s' => fst r = type /\ stream (world s') = rest
    /\ same_but_buffers (client s) (client s') /\ log s' = log s ++ [Wrote answer 4]))
    as ([r t'] & s' & E & <- & H) by (exists t', s'; by rewrite E).
  assert (0 <= type < 16) as Htr by (unfold PUBREC, PUBREL in Ht; lia).
  assert (length pkt = 4%nat) as Hlen by done.
  unfold cycle. apply runs_bind.
  eapply (runs_readPacket t type 0 (if type =? PUBREL then 1 else 0) 0);
    [done | by left | case_match; lia | by left | exact Hs | fold pkt; rewrite Hlen; lia | lia |].
  intros t1 c1 w1 Hc1 Hw1. destruct Hc1 as (ts & tr & ->).
  assert (forall (A : Type) (a b c d e f : A), (if type =? 0 then a else if (type =? CONNACK) || (type =? PUBACK)
     || (type =? SUBACK) then b else if type =? PUBLISH then c else
     if (type =? PUBREC) || (type =? PUBREL) then d else e) = d) as Hbranch
    by (destruct Ht as [-> | ->]; done).
  rewrite (Hbranch _ _ _ _ _ _ (ret (0, t1))). apply runs_bind. unfold handle_pubrec_pubrel.
  apply runs_bind, runs_get. cbn [client].
  apply runs_bind. eapply runs_of_option.
  { cbn [readbuf set_readbuf set_last_received set_last_sent]. unfold pkt at 1.
    rewrite <- (app_nil_r (be16 packetid)) at 1.
    apply (deserialize_ack_bytes _ type 0 (if type =? PUBREL then 1 else 0) 0 packetid []);
      [done | by left | destruct (type =? PUBREL); lia | by left | done | done]. }
  cbn [negb Z.eqb Pos.eqb]. apply runs_send_ack; [done | by destruct (type =? PUBREC) | done | done |].
  intros t2 c2 w2 Hc2 Hw2. cbn [client world log] in *. cbn [SUCCESS FAILURE Z.eqb].
  apply runs_cycle_keepalive. intros c3 w3 Hc3 Hw3. cbn [client world log fst] in *.
  assert (packet (if type =? PUBREC then PUBREL else PUBCOMP) 0
            (if (if type =? PUBREC then PUBREL else PUBCOMP) =? PUBREL then 1 else 0) 0 (be16 packetid) = answer)
    as Ha by (unfold answer; by destruct Ht as [-> | ->]).
  rewrite Ha in *. split_and!; [done | congruence | | done].
  eexists _, (pkt ++ drop (length pkt) (readbuf (client s))). split_and!.
  - rewrite <- Hc3, <- Hc2. by exists ts, tr.
  - unfold answer. case_match; apply ack_buffer_length; cbn [client buf set_readbuf set_last_sent set_last_received]; lia.
  - rewrite length_app, length_drop. lia.
Qed.

(** ** Commands *)

Lemma runs_locked {A} (m : M A) s (Q : A -> st -> Prop) :
  mutex_held (client s) = false ->
  runs m (with_mutex true s) (fun a s' => Q a (with_mutex false s')) -> runs (locked m) s Q.
Proof.
  intros Hm (a & s' & E & HQ). exists a, (with_mutex false s'). rewrite locked_run by done. by rewrite E.
Qed.

(** Waiting for the acknowledgement that is next on the stream. *)
Lemma runs_waitfor fuel t type body rest s (Q : Z * Timer W -> st -> Prop) :
  let pkt := packet type 0 0 0 body in
  (0 < fuel)%nat -> In type [CONNACK; PUBACK; SUBACK; PUBCOMP] -> stream (world s) = pkt ++ rest ->
  (length pkt <= length (readbuf (client s)))%nat ->
  Z.of_nat (length (readbuf (client s))) <= MAX_REMAINING_LENGTH ->
  (forall t' c' w',
     same_session (set_readbuf (pkt ++ drop (length pkt) (readbuf (client s))) (client s)) c' ->
     stream w' = rest -> Q (type, t') (mk_st c' w' (log s))) ->
  runs (waitfor junk fuel type t) s Q.
Proof.
  intros pkt Hf Ht Hs Hl Hm HQ. destruct fuel as [|fuel]; [lia |].
  unfold waitfor. cbn [wait_loop]. apply runs_bind, runs_not_expired. intros t1 w1 H1.
  cbn [client world log] in *. apply runs_bind. unfold cycle. apply runs_bind.
  eapply (runs_readPacket t1 type 0 0 0);
    [| by left | lia | by left | cbn [world]; rewrite H1; exact Hs | done | done |].
  { unfold CONNACK, PUBACK, SUBACK, PUBCOMP in Ht. simpl in Ht. lia. }
  intros t2 c2 w2 Hc2 Hw2. cbn [client world log] in *.
  assert (forall (A : Type) (a c d e f g : A), (if type =? 0 then a else if (type =? CONNACK) || (type =? PUBACK)
     || (type =? SUBACK) then a else if type =? PUBLISH then c else
     if (type =? PUBREC) || (type =? PUBREL) then d else if type =? PUBCOMP then a
     else e) = a) as Hbranch
    by (intros; simpl in Ht; destruct Ht as [<- | [<- | [<- | [<- | []]]]]; done).
  rewrite Hbranch by exact (ret (0, t)). apply runs_cycle_keepalive. intros c3 w3 Hc3 Hw3.
  cbn [client world log] in *. rewrite Z.eqb_refl. cbn [negb andb]. apply runs_ret.
  apply HQ; [by etrans | congruence].
Qed.

Lemma runs_send_filled f pkt fuel t s {A} (fail : Z * A) (k : Z * Timer W -> M (Z * A)) Q :
  (0 < fuel)%nat -> pkt <> [] -> (length pkt <= length (buf (client s)))%nat ->
  f (buf (client s)) (buf_size (client s))
    = Some (Z.of_nat (length pkt), pkt ++ drop (length pkt) (buf (client s))) ->
  (forall t' c' w',
     same_session (set_buf (pkt ++ drop (length pkt) (buf (client s))) (client s)) c' ->
     stream w' = stream (world s) ->
     runs (k (SUCCESS, t')) (mk_st c' w' (log s ++ [Wrote pkt (Z.of_nat (length pkt))])) Q) ->
  runs (bind (fill f) (fun len => if len <=? 0 then ret fail else bind (sendPacket fuel len t) k)) s Q.
Proof.
  intros Hf Hne Hl HF HQ. apply runs_bind. eapply runs_fill; [exact HF |].
  assert (0 < Z.of_nat (length pkt)) by (destruct pkt; [done | simpl; lia]).
  rewrite (proj2 (Z.leb_gt _ 0)) by done.
  apply runs_bind, runs_sendPacket; [done | |].
  { unfold buf_size. cbn [client buf set_buf]. rewrite length_app, length_drop. lia. }
  intros t' c' w' Hc Hw. cbn [client world log buf set_buf] in *.
  rewrite Nat2Z.id, take_app_length. by apply HQ.
Qed.

Lemma connect_runs fuel o data flags code rest s :
  let pkt := packet CONNECT 0 0 0 (connect_body o) in
  (0 < fuel)%nat -> connect_ok o ->
  isconnected (client s) = false -> mutex_held (client s) = false ->
  stream (world s) = packet CONNACK 0 0 0 [flags; code] ++ rest ->
  MQTTPacket_len (MQTTSerialize_connectLength o) <= Z.of_nat (length (buf (client s))) <= MAX_REMAINING_LENGTH ->
  4 <= Z.of_nat (length (readbuf (client s))) <= MAX_REMAINING_LENGTH ->
  runs (MQTTConnectWithResults junk fuel (Some o) data) s (fun r s' => r = (code, (code, flags .& 1))
    /\ log s' = log s ++ [Wrote pkt (Z.of_nat (length pkt))] /\ stream (world s') = rest
    /\ isconnected (client s') = (code =? 0) /\ mutex_held (client s') = false
    /\ keepAliveInterval (client s') = opt_keepAliveInterval o
    /\ messageHandlers (client s') = messageHandlers (client s)
    /\ next_packetid (client s') = next_packetid (client s)).
Proof.
  intros pkt Hf Hok Hc Hm Hs Hb Hrb.
  assert ((length pkt <= length (buf (client s)))%nat) as Hpl.
  { pose proof (packet_length_le CONNECT 0 0 0 (connect_body o)) as H.
    rewrite <- connectLength_body in H by done. unfold pkt. lia. }
  apply runs_locked; [done |]. unfold with_mutex. apply runs_bind, runs_get. cbn [client isconnected set_mutex].
  rewrite Hc. apply runs_bind, runs_bind, runs_countdown. intros t1 w1 H1. cbn [client world log default] in *.
  apply runs_bind, runs_modify, runs_bind, runs_countdown. intros t2 w2 H2. cbn [client world log] in *.
  apply runs_bind, runs_modify. cbn [client world log].
  apply (runs_send_filled _ pkt); [done | done | done | |].
  { unfold buf_size. cbn. apply serialize_connect_bytes; done. }
  intros t3 c3 w3 Hc3 Hw3. destruct Hc3 as (ts & tr & ->). cbn [client world log SUCCESS Z.eqb negb] in *.
  apply runs_bind. eapply (runs_waitfor fuel t3 CONNACK [flags; code] rest);
    [done | by left | cbn [world]; congruence | fields; change (length (packet _ _ _ _ [flags; code])) with 4%nat; lia | fields; lia |].
  intros t4 c4 w4 Hc4 Hw4. destruct Hc4 as (ts' & tr' & ->). cbn [client world log CONNACK Z.eqb Pos.eqb].
  apply runs_bind, runs_get. apply runs_bind. eapply runs_of_option.
  { cbn [client readbuf set_readbuf set_last_sent set_last_received]. apply deserialize_connack_bytes;
      [by left | lia | by left | done]. }
  cbn [Z.eqb Pos.eqb]. apply runs_ret. apply runs_bind.
  destruct (code =? SUCCESS) eqn:Ec; unfold SUCCESS in Ec; rewrite Ec.
  - apply runs_modify, runs_ret. done.
  - apply runs_ret, runs_ret. split_and!; try done. 
Qed.

(** Connecting with valid options sends exactly the CONNECT packet; when
    the broker answers CONNACK, its code is the result, and the client is
    connected exactly when the code is 0. *)
Lemma connect_exchange fuel o data flags code rest s :
  let pkt := packet CONNECT 0 0 0 (connect_body o) in
  (0 < fuel)%nat -> connect_ok o ->
  isconnected (client s) = false -> mutex_held (client s) = false ->
  stream (world s) = packet CONNACK 0 0 0 [flags; code] ++ rest ->
  MQTTPacket_len (MQTTSerialize_connectLength o) <= Z.of_nat (length (buf (client s))) <= MAX_REMAINING_LENGTH ->
  4 <= Z.of_nat (length (readbuf (client s))) <= MAX_REMAINING_LENGTH ->
  exists s', MQTTConnectWithResults junk fuel (Some o) data s = Ret (code, (code, flags .& 1)) s'
    /\ log s' = log s ++ [Wrote pkt (Z.of_nat (length pkt))] /\ stream (world s') = rest
    /\ isconnected (client s') = (code =? 0) /\ mutex_held (client s') = false
    /\ keepAliveInterval (client s') = opt_keepAliveInterval o
    /\ messageHandlers (client s') = messageHandlers (client s).
Proof.
  intros. edestruct connect_runs as (r & s' & Erun & -> & HQ); [done.. |]. destruct_and! HQ. by exists s'.
Qed.

Definition next_id c : Z := if next_packetid c =? MAX_PACKET_ID then 1 else next_packetid c + 1.

Lemma next_id_range c : client_inv c -> 1 <= next_id c <= MAX_PACKET_ID.
Proof. intros [H _ _]. unfold next_id, MAX_PACKET_ID in *. case_match; lia. Qed.

Lemma next_id_u16 c : client_inv c -> is_u16 (next_id c).
Proof. intros H%next_id_range. unfold is_u16, MAX_PACKET_ID in *. lia. Qed.

Lemma runs_getNextPacketId s (Q : Z -> st -> Prop) :
  Q (next_id (client s)) (mk_st (set_next_packetid (next_id (client s)) (client s)) (world s) (log s)) ->
  runs getNextPacketId s Q.
Proof. intros HQ. unfold getNextPacketId. apply runs_bind, runs_get, runs_bind, runs_modify, runs_ret, HQ. Qed.

(** The frame of a command that is run while connected and succeeds. *)
Lemma runs_command {A} (na : A) (body : MQTTClient -> M (Z * A)) s (Q : Z * A -> st -> Prop) :
  isconnected (client s) = true -> mutex_held (client s) = false ->
  runs (body (set_mutex true (client s))) (with_mutex true s)
    (fun r s' => fst r = SUCCESS /\ Q r (with_mutex false s')) ->
  runs (command na body) s Q.
Proof.
  intros Hc Hm HB. apply runs_locked; [done |]. apply runs_bind, runs_get. fields. rewrite Hc. cbn [negb].
  apply runs_bind. eapply runs_conseq; [exact HB |]. intros [rc a] s' [Hrc HQ]. simpl in Hrc. subst rc. cbn [SUCCESS FAILURE Z.eqb].
  apply runs_bind, runs_ret, runs_ret. exact HQ.
Qed.

Lemma publish_runs fuel topic retained payload dup0 id0 ackid rest s :
  let id := next_id (client s) in
  let pkt := packet PUBLISH 0 1 retained (publish_body 1 id topic payload) in
  (0 < fuel)%nat -> client_inv (client s) ->
  isconnected (client s) = true -> mutex_held (client s) = false ->
  string_ok (cstr topic) = true -> is_bytes payload -> flag retained -> is_u16 ackid ->
  stream (world s) = packet PUBACK 0 0 0 (be16 ackid) ++ rest ->
  MQTTPacket_len (MQTTSerialize_publishLength 1 (cstr topic) (Z.of_nat (length payload)))
    <= Z.of_nat (length (buf (client s))) <= MAX_REMAINING_LENGTH ->
  4 <= Z.of_nat (length (readbuf (client s))) <= MAX_REMAINING_LENGTH ->
  runs (MQTTPublish junk fuel topic
               (mk_MQTTMessage QOS1 retained dup0 id0 (Some payload) (Z.of_nat (length payload)))) s (fun r s' => r = (SUCCESS, id)
    /\ log s' = log s ++ [Wrote pkt (Z.of_nat (length pkt))] /\ stream (world s') = rest
    /\ isconnected (client s') = true /\ mutex_held (client s') = false
    /\ next_packetid (client s') = id /\ messageHandlers (client s') = messageHandlers (client s)).
Proof.
  intros id pkt Hf Hinv Hc Hm Hst Hpb Hr Hai Hs Hb Hrb.
  pose proof (next_id_u16 _ Hinv) as Hid. fold id in Hid.
  pose proof (serialize_publish_bytes (buf (client s)) 0 1 retained id (cstr topic) payload Hst Hpb
                ltac:(by left) ltac:(lia) Hr Hid Hb) as HS. cbv zeta in HS.
  change (contents (cstr topic)) with topic in HS. fold pkt in HS.
  assert ((length pkt <= length (buf (client s)))%nat) as Hpl.
  { pose proof (packet_length_le PUBLISH 0 1 retained (publish_body 1 id topic payload)) as H.
    assert (MQTTSerialize_publishLength 1 (cstr topic) (Z.of_nat (length payload))
            = Z.of_nat (length (publish_body 1 id topic payload))) as E.
    { unfold MQTTSerialize_publishLength, publish_body, MQTTstrlen. cbn [cstring cstr Z.ltb Z.compare].
      rewrite !length_app, length_wire_string, be16_length. lia. }
    rewrite E in Hb. unfold pkt. lia. }
  apply runs_command; [done | done |]. cbn [msg_qos msg_id msg_retained msg_payload msg_payloadlen].
  apply runs_bind, runs_countdown. intros t1 w1 H1. fields. cbn [QOS1 QOS2 Z.eqb Pos.eqb orb].
  apply runs_bind, runs_bind, runs_getNextPacketId, runs_ret. fields.
  change (next_id (set_mutex true (client s))) with id. rewrite u16_id by done.
  apply (runs_send_filled _ pkt); [done | done | done | exact HS |].
  intros t2 c2 w2 (ts & tr & ->) Hw2. fields. cbn [SUCCESS Z.eqb negb].
  unfold publish_wait. apply runs_bind, runs_bind.
  eapply (runs_waitfor fuel t2 PUBACK (be16 ackid) rest);
    [done | by right; left | streams
    | fields; change (length (packet _ _ _ _ (be16 ackid))) with 4%nat; lia | fields; lia |].
  intros t3 c3 w3 (ts' & tr' & ->) Hw3. fields. cbn [PUBACK Z.eqb Pos.eqb].
  apply runs_bind, runs_get. fields. apply runs_bind. eapply runs_of_option.
  { rewrite <- (app_nil_r (be16 ackid)) at 1.
    apply (deserialize_ack_bytes _ PUBACK 0 0 0 ackid []); (done || by left). }
  cbn [Z.eqb Pos.eqb negb]. by do 2 apply runs_ret.
Qed.

(** C27: publishing with QoS 1 uses the next packet identifier, sends exactly
    the PUBLISH packet, consumes the broker's PUBACK, and succeeds with the
    session and the handlers unchanged. *)
Theorem publish_exchange fuel topic retained payload dup0 id0 ackid rest s :
  let id := next_id (client s) in
  let pkt := packet PUBLISH 0 1 retained (publish_body 1 id topic payload) in
  (0 < fuel)%nat -> client_inv (client s) ->
  isconnected (client s) = true -> mutex_held (client s) = false ->
  string_ok (cstr topic) = true -> is_bytes payload -> flag retained -> is_u16 ackid ->
  stream (world s) = packet PUBACK 0 0 0 (be16 ackid) ++ rest ->
  MQTTPacket_len (MQTTSerialize_publishLength 1 (cstr topic) (Z.of_nat (length payload)))
    <= Z.of_nat (length (buf (client s))) <= MAX_REMAINING_LENGTH ->
  4 <= Z.of_nat (length (readbuf (client s))) <= MAX_REMAINING_LENGTH ->
  exists s', MQTTPublish junk fuel topic
               (mk_MQTTMessage QOS1 retained dup0 id0 (Some payload) (Z.of_nat (length payload))) s
             = Ret (SUCCESS, id) s'
    /\ log s' = log s ++ [Wrote pkt (Z.of_nat (length pkt))] /\ stream (world s') = rest
    /\ isconnected (client s') = true /\ mutex_held (client s') = false
    /\ next_packetid (client s') = id /\ messageHandlers (client s') = messageHandlers (client s).
Proof.
  intros. edestruct publish_runs as (r & s' & Erun & -> & HQ); [done.. |]. destruct_and! HQ. by exists s'.
Qed.

Lemma subscribe_runs fuel f qos h granted0 g ackid rest s :
  let id := next_id (client s) in
  let pkt := packet SUBSCRIBE 0 1 0 (subscribe_body id [(cstr f, qos)]) in
  let spec := set_handler_spec f (Some h) (table (messageHandlers (client s))) in
  (0 < fuel)%nat -> client_inv (client s) ->
  isconnected (client s) = true -> mutex_held (client s) = false ->
  string_ok (cstr f) = true -> is_u8 qos -> is_u16 ackid -> fst spec = SUCCESS ->
  stream (world s) = packet SUBACK 0 0 0 (be16 ackid ++ [g]) ++ rest ->
  MQTTPacket_len (MQTTSerialize_subscribeLength [cstr f])
    <= Z.of_nat (length (buf (client s))) <= MAX_REMAINING_LENGTH ->
  5 <= Z.of_nat (length (readbuf (client s))) <= MAX_REMAINING_LENGTH ->
  runs (MQTTSubscribeWithResults junk fuel f qos (Some h) granted0) s (fun r s' => r = (SUCCESS, g)
    /\ log s' = log s ++ [Wrote pkt (Z.of_nat (length pkt))] /\ stream (world s') = rest
    /\ isconnected (client s') = true /\ mutex_held (client s') = false
    /\ table (messageHandlers (client s'))
       = (if g =? SUBFAIL then table (messageHandlers (client s)) else snd spec)
    /\ next_packetid (client s') = id).
Proof.
  intros id pkt spec Hf Hinv Hc Hm Hst Hq Hai Hspec Hs Hb Hrb.
  pose proof (next_id_u16 _ Hinv) as Hid. fold id in Hid.
  assert (Forall (fun t => string_ok (fst t) = true /\ is_u8 (snd t)) [(cstr f, qos)]) as Hts
    by (apply list.Forall_singleton; done).
  pose proof (serialize_subscribe_bytes (buf (client s)) id [(cstr f, qos)] Hts Hid Hb) as HS. cbv zeta in HS. fold pkt in HS.
  assert ((length pkt <= length (buf (client s)))%nat) as Hpl.
  { pose proof (packet_length_le SUBSCRIBE 0 1 0 (subscribe_body id [(cstr f, qos)])) as H.
    rewrite <- subscribe_length in H by done. cbn [fmap list_fmap fst] in H. unfold pkt. lia. }
  apply runs_command; [done | done |].
  apply runs_bind, runs_countdown. intros t1 w1 H1. fields.
  apply runs_bind, runs_getNextPacketId. fields.
  change (next_id (set_mutex true (client s))) with id.
  apply (runs_send_filled _ pkt); [done | done | done | exact HS |].
  intros t2 c2 w2 (ts & tr & ->) Hw2. fields. cbn [SUCCESS Z.eqb negb].
  apply runs_bind.
  eapply (runs_waitfor fuel t2 SUBACK (be16 ackid ++ [g]) rest);
    [done | by do 2 right; left | streams
    | fields; change (length (packet _ _ _ _ (be16 ackid ++ [g]))) with 5%nat; lia | fields; lia |].
  intros t3 c3 w3 (ts' & tr' & ->) Hw3. fields. cbn [SUBACK Z.eqb Pos.eqb].
  apply runs_bind, runs_get. fields. apply runs_bind. eapply runs_of_option.
  { apply (deserialize_suback_bytes _ _ 1 [QOS0] 0 0 0 ackid [g]); (done || by left). }
  cbn [lookup list_lookup app default Z.eqb Pos.eqb andb]. unfold Datatypes.id.
  destruct (g =? SUBFAIL); cbn [negb].
  - apply runs_ret. done.
  - match goal with |- runs _ ?s1 _ => set (s2 := s1) end.
    assert (client_inv (client s2)) as Hinv2 by (pose proof (next_id_range _ Hinv); destruct Hinv; by split).
    pose proof (set_handler_run f (Some h) s2 Hinv2) as HR. cbv zeta in HR.
    change (messageHandlers (client s2)) with (messageHandlers (client s)) in HR. fold spec in HR.
    destruct spec as [rc m]. simpl in Hspec. subst rc. destruct HR as (slots' & HR & _ & _ & <-).
    apply runs_bind. eexists _, _. split; [exact HR |]. by apply runs_ret.
Qed.

(** Subscribing sends exactly the SUBSCRIBE packet; when the broker
    grants a QoS the filter is in the handler table afterwards, and when it
    answers 0x80 the table is unchanged.  Both are reported as success. *)
Lemma subscribe_exchange fuel f qos h granted0 g ackid rest s :
  let id := next_id (client s) in
  let pkt := packet SUBSCRIBE 0 1 0 (subscribe_body id [(cstr f, qos)]) in
  let spec := set_handler_spec f (Some h) (table (messageHandlers (client s))) in
  (0 < fuel)%nat -> client_inv (client s) ->
  isconnected (client s) = true -> mutex_held (client s) = false ->
  string_ok (cstr f) = true -> is_u8 qos -> is_u16 ackid -> fst spec = SUCCESS ->
  stream (world s) = packet SUBACK 0 0 0 (be16 ackid ++ [g]) ++ rest ->
  MQTTPacket_len (MQTTSerialize_subscribeLength [cstr f])
    <= Z.of_nat (length (buf (client s))) <= MAX_REMAINING_LENGTH ->
  5 <= Z.of_nat (length (readbuf (client s))) <= MAX_REMAINING_LENGTH ->
  exists s', MQTTSubscribeWithResults junk fuel f qos (Some h) granted0 s = Ret (SUCCESS, g) s'
    /\ log s' = log s ++ [Wrote pkt (Z.of_nat (length pkt))] /\ stream (world s') = rest
    /\ isconnected (client s') = true /\ mutex_held (client s') = false
    /\ table (messageHandlers (client s'))
       = if g =? SUBFAIL then table (messageHandlers (client s)) else snd spec.
Proof.
  intros. edestruct subscribe_runs as (r & s' & Erun & -> & HQ); [done.. |]. destruct_and! HQ. by exists s'.
Qed.
End Runs.

(** ** Witnesses, on the example port *)
Import MqttClient.Example.

(** A QoS 1 publish "a/b" with payload [5] and identifier 258 arrives. *)
Lemma cycle_publish_witness :
  exists t' s',
    cycle (W := bytes) no_junk 1 TimerInit
      (mk_st connected ([50; 8; 0; 3; 97; 47; 98; 1; 2; 5] ++ [9]) []) = Ret (PUBLISH, t') s'
    /\ stream (world s') = [9] /\ same_but_buffers connected (client s')
    /\ log s' = [] ++ [Delivered 7 (lenstr [97; 47; 98]) (mk_MQTTMessage 1 0 0 258 (Some [5]) 1)]
                 ++ [Wrote [64; 2; 1; 2] 4].
Proof.
  apply (cycle_publish no_junk 1 TimerInit 0 1 0 258 [97; 47; 98] [5] [9]
           (mk_st connected ([50; 8; 0; 3; 97; 47; 98; 1; 2; 5] ++ [9]) [])).
  - lia.
  - by left.
  - lia.
  - by left.
  - unfold is_u16; lia.
  - reflexivity.
  - reflexivity.
  - vm_compute; lia.
  - vm_compute; discriminate.
  - vm_compute; split; discriminate.
  - repeat constructor.
Defined.

Lemma cycle_qos2_witness :
  exists t' s',
    cycle (W := bytes) no_junk 1 TimerInit (mk_st connected ([98; 2; 1; 2] ++ []) []) = Ret (PUBREL, t') s'
    /\ stream (world s') = [] /\ same_but_buffers connected (client s')
    /\ log s' = [] ++ [Wrote [112; 2; 1; 2] 4].
Proof.
  apply (cycle_qos2 no_junk 1 TimerInit PUBREL 258 [] (mk_st connected ([98; 2; 1; 2] ++ []) [])).
  - lia.
  - by right.
  - unfold is_u16; lia.
  - reflexivity.
  - vm_compute; split; discriminate.
  - vm_compute; split; discriminate.
Defined.

Lemma connect_exchange_witness :
  exists s', MQTTConnectWithResults (W := bytes) no_junk 1 (Some demo_options) (0, 0)
               (mk_st init ([32; 2; 0; 0] ++ []) []) = Ret (0, (0, 0)) s'
    /\ log s' = [] ++ [Wrote [16; 18; 0; 6; 77; 81; 73; 115; 100; 112; 3; 2; 2; 88; 0; 4; 117; 105; 115; 111] 20]
    /\ stream (world s') = [] /\ isconnected (client s') = true /\ mutex_held (client s') = false
    /\ keepAliveInterval (client s') = 600 /\ messageHandlers (client s') = messageHandlers init.
Proof.
  apply (connect_exchange no_junk 1 demo_options (0, 0) 0 0 [] (mk_st init ([32; 2; 0; 0] ++ []) [])).
  - lia.
  - constructor; try reflexivity; try (by left); try (by right); vm_compute; split; congruence.
  - reflexivity.
  - reflexivity.
  - reflexivity.
  - vm_compute; split; discriminate.
  - vm_compute; split; discriminate.
Defined.

Lemma connected_inv : client_inv connected.
Proof. split; [split; discriminate | reflexivity | by apply list.NoDup_singleton]. Qed.

Lemma publish_exchange_witness :
  exists s', MQTTPublish (W := bytes) no_junk 1 [97] (mk_MQTTMessage QOS1 0 0 0 (Some [5]) 1)
               (mk_st connected ([64; 2; 0; 2] ++ []) []) = Ret (SUCCESS, 2) s'
    /\ log s' = [] ++ [Wrote [50; 6; 0; 1; 97; 0; 2; 5] 8] /\ stream (world s') = []
    /\ isconnected (client s') = true /\ mutex_held (client s') = false
    /\ next_packetid (client s') = 2 /\ messageHandlers (client s') = messageHandlers connected.
Proof.
  apply (publish_exchange no_junk 1 [97] 0 [5] 0 0 2 [] (mk_st connected ([64; 2; 0; 2] ++ []) [])).
  - lia.
  - apply connected_inv.
  - reflexivity.
  - reflexivity.
  - reflexivity.
  - apply list.Forall_singleton. unfold is_u8; lia.
  - by left.
  - unfold is_u16; lia.
  - reflexivity.
  - vm_compute; split; discriminate.
  - vm_compute; split; discriminate.
Defined.

Lemma subscribe_exchange_witness :
  exists s', MQTTSubscribeWithResults (W := bytes) no_junk 1 [98] 1 (Some 9) 0
               (mk_st connected ([144; 3; 0; 2; 1] ++ []) []) = Ret (SUCCESS, 1) s'
    /\ log s' = [] ++ [Wrote [130; 6; 0; 2; 0; 1; 98; 1] 8] /\ stream (world s') = []
    /\ isconnected (client s') = true /\ mutex_held (client s') = false
    /\ table (messageHandlers (client s'))
       = snd (set_handler_spec [98] (Some 9) (table (messageHandlers connected))).
Proof.
  apply (subscribe_exchange no_junk 1 [98] 1 9 0 1 2 [] (mk_st connected ([144; 3; 0; 2; 1] ++ []) [])).
  - lia.
  - apply connected_inv.
  - reflexivity.
  - reflexivity.
  - reflexivity.
  - unfold is_u8; lia.
  - unfold is_u16; lia.
  - reflexivity.
  - reflexivity.
  - vm_compute; split; discriminate.
  - vm_compute; split; discriminate.
Defined.

(** ** Exchanges that go wrong *)

(** An UNSUBACK falls into the default case of the cycle, which closes the
    session: the command succeeds and leaves the client disconnected. *)
Lemma unsubscribe_disconnects :
  exists s', MQTTUnsubscribe (W := bytes) no_junk 1 [97; 47; 35] (mk_st connected [176; 2; 0; 2] [])
             = Ret (SUCCESS, ()) s' /\ isconnected (client s') = false.
Proof. eexists. split; vm_compute; reflexivity. Qed.

(** A port whose writes take the given numbers of bytes. *)
Definition partial_writes : MqttPort (list Z) := {|
  Timer := unit;
  TimerInit := tt;
  TimerCountdownMS _ _ w := (tt, w);
  TimerIsExpired _ w := ((false, tt), w);
  TimerLeftMS _ w := ((1000, tt), w);
  mqttread len _ w := ((0, []), w);
  mqttwrite data _ w := match w with n :: w => (Z.min n (Z.of_nat (length data)), w) | [] => (-1, []) end;
|}.

(** After a partial write the rest is offered with the full length again: the
    peer is sent bytes behind the packet and the packet counts as failed. *)
Lemma partial_write_resends :
  let c := MQTTClientInit (P := partial_writes) 1000 [1; 2; 3; 4; 9; 9] [] 0 [] in
  exists s', sendPacket (P := partial_writes) 5 4 tt (mk_st c [2; 4] []) = Ret (FAILURE, tt) s'
    /\ log s' = [Wrote [1; 2; 3; 4] 2; Wrote [3; 4; 9; 9] 4].
Proof. eexists. split; vm_compute; reflexivity. Qed.

End MqttExchange.
