(* ===== verification/MqttUiso.v ===== *)
(** * The MQTT port layer of the firmware

    Models [src/mqtt/MQTTuiso.c]: timers over FreeRTOS time-outs, and reading,
    writing and connecting a TCP socket of the SimpleLink driver.  The kernel's
    time-outs are the class [TimeOuts]; the port is an instance of [MqttPort],
    which the client of [MqttClient.v] is written against, and its bounds are
    an instance of [MqttPortLaws]. *)

From S2P Require Import Prelude Platform MqttPacket MqttClient.

(** FreeRTOS time-outs: [vTaskSetTimeOutState] records the current time,
    [xTaskCheckForTimeOut] tells whether the ticks have passed since then and
    updates the record and the ticks left. *)
Class TimeOuts (W : Type) := {
  TimeOut_t : Type;
  timeout_zero : TimeOut_t;
  vTaskSetTimeOutState : W -> TimeOut_t * W;
  xTaskCheckForTimeOut : TimeOut_t -> Z -> W -> (bool * TimeOut_t * Z) * W;
}.
#[global] Arguments TimeOut_t W {_}.

Module MqttUiso.

(** [configTICK_RATE_HZ] is 1000. *)
Definition portTICK_PERIOD_MS : Z := 1.

Section Port.
Context {W : Type} {SL : SimpleLink W} {TO : TimeOuts W}.

(** The socket of the network structure and the driver with its trace. *)
Record network := mk_network { my_socket : Z; link : net W }.

Definition with_dev {A} (f : W -> A * W) (n : network) : A * network :=
  let '(a, w) := f (dev (link n)) in (a, mk_network (my_socket n) (mk_net w (trace (link n)))).

Record timer := mk_timer { xTicksToWait : Z; xTimeOut : TimeOut_t W }.

Definition TimerInit : timer := mk_timer 0 timeout_zero.

Definition TimerCountdownMS (timeout_ms : Z) (t : timer) (n : network) : timer * network :=
  let '(to, n) := with_dev vTaskSetTimeOutState n in
  (mk_timer (timeout_ms / portTICK_PERIOD_MS) to, n).

Definition check (t : timer) (n : network) : (bool * timer) * network :=
  let '(b, to, ticks, n) := with_dev (xTaskCheckForTimeOut (xTimeOut t) (xTicksToWait t)) n in
  ((b, mk_timer ticks to), n).

Definition TimerIsExpired (t : timer) (n : network) : (bool * timer) * network := check t n.

(** The tick count is unsigned: the comparison with 0 never holds.  The
    product is converted to [int]. *)
Definition TimerLeftMS (t : timer) (n : network) : (Z * timer) * network :=
  let '(_, t, n) := check t n in
  ((if xTicksToWait t <? 0 then 0 else s32 (xTicksToWait t * portTICK_PERIOD_MS), t), n).

(** The loop of [uiso_mqtt_read]: [recvd] is what was read so far.  A pass
    that goes on has read a byte, so that [len + 1] passes are enough. *)
Fixpoint read_loop (fuel : nat) (sd len : Z) (recvd : bytes) (n : net W) : option bytes * net W :=
  match fuel with
  | O => (None, n)
  | S fuel =>
    let '((rc, b), n) := call_recv sd (len - Z.of_nat (length recvd)) n in
    if rc <=? 0 then (Some recvd, n)
    else
      let recvd := recvd ++ b in
      if Z.of_nat (length recvd) <? len then read_loop fuel sd len recvd n else (Some recvd, n)
  end.

Definition uiso_mqtt_read (len timeout_ms : Z) (n : network) : (Z * bytes) * network :=
  let '(r, l) := read_loop (S (Z.to_nat len)) (my_socket n) len [] (link n) in
  let b := default [] r in ((Z.of_nat (length b), b), mk_network (my_socket n) l).

Definition uiso_mqtt_write (data : bytes) (timeout_ms : Z) (n : network) : Z * network :=
  let '(rc, l) := call_send (my_socket n) data (link n) in (rc, mk_network (my_socket n) l).

Definition uiso_mqtt_disconnect (n : network) : network :=
  mk_network (my_socket n) (snd (call_close (my_socket n) (link n))).

Definition init_network (n : network) : network := mk_network (-1) (link n).

(** The status of the name lookup is not looked at; [unset] is what the
    address variable holds when the lookup does not set it. *)
Definition NetworkConnect (unset : Z) (addr : bytes) (port : Z) (n : network) : Z * network :=
  let '((status, ip), l) := call_dns addr (link n) in
  let ipAddress := if status <? 0 then unset else ip in
  let sAddr := mk_sockaddr SL_AF_INET (rev16 (u16 port)) (rev32 ipAddress) in
  let '(sd, l) := call_socket SL_SOCK_STREAM SL_IPPROTO_TCP l in
  if sd <? 0 then (-1, mk_network sd l)
  else
    let '(retVal, l) := call_connect sd sAddr l in
    if retVal <? 0 then
      let '(_, l) := call_close sd l in (retVal, mk_network sd l)
    else (retVal, mk_network sd l).

#[export] Instance uiso_port : MqttPort network := {|
  Timer := timer;
  MqttClient.TimerInit := TimerInit;
  MqttClient.TimerCountdownMS := TimerCountdownMS;
  MqttClient.TimerIsExpired := TimerIsExpired;
  MqttClient.TimerLeftMS := TimerLeftMS;
  mqttread := uiso_mqtt_read;
  mqttwrite := uiso_mqtt_write;
|}.
End Port.

Arguments network W : clear implicits.

(** ** Reading *)

Section Laws.
Context {W : Type} {SL : SimpleLink W} {TO : TimeOuts W} `{!SimpleLinkLaws W}.

Lemma call_recv_law sd len (n : net W) r b n' :
  0 <= len -> call_recv sd len n = ((r, b), n') ->
  r <= len /\ Z.of_nat (length b) = Z.max 0 r /\ is_bytes b.
Proof.
  intros Hl E. pose proof (sl_recv_length sd len (dev n) Hl) as H.
  unfold call_recv, logged in E. injection E as E _. by rewrite E in H.
Qed.

(** A row of receive calls of the driver: the length asked for, the result and
    the bytes delivered, call by call. *)
Fixpoint recv_calls (sd : Z) (cs : list (Z * Z * bytes)) (n n' : net W) : Prop :=
  match cs with
  | [] => n' = n
  | (want, r, p) :: cs => exists n1, call_recv sd want n = ((r, p), n1) /\ recv_calls sd cs n1 n'
  end.

(** The bytes delivered, in the order of the calls. *)
Definition delivered (cs : list (Z * Z * bytes)) : bytes := concat (snd <$> cs).

(** Each call asks for what is missing after [got] bytes and the calls before
    it, and every call but the last one delivered something. *)
Definition asks_missing (len got : Z) (cs : list (Z * Z * bytes)) : Prop :=
  forall cs1 want r p cs2, cs = cs1 ++ (want, r, p) :: cs2 ->
    want = len - got - Z.of_nat (length (delivered cs1)) /\ (cs2 <> [] -> 0 < r).

Lemma asks_missing_one len got r p : asks_missing len got [(len - got, r, p)].
Proof.
  intros [| c cs1] want r' p' cs2 E; simpl in E; [| by destruct cs1]. injection E as <- <- <- <-.
  split; [simpl; lia | done].
Qed.

Lemma asks_missing_cons len got r p cs :
  0 < r -> asks_missing len (got + Z.of_nat (length p)) cs -> asks_missing len got ((len - got, r, p) :: cs).
Proof.
  intros Hr Hcs [| c cs1] want r' p' cs2 E; simpl in E.
  - injection E as <- <- <- <-. split; [simpl; lia | done].
  - injection E as <- E. destruct (Hcs _ _ _ _ _ E) as [-> H]. split; [| done].
    unfold delivered. rewrite fmap_cons. cbn [concat snd]. rewrite length_app. lia.
Qed.

(** The loop ends by its own conditions, within the fuel. *)
Lemma read_loop_spec fuel sd len recvd n :
  0 <= len -> Z.of_nat (length recvd) <= len -> is_bytes recvd ->
  len - Z.of_nat (length recvd) < Z.of_nat fuel ->
  exists cs n', read_loop fuel sd len recvd n = (Some (recvd ++ delivered cs), n')
    /\ recv_calls sd cs n n' /\ asks_missing len (Z.of_nat (length recvd)) cs
    /\ is_bytes (recvd ++ delivered cs) /\ Z.of_nat (length (recvd ++ delivered cs)) <= len
    /\ (Z.of_nat (length (recvd ++ delivered cs)) = len \/ exists cs0 c, cs = cs0 ++ [c] /\ c.1.2 <= 0).
Proof.
  intros Hl. revert recvd n. induction fuel as [|fuel IH]; intros recvd n Hr Hb Hf; [lia |].
  cbn [read_loop]. destruct (call_recv sd (len - Z.of_nat (length recvd)) n) as [[rc b] n1] eqn:E.
  pose proof (call_recv_law sd (len - Z.of_nat (length recvd)) n rc b n1 ltac:(lia) E) as (H1 & H2 & H3).
  assert (delivered [(len - Z.of_nat (length recvd), rc, b)] = b) as Hone by (cbn; by rewrite app_nil_r).
  destruct (Z.leb_spec rc 0) as [H0 | H0].
  { exists [(len - Z.of_nat (length recvd), rc, b)], n1. rewrite Hone. destruct b as [|]; [| simpl in H2; lia].
    rewrite app_nil_r. split_and!; try done; [by exists n1 | apply asks_missing_one |]. right. by exists [], (len - Z.of_nat (length recvd), rc, []). }
  assert (Z.of_nat (length (recvd ++ b)) = Z.of_nat (length recvd) + rc) as Hlen
    by (rewrite length_app; lia).
  assert (is_bytes (recvd ++ b)) as Hb' by (by apply Forall_app).
  destruct (Z.ltb_spec (Z.of_nat (length (recvd ++ b))) len) as [Hlt | Hge].
  - destruct (IH (recvd ++ b) n1) as (cs & n' & E' & Hc & Ha & Hb1 & Hb2 & Hend); [lia | done | lia |].
    exists ((len - Z.of_nat (length recvd), rc, b) :: cs), n'.
    assert (recvd ++ delivered ((len - Z.of_nat (length recvd), rc, b) :: cs) = (recvd ++ b) ++ delivered cs) as ->
      by (unfold delivered; rewrite fmap_cons; cbn [concat snd]; by rewrite (assoc_L (++))).
    split_and!; try done; [by exists n1 | |].
    + apply asks_missing_cons; [done |]. by rewrite <- Nat2Z.inj_add, <- length_app.
    + destruct Hend as [Hend | (cs0 & c & -> & Hr0)]; [by left |]. right. by exists ((len - Z.of_nat (length recvd), rc, b) :: cs0), c.
  - exists [(len - Z.of_nat (length recvd), rc, b)], n1. rewrite Hone.
    split_and!; try done; [by exists n1 | apply asks_missing_one | lia | left; lia].
Qed.

#[export] Instance uiso_port_laws : MqttPortLaws (network W).
Proof.
  split.
  - intros data t [sd l]. simpl. unfold uiso_mqtt_write. simpl.
    destruct (call_send sd data l) as [rc l'] eqn:E. simpl.
    unfold call_send, logged in E. injection E as <- _. apply sl_send_le.
  - intros len t [sd l] Hl. simpl. unfold uiso_mqtt_read. cbn [my_socket link].
    destruct (read_loop_spec (S (Z.to_nat len)) sd len [] l) as (cs & n' & -> & _ & _ & Hb & Hle & _);
      [done | simpl; lia | constructor | simpl; lia |].
    simpl in *. split_and!; [lia | lia | done].
Qed.

End Laws.

(** ** Connecting *)

(** A failed connection attempt leaves no socket open: every socket
    [NetworkConnect] opens is either connected, and kept in the network
    structure, or closed exactly once. *)
Lemma network_connect_sockets {W} {SL : SimpleLink W} unset addr port (n : network W) r n' :
  NetworkConnect unset addr port n = (r, n') -> trace (link n) = [] ->
  let t := trace (link n') in
  (0 <= r -> opened t = [my_socket n'] /\ closed t = [] /\ 0 <= my_socket n')
  /\ (r < 0 -> opened t = closed t).
Proof.
  unfold NetworkConnect. intros E Hn.
  destruct (call_dns addr (link n)) as [[status ip] l1] eqn:E1.
  destruct (call_socket SL_SOCK_STREAM SL_IPPROTO_TCP l1) as [sd l2] eqn:E2.
  destruct (Z.ltb_spec sd 0) as [Hsd | Hsd].
  { injection E as <- <-. trace_calls. cbn [link my_socket]. rewrite E2, E1, Hn. cbn.
    rewrite (proj2 (Z.leb_gt 0 sd)) by done. split; [lia | done]. }
  destruct (call_connect sd _ l2) as [retVal l3] eqn:E3.
  assert ((0 <=? sd) = true) as Hsd' by lia.
  destruct (Z.ltb_spec retVal 0) as [Hr | Hr].
  - destruct (call_close sd l3) as [x l4] eqn:E4. injection E as <- <-. trace_calls.
    cbn [link my_socket]. rewrite E4, E3, E2, E1, Hn. cbn. rewrite Hsd'. split; [lia | done].
  - injection E as <- <-. trace_calls. cbn [link my_socket]. rewrite E3, E2, E1, Hn. cbn.
    rewrite Hsd'. split; [done | lia].
Qed.

(** A driver that delivers two bytes per call. *)
Module Example.
#[export] Instance two_bytes : SimpleLink unit := {|
  dns_get_host_by_name _ w := ((0, 0), w);
  sl_socket _ _ _ w := (3, w);
  sl_bind _ _ w := (0, w);
  sl_connect _ _ w := (-5, w);
  sl_close _ w := (0, w);
  sl_send _ b w := (Z.of_nat (length b), w);
  sl_sendto _ b _ w := (Z.of_nat (length b), w);
  sl_recv _ len w := ((Z.min 2 len, take (Z.to_nat len) [7; 8]), w);
  sl_recvfrom _ len w := ((Z.min 2 len, take (Z.to_nat len) [7; 8], sockaddr_zero), w);
  sl_set_nonblocking _ w := (0, w);
  sl_devset_datetime _ w := (0, w) |}.

#[export] Instance two_bytes_laws : SimpleLinkLaws unit.
Proof.
  split; simpl; [lia | lia | |]; intros sd len w Hl; (split_and!; [lia | |]);
    try (rewrite length_take; simpl; lia); apply Forall_take; repeat constructor; done.
Qed.
End Example.
Import Example.


Lemma network_connect_sockets_witness :
  exists n', NetworkConnect (SL := two_bytes) 0 [97] 1883 (mk_network (-1) (mk_net tt [])) = (-5, n')
    /\ opened (trace (link n')) = closed (trace (link n')).
Proof.
  eexists. split; [reflexivity |].
  apply (network_connect_sockets (SL := two_bytes) 0 [97] 1883 (mk_network (-1) (mk_net tt [])) (-5) _);
    [reflexivity | reflexivity | lia].
Defined.

End MqttUiso.
