(* ===== verification/Monitor.v ===== *)
(** * The network monitor

    Models the select task of [src/network.c] and the functions that hand
    sockets to it: deadlines are registered per service, the task scans them,
    waits in [sl_Select] for at most two seconds, and signals the sockets that
    became ready.  The four service sockets are a list of [wait_ctx], the part
    of [struct uiso_sockets_s] the monitor works on; the fields the connection
    functions use are in [Network.v].  Binary semaphores are booleans. *)

From S2P Require Import Prelude Platform.

(** The driver's select call: the sets asked for (bit masks, [None] for a null
    pointer) and the timeout in seconds; the result and the sets returned.
    It only reports sockets it was asked about. *)
Class Selector (W : Type) := {
  sl_select : option Z -> option Z -> Z -> W -> (Z * option Z * option Z) * W;
}.
Class SelectorLaws (W : Type) {S : Selector W} := {
  select_subset r w t d : let '(_, r', w') := fst (sl_select r w t d) in
    (forall i, 0 <= i -> Z.testbit (default 0 r') i = true -> Z.testbit (default 0 r) i = true) /\
    (forall i, 0 <= i -> Z.testbit (default 0 w') i = true -> Z.testbit (default 0 w) i = true) /\
    (r = None -> r' = None) /\ (w = None -> w' = None);
}.

Module Monitor.

Definition wifi_service_max : nat := 4.
Definition MONITOR_MAX_RESPONSE_S : Z := 2.
Definition UISO_NETWORK_INVALID_SOCKET : Z := -1.
Definition BSD_SOCKET_ID_MASK : Z := 15.

Record wait_ctx := mk_wait_ctx {
  sd : Z;
  rx_wait_deadline_s : Z;
  tx_wait_deadline_s : Z;
  rx_signal : bool;
  tx_signal : bool;
}.

Definition initialize_wait_ctx : wait_ctx := mk_wait_ctx UISO_NETWORK_INVALID_SOCKET 0 0 false false.
Definition initialize_socket_management : list wait_ctx := replicate wifi_service_max initialize_wait_ctx.

Definition set_rx_deadline v c := mk_wait_ctx (sd c) v (tx_wait_deadline_s c) (rx_signal c) (tx_signal c).
Definition set_tx_deadline v c := mk_wait_ctx (sd c) (rx_wait_deadline_s c) v (rx_signal c) (tx_signal c).
Definition set_rx_signal v c := mk_wait_ctx (sd c) (rx_wait_deadline_s c) (tx_wait_deadline_s c) v (tx_signal c).
Definition set_tx_signal v c := mk_wait_ctx (sd c) (rx_wait_deadline_s c) (tx_wait_deadline_s c) (rx_signal c) v.

(** ** Registering *)

Definition wifi_service_register_rx_socket (id : nat) (now timeout_s : Z) (s : list wait_ctx) : list wait_ctx :=
  alter (set_rx_deadline (u32 (now + timeout_s))) id s.
Definition wifi_service_register_tx_socket (id : nat) (now timeout_s : Z) (s : list wait_ctx) : list wait_ctx :=
  alter (set_tx_deadline (u32 (now + timeout_s))) id s.

(** [enqueue_select_rx]: register, drop a stale signal, notify the monitor and
    wait.  [others] is what the other tasks do to the sockets until the wait
    ends; the result is 0 when the signal was given by then. *)
Definition enqueue_select_rx (id : nat) (now timeout_s : Z) (others : list wait_ctx -> list wait_ctx)
    (s : list wait_ctx) : Z * list wait_ctx :=
  let s := wifi_service_register_rx_socket id now timeout_s s in
  let s := alter (set_rx_signal false) id s in
  let s := others s in
  match s !! id with
  | Some c => if rx_signal c then (0, alter (set_rx_signal false) id s) else (-1, s)
  | None => (-1, s)
  end.

Definition enqueue_select_tx (id : nat) (now timeout_s : Z) (others : list wait_ctx -> list wait_ctx)
    (s : list wait_ctx) : Z * list wait_ctx :=
  let s := wifi_service_register_tx_socket id now timeout_s s in
  let s := alter (set_tx_signal false) id s in
  let s := others s in
  match s !! id with
  | Some c => if tx_signal c then (0, alter (set_tx_signal false) id s) else (-1, s)
  | None => (-1, s)
  end.

(** ** The select task *)

(** [SL_FD_SET] and [SL_FD_ISSET]: one bit per socket index. *)
Definition fd_bit (sd : Z) : Z := s16 sd .& BSD_SOCKET_ID_MASK.
Definition FD_SET (sd : Z) (set : option Z) : option Z := Some (default 0 set .| Z.shiftl 1 (fd_bit sd)).
Definition FD_ISSET (sd set : Z) : bool := test_mask set (Z.shiftl 1 (fd_bit sd)).

(** One deadline of the scan: the deadline kept, the timeout, the set. *)
Definition scan_deadline (now sd deadline timeout_min : Z) (set : option Z) : Z * Z * option Z :=
  if deadline =? 0 then (deadline, timeout_min, set)
  else if now <=? deadline then
    let current_timeout := deadline - now in
    (deadline, if current_timeout <? timeout_min then current_timeout else timeout_min, FD_SET sd set)
  else if u32 (deadline + 1) =? now then (deadline, 0, FD_SET sd set)
  else (0, timeout_min, set).

Definition scan_ctx (now : Z) (c : wait_ctx) (acc : Z * option Z * option Z) :
    wait_ctx * (Z * option Z * option Z) :=
  let '(timeout_min, rset, wset) := acc in
  if 0 <? sd c then
    let '(rx, timeout_min, rset) := scan_deadline now (sd c) (rx_wait_deadline_s c) timeout_min rset in
    let '(tx, timeout_min, wset) := scan_deadline now (sd c) (tx_wait_deadline_s c) timeout_min wset in
    (set_tx_deadline tx (set_rx_deadline rx c), (timeout_min, rset, wset))
  else (c, acc).

Fixpoint scan (now : Z) (s : list wait_ctx) (acc : Z * option Z * option Z) :
    list wait_ctx * (Z * option Z * option Z) :=
  match s with
  | [] => ([], acc)
  | c :: s => let '(c, acc) := scan_ctx now c acc in
              let '(s, acc) := scan now s acc in (c :: s, acc)
  end.

Definition dispatch_rx (set : Z) (c : wait_ctx) : wait_ctx :=
  if (0 <? sd c) && FD_ISSET (sd c) set then set_rx_signal true (set_rx_deadline 0 c) else c.

(** The write half passes the deadline it has just cleared, a null handle, to
    [xSemaphoreGive]: the behaviour is undefined as soon as a socket is
    writable. *)
Fixpoint dispatch_tx (set : Z) (s : list wait_ctx) : option (list wait_ctx) :=
  match s with
  | [] => Some []
  | c :: s => if (0 <? sd c) && FD_ISSET (sd c) set then None
              else s ← dispatch_tx set s; Some (c :: s)
  end.

Section Task.
Context {W : Type} {SL : Selector W}.

(** One turn of the task's loop.  Without a deadline the task sleeps until it
    is notified, which changes no socket. *)
Definition select_task_turn (now : Z) (s : list wait_ctx) (w : W) : option (list wait_ctx * W) :=
  let '(s, (timeout_min, rset, wset)) := scan now s (MONITOR_MAX_RESPONSE_S, None, None) in
  match rset, wset with
  | None, None => Some (s, w)
  | _, _ =>
    let '(result, rset, wset, w) := sl_select rset wset timeout_min w in
    if 0 <? result then
      let s := match rset with Some set => dispatch_rx set <$> s | None => s end in
      s ← match wset with Some set => dispatch_tx set s | None => Some s end;
      Some (s, w)
    else Some (s, w)
  end.
End Task.

(** ** The scan *)

(** A deadline keeps its socket in the select set up to one second after it
    has passed. *)
Definition live (now deadline : Z) : Prop := deadline <> 0 /\ (now <= deadline \/ u32 (deadline + 1) = now).

Definition in_set (sd : Z) (set : option Z) : Prop := exists v, set = Some v /\ FD_ISSET sd v = true.

Lemma fd_bit_range sd : 0 <= fd_bit sd < 16.
Proof. unfold fd_bit, BSD_SOCKET_ID_MASK. change 15 with (Z.ones 4). rewrite Z.land_ones by lia. apply Z.mod_pos_bound. lia. Qed.

Lemma FD_ISSET_testbit sd v : FD_ISSET sd v = Z.testbit v (fd_bit sd).
Proof.
  unfold FD_ISSET, test_mask. pose proof (fd_bit_range sd) as Hb. rewrite Z.shiftl_1_l.
  destruct (Z.testbit v (fd_bit sd)) eqn:E.
  - apply negb_true_iff, Z.eqb_neq. intros H.
    assert (Z.testbit (v .& 2 ^ fd_bit sd) (fd_bit sd) = true) as T
      by (rewrite Z.land_spec, E, Z.pow2_bits_true by lia; done).
    by rewrite H, Z.bits_0 in T.
  - apply negb_false_iff, Z.eqb_eq. apply Z.bits_inj'. intros i Hi.
    rewrite Z.land_spec, Z.bits_0, Z.pow2_bits_eqb by lia.
    destruct (Z.eqb_spec (fd_bit sd) i) as [<- | _]; [by rewrite E | apply andb_false_r].
Qed.

Lemma FD_SET_spec sd set i : 0 <= i ->
  Z.testbit (default 0 (FD_SET sd set)) i = Z.testbit (default 0 set) i || (i =? fd_bit sd).
Proof.
  intros Hi. unfold FD_SET. simpl. pose proof (fd_bit_range sd).
  rewrite Z.lor_spec, Z.shiftl_1_l, Z.pow2_bits_eqb by lia. by rewrite (Z.eqb_sym i).
Qed.

Lemma scan_deadline_spec now sd d tm set d' tm' set' :
  is_u32 now -> 0 <= tm -> is_u32 d -> scan_deadline now sd d tm set = (d', tm', set') ->
  0 <= tm' <= tm
  /\ (live now d -> d' = d /\ set' = FD_SET sd set /\ (now <= d -> tm' <= d - now) /\ (d < now -> tm' = 0))
  /\ (~ live now d -> d' = 0 /\ set' = set /\ tm' = tm).
Proof.
  unfold scan_deadline, live, is_u32. intros Hn Ht Hd.
  destruct (Z.eqb_spec d 0) as [-> | H0]; [intros [= <- <- <-]; split_and!; [lia | lia | tauto | tauto] |].
  destruct (Z.leb_spec now d) as [H1 | H1].
  { destruct (Z.ltb_spec (d - now) tm); intros [= <- <- <-]; (split_and!; [lia | lia | | tauto]);
      intros _; split_and!; try done; lia. }
  destruct (Z.eqb_spec (u32 (d + 1)) now) as [H2 | H2]; intros [= <- <- <-].
  - split_and!; [lia | lia | | tauto]. intros _. split_and!; try done; lia.
  - split_and!; [lia | lia | | done]. intros [_ [? | ?]]; lia.
Qed.

#[export] Instance live_dec now d : Decision (live now d).
Proof. unfold live. apply _. Defined.

Definition ctx_ok (c : wait_ctx) : Prop := is_u32 (rx_wait_deadline_s c) /\ is_u32 (tx_wait_deadline_s c).

(** What the scan does to one deadline, for a select timeout [tm]. *)
Definition deadline_scanned (now tm d d' : Z) : Prop :=
  (live now d -> d' = d /\ (now <= d -> tm <= d - now) /\ (d < now -> tm = 0)) /\
  (~ live now d -> d' = 0).

Record scanned (now tm : Z) (c c' : wait_ctx) : Prop := {
  sc_sd : sd c' = sd c;
  sc_rx_signal : rx_signal c' = rx_signal c;
  sc_tx_signal : tx_signal c' = tx_signal c;
  sc_closed : sd c <= 0 -> c' = c;
  sc_rx : 0 < sd c -> deadline_scanned now tm (rx_wait_deadline_s c) (rx_wait_deadline_s c');
  sc_tx : 0 < sd c -> deadline_scanned now tm (tx_wait_deadline_s c) (tx_wait_deadline_s c');
}.

Lemma deadline_scanned_le now tm tm' d d' :
  0 <= tm' <= tm -> deadline_scanned now tm d d' -> deadline_scanned now tm' d d'.
Proof.
  intros Ht [H1 H2]. split; [| done]. intros (-> & H3 & H4)%H1. split_and!; [done | |]; intros.
  - specialize (H3 ltac:(done)). lia.
  - specialize (H4 ltac:(done)). lia.
Qed.

Lemma scanned_le now tm tm' c c' : 0 <= tm' <= tm -> scanned now tm c c' -> scanned now tm' c c'.
Proof. intros Ht []. split; try done; eauto using deadline_scanned_le. Qed.

(** The sockets a set has bits for. *)
Definition waits (now : Z) (deadline : wait_ctx -> Z) (c : wait_ctx) (i : Z) : Prop :=
  0 < sd c /\ live now (deadline c) /\ fd_bit (sd c) = i.

Lemma scan_deadline_bits now sd d tm set d' tm' set' i :
  is_u32 now -> 0 <= tm -> is_u32 d -> scan_deadline now sd d tm set = (d', tm', set') -> 0 <= i ->
  Z.testbit (default 0 set') i = true <-> Z.testbit (default 0 set) i = true \/ (live now d /\ fd_bit sd = i).
Proof.
  intros Hn Ht Hd E Hi. destruct (scan_deadline_spec _ _ _ _ _ _ _ _ Hn Ht Hd E) as (_ & HL & HN).
  destruct (decide (live now d)) as [Hl | Hl].
  - destruct (HL Hl) as (_ & -> & _). rewrite FD_SET_spec, orb_true_iff, Z.eqb_eq by done.
    intuition congruence.
  - destruct (HN Hl) as (_ & -> & _). tauto.
Qed.

Lemma scan_ctx_spec now c tm r w c' tm' r' w' :
  is_u32 now -> 0 <= tm -> ctx_ok c -> scan_ctx now c (tm, r, w) = (c', (tm', r', w')) ->
  0 <= tm' <= tm /\ scanned now tm' c c' /\
  (forall i, 0 <= i -> Z.testbit (default 0 r') i = true <->
     Z.testbit (default 0 r) i = true \/ waits now rx_wait_deadline_s c i) /\
  (forall i, 0 <= i -> Z.testbit (default 0 w') i = true <->
     Z.testbit (default 0 w) i = true \/ waits now tx_wait_deadline_s c i).
Proof.
  intros Hn Ht [Hr Hw]. unfold scan_ctx, waits. destruct (Z.ltb_spec 0 (sd c)) as [Hs | Hs].
  2: { intros [= <- <- <- <-]. split_and!; [lia | lia | | |].
       - split; try done; lia.
       - intros i _. split; [tauto | intros [? | [? _]]; [done | lia]].
       - intros i _. split; [tauto | intros [? | [? _]]; [done | lia]]. }
  destruct (scan_deadline now (sd c) (rx_wait_deadline_s c) tm r) as [[rx tm1] r1] eqn:E1.
  destruct (scan_deadline now (sd c) (tx_wait_deadline_s c) tm1 w) as [[tx tm2] w1] eqn:E2.
  intros [= <- <- <- <-].
  destruct (scan_deadline_spec _ _ _ _ _ _ _ _ Hn Ht Hr E1) as (B1 & L1 & N1).
  destruct (scan_deadline_spec _ _ _ _ _ _ _ _ Hn (proj1 B1) Hw E2) as (B2 & L2 & N2).
  split_and!; [lia | lia | | |].
  - split; simpl; try done; [lia | |]; intros _; split.
    + intros (-> & _ & H3 & H4)%L1. split_and!; [done | |]; intros; [specialize (H3 ltac:(done)) | specialize (H4 ltac:(done))]; lia.
    + intros H. by apply N1 in H as (-> & _).
    + intros (-> & _ & H3 & H4)%L2. done.
    + intros H. by apply N2 in H as (-> & _).
  - intros i Hi. rewrite (scan_deadline_bits _ _ _ _ _ _ _ _ i Hn Ht Hr E1 Hi). tauto.
  - intros i Hi. rewrite (scan_deadline_bits _ _ _ _ _ _ _ _ i Hn (proj1 B1) Hw E2 Hi). tauto.
Qed.

Lemma scan_spec now s tm r w s' tm' r' w' :
  is_u32 now -> 0 <= tm -> Forall ctx_ok s -> scan now s (tm, r, w) = (s', (tm', r', w')) ->
  0 <= tm' <= tm /\ Forall2 (scanned now tm') s s' /\
  (forall i, 0 <= i -> Z.testbit (default 0 r') i = true <->
     Z.testbit (default 0 r) i = true \/ Exists (fun c => waits now rx_wait_deadline_s c i) s) /\
  (forall i, 0 <= i -> Z.testbit (default 0 w') i = true <->
     Z.testbit (default 0 w) i = true \/ Exists (fun c => waits now tx_wait_deadline_s c i) s).
Proof.
  intros Hn Ht Hok. revert tm r w s' tm' r' w' Ht.
  induction Hok as [|c s Hc Hok IH]; intros tm r w s' tm' r' w' Ht; cbn [scan].
  { intros [= <- <- <- <-]. split_and!; [lia | lia | constructor | |]; intros i _; rewrite Exists_nil; tauto. }
  destruct (scan_ctx now c (tm, r, w)) as [c1 [[tm1 r1] w1]] eqn:E1.
  destruct (scan now s (tm1, r1, w1)) as [s1 [[tm2 r2] w2]] eqn:E2. intros [= <- <- <- <-].
  destruct (scan_ctx_spec _ _ _ _ _ _ _ _ _ Hn Ht Hc E1) as (B1 & S1 & R1 & W1).
  destruct (IH _ _ _ _ _ _ _ (proj1 B1) E2) as (B2 & S2 & R2 & W2).
  split_and!; [lia | lia | | |].
  - constructor; [by eapply scanned_le | done].
  - intros i Hi. rewrite R2, R1, Exists_cons by done. tauto.
  - intros i Hi. rewrite W2, W1, Exists_cons by done. tauto.
Qed.

Lemma MAX_RESPONSE_nonneg : 0 <= MONITOR_MAX_RESPONSE_S.
Proof. unfold MONITOR_MAX_RESPONSE_S. lia. Qed.

(** The scan that precedes each select call.  The select timeout is at
    most two seconds and never beyond the nearest deadline, a socket is in the
    read (write) set exactly when it is open and has a read (write) deadline
    that has not passed by more than a second, and older deadlines are
    cleared. *)
Lemma scan_deadlines now s s' tm r w :
  is_u32 now -> Forall ctx_ok s ->
  scan now s (MONITOR_MAX_RESPONSE_S, None, None) = (s', (tm, r, w)) ->
  0 <= tm <= MONITOR_MAX_RESPONSE_S /\ Forall2 (scanned now tm) s s' /\
  (forall i, 0 <= i -> Z.testbit (default 0 r) i = true <-> Exists (fun c => waits now rx_wait_deadline_s c i) s) /\
  (forall i, 0 <= i -> Z.testbit (default 0 w) i = true <-> Exists (fun c => waits now tx_wait_deadline_s c i) s).
Proof.
  intros Hn Hok E.
  destruct (scan_spec _ _ _ _ _ _ _ _ _ Hn MAX_RESPONSE_nonneg Hok E) as (B & S & R & Wr).
  split_and!; [lia | lia | done | |]; intros i Hi; rewrite ?R, ?Wr by done; simpl; rewrite Z.bits_0;
    (split; [intros [? | ?]; done | tauto]).
Qed.

Lemma scan_deadlines_witness :
  let s := [mk_wait_ctx 17 101 0 false false; mk_wait_ctx 18 97 0 false false] in
  let s' := [mk_wait_ctx 17 101 0 false false; mk_wait_ctx 18 0 0 false false] in
  0 <= 1 <= MONITOR_MAX_RESPONSE_S /\ Forall2 (scanned 100 1) s s' /\
  (forall i, 0 <= i -> Z.testbit 2 i = true <-> Exists (fun c => waits 100 rx_wait_deadline_s c i) s) /\
  (forall i, 0 <= i -> Z.testbit 0 i = true <-> Exists (fun c => waits 100 tx_wait_deadline_s c i) s).
Proof.
  apply (scan_deadlines 100 [mk_wait_ctx 17 101 0 false false; mk_wait_ctx 18 97 0 false false]
           [mk_wait_ctx 17 101 0 false false; mk_wait_ctx 18 0 0 false false] 1 (Some 2) None).
  - unfold is_u32; lia.
  - repeat constructor; discriminate.
  - reflexivity.
Defined.

(** ** A turn of the task *)

(** The driver gives open sockets different indices. *)
Definition distinct_sockets (s : list wait_ctx) : Prop :=
  forall i j ci cj, s !! i = Some ci -> s !! j = Some cj -> 0 < sd ci -> 0 < sd cj ->
    fd_bit (sd ci) = fd_bit (sd cj) -> i = j.

(** What one turn may do to a socket. *)
Record turned (now : Z) (c c' : wait_ctx) : Prop := {
  tn_sd : sd c' = sd c;
  tn_tx_signal : tx_signal c' = tx_signal c;
  tn_deadline : rx_wait_deadline_s c' = rx_wait_deadline_s c \/ rx_wait_deadline_s c' = 0;
  tn_tx_deadline : tx_wait_deadline_s c' = tx_wait_deadline_s c \/ tx_wait_deadline_s c' = 0;
  tn_kept : rx_signal c = true -> rx_signal c' = true;
  tn_wake : rx_signal c = false -> rx_signal c' = true -> 0 < sd c /\ live now (rx_wait_deadline_s c);
}.

Lemma dispatch_tx_id set s s' : dispatch_tx set s = Some s' -> s' = s.
Proof.
  revert s'. induction s as [|c s IH]; intros s'; cbn [dispatch_tx]; [by intros [= <-] |].
  case_match; [done |]. destruct (dispatch_tx set s) as [s1|]; [| done]. intros [= <-]. by rewrite (IH s1).
Qed.

Lemma scanned_turned now tm c c' : scanned now tm c c' -> turned now c c'.
Proof.
  intros [H1 H2 H3 H4 H5 H6].
  assert (forall d d', deadline_scanned now tm d d' -> d' = d \/ d' = 0) as HD.
  { intros d d' [L N]. destruct (decide (live now d)) as [Hl | Hl]; [left; by destruct (L Hl) | right; auto]. }
  split; try congruence; (destruct (Z.le_gt_cases (sd c) 0) as [Hs | Hs]; [left; by rewrite H4 | auto]).
Qed.

Lemma dispatch_turned now tm set c c' :
  scanned now tm c c' -> (0 < sd c -> FD_ISSET (sd c) set = true -> live now (rx_wait_deadline_s c)) ->
  turned now c (dispatch_rx set c').
Proof.
  intros Hs Hset. pose proof (scanned_turned _ _ _ _ Hs) as [T1 T2 T3 T3' T4 T5]. destruct Hs as [S1 S2 S3 _ _ _].
  unfold dispatch_rx. rewrite S1. destruct ((0 <? sd c) && FD_ISSET (sd c) set) eqn:E; [| by split].
  apply andb_true_iff in E as [E1 E2]. split; simpl; try done; [by right |].
  intros _ _. split; [lia |]. apply Hset; [lia | done].
Qed.

Lemma turn_spec {W} {SL : Selector W} `{!SelectorLaws W} now s (w : W) s' w' :
  is_u32 now -> Forall ctx_ok s -> distinct_sockets s ->
  select_task_turn now s w = Some (s', w') -> Forall2 (turned now) s s'.
Proof.
  intros Hn Hok Hd. unfold select_task_turn.
  destruct (scan now s _) as [s1 [[tm r] wr]] eqn:E.
  destruct (scan_spec _ _ _ _ _ _ _ _ _ Hn MAX_RESPONSE_nonneg Hok E) as (_ & HS & HR & _).
  assert (Forall2 (turned now) s s1) as HT by (eapply Forall2_impl; [apply scanned_turned | exact HS]).
  assert (forall set, (forall i, 0 <= i -> Z.testbit set i = true -> Z.testbit (default 0 r) i = true) ->
            Forall2 (turned now) s (dispatch_rx set <$> s1)) as HD.
  { intros set Hset. apply Forall2_fmap_r. apply Forall2_same_length_lookup_2; [by eapply Forall2_length |].
    intros i c c' Hi Hi'. pose proof (Forall2_lookup_lr _ _ _ _ _ _ HS Hi Hi') as Hc.
    eapply dispatch_turned; [exact Hc |]. intros Hs Hb. rewrite FD_ISSET_testbit in Hb.
    pose proof (fd_bit_range (sd c)) as Hfb.
    apply Hset, HR in Hb as [Hb | Hb]; [by rewrite Z.bits_0 in Hb | | lia | lia].
    apply Exists_exists in Hb as (c2 & Hin & H1 & H2 & H3).
    apply list_elem_of_In, list_elem_of_lookup in Hin as (j & Hj).
    assert (j = i) as -> by (by eapply Hd). congruence. }
  pose proof (select_subset r wr tm w) as HL.
  destruct (sl_select r wr tm w) as [[[res r'] w1] wd] eqn:Es. simpl in HL. destruct HL as (L1 & L2 & L3 & L4).
  assert (forall w0, match r' with Some set => dispatch_rx set <$> s1 | None => s1 end = w0 ->
            Forall2 (turned now) s w0) as HD'.
  { intros w0 <-. destruct r' as [set|]; [by apply HD | done]. }
  destruct r as [rv|], wr as [wv|]; try (intros [= <- <-]; done).
  all: destruct (0 <? res); [| intros [= <- <-]; done]; cbn zeta;
    destruct w1 as [wset|]; cbn [mbind option_bind]; try (intros [= <- _]; by apply HD').
  all: destruct (dispatch_tx wset _) as [s2|] eqn:Ed; [| done]; cbn [mbind option_bind]; intros [= <- _];
    apply dispatch_tx_id in Ed as ->; by apply HD'.
Qed.

(** Without a pending write deadline the write set stays empty. *)
Definition no_writers (now : Z) (s : list wait_ctx) : Prop :=
  Forall (fun c => sd c <= 0 \/ ~ live now (tx_wait_deadline_s c)) s.

Lemma scan_no_writers now s tm r s' tm' r' w' :
  is_u32 now -> 0 <= tm -> Forall ctx_ok s -> no_writers now s ->
  scan now s (tm, r, None) = (s', (tm', r', w')) -> w' = None.
Proof.
  intros Hn Ht Hok Hw. revert tm r s' tm' r' w' Ht.
  induction Hw as [|c s Hc _ IH]; intros tm r s' tm' r' w' Ht; cbn [scan]; [by intros [= <- <- <- <-] |].
  apply list.Forall_cons in Hok as [Hcok Hok].
  destruct (scan_ctx now c (tm, r, None)) as [c1 [[tm1 r1] w1]] eqn:E1.
  destruct (scan now s (tm1, r1, w1)) as [s1 [[tm2 r2] w2]] eqn:E2. intros [= <- <- <- <-].
  pose proof (scan_ctx_spec _ _ _ _ _ _ _ _ _ Hn Ht Hcok E1) as (B1 & _).
  assert (w1 = None) as ->; [| eapply IH; [done | | exact E2]; lia].
  revert E1. unfold scan_ctx. destruct (Z.ltb_spec 0 (sd c)) as [Hs | Hs]; [| by intros [= <- <- <- <-]].
  destruct Hc as [Hc | Hc]; [lia |]. destruct Hcok as [Hr Htx].
  destruct (scan_deadline now (sd c) (rx_wait_deadline_s c) tm r) as [[rx tm3] r3] eqn:E3.
  destruct (scan_deadline now (sd c) (tx_wait_deadline_s c) tm3 None) as [[tx tm4] w4] eqn:E4.
  intros [= <- <- <- <-].
  destruct (scan_deadline_spec _ _ _ _ _ _ _ _ Hn Ht Hr E3) as (B3 & _).
  destruct (scan_deadline_spec _ _ _ _ _ _ _ _ Hn (proj1 B3) Htx E4) as (_ & _ & N). by destruct (N Hc) as (_ & -> & _).
Qed.

Lemma dispatch_rx_ready set c : 0 < sd c -> FD_ISSET (sd c) set = true ->
  rx_signal (dispatch_rx set c) = true /\ rx_wait_deadline_s (dispatch_rx set c) = 0.
Proof. intros Hs Hb. unfold dispatch_rx. by rewrite Hb, (proj2 (Z.ltb_lt _ _) Hs). Qed.

(** A turn of the select task wakes a reader only when its socket is open
    and its deadline is still live, and never signals a writer; and when no
    socket waits to write, the turn ends, every socket the driver reports
    readable is signalled and its deadline is cleared. *)
Lemma monitor_turn {W} {SL : Selector W} `{!SelectorLaws W} now s (w : W) :
  is_u32 now -> Forall ctx_ok s -> distinct_sockets s ->
  (forall s' w', select_task_turn now s w = Some (s', w') -> Forall2 (turned now) s s') /\
  (no_writers now s ->
   exists s' w', select_task_turn now s w = Some (s', w') /\
   forall s1 tm r res set wr i c,
     scan now s (MONITOR_MAX_RESPONSE_S, None, None) = (s1, (tm, Some r, None)) ->
     fst (sl_select (Some r) None tm w) = (res, Some set, wr) -> 0 < res ->
     s !! i = Some c -> 0 < sd c -> FD_ISSET (sd c) set = true ->
     exists c', s' !! i = Some c' /\ rx_signal c' = true /\ rx_wait_deadline_s c' = 0).
Proof.
  intros Hn Hok Hd. split; [intros s' w'; by apply turn_spec |]. intros Hw.
  destruct (scan now s (MONITOR_MAX_RESPONSE_S, None, None)) as [s1 [[tm r] wr]] eqn:E.
  assert (wr = None) as -> by (by eapply scan_no_writers in E; [| | apply MAX_RESPONSE_nonneg | |]).
  destruct (scan_spec _ _ _ _ _ _ _ _ _ Hn MAX_RESPONSE_nonneg Hok E) as (_ & HS & _).
  unfold select_task_turn. rewrite E.
  destruct r as [rv|]; [| exists s1, w; split; [done | by intros ? ? ? ? ? ? ? ? [=]]].
  pose proof (select_subset (Some rv) None tm w) as HL.
  destruct (sl_select (Some rv) None tm w) as [[[res r'] w1] wd] eqn:Es. cbn [fst] in *.
  destruct HL as (_ & _ & _ & HL). specialize (HL eq_refl). subst w1. cbn zeta. cbn [mbind option_bind].
  destruct (0 <? res) eqn:Er; eexists _, _; (split; [reflexivity |]);
    intros s2 tm2 r2 res2 set wr2 i c [= <- <- <-]; rewrite Es; cbn [fst]; intros [= <- -> _] Hres Hi Hs Hb; [| lia].
  pose proof (Forall2_lookup_l _ _ _ _ _ HS Hi) as (c1 & Hi1 & [S1 _ _ _ _ _]).
  exists (dispatch_rx set c1). rewrite list_lookup_fmap, Hi1. split; [done |].
  apply dispatch_rx_ready; by rewrite S1.
Qed.

(** ** Waiting for data *)

Fixpoint monitor_turns {W} {SL : Selector W} (nows : list Z) (s : list wait_ctx) (w : W) :
    option (list wait_ctx * W) :=
  match nows with
  | [] => Some (s, w)
  | now :: nows => '(s, w) ← select_task_turn now s w; monitor_turns nows s w
  end.

Lemma turned_stable now s s' :
  Forall2 (turned now) s s' -> distinct_sockets s -> distinct_sockets s'.
Proof.
  intros HT Hd i j ci cj Hi Hj Hsi Hsj Hb.
  destruct (Forall2_lookup_r _ _ _ _ _ HT Hi) as (ci0 & Hi0 & [E1 _ _ _ _ _]).
  destruct (Forall2_lookup_r _ _ _ _ _ HT Hj) as (cj0 & Hj0 & [E2 _ _ _ _ _]).
  rewrite E1 in *. rewrite E2 in *. by eapply Hd.
Qed.

Lemma turned_ok now s s' : Forall2 (turned now) s s' -> Forall ctx_ok s -> Forall ctx_ok s'.
Proof.
  intros HT. induction HT as [|c c' s s' [_ _ Hr Ht _ _] _ IH]; [constructor |].
  intros [[H1 H2] Hs]%list.Forall_cons. constructor; [| by apply IH].
  assert (is_u32 0) by (unfold is_u32; lia).
  split; [by destruct Hr as [-> | ->] | by destruct Ht as [-> | ->]].
Qed.

(** The signal of a socket whose deadline is [d] or cleared appears only at a
    turn at which [d] is live. *)
Lemma turns_wake {W} {SL : Selector W} `{!SelectorLaws W} nows d id s (w : W) s' w' c c' :
  Forall is_u32 nows -> Forall ctx_ok s -> distinct_sockets s ->
  s !! id = Some c -> rx_signal c = false -> rx_wait_deadline_s c = d \/ rx_wait_deadline_s c = 0 ->
  monitor_turns nows s w = Some (s', w') -> s' !! id = Some c' -> rx_signal c' = true ->
  exists now, now ∈ nows /\ live now d.
Proof.
  intros Hnows. revert s w c. induction Hnows as [|now nows Hn _ IH]; intros s w c Hok Hd Hc Hsig Hdl E Hc' Hsig'.
  - injection E as -> ->. congruence.
  - cbn [monitor_turns] in E. destruct (select_task_turn now s w) as [[s1 w1]|] eqn:E1; [| done].
    cbn [mbind option_bind] in E. pose proof (turn_spec _ _ _ _ _ Hn Hok Hd E1) as HT.
    destruct (Forall2_lookup_l _ _ _ _ _ HT Hc) as (c1 & Hc1 & [T1 T2 T3 T4 T5 T6]).
    destruct (rx_signal c1) eqn:Es1.
    + destruct (T6 Hsig eq_refl) as [_ Hl]. exists now. split; [by left |].
      destruct Hdl as [<- | H0]; [done |]. rewrite H0 in Hl. by destruct Hl.
    + destruct (IH s1 w1 c1) as (now' & Hin & Hl); try done.
      * by eapply turned_ok.
      * by eapply turned_stable.
      * destruct T3 as [T3 | T3]; rewrite T3; [done | by right].
      * exists now'. split; [by right | done].
Qed.

Lemma lookup_alter_sd (f : wait_ctx -> wait_ctx) (id : nat) (l : list wait_ctx) i c :
  (forall c, sd (f c) = sd c) -> alter f id l !! i = Some c -> exists c0, l !! i = Some c0 /\ sd c0 = sd c.
Proof.
  intros Hf. destruct (decide (id = i)) as [<- | Hne].
  - rewrite list_lookup_alter_eq. destruct (l !! id) as [c0|]; [| done]. intros [= <-]. eauto.
  - rewrite list_lookup_alter_ne by done. eauto.
Qed.

Lemma distinct_alter (f : wait_ctx -> wait_ctx) (id : nat) (l : list wait_ctx) :
  (forall c, sd (f c) = sd c) -> distinct_sockets l -> distinct_sockets (alter f id l).
Proof.
  intros Hf Hl i j ci cj Hi Hj. destruct (lookup_alter_sd f id l i ci Hf Hi) as (ci0 & Hi0 & <-).
  destruct (lookup_alter_sd f id l j cj Hf Hj) as (cj0 & Hj0 & <-). by eapply Hl.
Qed.

(** [enqueue_select_rx] registers the deadline now + timeout, ignores a
    signal left over from before, and returns 0 only when the monitor found
    the deadline live and the socket readable at one of its turns during the
    wait. *)
Lemma enqueue_select_rx_wakes {W} {SL : Selector W} `{!SelectorLaws W} id now timeout nows s (w w' : W) s1 s' :
  is_u32 now -> Forall is_u32 nows -> Forall ctx_ok s -> distinct_sockets s -> (id < length s)%nat ->
  monitor_turns nows (alter (set_rx_signal false) id (wifi_service_register_rx_socket id now timeout s)) w
    = Some (s1, w') ->
  enqueue_select_rx id now timeout (fun _ => s1) s = (0, s') ->
  exists t, t ∈ nows /\ live t (u32 (now + timeout)).
Proof.
  intros Hn Hnows Hok Hd Hid HM HE. unfold wifi_service_register_rx_socket in *.
  destruct (lookup_lt_is_Some_2 _ _ Hid) as (c & Hc).
  unfold enqueue_select_rx in HE. destruct (s1 !! id) as [c'|] eqn:Hc'; [| done].
  destruct (rx_signal c') eqn:Hsig; [| done].
  eapply (turns_wake nows (u32 (now + timeout)) id
            (alter (set_rx_signal false) id (alter (set_rx_deadline (u32 (now + timeout))) id s)) w s1 w'
            (set_rx_signal false (set_rx_deadline (u32 (now + timeout)) c)) c'); try done.
  - apply Forall_alter; [apply Forall_alter; [done |] |].
    + intros c0 _ [_ H2]. split; [apply u32_range | done].
    + intros c0 _ [H1 H2]. by split.
  - by apply distinct_alter; [| apply distinct_alter].
  - rewrite list_lookup_alter_eq, list_lookup_alter_eq, Hc. done.
  - by left.
Qed.

(** A driver that reports every socket of the read set as readable. *)
Module Example.
#[export] Instance all_ready : Selector unit := {|
  sl_select r w _ d := ((match r with Some _ => 1 | None => 0 end, r, None), d) |}.
#[export] Instance all_ready_laws : SelectorLaws unit.
Proof. split. intros r w t d. simpl. split_and!; try done. intros i Hi. by rewrite Z.bits_0. Qed.

Definition two : list wait_ctx := [mk_wait_ctx 17 101 0 true false; mk_wait_ctx 18 0 0 false false].

Lemma two_ok : Forall ctx_ok two.
Proof. repeat constructor; discriminate. Qed.
Lemma two_distinct : distinct_sockets two.
Proof.
  intros i j ci cj Hi Hj _ _ Hb. destruct i as [|[|]], j as [|[|]]; simpl in Hi, Hj; try done;
    injection Hi as <-; injection Hj as <-; vm_compute in Hb; discriminate.
Qed.
End Example.
Import Example.

Lemma monitor_turn_witness :
  (forall s' w', select_task_turn 100 two () = Some (s', w') -> Forall2 (turned 100) two s') /\
  (exists s' w', select_task_turn 100 two () = Some (s', w') /\
   forall s1 tm r res set wr i c,
     scan 100 two (MONITOR_MAX_RESPONSE_S, None, None) = (s1, (tm, Some r, None)) ->
     fst (sl_select (Some r) None tm ()) = (res, Some set, wr) -> 0 < res ->
     two !! i = Some c -> 0 < sd c -> FD_ISSET (sd c) set = true ->
     exists c', s' !! i = Some c' /\ rx_signal c' = true /\ rx_wait_deadline_s c' = 0).
Proof.
  destruct (monitor_turn 100 two ()) as [H1 H2].
  - unfold is_u32; lia.
  - apply two_ok.
  - apply two_distinct.
  - split; [exact H1 |]. apply H2.
    constructor; [| constructor; [| constructor]]; right; intros [H _]; by apply H.
Defined.

(** The left-over signal of the first socket is dropped; the wait ends at the
    turn of second 100. *)
Lemma enqueue_select_rx_wakes_witness :
  exists s1 s', monitor_turns [100] (alter (set_rx_signal false) 0%nat (wifi_service_register_rx_socket 0 100 5 two)) ()
    = Some (s1, ()) /\ enqueue_select_rx 0 100 5 (fun _ => s1) two = (0, s') /\
  exists t, t ∈ [100] /\ live t 105.
Proof.
  eexists _, _. split; [reflexivity |]. split; [reflexivity |].
  eapply (enqueue_select_rx_wakes 0 100 5 [100] two () () _ _).
  - unfold is_u32; lia.
  - apply list.Forall_singleton. unfold is_u32; lia.
  - apply two_ok.
  - apply two_distinct.
  - simpl; lia.
  - reflexivity.
  - reflexivity.
Defined.

(** A writer is never woken: whatever the monitor does, [enqueue_select_tx]
    returns -1, and a turn that finds the socket writable is undefined. *)
Lemma enqueue_select_tx_never_wakes {W} {SL : Selector W} `{!SelectorLaws W} id now timeout n s (w w' : W) s1 :
  is_u32 n -> Forall ctx_ok (alter (set_tx_signal false) id (wifi_service_register_tx_socket id now timeout s)) ->
  distinct_sockets (alter (set_tx_signal false) id (wifi_service_register_tx_socket id now timeout s)) ->
  select_task_turn n (alter (set_tx_signal false) id (wifi_service_register_tx_socket id now timeout s)) w
    = Some (s1, w') ->
  fst (enqueue_select_tx id now timeout (fun _ => s1) s) = -1.
Proof.
  intros Hn Hok Hd HM. unfold enqueue_select_tx. destruct (s1 !! id) as [c'|] eqn:Hc'; [| done].
  pose proof (turn_spec _ _ _ _ _ Hn Hok Hd HM) as HT.
  destruct (Forall2_lookup_r _ _ _ _ _ HT Hc') as (c & Hc & T). rewrite (tn_tx_signal _ _ _ T).
  rewrite list_lookup_alter_eq in Hc. destruct (wifi_service_register_tx_socket id now timeout s !! id) as [c0|]; by simplify_eq/=.
Qed.

Lemma writable_socket_undefined c s set : 0 < sd c -> FD_ISSET (sd c) set = true -> dispatch_tx set (c :: s) = None.
Proof. intros Hs Hb. simpl. by rewrite Hb, (proj2 (Z.ltb_lt _ _) Hs). Qed.

End Monitor.
