(* ===== verification/Network.v ===== *)
(** * Network connections

    Models the connection half of [src/network.c]: resolving and connecting a
    peer, the plain and the TLS transports, sending, reading and closing.  The
    driver is the class [SimpleLink] and mbedTLS the class [MbedTLS], both with
    a trace of the calls; times that the code reads from the clock are
    arguments.  The address that the datagram callback stores in the context
    while a TLS call runs is part of the device state.  The waiting side of the same structure is in [Monitor.v]. *)

From S2P Require Import Prelude Platform.

Module Network.

(** ** Return codes and protocols ([network.h]) *)

Definition UISO_NETWORK_OK : Z := 0.
Definition UISO_NETWORK_GENERIC_ERROR : Z := INT32_MIN.
Definition UISO_NETWORK_SOCKET_ERROR : Z := INT32_MIN + 1.
Definition UISO_NETWORK_BIND_ERROR : Z := INT32_MIN + 2.
Definition UISO_NETWORK_CONNECT_ERROR : Z := INT32_MIN + 3.
Definition UISO_NETWORK_DNS_ERROR : Z := INT32_MIN + 4.
Definition UISO_NETWORK_NULL_CTX : Z := INT32_MIN + 5.
Definition UISO_NETWORK_NEGATIVE_SD : Z := INT32_MIN + 6.
Definition UISO_NETWORK_DTLS_RENEGOCIATION_FAIL : Z := INT32_MIN + 10.
Definition UISO_NETWORK_INVALID_SOCKET : Z := -1.

Definition UISO_SECURITY_BIT_MASK : Z := 16.

(** The protocols the firmware supports; any other value of the enumeration is
    [uiso_protocol_other]. *)
Inductive uiso_protocol :=
| uiso_protocol_no_protocol
| uiso_protocol_udp_ip4
| uiso_protocol_tcp_ip4
| uiso_protocol_dtls_ip4
| uiso_protocol_tls_ip4
| uiso_protocol_other (code : Z).
#[export] Instance uiso_protocol_eq_dec : EqDecision uiso_protocol.
Proof. solve_decision. Defined.

Definition protocol_code (p : uiso_protocol) : Z :=
  match p with
  | uiso_protocol_no_protocol => 0
  | uiso_protocol_udp_ip4 => 3
  | uiso_protocol_tcp_ip4 => 5
  | uiso_protocol_dtls_ip4 => 19
  | uiso_protocol_tls_ip4 => 21
  | uiso_protocol_other code => code
  end.

Definition is_secure (p : uiso_protocol) : bool := test_mask (protocol_code p) UISO_SECURITY_BIT_MASK.

(** ** The context *)

Inductive read_fn := recv_bio_udp_fn | recv_bio_tcp_fn | read_dtls_fn.
Inductive send_fn := send_udp_fn | send_tcp_fn | send_dtls_fn.

Record uiso_sockets := mk_uiso_sockets {
  sd : Z;
  protocol : uiso_protocol;
  ctx_send : option send_fn;
  ctx_read : option read_fn;
  ctx_close : bool;
  local : sockaddr;
  peer : sockaddr;
  ssl_context : bool;
  last_send_time : Z;
  last_recv_time : Z;
}.

Definition initialize_network_ctx : uiso_sockets :=
  mk_uiso_sockets UISO_NETWORK_INVALID_SOCKET uiso_protocol_no_protocol None None false
    sockaddr_zero sockaddr_zero false 0 0.

Definition set_sd v c := mk_uiso_sockets v (protocol c) (ctx_send c) (ctx_read c) (ctx_close c) (local c) (peer c) (ssl_context c) (last_send_time c) (last_recv_time c).
Definition set_protocol v c := mk_uiso_sockets (sd c) v (ctx_send c) (ctx_read c) (ctx_close c) (local c) (peer c) (ssl_context c) (last_send_time c) (last_recv_time c).
Definition set_fns s r cl c := mk_uiso_sockets (sd c) (protocol c) (Some s) (Some r) cl (local c) (peer c) (ssl_context c) (last_send_time c) (last_recv_time c).
Definition set_local v c := mk_uiso_sockets (sd c) (protocol c) (ctx_send c) (ctx_read c) (ctx_close c) v (peer c) (ssl_context c) (last_send_time c) (last_recv_time c).
Definition set_peer v c := mk_uiso_sockets (sd c) (protocol c) (ctx_send c) (ctx_read c) (ctx_close c) (local c) v (ssl_context c) (last_send_time c) (last_recv_time c).
Definition set_ssl v c := mk_uiso_sockets (sd c) (protocol c) (ctx_send c) (ctx_read c) (ctx_close c) (local c) (peer c) v (last_send_time c) (last_recv_time c).
Definition set_times s r c := mk_uiso_sockets (sd c) (protocol c) (ctx_send c) (ctx_read c) (ctx_close c) (local c) (peer c) (ssl_context c) s r.

(** [atoi] on the bytes of a string: blanks, a sign, digits. *)
Fixpoint atoi_digits (acc : Z) (s : bytes) : Z :=
  match s with
  | c :: s => if (48 <=? c) && (c <=? 57) then atoi_digits (10 * acc + (c - 48)) s else acc
  | [] => acc
  end.
Fixpoint atoi (s : bytes) : Z :=
  match s with
  | c :: s' => if (c =? 32) || ((9 <=? c) && (c <=? 13)) then atoi s'
               else if c =? 45 then - atoi_digits 0 s'
               else if c =? 43 then atoi_digits 0 s' else atoi_digits 0 s
  | [] => 0
  end.

Section Connections.
Context {W : Type} {SL : SimpleLink W} {TLS : MbedTLS W}.
Implicit Types n : net W.

(** Logged calls of the TLS library. *)
Definition call_ssl (op : ssl_op) (f : W -> Z * W) n : Z * net W :=
  logged (f (dev n)) (EvSsl op) n.
Definition call_handshake := call_ssl SslHandshake ssl_handshake.
Definition call_renegotiate := call_ssl SslRenegotiate ssl_renegotiate.
Definition call_close_notify := call_ssl SslCloseNotify ssl_close_notify.
Definition call_session_reset := call_ssl SslSessionReset ssl_session_reset.
Definition call_ssl_write (b : bytes) := call_ssl (SslWrite b) (ssl_write b).
Definition call_ssl_read (len : Z) n : (Z * bytes) * net W :=
  logged (ssl_read len (dev n)) (fun r => EvSsl (SslRead len) (fst r)) n.

(** [do ret = op while (again ret)]; [None] when the fuel runs out. *)
Fixpoint retry (fuel : nat) (op : net W -> Z * net W) (again : Z -> bool) n : option (Z * net W) :=
  match fuel with
  | O => None
  | S fuel => let '(r, n) := op n in if again r then retry fuel op again n else Some (r, n)
  end.

Definition want_rw (r : Z) : bool := (r =? ERR_SSL_WANT_READ) || (r =? ERR_SSL_WANT_WRITE).

(** ** Connecting *)

Definition socket_type (p : uiso_protocol) : Z * Z :=
  match p with
  | uiso_protocol_dtls_ip4 | uiso_protocol_udp_ip4 => (SL_SOCK_DGRAM, SL_IPPROTO_UDP)
  | uiso_protocol_tls_ip4 | uiso_protocol_tcp_ip4 => (SL_SOCK_STREAM, SL_IPPROTO_TCP)
  | _ => (0, 0)
  end.

Definition network_bind (local_port : option bytes) (c : uiso_sockets) n : Z * uiso_sockets * net W :=
  match local_port with
  | Some port =>
    let c := set_local (mk_sockaddr SL_AF_INET (rev16 (atoi port)) 0) c in
    let '(r, n) := call_bind (sd c) (local c) n in
    (if negb (r =? 0) then UISO_NETWORK_BIND_ERROR else UISO_NETWORK_OK, c, n)
  | None => (UISO_NETWORK_OK, c, n)
  end.

Definition network_connect (host port : bytes) (local_port : option bytes) (proto : uiso_protocol)
    (c : uiso_sockets) n : Z * uiso_sockets * net W :=
  let '((dns_status, ip), n) := call_dns host n in
  if dns_status <? 0 then (UISO_NETWORK_DNS_ERROR, set_peer (mk_sockaddr 0 0 ip) c, n)
  else
    let c := set_peer (mk_sockaddr SL_AF_INET (rev16 (atoi port)) (rev32 ip)) c in
    let '(type, prot) := socket_type proto in
    let c := set_protocol proto c in
    let '(s, n) := call_socket type prot n in
    let c := set_sd s c in
    if s <? 0 then (UISO_NETWORK_SOCKET_ERROR, c, n)
    else
      let '(_, n) := call_nonblock (sd c) n in
      let '(ret, c, n) := network_bind local_port c n in
      if negb (ret =? UISO_NETWORK_OK) then (ret, c, n)
      else
        let '(r, n) := call_connect (sd c) (peer c) n in
        if 0 <? r then
          let '(_, n) := call_close (sd c) n in
          (UISO_NETWORK_CONNECT_ERROR, set_sd UISO_NETWORK_INVALID_SOCKET c, n)
        else (UISO_NETWORK_OK, c, n).

(** The record size limit and the callbacks depend on the protocol the context
    held before the call. *)
Definition SIMPLELINK_MAX_SEND_MTU : Z := 1472.

Definition set_mbedtls_bio (c : uiso_sockets) n : Z * net W :=
  if negb (ssl_context c) then (UISO_NETWORK_NULL_CTX, n)
  else
    let ev := match protocol c with
              | uiso_protocol_dtls_ip4 => [EvSsl (SslSetBio true) 0]
              | uiso_protocol_tls_ip4 => [EvSsl (SslSetBio false) 0]
              | _ => []
              end in
    (UISO_NETWORK_OK, mk_net (dev n) (trace n ++ ev ++ [EvSsl (SslSetMtu SIMPLELINK_MAX_SEND_MTU) 0])).

Definition network_close (c : uiso_sockets) n : Z * uiso_sockets * net W :=
  if sd c <=? 0 then (UISO_NETWORK_NEGATIVE_SD, c, n)
  else let '(ret, n) := call_close (sd c) n in (ret, set_sd UISO_NETWORK_INVALID_SOCKET c, n).

Definition uiso_network_register_ssl_context (c : uiso_sockets) (ssl_ctx : bool) : Z * uiso_sockets :=
  if negb ssl_ctx then (UISO_NETWORK_NULL_CTX, c) else (UISO_NETWORK_OK, set_ssl true c).

Definition select_fns (proto : uiso_protocol) (c : uiso_sockets) : uiso_sockets :=
  match proto with
  | uiso_protocol_udp_ip4 => set_fns send_udp_fn recv_bio_udp_fn true c
  | uiso_protocol_tcp_ip4 => set_fns send_tcp_fn recv_bio_tcp_fn true c
  | uiso_protocol_dtls_ip4 | uiso_protocol_tls_ip4 => set_fns send_dtls_fn read_dtls_fn false c
  | _ => c
  end.

Definition uiso_create_network_connection (fuel : nat) (now : Z) (host port : bytes)
    (local_port : option bytes) (proto : uiso_protocol) (c : uiso_sockets) n :
    option (Z * uiso_sockets * net W) :=
  let '(ret, n) := if is_secure proto then set_mbedtls_bio c n else (UISO_NETWORK_OK, n) in
  let c := select_fns proto c in
  if ret <? 0 then Some (ret, c, n)
  else
    let '(ret, c, n) := network_connect host port local_port proto c n in
    if ret <? 0 then Some (ret, c, n)
    else
      '(ret, n) ← (if is_secure proto then retry fuel call_handshake want_rw n else Some (ret, n));
      Some (ret, if 0 <=? ret then set_times now now c else c, n).

Definition uiso_close_network_connection (fuel : nat) (c : uiso_sockets) n :
    option (Z * uiso_sockets * net W) :=
  '(ret, n) ← (if is_secure (protocol c) then retry fuel call_close_notify want_rw n
               else Some (UISO_NETWORK_OK, n));
  let '(r, c, n) := network_close c n in
  Some (if ret =? UISO_NETWORK_OK then r else ret, c, n).

(** ** Sending *)

Definition send_bio_udp (c : uiso_sockets) (b : bytes) := call_sendto (sd c) b (peer c).
Definition send_bio_tcp (c : uiso_sockets) (b : bytes) := call_send (sd c) b.

(** The loops of [_send_udp] and [_send_tcp].  The length is passed as a
    16-bit value: a longer rest is undefined.  A pass that goes on has sent a
    byte, so that [length + 1] passes are enough. *)
Fixpoint send_all (fuel : nat) (send : bytes -> net W -> Z * net W) (buf : bytes) (offset : Z) n :
    option (Z * net W) :=
  let len := Z.of_nat (length buf) in
  if offset =? len then Some (offset, n)
  else match fuel with
  | O => None
  | S fuel =>
    if 32767 <? len - offset then None
    else
      let '(r, n) := send (drop (Z.to_nat offset) buf) n in
      if r <=? 0 then Some (r, n) else send_all fuel send buf (offset + r) n
  end.

Definition send_udp (c : uiso_sockets) (buf : bytes) n := send_all (S (length buf)) (send_bio_udp c) buf 0 n.
Definition send_tcp (c : uiso_sockets) (buf : bytes) n := send_all (S (length buf)) (send_bio_tcp c) buf 0 n.

(** Renegotiation, or a fresh handshake when the peer refuses it. *)
Definition renegotiate (fuel : nat) n : option (Z * net W) :=
  '(ret, n) ← retry fuel call_renegotiate (fun r => want_rw r || (r =? ERR_SSL_CRYPTO_IN_PROGRESS)) n;
  '(ret, n) ←
    (if negb (ret =? 0) then
       let '(ret, n) := call_close_notify n in
       let '(r2, n) := call_session_reset n in
       let ret := if ret =? 0 then r2 else ret in
       if ret =? 0 then retry fuel call_handshake want_rw n else Some (ret, n)
     else Some (ret, n));
  Some (if negb (ret =? 0) then UISO_NETWORK_DTLS_RENEGOCIATION_FAIL else ret, n).

Definition write_again (r : Z) : bool :=
  want_rw r || (r =? ERR_SSL_ASYNC_IN_PROGRESS) || (r =? ERR_SSL_CRYPTO_IN_PROGRESS).

(** Close the session and shake hands again after a failed write. *)
Definition reconnect (fuel : nat) n : option (Z * net W) :=
  '(_, n) ← retry fuel call_close_notify want_rw n;
  let '(ret, n) := call_session_reset n in
  if ret =? 0 then retry fuel call_handshake want_rw n else Some (ret, n).

(** The write loop of [_send_dtls]; the result is [ret] and [offset]. *)
Fixpoint dtls_write_loop (fuel : nat) (buf : bytes) (offset : Z) n : option (Z * Z * net W) :=
  if offset =? Z.of_nat (length buf) then Some (0, offset, n)
  else match fuel with
  | O => None
  | S fuel' =>
    let '(r, n) := call_ssl_write (drop (Z.to_nat offset) buf) n in
    if write_again r then dtls_write_loop fuel' buf offset n
    else if r <? 0 then
      '(ret, n) ← reconnect fuel n;
      if ret =? 0 then dtls_write_loop fuel' buf offset n else Some (ret, offset, n)
    else dtls_write_loop fuel' buf (offset + r) n
  end.

Definition send_dtls (fuel : nat) (now now' : Z) (c : uiso_sockets) (buf : bytes) n :
    option (Z * uiso_sockets * net W) :=
  let '((status, cid_enabled), w) := ssl_get_peer_cid (dev n) in
  let n := mk_net w (trace n) in
  '(ret, n) ←
    (if cid_enabled =? SSL_CID_DISABLED then
       if 120 <? u32 (now - last_send_time c) then renegotiate fuel n else Some (status, n)
     else Some (0, n));
  '(ret, n) ←
    (if ret =? 0 then
       '(ret, offset, n) ← dtls_write_loop fuel buf 0 n;
       Some (if ret =? 0 then offset else ret, n)
     else Some (ret, n));
  Some (ret, if 0 <=? ret then set_times now' (last_recv_time c) c else c, n).

(** ** Reading *)

Definition recv_bio_udp (c : uiso_sockets) (len : Z) n : (Z * bytes) * uiso_sockets * net W :=
  let '((r, b, from), n) := call_recvfrom (sd c) (s16 len) n in
  ((if r =? SL_EAGAIN then ERR_SSL_WANT_READ else r, b), set_peer from c, n).

Definition recv_bio_tcp (c : uiso_sockets) (len : Z) n : (Z * bytes) * uiso_sockets * net W :=
  let '((r, b), n) := call_recv (sd c) (s16 len) n in
  ((if r =? SL_EAGAIN then ERR_SSL_WANT_READ else r, b), c, n).

Definition read_again (r : Z) : bool :=
  (r =? ERR_SSL_WANT_WRITE) || (r =? ERR_SSL_ASYNC_IN_PROGRESS) || (r =? ERR_SSL_CRYPTO_IN_PROGRESS)
  || (r =? ERR_SSL_CLIENT_RECONNECT).

Fixpoint retry_read (fuel : nat) (len : Z) n : option ((Z * bytes) * net W) :=
  match fuel with
  | O => None
  | S fuel => let '((r, b), n) := call_ssl_read len n in
              if read_again r then retry_read fuel len n else Some ((r, b), n)
  end.

Definition read_dtls (fuel : nat) (c : uiso_sockets) (len : Z) n : option ((Z * bytes) * uiso_sockets * net W) :=
  '(r, b, n) ← retry_read fuel len n;
  n ← (if r <? 0 then '(_, n) ← reconnect fuel n; Some n else Some n);
  Some ((r, b), c, n).

(** The dispatch through the context's function pointers; an unset pointer is
    undefined. *)
Definition uiso_network_send (fuel : nat) (now now' : Z) (c : uiso_sockets) (buf : bytes) n :
    option (Z * uiso_sockets * net W) :=
  match ctx_send c with
  | Some send_udp_fn => '(r, n) ← send_udp c buf n; Some (r, c, n)
  | Some send_tcp_fn => '(r, n) ← send_tcp c buf n; Some (r, c, n)
  | Some send_dtls_fn => send_dtls fuel now now' c buf n
  | None => None
  end.

Definition uiso_network_read (fuel : nat) (c : uiso_sockets) (len : Z) n :
    option ((Z * bytes) * uiso_sockets * net W) :=
  match ctx_read c with
  | Some recv_bio_udp_fn => Some (recv_bio_udp c len n)
  | Some recv_bio_tcp_fn => Some (recv_bio_tcp c len n)
  | Some read_dtls_fn => read_dtls fuel c len n
  | None => None
  end.
End Connections.


(** ** The retry loops *)

Section RetryFacts.
Context {W : Type}.
Variables (op : net W -> Z * net W) (again : Z -> bool).
Implicit Types n : net W.

(** The state after [k] calls. *)
Fixpoint retry_state (k : nat) n : net W :=
  match k with O => n | S k => retry_state k (snd (op n)) end.

(** A loop that ends is not changed by more fuel. *)
Lemma retry_fuel_mono f f' n x : (f <= f')%nat -> retry f op again n = Some x -> retry f' op again n = Some x.
Proof.
  revert f' n. induction f as [|f IH]; intros [|f'] n Hf; simpl; try done; [lia |].
  destruct (op n) as [r n1]. destruct (again r); [apply IH; lia | done].
Qed.

(** The loop ends at the first answer that is not a request to call again. *)
Lemma retry_ends k n :
  again (fst (op (retry_state k n))) = false ->
  exists j, (j <= k)%nat /\ retry (S k) op again n = Some (op (retry_state j n))
    /\ again (fst (op (retry_state j n))) = false
    /\ forall i, (i < j)%nat -> again (fst (op (retry_state i n))) = true.
Proof.
  revert n. induction k as [|k IH]; intros n Hk; simpl in *.
  - exists 0%nat. simpl. destruct (op n) as [r n1] eqn:E; simpl in *. rewrite Hk. split_and!; [done..| lia].
  - destruct (op n) as [r n1] eqn:E; simpl in *. destruct (again r) eqn:Hr.
    + destruct (IH n1 Hk) as (j & Hj & Heq & Hend & Hbefore). exists (S j). simpl. rewrite E. simpl.
      split_and!; [lia | done | done |].
      intros [|i] Hi; simpl; rewrite E; simpl; [done | apply Hbefore; lia].
    + exists 0%nat. simpl. rewrite E. simpl. split_and!; [lia | done | done | lia].
Qed.

(** What the answer of the loop and its trace satisfy. *)
Lemma retry_spec (P : list io_event -> Prop) fuel n r n' :
  P [] -> (forall l l', P l -> P l' -> P (l ++ l')) ->
  (forall n, exists l, trace (snd (op n)) = trace n ++ l /\ P l) ->
  retry fuel op again n = Some (r, n') ->
  (exists l, trace n' = trace n ++ l /\ P l) /\ (exists n0, fst (op n0) = r) /\ again r = false.
Proof.
  intros P0 Papp Pop. revert n. induction fuel as [|fuel IH]; intros n; simpl; [done |].
  destruct (Pop n) as (l1 & Ht1 & Hl1). destruct (op n) as [r1 n1] eqn:E; simpl in *.
  destruct (again r1) eqn:Hr.
  - intros ((l2 & Ht2 & Hl2) & Hans & Hag)%IH. split; [| done].
    exists (l1 ++ l2). rewrite Ht2, Ht1, <- app_assoc. split; [done | by apply Papp].
  - intros [= <- <-]. split; [by exists l1 | split; [| done]]. exists n. by rewrite E.
Qed.
End RetryFacts.

(** A TLS call adds nothing to the socket accounts. *)
Definition no_sockets (l : list io_event) : Prop := opened l = [] /\ closed l = [].

Lemma opened_app l l' : opened (l ++ l') = opened l ++ opened l'.
Proof. apply omap_app. Qed.
Lemma closed_app l l' : closed (l ++ l') = closed l ++ closed l'.
Proof. apply omap_app. Qed.

Lemma no_sockets_app l l' : no_sockets l -> no_sockets l' -> no_sockets (l ++ l').
Proof. intros [H1 H2] [H3 H4]. split; rewrite ?opened_app, ?closed_app; by rewrite ?H1, ?H2, ?H3, ?H4. Qed.

Section ConnectionFacts.
Context {W : Type} {SL : SimpleLink W} {TLS : MbedTLS W}.
Implicit Types n : net W.

Lemma retry_ssl_no_sockets op (f : W -> Z * W) again fuel n r n' :
  retry fuel (call_ssl op f) again n = Some (r, n') ->
  exists l, trace n' = trace n ++ l /\ no_sockets l.
Proof.
  intros [Hl _]%(retry_spec _ _ no_sockets); [done | by split | exact no_sockets_app |].
  intros n0. by exists [EvSsl op (fst (f (dev n0)))].
Qed.

(** The five ways [_network_connect] ends, with the sockets it opened and
    closed and the one it leaves in the context. *)
Inductive connect_outcome (host : bytes) (proto : uiso_protocol) (c c' : uiso_sockets) (l : list io_event) : Z -> Prop :=
| outcome_dns status :
    status < 0 -> l = [EvDns host status] -> sd c' = sd c -> protocol c' = protocol c ->
    connect_outcome host proto c c' l UISO_NETWORK_DNS_ERROR
| outcome_socket :
    sd c' < 0 -> protocol c' = proto -> opened l = [] -> closed l = [] ->
    connect_outcome host proto c c' l UISO_NETWORK_SOCKET_ERROR
| outcome_bind :
    0 <= sd c' -> protocol c' = proto -> opened l = [sd c'] -> closed l = [] ->
    connect_outcome host proto c c' l UISO_NETWORK_BIND_ERROR
| outcome_connect s :
    sd c' = UISO_NETWORK_INVALID_SOCKET -> protocol c' = proto -> opened l = [s] -> closed l = [s] ->
    connect_outcome host proto c c' l UISO_NETWORK_CONNECT_ERROR
| outcome_ok r l0 :
    0 <= sd c' -> protocol c' = proto -> opened l = [sd c'] -> closed l = [] ->
    l = l0 ++ [EvConnect (sd c') (peer c') r] -> r <= 0 ->
    sin_family (peer c') = SL_AF_INET ->
    connect_outcome host proto c c' l UISO_NETWORK_OK.

Ltac account H := rewrite ?opened_app, ?closed_app; unfold opened, closed; simpl; rewrite ?H; done.

Lemma network_connect_outcome host port lp proto c n ret c' n' :
  network_connect host port lp proto c n = (ret, c', n') ->
  exists l, trace n' = trace n ++ l /\ connect_outcome host proto c c' l ret.
Proof.
  unfold network_connect, network_bind. cbv zeta. destruct (call_dns host n) as [[st ip] n1] eqn:E1.
  destruct (Z.ltb_spec st 0).
  { intros [= <- <- <-]. trace_calls. eexists. split; [exact E1 |]. by eapply outcome_dns. }
  destruct (socket_type proto) as [ty pr]. destruct (call_socket ty pr n1) as [s n2] eqn:E2.
  destruct (Z.ltb_spec s 0) as [Hs|Hs].
  { intros [= <- <- <-]. trace_calls. eexists. split; [by trace_rewrite |]. simpl.
    apply Z.leb_gt in Hs as Hs'. apply outcome_socket; [done | done | account Hs' | done]. }
  apply Z.leb_le in Hs as Hs'.
  destruct (call_nonblock _ n2) as [rn n3] eqn:E3. destruct lp as [lp|].
  1: destruct (call_bind _ _ n3) as [rb n4] eqn:E4; destruct (Z.eqb_spec rb 0); cbn [negb].
  all: rewrite ?Z.eqb_refl; change (UISO_NETWORK_BIND_ERROR =? UISO_NETWORK_OK) with false; cbn [negb].
  1,3: destruct (call_connect _ _ _) as [r n5] eqn:E5; destruct (Z.ltb_spec 0 r);
    [destruct (call_close _ n5) as [rc n6] eqn:E6 |]; intros [= <- <- <-]; trace_calls; simpl in *;
    eexists; (split; [by trace_rewrite |]).
  1,3: apply (outcome_connect _ _ _ _ _ s); [done | done | account Hs' | account Hs'].
  1: eapply (outcome_ok _ _ _ _ _ r [_; _; _; _]); try done; account Hs'.
  1: eapply (outcome_ok _ _ _ _ _ r [_; _; _]); try done; account Hs'.
  intros [= <- <- <-]; trace_calls; simpl in *. eexists. split; [by trace_rewrite |].
  apply outcome_bind; try done; account Hs'.
Qed.
End ConnectionFacts.

Section ConnectionTheorems.
Context {W : Type} {SL : SimpleLink W} {TLS : MbedTLS W}.
Implicit Types n : net W.

Lemma select_fns_keeps proto c :
  sd (select_fns proto c) = sd c /\ protocol (select_fns proto c) = protocol c.
Proof. by destruct proto. Qed.

Lemma set_mbedtls_bio_spec c n ret n' :
  set_mbedtls_bio c n = (ret, n') ->
  (ssl_context c = false /\ ret = UISO_NETWORK_NULL_CTX /\ n' = n)
  \/ (ssl_context c = true /\ ret = UISO_NETWORK_OK
      /\ exists l, trace n' = trace n ++ l /\ no_sockets l
         /\ (EvSsl (SslSetBio true) 0 ∈ l <-> protocol c = uiso_protocol_dtls_ip4)
         /\ (EvSsl (SslSetBio false) 0 ∈ l <-> protocol c = uiso_protocol_tls_ip4)).
Proof.
  unfold set_mbedtls_bio. destruct (ssl_context c); intros [= <- <-]; [right | by left].
  split_and!; [done..|]. eexists. split; [done |].
  destruct (protocol c); simpl; (split; [done |]);
    rewrite ?elem_of_cons, ?elem_of_nil; intuition congruence.
Qed.

(** What a call of [uiso_create_network_connection] does, phase by phase. *)
Definition create_phases (host : bytes) (proto : uiso_protocol) (c c' : uiso_sockets) n (ret : Z) n' : Prop :=
  exists l1 l2 l3 r c1,
    trace n' = trace n ++ l1 ++ l2 ++ l3
    /\ no_sockets l1 /\ no_sockets l3
    /\ connect_outcome host proto (select_fns proto c) c1 l2 r
    /\ sd c' = sd c1 /\ protocol c' = protocol c1
    /\ (r <> UISO_NETWORK_OK -> ret = r /\ l3 = [] /\ c' = c1)
    /\ (r = UISO_NETWORK_OK -> is_secure proto = false -> ret = UISO_NETWORK_OK /\ l3 = [])
    /\ (r = UISO_NETWORK_OK -> is_secure proto = true -> want_rw ret = false /\ exists w, fst (ssl_handshake w) = ret).

Lemma connect_outcome_sign host proto c c' l r :
  connect_outcome host proto c c' l r -> (r <? 0) = negb (r =? UISO_NETWORK_OK).
Proof. by destruct 1. Qed.

Lemma create_phases_intro fuel now host port lp proto c n ret c' n' :
  uiso_create_network_connection fuel now host port lp proto c n = Some (ret, c', n') ->
  (is_secure proto = true /\ ssl_context c = false
   /\ ret = UISO_NETWORK_NULL_CTX /\ c' = select_fns proto c /\ n' = n)
  \/ create_phases host proto c c' n ret n'.
Proof.
  unfold uiso_create_network_connection.
  destruct (if is_secure proto then set_mbedtls_bio c n else (UISO_NETWORK_OK, n)) as [r0 n0] eqn:E0.
  assert ((is_secure proto = true /\ ssl_context c = false /\ r0 = UISO_NETWORK_NULL_CTX /\ n0 = n)
    \/ (r0 = UISO_NETWORK_OK /\ exists l1, trace n0 = trace n ++ l1 /\ no_sockets l1)) as H0.
  { destruct (is_secure proto).
    - apply set_mbedtls_bio_spec in E0 as [(? & ? & ?)|(? & -> & l & ? & ? & _)]; [by left | right; eauto].
    - injection E0 as <- <-. right. split; [done |]. exists []. by rewrite app_nil_r. }
  destruct H0 as [(Hs & Hc & -> & ->)|(-> & l1 & Ht1 & Hl1)].
  { intros [= <- <- <-]. by left. }
  change (UISO_NETWORK_OK <? 0) with false. cbv zeta iota.
  destruct (network_connect _ _ _ _ _ _) as [[r c1] n1] eqn:E1.
  apply network_connect_outcome in E1 as (l2 & Ht2 & Ho).
  rewrite (connect_outcome_sign _ _ _ _ _ _ Ho). intros H. right.
  destruct (Z.eqb_spec r UISO_NETWORK_OK) as [->|Hr]; simpl in H.
  - destruct (is_secure proto) eqn:Hs; simpl in H.
    + destruct (retry fuel call_handshake want_rw n1) as [[rh n2]|] eqn:Eh; simplify_eq/=.
      pose proof (retry_ssl_no_sockets _ _ _ _ _ _ _ Eh) as (l3 & Ht3 & Hl3).
      apply (retry_spec _ _ (fun _ => True)) in Eh as (_ & (n3 & Hn3) & Hw); try done.
      2:{ intros m. by exists [EvSsl SslHandshake (fst (ssl_handshake (dev m)))]. }
      exists l1, l2, l3, UISO_NETWORK_OK, c1. rewrite Ht3, Ht2, Ht1, <- !app_assoc.
      split_and!; try done; try congruence; try (by destruct (_ <=? _)).
      intros _ _. split; [done | by exists (dev n3)].
    + simplify_eq/=. exists l1, l2, [], UISO_NETWORK_OK, c1.
      rewrite Ht2, Ht1, app_nil_r, <- app_assoc. split_and!; done || congruence.
  - simplify_eq/=. exists l1, l2, [], ret, c'. rewrite Ht2, Ht1, app_nil_r, <- app_assoc. split_and!; done || congruence.
Qed.

(** Without TLS the call always returns. *)
Lemma create_plain_returns fuel now host port lp proto c n :
  is_secure proto = false ->
  is_Some (uiso_create_network_connection fuel now host port lp proto c n).
Proof.
  unfold uiso_create_network_connection. intros ->. cbv zeta iota.
  change (UISO_NETWORK_OK <? 0) with false. cbv iota.
  destruct (network_connect _ _ _ _ _ _) as [[r c1] n1]. by destruct (r <? 0).
Qed.

(** The socket a context holds. *)
Definition holds (c : uiso_sockets) : list Z := if 0 <=? sd c then [sd c] else [].

Lemma connect_outcome_account host proto c c' l r :
  sd c < 0 -> connect_outcome host proto c c' l r -> opened l = closed l ++ holds c'.
Proof.
  unfold holds. intros Hc [st Hst -> Hsd _|Hsd _ -> ->|Hsd _ -> ->|s Hsd _ -> ->|rr l0 Hsd _ -> -> _ _ _].
  - rewrite Hsd. by destruct (Z.leb_spec 0 (sd c)); [lia |].
  - by destruct (Z.leb_spec 0 (sd c')); [lia |].
  - by destruct (Z.leb_spec 0 (sd c')); [| lia].
  - by rewrite Hsd.
  - by destruct (Z.leb_spec 0 (sd c')); [| lia].
Qed.

Lemma create_account fuel now host port lp proto c n ret c' n' :
  sd c < 0 ->
  uiso_create_network_connection fuel now host port lp proto c n = Some (ret, c', n') ->
  exists l, trace n' = trace n ++ l /\ opened l = closed l ++ holds c'.
Proof.
  intros Hc [(_ & _ & _ & -> & ->)|H]%create_phases_intro.
  - exists []. rewrite app_nil_r. split; [done |]. unfold holds.
    rewrite (proj1 (select_fns_keeps _ _)). by destruct (Z.leb_spec 0 (sd c)); [lia |].
  - destruct H as (l1 & l2 & l3 & r & c1 & Ht & [Ho1 Hc1] & [Ho3 Hc3] & Ho & Hsd & _).
    exists (l1 ++ l2 ++ l3). split; [done |].
    rewrite !opened_app, !closed_app, Ho1, Hc1, Ho3, Hc3, !app_nil_r. simpl.
    replace (holds c') with (holds c1) by (unfold holds; by rewrite Hsd).
    apply (connect_outcome_account _ _ _ _ _ _) in Ho; [done |].
    by rewrite (proj1 (select_fns_keeps _ _)).
Qed.

Lemma close_account fuel c n ret c' n' :
  uiso_close_network_connection fuel c n = Some (ret, c', n') ->
  sd c' <= 0 /\ exists l, trace n' = trace n ++ l /\ opened l = []
    /\ closed l = if 0 <? sd c then [sd c] else [].
Proof.
  unfold uiso_close_network_connection, network_close. intros H.
  destruct (if is_secure (protocol c) then retry fuel call_close_notify want_rw n
            else Some (UISO_NETWORK_OK, n)) as [[r0 n0]|] eqn:E0; [| done]. cbn [mbind option_bind] in H.
  assert (exists l, trace n0 = trace n ++ l /\ no_sockets l) as (l0 & Ht0 & Ho0 & Hc0).
  { destruct (is_secure (protocol c)); [by apply retry_ssl_no_sockets in E0 |].
    injection E0 as <- <-. exists []. by rewrite app_nil_r. }
  destruct (Z.leb_spec (sd c) 0), (Z.ltb_spec 0 (sd c)); try lia.
  - injection H as <- <- <-. split; [done |]. by exists l0.
  - destruct (call_close (sd c) n0) as [rc n1] eqn:E1. injection H as <- <- <-. trace_calls.
    split; [done |]. exists (l0 ++ [EvClose (sd c) rc]). rewrite E1, Ht0, <- app_assoc.
    rewrite opened_app, closed_app, Ho0, Hc0. by split_and!.
Qed.

(** Creating a connection ends in one of the documented ways: a TLS
    protocol without a registered context is refused before any call; a failed
    resolution leaves the descriptor; a failed [socket] leaves a negative
    descriptor; a failed [connect] closes the socket and invalidates the
    descriptor; otherwise exactly one socket is open and stored.  The handshake
    runs for the TLS protocols only, and its last answer is the result. *)
Lemma create_connection_outcomes fuel now host port lp proto c n :
  (is_secure proto = false ->
   is_Some (uiso_create_network_connection fuel now host port lp proto c n))
  /\ forall ret c' n',
  uiso_create_network_connection fuel now host port lp proto c n = Some (ret, c', n') ->
  (is_secure proto = true /\ ssl_context c = false
   /\ ret = UISO_NETWORK_NULL_CTX /\ c' = select_fns proto c /\ n' = n)
  \/ create_phases host proto c c' n ret n'.
Proof. split; [apply create_plain_returns | intros ret c' n'; apply create_phases_intro]. Qed.

(** Connecting an idle context and closing it, whatever the outcome of
    either, closes every socket that was opened, exactly once and in order (the
    driver's socket 0 excepted), and a further close is refused without a call
    of the driver. *)
Lemma create_close_balanced fuel now host port lp proto c n ret c1 n1 ret' c2 n2 :
  sd c < 0 ->
  uiso_create_network_connection fuel now host port lp proto c n = Some (ret, c1, n1) ->
  uiso_close_network_connection fuel c1 n1 = Some (ret', c2, n2) ->
  (exists l, trace n2 = trace n ++ l /\ (0 ∉ opened l -> closed l = opened l))
  /\ network_close c2 n2 = (UISO_NETWORK_NEGATIVE_SD, c2, n2).
Proof.
  intros Hc (l1 & Ht1 & Hl1)%create_account (Hsd & l2 & Ht2 & Ho2 & Hc2)%close_account; [| done].
  split.
  - exists (l1 ++ l2). rewrite Ht2, Ht1, <- app_assoc. split; [done |].
    rewrite opened_app, closed_app, Hl1, Ho2, Hc2, app_nil_r. unfold holds.
    intros H0. f_equal. destruct (Z.leb_spec 0 (sd c1)), (Z.ltb_spec 0 (sd c1)); try done; [| lia].
    destruct H0. apply elem_of_app. right. apply list_elem_of_singleton. lia.
  - unfold network_close. by destruct (Z.leb_spec (sd c2) 0); [| lia].
Qed.
End ConnectionTheorems.

(** ** Sending *)

(** What the driver accepted in a sequence of transfers, each given as the
    bytes offered and the result. *)
Definition accepted (l : list (bytes * Z)) : bytes :=
  concat (map (fun x => take (Z.to_nat (snd x)) (fst x)) l).

(** The same for the TLS library, read from a trace. *)
Definition ssl_taken (e : io_event) : bytes :=
  match e with EvSsl (SslWrite b) r => take (Z.to_nat r) b | _ => [] end.
Definition ssl_accepted (l : list io_event) : bytes := concat (map ssl_taken l).

Lemma ssl_accepted_app l l' : ssl_accepted (l ++ l') = ssl_accepted l ++ ssl_accepted l'.
Proof. unfold ssl_accepted. by rewrite map_app, concat_app. Qed.

Section SendFacts.
Context {W : Type}.
Variables (send : bytes -> net W -> Z * net W) (ev : bytes -> Z -> io_event).
Hypothesis send_trace : forall b n r n', send b n = (r, n') -> trace n' = trace n ++ [ev b r].
Hypothesis send_le : forall b n r n', send b n = (r, n') -> r <= Z.of_nat (length b).

Lemma send_all_spec fuel buf offset n :
  0 <= offset <= Z.of_nat (length buf) -> Z.of_nat (length buf) - offset <= 32767 ->
  (Z.to_nat (Z.of_nat (length buf) - offset) <= fuel)%nat ->
  exists r n' l, send_all fuel send buf offset n = Some (r, n')
    /\ trace n' = trace n ++ map (fun x => ev (fst x) (snd x)) l
    /\ ((r = Z.of_nat (length buf) /\ accepted l = drop (Z.to_nat offset) buf /\ Forall (fun x => 0 < snd x) l)
        \/ (r <= 0 /\ exists l0 b, l = l0 ++ [(b, r)] /\ b <> []
             /\ accepted l0 ++ b = drop (Z.to_nat offset) buf)).
Proof using send_trace send_le.
  revert offset n. induction fuel as [|fuel IH]; intros offset n Ho Hlen Hfuel; simpl.
  all: destruct (Z.eqb_spec offset (Z.of_nat (length buf))) as [->|Hne].
  1,3: exists (Z.of_nat (length buf)), n, []; rewrite app_nil_r; (split_and!; [done | done | left]);
    rewrite Nat2Z.id, drop_all; by split_and!.
  - lia.
  - destruct (Z.ltb_spec 32767 (Z.of_nat (length buf) - offset)); [lia |].
    set (rest := drop (Z.to_nat offset) buf).
    assert (length rest = (length buf - Z.to_nat offset)%nat) as Hrest by apply length_drop.
    destruct (send rest n) as [r n1] eqn:E. pose proof (send_le _ _ _ _ E) as Hr.
    pose proof (send_trace _ _ _ _ E) as Ht. destruct (Z.leb_spec r 0).
    + exists r, n1, [(rest, r)]. split_and!; [done | done | right]. split; [done |].
      exists [], rest. split_and!; [done | | done]. intros Hnil. rewrite Hnil in Hrest. simpl in Hrest. lia.
    + destruct (IH (offset + r) n1) as (r' & n' & l & Heq & Ht' & Hres); [lia..|].
      exists r', n', ((rest, r) :: l). rewrite Heq, Ht', Ht, <- app_assoc. split_and!; [done | done |].
      assert (rest = take (Z.to_nat r) rest ++ drop (Z.to_nat (offset + r)) buf) as Hsplit.
      { rewrite Z2Nat.inj_add by lia. rewrite <- drop_drop. by rewrite take_drop. }
      destruct Hres as [(-> & Hacc & Hpos)|(Hr' & l0 & b & -> & Hb & Hacc)]; [left | right].
      * split_and!; [done | | by constructor].
        etrans; [| symmetry; exact Hsplit]. by rewrite <- Hacc.
      * split; [done |]. exists ((rest, r) :: l0), b. split_and!; [done | done |].
        etrans; [| symmetry; exact Hsplit]. rewrite <- Hacc. unfold accepted. simpl. by rewrite <- app_assoc.
Qed.
End SendFacts.

Section SendTheorems.
Context {W : Type} {SL : SimpleLink W} {LAWS : SimpleLinkLaws W} {TLS : MbedTLS W}.
Implicit Types n : net W.

Definition send_event (c : uiso_sockets) (x : bytes * Z) : io_event :=
  match ctx_send c with
  | Some send_udp_fn => EvSendTo (sd c) (fst x) (peer c) (snd x)
  | _ => EvSend (sd c) (fst x) (snd x)
  end.

Lemma send_complete fuel now now' c buf n :
  ctx_send c = Some send_udp_fn \/ ctx_send c = Some send_tcp_fn ->
  Z.of_nat (length buf) <= 32767 ->
  exists r n' l, uiso_network_send fuel now now' c buf n = Some (r, c, n')
    /\ trace n' = trace n ++ map (send_event c) l
    /\ ((r = Z.of_nat (length buf) /\ accepted l = buf /\ Forall (fun x => 0 < snd x) l)
        \/ (r <= 0 /\ exists l0 b, l = l0 ++ [(b, r)] /\ b <> [] /\ accepted l0 ++ b = buf)).
Proof using LAWS.
  unfold uiso_network_send, send_event. intros [-> | ->] Hlen.
  - destruct (send_all_spec (send_bio_udp c) (fun b r => EvSendTo (sd c) b (peer c) r)) with
      (fuel := S (length buf)) (buf := buf) (offset := 0) (n := n) as (r & n' & l & Heq & H); try lia.
    + intros b m r m'. apply call_sendto_trace.
    + intros b m r m' [= <- <-]. apply sl_sendto_le.
    + exists r, n', l. unfold send_udp. rewrite Heq. done.
  - destruct (send_all_spec (send_bio_tcp c) (fun b r => EvSend (sd c) b r)) with
      (fuel := S (length buf)) (buf := buf) (offset := 0) (n := n) as (r & n' & l & Heq & H); try lia.
    + intros b m r m'. apply call_send_trace.
    + intros b m r m' [= <- <-]. apply sl_send_le.
    + exists r, n', l. unfold send_tcp. rewrite Heq. done.
Qed.
(** C13: Sending on a plain connection always returns.  It returns the full
    length exactly when the driver accepted the whole buffer, every byte once
    and in order; otherwise it returns the driver's first result that is not
    positive, and what was accepted before, followed by the refused bytes, is
    the buffer. *)
Theorem network_send_complete fuel now now' c buf n :
  ctx_send c = Some send_udp_fn \/ ctx_send c = Some send_tcp_fn ->
  Z.of_nat (length buf) <= 32767 ->
  exists r n' l, uiso_network_send fuel now now' c buf n = Some (r, c, n')
    /\ trace n' = trace n ++ map (send_event c) l
    /\ ((r = Z.of_nat (length buf) /\ accepted l = buf /\ Forall (fun x => 0 < snd x) l)
        \/ (r <= 0 /\ exists l0 b, l = l0 ++ [(b, r)] /\ b <> [] /\ accepted l0 ++ b = buf)).
Proof using LAWS. apply send_complete. Qed.
End SendTheorems.

Section TlsTheorems.
Context {W : Type} {TLS : MbedTLS W} {LAWS : MbedTLSLaws W}.
Implicit Types n : net W.

Definition no_write (l : list io_event) : Prop := ssl_accepted l = [].

Lemma no_write_app l l' : no_write l -> no_write l' -> no_write (l ++ l').
Proof using. unfold no_write. by rewrite ssl_accepted_app; intros -> ->. Qed.

Lemma call_ssl_trace op (f : W -> Z * W) n r n' :
  call_ssl op f n = (r, n') -> trace n' = trace n ++ [EvSsl op r] /\ r = fst (f (dev n)).
Proof using. by intros [= <- <-]. Qed.

Lemma retry_no_write op (f : W -> Z * W) again fuel n r n' :
  match op with SslWrite _ => False | _ => True end ->
  retry fuel (call_ssl op f) again n = Some (r, n') ->
  (exists l, trace n' = trace n ++ l /\ no_write l) /\ exists w, fst (f w) = r.
Proof using.
  intros Hop (Hl & (n0 & Hn0) & _)%(retry_spec _ _ no_write); [| done | exact no_write_app |].
  - split; [done | by exists (dev n0)].
  - intros m. exists [EvSsl op (fst (f (dev m)))]. split; [done |]. by destruct op.
Qed.

Lemma reconnect_spec fuel n r n' :
  reconnect fuel n = Some (r, n') -> r <= 0 /\ exists l, trace n' = trace n ++ l /\ no_write l.
Proof using LAWS.
  unfold reconnect. intros H.
  destruct (retry fuel call_close_notify want_rw n) as [[r1 n1]|] eqn:E1; [| done]. cbn [mbind option_bind] in H.
  apply retry_no_write in E1 as ((l1 & Ht1 & Hl1) & _); [| done].
  destruct (call_session_reset n1) as [r2 n2] eqn:E2. apply call_ssl_trace in E2 as [Ht2 Hr2].
  destruct (r2 =? 0) eqn:Hz.
  - apply retry_no_write in H as ((l3 & Ht3 & Hl3) & w & <-); [| done].
    split; [apply ssl_handshake_le |]. exists (l1 ++ [EvSsl SslSessionReset r2] ++ l3).
    rewrite Ht3, Ht2, Ht1, <- !app_assoc. split; [done |]. apply no_write_app; [done |]. by apply (no_write_app [_]).
  - injection H as <- <-. split; [subst r2; apply ssl_session_reset_le |].
    exists (l1 ++ [EvSsl SslSessionReset r2]). rewrite Ht2, Ht1, <- app_assoc.
    split; [done |]. by apply no_write_app.
Qed.

Lemma write_again_neg r : write_again r = true -> r < 0.
Proof using LAWS.
  pose proof ssl_errors_negative as H. unfold write_again, want_rw. rewrite !orb_true_iff, !Z.eqb_eq. lia.
Qed.

Lemma dtls_write_loop_spec fuel buf offset n ret off n' :
  0 <= offset <= Z.of_nat (length buf) ->
  dtls_write_loop fuel buf offset n = Some (ret, off, n') ->
  ret <= 0 /\ (ret = 0 -> off = Z.of_nat (length buf))
  /\ exists l, trace n' = trace n ++ l /\ drop (Z.to_nat offset) buf = ssl_accepted l ++ drop (Z.to_nat off) buf.
Proof using LAWS.
  revert offset n. induction fuel as [|fuel IH]; intros offset n Ho; cbn [dtls_write_loop]; cbv zeta.
  all: destruct (Z.eqb_spec offset (Z.of_nat (length buf))) as [Heq|Hne].
  1,3: intros [= <- <- <-]; split_and!; [done | done |]; exists []; by rewrite app_nil_r.
  - done.
  - set (rest := drop (Z.to_nat offset) buf).
    assert (length rest = (length buf - Z.to_nat offset)%nat) as Hrest by apply length_drop.
    destruct (call_ssl_write rest n) as [r n1] eqn:E. apply call_ssl_trace in E as [Ht Hr].
    pose proof (ssl_write_le rest (dev n)) as Hle. rewrite <- Hr in Hle.
    assert (forall l, r < 0 -> ssl_accepted (EvSsl (SslWrite rest) r :: l) = ssl_accepted l) as Hskip.
    { intros l Hneg. unfold ssl_accepted. simpl. by rewrite Z2Nat.nonpos by lia. }
    destruct (write_again r) eqn:Hag; [| destruct (Z.ltb_spec r 0)].
    + apply write_again_neg in Hag. intros (H1 & H2 & l & Ht' & Hl)%IH; [| done]. split_and!; [done | done |].
      exists (EvSsl (SslWrite rest) r :: l). rewrite Ht', Ht, <- app_assoc, Hskip by done. done.
    + destruct (reconnect (S fuel) n1) as [[r2 n2]|] eqn:E2; [| done]. cbn [mbind option_bind].
      apply reconnect_spec in E2 as (Hr2 & l2 & Ht2 & Hl2). destruct (Z.eqb_spec r2 0).
      * intros (H1 & H2 & l & Ht' & Hl)%IH; [| done]. split_and!; [done | done |].
        exists (EvSsl (SslWrite rest) r :: l2 ++ l). rewrite Ht', Ht2, Ht, <- !app_assoc, Hskip by done.
        split; [done |]. rewrite ssl_accepted_app, Hl2. done.
      * intros [= <- <- <-]. split_and!; [done | done |].
        exists (EvSsl (SslWrite rest) r :: l2). rewrite Ht2, Ht, <- !app_assoc, Hskip by done.
        split; [done |]. by rewrite Hl2.
    + intros (H1 & H2 & l & Ht' & Hl)%IH; [| lia]. split_and!; [done | done |].
      exists (EvSsl (SslWrite rest) r :: l). rewrite Ht', Ht, <- app_assoc. split; [done |].
      unfold ssl_accepted. simpl. fold (ssl_accepted l). rewrite <- app_assoc, <- Hl.
      rewrite Z2Nat.inj_add by lia. rewrite <- drop_drop. by rewrite take_drop.
Qed.

Lemma renegotiation_fail_neg : UISO_NETWORK_DTLS_RENEGOCIATION_FAIL <= 0.
Proof using. unfold UISO_NETWORK_DTLS_RENEGOCIATION_FAIL, INT32_MIN. lia. Qed.

Lemma renegotiate_spec fuel n r n' :
  renegotiate fuel n = Some (r, n') -> r <= 0 /\ exists l, trace n' = trace n ++ l /\ no_write l.
Proof using LAWS.
  unfold renegotiate. intros H.
  destruct (retry fuel call_renegotiate _ n) as [[r1 n1]|] eqn:E1; [| done]. cbn [mbind option_bind] in H.
  apply retry_no_write in E1 as ((l1 & Ht1 & Hl1) & _); [| done].
  destruct (negb (r1 =? 0)) eqn:Hr1.
  - destruct (call_close_notify n1) as [r2 n2] eqn:E2. apply call_ssl_trace in E2 as [Ht2 _].
    destruct (call_session_reset n2) as [r3 n3] eqn:E3. apply call_ssl_trace in E3 as [Ht3 _]. cbv zeta in H.
    destruct ((if r2 =? 0 then r3 else r2) =? 0) eqn:Hz.
    + destruct (retry fuel call_handshake want_rw n3) as [[r4 n4]|] eqn:E4; [| done]. cbn [mbind option_bind] in H.
      apply retry_no_write in E4 as ((l4 & Ht4 & Hl4) & w & <-); [| done]. injection H as <- <-.
      pose proof (ssl_handshake_le w). clear Hr1. split; [destruct (negb _); [exact renegotiation_fail_neg | done] |].
      exists (l1 ++ [EvSsl SslCloseNotify r2; EvSsl SslSessionReset r3] ++ l4).
      rewrite Ht4, Ht3, Ht2, Ht1, <- !app_assoc. split; [done |]. apply no_write_app; [done |]. by apply (no_write_app [_; _]).
    + cbn [mbind option_bind] in H. rewrite Hz in H. injection H as <- <-. split; [exact renegotiation_fail_neg |].
      exists (l1 ++ [EvSsl SslCloseNotify r2; EvSsl SslSessionReset r3]).
      rewrite Ht3, Ht2, Ht1, <- !app_assoc. split; [done |]. by apply no_write_app.
  - cbn [mbind option_bind] in H. rewrite Hr1 in H. injection H as <- <-.
    apply negb_false_iff, Z.eqb_eq in Hr1 as ->. split; [done |]. by exists l1.
Qed.

(** A library that accepts at least a byte per write ends the loop. *)
Lemma dtls_write_loop_returns fuel buf offset n :
  (forall b w, b <> [] -> 0 < fst (ssl_write b w)) ->
  0 <= offset <= Z.of_nat (length buf) ->
  (Z.to_nat (Z.of_nat (length buf) - offset) <= fuel)%nat ->
  exists n', dtls_write_loop fuel buf offset n = Some (0, Z.of_nat (length buf), n').
Proof using LAWS.
  intros Hw. revert offset n. induction fuel as [|fuel IH]; intros offset n Ho Hf; cbn [dtls_write_loop]; cbv zeta.
  all: destruct (Z.eqb_spec offset (Z.of_nat (length buf))) as [->|Hne]; [by exists n |].
  { lia. }
  set (rest := drop (Z.to_nat offset) buf).
  assert (length rest = (length buf - Z.to_nat offset)%nat) as Hrest by apply length_drop.
  destruct (call_ssl_write rest n) as [r n1] eqn:E. apply call_ssl_trace in E as [_ Hr].
  pose proof (ssl_write_le rest (dev n)) as Hle. rewrite <- Hr in Hle.
  assert (0 < r) as Hpos by (subst r; apply Hw; intros Hnil; rewrite Hnil in Hrest; simpl in Hrest; lia).
  destruct (write_again r) eqn:Hag; [apply write_again_neg in Hag; lia |].
  destruct (Z.ltb_spec r 0); [lia |]. apply IH; lia.
Qed.

Lemma send_dtls_spec fuel now now' c buf n r c' n' :
  send_dtls fuel now now' c buf n = Some (r, c', n') ->
  exists l rest, trace n' = trace n ++ l /\ buf = ssl_accepted l ++ rest
    /\ if 0 <=? r then r = Z.of_nat (length buf) /\ rest = [] /\ c' = set_times now' (last_recv_time c) c
       else c' = c.
Proof using LAWS.
  unfold send_dtls. pose proof (ssl_get_peer_cid_le (dev n)) as Hcid.
  destruct (ssl_get_peer_cid (dev n)) as [[st cid] w]. simpl in Hcid. cbv zeta. intros H.
  destruct (if cid =? SSL_CID_DISABLED then _ else _) as [[r1 n1]|] eqn:E1; [| done]. cbn [mbind option_bind] in H.
  assert (r1 <= 0 /\ exists l, trace n1 = trace n ++ l /\ no_write l) as (Hr1 & l1 & Ht1 & Hl1).
  { destruct (cid =? SSL_CID_DISABLED); [destruct (120 <? _); [by apply renegotiate_spec in E1 |] |];
      injection E1 as <- <-; (split; [done |]); exists []; by rewrite app_nil_r. }
  destruct (Z.eqb_spec r1 0) as [->|Hne].
  - destruct (dtls_write_loop fuel buf 0 n1) as [[[r2 off] n2]|] eqn:E2; [| done]. cbn [mbind option_bind] in H.
    apply dtls_write_loop_spec in E2 as (Hr2 & Hoff & l2 & Ht2 & Hl2); [| lia]. injection H as <- <- <-.
    exists (l1 ++ l2), (drop (Z.to_nat off) buf).
    rewrite Ht2, Ht1, <- app_assoc, ssl_accepted_app, Hl1. split_and!; [done | done |].
    destruct (Z.eqb_spec r2 0) as [->|Hne2].
    + rewrite (Hoff eq_refl). destruct (Z.leb_spec 0 (Z.of_nat (length buf))); [| lia].
      by rewrite Nat2Z.id, drop_all.
    + by destruct (Z.leb_spec 0 r2); [lia |].
  - cbn [mbind option_bind] in H. injection H as <- <- <-. exists l1, buf.
    rewrite Hl1. split_and!; [done | done |]. by destruct (Z.leb_spec 0 r1); [lia |].
Qed.

(** C30: What the TLS library accepted during a send is always a prefix of the
    buffer, also across retries and across a new session after a failed write.
    A non-negative result is the full length, and then every byte was accepted
    once and in order and the send time is renewed; on an error the context is
    unchanged.  When every write makes progress and the session is fresh, the
    call returns the length. *)
Theorem send_dtls_complete fuel now now' c buf n :
  (forall r c' n', send_dtls fuel now now' c buf n = Some (r, c', n') ->
   exists l rest, trace n' = trace n ++ l /\ buf = ssl_accepted l ++ rest
    /\ if 0 <=? r then r = Z.of_nat (length buf) /\ rest = [] /\ c' = set_times now' (last_recv_time c) c
       else c' = c)
  /\ ((forall b w, b <> [] -> 0 < fst (ssl_write b w)) ->
      fst (fst (ssl_get_peer_cid (dev n))) = 0 -> u32 (now - last_send_time c) <= 120 ->
      (length buf <= fuel)%nat ->
      exists c' n', send_dtls fuel now now' c buf n = Some (Z.of_nat (length buf), c', n')).
Proof using LAWS.
  split; [intros r c' n'; apply send_dtls_spec |]. intros Hw Hst Hfresh Hfuel. unfold send_dtls.
  destruct (ssl_get_peer_cid (dev n)) as [[st cid] w]. simpl in Hst. subst st. cbv zeta.
  destruct (Z.ltb_spec 120 (u32 (now - last_send_time c))); [lia |].
  destruct (dtls_write_loop_returns fuel buf 0 (mk_net w (trace n))) as [n' Hn']; [done | lia | lia |].
  destruct (cid =? SSL_CID_DISABLED); cbn [mbind option_bind Z.eqb]; rewrite Hn'; cbn [mbind option_bind Z.eqb]; eauto.
Qed.
End TlsTheorems.

(** ** Concrete runs *)

Module Example.
(** A driver that opens socket 3, accepts two bytes per transfer and refuses
    nothing; and one whose [connect] reports an error code. *)
Definition good : SimpleLink unit :=
  scripted (mk_answers (0, 16909060) 3 0 0 0 2 (0, []) sockaddr_zero 0).
Definition refusing : SimpleLink unit :=
  scripted (mk_answers (0, 16909060) 3 0 (-111) 0 2 (0, []) sockaddr_zero 0).

Lemma good_laws : SimpleLinkLaws unit (S := good).
Proof. split; simpl; intros; split_and?; try lia; try done; constructor. Qed.

Definition start : net unit := mk_net tt [].
Definition plain : uiso_sockets := set_fns send_tcp_fn recv_bio_tcp_fn true (set_sd 3 initialize_network_ctx).
End Example.
Import Example.

Lemma create_connection_outcomes_witness :
  exists ret c' n', uiso_create_network_connection (SL := good) (TLS := scripted_tls 2) 1 0 [97] [56] None
      uiso_protocol_tcp_ip4 initialize_network_ctx start = Some (ret, c', n')
    /\ create_phases (TLS := scripted_tls 2) [97] uiso_protocol_tcp_ip4 initialize_network_ctx c' start ret n'.
Proof.
  destruct (create_connection_outcomes (SL := good) (TLS := scripted_tls 2) 1 0 [97] [56] None
    uiso_protocol_tcp_ip4 initialize_network_ctx start) as [Hret Hout].
  destruct (Hret eq_refl) as [[[ret c'] n'] E]. exists ret, c', n'. split; [exact E |].
  destruct (Hout _ _ _ E) as [(H & _)|H]; [discriminate H | exact H].
Defined.

Lemma create_close_balanced_witness :
  exists c1 n1 c2 n2,
    uiso_create_network_connection (SL := good) (TLS := scripted_tls 2) 1 0 [97] [56] None
      uiso_protocol_tls_ip4 (set_ssl true initialize_network_ctx) start = Some (UISO_NETWORK_OK, c1, n1)
    /\ uiso_close_network_connection (SL := good) (TLS := scripted_tls 2) 1 c1 n1 = Some (0, c2, n2)
    /\ network_close (SL := good) c2 n2 = (UISO_NETWORK_NEGATIVE_SD, c2, n2).
Proof.
  do 4 eexists. split; [reflexivity |]. split; [reflexivity |].
  eapply (create_close_balanced (SL := good) (TLS := scripted_tls 2) 1 0 [97] [56] None
    uiso_protocol_tls_ip4 (set_ssl true initialize_network_ctx) start);
    [reflexivity | reflexivity | reflexivity].
Defined.

Lemma network_send_complete_witness :
  exists r n' l, uiso_network_send (SL := good) (TLS := scripted_tls 2) 1 0 0 plain [1; 2; 3; 4; 5] start = Some (r, plain, n')
    /\ trace n' = [] ++ map (send_event plain) l
    /\ ((r = 5 /\ accepted l = [1; 2; 3; 4; 5] /\ Forall (fun x => 0 < snd x) l)
        \/ (r <= 0 /\ exists l0 b, l = l0 ++ [(b, r)] /\ b <> [] /\ accepted l0 ++ b = [1; 2; 3; 4; 5])).
Proof.
  apply (network_send_complete (SL := good) (LAWS := good_laws) (TLS := scripted_tls 2) 1 0 0 plain [1; 2; 3; 4; 5] start);
    [by right | done].
Defined.

Lemma send_dtls_complete_witness :
  exists c' n', send_dtls (TLS := scripted_tls 2) 5 100 101 plain [1; 2; 3; 4; 5] start = Some (5, c', n').
Proof.
  apply (proj2 (send_dtls_complete (TLS := scripted_tls 2) (LAWS := scripted_tls_laws 2)
    5 100 101 plain [1; 2; 3; 4; 5] start)); [| done | done | simpl; lia].
  intros [|x b] w Hb; [done |]. simpl. lia.
Defined.

(** A negative answer of [connect], which is how the driver reports a failure,
    is taken for success: the code tests for a positive one. *)
Lemma connect_error_ignored :
  exists c' n', network_connect (SL := refusing) [97] [56] None uiso_protocol_tcp_ip4 initialize_network_ctx start
      = (UISO_NETWORK_OK, c', n')
    /\ EvConnect 3 (mk_sockaddr SL_AF_INET 2048 67305985) (-111) ∈ trace n'.
Proof. do 2 eexists. split; [reflexivity |]. simpl. repeat (apply list_elem_of_here || apply list_elem_of_further). Qed.

(** On a fresh context the TLS callbacks are never registered: the record
    still holds no protocol when they are chosen. *)
Lemma first_connection_without_bio {W} (n n' : net W) ret :
  set_mbedtls_bio (set_ssl true initialize_network_ctx) n = (ret, n') ->
  ret = UISO_NETWORK_OK /\ trace n' = trace n ++ [EvSsl (SslSetMtu SIMPLELINK_MAX_SEND_MTU) 0].
Proof. by intros [= <- <-]. Qed.
End Network.
