(* ===== verification/MqttTask.v ===== *)
(** * The MQTT task

    Models [src/mqtt/mqtt_client.c]: the task that connects the MQTT client to a
    broker, subscribes, and then publishes a numbered message each time its timer
    has fired.  It runs the client of [MqttClient.v] over the firmware's own port
    ([MqttUiso.v]), is woken by task notifications, and waits for its socket at
    the network monitor of [Monitor.v].

    A turn is one pass of the task's loop.  What the other tasks do to the
    monitor's sockets while the task waits is an argument of the turn. *)

From Stdlib Require Import String.
From S2P Require Import Prelude Platform Printf MqttPacket MqttClient MqttExchange MqttUiso Monitor.

Module MqttTask.
Import Printf MqttPacket MqttClient MqttExchange MqttUiso.

Definition mqtt_notify_message_reception : Z := 2.
Definition mqtt_notify_sensor_timer : Z := 4.

(** The identifier of the service's socket ([network.h]). *)
Definition wifi_service_mqtt_socket : nat := 2.

Definition address : bytes := lit "test.mosquitto.org".
Definition sample_filter : bytes := lit "FreeRTOS/sample/#".
Definition sample_topic : bytes := lit "FreeRTOS/sample/a".

(** The handler [messageArrived], known by its number; it prints. *)
Definition messageArrived : handler := 1.

Definition connectData : MQTTPacket_connectData :=
  mk_connectData 3 (cstr (lit "LlobetianTecnologica")) (10 * 60) 1 0 MQTTPacket_willOptions_initializer
    MQTTString_initializer MQTTString_initializer.

(** [sprintf (payload, "message number %d", count)] into 30 characters. *)
Definition message_text (count : Z) : bytes := lit "message number " ++ fmt_d count.
Definition payload (count : Z) : option bytes := sprintf 30 (message_text count).

Section Task.
Context {W N : Type} {SL : SimpleLink W} {TO : TimeOuts W} {NT : TaskNotify N}.
Context (junk : publish_out) (fuel : nat).

Definition session : Type := st (W := network W).

(** The result of a call of the client, [None] for the other outcomes. *)
Definition run {A} (m : M (W := network W) A) (s : session) : option (A * session) :=
  match m s with Ret a s => Some (a, s) | _ => None end.

(** The variables of the task: client and network, the message counter, its
    notification word, and the monitor's sockets. *)
Record task := mk_task { ses : session; count : Z; box : N; sockets : list Monitor.wait_ctx }.

Definition set_ses (s : session) (t : task) : task := mk_task s (count t) (box t) (sockets t).
Definition set_box (b : N) (t : task) : task := mk_task (ses t) (count t) b (sockets t).

(** What the task does before its loop.  The return codes are only printed.
    [unset] is what the address holds when the name is not found, and [sendbuf],
    [readbuf], [keepAlive0] and [fps] are what the variables hold before they are
    set. *)
Definition start (unset : Z) (sendbuf readbuf : bytes) (keepAlive0 : Z) (fps : list (option handler))
    (n : network W) : option session :=
  let n := init_network n in
  let client := MQTTClientInit 30000 sendbuf readbuf keepAlive0 fps in
  let '(_, n) := NetworkConnect unset address 1883 n in
  '(_, s) ← run (MQTTConnectWithResults junk fuel (Some connectData) (0, 0)) (mk_st client n []);
  '(_, s) ← run (MQTTSubscribeWithResults junk fuel sample_filter QOS1 (Some messageArrived) 0) s;
  Some s.

(** [publish_timer_callback], in the timer task. *)
Definition publish_timer_callback (t : task) : task :=
  set_box (notify_set_bits mqtt_notify_sensor_timer (box t)) t.

(** The message of a turn: QoS 1, not retained; [dup] and [id] are not set. *)
Definition message_of (text : bytes) (dup0 id0 : Z) : MQTTMessage :=
  mk_MQTTMessage QOS1 0 dup0 id0 (Some text) (Z.of_nat (length text)).

(** The reactions to the notification word. *)
Definition react (v dup0 id0 : Z) (text : bytes) (s : session) : option session :=
  s ← (if test_mask v mqtt_notify_message_reception
       then '(_, s) ← run (MQTTYield junk fuel 500) s; Some s else Some s);
  if test_mask v mqtt_notify_sensor_timer
  then '(_, s) ← run (MQTTPublish junk fuel sample_topic (message_of text dup0 id0)) s; Some s else Some s.

(** One pass of the loop, at the time [now].  The counter is an [int] that is
    incremented in every pass. *)
Definition turn (now : Z) (others : list Monitor.wait_ctx -> list Monitor.wait_ctx) (dup0 id0 : Z) (t : task) :
    option task :=
  text ← payload (count t);
  if count t =? 2 ^ 31 - 1 then None
  else
    let '(v, b) := notify_wait 0 (box t) in
    s ← match v with Some v => react v dup0 id0 text (ses t) | None => Some (ses t) end;
    let '(rc, sockets) := Monitor.enqueue_select_rx wifi_service_mqtt_socket now 5 others (sockets t) in
    let b := if rc =? 0 then notify_set_bits mqtt_notify_message_reception b else b in
    Some (mk_task s (count t + 1) b sockets).

(** What happens to the task: its timer fires, or it makes a pass. *)
Inductive event :=
| TimerFires
| Pass (now : Z) (others : list Monitor.wait_ctx -> list Monitor.wait_ctx) (dup0 id0 : Z).

Definition happen (e : event) (t : task) : option task :=
  match e with
  | TimerFires => Some (publish_timer_callback t)
  | Pass now others dup0 id0 => turn now others dup0 id0 t
  end.

Fixpoint history (es : list event) (t : task) : option task :=
  match es with
  | [] => Some t
  | e :: es => t ← happen e t; history es t
  end.

End Task.


(** ** The socket the monitor does not know

    The task passes its socket to [enqueue_select_rx], which ignores it: the
    monitor looks at the socket of the service's context, which only
    [create_network_connection] sets and which stays -1 for this service. *)

(** What may happen to the contexts while service [id] waits: turns of the
    monitor, with any driver, and changes of the other contexts. *)
Inductive others_run (id : nat) : list Monitor.wait_ctx -> list Monitor.wait_ctx -> Prop :=
| others_done s : others_run id s s
| others_monitor {D : Type} {S : Selector D} now s w s' w' s'' :
    Monitor.select_task_turn now s w = Some (s', w') -> others_run id s' s'' -> others_run id s s''
| others_service i f s s'' : i <> id -> others_run id (alter f i s) s'' -> others_run id s s''.

Definition unconnected (id : nat) (s : list Monitor.wait_ctx) : Prop :=
  exists c, s !! id = Some c /\ Monitor.sd c <= 0.

Lemma scan_unconnected now s acc i c :
  s !! i = Some c -> Monitor.sd c <= 0 -> fst (Monitor.scan now s acc) !! i = Some c.
Proof.
  revert acc i. induction s as [| c0 s IH]; intros acc i Hi Hc; [done |]. cbn [Monitor.scan].
  destruct (Monitor.scan_ctx now c0 acc) as [c1 acc1] eqn:E1.
  destruct i as [| i]; cbn in Hi.
  - injection Hi as ->. unfold Monitor.scan_ctx in E1. destruct acc as [[tm r] w].
    rewrite (proj2 (Z.ltb_ge _ _)) in E1 by done. injection E1 as <- <-. by destruct (Monitor.scan now s _).
  - specialize (IH acc1 i Hi Hc). by destruct (Monitor.scan now s acc1).
Qed.

Lemma dispatch_tx_same set s s' : Monitor.dispatch_tx set s = Some s' -> s' = s.
Proof.
  revert s'. induction s as [| c s IH]; intros s'; [by intros [= <-] |]. cbn. case_match; [done |].
  intros (s1 & E & [= <-])%bind_Some. by rewrite (IH s1 E).
Qed.

Lemma monitor_unconnected {D} {S : Selector D} now s (w : D) s' w' i c :
  Monitor.select_task_turn now s w = Some (s', w') -> s !! i = Some c -> Monitor.sd c <= 0 -> s' !! i = Some c.
Proof.
  unfold Monitor.select_task_turn. intros E Hi Hc.
  pose proof (scan_unconnected now s (Monitor.MONITOR_MAX_RESPONSE_S, None, None) i c Hi Hc) as Hs.
  destruct (Monitor.scan now s _) as [s1 [[tm r] w0]]. simpl in Hs.
  assert (forall r', (match r' with Some set => Monitor.dispatch_rx set <$> s1 | None => s1 end) !! i = Some c) as Hrx.
  { intros [set |]; [| done]. rewrite list_lookup_fmap, Hs. cbn. unfold Monitor.dispatch_rx.
    by rewrite (proj2 (Z.ltb_ge _ _)). }
  assert (forall r0 w1, (let '(result, rset, wset, w) := sl_select r0 w1 tm w in
    if 0 <? result then
      let s := match rset with Some set => Monitor.dispatch_rx set <$> s1 | None => s1 end in
      s ← match wset with Some set => Monitor.dispatch_tx set s | None => Some s end; Some (s, w)
    else Some (s1, w)) = Some (s', w') -> s' !! i = Some c) as Hsel.
  { intros r0 w1. destruct (sl_select r0 w1 tm w) as [[[result rset] wset] w2]. destruct (0 <? result).
    - cbv zeta. intros (s2 & E2 & [= <- <-])%bind_Some. specialize (Hrx rset).
      destruct wset; [by rewrite (dispatch_tx_same _ _ _ E2) | by injection E2 as <-].
    - by intros [= <- <-]. }
  destruct r, w0; first [by apply (Hsel _ _ E) | by injection E as <- <-].
Qed.

Lemma others_unconnected id s s' c :
  others_run id s s' -> s !! id = Some c -> Monitor.sd c <= 0 -> s' !! id = Some c.
Proof.
  induction 1 as [s | D S now s w s' w' s'' E _ IH | i f s s'' Hi _ IH]; intros Hc Hsd; [done | |]; apply IH; try done.
  - by apply (monitor_unconnected now s w s' w').
  - by rewrite list_lookup_alter_ne.
Qed.

(** Nobody signals the context, and its socket stays unset. *)
Lemma select_unconnected id now timeout others s :
  (forall s, others_run id s (others s)) -> unconnected id s ->
  exists s', Monitor.enqueue_select_rx id now timeout others s = (-1, s') /\ unconnected id s'.
Proof.
  intros Ho (c & Hc & Hsd). unfold Monitor.enqueue_select_rx, Monitor.wifi_service_register_rx_socket.
  set (s1 := alter _ id (alter _ id s)).
  assert (exists c1, s1 !! id = Some c1 /\ Monitor.sd c1 <= 0 /\ Monitor.rx_signal c1 = false) as (c1 & H1 & Hsd1 & Hr1).
  { subst s1. rewrite !list_lookup_alter_eq, Hc. eexists. split; [reflexivity |]. by destruct c. }
  pose proof (others_unconnected id s1 (others s1) c1 (Ho s1) H1 Hsd1) as H2.
  rewrite H2, Hr1. exists (others s1). split; [done |]. by exists c1.
Qed.

(** ** Texts and packets fit *)

Lemma message_text_spec count : 0 <= count < 2 ^ 31 ->
  is_bytes (message_text count) /\ (length (message_text count) <= 25)%nat /\ payload count = Some (message_text count).
Proof.
  intros Hc. destruct (fmt_u_spec count) as (_ & Hd & Hl); [unfold is_u32; lia |].
  unfold payload, sprintf, message_text. rewrite fmt_d_nonneg by lia.
  assert (is_bytes (lit "message number ")) as Hb by (repeat constructor; done).
  assert (length (lit "message number " ++ fmt_u count) <= 25)%nat as Hlen
    by (rewrite length_app; change (length (lit "message number ")) with 15%nat; lia).
  split; [apply Forall_app; split; [exact Hb | by apply digits_bytes] |]. split; [done |].
  rewrite decide_True; [done | lia].
Qed.

(** The text tells the number: no two messages are alike. *)
Lemma message_text_inj a b :
  0 <= a < 2 ^ 31 -> 0 <= b < 2 ^ 31 -> message_text a = message_text b -> a = b.
Proof.
  intros Ha Hb E. unfold message_text in E. rewrite !fmt_d_nonneg in E by lia. apply app_inv_head in E.
  apply fmt_u_inj; unfold is_u32; [lia | lia | done].
Qed.

(** The packet of one message. *)
Definition message_packet (m : Z * Z) : bytes :=
  packet PUBLISH 0 1 0 (publish_body 1 (snd m) sample_topic (message_text (fst m))).

Definition wrote (pkt : bytes) : MqttClient.event := Wrote pkt (Z.of_nat (length pkt)).

Definition puback (id : Z) : bytes := packet PUBACK 0 0 0 (be16 id).

(** The identifier after [id]. *)
Definition id_after (id : Z) : Z := if id =? MAX_PACKET_ID then 1 else id + 1.

(** The messages due in a history: one for each pass that follows the timer,
    numbered by the pass, with consecutive identifiers. *)
Fixpoint due (fired : bool) (count id : Z) (es : list event) : list (Z * Z) :=
  match es with
  | [] => []
  | TimerFires :: es => due true count id es
  | Pass _ _ _ _ :: es =>
    if fired then (count, id_after id) :: due false (count + 1) (id_after id) es
    else due false (count + 1) id es
  end.

Fixpoint passes (es : list event) : Z :=
  match es with
  | [] => 0
  | TimerFires :: es => passes es
  | Pass _ _ _ _ :: es => 1 + passes es
  end.

Lemma passes_nonneg es : 0 <= passes es.
Proof. induction es as [| [|] es IH]; cbn [passes]; lia. Qed.

(** The other tasks, in every pass, run as described above. *)
Definition fair (e : event) : Prop :=
  match e with
  | TimerFires => True
  | Pass _ others _ _ => forall s, others_run wifi_service_mqtt_socket s (others s)
  end.

Section Publishing.
Context {W N : Type} {SL : SimpleLink W} {TO : TimeOuts W} {NT : TaskNotify N} {NL : TaskNotifyLaws N}.
Context {PP : PromptPeer (network W)}.
Context (junk : publish_out) (fuel : nat) (Hfuel : (0 < fuel)%nat).

(** The notification word: nothing, or the timer. *)
Definition word (fired : bool) (b : N) : Prop :=
  notify_pending b = fired /\ notify_word b = if fired then mqtt_notify_sensor_timer else 0.

(** A session that is open, with the buffers of the task. *)
Record open (s : session (W := W)) : Prop := {
  open_inv : client_inv (client s);
  open_connected : isconnected (client s) = true;
  open_mutex : mutex_held (client s) = false;
  open_buf : length (buf (client s)) = 80%nat;
  open_readbuf : length (readbuf (client s)) = 80%nat;
}.

#[local] Set Default Proof Using "Type*".

Lemma publish_message s count dup0 id0 ackid rest :
  open s -> 0 <= count < 2 ^ 31 -> is_u16 ackid -> stream (world s) = puback ackid ++ rest ->
  exists s', run (MQTTPublish junk fuel sample_topic (message_of (message_text count) dup0 id0)) s
             = Some (SUCCESS, id_after (next_packetid (client s)), s')
    /\ open s' /\ stream (world s') = rest
    /\ next_packetid (client s') = id_after (next_packetid (client s))
    /\ log s' = log s ++ [wrote (message_packet (count, id_after (next_packetid (client s))))].
Proof.
  intros [Hi Hc Hm Hb Hr] Hn Ha Hs. destruct (message_text_spec count Hn) as (Htb & Htl & _).
  edestruct (publish_runs junk fuel sample_topic 0 (message_text count) dup0 id0 ackid rest s)
    as (r & s' & E & -> & Hl & Hst & Hc' & Hm' & Hid & _); try done; try (by left).
  - rewrite Hb. unfold MQTTSerialize_publishLength, MQTTPacket_len, MAX_REMAINING_LENGTH.
    change (MQTTstrlen (cstr sample_topic)) with 17. cbn [Z.ltb Z.compare]. rewrite (proj2 (Z.ltb_lt _ 128)) by lia. lia.
  - rewrite Hr. unfold MAX_REMAINING_LENGTH. lia.
  - exists s'. unfold run, message_of. rewrite E. split; [done |].
    destruct (run_api_frame junk fuel
                (Publish sample_topic (mk_MQTTMessage QOS1 0 dup0 id0 (Some (message_text count)) (Z.of_nat (length (message_text count)))))
                s SUCCESS s') as [F1 _ F3 F4 _].
    { cbn [run_api]. unfold bind. by rewrite E. }
    split; [| done]. split; [by apply F1 | done | done | congruence | congruence].
Qed.

(** One pass: the message of an expired timer is published, and the next pass
    starts without a notification. *)
Lemma turn_publishes t now others dup0 id0 fired acks rest :
  open (ses t) -> word fired (box t) -> unconnected wifi_service_mqtt_socket (sockets t) ->
  (forall s, others_run wifi_service_mqtt_socket s (others s)) -> 0 <= count t < 2 ^ 31 - 1 ->
  (fired = true -> exists a, acks = [a] /\ is_u16 a) -> (fired = false -> acks = []) ->
  stream (world (ses t)) = concat (puback <$> acks) ++ rest ->
  exists t', turn junk fuel now others dup0 id0 t = Some t'
    /\ open (ses t') /\ word false (box t') /\ unconnected wifi_service_mqtt_socket (sockets t')
    /\ count t' = count t + 1 /\ stream (world (ses t')) = rest
    /\ let id := if fired then id_after (next_packetid (client (ses t))) else next_packetid (client (ses t)) in
       next_packetid (client (ses t')) = id
       /\ log (ses t') = log (ses t) ++ if fired then [wrote (message_packet (count t, id))] else [].
Proof.
  intros Ho [Hp Hw] Hu Hoth Hc Hf1 Hf0 Hs. unfold turn.
  destruct (message_text_spec (count t)) as (_ & _ & ->); [lia |]. cbn [mbind option_bind].
  rewrite (proj2 (Z.eqb_neq _ _)) by lia.
  destruct (select_unconnected _ now 5 others (sockets t) Hoth Hu) as (socks & Hsel & Hu').
  destruct fired.
  - pose proof (notify_wait_some 0 (box t) Hp) as (Hv & Hw' & Hp'). destruct (notify_wait 0 (box t)) as [v b].
    simpl in Hv, Hw', Hp'. subst v. rewrite Hw. unfold react.
    change (test_mask mqtt_notify_sensor_timer mqtt_notify_message_reception) with false.
    change (test_mask mqtt_notify_sensor_timer mqtt_notify_sensor_timer) with true. cbn [mbind option_bind].
    destruct (Hf1 eq_refl) as (a & -> & Ha). cbn [fmap list_fmap concat] in Hs. rewrite app_nil_r in Hs.
    destruct (publish_message (ses t) (count t) dup0 id0 a rest) as (s' & -> & Ho' & Hst & Hid & Hl); try done; [lia |].
    cbn [mbind option_bind]. rewrite Hsel. change (-1 =? 0) with false. cbv iota.
    eexists. split; [reflexivity |]. by cbn [ses box sockets count].
  - pose proof (notify_wait_none 0 (box t) Hp) as (Hv & Hw' & Hp'). destruct (notify_wait 0 (box t)) as [v b].
    simpl in Hv, Hw', Hp'. subst v. cbn [mbind option_bind]. rewrite Hsel. change (-1 =? 0) with false. cbv iota.
    rewrite (Hf0 eq_refl) in Hs. rewrite Hw in Hw'.
    eexists. split; [reflexivity |]. cbn [ses box sockets count]. rewrite app_nil_r. by split_and!.
Qed.

Lemma history_publishes es :
  forall t fired acks rest,
  open (ses t) -> word fired (box t) -> unconnected wifi_service_mqtt_socket (sockets t) ->
  Forall fair es -> 0 <= count t -> count t + passes es < 2 ^ 31 ->
  let ms := due fired (count t) (next_packetid (client (ses t))) es in
  length acks = length ms -> Forall is_u16 acks ->
  stream (world (ses t)) = concat (puback <$> acks) ++ rest ->
  exists t', history junk fuel es t = Some t'
    /\ log (ses t') = log (ses t) ++ (wrote ∘ message_packet <$> ms)
    /\ count t' = count t + passes es /\ stream (world (ses t')) = rest /\ open (ses t').
Proof.
  induction es as [| e es IH]; intros t fired acks rest Ho Hw Hu Hf H0 Hmax ms Hl Ha Hs.
  { subst ms. destruct acks; [| done]. exists t. cbn. rewrite app_nil_r. split_and!; try done. lia. }
  apply list.Forall_cons in Hf as [He Hf]. pose proof (passes_nonneg es) as Hpn.
  destruct e as [| now others dup0 id0]; cbn [history happen mbind option_bind passes] in *.
  - destruct (IH (publish_timer_callback t) true acks rest) as (t' & E & HL & HC & HS & HO); try done.
    + split; [apply notify_set_bits_pending |]. cbn [publish_timer_callback set_box box].
      rewrite notify_set_bits_word. destruct Hw as [_ ->]. by destruct fired.
    + exists t'. rewrite E. done.
  - destruct fired; cbn [due] in ms.
    + destruct acks as [| a acks]; [done |]. apply list.Forall_cons in Ha as [Ha1 Ha].
      destruct (turn_publishes t now others dup0 id0 true [a] (concat (puback <$> acks) ++ rest))
        as (t1 & -> & Ho1 & Hw1 & Hu1 & Hc1 & Hs1 & Hid & Hl1); try done; [lia | by exists a |].
      cbn [mbind option_bind].
      destruct (IH t1 false acks rest) as (t' & E & HL & HC & HS & HO); try done; try lia.
      { subst ms. rewrite Hc1, Hid. cbn [length] in Hl. lia. }
      exists t'. split; [done |]. rewrite HL, Hl1, Hc1, Hid, <- (assoc_L (++)). split_and!; try done. lia.
    + destruct (turn_publishes t now others dup0 id0 false [] (stream (world (ses t))))
        as (t1 & -> & Ho1 & Hw1 & Hu1 & Hc1 & Hs1 & Hid & Hl1); try done; [lia |].
      cbn [mbind option_bind]. rewrite app_nil_r in Hl1. rewrite Hs in Hs1.
      destruct (IH t1 false acks rest) as (t' & E & HL & HC & HS & HO); try done; try lia.
      { by rewrite Hc1, Hid. }
      exists t'. split; [done |]. rewrite HL, Hl1, Hc1, Hid. split_and!; try done. lia.
Qed.
End Publishing.

(** ** From the start of the task *)

Lemma connectData_ok : connect_ok connectData.
Proof. split; first [by left | by right | reflexivity | split; by vm_compute]. Qed.

Definition connect_packet : bytes := packet CONNECT 0 0 0 (connect_body connectData).
Definition subscribe_packet (id : Z) : bytes := packet SUBSCRIBE 0 1 0 (subscribe_body id [(cstr sample_filter, QOS1)]).

Section Start.
Context {W N : Type} {SL : SimpleLink W} {TO : TimeOuts W} {NT : TaskNotify N} {NL : TaskNotifyLaws N}.
Context {PP : PromptPeer (network W)}.
Context (junk : publish_out) (fuel : nat).

(** A broker that accepts the connection and answers the subscription: the
    session is open and the two packets were sent. *)
Lemma start_opens unset sendbuf readbuf keepAlive0 fps (n : network W) rc n' flags sid g rest :
  (0 < fuel)%nat -> length sendbuf = 80%nat -> length readbuf = 80%nat -> length fps = MAX_MESSAGE_HANDLERS ->
  NetworkConnect unset address 1883 (init_network n) = (rc, n') -> is_u16 sid ->
  stream n' = packet CONNACK 0 0 0 [flags; 0] ++ packet SUBACK 0 0 0 (be16 sid ++ [g]) ++ rest ->
  exists s, start junk fuel unset sendbuf readbuf keepAlive0 fps n = Some s /\ open s
    /\ log s = [wrote connect_packet; wrote (subscribe_packet 2)] /\ stream (world s) = rest
    /\ next_packetid (client s) = 2.
Proof.
  intros Hf Hb Hr Hfps Hn Hsid Hs. unfold start. rewrite Hn.
  set (c0 := MQTTClientInit _ _ _ _ _). set (s0 := mk_st c0 n' []).
  edestruct (connect_runs junk fuel connectData (0, 0) flags 0) with (s := s0)
    as (r1 & s1 & E1 & -> & Hl1 & Hs1 & Hc1 & Hm1 & _ & Hh1 & Hid1);
    [done | apply connectData_ok | done | done | exact Hs
    | cbn; rewrite Hb; split; by vm_compute | cbn; rewrite Hr; split; by vm_compute |].
  destruct (run_api_frame junk fuel (Connect (Some connectData)) s0 0 s1) as [F1 _ F3 F4 _].
  { cbn [run_api]. unfold bind. by rewrite E1. }
  assert (client_inv (client s1)) as Hinv1 by (by apply F1, init_inv).
  assert (run (MQTTConnectWithResults junk fuel (Some connectData) (0, 0)) s0 = Some ((0, (0, flags .& 1)), s1)) as ->
    by (unfold run; by rewrite E1). cbn [mbind option_bind].
  edestruct (subscribe_runs junk fuel sample_filter QOS1 messageArrived 0 g sid rest s1)
    as (r2 & s2 & E2 & -> & Hl2 & Hs2 & Hc2 & Hm2 & _ & Hid2);
    [done | done | done | done | done | split; by vm_compute | done | | done | | |].
  { rewrite Hh1. cbn. clear. induction fps as [| fp fps IH]; [done | exact IH]. }
  { rewrite F3. cbn. rewrite Hb. split; by vm_compute. }
  { rewrite F4. cbn. rewrite Hr. split; by vm_compute. }
  destruct (run_api_frame junk fuel (Subscribe sample_filter QOS1 (Some messageArrived)) s1 0 s2) as [G1 _ G3 G4 _].
  { cbn [run_api]. unfold bind. by rewrite E2. }
  assert (run (MQTTSubscribeWithResults junk fuel sample_filter QOS1 (Some messageArrived) 0) s1 = Some ((SUCCESS, g), s2)) as ->
    by (unfold run; by rewrite E2).
  cbn [mbind option_bind]. exists s2. split; [done |].
  assert (next_id (client s1) = 2) as Eid by (unfold next_id; by rewrite Hid1). rewrite Eid in *.
  split; [split; [by apply G1 | done | done | rewrite G3, F3; exact Hb | rewrite G4, F4; exact Hr] |].
  rewrite Hl2, Hl1. done.
Qed.

(** C31: the MQTT task, from its start and through any history of its timer and
    of the other tasks: with a broker that accepts and acknowledges, it sends
    exactly CONNECT, SUBSCRIBE, and one PUBLISH for each pass of its loop that
    follows an expiry of the timer, each inside its buffers, numbered by the pass
    and with consecutive packet identifiers, and it never makes an undefined
    step.  It never reads for incoming messages on its own: the monitor does not
    watch its socket, whatever the driver reports. *)
Theorem task_publishes unset sendbuf readbuf keepAlive0 fps (n : network W) rc n' flags sid g
    (b : N) socks es acks rest :
  (0 < fuel)%nat -> length sendbuf = 80%nat -> length readbuf = 80%nat -> length fps = MAX_MESSAGE_HANDLERS ->
  NetworkConnect unset address 1883 (init_network n) = (rc, n') -> is_u16 sid ->
  notify_pending b = false -> notify_word b = 0 -> unconnected wifi_service_mqtt_socket socks ->
  Forall fair es -> passes es < 2 ^ 31 ->
  length acks = length (due false 0 2 es) -> Forall is_u16 acks ->
  stream n' = packet CONNACK 0 0 0 [flags; 0] ++ packet SUBACK 0 0 0 (be16 sid ++ [g])
              ++ concat (puback <$> acks) ++ rest ->
  exists s t', start junk fuel unset sendbuf readbuf keepAlive0 fps n = Some s
    /\ history junk fuel es (mk_task s 0 b socks) = Some t'
    /\ log (ses t') = [wrote connect_packet; wrote (subscribe_packet 2)]
                      ++ (wrote ∘ message_packet <$> due false 0 2 es)
    /\ count t' = passes es /\ stream (world (ses t')) = rest.
Proof.
  intros Hf Hb Hr Hfps Hn Hsid Hp Hw Hu Hfair Hmax Hl Ha Hs.
  destruct (start_opens unset sendbuf readbuf keepAlive0 fps n rc n' flags sid g (concat (puback <$> acks) ++ rest))
    as (s & Es & Ho & Hlog & Hst & Hid); try done.
  destruct (history_publishes junk fuel Hf es (mk_task s 0 b socks) false acks rest)
    as (t' & Et & Hlog' & Hc' & Hst' & _); cbn [ses box sockets count]; try done; rewrite ?Hid; try done.
  exists s, t'. split; [done |]. split; [done |]. cbn [ses count] in *. by rewrite Hlog', Hlog, Hid.
Qed.
End Start.

(** A broker on a wire: the driver's state is what the broker has sent. *)
Module Example.
#[export] Instance broker : SimpleLink bytes := {|
  dns_get_host_by_name _ w := ((0, 1), w);
  sl_socket _ _ _ w := (3, w);
  sl_bind _ _ w := (0, w);
  sl_connect _ _ w := (0, w);
  sl_close _ w := (0, w);
  sl_send _ b w := (Z.of_nat (length b), w);
  sl_sendto _ b _ w := (Z.of_nat (length b), w);
  sl_recv _ len w := ((Z.of_nat (length (take (Z.to_nat len) w)), take (Z.to_nat len) w), drop (Z.to_nat len) w);
  sl_recvfrom _ len w := ((0, [], sockaddr_zero), w);
  sl_set_nonblocking _ w := (0, w);
  sl_devset_datetime _ w := (0, w) |}.

#[export] Instance patient : TimeOuts bytes := {|
  TimeOut_t := unit;
  timeout_zero := tt;
  vTaskSetTimeOutState w := (tt, w);
  xTaskCheckForTimeOut _ ticks w := ((false, tt, ticks), w) |}.

#[export] Instance broker_prompt : PromptPeer (network bytes).
Proof.
  refine {| stream n := dev (link n) |}; try done.
  intros len t [sd [w tr]] Hn. cbn [dev link] in Hn.
  assert (uiso_mqtt_read len t (mk_network sd (mk_net w tr))
          = ((len, take (Z.to_nat len) w), mk_network sd (mk_net (drop (Z.to_nat len) w) (tr ++ [EvRecv sd len len])))) as E.
  { unfold uiso_mqtt_read. cbn [my_socket link read_loop]. unfold call_recv, logged. cbn.
    rewrite Z.sub_0_r. assert (Z.of_nat (length (take (Z.to_nat len) w)) = len) as Hl by (rewrite length_take; lia).
    rewrite Hl. rewrite (proj2 (Z.leb_gt len 0)) by lia. rewrite Z.ltb_irrefl. cbn. by rewrite Hl. }
  change (mqttread len t (mk_network sd (mk_net w tr))) with (uiso_mqtt_read len t (mk_network sd (mk_net w tr))).
  by rewrite E.
Defined.

(** The broker accepts, grants QoS 1 and acknowledges two messages. *)
Definition script : bytes := [32; 2; 0; 0] ++ [144; 3; 0; 2; 1] ++ [64; 2; 0; 3; 64; 2; 0; 4].
Definition node : network bytes := mk_network 0 (mk_net script []).
Definition quiet : list Monitor.wait_ctx -> list Monitor.wait_ctx := fun s => s.
Definition evening : list event := [TimerFires; Pass 10 quiet 0 0; Pass 15 quiet 0 0; TimerFires; Pass 20 quiet 0 0].
End Example.
Import Example.

(** Two expiries: the messages are numbered 0 and 2. *)
Lemma task_publishes_witness :
  exists s t', start MqttClient.Example.no_junk 1 0 (replicate 80 0) (replicate 80 0) 0 (replicate 5 None) node = Some s
    /\ history MqttClient.Example.no_junk 1 evening (mk_task s 0 (mk_notif 0 false) Monitor.initialize_socket_management) = Some t'
    /\ log (ses t') = [wrote connect_packet; wrote (subscribe_packet 2)]
         ++ [wrote (message_packet (0, 3)); wrote (message_packet (2, 4))]
    /\ count t' = 3 /\ stream (world (ses t')) = [].
Proof.
  apply (task_publishes MqttClient.Example.no_junk 1 0 (replicate 80 0) (replicate 80 0) 0 (replicate 5 None) node 0
           (snd (NetworkConnect 0 address 1883 (init_network node))) 0 2 1 (mk_notif 0 false)
           Monitor.initialize_socket_management evening [3; 4] []); try reflexivity.
  - lia.
  - split; by vm_compute.
  - eexists. split; [reflexivity | by vm_compute].
  - repeat constructor; intros; apply others_done.
  - repeat constructor; by vm_compute.
Defined.

(** ** A session that was not opened *)

(** Without a connection a publish writes nothing; the task ignores the results
    of connecting and of publishing and does not connect again. *)
Lemma publish_disconnected {W} {P : MqttPort W} junk fuel topic m (s : st (W := W)) :
  isconnected (client s) = false -> mutex_held (client s) = false ->
  exists s', MQTTPublish junk fuel topic m s = Ret (FAILURE, msg_id m) s'
    /\ log s' = log s /\ isconnected (client s') = false /\ mutex_held (client s') = false.
Proof.
  intros Hc Hm. unfold MQTTPublish, command, locked, MutexLock, MutexUnlock, bind, get, modify.
  cbn [client world log]. rewrite Hm. cbn [client world log set_mutex isconnected]. rewrite Hc. cbn [negb ret].
  change (FAILURE =? FAILURE) with true. cbv iota. unfold MQTTCloseSession, bind, modify, get. cbn [client].
  destruct (cleansession _); eexists; split; reflexivity || done.
Qed.

(** So no message of any later pass is sent, as long as the monitor does not
    wake the task. *)
Lemma disconnected_silent {W N} {SL : SimpleLink W} {TO : TimeOuts W} {NT : TaskNotify N} {NL : TaskNotifyLaws N}
    junk fuel now others dup0 id0 (t : task (W := W) (N := N)) fired :
  isconnected (client (ses t)) = false -> mutex_held (client (ses t)) = false ->
  word fired (box t) -> 0 <= count t < 2 ^ 31 - 1 ->
  exists t', turn junk fuel now others dup0 id0 t = Some t' /\ log (ses t') = log (ses t)
    /\ isconnected (client (ses t')) = false /\ count t' = count t + 1.
Proof.
  intros Hc Hm [Hp Hw] Hcnt. unfold turn.
  destruct (message_text_spec (count t)) as (_ & _ & ->); [lia |]. cbn [mbind option_bind].
  rewrite (proj2 (Z.eqb_neq _ _)) by lia.
  destruct (Monitor.enqueue_select_rx _ now 5 others (sockets t)) as [rc socks]. destruct fired.
  - pose proof (notify_wait_some 0 (box t) Hp) as (Hv & _). destruct (notify_wait 0 (box t)) as [v b].
    simpl in Hv. subst v. rewrite Hw. unfold react.
    change (test_mask mqtt_notify_sensor_timer mqtt_notify_message_reception) with false.
    change (test_mask mqtt_notify_sensor_timer mqtt_notify_sensor_timer) with true. cbn [mbind option_bind].
    destruct (publish_disconnected junk fuel sample_topic (message_of (message_text (count t)) dup0 id0) (ses t) Hc Hm)
      as (s' & E & Hl & Hc' & _). unfold run. rewrite E. cbn [mbind option_bind].
    eexists. split; [reflexivity |]. done.
  - pose proof (notify_wait_none 0 (box t) Hp) as (Hv & _). destruct (notify_wait 0 (box t)) as [v b].
    simpl in Hv. subst v. cbn [mbind option_bind]. eexists. split; [reflexivity |]. done.
Qed.
End MqttTask.
