(* ===== verification/WifiService.v ===== *)
(** * The Wi-Fi service

    Models [src/wifi_service.c]: the event handlers that the SimpleLink driver
    calls from its own context, the timer callback, and the turns of the
    connection manager loop of [wifi_task], which reacts to the bits collected
    in the task's notification word and runs the SNTP client.

    The state is the service after [create_wifi_service_task]: the task and the
    timer exist.  Timers follow the documented FreeRTOS behaviour (changing the
    period of a dormant timer starts it); tasks are suspended and resumed
    without nesting.  [pdMS_TO_TICKS] belongs to FreeRTOS and is a parameter.
    The driver configuration that precedes the loop is not modelled. *)

From S2P Require Import Prelude Platform Sleeptimer Sntp.
Import Sntp.

Module WifiService.

(** ** Event bits *)

Definition WIFI_PENDING_STATE : Z := Z.shiftl 1 0.
Definition wifi_disconnected : Z := Z.shiftl 1 1.
Definition wifi_connecting : Z := Z.shiftl 1 2.
Definition wifi_connected : Z := Z.shiftl 1 3.
Definition WIFI_IP_ACQUIRED : Z := Z.shiftl 1 4.
Definition WIFI_IPV4_ACQUIRED : Z := Z.shiftl 1 5.
Definition WIFI_IPV6_ACQUIRED : Z := Z.shiftl 1 6.
Definition WIFI_IP_RELEASED : Z := Z.shiftl 1 7.
Definition WIFI_IP_MASK : Z := WIFI_IP_ACQUIRED .| WIFI_IPV4_ACQUIRED .| WIFI_IPV6_ACQUIRED .| WIFI_IP_RELEASED.
Definition wifi_ip_not_acquired : Z := 0.
Definition wifi_ip_v4_acquired : Z := (WIFI_IP_ACQUIRED .| WIFI_IPV4_ACQUIRED) .& WIFI_IP_MASK.
Definition wifi_ip_v6_acquired : Z := (WIFI_IP_ACQUIRED .| WIFI_IPV6_ACQUIRED) .& WIFI_IP_MASK.
Definition wifi_ip_released : Z := WIFI_IP_RELEASED .& WIFI_IP_MASK.
Definition wifi_ntp_timer : Z := Z.shiftl 1 8.
Definition wifi_ntp_synced_event : Z := Z.shiftl 1 9.

Definition WIFI_NTP_SYNC_PERIOD : Z := 12 * 3600 * 1000.

(** ** Driver events *)

Inductive wlan_event :=
| SL_WLAN_CONNECT_EVENT
| SL_WLAN_DISCONNECT_EVENT
| SL_WLAN_CONNECTION_FAILED_EVENT
| SL_WLAN_OTHER_EVENT (code : Z).

Inductive netapp_event :=
| SL_NETAPP_IPV4_IPACQUIRED_EVENT
| SL_NETAPP_IPV6_IPACQUIRED_EVENT
| SL_NETAPP_IP_RELEASED_EVENT
| SL_NETAPP_OTHER_EVENT (code : Z).

Section Service.
Context {W N : Type} {SL : SimpleLink W} {TN : TaskNotify N}.
Variable pdMS_TO_TICKS : Z -> Z.

(** ** State *)

Record wifi := mk_wifi {
  connection : Z;
  ip : Z;
  box : N;                     (* the notification word of the task *)
  timer_active : bool;         (* sntp_sync_timer *)
  timer_period : Z;
  user_running : bool;
  monitor_running : bool;
  mqtt_running : bool;
  server : sntp_server;        (* the first entry of sntp_server_list *)
  client : sntp W;
}.

Definition set_status c i w := mk_wifi c i (box w) (timer_active w) (timer_period w) (user_running w) (monitor_running w) (mqtt_running w) (server w) (client w).
Definition set_box b w := mk_wifi (connection w) (ip w) b (timer_active w) (timer_period w) (user_running w) (monitor_running w) (mqtt_running w) (server w) (client w).
Definition set_timer a p w := mk_wifi (connection w) (ip w) (box w) a p (user_running w) (monitor_running w) (mqtt_running w) (server w) (client w).
Definition set_tasks u m q w := mk_wifi (connection w) (ip w) (box w) (timer_active w) (timer_period w) u m q (server w) (client w).
Definition set_client sv s w := mk_wifi (connection w) (ip w) (box w) (timer_active w) (timer_period w) (user_running w) (monitor_running w) (mqtt_running w) sv s.

(** [xTaskNotify(wifi_task_handle, bits, eSetBits)] and the timer calls. *)
Definition xTaskNotify (bits : Z) (w : wifi) : wifi := set_box (notify_set_bits bits (box w)) w.
Definition xTimerChangePeriod (ticks : Z) (w : wifi) : wifi := set_timer true ticks w.
Definition xTimerStop (w : wifi) : wifi := if timer_active w then set_timer false (timer_period w) w else w.

(** ** Handlers in driver and timer context *)

Definition sntp_sync_timer_callback (w : wifi) : wifi := xTaskNotify (wifi_ntp_timer .| WIFI_PENDING_STATE) w.

Definition wlan_status (e : wlan_event) (c : Z) : Z :=
  match e with
  | SL_WLAN_CONNECT_EVENT => wifi_connected
  | SL_WLAN_DISCONNECT_EVENT | SL_WLAN_CONNECTION_FAILED_EVENT => wifi_disconnected
  | SL_WLAN_OTHER_EVENT _ => c
  end.

Definition CC3100_WlanEvtHdlr (e : option wlan_event) (w : wifi) : wifi :=
  match e with
  | None => w
  | Some e =>
    let w := set_status (wlan_status e (connection w)) (ip w) w in
    xTaskNotify (connection w .| WIFI_PENDING_STATE) w
  end.

Definition netapp_status (e : netapp_event) (i : Z) : Z :=
  match e with
  | SL_NETAPP_IPV4_IPACQUIRED_EVENT => wifi_ip_v4_acquired
  | SL_NETAPP_IPV6_IPACQUIRED_EVENT => wifi_ip_v6_acquired
  | SL_NETAPP_IP_RELEASED_EVENT => wifi_ip_released
  | SL_NETAPP_OTHER_EVENT _ => i
  end.

Definition CC3100_NetAppEvtHdlr (e : netapp_event) (w : wifi) : wifi :=
  let w := set_status (connection w) (netapp_status e (ip w)) w in
  xTaskNotify (ip w .| WIFI_PENDING_STATE) w.

(** ** A turn of the connection manager *)

Definition on_connected (v : Z) (w : wifi) : wifi :=
  if test_mask v wifi_connected then
    if sntp_is_synced (client w) =? 0 then xTimerChangePeriod (5 * 1000) w
    else xTimerChangePeriod (16 * 1000) w
  else w.

Definition on_disconnected (v : Z) (w : wifi) : wifi :=
  if test_mask v wifi_disconnected then set_tasks false false false (xTimerStop w) else w.

Definition on_ip_acquired (v : Z) (w : wifi) : wifi :=
  if test_mask v (wifi_ip_v4_acquired .| wifi_ip_v6_acquired)
  then set_tasks (user_running w) true (mqtt_running w) w else w.

(** The SNTP request and the next period; the result names the return code. *)
Definition on_ntp_timer (k : counters) (v : Z) (w : wifi) : option (option sntp_rc * wifi) :=
  if test_mask v wifi_ntp_timer then
    let w := xTimerStop w in
    '(rc, sv, next, s) ← uiso_sntp_request k (Some (server w)) (Some 0) (client w);
    let w := set_client (default (server w) sv) s w in
    let next := default 0 next in
    let next := if next <? WIFI_NTP_SYNC_PERIOD then WIFI_NTP_SYNC_PERIOD else next in
    Some (Some rc,
      if decide (rc = sntp_success)
      then xTaskNotify (wifi_ntp_synced_event .| WIFI_PENDING_STATE)
             (xTimerChangePeriod (pdMS_TO_TICKS next) w)
      else xTimerChangePeriod (pdMS_TO_TICKS (16 * 1000)) w)
  else Some (None, w).

Definition on_ntp_synced (v : Z) (w : wifi) : wifi :=
  if test_mask v wifi_ntp_synced_event then set_tasks true (monitor_running w) (mqtt_running w) w else w.

Definition react (k : counters) (v : Z) (w : wifi) : option (option sntp_rc * wifi) :=
  let w := on_connected v w in
  let w := on_disconnected v w in
  let w := on_ip_acquired v w in
  '(rc, w) ← on_ntp_timer k v w;
  Some (rc, on_ntp_synced v w).

(** [wifi_task]'s loop body.  The wait ends with the collected bits, or with
    nothing after its timeout. *)
Definition wifi_task_turn (k : counters) (w : wifi) : option (option sntp_rc * wifi) :=
  let '(v, b) := notify_wait WIFI_PENDING_STATE (box w) in
  let w := set_box b w in
  match v with
  | Some v => react k v w
  | None => Some (None, w)
  end.

(** ** Interleavings

    The handlers and the timer run between the turns of the task, in any
    order.  The history lists the results of the SNTP requests. *)

Inductive event :=
| EWlan (e : option wlan_event)
| ENetApp (e : netapp_event)
| ETimer.

Definition handle (e : event) (w : wifi) : wifi :=
  match e with
  | EWlan e => CC3100_WlanEvtHdlr e w
  | ENetApp e => CC3100_NetAppEvtHdlr e w
  | ETimer => sntp_sync_timer_callback w
  end.

(** The timer expires only while it runs. *)
Definition enabled (e : event) (w : wifi) : bool :=
  match e with ETimer => timer_active w | _ => true end.

Inductive reachable (w0 : wifi) : list sntp_rc -> wifi -> Prop :=
| reachable_init : reachable w0 [] w0
| reachable_event h w e : reachable w0 h w -> enabled e w = true -> reachable w0 h (handle e w)
| reachable_turn h w k rc w' : reachable w0 h w -> wifi_task_turn k w = Some (rc, w') ->
    reachable w0 (h ++ option_list rc) w'.

Fixpoint run_events (es : list event) (w : wifi) : wifi :=
  match es with [] => w | e :: es => run_events es (handle e w) end.
End Service.
Arguments mk_wifi {W N}.


(** ** Collected events *)

Section Facts.
Context {W N : Type} {SL : SimpleLink W} {TN : TaskNotify N} {LAWS : TaskNotifyLaws N}.
Variable pdMS_TO_TICKS : Z -> Z.
Implicit Types w : wifi (W := W) (N := N).
Local Abbreviation react := (react pdMS_TO_TICKS).
Local Abbreviation wifi_task_turn := (wifi_task_turn pdMS_TO_TICKS).

(** The bits a handler posts, and those of a sequence of handlers. *)
Definition posted (e : event) w : option Z :=
  match e with
  | EWlan None => None
  | EWlan (Some e) => Some (wlan_status e (connection w) .| WIFI_PENDING_STATE)
  | ENetApp e => Some (netapp_status e (ip w) .| WIFI_PENDING_STATE)
  | ETimer => Some (wifi_ntp_timer .| WIFI_PENDING_STATE)
  end.
Fixpoint posts (es : list event) w : list Z :=
  match es with [] => [] | e :: es => option_list (posted e w) ++ posts es (handle e w) end.

Lemma handle_word e w : notify_word (box (handle e w)) = notify_word (box w) .| default 0 (posted e w).
Proof using LAWS.
  destruct e as [[e|]|e|]; simpl; rewrite ?notify_set_bits_word; try done. by rewrite Z.lor_0_r.
Qed.

Lemma handle_pending e w :
  notify_pending (box (handle e w)) = notify_pending (box w) || bool_decide (is_Some (posted e w)).
Proof using LAWS.
  destruct e as [[e|]|e|]; simpl; rewrite ?notify_set_bits_pending, ?orb_true_r; try done.
  by rewrite orb_false_r.
Qed.

Lemma run_events_word es w m :
  0 <= m ->
  test_mask (notify_word (box (run_events es w))) m
  = test_mask (notify_word (box w)) m || existsb (fun b => test_mask b m) (posts es w).
Proof using LAWS.
  intros Hm. revert w. induction es as [|e es IH]; intros w; simpl; [by rewrite orb_false_r |].
  rewrite IH, handle_word, test_mask_lor, existsb_app, <- orb_assoc by done.
  f_equal. f_equal. destruct (posted e w); simpl; [by rewrite orb_false_r | apply test_mask_0].
Qed.

Lemma run_events_pending es w :
  notify_pending (box (run_events es w)) = notify_pending (box w) || bool_decide (posts es w <> []).
Proof using LAWS.
  revert w. induction es as [|e es IH]; intros w; simpl; [by rewrite orb_false_r |].
  rewrite IH, handle_pending, <- orb_assoc. f_equal.
  by destruct (posted e w).
Qed.

(** Handlers touch neither the timer, nor the tasks, nor the SNTP client. *)
Lemma handle_frame e w :
  timer_active (handle e w) = timer_active w /\ timer_period (handle e w) = timer_period w
  /\ user_running (handle e w) = user_running w /\ monitor_running (handle e w) = monitor_running w
  /\ mqtt_running (handle e w) = mqtt_running w /\ server (handle e w) = server w /\ client (handle e w) = client w.
Proof using. by destruct e as [[e|]|e|]. Qed.

(** No event is lost.  After any sequence of handlers has run since the
    task last waited, the next turn receives a word in which a mask is found
    exactly when one of the handlers posted it, and the word is then empty. *)
Lemma events_not_lost k es w :
  notify_word (box w) = 0 -> notify_pending (box w) = false -> posts es w <> [] ->
  exists v b, wifi_task_turn k (run_events es w) = react k v (set_box b (run_events es w))
    /\ (forall m, 0 <= m -> test_mask v m = existsb (fun p => test_mask p m) (posts es w))
    /\ notify_word b = 0 /\ notify_pending b = false.
Proof using LAWS.
  intros H0 Hp Hes. unfold WifiService.wifi_task_turn.
  pose proof (run_events_pending es w) as Hpend. rewrite Hp, bool_decide_true in Hpend by done.
  destruct (notify_wait_some WIFI_PENDING_STATE _ Hpend) as (Hv & Hw & Hb).
  destruct (notify_wait WIFI_PENDING_STATE (box (run_events es w))) as [v b]. simpl in *. subst v.
  exists (notify_word (box (run_events es w))), b. split_and!; [done | | done | done].
  intros m Hm. by rewrite run_events_word, H0.
Qed.

(** ** The effect of a turn *)

(** How a turn programs the timer. *)
Definition next_period (v : Z) (rc : option sntp_rc) (ms : Z) w : Z :=
  match rc with
  | Some rc => pdMS_TO_TICKS (if decide (rc = sntp_success) then ms else 16 * 1000)
  | None => if test_mask v wifi_connected
            then (if sntp_is_synced (client w) =? 0 then 5 * 1000 else 16 * 1000)
            else timer_period w
  end.

Lemma request_next_period k sv s rc sv' next s' :
  uiso_sntp_request k (Some sv) (Some 0) s = Some (rc, sv', next, s') ->
  exists ms, next = Some ms /\ (rc = sntp_success -> 16000 <= ms <= 131072000).
Proof using.
  intros H. destruct (decide (rc = sntp_success)) as [->|Hne].
  - pose proof (request_success_inv _ _ _ _ _ _ _ H)
      as (? & ? & ? & ? & ? & s1 & ? & ? & _ & _ & _ & _ & _ & -> & _).
    eexists. split; [done |]. intros _. pose proof (clamp_poll_range (poll_interval (s_packet s1))) as Hp.
    set (p := clamp_poll _) in *.
    assert (2 ^ 4 <= 2 ^ p <= 2 ^ 17) as Hpow by (split; apply Z.pow_le_mono_r; lia).
    rewrite Z.shiftl_1_l, u32_id by (unfold is_u32; lia). lia.
  - enough (exists ms, next = Some ms) as [ms ->] by (exists ms; by split). clear Hne. revert H. unfold uiso_sntp_request.
    destruct (call_dns _ _) as [[st addr] n0]. destruct (st <? 0); [intros [= <- <- <- <-]; eauto |].
    destruct (exchange k _ _) as [[[rc0 origin] from] s1]. cbv zeta.
    destruct (decide (_ = sntp_success)); [| intros [= <- <- <- <-]; eauto].
    destruct (set_clocks k origin s1) as [[[rc2 ts] s2]|]; [| done].
    destruct (decide (rc2 = sntp_success)); intros [= <- <- <- <-]; eauto.
Qed.
(** The three handlers before the SNTP request. *)
Definition prepare (v : Z) w := on_ip_acquired v (on_disconnected v (on_connected v w)).

Lemma prepare_spec v w :
  box (prepare v w) = box w /\ connection (prepare v w) = connection w /\ ip (prepare v w) = ip w
  /\ server (prepare v w) = server w /\ client (prepare v w) = client w
  /\ timer_active (prepare v w)
     = negb (test_mask v wifi_disconnected) && (test_mask v wifi_connected || timer_active w)
  /\ timer_period (prepare v w) = next_period v None 0 w
  /\ user_running (prepare v w) = negb (test_mask v wifi_disconnected) && user_running w
  /\ monitor_running (prepare v w)
     = test_mask v (wifi_ip_v4_acquired .| wifi_ip_v6_acquired)
       || (negb (test_mask v wifi_disconnected) && monitor_running w)
  /\ mqtt_running (prepare v w) = negb (test_mask v wifi_disconnected) && mqtt_running w.
Proof using.
  unfold prepare, on_ip_acquired, on_disconnected, on_connected, next_period, xTimerStop.
  destruct (test_mask v wifi_connected), (test_mask v wifi_disconnected),
    (test_mask v (wifi_ip_v4_acquired .| wifi_ip_v6_acquired)), (sntp_is_synced (client w) =? 0),
    (timer_active w) eqn:Ha; simpl; rewrite ?Ha; by split_and!.
Qed.

(** What the SNTP step adds to the prepared state. *)
Lemma on_ntp_timer_spec k v w :
  (test_mask v wifi_ntp_timer = true -> is_Some (uiso_sntp_request k (Some (server w)) (Some 0) (client w))) ->
  exists rc w' ms, on_ntp_timer pdMS_TO_TICKS k v w = Some (rc, w')
    /\ (is_Some rc <-> test_mask v wifi_ntp_timer = true)
    /\ connection w' = connection w /\ ip w' = ip w
    /\ user_running w' = user_running w /\ monitor_running w' = monitor_running w /\ mqtt_running w' = mqtt_running w
    /\ timer_active w' = test_mask v wifi_ntp_timer || timer_active w
    /\ WIFI_NTP_SYNC_PERIOD <= ms <= 131072000
    /\ timer_period w' = match rc with Some _ => next_period v rc ms w | None => timer_period w end
    /\ box w' = if decide (rc = Some sntp_success)
                then notify_set_bits (wifi_ntp_synced_event .| WIFI_PENDING_STATE) (box w) else box w.
Proof using.
  unfold on_ntp_timer. destruct (test_mask v wifi_ntp_timer) eqn:Ht.
  - intros [[[[rc sv] next] s] Hr]; [done |].
    assert (server (xTimerStop w) = server w /\ client (xTimerStop w) = client w
      /\ box (xTimerStop w) = box w /\ connection (xTimerStop w) = connection w /\ ip (xTimerStop w) = ip w
      /\ user_running (xTimerStop w) = user_running w /\ monitor_running (xTimerStop w) = monitor_running w
      /\ mqtt_running (xTimerStop w) = mqtt_running w) as (E1 & E2 & E3 & E4 & E5 & E6 & E7 & E8)
      by (unfold xTimerStop; by destruct (timer_active w)).
    rewrite E1, E2, Hr. cbn [mbind option_bind].
    destruct (request_next_period _ _ _ _ _ _ _ Hr) as (ms & -> & Hms). simpl.
    eexists (Some rc), _, (if decide (rc = sntp_success) then (if ms <? WIFI_NTP_SYNC_PERIOD then WIFI_NTP_SYNC_PERIOD else ms)
                           else WIFI_NTP_SYNC_PERIOD).
    split; [done |]. unfold WIFI_NTP_SYNC_PERIOD.
    destruct (decide (rc = sntp_success)) as [->|Hne]; simpl; rewrite ?E3, ?E4, ?E5, ?E6, ?E7, ?E8.
    + specialize (Hms eq_refl). split_and!; try done; destruct (Z.ltb_spec ms (12 * 3600 * 1000)); lia.
    + split_and!; try done; try lia; case_decide; congruence.
  - intros _. exists None, w, WIFI_NTP_SYNC_PERIOD. unfold WIFI_NTP_SYNC_PERIOD.
    by split_and!.
Qed.
(** The effect of a turn that received the word [v], on every combination
    of bits, provided the SNTP request it may make is defined: a request is
    made exactly when the timer bit is set, and then the timer is always left
    running, with the server's interval but at least twelve hours after a
    success and 16 s after a failure; otherwise a disconnection stops it and a
    connection starts it.  The user task runs after a synchronisation event,
    the monitor after an address event; a disconnection suspends every task not
    resumed in the same turn. *)
Lemma turn_effects k v w :
  (test_mask v wifi_ntp_timer = true -> is_Some (uiso_sntp_request k (Some (server w)) (Some 0) (client w))) ->
  exists rc w' ms, react k v w = Some (rc, w')
    /\ (is_Some rc <-> test_mask v wifi_ntp_timer = true)
    /\ WIFI_NTP_SYNC_PERIOD <= ms <= 131072000
    /\ timer_period w' = next_period v rc ms w
    /\ timer_active w' = test_mask v wifi_ntp_timer
         || (negb (test_mask v wifi_disconnected) && (test_mask v wifi_connected || timer_active w))
    /\ user_running w' = test_mask v wifi_ntp_synced_event
         || (negb (test_mask v wifi_disconnected) && user_running w)
    /\ monitor_running w' = test_mask v (wifi_ip_v4_acquired .| wifi_ip_v6_acquired)
         || (negb (test_mask v wifi_disconnected) && monitor_running w)
    /\ mqtt_running w' = negb (test_mask v wifi_disconnected) && mqtt_running w
    /\ connection w' = connection w /\ ip w' = ip w.
Proof using.
  intros Hdef. pose proof (prepare_spec v w) as (E1 & E2 & E3 & E4 & E5 & E6 & E7 & E8 & E9 & E10).
  destruct (on_ntp_timer_spec k v (prepare v w)) as (rc & w1 & ms & Hr & F1 & F2 & F3 & F4 & F5 & F6 & F7 & F8 & F9 & F10).
  { by rewrite E4, E5. }
  unfold WifiService.react. fold (prepare v w). rewrite Hr. cbn [mbind option_bind].
  exists rc, (on_ntp_synced v w1), ms. split; [done |]. split; [done |]. split; [done |].
  assert (timer_period w1 = next_period v rc ms w) as Hp.
  { rewrite F9. destruct rc; [done | exact E7]. }
  unfold on_ntp_synced. destruct (test_mask v wifi_ntp_synced_event); simpl; split_and!;
    try done; rewrite ?Hp, ?F7, ?F4, ?F5, ?F6, ?F2, ?F3, ?E2, ?E3, ?E6, ?E8, ?E9, ?E10; done.
Qed.

(** ** Reachable states *)

Lemma react_box k v w rc w' :
  react k v w = Some (rc, w') ->
  box w' = (if decide (rc = Some sntp_success)
            then notify_set_bits (wifi_ntp_synced_event .| WIFI_PENDING_STATE) (box w) else box w)
  /\ (user_running w' = true -> user_running w = true \/ test_mask v wifi_ntp_synced_event = true).
Proof using.
  intros Hr. pose proof Hr as Hr0. unfold WifiService.react in Hr. fold (prepare v w) in Hr.
  pose proof (prepare_spec v w) as (E1 & _ & _ & E4 & E5 & _ & _ & E8 & _ & _).
  destruct (on_ntp_timer_spec k v (prepare v w)) as (rc1 & w1 & ms & Hr1 & _ & _ & _ & F4 & _ & _ & _ & _ & _ & F10).
  { intros Ht. destruct (uiso_sntp_request _ _ _ _) eqn:Hu; [done |].
    unfold on_ntp_timer in Hr. rewrite Ht in Hr. revert Hr.
    replace (server (xTimerStop (prepare v w))) with (server (prepare v w))
      by (unfold xTimerStop; by destruct (timer_active _)).
    replace (client (xTimerStop (prepare v w))) with (client (prepare v w))
      by (unfold xTimerStop; by destruct (timer_active _)).
    by rewrite Hu. }
  rewrite Hr1 in Hr. cbn [mbind option_bind] in Hr. injection Hr as <- <-.
  rewrite E1 in F10. unfold on_ntp_synced. destruct (test_mask v wifi_ntp_synced_event); simpl.
  - split; [done | by right].
  - split; [done |]. rewrite F4, E8. intros [_ H]%andb_true_iff. by left.
Qed.

Lemma react_keeps_status k v w rc w' : react k v w = Some (rc, w') -> connection w' = connection w /\ ip w' = ip w.
Proof using.
  unfold WifiService.react. fold (prepare v w). intros Hr.
  pose proof (prepare_spec v w) as (_ & E2 & E3 & _). unfold on_ntp_timer in Hr.
  destruct (test_mask v wifi_ntp_timer);
    [destruct (uiso_sntp_request _ _ _ _) as [[[[rc1 sv] next] s]|]; [| done] |]; cbn [mbind option_bind] in Hr;
    injection Hr as <- <-; unfold on_ntp_synced, xTimerStop;
    repeat (case_match || case_decide); simpl; rewrite ?E2, ?E3; done.
Qed.

(** What is known while the user task runs, or is about to. *)
Definition sync_ok (h : list sntp_rc) w : Prop :=
  user_running w = true \/ test_mask (notify_word (box w)) wifi_ntp_synced_event = true ->
  sntp_success ∈ h.

(** The status words never hold the synchronisation bit. *)
Definition status_ok w : Prop :=
  test_mask (connection w) wifi_ntp_synced_event = false /\ test_mask (ip w) wifi_ntp_synced_event = false.

Lemma posted_no_sync e w : status_ok w -> test_mask (default 0 (posted e w)) wifi_ntp_synced_event = false.
Proof using.
  intros [Hc Hi]. destruct e as [[[]|]|[]|]; simpl; try done; rewrite test_mask_lor by done;
    by rewrite ?Hc, ?Hi.
Qed.

Lemma handle_status e w : status_ok w -> status_ok (handle e w).
Proof using. intros [Hc Hi]. by destruct e as [[[]|]|[]|]. Qed.

Lemma react_status k v w rc w' : react k v w = Some (rc, w') -> status_ok w -> status_ok w'.
Proof using.
  intros [Hc Hi]%react_keeps_status. unfold status_ok. by rewrite Hc, Hi.
Qed.
Lemma sync_ok_app h h' w : sync_ok h w -> sync_ok (h ++ h') w.
Proof using. intros H Hw. apply elem_of_app. left. by apply H. Qed.

Lemma handle_sync_ok h e w : status_ok w -> sync_ok h w -> sync_ok h (handle e w).
Proof using LAWS.
  intros Hst Hs [Hu|Hb]; apply Hs.
  - left. by rewrite <- (proj1 (proj2 (proj2 (handle_frame e w)))).
  - right. rewrite handle_word, test_mask_lor, (posted_no_sync e w Hst), orb_false_r in Hb by done. done.
Qed.

Lemma turn_sync_ok h k w rc w' :
  wifi_task_turn k w = Some (rc, w') -> sync_ok h w -> sync_ok (h ++ option_list rc) w'.
Proof using LAWS.
  unfold WifiService.wifi_task_turn. intros Hr Hs.
  destruct (notify_pending (box w)) eqn:Hp.
  - destruct (notify_wait_some WIFI_PENDING_STATE _ Hp) as (Hv & Hw & _).
    destruct (notify_wait WIFI_PENDING_STATE (box w)) as [v b]. simpl in *. subst v.
    apply react_box in Hr as [Hbox Huser]. simpl in *. intros [Hu|Hb]; apply elem_of_app.
    + left. apply Hs. by destruct (Huser Hu); [left | right].
    + revert Hb. rewrite Hbox. case_decide as Hrc; [| by rewrite Hw].
      right. subst rc. by apply list_elem_of_singleton.
  - destruct (notify_wait_none WIFI_PENDING_STATE _ Hp) as (Hv & Hw & _).
    destruct (notify_wait WIFI_PENDING_STATE (box w)) as [v b]. simpl in *. subst v.
    injection Hr as <- <-. apply sync_ok_app. intros [Hu|Hb]; apply Hs; [by left | right].
    revert Hb. simpl. rewrite Hw, !test_mask_true, <- Z.land_assoc, (Z.land_comm (Z.lnot _)), Z.land_assoc.
    intros Hne H0. apply Hne. by rewrite H0.
Qed.

Lemma turn_status k w rc w' : wifi_task_turn k w = Some (rc, w') -> status_ok w -> status_ok w'.
Proof using.
  unfold WifiService.wifi_task_turn. destruct (notify_wait _ _) as [[v|] b].
  - intros Hr Hs. by apply (react_status _ _ _ _ _ Hr).
  - by intros [= <- <-].
Qed.

(** C25: In every interleaving of driver events, timer expirations and turns
    that starts with the user task suspended and no synchronisation pending,
    the user task (the LwM2M client) runs only after an SNTP request has
    succeeded. *)
Theorem user_runs_after_sync w0 h w :
  status_ok w0 -> user_running w0 = false ->
  test_mask (notify_word (box w0)) wifi_ntp_synced_event = false ->
  reachable pdMS_TO_TICKS w0 h w -> user_running w = true -> sntp_success ∈ h.
Proof using LAWS.
  intros Hst Hu Hb Hreach Hrun.
  enough (status_ok w /\ sync_ok h w) as [_ Hs] by (apply Hs; by left).
  clear Hrun. induction Hreach as [|h w e _ [IH1 IH2] _|h w k rc w' _ [IH1 IH2] Hturn].
  - split; [done |]. intros [H|H]; congruence.
  - split; [by apply handle_status | by apply handle_sync_ok].
  - split; [by apply (turn_status _ _ _ _ Hturn) | by apply (turn_sync_ok _ _ _ _ _ Hturn)].
Qed.

(** A handler that runs during a turn has the effect of one that runs right
    after it: the two orders agree on every field and on the word. *)
Definition agree w1 w2 : Prop :=
  connection w1 = connection w2 /\ ip w1 = ip w2 /\ timer_active w1 = timer_active w2
  /\ timer_period w1 = timer_period w2 /\ user_running w1 = user_running w2
  /\ monitor_running w1 = monitor_running w2 /\ mqtt_running w1 = mqtt_running w2
  /\ server w1 = server w2 /\ client w1 = client w2
  /\ notify_word (box w1) = notify_word (box w2) /\ notify_pending (box w1) = notify_pending (box w2).

#[export] Instance agree_equiv : Equivalence agree.
Proof using.
  unfold agree. split; [intros w; by split_and! | intros w1 w2 H; by destruct_and! H |].
  intros w1 w2 w3 H1 H2. destruct_and! H1. destruct_and! H2. split_and!; congruence.
Qed.

Lemma lor_swap a b c : (a .| b) .| c = (a .| c) .| b.
Proof using. rewrite <- !Z.lor_assoc. f_equal. apply Z.lor_comm. Qed.

(** A handler replaces the status and the word, which a turn does not read. *)
Definition upd (c i : Z) (b : N) w := set_status c i (set_box b w).

Lemma prepare_upd v c i b w : prepare v (upd c i b w) = upd c i b (prepare v w).
Proof using.
  unfold prepare, on_connected, on_disconnected, on_ip_acquired, xTimerStop.
  destruct (test_mask v wifi_connected); simpl; [destruct (_ =? 0) |];
    (destruct (test_mask v wifi_disconnected); simpl; [destruct (timer_active w) |]);
    by destruct (test_mask v (_ .| _)).
Qed.

Lemma xTimerStop_upd c i b w : xTimerStop (upd c i b w) = upd c i b (xTimerStop w).
Proof using. unfold xTimerStop. simpl. by destruct (timer_active w). Qed.

Lemma on_ntp_synced_upd v c i b w : on_ntp_synced v (upd c i b w) = upd c i b (on_ntp_synced v w).
Proof using. unfold on_ntp_synced. by destruct (test_mask v wifi_ntp_synced_event). Qed.

Lemma react_upd k v c i bits w rc w' :
  react k v w = Some (rc, w') ->
  exists w'', react k v (upd c i (notify_set_bits bits (box w)) w) = Some (rc, w'')
    /\ agree w'' (upd c i (notify_set_bits bits (box w')) w').
Proof using LAWS.
  intros Hr. pose proof (react_box _ _ _ _ _ Hr) as [Hbox _]. revert Hr Hbox.
  unfold WifiService.react. fold (prepare v w) (prepare v (upd c i (notify_set_bits bits (box w)) w)).
  rewrite prepare_upd. unfold on_ntp_timer. rewrite xTimerStop_upd.
  cbn [upd set_status set_box server client].
  destruct (test_mask v wifi_ntp_timer); cbn [mbind option_bind].
  - destruct (uiso_sntp_request _ _ _ _) as [[[[r sv] nx] s]|]; cbn [mbind option_bind]; [| done]. intros [= <- <-] Hbox.
    destruct (decide (r = sntp_success)) as [->|Hne];
      [rewrite decide_True in Hbox by done
      | rewrite (decide_False (P := Some r = Some sntp_success)) in Hbox by congruence];
      eexists; (split; [done |]);
      unfold on_ntp_synced in *; destruct (test_mask v wifi_ntp_synced_event); simpl in *; rewrite Hbox;
      unfold agree; simpl; rewrite ?notify_set_bits_word, ?notify_set_bits_pending; split_and!; try done;
      apply lor_swap.
  - intros [= <- <-] Hbox. eexists. split; [done |]. simpl in Hbox. rewrite on_ntp_synced_upd, Hbox. done.
Qed.

Lemma react_posts_late e k v w rc w' :
  react k v w = Some (rc, w') ->
  exists w'', react k v (handle e w) = Some (rc, w'') /\ agree w'' (handle e w').
Proof using LAWS.
  intros Hr. pose proof (react_keeps_status _ _ _ _ _ Hr) as [Hc Hi].
  destruct e as [[e|]|e|]; simpl; [| by exists w' | |].
  - destruct (react_upd k v (wlan_status e (connection w)) (ip w) (wlan_status e (connection w) .| WIFI_PENDING_STATE)
      w rc w' Hr) as (w'' & H1 & H2). exists w''. split; [exact H1 |]. rewrite H2, <- Hc, <- Hi. done.
  - destruct (react_upd k v (connection w) (netapp_status e (ip w)) (netapp_status e (ip w) .| WIFI_PENDING_STATE)
      w rc w' Hr) as (w'' & H1 & H2). exists w''. split; [exact H1 |]. rewrite H2, <- Hc, <- Hi. done.
  - destruct (react_upd k v (connection w) (ip w) (wifi_ntp_timer .| WIFI_PENDING_STATE) w rc w' Hr)
      as (w'' & H1 & H2). exists w''. split; [exact H1 |]. rewrite H2, <- Hc, <- Hi. done.
Qed.
End Facts.

(** ** Concrete runs *)

Module Example.
Definition w0 : wifi (W := unit) (N := notif) :=
  mk_wifi wifi_connecting wifi_ip_not_acquired (mk_notif 0 false) false 1000 false false false
    Sntp.Example.server Sntp.Example.s0.
Definition turn := wifi_task_turn (SL := Sntp.Example.driver) (N := notif) (fun ms => ms) Sntp.Example.k.
Definition next (w : wifi) : wifi := match turn w with Some (_, w) => w | None => w end.
(** Connect, obtain an address, let the timer expire. *)
Definition w1 := next (handle (EWlan (Some SL_WLAN_CONNECT_EVENT)) w0).
Definition w2 := next (handle ETimer w1).
Definition w3 := next w2.
End Example.
Import Example.

Lemma events_not_lost_witness :
  exists v b, turn (run_events [EWlan (Some SL_WLAN_CONNECT_EVENT); ENetApp SL_NETAPP_IPV4_IPACQUIRED_EVENT] w0)
      = react (SL := Sntp.Example.driver) (fun ms => ms) Sntp.Example.k v
          (set_box b (run_events [EWlan (Some SL_WLAN_CONNECT_EVENT); ENetApp SL_NETAPP_IPV4_IPACQUIRED_EVENT] w0))
    /\ test_mask v wifi_connected = true /\ test_mask v wifi_disconnected = false.
Proof.
  destruct (events_not_lost (SL := Sntp.Example.driver) (fun ms => ms) Sntp.Example.k
    [EWlan (Some SL_WLAN_CONNECT_EVENT); ENetApp SL_NETAPP_IPV4_IPACQUIRED_EVENT] w0) as (v & b & H1 & H2 & _);
    [reflexivity | reflexivity | discriminate |].
  exists v, b. split; [exact H1 |]. rewrite !H2 by done. split; reflexivity.
Defined.

Lemma turn_effects_witness :
  exists rc w', react (SL := Sntp.Example.driver) (fun ms => ms) Sntp.Example.k
      (wifi_connected .| wifi_disconnected) w0 = Some (rc, w')
    /\ timer_active w' = false /\ rc = None.
Proof.
  destruct (turn_effects (SL := Sntp.Example.driver) (fun ms => ms) Sntp.Example.k
    (wifi_connected .| wifi_disconnected) w0) as (rc & w' & ms & H & Hrc & _ & _ & Ht & _).
  { intros H0. vm_compute in H0. discriminate H0. }
  exists rc, w'. split; [exact H |]. split; [exact Ht |]. destruct rc; [| reflexivity].
  pose proof (proj1 Hrc (mk_is_Some _ _ eq_refl)) as H0. vm_compute in H0. discriminate H0.
Defined.

Lemma user_runs_after_sync_witness : user_running w3 = true /\ sntp_success ∈ [sntp_success].
Proof.
  split; [vm_compute; reflexivity |].
  apply (user_runs_after_sync (SL := Sntp.Example.driver) (fun ms => ms) w0 [sntp_success] w3);
    [vm_compute; done | reflexivity | reflexivity | | vm_compute; reflexivity].
  apply (reachable_turn _ _ ([] ++ option_list (Some sntp_success)) w2 Sntp.Example.k None); [| vm_compute; reflexivity].
  apply (reachable_turn _ _ ([] ++ option_list None) (handle ETimer w1) Sntp.Example.k (Some sntp_success));
    [| vm_compute; reflexivity].
  apply reachable_event; [| vm_compute; reflexivity].
  apply (reachable_turn _ _ [] (handle (EWlan (Some SL_WLAN_CONNECT_EVENT)) w0) Sntp.Example.k None);
    [| vm_compute; reflexivity].
  apply reachable_event; [apply reachable_init | reflexivity].
Defined.

(** A reconnection that the task sees in one turn together with the
    disconnection before it leaves the timer stopped and the tasks suspended,
    although the station is connected: the word keeps no order. *)
Lemma coalesced_reconnect_stops_timer :
  let w := run_events [EWlan (Some SL_WLAN_DISCONNECT_EVENT); EWlan (Some SL_WLAN_CONNECT_EVENT)] w3 in
  connection w = wifi_connected
  /\ timer_active w3 = true /\ timer_active (next w) = false /\ user_running (next w) = false
  /\ notify_word (box (next w)) = 0.
Proof. vm_compute. done. Qed.

(** A disconnection seen in the turn of a synchronisation event resumes the
    user task without a connection. *)
Lemma coalesced_disconnect_resumes_user :
  let w := handle (EWlan (Some SL_WLAN_DISCONNECT_EVENT)) w2 in
  connection w = wifi_disconnected /\ user_running w = false /\ user_running (next w) = true.
Proof. vm_compute. done. Qed.
End WifiService.
