(* ===== verification/Lwm2mCore.v ===== *)
(** * What the LwM2M objects and the client share

    The interfaces of the LwM2M core (liblwm2m is not part of the repository):
    its list of instances and its data records, with the laws the core documents
    of them; the CoAP codes; the heap behind [lwm2m_malloc] with the functions
    of [src/lwm2m/platform.c]; C strings in character arrays; and the two loops
    with which the objects answer a request record by record. *)

From Stdlib Require Import Ascii String.
From S2P Require Import Prelude.

Module Lwm2mCore.

(** ** Interfaces of the core *)

(** A list of nodes with 16-bit identifiers.  [list_store] is an assignment
    through the pointer that [list_find] returned.  The laws hold of lists
    without duplicate identifiers. *)
Class Lwm2mList (L A : Type) (key : A -> Z) := {
  list_nil : L;
  list_find : Z -> L -> option A;
  list_add : A -> L -> L;
  list_remove : Z -> L -> L * option A;
  list_store : Z -> A -> L -> L;
}.

Class Lwm2mListLaws (L A : Type) (key : A -> Z) {LL : Lwm2mList L A key} := {
  list_wf : L -> Prop;
  list_wf_nil : list_wf list_nil;
  list_find_nil i : list_find i list_nil = None;
  list_find_key i l a : list_find i l = Some a -> key a = i;
  list_wf_add a l : list_wf l -> list_find (key a) l = None -> list_wf (list_add a l);
  list_find_add a l i : list_wf l -> list_find (key a) l = None ->
    list_find i (list_add a l) = if i =? key a then Some a else list_find i l;
  list_wf_remove i l : list_wf l -> list_wf (fst (list_remove i l));
  list_remove_found i l : list_wf l -> snd (list_remove i l) = list_find i l;
  list_find_remove i l j : list_wf l ->
    list_find j (fst (list_remove i l)) = if j =? i then None else list_find j l;
  list_wf_store i a b l : list_wf l -> list_find i l = Some a -> key b = i -> list_wf (list_store i b l);
  list_find_store i a b l j : list_wf l -> list_find i l = Some a -> key b = i ->
    list_find j (list_store i b l) = if j =? i then Some b else list_find j l;
}.

(** A data record: the identifier of a resource with a typed value. *)
Inductive data_type := LWM2M_TYPE_MULTIPLE_RESOURCE | LWM2M_TYPE_STRING | LWM2M_TYPE_OPAQUE | LWM2M_TYPE_OTHER.
#[export] Instance data_type_eq_dec : EqDecision data_type.
Proof. solve_decision. Defined.

Class Lwm2mData (D : Type) := {
  data_new : Z -> D;                       (* an empty record for an identifier *)
  data_id : D -> Z;
  data_kind : D -> data_type;
  data_buffer : D -> bytes;                (* value.asBuffer *)
  data_encode_int : Z -> D -> D;
  data_encode_bool : bool -> D -> D;
  data_encode_string : bytes -> D -> D;
  data_encode_opaque : bytes -> D -> D;
  data_encode_float : Z -> D -> D;         (* a float, by its 32 bits *)
  data_decode_int : D -> option Z;
  data_decode_bool : D -> option bool;
}.

Class Lwm2mDataLaws (D : Type) {DD : Lwm2mData D} := {
  data_new_id i : data_id (data_new i) = i;
  data_new_kind i : data_kind (data_new i) = LWM2M_TYPE_OTHER;
  data_decode_encode_int v d : data_decode_int (data_encode_int v d) = Some v;
  data_decode_encode_bool b d : data_decode_bool (data_encode_bool b d) = Some b;
  data_buffer_encode_string s d : data_buffer (data_encode_string s d) = s;
  data_buffer_encode_opaque s d : data_buffer (data_encode_opaque s d) = s;
}.

(** ** CoAP codes *)

Inductive coap :=
| COAP_NO_ERROR
| COAP_201_CREATED | COAP_202_DELETED | COAP_204_CHANGED | COAP_205_CONTENT
| COAP_400_BAD_REQUEST | COAP_404_NOT_FOUND | COAP_405_METHOD_NOT_ALLOWED
| COAP_406_NOT_ACCEPTABLE | COAP_500_INTERNAL_SERVER_ERROR.
#[export] Instance coap_eq_dec : EqDecision coap.
Proof. solve_decision. Defined.

(** ** C strings *)

(** The string stored in a buffer: its bytes up to the terminator. *)
Fixpoint cstring (b : bytes) : bytes :=
  match b with
  | c :: b => if c =? 0 then [] else c :: cstring b
  | [] => []
  end.

(** The [n] bytes [strncpy] writes: the source up to its terminator, padded. *)
Fixpoint strncpy_bytes (n : nat) (src : bytes) : bytes :=
  match n, src with
  | O, _ => []
  | S n', c :: src => if c =? 0 then replicate n 0 else c :: strncpy_bytes n' src
  | S _, [] => replicate n 0
  end.
Definition strncpy (dst src : bytes) (n : nat) : bytes := strncpy_bytes n src ++ drop n dst.

Lemma length_strncpy_bytes n src : length (strncpy_bytes n src) = n.
Proof.
  revert src. induction n as [|n IH]; intros [|c src]; simpl; rewrite ?length_replicate; try done.
  destruct (c =? 0); simpl; by rewrite ?length_replicate, ?IH.
Qed.

(** A source without terminator is copied as it is. *)
Lemma strncpy_bytes_full src : Forall (fun c => c <> 0) src -> strncpy_bytes (length src) src = src.
Proof.
  induction 1 as [|c src Hc _ IH]; simpl; [done |]. destruct (Z.eqb_spec c 0); [done |]. by rewrite IH.
Qed.

Lemma cstring_app_nonzero a b : Forall (fun c => c <> 0) a -> cstring (a ++ b) = a ++ cstring b.
Proof.
  induction 1 as [|c a Hc _ IH]; simpl; [done |]. destruct (Z.eqb_spec c 0); [done |]. by rewrite IH.
Qed.

(** [strlen] of a string in an array; [None] if the array has no terminator, so
    that the call reads past its end. *)
Fixpoint strlen (b : bytes) : option Z :=
  match b with
  | [] => None
  | c :: b => if c =? 0 then Some 0 else n ← strlen b; Some (n + 1)
  end.

Lemma strlen_spec b n : strlen b = Some n ->
  n = Z.of_nat (length (cstring b)) /\ b !! length (cstring b) = Some 0 /\ take (length (cstring b)) b = cstring b.
Proof.
  revert n. induction b as [|c b IH]; intros n; simpl; [done |].
  destruct (Z.eqb_spec c 0) as [->|Hc]; [by intros [= <-] |].
  destruct (strlen b) as [m|]; [| done]. intros [= <-]. destruct (IH m eq_refl) as (-> & H2 & H3).
  simpl. rewrite H3. split_and!; [lia | done | done].
Qed.

Lemma strlen_app a b : Forall (fun c => c <> 0) a -> strlen (a ++ 0 :: b) = Some (Z.of_nat (length a)).
Proof.
  induction 1 as [|c a Hc _ IH]; [done |]. cbn [app strlen length].
  destruct (Z.eqb_spec c 0); [done |]. rewrite IH. simpl. f_equal. lia.
Qed.

Lemma cstring_nonzero b : Forall (fun c => c <> 0) (cstring b).
Proof. induction b as [|c b IH]; simpl; [done |]. destruct (Z.eqb_spec c 0); [done |]. by constructor. Qed.

(** ** The heap: [src/lwm2m/platform.c] *)

(** Blocks are numbered in the order of the requests; [grants] says which
    requests succeed, [live] are the blocks in use, and [bad_frees] the releases
    of blocks that were not in use. *)
Record heap := mk_heap { grants : Z -> bool; next_block : Z; live : list Z; bad_frees : list Z }.

Definition lwm2m_malloc (h : heap) : option Z * heap :=
  let p := next_block h in
  if grants h p then (Some p, mk_heap (grants h) (p + 1) (p :: live h) (bad_frees h))
  else (None, mk_heap (grants h) (p + 1) (live h) (bad_frees h)).

Definition lwm2m_free (p : Z) (h : heap) : heap :=
  if decide (p ∈ live h)
  then mk_heap (grants h) (next_block h) (filter (fun q => q <> p) (live h)) (bad_frees h)
  else mk_heap (grants h) (next_block h) (live h) (bad_frees h ++ [p]).

(** A copy of a string on the heap: the block, and its contents with the
    terminator.  [None] outside is a string without terminator. *)
Definition lwm2m_strdup (str : bytes) (h : heap) : option (option (Z * bytes) * heap) :=
  n ← strlen str;
  let len := n + 1 in
  let '(p, h) := lwm2m_malloc h in
  Some ((p ← p; Some (p, take (Z.to_nat (len - 1)) str ++ [0])), h).

Definition heap_ok (h : heap) : Prop := NoDup (live h) /\ Forall (fun p => p < next_block h) (live h).

(** The blocks [ps] were taken from the heap [h] and are still in use. *)
Record grown (h : heap) (ps : list Z) (h' : heap) : Prop := {
  grown_live : live h' ≡ₚ ps ++ live h;
  grown_bad : bad_frees h' = bad_frees h;
  grown_grants : grants h' = grants h;
  grown_ok : heap_ok h' }.

Lemma grown_refl h : heap_ok h -> grown h [] h.
Proof. by split. Qed.

Lemma grown_malloc h ps h1 p h2 :
  grown h ps h1 -> lwm2m_malloc h1 = (p, h2) ->
  grown h (match p with Some p => p :: ps | None => ps end) h2.
Proof.
  intros [Hl Hb Hg [Hnd Hlt]]. unfold lwm2m_malloc. destruct (grants h1 (next_block h1)); intros [= <- <-].
  - split; simpl; [by rewrite Hl | done | done |]. split; simpl.
    + apply list.NoDup_cons. split; [| done]. intros Hin. rewrite list.Forall_forall in Hlt. specialize (Hlt _ Hin). lia.
    + constructor; [lia |]. eapply list.Forall_impl; [exact Hlt |]. simpl. lia.
  - split; simpl; [done | done | done |]. split; simpl; [done |]. eapply list.Forall_impl; [exact Hlt |]. simpl. lia.
Qed.

Lemma filter_absent (p : Z) (l : list Z) : p ∉ l -> filter (fun q => q <> p) l = l.
Proof.
  induction l as [|q l IH]; [done |]. rewrite elem_of_cons, filter_cons. intros Hp.
  destruct (decide (q <> p)) as [_|Hq%dec_stable]; [rewrite IH by tauto; done | subst; tauto].
Qed.

Lemma grown_free h ps h1 p : grown h (p :: ps) h1 -> grown h ps (lwm2m_free p h1).
Proof.
  intros [Hl Hb Hg [Hnd Hlt]]. unfold lwm2m_free.
  destruct (decide (p ∈ live h1)) as [Hin|Hin]; [| destruct Hin; rewrite Hl; simpl; apply list_elem_of_here].
  assert (p ∉ ps ++ live h /\ NoDup (ps ++ live h)) as [Hp _] by (apply list.NoDup_cons; by rewrite Hl in Hnd).
  split; simpl; [| done | done |].
  - rewrite Hl. simpl. rewrite filter_cons. destruct (decide (p <> p)) as [|_]; [done |].
    by rewrite filter_absent.
  - split; simpl; [by apply list.NoDup_filter |]. apply list.Forall_forall. intros q [_ Hq]%list_elem_of_filter.
    rewrite list.Forall_forall in Hlt. by apply Hlt.
Qed.

#[global] Instance grown_proper : Proper ((=) ==> Permutation ==> (=) ==> iff) grown.
Proof. intros h _ <- ps qs Hps h' _ <-. split; intros [Hl ? ? ?]; split; try done; by rewrite Hl, Hps. Qed.

Lemma grown_live_nil h h' : grown h [] h' -> live h' ≡ₚ live h.
Proof. by intros [? _ _ _]. Qed.

(** Releasing the blocks of a list one by one. *)
Definition free_all (ps : list Z) (h : heap) : heap := fold_left (fun h p => lwm2m_free p h) ps h.

Lemma grown_free_all h ps qs h1 : grown h (ps ++ qs) h1 -> grown h qs (free_all ps h1).
Proof. revert h1. induction ps as [|p ps IH]; intros h1; simpl; [done |]. intros ?%grown_free. by apply IH. Qed.

(** ** Objects *)

(** An object: where it lies (no address for one in static memory), its
    identifier and version, its instances, the heap blocks of their nodes (each with
    the identifier of the instance that lies in it), its
    user data if that is a heap block, and the callbacks it offers the core. *)
Inductive callback := readFunc | writeFunc | createFunc | deleteFunc | executeFunc | discoverFunc.

Record object (I : Type) := mk_object {
  address : option Z; objID : Z; versionMajor : Z; versionMinor : Z;
  instanceList : I; nodes : list (Z * Z); userData : option Z; callbacks : list callback }.
Arguments mk_object {I} _ _ _ _ _ _ _ _.
Arguments address {I} _.
Arguments objID {I} _.
Arguments versionMajor {I} _.
Arguments versionMinor {I} _.
Arguments instanceList {I} _.
Arguments nodes {I} _.
Arguments userData {I} _.
Arguments callbacks {I} _.

(** All heap blocks of an object. *)
Definition blocks {I} (o : object I) : list Z := (nodes o).*2 ++ option_list (userData o) ++ option_list (address o).

(** Two allocations, the object and its first node; the first is given back if
    the second fails.  [None] is the null pointer. *)
Definition malloc_object (h : heap) : option (Z * Z) * heap :=
  let '(o, h) := lwm2m_malloc h in
  match o with
  | None => (None, h)
  | Some o =>
      let '(i, h) := lwm2m_malloc h in
      match i with
      | None => (None, lwm2m_free o h)
      | Some i => (Some (o, i), h)
      end
  end.

Lemma malloc_object_grown h ps h1 r h2 :
  grown h ps h1 -> malloc_object h1 = (r, h2) ->
  grown h (match r with Some (o, i) => i :: o :: ps | None => ps end) h2.
Proof.
  intros H1. unfold malloc_object. destruct (lwm2m_malloc h1) as [[o|] ha] eqn:Ea.
  2: { intros [= <- <-]. apply (grown_malloc _ _ _ _ _ H1 Ea). }
  pose proof (grown_malloc _ _ _ _ _ H1 Ea) as Ha. destruct (lwm2m_malloc ha) as [[i|] hb] eqn:Eb; intros [= <- <-].
  - apply (grown_malloc _ _ _ _ _ Ha Eb).
  - apply grown_free. apply (grown_malloc _ _ _ _ _ Ha Eb).
Qed.

(** ** Answering a request record by record *)

Section requests.
Context {D : Type} {DD : Lwm2mData D}.
Variable answer : D -> coap * D.

(** [do ... while (i < *numDataP && result == COAP_205_CONTENT)]: the first
    record is read before the count is tested.  [None] is an access outside the
    array. *)
Fixpoint do_records (numData : Z) (ds : list D) : option (coap * list D) :=
  match ds with
  | [] => None
  | d :: ds =>
      let '(r, d) := answer d in
      if (1 <? numData) && bool_decide (r = COAP_205_CONTENT)
      then '(r, ds) ← do_records (numData - 1) ds; Some (r, d :: ds)
      else Some (r, d :: ds)
  end.

(** [for (i = 0; i < *numDataP; i++)] that is left at the first code other than
    [COAP_205_CONTENT]; [ret] is the code before the loop. *)
Fixpoint for_records (ret : coap) (numData : Z) (ds : list D) : option (coap * list D) :=
  if negb (0 <? numData) then Some (ret, ds) else
  match ds with
  | [] => None
  | d :: ds =>
      let '(r, d) := answer d in
      if bool_decide (r = COAP_205_CONTENT)
      then '(r, ds) ← for_records r (numData - 1) ds; Some (r, d :: ds)
      else Some (r, d :: ds)
  end.

(** What both loops answer: the code of the first refused record, with the
    records before it filled in and those after it untouched, or 2.05 with all
    of them filled in. *)
Fixpoint answered (ds : list D) : coap * list D :=
  match ds with
  | [] => (COAP_205_CONTENT, [])
  | d :: ds => if decide ((answer d).1 = COAP_205_CONTENT)
               then let '(r, ds) := answered ds in (r, (answer d).2 :: ds)
               else ((answer d).1, (answer d).2 :: ds)
  end.

Lemma do_records_answered ds : ds <> [] -> do_records (Z.of_nat (length ds)) ds = Some (answered ds).
Proof.
  induction ds as [|d ds IH]; [done |]. intros _. cbn [do_records answered].
  destruct (answer d) as [r d'] eqn:E. simpl. destruct (decide (r = COAP_205_CONTENT)) as [->|Hr].
  - rewrite bool_decide_eq_true_2, andb_true_r by done. destruct ds as [|d2 ds]; [done |].
    destruct (Z.ltb_spec 1 (Z.of_nat (S (length (d2 :: ds))))) as [_|Hc]; [| simpl in Hc; lia].
    replace (Z.of_nat (S (length (d2 :: ds))) - 1) with (Z.of_nat (length (d2 :: ds))) by lia.
    rewrite IH by done. cbn [mbind option_bind]. by destruct (answered (d2 :: ds)).
  - by rewrite bool_decide_eq_false_2, andb_false_r by done.
Qed.

Lemma for_records_answered ret ds :
  ret = COAP_205_CONTENT \/ ds <> [] ->
  for_records ret (Z.of_nat (length ds)) ds = Some (answered ds).
Proof.
  revert ret. induction ds as [|d ds IH]; intros ret; [by intros [->|] |]. intros _. cbn [for_records answered].
  destruct (Z.ltb_spec 0 (Z.of_nat (length (d :: ds)))) as [_|Hc]; [| simpl in Hc; lia]. simpl negb. cbv iota.
  destruct (answer d) as [r d'] eqn:E. simpl. destruct (decide (r = COAP_205_CONTENT)) as [->|Hr].
  - rewrite bool_decide_eq_true_2 by done.
    replace (Z.of_nat (S (length ds)) - 1) with (Z.of_nat (length ds)) by lia.
    rewrite IH by (by left). cbn [mbind option_bind]. by destruct (answered ds).
  - by rewrite bool_decide_eq_false_2 by done.
Qed.

Lemma answered_all ds :
  Forall (fun d => (answer d).1 = COAP_205_CONTENT) ds -> answered ds = (COAP_205_CONTENT, map (fun d => (answer d).2) ds).
Proof. induction 1 as [|d ds Hd _ IH]; simpl; [done |]. by destruct (decide _); [rewrite IH |]. Qed.

Lemma answered_content ds :
  (answered ds).1 = COAP_205_CONTENT <-> Forall (fun d => (answer d).1 = COAP_205_CONTENT) ds.
Proof.
  induction ds as [|d ds IH]; simpl; [done |]. rewrite list.Forall_cons. destruct (decide _) as [H|H].
  - rewrite <- IH. destruct (answered ds). simpl. tauto.
  - simpl. tauto.
Qed.

(** A request without records asks for the whole instance: an array for [ids]
    is allocated, or the allocation fails. *)
Definition whole (mem : bool) (ids : list Z) (numData : Z) (ds : list D) : option (Z * list D) :=
  if numData =? 0 then if mem then Some (Z.of_nat (length ids), map data_new ids) else None
  else Some (numData, ds).
End requests.

(** ** A plain implementation of the interfaces *)

Module Plain.
Section lists.
Context {A : Type} (key : A -> Z).

(** Plain lists of nodes. *)
#[local] Instance plain_list : Lwm2mList (list A) A key := {|
  list_nil := [];
  list_find i l := head (filter (fun t => key t = i) l);
  list_add t l := t :: l;
  list_remove i l := (filter (fun t => key t <> i) l, head (filter (fun t => key t = i) l));
  list_store i b l := map (fun t => if key t =? i then b else t) l |}.

Lemma find_cons i t (l : list A) :
  list_find i (t :: l) = if key t =? i then Some t else list_find i l.
Proof. simpl. rewrite filter_cons. by destruct (decide _), (Z.eqb_spec (key t) i). Qed.

Lemma find_none i (l : list A) : list_find i l = None <-> i ∉ map key l.
Proof.
  induction l as [|t l IH]; [by split; [intros _ ?%elem_of_nil |] |].
  rewrite find_cons. simpl. rewrite elem_of_cons. destruct (Z.eqb_spec (key t) i); [| rewrite IH]; intuition congruence.
Qed.

Lemma find_store i b (l : list A) j :
  key b = i -> is_Some (list_find i l) ->
  list_find j (list_store i b l) = if j =? i then Some b else list_find j l.
Proof.
  intros Hb. induction l as [|t l IH]; [by intros [? [=]] |]. rewrite !find_cons.
  change (list_store i b (t :: l)) with ((if key t =? i then b else t) :: list_store i b l).
  rewrite find_cons. destruct (Z.eqb_spec (key t) i) as [E|E].
  - intros _. rewrite Hb, E, (Z.eqb_sym i j). destruct (Z.eqb_spec j i); [done |].
    clear IH. induction l as [|u l IH]; [done |].
    change (list_store i b (u :: l)) with ((if key u =? i then b else u) :: list_store i b l).
    rewrite !find_cons, IH. destruct (Z.eqb_spec (key u) i) as [Eu|Eu]; [| done].
    rewrite Hb, Eu. by destruct (Z.eqb_spec i j).
  - intros H. rewrite IH by done. destruct (Z.eqb_spec (key t) j), (Z.eqb_spec j i); congruence.
Qed.

Lemma filter_ids i (l : list A) :
  NoDup (map key l) -> NoDup (map key (filter (fun t => key t <> i) l)).
Proof.
  induction l as [|t l IH]; simpl; [constructor |]. rewrite list.NoDup_cons. intros [Ht Hl]. rewrite filter_cons.
  destruct (decide _); [| by apply IH]. simpl. apply list.NoDup_cons. split; [| by apply IH].
  intros (u & Eu & Hu)%list_elem_of_fmap. apply Ht. apply list_elem_of_fmap. exists u.
  apply list_elem_of_filter in Hu as [_ Hu]. done.
Qed.

Lemma find_remove i (l : list A) j :
  list_find j (fst (list_remove i l)) = if j =? i then None else list_find j l.
Proof.
  change (fst (list_remove i l)) with (filter (fun t => key t <> i) l).
  induction l as [|t l IH]; [by destruct (j =? i) |]. rewrite filter_cons, find_cons.
  destruct (decide _) as [Hd|Hd%dec_stable]; [rewrite find_cons |]; rewrite IH;
    destruct (Z.eqb_spec (key t) j), (Z.eqb_spec j i); congruence.
Qed.

#[local] Instance plain_list_laws : Lwm2mListLaws (list A) A key.
Proof.
  apply (Build_Lwm2mListLaws _ _ _ _ (fun l => NoDup (map key l))).
  - constructor.
  - done.
  - intros i l t. induction l as [|u l IH]; [done |]. rewrite find_cons.
    destruct (Z.eqb_spec (key u) i); [by intros [= <-] | done].
  - intros t l Hl Ht. apply list.NoDup_cons. split; [by apply find_none | done].
  - intros t l i _ _. change (list_add t l) with (t :: l). by rewrite find_cons, Z.eqb_sym.
  - intros i l. apply filter_ids.
  - done.
  - intros i l j _. apply find_remove.
  - intros i a b l Hl Ha Hb. simpl. replace (map key (map _ l)) with (map key l); [done |].
    rewrite map_map. apply map_ext. intros t. by destruct (Z.eqb_spec (key t) i); congruence.
  - intros i a b l j _ Ha Hb. apply find_store; [done | by exists a].
Qed.
End lists.

(** Records that hold one typed value. *)
Inductive value := VInt (v : Z) | VBool (b : bool) | VString (s : bytes) | VOpaque (s : bytes) | VFloat (bits : Z) | VNone.
#[export] Instance plain_data : Lwm2mData (Z * value) := {|
  data_new i := (i, VNone);
  data_id := fst;
  data_kind d := match snd d with VString _ => LWM2M_TYPE_STRING | VOpaque _ => LWM2M_TYPE_OPAQUE | _ => LWM2M_TYPE_OTHER end;
  data_buffer d := match snd d with VString s | VOpaque s => s | _ => [] end;
  data_encode_int v d := (fst d, VInt v);
  data_encode_bool b d := (fst d, VBool b);
  data_encode_string s d := (fst d, VString s);
  data_encode_opaque s d := (fst d, VOpaque s);
  data_encode_float f d := (fst d, VFloat f);
  data_decode_int d := match snd d with VInt v => Some v | _ => None end;
  data_decode_bool d := match snd d with VBool b => Some b | _ => None end |}.

#[export] Instance plain_data_laws : Lwm2mDataLaws (Z * value).
Proof. by split. Qed.
End Plain.
End Lwm2mCore.
