(* ===== verification/ServerObject.v ===== *)
(** * The LwM2M server object

    Models [src/lwm2m/lightclient/object_server.c], LwM2M object 1: the
    instances a device keeps of its servers, and the read, discover, write,
    execute, create and delete callbacks the LwM2M core calls.

    The list of instances and the data records of the LwM2M core are the
    interfaces [Lwm2mList] and [Lwm2mData] of [Lwm2mCore.v].  In the requests
    whether an allocation succeeds is an argument. *)

From stdpp Require Import relations.
From S2P Require Import Prelude Lwm2mCore.

Module ServerObject.
Import Lwm2mCore.

(** ** Data *)

Inductive write_type := LWM2M_WRITE_REPLACE_RESOURCES | LWM2M_WRITE_REPLACE_INSTANCE.

Record server_instance := mk_server_instance {
  instanceId : Z;
  shortServerId : Z;
  lifetime : Z;
  storing : bool;
  binding : bytes;                         (* char binding[4] *)
}.

(** Resource identifiers, from the table at the head of the file. *)
Definition LWM2M_SERVER_SHORT_ID_ID : Z := 0.
Definition LWM2M_SERVER_LIFETIME_ID : Z := 1.
Definition LWM2M_SERVER_MIN_PERIOD_ID : Z := 2.
Definition LWM2M_SERVER_MAX_PERIOD_ID : Z := 3.
Definition LWM2M_SERVER_DISABLE_ID : Z := 4.
Definition LWM2M_SERVER_TIMEOUT_ID : Z := 5.
Definition LWM2M_SERVER_STORING_ID : Z := 6.
Definition LWM2M_SERVER_BINDING_ID : Z := 7.
Definition LWM2M_SERVER_UPDATE_ID : Z := 8.

(** [strncmp(a, b, n) == 0], where [b] is a literal without its terminator. *)
Fixpoint strncmp_eq (n : nat) (a b : bytes) : bool :=
  match n with
  | O => true
  | S n => let x := default 0 (head a) in let y := default 0 (head b) in
           (x =? y) && ((x =? 0) || strncmp_eq n (tail a) (tail b))
  end.

(** The bindings of LwM2M 1.0: U, UQ, S, SQ, US, UQS. *)
Definition bindings_1_0 : list bytes :=
  [[85]; [85; 81]; [83]; [83; 81]; [85; 83]; [85; 81; 83]].

Section Object.
Context {L D : Type} {LL : Lwm2mList L server_instance instanceId} {DD : Lwm2mData D}.
Variable version_1_0 : bool.               (* LWM2M_VERSION_1_0 is defined *)

(** ** Reading *)

Definition prv_get_value (d : D) (t : server_instance) : coap * D :=
  let id := data_id d in
  if id =? LWM2M_SERVER_SHORT_ID_ID then (COAP_205_CONTENT, data_encode_int (shortServerId t) d)
  else if id =? LWM2M_SERVER_LIFETIME_ID then (COAP_205_CONTENT, data_encode_int (lifetime t) d)
  else if id =? LWM2M_SERVER_DISABLE_ID then (COAP_405_METHOD_NOT_ALLOWED, d)
  else if id =? LWM2M_SERVER_STORING_ID then (COAP_205_CONTENT, data_encode_bool (storing t) d)
  else if id =? LWM2M_SERVER_BINDING_ID then (COAP_205_CONTENT, data_encode_string (cstring (binding t)) d)
  else if id =? LWM2M_SERVER_UPDATE_ID then (COAP_405_METHOD_NOT_ALLOWED, d)
  else (COAP_404_NOT_FOUND, d).

(** The loop over the records, up to the first refused one. *)
Fixpoint read_records (t : server_instance) (ds : list D) : coap * list D :=
  match ds with
  | [] => (COAP_205_CONTENT, [])
  | d :: ds =>
    let '(r, d) := if decide (data_kind d = LWM2M_TYPE_MULTIPLE_RESOURCE)
                   then (COAP_404_NOT_FOUND, d) else prv_get_value d t in
    if decide (r = COAP_205_CONTENT) then let '(r, ds) := read_records t ds in (r, d :: ds)
    else (r, d :: ds)
  end.

Definition full_read : list Z :=
  [LWM2M_SERVER_SHORT_ID_ID; LWM2M_SERVER_LIFETIME_ID; LWM2M_SERVER_STORING_ID; LWM2M_SERVER_BINDING_ID].

(** An empty request asks for the full instance. *)
Definition prv_server_read (mem : bool) (id : Z) (ds : list D) (l : L) : coap * list D :=
  match list_find id l with
  | None => (COAP_404_NOT_FOUND, ds)
  | Some t =>
    match ds with
    | [] => if mem then read_records t (map data_new full_read) else (COAP_500_INTERNAL_SERVER_ERROR, [])
    | _ => read_records t ds
    end
  end.

Definition all_resources : list Z :=
  [LWM2M_SERVER_SHORT_ID_ID; LWM2M_SERVER_LIFETIME_ID; LWM2M_SERVER_MIN_PERIOD_ID;
   LWM2M_SERVER_MAX_PERIOD_ID; LWM2M_SERVER_DISABLE_ID; LWM2M_SERVER_TIMEOUT_ID;
   LWM2M_SERVER_STORING_ID; LWM2M_SERVER_BINDING_ID; LWM2M_SERVER_UPDATE_ID].

Definition prv_server_discover (mem : bool) (ds : list D) : coap * list D :=
  match ds with
  | [] => if mem then (COAP_205_CONTENT, map data_new all_resources) else (COAP_500_INTERNAL_SERVER_ERROR, [])
  | _ => (if bool_decide (Forall (fun d => data_id d ∈ all_resources) ds)
          then COAP_205_CONTENT else COAP_404_NOT_FOUND, ds)
  end.

(** ** Writing *)

Definition set_short_id v t := mk_server_instance (instanceId t) v (lifetime t) (storing t) (binding t).
Definition set_lifetime v t := mk_server_instance (instanceId t) (shortServerId t) v (storing t) (binding t).
Definition set_storing v t := mk_server_instance (instanceId t) (shortServerId t) (lifetime t) v (binding t).
Definition set_binding v t := mk_server_instance (instanceId t) (shortServerId t) (lifetime t) (storing t) v.

(** The code, and the value stored when it is [COAP_204_CHANGED]. *)
Definition prv_set_int_value (d : D) : coap * option Z :=
  match data_decode_int d with
  | Some value => if (0 <=? value) && (value <=? 0xFFFFFFFF) then (COAP_204_CHANGED, Some value)
                  else (COAP_406_NOT_ACCEPTABLE, None)
  | None => (COAP_400_BAD_REQUEST, None)
  end.

Definition binding_ok (d : D) : bool :=
  let b := data_buffer d in let len := length b in
  bool_decide (data_kind d = LWM2M_TYPE_STRING \/ data_kind d = LWM2M_TYPE_OPAQUE)
  && (0 <? len)%nat && (len <=? 3)%nat
  && (negb version_1_0 || existsb (strncmp_eq len b) bindings_1_0).

(** One pass of the write loop. *)
Definition write_one (d : D) (t : server_instance) : coap * server_instance :=
  let id := data_id d in
  if decide (data_kind d = LWM2M_TYPE_MULTIPLE_RESOURCE) then (COAP_404_NOT_FOUND, t)
  else if id =? LWM2M_SERVER_SHORT_ID_ID then
    match prv_set_int_value d with
    | (r, Some value) => if (0 <? value) && (value <=? 0xFFFF) then (r, set_short_id value t)
                         else (COAP_406_NOT_ACCEPTABLE, t)
    | (r, None) => (r, t)
    end
  else if id =? LWM2M_SERVER_LIFETIME_ID then
    match prv_set_int_value d with
    | (r, Some value) => (r, set_lifetime value t)
    | (r, None) => (r, t)
    end
  else if id =? LWM2M_SERVER_DISABLE_ID then (COAP_405_METHOD_NOT_ALLOWED, t)
  else if id =? LWM2M_SERVER_STORING_ID then
    match data_decode_bool d with
    | Some value => (COAP_204_CHANGED, set_storing value t)
    | None => (COAP_400_BAD_REQUEST, t)
    end
  else if id =? LWM2M_SERVER_BINDING_ID then
    if binding_ok d
    then (COAP_204_CHANGED, set_binding (strncpy (binding t) (data_buffer d) (length (data_buffer d))) t)
    else (COAP_400_BAD_REQUEST, t)
  else if id =? LWM2M_SERVER_UPDATE_ID then (COAP_405_METHOD_NOT_ALLOWED, t)
  else (COAP_404_NOT_FOUND, t).

Fixpoint write_loop (ds : list D) (t : server_instance) : coap * server_instance :=
  match ds with
  | [] => (COAP_204_CHANGED, t)
  | d :: ds => let '(r, t) := write_one d t in
               if decide (r = COAP_204_CHANGED) then write_loop ds t else (r, t)
  end.

(** The write with [LWM2M_WRITE_REPLACE_RESOURCES].  The loop reads the first
    record before it tests the count: an empty array is undefined. *)
Definition write_resources (id : Z) (ds : list D) (l : L) : option (coap * L) :=
  match list_find id l with
  | None => Some (COAP_404_NOT_FOUND, l)
  | Some t =>
    match ds with
    | [] => None
    | _ => let '(r, t) := write_loop ds t in Some (r, list_store id t l)
    end
  end.

(** ** Creating, deleting, replacing *)

Definition prv_server_delete (id : Z) (l : L) : coap * L :=
  let '(l, found) := list_remove id l in
  (match found with None => COAP_404_NOT_FOUND | Some _ => COAP_202_DELETED end, l).

Definition zero_instance (id : Z) : server_instance := mk_server_instance id 0 0 false (replicate 4 0).

Definition prv_server_create (mem : bool) (id : Z) (ds : list D) (l : L) : option (coap * L) :=
  if negb mem then Some (COAP_500_INTERNAL_SERVER_ERROR, l)
  else
    let l := list_add (zero_instance id) l in
    '(r, l) ← write_resources id ds l;
    if decide (r = COAP_204_CHANGED) then Some (COAP_201_CREATED, l)
    else let '(_, l) := prv_server_delete id l in Some (r, l).

Definition prv_server_write (mem : bool) (id : Z) (ds : list D) (l : L) (w : write_type) : option (coap * L) :=
  match list_find id l, w with
  | None, _ => Some (COAP_404_NOT_FOUND, l)
  | Some _, LWM2M_WRITE_REPLACE_INSTANCE =>
    let '(r, l) := prv_server_delete id l in
    if decide (r = COAP_202_DELETED) then
      '(r, l) ← prv_server_create mem id ds l;
      Some (if decide (r = COAP_201_CREATED) then COAP_204_CHANGED else r, l)
    else Some (r, l)
  | Some _, LWM2M_WRITE_REPLACE_RESOURCES => write_resources id ds l
  end.

Definition prv_server_execute (id resourceId : Z) (l : L) : coap :=
  match list_find id l with
  | None => COAP_404_NOT_FOUND
  | Some _ => if (resourceId =? LWM2M_SERVER_DISABLE_ID) || (resourceId =? LWM2M_SERVER_UPDATE_ID)
              then COAP_204_CHANGED else COAP_405_METHOD_NOT_ALLOWED
  end.

(** The same callbacks on the object and the heap: the new node is taken from
    it, and a node taken out of the list is given back.  Identifiers are unique,
    as the core creates an instance only under a free one. *)
Fixpoint take_node (id : Z) (ns : list (Z * Z)) : option (Z * list (Z * Z)) :=
  match ns with
  | [] => None
  | (i, p) :: ns => if i =? id then Some (p, ns) else '(q, ns) ← take_node id ns; Some (q, (i, p) :: ns)
  end.

Definition set_instances (l : L) (ns : list (Z * Z)) (o : object L) : object L :=
  mk_object (address o) (objID o) (versionMajor o) (versionMinor o) l ns (userData o) (callbacks o).

Definition server_delete (id : Z) (o : object L) (h : heap) : coap * object L * heap :=
  let '(r, l) := prv_server_delete id (instanceList o) in
  match (if decide (r = COAP_202_DELETED) then take_node id (nodes o) else None) with
  | Some (p, ns) => (r, set_instances l ns o, lwm2m_free p h)
  | None => (r, set_instances l (nodes o) o, h)
  end.

Definition server_create (id : Z) (ds : list D) (o : object L) (h : heap) : option (coap * object L * heap) :=
  let '(p, h) := lwm2m_malloc h in
  match p with
  | None => Some (COAP_500_INTERNAL_SERVER_ERROR, o, h)
  | Some p =>
      let o := set_instances (list_add (zero_instance id) (instanceList o)) ((id, p) :: nodes o) o in
      '(r, l) ← write_resources id ds (instanceList o);
      let o := set_instances l (nodes o) o in
      if decide (r = COAP_204_CHANGED) then Some (COAP_201_CREATED, o, h)
      else let '(_, o, h) := server_delete id o h in Some (r, o, h)
  end.

Definition server_write (id : Z) (ds : list D) (w : write_type) (o : object L) (h : heap)
  : option (coap * object L * heap) :=
  match list_find id (instanceList o), w with
  | None, _ => Some (COAP_404_NOT_FOUND, o, h)
  | Some _, LWM2M_WRITE_REPLACE_INSTANCE =>
    let '(r, o, h) := server_delete id o h in
    if decide (r = COAP_202_DELETED) then
      '(r, o, h) ← server_create id ds o h;
      Some (if decide (r = COAP_201_CREATED) then COAP_204_CHANGED else r, o, h)
    else Some (r, o, h)
  | Some _, LWM2M_WRITE_REPLACE_RESOURCES =>
    '(r, l) ← write_resources id ds (instanceList o); Some (r, set_instances l (nodes o) o, h)
  end.

(** One hard-coded instance; [None] without memory. *)
Definition get_server_object (h : heap) : option (object L) * heap :=
  let '(p, h) := malloc_object h in
  (('(o, i) ← p;
    Some (mk_object (Some o) 1 0 0
            (list_add (mk_server_instance 0 123 (15 * 60) false [85; 0; 0; 0]) list_nil) [(0, i)] None
            [readFunc; writeFunc; createFunc; deleteFunc; executeFunc; discoverFunc])), h).

(** The nodes first, then the object. *)
Definition free_server_object (o : object L) (h : heap) : heap :=
  let h := free_all (nodes o).*2 h in
  match address o with Some p => lwm2m_free p h | None => h end.
End Object.


(** ** Invariant *)

(** An instance fits its fields and its binding is a terminated string. *)
Record inst_ok (t : server_instance) : Prop := {
  ok_short : 0 <= shortServerId t <= 0xFFFF;
  ok_lifetime : 0 <= lifetime t <= 0xFFFFFFFF;
  ok_length : length (binding t) = 4%nat;
  ok_end : binding t !! 3%nat = Some 0;
}.




Lemma set_binding_ok t src n :
  inst_ok t -> (n <= 3)%nat -> inst_ok (set_binding (strncpy (binding t) src n) t).
Proof.
  intros [H1 H2 H3 H4] Hn. unfold strncpy. split; simpl; try done.
  - rewrite length_app, length_strncpy_bytes, length_drop, H3. lia.
  - rewrite lookup_app_r by (by rewrite length_strncpy_bytes). rewrite length_strncpy_bytes, lookup_drop.
    replace (n + (3 - n))%nat with 3%nat by lia. done.
Qed.

Section Facts.
Context {L D : Type} {LL : Lwm2mList L server_instance instanceId} {DD : Lwm2mData D}.
Context {LLAWS : Lwm2mListLaws L server_instance instanceId} {DLAWS : Lwm2mDataLaws D}.
Variable version_1_0 : bool.
Implicit Types (l : L) (d : D) (ds : list D).
Local Abbreviation write_one := (write_one version_1_0).
Local Abbreviation write_loop := (write_loop version_1_0).
Local Abbreviation write_resources := (write_resources version_1_0).
Local Abbreviation prv_server_write := (prv_server_write version_1_0).
Local Abbreviation prv_server_create := (prv_server_create version_1_0).

Lemma prv_set_int_value_range d r v :
  prv_set_int_value d = (r, Some v) ->
  r = COAP_204_CHANGED /\ data_decode_int d = Some v /\ 0 <= v <= 0xFFFFFFFF.
Proof using.
  unfold prv_set_int_value. destruct (data_decode_int d) as [x|]; [| done].
  destruct (Z.leb_spec 0 x), (Z.leb_spec x 0xFFFFFFFF); simpl; try done. intros [= <- <-]. split_and!; try done; lia.
Qed.

Lemma binding_ok_spec d : binding_ok version_1_0 d = true -> (0 < length (data_buffer d) <= 3)%nat.
Proof using. unfold binding_ok. rewrite !andb_true_iff, Nat.ltb_lt, Nat.leb_le. lia. Qed.

Lemma write_one_ok d t : inst_ok t ->
  inst_ok (snd (write_one d t)) /\ instanceId (snd (write_one d t)) = instanceId t.
Proof using.
  intros Ht. pose proof Ht as [H1 H2 H3 H4]. unfold ServerObject.write_one.
  destruct (decide _); [done |].
  destruct (data_id d =? LWM2M_SERVER_SHORT_ID_ID).
  { destruct (prv_set_int_value d) as [r [v|]]; [| done].
    destruct (Z.ltb_spec 0 v), (Z.leb_spec v 0xFFFF); simpl; try done. split; [split; simpl; try done; lia | done]. }
  destruct (data_id d =? LWM2M_SERVER_LIFETIME_ID).
  { destruct (prv_set_int_value d) as [r [v|]] eqn:E; [| done].
    apply prv_set_int_value_range in E as (_ & _ & Hv). split; [by split | done]. }
  destruct (data_id d =? LWM2M_SERVER_DISABLE_ID); [done |].
  destruct (data_id d =? LWM2M_SERVER_STORING_ID).
  { destruct (data_decode_bool d); [| done]. split; [by split | done]. }
  destruct (data_id d =? LWM2M_SERVER_BINDING_ID).
  { destruct (binding_ok version_1_0 d) eqn:E; [| done]. apply binding_ok_spec in E.
    split; [| done]. apply set_binding_ok; [done | lia]. }
  by destruct (data_id d =? LWM2M_SERVER_UPDATE_ID).
Qed.

Lemma write_loop_ok ds t : inst_ok t ->
  inst_ok (snd (write_loop ds t)) /\ instanceId (snd (write_loop ds t)) = instanceId t.
Proof using.
  revert t. induction ds as [|d ds IH]; intros t Ht; simpl; [done |].
  pose proof (write_one_ok d t Ht) as [Hok Hid]. destruct (write_one d t) as [r t']. simpl in *.
  destruct (decide _); [| done]. destruct (IH t' Hok) as [? ->]. done.
Qed.

(** The invariant of the object. *)
Definition obj_ok l : Prop := list_wf l /\ forall i t, list_find i l = Some t -> inst_ok t.

(** What the three operations do to the lookup. *)
Lemma write_resources_spec id ds l r l' :
  list_wf l -> (forall t, list_find id l = Some t -> inst_ok t) ->
  write_resources id ds l = Some (r, l') ->
  list_wf l' /\ (forall j, j <> id -> list_find j l' = list_find j l)
  /\ match list_find id l with
     | None => r = COAP_404_NOT_FOUND /\ l' = l
     | Some t => r = fst (write_loop ds t) /\ list_find id l' = Some (snd (write_loop ds t))
     end.
Proof using LLAWS.
  intros Hwf Hok. unfold ServerObject.write_resources. destruct (list_find id l) as [t|] eqn:E.
  2: { intros [= <- <-]. by split_and!. }
  destruct ds as [|d ds]; [done |].
  pose proof (write_loop_ok (d :: ds) t (Hok t eq_refl)) as [_ Hid].
  destruct (write_loop (d :: ds) t) as [r0 t'] eqn:Ew. simpl in Hid. intros [= <- <-].
  assert (instanceId t' = id) as Hkey by (rewrite Hid; by apply (list_find_key _ _ _ E)).
  split_and!.
  - by apply (list_wf_store _ _ _ _ Hwf E).
  - intros j Hj. rewrite (list_find_store _ _ _ _ j Hwf E Hkey). by destruct (Z.eqb_spec j id).
  - done.
  - rewrite (list_find_store _ _ _ _ id Hwf E Hkey). by rewrite Z.eqb_refl.
Qed.

Lemma prv_server_delete_spec id l :
  list_wf l ->
  let '(r, l') := prv_server_delete id l in
  list_wf l' /\ (forall j, list_find j l' = if j =? id then None else list_find j l)
  /\ r = match list_find id l with None => COAP_404_NOT_FOUND | Some _ => COAP_202_DELETED end.
Proof using LLAWS.
  intros Hwf. unfold prv_server_delete. pose proof (list_wf_remove id l Hwf) as H1.
  pose proof (list_remove_found id l Hwf) as H2. pose proof (fun j => list_find_remove id l j Hwf) as H3.
  destruct (list_remove id l) as [l' f]. simpl in *. by rewrite H2.
Qed.

Lemma zero_instance_ok id : inst_ok (zero_instance id).
Proof using.
  by split.
Qed.

Lemma prv_server_create_spec mem id ds l :
  list_wf l -> list_find id l = None -> ds <> [] ->
  exists r l', prv_server_create mem id ds l = Some (r, l') /\ list_wf l'
    /\ (forall j, j <> id -> list_find j l' = list_find j l)
    /\ (if mem
        then match write_loop ds (zero_instance id) with
             | (COAP_204_CHANGED, t) => r = COAP_201_CREATED /\ list_find id l' = Some t
             | (r0, _) => r = r0 /\ list_find id l' = None
             end
        else r = COAP_500_INTERNAL_SERVER_ERROR /\ list_find id l' = None).
Proof using LLAWS.
  intros Hwf Hnone Hds. unfold ServerObject.prv_server_create. destruct mem; simpl.
  2: { exists COAP_500_INTERNAL_SERVER_ERROR, l. by split_and!. }
  pose proof (list_wf_add (zero_instance id) l Hwf Hnone) as Hwf1.
  pose proof (fun j => list_find_add (zero_instance id) l j Hwf Hnone) as Hf1. simpl in Hf1.
  destruct (write_resources id ds (list_add (zero_instance id) l)) as [[r l1]|] eqn:Ew.
  2: { unfold ServerObject.write_resources in Ew. rewrite Hf1, Z.eqb_refl in Ew. destruct ds; [done |].
       by destruct (write_loop _ _). }
  apply write_resources_spec in Ew as (Hwf2 & Hj2 & Hid2); [| done |].
  2: { intros t. rewrite Hf1, Z.eqb_refl. intros [= <-]. apply zero_instance_ok. }
  rewrite Hf1, Z.eqb_refl in Hid2. destruct Hid2 as [-> Hid2]. cbn [mbind option_bind].
  assert (forall j, j <> id -> list_find j l1 = list_find j l) as Hj.
  { intros j Hne. rewrite Hj2, Hf1 by done. by destruct (Z.eqb_spec j id). }
  destruct (write_loop ds (zero_instance id)) as [r0 t] eqn:El. simpl in *.
  destruct (decide (r0 = COAP_204_CHANGED)) as [->|Hne].
  - eexists _, _. by split_and!.
  - pose proof (prv_server_delete_spec id l1 Hwf2) as Hdel.
    destruct (prv_server_delete id l1) as [rd l2]. destruct Hdel as (Hwf3 & Hf3 & _).
    exists r0, l2. split_and!; [done | done | |].
    + intros j Hj'. rewrite Hf3, <- Hj by done. by destruct (Z.eqb_spec j id).
    + rewrite Hf3, Z.eqb_refl. by destruct r0.
Qed.
(** The operations of the core on the object.  It creates an instance only
    under a free identifier and never writes an empty array. *)
Inductive step : L -> L -> Prop :=
| step_write mem id ds w r l l' : prv_server_write mem id ds l w = Some (r, l') -> step l l'
| step_create mem id ds r l l' : list_find id l = None ->
    prv_server_create mem id ds l = Some (r, l') -> step l l'
| step_delete id r l l' : prv_server_delete id l = (r, l') -> step l l'.

Lemma obj_ok_update id l l' :
  obj_ok l -> list_wf l' -> (forall j, j <> id -> list_find j l' = list_find j l) ->
  (forall t, list_find id l' = Some t -> inst_ok t) -> obj_ok l'.
Proof using.
  intros [_ Hok] Hwf Hj Hid. split; [done |]. intros j t. destruct (Z.eq_dec j id) as [->|Hne]; [apply Hid |].
  rewrite Hj by done. apply Hok.
Qed.

Lemma delete_obj_ok id l r l' : prv_server_delete id l = (r, l') -> obj_ok l -> obj_ok l' /\ list_find id l' = None.
Proof using LLAWS.
  intros E Hl. pose proof (prv_server_delete_spec id l (proj1 Hl)) as H. rewrite E in H.
  destruct H as (Hwf & Hf & _). split; [| by rewrite Hf, Z.eqb_refl].
  apply (obj_ok_update id l); [done | done | |].
  - intros j Hj. rewrite Hf. by destruct (Z.eqb_spec j id).
  - intros t. by rewrite Hf, Z.eqb_refl.
Qed.

Lemma create_obj_ok mem id ds l r l' :
  list_find id l = None -> prv_server_create mem id ds l = Some (r, l') -> obj_ok l -> obj_ok l'.
Proof using LLAWS.
  intros Hnone E Hl. destruct ds as [|d ds].
  - unfold ServerObject.prv_server_create in E. destruct mem; simpl in E; [| by injection E as <- <-].
    unfold ServerObject.write_resources in E.
    by rewrite (list_find_add (zero_instance id) l id (proj1 Hl) Hnone), Z.eqb_refl in E.
  - destruct (prv_server_create_spec mem id (d :: ds) l (proj1 Hl) Hnone) as (r0 & l0 & E0 & Hwf & Hj & Hid); [done |].
    rewrite E in E0. injection E0 as <- <-. apply (obj_ok_update id l); try done.
    intros t Ht. pose proof (write_loop_ok (d :: ds) _ (zero_instance_ok id)) as [Hz _].
    destruct mem; [| destruct Hid; congruence].
    destruct (write_loop (d :: ds) (zero_instance id)) as [[] t0]; destruct Hid; simpl in Hz; congruence.
Qed.

Lemma write_obj_ok mem id ds w l r l' :
  prv_server_write mem id ds l w = Some (r, l') -> obj_ok l -> obj_ok l'.
Proof using LLAWS.
  intros E Hl. unfold ServerObject.prv_server_write in E. destruct (list_find id l) as [t|] eqn:Hf.
  2: { by injection E as <- <-. }
  destruct w.
  - apply write_resources_spec in E as (Hwf & Hj & Hid); [| apply Hl | apply Hl].
    rewrite Hf in Hid. apply (obj_ok_update id l); try done. intros t' Ht'. destruct Hid as [_ Hid].
    rewrite Hid in Ht'. injection Ht' as <-. apply write_loop_ok. by apply (proj2 Hl id).
  - destruct (prv_server_delete id l) as [rd l1] eqn:Ed. apply delete_obj_ok in Ed as [Hl1 Hn1]; [| done].
    destruct (decide (rd = COAP_202_DELETED)); [| by injection E as <- <-].
    destruct (prv_server_create mem id ds l1) as [[rc l2]|] eqn:Ec; [| done]. injection E as <- <-.
    by apply (create_obj_ok _ _ _ _ _ _ Hn1 Ec).
Qed.

(** After any sequence of writes, creations and deletions on the object
    that [get_server_object] builds, identifiers are unique, the short server
    identifier fits 16 bits, the lifetime 32 bits, and the binding is a
    terminated string inside its four bytes: no write overruns it. *)
Lemma server_object_invariant h o h' l :
  get_server_object h = (Some o, h') -> rtc step (instanceList o) l -> obj_ok l.
Proof using LLAWS.
  intros H0 Hreach.
  assert (obj_ok (instanceList o)) as Hl0.
  { unfold get_server_object in H0. destruct (malloc_object h) as [[[p q]|] h1]; [| done].
    injection H0 as <- _. simpl. set (t0 := mk_server_instance 0 123 (15 * 60) false [85; 0; 0; 0]).
    pose proof (list_find_nil (instanceId t0)) as Hnil. split; [by apply list_wf_add; [apply list_wf_nil |] |].
    intros i t. rewrite list_find_add by (apply list_wf_nil || done).
    destruct (i =? instanceId t0); [| by rewrite list_find_nil].
    intros [= <-]. by split. }
  clear H0. revert Hl0 Hreach. generalize (instanceList o). intros l0 Hl0 Hreach. induction Hreach as [|l0 l1 l Hstep _ IH]; [done |]. apply IH.
  destruct Hstep as [mem id ds w r l0 l1 E|mem id ds r l0 l1 Hn E|id r l0 l1 E].
  - by apply (write_obj_ok _ _ _ _ _ _ _ E).
  - by apply (create_obj_ok _ _ _ _ _ _ Hn E).
  - by apply delete_obj_ok in E as [? _].
Qed.

(** ** Writing and reading back *)

(** The record a read of one resource answers with. *)
Lemma read_one id r l t :
  list_find id l = Some t ->
  prv_server_read true id [data_new r] l
  = (let '(c, d) := prv_get_value (data_new (D := D) r) t in (c, [d])).
Proof using DLAWS.
  intros Hf. unfold prv_server_read. rewrite Hf. simpl. rewrite data_new_kind. simpl.
  destruct (prv_get_value (data_new r) t) as [c d]. by destruct (decide (c = COAP_205_CONTENT)) as [->|].
Qed.

(** What a successful write of one record means for the resource. *)
Definition reads_back (d d' : D) (old : bytes) : Prop :=
  (data_id d = LWM2M_SERVER_SHORT_ID_ID /\ exists v, 0 < v <= 0xFFFF
     /\ data_decode_int d = Some v /\ data_decode_int d' = Some v)
  \/ (data_id d = LWM2M_SERVER_LIFETIME_ID /\ exists v, 0 <= v <= 0xFFFFFFFF
     /\ data_decode_int d = Some v /\ data_decode_int d' = Some v)
  \/ (data_id d = LWM2M_SERVER_STORING_ID /\ exists b, data_decode_bool d = Some b /\ data_decode_bool d' = Some b)
  \/ (data_id d = LWM2M_SERVER_BINDING_ID /\ (0 < length (data_buffer d) <= 3)%nat
     /\ (Forall (fun c => c <> 0) (data_buffer d) -> old !! length (data_buffer d) = Some 0 ->
         data_buffer d' = data_buffer d)).

Lemma strncpy_read_back old b :
  Forall (fun c => c <> 0) b -> old !! length b = Some 0 ->
  cstring (strncpy old b (length b)) = b.
Proof using.
  intros Hnz Hold. unfold strncpy. rewrite strncpy_bytes_full, cstring_app_nonzero by done.
  by rewrite (drop_S _ _ _ Hold), app_nil_r.
Qed.

Lemma write_one_reads_back d t t' :
  write_one d t = (COAP_204_CHANGED, t') ->
  exists d', prv_get_value (data_new (data_id d)) t' = (COAP_205_CONTENT, d') /\ reads_back d d' (binding t).
Proof using DLAWS.
  unfold ServerObject.write_one, prv_get_value, reads_back. rewrite data_new_id. destruct (decide _); [done |].
  destruct (Z.eqb_spec (data_id d) LWM2M_SERVER_SHORT_ID_ID) as [Hid|].
  { destruct (prv_set_int_value d) as [r [v|]] eqn:E; [| intros [= -> <-]; revert E; unfold prv_set_int_value;
      destruct (data_decode_int d); [destruct (_ && _) |]; congruence].
    apply prv_set_int_value_range in E as (_ & Hd & _).
    destruct (Z.ltb_spec 0 v), (Z.leb_spec v 0xFFFF); simpl; try done. intros [= _ <-]. simpl.
    eexists. split; [done |]. left. split; [done |]. exists v. by rewrite data_decode_encode_int. }
  destruct (Z.eqb_spec (data_id d) LWM2M_SERVER_LIFETIME_ID) as [Hid|].
  { destruct (prv_set_int_value d) as [r [v|]] eqn:E; [| intros [= -> <-]; revert E; unfold prv_set_int_value;
      destruct (data_decode_int d); [destruct (_ && _) |]; congruence].
    apply prv_set_int_value_range in E as (_ & Hd & Hv). intros [= _ <-]. simpl.
    eexists. split; [done |]. right. left. split; [done |]. exists v. by rewrite data_decode_encode_int. }
  destruct (data_id d =? LWM2M_SERVER_DISABLE_ID); [done |].
  destruct (Z.eqb_spec (data_id d) LWM2M_SERVER_STORING_ID) as [Hid|].
  { destruct (data_decode_bool d) as [b|]; [| done]. intros [= <-]. simpl.
    eexists. split; [done |]. do 2 right. left. split; [done |]. exists b. by rewrite data_decode_encode_bool. }
  destruct (Z.eqb_spec (data_id d) LWM2M_SERVER_BINDING_ID) as [Hid|].
  2: { by destruct (data_id d =? LWM2M_SERVER_UPDATE_ID). }
  destruct (binding_ok version_1_0 d) eqn:E; [| done]. intros [= <-]. simpl.
  eexists. split; [done |]. do 3 right. split; [done |]. split; [by apply binding_ok_spec in E |].
  intros Hnz Hold. rewrite data_buffer_encode_string. by apply strncpy_read_back.
Qed.

(** A successful write of one resource is what a following read of it
    returns: the short identifier within 1..65535, the lifetime within 32
    bits, the storing flag, and the binding provided the old buffer ends where
    the new string ends.  No other instance changes. *)
Lemma write_read_roundtrip mem id d l l' :
  obj_ok l ->
  prv_server_write mem id [d] l LWM2M_WRITE_REPLACE_RESOURCES = Some (COAP_204_CHANGED, l') ->
  exists t d', list_find id l = Some t
    /\ prv_server_read true id [data_new (data_id d)] l' = (COAP_205_CONTENT, [d'])
    /\ reads_back d d' (binding t)
    /\ forall j, j <> id -> list_find j l' = list_find j l.
Proof using LLAWS DLAWS.
  intros Hl. unfold ServerObject.prv_server_write. destruct (list_find id l) as [t|] eqn:Hf; [| done].
  intros (Hwf & Hj & Hid)%write_resources_spec; [| apply Hl | apply Hl]. rewrite Hf in Hid.
  destruct Hid as [Hr Hf']. simpl in Hr, Hf'. destruct (write_one d t) as [r t'] eqn:Ew.
  destruct (decide (r = COAP_204_CHANGED)) as [->|Hne]; [| simpl in Hr; congruence]. simpl in Hf'.
  apply write_one_reads_back in Ew as (d' & Hg & Hrb). exists t, d'. split_and!; try done.
  rewrite (read_one _ _ _ _ Hf'), Hg. done.
Qed.

(** Creating an instance is atomic.  Under a free identifier the call
    always returns; it answers [COAP_201_CREATED] exactly when all records
    were accepted in turn, and then the instance holds their effect on a
    cleared one; otherwise the answer is the code of the refused record (or
    of the failed allocation) and no instance exists under the identifier.
    Other instances never change. *)
Lemma create_atomic mem id ds l :
  obj_ok l -> list_find id l = None -> ds <> [] ->
  exists r l', prv_server_create mem id ds l = Some (r, l')
    /\ (forall j, j <> id -> list_find j l' = list_find j l)
    /\ (if mem
        then match write_loop ds (zero_instance id) with
             | (COAP_204_CHANGED, t) => r = COAP_201_CREATED /\ list_find id l' = Some t
             | (r0, _) => r = r0 /\ list_find id l' = None
             end
        else r = COAP_500_INTERNAL_SERVER_ERROR /\ list_find id l' = None).
Proof using LLAWS.
  intros Hl Hn Hds. destruct (prv_server_create_spec mem id ds l (proj1 Hl) Hn Hds) as (r & l' & H1 & _ & H2 & H3).
  by exists r, l'.
Qed.
End Facts.

(** ** The callbacks on the heap *)

Section Heap.
Context {L D : Type} {LL : Lwm2mList L server_instance instanceId} {DD : Lwm2mData D}.
Variable version_1_0 : bool.
Implicit Types (o : object L) (ds : list D).

(** Without the heap they are the callbacks on the list. *)
Lemma server_delete_list id o h :
  (let '(r, o', _) := server_delete id o h in (r, instanceList o')) = prv_server_delete id (instanceList o).
Proof using. unfold server_delete. destruct (prv_server_delete id _) as [r l]. by destruct (if decide _ then _ else _) as [[p ns]|]. Qed.

Lemma server_create_list id ds o h :
  option_map (fun '(r, o', _) => (r, instanceList o')) (server_create version_1_0 id ds o h)
  = prv_server_create version_1_0 (grants h (next_block h)) id ds (instanceList o).
Proof using.
  unfold server_create, prv_server_create, lwm2m_malloc. destruct (grants h _); [| done]. cbn [negb instanceList set_instances].
  destruct (write_resources _ _ _ _) as [[r l]|]; [| done]. cbn [mbind option_bind].
  destruct (decide (r = COAP_204_CHANGED)); [done |].
  pose proof (server_delete_list id (set_instances l (nodes (set_instances (list_add (zero_instance id) (instanceList o))
    ((id, next_block h) :: nodes o) o)) (set_instances (list_add (zero_instance id) (instanceList o))
    ((id, next_block h) :: nodes o) o)) (mk_heap (grants h) (next_block h + 1) (next_block h :: live h) (bad_frees h))) as Hd.
  destruct (server_delete _ _ _) as [[r' o'] h']. simpl in Hd. rewrite <- Hd. done.
Qed.

Lemma server_write_list id ds w o h :
  option_map (fun '(r, o', _) => (r, instanceList o')) (server_write version_1_0 id ds w o h)
  = prv_server_write version_1_0 (grants h (next_block h)) id ds (instanceList o) w.
Proof using.
  unfold server_write, prv_server_write. destruct (list_find id (instanceList o)) as [t|]; [| by destruct w]. destruct w.
  - by destruct (write_resources _ _ _ _) as [[r l]|].
  - pose proof (server_delete_list id o h) as Hd.
    assert (grants (snd (server_delete id o h)) = grants h /\ next_block (snd (server_delete id o h)) = next_block h) as [Hg Hn].
    { unfold server_delete. destruct (prv_server_delete id _) as [r l]. destruct (if decide _ then _ else _) as [[p ns]|]; [| done].
      simpl. unfold lwm2m_free. by destruct (decide _). }
    destruct (server_delete id o h) as [[r o1] h1]. rewrite <- Hd. simpl in Hg, Hn. destruct (decide (r = COAP_202_DELETED)); [| done].
    rewrite <- Hg, <- Hn, <- (server_create_list id ds o1 h1).
    by destruct (server_create _ _ _ _ _) as [[[r2 o2] h2]|].
Qed.

(** They take and give back exactly the blocks of the nodes. *)
Variables (base : heap) (qs : list Z).
Definition owns_nodes o h : Prop := grown base ((nodes o).*2 ++ qs) h.
Definition same_frame o o' : Prop := address o' = address o /\ userData o' = userData o.

Lemma take_node_perm id ns p ns' : take_node id ns = Some (p, ns') -> ns.*2 ≡ₚ p :: ns'.*2.
Proof using.
  revert ns'. induction ns as [|[i q] ns IH]; intros ns'; simpl; [done |].
  destruct (i =? id); [by intros [= <- <-] |]. destruct (take_node id ns) as [[q' ns1]|]; [| done]. simpl.
  intros [= <- <-]. rewrite (IH ns1 eq_refl). apply Permutation_swap.
Qed.

Lemma server_delete_grown id o h r o' h' :
  owns_nodes o h -> server_delete id o h = (r, o', h') -> owns_nodes o' h' /\ same_frame o o'.
Proof using.
  unfold server_delete, owns_nodes. intros Hg. destruct (prv_server_delete id _) as [r1 l].
  destruct (if decide _ then _ else _) as [[p ns]|] eqn:E; intros [= <- <- <-]; (split; [| done]); simpl; [| done].
  destruct (decide _); [| done]. apply take_node_perm in E. rewrite E in Hg. by apply grown_free.
Qed.

Lemma server_create_grown id ds o h r o' h' :
  owns_nodes o h -> server_create version_1_0 id ds o h = Some (r, o', h') -> owns_nodes o' h' /\ same_frame o o'.
Proof using.
  unfold server_create. intros Hg. destruct (lwm2m_malloc h) as [[p|] h1] eqn:E1.
  2: { intros [= <- <- <-]. split; [| done]. apply (grown_malloc _ _ _ _ _ Hg E1). }
  pose proof (grown_malloc _ _ _ _ _ Hg E1) as Hg1.
  destruct (write_resources _ _ _ _) as [[r1 l]|]; [| done]. cbn [mbind option_bind].
  set (o1 := set_instances l _ _). assert (owns_nodes o1 h1) as H1 by exact Hg1.
  destruct (decide _); [intros [= <- <- <-]; by split |].
  destruct (server_delete id o1 h1) as [[r2 o2] h2] eqn:E2. intros [= <- <- <-].
  by apply (server_delete_grown _ _ _ _ _ _ H1) in E2.
Qed.

Lemma server_write_grown id ds w o h r o' h' :
  owns_nodes o h -> server_write version_1_0 id ds w o h = Some (r, o', h') -> owns_nodes o' h' /\ same_frame o o'.
Proof using.
  unfold server_write. intros Hg. destruct (list_find id _); [| by intros [= <- <- <-]]. destruct w.
  - destruct (write_resources _ _ _ _) as [[r1 l]|]; [| done]. by intros [= <- <- <-].
  - destruct (server_delete id o h) as [[r1 o1] h1] eqn:E1. apply (server_delete_grown _ _ _ _ _ _ Hg) in E1 as [H1 F1].
    destruct (decide _); [| by intros [= <- <- <-]].
    destruct (server_create _ _ _ _ _) as [[[r2 o2] h2]|] eqn:E2; [| done]. intros [= <- <- <-].
    apply (server_create_grown _ _ _ _ _ _ _ H1) in E2 as [H2 F2]. split; [done |].
    unfold same_frame in *. destruct F1 as [<- <-]. done.
Qed.
End Heap.

(** ** Concrete runs *)

Import Lwm2mCore.Plain.

Module Example.
#[export] Instance server_list : Lwm2mList (list server_instance) server_instance instanceId := plain_list instanceId.
#[export] Instance server_list_laws : Lwm2mListLaws (list server_instance) server_instance instanceId := plain_list_laws instanceId.

Definition roomy : heap := mk_heap (fun _ => true) 0 [] [].
Definition l0 : list server_instance := [mk_server_instance 0 123 900 false [85; 0; 0; 0]].
End Example.
Import Example.

Lemma server_object_invariant_witness : obj_ok (snd (prv_server_delete 0 l0)).
Proof.
  apply (server_object_invariant (D := Z * value) false roomy
           (mk_object (Some 0) 1 0 0 l0 [(0, 1)] None
              [readFunc; writeFunc; createFunc; deleteFunc; executeFunc; discoverFunc])
           (mk_heap (fun _ => true) 2 [1; 0] [])); [reflexivity |]. simpl.
  apply rtc_once. apply (step_delete _ 0 COAP_202_DELETED). reflexivity.
Defined.

Lemma l0_ok : obj_ok l0.
Proof.
  split.
  - apply (list_wf_add (L := list server_instance) (Lwm2mListLaws := server_list_laws) (mk_server_instance 0 123 900 false [85; 0; 0; 0]) []); [exact (list_wf_nil (Lwm2mListLaws := server_list_laws)) | done].
  - intros i t. unfold l0, server_list. rewrite find_cons. destruct (_ =? i); [| done]. by intros [= <-].
Qed.

Lemma write_read_roundtrip_witness :
  exists t d', list_find 0 l0 = Some t
    /\ prv_server_read true 0 [(1, VNone)] [mk_server_instance 0 123 3600 false [85; 0; 0; 0]] = (COAP_205_CONTENT, [d'])
    /\ reads_back (1, VInt 3600) d' (binding t).
Proof.
  destruct (write_read_roundtrip false true 0 (1, VInt 3600) l0 [mk_server_instance 0 123 3600 false [85; 0; 0; 0]])
    as (t & d' & H1 & H2 & H3 & _); [exact l0_ok | reflexivity |].
  exists t, d'. split; [exact H1 | split; [exact H2 | exact H3]].
Defined.

Lemma create_atomic_witness :
  exists r l', prv_server_create false true 1 [(0, VInt 5); (1, VInt (-1))] l0 = Some (r, l')
    /\ r = COAP_406_NOT_ACCEPTABLE /\ list_find 1 l' = None.
Proof.
  destruct (create_atomic false true 1 [(0, VInt 5); (1, VInt (-1))] l0) as (r & l' & H1 & _ & H3);
    [exact l0_ok | reflexivity | discriminate |].
  exists r, l'. split; [exact H1 | exact H3].
Defined.

(** Replacing an instance with records that are refused deletes it. *)
Lemma failed_replace_deletes :
  prv_server_write false true 0 [(1, VInt (-1))] l0 LWM2M_WRITE_REPLACE_INSTANCE
  = Some (COAP_406_NOT_ACCEPTABLE, []).
Proof. reflexivity. Qed.

(** A binding shorter than the old one keeps the old tail. *)
Lemma shorter_binding_keeps_tail :
  prv_server_write false true 0 [(7, VString [85; 81]); (7, VString [83])] l0 LWM2M_WRITE_REPLACE_RESOURCES
  = Some (COAP_204_CHANGED, [mk_server_instance 0 123 900 false [83; 81; 0; 0]]).
Proof. reflexivity. Qed.
End ServerObject.
