(* ===== verification/Memtrace.v ===== *)
(** * The allocation tracer of the LwM2M client

    Models [src/lwm2m/memtrace.c]: every allocation of the LwM2M client is
    recorded with its place, a release moves the record to a list of the last
    200 released blocks, and a release of an unknown block is reported.

    Entries are identified by the address handed to the client; the C lists
    behind the two head entries are Rocq lists.  The allocator is not modelled:
    the address it returns is an argument, and that it never returns a block
    that is still allocated (the released blocks of the second list included)
    is the hypothesis [fresh] of a step. *)

From stdpp Require Import relations.
From S2P Require Import Prelude.

Module Memtrace.

Record place := mk_place { file : bytes; function : bytes; lineno : Z }.
#[export] Instance place_eq_dec : EqDecision place.
Proof. solve_decision. Defined.

Record memory_entry := mk_entry { data : Z; where_ : place; size : Z; number : Z }.

(** The two head entries, the static counter of [lwm2m_trace_malloc], and the
    blocks handed back to the allocator. *)
Record trace_state := mk_trace {
  malloc_list : list memory_entry;
  malloc_count : Z;
  malloc_size : Z;
  malloc_dirty : bool;               (* lineno of the head entry *)
  free_list : list memory_entry;
  free_count : Z;
  counter : Z;
  released : list Z;
}.

Definition initial : trace_state := mk_trace [] 0 0 false [] 0 0 [].

(** The messages of a release. *)
Inductive message :=
| NoMalloc (p : place)
| AlreadyFreed (p : place).

(** [prv_memory_find_previous]: what precedes the entry, the entry, the rest. *)
Fixpoint prv_memory_find_previous (l : list memory_entry) (memory : Z) :
    option (list memory_entry * memory_entry * list memory_entry) :=
  match l with
  | [] => None
  | e :: l => if data e =? memory then Some ([], e, l)
              else '(before, x, after) ← prv_memory_find_previous l memory; Some (e :: before, x, after)
  end.

(** The walk to the last entry of a list: the entries before it, and it. *)
Fixpoint cut_last (e : memory_entry) (l : list memory_entry) : list memory_entry * memory_entry :=
  match l with
  | [] => ([], e)
  | x :: l => let '(before, y) := cut_last x l in (e :: before, y)
  end.

Definition prv_trace_add_free_list (e : memory_entry) (p : place) (s : trace_state) : trace_state :=
  let e := mk_entry (data e) p (size e) (number e) in
  let l := e :: free_list s in
  if free_count s <? 200
  then mk_trace (malloc_list s) (malloc_count s) (malloc_size s) (malloc_dirty s) l (free_count s + 1)
         (counter s) (released s)
  else match free_list s with
  | [] => mk_trace (malloc_list s) (malloc_count s) (malloc_size s) (malloc_dirty s) l (free_count s)
            (counter s) (released s)
  | _ => mk_trace (malloc_list s) (malloc_count s) (malloc_size s) (malloc_dirty s)
           (fst (cut_last e (free_list s))) (free_count s) (counter s)
           (released s ++ [data (snd (cut_last e (free_list s)))])
  end.

Definition lwm2m_trace_malloc (addr sz : Z) (p : place) (s : trace_state) : trace_state :=
  let e := mk_entry addr p sz (counter s + 1) in
  mk_trace (e :: malloc_list s) (malloc_count s + 1) (u32 (malloc_size s + sz)) true
    (free_list s) (free_count s) (counter s + 1) (released s).

(** Address 0 is the null pointer. *)
Definition lwm2m_trace_free (mem : Z) (p : place) (s : trace_state) : trace_state * list message :=
  if mem =? 0 then (s, [])
  else match prv_memory_find_previous (malloc_list s) mem with
  | Some (before, e, after) =>
    let s := mk_trace (before ++ after) (malloc_count s - 1) (u32 (malloc_size s - size e)) true
               (free_list s) (free_count s) (counter s) (released s) in
    (prv_trace_add_free_list e p s, [])
  | None =>
    (s, NoMalloc p :: match prv_memory_find_previous (free_list s) mem with
                      | Some (_, e, _) => [AlreadyFreed (where_ e)]
                      | None => []
                      end)
  end.

(** [lwm2m_trace_strdup]: a traced allocation of the length and one byte. *)
Definition lwm2m_trace_strdup (addr : Z) (str : bytes) (p : place) (s : trace_state) : trace_state * bytes :=
  (lwm2m_trace_malloc addr (Z.of_nat (length str) + 1) p s, str ++ [0]).

Definition trace_status (s : trace_state) : Z * Z := (malloc_count s, malloc_size s).

(** The two checks of the detailed report of [trace_print]. *)
Definition trace_print_errors (s : trace_state) : bool * bool :=
  (negb (Z.of_nat (length (malloc_list s)) =? malloc_count s),
   negb (u32 (foldr Z.add 0 (map size (malloc_list s))) =? malloc_size s)).

(** ** Steps *)

Definition blocks (s : trace_state) : list Z := map data (malloc_list s) ++ map data (free_list s).

Inductive step : trace_state -> trace_state -> Prop :=
| step_malloc addr sz p s : addr <> 0 -> addr ∉ blocks s -> step s (lwm2m_trace_malloc addr sz p s)
| step_free mem p s : step s (fst (lwm2m_trace_free mem p s)).


(** ** Lookup *)

Lemma find_previous_spec l m :
  match prv_memory_find_previous l m with
  | Some (before, e, after) => l = before ++ e :: after /\ data e = m /\ m ∉ map data before
  | None => m ∉ map data l
  end.
Proof.
  induction l as [|e l IH]; simpl; [apply not_elem_of_nil |].
  destruct (Z.eqb_spec (data e) m) as [E|E]; [split_and!; [done | done | apply not_elem_of_nil] |].
  destruct (prv_memory_find_previous l m) as [[[before x] after]|]; simpl.
  - destruct IH as (-> & <- & Hb). split_and!; [done | done |]. rewrite elem_of_cons. intros [?|?]; congruence.
  - rewrite elem_of_cons. intros [?|?]; congruence.
Qed.

Lemma cut_last_spec e l : fst (cut_last e l) ++ [snd (cut_last e l)] = e :: l.
Proof.
  revert e. induction l as [|x l IH]; intros e; simpl; [done |].
  specialize (IH x). destruct (cut_last x l) as [b y]. simpl in *. by rewrite IH.
Qed.

(** ** The accounts *)

(** The counters agree with the lists, no block is listed twice, and at most
    200 released blocks are kept. *)
Record accounts (s : trace_state) : Prop := {
  acc_count : malloc_count s = Z.of_nat (length (malloc_list s));
  acc_size : malloc_size s = u32 (foldr Z.add 0 (map size (malloc_list s)));
  acc_free : free_count s = Z.of_nat (length (free_list s));
  acc_free_le : free_count s <= 200;
  acc_blocks : NoDup (blocks s);
}.

Lemma sum_sizes_app l l' :
  foldr Z.add 0 (map size (l ++ l')) = foldr Z.add 0 (map size l) + foldr Z.add 0 (map size l').
Proof. induction l as [|e l IH]; simpl; [done |]. rewrite IH. lia. Qed.

Lemma u32_add_l a b : u32 (u32 a + b) = u32 (a + b).
Proof. unfold u32. apply Z.add_mod_idemp_l. lia. Qed.
Lemma u32_sub_l a b : u32 (u32 a - b) = u32 (a - b).
Proof. unfold u32. apply Zminus_mod_idemp_l. Qed.

Lemma malloc_accounts addr sz p s :
  addr ∉ blocks s -> accounts s -> accounts (lwm2m_trace_malloc addr sz p s).
Proof.
  intros Hf [H1 H2 H3 H4 H5]. split; simpl; [lia | | done | done |].
  - rewrite H2, u32_add_l. f_equal. lia.
  - unfold blocks. simpl. by apply list.NoDup_cons.
Qed.

(** Moving an entry to the other list keeps the accounts; the block that
    drops out is no longer listed. *)
Lemma add_free_accounts e p s :
  accounts s -> data e ∉ blocks s ->
  let s' := prv_trace_add_free_list e p s in
  accounts s' /\ malloc_list s' = malloc_list s /\ counter s' = counter s
  /\ exists old, released s' = released s ++ old
     /\ map data (free_list s') ++ old = data e :: map data (free_list s).
Proof.
  intros [H1 H2 H3 H4 H5] Hf. unfold prv_trace_add_free_list.
  set (e' := mk_entry (data e) p (size e) (number e)).
  assert (NoDup (map data (malloc_list s) ++ data e :: map data (free_list s))) as Hnd.
  { unfold blocks in *. apply list.NoDup_app in H5 as (N1 & N2 & N3). rewrite elem_of_app in Hf.
    apply list.NoDup_app. split_and!; [done | | apply list.NoDup_cons; intuition].
    intros x Hx. rewrite elem_of_cons. intros [->|?]; [intuition | by apply (N2 x)]. }
  destruct (Z.ltb_spec (free_count s) 200).
  - split_and!; [split; simpl; try done; lia | done | done |]. exists []. by rewrite !app_nil_r.
  - destruct (free_list s) as [|x l] eqn:Hl; [simpl in H3; lia |]. rewrite <- Hl in *.
    pose proof (cut_last_spec e' (free_list s)) as Hc.
    destruct (cut_last e' (free_list s)) as [b y]. simpl in *.
    assert (map data b ++ [data y] = data e :: map data (free_list s)) as Hm.
    { change (data e :: map data (free_list s)) with (map data (e' :: free_list s)).
      rewrite <- Hc, map_app. done. }
    split_and!; [| done | done |].
    + split; simpl; try done.
      * apply (f_equal length) in Hc. rewrite length_app in Hc. simpl in Hc. lia.
      * unfold blocks. simpl. rewrite <- Hm, app_assoc in Hnd. by apply list.NoDup_app in Hnd as (? & _).
    + by exists [data y].
Qed.

Lemma free_accounts mem p s : accounts s -> accounts (fst (lwm2m_trace_free mem p s)).
Proof.
  intros Hs. unfold lwm2m_trace_free. destruct (mem =? 0); [done |].
  pose proof (find_previous_spec (malloc_list s) mem) as Hfind.
  destruct (prv_memory_find_previous (malloc_list s) mem) as [[[b e] a]|]; [| done].
  destruct Hfind as (Hl & Hd & _). destruct Hs as [H1 H2 H3 H4 H5].
  unfold blocks in H5. rewrite Hl, map_app, <- app_assoc in H5. simpl in H5.
  rewrite <- Permutation_middle, app_assoc, <- map_app in H5.
  apply list.NoDup_cons in H5 as [Hn Hnd]. apply add_free_accounts; [| done].
  rewrite Hl in *. split; simpl; try done.
  - rewrite H1, !length_app. simpl. lia.
  - rewrite H2, u32_sub_l, !sum_sizes_app. simpl. f_equal. lia.
Qed.

Lemma reachable_accounts s : rtc step initial s -> accounts s.
Proof.
  assert (accounts initial) as H0 by (split; try done; constructor).
  intros Hr. revert H0. induction Hr as [|s s1 s' Hs _ IH]; [done |]. intros H0. apply IH.
  destruct Hs; [by apply malloc_accounts | by apply free_accounts].
Qed.

(** In every state reached from the empty one by allocations of fresh
    blocks and arbitrary releases, [trace_status] reports the number of live
    blocks and the sum of their sizes modulo 2^32, the detailed report finds
    no inconsistency, no block is listed twice, and at most 200 released blocks
    are kept. *)
Lemma memtrace_accounting s :
  rtc step initial s ->
  trace_status s = (Z.of_nat (length (malloc_list s)), u32 (foldr Z.add 0 (map size (malloc_list s))))
  /\ trace_print_errors s = (false, false)
  /\ NoDup (blocks s) /\ (length (free_list s) <= 200)%nat.
Proof.
  intros [H1 H2 H3 H4 H5]%reachable_accounts. unfold trace_status, trace_print_errors.
  rewrite <- H1, <- H2, !Z.eqb_refl. split_and!; try done. lia.
Qed.

(** A released entry is at the head of the list of released ones. *)
Lemma free_list_head e p s :
  free_count s = Z.of_nat (length (free_list s)) ->
  exists l, free_list (prv_trace_add_free_list e p s) = mk_entry (data e) p (size e) (number e) :: l.
Proof.
  intros H3. unfold prv_trace_add_free_list. destruct (Z.ltb_spec (free_count s) 200); [by eexists |].
  destruct (free_list s) as [|x l]; [simpl in H3; lia |]. simpl.
  destruct (cut_last x l) as [b y]. by eexists.
Qed.

Lemma free_live s mem p :
  accounts s -> mem <> 0 -> mem ∈ map data (malloc_list s) ->
  exists b e a s' l, malloc_list s = b ++ e :: a /\ data e = mem /\ lwm2m_trace_free mem p s = (s', [])
    /\ malloc_list s' = b ++ a /\ ~ (mem ∈ map data (b ++ a))
    /\ free_list s' = mk_entry mem p (size e) (number e) :: l.
Proof.
  intros Hs Hmem Hin. unfold lwm2m_trace_free. destruct (Z.eqb_spec mem 0); [done |].
  pose proof (find_previous_spec (malloc_list s) mem) as Hfind.
  destruct (prv_memory_find_previous (malloc_list s) mem) as [[[b e] a]|]; [| done].
  destruct Hfind as (Hl & Hd & _). set (s1 := mk_trace (b ++ a) _ _ _ _ _ _ _).
  destruct (free_list_head e p s1 (acc_free s Hs)) as [l Hhead].
  exists b, e, a, (prv_trace_add_free_list e p s1), l. rewrite Hhead, Hd. split_and!; try done.
  - unfold prv_trace_add_free_list. by repeat case_match.
  - pose proof (acc_blocks s Hs) as Hnd. unfold blocks in Hnd. rewrite Hl in Hnd.
    apply list.NoDup_app in Hnd as (Hnd & _). rewrite map_app in *. simpl in Hnd.
    rewrite <- Permutation_middle in Hnd. apply list.NoDup_cons in Hnd as [Hn _]. by rewrite <- Hd.
Qed.

Lemma free_unknown s mem p :
  mem <> 0 -> mem ∉ map data (malloc_list s) ->
  lwm2m_trace_free mem p s =
  (s, NoMalloc p :: match prv_memory_find_previous (free_list s) mem with
                      | Some (_, e, _) => [AlreadyFreed (where_ e)]
                      | None => []
                      end).
Proof.
  intros Hmem Hin. unfold lwm2m_trace_free. destruct (Z.eqb_spec mem 0); [done |].
  pose proof (find_previous_spec (malloc_list s) mem) as Hfind.
  destruct (prv_memory_find_previous (malloc_list s) mem) as [[[b e] a]|]; [| done].
  destruct Hfind as (Hl & Hd & _). destruct Hin. rewrite Hl, map_app, elem_of_app. right. simpl.
  apply elem_of_cons. by left.
Qed.

(** In a reachable state, releasing a live block is silent and removes
    exactly that block from the live ones; releasing it again at once changes
    nothing and is reported with the place of the first release; releasing
    any block that is not live changes nothing and is always reported; the
    null pointer is ignored. *)
Lemma double_free_detected s mem p p' :
  rtc step initial s -> mem <> 0 ->
  lwm2m_trace_free 0 p s = (s, [])
  /\ (if decide (mem ∈ map data (malloc_list s)) then
       exists b e a s', malloc_list s = b ++ e :: a /\ data e = mem
         /\ lwm2m_trace_free mem p s = (s', []) /\ malloc_list s' = b ++ a
         /\ lwm2m_trace_free mem p' s' = (s', [NoMalloc p'; AlreadyFreed p])
     else fst (lwm2m_trace_free mem p s) = s /\ head (snd (lwm2m_trace_free mem p s)) = Some (NoMalloc p)).
Proof.
  intros Hs%reachable_accounts Hmem. split; [done |]. case_decide as Hin.
  - destruct (free_live s mem p Hs Hmem Hin) as (b & e & a & s' & l & Hl & Hd & Hfree & Hm & Hn & Hhead).
    exists b, e, a, s'. split_and!; try done.
    rewrite (free_unknown s' mem p' Hmem) by (by rewrite Hm). rewrite Hhead. simpl. by rewrite Z.eqb_refl.
  - by rewrite (free_unknown s mem p Hmem Hin).
Qed.

(** ** A concrete run *)

Module Example.
Definition at_ (line : Z) : place := mk_place [97] [98] line.
Definition s2 : trace_state := lwm2m_trace_malloc 8 20 (at_ 2) (lwm2m_trace_malloc 4 10 (at_ 1) initial).

Lemma s2_reachable : rtc step initial s2.
Proof.
  apply (rtc_l _ _ (lwm2m_trace_malloc 4 10 (at_ 1) initial)); [constructor; [done | apply not_elem_of_nil] |].
  apply rtc_once. constructor; [done |]. intros H. vm_compute in H. inversion H as [|? ? ? H2]. inversion H2.
Qed.
End Example.
Import Example.

Lemma memtrace_accounting_witness : trace_status s2 = (2, 30).
Proof. exact (proj1 (memtrace_accounting s2 s2_reachable)). Defined.

Lemma double_free_detected_witness :
  exists b e a s', malloc_list s2 = b ++ e :: a /\ data e = 4
    /\ lwm2m_trace_free 4 (at_ 3) s2 = (s', []) /\ malloc_list s' = b ++ a
    /\ lwm2m_trace_free 4 (at_ 4) s' = (s', [NoMalloc (at_ 4); AlreadyFreed (at_ 3)]).
Proof.
  exact (proj2 (double_free_detected s2 4 (at_ 3) (at_ 4) s2_reachable ltac:(discriminate))).
Defined.
End Memtrace.
