(* ===== verification/Statistics.v ===== *)
(** * Accelerometer statistics

    Models [src/statistics.c]: the mean of a window of accelerometer samples,
    summed in 32-bit integers and divided with C's truncation.  A division by
    the length 0 of an empty window, and a sum that leaves 32 bits, are
    undefined. *)

From S2P Require Import Prelude.

Module Statistics.

(** [struct bma2_sensor_data] and the means of [accelerometer_statistics_s];
    the variance fields are never written. *)
Record sensor_data := mk_sensor_data { x : Z; y : Z; z : Z }.
Record vector32 := mk_vector32 { vx : Z; vy : Z; vz : Z }.
Record accelerometer_statistics := mk_statistics { mean : sensor_data; variance : vector32 }.

(** One addition of signed 32-bit integers. *)
Definition add32 (a b : Z) : option Z :=
  let s := a + b in if bool_decide (- 2 ^ 31 <= s) && bool_decide (s < 2 ^ 31) then Some s else None.

Fixpoint sum_loop (sx sy sz : Z) (l : list sensor_data) : option (Z * Z * Z) :=
  match l with
  | [] => Some (sx, sy, sz)
  | d :: l => sx ← add32 sx (x d); sy ← add32 sy (y d); sz ← add32 sz (z d); sum_loop sx sy sz l
  end.

Definition mean_and_variance (st : accelerometer_statistics) (l : list sensor_data) :
    option accelerometer_statistics :=
  '(sx, sy, sz) ← sum_loop 0 0 0 l;
  let len := Z.of_nat (length l) in
  if len =? 0 then None
  else Some (mk_statistics
    (mk_sensor_data (s16 (Z.quot sx len)) (s16 (Z.quot sy len)) (s16 (Z.quot sz len))) (variance st)).

(** ** Bounds *)

Definition sample_ok (d : sensor_data) : Prop := is_s16 (x d) /\ is_s16 (y d) /\ is_s16 (z d).
Definition sum (f : sensor_data -> Z) (l : list sensor_data) : Z := foldr Z.add 0 (map f l).

Lemma sum_bounds f l : Forall (fun d => is_s16 (f d)) l ->
  - 2 ^ 15 * Z.of_nat (length l) <= sum f l <= (2 ^ 15 - 1) * Z.of_nat (length l).
Proof.
  unfold sum, is_s16. induction 1 as [|d l Hd _ IH]; simpl length; [simpl; lia |]. cbn [map foldr]. lia.
Qed.

Lemma add32_ok a b : - 2 ^ 31 <= a + b < 2 ^ 31 -> add32 a b = Some (a + b).
Proof. intros H. unfold add32. rewrite !bool_decide_true by lia. done. Qed.

(** The loop computes the three sums: fewer than 65536 samples of 16 bits
    never leave 32 bits. *)
Lemma sum_loop_spec k sx sy sz l :
  Forall sample_ok l -> k + Z.of_nat (length l) <= 65535 ->
  - 2 ^ 15 * k <= sx <= (2 ^ 15 - 1) * k -> - 2 ^ 15 * k <= sy <= (2 ^ 15 - 1) * k ->
  - 2 ^ 15 * k <= sz <= (2 ^ 15 - 1) * k ->
  sum_loop sx sy sz l = Some (sx + sum x l, sy + sum y l, sz + sum z l).
Proof.
  intros Hl. revert k sx sy sz. induction Hl as [|d l (Hx & Hy & Hz) _ IH]; intros k sx sy sz Hk H1 H2 H3.
  - simpl. by rewrite !Z.add_0_r.
  - cbn [sum_loop]. unfold is_s16 in *. simpl length in Hk.
    rewrite (add32_ok sx) by lia. cbn [mbind option_bind]. rewrite (add32_ok sy) by lia. cbn [mbind option_bind].
    rewrite (add32_ok sz) by lia. cbn [mbind option_bind]. rewrite (IH (k + 1)) by lia.
    unfold sum. cbn [map foldr]. by rewrite !Z.add_assoc.
Qed.

Lemma quot_bounds s n : 0 < n -> - 2 ^ 15 * n <= s <= (2 ^ 15 - 1) * n -> is_s16 (Z.quot s n).
Proof.
  intros Hn Hs. unfold is_s16. pose proof (Z.quot_le_mono (- 2 ^ 15 * n) s n Hn) as H1.
  pose proof (Z.quot_le_mono s ((2 ^ 15 - 1) * n) n Hn) as H2. rewrite Z.quot_mul in H1, H2 by lia. lia.
Qed.

(** For a window of 1 to 65535 samples the sums never overflow, the call
    is defined, and each mean is the exact sum divided by the length, rounded
    toward zero, in the range of the samples' type; the variance is not
    touched. *)
Lemma mean_exact st l :
  Forall sample_ok l -> l <> [] -> Z.of_nat (length l) <= 65535 ->
  let n := Z.of_nat (length l) in
  mean_and_variance st l
  = Some (mk_statistics (mk_sensor_data (Z.quot (sum x l) n) (Z.quot (sum y l) n) (Z.quot (sum z l) n)) (variance st))
  /\ is_s16 (Z.quot (sum x l) n) /\ is_s16 (Z.quot (sum y l) n) /\ is_s16 (Z.quot (sum z l) n).
Proof.
  intros Hl Hne Hlen n.
  assert (0 < n) as Hn by (unfold n; destruct l; [done | simpl length; lia]).
  assert (forall f, Forall (fun d => is_s16 (f d)) l -> is_s16 (Z.quot (sum f l) n)) as Hq.
  { intros f Hf. apply quot_bounds; [done | by apply sum_bounds]. }
  assert (is_s16 (Z.quot (sum x l) n) /\ is_s16 (Z.quot (sum y l) n) /\ is_s16 (Z.quot (sum z l) n)) as (Hx & Hy & Hz).
  { split_and!; apply Hq; revert Hl; apply Forall_impl; intros d (? & ? & ?); done. }
  split; [| done]. unfold mean_and_variance. rewrite (sum_loop_spec 0) by (done || lia). cbn [mbind option_bind].
  fold n. destruct (Z.eqb_spec n 0); [lia |]. rewrite !Z.add_0_l, !s16_id by done. done.
Qed.

Lemma mean_exact_witness :
  let l := [mk_sensor_data (-7) 32767 1; mk_sensor_data (-8) 32767 2] in
  mean_and_variance (mk_statistics (mk_sensor_data 0 0 0) (mk_vector32 0 0 0)) l
  = Some (mk_statistics (mk_sensor_data (-7) 32767 1) (mk_vector32 0 0 0)).
Proof.
  apply (mean_exact (mk_statistics (mk_sensor_data 0 0 0) (mk_vector32 0 0 0))
    [mk_sensor_data (-7) 32767 1; mk_sensor_data (-8) 32767 2]); [| discriminate | simpl; lia].
  repeat constructor; unfold is_s16; simpl; lia.
Defined.

(** An empty window divides by zero. *)
Lemma mean_empty_undefined st : mean_and_variance st [] = None.
Proof. done. Qed.

End Statistics.
