(* ===== verification/Jsmn.v ===== *)
(** * The JSON tokeniser: [system/src/jsmn-master/jsmn.h]

    The tokeniser [config.c] includes, as that file compiles it: with
    [JSMN_PARENT_LINKS] and without [JSMN_STRICT].  The token array is a list
    written by index ([None] for the NULL array of a counting pass); a read or
    write outside the text or the array is the outcome [Fault], so that memory
    safety is a theorem.  Loops take fuel, and [jsmn_parse] supplies one pass per
    character, which is proved to be enough.

    Theorems: the tokeniser returns for every text, without an access outside
    the text or the array; a successful parse yields tokens that lie inside the
    text, in document order, each closed and linked to an earlier token; string
    tokens are exactly the well-formed string bodies between two quotes; and a
    counting pass gives an array size with which the second pass does not run
    out of tokens. *)

From S2P Require Import Prelude.

Module Jsmn.

(** ** Data *)

Inductive jsmntype := JSMN_UNDEFINED | JSMN_OBJECT | JSMN_ARRAY | JSMN_STRING | JSMN_PRIMITIVE.
#[export] Instance jsmntype_eq_dec : EqDecision jsmntype.
Proof. solve_decision. Defined.

Definition JSMN_ERROR_NOMEM : Z := -1.
Definition JSMN_ERROR_INVAL : Z := -2.
Definition JSMN_ERROR_PART : Z := -3.

Record jsmntok := mk_tok { type : jsmntype; start : Z; end_ : Z; size : Z; parent : Z }.
#[export] Instance jsmntok_eq_dec : EqDecision jsmntok.
Proof. solve_decision. Defined.

Record jsmn_parser := mk_parser { pos : Z; toknext : Z; toksuper : Z }.

(** The token array of a call: NULL, or its contents. *)
Definition tokens := option (list jsmntok).

(** ** Outcomes: a value, an access outside an object, or fuel used up *)

Inductive outcome (A : Type) := Done (a : A) | Fault | OutOfFuel.
Arguments Done {A} a.
Arguments Fault {A}.
Arguments OutOfFuel {A}.

#[export] Instance outcome_ret : MRet outcome := @Done.
#[export] Instance outcome_bind : MBind outcome := fun A B f x =>
  match x with Done a => f a | Fault => Fault | OutOfFuel => OutOfFuel end.

(** Reads and writes at a C index. *)
Definition fetch {A} (l : list A) (i : Z) : outcome A :=
  if i <? 0 then Fault
  else match l !! Z.to_nat i with Some a => Done a | None => Fault end.

Definition store {A} (l : list A) (i : Z) (f : A -> A) : outcome (list A) :=
  a ← fetch l i; Done (<[Z.to_nat i := f a]> l).

(** ** Characters *)

Definition LBRACE : Z := 123.
Definition RBRACE : Z := 125.
Definition LBRACKET : Z := 91.
Definition RBRACKET : Z := 93.
Definition QUOTE : Z := 34.
Definition BACKSLASH : Z := 92.
Definition COLON : Z := 58.
Definition COMMA : Z := 44.

Definition is_blank (c : Z) : bool := (c =? 9) || (c =? 13) || (c =? 10) || (c =? 32).

(** The characters that end a primitive. *)
Definition ends_primitive (c : Z) : bool :=
  (c =? COLON) || is_blank c || (c =? COMMA) || (c =? RBRACKET) || (c =? RBRACE).

(** The characters a backslash may precede, apart from [u]. *)
Definition is_escape (c : Z) : bool :=
  (c =? QUOTE) || (c =? 47) || (c =? BACKSLASH) || (c =? 98) || (c =? 102)
  || (c =? 114) || (c =? 110) || (c =? 116).

Definition is_hex (c : Z) : bool :=
  ((48 <=? c) && (c <=? 57)) || ((65 <=? c) && (c <=? 70)) || ((97 <=? c) && (c <=? 102)).

(** ** Tokens *)

Definition jsmn_init : jsmn_parser := mk_parser 0 0 (-1).

Definition set_pos (p : jsmn_parser) (z : Z) : jsmn_parser :=
  mk_parser z (toknext p) (toksuper p).
Definition set_toksuper (p : jsmn_parser) (z : Z) : jsmn_parser :=
  mk_parser (pos p) (toknext p) z.

(** [None] is the NULL result: the pool is used up. *)
Definition jsmn_alloc_token (p : jsmn_parser) (toks : list jsmntok) (num_tokens : Z)
  : outcome (option (Z * jsmn_parser * list jsmntok)) :=
  if num_tokens <=? toknext p then Done None
  else
    toks ← store toks (toknext p) (fun t => mk_tok (type t) (-1) (-1) 0 (-1));
    Done (Some (toknext p, mk_parser (pos p) (u32 (toknext p + 1)) (toksuper p), toks)).

Definition jsmn_fill_token (ty : jsmntype) (s e : Z) (t : jsmntok) : jsmntok :=
  mk_tok ty s e 0 (parent t).

Definition set_parent (z : Z) (t : jsmntok) : jsmntok :=
  mk_tok (type t) (start t) (end_ t) (size t) z.
Definition incr_size (t : jsmntok) : jsmntok :=
  mk_tok (type t) (start t) (end_ t) (size t + 1) (parent t).
Definition set_end (z : Z) (t : jsmntok) : jsmntok :=
  mk_tok (type t) (start t) z (size t) (parent t).

(** ** Primitives *)

(** The scanning loop; [None] is an invalid character. *)
Fixpoint scan_primitive (fuel : nat) (js : bytes) (len p : Z) : outcome (option Z) :=
  match fuel with
  | O => OutOfFuel
  | S fuel =>
      if negb (p <? len) then Done (Some p) else
      c ← fetch js p;
      if c =? 0 then Done (Some p)
      else if ends_primitive c then Done (Some p)
      else if (c <? 32) || (127 <=? c) then Done None
      else scan_primitive fuel js len (u32 (p + 1))
  end.

(** The tail shared by primitives and strings: a fresh token with its type,
    bounds and parent, or the error when there is none left. *)
Definition add_token (ty : jsmntype) (s e reset : Z) (p : jsmn_parser) (toks : list jsmntok)
  (num_tokens : Z) : outcome (Z * jsmn_parser * list jsmntok) :=
  token ← jsmn_alloc_token p toks num_tokens;
  match token with
  | None => Done (JSMN_ERROR_NOMEM, set_pos p (u32 reset), toks)
  | Some (i, p, toks) =>
      toks ← store toks i (fun t => set_parent (toksuper p) (jsmn_fill_token ty s e t));
      Done (0, p, toks)
  end.

Definition jsmn_parse_primitive (p : jsmn_parser) (js : bytes) (len : Z) (toks : tokens)
  (num_tokens : Z) : outcome (Z * jsmn_parser * tokens) :=
  let start := s32 (pos p) in
  found ← scan_primitive (S (Z.to_nat len)) js len (pos p);
  match found with
  | None => Done (JSMN_ERROR_INVAL, set_pos p (u32 start), toks)
  | Some e =>
      let p := set_pos p e in
      match toks with
      | None => Done (0, set_pos p (u32 (pos p - 1)), toks)
      | Some l =>
          '(r, p, l) ← add_token JSMN_PRIMITIVE start (s32 (pos p)) start p l num_tokens;
          if r <? 0 then Done (r, p, Some l)
          else Done (0, set_pos p (u32 (pos p - 1)), Some l)
      end
  end.

(** ** Strings *)

(** The loop over the four digits of [\uXXXX]; [None] is a character that is
    not a digit. *)
Fixpoint hex_loop (i : nat) (js : bytes) (len p : Z) : outcome (option Z) :=
  match i with
  | O => Done (Some p)
  | S i =>
      if negb (p <? len) then Done (Some p) else
      c ← fetch js p;
      if c =? 0 then Done (Some p)
      else if negb (is_hex c) then Done None
      else hex_loop i js len (u32 (p + 1))
  end.

Inductive string_end := Quote_at (p : Z) | Invalid_string | Partial_string.

(** The scanning loop of [jsmn_parse_string] after the opening quote. *)
Fixpoint scan_string (fuel : nat) (js : bytes) (len p : Z) : outcome string_end :=
  match fuel with
  | O => OutOfFuel
  | S fuel =>
      if negb (p <? len) then Done Partial_string else
      c ← fetch js p;
      if c =? 0 then Done Partial_string
      else if c =? QUOTE then Done (Quote_at p)
      else if (c =? BACKSLASH) && (u32 (p + 1) <? len) then
        let p := u32 (p + 1) in
        e ← fetch js p;
        if is_escape e then scan_string fuel js len (u32 (p + 1))
        else if e =? 117 then
          digits ← hex_loop 4 js len (u32 (p + 1));
          match digits with
          | None => Done Invalid_string
          | Some p => scan_string fuel js len (u32 (u32 (p - 1) + 1))
          end
        else Done Invalid_string
      else scan_string fuel js len (u32 (p + 1))
  end.

Definition jsmn_parse_string (p : jsmn_parser) (js : bytes) (len : Z) (toks : tokens)
  (num_tokens : Z) : outcome (Z * jsmn_parser * tokens) :=
  let start := s32 (pos p) in
  found ← scan_string (S (Z.to_nat len)) js len (u32 (pos p + 1));
  match found with
  | Invalid_string => Done (JSMN_ERROR_INVAL, set_pos p (u32 start), toks)
  | Partial_string => Done (JSMN_ERROR_PART, set_pos p (u32 start), toks)
  | Quote_at e =>
      let p := set_pos p e in
      match toks with
      | None => Done (0, p, toks)
      | Some l =>
          '(r, p, l) ← add_token JSMN_STRING (start + 1) (s32 (pos p)) start p l num_tokens;
          Done (r, p, Some l)
      end
  end.

(** ** The parser *)

Definition is_open (t : jsmntok) : bool := negb (start t =? -1) && (end_ t =? -1).

(** The walk along the parent links at a closing bracket: the token array and
    the new superior token, or [None] for an invalid text. *)
Fixpoint close_walk (fuel : nat) (toks : list jsmntok) (i : Z) (ty : jsmntype) (p : jsmn_parser)
  : outcome (option (list jsmntok * jsmn_parser)) :=
  match fuel with
  | O => OutOfFuel
  | S fuel =>
      token ← fetch toks i;
      if is_open token then
        if decide (type token <> ty) then Done None
        else
          toks ← store toks i (set_end (s32 (u32 (pos p + 1))));
          Done (Some (toks, set_toksuper p (parent token)))
      else if parent token =? -1 then
        if bool_decide (type token <> ty) || (toksuper p =? -1) then Done None
        else Done (Some (toks, p))
      else close_walk fuel toks (parent token) ty p
  end.

(** One pass of the loop of [jsmn_parse]: an early return, or the state for the
    next character. *)
Inductive step_result :=
  | Return (r : Z) (p : jsmn_parser) (toks : tokens)
  | Continue (p : jsmn_parser) (toks : tokens) (count : Z).

Definition open_bracket (c num_tokens : Z) (p : jsmn_parser) (toks : tokens) (count : Z)
  : outcome step_result :=
  let count := count + 1 in
  match toks with
  | None => Done (Continue p toks count)
  | Some l =>
      token ← jsmn_alloc_token p l num_tokens;
      match token with
      | None => Done (Return JSMN_ERROR_NOMEM p toks)
      | Some (i, p, l) =>
          l ← (if toksuper p =? -1 then Done l
                else l ← store l (toksuper p) incr_size; store l i (set_parent (toksuper p)));
          l ← store l i (fun t => mk_tok (if c =? LBRACE then JSMN_OBJECT else JSMN_ARRAY)
                                          (s32 (pos p)) (end_ t) (size t) (parent t));
          Done (Continue (set_toksuper p (s32 (u32 (toknext p - 1)))) (Some l) count)
      end
  end.

Definition close_bracket (c : Z) (p : jsmn_parser) (toks : tokens) (count : Z)
  : outcome step_result :=
  match toks with
  | None => Done (Continue p toks count)
  | Some l =>
      let ty := if c =? RBRACE then JSMN_OBJECT else JSMN_ARRAY in
      if toknext p <? 1 then Done (Return JSMN_ERROR_INVAL p toks)
      else
        closed ← close_walk (S (Z.to_nat (toknext p))) l (toknext p - 1) ty p;
        match closed with
        | None => Done (Return JSMN_ERROR_INVAL p toks)
        | Some (l, p) => Done (Continue p (Some l) count)
        end
  end.

(** What follows a string or a primitive: an error is returned, a token counts
    towards its superior. *)
Definition after_value (r : Z) (p : jsmn_parser) (toks : tokens) (count : Z) : outcome step_result :=
  if r <? 0 then Done (Return r p toks)
  else
    let count := count + 1 in
    match toks with
    | Some l => if toksuper p =? -1 then Done (Continue p toks count)
                else l ← store l (toksuper p) incr_size; Done (Continue p (Some l) count)
    | None => Done (Continue p toks count)
    end.

Definition comma (p : jsmn_parser) (toks : tokens) (count : Z) : outcome step_result :=
  match toks with
  | Some l =>
      if toksuper p =? -1 then Done (Continue p toks count)
      else
        t ← fetch l (toksuper p);
        if bool_decide (type t <> JSMN_ARRAY) && bool_decide (type t <> JSMN_OBJECT)
        then Done (Continue (set_toksuper p (parent t)) toks count)
        else Done (Continue p toks count)
  | None => Done (Continue p toks count)
  end.

Definition jsmn_step (js : bytes) (len num_tokens c : Z) (p : jsmn_parser) (toks : tokens) (count : Z)
  : outcome step_result :=
  if (c =? LBRACE) || (c =? LBRACKET) then open_bracket c num_tokens p toks count
  else if (c =? RBRACE) || (c =? RBRACKET) then close_bracket c p toks count
  else if c =? QUOTE then
    '(r, p, toks) ← jsmn_parse_string p js len toks num_tokens;
    after_value r p toks count
  else if is_blank c then Done (Continue p toks count)
  else if c =? COLON then
    Done (Continue (set_toksuper p (s32 (u32 (toknext p - 1)))) toks count)
  else if c =? COMMA then comma p toks count
  else
    '(r, p, toks) ← jsmn_parse_primitive p js len toks num_tokens;
    after_value r p toks count.

(** The closing loop: is one of the first [n] tokens still open? *)
Fixpoint any_open (n : nat) (toks : list jsmntok) : outcome bool :=
  match n with
  | O => Done false
  | S n => t ← fetch toks (Z.of_nat n); if is_open t then Done true else any_open n toks
  end.

Definition finish (p : jsmn_parser) (toks : tokens) (count : Z)
  : outcome (Z * jsmn_parser * tokens) :=
  match toks with
  | None => Done (count, p, toks)
  | Some l =>
      unmatched ← any_open (Z.to_nat (toknext p)) l;
      if (unmatched : bool) then Done (JSMN_ERROR_PART, p, toks) else Done (count, p, toks)
  end.

Fixpoint parse_loop (fuel : nat) (js : bytes) (len num_tokens : Z) (p : jsmn_parser) (toks : tokens)
  (count : Z) : outcome (Z * jsmn_parser * tokens) :=
  match fuel with
  | O => OutOfFuel
  | S fuel =>
      if negb (pos p <? len) then finish p toks count else
      c ← fetch js (pos p);
      if c =? 0 then finish p toks count
      else
        s ← jsmn_step js len num_tokens c p toks count;
        match s with
        | Return r p toks => Done (r, p, toks)
        | Continue p toks count =>
            parse_loop fuel js len num_tokens (set_pos p (u32 (pos p + 1))) toks count
        end
  end.

Definition jsmn_parse (p : jsmn_parser) (js : bytes) (len : Z) (toks : tokens) (num_tokens : Z)
  : outcome (Z * jsmn_parser * tokens) :=
  parse_loop (S (Z.to_nat len)) js len num_tokens p toks (toknext p).


(** ** What the tokens mean *)

(** The characters [a .. b-1] of a text. *)
Definition slice (js : bytes) (a b : Z) : bytes := take (Z.to_nat (b - a)) (drop (Z.to_nat a) js).

(** The texts allowed between the quotes of a string. *)
Inductive str_body : bytes -> Prop :=
  | body_nil : str_body []
  | body_plain c l : c <> 0 -> c <> QUOTE -> c <> BACKSLASH -> str_body l -> str_body (c :: l)
  | body_escape c l : is_escape c = true -> str_body l -> str_body (BACKSLASH :: c :: l)
  | body_unicode a b c d l :
      is_hex a = true -> is_hex b = true -> is_hex c = true -> is_hex d = true ->
      str_body l -> str_body (BACKSLASH :: 117 :: a :: b :: c :: d :: l).

(** The characters of an unquoted value. *)
Definition prim_char (c : Z) : Prop := 32 < c < 127 /\ ends_primitive c = false.

Definition container (ty : jsmntype) : bool :=
  match ty with JSMN_OBJECT | JSMN_ARRAY => true | _ => false end.
Definition opening (ty : jsmntype) : Z :=
  match ty with JSMN_OBJECT => LBRACE | _ => LBRACKET end.
Definition closing (ty : jsmntype) : Z :=
  match ty with JSMN_OBJECT => RBRACE | _ => RBRACKET end.

(** What a token says of the text: which characters it spans.  A container
    whose end is [-1] is still open. *)
Definition tok_text (js : bytes) (t : jsmntok) : Prop :=
  match type t with
  | JSMN_UNDEFINED => False
  | JSMN_OBJECT | JSMN_ARRAY =>
      js !! Z.to_nat (start t) = Some (opening (type t)) /\
      (end_ t = -1 \/
       start t + 2 <= end_ t /\ js !! Z.to_nat (end_ t - 1) = Some (closing (type t)))
  | JSMN_STRING =>
      1 <= start t <= end_ t /\
      js !! Z.to_nat (start t - 1) = Some QUOTE /\ js !! Z.to_nat (end_ t) = Some QUOTE /\
      str_body (slice js (start t) (end_ t))
  | JSMN_PRIMITIVE =>
      start t < end_ t /\ Forall prim_char (slice js (start t) (end_ t))
  end.

(** Token [i] of a parse that has consumed the first [hi] characters. *)
Record tok_ok (js : bytes) (hi : Z) (i : nat) (t : jsmntok) : Prop := {
  tok_parent : -1 <= parent t < Z.of_nat i;
  tok_start : 0 <= start t < hi;
  tok_end : -1 <= end_ t <= hi;
  tok_means : tok_text js t }.

(** All tokens are right, and they are in document order. *)
Record toks_ok (js : bytes) (hi : Z) (ts : list jsmntok) : Prop := {
  toks_each : forall i t, ts !! i = Some t -> tok_ok js hi i t;
  toks_sorted : forall i j t u, (i < j)%nat -> ts !! i = Some t -> ts !! j = Some u ->
                start t < start u }.

(** The invariant of the parser between two characters. *)
Record inv (js : bytes) (len num : Z) (p : jsmn_parser) (toks : tokens) (count : Z) : Prop := {
  inv_pos : 0 <= pos p <= len;
  inv_super : -1 <= toksuper p < Z.max 0 (toknext p);
  inv_toks : match toks with
             | None => toknext p = 0 /\ toksuper p = -1
             | Some l => 0 <= toknext p <= num /\ num <= Z.of_nat (length l) /\ num < 2 ^ 31 /\
                         count = toknext p /\
                         toks_ok js (pos p) (take (Z.to_nat (toknext p)) l)
             end }.

(** ** Reading and writing by index *)

Lemma fetch_ok {A} (l : list A) i a : 0 <= i -> l !! Z.to_nat i = Some a -> fetch l i = Done a.
Proof. intros Hi Ha. unfold fetch. destruct (Z.ltb_spec i 0); [lia | by rewrite Ha]. Qed.

Lemma fetch_in {A} (l : list A) i :
  0 <= i < Z.of_nat (length l) -> exists a, l !! Z.to_nat i = Some a /\ fetch l i = Done a.
Proof.
  intros Hi. destruct (lookup_lt_is_Some_2 l (Z.to_nat i)) as [a Ha]; [lia |].
  exists a. split; [done | apply fetch_ok; [lia | done]].
Qed.

Lemma store_ok {A} (l : list A) i f a :
  0 <= i -> l !! Z.to_nat i = Some a -> store l i f = Done (<[Z.to_nat i := f a]> l).
Proof. intros Hi Ha. unfold store. by rewrite (fetch_ok l i a). Qed.

Lemma slice_cons js a b c :
  0 <= a < b -> js !! Z.to_nat a = Some c -> slice js a b = c :: slice js (a + 1) b.
Proof.
  intros Hab Hc. unfold slice.
  rewrite (drop_S js c (Z.to_nat a)) by done.
  replace (Z.to_nat (b - a)) with (S (Z.to_nat (b - (a + 1)))) by lia.
  replace (Z.to_nat (a + 1)) with (S (Z.to_nat a)) by lia. done.
Qed.

Lemma slice_nil js a : slice js a a = [].
Proof. unfold slice. by rewrite Z.sub_diag. Qed.

Lemma length_slice js a b :
  0 <= a <= b -> b <= Z.of_nat (length js) -> Z.of_nat (length (slice js a b)) = b - a.
Proof. intros. unfold slice. rewrite length_take, length_drop. lia. Qed.

Lemma slice_app pre mid post :
  slice (pre ++ mid ++ post) (Z.of_nat (length pre)) (Z.of_nat (length pre) + Z.of_nat (length mid))
  = mid.
Proof.
  unfold slice. rewrite Nat2Z.id, drop_app_length.
  replace (Z.to_nat _) with (length mid) by lia. by rewrite take_app_length.
Qed.

(** ** Scanning *)

Lemma scan_primitive_spec fuel js len p :
  0 <= p <= len -> len <= Z.of_nat (length js) -> len < 2 ^ 31 -> len - p < Z.of_nat fuel ->
  exists o, scan_primitive fuel js len p = Done o /\
    match o with
    | None => True
    | Some e => p <= e <= len /\ Forall prim_char (slice js p e)
    end.
Proof.
  revert p. induction fuel as [|fuel IH]; intros p Hp Hlen Hmax Hfuel; [lia |].
  cbn [scan_primitive]. destruct (Z.ltb_spec p len) as [Hlt | Hge]; cbn [negb].
  2:{ exists (Some p). split; [done |]. rewrite slice_nil. repeat split; [lia | lia | constructor]. }
  destruct (fetch_in js p) as (c & Hc & ->); [lia |]. cbn [mbind outcome_bind].
  destruct (Z.eqb_spec c 0).
  { exists (Some p). split; [done |]. rewrite slice_nil. repeat split; [lia | lia | constructor]. }
  destruct (ends_primitive c) eqn:He.
  { exists (Some p). split; [done |]. rewrite slice_nil. repeat split; [lia | lia | constructor]. }
  destruct ((c <? 32) || (127 <=? c)) eqn:Hr; [by eexists |].
  rewrite u32_id by (unfold is_u32; lia).
  destruct (IH (p + 1)) as (o & -> & Ho); [lia.. |].
  exists o. split; [done |]. destruct o as [e|]; [|done]. destruct Ho as [Hb Hall].
  split; [lia |]. rewrite (slice_cons js p e c) by (done || lia). constructor; [|done].
  unfold prim_char. split; [|done]. unfold ends_primitive, is_blank in He. lia.
Qed.

(** A primitive starts with a character that does not end it, so it is not empty. *)
Lemma scan_primitive_first fuel js len p c e :
  p < len -> 0 <= p -> len < 2 ^ 31 -> js !! Z.to_nat p = Some c -> c <> 0 ->
  ends_primitive c = false -> len <= Z.of_nat (length js) -> len - p < Z.of_nat fuel ->
  scan_primitive fuel js len p = Done (Some e) -> p < e.
Proof.
  intros Hlt Hp Hmax Hc Hc0 He Hlen Hfuel. destruct fuel as [|fuel]; [done |].
  cbn [scan_primitive]. destruct (Z.ltb_spec p len); [|lia]. cbn [negb].
  rewrite (fetch_ok js p c) by done. cbn [mbind outcome_bind].
  destruct (Z.eqb_spec c 0); [done |]. rewrite He.
  destruct ((c <? 32) || (127 <=? c)); [done |].
  rewrite u32_id by (unfold is_u32; lia).
  destruct (scan_primitive_spec fuel js len (p + 1)) as (o & -> & Ho); [lia.. |].
  intros [= ->]. lia.
Qed.

Lemma hex_loop_spec i js len p :
  0 <= p <= len -> len <= Z.of_nat (length js) -> len < 2 ^ 31 ->
  exists o, hex_loop i js len p = Done o /\
    match o with
    | None => True
    | Some e => p <= e <= len /\ e <= p + Z.of_nat i /\
                Forall (fun c => is_hex c = true) (slice js p e) /\
                (e = p + Z.of_nat i \/ e = len \/ js !! Z.to_nat e = Some 0)
    end.
Proof.
  revert p. induction i as [|i IH]; intros p Hp Hlen Hmax; cbn [hex_loop].
  { exists (Some p). split; [done |]. rewrite slice_nil. repeat split; try lia. constructor. }
  destruct (Z.ltb_spec p len) as [Hlt | Hge]; cbn [negb].
  2:{ exists (Some p). split; [done |]. rewrite slice_nil. repeat split; try lia. constructor. }
  destruct (fetch_in js p) as (c & Hc & ->); [lia |]. cbn [mbind outcome_bind].
  destruct (Z.eqb_spec c 0).
  { exists (Some p). split; [done |]. rewrite slice_nil. subst c. repeat split; try lia; [constructor | auto]. }
  destruct (is_hex c) eqn:Hh; cbn [negb]; [|by eexists].
  rewrite u32_id by (unfold is_u32; lia).
  destruct (IH (p + 1)) as (o & -> & Ho); [lia.. |].
  exists o. split; [done |]. destruct o as [e|]; [|done]. destruct Ho as (Hb & Hi & Hall & Hend).
  repeat split; [lia.. | |].
  - rewrite (slice_cons js p e c) by (done || lia). by constructor.
  - destruct Hend as [-> | [-> | ?]]; [left; lia | auto | auto].
Qed.

(** At the end of the text, or at a NUL, a string is incomplete. *)
Lemma scan_string_stop fuel js len p :
  p = len \/ js !! Z.to_nat p = Some 0 -> 0 <= p -> (0 < fuel)%nat ->
  scan_string fuel js len p = Done Partial_string.
Proof.
  intros Hs Hp Hf. destruct fuel as [|fuel]; [lia |]. cbn [scan_string].
  destruct (Z.ltb_spec p len) as [Hlt | Hge]; [|done]. cbn [negb].
  destruct Hs as [-> | Hz]; [lia |]. by rewrite (fetch_ok js p 0).
Qed.

Lemma str_body_hex4 js p e :
  0 <= p -> e = p + 4 -> e <= Z.of_nat (length js) ->
  Forall (fun c => is_hex c = true) (slice js p e) ->
  exists a b c d, slice js p e = [a; b; c; d] /\
    is_hex a = true /\ is_hex b = true /\ is_hex c = true /\ is_hex d = true.
Proof.
  intros Hp -> Hlen Hall. pose proof (length_slice js p (p + 4)) as Hl.
  destruct (slice js p (p + 4)) as [|a [|b [|c [|d [|]]]]]; simpl in Hl; try lia.
  rewrite !list.Forall_cons in Hall. destruct Hall as (? & ? & ? & ? & _).
  by exists a, b, c, d.
Qed.

Lemma slice_split js a b c :
  0 <= a <= b -> b <= c -> slice js a c = slice js a b ++ slice js b c.
Proof.
  intros Hab Hbc. unfold slice.
  rewrite <- (take_drop (Z.to_nat (b - a)) (take (Z.to_nat (c - a)) _)).
  rewrite take_take, Nat.min_l by lia. f_equal.
  replace (Z.to_nat (c - a)) with (Z.to_nat (b - a) + Z.to_nat (c - b))%nat by lia.
  rewrite <- take_drop_commute, drop_drop. do 2 f_equal. lia.
Qed.

Lemma scan_string_spec fuel js len p :
  0 <= p <= len -> len <= Z.of_nat (length js) -> len < 2 ^ 31 -> len - p < Z.of_nat fuel ->
  exists o, scan_string fuel js len p = Done o /\
    match o with
    | Quote_at q => p <= q < len /\ js !! Z.to_nat q = Some QUOTE /\ str_body (slice js p q)
    | _ => True
    end.
Proof.
  revert p. induction fuel as [|fuel IH]; intros p Hp Hlen Hmax Hfuel; [lia |].
  cbn [scan_string]. destruct (Z.ltb_spec p len) as [Hlt | Hge]; cbn [negb]; [|by eexists].
  destruct (fetch_in js p) as (c & Hc & ->); [lia |]. cbn [mbind outcome_bind].
  destruct (Z.eqb_spec c 0); [by eexists |].
  destruct (Z.eqb_spec c QUOTE) as [-> |].
  { exists (Quote_at p). split; [done |]. rewrite slice_nil. repeat split; [lia | lia | done | constructor]. }
  rewrite !(u32_id (p + 1)) by (unfold is_u32; lia).
  destruct ((c =? BACKSLASH) && (p + 1 <? len)) eqn:Hbs.
  - assert (c = BACKSLASH) as -> by lia.
    destruct (fetch_in js (p + 1)) as (e & He & ->); [lia |]. cbn [mbind outcome_bind].
    rewrite (u32_id (p + 1 + 1)) by (unfold is_u32; lia).
    destruct (is_escape e) eqn:Hesc.
    + destruct (IH (p + 1 + 1)) as (o & -> & Ho); [lia.. |]. exists o. split; [done |].
      destruct o; [|done..]. destruct Ho as (Hq & HQ & Hb). split; [lia |]. split; [done |].
      rewrite (slice_cons js p _ BACKSLASH), (slice_cons js (p + 1) _ e) by (done || lia).
      by constructor.
    + destruct (Z.eqb_spec e 117) as [-> |]; [|by eexists].
      destruct (hex_loop_spec 4 js len (p + 1 + 1)) as (d & -> & Hd); [lia.. |].
      cbn [mbind outcome_bind]. destruct d as [p'|]; [|by eexists].
      destruct Hd as (Hp' & Hmx & Hhex & Hend).
      rewrite (u32_id (p' - 1)) by (unfold is_u32; lia).
      replace (p' - 1 + 1) with p' by lia. rewrite (u32_id p') by (unfold is_u32; lia).
      destruct Hend as [Hfull | Hstop].
      2:{ rewrite scan_string_stop by (done || lia). by eexists. }
      destruct (IH p') as (o & -> & Ho); [lia.. |]. exists o. split; [done |].
      destruct o; [|done..]. destruct Ho as (Hq & HQ & Hb). split; [lia |]. split; [done |].
      destruct (str_body_hex4 js (p + 1 + 1) p') as (a & b & c & d & Hs & ? & ? & ? & ?); [lia.. | done |].
      rewrite (slice_cons js p _ BACKSLASH), (slice_cons js (p + 1) _ 117) by (done || lia).
      rewrite (slice_split js _ p' p0), Hs by lia. by apply body_unicode.
  - destruct (IH (p + 1)) as (o & -> & Ho); [lia.. |]. exists o. split; [done |].
    destruct o; [|done..]. destruct Ho as (Hq & HQ & Hb). split; [lia |]. split; [done |].
    rewrite (slice_cons js p _ c) by (done || lia). constructor; [done.. | | done].
    intros ->. destruct (Z.ltb_spec (p + 1) len); [|lia].
    rewrite Z.eqb_refl in Hbs. done.
Qed.

(** Moving one character from the rest of a text to the part before it. *)
Lemma fetch_middle {A} (pre rest : list A) c : fetch (pre ++ c :: rest) (Z.of_nat (length pre)) = Done c.
Proof. apply fetch_ok; [lia |]. by rewrite Nat2Z.id, list_lookup_middle. Qed.

Lemma app_shift {A} (pre rest : list A) c : pre ++ c :: rest = (pre ++ [c]) ++ rest.
Proof. by rewrite <- app_assoc. Qed.

Lemma length_snoc {A} (pre : list A) c : Z.of_nat (length (pre ++ [c])) = Z.of_nat (length pre) + 1.
Proof. rewrite length_app. simpl. lia. Qed.

Ltac next_char :=
  match goal with |- context [?pre ++ ?c :: ?rest] =>
    rewrite (app_shift pre rest c), <- (length_snoc pre c) end.
Ltac length_lia := rewrite ?length_snoc in *; lia.
Ltac no_wrap := rewrite u32_id by (unfold is_u32; length_lia).

(** A well-formed body followed by a quote is accepted, up to that quote. *)
Lemma scan_string_complete body : str_body body ->
  forall fuel pre post len,
    Z.of_nat (length pre) + Z.of_nat (length body) < len -> len < 2 ^ 31 ->
    (length body < fuel)%nat ->
    scan_string fuel (pre ++ body ++ QUOTE :: post) len (Z.of_nat (length pre))
    = Done (Quote_at (Z.of_nat (length pre) + Z.of_nat (length body))).
Proof.
  induction 1 as [| c l Hc0 Hcq Hcb Hb IH | c l He Hb IH | a b c d l Ha Hb' Hc Hd Hb IH];
    intros [|fuel] pre post len Hpos Hmax Hfuel; simpl length in *; try lia; simpl app;
    cbn [scan_string]; (destruct (Z.ltb_spec (Z.of_nat (length pre)) len); [|lia]); cbn [negb];
    rewrite fetch_middle; cbn [mbind outcome_bind].
  - rewrite Z.eqb_refl. simpl. by rewrite Z.add_0_r.
  - destruct (Z.eqb_spec c 0), (Z.eqb_spec c QUOTE), (Z.eqb_spec c BACKSLASH); try done.
    simpl andb. cbv iota. no_wrap.
    next_char. rewrite IH by length_lia. rewrite length_snoc. do 2 f_equal. lia.
  - change (BACKSLASH =? 0) with false. change (BACKSLASH =? QUOTE) with false. cbv iota.
    rewrite !(u32_id (Z.of_nat (length pre) + 1)) by (unfold is_u32; lia).
    rewrite Z.eqb_refl. (destruct (Z.ltb_spec (Z.of_nat (length pre) + 1) len); [|lia]). simpl andb. cbv iota zeta.
    next_char. rewrite fetch_middle. cbn [mbind outcome_bind]. rewrite He.
    no_wrap.
    next_char. rewrite IH by length_lia. rewrite !length_snoc. do 2 f_equal. lia.
  - change (BACKSLASH =? 0) with false. change (BACKSLASH =? QUOTE) with false. cbv iota.
    rewrite !(u32_id (Z.of_nat (length pre) + 1)) by (unfold is_u32; lia).
    rewrite Z.eqb_refl. (destruct (Z.ltb_spec (Z.of_nat (length pre) + 1) len); [|lia]). simpl andb. cbv iota zeta.
    next_char. rewrite fetch_middle. cbn [mbind outcome_bind].
    change (is_escape 117) with false. change (117 =? 117) with true. cbv iota.
    no_wrap. next_char. cbn [hex_loop].
    assert (forall x, is_hex x = true -> (x =? 0) = false) as Hnz
      by (intros x Hx; unfold is_hex in Hx; lia).
    do 4 (match goal with |- context [ ?u <? len ] => destruct (Z.ltb_spec u len); [|rewrite ?length_snoc in *; lia] end;
          cbn [negb]; rewrite fetch_middle; cbn [mbind outcome_bind];
          match goal with H : is_hex ?x = true |- context [ negb (is_hex ?x) ] => rewrite H, (Hnz x H); clear H end;
          cbn [negb]; no_wrap; next_char).
    cbn [mbind outcome_bind]. rewrite (u32_id (_ - 1)) by (unfold is_u32; rewrite ?length_snoc in *; lia). rewrite Z.sub_add.
    no_wrap.
    rewrite IH by length_lia. rewrite !length_snoc. do 2 f_equal. lia.
Qed.

(** ** Token arrays *)

Lemma toks_ok_nil js hi : toks_ok js hi [].
Proof. split; [intros i t Hit | intros i j t u _ Hit]; by rewrite lookup_nil in Hit. Qed.

Lemma tok_ok_mono js hi hi' i t : hi <= hi' -> tok_ok js hi i t -> tok_ok js hi' i t.
Proof. intros Hle []. by constructor; try lia. Qed.

Lemma toks_ok_mono js hi hi' ts : hi <= hi' -> toks_ok js hi ts -> toks_ok js hi' ts.
Proof. intros Hle [He Hs]. split; [|done]. intros i t Ht. eapply tok_ok_mono; eauto. Qed.

(** A new token after the others, further on in the text. *)
Lemma toks_ok_snoc js hi hi' ts t :
  toks_ok js hi ts -> hi <= hi' -> hi <= start t -> tok_ok js hi' (length ts) t ->
  toks_ok js hi' (ts ++ [t]).
Proof.
  intros [He Hs] Hle Hst Ht. split.
  - intros i u [Hu | [Hi Hu]]%lookup_app_Some; [eapply tok_ok_mono; eauto |].
    apply list_lookup_singleton_Some in Hu as [Hi' <-]. by replace i with (length ts) by lia.
  - intros i j u v Hij [Hu | [Hi Hu]]%lookup_app_Some [Hv | [Hj Hv]]%lookup_app_Some.
    + eauto.
    + apply list_lookup_singleton_Some in Hv as [_ <-]. destruct (He i u Hu). lia.
    + apply lookup_lt_Some in Hv. lia.
    + apply list_lookup_singleton_Some in Hu as [? _], Hv as [? _]. lia.
Qed.

(** A token that changes in place, but not in its start. *)
Lemma toks_ok_update js hi hi' ts i t u :
  toks_ok js hi ts -> hi <= hi' -> ts !! i = Some t -> start u = start t -> tok_ok js hi' i u ->
  toks_ok js hi' (<[i := u]> ts).
Proof.
  intros [He Hs] Hle Ht Hst Hu.
  assert (forall j v, <[i := u]> ts !! j = Some v -> exists w, ts !! j = Some w /\ start w = start v) as Hold.
  { intros j v [(-> & <- & _) | [Hne Hv]]%list_lookup_insert_Some; eauto. }
  split.
  - intros j v [(-> & <- & _) | [Hne Hv]]%list_lookup_insert_Some; [done |].
    eapply tok_ok_mono; eauto.
  - intros j k v w Hjk (v' & Hv & <-)%Hold (w' & Hw & <-)%Hold. eauto.
Qed.

Lemma tok_ok_incr_size js hi i t : tok_ok js hi i t -> tok_ok js hi i (incr_size t).
Proof. by intros []. Qed.

Lemma take_insert_here {A} (l : list A) n a :
  (n < length l)%nat -> take (S n) (<[n := a]> l) = take n l ++ [a].
Proof.
  intros Hn. rewrite (take_S_r _ _ a) by (by apply list_lookup_insert_eq).
  by rewrite take_insert_ge by lia.
Qed.

(** ** Allocation *)

Section alloc.
Context (p : jsmn_parser) (l : list jsmntok) (num : Z).
Hypothesis Hnext : 0 <= toknext p <= num.
Hypothesis Hnum : num <= Z.of_nat (length l).
Hypothesis Hmax : num < 2 ^ 32.

Lemma alloc_full : toknext p = num -> jsmn_alloc_token p l num = Done None.
Proof using. unfold jsmn_alloc_token. intros ->. by destruct (Z.leb_spec num num); [|lia]. Qed.

Lemma alloc_fresh :
  toknext p < num ->
  exists t, l !! Z.to_nat (toknext p) = Some t /\
    jsmn_alloc_token p l num
    = Done (Some (toknext p, mk_parser (pos p) (toknext p + 1) (toksuper p),
                  <[Z.to_nat (toknext p) := mk_tok (type t) (-1) (-1) 0 (-1)]> l)).
Proof using Hnext Hnum Hmax.
  intros Hlt. destruct (fetch_in l (toknext p)) as (t & Ht & _); [lia |]. exists t. split; [done |].
  unfold jsmn_alloc_token. destruct (Z.leb_spec num (toknext p)); [lia |].
  rewrite (store_ok l _ _ t) by (done || lia). cbn [mbind outcome_bind].
  by no_wrap.
Qed.

Lemma add_token_spec ty s e reset :
  add_token ty s e reset p l num
  = if toknext p <? num
    then Done (0, mk_parser (pos p) (toknext p + 1) (toksuper p),
               <[Z.to_nat (toknext p) := mk_tok ty s e 0 (toksuper p)]> l)
    else Done (JSMN_ERROR_NOMEM, set_pos p (u32 reset), l).
Proof using Hnext Hnum Hmax.
  unfold add_token. destruct (Z.ltb_spec (toknext p) num) as [Hlt | Hge].
  - destruct (alloc_fresh Hlt) as (t & Ht & ->). cbn [mbind outcome_bind].
    erewrite store_ok; [| lia |].
    2:{ apply list_lookup_insert_eq. apply lookup_lt_Some in Ht. lia. }
    cbn [mbind outcome_bind]. by rewrite list_insert_insert_eq.
  - rewrite alloc_full by lia. done.
Qed.
End alloc.

(** ** The parser's steps *)

Definition jsmn_error (r : Z) : Prop :=
  r = JSMN_ERROR_NOMEM \/ r = JSMN_ERROR_INVAL \/ r = JSMN_ERROR_PART.

(** The array of a call is the one it was given, with other contents. *)
Definition same_array (toks toks' : tokens) : Prop :=
  match toks, toks' with
  | None, None => True
  | Some l, Some l' => length l = length l'
  | _, _ => False
  end.

#[export] Instance same_array_equivalence : Equivalence same_array.
Proof.
  split.
  - by intros [l|].
  - intros [l|] [l'|]; simpl; congruence.
  - intros [l|] [l'|] [l''|]; simpl; (done || congruence).
Qed.

Section steps.
Context (js : bytes) (len num : Z).
Hypothesis Hlen : len <= Z.of_nat (length js).
Hypothesis Hmax : len < 2 ^ 31.

(** A pass ends with an error, or keeps the invariant further on in the text. *)
Definition step_post (p : jsmn_parser) (toks : tokens) (s : step_result) : Prop :=
  match s with
  | Return r p' toks' => jsmn_error r /\ same_array toks toks'
  | Continue p' toks' count' =>
      pos p <= pos p' < len /\ same_array toks toks' /\
      inv js len num (set_pos p' (u32 (pos p' + 1))) toks' count'
  end.

Lemma inv_some p l count :
  0 <= pos p <= len -> -1 <= toksuper p < Z.max 0 (toknext p) -> 0 <= toknext p <= num ->
  num <= Z.of_nat (length l) -> num < 2 ^ 31 -> count = toknext p ->
  toks_ok js (pos p) (take (Z.to_nat (toknext p)) l) -> inv js len num p (Some l) count.
Proof using. by constructor. Qed.

Lemma step_continue p toks p' toks' count' :
  pos p <= pos p' < len -> 0 <= pos p -> same_array toks toks' ->
  inv js len num (set_pos p' (pos p' + 1)) toks' count' ->
  step_post p toks (Continue p' toks' count').
Proof using Hmax.
  intros Hp H0 Hsame Hinv. split; [done |]. split; [done |].
  by rewrite u32_id by (unfold is_u32; lia).
Qed.

(** A value was read: the parser stands at its last character and, with an
    array, its token has been added after the others. *)
Definition value_added (p : jsmn_parser) (toks : tokens) (p' : jsmn_parser) (toks' : tokens) : Prop :=
  pos p <= pos p' < len /\ toksuper p' = toksuper p /\
  match toks with
  | None => toks' = None /\ toknext p' = toknext p
  | Some l =>
      toknext p < num /\ toknext p' = toknext p + 1 /\
      exists t, toks' = Some (<[Z.to_nat (toknext p) := t]> l) /\ pos p <= start t /\
                tok_ok js (pos p' + 1) (Z.to_nat (toknext p)) t
  end.

Lemma value_same_array p toks p' toks' : value_added p toks p' toks' -> same_array toks toks'.
Proof using.
  intros (_ & _ & Hm). destruct toks as [l|]; [|by destruct Hm as [-> _]].
  destruct Hm as (_ & _ & t & -> & _). simpl. by rewrite length_insert.
Qed.

Lemma live_snoc p l t hi :
  0 <= toknext p < num -> num <= Z.of_nat (length l) ->
  toks_ok js (pos p) (take (Z.to_nat (toknext p)) l) ->
  pos p <= hi -> pos p <= start t -> tok_ok js hi (Z.to_nat (toknext p)) t ->
  toks_ok js hi (take (Z.to_nat (toknext p + 1)) (<[Z.to_nat (toknext p) := t]> l)).
Proof using.
  intros Hn Hl Hts Hle Hst Ht.
  replace (Z.to_nat (toknext p + 1)) with (S (Z.to_nat (toknext p))) by lia.
  rewrite take_insert_here by lia. eapply toks_ok_snoc; try done.
  by rewrite length_take, Nat.min_l by lia.
Qed.

(** Updating the tokens in use. *)
Lemma live_update n l i f hi hi' t :
  toks_ok js hi (take n l) -> (Z.to_nat i < n)%nat -> 0 <= i -> hi <= hi' ->
  l !! Z.to_nat i = Some t -> start (f t) = start t -> tok_ok js hi' (Z.to_nat i) (f t) ->
  toks_ok js hi' (take n (<[Z.to_nat i := f t]> l)).
Proof using.
  intros Hts Hi Hi0 Hle Ht Hst Hok.
  rewrite take_insert_lt by done.
  eapply toks_ok_update; try done. by rewrite lookup_take_lt.
Qed.

Lemma live_tok n l i hi t :
  toks_ok js hi (take n l) -> (i < n)%nat -> l !! i = Some t -> tok_ok js hi i t.
Proof using.
  intros [He _] Hi Ht. apply He. by rewrite lookup_take_lt.
Qed.

Lemma after_value_spec p toks count p' toks' :
  inv js len num p toks count -> value_added p toks p' toks' ->
  exists s, after_value 0 p' toks' count = Done s /\ step_post p toks s.
Proof using Hmax.
  intros [Hpos Hsup Htoks] Hv. pose proof (value_same_array _ _ _ _ Hv) as Hsame.
  destruct Hv as (Hp' & Hs' & Hm). unfold after_value. simpl.
  destruct toks as [l|].
  2:{ destruct Hm as [-> Hn]. eexists. split; [done |]. apply step_continue; [done | lia | done |].
      split; simpl; [lia | lia |]. by rewrite Hn, Hs'. }
  destruct Htoks as (Hn & Hl & Hnm & -> & Hts), Hm as (Hlt & Hn' & t & -> & Hst & Ht).
  assert (toks_ok js (pos p' + 1)
            (take (Z.to_nat (toknext p')) (<[Z.to_nat (toknext p) := t]> l))) as Hts'.
  { rewrite Hn'. apply live_snoc; try done; lia. }
  destruct (Z.eqb_spec (toksuper p') (-1)) as [Hm1 | Hne].
  - eexists. split; [done |]. apply step_continue; [done | lia | done |].
    apply inv_some; simpl; rewrite ?length_insert; done || lia.
  - set (l1 := <[_ := t]> l) in *.
    destruct (fetch_in l1 (toksuper p')) as (u & Hu & _).
    { unfold l1. rewrite length_insert. lia. }
    rewrite (store_ok _ _ _ u) by (done || lia). cbn [mbind outcome_bind].
    eexists. split; [done |]. apply step_continue; [done | lia | |].
    { simpl. unfold l1. by rewrite !length_insert. }
    assert (tok_ok js (pos p' + 1) (Z.to_nat (toksuper p')) u)
      by (eapply live_tok; [exact Hts' | lia | done]).
    apply inv_some; simpl; try (unfold l1; rewrite ?length_insert; lia).
    eapply live_update; try done; [lia.. | by apply tok_ok_incr_size].
Qed.

(** ** Strings and primitives *)

Lemma read_string_spec p toks count :
  inv js len num p toks count -> pos p < len -> js !! Z.to_nat (pos p) = Some QUOTE ->
  exists r p' toks', jsmn_parse_string p js len toks num = Done (r, p', toks') /\
    (jsmn_error r /\ same_array toks toks' \/ r = 0 /\ value_added p toks p' toks').
Proof using Hlen Hmax.
  intros [Hpos Hsup Htoks] Hlt HQ. unfold jsmn_parse_string.
  rewrite (s32_id (pos p)) by (unfold is_s32; lia).
  rewrite (u32_id (pos p + 1)) by (unfold is_u32; lia).
  destruct (scan_string_spec (S (Z.to_nat len)) js len (pos p + 1)) as (o & -> & Ho); [lia.. |].
  cbn [mbind outcome_bind]. destruct o as [e| |].
  2,3: do 3 eexists; split; [done |]; left; unfold jsmn_error; split; [tauto | reflexivity].
  destruct Ho as (He & HQe & Hbody). destruct toks as [l|].
  2:{ do 3 eexists. split; [done |]. right. split; [done |]. split; simpl; [lia | done]. }
  destruct Htoks as (Hn & Hl & Hnm & -> & Hts). rewrite add_token_spec by (simpl; lia). simpl.
  rewrite (s32_id e) by (unfold is_s32; lia).
  destruct (Z.ltb_spec (toknext p) num); cbn [mbind outcome_bind].
  2:{ do 3 eexists. split; [done |]. left. unfold jsmn_error. split; [tauto | reflexivity]. }
  do 3 eexists. split; [done |]. right. split; [done |]. split; simpl; [lia |]. split; [done |].
  split; [done |]. split; [done |]. eexists. split; [done |]. simpl. split; [lia |].
  split; simpl; [lia.. |]. unfold tok_text. simpl. rewrite Z.add_simpl_r. split; [lia | done].
Qed.

Lemma read_primitive_spec p toks count c :
  inv js len num p toks count -> pos p < len -> js !! Z.to_nat (pos p) = Some c ->
  c <> 0 -> ends_primitive c = false ->
  exists r p' toks', jsmn_parse_primitive p js len toks num = Done (r, p', toks') /\
    (jsmn_error r /\ same_array toks toks' \/ r = 0 /\ value_added p toks p' toks').
Proof using Hlen Hmax.
  intros [Hpos Hsup Htoks] Hlt Hc Hc0 Hend. unfold jsmn_parse_primitive.
  rewrite (s32_id (pos p)) by (unfold is_s32; lia).
  destruct (scan_primitive_spec (S (Z.to_nat len)) js len (pos p)) as (o & Hscan & Ho); [lia.. |].
  rewrite Hscan. cbn [mbind outcome_bind]. destruct o as [e|].
  2:{ do 3 eexists; split; [done |]; left; unfold jsmn_error; split; [tauto | reflexivity]. }
  destruct Ho as (He & Hprim).
  assert (pos p < e) by (eapply (scan_primitive_first (S (Z.to_nat len)) js len (pos p) c); try done; lia).
  destruct toks as [l|]; simpl; rewrite ?(u32_id (e - 1)) by (unfold is_u32; lia).
  2:{ do 3 eexists. split; [done |]. right. split; [done |]. split; simpl; [lia | done]. }
  destruct Htoks as (Hn & Hl & Hnm & -> & Hts). rewrite add_token_spec by (simpl; lia). simpl.
  rewrite (s32_id e) by (unfold is_s32; lia).
  destruct (Z.ltb_spec (toknext p) num); cbn [mbind outcome_bind].
  2:{ do 3 eexists. split; [done |]. left. unfold jsmn_error. split; [tauto | reflexivity]. }
  simpl. rewrite (u32_id (e - 1)) by (unfold is_u32; lia).
  do 3 eexists. split; [done |]. right. split; [done |]. split; simpl; [lia |]. split; [done |].
  split; [done |]. split; [done |]. eexists. split; [done |]. simpl. split; [lia |].
  by split; simpl; try lia.
Qed.

Lemma after_error r p toks count :
  jsmn_error r -> after_value r p toks count = Done (Return r p toks).
Proof using. by intros [-> | [-> | ->]]. Qed.

(** ** Brackets, colons and commas *)

Lemma open_bracket_spec c p toks count :
  inv js len num p toks count -> pos p < len -> js !! Z.to_nat (pos p) = Some c ->
  c = LBRACE \/ c = LBRACKET ->
  exists s, open_bracket c num p toks count = Done s /\ step_post p toks s.
Proof using Hmax.
  intros [Hpos Hsup Htoks] Hlt Hc Hcases. unfold open_bracket. destruct toks as [l|].
  2:{ eexists. split; [done |]. apply step_continue; [lia | lia | done |].
      split; simpl; [lia | lia | done]. }
  destruct Htoks as (Hn & Hl & Hnm & -> & Hts).
  destruct (decide (toknext p = num)) as [Hfull | Hroom].
  { rewrite alloc_full by done. eexists. split; [done |]. unfold step_post, jsmn_error.
    split; [tauto | reflexivity]. }
  destruct (alloc_fresh p l num) as (t & Ht & ->); [lia.. |]. cbn [mbind outcome_bind]. simpl.
  set (n := Z.to_nat (toknext p)) in *.
  set (ty := if c =? LBRACE then JSMN_OBJECT else JSMN_ARRAY).
  set (l1 := <[n := _]> l).
  assert (n < length l)%nat by (unfold n; lia).
  assert (exists l2, (if toksuper p =? -1 then Done l1
            else l3 ← store l1 (toksuper p) incr_size; store l3 (toknext p) (set_parent (toksuper p)))
            = Done l2 /\ l2 !! n = Some (mk_tok (type t) (-1) (-1) 0 (toksuper p)) /\
            length l2 = length l /\ toks_ok js (pos p) (take n l2)) as (l2 & -> & H2 & Hl2 & Hts2).
  { destruct (Z.eqb_spec (toksuper p) (-1)) as [-> | Hne].
    - exists l1. unfold l1. rewrite list_lookup_insert_eq, length_insert, take_insert_ge by lia. done.
    - destruct (fetch_in l (toksuper p)) as (u & Hu & _); [lia |].
      assert (l1 !! Z.to_nat (toksuper p) = Some u) as Hu1
        by (unfold l1; rewrite list_lookup_insert_ne by lia; done).
      rewrite (store_ok l1 _ _ u) by (done || lia). cbn [mbind outcome_bind].
      erewrite store_ok; [| lia |].
      2:{ rewrite list_lookup_insert_ne by lia. apply list_lookup_insert_eq. done. }
      eexists. split; [done |]. fold n. unfold l1.
      rewrite list_lookup_insert_eq by (rewrite !length_insert; done).
      rewrite !length_insert. split; [done |]. split; [done |].
      rewrite take_insert_ge by lia. eapply live_update; try done; try lia.
      + rewrite take_insert_ge by lia. done.
      + apply tok_ok_incr_size. eapply (live_tok n l); (done || lia). }
  cbn [mbind outcome_bind]. rewrite (store_ok l2 (toknext p) _ _ (proj1 Hn) H2). cbn [mbind outcome_bind].
  rewrite (u32_id (_ - 1)), (s32_id (_ - 1)), (s32_id (pos p)) by (unfold is_u32, is_s32; lia). simpl.
  eexists. split; [done |]. apply step_continue; simpl; [lia | lia | by rewrite length_insert |].
  apply inv_some; simpl; rewrite ?length_insert; try lia.
  apply (live_snoc p l2); try done; simpl; try lia.
  split; simpl; try lia. unfold tok_text. simpl. fold ty.
  clear -Hc Hcases. unfold ty. destruct Hcases as [-> | ->]; simpl; auto.
Qed.

(** The walk along the parent links goes to smaller and smaller indices. *)
Lemma close_walk_spec fuel l n i ty p :
  toks_ok js (pos p) (take n l) -> (n <= length l)%nat -> 0 <= i < Z.of_nat n ->
  i < Z.of_nat fuel -> 0 <= pos p < len -> -1 <= toksuper p < Z.of_nat n ->
  container ty = true -> js !! Z.to_nat (pos p) = Some (closing ty) ->
  exists o, close_walk fuel l i ty p = Done o /\
    match o with
    | None => True
    | Some (l', p') => length l' = length l /\ pos p' = pos p /\ toknext p' = toknext p /\
                       -1 <= toksuper p' < Z.of_nat n /\ toks_ok js (pos p + 1) (take n l')
    end.
Proof using Hmax.
  intros Hts Hn. revert i. induction fuel as [|fuel IH]; intros i Hi Hfuel Hpos Hsup Hty Hc; [lia |].
  cbn [close_walk]. destruct (fetch_in l i) as (t & Ht & ->); [lia |]. cbn [mbind outcome_bind].
  assert (tok_ok js (pos p) (Z.to_nat i) t) as Hok by (eapply live_tok; (done || lia)).
  destruct (is_open t) eqn:Hopen.
  - destruct (decide (type t <> ty)) as [| Heq]; [by eexists |].
    rewrite (store_ok l i _ t) by (done || lia). cbn [mbind outcome_bind].
    eexists. split; [done |]. simpl. rewrite length_insert. split; [done |]. split; [done |]. split; [done |].
    rewrite (u32_id (pos p + 1)), (s32_id (pos p + 1)) by (unfold is_u32, is_s32; lia).
    split; [destruct Hok; lia |]. eapply live_update; try done; [lia.. |].
    destruct Hok as [Hpar Hst Hend Htext]. split; simpl; [done | lia | lia |].
    assert (type t = ty) as <- by (destruct (decide (type t = ty)); tauto).
    unfold tok_text in *. simpl. destruct (type t); try done.
    all: split; [apply Htext |]; right; split; [lia |]; by rewrite Z.add_simpl_r.
  - destruct (Z.eqb_spec (parent t) (-1)) as [Hroot | Hne].
    + destruct (bool_decide (type t <> ty) || (toksuper p =? -1)); [by eexists |].
      eexists. split; [done |]. simpl. do 4 (split; [done || lia |]).
      by apply (toks_ok_mono js (pos p)); [lia |].
    + destruct Hok. apply IH; (done || lia).
Qed.

Lemma close_bracket_spec c p toks count :
  inv js len num p toks count -> pos p < len -> js !! Z.to_nat (pos p) = Some c ->
  c = RBRACE \/ c = RBRACKET ->
  exists s, close_bracket c p toks count = Done s /\ step_post p toks s.
Proof using Hmax.
  intros [Hpos Hsup Htoks] Hlt Hc Hcases. unfold close_bracket. destruct toks as [l|].
  2:{ eexists. split; [done |]. apply step_continue; [lia | lia | done |].
      split; simpl; [lia | lia | done]. }
  destruct Htoks as (Hn & Hl & Hnm & -> & Hts).
  destruct (Z.ltb_spec (toknext p) 1) as [H1 | H1].
  { eexists. split; [done |]. unfold step_post, jsmn_error. split; [tauto | reflexivity]. }
  destruct (close_walk_spec (S (Z.to_nat (toknext p))) l (Z.to_nat (toknext p)) (toknext p - 1)
              (if c =? RBRACE then JSMN_OBJECT else JSMN_ARRAY) p) as (o & -> & Ho); try lia.
  { done. }
  { by destruct Hcases as [-> | ->]. }
  { by destruct Hcases as [-> | ->]. }
  cbn [mbind outcome_bind]. destruct o as [[l' p']|].
  - destruct Ho as (Hl' & Hp' & Hn' & Hs' & Hts'). eexists. split; [done |].
    apply step_continue; [lia | lia | done |]. apply inv_some; simpl; rewrite ?Hp', ?Hn'; (done || lia).
  - eexists. split; [done |]. unfold step_post, jsmn_error. split; [tauto | reflexivity].
Qed.

(** Moving the superior token only. *)
Lemma move_super_spec p toks count z :
  inv js len num p toks count -> pos p < len -> -1 <= z < Z.max 0 (toknext p) ->
  step_post p toks (Continue (set_toksuper p z) toks count).
Proof using Hmax.
  intros [Hpos Hsup Htoks] Hlt Hz. apply step_continue; simpl; [lia | lia | reflexivity |].
  destruct toks as [l|].
  - destruct Htoks as (Hn & Hl & Hnm & -> & Hts). apply inv_some; simpl; try lia.
    by apply (toks_ok_mono js (pos p)); [lia |].
  - destruct Htoks as [Hn Hs]. split; simpl; [lia | lia |]. lia.
Qed.

Lemma step_skip p toks count :
  inv js len num p toks count -> pos p < len -> step_post p toks (Continue p toks count).
Proof using Hmax.
  intros Hinv Hlt. destruct p. apply (move_super_spec _ _ _ _ Hinv Hlt). apply Hinv.
Qed.

Lemma comma_spec p toks count :
  inv js len num p toks count -> pos p < len ->
  exists s, comma p toks count = Done s /\ step_post p toks s.
Proof using Hmax.
  intros Hinv Hlt. pose proof (step_skip _ _ _ Hinv Hlt) as Hskip.
  unfold comma. destruct toks as [l|]; [|by eexists].
  destruct (Z.eqb_spec (toksuper p) (-1)) as [|Hne]; [by eexists |].
  pose proof Hinv as [Hpos Hsup (Hn & Hl & Hnm & -> & Hts)].
  destruct (fetch_in l (toksuper p)) as (t & Ht & ->); [lia |]. cbn [mbind outcome_bind].
  case_match; [|by eexists]. eexists. split; [done |]. apply move_super_spec; [done | done |].
  assert (tok_ok js (pos p) (Z.to_nat (toksuper p)) t) as [] by (eapply live_tok; (done || lia)).
  lia.
Qed.

Lemma after_read p toks count r p' toks' :
  inv js len num p toks count ->
  jsmn_error r /\ same_array toks toks' \/ r = 0 /\ value_added p toks p' toks' ->
  exists s, after_value r p' toks' count = Done s /\ step_post p toks s.
Proof using Hmax.
  intros Hinv [[Hr Hsame] | [-> Hv]].
  - rewrite after_error by done. by eexists.
  - by apply after_value_spec.
Qed.

Lemma jsmn_step_spec c p toks count :
  inv js len num p toks count -> pos p < len -> js !! Z.to_nat (pos p) = Some c -> c <> 0 ->
  exists s, jsmn_step js len num c p toks count = Done s /\ step_post p toks s.
Proof using Hlen Hmax.
  intros Hinv Hlt Hc Hc0. unfold jsmn_step.
  destruct ((c =? LBRACE) || (c =? LBRACKET)) eqn:Ho; [apply open_bracket_spec; (done || lia) |].
  destruct ((c =? RBRACE) || (c =? RBRACKET)) eqn:Hcl; [apply close_bracket_spec; (done || lia) |].
  destruct (Z.eqb_spec c QUOTE) as [-> | Hq].
  { destruct (read_string_spec p toks count) as (r & p' & toks' & -> & Hr); [done.. |].
    cbn [mbind outcome_bind]. by apply after_read. }
  destruct (is_blank c) eqn:Hb; [eexists; split; [done | by apply step_skip] |].
  destruct (Z.eqb_spec c COLON) as [-> | Hcol].
  { eexists. split; [done |]. apply move_super_spec; [done | done |].
    destruct Hinv as [Hpos Hsup Htoks]. destruct toks as [l|].
    - destruct Htoks as (Hn & Hl & Hnm & _ & _).
      destruct (decide (toknext p = 0)) as [-> | Hnz]; [done |].
      rewrite u32_id, s32_id by (unfold is_u32, is_s32; lia). lia.
    - destruct Htoks as [-> _]. done. }
  destruct (Z.eqb_spec c COMMA) as [-> | Hcom]; [by apply comma_spec |].
  destruct (read_primitive_spec p toks count c) as (r & p' & toks' & -> & Hr); [done.. | |].
  { unfold ends_primitive. rewrite Hb. lia. }
  cbn [mbind outcome_bind]. by apply after_read.
Qed.
End steps.

(** ** The whole parse *)

Lemma any_open_spec n l : (n <= length l)%nat -> any_open n l = Done (existsb is_open (take n l)).
Proof.
  induction n as [|n IH]; intros Hn; [done |]. cbn [any_open].
  destruct (fetch_in l (Z.of_nat n)) as (t & Ht & ->); [lia |]. cbn [mbind outcome_bind].
  rewrite Nat2Z.id in Ht. rewrite (take_S_r _ _ t) by done. rewrite existsb_app. simpl.
  rewrite orb_false_r, IH by lia. destruct (is_open t); [by rewrite orb_true_r | by rewrite orb_false_r].
Qed.

(** What a successful parse with an array has found: the tokens of the text,
    none of them open. *)
Definition parsed (js : bytes) (len : Z) (ts : list jsmntok) : Prop :=
  toks_ok js len ts /\ Forall (fun t => is_open t = false) ts.

Definition parse_post (js : bytes) (len num count : Z) (toks : tokens) (r : Z) (toks' : tokens) : Prop :=
  same_array toks toks' /\
  (jsmn_error r \/
   match toks' with
   | None => count <= r
   | Some l => 0 <= r <= num /\ parsed js len (take (Z.to_nat r) l)
   end).

Lemma finish_spec js len num p toks count :
  inv js len num p toks count ->
  exists r p' toks', finish p toks count = Done (r, p', toks') /\
    parse_post js len num count toks r toks'.
Proof.
  intros [Hpos Hsup Htoks]. unfold finish, parse_post. destruct toks as [l|].
  2:{ do 3 eexists. split; [done |]. split; [done |]. right. lia. }
  destruct Htoks as (Hn & Hl & Hnm & -> & Hts). rewrite any_open_spec by lia. cbn [mbind outcome_bind].
  destruct (existsb _ _) eqn:Hopen; do 3 eexists; (split; [done |]); (split; [reflexivity |]).
  - left. unfold jsmn_error. tauto.
  - right. split; [lia |]. split; [by apply (toks_ok_mono js (pos p)); [lia |] |].
    apply list.Forall_forall. intros t Ht. destruct (is_open t) eqn:E; [|done].
    rewrite <- Hopen. symmetry. apply existsb_exists. exists t. split; [by apply list_elem_of_In | done].
Qed.

Definition counts_up (count : Z) (s : step_result) : Prop :=
  match s with Return _ _ _ => True | Continue _ _ count' => count <= count' <= count + 1 end.

Lemma after_value_count r p toks count s : after_value r p toks count = Done s -> counts_up count s.
Proof.
  unfold after_value. destruct (r <? 0); [by intros [= <-] |].
  destruct toks as [l|]; [|intros [= <-]; simpl; lia].
  destruct (toksuper p =? -1); [intros [= <-]; simpl; lia |].
  destruct (store _ _ _); cbn [mbind outcome_bind]; [intros [= <-]; simpl; lia | done..].
Qed.

Lemma step_count js len num c p count s :
  jsmn_step js len num c p None count = Done s -> counts_up count s.
Proof.
  unfold jsmn_step, open_bracket, close_bracket, comma.
  destruct (_ || _); [intros [= <-]; simpl; lia |].
  destruct (_ || _); [intros [= <-]; simpl; lia |].
  destruct (c =? QUOTE).
  { destruct (jsmn_parse_string _ _ _ _ _) as [[[r q] toks] | |]; cbn [mbind outcome_bind]; try done.
    apply after_value_count. }
  do 3 (destruct (_ : bool); [intros [= <-]; simpl; lia |]).
  destruct (jsmn_parse_primitive _ _ _ _ _) as [[[r q] toks] | |]; cbn [mbind outcome_bind]; try done.
  apply after_value_count.
Qed.

Lemma parse_loop_spec fuel js len num p toks count :
  len <= Z.of_nat (length js) -> len < 2 ^ 31 -> inv js len num p toks count ->
  len - pos p < Z.of_nat fuel ->
  exists r p' toks', parse_loop fuel js len num p toks count = Done (r, p', toks') /\
    parse_post js len num count toks r toks'.
Proof.
  intros Hlen Hmax. revert p toks count.
  induction fuel as [|fuel IH]; intros p toks count Hinv Hfuel; [destruct Hinv; lia |].
  cbn [parse_loop]. destruct (Z.ltb_spec (pos p) len) as [Hlt | Hge]; cbn [negb]; [|by eapply finish_spec].
  destruct (fetch_in js (pos p)) as (c & Hc & ->); [destruct Hinv; lia |]. cbn [mbind outcome_bind].
  destruct (Z.eqb_spec c 0); [by eapply finish_spec |].
  destruct (jsmn_step_spec js len num Hlen Hmax c p toks count) as (s & Hs & Hpost); [done.. |].
  rewrite Hs. cbn [mbind outcome_bind]. destruct s as [r p' toks' | p' toks' count'].
  - destruct Hpost as [Hr Hsame]. do 3 eexists. split; [done |]. split; [done | by left].
  - destruct Hpost as (Hp' & Hsame & Hinv').
    destruct (IH _ _ _ Hinv') as (r & q & toks'' & Hrun & Hsame' & Hr).
    { simpl. destruct Hinv. rewrite u32_id by (unfold is_u32; lia). lia. }
    do 3 eexists. split; [done |]. split; [by etrans |]. destruct Hr as [Hr | Hr]; [by left | right].
    destruct toks'' as [l''|]; [done |]. destruct toks' as [|], toks as [|]; try done.
    pose proof (step_count _ _ _ _ _ _ _ Hs) as Hk. simpl in Hk. lia.
Qed.

Lemma inv_init js len num toks :
  0 <= len -> match toks with None => True | Some l => 0 <= num <= Z.of_nat (length l) /\ num < 2 ^ 31 end ->
  inv js len num jsmn_init toks 0.
Proof.
  intros Hlen Htoks. destruct toks as [l|].
  - apply inv_some; simpl; try lia. apply toks_ok_nil.
  - split; simpl; [lia | lia | done].
Qed.

Lemma jsmn_parse_total js len toks num :
  0 <= len <= Z.of_nat (length js) -> len < 2 ^ 31 ->
  match toks with None => True | Some l => 0 <= num <= Z.of_nat (length l) /\ num < 2 ^ 31 end ->
  exists r p' toks', jsmn_parse jsmn_init js len toks num = Done (r, p', toks') /\
    parse_post js len num 0 toks r toks'.
Proof.
  intros Hlen Hmax Htoks. unfold jsmn_parse. apply parse_loop_spec; [lia | done | | simpl; lia].
  apply inv_init; [lia | done].
Qed.

(** Each token counted takes a character of the text. *)
Lemma count_le_pos js len num fuel p count r q toks :
  len <= Z.of_nat (length js) -> len < 2 ^ 31 -> inv js len num p None count -> count <= pos p ->
  len - pos p < Z.of_nat fuel ->
  parse_loop fuel js len num p None count = Done (r, q, toks) -> r <= len.
Proof.
  intros Hlen Hmax. revert p count.
  induction fuel as [|fuel IH]; intros p count Hinv Hk Hfuel; [done |]. cbn [parse_loop].
  pose proof Hinv as [Hpos _ _].
  destruct (Z.ltb_spec (pos p) len) as [Hlt | Hge]; cbn [negb]; [|intros [= <- _ _]; lia].
  destruct (fetch_in js (pos p)) as (c & Hc & ->); [lia |]. cbn [mbind outcome_bind].
  destruct (Z.eqb_spec c 0); [intros [= <- _ _]; lia |].
  destruct (jsmn_step_spec js len num Hlen Hmax c p None count) as (s & Hs & Hpost); [done.. |].
  rewrite Hs. cbn [mbind outcome_bind]. destruct s as [r0 p' toks' | p' toks' count'].
  - intros [= <- _ _]. destruct Hpost as [He _].
    unfold jsmn_error, JSMN_ERROR_INVAL, JSMN_ERROR_PART, JSMN_ERROR_NOMEM in He. lia.
  - destruct Hpost as (Hp' & Hsame & Hinv'). destruct toks'; [done |].
    apply step_count in Hs. simpl in Hs. apply IH; try done; simpl; rewrite ?u32_id by (unfold is_u32; lia); lia.
Qed.

Lemma count_bound js len num r q toks :
  jsmn_parse jsmn_init js len None num = Done (r, q, toks) ->
  0 <= len <= Z.of_nat (length js) -> len < 2 ^ 31 -> r < 2 ^ 31.
Proof.
  intros Hr Hlen Hmax. assert (r <= len); [|lia]. unfold jsmn_parse in Hr.
  eapply (count_le_pos js len num); [lia | done | | | | exact Hr].
  - apply inv_init; [lia | done].
  - done.
  - simpl. lia.
Qed.

(** ** The counting pass *)

(** Whether a string or primitive is complete does not depend on the array. *)
Lemma parse_string_sim js len num p p' l r q toks r' q' toks' :
  pos p = pos p' -> 0 <= toknext p' <= num -> num <= Z.of_nat (length l) -> num < 2 ^ 31 ->
  (r = 0 -> toknext p' < num) ->
  jsmn_parse_string p js len None num = Done (r, q, toks) ->
  jsmn_parse_string p' js len (Some l) num = Done (r', q', toks') ->
  r = r' /\ pos q = pos q' /\ toks = None.
Proof.
  intros Hpos Hn Hl Hmx Hroom. unfold jsmn_parse_string. rewrite Hpos.
  destruct (scan_string _ _ _ _) as [[e| |] | |]; cbn [mbind outcome_bind]; try done.
  2,3: by intros [= <- <- <-] [= <- <- <-].
  intros [= <- <- <-]. rewrite add_token_spec by (simpl; lia). simpl.
  destruct (Z.ltb_spec (toknext p') num); [|lia]. cbn [mbind outcome_bind]. by intros [= <- <- <-].
Qed.

Lemma parse_primitive_sim js len num p p' l r q toks r' q' toks' :
  pos p = pos p' -> 0 <= toknext p' <= num -> num <= Z.of_nat (length l) -> num < 2 ^ 31 ->
  (r = 0 -> toknext p' < num) ->
  jsmn_parse_primitive p js len None num = Done (r, q, toks) ->
  jsmn_parse_primitive p' js len (Some l) num = Done (r', q', toks') ->
  r = r' /\ pos q = pos q' /\ toks = None.
Proof.
  intros Hpos Hn Hl Hmx Hroom. unfold jsmn_parse_primitive. rewrite Hpos.
  destruct (scan_primitive _ _ _ _) as [[e|] | |]; cbn [mbind outcome_bind]; try done.
  2: by intros [= <- <- <-] [= <- <- <-].
  intros [= <- <- <-]. rewrite add_token_spec by (simpl; lia). simpl.
  destruct (Z.ltb_spec (toknext p') num); [|lia]. cbn [mbind outcome_bind]. simpl. by intros [= <- <- <-].
Qed.

(** The counting pass and the pass with an array advance together, until the
    latter rejects a bracket. *)
Definition sim_post (s s' : step_result) : Prop :=
  match s, s' with
  | Return r _ _, Return r' _ _ => r = r'
  | Return _ _ _, Continue _ _ _ => False
  | Continue _ _ _, Return r' _ _ => r' = JSMN_ERROR_INVAL
  | Continue q _ k, Continue q' _ k' => pos q = pos q' /\ k = k'
  end.

Lemma after_value_sim r q q' l' count s s' :
  jsmn_error r \/ r = 0 -> pos q = pos q' ->
  after_value r q None count = Done s -> after_value r q' l' count = Done s' -> sim_post s s'.
Proof.
  intros [Hr | ->] Hq.
  - rewrite !after_error by done. by intros [= <-] [= <-].
  - unfold after_value. simpl. intros [= <-]. destruct l' as [l'|]; [|by intros [= <-]].
    destruct (toksuper q' =? -1); [by intros [= <-] |].
    destruct (store _ _ _); cbn [mbind outcome_bind]; [by intros [= <-] | done..].
Qed.

(** [close_walk] moves neither the position nor the next token. *)
Lemma close_walk_pos fuel l i ty p l' p' :
  close_walk fuel l i ty p = Done (Some (l', p')) -> pos p' = pos p.
Proof.
  revert i. induction fuel as [|fuel IH]; intros i; cbn [close_walk]; [done |].
  destruct (fetch l i) as [t| |]; cbn [mbind outcome_bind]; try done.
  destruct (is_open t).
  - destruct (decide _); [done |]. destruct (store _ _ _); cbn [mbind outcome_bind]; try done.
    by intros [= _ <-].
  - destruct (parent t =? -1); [|apply IH]. destruct (_ || _); [done |]. by intros [= _ <-].
Qed.

Section counting.
Context (js : bytes) (len num : Z).
Hypothesis Hlen : len <= Z.of_nat (length js).
Hypothesis Hmax : len < 2 ^ 31.

Lemma open_bracket_sim c p p' l count s s' :
  inv js len num p' (Some l) count -> pos p = pos p' -> count + 1 <= num ->
  open_bracket c num p None count = Done s -> open_bracket c num p' (Some l) count = Done s' ->
  sim_post s s'.
Proof using.
  intros [Hpos Hsup (Hn & Hl & Hnm & -> & Hts)] Hp Hroom. unfold open_bracket. intros [= <-].
  destruct (alloc_fresh p' l num) as (t & Ht & ->); [lia.. |]. cbn [mbind outcome_bind].
  destruct (if toksuper _ =? -1 then _ else _) as [l2| |]; cbn [mbind outcome_bind]; try done.
  destruct (store l2 _ _); cbn [mbind outcome_bind]; try done. by intros [= <-].
Qed.

Lemma close_bracket_sim c p p' l count s s' :
  pos p = pos p' ->
  close_bracket c p None count = Done s -> close_bracket c p' (Some l) count = Done s' ->
  sim_post s s'.
Proof using.
  intros Hp. unfold close_bracket. intros [= <-].
  destruct (toknext p' <? 1); [by intros [= <-] |].
  destruct (close_walk _ _ _ _ _) as [[[l' q]|] | |] eqn:Hw; cbn [mbind outcome_bind]; try done.
  - intros [= <-]. apply close_walk_pos in Hw. simpl. split; [congruence | done].
  - by intros [= <-].
Qed.

Lemma comma_sim p p' l count s s' :
  pos p = pos p' -> comma p None count = Done s -> comma p' (Some l) count = Done s' -> sim_post s s'.
Proof using.
  intros Hp. unfold comma. intros [= <-]. destruct (toksuper p' =? -1); [by intros [= <-] |].
  destruct (fetch _ _); cbn [mbind outcome_bind]; try done. destruct (_ && _); by intros [= <-].
Qed.

(** Values: both passes read the same string or primitive. *)
Lemma value_sim (read : jsmn_parser -> tokens -> outcome (Z * jsmn_parser * tokens)) p p' l count s s' :
  inv js len num p' (Some l) count ->
  (exists r q toks, read p None = Done (r, q, toks) /\ (jsmn_error r \/ r = 0)) ->
  (forall r q toks r' q' toks', (r = 0 -> toknext p' < num) ->
     read p None = Done (r, q, toks) -> read p' (Some l) = Done (r', q', toks') ->
     r = r' /\ pos q = pos q' /\ toks = None) ->
  ('(r, q, toks) ← read p None; after_value r q toks count) = Done s ->
  ('(r, q, toks) ← read p' (Some l); after_value r q toks count) = Done s' ->
  match s with Return _ _ _ => True | Continue _ _ k => k <= num end ->
  sim_post s s'.
Proof using.
  intros [Hpos Hsup (Hn & Hl & Hnm & -> & Hts)] (r & q & toks & Hr & Hcases) Hsim.
  rewrite Hr. cbn [mbind outcome_bind]. intros Hs Hs' Hk.
  destruct (read p' (Some l)) as [[[r' q'] toks'] | |] eqn:Hr'; cbn [mbind outcome_bind] in Hs'; try done.
  destruct (Hsim r q toks r' q' toks') as (<- & Hq & ->); [| done.. |].
  - intros ->. unfold after_value in Hs. simpl in Hs.
    destruct toks as [lt|]; [|injection Hs as <-; lia].
    destruct (toksuper q =? -1); [injection Hs as <-; lia |].
    destruct (store _ _ _); cbn [mbind outcome_bind] in Hs; try done. injection Hs as <-. lia.
  - by eapply after_value_sim.
Qed.

Lemma step_sim c p p' l count s s' :
  inv js len num p None count -> inv js len num p' (Some l) count -> pos p = pos p' ->
  pos p < len -> js !! Z.to_nat (pos p) = Some c -> c <> 0 ->
  jsmn_step js len num c p None count = Done s -> jsmn_step js len num c p' (Some l) count = Done s' ->
  match s with Return _ _ _ => True | Continue _ _ k => k <= num end ->
  sim_post s s'.
Proof using Hlen Hmax.
  intros H1 H2 Hp Hlt Hc Hc0. pose proof H2 as [_ _ (Hn & Hl & Hnm & _ & _)]. unfold jsmn_step.
  destruct ((c =? LBRACE) || (c =? LBRACKET)) eqn:Ho.
  { intros Hs Hs' Hk. eapply open_bracket_sim; try done. injection Hs as <-. done. }
  destruct ((c =? RBRACE) || (c =? RBRACKET)) eqn:Hcl; [intros; by eapply close_bracket_sim |].
  destruct (Z.eqb_spec c QUOTE) as [-> | Hq].
  { apply (value_sim (fun p toks => jsmn_parse_string p js len toks num)); [done | |].
    - destruct (read_string_spec js len num Hlen Hmax p None count) as (r & q & toks & Hr & Hcs); [done.. |].
      do 3 eexists. split; [done |]. destruct Hcs as [[? _] | [? _]]; auto.
    - intros. by eapply parse_string_sim. }
  destruct (is_blank c) eqn:Hb; [by intros [= <-] [= <-] |].
  destruct (Z.eqb_spec c COLON) as [-> | Hcol]; [by intros [= <-] [= <-] |].
  destruct (Z.eqb_spec c COMMA) as [-> | Hcom]; [intros; by eapply comma_sim |].
  apply (value_sim (fun p toks => jsmn_parse_primitive p js len toks num)); [done | |].
  - destruct (read_primitive_spec js len num Hlen Hmax p None count c) as (r & q & toks & Hr & Hcs);
      [done.. | unfold ends_primitive; rewrite Hb; lia |].
    do 3 eexists. split; [done |]. destruct Hcs as [[? _] | [? _]]; auto.
  - intros. by eapply parse_primitive_sim.
Qed.

Lemma parse_loop_sim fuel p p' l count r q toks :
  inv js len num p None count -> inv js len num p' (Some l) count -> pos p = pos p' ->
  len - pos p < Z.of_nat fuel ->
  parse_loop fuel js len num p None count = Done (r, q, toks) -> 0 <= r <= num ->
  exists r' q' toks', parse_loop fuel js len num p' (Some l) count = Done (r', q', toks') /\
    (r' = r \/ r' = JSMN_ERROR_INVAL \/ r' = JSMN_ERROR_PART).
Proof using Hlen Hmax.
  revert p p' l count.
  induction fuel as [|fuel IH]; intros p p' l count H1 H2 Hp Hfuel Hrun Hr; [done |].
  cbn [parse_loop] in *. rewrite <- Hp.
  pose proof H2 as [_ _ (Hn & Hl & Hnm & Hk & _)].
  assert (exists r' q' toks', finish p' (Some l) count = Done (r', q', toks') /\
            (r' = count \/ r' = JSMN_ERROR_PART)) as Hfin.
  { unfold finish. rewrite any_open_spec by lia. cbn [mbind outcome_bind].
    destruct (existsb _ _); do 3 eexists; split; auto. }
  destruct (Z.ltb_spec (pos p) len) as [Hlt | Hge]; cbn [negb] in *.
  2:{ destruct Hfin as (r' & q' & toks' & -> & Hr'). injection Hrun as <- _ _.
      do 3 eexists. split; [done |]. destruct Hr' as [-> | ->]; auto. }
  destruct (fetch_in js (pos p)) as (c & Hc & Hf); [destruct H1; lia |].
  rewrite Hf in *. cbn [mbind outcome_bind] in *. destruct (Z.eqb_spec c 0) as [Hc0 | Hc0].
  { destruct Hfin as (r' & q' & toks' & -> & Hr'). injection Hrun as <- _ _.
      do 3 eexists. split; [done |]. destruct Hr' as [-> | ->]; auto. }
  destruct (jsmn_step_spec js len num Hlen Hmax c p None count) as (s & Hs & Hpost); [done.. |].
  destruct (jsmn_step_spec js len num Hlen Hmax c p' (Some l) count) as (s' & Hs' & Hpost');
    [done | lia | by rewrite <- Hp | done |].
  rewrite Hs in Hrun. rewrite Hs'. cbn [mbind outcome_bind] in *.
  assert (match s with Return _ _ _ => True | Continue _ _ k => k <= num end) as Hroom.
  { destruct s as [|p1 toks1 k]; [done |]. destruct Hpost as (Hp1 & Hsame & Hinv).
    destruct toks1; [done |].
    destruct (parse_loop_spec fuel js len num _ None k Hlen Hmax Hinv) as (r1 & q1 & toks1 & Hrun1 & Hsame1 & Hres).
    { simpl. destruct H1. rewrite u32_id by (unfold is_u32; lia). lia. }
    rewrite Hrun1 in Hrun. injection Hrun as -> -> ->.
    destruct Hres as [He | Hres]; [unfold jsmn_error, JSMN_ERROR_INVAL, JSMN_ERROR_PART, JSMN_ERROR_NOMEM in He; lia |].
    destruct toks; [done |]. lia. }
  pose proof (step_sim c p p' l count s s' H1 H2 Hp Hlt Hc Hc0 Hs Hs' Hroom) as Hsim.
  destruct s as [r0 p1 toks1 | p1 toks1 k], s' as [r0' p1' toks1' | p1' toks1' k']; simpl in Hsim.
  - do 3 eexists. split; [done |]. injection Hrun as -> _ _. auto.
  - done.
  - do 3 eexists. split; [done |]. auto.
  - destruct Hsim as [Hpp <-], Hpost as (Hp1 & Hsame & Hinv), Hpost' as (Hp1' & Hsame' & Hinv').
    destruct toks1; [done |]. destruct toks1' as [l'|]; [|done].
    eapply IH; [exact Hinv | exact Hinv' | simpl; by rewrite Hpp | | exact Hrun | done].
    simpl. destruct H1. rewrite u32_id by (unfold is_u32; lia). lia.
Qed.

Lemma counting_pass l r q toks :
  0 <= len -> jsmn_parse jsmn_init js len None num = Done (r, q, toks) ->
  0 <= r <= num -> num <= Z.of_nat (length l) -> num < 2 ^ 31 ->
  exists r' q' toks', jsmn_parse jsmn_init js len (Some l) num = Done (r', q', toks') /\
    (r' = r \/ r' = JSMN_ERROR_INVAL \/ r' = JSMN_ERROR_PART).
Proof using Hlen Hmax.
  intros H0 Hcount Hr Hl Hn. unfold jsmn_parse in *.
  eapply parse_loop_sim; [| | done | | exact Hcount | done].
  - apply inv_init; [lia | done].
  - apply inv_init; lia.
  - simpl. lia.
Qed.
End counting.

(** The size of the array matters only to a pass that has one. *)
Lemma counting_num js len num num' fuel p count :
  parse_loop fuel js len num p None count = parse_loop fuel js len num' p None count.
Proof.
  revert p count. induction fuel as [|fuel IH]; intros p count; cbn [parse_loop]; [done |].
  destruct (negb _); [done |]. destruct (fetch _ _) as [c| |]; cbn [mbind outcome_bind]; try done.
  destruct (c =? 0); [done |].
  assert (jsmn_step js len num c p None count = jsmn_step js len num' c p None count) as -> by done.
  assert (forall s, jsmn_step js len num' c p None count = Done s ->
            match s with Return _ _ toks => toks = None | Continue _ toks _ => toks = None end) as Hnone.
  { intros s. unfold jsmn_step, jsmn_parse_string, jsmn_parse_primitive, after_value.
    destruct (_ || _); [by intros [= <-] |]. destruct (_ || _); [by intros [= <-] |].
    destruct (c =? QUOTE).
    { destruct (scan_string _ _ _ _) as [[]| |]; cbn [mbind outcome_bind]; try done; by intros [= <-]. }
    do 3 (destruct (_ : bool); [by intros [= <-] |]).
    destruct (scan_primitive _ _ _ _) as [[]| |]; cbn [mbind outcome_bind]; try done; by intros [= <-]. }
  destruct (jsmn_step _ _ _ _ _ _ _) as [s| |]; cbn [mbind outcome_bind]; try done.
  specialize (Hnone s eq_refl). destruct s; [done |]. subst. apply IH.
Qed.

(** ** Theorems *)

(** C20: The tokeniser returns for every text and every array: enough fuel is
    one pass per character, no access goes outside the text or the array, and
    the result is one of the three errors or a count that fits the array. *)
Theorem jsmn_parse_returns (js : bytes) (len num : Z) (toks : tokens) :
  0 <= len <= Z.of_nat (length js) -> len < 2 ^ 31 ->
  match toks with None => True | Some l => 0 <= num <= Z.of_nat (length l) /\ num < 2 ^ 31 end ->
  exists r p' toks', jsmn_parse jsmn_init js len toks num = Done (r, p', toks') /\
    same_array toks toks' /\ (jsmn_error r \/ 0 <= r /\ (toks <> None -> r <= num)).
Proof.
  intros Hlen Hmax Htoks.
  destruct (jsmn_parse_total js len toks num Hlen Hmax Htoks) as (r & p' & toks' & Hrun & Hsame & Hr).
  do 3 eexists. split; [done |]. split; [done |]. destruct Hr as [Hr | Hr]; [by left | right].
  destruct toks, toks'; try done; intuition lia.
Qed.

(** [{"a" : [1, true]}] *)
Definition sample_text : bytes :=
  [123; 34; 97; 34; 32; 58; 32; 91; 49; 44; 32; 116; 114; 117; 101; 93; 125].
Definition blank_tok : jsmntok := mk_tok JSMN_UNDEFINED 0 0 0 0.
Definition sample_tokens : list jsmntok :=
  [mk_tok JSMN_OBJECT 0 17 1 (-1); mk_tok JSMN_STRING 2 3 1 0; mk_tok JSMN_ARRAY 7 16 2 1;
   mk_tok JSMN_PRIMITIVE 8 9 0 2; mk_tok JSMN_PRIMITIVE 11 15 0 2].

Example sample_parse :
  jsmn_parse jsmn_init sample_text 17 (Some (replicate 5 blank_tok)) 5
  = Done (5, mk_parser 17 5 (-1), Some sample_tokens).
Proof. vm_compute. reflexivity. Qed.

Lemma jsmn_parse_returns_witness :
  exists r p' toks', jsmn_parse jsmn_init sample_text 17 (Some (replicate 5 blank_tok)) 5 = Done (r, p', toks') /\
    same_array (Some (replicate 5 blank_tok)) toks' /\
    (jsmn_error r \/ 0 <= r /\ (Some (replicate 5 blank_tok) <> None -> r <= 5)).
Proof. apply jsmn_parse_returns; [vm_compute; split; discriminate | lia | vm_compute; repeat split; discriminate]. Defined.

(** C19: The tokens of a successful parse: each is closed, has a type, lies
    inside the text and spans what its type says (a string exactly a
    well-formed body between two quotes, a primitive printable characters, a
    container its two brackets), has an earlier token as its parent, and they
    are in document order. *)
Theorem jsmn_parse_tokens (js : bytes) (len num r : Z) (l l' : list jsmntok) (p' : jsmn_parser) :
  0 <= len <= Z.of_nat (length js) -> len < 2 ^ 31 -> 0 <= num <= Z.of_nat (length l) -> num < 2 ^ 31 ->
  jsmn_parse jsmn_init js len (Some l) num = Done (r, p', Some l') -> 0 <= r ->
  parsed js len (take (Z.to_nat r) l').
Proof.
  intros Hlen Hmax Hnum Hn Hrun Hr.
  destruct (jsmn_parse_total js len (Some l) num Hlen Hmax) as (r0 & p0 & toks0 & Hrun0 & _ & Hr0); [done |].
  rewrite Hrun in Hrun0. injection Hrun0 as <- <- <-.
  destruct Hr0 as [He | [_ Hp]]; [|done].
  unfold jsmn_error, JSMN_ERROR_INVAL, JSMN_ERROR_PART, JSMN_ERROR_NOMEM in He. lia.
Qed.

Lemma jsmn_parse_tokens_witness : parsed sample_text 17 (take (Z.to_nat 5) sample_tokens).
Proof.
  apply (jsmn_parse_tokens sample_text 17 5 5 (replicate 5 blank_tok) sample_tokens (mk_parser 17 5 (-1)));
    [vm_compute; split; discriminate | lia | vm_compute; split; discriminate | lia | vm_compute; reflexivity | lia].
Defined.

(** The counting pass is exact: with an array of as many tokens as the pass
    without an array has counted, the second pass returns that number or
    rejects the text (a bracket that does not match, or a missing one), and
    never runs out of tokens. *)
Lemma counting_pass_sufficient (js : bytes) (len num num0 r : Z) (l : list jsmntok) q toks :
  0 <= len <= Z.of_nat (length js) -> len < 2 ^ 31 ->
  jsmn_parse jsmn_init js len None num0 = Done (r, q, toks) -> 0 <= r ->
  num = r -> num <= Z.of_nat (length l) -> num < 2 ^ 31 ->
  exists r' q' toks', jsmn_parse jsmn_init js len (Some l) num = Done (r', q', toks') /\
    (r' = r \/ r' = JSMN_ERROR_INVAL \/ r' = JSMN_ERROR_PART).
Proof.
  intros [H0 Hlen] Hmax Hcount Hr Hnum Hl Hn.
  eapply counting_pass; [done | done | done | | lia | done | done].
  unfold jsmn_parse in *. rewrite (counting_num _ _ _ num0). exact Hcount.
Qed.

Lemma counting_pass_sufficient_witness :
  exists r' q' toks', jsmn_parse jsmn_init sample_text 17 (Some (replicate 5 blank_tok)) 5 = Done (r', q', toks') /\
    (r' = 5 \/ r' = JSMN_ERROR_INVAL \/ r' = JSMN_ERROR_PART).
Proof.
  apply (counting_pass_sufficient sample_text 17 5 0 5 (replicate 5 blank_tok) (mk_parser 17 0 (-1)) None);
    [vm_compute; split; discriminate | lia | vm_compute; reflexivity | lia | done | vm_compute; discriminate | lia].
Defined.

(** A closing bracket too many is accepted after a colon outside any container:
    [{}:1}] is two tokens. *)
Example extra_bracket_accepted :
  exists p' toks', jsmn_parse jsmn_init [123; 125; 58; 49; 125] 5 (Some (replicate 2 blank_tok)) 2
                   = Done (2, p', toks').
Proof. do 2 eexists. vm_compute. reflexivity. Qed.
End Jsmn.
