(* ===== verification/JsmnDoc.v ===== *)
(** * Documents as lexemes, and what the tokeniser makes of them

    A reference definition of tokenising: a document is a list of lexemes, and
    a machine reads one lexeme after the other and keeps only the tokens found
    and the superior token.  The refinement theorem says that [jsmn_parse] on
    the text of the document, with an array of any contents, leaves in it
    exactly the tokens of the machine.  [Config.v] uses it to tokenise
    configuration files whose strings are not known. *)

From S2P Require Import Prelude Jsmn.

Module JsmnDoc.
Import Jsmn.

(** ** Documents *)

Inductive lexeme :=
  | LObject | LArray | LEndObject | LEndArray | LColon | LComma
  | LWhite (c : Z) | LString (body : bytes) | LPrimitive (body : bytes).
Abbreviation LBlank := (LWhite 32).

Definition lex_text (x : lexeme) : bytes :=
  match x with
  | LObject => [LBRACE] | LArray => [LBRACKET] | LEndObject => [RBRACE] | LEndArray => [RBRACKET]
  | LColon => [COLON] | LComma => [COMMA] | LWhite c => [c]
  | LString body => QUOTE :: body ++ [QUOTE]
  | LPrimitive body => body
  end.

Definition doc_text (d : list lexeme) : bytes := mjoin (lex_text <$> d).

(** A primitive (a number, [true], [false] or [null]) is printable characters
    other than those that end it, and does not start like another value. *)
Definition starts_primitive (s : bytes) : Prop :=
  match s with c :: _ => c <> LBRACE /\ c <> LBRACKET /\ c <> QUOTE | [] => False end.

Definition lex_ok (x : lexeme) : Prop :=
  match x with
  | LString body => str_body body
  | LPrimitive body => Forall prim_char body /\ starts_primitive body
  | LWhite c => is_blank c = true
  | _ => True
  end.

(** The first character of a lexeme. *)
Definition lex_head (x : lexeme) : Z := match lex_text x with c :: _ => c | [] => 0 end.

(** What follows a primitive ends it. *)
Definition follows (x : lexeme) (d : list lexeme) : Prop :=
  match x, d with LPrimitive _, y :: _ => ends_primitive (lex_head y) = true | _, _ => True end.

Fixpoint doc_ok (d : list lexeme) : Prop :=
  match d with [] => True | x :: d => lex_ok x /\ follows x d /\ doc_ok d end.

Lemma doc_ok_plain d : Forall lex_ok d -> Forall (fun x => forall b, x <> LPrimitive b) d -> doc_ok d.
Proof.
  intros Hok Hp. induction Hok as [|x d Hx Hok IH]; [done |]. apply list.Forall_cons in Hp as [Hxp Hp].
  split; [done |]. split; [| by apply IH]. by destruct x; try (by destruct (Hxp body)).
Qed.

(** ** The machine *)

Record mach := mk_mach { m_toks : list jsmntok; m_super : Z }.

(** One more child for the superior token. *)
Definition bump (s : Z) (ts : list jsmntok) : list jsmntok :=
  if s =? -1 then ts else alter incr_size (Z.to_nat s) ts.

Definition m_open (ty : jsmntype) (a : Z) (m : mach) : mach :=
  mk_mach (bump (m_super m) (m_toks m) ++ [mk_tok ty a (-1) 0 (m_super m)])
          (Z.of_nat (length (m_toks m))).

Definition m_close (ty : jsmntype) (a : Z) (m : mach) : option mach :=
  let n := Z.of_nat (length (m_toks m)) in
  if n <? 1 then None
  else match close_walk (S (length (m_toks m))) (m_toks m) (n - 1) ty (mk_parser a n (m_super m)) with
       | Done (Some (ts, p)) => Some (mk_mach ts (toksuper p))
       | _ => None
       end.

Definition m_comma (m : mach) : mach :=
  if m_super m =? -1 then m
  else match m_toks m !! Z.to_nat (m_super m) with
       | Some t => if container (type t) then m else mk_mach (m_toks m) (parent t)
       | None => m
       end.

(** One lexeme, from position [a] to [b]. *)
Definition lex_step (a b : Z) (x : lexeme) (m : mach) : option mach :=
  match x with
  | LObject => Some (m_open JSMN_OBJECT a m)
  | LArray => Some (m_open JSMN_ARRAY a m)
  | LEndObject => m_close JSMN_OBJECT a m
  | LEndArray => m_close JSMN_ARRAY a m
  | LColon => Some (mk_mach (m_toks m) (Z.of_nat (length (m_toks m)) - 1))
  | LComma => Some (m_comma m)
  | LWhite _ => Some m
  | LString _ =>
      Some (mk_mach (bump (m_super m) (m_toks m) ++ [mk_tok JSMN_STRING (a + 1) (b - 1) 0 (m_super m)])
                    (m_super m))
  | LPrimitive _ =>
      Some (mk_mach (bump (m_super m) (m_toks m) ++ [mk_tok JSMN_PRIMITIVE a b 0 (m_super m)]) (m_super m))
  end.

Fixpoint lex_run (d : list lexeme) (a : Z) (m : mach) : option mach :=
  match d with
  | [] => Some m
  | x :: d =>
      let b := a + Z.of_nat (length (lex_text x)) in
      m ← lex_step a b x m; lex_run d b m
  end.

Definition m_init : mach := mk_mach [] (-1).

(** The number of tokens of a document. *)
Definition lex_tokens (x : lexeme) : Z :=
  match x with LObject | LArray | LString _ | LPrimitive _ => 1 | _ => 0 end.
Fixpoint doc_tokens (d : list lexeme) : Z :=
  match d with [] => 0 | x :: d => lex_tokens x + doc_tokens d end.

(** ** Shapes

    What becomes of a document's tokens without their positions: type, parent
    and whether the token is open.  It does not depend on what the strings say. *)

Record shape := mk_shape { sh_type : jsmntype; sh_parent : Z; sh_open : bool }.
Definition shape_of (t : jsmntok) : shape := mk_shape (type t) (parent t) (is_open t).

Fixpoint sh_walk (fuel : nat) (ss : list shape) (i : Z) (ty : jsmntype) (super : Z)
  : option (list shape * Z) :=
  match fuel with
  | O => None
  | S fuel =>
      if i <? 0 then None else
      s ← ss !! Z.to_nat i;
      if sh_open s then
        if decide (sh_type s <> ty) then None
        else Some (<[Z.to_nat i := mk_shape (sh_type s) (sh_parent s) false]> ss, sh_parent s)
      else if sh_parent s =? -1 then
        if bool_decide (sh_type s <> ty) || (super =? -1) then None else Some (ss, super)
      else sh_walk fuel ss (sh_parent s) ty super
  end.

Definition sh_close (ty : jsmntype) (m : list shape * Z) : option (list shape * Z) :=
  let '(ss, super) := m in
  let n := Z.of_nat (length ss) in
  if n <? 1 then None else sh_walk (S (length ss)) ss (n - 1) ty super.

Definition sh_step (x : lexeme) (m : list shape * Z) : option (list shape * Z) :=
  let '(ss, super) := m in
  match x with
  | LObject => Some (ss ++ [mk_shape JSMN_OBJECT super true], Z.of_nat (length ss))
  | LArray => Some (ss ++ [mk_shape JSMN_ARRAY super true], Z.of_nat (length ss))
  | LEndObject => sh_close JSMN_OBJECT m
  | LEndArray => sh_close JSMN_ARRAY m
  | LColon => Some (ss, Z.of_nat (length ss) - 1)
  | LComma =>
      if super =? -1 then Some m
      else match ss !! Z.to_nat super with
           | Some t => if container (sh_type t) then Some m else Some (ss, sh_parent t)
           | None => Some m
           end
  | LWhite _ => Some m
  | LString _ => Some (ss ++ [mk_shape JSMN_STRING super false], super)
  | LPrimitive _ => Some (ss ++ [mk_shape JSMN_PRIMITIVE super false], super)
  end.

Fixpoint sh_run (d : list lexeme) (m : list shape * Z) : option (list shape * Z) :=
  match d with [] => Some m | x :: d => m ← sh_step x m; sh_run d m end.

(** The text of each token that is a string. *)
Definition lex_texts (x : lexeme) : list (option bytes) :=
  match x with LObject | LArray | LPrimitive _ => [None] | LString body => [Some body] | _ => [] end.
Definition doc_texts (d : list lexeme) : list (option bytes) := mjoin (lex_texts <$> d).


(** ** Arrays of which the first entries are in use *)

Lemma fetch_left {A} (ts g : list A) i a :
  fetch ts i = Done a -> fetch (ts ++ g) i = Done a.
Proof.
  unfold fetch. destruct (i <? 0); [done |]. destruct (ts !! Z.to_nat i) eqn:E; [|done].
  by rewrite (lookup_app_l_Some _ _ _ _ E).
Qed.

Lemma insert_as_alter {A} (l : list A) i f a : l !! i = Some a -> <[i := f a]> l = alter f i l.
Proof.
  intros Ha. apply list_eq. intros j. destruct (decide (i = j)) as [<- | Hne].
  - rewrite list_lookup_insert_eq by (by eapply lookup_lt_Some). by rewrite list_lookup_alter_eq, Ha.
  - by rewrite list_lookup_insert_ne, list_lookup_alter_ne.
Qed.

Lemma store_left {A} (ts g : list A) i f :
  0 <= i < Z.of_nat (length ts) -> store (ts ++ g) i f = Done (alter f (Z.to_nat i) ts ++ g).
Proof.
  intros Hi. destruct (fetch_in ts i Hi) as (a & Ha & _).
  rewrite (store_ok _ _ _ a) by (lia || by apply lookup_app_l_Some).
  rewrite insert_app_l by lia. by rewrite (insert_as_alter _ _ _ _ Ha).
Qed.

Lemma store_middle {A} (ts g : list A) t f i :
  i = Z.of_nat (length ts) -> store (ts ++ t :: g) i f = Done (ts ++ f t :: g).
Proof.
  intros ->. rewrite (store_ok _ _ _ t); [| lia | by rewrite Nat2Z.id, list_lookup_middle].
  rewrite Nat2Z.id. by rewrite (insert_app_r_alt _ _ _ _ (Nat.le_refl _)), Nat.sub_diag.
Qed.

Lemma length_bump s ts : length (bump s ts) = length ts.
Proof. unfold bump. case_match; [done | apply length_alter]. Qed.

Lemma close_walk_app fuel ts g i ty p ts' p' :
  close_walk fuel ts i ty p = Done (Some (ts', p')) ->
  close_walk fuel (ts ++ g) i ty p = Done (Some (ts' ++ g, p')) /\ length ts' = length ts /\
  pos p' = pos p /\ toknext p' = toknext p.
Proof.
  revert i. induction fuel as [|fuel IH]; intros i; cbn [close_walk]; [done |].
  destruct (fetch ts i) as [t| |] eqn:Ht; cbn [mbind outcome_bind]; try done.
  rewrite (fetch_left _ _ _ _ Ht). cbn [mbind outcome_bind]. destruct (is_open t).
  - destruct (decide _); [done |].
    assert (0 <= i < Z.of_nat (length ts)) as Hi.
    { unfold fetch in Ht. destruct (Z.ltb_spec i 0); [done |].
      destruct (ts !! _) eqn:E; [|done]. apply lookup_lt_Some in E. lia. }
    rewrite store_left by done. rewrite <- (app_nil_r ts) at 1. rewrite store_left by done.
    cbn [mbind outcome_bind]. rewrite app_nil_r. intros [= <- <-]. by rewrite length_alter.
  - destruct (parent t =? -1); [|by apply IH].
    destruct (_ || _); [done |]. by intros [= <- <-].
Qed.

(** The scan of a string literal ends at its closing quote. *)
Lemma scan_literal js pre body post :
  js = pre ++ (QUOTE :: body ++ [QUOTE]) ++ post -> str_body body -> Z.of_nat (length js) < 2 ^ 31 ->
  Z.of_nat (length js) = Z.of_nat (length pre) + (2 + Z.of_nat (length body)) + Z.of_nat (length post) /\
  scan_string (S (Z.to_nat (Z.of_nat (length js)))) js (Z.of_nat (length js)) (Z.of_nat (length pre) + 1)
  = Done (Quote_at (Z.of_nat (length pre) + Z.of_nat (length body) + 1)).
Proof.
  intros Hjs Hbody Hmax.
  assert (Z.of_nat (length js) = Z.of_nat (length pre) + (2 + Z.of_nat (length body)) + Z.of_nat (length post)) as Hlen
    by (rewrite Hjs, !length_app; simpl; rewrite length_app; simpl; lia).
  split; [done |]. set (len := Z.of_nat (length js)) in *.
  replace js with ((pre ++ [QUOTE]) ++ body ++ QUOTE :: post)
    by (rewrite Hjs; simpl; by rewrite <- !app_assoc).
  rewrite <- (length_snoc pre QUOTE), (scan_string_complete body Hbody) by length_lia.
  rewrite length_snoc. do 2 f_equal. lia.
Qed.

(** The scan of a primitive ends where its text ends. *)
Lemma scan_primitive_complete body : Forall prim_char body ->
  forall fuel pre post,
  Z.of_nat (length (pre ++ body ++ post)) < 2 ^ 31 -> (length body < fuel)%nat ->
  match post with c :: _ => ends_primitive c = true | [] => True end ->
  scan_primitive fuel (pre ++ body ++ post) (Z.of_nat (length (pre ++ body ++ post))) (Z.of_nat (length pre))
  = Done (Some (Z.of_nat (length pre) + Z.of_nat (length body))).
Proof.
  induction 1 as [|c body [Hc He] _ IH]; intros [|fuel] pre post Hmax Hfuel Hpost; simpl in Hfuel; try lia; cbn [scan_primitive].
  - simpl app in *. simpl length at 3. rewrite Z.add_0_r. destruct post as [|c post].
    + rewrite app_nil_r. by rewrite Z.ltb_irrefl.
    + rewrite fetch_middle. destruct (Z.ltb_spec (Z.of_nat (length pre)) (Z.of_nat (length (pre ++ c :: post)))) as [_|Hx];
        [| rewrite length_app in Hx; simpl in Hx; lia]. cbn [negb mbind outcome_bind]. rewrite Hpost. by destruct (c =? 0).
  - simpl app in *. rewrite fetch_middle. rewrite length_app in Hmax. simpl in Hmax.
    destruct (Z.ltb_spec (Z.of_nat (length pre)) (Z.of_nat (length (pre ++ c :: body ++ post)))) as [_|Hx];
      [| rewrite length_app in Hx; simpl in Hx; lia].
    cbn [negb mbind outcome_bind]. rewrite He. destruct (Z.eqb_spec c 0); [lia |].
    destruct (Z.ltb_spec c 32), (Z.leb_spec 127 c); try lia. cbn [orb].
    rewrite u32_id by (unfold is_u32; lia).
    replace (pre ++ c :: body ++ post) with ((pre ++ [c]) ++ body ++ post) by (by rewrite <- (assoc_L (++))).
    rewrite <- (length_snoc pre c), IH by (done || (rewrite !length_app; simpl; rewrite ?length_app in Hmax; lia) || lia).
    rewrite length_snoc. do 2 f_equal. simpl length. lia.
Qed.

(** ** Refinement *)

(** The parser's state represents the machine's: the tokens found fill the
    array from the left. *)
Record rep (p : jsmn_parser) (l : list jsmntok) (m : mach) (g : list jsmntok) : Prop := {
  rep_next : toknext p = Z.of_nat (length (m_toks m));
  rep_super : toksuper p = m_super m;
  rep_toks : l = m_toks m ++ g }.

Section refine.
Context (js : bytes) (num : Z).
Local Abbreviation len := (Z.of_nat (length js)).
Hypothesis Hmax : len < 2 ^ 31.

Context (p : jsmn_parser) (l : list jsmntok) (m : mach) (g : list jsmntok) (count : Z).
Hypothesis Hinv : inv js len num p (Some l) count.
Hypothesis Hrep : rep p l m g.

Lemma open_refines c ty :
  c = opening ty -> container ty = true -> Z.of_nat (length (m_toks m)) < num -> pos p < len ->
  exists t g', g = t :: g' /\
  exists p' l', open_bracket c num p (Some l) count
                = Done (Continue p' (Some l') (count + 1)) /\
    pos p' = pos p /\ rep p' l' (m_open ty (pos p) m) g'.
Proof using Hmax Hinv Hrep.
  intros -> Hty Hroom Hlt. destruct Hinv as [Hpos Hsup (Hn & Hl & Hnm & -> & _)].
  destruct Hrep as [Hnext Hsuper ->]. rewrite length_app in Hl.
  destruct g as [|t g']; simpl in Hl; [lia |]. exists t, g'. split; [done |].
  unfold open_bracket, jsmn_alloc_token.
  destruct (Z.leb_spec num (toknext p)); [lia |].
  rewrite store_middle by done. cbn [mbind outcome_bind]. simpl.
  rewrite u32_id by (unfold is_u32; lia).
  assert (exists l1, (if toksuper p =? -1 then Done (m_toks m ++ mk_tok (type t) (-1) (-1) 0 (-1) :: g')
      else l2 ← store (m_toks m ++ mk_tok (type t) (-1) (-1) 0 (-1) :: g') (toksuper p) incr_size;
           store l2 (toknext p) (set_parent (toksuper p))) = Done l1 /\
      l1 = bump (m_super m) (m_toks m) ++ mk_tok (type t) (-1) (-1) 0 (m_super m) :: g') as (l1 & -> & ->).
  { rewrite Hsuper. unfold bump. destruct (Z.eqb_spec (m_super m) (-1)) as [-> | Hne].
    - eexists. split; reflexivity.
    - rewrite store_left by lia. cbn [mbind outcome_bind].
      rewrite store_middle by (by rewrite length_alter). eexists. split; reflexivity. }
  cbn [mbind outcome_bind]. rewrite store_middle by (by rewrite length_bump). cbn [mbind outcome_bind].
  rewrite (u32_id (_ - 1)), (s32_id (_ - 1)), (s32_id (pos p)) by (unfold is_u32, is_s32; lia).
  do 2 eexists. split; [done |]. split; [done |].
  split; simpl; [rewrite length_app, length_bump; simpl; lia | lia |].
  rewrite <- app_assoc. simpl. destruct ty; done.
Qed.

Lemma close_refines c ty m' :
  c = closing ty -> container ty = true -> m_close ty (pos p) m = Some m' ->
  exists p' l', close_bracket c p (Some l) count = Done (Continue p' (Some l') count) /\
    pos p' = pos p /\ rep p' l' m' g /\ length (m_toks m') = length (m_toks m).
Proof using Hinv Hrep.
  intros -> Hty. destruct Hrep as [Hnext Hsuper ->]. unfold m_close, close_bracket. rewrite Hnext.
  destruct (_ <? 1); [done |]. rewrite Nat2Z.id.
  replace (mk_parser (pos p) _ (m_super m)) with p by (destruct p; simpl in *; congruence).
  destruct (close_walk _ (m_toks m) _ _ _) as [[[ts p']|] | |] eqn:Hw; try done.
  intros [= <-]. destruct (close_walk_app _ _ g _ _ _ _ _ Hw) as (Hw' & Hlen & Hpos & Hn').
  assert ((if closing ty =? RBRACE then JSMN_OBJECT else JSMN_ARRAY) = ty) as -> by (destruct ty; done).
  rewrite Hw'. cbn [mbind outcome_bind]. do 2 eexists. split; [done |]. split; [done |].
  split; [|done]. split; simpl; congruence.
Qed.

Lemma comma_refines :
  exists p', comma p (Some l) count = Done (Continue p' (Some l) count) /\
    pos p' = pos p /\ rep p' l (m_comma m) g /\ m_toks (m_comma m) = m_toks m.
Proof using Hinv Hrep.
  destruct Hinv as [Hpos Hsup (Hn & Hl & Hnm & -> & _)], Hrep as [Hnext Hsuper Htoks].
  unfold comma, m_comma. rewrite Hsuper. destruct (Z.eqb_spec (m_super m) (-1)) as [He | Hne].
  { by exists p. }
  destruct (fetch_in (m_toks m) (m_super m)) as (t & Ht & Hf); [lia |].
  rewrite Htoks, (fetch_left _ _ _ _ Hf), Ht. cbn [mbind outcome_bind]. rewrite <- Htoks.
  destruct (type t); simpl; eexists; (split; [done |]); (split; [done |]); by repeat split.
Qed.

Lemma string_refines body pre post :
  js = pre ++ (QUOTE :: body ++ [QUOTE]) ++ post -> pos p = Z.of_nat (length pre) -> str_body body ->
  Z.of_nat (length (m_toks m)) < num ->
  exists t g', g = t :: g' /\
  exists p' l', ('(r, q, toks) ← jsmn_parse_string p js len (Some l) num; after_value r q toks count)
                = Done (Continue p' (Some l') (count + 1)) /\
    pos p' = pos p + Z.of_nat (length body) + 1 /\
    rep p' l' (mk_mach (bump (m_super m) (m_toks m)
       ++ [mk_tok JSMN_STRING (pos p + 1) (pos p + Z.of_nat (length body) + 1) 0 (m_super m)]) (m_super m)) g'.
Proof using Hmax Hinv Hrep.
  intros Hjs Hpos Hbody Hroom. destruct Hinv as [Hpos' Hsup (Hn & Hl & Hnm & -> & _)].
  destruct Hrep as [Hnext Hsuper ->]. rewrite length_app in Hl.
  destruct g as [|t g']; simpl in Hl; [lia |]. exists t, g'. split; [done |].
  destruct (scan_literal js pre body post Hjs Hbody Hmax) as [Hlen Hscan].
  unfold jsmn_parse_string. rewrite (u32_id (pos p + 1)) by (unfold is_u32; lia).
  rewrite Hpos, Hscan, <- Hpos.
  cbn [mbind outcome_bind].
  rewrite add_token_spec by (simpl; rewrite ?length_app; simpl; lia). simpl.
  destruct (Z.ltb_spec (toknext p) num); [|lia]. cbn [mbind outcome_bind].
  rewrite !s32_id by (unfold is_s32; lia). unfold after_value. simpl.
  assert (Z.to_nat (toknext p) = length (m_toks m)) as -> by lia.
  rewrite (insert_app_r_alt _ _ _ _ (Nat.le_refl _)), Nat.sub_diag. simpl.
  rewrite Hsuper. unfold bump. destruct (Z.eqb_spec (m_super m) (-1)) as [-> | Hne].
  - do 2 eexists. split; [done |]. split; [simpl; lia |].
    split; simpl; [rewrite length_app; simpl; lia | done | by rewrite <- app_assoc].
  - rewrite store_left by lia. cbn [mbind outcome_bind].
    do 2 eexists. split; [done |]. split; [simpl; lia |].
    split; simpl; [rewrite length_app, length_alter; simpl; lia | done | by rewrite <- app_assoc].
Qed.
Lemma primitive_refines body pre post :
  js = pre ++ body ++ post -> pos p = Z.of_nat (length pre) -> Forall prim_char body -> body <> [] ->
  match post with c :: _ => ends_primitive c = true | [] => True end ->
  Z.of_nat (length (m_toks m)) < num ->
  exists t g', g = t :: g' /\
  exists p' l', ('(r, q, toks) ← jsmn_parse_primitive p js len (Some l) num; after_value r q toks count)
                = Done (Continue p' (Some l') (count + 1)) /\
    pos p' + 1 = pos p + Z.of_nat (length body) /\
    rep p' l' (mk_mach (bump (m_super m) (m_toks m)
       ++ [mk_tok JSMN_PRIMITIVE (pos p) (pos p + Z.of_nat (length body)) 0 (m_super m)]) (m_super m)) g'.
Proof using Hmax Hinv Hrep.
  intros Hjs Hpos Hbody Hne Hpost Hroom. destruct Hinv as [Hpos' Hsup (Hn & Hl & Hnm & -> & _)].
  destruct Hrep as [Hnext Hsuper ->]. rewrite length_app in Hl.
  destruct g as [|t g']; simpl in Hl; [lia |]. exists t, g'. split; [done |].
  assert (len = Z.of_nat (length pre) + Z.of_nat (length body) + Z.of_nat (length post)) as Hlen
    by (rewrite Hjs, !length_app; lia).
  assert (0 < length body)%nat by (by destruct body; [| simpl; lia]).
  assert (scan_primitive (S (Z.to_nat len)) js len (pos p) = Done (Some (pos p + Z.of_nat (length body)))) as Hscan.
  { rewrite Hpos. rewrite Hjs in Hmax, Hlen |- *. apply scan_primitive_complete; try done. lia. }
  unfold jsmn_parse_primitive. rewrite Hscan. cbn [mbind outcome_bind].
  rewrite add_token_spec by (simpl; rewrite ?length_app; simpl; lia). simpl.
  destruct (Z.ltb_spec (toknext p) num); [|lia]. cbn [mbind outcome_bind Z.ltb Z.compare].
  rewrite !s32_id by (unfold is_s32; lia). cbn [mbind outcome_bind].
  rewrite !u32_id by (unfold is_u32; simpl; lia). unfold after_value. simpl.
  assert (Z.to_nat (toknext p) = length (m_toks m)) as -> by lia.
  rewrite (insert_app_r_alt _ _ _ _ (Nat.le_refl _)), Nat.sub_diag. simpl.
  rewrite Hsuper. unfold bump. destruct (Z.eqb_spec (m_super m) (-1)) as [-> | Hne1].
  - do 2 eexists. split; [done |]. split; [simpl; lia |].
    split; simpl; [rewrite length_app; simpl; lia | done | by rewrite <- app_assoc].
  - rewrite store_left by lia. cbn [mbind outcome_bind].
    do 2 eexists. split; [done |]. split; [simpl; lia |].
    split; simpl; [rewrite length_app, length_alter; simpl; lia | done | by rewrite <- app_assoc].
Qed.
End refine.


Lemma doc_text_cons x d : doc_text (x :: d) = lex_text x ++ doc_text d.
Proof. done. Qed.

Lemma doc_text_app d1 d2 : doc_text (d1 ++ d2) = doc_text d1 ++ doc_text d2.
Proof. unfold doc_text. by rewrite fmap_app, join_app. Qed.

(** The text of a lexeme starts with its first character, which is never the
    terminator. *)
Lemma lex_text_head x : lex_ok x -> exists s, lex_text x = lex_head x :: s /\ lex_head x <> 0.
Proof.
  destruct x as [| | | | | |c|body|body]; simpl; try (by eexists).
  - intros Hc. exists []. split; [done |]. unfold lex_head, is_blank in *. simpl. lia.
  - intros [Hp Hs]. destruct body as [|c body]; [done |]. exists body. split; [done |].
    apply list.Forall_cons in Hp as [[? _] _]. unfold lex_head. simpl. lia.
Qed.

Lemma lex_text_pos x : lex_ok x -> (1 <= length (lex_text x))%nat.
Proof. intros Hok. destruct (lex_text_head x Hok) as (s & -> & _). simpl. lia. Qed.

Lemma lex_head_fetch pre x d :
  lex_ok x -> fetch (pre ++ doc_text (x :: d)) (Z.of_nat (length pre)) = Done (lex_head x).
Proof. intros Hok. rewrite doc_text_cons. destruct (lex_text_head x Hok) as (s & -> & _). apply fetch_middle. Qed.

Lemma lex_head_lookup pre x d :
  lex_ok x -> (pre ++ doc_text (x :: d)) !! length pre = Some (lex_head x).
Proof. intros Hok. rewrite doc_text_cons. destruct (lex_text_head x Hok) as (s & -> & _). by apply list_lookup_middle. Qed.

(** What the parser does at white space, and at the start of a primitive. *)
Lemma blank_head js num c p toks count :
  is_blank c = true -> jsmn_step js (Z.of_nat (length js)) num (lex_head (LWhite c)) p toks count = Done (Continue p toks count).
Proof.
  unfold jsmn_step, lex_head. cbn [lex_text]. intros Hc. rewrite Hc. unfold is_blank in Hc.
  unfold LBRACE, LBRACKET, RBRACE, RBRACKET, QUOTE.
  destruct (Z.eqb_spec c 123), (Z.eqb_spec c 91), (Z.eqb_spec c 125), (Z.eqb_spec c 93), (Z.eqb_spec c 34); try lia. done.
Qed.

Lemma primitive_head body js num p toks count :
  lex_ok (LPrimitive body) ->
  jsmn_step js (Z.of_nat (length js)) num (lex_head (LPrimitive body)) p toks count
  = ('(r, q, toks) ← jsmn_parse_primitive p js (Z.of_nat (length js)) toks num; after_value r q toks count).
Proof.
  intros [Hb Hst]. destruct body as [|c body]; [done |]. apply list.Forall_cons in Hb as [[_ He] _].
  destruct Hst as (H1 & H2 & H3). unfold jsmn_step, lex_head. cbn [lex_text].
  unfold ends_primitive in He. rewrite !orb_false_iff in He. destruct He as ((((He1 & He2) & He3) & He4) & He5).
  by rewrite (proj2 (Z.eqb_neq _ _) H1), (proj2 (Z.eqb_neq _ _) H2), (proj2 (Z.eqb_neq _ _) H3), He1, He2, He3, He4, He5.
Qed.

(** What the text after a lexeme starts with. *)
Lemma follows_text body d : follows (LPrimitive body) d -> doc_ok d ->
  match doc_text d with c :: _ => ends_primitive c = true | [] => True end.
Proof.
  destruct d as [|y d]; [done |]. cbn [follows doc_ok]. intros Hy [Hok _]. rewrite doc_text_cons.
  destruct (lex_text_head y Hok) as (s & -> & _). done.
Qed.

Lemma lex_step_length a b x m m' :
  lex_step a b x m = Some m' ->
  Z.of_nat (length (m_toks m')) = Z.of_nat (length (m_toks m)) + lex_tokens x.
Proof.
  assert (forall ty, m_close ty a m = Some m' -> length (m_toks m') = length (m_toks m)) as Hclose.
  { intros ty. unfold m_close. destruct (_ <? 1); [done |].
    destruct (close_walk _ _ _ _ _) as [[[ts p]|] | |] eqn:Hw; try done. intros [= <-].
    by apply (close_walk_app _ _ []) in Hw as (_ & Hl & _). }
  destruct x; simpl; intros H;
    try (injection H as <-; simpl; rewrite ?length_app, ?length_bump; simpl; lia);
    try (apply Hclose in H; lia).
  injection H as <-. unfold m_comma. repeat case_match; simpl; lia.
Qed.

Lemma doc_tokens_nonneg d : 0 <= doc_tokens d.
Proof. induction d as [|[] d IH]; simpl; lia. Qed.

Lemma lex_run_length d a m m' :
  lex_run d a m = Some m' -> Z.of_nat (length (m_toks m')) = Z.of_nat (length (m_toks m)) + doc_tokens d.
Proof.
  revert a m. induction d as [|x d IH]; intros a m; simpl; [intros [= ->]; lia |].
  destruct (lex_step _ _ _ _) as [m1|] eqn:H1; simpl; [|done].
  intros H. apply IH in H. apply lex_step_length in H1. lia.
Qed.

Section run.
Context (js : bytes) (num : Z).
Local Abbreviation len := (Z.of_nat (length js)).
Hypothesis Hmax : len < 2 ^ 31.

(** One lexeme: the parser's pass and the machine's step agree. *)
Lemma step_refines p l m g count pre x d m' :
  inv js len num p (Some l) count -> rep p l m g ->
  js = pre ++ lex_text x ++ doc_text d -> pos p = Z.of_nat (length pre) ->
  lex_ok x -> follows x d -> doc_ok d ->
  Z.of_nat (length (m_toks m)) + lex_tokens x <= num ->
  lex_step (pos p) (pos p + Z.of_nat (length (lex_text x))) x m = Some m' ->
  exists p' l' g', jsmn_step js len num (lex_head x) p (Some l) count
                   = Done (Continue p' (Some l') (count + lex_tokens x)) /\
    pos p' + 1 = pos p + Z.of_nat (length (lex_text x)) /\ rep p' l' m' g' /\
    g' = drop (Z.to_nat (lex_tokens x)) g.
Proof using Hmax.
  intros Hinv Hrep Hjs Hpos Hok Hfol Hdoc Hroom Hstep.
  assert (pos p < len) as Hlt.
  { rewrite Hpos, Hjs, !length_app. pose proof (lex_text_pos x Hok). lia. }
  pose proof Hinv as [_ _ (Hn & _ & _ & _ & _)]. pose proof Hrep as [Hnext _ _].
  destruct x as [| | | | | |c|body|body]; cbn [lex_tokens lex_text length lex_step] in Hroom, Hstep |- *; rewrite ?Z.add_0_r.
  - destruct (open_refines js num Hmax p l m g count Hinv Hrep LBRACE JSMN_OBJECT)
      as (t & g' & -> & p' & l' & H & Hp & Hr); [done | done | lia | done |].
    injection Hstep as <-. exists p', l', g'. rewrite Hp. done.
  - destruct (open_refines js num Hmax p l m g count Hinv Hrep LBRACKET JSMN_ARRAY)
      as (t & g' & -> & p' & l' & H & Hp & Hr); [done | done | lia | done |].
    injection Hstep as <-. exists p', l', g'. rewrite Hp. done.
  - destruct (close_refines js num p l m g count Hinv Hrep RBRACE JSMN_OBJECT m')
      as (p' & l' & H & Hp & Hr & _); [done.. |]. exists p', l', g. rewrite Hp. done.
  - destruct (close_refines js num p l m g count Hinv Hrep RBRACKET JSMN_ARRAY m')
      as (p' & l' & H & Hp & Hr & _); [done.. |]. exists p', l', g. rewrite Hp. done.
  - injection Hstep as <-. do 3 eexists. split; [done |]. split; [done |]. split; [|done].
    destruct Hrep as [Hn' Hs Hl]. split; simpl; [done | | done].
    destruct (decide (toknext p = 0)) as [H0 | H0].
    + rewrite H0 in *. rewrite <- Hn'. done.
    + rewrite u32_id, s32_id by (unfold is_u32, is_s32; destruct Hinv as [_ _ (? & ? & ? & _)]; lia). lia.
  - injection Hstep as <-. destruct (comma_refines js num p l m g count Hinv Hrep)
      as (p' & H & Hp & Hr & _). exists p', l, g. rewrite Hp. done.
  - injection Hstep as <-. exists p, l, g. by rewrite blank_head.
  - destruct (string_refines js num Hmax p l m g count Hinv Hrep body pre (doc_text d))
      as (t & g' & -> & p' & l' & H & Hp & Hr); [done | done | done | lia |].
    injection Hstep as <-. exists p', l', g'. split; [exact H |]. rewrite length_app in *. simpl in *.
    split; [lia |]. split; [|done].
    replace (pos p + _ - 1) with (pos p + Z.of_nat (length body) + 1) by lia. done.
  - destruct Hok as [Hb Hst]. assert (body <> []) as Hne by (by destruct body).
    destruct (primitive_refines js num Hmax p l m g count Hinv Hrep body pre (doc_text d))
      as (t & g' & -> & p' & l' & H & Hp & Hr); [done | done | done | done | by apply (follows_text body) | lia |].
    injection Hstep as <-. exists p', l', g'. split; [| by split_and!]. 
    rewrite <- H. by apply primitive_head.
Qed.

Lemma loop_refines d : forall fuel p l m g count pre m',
  inv js len num p (Some l) count -> rep p l m g -> doc_ok d ->
  js = pre ++ doc_text d -> pos p = Z.of_nat (length pre) ->
  (length d < fuel)%nat -> lex_run d (pos p) m = Some m' -> Z.of_nat (length (m_toks m')) <= num ->
  exists p' , parse_loop fuel js len num p (Some l) count
    = finish p' (Some (m_toks m' ++ drop (Z.to_nat (doc_tokens d)) g)) (Z.of_nat (length (m_toks m'))) /\
    toknext p' = Z.of_nat (length (m_toks m')).
Proof using Hmax.
  induction d as [|x d IH]; intros [|fuel] p l m g count pre m' Hinv Hrep Hok Hjs Hpos Hfuel Hrun Hroom;
    simpl in Hfuel; try lia; cbn [parse_loop].
  - injection Hrun as <-. assert (pos p = len) as Hend by (rewrite Hpos, Hjs, app_nil_r; done).
    destruct (Z.ltb_spec (pos p) len); [lia |]. cbn [negb]. exists p.
    destruct Hrep as [Hn Hs ->]. simpl. rewrite drop_0. destruct Hinv as [_ _ (_ & _ & _ & -> & _)].
    by rewrite Hn.
  - destruct Hok as (Hx & Hfol & Hok). cbn [lex_run] in Hrun. pose proof (lex_text_pos x Hx) as Hxl.
    destruct (lex_step _ _ x m) as [m1|] eqn:Hstep; cbn [mbind option_bind] in Hrun; [|done].
    pose proof (lex_step_length _ _ _ _ _ Hstep) as Hl1.
    pose proof (lex_run_length _ _ _ _ Hrun) as Hl2. pose proof (doc_tokens_nonneg d).
    assert (Z.of_nat (length pre) < len) as Hlt.
    { rewrite Hjs, doc_text_cons, !length_app. lia. }
    destruct (Z.ltb_spec (pos p) len); [|lia]. cbn [negb].
    assert (fetch js (pos p) = Done (lex_head x)) as -> by (rewrite Hpos, Hjs; by apply lex_head_fetch).
    cbn [mbind outcome_bind]. destruct (lex_text_head x Hx) as (_ & _ & Hx0).
    destruct (Z.eqb_spec (lex_head x) 0); [done |].
    destruct (step_refines p l m g count pre x d m1) as (p' & l' & g' & Hs & Hp' & Hrep' & ->); try done; [lia |].
    destruct (jsmn_step_spec js len num (Z.le_refl _) Hmax (lex_head x) p (Some l) count)
      as (s & Hs2 & Hpost); [done | done | | done |].
    { rewrite Hpos, Nat2Z.id, Hjs. by apply lex_head_lookup. }
    rewrite Hs in Hs2. injection Hs2 as <-. destruct Hpost as (Hp2 & _ & Hinv').
    rewrite Hs. cbn [mbind outcome_bind].
    rewrite (u32_id (pos p' + 1)) in * by (unfold is_u32; destruct Hinv; lia).
    destruct (IH fuel (set_pos p' (pos p' + 1)) l' m1 (drop (Z.to_nat (lex_tokens x)) g)
                (count + lex_tokens x) (pre ++ lex_text x) m') as (q & Hq & Hnq); try done.
    + by destruct Hrep'; split.
    + by rewrite Hjs, doc_text_cons, app_assoc.
    + simpl. rewrite Hp', Hpos, length_app. lia.
    + lia.
    + simpl. rewrite Hp'. done.
    + exists q. split; [|done]. rewrite Hq, drop_drop. simpl doc_tokens.
      assert (0 <= lex_tokens x) by (destruct x; simpl; lia).
      do 3 f_equal. f_equal. lia.
Qed.
End run.

(** ** Shapes and texts of a run *)

Definition m_shape (m : mach) : list shape * Z := (shape_of <$> m_toks m, m_super m).

Lemma shape_bump s ts : shape_of <$> bump s ts = shape_of <$> ts.
Proof.
  unfold bump. case_match; [done |]. apply list_eq. intros i. rewrite !list_lookup_fmap.
  destruct (decide (i = Z.to_nat s)) as [-> | Hne].
  - rewrite list_lookup_alter_eq. by destruct (ts !! _).
  - by rewrite list_lookup_alter_ne.
Qed.

Lemma is_open_set_end e t : e <> -1 -> is_open (set_end e t) = false.
Proof. intros He. unfold is_open. simpl. destruct (Z.eqb_spec e (-1)); [lia |]. apply andb_false_r. Qed.

Lemma shape_walk fuel ts i ty p ss' s' :
  0 <= pos p -> pos p + 1 < 2 ^ 31 ->
  sh_walk fuel (shape_of <$> ts) i ty (toksuper p) = Some (ss', s') ->
  exists ts' p', close_walk fuel ts i ty p = Done (Some (ts', p')) /\
    shape_of <$> ts' = ss' /\ toksuper p' = s'.
Proof.
  intros H0 Hmx. revert i. induction fuel as [|fuel IH]; intros i; cbn [sh_walk close_walk]; [done |].
  unfold fetch. destruct (Z.ltb_spec i 0) as [Hneg | Hi]; [done |]. rewrite list_lookup_fmap.
  destruct (ts !! Z.to_nat i) as [t|] eqn:Ht; simpl; [|done].
  destruct (is_open t) eqn:Ho.
  - destruct (decide _); [done |]. intros [= <- <-].
    rewrite (store_ok _ _ _ _ Hi Ht). cbn [mbind outcome_bind].
    rewrite u32_id, s32_id by (unfold is_u32, is_s32; lia).
    do 2 eexists. split; [done |]. split; [|done].
    rewrite list_fmap_insert. unfold shape_of at 1. rewrite is_open_set_end by lia. done.
  - destruct (parent t =? -1); [|apply IH]. destruct (_ || _); [done |].
    intros [= <- <-]. by do 2 eexists.
Qed.

Lemma shape_step a b x m ms' :
  0 <= a -> a + 1 < 2 ^ 31 -> b = a + Z.of_nat (length (lex_text x)) ->
  sh_step x (m_shape m) = Some ms' ->
  exists m', lex_step a b x m = Some m' /\ m_shape m' = ms'.
Proof.
  intros Ha Hmx ->.
  assert (forall ty, sh_close ty (m_shape m) = Some ms' ->
            exists m', m_close ty a m = Some m' /\ m_shape m' = ms') as Hclose.
  { intros ty. unfold sh_close, m_close, m_shape. rewrite length_fmap. destruct (_ <? 1); [done |].
    destruct ms' as [ss' s']. intros Hw.
    destruct (shape_walk _ _ _ _ (mk_parser a (Z.of_nat (length (m_toks m))) (m_super m)) _ _ Ha Hmx Hw)
      as (ts' & p' & -> & <- & <-). by eexists. }
  assert ((a =? -1) = false) as Hopen by lia.
  destruct x as [| | | | | |c|body|body]; unfold m_shape in *; cbn [sh_step lex_step];
    try (intros H; destruct (Hclose _ H) as (m' & Hm & <-); by exists m').
  - intros [= <-]. eexists. split; [done |]. cbn [m_open m_toks m_super].
    rewrite fmap_app, shape_bump, length_fmap. unfold shape_of at 2, is_open. simpl. by rewrite Hopen.
  - intros [= <-]. eexists. split; [done |]. cbn [m_open m_toks m_super].
    rewrite fmap_app, shape_bump, length_fmap. unfold shape_of at 2, is_open. simpl. by rewrite Hopen.
  - intros [= <-]. eexists. split; [done |]. simpl. by rewrite length_fmap.
  - intros H. eexists. split; [done |]. revert H. unfold m_comma. rewrite list_lookup_fmap.
    destruct (m_super m =? -1); [by intros [= <-] |].
    destruct (m_toks m !! _) as [t|]; simpl; [|by intros [= <-]].
    by destruct (container (type t)); intros [= <-].
  - intros [= <-]. by eexists.
  - intros [= <-]. eexists. split; [done |]. cbn [m_toks m_super].
    rewrite fmap_app, shape_bump. do 2 f_equal. cbn [list_fmap fmap]. unfold shape_of, is_open. simpl.
    rewrite length_app. simpl.
    destruct (Z.eqb_spec (a + Z.of_nat (S (length body + 1)) - 1) (-1)); [lia |]. by rewrite andb_false_r.
  - intros [= <-]. eexists. split; [done |]. cbn [m_toks m_super].
    rewrite fmap_app, shape_bump. do 2 f_equal. cbn [list_fmap fmap]. unfold shape_of, is_open. simpl.
    destruct (Z.eqb_spec (a + Z.of_nat (length body)) (-1)); [lia |]. by rewrite andb_false_r.
Qed.

Lemma shape_run d a m ms' :
  doc_ok d -> 0 <= a -> a + Z.of_nat (length (doc_text d)) < 2 ^ 31 ->
  sh_run d (m_shape m) = Some ms' ->
  exists m', lex_run d a m = Some m' /\ m_shape m' = ms'.
Proof.
  revert a m. induction d as [|x d IH]; intros a m Hok Ha Hmx; cbn [sh_run lex_run].
  - intros [= <-]. by eexists.
  - rewrite doc_text_cons, length_app in Hmx.
    destruct Hok as (Hx & _ & Hok). pose proof (lex_text_pos x Hx).
    destruct (sh_step x (m_shape m)) as [ms|] eqn:Hs; cbn [mbind option_bind]; [|done].
    destruct (shape_step a (a + Z.of_nat (length (lex_text x))) x m ms Ha ltac:(lia) eq_refl Hs) as (m1 & -> & <-).
    cbn [mbind option_bind]. apply IH; done || lia.
Qed.

(** A closed token keeps its span. *)
Definition same_span (t t' : jsmntok) : Prop :=
  start t' = start t /\ end_ t' = end_ t /\ type t' = type t.

#[export] Instance same_span_preorder : PreOrder same_span.
Proof.
  split; [done |]. intros t u v (? & ? & ?) (? & ? & ?). unfold same_span. split_and!; congruence.
Qed.

Lemma is_open_span t t' : same_span t t' -> is_open t' = is_open t.
Proof. intros (Hs & He & _). unfold is_open. by rewrite Hs, He. Qed.

Lemma bump_span s ts i t : ts !! i = Some t -> exists t', bump s ts !! i = Some t' /\ same_span t t'.
Proof.
  intros Ht. unfold bump. case_match; [by eexists |].
  destruct (decide (i = Z.to_nat s)) as [-> | Hne].
  - rewrite list_lookup_alter_eq, Ht. by eexists.
  - rewrite list_lookup_alter_ne by done. by eexists.
Qed.

Lemma walk_span fuel ts j ty p ts' p' i t :
  close_walk fuel ts j ty p = Done (Some (ts', p')) -> ts !! i = Some t -> is_open t = false ->
  ts' !! i = Some t.
Proof.
  revert j. induction fuel as [|fuel IH]; intros j; cbn [close_walk]; [done |].
  destruct (fetch ts j) as [u| |] eqn:Hf; cbn [mbind outcome_bind]; try done.
  destruct (is_open u) eqn:Hu.
  - destruct (decide _); [done |].
    unfold store. rewrite Hf. cbn [mbind outcome_bind]. intros [= <- _] Ht Ho.
    rewrite list_lookup_insert_ne; [done |]. intros <-.
    unfold fetch in Hf. destruct (j <? 0); [done |]. rewrite Ht in Hf. injection Hf as ->. congruence.
  - destruct (parent u =? -1); [|apply IH]. destruct (_ || _); [done |]. by intros [= <- _].
Qed.

Lemma step_span a b x m m' i t :
  lex_step a b x m = Some m' -> m_toks m !! i = Some t -> is_open t = false ->
  exists t', m_toks m' !! i = Some t' /\ same_span t t'.
Proof.
  intros Hs Ht Ho.
  assert (forall ty, m_close ty a m = Some m' -> m_toks m' !! i = Some t) as Hclose.
  { intros ty. unfold m_close. destruct (_ <? 1); [done |].
    destruct (close_walk _ _ _ _ _) as [[[ts p]|] | |] eqn:Hw; try done. intros [= <-].
    by eapply walk_span. }
  assert (forall u, exists t', (bump (m_super m) (m_toks m) ++ [u]) !! i = Some t' /\ same_span t t') as Hpush.
  { intros u. destruct (bump_span (m_super m) (m_toks m) i t Ht) as (t' & Ht' & Hsp).
    exists t'. split; [|done]. by apply lookup_app_l_Some. }
  destruct x; cbn [lex_step] in Hs;
    try (injection Hs as <-; simpl; auto; fail); try (apply Hclose in Hs; by eexists).
  - injection Hs as <-. by eexists.
  - injection Hs as <-. unfold m_comma. repeat case_match; simpl; by eexists.
  - injection Hs as <-. by eexists.
  all: injection Hs as <-; apply Hpush.
Qed.

Lemma run_span d : forall a m m' i t,
  lex_run d a m = Some m' -> m_toks m !! i = Some t -> is_open t = false ->
  exists t', m_toks m' !! i = Some t' /\ same_span t t'.
Proof.
  induction d as [|x d IH]; intros a m m' i t; cbn [lex_run].
  - intros [= <-] Ht Ho. by eexists.
  - destruct (lex_step _ _ _ _) as [m1|] eqn:Hs; cbn [mbind option_bind]; [|done]. intros Hr Ht Ho.
    destruct (step_span _ _ _ _ _ _ _ Hs Ht Ho) as (t1 & Ht1 & Hsp).
    rewrite <- (is_open_span _ _ Hsp) in Ho.
    destruct (IH _ _ _ _ _ Hr Ht1 Ho) as (t2 & Ht2 & Hsp2). exists t2. split; [done | by etrans].
Qed.

(** A string token spans [body], and a quote follows. *)
Definition tok_reads (js : bytes) (t : jsmntok) (body : bytes) : Prop :=
  0 <= start t <= end_ t /\ slice js (start t) (end_ t) = body /\
  js !! Z.to_nat (end_ t) = Some QUOTE.

Lemma run_texts js d : forall pre m m' i body t,
  js = pre ++ doc_text d -> lex_run d (Z.of_nat (length pre)) m = Some m' ->
  doc_texts d !! i = Some (Some body) -> m_toks m' !! (length (m_toks m) + i)%nat = Some t ->
  tok_reads js t body.
Proof.
  induction d as [|x d IH]; intros pre m m' i body t Hjs; cbn [lex_run]; [done |].
  destruct (lex_step _ _ x m) as [m1|] eqn:Hs; cbn [mbind option_bind]; [|done].
  intros Hrun Htext Ht. change (doc_texts (x :: d)) with (lex_texts x ++ doc_texts d) in Htext.
  pose proof (lex_step_length _ _ _ _ _ Hs) as Hl.
  assert (Z.of_nat (length (lex_texts x)) = lex_tokens x) as Hlt by (by destruct x).
  apply lookup_app_Some in Htext as [Hhere | [Hi Hlater]].
  - destruct x as [| | | | | |c|b|b]; cbn [lex_texts] in Hhere;
      try (by rewrite lookup_nil in Hhere); apply list_lookup_singleton_Some in Hhere as [-> Heq]; try done.
    injection Heq as ->. injection Hs as <-. cbn [m_toks] in *. rewrite Nat.add_0_r in Ht.
    set (a := Z.of_nat (length pre)) in *.
    destruct (run_span d _ _ m' (length (m_toks m))
                (mk_tok JSMN_STRING (a + 1) (a + Z.of_nat (S (length (body ++ [QUOTE]))) - 1) 0 (m_super m)) Hrun)
      as (t' & Ht' & Hst & Hen & _).
    { cbn [m_toks]. by rewrite list_lookup_middle by (by rewrite length_bump). }
    { unfold is_open. simpl. rewrite length_app. simpl.
      destruct (Z.eqb_spec (a + Z.of_nat (S (length body + 1)) - 1) (-1)); [lia |]. apply andb_false_r. }
    assert (end_ t' = a + 1 + Z.of_nat (length body)) as He
      by (rewrite Hen; simpl; rewrite length_app; simpl; lia).
    rewrite Ht in Ht'. injection Ht' as <-. simpl in Hst. unfold tok_reads. rewrite Hst, He.
    replace js with ((pre ++ [QUOTE]) ++ body ++ QUOTE :: doc_text d)
      by (rewrite Hjs, doc_text_cons; simpl; by rewrite <- !app_assoc).
    unfold a. rewrite <- (length_snoc pre QUOTE). split; [lia |]. split; [apply slice_app |].
    rewrite app_assoc. apply list_lookup_middle. rewrite !length_app. simpl. lia.
  - eapply (IH (pre ++ lex_text x) m1 m' (i - length (lex_texts x))%nat body t).
    + by rewrite Hjs, doc_text_cons, app_assoc.
    + rewrite length_app, Nat2Z.inj_add. done.
    + done.
    + rewrite <- Ht. f_equal. lia.
Qed.

(** What a document's tokens are, from its shape: the run succeeds, the tokens
    have the shapes computed, and the strings read what the document says. *)
Lemma doc_shape d ss super :
  doc_ok d -> Z.of_nat (length (doc_text d)) < 2 ^ 31 -> sh_run d ([], -1) = Some (ss, super) ->
  exists m, lex_run d 0 m_init = Some m /\ shape_of <$> m_toks m = ss /\
    forall i body t, doc_texts d !! i = Some (Some body) -> m_toks m !! i = Some t ->
      tok_reads (doc_text d) t body.
Proof.
  intros Hok Hmx Hs. destruct (shape_run d 0 m_init (ss, super)) as (m & Hm & Hsh); [done | lia | lia | done |].
  exists m. split; [done |]. split; [by injection Hsh |].
  intros i body t. by apply (run_texts _ d [] m_init).
Qed.

(** ** The counting pass on a document *)

Lemma count_lexeme js num p count pre x d :
  Z.of_nat (length js) < 2 ^ 31 -> js = pre ++ lex_text x ++ doc_text d ->
  pos p = Z.of_nat (length pre) -> lex_ok x -> follows x d -> doc_ok d -> toknext p = 0 -> toksuper p = -1 ->
  exists p', jsmn_step js (Z.of_nat (length js)) num (lex_head x) p None count
             = Done (Continue p' None (count + lex_tokens x)) /\
    pos p' + 1 = pos p + Z.of_nat (length (lex_text x)) /\ toknext p' = 0 /\ toksuper p' = -1.
Proof.
  intros Hmax Hjs Hpos Hok Hfol Hdoc Hn Hs.
  destruct x as [| | | | | |c|body|body]; cbn [lex_tokens lex_text length]; rewrite ?Z.add_0_r;
    try (exists p; rewrite ?blank_head by done; done).
  - eexists. split; [done |]. simpl. by rewrite Hn.
  - destruct (scan_literal js pre body (doc_text d) Hjs Hok Hmax) as [Hlen Hscan].
    unfold jsmn_step. simpl. unfold jsmn_parse_string. rewrite (u32_id (pos p + 1)) by (unfold is_u32; lia).
    rewrite Hpos, Hscan. cbn [mbind outcome_bind].
    eexists. split; [done |]. simpl. rewrite length_app. simpl. split; [lia |]. auto.
  - destruct Hok as [Hb Hst]. assert (0 < length body)%nat by (destruct body; [done | simpl; lia]).
    assert (Z.of_nat (length js) = Z.of_nat (length pre) + Z.of_nat (length body) + Z.of_nat (length (doc_text d))) as Hlen
      by (rewrite Hjs; cbn [lex_text]; rewrite !length_app; lia).
    assert (scan_primitive (S (Z.to_nat (Z.of_nat (length js)))) js (Z.of_nat (length js)) (pos p)
            = Done (Some (pos p + Z.of_nat (length body)))) as Hscan.
    { rewrite Hpos. rewrite Hjs in Hmax, Hlen |- *. apply scan_primitive_complete; try done; [lia |].
      by apply (follows_text body). }
    rewrite (primitive_head body) by (by split).
    unfold jsmn_parse_primitive. rewrite Hscan. cbn [mbind outcome_bind].
    eexists. split; [done |]. simpl. rewrite u32_id by (unfold is_u32; lia). split; [lia |]. auto.
Qed.

Lemma count_loop js num d : forall fuel p count pre,
  Z.of_nat (length js) < 2 ^ 31 -> js = pre ++ doc_text d -> doc_ok d ->
  pos p = Z.of_nat (length pre) -> toknext p = 0 -> toksuper p = -1 -> (length d < fuel)%nat ->
  exists p', parse_loop fuel js (Z.of_nat (length js)) num p None count
             = Done (count + doc_tokens d, p', None).
Proof.
  induction d as [|x d IH]; intros [|fuel] p count pre Hmax Hjs Hok Hpos Hn Hs Hfuel;
    simpl in Hfuel; try lia; cbn [parse_loop].
  - assert (pos p = Z.of_nat (length js)) by (rewrite Hpos, Hjs, app_nil_r; done).
    destruct (Z.ltb_spec (pos p) (Z.of_nat (length js))); [lia |]. simpl. rewrite Z.add_0_r. by eexists.
  - destruct Hok as (Hx & Hfol & Hok). pose proof (lex_text_pos x Hx) as Hxl.
    assert (Z.of_nat (length pre) < Z.of_nat (length js)) as Hlt
      by (rewrite Hjs, doc_text_cons, !length_app; lia).
    destruct (Z.ltb_spec (pos p) (Z.of_nat (length js))); [|lia]. cbn [negb].
    assert (fetch js (pos p) = Done (lex_head x)) as -> by (rewrite Hpos, Hjs; by apply lex_head_fetch).
    cbn [mbind outcome_bind]. destruct (lex_text_head x Hx) as (_ & _ & Hx0).
    destruct (Z.eqb_spec (lex_head x) 0); [done |].
    destruct (count_lexeme js num p count pre x d) as (p' & -> & Hp' & Hn' & Hs'); try done.
    cbn [mbind outcome_bind].
    assert (pos p' + 1 = Z.of_nat (length (pre ++ lex_text x))) as Hpp by (rewrite length_app; lia).
    assert (Z.of_nat (length (pre ++ lex_text x)) <= Z.of_nat (length js))
      by (rewrite Hjs, doc_text_cons, !length_app; lia).
    destruct (IH fuel (set_pos p' (u32 (pos p' + 1))) (count + lex_tokens x) (pre ++ lex_text x)) as (q & Hq);
      try done.
    + by rewrite Hjs, doc_text_cons, app_assoc.
    + simpl. rewrite Hpp. by rewrite u32_id by (unfold is_u32; lia).
    + lia.
    + exists q. rewrite Hq. simpl. by rewrite Z.add_assoc.
Qed.

Lemma length_doc_text d : doc_ok d -> (length d <= length (doc_text d))%nat.
Proof.
  induction d as [|x d IH]; [simpl; lia |]. intros (Hx & _ & Hok). rewrite doc_text_cons, length_app.
  pose proof (lex_text_pos x Hx). specialize (IH Hok). simpl. lia.
Qed.

Lemma doc_count d num :
  doc_ok d -> Z.of_nat (length (doc_text d)) < 2 ^ 31 ->
  exists p', jsmn_parse jsmn_init (doc_text d) (Z.of_nat (length (doc_text d))) None num
             = Done (doc_tokens d, p', None).
Proof.
  intros Hok Hmax. pose proof (length_doc_text d Hok).
  destruct (count_loop (doc_text d) num d (S (Z.to_nat (Z.of_nat (length (doc_text d))))) jsmn_init 0 [])
    as (p' & Hp); try done; [lia |]. exists p'. apply Hp.
Qed.

(** ** The refinement *)

Lemma doc_parse d m (l : list jsmntok) :
  doc_ok d -> Z.of_nat (length (doc_text d)) < 2 ^ 31 ->
  lex_run d 0 m_init = Some m -> Forall (fun t => is_open t = false) (m_toks m) ->
  (length (m_toks m) <= length l)%nat ->
  exists p', jsmn_parse jsmn_init (doc_text d) (Z.of_nat (length (doc_text d))) (Some l)
                        (Z.of_nat (length (m_toks m)))
             = Done (Z.of_nat (length (m_toks m)), p', Some (m_toks m ++ drop (length (m_toks m)) l)).
Proof.
  intros Hok Hmax Hrun Hclosed Hl.
  pose proof (lex_run_length _ _ _ _ Hrun) as Hn. simpl in Hn. pose proof (length_doc_text d Hok).
  assert (doc_tokens d <= Z.of_nat (length d)).
  { clear. induction d as [|[] d IH]; simpl; lia. }
  unfold jsmn_parse.
  destruct (loop_refines (doc_text d) (Z.of_nat (length (m_toks m))) Hmax d
              (S (Z.to_nat (Z.of_nat (length (doc_text d))))) jsmn_init l m_init l 0 [] m)
    as (p' & Hp & Hnp); try done; try lia.
  { apply inv_init; lia. }
  change (toknext jsmn_init) with 0. rewrite Hp. unfold finish. rewrite Hnp, Nat2Z.id, any_open_spec by (rewrite length_app; lia).
  cbn [mbind outcome_bind]. rewrite take_app_length.
  assert (existsb is_open (m_toks m) = false) as ->.
  { apply not_true_iff_false. intros (t & Ht & Ho)%existsb_exists.
    rewrite list.Forall_forall in Hclosed. rewrite Hclosed in Ho by (by apply list_elem_of_In). done. }
  exists p'. do 4 f_equal. f_equal. lia.
Qed.

(** The tokeniser refines the lexeme machine: on the text of any document
    whose strings are well-formed and which the machine reads to the end with
    every container closed, [jsmn_parse] fills the array with exactly the
    machine's tokens, leaves the rest of the array alone, and returns their
    number; the pass without an array returns the same number. *)
Lemma jsmn_parse_refines (d : list lexeme) (m : mach) (l : list jsmntok) :
  doc_ok d -> Z.of_nat (length (doc_text d)) < 2 ^ 31 ->
  lex_run d 0 m_init = Some m -> Forall (fun t => is_open t = false) (m_toks m) ->
  (length (m_toks m) <= length l)%nat ->
  (exists p', jsmn_parse jsmn_init (doc_text d) (Z.of_nat (length (doc_text d))) None 0
              = Done (Z.of_nat (length (m_toks m)), p', None)) /\
  (exists p', jsmn_parse jsmn_init (doc_text d) (Z.of_nat (length (doc_text d))) (Some l)
                         (Z.of_nat (length (m_toks m)))
              = Done (Z.of_nat (length (m_toks m)), p', Some (m_toks m ++ drop (length (m_toks m)) l))).
Proof.
  intros Hok Hmax Hrun Hclosed Hl. split; [|by apply doc_parse].
  destruct (doc_count d 0 Hok Hmax) as (p' & Hp). exists p'. rewrite Hp.
  apply lex_run_length in Hrun. simpl in Hrun. by rewrite Hrun.
Qed.

(** [{"a" : ["b"]}] *)
Definition sample_doc : list lexeme :=
  [LObject; LString [97]; LBlank; LColon; LBlank; LArray; LString [98]; LEndArray; LEndObject].

Lemma jsmn_parse_refines_witness :
  (exists p', jsmn_parse jsmn_init (doc_text sample_doc) 13 None 0 = Done (4, p', None)) /\
  (exists p', jsmn_parse jsmn_init (doc_text sample_doc) 13 (Some (replicate 5 blank_tok)) 4
     = Done (4, p', Some [mk_tok JSMN_OBJECT 0 13 1 (-1); mk_tok JSMN_STRING 2 3 1 0;
                          mk_tok JSMN_ARRAY 7 12 1 1; mk_tok JSMN_STRING 9 10 0 2; blank_tok])).
Proof.
  apply (jsmn_parse_refines sample_doc
    (mk_mach [mk_tok JSMN_OBJECT 0 13 1 (-1); mk_tok JSMN_STRING 2 3 1 0;
              mk_tok JSMN_ARRAY 7 12 1 1; mk_tok JSMN_STRING 9 10 0 2] (-1)) (replicate 5 blank_tok)).
  - repeat constructor; discriminate.
  - vm_compute. reflexivity.
  - vm_compute. reflexivity.
  - repeat constructor.
  - simpl. lia.
Defined.
End JsmnDoc.
