(* ===== verification/JsonValue.v ===== *)
(** * JSON values, and the tokens [jsmn_parse] makes of them

    What the tokeniser of [system/src/jsmn-master/jsmn.h] is for: JSON values
    as trees, their text with any white space, and the row of tokens a value
    stands for, all defined without looking at the tokeniser.  The theorem says
    that tokenising the text of a value gives exactly its tokens. *)

From S2P Require Import Prelude Jsmn JsmnDoc.

Module JsonValue.
Import Jsmn JsmnDoc.

(** ** Values *)

(** An array and an object start with white space; a member is white space, a
    key, white space and, behind the colon, a value; any value can have white
    space around it. *)
#[local] Unset Elimination Schemes.
Inductive json :=
  | JPrimitive (s : bytes)
  | JString (s : bytes)
  | JArray (w : bytes) (vs : list json)
  | JObject (w : bytes) (ms : list (bytes * bytes * bytes * json))
  | JPad (before : bytes) (v : json) (after : bytes).
#[local] Set Elimination Schemes.

Section induction.
Variable P : json -> Prop.
Hypothesis Pprim : forall s, P (JPrimitive s).
Hypothesis Pstr : forall s, P (JString s).
Hypothesis Parr : forall w vs, Forall P vs -> P (JArray w vs).
Hypothesis Pobj : forall w ms, Forall (fun m => P m.2) ms -> P (JObject w ms).
Hypothesis Ppad : forall b v a, P v -> P (JPad b v a).

Fixpoint json_induction (v : json) : P v :=
  match v with
  | JPrimitive s => Pprim s
  | JString s => Pstr s
  | JArray w vs =>
      Parr w vs ((fix each vs : Forall P vs :=
        match vs with [] => List.Forall_nil _ | v :: vs => @List.Forall_cons _ _ v vs (json_induction v) (each vs) end) vs)
  | JObject w ms =>
      Pobj w ms ((fix each ms : Forall (fun m => P m.2) ms :=
        match ms with [] => List.Forall_nil _ | m :: ms => @List.Forall_cons _ _ m ms (json_induction m.2) (each ms) end) ms)
  | JPad b v a => Ppad b v a (json_induction v)
  end.
End induction.

(** ** The text of a value *)

Definition white (w : bytes) : list lexeme := LWhite <$> w.

Fixpoint with_commas (ds : list (list lexeme)) : list lexeme :=
  match ds with
  | [] => []
  | [d] => d
  | d :: ds => d ++ LComma :: with_commas ds
  end.

Fixpoint lexemes (v : json) : list lexeme :=
  match v with
  | JPrimitive s => [LPrimitive s]
  | JString s => [LString s]
  | JArray w vs => LArray :: white w ++ with_commas (map lexemes vs) ++ [LEndArray]
  | JObject w ms =>
      LObject :: white w ++ with_commas (map (fun '(w1, k, w2, v) =>
        white w1 ++ LString k :: white w2 ++ LColon :: lexemes v) ms) ++ [LEndObject]
  | JPad b v a => white b ++ lexemes v ++ white a
  end.

Definition json_text (v : json) : bytes := doc_text (lexemes v).
Definition width (v : json) : Z := Z.of_nat (length (json_text v)).

(** What the parts of a value must be. *)
Definition each {A} (P : A -> Prop) := fix go (l : list A) : Prop := match l with [] => True | x :: l => P x /\ go l end.
Definition blanks (w : bytes) : Prop := Forall (fun c => is_blank c = true) w.

Fixpoint json_ok (v : json) : Prop :=
  match v with
  | JPrimitive s => Forall prim_char s /\ starts_primitive s
  | JString s => str_body s
  | JArray w vs => blanks w /\ each json_ok vs
  | JObject w ms => blanks w /\ each (fun '(w1, k, w2, v) => blanks w1 /\ str_body k /\ blanks w2 /\ json_ok v) ms
  | JPad b v a => blanks b /\ json_ok v /\ blanks a
  end.

(** ** The tokens of a value *)

Definition sum (l : list Z) : Z := foldr Z.add 0 l.

Fixpoint count (v : json) : Z :=
  match v with
  | JPrimitive _ | JString _ => 1
  | JArray _ vs => 1 + sum (map count vs)
  | JObject _ ms => 1 + sum (map (fun m => 1 + count m.2) ms)
  | JPad _ v _ => count v
  end.

(** The text of a value starts at [a], its first token has index [i], and the
    token it belongs to has index [par] (-1 for none).  A string's token spans
    what stands between the quotes, a container counts its elements or keys, and
    a key counts its value.  Elements belong to their array, keys to their
    object, and a value to its key. *)
Definition elements (tokens : json -> Z -> Z -> Z -> list jsmntok) (par : Z) :=
  fix go (vs : list json) (a j : Z) : list jsmntok :=
    match vs with
    | [] => []
    | v :: vs => tokens v a j par ++ go vs (a + width v + 1) (j + count v)
    end.

Definition members (tokens : json -> Z -> Z -> Z -> list jsmntok) (par : Z) :=
  fix go (ms : list (bytes * bytes * bytes * json)) (a j : Z) : list jsmntok :=
    match ms with
    | [] => []
    | (w1, k, w2, v) :: ms =>
        let key := a + Z.of_nat (length w1) + 1 in
        let after := key + Z.of_nat (length k) in
        let value := after + 1 + Z.of_nat (length w2) + 1 in
        mk_tok JSMN_STRING key after 1 par :: tokens v value (j + 1) j
        ++ go ms (value + width v + 1) (j + 1 + count v)
    end.

Fixpoint tokens (v : json) (a i par : Z) : list jsmntok :=
  match v with
  | JPrimitive s => [mk_tok JSMN_PRIMITIVE a (a + Z.of_nat (length s)) 0 par]
  | JString s => [mk_tok JSMN_STRING (a + 1) (a + 1 + Z.of_nat (length s)) 0 par]
  | JArray w vs =>
      mk_tok JSMN_ARRAY a (a + width v) (Z.of_nat (length vs)) par
      :: elements tokens i vs (a + 1 + Z.of_nat (length w)) (i + 1)
  | JObject w ms =>
      mk_tok JSMN_OBJECT a (a + width v) (Z.of_nat (length ms)) par
      :: members tokens i ms (a + 1 + Z.of_nat (length w)) (i + 1)
  | JPad b v _ => tokens v (a + Z.of_nat (length b)) i par
  end.

(** [{"a" : [1,"b"], "c":{}}] *)
Definition sample_value : json :=
  JObject [] [([], [97], [32], JPad [32] (JArray [] [JPrimitive [49]; JString [98]]) []);
              ([32], [99], [], JObject [] [])].

Example sample_tokens :
  json_text sample_value
  = [123; 34; 97; 34; 32; 58; 32; 91; 49; 44; 34; 98; 34; 93; 44; 32; 34; 99; 34; 58; 123; 125; 125] /\
  tokens sample_value 0 0 (-1)
  = [mk_tok JSMN_OBJECT 0 23 2 (-1); mk_tok JSMN_STRING 2 3 1 0; mk_tok JSMN_ARRAY 7 14 2 1;
     mk_tok JSMN_PRIMITIVE 8 9 0 2; mk_tok JSMN_STRING 11 12 0 2; mk_tok JSMN_STRING 17 18 1 0;
     mk_tok JSMN_OBJECT 20 22 0 5].
Proof. vm_compute. split; reflexivity. Qed.

(** ** Texts *)

Definition row_width (ds : list (list lexeme)) : Z := Z.of_nat (length (doc_text (with_commas ds))).

Lemma with_commas_cons d ds :
  with_commas (d :: ds) = d ++ match ds with [] => [] | _ => LComma :: with_commas ds end.
Proof. destruct ds; simpl; [by rewrite app_nil_r | done]. Qed.

Lemma row_width_cons d ds :
  row_width (d :: ds) = Z.of_nat (length (doc_text d)) + match ds with [] => 0 | _ => 1 + row_width ds end.
Proof.
  unfold row_width. rewrite with_commas_cons, doc_text_app, length_app, Nat2Z.inj_add. f_equal.
  destruct ds; [done |]. rewrite doc_text_cons, length_app. simpl length. lia.
Qed.

Lemma length_white w : length (doc_text (white w)) = length w.
Proof. induction w as [|c w IH]; [done |]. unfold white. rewrite fmap_cons, doc_text_cons. simpl. by rewrite <- IH. Qed.

Definition member_lexemes (m : bytes * bytes * bytes * json) : list lexeme :=
  let '(w1, k, w2, v) := m in white w1 ++ LString k :: white w2 ++ LColon :: lexemes v.

Lemma width_array w vs : width (JArray w vs) = 2 + Z.of_nat (length w) + row_width (map lexemes vs).
Proof.
  unfold width, json_text, row_width. cbn [lexemes]. rewrite doc_text_cons, !doc_text_app, !length_app, length_white.
  simpl length. lia.
Qed.

Lemma width_object w ms : width (JObject w ms) = 2 + Z.of_nat (length w) + row_width (map member_lexemes ms).
Proof.
  unfold width, json_text, row_width. cbn [lexemes]. fold member_lexemes.
  rewrite doc_text_cons, !doc_text_app, !length_app, length_white. simpl length. lia.
Qed.

Lemma width_pad b v a : width (JPad b v a) = Z.of_nat (length b) + width v + Z.of_nat (length a).
Proof. unfold width, json_text. cbn [lexemes]. rewrite !doc_text_app, !length_app, !length_white. lia. Qed.

Lemma width_string s : width (JString s) = Z.of_nat (length s) + 2.
Proof. unfold width, json_text, doc_text. simpl. rewrite app_nil_r, length_app. simpl. lia. Qed.

Lemma width_primitive s : width (JPrimitive s) = Z.of_nat (length s).
Proof. unfold width, json_text, doc_text. simpl. by rewrite app_nil_r. Qed.

Lemma width_member w1 k w2 v :
  Z.of_nat (length (doc_text (member_lexemes (w1, k, w2, v))))
  = Z.of_nat (length w1) + Z.of_nat (length k) + 2 + Z.of_nat (length w2) + 1 + width v.
Proof.
  unfold width, json_text. cbn [member_lexemes]. rewrite doc_text_app, doc_text_cons, doc_text_app, doc_text_cons.
  rewrite !length_app, !length_white. simpl length. rewrite length_app. simpl length. lia.
Qed.

(** A value stands for at least one token, and for [count] of them. *)
Lemma sum_nonneg {A} (f : A -> Z) l : Forall (fun x => 0 <= f x) l -> 0 <= sum (map f l).
Proof. induction 1; simpl; lia. Qed.

Lemma count_pos v : 1 <= count v.
Proof.
  induction v as [s|s|w vs IH|w ms IH|b v a IH] using json_induction; cbn [count]; try lia.
  - enough (0 <= sum (map count vs)) by lia. apply sum_nonneg.
    eapply list.Forall_impl; [exact IH |]. cbn beta. lia.
  - enough (0 <= sum (map (fun m => 1 + count m.2) ms)) by lia. apply sum_nonneg.
    eapply list.Forall_impl; [exact IH |]. intros m Hm. cbn beta in *. lia.
Qed.

Lemma sum_cons x l : sum (x :: l) = x + sum l.
Proof. done. Qed.

Lemma elements_cons par v vs a j :
  elements tokens par (v :: vs) a j = tokens v a j par ++ elements tokens par vs (a + width v + 1) (j + count v).
Proof. done. Qed.

Definition value_at (w1 k w2 : bytes) (a : Z) : Z :=
  a + Z.of_nat (length w1) + 1 + Z.of_nat (length k) + 1 + Z.of_nat (length w2) + 1.

Lemma members_cons par w1 k w2 v ms a j :
  members tokens par ((w1, k, w2, v) :: ms) a j
  = mk_tok JSMN_STRING (a + Z.of_nat (length w1) + 1) (a + Z.of_nat (length w1) + 1 + Z.of_nat (length k)) 1 par
    :: tokens v (value_at w1 k w2 a) (j + 1) j
    ++ members tokens par ms (value_at w1 k w2 a + width v + 1) (j + 1 + count v).
Proof. done. Qed.

Lemma length_elements par vs : Forall (fun v => forall a i par, Z.of_nat (length (tokens v a i par)) = count v) vs ->
  forall a j, Z.of_nat (length (elements tokens par vs a j)) = sum (map count vs).
Proof.
  induction 1 as [|v vs Hv _ IH]; intros a j; [done |].
  rewrite elements_cons, length_app, Nat2Z.inj_add, Hv, IH. done.
Qed.

Lemma length_members par ms : Forall (fun m => forall a i par, Z.of_nat (length (tokens m.2 a i par)) = count m.2) ms ->
  forall a j, Z.of_nat (length (members tokens par ms a j)) = sum (map (fun m => 1 + count m.2) ms).
Proof.
  induction 1 as [|[[[w1 k] w2] v] ms Hv _ IH]; intros a j; [done |].
  rewrite members_cons. cbn [map snd length]. rewrite length_app, Nat2Z.inj_succ, Nat2Z.inj_add, IH, sum_cons.
  rewrite (Hv _ _ _ : Z.of_nat (length (tokens v _ _ _)) = _). cbn [snd]. lia.
Qed.

Lemma length_tokens v a i par : Z.of_nat (length (tokens v a i par)) = count v.
Proof.
  revert a i par. induction v as [s|s|w vs IH|w ms IH|b v a0 IH] using json_induction; intros a i par; cbn [tokens count]; try done.
  - cbn [length]. rewrite Nat2Z.inj_succ, (length_elements i vs IH). lia.
  - cbn [length]. rewrite Nat2Z.inj_succ, (length_members i ms IH). lia.
Qed.

(** ** Closing a container

    The parser finds the container that a bracket closes by walking along the
    parents from the last token.  Inside the tokens of a value the walk leads to
    the token the value belongs to. *)

Lemma walk_step f L k t ty p :
  0 <= k -> L !! Z.to_nat k = Some t -> is_open t = false -> parent t <> -1 ->
  close_walk (S f) L k ty p = close_walk f L (parent t) ty p.
Proof.
  intros Hk Ht Ho Hp. cbn [close_walk]. rewrite (fetch_ok _ _ _ Hk Ht). cbn [mbind outcome_bind].
  rewrite Ho. by destruct (Z.eqb_spec (parent t) (-1)).
Qed.

Lemma closed_tok ty a e n par : 0 <= e -> is_open (mk_tok ty a e n par) = false.
Proof. intros He. unfold is_open. simpl. destruct (Z.eqb_spec e (-1)); [lia |]. apply andb_false_r. Qed.

(** The walk gets from token [k] of [L] to [par] in at most [m] steps. *)
Definition climbs (L : list jsmntok) (k par : Z) (m : nat) : Prop :=
  exists n, (n <= m)%nat /\ forall f ty p, close_walk (n + f) L k ty p = close_walk f L par ty p.

Lemma climbs_refl L k m : climbs L k k m.
Proof. exists O. split; [lia | done]. Qed.

Lemma climbs_step L k par t i m :
  climbs L k i m -> 0 <= i -> L !! Z.to_nat i = Some t -> is_open t = false -> parent t = par -> par <> -1 ->
  climbs L k par (S m).
Proof.
  intros (n & Hn & H) Hi Ht Ho <- Hp. exists (S n). split; [lia |]. intros f ty p.
  rewrite <- (walk_step f L i t ty p Hi Ht Ho Hp), <- H. f_equal. lia.
Qed.

Lemma climbs_more L k par m m' : climbs L k par m -> (m <= m')%nat -> climbs L k par m'.
Proof. intros (n & Hn & H) Hm. exists n. split; [lia | done]. Qed.

Definition climbing (v : json) : Prop := forall pre post a par, 0 <= a -> par <> -1 ->
  let i := Z.of_nat (length pre) in
  climbs (pre ++ tokens v a i par ++ post) (i + count v - 1) par (length (tokens v a i par)).

Lemma width_nonneg v : 0 <= width v.
Proof. unfold width. lia. Qed.

Lemma climb_elements vs : Forall climbing vs -> forall pre post a par, 0 <= a -> par <> -1 -> vs <> [] ->
  let j := Z.of_nat (length pre) in
  climbs (pre ++ elements tokens par vs a j ++ post) (j + sum (map count vs) - 1) par (length (elements tokens par vs a j)).
Proof.
  induction 1 as [|v vs Hv _ IH]; intros pre post a par Ha Hp Hne j; [done |].
  rewrite elements_cons. cbn [map]. rewrite sum_cons, length_app, <- (assoc_L (++)). destruct vs as [|v2 vs].
  - change (sum (map count [])) with 0. rewrite Z.add_0_r. eapply climbs_more; [apply (Hv pre _ a par Ha Hp) | fold j; lia].
  - pose proof (length_tokens v a j par) as Hl. pose proof (width_nonneg v).
    specialize (IH (pre ++ tokens v a j par) post (a + width v + 1) par ltac:(lia) Hp ltac:(done)). cbn zeta in IH.
    rewrite length_app, Nat2Z.inj_add, Hl in IH. fold j in IH. rewrite <- (assoc_L (++)) in IH.
    replace (j + (count v + sum (map count (v2 :: vs))) - 1) with (j + count v + sum (map count (v2 :: vs)) - 1) by lia.
    eapply climbs_more; [exact IH | lia].
Qed.

Lemma climb_members ms : Forall (fun m => climbing m.2) ms -> forall pre post a par, 0 <= a -> par <> -1 -> ms <> [] ->
  let j := Z.of_nat (length pre) in
  climbs (pre ++ members tokens par ms a j ++ post) (j + sum (map (fun m => 1 + count m.2) ms) - 1) par
         (length (members tokens par ms a j)).
Proof.
  induction 1 as [|[[[w1 k] w2] v] ms Hv _ IH]; intros pre post a par Ha Hp Hne j; [done |].
  rewrite members_cons. cbn [map snd]. rewrite sum_cons. set (key := mk_tok JSMN_STRING _ _ _ _).
  pose proof (length_tokens v (value_at w1 k w2 a) (j + 1) j) as Hl. pose proof (width_nonneg v).
  assert (0 <= value_at w1 k w2 a) by (unfold value_at; lia).
  cbn [app length]. rewrite length_app, <- (assoc_L (++)). change (climbing v) in Hv. destruct ms as [|m2 ms].
  - change (sum (map _ [])) with 0. rewrite Z.add_0_r. cbn [members app].
    specialize (Hv (pre ++ [key]) post (value_at w1 k w2 a) j ltac:(lia) ltac:(lia)). cbn zeta in Hv.
    rewrite length_snoc in Hv. fold j in Hv. rewrite <- (assoc_L (++)) in Hv. cbn [app] in Hv.
    replace (j + (1 + count v) - 1) with (j + 1 + count v - 1) by lia.
    eapply climbs_more; [eapply (climbs_step _ _ par key j); [exact Hv | subst j; lia | | | done | done] | lia].
    + unfold j. rewrite Nat2Z.id. by apply list_lookup_middle.
    + apply closed_tok. lia.
  - specialize (IH (pre ++ key :: tokens v (value_at w1 k w2 a) (j + 1) j) post (value_at w1 k w2 a + width v + 1) par
      ltac:(lia) Hp ltac:(done)). cbn zeta in IH.
    rewrite length_app in IH. cbn [length] in IH. rewrite Nat2Z.inj_add, Nat2Z.inj_succ, Hl in IH. fold j in IH.
    replace (j + Z.succ (count v)) with (j + 1 + count v) in IH by lia. rewrite <- (assoc_L (++)) in IH. cbn [app] in IH.
    match goal with |- climbs _ ?x _ _ => match type of IH with climbs _ ?y _ _ => replace x with y by lia end end.
    eapply climbs_more; [exact IH | lia].
Qed.

(** The token of a container, closed, and what is in it. *)
Lemma climb_container pre post par t inside n :
  let i := Z.of_nat (length pre) in
  is_open t = false -> parent t = par -> par <> -1 ->
  climbs (pre ++ (t :: inside) ++ post) n i (length inside) ->
  climbs (pre ++ (t :: inside) ++ post) n par (length (t :: inside)).
Proof.
  intros i Ho Ht Hp Hc. eapply (climbs_step _ _ par t i); [exact Hc | subst i; lia | | done | done | done].
  unfold i. rewrite Nat2Z.id. by apply list_lookup_middle.
Qed.

Lemma climb_value v : climbing v.
Proof.
  induction v as [s|s|w vs IH|w ms IH|b v a0 IH] using json_induction; intros pre post a par Ha Hp i; cbn [tokens count].
  - apply climb_container; [by apply closed_tok; lia | done | done |]. fold i. replace (i + 1 - 1) with i by lia. apply climbs_refl.
  - apply climb_container; [by apply closed_tok; lia | done | done |]. fold i. replace (i + 1 - 1) with i by lia. apply climbs_refl.
  - pose proof (width_nonneg (JArray w vs)). apply climb_container; [by apply closed_tok; lia | done | done |]. fold i.
    destruct vs as [|v vs]; [replace (i + (1 + sum (map count [])) - 1) with i by (simpl; lia); apply climbs_refl |].
    pose proof (climb_elements (v :: vs) IH (pre ++ [mk_tok JSMN_ARRAY a (a + width (JArray w (v :: vs))) (Z.of_nat (length (v :: vs))) par])
      post (a + 1 + Z.of_nat (length w)) i ltac:(lia) ltac:(lia) ltac:(done)) as Hc. cbn zeta in Hc.
    rewrite length_snoc in Hc. fold i in Hc. rewrite <- (assoc_L (++)) in Hc.
    replace (i + (1 + sum (map count (v :: vs))) - 1) with (i + 1 + sum (map count (v :: vs)) - 1) by lia. exact Hc.
  - pose proof (width_nonneg (JObject w ms)). apply climb_container; [by apply closed_tok; lia | done | done |]. fold i.
    destruct ms as [|m ms]; [replace (i + (1 + sum (map _ [])) - 1) with i by (simpl; lia); apply climbs_refl |].
    pose proof (climb_members (m :: ms) IH (pre ++ [mk_tok JSMN_OBJECT a (a + width (JObject w (m :: ms))) (Z.of_nat (length (m :: ms))) par])
      post (a + 1 + Z.of_nat (length w)) i ltac:(lia) ltac:(lia) ltac:(done)) as Hc. cbn zeta in Hc.
    rewrite length_snoc in Hc. fold i in Hc. rewrite <- (assoc_L (++)) in Hc.
    match goal with |- climbs _ ?x _ _ => match type of Hc with climbs _ ?y _ _ => replace x with y by lia end end. exact Hc.
  - apply IH; [lia | done].
Qed.

(** The machine at a closing bracket. *)
Lemma close_container ty a pre t inside s :
  type t = ty -> is_open t = true -> 0 <= a -> a + 1 < 2 ^ 31 ->
  climbs (pre ++ t :: inside) (Z.of_nat (length (pre ++ t :: inside)) - 1) (Z.of_nat (length pre)) (length inside) ->
  m_close ty a (mk_mach (pre ++ t :: inside) s) = Some (mk_mach (pre ++ set_end (a + 1) t :: inside) (parent t)).
Proof.
  intros Hty Ho Ha Hmx (n & Hn & Hc). unfold m_close. cbn [m_toks m_super].
  destruct (Z.ltb_spec (Z.of_nat (length (pre ++ t :: inside))) 1) as [Hx|_]; [rewrite length_app in Hx; simpl in Hx; lia |].
  assert (exists f, S (length (pre ++ t :: inside)) = (n + S f)%nat) as (f & ->).
  { exists (length (pre ++ t :: inside) - n)%nat. rewrite length_app. simpl. lia. }
  rewrite Hc. cbn [close_walk]. rewrite (fetch_ok _ _ t) by (lia || (rewrite Nat2Z.id; by apply list_lookup_middle)).
  cbn [mbind outcome_bind]. rewrite Ho. destruct (decide _) as [Hx|_]; [done |].
  rewrite store_middle by done. cbn [mbind outcome_bind pos]. rewrite u32_id, s32_id by (unfold is_u32, is_s32; lia). done.
Qed.

(** ** The machine on a value *)

Lemma run_cons x d a m m' :
  lex_step a (a + Z.of_nat (length (lex_text x))) x m = Some m' ->
  lex_run (x :: d) a m = lex_run d (a + Z.of_nat (length (lex_text x))) m'.
Proof. intros H. cbn [lex_run]. by rewrite H. Qed.

Lemma run_white w d a m : lex_run (white w ++ d) a m = lex_run d (a + Z.of_nat (length w)) m.
Proof.
  revert a. induction w as [|c w IH]; intros a; simpl; [by rewrite Z.add_0_r |]. rewrite IH. f_equal. lia.
Qed.

Lemma bump_middle i pre t inside : i = Z.of_nat (length pre) -> bump i (pre ++ t :: inside) = pre ++ incr_size t :: inside.
Proof.
  intros ->. unfold bump. destruct (Z.eqb_spec (Z.of_nat (length pre)) (-1)); [lia |].
  rewrite Nat2Z.id, <- (Nat.add_0_r (length pre)), alter_app_r. done.
Qed.

Definition sized (n : nat) (t : jsmntok) : jsmntok :=
  mk_tok (type t) (start t) (end_ t) (size t + Z.of_nat n) (parent t).

Lemma sized_0 t : sized 0 t = t.
Proof. destruct t. unfold sized. simpl. f_equal. lia. Qed.
Lemma sized_S n t : sized n (incr_size t) = sized (S n) t.
Proof. unfold sized. simpl. f_equal. lia. Qed.

(** A value leaves its tokens behind those that are there, one more child for
    the superior token, and the superior token as it was. *)
Definition runs (v : json) : Prop := forall d a ts s, 0 <= a -> a + width v < 2 ^ 31 ->
  lex_run (lexemes v ++ d) a (mk_mach ts s)
  = lex_run d (a + width v) (mk_mach (bump s ts ++ tokens v a (Z.of_nat (length ts)) s) s).

Lemma run_value v d a ts s : runs v -> 0 <= a -> a + width v < 2 ^ 31 ->
  lex_run (lexemes v ++ d) a (mk_mach ts s)
  = lex_run d (a + width v) (mk_mach (bump s ts ++ tokens v a (Z.of_nat (length ts)) s) s).
Proof. intros Hv. apply Hv. Qed.

Lemma comma_container a pre t inside i :
  i = Z.of_nat (length pre) -> container (type t) = true ->
  lex_step a (a + Z.of_nat (length (lex_text LComma))) LComma (mk_mach (pre ++ t :: inside) i) = Some (mk_mach (pre ++ t :: inside) i).
Proof.
  intros -> Ht. unfold lex_step, m_comma. cbn [m_super m_toks]. destruct (Z.eqb_spec (Z.of_nat (length pre)) (-1)); [lia |].
  rewrite Nat2Z.id, list_lookup_middle by done. by rewrite Ht.
Qed.

Lemma row_width_nonneg ds : 0 <= row_width ds.
Proof. unfold row_width. lia. Qed.

Lemma run_elements vs : Forall runs vs -> forall d a pre t inside i,
  i = Z.of_nat (length pre) -> container (type t) = true -> 0 <= a -> a + row_width (map lexemes vs) < 2 ^ 31 ->
  lex_run (with_commas (map lexemes vs) ++ d) a (mk_mach (pre ++ t :: inside) i)
  = lex_run d (a + row_width (map lexemes vs))
      (mk_mach (pre ++ sized (length vs) t
                :: inside ++ elements tokens i vs a (Z.of_nat (length (pre ++ t :: inside)))) i).
Proof.
  induction 1 as [|v vs Hv _ IH]; intros d a pre t inside i Hi Ht Ha Hmx.
  { simpl. change (row_width []) with 0. by rewrite sized_0, Z.add_0_r, app_nil_r. }
  cbn [map] in *. rewrite row_width_cons in Hmx |- *. fold (width v) in Hmx |- *.
  change (Z.of_nat (length (doc_text (lexemes v)))) with (width v) in *.
  pose proof (row_width_nonneg (map lexemes vs)). pose proof (width_nonneg v).
  rewrite with_commas_cons, <- (assoc_L (++)), run_value by (done || (destruct (map lexemes vs); lia)).
  rewrite bump_middle, <- (assoc_L (++)) by done. cbn [app].
  rewrite elements_cons. destruct vs as [|v2 vs].
  { cbn [map app length elements]. rewrite Z.add_0_r, app_nil_r. by rewrite <- sized_S, sized_0. }
  cbn [map] in *. cbn [app]. rewrite (run_cons _ _ _ _ _ (comma_container _ _ _ _ _ Hi (Ht : container (type (incr_size t)) = true))).
  rewrite IH by (done || simpl length; lia).
  change (Z.of_nat (length (lex_text LComma))) with 1.
  f_equal; [lia |]. f_equal. f_equal. rewrite sized_S. f_equal. rewrite <- (assoc_L (++)). do 3 f_equal.
  pose proof (length_tokens v a (Z.of_nat (length (pre ++ t :: inside))) i) as Hl.
  rewrite !length_app in *. cbn [length] in *. rewrite length_app in *. lia.
Qed.

Lemma run_members ms : Forall (fun m => runs m.2) ms -> forall d a pre t inside i,
  i = Z.of_nat (length pre) -> container (type t) = true -> 0 <= a -> a + row_width (map member_lexemes ms) < 2 ^ 31 ->
  exists s, lex_run (with_commas (map member_lexemes ms) ++ d) a (mk_mach (pre ++ t :: inside) i)
  = lex_run d (a + row_width (map member_lexemes ms))
      (mk_mach (pre ++ sized (length ms) t
                :: inside ++ members tokens i ms a (Z.of_nat (length (pre ++ t :: inside)))) s).
Proof.
  induction 1 as [|[[[w1 k] w2] v] ms Hv _ IH]; intros d a pre t inside i Hi Ht Ha Hmx.
  { exists i. simpl. change (row_width []) with 0. by rewrite sized_0, Z.add_0_r, app_nil_r. }
  cbn [map] in *. rewrite row_width_cons, width_member in *. change (runs v) in Hv.
  pose proof (row_width_nonneg (map member_lexemes ms)). pose proof (width_nonneg v).
  set (j := Z.of_nat (length (pre ++ t :: inside))).
  set (key := mk_tok JSMN_STRING (a + Z.of_nat (length w1) + 1) (a + Z.of_nat (length w1) + 1 + Z.of_nat (length k)) 0 i).
  assert (forall d, lex_run (member_lexemes (w1, k, w2, v) ++ d) a (mk_mach (pre ++ t :: inside) i)
          = lex_run d (value_at w1 k w2 a + width v)
              (mk_mach ((pre ++ incr_size t :: inside) ++ incr_size key :: tokens v (value_at w1 k w2 a) (j + 1) j) j)) as Hmem.
  { intros d'. unfold member_lexemes. rewrite <- (assoc_L (++)), run_white. cbn [app].
    erewrite run_cons by reflexivity. cbn [m_toks m_super]. rewrite bump_middle by done.
    rewrite <- (assoc_L (++)), run_white. cbn [app]. erewrite run_cons by reflexivity. cbn [m_toks m_super].
    rewrite length_snoc. replace (_ + 1 - 1) with j by (unfold j; rewrite !length_app; simpl; lia).
    replace (a + Z.of_nat (length w1) + Z.of_nat (length (lex_text (LString k))) + Z.of_nat (length w2) + Z.of_nat (length (lex_text LColon)))
      with (value_at w1 k w2 a) by (unfold value_at; simpl; rewrite length_app; simpl; lia).
    rewrite run_value by (done || (unfold value_at in *; destruct (map member_lexemes ms); lia)).
    rewrite bump_middle by (unfold j; rewrite !length_app; simpl; lia). rewrite length_snoc.
    replace (Z.of_nat (length (pre ++ incr_size t :: inside))) with j by (unfold j; by rewrite !length_app).
    rewrite <- (assoc_L (++)). cbn [app]. do 4 f_equal. unfold key, incr_size. simpl. f_equal; rewrite ?length_app; simpl; lia. }
  rewrite with_commas_cons, <- (assoc_L (++)), Hmem, members_cons. fold j.
  assert (incr_size key = mk_tok JSMN_STRING (a + Z.of_nat (length w1) + 1) (a + Z.of_nat (length w1) + 1 + Z.of_nat (length k)) 1 i) as <- by done.
  destruct ms as [|m2 ms].
  { exists j. cbn [map app length members]. rewrite app_nil_r, <- (assoc_L (++)). cbn [app].

    rewrite <- sized_S, sized_0. f_equal. unfold value_at. lia. }
  cbn [map] in *. cbn [app]. set (nx := tokens v _ _ _).
  assert (lex_step (value_at w1 k w2 a + width v) (value_at w1 k w2 a + width v + Z.of_nat (length (lex_text LComma))) LComma
            (mk_mach ((pre ++ incr_size t :: inside) ++ incr_size key :: nx) j)
          = Some (mk_mach (pre ++ incr_size t :: inside ++ incr_size key :: nx) i)) as Hcomma.
  { unfold lex_step, m_comma. cbn [m_super m_toks]. destruct (Z.eqb_spec j (-1)); [lia |].
    replace (Z.to_nat j) with (length (pre ++ incr_size t :: inside)) by (unfold j; rewrite Nat2Z.id, !length_app; done).
    rewrite list_lookup_middle by done. cbn. by rewrite <- (assoc_L (++)). }
  rewrite (run_cons _ _ _ _ _ Hcomma). change (Z.of_nat (length (lex_text LComma))) with 1.
  destruct (IH d (value_at w1 k w2 a + width v + 1) pre (incr_size t) (inside ++ incr_size key :: nx) i Hi Ht)
    as (s & ->); [unfold value_at; lia | unfold value_at; lia |].
  exists s. f_equal; [unfold value_at; lia |]. f_equal. f_equal. rewrite sized_S. f_equal.
  rewrite <- (assoc_L (++)). cbn [app]. do 4 f_equal. unfold j, nx.
  pose proof (length_tokens v (value_at w1 k w2 a) (j + 1) j) as Hl. unfold j in *.
  rewrite !length_app in *. cbn [length] in *. rewrite !length_app in *. cbn [length] in *. lia.
Qed.

(** A container around a row that leads up to it. *)
Lemma run_container ty (first last : lexeme) w row a ts s t inside d n :
  lex_text first = [opening ty] -> lex_step a (a + 1) first (mk_mach ts s) = Some (m_open ty a (mk_mach ts s)) ->
  lex_text last = [closing ty] -> (forall a m, lex_step a (a + 1) last m = m_close ty a m) ->
  0 <= a -> a + (2 + Z.of_nat (length w) + n) < 2 ^ 31 -> 0 <= n ->
  t = mk_tok ty a (-1) (size t) s ->
  (forall d, exists s', lex_run (row ++ d) (a + 1 + Z.of_nat (length w))
       (mk_mach (bump s ts ++ [mk_tok ty a (-1) 0 s]) (Z.of_nat (length ts)))
     = lex_run d (a + 1 + Z.of_nat (length w) + n) (mk_mach (bump s ts ++ t :: inside) s')) ->
  climbs (bump s ts ++ t :: inside) (Z.of_nat (length (bump s ts ++ t :: inside)) - 1) (Z.of_nat (length ts)) (length inside) ->
  lex_run ((first :: white w ++ row ++ [last]) ++ d) a (mk_mach ts s)
  = lex_run d (a + (2 + Z.of_nat (length w) + n))
      (mk_mach (bump s ts ++ set_end (a + (2 + Z.of_nat (length w) + n)) t :: inside) s).
Proof.
  intros Hf Hfs Hl Hls Ha Hmx Hn Ht Hrow Hc. cbn [app lex_run]. rewrite Hf. change (Z.of_nat (length [opening ty])) with 1.
  rewrite Hfs. cbn [mbind option_bind]. unfold m_open. cbn [m_toks m_super].
  rewrite <- !(assoc_L (++)), run_white. destruct (Hrow ([last] ++ d)) as (s' & ->). cbn [app lex_run]. rewrite Hl.
  change (Z.of_nat (length [closing ty])) with 1. rewrite Hls. rewrite <- (length_bump s ts) in Hc.
  rewrite close_container; [| by rewrite Ht | | lia | lia | done].
  - cbn [mbind option_bind]. assert (parent t = s) as -> by (by rewrite Ht).
    replace (a + 1 + Z.of_nat (length w) + n + 1) with (a + (2 + Z.of_nat (length w) + n)) by lia. done.
  - rewrite Ht. unfold is_open. simpl. by destruct (Z.eqb_spec a (-1)); [lia |].
Qed.

Lemma value_runs v : runs v.
Proof.
  induction v as [s|s|w vs IH|w ms IH|b v a0 IH] using json_induction; intros d a ts sp Ha Hmx.
  - rewrite width_primitive. cbn [lexemes app lex_run lex_text lex_step mbind option_bind m_toks m_super]. done.
  - rewrite width_string in *. cbn [lexemes app lex_run lex_text lex_step mbind option_bind m_toks m_super tokens].
    cbn [length]. rewrite length_app. cbn [length].
    f_equal; [lia |]. do 3 f_equal. f_equal. lia.
  - rewrite width_array in *. set (n := row_width (map lexemes vs)) in *. pose proof (row_width_nonneg (map lexemes vs)).
    set (i := Z.of_nat (length ts)). set (inside := elements tokens i vs (a + 1 + Z.of_nat (length w)) (i + 1)).
    cbn [lexemes]. erewrite (run_container JSMN_ARRAY LArray LEndArray w _ a ts sp (sized (length vs) (mk_tok JSMN_ARRAY a (-1) 0 sp)) inside d n);
      try done; try lia.
    + cbn [tokens]. rewrite width_array. fold n inside. done.
    + intros d'. exists i. rewrite run_elements; [| done | unfold i; by rewrite length_bump | done | lia | lia].
      rewrite length_snoc, length_bump. done.
    + destruct vs as [|v vs].
      { cbn. rewrite length_snoc, length_bump. replace (Z.of_nat (length ts) + 1 - 1) with (Z.of_nat (length ts)) by lia. apply climbs_refl. }
      pose proof (climb_elements (v :: vs) (list.Forall_true _ _ climb_value) (bump sp ts ++ [sized (length (v :: vs)) (mk_tok JSMN_ARRAY a (-1) 0 sp)])
        [] (a + 1 + Z.of_nat (length w)) i ltac:(lia) ltac:(unfold i; lia) ltac:(done)) as Hc. cbn zeta in Hc.
      rewrite length_snoc, length_bump, app_nil_r, <- (assoc_L (++)) in Hc. fold i inside in Hc. cbn [app] in Hc.
      match goal with |- climbs _ ?x _ _ => match type of Hc with climbs _ ?y _ _ => replace x with y end end; [exact Hc |].
      pose proof (length_elements i (v :: vs) (list.Forall_true _ _ length_tokens) (a + 1 + Z.of_nat (length w)) (i + 1)) as Hl.
      fold inside in Hl. rewrite length_app, length_bump. cbn [length]. unfold i. lia.
  - rewrite width_object in *. set (n := row_width (map member_lexemes ms)) in *. pose proof (row_width_nonneg (map member_lexemes ms)).
    set (i := Z.of_nat (length ts)). set (inside := members tokens i ms (a + 1 + Z.of_nat (length w)) (i + 1)).
    change (lexemes (JObject w ms)) with (LObject :: white w ++ with_commas (map member_lexemes ms) ++ [LEndObject]).
    erewrite (run_container JSMN_OBJECT LObject LEndObject w _ a ts sp (sized (length ms) (mk_tok JSMN_OBJECT a (-1) 0 sp)) inside d n);
      try done; try lia.
    + cbn [tokens]. rewrite width_object. fold n inside. done.
    + intros d'. fold i. destruct (run_members ms IH d' (a + 1 + Z.of_nat (length w)) (bump sp ts) (mk_tok JSMN_OBJECT a (-1) 0 sp) [] i)
        as (s' & ->); [unfold i; by rewrite length_bump | done | lia | fold n; lia |].
      exists s'. rewrite length_snoc, length_bump. done.
    + destruct ms as [|m ms].
      { cbn. rewrite length_snoc, length_bump. replace (Z.of_nat (length ts) + 1 - 1) with (Z.of_nat (length ts)) by lia. apply climbs_refl. }
      pose proof (climb_members (m :: ms) (list.Forall_true _ _ (fun m => climb_value m.2)) (bump sp ts ++ [sized (length (m :: ms)) (mk_tok JSMN_OBJECT a (-1) 0 sp)])
        [] (a + 1 + Z.of_nat (length w)) i ltac:(lia) ltac:(unfold i; lia) ltac:(done)) as Hc. cbn zeta in Hc.
      rewrite length_snoc, length_bump, app_nil_r, <- (assoc_L (++)) in Hc. fold i inside in Hc. cbn [app] in Hc.
      match goal with |- climbs _ ?x _ _ => match type of Hc with climbs _ ?y _ _ => replace x with y end end; [exact Hc |].
      pose proof (length_members i (m :: ms) (list.Forall_true _ _ (fun m => length_tokens m.2)) (a + 1 + Z.of_nat (length w)) (i + 1)) as Hl.
      fold inside in Hl. rewrite length_app, length_bump. cbn [length]. unfold i. lia.
  - rewrite width_pad in *. cbn [lexemes tokens]. pose proof (width_nonneg v).
    rewrite <- !(assoc_L (++)), run_white, run_value by (done || lia). rewrite run_white. f_equal. lia.
Qed.

(** ** The text of a value is a document *)

Definition ends (d : list lexeme) : Prop :=
  match d with y :: _ => ends_primitive (lex_head y) = true | [] => True end.

Lemma blank_ends c : is_blank c = true -> ends_primitive c = true.
Proof. unfold ends_primitive. intros ->. by rewrite orb_true_r. Qed.

Lemma ends_white w d : blanks w -> ends d -> ends (white w ++ d).
Proof. intros Hw Hd. destruct Hw as [|c w Hc _]; [done |]. by apply blank_ends. Qed.

Lemma doc_ok_white w d : blanks w -> doc_ok d -> doc_ok (white w ++ d).
Proof. intros Hw Hd. induction Hw as [|c w Hc _ IH]; [done |]. by split. Qed.

Lemma doc_ok_row (ds : list (list lexeme)) d :
  Forall (fun x => forall d, doc_ok d -> ends d -> doc_ok (x ++ d)) ds -> doc_ok d -> ends d -> doc_ok (with_commas ds ++ d).
Proof.
  intros Hds Hd He. induction Hds as [|x ds Hx _ IH]; [done |]. rewrite with_commas_cons, <- (assoc_L (++)).
  destruct ds as [|y ds]; [by apply Hx |]. apply Hx; [by split | done].
Qed.

Lemma each_forall {A} (P Q : A -> Prop) l : Forall (fun x => P x -> Q x) l -> each P l -> Forall Q l.
Proof. induction 1 as [|x l Hx _ IH]; [done |]. intros [? ?]. constructor; auto. Qed.

Lemma value_doc_ok v : json_ok v -> forall d, doc_ok d -> ends d -> doc_ok (lexemes v ++ d).
Proof.
  induction v as [s|s|w vs IH|w ms IH|b v a0 IH] using json_induction; intros Hok d Hd He; cbn [lexemes app].
  - split; [exact Hok |]. split; [| done]. by destruct d.
  - by split.
  - destruct Hok as [Hw Hvs]. split; [done |]. split; [done |]. rewrite <- !(assoc_L (++)). apply doc_ok_white; [done |].
    apply doc_ok_row; [| by split | done]. apply List.Forall_map. by apply (each_forall json_ok).
  - destruct Hok as [Hw Hms]. split; [done |]. split; [done |]. rewrite <- !(assoc_L (++)). apply doc_ok_white; [done |].
    apply doc_ok_row; [| by split | done]. apply List.Forall_map. eapply each_forall; [| exact Hms].
    eapply list.Forall_impl; [exact IH |]. intros [[[w1 k] w2] v] Hv (H1 & Hk & H2 & Hj) d' Hd' He'. cbn [snd] in Hv.
    rewrite <- (assoc_L (++)). apply doc_ok_white; [done |]. cbn [app]. split; [done |]. split; [done |].
    rewrite <- (assoc_L (++)). apply doc_ok_white; [done |]. cbn [app]. split; [done |]. split; [done |]. by apply Hv.
  - destruct Hok as (Hb & Hv & Ha). rewrite <- !(assoc_L (++)). apply doc_ok_white; [done |].
    apply IH; [done | by apply doc_ok_white | by apply ends_white].
Qed.

(** None of the tokens of a value is open. *)
Lemma value_closed v : forall a i par, 0 <= a -> Forall (fun t => is_open t = false) (tokens v a i par).
Proof.
  induction v as [s|s|w vs IH|w ms IH|b v a0 IH] using json_induction; intros a i par Ha; cbn [tokens].
  - repeat constructor. apply closed_tok. lia.
  - repeat constructor. apply closed_tok. lia.
  - constructor; [apply closed_tok; pose proof (width_nonneg (JArray w vs)); lia |].
    assert (0 <= a + 1 + Z.of_nat (length w)) as H0 by lia. revert H0. generalize (a + 1 + Z.of_nat (length w)), (i + 1).
    induction IH as [|v vs Hv _ IHl]; intros b j Hb; [constructor |]. rewrite elements_cons.
    pose proof (width_nonneg v). apply Forall_app. split; [by apply Hv | apply IHl; lia].
  - constructor; [apply closed_tok; pose proof (width_nonneg (JObject w ms)); lia |].
    assert (0 <= a + 1 + Z.of_nat (length w)) as H0 by lia. revert H0. generalize (a + 1 + Z.of_nat (length w)), (i + 1).
    induction IH as [|[[[w1 k] w2] v] ms Hv _ IHl]; intros b j Hb; [constructor |]. rewrite members_cons.
    pose proof (width_nonneg v). assert (0 <= value_at w1 k w2 b) by (unfold value_at; lia).
    constructor; [apply closed_tok; lia |]. apply Forall_app. split; [by apply Hv | apply IHl; lia].
  - apply IH. lia.
Qed.

(** ** Tokenising *)

(** C17: On the text of any JSON value, with any white space between its parts,
    [jsmn_parse] returns the number of the value's tokens, without an array and
    with one, and leaves in the array exactly these tokens in their order: type,
    span, number of children and parent of every object, array, key, string and
    primitive, as the tree of the value has them.  The rest of the array is not
    touched. *)
Theorem jsmn_tokenises (v : json) (l : list jsmntok) :
  json_ok v -> width v < 2 ^ 31 -> count v <= Z.of_nat (length l) ->
  (exists p', jsmn_parse jsmn_init (json_text v) (width v) None 0 = Done (count v, p', None)) /\
  (exists p', jsmn_parse jsmn_init (json_text v) (width v) (Some l) (count v)
              = Done (count v, p', Some (tokens v 0 0 (-1) ++ drop (Z.to_nat (count v)) l))).
Proof.
  intros Hok Hmx Hl. pose proof (value_doc_ok v Hok [] I I) as Hdoc. rewrite app_nil_r in Hdoc.
  pose proof (value_runs v [] 0 [] (-1) ltac:(lia) ltac:(lia)) as Hrun. rewrite app_nil_r in Hrun. cbn [lex_run bump app] in Hrun.
  pose proof (length_tokens v 0 0 (-1)) as Hn.
  destruct (jsmn_parse_refines (lexemes v) (mk_mach (tokens v 0 0 (-1)) (-1)) l Hdoc Hmx Hrun (value_closed v 0 0 (-1) ltac:(lia)))
    as [Hc Hp]; [cbn [m_toks]; lia |]. cbn [m_toks] in *. rewrite Hn in *.
  split; [exact Hc |]. replace (Z.to_nat (count v)) with (length (tokens v 0 0 (-1))) by lia. exact Hp.
Qed.

Lemma jsmn_tokenises_witness :
  (exists p', jsmn_parse jsmn_init (json_text sample_value) 23 None 0 = Done (7, p', None)) /\
  exists p', jsmn_parse jsmn_init (json_text sample_value) 23 (Some (replicate 8 blank_tok)) 7
    = Done (7, p', Some ([mk_tok JSMN_OBJECT 0 23 2 (-1); mk_tok JSMN_STRING 2 3 1 0; mk_tok JSMN_ARRAY 7 14 2 1;
                          mk_tok JSMN_PRIMITIVE 8 9 0 2; mk_tok JSMN_STRING 11 12 0 2; mk_tok JSMN_STRING 17 18 1 0;
                          mk_tok JSMN_OBJECT 20 22 0 5] ++ [blank_tok])).
Proof.
  apply (jsmn_tokenises sample_value (replicate 8 blank_tok)); [| vm_compute; reflexivity | vm_compute; discriminate].
  cbn. repeat split; repeat (constructor || discriminate || lia).
Defined.
End JsonValue.
