(* ===== verification/Config.v ===== *)
(** * The configuration file: [src/config.c]

    At start-up the firmware reads [CONFIG.TXT] from the SD card, tokenises it
    with jsmn (once to count, once to fill an array of that size) and copies the
    values it knows into global character arrays, which the Wi-Fi service and
    the LwM2M objects read.  The file system and the heap are parameters: the
    results of the FatFs calls, the bytes delivered, and what [pvPortMalloc]
    returns.  Reads outside the file buffer or the token array, writes outside a
    configuration array and uses of NULL are the outcome [Fault].

    Theorems: a configuration written in the layout the loader looks for is
    loaded exactly, field by field; on any file the walk reads only inside the
    buffer, and at most one token past the array; whatever happens with the
    card, both buffers are released. *)

From S2P Require Import Prelude Jsmn JsmnDoc.

Module Config.
Import Jsmn JsmnDoc.

(** ** The configuration arrays *)

Record config := mk_config {
  config_wifi_ssid : bytes; config_wifi_key : bytes; config_lwm2m_uri : bytes;
  config_lwm2m_psk_id : bytes; config_lwm2m_psk_key : bytes; config_ntp_url : bytes }.

(** Their initial contents: C clears static arrays. *)
Definition cleared : config :=
  mk_config (replicate 32 0) (replicate 32 0) (replicate 128 0) (replicate 128 0)
            (replicate 64 0) (replicate 64 0).

(** The arrays the walk copies into with a bound, and [sizeof] of the array the
    code names for that bound. *)
Inductive field := WIFI_SSID | WIFI_KEY | LWM2M_URI | LWM2M_PSK_ID | LWM2M_PSK_KEY.

Definition get_field (f : field) (c : config) : bytes :=
  match f with
  | WIFI_SSID => config_wifi_ssid c | WIFI_KEY => config_wifi_key c
  | LWM2M_URI => config_lwm2m_uri c | LWM2M_PSK_ID => config_lwm2m_psk_id c
  | LWM2M_PSK_KEY => config_lwm2m_psk_key c
  end.

Definition set_field (f : field) (b : bytes) (c : config) : config :=
  match c with
  | mk_config ssid key uri id psk url =>
      match f with
      | WIFI_SSID => mk_config b key uri id psk url
      | WIFI_KEY => mk_config ssid b uri id psk url
      | LWM2M_URI => mk_config ssid key b id psk url
      | LWM2M_PSK_ID => mk_config ssid key uri b psk url
      | LWM2M_PSK_KEY => mk_config ssid key uri id b url
      end
  end.

Definition set_ntp_url (b : bytes) (c : config) : config :=
  mk_config (config_wifi_ssid c) (config_wifi_key c) (config_lwm2m_uri c) (config_lwm2m_psk_id c)
            (config_lwm2m_psk_key c) b.

Definition dest_len (f : field) : Z :=
  match f with
  | WIFI_SSID | WIFI_KEY => 32     (* sizeof(config_wifi_key), for both *)
  | LWM2M_URI | LWM2M_PSK_ID => 128
  | LWM2M_PSK_KEY => 64
  end.

Definition config_get_wifi_ssid (c : config) : bytes := config_wifi_ssid c.
Definition config_get_wifi_key (c : config) : bytes := config_wifi_key c.
Definition config_get_lwm2m_uri (c : config) : bytes := config_lwm2m_uri c.
Definition config_get_lwm2m_psk_id (c : config) : bytes := config_lwm2m_psk_id c.
Definition config_get_lwm2m_psk_key (c : config) : bytes := config_lwm2m_psk_key c.

(** ** C string functions on a buffer *)

(** [0 == strncmp(buf + s, lit, strlen(lit))] for a literal without NUL: the
    comparison stops at the first difference. *)
Fixpoint strncmp_eq0 (buf : bytes) (s : Z) (lit : bytes) : outcome bool :=
  match lit with
  | [] => Done true
  | c :: lit => d ← fetch buf s; if d =? c then strncmp_eq0 buf (s + 1) lit else Done false
  end.

(** [strncpy(dest + k, buf + src, n)]: after a NUL the rest is padding. *)
Fixpoint copy_chars (n : nat) (buf : bytes) (src : Z) (dest : bytes) (k : Z) (ended : bool)
  : outcome bytes :=
  match n with
  | O => Done dest
  | S n =>
      c ← (if ended then Done 0 else fetch buf src);
      dest ← store dest k (fun _ => c);
      copy_chars n buf (src + 1) dest (k + 1) (c =? 0)
  end.

Definition strncpy_at (dest buf : bytes) (src n : Z) : outcome bytes :=
  copy_chars (Z.to_nat n) buf src dest 0 false.

(** The literals compared with. *)
Definition lit_wifi : bytes := [119; 105; 102; 105].
Definition lit_lwm2m : bytes := [108; 119; 109; 50; 109].
Definition lit_ntp : bytes := [110; 116; 112].
Definition lit_ssid : bytes := [115; 115; 105; 100].
Definition lit_key : bytes := [107; 101; 121].
Definition lit_uri : bytes := [117; 114; 105].
Definition lit_psk : bytes := [112; 115; 107].
Definition lit_url : bytes := [117; 114; 108].
Definition lit_bootstrap : bytes := [98; 111; 111; 116; 115; 116; 114; 97; 112].
Definition lit_id : bytes := [105; 100].

(** ** The walk over the tokens *)

(** The indices found so far; [INT8_MIN] when not found yet. *)
Record keys := mk_keys {
  wifi_key : Z; lwm2m_key : Z; ntp_key : Z; lwm2m_psk_key : Z; ntp_url_key : Z; ntp_url_array : Z }.
Definition INT8_MIN : Z := -128.
Definition no_keys : keys := mk_keys INT8_MIN INT8_MIN INT8_MIN INT8_MIN INT8_MIN INT8_MIN.

Definition set_wifi_key (i : Z) (k : keys) : keys :=
  mk_keys i (lwm2m_key k) (ntp_key k) (lwm2m_psk_key k) (ntp_url_key k) (ntp_url_array k).
Definition set_lwm2m_key (i : Z) (k : keys) : keys :=
  mk_keys (wifi_key k) i (ntp_key k) (lwm2m_psk_key k) (ntp_url_key k) (ntp_url_array k).
Definition set_ntp_key (i : Z) (k : keys) : keys :=
  mk_keys (wifi_key k) (lwm2m_key k) i (lwm2m_psk_key k) (ntp_url_key k) (ntp_url_array k).
Definition set_lwm2m_psk_key (i : Z) (k : keys) : keys :=
  mk_keys (wifi_key k) (lwm2m_key k) (ntp_key k) i (ntp_url_key k) (ntp_url_array k).
Definition set_ntp_url_key (i : Z) (k : keys) : keys :=
  mk_keys (wifi_key k) (lwm2m_key k) (ntp_key k) (lwm2m_psk_key k) i (ntp_url_array k).
Definition set_ntp_url_array (i : Z) (k : keys) : keys :=
  mk_keys (wifi_key k) (lwm2m_key k) (ntp_key k) (lwm2m_psk_key k) (ntp_url_key k) i.

(** The copy that ends each section: the next token is looked at in any case,
    and copied when it is a string and a destination was chosen. *)
Definition copy_value (buf : bytes) (toks : list jsmntok) (i : Z) (dest : option field) (c : config)
  : outcome config :=
  next ← fetch toks (i + 1);
  match dest with
  | Some f =>
      if decide (type next = JSMN_STRING) then
        let src_len := u32 (end_ next - start next) in
        let src_len := if dest_len f <? src_len then dest_len f else src_len in
        b ← strncpy_at (get_field f c) buf (start next) src_len;
        Done (set_field f b c)
      else Done c
  | None => Done c
  end.

(** The chains of comparisons of the five sections. *)
Definition root_key (buf : bytes) (i s : Z) (k : keys) : outcome keys :=
  wifi ← strncmp_eq0 buf s lit_wifi;
  if (wifi : bool) then Done (set_wifi_key i k) else
  lwm2m ← strncmp_eq0 buf s lit_lwm2m;
  if (lwm2m : bool) then Done (set_lwm2m_key i k) else
  ntp ← strncmp_eq0 buf s lit_ntp;
  if (ntp : bool) then Done (set_ntp_key i k) else Done k.

Definition wifi_dest (buf : bytes) (s : Z) : outcome (option field) :=
  ssid ← strncmp_eq0 buf s lit_ssid;
  if (ssid : bool) then Done (Some WIFI_SSID) else
  key ← strncmp_eq0 buf s lit_key;
  if (key : bool) then Done (Some WIFI_KEY) else Done None.

(** A ["bootstrap"] member is compared with and has no effect. *)
Definition lwm2m_dest (buf : bytes) (i s : Z) (k : keys) : outcome (option field * keys) :=
  uri ← strncmp_eq0 buf s lit_uri;
  if (uri : bool) then Done (Some LWM2M_URI, k) else
  psk ← strncmp_eq0 buf s lit_psk;
  if (psk : bool) then Done (None, set_lwm2m_psk_key i k) else
  bootstrap ← strncmp_eq0 buf s lit_bootstrap;
  if (bootstrap : bool) then Done (None, k) else Done (None, k).

Definition psk_dest (buf : bytes) (s : Z) : outcome (option field) :=
  id ← strncmp_eq0 buf s lit_id;
  if (id : bool) then Done (Some LWM2M_PSK_ID) else
  key ← strncmp_eq0 buf s lit_key;
  if (key : bool) then Done (Some LWM2M_PSK_KEY) else Done None.

(** The body of the loop. *)
Definition walk_token (buf : bytes) (toks : list jsmntok) (i : Z) (k : keys) (c : config)
  : outcome (keys * config) :=
  t ← fetch toks i;
  let s := start t in
  let is_string := bool_decide (type t = JSMN_STRING) in
  if (0 =? parent t) && is_string then
    k ← root_key buf i s k; Done (k, c)
  else if (wifi_key k + 1 =? parent t) && is_string then
    dest ← wifi_dest buf s;
    c ← copy_value buf toks i dest c; Done (k, c)
  else if (lwm2m_key k + 1 =? parent t) && is_string then
    '(dest, k) ← lwm2m_dest buf i s k;
    c ← copy_value buf toks i dest c; Done (k, c)
  else if (ntp_key k + 1 =? parent t) && is_string then
    url ← strncmp_eq0 buf s lit_url;
    Done ((if (url : bool) then set_ntp_url_key i k else k), c)
  else if (ntp_url_key k =? parent t) && bool_decide (type t = JSMN_ARRAY) then
    Done (set_ntp_url_array i k, c)
  else if (ntp_url_array k =? parent t) && is_string then
    b ← strncpy_at (config_ntp_url c) buf s (u32 (end_ t - start t));
    Done (k, set_ntp_url b c)
  else if (lwm2m_psk_key k + 1 =? parent t) && is_string then
    dest ← psk_dest buf s;
    c ← copy_value buf toks i dest c; Done (k, c)
  else Done (k, c).

(** [for (int i = 0; i < parse_result; i++)], from token [i] on. *)
Fixpoint walk (n : nat) (buf : bytes) (toks : list jsmntok) (i : Z) (k : keys) (c : config)
  : outcome config :=
  match n with
  | O => Done c
  | S n => '(k, c) ← walk_token buf toks i k c; walk n buf toks (i + 1) k c
  end.

(** ** Loading *)

(** What the card and FatFs answer, in the order of the calls; [FR_OK] is zero.
    The results of closing and unmounting change nothing. *)
Record sd_card := mk_sd {
  mount_res : Z; open_res : Z; file_size : Z; read_res : Z; read_data : bytes }.
Definition FR_OK : Z := 0.

(** What [pvPortMalloc] returns for the two buffers: NULL or memory with
    arbitrary contents. *)
Record heap := mk_heap { alloc_buffer : Z -> option bytes; alloc_tokens : Z -> option (list jsmntok) }.

Inductive call := MOUNT | OPEN | READ | CLOSE | UNMOUNT | MALLOC_BUFFER | MALLOC_TOKENS
                | FREE_TOKENS | FREE_BUFFER.
#[export] Instance call_eq_dec : EqDecision call.
Proof. solve_decision. Defined.

(** [f_read] into the buffer: NULL faults unless nothing is stored. *)
Definition read_into (buffer : option bytes) (data : bytes) : outcome bytes :=
  match buffer with
  | Some b => if Z.of_nat (length b) <? Z.of_nat (length data) then Fault
              else Done (data ++ drop (length data) b)
  | None => match data with [] => Done [] | _ :: _ => Fault end
  end.

(** The two passes and the walk, lines 86 to 243: the new configuration, and the
    token array if one was allocated.  A walk over the NULL array faults. *)
Definition parse_and_walk (h : heap) (buf : bytes) (fRead : Z) (c : config)
  : outcome (config * tokens * list call) :=
  '(parse_result, _, _) ← jsmn_parse jsmn_init buf fRead None 0;
  let '(json_tokens, log) :=
    if 0 <? parse_result then
      match alloc_tokens h parse_result with
      | Some l => (Some l, [MALLOC_TOKENS])
      | None => (None, [])
      end
    else (None, []) in
  '(parse_result, _, json_tokens) ← jsmn_parse jsmn_init buf fRead json_tokens (u32 parse_result);
  c ← match json_tokens with
      | Some l => walk (Z.to_nat parse_result) buf l 0 no_keys c
      | None => if 0 <? parse_result then Fault else Done c
      end;
  Done (c, json_tokens, log).

Definition uiso_load_config (sd : sd_card) (h : heap) (c : config) : outcome (config * list call) :=
  let log := [MOUNT] in
  let fRes := mount_res sd in
  let '(fRes, log) := if fRes =? FR_OK then (open_res sd, log ++ [OPEN]) else (fRes, log) in
  let '(read_buffer, log) :=
    if fRes =? FR_OK then
      if 0 <? file_size sd then
        match alloc_buffer h (file_size sd) with
        | Some b => (Some b, log ++ [MALLOC_BUFFER])
        | None => (None, log)
        end
      else (None, log)
    else (None, log) in
  '(fRes, contents, log) ←
    (if fRes =? FR_OK then
       b ← read_into read_buffer (read_data sd);
       Done (read_res sd, b, log ++ [READ])
     else Done (fRes, [], log));
  '(c, json_tokens, log) ←
    (if fRes =? FR_OK then
       '(c, l, log') ← parse_and_walk h contents (Z.of_nat (length (read_data sd))) c;
       Done (c, l, log ++ log')
     else Done (c, None, log));
  let log := log ++ [CLOSE] in
  let log := log ++ [UNMOUNT] in
  let log := match json_tokens with Some _ => log ++ [FREE_TOKENS] | None => log end in
  let log := match read_buffer with Some _ => log ++ [FREE_BUFFER] | None => log end in
  Done (c, log).


(** ** The string functions inside the file *)

Fixpoint is_prefix (lit text : bytes) : bool :=
  match lit, text with
  | [], _ => true
  | c :: lit, d :: text => (d =? c) && is_prefix lit text
  | _ :: _, [] => false
  end.

(** A comparison that starts in a string token stops at its closing quote. *)
Lemma strncmp_slice js e lit : forall s,
  0 <= s <= e -> e < Z.of_nat (length js) -> js !! Z.to_nat e = Some QUOTE -> Forall (fun c => c <> QUOTE) lit ->
  strncmp_eq0 js s lit = Done (is_prefix lit (slice js s e)).
Proof.
  induction lit as [|c lit IH]; intros s Hs He HQ Hlit; cbn [strncmp_eq0]; [done |].
  apply list.Forall_cons in Hlit as [Hc Hlit].
  destruct (decide (s = e)) as [-> | Hne].
  - rewrite (fetch_ok js e QUOTE), slice_nil by (done || lia). cbn [mbind outcome_bind is_prefix].
    destruct (Z.eqb_spec QUOTE c); [congruence | done].
  - destruct (fetch_in js s) as (d & Hd & ->); [lia |]. cbn [mbind outcome_bind].
    rewrite (slice_cons js s e d) by (done || lia). cbn [is_prefix].
    destruct (d =? c); [apply IH; (done || lia) | done].
Qed.

(** What [strncpy] leaves: [n] characters of a text that has them. *)
Lemma copy_chars_spec n js : forall s dest k,
  0 <= s -> s + Z.of_nat n <= Z.of_nat (length js) ->
  Forall (fun c => c <> 0) (slice js s (s + Z.of_nat n)) ->
  0 <= k -> k + Z.of_nat n <= Z.of_nat (length dest) ->
  copy_chars n js s dest k false
  = Done (take (Z.to_nat k) dest ++ slice js s (s + Z.of_nat n) ++ drop (Z.to_nat k + n) dest).
Proof.
  induction n as [|n IH]; intros s dest k Hs Hlen Hnz Hk Hd; cbn [copy_chars].
  - rewrite Z.add_0_r, slice_nil, Nat.add_0_r. simpl. by rewrite take_drop.
  - destruct (fetch_in js s) as (c & Hc & ->); [lia |]. cbn [mbind outcome_bind].
    rewrite (slice_cons js s _ c) in Hnz |- * by (done || lia).
    apply list.Forall_cons in Hnz as [Hc0 Hnz].
    destruct (fetch_in dest k) as (o & Ho & _); [lia |].
    rewrite (store_ok dest k _ o) by (done || lia). cbn [mbind outcome_bind].
    destruct (Z.eqb_spec c 0); [done |].
    replace (s + Z.of_nat (S n)) with (s + 1 + Z.of_nat n) in * by lia.
    rewrite IH by (rewrite ?length_insert; (done || lia)).
    replace (Z.to_nat (k + 1)) with (S (Z.to_nat k)) by lia.
    rewrite take_insert_here by lia. rewrite drop_insert_lt by lia.
    rewrite <- app_assoc. by replace (Z.to_nat k + S n)%nat with (S (Z.to_nat k) + n)%nat by lia.
Qed.

(** The first characters of an array replaced by a text, cut to the array. *)
Definition fill (dest text : bytes) : bytes := take (length dest) text ++ drop (length text) dest.

Lemma length_fill dest text : length (fill dest text) = length dest.
Proof. unfold fill. rewrite length_app, length_take, length_drop. lia. Qed.

Lemma str_body_nonzero b : str_body b -> Forall (fun c => c <> 0) b.
Proof.
  assert (forall c, is_hex c = true -> c <> 0) as Hhex by (unfold is_hex; lia).
  induction 1 as [| c l ? ? ? _ IH | c l He _ IH | a b c d l ? ? ? ? _ IH].
  - constructor.
  - by constructor.
  - constructor; [done |]. constructor; [|done]. unfold is_escape, QUOTE, BACKSLASH in He. lia.
  - repeat (constructor; [by auto |]). done.
Qed.

Lemma Forall_slice_prefix (P : Z -> Prop) js s m e :
  0 <= s <= m -> m <= e -> Forall P (slice js s e) -> Forall P (slice js s m).
Proof. intros Hs He. rewrite (slice_split js s m e) by lia. rewrite Forall_app. by intros [? _]. Qed.

Lemma slice_as_take js s m e : 0 <= s <= m -> m <= e -> e <= Z.of_nat (length js) ->
  slice js s m = take (Z.to_nat (m - s)) (slice js s e).
Proof.
  intros Hs He Hlen. rewrite (slice_split js s m e) by lia.
  pose proof (length_slice js s m). rewrite take_app_le by lia. rewrite take_ge by lia. done.
Qed.

(** The bounded copy of a string token's text. *)
Lemma strncpy_fill dest js s e n :
  0 <= s <= e -> e <= Z.of_nat (length js) -> Forall (fun c => c <> 0) (slice js s e) ->
  0 <= n -> n = Z.min (Z.of_nat (length dest)) (e - s) ->
  strncpy_at dest js s n = Done (fill dest (slice js s e)).
Proof.
  intros Hs He Hnz Hn Hmin. unfold strncpy_at.
  rewrite copy_chars_spec by (try apply (Forall_slice_prefix _ js s _ e); (done || lia)).
  rewrite Z2Nat.id, (slice_as_take js s _ e) by lia. simpl. unfold fill.
  pose proof (length_slice js s e). f_equal. destruct (Z.le_gt_cases (e - s) (Z.of_nat (length dest))).
  - rewrite !(take_ge (slice js s e)) by lia. do 2 f_equal. lia.
  - replace (Z.to_nat (s + n - s)) with (length dest) by lia.
    by rewrite !drop_ge by lia.
Qed.

(** ** The sizes of the arrays *)

Record config_ok (c : config) : Prop := {
  ok_ssid : length (config_wifi_ssid c) = 32%nat;
  ok_key : length (config_wifi_key c) = 32%nat;
  ok_uri : length (config_lwm2m_uri c) = 128%nat;
  ok_id : length (config_lwm2m_psk_id c) = 128%nat;
  ok_psk : length (config_lwm2m_psk_key c) = 64%nat;
  ok_url : length (config_ntp_url c) = 64%nat }.

Lemma cleared_ok : config_ok cleared.
Proof. by split. Qed.

Lemma dest_len_ok f c : config_ok c -> Z.of_nat (length (get_field f c)) = dest_len f.
Proof. by intros []; destruct f; simpl; lia. Qed.

Lemma set_field_ok f b c : config_ok c -> length b = length (get_field f c) -> config_ok (set_field f b c).
Proof. intros [] Hb. destruct c, f; simpl in *; split; simpl; congruence. Qed.

Lemma set_ntp_url_ok b c : config_ok c -> length b = length (config_ntp_url c) -> config_ok (set_ntp_url b c).
Proof. intros [] Hb. split; simpl; congruence. Qed.

(** The copy of a value that follows its key. *)
Lemma copy_value_spec js toks i f c t :
  config_ok c -> fetch toks (i + 1) = Done t -> type t = JSMN_STRING ->
  0 <= start t <= end_ t -> end_ t <= Z.of_nat (length js) -> Z.of_nat (length js) < 2 ^ 31 ->
  Forall (fun c => c <> 0) (slice js (start t) (end_ t)) ->
  copy_value js toks i (Some f) c
  = Done (set_field f (fill (get_field f c) (slice js (start t) (end_ t))) c).
Proof.
  intros Hok Hf Hty Hs He Hmx Hnz. unfold copy_value. rewrite Hf. cbn [mbind outcome_bind].
  rewrite decide_True by done. rewrite u32_id by (unfold is_u32; lia). cbv zeta.
  assert (0 < dest_len f) by (destruct f; simpl; lia). pose proof (dest_len_ok f c Hok).
  by rewrite (strncpy_fill _ js _ (end_ t)) by
    (try done; destruct (Z.ltb_spec (dest_len f) (end_ t - start t)); lia).
Qed.

Lemma bind_fault {A B} (x : outcome A) (f : A -> outcome B) : x = Fault -> (a ← x; f a) = Fault.
Proof. by intros ->. Qed.

(** A copy longer than its destination writes past it. *)
Lemma copy_chars_overrun n js : forall s dest k,
  0 <= s -> s + Z.of_nat n <= Z.of_nat (length js) -> Forall (fun c => c <> 0) (slice js s (s + Z.of_nat n)) ->
  0 <= k <= Z.of_nat (length dest) -> Z.of_nat (length dest) < k + Z.of_nat n ->
  copy_chars n js s dest k false = Fault.
Proof.
  induction n as [|n IH]; intros s dest k Hs Hlen Hnz Hk Hd; [lia |]. cbn [copy_chars].
  destruct (fetch_in js s) as (c & Hc & ->); [lia |]. cbn [mbind outcome_bind].
  rewrite (slice_cons js s _ c) in Hnz by (done || lia). apply list.Forall_cons in Hnz as [Hc0 Hnz].
  replace (s + Z.of_nat (S n)) with (s + 1 + Z.of_nat n) in Hnz by lia.
  destruct (decide (k = Z.of_nat (length dest))) as [-> | Hne].
  - unfold store, fetch. destruct (Z.ltb_spec (Z.of_nat (length dest)) 0); [done |].
    by rewrite Nat2Z.id, lookup_ge_None_2.
  - destruct (fetch_in dest k) as (o & Ho & _); [lia |].
    rewrite (store_ok dest k _ o) by (done || lia). cbn [mbind outcome_bind].
    destruct (Z.eqb_spec c 0); [done |]. apply IH; rewrite ?length_insert; (done || lia).
Qed.

(** ** Safety of the walk on any parsed text *)

Section safety.
Context (js : bytes) (len : Z) (ts : list jsmntok).
Hypothesis Hlen : len <= Z.of_nat (length js).
Hypothesis Hmax : Z.of_nat (length js) < 2 ^ 31.
Hypothesis Hparsed : parsed js len ts.

(** Token [z] is a string that begins with [lit] and belongs to token [par]. *)
Definition named (lit : bytes) (par z : Z) : Prop :=
  0 <= z /\ exists u, ts !! Z.to_nat z = Some u /\ type u = JSMN_STRING /\ parent u = par /\
                     is_prefix lit (slice js (start u) (end_ u)) = true.

(** ... and is a member of the value of the root's member [lit1].  The code
    takes the token behind a key for the key's value. *)
Definition named_in (lit1 lit2 : bytes) (z : Z) : Prop := exists y, named lit1 0 y /\ named lit2 (y + 1) z.

(** The last token is a string in the value of ["wifi"], ["lwm2m"] or the
    ["psk"] of ["lwm2m"]: a name with no value. *)
Definition past_end : Prop :=
  exists t z, ts !! Nat.pred (length ts) = Some t /\ type t = JSMN_STRING /\ parent t = z + 1 /\
              (named lit_wifi 0 z \/ named lit_lwm2m 0 z \/ named_in lit_lwm2m lit_psk z).

(** A string longer than 64 in the array of the ["url"] of ["ntp"]. *)
Definition long_url : Prop :=
  exists i a t u, ts !! i = Some t /\ type t = JSMN_STRING /\ 64 < end_ t - start t /\ parent t = Z.of_nat a /\
                  ts !! a = Some u /\ type u = JSMN_ARRAY /\ named_in lit_ntp lit_url (parent u).

(** The indices that the walk has found. *)
Definition found (P : Z -> Prop) (z : Z) : Prop := z = INT8_MIN \/ P z.
Definition url_array (z : Z) : Prop :=
  0 <= z /\ exists u, ts !! Z.to_nat z = Some u /\ type u = JSMN_ARRAY /\ named_in lit_ntp lit_url (parent u).

Record keys_ok (k : keys) : Prop := {
  ok_wifi_key : found (named lit_wifi 0) (wifi_key k);
  ok_lwm2m_key : found (named lit_lwm2m 0) (lwm2m_key k);
  ok_ntp_key : found (named lit_ntp 0) (ntp_key k);
  ok_psk_key : found (named_in lit_lwm2m lit_psk) (lwm2m_psk_key k);
  ok_url_key : found (named_in lit_ntp lit_url) (ntp_url_key k);
  ok_url_array : found url_array (ntp_url_array k) }.

Lemma no_keys_ok : keys_ok no_keys.
Proof. split; by left. Qed.

Lemma string_tok i t :
  ts !! i = Some t -> type t = JSMN_STRING ->
  1 <= start t <= end_ t /\ end_ t < Z.of_nat (length js) /\
  js !! Z.to_nat (end_ t) = Some QUOTE /\
  Forall (fun c => c <> 0) (slice js (start t) (end_ t)).
Proof using Hlen Hparsed.
  intros Ht Hty. destruct Hparsed as [[He _] _]. destruct (He i t Ht) as [_ Hs Hend Htext].
  unfold tok_text in Htext. rewrite Hty in Htext. destruct Htext as (Hse & _ & HQ & Hb).
  split; [done |]. split; [|split; [done | by apply str_body_nonzero]].
  apply lookup_lt_Some in HQ. lia.
Qed.

(** A token's parent is a token's index or -1. *)
Lemma found_parent i t P z d :
  ts !! i = Some t -> 0 <= d <= 1 -> found P z -> z + d = parent t -> P z.
Proof using Hparsed.
  intros Ht Hd [-> | H] Hp; [|done]. exfalso. destruct Hparsed as [[He _] _]. destruct (He i t Ht).
  unfold INT8_MIN in *. lia.
Qed.

Lemma compare_ok i t lit :
  ts !! i = Some t -> type t = JSMN_STRING -> Forall (fun c => c <> QUOTE) lit ->
  strncmp_eq0 js (start t) lit = Done (is_prefix lit (slice js (start t) (end_ t))).
Proof using Hlen Hparsed.
  intros Ht Hty Hlit. destruct (string_tok i t Ht Hty) as (Hs & He & HQ & _).
  apply (strncmp_slice js (end_ t)); try done. lia.
Qed.

Lemma named_here i t lit par :
  ts !! i = Some t -> type t = JSMN_STRING -> parent t = par ->
  is_prefix lit (slice js (start t) (end_ t)) = true -> named lit par (Z.of_nat i).
Proof using. intros Ht Hty Hp Hl. split; [lia |]. exists t. by rewrite Nat2Z.id. Qed.

Lemma copy_value_safe i t z dest c :
  ts !! i = Some t -> type t = JSMN_STRING -> z + 1 = parent t -> config_ok c ->
  named lit_wifi 0 z \/ named lit_lwm2m 0 z \/ named_in lit_lwm2m lit_psk z ->
  (exists c', copy_value js ts (Z.of_nat i) dest c = Done c' /\ config_ok c') \/
  copy_value js ts (Z.of_nat i) dest c = Fault /\ past_end.
Proof using Hlen Hmax Hparsed.
  intros Ht Hty Hpar Hok Hz. destruct (decide (S i < length ts)%nat) as [Hin | Hout].
  - left. destruct (fetch_in ts (Z.of_nat i + 1)) as (n & Hn & Hf); [lia |].
    destruct dest as [f|].
    2:{ unfold copy_value. rewrite Hf. by eexists. }
    destruct (decide (type n = JSMN_STRING)) as [Hns | Hns].
    + destruct (string_tok _ n Hn Hns) as (Hs & He & _ & Hnz).
      rewrite (copy_value_spec js ts _ f c n) by (done || lia).
      eexists. split; [done |]. apply set_field_ok; [done | apply length_fill].
    + unfold copy_value. rewrite Hf. cbn [mbind outcome_bind].
      rewrite decide_False by done. by eexists.
  - right. unfold copy_value, fetch. destruct (Z.ltb_spec (Z.of_nat i + 1) 0); [lia |].
    rewrite (lookup_ge_None_2 ts) by lia. split; [done |].
    exists t, z. replace (Nat.pred (length ts)) with i by (apply lookup_lt_Some in Ht; lia).
    done.
Qed.

Ltac compare lit :=
  match goal with Ht : ts !! ?i = Some ?t, Hty : type ?t = JSMN_STRING |- _ =>
    rewrite (compare_ok i t lit Ht Hty) by (repeat constructor; discriminate); cbn [mbind outcome_bind];
    let H := fresh "Hpre" in destruct (is_prefix lit _) eqn:H end.
(** The key that is set is the token's, the others are as before. *)
Ltac keys_as_before :=
  match goal with Hk : keys_ok _ |- keys_ok _ => destruct Hk; split; cbn; try done; right end.

Lemma root_key_safe i t k :
  ts !! i = Some t -> type t = JSMN_STRING -> parent t = 0 -> keys_ok k ->
  exists k', root_key js (Z.of_nat i) (start t) k = Done k' /\ keys_ok k'.
Proof using Hlen Hparsed.
  intros Ht Hty Hp Hk. unfold root_key.
  compare lit_wifi; [eexists; split; [done |]; keys_as_before; by eapply named_here |].
  compare lit_lwm2m; [eexists; split; [done |]; keys_as_before; by eapply named_here |].
  compare lit_ntp; eexists; (split; [done |]); [keys_as_before; by eapply named_here | done].
Qed.

Lemma wifi_dest_safe i t :
  ts !! i = Some t -> type t = JSMN_STRING -> exists dest, wifi_dest js (start t) = Done dest.
Proof using Hlen Hparsed.
  intros Ht Hty. unfold wifi_dest. compare lit_ssid; [by eexists |]. compare lit_key; by eexists.
Qed.

Lemma psk_dest_safe i t :
  ts !! i = Some t -> type t = JSMN_STRING -> exists dest, psk_dest js (start t) = Done dest.
Proof using Hlen Hparsed.
  intros Ht Hty. unfold psk_dest. compare lit_id; [by eexists |]. compare lit_key; by eexists.
Qed.

Lemma lwm2m_dest_safe i t k :
  ts !! i = Some t -> type t = JSMN_STRING -> lwm2m_key k + 1 = parent t -> keys_ok k ->
  exists dest k', lwm2m_dest js (Z.of_nat i) (start t) k = Done (dest, k') /\ keys_ok k'.
Proof using Hlen Hparsed.
  intros Ht Hty Hp Hk. unfold lwm2m_dest.
  compare lit_uri; [by do 2 eexists |].
  compare lit_psk.
  { do 2 eexists. split; [done |]. pose proof (found_parent i t _ _ 1 Ht ltac:(lia) (ok_lwm2m_key _ Hk) Hp).
    keys_as_before. exists (lwm2m_key k). split; [done |]. by eapply named_here. }
  compare lit_bootstrap; by do 2 eexists.
Qed.

Lemma walk_token_safe i t k c :
  ts !! i = Some t -> keys_ok k -> config_ok c ->
  (exists k' c', walk_token js ts (Z.of_nat i) k c = Done (k', c') /\ keys_ok k' /\ config_ok c') \/
  walk_token js ts (Z.of_nat i) k c = Fault /\ (past_end \/ long_url).
Proof using Hlen Hmax Hparsed.
  intros Ht Hk Hok. unfold walk_token. rewrite (fetch_ok ts _ t) by (lia || by rewrite Nat2Z.id).
  cbn [mbind outcome_bind]. cbv zeta.
  destruct (bool_decide_reflect (type t = JSMN_STRING)) as [Hty | Hty].
  2:{ rewrite !andb_false_r. left. destruct (Z.eqb_spec (ntp_url_key k) (parent t)) as [Hp|]; [|by do 2 eexists].
      destruct (bool_decide_reflect (type t = JSMN_ARRAY)) as [Ha |]; [|by do 2 eexists]. do 2 eexists. split; [done |].
      split; [|done]. pose proof (found_parent i t _ _ 0 Ht ltac:(lia) (ok_url_key _ Hk) ltac:(lia)) as Hu.
      keys_as_before. split; [lia |]. exists t. rewrite Nat2Z.id, <- Hp. done. }
  rewrite !andb_true_r. destruct (Z.eqb_spec 0 (parent t)) as [Hp | _].
  { destruct (root_key_safe i t k Ht Hty ltac:(done) Hk) as (k1 & -> & Hk1). left. by do 2 eexists. }
  destruct (Z.eqb_spec (wifi_key k + 1) (parent t)) as [Hp | _].
  { pose proof (found_parent i t _ _ 1 Ht ltac:(lia) (ok_wifi_key _ Hk) Hp) as Hz.
    destruct (wifi_dest_safe i t Ht Hty) as (dest & ->). cbn [mbind outcome_bind].
    destruct (copy_value_safe i t (wifi_key k) dest c Ht Hty) as [(c' & -> & Hc') | [-> Hpe]];
      [done | done | by left | left; by do 2 eexists | right; auto]. }
  destruct (Z.eqb_spec (lwm2m_key k + 1) (parent t)) as [Hp | _].
  { pose proof (found_parent i t _ _ 1 Ht ltac:(lia) (ok_lwm2m_key _ Hk) Hp) as Hz.
    destruct (lwm2m_dest_safe i t k Ht Hty Hp Hk) as (dest & k1 & -> & Hk1). cbn [mbind outcome_bind].
    destruct (copy_value_safe i t (lwm2m_key k) dest c Ht Hty) as [(c' & -> & Hc') | [-> Hpe]];
      [done | done | by right; left | left; by do 2 eexists | right; auto]. }
  destruct (Z.eqb_spec (ntp_key k + 1) (parent t)) as [Hp | _].
  { pose proof (found_parent i t _ _ 1 Ht ltac:(lia) (ok_ntp_key _ Hk) Hp) as Hz.
    compare lit_url; left; do 2 eexists; (split; [done |]); [|done]. split; [|done].
    keys_as_before. exists (ntp_key k). split; [done |]. by eapply named_here. }
  destruct (bool_decide_reflect (type t = JSMN_ARRAY)) as [Ha |]; [by rewrite Hty in Ha |]. rewrite andb_false_r.
  destruct (Z.eqb_spec (ntp_url_array k) (parent t)) as [Hp | _].
  { destruct (string_tok i t Ht Hty) as (Hs & He & _ & Hnz).
    rewrite u32_id by (unfold is_u32; lia).
    destruct (Z.le_gt_cases (end_ t - start t) 64) as [Hfit | Hlong].
    - left. rewrite (strncpy_fill _ js _ (end_ t)); try done; try lia.
      + do 2 eexists. split; [done |]. split; [done |]. apply set_ntp_url_ok; [done | apply length_fill].
      + rewrite ok_url by done. lia.
    - right. split.
      + unfold strncpy_at. apply bind_fault, (copy_chars_overrun _ js); rewrite ?ok_url by done; try lia.
        rewrite Z2Nat.id by lia. by replace (start t + (end_ t - start t)) with (end_ t) by lia.
      + right. destruct (found_parent i t _ _ 0 Ht ltac:(lia) (ok_url_array _ Hk) ltac:(lia)) as (Hz & u & Hu & Hau & Hin).
        exists i, (Z.to_nat (ntp_url_array k)), t, u. split_and!; (done || lia). }
  destruct (Z.eqb_spec (lwm2m_psk_key k + 1) (parent t)) as [Hp | _].
  { pose proof (found_parent i t _ _ 1 Ht ltac:(lia) (ok_psk_key _ Hk) Hp) as Hz.
    destruct (psk_dest_safe i t Ht Hty) as (dest & ->). cbn [mbind outcome_bind].
    destruct (copy_value_safe i t (lwm2m_psk_key k) dest c Ht Hty) as [(c' & -> & Hc') | [-> Hpe]];
      [done | done | by right; right | left; by do 2 eexists | right; auto]. }
  left. by do 2 eexists.
Qed.

Lemma walk_safe n : forall i k c,
  (i + n = length ts)%nat -> keys_ok k -> config_ok c ->
  (exists c', walk n js ts (Z.of_nat i) k c = Done c' /\ config_ok c') \/
  walk n js ts (Z.of_nat i) k c = Fault /\ (past_end \/ long_url).
Proof using Hlen Hmax Hparsed.
  induction n as [|n IH]; intros i k c Hn Hk Hok; cbn [walk]; [left; by eexists |].
  destruct (lookup_lt_is_Some_2 ts i) as [t Ht]; [lia |].
  destruct (walk_token_safe i t k c Ht Hk Hok) as [(k' & c' & -> & Hk' & Hc') | [-> Hbad]]; [|by right].
  cbn [mbind outcome_bind]. replace (Z.of_nat i + 1) with (Z.of_nat (S i)) in * by lia.
  apply IH; [lia | done | done].
Qed.
End safety.

(** ** Loading, on every card and every file *)

Definition count (x : call) (log : list call) : nat := length (filter (fun y => y = x) log).

(** Each buffer that was allocated has been released once; the card was
    mounted, and the file closed and the card unmounted, once. *)
Definition released (log : list call) : Prop :=
  count MALLOC_BUFFER log = count FREE_BUFFER log /\
  count MALLOC_TOKENS log = count FREE_TOKENS log /\
  count MOUNT log = 1%nat /\ count CLOSE log = 1%nat /\ count UNMOUNT log = 1%nat.

(** What FatFs and the heap promise: a read delivers at most the file, and an
    allocation has the size asked for. *)
Record card_ok (sd : sd_card) (h : heap) : Prop := {
  card_size : Z.of_nat (length (read_data sd)) <= file_size sd < 2 ^ 31;
  heap_buffer : forall n b, alloc_buffer h n = Some b -> Z.of_nat (length b) = n;
  heap_tokens : forall n l, alloc_tokens h n = Some l -> Z.of_nat (length l) = n }.

(** The file in the buffer that was allocated for it. *)
Definition contents (sd : sd_card) (b : bytes) : bytes := read_data sd ++ drop (length (read_data sd)) b.

(** The file is tokenised to [n] tokens, counting without an array. *)
Definition token_count (sd : sd_card) (b : bytes) (n : Z) : Prop :=
  0 < n /\ exists p, jsmn_parse jsmn_init (contents sd b) (Z.of_nat (length (read_data sd))) None 0 = Done (n, p, None).

(** The tokens of the file are [ts], in the array allocated for as many. *)
Definition file_tokens (sd : sd_card) (h : heap) (b : bytes) (ts : list jsmntok) : Prop :=
  exists l p, token_count sd b (Z.of_nat (length ts)) /\ alloc_tokens h (Z.of_nat (length ts)) = Some l /\
    jsmn_parse jsmn_init (contents sd b) (Z.of_nat (length (read_data sd))) (Some l) (Z.of_nat (length ts))
    = Done (Z.of_nat (length ts), p, Some ts).

(** The ways loading can go wrong, once the file is open: there is no memory for
    its bytes; or it was read, and there is no memory for its tokens, or its
    tokens end with a name without a value, or have a long NTP address. *)
Definition load_hazard (sd : sd_card) (h : heap) : Prop :=
  mount_res sd = FR_OK /\ open_res sd = FR_OK /\
  match alloc_buffer h (file_size sd) with
  | None => read_data sd <> []
  | Some b => read_res sd = FR_OK /\
      ((exists n, token_count sd b n /\ alloc_tokens h n = None) \/
       exists ts, file_tokens sd h b ts /\ (past_end (contents sd b) ts \/ long_url (contents sd b) ts))
  end.

(** An empty file changes nothing. *)
Lemma empty_file h c : parse_and_walk h [] (Z.of_nat (length (@nil Z))) c = Done (c, None, []).
Proof. reflexivity. Qed.

Section load.
Context (sd : sd_card) (h : heap).
Hypothesis Hcard : card_ok sd h.
Local Abbreviation fRead := (Z.of_nat (length (read_data sd))).

(** The buffer after a read starts with what was delivered. *)
Lemma contents_size b :
  alloc_buffer h (file_size sd) = Some b ->
  fRead <= Z.of_nat (length (contents sd b)) /\ Z.of_nat (length (contents sd b)) < 2 ^ 31.
Proof using Hcard.
  intros Hb. pose proof (card_size _ _ Hcard). pose proof (heap_buffer _ _ Hcard _ _ Hb).
  unfold contents. rewrite length_app, length_drop. lia.
Qed.

Lemma parse_and_walk_outcome b c :
  alloc_buffer h (file_size sd) = Some b -> config_ok c ->
  (exists c' l log, parse_and_walk h (contents sd b) fRead c = Done (c', l, log) /\ config_ok c' /\
     log = match l with Some _ => [MALLOC_TOKENS] | None => [] end) \/
  parse_and_walk h (contents sd b) fRead c = Fault /\
    ((exists n, token_count sd b n /\ alloc_tokens h n = None) \/
     exists ts, file_tokens sd h b ts /\ (past_end (contents sd b) ts \/ long_url (contents sd b) ts)).
Proof using Hcard.
  intros Hb Hok. destruct (contents_size b Hb) as (Hlen & Hmax). unfold parse_and_walk, file_tokens, token_count.
  set (buf := contents sd b) in *.
  destruct (jsmn_parse_total buf fRead None 0) as (r & p & toks & Hr & Hsame & Hcases); [lia.. | done |].
  rewrite Hr. cbn [mbind outcome_bind]. destruct toks; [done |].
  destruct (Z.ltb_spec 0 r) as [Hpos | Hneg].
  - destruct (alloc_tokens h r) as [l|] eqn:Hl.
    + pose proof (heap_tokens _ _ Hcard _ _ Hl) as Hll.
      destruct Hcases as [He | _];
        [unfold jsmn_error, JSMN_ERROR_INVAL, JSMN_ERROR_PART, JSMN_ERROR_NOMEM in He; lia |].
      assert (r < 2 ^ 31) as Hr31 by (apply (count_bound buf fRead 0 r p None Hr); lia).
      rewrite u32_id by (unfold is_u32; lia).
      destruct (jsmn_parse_total buf fRead (Some l) r) as (r' & p' & toks' & Hr' & Hsame' & Hcases');
        [lia.. |].
      rewrite Hr'. cbn [mbind outcome_bind]. destruct toks' as [l'|]; [|done]. simpl in Hsame'.
      destruct Hcases' as [He | [Hr0 Hp]].
      { left. replace (Z.to_nat r') with 0%nat
          by (unfold jsmn_error, JSMN_ERROR_INVAL, JSMN_ERROR_PART, JSMN_ERROR_NOMEM in He; lia).
        cbn [walk mbind outcome_bind]. by do 3 eexists. }
      destruct (counting_pass buf fRead r ltac:(lia) ltac:(lia) l r p None) as (r2 & q2 & toks2 & Hr2 & Hcs);
        [lia | by rewrite <- Hr; apply counting_num | lia | lia | lia |].
      rewrite Hr' in Hr2. injection Hr2 as <- <- <-.
      unfold JSMN_ERROR_INVAL, JSMN_ERROR_PART in Hcs.
      assert (r' = r) as -> by lia. rewrite take_ge in Hp by lia.
      destruct (walk_safe buf fRead l' Hlen Hmax Hp (Z.to_nat r) 0 no_keys c) as [(c' & Hw & Hc') | [Hw Hbad]];
        [lia | apply no_keys_ok | done | |]; change (Z.of_nat 0) with 0 in Hw; rewrite Hw; cbn [mbind outcome_bind].
      * left. by do 3 eexists.
      * right. split; [done |]. right. exists l'. replace (Z.of_nat (length l')) with r by lia.
        split; [|done]. exists l, p'. split; [|done]. split; [done |]. by exists p.
    + right. split; [|left; exists r; split; [|done]; split; [done |]; by exists p].
      unfold jsmn_parse in *. rewrite (counting_num _ _ _ 0), Hr. cbn [mbind outcome_bind].
      destruct (Z.ltb_spec 0 r); [done | lia].
  - left. unfold jsmn_parse in *. rewrite (counting_num _ _ _ 0), Hr. cbn [mbind outcome_bind].
    destruct (Z.ltb_spec 0 r); [lia |]. by do 3 eexists.
Qed.

Lemma load_outcome c :
  config_ok c ->
  (exists c' log, uiso_load_config sd h c = Done (c', log) /\ config_ok c' /\ released log) \/
  uiso_load_config sd h c = Fault /\ load_hazard sd h.
Proof using Hcard.
  intros Hok. unfold uiso_load_config, load_hazard. pose proof (card_size _ _ Hcard) as Hs. cbv zeta.
  destruct (Z.eqb_spec (mount_res sd) FR_OK) as [Hm |]; [destruct (Z.eqb_spec (open_res sd) FR_OK) as [Ho |] |].
  2,3: left; repeat (rewrite ?Hm, ?(proj2 (Z.eqb_neq _ _)) by done; cbn [mbind outcome_bind Z.eqb FR_OK]); by do 2 eexists.
  destruct (Z.ltb_spec 0 (file_size sd)) as [Hsz | Hsz].
  - destruct (alloc_buffer h (file_size sd)) as [b|] eqn:Hb.
    + destruct (contents_size b Hb) as [Hlb _]. pose proof (heap_buffer _ _ Hcard _ _ Hb).
      unfold read_into. destruct (Z.ltb_spec (Z.of_nat (length b)) fRead); [lia |]. fold (contents sd b).
      cbn [mbind outcome_bind]. destruct (Z.eqb_spec (read_res sd) FR_OK).
      * destruct (parse_and_walk_outcome b c Hb Hok) as [(c' & l & log & -> & Hc' & ->) | [-> Hz]].
        -- left. cbn [mbind outcome_bind]. do 2 eexists. split; [done |]. split; [done |]. by destruct l.
        -- right. by split.
      * left. cbn [mbind outcome_bind]. by do 2 eexists.
    + destruct (read_data sd) as [|z data] eqn:Hd; cbn [read_into mbind outcome_bind].
      * left. destruct (read_res sd =? FR_OK); cbn [mbind outcome_bind]; [|by do 2 eexists].
        rewrite empty_file. by do 2 eexists.
      * right. done.
  - assert (read_data sd = []) as Hd by (apply nil_length_inv; lia).
    left. rewrite Hd. cbn [read_into mbind outcome_bind].
    destruct (read_res sd =? FR_OK); cbn [mbind outcome_bind]; [|by do 2 eexists].
    rewrite empty_file. by do 2 eexists.
Qed.
End load.

(** ** A configuration file and what is loaded from it *)

(** The settings as a document, in the layout the walk looks for. *)
Definition config_doc (ssid key uri id psk url : bytes) : list lexeme :=
  [LObject;
     LString lit_wifi; LColon; LObject;
       LString lit_ssid; LColon; LString ssid; LComma;
       LString lit_key; LColon; LString key; LEndObject; LComma;
     LString lit_lwm2m; LColon; LObject;
       LString lit_uri; LColon; LString uri; LComma;
       LString lit_psk; LColon; LObject;
         LString lit_id; LColon; LString id; LComma;
         LString lit_key; LColon; LString psk; LEndObject; LEndObject; LComma;
     LString lit_ntp; LColon; LObject;
       LString lit_url; LColon; LArray; LString url; LEndArray; LEndObject;
   LEndObject].

Definition config_shape : list shape :=
  [mk_shape JSMN_OBJECT (-1) false;
   mk_shape JSMN_STRING 0 false; mk_shape JSMN_OBJECT 1 false;
   mk_shape JSMN_STRING 2 false; mk_shape JSMN_STRING 3 false;
   mk_shape JSMN_STRING 2 false; mk_shape JSMN_STRING 5 false;
   mk_shape JSMN_STRING 0 false; mk_shape JSMN_OBJECT 7 false;
   mk_shape JSMN_STRING 8 false; mk_shape JSMN_STRING 9 false;
   mk_shape JSMN_STRING 8 false; mk_shape JSMN_OBJECT 11 false;
   mk_shape JSMN_STRING 12 false; mk_shape JSMN_STRING 13 false;
   mk_shape JSMN_STRING 12 false; mk_shape JSMN_STRING 15 false;
   mk_shape JSMN_STRING 0 false; mk_shape JSMN_OBJECT 17 false;
   mk_shape JSMN_STRING 18 false; mk_shape JSMN_ARRAY 19 false; mk_shape JSMN_STRING 20 false].

Lemma config_doc_shape ssid key uri id psk url :
  exists super, sh_run (config_doc ssid key uri id psk url) ([], -1) = Some (config_shape, super).
Proof. eexists. vm_compute. reflexivity. Qed.

(** Comparisons and copies on a token that reads a known text. *)
Lemma compare_reads js t body lit :
  tok_reads js t body -> Forall (fun c => c <> QUOTE) lit ->
  strncmp_eq0 js (start t) lit = Done (is_prefix lit body).
Proof.
  intros (Hs & Hb & HQ) Hlit. rewrite <- Hb. apply strncmp_slice; try done.
  apply lookup_lt_Some in HQ. lia.
Qed.

Lemma copy_reads js toks i f c t body :
  config_ok c -> fetch toks (i + 1) = Done t -> type t = JSMN_STRING -> tok_reads js t body ->
  Z.of_nat (length js) < 2 ^ 31 -> str_body body ->
  copy_value js toks i (Some f) c = Done (set_field f (fill (get_field f c) body) c).
Proof.
  intros Hok Hf Hty (Hs & Hb & HQ) Hmx Hbody. rewrite <- Hb.
  apply copy_value_spec; try done; rewrite ?Hb.
  - apply lookup_lt_Some in HQ. lia.
  - by apply str_body_nonzero.
Qed.

Definition loaded (ssid key uri id psk url : bytes) (c : config) : config :=
  mk_config (fill (config_wifi_ssid c) ssid) (fill (config_wifi_key c) key)
            (fill (config_lwm2m_uri c) uri) (fill (config_lwm2m_psk_id c) id)
            (fill (config_lwm2m_psk_key c) psk) (fill (config_ntp_url c) url).

Lemma walk_S n js ts i k c :
  walk (S n) js ts i k c = ('(k, c) ← walk_token js ts i k c; walk n js ts (i + 1) k c).
Proof. done. Qed.

Section roundtrip.
Context (ssid key uri id psk url : bytes).
Hypothesis Hssid : str_body ssid.
Hypothesis Hkey : str_body key.
Hypothesis Huri : str_body uri.
Hypothesis Hid : str_body id.
Hypothesis Hpsk : str_body psk.
Hypothesis Hurl : str_body url.
Hypothesis Hfit : (length url <= 64)%nat.
Local Abbreviation doc := (config_doc ssid key uri id psk url).
Local Abbreviation js := (doc_text doc).
Hypothesis Hmax : Z.of_nat (length js) < 2 ^ 31.

Lemma config_doc_ok : doc_ok doc.
Proof using Hssid Hkey Huri Hid Hpsk Hurl.
  apply doc_ok_plain; unfold config_doc; [|by repeat constructor]. repeat (constructor; [try done; try (repeat constructor; discriminate)|]). constructor.
Qed.

(** Evaluate the walk's conditions, which are about known indices. *)
Ltac eval_conditions :=
  repeat match goal with |- context [if ?b then ?x else ?y] =>
    let b' := eval vm_compute in b in
    lazymatch b' with
    | true => change (if b then x else y) with x
    | false => change (if b then x else y) with y
    end
  end.
(** One token: look it up, use what is known of it. *)
Ltac walk_step :=
  rewrite walk_S; unfold walk_token at 1;
  match goal with |- context [fetch ?l ?i] =>
    let n := eval vm_compute in (Z.to_nat i) in
    match eval cbn in (l !! n) with Some ?t =>
      rewrite (fetch_ok l i t) by (lia || reflexivity) end end;
  cbn [mbind outcome_bind]; cbv zeta;
  repeat match goal with
    | H : parent ?t = _ |- context [parent ?t] => rewrite H
    | H : type ?t = _ |- context [bool_decide (type ?t = _)] => rewrite H
    end;
  cbn [wifi_key lwm2m_key ntp_key lwm2m_psk_key ntp_url_key ntp_url_array no_keys set_wifi_key
       set_lwm2m_key set_ntp_key set_lwm2m_psk_key set_ntp_url_key set_ntp_url_array];
  eval_conditions.
Ltac walk_compare :=
  unfold root_key, wifi_dest, lwm2m_dest, psk_dest;
  repeat match goal with H : tok_reads ?J ?t ?body |- context [strncmp_eq0 ?J (start ?t) ?lit] =>
    rewrite (compare_reads J t body lit H) by (repeat constructor; discriminate);
    cbn [mbind outcome_bind]; eval_conditions end;
  cbn [mbind outcome_bind].
Ltac walk_copy body :=
  match goal with H : tok_reads ?J ?t body, Hty : type ?t = JSMN_STRING |- context [copy_value ?J ?l ?i (Some ?f) ?c] =>
    rewrite (copy_reads J l i f c t body) by
      (try done; try (apply fetch_ok; [lia | reflexivity]);
       repeat (apply set_field_ok; [|apply length_fill]); done);
    cbn [mbind outcome_bind] end.
Ltac walk_nocopy :=
  unfold copy_value;
  match goal with |- context [fetch ?l ?i] =>
    let n := eval vm_compute in (Z.to_nat i) in
    match eval cbn in (l !! n) with Some ?t =>
      rewrite (fetch_ok l i t) by (lia || reflexivity) end end;
  cbn [mbind outcome_bind].

Lemma walk_doc ts c :
  shape_of <$> ts = config_shape ->
  (forall i body t, doc_texts doc !! i = Some (Some body) -> ts !! i = Some t -> tok_reads js t body) ->
  config_ok c -> walk 22 js ts 0 no_keys c = Done (loaded ssid key uri id psk url c).
Proof using Hssid Hkey Huri Hid Hpsk Hurl Hfit Hmax.
  intros Hshape Htexts Hok.
  do 22 (destruct ts as [|? ts]; [done |]; injection Hshape as ? ? ? Hshape).
  destruct ts; [|done]. clear Hshape.
  pose proof (Htexts 1%nat _ _ eq_refl eq_refl). pose proof (Htexts 3%nat _ _ eq_refl eq_refl).
  pose proof (Htexts 4%nat _ _ eq_refl eq_refl). pose proof (Htexts 5%nat _ _ eq_refl eq_refl).
  pose proof (Htexts 6%nat _ _ eq_refl eq_refl). pose proof (Htexts 7%nat _ _ eq_refl eq_refl).
  pose proof (Htexts 9%nat _ _ eq_refl eq_refl). pose proof (Htexts 10%nat _ _ eq_refl eq_refl).
  pose proof (Htexts 11%nat _ _ eq_refl eq_refl). pose proof (Htexts 13%nat _ _ eq_refl eq_refl).
  pose proof (Htexts 14%nat _ _ eq_refl eq_refl). pose proof (Htexts 15%nat _ _ eq_refl eq_refl).
  pose proof (Htexts 16%nat _ _ eq_refl eq_refl). pose proof (Htexts 17%nat _ _ eq_refl eq_refl).
  pose proof (Htexts 19%nat _ _ eq_refl eq_refl). pose proof (Htexts 21%nat _ _ eq_refl eq_refl) as Hreads.
  clear Htexts. set (J := js) in *. clearbody J.
  do 3 (walk_step; walk_compare).
  walk_step; walk_compare; walk_copy ssid. walk_step; walk_compare.
  walk_step; walk_compare; walk_copy key. walk_step; walk_compare.
  do 2 (walk_step; walk_compare).
  walk_step; walk_compare; walk_copy uri. walk_step; walk_compare.
  walk_step; walk_compare; walk_nocopy. walk_step; walk_compare.
  walk_step; walk_compare; walk_copy id. walk_step; walk_compare.
  walk_step; walk_compare; walk_copy psk. walk_step; walk_compare.
  do 2 (walk_step; walk_compare). do 2 (walk_step; walk_compare). walk_step.
  destruct Hreads as (Hs & Hb & HQ). apply lookup_lt_Some in HQ.
  pose proof (length_slice J _ _ Hs ltac:(lia)) as Hl. rewrite Hb in Hl.
  rewrite u32_id by (unfold is_u32; lia).
  rewrite (strncpy_fill _ J _ (end_ j20)), Hb; try done; try lia.
  - cbn [mbind outcome_bind walk]. by destruct c.
  - rewrite Hb. by apply str_body_nonzero.
  - destruct c, Hok; simpl in *. lia.
Qed.

Lemma parse_and_walk_doc h l c :
  alloc_tokens h 22 = Some l -> length l = 22%nat -> config_ok c ->
  exists l', parse_and_walk h js (Z.of_nat (length js)) c
             = Done (loaded ssid key uri id psk url c, Some l', [MALLOC_TOKENS]).
Proof using Hssid Hkey Huri Hid Hpsk Hurl Hfit Hmax.
  intros Hl Hll Hok. destruct (config_doc_shape ssid key uri id psk url) as (super & Hsh).
  destruct (doc_shape _ _ _ config_doc_ok Hmax Hsh) as (m & Hrun & Hshape & Htexts).
  assert (length (m_toks m) = 22%nat) as Hn by (rewrite <- (length_fmap shape_of), Hshape; done).
  pose proof config_doc_ok as Hdoc. destruct (doc_count doc 0 Hdoc Hmax) as (p & Hcount).
  destruct (doc_parse doc m l Hdoc Hmax Hrun) as (p' & Hparse).
  { apply list.Forall_forall. intros t Ht. apply (list_elem_of_fmap_2 shape_of) in Ht.
    rewrite Hshape in Ht. change (is_open t) with (sh_open (shape_of t)).
    revert Ht. generalize (shape_of t). apply list.Forall_forall. by repeat constructor. }
  { lia. }
  unfold parse_and_walk. rewrite Hcount. cbn [mbind outcome_bind].
  change (0 <? doc_tokens doc) with true. cbv iota. change (doc_tokens doc) with 22. rewrite Hl.
  rewrite (u32_id 22) by (unfold is_u32; lia). rewrite Hn in Hparse. change (Z.of_nat 22) with 22 in Hparse.
  rewrite Hparse. cbn [mbind outcome_bind]. rewrite drop_ge, app_nil_r by lia.
  change (Z.to_nat 22) with 22%nat. rewrite (walk_doc (m_toks m) c Hshape Htexts Hok).
  by eexists.
Qed.

Lemma load_doc sd h c b l :
  card_ok sd h -> mount_res sd = FR_OK -> open_res sd = FR_OK -> read_res sd = FR_OK ->
  read_data sd = js -> file_size sd = Z.of_nat (length js) ->
  alloc_buffer h (file_size sd) = Some b -> alloc_tokens h 22 = Some l -> config_ok c ->
  exists log, uiso_load_config sd h c = Done (loaded ssid key uri id psk url c, log) /\ released log.
Proof using Hssid Hkey Huri Hid Hpsk Hurl Hfit Hmax.
  intros Hcard Hm Ho Hr Hd Hsz Hb Hl Hok.
  pose proof (heap_buffer _ _ Hcard _ _ Hb) as Hlb. pose proof (heap_tokens _ _ Hcard _ _ Hl) as Hll.
  destruct (parse_and_walk_doc h l c Hl ltac:(lia) Hok) as (l' & Hpw).
  unfold uiso_load_config. rewrite Hm, Ho, Hr. cbv zeta. cbn [Z.eqb FR_OK]. rewrite Hb.
  assert ((0 <? file_size sd) = true) as ->.
  { rewrite Hsz. pose proof (length_doc_text doc config_doc_ok) as Hpos. unfold config_doc in Hpos at 1. simpl length in Hpos at 1. lia. }
  rewrite Hd. unfold read_into. destruct (Z.ltb_spec (Z.of_nat (length b)) (Z.of_nat (length js))); [lia |].
  rewrite drop_ge, app_nil_r by lia. cbn [mbind outcome_bind Z.eqb]. rewrite Hpw.
  cbn [mbind outcome_bind]. eexists. split; [done |]. done.
Qed.
End roundtrip.

(** ** Theorems *)

(** A text shorter than a cleared array is followed by zeros there: read back
    as a C string it is the text. *)
Lemma fill_cleared n text :
  (length text <= n)%nat -> fill (replicate n 0) text = text ++ replicate (n - length text) 0.
Proof.
  intros Hn. unfold fill. rewrite length_replicate, take_ge, drop_replicate by done. done.
Qed.

(** C11: A configuration file in the loader's layout is loaded exactly: for any
    well-formed strings (the NTP address within its array), each configuration
    array afterwards holds the text written for it, cut to the array's size,
    and both buffers have been released. *)
Theorem config_roundtrip (ssid key uri id psk url : bytes) sd h c b l :
  str_body ssid -> str_body key -> str_body uri -> str_body id -> str_body psk -> str_body url ->
  (length url <= 64)%nat ->
  Z.of_nat (length (doc_text (config_doc ssid key uri id psk url))) < 2 ^ 31 ->
  card_ok sd h -> mount_res sd = FR_OK -> open_res sd = FR_OK -> read_res sd = FR_OK ->
  read_data sd = doc_text (config_doc ssid key uri id psk url) ->
  file_size sd = Z.of_nat (length (doc_text (config_doc ssid key uri id psk url))) ->
  alloc_buffer h (file_size sd) = Some b -> alloc_tokens h 22 = Some l -> config_ok c ->
  exists log, uiso_load_config sd h c = Done (loaded ssid key uri id psk url c, log) /\ released log.
Proof. intros. by eapply load_doc. Qed.

(** A heap with room, and a card with a given file. *)
Definition roomy : heap :=
  mk_heap (fun n => if n <? 0 then None else Some (replicate (Z.to_nat n) 170))
          (fun n => if n <? 0 then None else Some (replicate (Z.to_nat n) blank_tok)).
Definition card (data : bytes) : sd_card := mk_sd FR_OK FR_OK (Z.of_nat (length data)) FR_OK data.

Lemma card_roomy_ok data : Z.of_nat (length data) < 2 ^ 31 -> card_ok (card data) roomy.
Proof.
  intros Hd. split; simpl; [lia | |]; intros n l; destruct (Z.ltb_spec n 0); try done;
    intros [= <-]; rewrite length_replicate; lia.
Qed.

(** [home]/[secret] on [coap://a], identity [me] with key [QQ==], NTP server
    [ntp.org]. *)
Definition sample_home : bytes := [104; 111; 109; 101].
Definition sample_secret : bytes := [115; 101; 99; 114; 101; 116].
Definition sample_uri : bytes := [99; 111; 97; 112; 58; 47; 47; 97].
Definition sample_id : bytes := [109; 101].
Definition sample_psk : bytes := [81; 81; 61; 61].
Definition sample_url : bytes := [110; 116; 112; 46; 111; 114; 103].
Definition sample_file : bytes :=
  doc_text (config_doc sample_home sample_secret sample_uri sample_id sample_psk sample_url).

Example sample_load :
  exists log, uiso_load_config (card sample_file) roomy cleared
    = Done (mk_config (sample_home ++ replicate 28 0) (sample_secret ++ replicate 26 0)
              (sample_uri ++ replicate 120 0) (sample_id ++ replicate 126 0)
              (sample_psk ++ replicate 60 0) (sample_url ++ replicate 57 0), log).
Proof. eexists. vm_compute. reflexivity. Qed.

Lemma config_roundtrip_witness :
  exists log, uiso_load_config (card sample_file) roomy cleared
              = Done (loaded sample_home sample_secret sample_uri sample_id sample_psk sample_url cleared, log)
              /\ released log.
Proof.
  apply (config_roundtrip sample_home sample_secret sample_uri sample_id sample_psk sample_url
           (card sample_file) roomy cleared (replicate (length sample_file) 170) (replicate 22 blank_tok));
    try (repeat constructor; discriminate); try (vm_compute; reflexivity).
  apply card_roomy_ok. vm_compute. reflexivity.
Defined.

(** C18: Loading is safe up to four hazards.  On every card, file and heap it
    ends with all arrays at their size and both buffers released; or it goes
    wrong, and then the file was open and there is no memory for its bytes, or it
    was read and there is no memory for its tokens, or the last of its tokens is
    a name without a value in ["wifi"], ["lwm2m"] or the latter's ["psk"] (one
    token past the array is read), or a string longer than 64 is in the array of
    the ["url"] of ["ntp"] (the copy has no bound). *)
Theorem load_config_outcomes (sd : sd_card) (h : heap) (c : config) :
  card_ok sd h -> config_ok c ->
  (exists c' log, uiso_load_config sd h c = Done (c', log) /\ config_ok c' /\ released log) \/
  uiso_load_config sd h c = Fault /\ load_hazard sd h.
Proof. intros Hcard Hok. by apply load_outcome. Qed.

Lemma load_config_outcomes_witness :
  (exists c' log, uiso_load_config (card sample_file) roomy cleared = Done (c', log) /\
                  config_ok c' /\ released log) \/
  uiso_load_config (card sample_file) roomy cleared = Fault /\ load_hazard (card sample_file) roomy.
Proof.
  apply load_config_outcomes; [apply card_roomy_ok; vm_compute; reflexivity | exact cleared_ok].
Defined.

(** The sample file has none of the hazards. *)
Definition sample_file_tokens : list jsmntok :=
  match jsmn_parse jsmn_init sample_file (Z.of_nat (length sample_file)) (Some (replicate 22 blank_tok)) 22 with
  | Done (_, _, Some l) => l | _ => [] end.

Lemma sample_tokens_short i t : sample_file_tokens !! i = Some t -> end_ t - start t <= 64 \/ type t <> JSMN_STRING.
Proof.
  enough (Forall (fun t => end_ t - start t <= 64 \/ type t <> JSMN_STRING) sample_file_tokens) as H
    by exact (proj1 (list.Forall_lookup _ _) H i t).
  vm_compute. repeat (constructor; [first [by right | left; discriminate] |]). constructor.
Qed.

Lemma sample_file_safe : ~ load_hazard (card sample_file) roomy.
Proof.
  intros (_ & _ & H). unfold roomy in H at 1. cbn [alloc_buffer card file_size] in H.
  destruct (Z.ltb_spec (Z.of_nat (length sample_file)) 0); [lia |]. destruct H as (_ & [(n & (Hpos & _) & Ha) | (ts & Hts & Hbad)]).
  - unfold roomy in Ha. cbn in Ha. destruct (Z.ltb_spec n 0) as [Hneg |]; [clear - Hpos Hneg; lia | discriminate Ha].
  - set (b := replicate _ 170) in *.
    assert (contents (card sample_file) b = sample_file) as Hc by (vm_compute; reflexivity).
    destruct Hts as (l & p & (_ & p0 & Hn) & Hl & Hp). rewrite Hc in *. cbn [card read_data] in *.
    assert (Z.of_nat (length ts) = 22) as H22.
    { assert (exists q, jsmn_parse jsmn_init sample_file (Z.of_nat (length sample_file)) None 0 = Done (22, q, None)) as (q & Hq)
        by (eexists; vm_compute; reflexivity). rewrite Hq in Hn. by injection Hn. }
    rewrite H22 in *. assert (l = replicate 22 blank_tok) as -> by (vm_compute in Hl; by injection Hl).
    assert (ts = sample_file_tokens) as -> by (unfold sample_file_tokens; by rewrite Hp).
    destruct Hbad as [(t & z & Ht & Hty & Hpz & Hz) | (i & a & t & u & Ht & Hty & Hlong & _)].
    + vm_compute in Ht. injection Ht as <-. cbn [parent] in Hpz. assert (z = 19) as -> by lia.
      destruct Hz as [(_ & u & Hu & _ & Hpar & _) | [(_ & u & Hu & _ & Hpar & _) | (y & _ & _ & u & Hu & _ & _ & Hpre)]];
        vm_compute in Hu; injection Hu as <-; [discriminate Hpar | discriminate Hpar |]. vm_compute in Hpre. discriminate Hpre.
    + destruct (sample_tokens_short i t Ht) as [Hle | Hne];
        [exact (proj2 (Z.nlt_ge _ _) Hle Hlong) | exact (Hne Hty)].
Qed.

(** The hazards are real.  [{"wifi":{"ssid"}}] reads the token after the last. *)
Example last_key_overruns :
  uiso_load_config (card (doc_text [LObject; LString lit_wifi; LColon; LObject; LString lit_ssid;
                                    LEndObject; LEndObject])) roomy cleared = Fault.
Proof. vm_compute. reflexivity. Qed.

(** An NTP address of 65 characters writes past [config_ntp_url]. *)
Example long_ntp_url_overruns :
  uiso_load_config (card (doc_text (config_doc sample_home sample_secret sample_uri sample_id sample_psk
                                               (replicate 65 97)))) roomy cleared = Fault.
Proof. vm_compute. reflexivity. Qed.

(** When there is no memory for the tokens, the NULL array is read. *)
Example no_token_memory :
  uiso_load_config (card sample_file)
    (mk_heap (alloc_buffer roomy) (fun _ => None)) cleared = Fault.
Proof. vm_compute. reflexivity. Qed.

(** A card that cannot be mounted: the file object, never opened, is closed. *)
Example close_without_open :
  uiso_load_config (mk_sd 3 FR_OK 0 FR_OK []) roomy cleared = Done (cleared, [MOUNT; CLOSE; UNMOUNT]).
Proof. vm_compute. reflexivity. Qed.

(** A key of 32 characters or more fills its array: no terminator is left. *)
Example long_key_not_terminated :
  exists c log, uiso_load_config (card (doc_text (config_doc sample_home (replicate 40 97) sample_uri sample_id
                                                   sample_psk sample_url))) roomy cleared = Done (c, log) /\
    config_wifi_key c = replicate 32 97.
Proof. do 2 eexists. vm_compute. split; reflexivity. Qed.
End Config.
