(* ===== verification/Lwm2mObjects.v ===== *)
(** * The device, accelerometer, temperature and security objects

    Models [object_device.c], [object_accelerometer.c], [object_temperature.c]
    and [object_security.c] under [src/lwm2m/lightclient/]: the callbacks the
    LwM2M core calls, the values the sensors store, the objects' creation and
    release, and the connection parameters the transport asks the security
    object for.  The server object has its own file.

    A request is the pair of [*numDataP] and the array behind [dataArrayP];
    whether the array of a whole-instance read can be allocated is an argument.
    [None] is undefined behaviour: an access outside the array, or a string
    without terminator.  Base64 decoding belongs to mbedTLS and is the interface
    [Base64]. *)

From Stdlib Require Import String.
From S2P Require Import Prelude Lwm2mCore Jsmn JsmnDoc Config.

Module Lwm2mObjects.
Import Lwm2mCore.
Open Scope Z_scope.

(** ** Resources *)

Definition RES_O_MANUFACTURER : Z := 0.
Definition RES_O_MODEL_NUMBER : Z := 1.
Definition RES_O_SERIAL_NUMBER : Z := 2.
Definition RES_O_FIRMWARE_VERSION : Z := 3.
Definition RES_M_REBOOT : Z := 4.
Definition RES_O_BATTERY_LEVEL : Z := 9.
Definition RES_O_CURRENT_TIME : Z := 13.
Definition RES_M_BINDING_MODES : Z := 16.
Definition RES_O_HARDWARE_VERSION : Z := 18.
Definition RES_O_SOFTWARE_VERSION : Z := 19.

Definition device_resList : list Z :=
  [RES_O_MANUFACTURER; RES_O_MODEL_NUMBER; RES_O_SERIAL_NUMBER; RES_O_FIRMWARE_VERSION;
   RES_O_HARDWARE_VERSION; RES_O_SOFTWARE_VERSION; RES_O_BATTERY_LEVEL; RES_O_CURRENT_TIME;
   RES_M_BINDING_MODES].

Definition lwm2m_accel_x_value : Z := 5702.
Definition lwm2m_accel_y_value : Z := 5703.
Definition lwm2m_accel_z_value : Z := 5704.
Definition lwm2m_accel_sensor_units : Z := 5701.
Definition lwm2m_accel_application_type : Z := 5750.
Definition LWM2M_ACCELEROMETER_OBJECT_ID : Z := 3313.

Definition accel_resource_list : list Z :=
  [lwm2m_accel_x_value; lwm2m_accel_y_value; lwm2m_accel_z_value; lwm2m_accel_sensor_units;
   lwm2m_accel_application_type].

Definition lwm2m_temp_sensor_value : Z := 5700.
Definition lwm2m_temp_sensor_units : Z := 5701.
Definition lwm2m_temp_application_type : Z := 5750.
Definition LWM2M_TEMPERATURE_OBJECT_ID : Z := 3303.

Definition temp_resource_list : list Z :=
  [lwm2m_temp_sensor_value; lwm2m_temp_sensor_units; lwm2m_temp_application_type].

(** The core's identifiers of the security resources and modes. *)
Definition LWM2M_DEVICE_OBJECT_ID : Z := 3.
Definition lwm2m_security_uri : Z := 0.
Definition lwm2m_security_bootstrap : Z := 1.
Definition lwm2m_security_mode : Z := 2.
Definition lwm2m_security_own_public_identity : Z := 3.
Definition lwm2m_security_server_public_key : Z := 4.
Definition lwm2m_security_own_secret_key : Z := 5.
Definition lwm2m_security_sms_security_mode : Z := 6.
Definition LWM2M_SECURITY_SMS_KEY_PARAM_ID : Z := 7.
Definition LWM2M_SECURITY_SMS_SECRET_KEY_ID : Z := 8.
Definition LWM2M_SECURITY_SMS_SERVER_NUMBER_ID : Z := 9.
Definition LWM2M_SECURITY_SHORT_SERVER_ID : Z := 10.
Definition LWM2M_SECURITY_HOLD_OFF_ID : Z := 11.

Definition security_resList : list Z :=
  [lwm2m_security_uri; lwm2m_security_bootstrap; lwm2m_security_mode; lwm2m_security_own_public_identity;
   lwm2m_security_server_public_key; lwm2m_security_own_secret_key; lwm2m_security_sms_security_mode;
   LWM2M_SECURITY_SMS_KEY_PARAM_ID; LWM2M_SECURITY_SMS_SECRET_KEY_ID; LWM2M_SECURITY_SMS_SERVER_NUMBER_ID;
   LWM2M_SECURITY_SHORT_SERVER_ID; LWM2M_SECURITY_HOLD_OFF_ID].

Definition security_mode_psk : Z := 0.
Definition security_mode_certificate : Z := 2.
Definition security_mode_no_sec : Z := 3.

(** ** The device object *)

Section objects.
Context {D : Type} {DD : Lwm2mData D}.

(** [now] is [lwm2m_gettime()]. *)
Definition prv_set_value (now : Z) (d : D) : coap * D :=
  let id := data_id d in
  if id =? RES_O_MANUFACTURER then (COAP_205_CONTENT, data_encode_string (lit "Llobetian Tecnologica") d)
  else if id =? RES_O_MODEL_NUMBER then
    (COAP_205_CONTENT, data_encode_string (lit "XDK100 FreeRTOS+Wakaama+mbedTLS") d)
  else if id =? RES_O_SERIAL_NUMBER then (COAP_205_CONTENT, data_encode_string (lit "15-01021") d)
  else if id =? RES_O_FIRMWARE_VERSION then (COAP_205_CONTENT, data_encode_string (lit "v0.0.0") d)
  else if id =? RES_O_HARDWARE_VERSION then (COAP_205_CONTENT, data_encode_string (lit "Bosch XDK110") d)
  else if id =? RES_O_SOFTWARE_VERSION then (COAP_205_CONTENT, data_encode_string (lit "v0.0.0") d)
  else if id =? RES_O_BATTERY_LEVEL then (COAP_205_CONTENT, data_encode_int 100 d)
  else if id =? RES_O_CURRENT_TIME then (COAP_205_CONTENT, data_encode_int now d)
  else if id =? RES_M_REBOOT then (COAP_405_METHOD_NOT_ALLOWED, d)
  else if id =? RES_M_BINDING_MODES then (COAP_205_CONTENT, data_encode_string (lit "U") d)
  else (COAP_404_NOT_FOUND, d).

(** A record of several resource instances is refused. *)
Definition single (answer : D -> coap * D) (d : D) : coap * D :=
  if decide (data_kind d = LWM2M_TYPE_MULTIPLE_RESOURCE) then (COAP_404_NOT_FOUND, d) else answer d.

Definition prv_device_read (mem : bool) (now instanceId numData : Z) (ds : list D)
  : option (coap * list D) :=
  if negb (instanceId =? 0) then Some (COAP_404_NOT_FOUND, ds) else
  match whole mem device_resList numData ds with
  | None => Some (COAP_500_INTERNAL_SERVER_ERROR, [])
  | Some (numData, ds) => do_records (single (prv_set_value now)) numData ds
  end.

(** The switch of the discover loops: known identifiers are content. *)
Definition listed (ids : list Z) (d : D) : coap * D :=
  (if decide (data_id d ∈ ids) then COAP_205_CONTENT else COAP_404_NOT_FOUND, d).

Definition prv_device_discover (mem : bool) (instanceId numData : Z) (ds : list D)
  : option (coap * list D) :=
  if negb (instanceId =? 0) then Some (COAP_404_NOT_FOUND, ds) else
  let result := COAP_205_CONTENT in
  if numData =? 0
  then match whole mem device_resList numData ds with
       | None => Some (COAP_500_INTERNAL_SERVER_ERROR, [])
       | Some (_, ds) => Some (result, ds)
       end
  else for_records (listed device_resList) result numData ds.

Definition prv_device_execute (instanceId resourceId length : Z) : coap :=
  if negb (instanceId =? 0) then COAP_404_NOT_FOUND
  else if negb (length =? 0) then COAP_400_BAD_REQUEST
  else if resourceId =? RES_M_REBOOT then COAP_204_CHANGED
  else COAP_405_METHOD_NOT_ALLOWED.

(** The instance list of the single-instance objects is one cleared node, with
    identifier 0. *)
Definition get_object_device (h : heap) : option (object (list Z)) * heap :=
  let '(p, h) := malloc_object h in
  (('(o, i) ← p;
    Some (mk_object (Some o) LWM2M_DEVICE_OBJECT_ID 1 1 [0] [(0, i)] None [readFunc; executeFunc; discoverFunc])), h).

Definition free_object_device (o : object (list Z)) (h : heap) : heap :=
  let h := match userData o with Some p => lwm2m_free p h | None => h end in
  let h := free_all (nodes o).*2 h in
  match address o with Some p => lwm2m_free p h | None => h end.

(** ** The accelerometer *)

(** The last reading: three floats, by their bits. *)
Record accelerometer_values := mk_accel { accel_x : Z; accel_y : Z; accel_z : Z; accel_timestamp : Z }.

Definition update_accelerometer_values (x y z : Z) (v : accelerometer_values) : accelerometer_values :=
  mk_accel x y z (accel_timestamp v).

Definition accel_value (v : accelerometer_values) (d : D) : coap * D :=
  let id := data_id d in
  if id =? lwm2m_accel_x_value then (COAP_205_CONTENT, data_encode_float (accel_x v) d)
  else if id =? lwm2m_accel_y_value then (COAP_205_CONTENT, data_encode_float (accel_y v) d)
  else if id =? lwm2m_accel_z_value then (COAP_205_CONTENT, data_encode_float (accel_z v) d)
  else if id =? lwm2m_accel_sensor_units then (COAP_205_CONTENT, data_encode_string (lit "LSB") d)
  else if id =? lwm2m_accel_application_type then
    (COAP_205_CONTENT, data_encode_string (lit "Bosch Sensortec BMA280") d)
  else (COAP_404_NOT_FOUND, d).

(** The part that the accelerometer and the temperature have in common. *)
Definition read_values (ids : list Z) (value : D -> coap * D) (mem : bool) (numData : Z) (ds : list D)
  : option (coap * list D) :=
  match whole mem ids numData ds with
  | None => Some (COAP_500_INTERNAL_SERVER_ERROR, [])
  | Some (numData, ds) =>
      if numData <? 0 then Some (COAP_500_INTERNAL_SERVER_ERROR, ds)
      else for_records value COAP_NO_ERROR numData ds
  end.

Definition accel_read (v : accelerometer_values) (mem : bool) (instanceId numData : Z) (ds : list D)
  : option (coap * list D) :=
  if 0 <? instanceId then Some (COAP_404_NOT_FOUND, ds)
  else read_values accel_resource_list (accel_value v) mem numData ds.

(** The instance is not looked at. *)
Definition accel_discover (mem : bool) (numData : Z) (ds : list D) : option (coap * list D) :=
  if numData =? 0
  then match whole mem accel_resource_list numData ds with
       | None => Some (COAP_500_INTERNAL_SERVER_ERROR, [])
       | Some (_, ds) => Some (COAP_205_CONTENT, ds)
       end
  else for_records (listed accel_resource_list) COAP_NO_ERROR numData ds.

(** The values are cleared when the object is created; its user data points to
    them and is not a heap block. *)
Definition get_accelerometer_object (v : accelerometer_values) (h : heap)
  : option (object (list Z)) * accelerometer_values * heap :=
  let '(p, h) := malloc_object h in
  match p with
  | None => (None, v, h)
  | Some (o, i) =>
      (Some (mk_object (Some o) LWM2M_ACCELEROMETER_OBJECT_ID 1 1 [0] [(0, i)] None [discoverFunc; readFunc]),
       mk_accel 0 0 0 0, h)
  end.

Definition free_accelerometer_object (o : option (object (list Z))) (h : heap) : heap :=
  match o with
  | None => h
  | Some o =>
      let h := free_all (nodes o).*2 h in
      match address o with Some p => lwm2m_free p h | None => h end
  end.
End objects.

(** ** The temperature *)

(** The object and its only node lie in static memory. *)
Section temperature.
Context {L D : Type} {LL : Lwm2mList L Z id} {DD : Lwm2mData D}.

Record temperature := mk_temperature { value : Z; min_value : Z; max_value : Z }.

Definition write_temperature (v : Z) (t : temperature) : temperature :=
  mk_temperature v (min_value t) (max_value t).

Definition temp_value (t : temperature) (d : D) : coap * D :=
  let id := data_id d in
  if id =? lwm2m_temp_sensor_value then (COAP_205_CONTENT, data_encode_float (value t) d)
  else if id =? lwm2m_temp_sensor_units then (COAP_205_CONTENT, data_encode_string (lit "degree Celsius") d)
  else if id =? lwm2m_temp_application_type then
    (COAP_205_CONTENT, data_encode_string (lit "Bosch Sensortec BME280") d)
  else (COAP_404_NOT_FOUND, d).

Definition temperature_read (t : temperature) (mem : bool) (instanceId numData : Z) (ds : list D)
    (o : object L) : option (coap * list D) :=
  match list_find instanceId (instanceList o) with
  | None => Some (COAP_404_NOT_FOUND, ds)
  | Some _ => read_values temp_resource_list (temp_value t) mem numData ds
  end.

Definition get_temperature_object : object L :=
  mk_object None LWM2M_TEMPERATURE_OBJECT_ID 1 1 (list_add 0 list_nil) [] None [readFunc].
End temperature.

(** ** The security object *)

Record security_instance := mk_security_instance {
  instanceId : Z;
  uri : bytes;                             (* char uri[256] *)
  isBootstrap : bool;
  security_mode : Z;
  public_identity : bytes;                 (* char public_identity[128] *)
  public_identity_len : Z;
  server_identity : bytes;
  server_identity_len : Z;
  secret_key : bytes;                      (* uint8_t secret_key[64] *)
  secret_key_len : Z;
  shortID : Z;
  clientHoldOffTime : Z }.

(** [mbedtls_base64_decode] with room for [dlen] bytes: its result, the bytes it
    wrote at the start of the destination, and the length it stored. *)
Class Base64 := base64_decode : forall (dlen : Z) (src : bytes), Z * bytes * Z.

(** It never writes more than there is room for, and the length it stores is
    that of the decoded text, at most three bytes for four characters. *)
Class Base64Laws {B : Base64} := {
  base64_room dlen src : Z.of_nat (length (base64_decode dlen src).1.2) <= Z.max 0 dlen;
  base64_length dlen src : 0 <= (base64_decode dlen src).2 <= 3 * Z.of_nat (length src) / 4 }.

Section security.
Context {L D : Type} {LL : Lwm2mList L security_instance instanceId} {DD : Lwm2mData D} {B : Base64}.

(** One byte of zero stands for an empty value. *)
Definition encode_bytes (buf : bytes) (len : Z) (d : D) : D :=
  if 0 <? len then data_encode_opaque (take (Z.to_nat len) buf) d else data_encode_opaque [0] d.

Definition prv_get_value (t : security_instance) (d : D) : coap * D :=
  let id := data_id d in
  if id =? lwm2m_security_uri then (COAP_205_CONTENT, data_encode_string (cstring (uri t)) d)
  else if id =? lwm2m_security_bootstrap then (COAP_205_CONTENT, data_encode_bool (isBootstrap t) d)
  else if id =? lwm2m_security_mode then (COAP_205_CONTENT, data_encode_int (security_mode t) d)
  else if id =? lwm2m_security_own_public_identity then
    (COAP_205_CONTENT, encode_bytes (public_identity t) (public_identity_len t) d)
  else if id =? lwm2m_security_server_public_key then
    (COAP_205_CONTENT, encode_bytes (server_identity t) (server_identity_len t) d)
  else if id =? lwm2m_security_own_secret_key then
    (COAP_205_CONTENT, encode_bytes (secret_key t) (secret_key_len t) d)
  else if id =? lwm2m_security_sms_security_mode then (COAP_205_CONTENT, data_encode_int security_mode_no_sec d)
  else if id =? LWM2M_SECURITY_SMS_KEY_PARAM_ID then
    (COAP_205_CONTENT, data_encode_opaque (lit "12345" ++ [0]) d)
  else if id =? LWM2M_SECURITY_SMS_SECRET_KEY_ID then
    (COAP_205_CONTENT, data_encode_opaque (lit "1234567890abcdefghijklmnopqrstu" ++ [0]) d)
  else if id =? LWM2M_SECURITY_SMS_SERVER_NUMBER_ID then (COAP_205_CONTENT, data_encode_int 0 d)
  else if id =? LWM2M_SECURITY_SHORT_SERVER_ID then (COAP_205_CONTENT, data_encode_int (shortID t) d)
  else if id =? LWM2M_SECURITY_HOLD_OFF_ID then (COAP_205_CONTENT, data_encode_int (clientHoldOffTime t) d)
  else (COAP_404_NOT_FOUND, d).

Definition prv_security_read (mem : bool) (instId numData : Z) (ds : list D) (o : object L)
  : option (coap * list D) :=
  match list_find instId (instanceList o) with
  | None => Some (COAP_404_NOT_FOUND, ds)
  | Some t =>
      match whole mem security_resList numData ds with
      | None => Some (COAP_500_INTERNAL_SERVER_ERROR, [])
      | Some (numData, ds) => do_records (single (prv_get_value t)) numData ds
      end
  end.

(** [strncpy(dst, src, strlen(src))]; [None] when [src] has no terminator or
    [dst] has no room. *)
Definition copy_string (dst src : bytes) : option bytes :=
  n ← strlen src;
  if n <=? Z.of_nat (length dst) then Some (strncpy dst src (Z.to_nat n)) else None.

(** The instance made from the configuration. *)
Definition configured_instance (c : Config.config) : option security_instance :=
  u ← copy_string (replicate 256 0) (Config.config_get_lwm2m_uri c);
  p ← copy_string (replicate 128 0) (Config.config_get_lwm2m_psk_id c);
  plen ← strlen p;
  klen ← strlen (Config.config_get_lwm2m_psk_key c);
  let '(_, key, olen) := base64_decode 64 (take (Z.to_nat klen) (Config.config_get_lwm2m_psk_key c)) in
  Some (mk_security_instance 0 u false security_mode_psk p (plen + 1) [] 0
          (key ++ drop (length key) (replicate 64 0)) olen 123 10).

Definition get_security_object (c : Config.config) (h : heap) : option (option (object L) * heap) :=
  let '(p, h) := malloc_object h in
  match p with
  | None => Some (None, h)
  | Some (o, i) =>
      t ← configured_instance c;
      Some (Some (mk_object (Some o) 0 1 1 (list_add t list_nil) [(0, i)] None [readFunc]), h)
  end.

(** The nodes first, then the object. *)
Definition free_security_object (o : object L) (h : heap) : heap :=
  let h := free_all (nodes o).*2 h in
  match address o with Some p => lwm2m_free p h | None => h end.

(** What the transport asks for.  The address is copied to the heap; the key
    and the identity are lent. *)
Definition get_server_uri (o : object L) (secObjInstID : Z) (h : heap) : option (option (Z * bytes) * heap) :=
  match list_find secObjInstID (instanceList o) with
  | Some t => lwm2m_strdup (uri t) h
  | None => Some (None, h)
  end.

Definition get_connection_psk (o : object L) (secObjInstID : Z) : option (bytes * Z) :=
  t ← list_find secObjInstID (instanceList o); Some (secret_key t, secret_key_len t).

Definition get_public_identiy (o : object L) (secObjInstID : Z) : option (bytes * Z) :=
  t ← list_find secObjInstID (instanceList o); Some (public_identity t, public_identity_len t).

Definition get_security_mode (o : object L) (secObjInstID : Z) : Z :=
  match list_find secObjInstID (instanceList o) with
  | Some t => security_mode t
  | None => security_mode_no_sec
  end.
End security.

(** ** Requests *)

(** What the objects promise is written down here once more, as tables: the
    number of each resource and what a record of it holds, in the order in which
    a whole instance is answered. *)
Inductive content := CText (s : bytes) | COpaque (s : bytes) | CInt (v : Z) | CBool (b : bool) | CFloat (v : Z).
Abbreviation resources := (list (Z * content)).

Definition device_table (now : Z) : resources :=
  [(0, CText (lit "Llobetian Tecnologica")); (1, CText (lit "XDK100 FreeRTOS+Wakaama+mbedTLS"));
   (2, CText (lit "15-01021")); (3, CText (lit "v0.0.0")); (18, CText (lit "Bosch XDK110"));
   (19, CText (lit "v0.0.0")); (9, CInt 100); (13, CInt now); (16, CText (lit "U"))].

Definition accelerometer_table (v : accelerometer_values) : resources :=
  [(5702, CFloat (accel_x v)); (5703, CFloat (accel_y v)); (5704, CFloat (accel_z v));
   (5701, CText (lit "LSB")); (5750, CText (lit "Bosch Sensortec BMA280"))].

Definition temperature_table (t : temperature) : resources :=
  [(5700, CFloat (value t)); (5701, CText (lit "degree Celsius")); (5750, CText (lit "Bosch Sensortec BME280"))].

(** Key material is the stored bytes, and one byte of zero when there are none. *)
Definition key_material (buf : bytes) (len : Z) : content :=
  COpaque (if 0 <? len then take (Z.to_nat len) buf else [0]).

Definition security_table (t : security_instance) : resources :=
  [(0, CText (cstring (uri t))); (1, CBool (isBootstrap t)); (2, CInt (security_mode t));
   (3, key_material (public_identity t) (public_identity_len t));
   (4, key_material (server_identity t) (server_identity_len t));
   (5, key_material (secret_key t) (secret_key_len t)); (6, CInt 3);
   (7, COpaque (lit "12345" ++ [0])); (8, COpaque (lit "1234567890abcdefghijklmnopqrstu" ++ [0]));
   (9, CInt 0); (10, CInt (shortID t)); (11, CInt (clientHoldOffTime t))].

Fixpoint resource (T : resources) (i : Z) : option content :=
  match T with [] => None | (j, c) :: T => if i =? j then Some c else resource T i end.

(** The code a number gets that is not in the table: the device's reboot can be
    executed, not read. *)
Definition not_found (i : Z) : coap := COAP_404_NOT_FOUND.
Definition device_refuses (i : Z) : coap := if i =? 4 then COAP_405_METHOD_NOT_ALLOWED else COAP_404_NOT_FOUND.

Section requests.
Context {D : Type} {DD : Lwm2mData D}.

Definition record_of (c : content) (d : D) : D :=
  match c with
  | CText s => data_encode_string s d
  | COpaque s => data_encode_opaque s d
  | CInt v => data_encode_int v d
  | CBool b => data_encode_bool b d
  | CFloat v => data_encode_float v d
  end.

(** One record.  The device and the security object refuse a record of several
    resource instances ([strict]). *)
Definition look_up (T : resources) (refuse : Z -> coap) (strict : bool) (d : D) : coap * D :=
  if strict && bool_decide (data_kind d = LWM2M_TYPE_MULTIPLE_RESOURCE) then (COAP_404_NOT_FOUND, d)
  else match resource T (data_id d) with
       | Some c => (COAP_205_CONTENT, record_of c d)
       | None => (refuse (data_id d), d)
       end.

(** Reading from a table.  A request that names records is answered record by
    record ([answered]): 2.05 with all of them filled in, or the code of the
    first that is refused, with those before it filled in and the rest as they
    came.  A request for the whole instance answers with the whole table, or
    with 5.00 when there is no memory for its array. *)
Definition reads_table (T : resources) (refuse : Z -> coap) (strict : bool)
    (read : bool -> Z -> list D -> option (coap * list D)) : Prop :=
  (forall mem ds, ds <> [] -> read mem (Z.of_nat (length ds)) ds = Some (answered (look_up T refuse strict) ds))
  /\ read true 0 [] = Some (COAP_205_CONTENT, map (fun e => record_of (snd e) (data_new (fst e))) T)
  /\ read false 0 [] = Some (COAP_500_INTERNAL_SERVER_ERROR, []).

(** Discovering a table: the numbers asked for must all be in it; a request for
    the whole object answers with all numbers of the table. *)
Definition discovers_table (T : resources)
    (discover : bool -> Z -> list D -> option (coap * list D)) : Prop :=
  (forall mem ds, ds <> [] -> discover mem (Z.of_nat (length ds)) ds
     = Some (if bool_decide (Forall (fun d => is_Some (resource T (data_id d))) ds)
             then COAP_205_CONTENT else COAP_404_NOT_FOUND, ds))
  /\ discover true 0 [] = Some (COAP_205_CONTENT, map (fun e => data_new (fst e)) T)
  /\ discover false 0 [] = Some (COAP_500_INTERNAL_SERVER_ERROR, []).

(** The switches against the tables. *)
Ltac resource_cases d :=
  unfold look_up, single, not_found, device_refuses; simpl resource;
  try (destruct (decide (data_kind d = LWM2M_TYPE_MULTIPLE_RESOURCE)) as [Hk|Hk];
       [rewrite (bool_decide_eq_true_2 _ Hk); reflexivity | rewrite (bool_decide_eq_false_2 _ Hk)]);
  cbn [andb]; cbv delta [
    RES_O_MANUFACTURER RES_O_MODEL_NUMBER RES_O_SERIAL_NUMBER RES_O_FIRMWARE_VERSION RES_M_REBOOT
    RES_O_BATTERY_LEVEL RES_O_CURRENT_TIME RES_M_BINDING_MODES RES_O_HARDWARE_VERSION RES_O_SOFTWARE_VERSION
    lwm2m_accel_x_value lwm2m_accel_y_value lwm2m_accel_z_value lwm2m_accel_sensor_units
    lwm2m_accel_application_type lwm2m_temp_sensor_value lwm2m_temp_sensor_units lwm2m_temp_application_type
    lwm2m_security_uri lwm2m_security_bootstrap lwm2m_security_mode lwm2m_security_own_public_identity
    lwm2m_security_server_public_key lwm2m_security_own_secret_key lwm2m_security_sms_security_mode
    LWM2M_SECURITY_SMS_KEY_PARAM_ID LWM2M_SECURITY_SMS_SECRET_KEY_ID LWM2M_SECURITY_SMS_SERVER_NUMBER_ID
    LWM2M_SECURITY_SHORT_SERVER_ID LWM2M_SECURITY_HOLD_OFF_ID];
  repeat match goal with |- context [data_id d =? ?k] => destruct (Z.eqb_spec (data_id d) k) end;
  first [reflexivity | lia | congruence].

Lemma device_looks_up now (d : D) : single (prv_set_value now) d = look_up (device_table now) device_refuses true d.
Proof. unfold prv_set_value. resource_cases d. Qed.

Lemma accel_looks_up v (d : D) : accel_value v d = look_up (accelerometer_table v) not_found false d.
Proof. unfold accel_value. resource_cases d. Qed.

Lemma temp_looks_up t (d : D) : temp_value t d = look_up (temperature_table t) not_found false d.
Proof. unfold temp_value. resource_cases d. Qed.

Lemma encode_key_material buf len (d : D) : encode_bytes buf len d = record_of (key_material buf len) d.
Proof. unfold encode_bytes, key_material. simpl. by destruct (0 <? len). Qed.

Lemma security_looks_up t (d : D) : single (prv_get_value t) d = look_up (security_table t) not_found true d.
Proof. unfold single, prv_get_value. rewrite !encode_key_material. resource_cases d. Qed.

Lemma answered_ext (f g : D -> coap * D) ds : (forall d, f d = g d) -> answered f ds = answered g ds.
Proof. intros E. induction ds as [|d ds IH]; [done |]. simpl. by rewrite E, IH. Qed.

Context {DLAWS : Lwm2mDataLaws D}.

Lemma whole_records mem ids (ds : list D) :
  ds <> [] -> whole mem ids (Z.of_nat (length ds)) ds = Some (Z.of_nat (length ds), ds).
Proof. unfold whole. destruct ds; [done | simpl; by destruct (Z.eqb_spec (Z.of_nat (S (length ds))) 0)]. Qed.

(** A table whose numbers are different finds all its own entries. *)
Lemma look_up_all T refuse strict : NoDup T.*1 ->
  answered (look_up T refuse strict) (map data_new T.*1)
  = (COAP_205_CONTENT, map (fun e => record_of (snd e) (data_new (fst e))) T).
Proof using DLAWS.
  intros Hn. assert (forall e, e ∈ T -> look_up T refuse strict (data_new (fst e))
                                = (COAP_205_CONTENT, record_of (snd e) (data_new (fst e)))) as Hl.
  { intros [i c] Hin. unfold look_up. rewrite data_new_kind, data_new_id, (bool_decide_eq_false_2 (_ = _)), andb_false_r by done.
    simpl. assert (resource T i = Some c) as ->; [| done]. induction T as [|[j c'] T IH]; [by apply elem_of_nil in Hin |].
    apply list.NoDup_cons in Hn as [Hj Hn]. simpl. destruct (Z.eqb_spec i j) as [->|Hne].
    - apply elem_of_cons in Hin as [[= ->]|Hin]; [done |]. exfalso. apply Hj. by apply (list_elem_of_fmap_2 fst) in Hin.
    - apply elem_of_cons in Hin as [[= -> ->]|Hin]; [done |]. by apply IH. }
  revert Hl. generalize (look_up T refuse strict). intros f Hl. clear Hn. induction T as [|e T IH]; [done |].
  rewrite fmap_cons. cbn [map answered]. rewrite (Hl e) by apply list_elem_of_here. cbn [fst snd decide].
  rewrite IH; [done |]. intros x Hx. apply Hl. by apply list_elem_of_further.
Qed.

(** The two shapes of read callbacks. *)
Lemma do_reads_table T refuse strict ids (answer : D -> coap * D) :
  ids = T.*1 -> NoDup T.*1 -> T <> [] -> (forall d, answer d = look_up T refuse strict d) ->
  reads_table T refuse strict (fun mem numData ds =>
    match whole mem ids numData ds with
    | None => Some (COAP_500_INTERNAL_SERVER_ERROR, [])
    | Some (numData, ds) => do_records answer numData ds
    end).
Proof using DLAWS.
  intros -> Hn Hne Ha. split; [| split; [| done]].
  - intros mem ds Hds. rewrite whole_records by done. cbv iota beta.
    rewrite do_records_answered by done. by rewrite (answered_ext _ _ _ Ha).
  - simpl. rewrite <- (length_map data_new), do_records_answered, (answered_ext _ _ _ Ha), look_up_all; [done.. |].
    by destruct T.
Qed.

Lemma for_reads_table T refuse strict ids (answer : D -> coap * D) :
  ids = T.*1 -> NoDup T.*1 -> T <> [] -> (forall d, answer d = look_up T refuse strict d) ->
  reads_table T refuse strict (read_values ids answer).
Proof using DLAWS.
  intros -> Hn Hne Ha. unfold read_values. split; [| split; [| done]].
  - intros mem ds Hds. rewrite whole_records by done. cbv iota beta.
    destruct (Z.ltb_spec (Z.of_nat (length ds)) 0); [lia |].
    rewrite for_records_answered by (by right). by rewrite (answered_ext _ _ _ Ha).
  - simpl. destruct (Z.ltb_spec (Z.of_nat (length T.*1)) 0); [lia |].
    rewrite <- (length_map data_new), for_records_answered, (answered_ext _ _ _ Ha), look_up_all; [done.. |].
    right. by destruct T.
Qed.

Lemma answered_listed T (ds : list D) :
  answered (listed T.*1) ds
  = (if bool_decide (Forall (fun d => is_Some (resource T (data_id d))) ds)
     then COAP_205_CONTENT else COAP_404_NOT_FOUND, ds).
Proof.
  assert (forall i, i ∈ T.*1 <-> is_Some (resource T i)) as Hin.
  { intros i. induction T as [|[j c] T IH]; simpl; [rewrite elem_of_nil; split; [done | by intros [? [=]]] |].
    rewrite elem_of_cons, IH. destruct (Z.eqb_spec i j); [split; [by eexists | by left] | tauto]. }
  assert (forall d : D, listed T.*1 d = (if bool_decide (is_Some (resource T (data_id d)))
                                     then COAP_205_CONTENT else COAP_404_NOT_FOUND, d)) as Hl.
  { intros d. unfold listed. destruct (decide _) as [Hd|Hd]; rewrite Hin in Hd;
      [by rewrite bool_decide_eq_true_2 | by rewrite bool_decide_eq_false_2]. }
  induction ds as [|d ds IH]; [done |]. cbn [answered]. rewrite Hl. cbn [fst snd].
  rewrite (bool_decide_ext _ _ (list.Forall_cons _ d ds)), bool_decide_and.
  destruct (bool_decide (is_Some _)); cbn [andb]; [| by rewrite decide_False].
  rewrite decide_True, IH by done. by destruct (bool_decide _).
Qed.

Lemma discover_table T ids ret :
  ids = T.*1 ->
  discovers_table T (fun mem numData (ds : list D) =>
    if numData =? 0
    then match whole mem ids numData ds with
         | None => Some (COAP_500_INTERNAL_SERVER_ERROR, [])
         | Some (_, ds) => Some (COAP_205_CONTENT, ds)
         end
    else for_records (listed ids) ret numData ds).
Proof.
  intros ->. split; [| split; [| done]].
  - intros mem ds Hds. destruct (Z.eqb_spec (Z.of_nat (length ds)) 0) as [E|_]; [destruct ds; [done | simpl in E; lia] |].
    rewrite for_records_answered by (by right). by rewrite answered_listed.
  - simpl. do 2 f_equal. unfold fmap. by rewrite <- (list_fmap_compose fst data_new T).
Qed.
End requests.

Ltac distinct_numbers := match goal with |- NoDup ?l => exact (bool_decide_unpack (NoDup l) I) end.

(** C36: Every object answers requests as the table of its resources says.  For
    the device, the accelerometer, the temperature and each security instance: a
    request for records is answered record by record from the table, with 2.05
    and every value when all can be read, and otherwise with the code of the
    first that cannot, the records after it untouched (a record of several
    resource instances is refused with 4.04 by the device and the security
    object, the device's reboot with 4.05); a request for the whole instance
    answers with the whole table in order, or 5.00 without memory; discovery
    accepts exactly the numbers in the table; and an instance that does not
    exist is answered with 4.04.  The secret key is read like the other key
    material. *)
Theorem objects_are_tables {L L' D} {LL : Lwm2mList L security_instance instanceId} {LT : Lwm2mList L' Z id}
    {DD : Lwm2mData D} {DLAWS : Lwm2mDataLaws D} now v tmp (o : object L) (ot : object L') i j :
  (if i =? 0
   then reads_table (D := D) (device_table now) device_refuses true (fun mem n ds => prv_device_read mem now i n ds)
        /\ discovers_table (D := D) (device_table now) (fun mem n ds => prv_device_discover mem i n ds)
        /\ reads_table (D := D) (accelerometer_table v) not_found false (fun mem n ds => accel_read v mem i n ds)
   else (forall mem n (ds : list D), prv_device_read mem now i n ds = Some (COAP_404_NOT_FOUND, ds)
           /\ prv_device_discover mem i n ds = Some (COAP_404_NOT_FOUND, ds)
           /\ (0 < i -> accel_read v mem i n ds = Some (COAP_404_NOT_FOUND, ds))))
  /\ discovers_table (D := D) (accelerometer_table v) accel_discover
  /\ match list_find j (instanceList ot) with
     | Some _ => reads_table (D := D) (temperature_table tmp) not_found false
                   (fun mem n ds => temperature_read tmp mem j n ds ot)
     | None => forall mem n (ds : list D), temperature_read tmp mem j n ds ot = Some (COAP_404_NOT_FOUND, ds)
     end
  /\ match list_find j (instanceList o) with
     | Some t => reads_table (D := D) (security_table t) not_found true
                   (fun mem n ds => prv_security_read mem j n ds o)
     | None => forall mem n (ds : list D), prv_security_read mem j n ds o = Some (COAP_404_NOT_FOUND, ds)
     end.
Proof.
  split; [| split; [by apply discover_table | split]].
  - unfold prv_device_read, prv_device_discover, accel_read. destruct (Z.eqb_spec i 0) as [->|Hi].
    + split; [| split]; cbn [negb Z.eqb Z.ltb Z.compare].
      * apply do_reads_table; [done | distinct_numbers | done | apply device_looks_up].
      * by apply discover_table.
      * apply for_reads_table; [done | distinct_numbers | done | apply accel_looks_up].
    + intros mem n ds. split; [done | split; [done |]]. intros Hp. by destruct (Z.ltb_spec 0 i); [| lia].
  - unfold temperature_read. destruct (list_find j (instanceList ot)); [| done].
    apply for_reads_table; [done | distinct_numbers | done | apply temp_looks_up].
  - unfold prv_security_read. destruct (list_find j (instanceList o)) as [t|]; [| done].
    apply do_reads_table; [done | distinct_numbers | done | apply security_looks_up].
Qed.

(** ** From the configuration file to the connection *)

Lemma copy_string_cleared n a b :
  Forall (fun c => c <> 0) a -> (length a <= n)%nat ->
  copy_string (replicate n 0) (a ++ 0 :: b) = Some (a ++ replicate (n - length a) 0).
Proof.
  intros Ha Hn. unfold copy_string. rewrite strlen_app by done. cbn [mbind option_bind].
  rewrite length_replicate. destruct (Z.leb_spec (Z.of_nat (length a)) (Z.of_nat n)); [| lia].
  unfold strncpy. rewrite Nat2Z.id, drop_replicate. f_equal. f_equal.
  clear Hn H. induction Ha as [|c a Hc _ IH]; [done |]. simpl. destruct (Z.eqb_spec c 0); [done |]. by rewrite IH.
Qed.

(** A text shorter than its cleared array leaves a terminator. *)
Lemma fill_terminated n text :
  (length text < n)%nat -> Config.fill (replicate n 0) text = text ++ 0 :: replicate (n - length text - 1) 0.
Proof.
  intros Hn. rewrite Config.fill_cleared by lia. destruct (n - length text)%nat as [|k] eqn:E; [lia |].
  simpl. by rewrite Nat.sub_0_r.
Qed.

Lemma strlen_cleared n a :
  Forall (fun c => c <> 0) a -> (length a < n)%nat ->
  strlen (a ++ replicate (n - length a) 0) = Some (Z.of_nat (length a)).
Proof.
  intros Ha Hn. replace (n - length a)%nat with (S (n - length a - 1)) by lia. by apply strlen_app.
Qed.

Section provisioning.
Context {L : Type} {LL : Lwm2mList L security_instance instanceId} {LLAWS : Lwm2mListLaws L security_instance instanceId}.
Context {B : Base64}.

(** The instance the configuration gives, and the lengths its arrays keep. *)
Definition instance_of (uri id key : bytes) (olen : Z) : security_instance :=
  mk_security_instance 0 (uri ++ replicate (256 - length uri) 0) false security_mode_psk
    (id ++ replicate (128 - length id) 0) (Z.of_nat (length id) + 1) [] 0
    (key ++ drop (length key) (replicate 64 0)) olen 123 10.

Lemma configured_loaded (ssid key uri id psk url : bytes) :
  Jsmn.str_body uri -> Jsmn.str_body id -> Jsmn.str_body psk ->
  (length uri < 128)%nat -> (length id < 128)%nat -> (length psk < 64)%nat ->
  configured_instance (Config.loaded ssid key uri id psk url Config.cleared)
  = let '(_, k, olen) := base64_decode 64 psk in Some (instance_of uri id k olen).
Proof.
  intros Hu%Config.str_body_nonzero Hi%Config.str_body_nonzero Hp%Config.str_body_nonzero Lu Li Lp.
  unfold configured_instance, Config.loaded, Config.cleared, Config.config_get_lwm2m_uri,
    Config.config_get_lwm2m_psk_id, Config.config_get_lwm2m_psk_key.
  cbn [Config.config_lwm2m_uri Config.config_lwm2m_psk_id Config.config_lwm2m_psk_key].
  rewrite !fill_terminated, !copy_string_cleared by (done || lia). cbn [mbind option_bind].
  rewrite strlen_cleared by done. cbn [mbind option_bind].
  rewrite strlen_app by done. cbn [mbind option_bind].
  rewrite Nat2Z.id, take_app_length. by destruct (base64_decode 64 psk) as [[r k] olen].
Qed.

(** The security object made of an instance. *)
Definition security_object (o i : Z) (t : security_instance) : object L :=
  mk_object (Some o) 0 1 1 (list_add t list_nil) [(0, i)] None [readFunc].

Lemma security_object_find o i t : instanceId t = 0 -> list_find 0 (instanceList (security_object o i t)) = Some t.
Proof using LLAWS.
  intros Ht. simpl. rewrite list_find_add; [by rewrite Ht | apply list_wf_nil | apply list_find_nil].
Qed.

(** What the object lends to the transport. *)
Lemma security_object_lends o i uri id key olen h :
  Forall (fun c => c <> 0) uri -> (length uri < 256)%nat ->
  let s := security_object o i (instance_of uri id key olen) in
  get_server_uri s 0 h = Some (let '(p, h) := lwm2m_malloc h in (p ← p; Some (p, uri ++ [0]), h))
  /\ get_connection_psk s 0 = Some (key ++ drop (length key) (replicate 64 0), olen)
  /\ get_public_identiy s 0 = Some (id ++ replicate (128 - length id) 0, Z.of_nat (length id) + 1)
  /\ get_security_mode s 0 = security_mode_psk.
Proof using LLAWS.
  intros Hu Lu s. unfold get_server_uri, get_connection_psk, get_public_identiy, get_security_mode.
  pose proof (security_object_find o i (instance_of uri id key olen) eq_refl) as Hf. fold s in Hf. rewrite Hf.
  split; [| done]. unfold lwm2m_strdup, instance_of. cbn [Lwm2mObjects.uri]. rewrite strlen_cleared by done.
  cbn [mbind option_bind]. replace (Z.of_nat (length uri) + 1 - 1) with (Z.of_nat (length uri)) by lia.
  rewrite Nat2Z.id, take_app_length. by destruct (lwm2m_malloc h).
Qed.

(** The lengths stay within the arrays: what is read of an instance lies inside
    it, whatever the configuration holds. *)
Lemma strlen_lt b n : strlen b = Some n -> 0 <= n < Z.of_nat (length b).
Proof using. intros (-> & ?%lookup_lt_Some & _)%strlen_spec. lia. Qed.

Lemma length_copy_string dst src b : copy_string dst src = Some b -> length b = length dst.
Proof using.
  unfold copy_string. destruct (strlen src) as [n|] eqn:E; [| done]. apply strlen_lt in E. cbn [mbind option_bind].
  destruct (Z.leb_spec n (Z.of_nat (length dst))); [| done]. intros [= <-]. unfold strncpy.
  rewrite length_app, length_strncpy_bytes, length_drop. lia.
Qed.

Lemma configured_lengths {BL : Base64Laws} c t :
  Config.config_ok c -> configured_instance c = Some t ->
  public_identity_len t <= 128 /\ secret_key_len t <= 64
  /\ length (uri t) = 256%nat /\ length (public_identity t) = 128%nat /\ length (secret_key t) = 64%nat.
Proof using.
  intros Hc. pose proof (Config.dest_len_ok Config.LWM2M_PSK_KEY c Hc) as Hk. simpl in Hk.
  unfold configured_instance, Config.config_get_lwm2m_psk_key.
  destruct (copy_string (replicate 256 0) _) as [u|] eqn:Eu; [| done].
  destruct (copy_string (replicate 128 0) _) as [p|] eqn:Ep; [| done]. cbn [mbind option_bind].
  destruct (strlen p) as [plen|] eqn:El; [| done]. cbn [mbind option_bind].
  destruct (strlen (Config.config_lwm2m_psk_key c)) as [klen|] eqn:Ek; [| done]. cbn [mbind option_bind].
  set (src := take (Z.to_nat klen) (Config.config_lwm2m_psk_key c)).
  pose proof (base64_room 64 src) as Hr. pose proof (base64_length 64 src) as Hl.
  apply length_copy_string in Eu, Ep. apply strlen_lt in El, Ek. rewrite length_replicate in *.
  assert (length src <= 64)%nat as Hs by (unfold src; rewrite length_take; lia).
  destruct (base64_decode 64 src) as [[r k] olen]. cbn [fst snd] in Hr, Hl. intros E. apply (inj Some) in E. subst t.
  cbn [public_identity_len secret_key_len uri public_identity secret_key].
  assert (3 * Z.of_nat (length src) / 4 <= 64) by (apply Z.div_le_upper_bound; lia).
  rewrite length_app, length_drop, length_replicate. split_and!; lia.
Qed.
End provisioning.

(** ** Concrete runs *)

Import Lwm2mCore.Plain.

Module Example.
#[export] Instance security_list : Lwm2mList (list security_instance) security_instance instanceId :=
  plain_list instanceId.
#[export] Instance security_list_laws : Lwm2mListLaws (list security_instance) security_instance instanceId :=
  plain_list_laws instanceId.
#[export] Instance node_list : Lwm2mList (list Z) Z id := plain_list id.

(** The standard alphabet, and a decoder of groups of four characters. *)
Definition sextet (c : Z) : option Z :=
  if (65 <=? c) && (c <=? 90) then Some (c - 65)
  else if (97 <=? c) && (c <=? 122) then Some (c - 71)
  else if (48 <=? c) && (c <=? 57) then Some (c + 4)
  else if c =? 43 then Some 62 else if c =? 47 then Some 63 else None.

Fixpoint groups (src : bytes) : bytes :=
  match src with
  | a :: b :: c :: d :: src =>
      match sextet a, sextet b, sextet c, sextet d with
      | Some a, Some b, Some c, Some d =>
          (a * 4 + b / 16) :: (b mod 16 * 16 + c / 4) :: (c mod 4 * 64 + d) :: groups src
      | Some a, Some b, Some c, None => [a * 4 + b / 16; b mod 16 * 16 + c / 4]
      | Some a, Some b, None, _ => [a * 4 + b / 16]
      | _, _, _, _ => []
      end
  | _ => []
  end.

#[export] Instance decoder : Base64 := fun dlen src =>
  let out := take (Z.to_nat dlen) (groups src) in (0, out, Z.of_nat (length out)).

Lemma length_groups n src : (length src <= n)%nat -> 4 * Z.of_nat (length (groups src)) <= 3 * Z.of_nat (length src).
Proof.
  revert src. induction n as [|n IH]; intros [|a [|b [|c [|d src]]]] Hn; simpl in Hn; try (simpl; lia).
  cbn [groups]. specialize (IH src ltac:(lia)).
  destruct (sextet a), (sextet b), (sextet c), (sextet d); cbn [length]; lia.
Qed.

#[export] Instance decoder_laws : Base64Laws.
Proof.
  split; intros dlen src; unfold base64_decode, decoder; cbn [fst snd]; rewrite length_take.
  - lia.
  - pose proof (length_groups (length src) src (le_n _)). split; [lia |]. apply Z.div_le_lower_bound; lia.
Qed.

(** [TWFu] is [Man], [QQ==] is [A]. *)
Example decoder_runs :
  base64_decode 64 (lit "TWFu") = (0, lit "Man", 3) /\ base64_decode 64 (lit "QQ==") = (0, lit "A", 1).
Proof. split; vm_compute; reflexivity. Qed.

Definition sample_instance : security_instance := instance_of (lit "coaps://h:5684") (lit "me") (lit "A") 1.
Definition sample_security : object (list security_instance) := security_object 0 1 sample_instance.
End Example.
Import Example.

(** A request for the model, the reboot and the serial number of the device. *)
Example device_answers :
  prv_device_read (D := Z * Plain.value) true 5 0 3 [(1, Plain.VNone); (4, Plain.VNone); (2, Plain.VNone)]
  = Some (COAP_405_METHOD_NOT_ALLOWED,
          [(1, Plain.VString (lit "XDK100 FreeRTOS+Wakaama+mbedTLS")); (4, Plain.VNone); (2, Plain.VNone)]).
Proof. vm_compute. reflexivity. Qed.

Lemma objects_are_tables_witness :
  reads_table (D := Z * Plain.value) (security_table sample_instance) not_found true
    (fun mem n ds => prv_security_read mem 0 n ds sample_security)
  /\ reads_table (D := Z * Plain.value) (temperature_table (mk_temperature 5 0 0)) not_found false
    (fun mem n ds => temperature_read (mk_temperature 5 0 0) mem 0 n ds get_temperature_object).
Proof.
  destruct (objects_are_tables (D := Z * Plain.value) 1700000000 (mk_accel 1 2 3 0) (mk_temperature 5 0 0)
              sample_security get_temperature_object 0 0) as (_ & _ & H1 & H2).
  exact (conj H2 H1).
Defined.

(** Reading the secret key returns it. *)
Example secret_key_is_readable :
  prv_security_read (D := Z * Plain.value) true 0 1 [(5, Plain.VNone)] sample_security
  = Some (COAP_205_CONTENT, [(5, Plain.VOpaque (lit "A"))]).
Proof. vm_compute. reflexivity. Qed.

(** An address of 128 characters fills its configuration array: there is no
    terminator, and [strlen] reads past the array. *)
Example long_uri_not_terminated :
  configured_instance (Config.loaded [] [] (replicate 128 97) [] [] [] Config.cleared) = None.
Proof. vm_compute. reflexivity. Qed.
End Lwm2mObjects.
