(* ===== verification/Lwm2mConnection.v ===== *)
(** * The transport of the LwM2M client

    Models [src/lwm2m/connection.c], which gives the LwM2M core its sessions:
    a list of connection nodes that all refer to the one network context of the
    LwM2M service, created, used and closed through [Network.v].  The nodes are
    blocks of the heap of [Lwm2mCore.v]. *)

From S2P Require Import Prelude Platform Network Lwm2mCore.
Import Network.

Module Lwm2mConnection.
Import Lwm2mCore.

(** A node, by its block.  Its context is always that of
    [wifi_service_lwm2m_socket], and [next] is the order of the list. *)
Record connection := lwm2m_node { block : Z }.
#[export] Instance connection_eq_dec : EqDecision connection.
Proof. solve_decision. Defined.

Section Transport.
Context {W : Type} {SL : SimpleLink W} {TLS : MbedTLS W}.
Implicit Types n : net W.

(** The new node, or [None] for the null pointer, and the list: a list that is
    not empty is extended in place, an empty one is left to the caller. *)
Definition connection_create (fuel : nat) (now : Z) (host port : bytes) (proto : uiso_protocol)
    (connList : list connection) (h : heap) (c : uiso_sockets) n :
    option (option connection * list connection * heap * uiso_sockets * net W) :=
  let '(p, h) := lwm2m_malloc h in
  match p with
  | None => Some (None, connList, h, c, n)
  | Some p =>
    '(ret, c, n) ← uiso_create_network_connection fuel now host port None proto c n;
    if 0 <=? ret
    then Some (Some (lwm2m_node p),
               match connList with [] => [] | _ => connList ++ [lwm2m_node p] end, h, c, n)
    else Some (None, connList, lwm2m_free p h, c, n)
  end.

(** The loop closes the context of a node, moves to the next node if there is
    one, and goes on while the node reached has a successor. *)
Fixpoint free_loop (fuel : nat) (connList : list connection) (c : uiso_sockets) n :
    option (uiso_sockets * net W) :=
  match connList with
  | [] => Some (c, n)
  | _ :: rest =>
    '(_, c, n) ← uiso_close_network_connection fuel c n;
    match rest with
    | _ :: _ :: _ => free_loop fuel rest c n
    | _ => Some (c, n)
    end
  end.

Definition connection_free (fuel : nat) (connList : list connection) (c : uiso_sockets) n :
    option (uiso_sockets * net W) := free_loop fuel connList c n.

Definition connection_send (fuel : nat) (now now' : Z) (c : uiso_sockets) (buf : bytes) n :
    option (Z * uiso_sockets * net W) :=
  '(nbSent, c, n) ← uiso_network_send fuel now now' c buf n;
  Some (if nbSent <? 0 then -1 else nbSent, c, n).

Definition lwm2m_buffer_send (fuel : nat) (now now' : Z) (session : option connection) (c : uiso_sockets)
    (buf : bytes) n : option (coap * uiso_sockets * net W) :=
  match session with
  | None => Some (COAP_500_INTERNAL_SERVER_ERROR, c, n)
  | Some _ =>
    '(r, c, n) ← connection_send fuel now now' c buf n;
    Some (if r =? -1 then COAP_500_INTERNAL_SERVER_ERROR else COAP_NO_ERROR, c, n)
  end.

(** Every two sessions are equal: there is only one peer. *)
Definition lwm2m_session_is_equal (s1 s2 : option connection) : bool := true.

(** ** Closing *)

Lemma close_idle_account fuel c n ret c' n' :
  sd c <= 0 -> uiso_close_network_connection fuel c n = Some (ret, c', n') ->
  sd c' <= 0 /\ exists l, trace n' = trace n ++ l /\ opened l = [] /\ closed l = [].
Proof.
  intros Hsd (Hsd' & l & Ht & Ho & Hc)%close_account. split; [done |]. exists l. split_and!; [done | done |].
  rewrite Hc. by destruct (Z.ltb_spec 0 (sd c)); [lia |].
Qed.

Lemma free_loop_idle fuel connList c n c' n' :
  sd c <= 0 -> free_loop fuel connList c n = Some (c', n') ->
  sd c' <= 0 /\ exists l, trace n' = trace n ++ l /\ opened l = [] /\ closed l = [].
Proof.
  revert c n. induction connList as [|a rest IH]; intros c n Hsd; cbn [free_loop].
  - intros [= <- <-]. split; [done |]. exists []. by rewrite app_nil_r.
  - destruct (uiso_close_network_connection fuel c n) as [[[r c1] n1]|] eqn:E; [| done]. cbn [mbind option_bind].
    apply close_idle_account in E as (Hsd1 & l1 & Ht1 & Ho1 & Hc1); [| done].
    destruct rest as [|b [|d rest]]; [intros [= <- <-]; eauto | intros [= <- <-]; eauto |].
    intros (Hsd' & l2 & Ht2 & Ho2 & Hc2)%IH; [| done]. split; [done |]. exists (l1 ++ l2).
    rewrite Ht2, Ht1, <- app_assoc, opened_app, closed_app, Ho1, Ho2, Hc1, Hc2. done.
Qed.

(** Freeing a non-empty list closes the socket of the service exactly once and
    leaves no valid descriptor, however many nodes the list has. *)
Lemma connection_free_closes_once fuel connList c n c' n' :
  connList <> [] -> 0 < sd c ->
  connection_free fuel connList c n = Some (c', n') ->
  sd c' <= 0 /\ exists l, trace n' = trace n ++ l /\ opened l = [] /\ closed l = [sd c].
Proof.
  unfold connection_free. destruct connList as [|a rest]; [done |]. intros _ Hsd. cbn [free_loop].
  destruct (uiso_close_network_connection fuel c n) as [[[r c1] n1]|] eqn:E; [| done]. cbn [mbind option_bind].
  apply close_account in E as (Hsd1 & l1 & Ht1 & Ho1 & Hc1).
  destruct (Z.ltb_spec 0 (sd c)) as [_|]; [| lia].
  destruct rest as [|b [|d rest]]; [intros [= <- <-]; eauto | intros [= <- <-]; eauto |].
  intros (Hsd' & l2 & Ht2 & Ho2 & Hc2)%free_loop_idle; [| done]. split; [done |]. exists (l1 ++ l2).
  rewrite Ht2, Ht1, <- app_assoc, opened_app, closed_app, Ho1, Ho2, Hc1, Hc2, app_nil_r. done.
Qed.

(** A plain send that reports no error handed the whole message over, or the
    driver answered 0. *)
Lemma buffer_send_complete {LAWS : SimpleLinkLaws W} fuel now now' s c buf n :
  ctx_send c = Some send_udp_fn -> Z.of_nat (length buf) <= 32767 ->
  exists r n', lwm2m_buffer_send fuel now now' (Some s) c buf n = Some (r, c, n')
    /\ (r = COAP_NO_ERROR -> exists l, trace n' = trace n ++ map (send_event c) l
         /\ (accepted l = buf \/ exists l0 b, l = l0 ++ [(b, 0)])).
Proof.
  intros Hf Hlen. unfold lwm2m_buffer_send, connection_send.
  destruct (send_complete fuel now now' c buf n (or_introl Hf) Hlen) as (r & n' & l & E & Ht & Hres).
  rewrite E. cbn [mbind option_bind]. eexists _, n'. split; [done |].
  destruct Hres as [(-> & Hacc & _)|(Hr & l0 & b & -> & _ & _)].
  - intros _. exists l. split; [done | by left].
  - destruct (Z.ltb_spec r 0); simpl; [done |]. assert (r = 0) as -> by lia. intros _.
    exists (l0 ++ [(b, 0)]). split; [done | right; eauto].
Qed.
End Transport.

End Lwm2mConnection.
