(* ===== verification/MbedtlsAdapter.v ===== *)
(** * The mbedTLS adapter

    Models [src/mbedtls_adapter/]: the delay timers of DTLS
    ([uiso_timing.c]), the mutexes ([uiso_treading.c]) and the calendar
    conversion ([uiso_gmttime.c]).  mbedTLS calls these functions; what it
    documents of the delay timers is the definition [documented_delay].

    FreeRTOS is not part of the repository.  A software timer is modelled as the
    kernel documents it: changing its period starts it, it expires once, timers
    that expire in the same tick run in the order in which they were started.
    One tick is one millisecond. *)

From S2P Require Import Prelude Sleeptimer.

Module MbedtlsAdapter.

(** ** Delay timers *)

Definition timer_cancelled : Z := -1.
Definition timer_normal : Z := 0.
Definition timer_intermediate_passed : Z := 1.
Definition timer_final_delay_passed : Z := 2.

(** The two timers, each with the time at which it expires while it is active,
    and the state the callbacks store. *)
Record timing_delay := mk_delay { int_timer : option Z; fin_timer : option Z; state : Z }.

Inductive timer_handle := IntTimer | FinTimer | OtherTimer.

Definition timer_callback (xTimer : timer_handle) (d : timing_delay) : timing_delay :=
  match xTimer with
  | IntTimer => mk_delay (int_timer d) (fin_timer d) timer_intermediate_passed
  | FinTimer => mk_delay (int_timer d) (fin_timer d) timer_final_delay_passed
  | OtherTimer => mk_delay (int_timer d) (fin_timer d) timer_cancelled
  end.

(** New timers are not active. *)
Definition uiso_mbedtls_init_timer (d : timing_delay) : timing_delay := mk_delay None None (state d).
Definition uiso_mbedtls_deinit_timer (d : timing_delay) : timing_delay := mk_delay None None (state d).

Definition stop_int (d : timing_delay) : timing_delay :=
  match int_timer d with Some _ => mk_delay None (fin_timer d) (state d) | None => d end.
Definition stop_fin (d : timing_delay) : timing_delay :=
  match fin_timer d with Some _ => mk_delay (int_timer d) None (state d) | None => d end.

(** [xTimerChangePeriod] demands a period above zero: [None] otherwise. *)
Definition change_period (now period : Z) : option (option Z) :=
  if 0 <? period then Some (Some (now + period)) else None.

Definition uiso_mbedtls_timing_set_delay (now int_ms fin_ms : Z) (d : timing_delay) : option timing_delay :=
  let d := stop_fin (stop_int d) in
  d ← (if 0 <? int_ms then t ← change_period now int_ms; Some (mk_delay t (fin_timer d) (state d)) else Some d);
  d ← (if 0 <? fin_ms then t ← change_period now int_ms; Some (mk_delay (int_timer d) t (state d)) else Some d);
  Some (mk_delay (int_timer d) (fin_timer d) (if fin_ms =? 0 then timer_cancelled else timer_normal)).

Definition uiso_mbedtls_timing_get_delay (d : timing_delay) : Z := state d.

(** What the timer task has done by the time [now]: every timer that expired has
    run its callback once, the earlier one first, and of two that expired in the
    same tick the intermediate one, which is started first. *)
Definition fire_int (now : Z) (d : timing_delay) : timing_delay :=
  match int_timer d with
  | Some e => if e <=? now then timer_callback IntTimer (mk_delay None (fin_timer d) (state d)) else d
  | None => d
  end.
Definition fire_fin (now : Z) (d : timing_delay) : timing_delay :=
  match fin_timer d with
  | Some e => if e <=? now then timer_callback FinTimer (mk_delay (int_timer d) None (state d)) else d
  | None => d
  end.
Definition run_timers (now : Z) (d : timing_delay) : timing_delay :=
  match int_timer d, fin_timer d with
  | Some i, Some f => if i <=? f then fire_fin now (fire_int now d) else fire_int now (fire_fin now d)
  | _, _ => fire_fin now (fire_int now d)
  end.

(** mbedTLS: -1 if cancelled (a final delay of zero), 0 if none of the delays
    has passed, 1 if only the intermediate one has, 2 if the final one has. *)
Definition documented_delay (elapsed int_ms fin_ms : Z) : Z :=
  if fin_ms =? 0 then -1 else if fin_ms <=? elapsed then 2 else if int_ms <=? elapsed then 1 else 0.

(** The state over time after a call of [set_delay]. *)
Lemma delay_timeline now int_ms fin_ms t d :
  0 < int_ms -> 0 < fin_ms -> now <= t ->
  exists d', uiso_mbedtls_timing_set_delay now int_ms fin_ms d = Some d'
    /\ uiso_mbedtls_timing_get_delay (run_timers t d') = if int_ms <=? t - now then 2 else 0.
Proof.
  intros Hi Hf Ht. unfold uiso_mbedtls_timing_set_delay, change_period.
  destruct (Z.ltb_spec 0 int_ms); [| lia]. destruct (Z.ltb_spec 0 fin_ms); [| lia].
  destruct (Z.eqb_spec fin_ms 0); [lia |]. cbn [mbind option_bind]. eexists. split; [done |].
  unfold run_timers. cbn [int_timer fin_timer]. rewrite Z.leb_refl. unfold fire_fin, fire_int. cbn [int_timer fin_timer].
  destruct (Z.leb_spec (now + int_ms) t), (Z.leb_spec int_ms (t - now)); try lia;
    cbn [timer_callback int_timer fin_timer]; [destruct (Z.leb_spec (now + int_ms) t); [done | lia] |].
  by destruct (Z.leb_spec (now + int_ms) t); [lia |].
Qed.

(** The delay timers keep the contract of mbedTLS only outside the window
    between the two delays.  For delays [0 < int_ms <= fin_ms] a call always
    sets the timers, and the state reported [elapsed] milliseconds later is the
    documented one exactly when the intermediate delay has not passed or the
    final one has; in between it reports the final delay as passed. *)
Lemma delay_contract now int_ms fin_ms elapsed d :
  0 < int_ms <= fin_ms -> 0 <= elapsed ->
  exists d', uiso_mbedtls_timing_set_delay now int_ms fin_ms d = Some d'
    /\ (uiso_mbedtls_timing_get_delay (run_timers (now + elapsed) d') = documented_delay elapsed int_ms fin_ms
        <-> elapsed < int_ms \/ fin_ms <= elapsed)
    /\ (int_ms <= elapsed < fin_ms -> uiso_mbedtls_timing_get_delay (run_timers (now + elapsed) d') = 2).
Proof.
  intros Hi He. destruct (delay_timeline now int_ms fin_ms (now + elapsed) d) as (d' & Hd & Hs); try lia.
  exists d'. split; [done |]. rewrite Hs. replace (now + elapsed - now) with elapsed by lia.
  unfold documented_delay. destruct (Z.eqb_spec fin_ms 0); [lia |].
  destruct (Z.leb_spec int_ms elapsed), (Z.leb_spec fin_ms elapsed); split; lia.
Qed.

Lemma delay_contract_witness :
  exists d', uiso_mbedtls_timing_set_delay 0 250 1000 (mk_delay None None 0) = Some d'
    /\ uiso_mbedtls_timing_get_delay (run_timers (0 + 300) d') = 2.
Proof.
  destruct (delay_contract 0 250 1000 300 (mk_delay None None 0)) as (d' & H1 & _ & H2); [lia | lia |].
  exists d'. split; [exact H1 |]. apply H2. lia.
Defined.

(** Cancelling stops both timers; the state stays cancelled. *)
Lemma cancelled_stays now t d :
  exists d', uiso_mbedtls_timing_set_delay now 0 0 d = Some d'
    /\ uiso_mbedtls_timing_get_delay (run_timers t d') = timer_cancelled.
Proof.
  destruct d as [[i|] [f|] s]; eexists; (split; [reflexivity |]); reflexivity.
Qed.

(** A cancelled timer with an intermediate delay is not cancelled for long. *)
Example cancelled_with_intermediate :
  exists d', uiso_mbedtls_timing_set_delay 0 100 0 (mk_delay None None 0) = Some d'
    /\ uiso_mbedtls_timing_get_delay (run_timers 100 d') = timer_intermediate_passed.
Proof. eexists. split; reflexivity. Qed.

(** ** Mutexes *)

Definition MBEDTLS_ERR_THREADING_BAD_INPUT_DATA : Z := -0x1C.
Definition MBEDTLS_ERR_THREADING_MUTEX_ERROR : Z := -0x1E.

(** The kernel's mutexes: creation may fail, taking and giving report success. *)
Class Semaphores (S : Type) := {
  xSemaphoreCreateMutex : S -> option Z * S;
  vSemaphoreDelete : Z -> S -> S;
  xSemaphoreTake : Z -> S -> bool * S;
  xSemaphoreGive : Z -> S -> bool * S;
}.

Section mutexes.
Context {S : Type} {SEM : Semaphores S}.

(** The handle, which is valid only if [is_valid]. *)
Record threading_mutex := mk_mutex { mutex : option Z; is_valid : bool }.

Definition uiso_mbedtls_mutex_init (m : option threading_mutex) (s : S) : option threading_mutex * S :=
  match m with
  | None => (None, s)
  | Some _ => let '(h, s) := xSemaphoreCreateMutex s in
              (Some (mk_mutex h (match h with Some _ => true | None => false end)), s)
  end.

Definition uiso_mbedtls_mutex_free (m : option threading_mutex) (s : S) : option threading_mutex * S :=
  match m with
  | Some (mk_mutex (Some h) true) => (Some (mk_mutex (Some h) false), vSemaphoreDelete h s)
  | _ => (m, s)
  end.

(** [take] is [xSemaphoreTake] or [xSemaphoreGive]. *)
Definition mutex_op (take : Z -> S -> bool * S) (m : option threading_mutex) (s : S) : Z * S :=
  match m with
  | Some (mk_mutex (Some h) true) =>
      let '(ok, s) := take h s in (if (ok : bool) then 0 else MBEDTLS_ERR_THREADING_MUTEX_ERROR, s)
  | _ => (MBEDTLS_ERR_THREADING_BAD_INPUT_DATA, s)
  end.

Definition uiso_mbedtls_mutex_lock := mutex_op xSemaphoreTake.
Definition uiso_mbedtls_mutex_unlock := mutex_op xSemaphoreGive.

(** A mutex that was initialised with success is the one that is taken, given
    and deleted, and once released it is refused without a call of the kernel. *)
Lemma mutex_life m0 s h s1 :
  xSemaphoreCreateMutex s = (Some h, s1) ->
  let m := (uiso_mbedtls_mutex_init (Some m0) s).1 in
  (forall s2, uiso_mbedtls_mutex_lock m s2 = (if (xSemaphoreTake h s2).1 then 0 else MBEDTLS_ERR_THREADING_MUTEX_ERROR, (xSemaphoreTake h s2).2))
  /\ (forall s2, (uiso_mbedtls_mutex_free m s2).2 = vSemaphoreDelete h s2)
  /\ forall s2 s3, uiso_mbedtls_mutex_lock (uiso_mbedtls_mutex_free m s2).1 s3 = (MBEDTLS_ERR_THREADING_BAD_INPUT_DATA, s3)
     /\ uiso_mbedtls_mutex_free (uiso_mbedtls_mutex_free m s2).1 s3 = ((uiso_mbedtls_mutex_free m s2).1, s3).
Proof.
  intros Hc. unfold uiso_mbedtls_mutex_init. rewrite Hc. cbn. split_and!; try done. intros s2.
  by destruct (xSemaphoreTake h s2).
Qed.
End mutexes.

(** ** Calendar *)

Record tm := mk_tm {
  tm_sec : Z; tm_min : Z; tm_hour : Z; tm_mday : Z; tm_mon : Z; tm_year : Z; tm_wday : Z; tm_yday : Z }.

(** [date] is what the variable on the stack holds when the conversion refuses
    the time; [None] is the null pointer. *)
Definition mbedtls_platform_gmtime_r (tt : option Z) (uninitialised : Sleeptimer.date) : option (option tm) :=
  match tt with
  | None => Some None
  | Some t =>
      date ← match Sleeptimer.sl_sleeptimer_convert_time_to_date (u32 t) 0 with
             | Sleeptimer.Converted d => Some d
             | Sleeptimer.Rejected => Some uninitialised
             | Sleeptimer.TableOverrun => None
             end;
      Some (Some (mk_tm (Sleeptimer.d_sec date) (Sleeptimer.d_min date) (Sleeptimer.d_hour date)
                        (Sleeptimer.d_month_day date) (Sleeptimer.d_month date) (Sleeptimer.d_year date)
                        (Sleeptimer.d_day_of_week date) (Sleeptimer.d_day_of_year date)))
  end.

(** The day of the year counts from 1 where C counts from 0: 1 January 1970. *)
Example gmtime_yday :
  forall u, mbedtls_platform_gmtime_r (Some 0) u = Some (Some (mk_tm 0 0 0 1 0 70 4 1)).
Proof. intros u. vm_compute. reflexivity. Qed.

(** A time after 2038 is refused by the conversion, and the fields come from an
    uninitialised variable. *)
Example gmtime_late u :
  mbedtls_platform_gmtime_r (Some (2 ^ 31)) u
  = Some (Some (mk_tm (Sleeptimer.d_sec u) (Sleeptimer.d_min u) (Sleeptimer.d_hour u) (Sleeptimer.d_month_day u)
                      (Sleeptimer.d_month u) (Sleeptimer.d_year u) (Sleeptimer.d_day_of_week u)
                      (Sleeptimer.d_day_of_year u))).
Proof. vm_compute. by destruct u. Qed.
End MbedtlsAdapter.
