(* ===== verification/MbedtlsConnector.v ===== *)
(** * TLS set-up of the LwM2M connection

    Models [src/lwm2m/lightclient/mbedtls_connector.c]: the sequence of mbedTLS
    calls that prepares the DTLS context from the security object, its release
    and the close.  mbedTLS is not part of the repository: the calls are logged,
    and their results are the interface [TlsConfig], which may depend on
    everything called before. *)

From S2P Require Import Prelude Platform Network Lwm2mCore Lwm2mObjects.

Module MbedtlsConnector.
Import Network Lwm2mCore Lwm2mObjects.

(** ** Calls *)

(** The static contexts of the file. *)
Inductive tls_object :=
| ssl_timer | threading | ssl_context_ | ssl_config | drbg_context | entropy_context
| own_pk | own_crt_ctx | peer_crt_ctx | peer_crl_ctx.
#[export] Instance tls_object_eq_dec : EqDecision tls_object.
Proof. solve_decision. Defined.

Inductive tls_call :=
| Init (o : tls_object)
| Free (o : tls_object)
| ConfigDefaults
| ConfMaxFragLen
| ConfAuthmode
| ConfReadTimeout (ms : Z)
| ConfRng
| DrbgSeed
| ConfGroups
| ConfSigAlgs
| ConfPsk (psk identity : bytes)
| CrtParse (own : bool)
| PkParseKey
| ConfOwnCert
| ConfCaChain
| ConfCiphersuites (psk : bool)
| ConfMinVersion
| ConfRenegotiation
| ConfCid
| SslSetup
| DrbgRandom
| SetCid
| SetTimerCb.
#[export] Instance tls_call_eq_dec : EqDecision tls_call.
Proof. solve_decision. Defined.

(** The result of a call after the calls of a log. *)
Class TlsConfig := tls_result : list tls_call -> tls_call -> Z.

Section connector.
Context {TC : TlsConfig}.

Definition call (t : tls_call) (log : list tls_call) : Z * list tls_call := (tls_result log t, log ++ [t]).

(** Calls whose result is not used. *)
Definition calls (ts : list tls_call) (log : list tls_call) : list tls_call := log ++ ts.

(** [if (0 == ret) ret = call]. *)
Definition and_then (t : tls_call) (r : Z * list tls_call) : Z * list tls_call :=
  let '(ret, log) := r in if ret =? 0 then call t log else (ret, log).

(** [if (0 == ret) { calls }]. *)
Definition and_also (ts : list tls_call) (r : Z * list tls_call) : Z * list tls_call :=
  let '(ret, log) := r in (ret, if ret =? 0 then calls ts log else log).

(** ** Initialisation *)

Section initialize.
Context {W L : Type} {LL : Lwm2mList L security_instance instanceId}.
Variable cid : bool.                       (* MBEDTLS_SSL_DTLS_CONNECTION_ID is defined *)

Definition base_config (log : list tls_call) : Z * list tls_call :=
  let log := calls [Init ssl_timer; Init threading; Init ssl_context_; Init ssl_config; Init drbg_context;
                    Init entropy_context] log in
  and_also [ConfAuthmode; ConfReadTimeout 5000; ConfRng; DrbgSeed]
    (and_then ConfMaxFragLen (call ConfigDefaults log)).

Definition certificate_contexts (mode : Z) (r : Z * list tls_call) : Z * list tls_call :=
  if mode =? security_mode_certificate
  then and_also [ConfGroups; ConfSigAlgs; Init own_pk; Init own_crt_ctx; Init peer_crt_ctx; Init peer_crl_ctx] r
  else r.

(** The key and the identity; [None] where [strlen] gets the null pointer or a
    string without terminator. *)
Definition psk_config (mode : Z) (o : object L) (secObjInstID : Z) (r : Z * list tls_call)
  : option (Z * list tls_call) :=
  let '(ret, log) := r in
  if (ret =? 0) && (mode =? security_mode_psk) then
    identity ← get_public_identiy o secObjInstID;
    n ← strlen (fst identity);
    Some (call (ConfPsk (match get_connection_psk o secObjInstID with
                         | Some (psk, psk_len) => take (Z.to_nat psk_len) psk
                         | None => []
                         end) (take (Z.to_nat n) (fst identity))) log)
  else Some (ret, log).

Definition certificates (mode : Z) (r : Z * list tls_call) : Z * list tls_call :=
  if mode =? security_mode_certificate
  then and_also [ConfCaChain]
         (and_then ConfOwnCert (and_then PkParseKey (and_then (CrtParse false) (and_then (CrtParse true) r))))
  else r.

Definition ciphersuites (mode : Z) (r : Z * list tls_call) : Z * list tls_call :=
  if mode =? security_mode_certificate then and_also [ConfCiphersuites false] r
  else if mode =? security_mode_psk then and_also [ConfCiphersuites true] r
  else r.

(** The random identifier is drawn but the connection identifier is disabled. *)
Definition finish_setup (r : Z * list tls_call) : Z * list tls_call :=
  let r := and_then ConfCid (and_also [ConfMinVersion; ConfRenegotiation] r) in
  let r := and_then SslSetup r in
  let r := if cid then and_then SetCid (and_also [DrbgRandom] r) else r in
  and_also [SetTimerCb] r.

Definition mbedtls_connector_initialize (o : object L) (secObjInstID : Z) (c : uiso_sockets)
    (log : list tls_call) : option (Z * uiso_sockets * list tls_call) :=
  let mode := get_security_mode o secObjInstID in
  r ← psk_config mode o secObjInstID (certificate_contexts mode (base_config log));
  let '(ret, log) := finish_setup (ciphersuites mode (certificates mode r)) in
  if ret =? 0
  then let '(ret, c) := uiso_network_register_ssl_context c true in Some (ret, c, log)
  else Some (ret, c, log).
End initialize.

Definition mbedtls_cleanup (log : list tls_call) : list tls_call :=
  calls [Free own_crt_ctx; Free peer_crt_ctx; Free peer_crl_ctx; Free own_pk; Free ssl_timer; Free threading;
         Free drbg_context; Free entropy_context; Free ssl_context_; Free ssl_config] log.

(** The notification goes over the connection, with one call of the library. *)
Definition mbedtls_connector_close {W} {TLS : MbedTLS W} (n : net W) (log : list tls_call)
  : net W * list tls_call :=
  let '(_, n) := call_close_notify n in (n, mbedtls_cleanup log).

(** ** What is configured *)

(** The calls of a successful set-up in pre-shared-key mode. *)
Definition psk_setup (cid : bool) (psk identity : bytes) : list tls_call :=
  [Init ssl_timer; Init threading; Init ssl_context_; Init ssl_config; Init drbg_context; Init entropy_context;
   ConfigDefaults; ConfMaxFragLen; ConfAuthmode; ConfReadTimeout 5000; ConfRng; DrbgSeed;
   ConfPsk psk identity; ConfCiphersuites true; ConfMinVersion; ConfRenegotiation; ConfCid; SslSetup]
  ++ (if cid then [DrbgRandom; SetCid] else []) ++ [SetTimerCb].

(** A result of zero at the end means that every conditional call was made and
    answered zero: the log then holds them all. *)
Lemma and_then_ok t r log : and_then t r = (0, log) -> exists log0, r = (0, log0) /\ log = log0 ++ [t].
Proof.
  destruct r as [ret log0]. unfold and_then, call. destruct (Z.eqb_spec ret 0) as [->|Hr].
  - intros [= _ <-]. by exists log0.
  - intros [= ? _]. congruence.
Qed.

Lemma and_also_ok ts r log : and_also ts r = (0, log) -> exists log0, r = (0, log0) /\ log = log0 ++ ts.
Proof. destruct r as [ret log0]. unfold and_also, calls. intros [= -> <-]. by exists log0. Qed.

Section facts.
Context {W L : Type} {LL : Lwm2mList L security_instance instanceId}.
Variable cid : bool.

Lemma finish_setup_ok r log :
  finish_setup cid r = (0, log) ->
  exists log0, r = (0, log0) /\ log = log0 ++ [ConfMinVersion; ConfRenegotiation; ConfCid; SslSetup]
                                       ++ (if cid then [DrbgRandom; SetCid] else []) ++ [SetTimerCb].
Proof.
  unfold finish_setup. intros (l1 & H & ->)%and_also_ok.
  assert (exists l2, and_then SslSetup (and_then ConfCid (and_also [ConfMinVersion; ConfRenegotiation] r)) = (0, l2)
                     /\ l1 = l2 ++ (if cid then [DrbgRandom; SetCid] else [])) as (l2 & H2 & ->).
  { destruct cid; [| by exists l1; rewrite app_nil_r].
    apply and_then_ok in H as (l & (l2 & H & ->)%and_also_ok & ->). exists l2. by rewrite <- app_assoc. }
  apply and_then_ok in H2 as (l3 & (l4 & (l5 & -> & ->)%and_also_ok & ->)%and_then_ok & ->).
  exists l5. by rewrite <- !app_assoc.
Qed.

Lemma base_config_ok log0 log :
  base_config log0 = (0, log) ->
  log = log0 ++ [Init ssl_timer; Init threading; Init ssl_context_; Init ssl_config; Init drbg_context;
                 Init entropy_context; ConfigDefaults; ConfMaxFragLen; ConfAuthmode; ConfReadTimeout 5000;
                 ConfRng; DrbgSeed].
Proof.
  unfold base_config, calls. intros (l1 & (l2 & [= _ <-] & ->)%and_then_ok & ->)%and_also_ok.
  by rewrite <- !app_assoc.
Qed.

(** A set-up that succeeds in pre-shared-key mode made every call, in order,
    with the key and the identity of the instance, and registered the context. *)
Lemma initialize_psk (o : object L) i t c log c' log' :
  list_find i (instanceList o) = Some t -> security_mode t = security_mode_psk ->
  mbedtls_connector_initialize cid o i c log = Some (0, c', log') ->
  c' = set_ssl true c
  /\ log' = log ++ psk_setup cid (take (Z.to_nat (secret_key_len t)) (secret_key t)) (cstring (public_identity t)).
Proof.
  intros Ht Hm. unfold mbedtls_connector_initialize, get_security_mode. rewrite Ht, Hm.
  unfold certificate_contexts, certificates, ciphersuites, psk_config. simpl (_ =? _).
  destruct (base_config log) as [ret l1] eqn:E1. rewrite andb_true_r.
  destruct (Z.eqb_spec ret 0) as [->|Hr].
  2: { cbn [mbind option_bind]. destruct (finish_setup _ _) as [r l2] eqn:E2. destruct (Z.eqb_spec r 0) as [->|Hr2].
       - apply finish_setup_ok in E2 as (l3 & (? & [= ? _] & _)%and_also_ok & _). congruence.
       - intros [= ? _ _]. congruence. }
  unfold get_public_identiy, get_connection_psk. rewrite Ht. cbn [mbind option_bind fst snd].
  destruct (strlen (public_identity t)) as [n|] eqn:En; [| done]. cbn [mbind option_bind].
  destruct (finish_setup _ _) as [r l2] eqn:E2. destruct (Z.eqb_spec r 0) as [->|Hr2]; [| intros [= ? _ _]; congruence].
  apply finish_setup_ok in E2 as (l3 & (l4 & [= _ <-] & ->)%and_also_ok & ->).
  apply base_config_ok in E1 as ->. intros [= <- <-]. split; [done |].
  apply strlen_spec in En as (-> & _ & Htake). rewrite Nat2Z.id, Htake. unfold psk_setup.
  by rewrite <- !app_assoc.
Qed.
End facts.
End connector.
End MbedtlsConnector.
