(* ===== verification/Lwm2mClient.v ===== *)
(** * The LwM2M client task

    Models [src/lwm2m/lightclient/uiso_lightclient.c] and the task around it in
    [src/user.c]: the session callbacks the LwM2M core asks for
    ([lwm2m_connect_server], [lwm2m_close_connection]), the creation and release
    of the objects, the loop that turns notifications into calls of the core, and
    the wait for data.

    The core is not part of the repository.  It is the interface [Lwm2mLib],
    whose operations are programs that may call the session callbacks and the
    callbacks of the objects ([core_prog]); [run_core] performs these calls.  A
    call that does not return ([None]: undefined behaviour such as a null pointer
    or a string without terminator, or a TLS retry that does not end within the
    fuel) stops the run; the run then keeps the state before that call. *)

From Stdlib Require Import String.
From S2P Require Import Prelude Platform Monitor Network Lwm2mCore ServerObject Jsmn JsmnDoc Config.
From S2P Require Import Lwm2mObjects Lwm2mConnection MbedtlsConnector.

Module Lwm2mClient.
Import Network Lwm2mCore Lwm2mObjects Lwm2mConnection MbedtlsConnector.

(** ** The address of the server *)

(** [strrchr]: where a character occurs last. *)
Fixpoint strrchr (s : bytes) (c : Z) : option nat :=
  match s with
  | [] => None
  | x :: s => match strrchr s c with
              | Some i => Some (S i)
              | None => if x =? c then Some O else None
              end
  end.

Definition COLON : Z := 58.
Definition LBRACKET : Z := 91.
Definition RBRACKET : Z := 93.

(** [strncmp(uri, scheme, strlen(scheme)) == 0]. *)
Definition has_scheme (scheme uri : bytes) : bool := bool_decide (take (length scheme) uri = scheme).

(** The walk over ["coaps://[host]:[port]"] in the buffer: where the host and
    the port start, and the buffer with the terminators written into it. *)
Definition split_uri (uri : bytes) : option (nat * nat * bytes) :=
  host ← (if has_scheme (lit "coaps://") uri then Some 8%nat
          else if has_scheme (lit "coap://") uri then Some 7%nat else None);
  i ← strrchr (cstring (drop host uri)) COLON;
  let port := (host + i)%nat in
  '(host, uri) ← (if decide (uri !! host = Some LBRACKET)
                  then if decide (uri !! (port - 1)%nat = Some RBRACKET)
                       then Some (S host, <[(port - 1)%nat := 0]> uri) else None
                  else Some (host, uri));
  Some (host, S port, <[port := 0]> uri).

(** ** Sessions *)

(** What the callbacks work on: the list of connections, the heap, the context
    and the device of the network layer, and the log of TLS set-up calls. *)
Record transport (W : Type) := mk_transport {
  connList : list connection; hp : heap; ctx : uiso_sockets; nt : net W; tls : list tls_call }.
Arguments mk_transport {W} _ _ _ _ _.
Arguments connList {W} _.
Arguments hp {W} _.
Arguments ctx {W} _.
Arguments nt {W} _.
Arguments tls {W} _.

(** The objects of the client. *)
Record objects (L LS LT : Type) := mk_objects {
  o_security : object L; o_server : object LS; o_device : object (list Z); o_temperature : object LT;
  o_accelerometer : option (object (list Z)) }.
Arguments mk_objects {L LS LT} _ _ _ _ _.
Arguments o_security {L LS LT} _.
Arguments o_server {L LS LT} _.
Arguments o_device {L LS LT} _.
Arguments o_temperature {L LS LT} _.
Arguments o_accelerometer {L LS LT} _.

(** The callbacks of the objects, with the arguments of a call: whether the
    array of a whole-instance answer can be allocated, the instance or resource,
    and the records. *)
Inductive request (D : Type) :=
| SecurityRead (mem : bool) (instanceId numData : Z) (ds : list D)
| ServerRead (mem : bool) (instanceId : Z) (ds : list D)
| ServerDiscover (mem : bool) (ds : list D)
| ServerExecute (instanceId resourceId : Z)
| ServerWrite (instanceId : Z) (ds : list D) (w : ServerObject.write_type)
| ServerCreate (instanceId : Z) (ds : list D)
| ServerDelete (instanceId : Z)
| DeviceRead (mem : bool) (instanceId numData : Z) (ds : list D)
| DeviceDiscover (mem : bool) (instanceId numData : Z) (ds : list D)
| DeviceExecute (instanceId resourceId len : Z)
| TemperatureRead (mem : bool) (instanceId numData : Z) (ds : list D)
| AccelRead (mem : bool) (instanceId numData : Z) (ds : list D)
| AccelDiscover (mem : bool) (numData : Z) (ds : list D).
Arguments SecurityRead {D} _ _ _ _.
Arguments ServerRead {D} _ _ _.
Arguments ServerDiscover {D} _ _.
Arguments ServerExecute {D} _ _.
Arguments ServerWrite {D} _ _ _.
Arguments ServerCreate {D} _ _.
Arguments ServerDelete {D} _.
Arguments DeviceRead {D} _ _ _ _.
Arguments DeviceDiscover {D} _ _ _ _.
Arguments DeviceExecute {D} _ _ _.
Arguments TemperatureRead {D} _ _ _ _.
Arguments AccelRead {D} _ _ _ _.
Arguments AccelDiscover {D} _ _ _.

(** What the core's operations do on the way to their result: they open, use and
    close sessions, and call the objects. *)
Inductive core_prog (D A : Type) :=
| Ret (a : A)
| Connect (secObjInstID : Z) (k : option connection -> core_prog D A)
| Close (session : connection) (k : core_prog D A)
| Send (session : option connection) (data : bytes) (k : coap -> core_prog D A)
| CallObject (r : request D) (k : coap * list D -> core_prog D A).
Arguments Ret {D A} _.
Arguments Connect {D A} _ _.
Arguments Close {D A} _ _.
Arguments Send {D A} _ _ _.
Arguments CallObject {D A} _ _.

Section sessions.
Context {W L : Type} {SL : SimpleLink W} {TLS : MbedTLS W} {TC : TlsConfig}.
Context {LL : Lwm2mList L security_instance instanceId}.
Variables (fuel : nat) (cid : bool) (clock : W -> Z).
Variable securityObjP : object L.
Implicit Types t : transport W.

Definition with_heap (h : heap) t : transport W := mk_transport (connList t) h (ctx t) (nt t) (tls t).

Definition connect_parsed (secObjInstID : Z) (host port : bytes) t : option (option connection * transport W) :=
  '(ret, c, log) ← mbedtls_connector_initialize cid securityObjP secObjInstID (ctx t) (tls t);
  '(newConnP, l, h, c, n) ←
    (if ret =? 0
     then connection_create fuel (clock (dev (nt t))) host port uiso_protocol_dtls_ip4 (connList t) (hp t) c (nt t)
     else Some (None, connList t, hp t, c, nt t));
  match newConnP with
  | None => Some (None, mk_transport l h c n (mbedtls_cleanup log))
  | Some p => Some (Some p, mk_transport (match l with [] => [p] | _ => l end) h c n log)
  end.

(** The copy of the address is released on every path. *)
Definition lwm2m_connect_server (secObjInstID : Z) t : option (option connection * transport W) :=
  '(uri, h) ← get_server_uri securityObjP secObjInstID (hp t);
  let t := with_heap h t in
  match uri with
  | None => Some (None, t)
  | Some (p, uri) =>
      '(r, t) ← match split_uri uri with
                | None => Some (None, t)
                | Some (host, port, uri) =>
                    connect_parsed secObjInstID (cstring (drop host uri)) (cstring (drop port uri)) t
                end;
      Some (r, with_heap (lwm2m_free p (hp t)) t)
  end.

(** Taking a node out of the list behind its predecessor; [None] if it is not
    there. *)
Fixpoint unlink (target : connection) (l : list connection) : option (list connection) :=
  match l with
  | [] => None
  | x :: l => if decide (x = target) then Some l else l ← unlink target l; Some (x :: l)
  end.

Definition lwm2m_close_connection (target : connection) t : transport W :=
  let '(n, log) := mbedtls_connector_close (nt t) (tls t) in
  match unlink target (connList t) with
  | Some l => mk_transport l (lwm2m_free (block target) (hp t)) (ctx t) n log
  | None => mk_transport (connList t) (hp t) (ctx t) n log
  end.

End sessions.

(** ** The task *)

(** The core's own operations.  An object that could not be created is passed as
    the null pointer; a resource is named by object, instance and resource. *)
Class Lwm2mLib (W K D : Type) := {
  lwm2m_init : net W -> option K;
  lwm2m_configure : list (option Z) -> K -> Z * K;
  lwm2m_step : Z -> K -> core_prog D (Z * Z * K);          (* result, time-out, state *)
  lwm2m_handle_packet : bytes -> option connection -> K -> core_prog D K;
  lwm2m_update_registration : K -> core_prog D K;
  lwm2m_resource_value_changed : Z * Z * Z -> K -> core_prog D K;
  lwm2m_close : K -> core_prog D unit;
}.

Definition MAX_PACKET_SIZE : Z := 2048.
Definition wifi_service_lwm2m_socket : nat := 1.

(** Bits of the task notification. *)
Definition lwm2m_notify_registration : Z := Z.shiftl 1 0.
Definition lwm2m_notify_timestamp : Z := Z.shiftl 1 1.
Definition lwm2m_notify_temperature : Z := Z.shiftl 1 2.
Definition lwm2m_notify_accelerometer : Z := Z.shiftl 1 3.
Definition lwm2m_notify_message_reception : Z := Z.shiftl 1 4.

(** The state of the task inside its loop: the core, the objects, the sessions,
    the notification word, the waiting sockets of the monitor, and the values of
    the sensor objects. *)
Record client (W L LS LT K N : Type) := mk_client {
  core : K; objs : objects L LS LT; sessions : transport W; box : N; waits : list Monitor.wait_ctx;
  accel : accelerometer_values; temp : temperature }.
Arguments mk_client {W L LS LT K N} _ _ _ _ _ _ _.
Arguments core {W L LS LT K N} _.
Arguments objs {W L LS LT K N} _.
Arguments sessions {W L LS LT K N} _.
Arguments box {W L LS LT K N} _.
Arguments waits {W L LS LT K N} _.
Arguments accel {W L LS LT K N} _.
Arguments temp {W L LS LT K N} _.

(** What other tasks do to the client between two turns: new sensor values and
    the two timers of [user.c]. *)
Inductive update :=
| UpdateTemperature (v : Z)
| UpdateAccel (x y z : Z)
| UserTimer
| ClockTimer.

(** Steps on a state that may stop.  The state is kept when they do: it is the
    one before the call that did not return. *)
Definition run (S A : Type) : Type := S -> option A * S.

Section runs.
Context {S : Type}.

#[export] Instance run_ret : MRet (run S) := fun _ a s => (Some a, s).
#[export] Instance run_bind : MBind (run S) := fun _ _ f m s =>
  match m s with (Some a, s) => f a s | (None, s) => (None, s) end.
Definition get : run S S := fun s => (Some s, s).
Definition modify (f : S -> S) : run S unit := fun s => (Some tt, f s).
Definition stop {A} : run S A := fun s => (None, s).
Definition when (b : bool) (m : run S unit) : run S unit := if b then m else mret tt.
End runs.

Section task.
Context {W L LS LT K N D : Type} {SL : SimpleLink W} {TLS : MbedTLS W} {TC : TlsConfig} {NT : TaskNotify N} {B : Base64}.
Context {LL : Lwm2mList L security_instance instanceId} {DD : Lwm2mData D}.
Context {LSL : Lwm2mList LS ServerObject.server_instance ServerObject.instanceId} {LTL : Lwm2mList LT Z id}.
Context {LIB : Lwm2mLib W K D}.
Variables (fuel : nat) (cid version_1_0 : bool) (clock : W -> Z).
Local Abbreviation client := (client W L LS LT K N).

Definition set_core (k : K) (s : client) : client :=
  mk_client k (objs s) (sessions s) (box s) (waits s) (accel s) (temp s).
Definition set_objs (os : objects L LS LT) (s : client) : client :=
  mk_client (core s) os (sessions s) (box s) (waits s) (accel s) (temp s).
Definition set_sessions (t : transport W) (s : client) : client :=
  mk_client (core s) (objs s) t (box s) (waits s) (accel s) (temp s).
Definition set_box (b : N) (s : client) : client :=
  mk_client (core s) (objs s) (sessions s) b (waits s) (accel s) (temp s).
Definition set_server (o : object LS) (os : objects L LS LT) : objects L LS LT :=
  mk_objects (o_security os) o (o_device os) (o_temperature os) (o_accelerometer os).

Definition lwm2m_client_update_temperature (v : Z) (s : client) : client :=
  let s := mk_client (core s) (objs s) (sessions s) (box s) (waits s) (accel s) (write_temperature v (temp s)) in
  set_box (notify_set_bits lwm2m_notify_temperature (box s)) s.

Definition lwm2m_client_update_accel (x y z : Z) (s : client) : client :=
  let s := mk_client (core s) (objs s) (sessions s) (box s) (waits s)
             (update_accelerometer_values x y z (accel s)) (temp s) in
  set_box (notify_set_bits lwm2m_notify_accelerometer (box s)) s.

Definition user_timer_callback (s : client) : client :=
  set_box (notify_set_bits (Z.shiftl 1 0) (box s)) s.
Definition clock_timer_callback (s : client) : client :=
  set_box (notify_set_bits (Z.shiftl 1 1) (box s)) s.

Definition apply_update (u : update) (s : client) : client :=
  match u with
  | UpdateTemperature v => lwm2m_client_update_temperature v s
  | UpdateAccel x y z => lwm2m_client_update_accel x y z s
  | UserTimer => user_timer_callback s
  | ClockTimer => clock_timer_callback s
  end.

(** The monitor, and whatever else runs while the client waits, is [others]. *)
Definition wait_for_rx (now wait_s : Z) (others : list Monitor.wait_ctx -> list Monitor.wait_ctx)
    (s : client) : Z * client :=
  let '(ret, ws) := Monitor.enqueue_select_rx wifi_service_lwm2m_socket now wait_s others (waits s) in
  let s := mk_client (core s) (objs s) (sessions s) (box s) ws (accel s) (temp s) in
  (ret, if ret =? 0 then set_box (notify_set_bits lwm2m_notify_message_reception (box s)) s else s).

(** A call that works on the sessions, and one of an object; only the server
    object changes. *)
Definition on_sessions {A} (f : transport W -> option (A * transport W)) : run client A := fun s =>
  match f (sessions s) with Some (a, t) => (Some a, set_sessions t s) | None => (None, s) end.

Definition on_server (f : object LS -> heap -> option (coap * object LS * heap)) : run client (coap * list D) :=
  fun s => match f (o_server (objs s)) (hp (sessions s)) with
           | Some (r, o, h) =>
               (Some (r, []), set_sessions (with_heap h (sessions s)) (set_objs (set_server o (objs s)) s))
           | None => (None, s)
           end.

Definition answer (f : client -> option (coap * list D)) : run client (coap * list D) := fun s => (f s, s).

(** The accelerometer that could not be created has no callbacks to call. *)
Definition call_object (r : request D) : run client (coap * list D) :=
  match r with
  | SecurityRead mem i n ds => answer (fun s => prv_security_read mem i n ds (o_security (objs s)))
  | ServerRead mem i ds => answer (fun s => Some (ServerObject.prv_server_read mem i ds (instanceList (o_server (objs s)))))
  | ServerDiscover mem ds => answer (fun s => Some (ServerObject.prv_server_discover mem ds))
  | ServerExecute i res => answer (fun s => Some (ServerObject.prv_server_execute i res (instanceList (o_server (objs s))), []))
  | ServerWrite i ds w => on_server (ServerObject.server_write version_1_0 i ds w)
  | ServerCreate i ds => on_server (ServerObject.server_create version_1_0 i ds)
  | ServerDelete i => on_server (fun o h => Some (ServerObject.server_delete i o h))
  | DeviceRead mem i n ds => answer (fun s => prv_device_read mem (clock (dev (nt (sessions s)))) i n ds)
  | DeviceDiscover mem i n ds => answer (fun s => prv_device_discover mem i n ds)
  | DeviceExecute i res n => answer (fun s => Some (prv_device_execute i res n, []))
  | TemperatureRead mem i n ds => answer (fun s => temperature_read (temp s) mem i n ds (o_temperature (objs s)))
  | AccelRead mem i n ds => answer (fun s => _ ← o_accelerometer (objs s); accel_read (accel s) mem i n ds)
  | AccelDiscover mem n ds => answer (fun s => _ ← o_accelerometer (objs s); accel_discover mem n ds)
  end.

Fixpoint run_core {A} (p : core_prog D A) : run client A :=
  match p with
  | Ret a => mret a
  | Connect i k =>
      s ← get;
      r ← on_sessions (lwm2m_connect_server fuel cid clock (o_security (objs s)) i);
      run_core (k r)
  | Close c k => _ ← on_sessions (fun t => Some (tt, lwm2m_close_connection c t)); run_core k
  | Send c b k =>
      r ← on_sessions (fun t =>
            '(r, x, n) ← lwm2m_buffer_send fuel (clock (dev (nt t))) (clock (dev (nt t))) c (ctx t) b (nt t);
            Some (r, mk_transport (connList t) (hp t) x n (tls t)));
      run_core (k r)
  | CallObject r k => a ← call_object r; run_core (k a)
  end.

(** One operation of the core on the client. *)
Definition core_do (p : K -> core_prog D K) : run client unit :=
  s ← get; k ← run_core (p (core s)); modify (set_core k).

(** [data.connList->ctx] with an empty list is a null pointer. *)
Definition receive : run client unit :=
  s ← get;
  match connList (sessions s) with
  | [] => stop
  | connP :: _ =>
      '(numBytes, data) ← on_sessions (fun t =>
         '(r, c, n) ← uiso_network_read fuel (ctx t) MAX_PACKET_SIZE (nt t);
         Some (r, mk_transport (connList t) (hp t) c n (tls t)));
      if MAX_PACKET_SIZE <=? numBytes then mret tt
      else when (0 <=? numBytes) (core_do (lwm2m_handle_packet data (Some connP)))
  end.

Definition handle_notification (v : Z) : run client unit :=
  _ ← when (test_mask v lwm2m_notify_registration) (core_do lwm2m_update_registration);
  _ ← when (test_mask v lwm2m_notify_timestamp)
           (core_do (lwm2m_resource_value_changed (LWM2M_DEVICE_OBJECT_ID, 0, 13)));
  _ ← when (test_mask v lwm2m_notify_temperature)
           (core_do (lwm2m_resource_value_changed (3303, 0, 5700)));
  _ ← when (test_mask v lwm2m_notify_accelerometer)
           (_ ← core_do (lwm2m_resource_value_changed (3313, 0, 5702));
            _ ← core_do (lwm2m_resource_value_changed (3313, 0, 5703));
            core_do (lwm2m_resource_value_changed (3313, 0, 5704)));
  when (test_mask v lwm2m_notify_message_reception) receive.

(** One pass of the loop; [false] when it is left. *)
Definition client_turn (now : Z) (others : list Monitor.wait_ctx -> list Monitor.wait_ctx) : run client bool :=
  s ← get;
  let '(notification_value, b) := notify_wait 0 (box s) in
  _ ← modify (set_box b);
  _ ← match notification_value with Some v => handle_notification v | None => mret tt end;
  s ← get;
  '(result, timeout_val, k) ← run_core (lwm2m_step 60 (core s));
  _ ← modify (set_core k);
  if negb (result =? 0) then mret false
  else
    let timeout_val := if 10 <? timeout_val then 1 else timeout_val in
    _ ← modify (fun s => snd (wait_for_rx now timeout_val others s));
    mret true.

(** What surrounds a turn: the updates before it, the time, the other tasks
    during its wait. *)
Record turn_env := mk_env {
  env_updates : list update; env_now : Z; env_others : list Monitor.wait_ctx -> list Monitor.wait_ctx }.

(** The loop over the turns given; [false] if it was left among them. *)
Fixpoint client_loop (envs : list turn_env) : run client bool :=
  match envs with
  | [] => mret true
  | e :: envs =>
      _ ← modify (fun s => fold_left (fun s u => apply_update u s) (env_updates e) s);
      goes_on ← client_turn (env_now e) (env_others e);
      if (goes_on : bool) then client_loop envs else mret false
  end.

(** ** Start and end *)

(** The objects in the order of their creation; the accelerometer is not
    checked. *)
Definition create_objects (cfg : Config.config) (v : accelerometer_values) (h : heap)
  : option (option (objects L LS LT) * accelerometer_values * heap) :=
  '(security, h) ← get_security_object cfg h;
  match security with
  | None => Some (None, v, h)
  | Some security =>
      let '(server, h) := ServerObject.get_server_object h in
      match server with
      | None => Some (None, v, h)
      | Some server =>
          let '(device, h) := get_object_device h in
          match device with
          | None => Some (None, v, h)
          | Some device =>
              let '(accelerometer, v, h) := get_accelerometer_object v h in
              Some (Some (mk_objects security server device get_temperature_object accelerometer), v, h)
          end
      end
  end.

(** The first four objects are released in this order; the temperature is
    static. *)
Definition free_objects (os : objects L LS LT) (h : heap) : heap :=
  let h := free_security_object (o_security os) h in
  let h := ServerObject.free_server_object (o_server os) h in
  let h := free_object_device (o_device os) h in
  free_accelerometer_object (o_accelerometer os) h.

Definition objArray (os : objects L LS LT) : list (option Z) :=
  [Some (objID (o_security os)); Some (objID (o_server os)); Some (objID (o_device os));
   Some (objID (o_temperature os)); objID <$> o_accelerometer os].

(** After the loop: the core is closed, then the network context, and the
    objects are released.  The nodes that are still in the list of connections
    stay on the heap. *)
Definition shut_down : run client unit :=
  s ← get;
  _ ← run_core (lwm2m_close (core s));
  s ← get;
  on_sessions (fun t =>
    '(c, n) ← connection_free fuel (connList t) (ctx t) (nt t);
    Some (tt, mk_transport (connList t) (free_objects (objs s) (hp t)) c n (tls t))).

(** How a run of the task stands after the turns given: it returned a value, it
    is still in its loop, or a call did not return, in its loop or while the
    objects were created. *)
Inductive run_result :=
| Returned (ret : Z) (t : transport W)
| Running (s : client)
| Stopped (s : client)
| Unstarted (t : transport W).

Definition lwm2m_client_task_runner (cfg : Config.config) (envs : list turn_env) (b : N)
    (ws : list Monitor.wait_ctx) (v : accelerometer_values) (tmp : temperature) (t : transport W) : run_result :=
  let t := mk_transport [] (hp t) (ctx t) (nt t) (tls t) in
  match create_objects cfg v (hp t) with
  | None => Unstarted t
  | Some (os, v, h) =>
      let t := with_heap h t in
      match os with
      | None => Returned (-1) t
      | Some os =>
          match lwm2m_init (nt t) with
          | None => Returned (-1) t
          | Some k =>
              let '(result, k) := lwm2m_configure (objArray os) k in
              if negb (result =? 0) then Returned (-1) t
              else
                match client_loop envs (mk_client k os t b ws v tmp) with
                | (Some true, s) => Running s
                | (Some false, s) =>
                    match shut_down s with (Some _, s) => Returned 0 (sessions s) | (None, s) => Stopped s end
                | (None, s) => Stopped s
                end
          end
      end
  end.
End task.

(** ** Taking addresses apart *)

Lemma insert_at {A} (a b : list A) x y : <[length a := y]> (a ++ x :: b) = a ++ y :: b.
Proof. induction a as [|z a IH]; [done |]. simpl. by rewrite IH. Qed.

Lemma strrchr_last a s c : c ∉ s -> strrchr (a ++ c :: s) c = Some (length a).
Proof.
  intros Hs. induction a as [|x a IH]; simpl; [| by rewrite IH].
  assert (strrchr s c = None) as ->; [| by rewrite Z.eqb_refl].
  induction s as [|y s IH]; [done |]. rewrite elem_of_cons in Hs. simpl. rewrite IH by tauto.
  destruct (Z.eqb_spec y c); [subst; tauto | done].
Qed.

Lemma cstring_nul a b : Forall (fun c => c <> 0) a -> cstring (a ++ 0 :: b) = a.
Proof. intros Ha. rewrite cstring_app_nonzero by done. simpl. apply app_nil_r. Qed.

(** The schemes the client accepts. *)
Definition schemes : list bytes := [lit "coaps://"; lit "coap://"].

Definition scheme_skipped (uri : bytes) : option nat :=
  if has_scheme (lit "coaps://") uri then Some 8%nat
  else if has_scheme (lit "coap://") uri then Some 7%nat else None.

Lemma scheme_skip scheme rest :
  scheme ∈ schemes -> scheme_skipped (scheme ++ rest) = Some (length scheme).
Proof.
  unfold schemes, scheme_skipped, has_scheme. rewrite !elem_of_cons, elem_of_nil. intros [->|[->|[]]].
  - rewrite bool_decide_eq_true_2; [done |]. by rewrite take_app_length.
  - rewrite bool_decide_eq_false_2 by (vm_compute; intros [=]).
    rewrite bool_decide_eq_true_2; [done |]. by rewrite take_app_length.
Qed.

Section addresses.
Context (scheme host port : bytes).
Hypothesis Hscheme : scheme ∈ schemes.
Hypothesis Hhost : Forall (fun c => c <> 0) host.
Hypothesis Hport : Forall (fun c => c <> 0) port.
Hypothesis Hcolon : COLON ∉ port.

(** [scheme://host:port], with a host that does not start with a bracket. *)
Lemma split_plain :
  head host <> Some LBRACKET ->
  exists h p u, split_uri (scheme ++ host ++ COLON :: port ++ [0]) = Some (h, p, u)
    /\ cstring (drop h u) = host /\ cstring (drop p u) = port.
Proof using Hscheme Hhost Hport Hcolon.
  intros Hb. unfold split_uri. fold (scheme_skipped (scheme ++ host ++ COLON :: port ++ [0])).
  rewrite scheme_skip by done. cbn [mbind option_bind]. rewrite drop_app_length.
  assert (cstring (host ++ COLON :: port ++ [0]) = host ++ COLON :: port) as ->.
  { change (COLON :: port ++ [0]) with ((COLON :: port) ++ [0]). rewrite app_assoc. apply cstring_nul.
    apply Forall_app. split; [done |]. by constructor. }
  rewrite strrchr_last by done. cbn [mbind option_bind].
  destruct (decide _) as [Hl|_].
  { exfalso. apply Hb. rewrite lookup_app_r, Nat.sub_diag in Hl by done. by destruct host. }
  cbn [mbind option_bind]. do 3 eexists. split; [done |].
  rewrite <- length_app, app_assoc, insert_at. split.
  - by rewrite <- app_assoc, drop_app_length, cstring_nul.
  - change (0 :: port ++ [0]) with ([0] ++ port ++ [0]). rewrite app_assoc.
    rewrite drop_app_length' by (rewrite !length_app; simpl; rewrite ?length_app; simpl; lia). by apply cstring_nul.
Qed.

(** [scheme://[host]:port]. *)
Lemma split_bracketed :
  exists h p u, split_uri (scheme ++ LBRACKET :: host ++ RBRACKET :: COLON :: port ++ [0]) = Some (h, p, u)
    /\ cstring (drop h u) = host /\ cstring (drop p u) = port.
Proof using Hscheme Hhost Hport Hcolon.
  unfold split_uri. fold (scheme_skipped (scheme ++ LBRACKET :: host ++ RBRACKET :: COLON :: port ++ [0])).
  rewrite scheme_skip by done. cbn [mbind option_bind]. rewrite drop_app_length.
  assert (cstring (LBRACKET :: host ++ RBRACKET :: COLON :: port ++ [0])
          = (LBRACKET :: host ++ [RBRACKET]) ++ COLON :: port) as ->.
  { replace (LBRACKET :: host ++ RBRACKET :: COLON :: port ++ [0])
      with (((LBRACKET :: host ++ [RBRACKET]) ++ COLON :: port) ++ 0 :: []) by (simpl; by rewrite <- !app_assoc).
    apply cstring_nul. apply Forall_app. split; [| by constructor]. constructor; [done |]. apply Forall_app.
    split; [done |]. by repeat constructor. }
  rewrite strrchr_last by done. cbn [mbind option_bind].
  rewrite decide_True by (by rewrite lookup_app_r, Nat.sub_diag by done).
  assert (length scheme + length (LBRACKET :: host ++ [RBRACKET]) - 1 = length (scheme ++ LBRACKET :: host))%nat as ->
    by (rewrite !length_app; simpl; rewrite length_app; simpl; lia).
  replace (scheme ++ LBRACKET :: host ++ RBRACKET :: COLON :: port ++ [0])
    with ((scheme ++ LBRACKET :: host) ++ RBRACKET :: COLON :: port ++ [0]) by (by rewrite <- app_assoc).
  rewrite decide_True by (by rewrite lookup_app_r, Nat.sub_diag by done).
  cbn [mbind option_bind]. do 3 eexists. split; [done |]. rewrite insert_at.
  replace ((scheme ++ LBRACKET :: host) ++ 0 :: COLON :: port ++ [0])
    with ((scheme ++ LBRACKET :: host ++ [0]) ++ COLON :: port ++ [0]) by (by rewrite <- !app_assoc; simpl; rewrite <- app_assoc).
  assert (length scheme + length (LBRACKET :: host ++ [RBRACKET]) = length (scheme ++ LBRACKET :: host ++ [0%Z]))%nat as ->
    by (rewrite !length_app; simpl; rewrite !length_app; simpl; lia).
  rewrite insert_at. split.
  - replace ((scheme ++ LBRACKET :: host ++ [0]) ++ 0 :: port ++ [0])
      with ((scheme ++ [LBRACKET]) ++ host ++ 0 :: 0 :: port ++ [0])
      by (rewrite <- !app_assoc; simpl; by rewrite <- !app_assoc).
    rewrite drop_app_length' by (rewrite !length_app; simpl; rewrite ?length_app; simpl; lia). by apply cstring_nul.
  - change (0 :: port ++ [0]) with ([0] ++ port ++ [0]). rewrite app_assoc.
    rewrite drop_app_length' by (rewrite !length_app; simpl; rewrite ?length_app; simpl; lia). by apply cstring_nul.
Qed.
End addresses.

(** ** Memory *)

Section memory.
Context {W L LS LT K N D : Type} {SL : SimpleLink W} {TLS : MbedTLS W} {TC : TlsConfig} {NT : TaskNotify N} {B : Base64}.
Context {LL : Lwm2mList L security_instance instanceId} {DD : Lwm2mData D}.
Context {LSL : Lwm2mList LS ServerObject.server_instance ServerObject.instanceId} {LTL : Lwm2mList LT Z id}.
Context {LIB : Lwm2mLib W K D}.
Variables (fuel : nat) (cid version_1_0 : bool) (clock : W -> Z).
Variable base : heap.

(** The heap holds what it held before, the blocks [bs] and one block for every
    connection of the list; nothing was released twice. *)
Definition owns (bs : list Z) (t : transport W) : Prop := grown base (map block (connList t) ++ bs) (hp t).

Lemma create_owns bs now host port proto t c c' r l h n n' :
  owns bs t -> connection_create fuel now host port proto (connList t) (hp t) c n = Some (r, l, h, c', n') ->
  grown base (map block (match r, l with Some p, [] => [p] | _, _ => l end) ++ bs) h.
Proof using.
  intros Ht. unfold connection_create. destruct (lwm2m_malloc (hp t)) as [[p|] h1] eqn:E1.
  2: { intros [= <- <- <- <- <-]. apply (grown_malloc _ _ _ _ _ Ht E1). }
  pose proof (grown_malloc _ _ _ _ _ Ht E1) as H1.
  destruct (uiso_create_network_connection _ _ _ _ _ _ _ _) as [[[ret c1] n1]|]; [| done]. cbn [mbind option_bind].
  destruct (0 <=? ret); intros [= <- <- <- <- <-]; [| by apply grown_free].
  destruct (connList t) as [|a l0]; [done |]. change (?a :: ?l ++ ?x) with ((a :: l) ++ x).
  eapply grown_proper; [done | | done |]; [| exact H1].
  simpl. rewrite map_app. simpl. rewrite <- app_assoc. simpl. rewrite <- Permutation_middle. apply Permutation_swap.
Qed.

Lemma connect_parsed_owns bs o i host port t r t' :
  owns bs t -> connect_parsed fuel cid clock o i host port t = Some (r, t') -> owns bs t'.
Proof using.
  intros Ht. unfold connect_parsed.
  destruct (mbedtls_connector_initialize _ _ _ _ _) as [[[ret c] log]|]; [| done]. cbn [mbind option_bind].
  destruct (ret =? 0).
  - destruct (connection_create _ _ _ _ _ _ _ _ _) as [[[[[r0 l] h] c1] n1]|] eqn:E; [| done].
    apply (create_owns _ _ _ _ _ _ _ _ _ _ _ _ _ Ht) in E. cbn [mbind option_bind].
    destruct r0 as [p|]; intros [= <- <-]; unfold owns; simpl; by destruct l.
  - cbn [mbind option_bind]. by intros [= <- <-].
Qed.

(** Every path of [lwm2m_connect_server] gives the copy of the address back. *)
Lemma connect_server_owns bs o i t r t' :
  owns bs t -> lwm2m_connect_server fuel cid clock o i t = Some (r, t') -> owns bs t'.
Proof using.
  intros Ht. unfold lwm2m_connect_server, get_server_uri.
  destruct (list_find i (instanceList o)) as [inst|]; [| cbn [mbind option_bind]; by intros [= <- <-]].
  unfold lwm2m_strdup. destruct (strlen (uri inst)) as [len|]; [| done]. cbn [mbind option_bind].
  destruct (lwm2m_malloc (hp t)) as [[p|] h1] eqn:E1; cbn [mbind option_bind].
  2: { intros [= <- <-]. apply (grown_malloc _ _ _ _ _ Ht E1). }
  assert (owns (p :: bs) (with_heap h1 t)) as H1.
  { unfold owns. simpl. rewrite <- Permutation_middle. apply (grown_malloc _ _ _ _ _ Ht E1). }
  intros H. destruct (match split_uri _ with Some _ => _ | None => _ end) as [[r1 t1]|] eqn:E2; [| done].
  assert (owns (p :: bs) t1) as H2.
  { destruct (split_uri _) as [[[hi pi] u]|]; [by apply (connect_parsed_owns (p :: bs)) in E2 | by injection E2 as <- <-]. }
  injection H as <- <-. unfold owns in *. simpl in *. rewrite <- Permutation_middle in H2. by apply grown_free.
Qed.

Lemma unlink_perm target l l' : unlink target l = Some l' -> l ≡ₚ target :: l'.
Proof using.
  revert l'. induction l as [|x l IH]; intros l'; simpl; [done |]. destruct (decide (x = target)) as [->|_].
  - by intros [= <-].
  - destruct (unlink target l) as [l1|]; [| done]. intros [= <-]. rewrite (IH l1) by done. apply Permutation_swap.
Qed.

Lemma close_connection_owns bs target t : owns bs t -> owns bs (lwm2m_close_connection target t).
Proof using.
  intros Ht. unfold lwm2m_close_connection. destruct (mbedtls_connector_close _ _) as [n log].
  destruct (unlink target (connList t)) as [l|] eqn:E; [| done]. unfold owns in *. simpl.
  apply unlink_perm in E. rewrite E in Ht. by apply grown_free.
Qed.

(** ** The objects *)

Definition object_blocks (os : objects L LS LT) : list Z :=
  blocks (o_security os) ++ blocks (o_server os) ++ blocks (o_device os)
  ++ match o_accelerometer os with Some o => blocks o | None => [] end.

(** An object on the heap without user data of its own. *)
Definition plain {I} (o : object I) : Prop := userData o = None /\ is_Some (address o).

Definition plain_objects (os : objects L LS LT) : Prop :=
  plain (o_security os) /\ plain (o_server os) /\ plain (o_device os)
  /\ match o_accelerometer os with Some o => plain o | None => True end.

Lemma release_plain {I} (o : object I) qs h :
  plain o -> grown base (blocks o ++ qs) h ->
  grown base qs (match address o with Some p => lwm2m_free p (free_all (nodes o).*2 h) | None => free_all (nodes o).*2 h end).
Proof using.
  intros [Hu [p Hp]]. unfold blocks. rewrite Hu, Hp. simpl. rewrite <- app_assoc. intros H%grown_free_all.
  by apply grown_free.
Qed.

Lemma free_objects_grown (os : objects L LS LT) qs h :
  plain_objects os -> grown base (object_blocks os ++ qs) h -> grown base qs (free_objects os h).
Proof using.
  intros (H1 & H2 & H3 & H4). unfold object_blocks, free_objects. rewrite <- !app_assoc.
  intros H%(release_plain _ _ _ H1)%(release_plain _ _ _ H2)%(release_plain _ _ _ H3).
  unfold free_object_device. destruct (o_device os) as [ad ? ? ? ? nd ud ?]. destruct H3 as [Hu _]. simpl in Hu, H. subst ud.
  unfold free_accelerometer_object. destruct (o_accelerometer os) as [o|]; [by apply (release_plain _ _ _ H4) | done].
Qed.

Lemma reverse_four {A} (a b c d : list A) : a ++ b ++ c ++ d ≡ₚ d ++ c ++ b ++ a.
Proof using. rewrite (Permutation_app_comm a), (Permutation_app_comm b), (Permutation_app_comm c). by rewrite <- !app_assoc. Qed.

(** Creating the objects takes their blocks, or a start that fails keeps some. *)
Lemma create_objects_grown cfg v h r v' h' :
  grown base [] h -> create_objects cfg v h = Some (r, v', h') ->
  match r with
  | Some os => plain_objects os /\ grown base (object_blocks os) h'
  | None => exists bs, grown base bs h'
  end.
Proof using.
  intros H0. unfold create_objects, get_security_object, ServerObject.get_server_object, get_object_device,
    get_accelerometer_object.
  destruct (malloc_object h) as [p1 h1] eqn:E1. apply (malloc_object_grown _ _ _ _ _ H0) in E1.
  destruct p1 as [[o1 i1]|]; [| intros [= <- _ <-]; by eexists].
  destruct (configured_instance cfg) as [t|]; [| done]. cbn [mbind option_bind].
  destruct (malloc_object h1) as [p2 h2] eqn:E2. apply (malloc_object_grown _ _ _ _ _ E1) in E2.
  destruct p2 as [[o2 i2]|]; [| intros [= <- _ <-]; by eexists]. cbn [mbind option_bind].
  destruct (malloc_object h2) as [p3 h3] eqn:E3. apply (malloc_object_grown _ _ _ _ _ E2) in E3.
  destruct p3 as [[o3 i3]|]; [| intros [= <- _ <-]; by eexists]. cbn [mbind option_bind].
  destruct (malloc_object h3) as [p4 h4] eqn:E4. apply (malloc_object_grown _ _ _ _ _ E3) in E4.
  destruct p4 as [[o4 i4]|]; intros [= <- _ <-].
  - split; [by repeat split; eexists |]. unfold object_blocks, blocks. simpl.
    eapply grown_proper; [done | | done | exact E4]. apply (reverse_four [i1; o1] [i2; o2] [i3; o3] [i4; o4]).
  - split; [by repeat split; eexists |]. unfold object_blocks, blocks. simpl.
    eapply grown_proper; [done | | done | exact E4]. apply (reverse_four [i1; o1] [i2; o2] [i3; o3] []).
Qed.

(** ** The run *)

Local Abbreviation client := (client W L LS LT K N).

(** What holds between any two calls. *)
Definition held (s : client) : Prop := plain_objects (objs s) /\ owns (object_blocks (objs s)) (sessions s).

(** A step keeps it, whether it returns or stops. *)
Definition keeps {A} (m : run client A) : Prop := forall s, held s -> held (snd (m s)).

Lemma keeps_ret {A} (a : A) : keeps (mret a).
Proof using. by intros s. Qed.

Lemma keeps_bind {A C} (m : run client A) (f : A -> run client C) : keeps m -> (forall a, keeps (f a)) -> keeps (m ≫= f).
Proof using.
  intros Hm Hf s Hs. specialize (Hm s Hs). unfold mbind, run_bind. destruct (m s) as [[a|] s1]; [by apply Hf | done].
Qed.

Lemma keeps_get : keeps get.
Proof using. by intros s. Qed.

Lemma keeps_stop {A} : keeps (@stop _ A).
Proof using. by intros s. Qed.

Lemma keeps_modify f : (forall s, objs (f s) = objs s /\ sessions (f s) = sessions s) -> keeps (modify f).
Proof using. intros Hf s Hs. destruct (Hf s) as [H1 H2]. unfold held, modify. cbn [snd]. by rewrite H1, H2. Qed.

Lemma keeps_when b m : keeps m -> keeps (when b m).
Proof using. intros Hm. destruct b; [done | apply keeps_ret]. Qed.

Lemma keeps_on_sessions {A} (f : transport W -> option (A * transport W)) :
  (forall bs t a t', owns bs t -> f t = Some (a, t') -> owns bs t') -> keeps (on_sessions f).
Proof using.
  intros Hf s [Hp Hs]. unfold on_sessions. destruct (f (sessions s)) as [[a t]|] eqn:E; [| done].
  split; [done |]. by apply (Hf _ _ _ _ Hs E).
Qed.

(** The network calls leave the heap and the connections alone. *)
Lemma keeps_network {A} (f : transport W -> option (A * transport W)) :
  (forall t a t', f t = Some (a, t') -> connList t' = connList t /\ hp t' = hp t) -> keeps (on_sessions f).
Proof using.
  intros Hf. apply keeps_on_sessions. intros bs t a t' Ht E. destruct (Hf _ _ _ E) as [H1 H2].
  unfold owns. by rewrite H1, H2.
Qed.

Lemma keeps_answer (f : client -> option (coap * list D)) : keeps (answer f).
Proof using. by intros s. Qed.

Lemma keeps_server f :
  (forall qs o h r o' h', ServerObject.owns_nodes base qs o h -> f o h = Some (r, o', h') ->
     ServerObject.owns_nodes base qs o' h' /\ ServerObject.same_frame o o') ->
  keeps (on_server (D := D) f).
Proof using.
  intros Hf s [Hp Hs]. unfold on_server. destruct (f (o_server (objs s)) (hp (sessions s))) as [[[r o] h]|] eqn:E; [| done].
  assert (forall o' : object LS, address o' = address (o_server (objs s)) -> userData o' = userData (o_server (objs s)) ->
    map block (connList (sessions s)) ++ object_blocks (set_server o' (objs s))
    ≡ₚ (nodes o').*2 ++ map block (connList (sessions s)) ++ blocks (o_security (objs s))
        ++ (option_list (userData (o_server (objs s))) ++ option_list (address (o_server (objs s))))
        ++ blocks (o_device (objs s)) ++ match o_accelerometer (objs s) with Some o => blocks o | None => [] end) as Hsplit.
  { intros o' Ha Hu. unfold object_blocks, set_server. cbn [o_security o_server o_device o_accelerometer].
    unfold blocks at 2. rewrite Ha, Hu. solve_Permutation. }
  unfold owns in Hs. assert (set_server (o_server (objs s)) (objs s) = objs s) as Hid by (by destruct (objs s)).
  pose proof (Hsplit (o_server (objs s)) eq_refl eq_refl) as H0. rewrite Hid in H0. rewrite H0 in Hs. apply (Hf _ _ _ _ _ _ Hs) in E as [Hg [Ha Hu]].
  split; [| unfold owns; cbn [sessions objs set_sessions set_objs with_heap connList hp]; rewrite (Hsplit o Ha Hu); exact Hg].
  destruct Hp as (H1 & [H2 H2'] & H3). split; [done |]. split; [| done]. split; cbn; [by rewrite Hu | by rewrite Ha].
Qed.

#[local] Hint Resolve keeps_ret keeps_get keeps_stop keeps_when keeps_answer : keeps.

Lemma keeps_call_object r : keeps (call_object version_1_0 clock r).
Proof using.
  destruct r; cbn [call_object]; auto with keeps; apply keeps_server; intros qs o h r o' h' Ho E.
  - by apply (ServerObject.server_write_grown _ _ _ _ _ _ _ _ _ _ _ Ho E).
  - by apply (ServerObject.server_create_grown _ _ _ _ _ _ _ _ _ _ Ho E).
  - injection E as E. by apply (ServerObject.server_delete_grown _ _ _ _ _ _ _ _ Ho E).
Qed.

Lemma keeps_run_core {A} (p : core_prog D A) : keeps (run_core fuel cid version_1_0 clock p).
Proof using.
  induction p as [a|i k IH|c k IH|c b k IH|r k IH]; cbn [run_core]; [auto with keeps | ..].
  - apply keeps_bind; [auto with keeps |]. intros s. apply keeps_bind; [| done].
    apply keeps_on_sessions. intros bs t a t'. apply connect_server_owns.
  - apply keeps_bind; [| done]. apply keeps_on_sessions. intros bs t a t' Ht [= _ <-]. by apply close_connection_owns.
  - apply keeps_bind; [| done]. apply keeps_network. intros t a t'.
    destruct (lwm2m_buffer_send _ _ _ _ _ _ _) as [[[r c1] n]|]; [| done]. by intros [= _ <-].
  - apply keeps_bind; [apply keeps_call_object | done].
Qed.

Lemma keeps_core_do p : keeps (core_do fuel cid version_1_0 clock p).
Proof using.
  apply keeps_bind; [auto with keeps |]. intros s. apply keeps_bind; [apply keeps_run_core |].
  intros k. by apply keeps_modify.
Qed.
#[local] Hint Resolve keeps_core_do : keeps.

Lemma keeps_receive : keeps (receive fuel cid version_1_0 clock).
Proof using.
  apply keeps_bind; [auto with keeps |]. intros s. destruct (connList (sessions s)) as [|p l]; [auto with keeps |].
  apply keeps_bind.
  - apply keeps_network. intros t a t'. destruct (uiso_network_read _ _ _ _) as [[[r c] n]|]; [| done]. by intros [= _ <-].
  - intros [n d]. destruct (_ <=? n); auto with keeps.
Qed.
#[local] Hint Resolve keeps_receive : keeps.

Lemma keeps_handle_notification v : keeps (handle_notification fuel cid version_1_0 clock v).
Proof using.
  unfold handle_notification. do 3 (apply keeps_bind; [auto with keeps | intros _]).
  apply keeps_bind; [| auto with keeps]. apply keeps_when. do 2 (apply keeps_bind; [auto with keeps | intros _]). auto with keeps.
Qed.

Lemma keeps_client_turn now others : keeps (client_turn fuel cid version_1_0 clock now others).
Proof using.
  unfold client_turn. apply keeps_bind; [auto with keeps |]. intros s. destruct (notify_wait 0 (box s)) as [v b].
  apply keeps_bind; [by apply keeps_modify | intros _]. apply keeps_bind.
  { destruct v; [apply keeps_handle_notification | auto with keeps]. }
  intros _. apply keeps_bind; [auto with keeps |]. intros s1. apply keeps_bind; [apply keeps_run_core |].
  intros [[res tv] k]. apply keeps_bind; [by apply keeps_modify | intros _]. destruct (negb _); [auto with keeps |].
  apply keeps_bind; [| auto with keeps]. apply keeps_modify. intros s2. unfold wait_for_rx.
  destruct (Monitor.enqueue_select_rx _ _ _ _ _) as [ret ws]. by destruct (ret =? 0).
Qed.

Lemma keeps_client_loop envs : keeps (client_loop fuel cid version_1_0 clock envs).
Proof using.
  induction envs as [|e envs IH]; cbn [client_loop]; [auto with keeps |]. apply keeps_bind.
  - apply keeps_modify. intros s. generalize (env_updates e). intros us. revert s.
    induction us as [|u us IHu]; intros s; [done |]. simpl. destruct (IHu (apply_update u s)) as [-> ->]. by destruct u.
  - intros _. apply keeps_bind; [apply keeps_client_turn |]. intros []; auto with keeps.
Qed.

(** The end of the task: the objects are released, or a call did not return
    and everything is still held. *)
Lemma shut_down_owns (s s' : client) r :
  held s -> shut_down fuel cid version_1_0 clock s = (r, s') ->
  match r with Some _ => owns [] (sessions s') | None => held s' end.
Proof using.
  intros Hs. unfold shut_down, mbind, run_bind, get. pose proof (keeps_run_core (lwm2m_close (core s)) s Hs) as [Hp H1].
  destruct (run_core _ _ _ _ _ s) as [[u|] s1]; cbn [snd] in *; [| by intros [= <- <-]].
  unfold on_sessions. destruct (connection_free _ _ _ _) as [[c n]|]; cbn; intros [= <- <-]; [| done].
  unfold owns in *. simpl. rewrite app_nil_r. apply free_objects_grown; [done |]. by rewrite Permutation_app_comm.
Qed.
End memory.


(** ** From the configuration file to the server *)

Section provisioned.
Context {W L : Type} {SL : SimpleLink W} {TLS : MbedTLS W} {TC : TlsConfig} {B : Base64}.
Context {LL : Lwm2mList L security_instance instanceId} {LLAWS : Lwm2mListLaws L security_instance instanceId}.
Variables (fuel : nat) (cid : bool) (clock : W -> Z).

(** Host and port as the callback extracts them from the copied address. *)
Lemma connect_server_parsed (o : object L) i t p h1 uri host port hi pi u :
  get_server_uri o i (hp t) = Some (Some (p, uri), h1) ->
  split_uri uri = Some (hi, pi, u) -> cstring (drop hi u) = host -> cstring (drop pi u) = port ->
  lwm2m_connect_server fuel cid clock o i t
  = ('(r, t1) ← connect_parsed fuel cid clock o i host port (with_heap h1 t);
     Some (r, with_heap (lwm2m_free p (hp t1)) t1)).
Proof using. intros Hu Hs <- <-. unfold lwm2m_connect_server. rewrite Hu. cbn [mbind option_bind]. by rewrite Hs. Qed.

(** A session means that the whole set-up succeeded. *)
Lemma connect_parsed_psk (o : object L) i inst host port t p t' :
  list_find i (instanceList o) = Some inst -> security_mode inst = security_mode_psk ->
  connect_parsed fuel cid clock o i host port t = Some (Some p, t') ->
  tls t' = tls t ++ psk_setup cid (take (Z.to_nat (secret_key_len inst)) (secret_key inst))
                                  (cstring (public_identity inst))
  /\ exists l h, connection_create fuel (clock (dev (nt t))) host port uiso_protocol_dtls_ip4 (connList t) (hp t)
                   (set_ssl true (ctx t)) (nt t) = Some (Some p, l, h, ctx t', nt t').
Proof using.
  intros Hi Hm. unfold connect_parsed.
  destruct (mbedtls_connector_initialize _ _ _ _ _) as [[[ret c] log]|] eqn:E; [| done]. cbn [mbind option_bind].
  destruct (Z.eqb_spec ret 0) as [->|]; [| done].
  apply (initialize_psk _ _ _ _ _ _ _ _ Hi Hm) in E as [-> ->].
  destruct (connection_create _ _ _ _ _ _ _ _ _) as [[[[[r l] h] c1] n1]|]; [| done]. cbn [mbind option_bind].
  destruct r as [q|]; [| done]. intros [= -> <-]. simpl. split; [done |]. by exists l, h.
Qed.

Lemma security_object_of_config ssid key uri id psk url k olen r h o h' :
  Jsmn.str_body uri -> Jsmn.str_body id -> Jsmn.str_body psk ->
  (length uri < 128)%nat -> (length id < 128)%nat -> (length psk < 64)%nat ->
  base64_decode 64 psk = (r, k, olen) ->
  get_security_object (L := L) (Config.loaded ssid key uri id psk url Config.cleared) h = Some (Some o, h') ->
  exists a i, o = security_object a i (instance_of uri id k olen).
Proof using.
  intros Hu Hi Hp Lu Li Lp Hk. unfold get_security_object. destruct (malloc_object h) as [[[a i]|] h1]; [| done].
  rewrite configured_loaded, Hk by done. cbn [mbind option_bind]. intros [= <- _]. by exists a, i.
Qed.

(** Connecting with the object made of an address [scheme://host:port]. *)
Lemma provisioned_parsed scheme host port id k a i t :
  let uri := scheme ++ host ++ COLON :: port in
  let o := security_object (L := L) a i (instance_of uri id k (Z.of_nat (length k))) in
  scheme ∈ schemes -> Forall (fun c => c <> 0) host -> Forall (fun c => c <> 0) port ->
  Forall (fun c => c <> 0) scheme -> COLON ∉ port -> head host <> Some LBRACKET -> (length uri < 256)%nat ->
  forall p h1, lwm2m_malloc (hp t) = (Some p, h1) ->
  lwm2m_connect_server fuel cid clock o 0 t
  = ('(r, t1) ← connect_parsed fuel cid clock o 0 host port (with_heap h1 t);
     Some (r, with_heap (lwm2m_free p (hp t1)) t1)).
Proof using LLAWS.
  intros uri o Hsch Hnh Hnp Hns Hport Hb Lu p h1 Hmal.
  destruct (split_plain scheme host port Hsch Hnh Hnp Hport Hb) as (hi & pi & u & Hsplit & Hhost & Hpt).
  apply (connect_server_parsed _ _ _ _ _ (uri ++ [0]) _ _ hi pi u); [| | done | done].
  - unfold o. destruct (security_object_lends (L := L) a i uri id k (Z.of_nat (length k)) (hp t)) as (-> & _); [| done | by rewrite Hmal].
    unfold uri. rewrite !Forall_app, list.Forall_cons. by split_and!.
  - unfold uri. rewrite <- !app_assoc. exact Hsplit.
Qed.

Lemma key_taken (k : bytes) : take (Z.to_nat (Z.of_nat (length k))) (k ++ drop (length k) (replicate 64 0)) = k.
Proof using. by rewrite Nat2Z.id, take_app_length. Qed.
End provisioned.

(** C3: What the configuration file says is what the client connects with.  For a
    file with server address [scheme://host:port], identity and key, loading it
    and creating the security object succeed; connecting to server 0 then hands
    exactly that host and that port to the network layer (when there is memory
    for the copy of the address), and every session that results was set up with
    the decoded key and the identity of the file, all TLS calls in order. *)
Theorem provisioned_connection {W L : Type} {SL : SimpleLink W} {TLS : MbedTLS W} {TC : TlsConfig} {B : Base64}
    {LL : Lwm2mList L security_instance instanceId} {LLAWS : Lwm2mListLaws L security_instance instanceId}
    (fuel : nat) (cid : bool) (clock : W -> Z)
    (ssid key scheme host port id psk url k : bytes) sd ch b l :
  Jsmn.str_body ssid -> Jsmn.str_body key -> Jsmn.str_body (scheme ++ host ++ COLON :: port) ->
  Jsmn.str_body id -> Jsmn.str_body psk -> Jsmn.str_body url ->
  scheme ∈ schemes -> head host <> Some LBRACKET -> COLON ∉ port ->
  (length (scheme ++ host ++ COLON :: port) < 128)%nat -> (length id < 128)%nat -> (length psk < 64)%nat ->
  (length url <= 64)%nat ->
  base64_decode 64 psk = (0, k, Z.of_nat (length k)) ->
  let text := JsmnDoc.doc_text (Config.config_doc ssid key (scheme ++ host ++ COLON :: port) id psk url) in
  Z.of_nat (length text) < 2 ^ 31 ->
  Config.card_ok sd ch -> Config.mount_res sd = Config.FR_OK -> Config.open_res sd = Config.FR_OK ->
  Config.read_res sd = Config.FR_OK -> Config.read_data sd = text -> Config.file_size sd = Z.of_nat (length text) ->
  Config.alloc_buffer ch (Config.file_size sd) = Some b -> Config.alloc_tokens ch 22 = Some l ->
  exists cfg log, Config.uiso_load_config sd ch Config.cleared = Jsmn.Done (cfg, log)
  /\ (forall h, (forall p, grants h p = true) -> exists o h', get_security_object (L := L) cfg h = Some (Some o, h'))
  /\ forall h o h' (t : transport W), get_security_object (L := L) cfg h = Some (Some o, h') ->
     (forall p h1, lwm2m_malloc (hp t) = (Some p, h1) ->
        lwm2m_connect_server fuel cid clock o 0 t
        = ('(r, t1) ← connect_parsed fuel cid clock o 0 host port (with_heap h1 t);
           Some (r, with_heap (lwm2m_free p (hp t1)) t1)))
     /\ forall p t', lwm2m_connect_server fuel cid clock o 0 t = Some (Some p, t') ->
        tls t' = tls t ++ psk_setup cid k id
        /\ exists l h1 h2, connection_create fuel (clock (dev (nt t))) host port uiso_protocol_dtls_ip4 (connList t) h1
                             (set_ssl true (ctx t)) (nt t) = Some (Some p, l, h2, ctx t', nt t').
Proof.
  intros Hssid Hkey Huri Hid Hpsk Hurl Hsch Hb Hport Lu Li Lp Lurl Hk text Hmax Hcard Hm Ho Hr Hd Hsz Hbuf Htok.
  set (uri := scheme ++ host ++ COLON :: port) in *.
  destruct (Config.load_doc ssid key uri id psk url Hssid Hkey Huri Hid Hpsk Hurl Lurl Hmax sd ch Config.cleared b l)
    as (log & Hload & _); try assumption; try apply Config.cleared_ok; try exact Hd; try exact Hsz.
  exists (Config.loaded ssid key uri id psk url Config.cleared), log. split; [done |]. split.
  { intros h Hg. unfold get_security_object, malloc_object, lwm2m_malloc. rewrite Hg. cbn [grants]. rewrite Hg.
    rewrite configured_loaded, Hk by done. cbn [mbind option_bind]. by do 2 eexists. }
  intros h o h' t Hsec. destruct (security_object_of_config _ _ _ _ _ _ _ _ _ _ _ _ Huri Hid Hpsk Lu Li Lp Hk Hsec) as (a & i & ->).
  pose proof (Config.str_body_nonzero _ Huri) as Hnz. unfold uri in Hnz. rewrite !Forall_app, list.Forall_cons in Hnz.
  destruct Hnz as (Hns & Hnh & _ & Hnp).
  assert (length uri < 256)%nat as Lu' by lia.
  pose proof (provisioned_parsed fuel cid clock scheme host port id k a i t Hsch Hnh Hnp Hns Hport Hb Lu') as Heq.
  fold uri in Heq.
  split; [exact Heq |]. intros p t' Hc. destruct (lwm2m_malloc (hp t)) as [[q|] h1] eqn:Em.
  2: { exfalso. revert Hc. unfold lwm2m_connect_server.
       destruct (security_object_lends a i uri id k (Z.of_nat (length k)) (hp t)) as (-> & _);
         [by apply Config.str_body_nonzero | lia |]. by rewrite Em. }
  rewrite (Heq _ _ eq_refl) in Hc. destruct (connect_parsed _ _ _ _ _ _ _ _) as [[r t1]|] eqn:Ec; [| done].
  injection Hc as -> <-. set (inst := instance_of uri id k (Z.of_nat (length k))) in *.
  destruct (connect_parsed_psk fuel cid clock (security_object a i inst) 0 inst host port (with_heap h1 t) p t1)
    as (Htls & l1 & h2 & Hcr); [by apply security_object_find | done | done |].
  split; [| by exists l1, h1, h2]. unfold with_heap in *. cbn [tls] in *. rewrite Htls.
  unfold inst, instance_of. cbn [secret_key secret_key_len public_identity]. rewrite key_taken. do 2 f_equal.
  replace (128 - length id)%nat with (S (128 - length id - 1)) by lia. apply cstring_nul. by apply Config.str_body_nonzero.
Qed.

(** ** Concrete runs *)

Import Plain Lwm2mObjects.Example ServerObject.ServerObject.Example.

Module Example.
#[export] Instance driver : SimpleLink unit := scripted (mk_answers (0, 1) 17 0 0 0 100 (0, []) sockaddr_zero 0).
#[export] Instance tls_lib : MbedTLS unit := scripted_tls 100.
#[export] Instance tls_config : TlsConfig := fun _ _ => 0.

(** A core that follows a plan of steps: connecting to server 0, closing the
    session it holds, creating and deleting instances of the server object,
    failing, or doing nothing. *)
Inductive step_kind := StepConnect | StepClose | StepCreate (id lifetime : Z) | StepDelete (id : Z) | StepFail.
Abbreviation records := (Z * Plain.value)%type.

Definition scripted_core (plan : list step_kind) : Lwm2mLib unit (option connection * list step_kind) records := {|
  lwm2m_init _ := Some (None, plan);
  lwm2m_configure _ k := (0, k);
  lwm2m_step tv k :=
    match k with
    | (_, StepConnect :: rest) => Connect 0 (fun r => Ret (0, tv, (r, rest)))
    | (Some c, StepClose :: rest) => Close c (Ret (0, tv, (None, rest)))
    | (c, StepCreate i v :: rest) => CallObject (ServerCreate i [(1, Plain.VInt v)]) (fun _ => Ret (0, tv, (c, rest)))
    | (c, StepDelete i :: rest) => CallObject (ServerDelete i) (fun _ => Ret (0, tv, (c, rest)))
    | (_, StepFail :: _) => Ret (1, tv, k)
    | _ => Ret (0, tv, k)
    end;
  lwm2m_handle_packet _ _ k := Ret k;
  lwm2m_update_registration k := Ret k;
  lwm2m_resource_value_changed _ k := Ret k;
  lwm2m_close _ := Ret tt |}.

Definition sample_uri : bytes := lit "coaps://h:5684".
Definition sample_config : Config.config :=
  Config.loaded (lit "home") (lit "secret") sample_uri (lit "me") (lit "QQ==") (lit "ntp.org") Config.cleared.
Definition roomy : heap := mk_heap (fun _ => true) 0 [] [].
Definition start (h : heap) : transport unit := mk_transport [] h initialize_network_ctx (mk_net tt []) [].

(** Turns in which the monitor leaves the sockets alone, or signals data. *)
Definition quiet : turn_env := mk_env [] 100 (fun ws => ws).
Definition data_arrives : turn_env := mk_env [] 100 (map (Monitor.set_rx_signal true)).

Abbreviation run plan h envs :=
  (lwm2m_client_task_runner (L := list security_instance) (LS := list ServerObject.server_instance) (LT := list Z)
    (N := notif) (D := records) (LIB := scripted_core plan) 10 true false (fun _ => 100) sample_config envs
    (mk_notif 0 false) (replicate 4 Monitor.initialize_wait_ctx) (mk_accel 0 0 0 0) (mk_temperature 0 0 0) (start h)).
End Example.
Import Example.

(** A run that connects, creates two server instances, one of them refused, and
    deletes the first one: the connection and the objects as they were at the
    start are what is in use. *)
Definition busy : list step_kind := [StepConnect; StepCreate 5 300; StepCreate 6 (-1); StepDelete 5].


(** When the core ends the run, everything but the node of the connection has
    been released. *)
Example ended_leaves_node :
  exists t, run [StepConnect; StepFail] roomy [quiet; quiet] = Returned 0 t
    /\ live (hp t) = [9] /\ connList t = [lwm2m_node 9].
Proof. eexists. split; [vm_compute; reflexivity | split; reflexivity]. Qed.

(** Closing a session leaves its socket open: when data arrives there, the
    context of the missing connection is read. *)
Example lost_session_faults :
  (exists s, run [StepConnect; StepClose] roomy [quiet; data_arrives] = Running s
     /\ connList (sessions s) = [] /\ sd (ctx (sessions s)) = 17)
  /\ exists s, run [StepConnect; StepClose] roomy [quiet; data_arrives; quiet] = Stopped s.
Proof.
  split; eexists; [split; [vm_compute; reflexivity | split; reflexivity] | vm_compute; reflexivity].
Qed.

(** When the device object cannot be created, the objects before it are kept. *)
Example failed_start_leaks :
  exists t, run [] (mk_heap (fun p => p <? 4) 0 [] []) [] = Returned (-1) t /\ live (hp t) = [3; 2; 1; 0].
Proof. eexists. split; [vm_compute; reflexivity | reflexivity]. Qed.

(** The accelerometer is not checked: the core gets a null pointer for it. *)
Example accelerometer_not_checked :
  exists s, run [] (mk_heap (fun p => p <? 6) 0 [] []) [] = Running s
    /\ objArray (objs s) = [Some 0; Some 1; Some 3; Some 3303; None].
Proof. eexists. split; [vm_compute; reflexivity | reflexivity]. Qed.

(** A card with a file for server [coaps://h:5684], identity [me], key [A]. *)
Definition provision_file : bytes :=
  JsmnDoc.doc_text (Config.config_doc (lit "home") (lit "secret") sample_uri (lit "me") (lit "QQ==") (lit "ntp.org")).

Ltac plain_body := vm_compute; repeat (first [apply Jsmn.body_nil | apply Jsmn.body_plain; [discriminate | discriminate | discriminate |]]).

Lemma provisioned_connection_witness :
  exists cfg log, Config.uiso_load_config (Config.card provision_file) Config.roomy Config.cleared = Jsmn.Done (cfg, log)
  /\ forall h o h' (t : transport unit), get_security_object (L := list security_instance) cfg h = Some (Some o, h') ->
     forall p t', lwm2m_connect_server 10 true (fun _ => 100) o 0 t = Some (Some p, t') ->
       tls t' = tls t ++ psk_setup true (lit "A") (lit "me").
Proof.
  destruct (provisioned_connection (L := list security_instance) 10 true (fun _ : unit => 100)
              (lit "home") (lit "secret") (lit "coaps://") (lit "h") (lit "5684") (lit "me") (lit "QQ==") (lit "ntp.org")
              (lit "A") (Config.card provision_file) Config.roomy
              (replicate (length provision_file) 170) (replicate 22 Jsmn.blank_tok)) as (cfg & log & H1 & _ & H2);
    try (plain_body; fail); try (vm_compute; reflexivity); try (vm_compute; lia).
  - apply list_elem_of_here.
  - intros H. discriminate H.
  - vm_compute. intros H. repeat (apply elem_of_cons in H as [H|H]; [discriminate H |]). by apply elem_of_nil in H.
  - apply Config.card_roomy_ok. vm_compute. reflexivity.
  - exists cfg, log. split; [exact H1 |]. intros h o h' t Ho p t' Hc. exact (proj1 (proj2 (H2 h o h' t Ho) p t' Hc)).
Defined.
End Lwm2mClient.
