(* ===== verification/SdCard.v ===== *)
(** * The SD card driver

    Models [src/board/sdmm.c], the disk layer below FatFs: commands and data
    packets of the SPI protocol, identification of the card, reading and writing
    of sectors, the capacity; and [get_fattime] of [src/board/board_sd_card.c].

    The SPI bus with the card is the interface [SdBus]: the chip select, bytes
    sent, bytes received, the card-detect switch and the power functions of the
    board.  Every use of it is logged, so that theorems about any card can speak
    of the bus.  Delays have no effect here.  [SdCardModel.v] has a card. *)

From S2P Require Import Prelude Sleeptimer.

Module SdCard.

(** ** The bus *)

Inductive power_call := LevelShifter | CardEnable | FastBaudrate | CardDisable | CardInit.
#[export] Instance power_call_eq_dec : EqDecision power_call.
Proof. solve_decision. Defined.

Class SdBus (W : Type) := {
  spi_select : bool -> W -> W;             (* true: CS# low *)
  spi_send : bytes -> W -> W;
  spi_receive : nat -> W -> bytes * W;
  card_inserted : W -> bool;
  board_power : power_call -> W -> W;
}.

(** A transfer delivers as many bytes as were asked for. *)
Class SdBusLaws (W : Type) {S : SdBus W} := {
  spi_receive_bytes n w : length (spi_receive n w).1 = n /\ is_bytes (spi_receive n w).1 }.

Inductive bus_event :=
| EvSelect (low : bool)
| EvSent (data : bytes)
| EvReceived (data : bytes)
| EvPower (c : power_call).

Record bus (W : Type) := mk_bus { card : W; log : list bus_event }.
Arguments mk_bus {W} _ _.
Arguments card {W} _.
Arguments log {W} _.

(** ** Commands, types, results *)

Definition CMD0 : Z := 0.
Definition CMD1 : Z := 1.
Definition ACMD41 : Z := 0x80 + 41.
Definition CMD8 : Z := 8.
Definition CMD9 : Z := 9.
Definition CMD12 : Z := 12.
Definition CMD16 : Z := 16.
Definition CMD17 : Z := 17.
Definition CMD18 : Z := 18.
Definition ACMD23 : Z := 0x80 + 23.
Definition CMD24 : Z := 24.
Definition CMD25 : Z := 25.
Definition CMD55 : Z := 55.
Definition CMD58 : Z := 58.

Definition CT_MMC3 : Z := 0x01.
Definition CT_SDC2 : Z := 0x08.
Definition CT_SDC : Z := 0x0C.
Definition CT_BLOCK : Z := 0x10.

Definition STA_NOINIT : Z := 0x01.
Definition STA_NODISK : Z := 0x02.

Inductive DRESULT := RES_OK | RES_ERROR | RES_WRPRT | RES_NOTRDY | RES_PARERR.
#[export] Instance DRESULT_eq_dec : EqDecision DRESULT.
Proof. solve_decision. Defined.

Section driver.
Context {W : Type} {SB : SdBus W}.
Implicit Types b : bus W.

Definition CS_L b : bus W := mk_bus (spi_select true (card b)) (log b ++ [EvSelect true]).
Definition CS_H b : bus W := mk_bus (spi_select false (card b)) (log b ++ [EvSelect false]).
Definition xmit_mmc (d : bytes) b : bus W := mk_bus (spi_send d (card b)) (log b ++ [EvSent d]).
Definition rcvr_mmc (n : nat) b : bytes * bus W :=
  let '(d, w) := spi_receive n (card b) in (d, mk_bus w (log b ++ [EvReceived d])).
Definition power (c : power_call) b : bus W := mk_bus (board_power c (card b)) (log b ++ [EvPower c]).

(** One byte. *)
Definition rcvr_byte b : Z * bus W := let '(d, b) := rcvr_mmc 1 b in (default 0 (head d), b).

(** ** Waiting and selecting *)

Fixpoint ready_loop (tmr : nat) b : bool * bus W :=
  match tmr with
  | O => (false, b)
  | S tmr => let '(d, b) := rcvr_byte b in if d =? 0xFF then (true, b) else ready_loop tmr b
  end.
Definition wait_ready b : bool * bus W := ready_loop (Z.to_nat 5000) b.

Definition deselect b : bus W := let b := CS_H b in (rcvr_mmc 1 b).2.

Definition select b : bool * bus W :=
  let b := CS_L b in
  let b := (rcvr_mmc 1 b).2 in
  let '(ok, b) := wait_ready b in
  if (ok : bool) then (true, b) else (false, deselect b).

(** ** Data packets *)

Fixpoint token_loop (tmr : nat) (d : Z) b : Z * bus W :=
  match tmr with
  | O => (d, b)
  | S tmr => let '(d, b) := rcvr_byte b in if negb (d =? 0xFF) then (d, b) else token_loop tmr d b
  end.

(** The block, or [None] for a failure. *)
Definition rcvr_datablock (btr : nat) b : option bytes * bus W :=
  let '(d, b) := token_loop (Z.to_nat 1000) 0 b in
  if negb (d =? 0xFE) then (None, b)
  else
    let '(buff, b) := rcvr_mmc btr b in
    let '(_, b) := rcvr_mmc 2 b in
    (Some buff, b).

Definition xmit_datablock (buff : bytes) (token : Z) b : bool * bus W :=
  let '(ok, b) := wait_ready b in
  if negb ok then (false, b)
  else
    let b := xmit_mmc [token] b in
    if negb (token =? 0xFD) then
      let b := xmit_mmc buff b in
      let '(_, b) := rcvr_mmc 2 b in
      let '(d, b) := rcvr_byte b in
      if negb (d .& 0x1F =? 0x05) then (false, b) else (true, b)
    else (true, b).

(** ** Commands *)

Definition frame (cmd arg : Z) : bytes :=
  [0x40 .| cmd; u8 (Z.shiftr arg 24); u8 (Z.shiftr arg 16); u8 (Z.shiftr arg 8); u8 arg;
   if cmd =? CMD8 then 0x87 else if cmd =? CMD0 then 0x95 else 0x01].

(** [do ... while ((d & 0x80) && --n)], [n] more bytes at most. *)
Fixpoint response_loop (n : nat) b : Z * bus W :=
  let '(d, b) := rcvr_byte b in
  match n with
  | O => (d, b)
  | S n => if test_mask d 0x80 then response_loop n b else (d, b)
  end.

(** A command below 0x80. *)
Definition send_plain (cmd arg : Z) b : Z * bus W :=
  let '(ok, b) := if negb (cmd =? CMD12) then select (deselect b) else (true, b) in
  if negb ok then (0xFF, b)
  else
    let b := xmit_mmc (frame cmd arg) b in
    let b := if cmd =? CMD12 then (rcvr_mmc 1 b).2 else b in
    response_loop 9 b.

Definition send_cmd (cmd arg : Z) b : Z * bus W :=
  if test_mask cmd 0x80 then
    let '(n, b) := send_plain CMD55 0 b in
    if 1 <? n then (n, b) else send_plain (cmd .& 0x7F) arg b
  else send_plain cmd arg b.

(** ** The driver's state and functions *)

Record disk := mk_disk { Stat : Z; CardType : Z; spi : bus W }.
Definition set_spi b (d : disk) : disk := mk_disk (Stat d) (CardType d) b.

Definition disk_status (drv : Z) (d : disk) : Z * disk :=
  let st := if negb (drv =? 0) then Stat d .| STA_NOINIT else Stat d in
  let st := if card_inserted (card (spi d)) then Z.ldiff st STA_NODISK else st .| STA_NODISK in
  (st, mk_disk st (CardType d) (spi d)).

Definition disk_disable (d : disk) : Z * disk :=
  disk_status 0 (set_spi (power CardInit (power CardDisable (spi d))) d).

(** [for (tmr = 1000; tmr; tmr--) if (send_cmd(cmd, arg) == 0) break;]. *)
Fixpoint leave_idle (tmr : nat) (cmd arg : Z) b : bool * bus W :=
  match tmr with
  | O => (false, b)
  | S tmr => let '(r, b) := send_cmd cmd arg b in if r =? 0 then (true, b) else leave_idle tmr cmd arg b
  end.

Definition byte_at (l : bytes) (i : nat) : Z := default 0 (l !! i).

Definition identify_sdv2 b : Z * bus W :=
  let '(buf, b) := rcvr_mmc 4 b in
  if (byte_at buf 2 =? 0x01) && (byte_at buf 3 =? 0xAA) then
    let '(left_idle, b) := leave_idle (Z.to_nat 1000) ACMD41 (Z.shiftl 1 30) b in
    if negb left_idle then (0, b)
    else
      let '(r, b) := send_cmd CMD58 0 b in
      if r =? 0 then
        let '(buf, b) := rcvr_mmc 4 b in
        (if test_mask (byte_at buf 0) 0x40 then CT_SDC2 .| CT_BLOCK else CT_SDC2, b)
      else (0, b)
  else (0, b).

Definition identify_old b : Z * bus W :=
  let '(r, b) := send_cmd ACMD41 0 b in
  let '(ty, cmd) := if r <=? 1 then (CT_SDC2, ACMD41) else (CT_MMC3, CMD1) in
  let '(left_idle, b) := leave_idle (Z.to_nat 1000) cmd 0 b in
  if negb left_idle then (0, b)
  else let '(r, b) := send_cmd CMD16 512 b in (if negb (r =? 0) then 0 else ty, b).

Definition identify b : Z * bus W :=
  let '(r, b) := send_cmd CMD0 0 b in
  if r =? 1 then
    let '(r, b) := send_cmd CMD8 0x1AA b in
    if r =? 1 then identify_sdv2 b else identify_old b
  else (0, b).

Definition disk_initialize (drv : Z) (d : disk) : Z * disk :=
  if negb (drv =? 0) then (3, d)           (* RES_NOTRDY *)
  else
    let '(st, d) := disk_status drv d in
    if st =? 0 then (0, d)
    else
      let b := power CardEnable (CS_H (CS_L (power LevelShifter (spi d)))) in
      let '(_, b) := rcvr_mmc 10 b in
      let '(ty, b) := identify b in
      let s := if negb (ty =? 0) then 0 else STA_NOINIT in
      let d := mk_disk s ty (deselect b) in
      if negb (ty =? 0) then (s, set_spi (power FastBaudrate (spi d)) d) else disk_disable d.

(** How often a [do ... while (--count)] runs: an unsigned count of zero wraps. *)
Definition iterations (count : Z) : nat := Z.to_nat (if count =? 0 then 2 ^ 32 else count).

(** The blocks received, and the count that is left. *)
Fixpoint read_blocks (n : nat) b : bytes * nat * bus W :=
  match n with
  | O => ([], O, b)
  | S m =>
      let '(r, b) := rcvr_datablock 512 b in
      match r with
      | None => ([], n, b)
      | Some blk => let '(rest, todo, b) := read_blocks m b in (blk ++ rest, todo, b)
      end
  end.

Definition sector_address (sector : Z) (d : disk) : Z :=
  let sect := u32 sector in
  if negb (test_mask (CardType d) CT_BLOCK) then u32 (sect * 512) else sect.

(** The result and the bytes stored in the caller's buffer. *)
Definition disk_read (drv sector count : Z) (d : disk) : DRESULT * bytes * disk :=
  let '(st, d) := disk_status drv d in
  if test_mask st STA_NOINIT then (RES_NOTRDY, [], d)
  else
    let sect := sector_address sector d in
    let cmd := if 1 <? count then CMD18 else CMD17 in
    let '(r, b) := send_cmd cmd sect (spi d) in
    let '(buff, count, b) :=
      if r =? 0 then
        let '(buff, todo, b) := read_blocks (iterations count) b in
        let b := if cmd =? CMD18 then (send_cmd CMD12 0 b).2 else b in
        (buff, u32 (Z.of_nat todo), b)
      else ([], count, b) in
    (if count =? 0 then RES_OK else RES_ERROR, buff, set_spi (deselect b) d).

Fixpoint write_blocks (n : nat) (buff : bytes) b : nat * bus W :=
  match n with
  | O => (O, b)
  | S m =>
      let '(ok, b) := xmit_datablock (take 512 buff) 0xFC b in
      if (ok : bool) then write_blocks m (drop 512 buff) b else (n, b)
  end.

Definition disk_write (drv : Z) (buff : bytes) (sector count : Z) (d : disk) : DRESULT * disk :=
  let '(st, d) := disk_status drv d in
  if test_mask st STA_NOINIT then (RES_NOTRDY, d)
  else
    let sect := sector_address sector d in
    let '(count, b) :=
      if count =? 1 then
        let '(r, b) := send_cmd CMD24 sect (spi d) in
        if r =? 0 then
          let '(ok, b) := xmit_datablock (take 512 buff) 0xFE b in (if (ok : bool) then 0 else count, b)
        else (count, b)
      else
        let b := if test_mask (CardType d) CT_SDC then (send_cmd ACMD23 count (spi d)).2 else spi d in
        let '(r, b) := send_cmd CMD25 sect b in
        if r =? 0 then
          let '(todo, b) := write_blocks (iterations count) buff b in
          let '(ok, b) := xmit_datablock [] 0xFD b in
          (if (ok : bool) then u32 (Z.of_nat todo) else 1, b)
        else (count, b) in
    (if count =? 0 then RES_OK else RES_ERROR, set_spi (deselect b) d).

(** ** Capacity *)

(** From the card-specific data, in sectors of 512 bytes, in 32-bit arithmetic;
    [None] when the shift amount is negative. *)
Definition sector_count (csd : bytes) : option Z :=
  let c i := byte_at csd i in
  if Z.shiftr (c 0%nat) 6 =? 1 then
    let cs := u32 (c 9%nat + Z.shiftl (c 8%nat) 8 + Z.shiftl (c 7%nat .& 63) 16 + 1) in
    Some (u32 (Z.shiftl cs 10))
  else
    let n := u8 ((c 5%nat .& 15) + Z.shiftr (c 10%nat .& 128) 7 + Z.shiftl (c 9%nat .& 3) 1 + 2) in
    let cs := u32 (Z.shiftr (c 8%nat) 6 + Z.shiftl (c 7%nat) 2 + Z.shiftl (c 6%nat .& 3) 10 + 1) in
    if n - 9 <? 0 then None else Some (u32 (Z.shiftl cs (n - 9))).

Inductive control := CTRL_SYNC | GET_SECTOR_COUNT | GET_BLOCK_SIZE | OtherControl.

(** The result and the value stored through the pointer. *)
Definition disk_ioctl (drv : Z) (ctrl : control) (d : disk) : option (DRESULT * option Z * disk) :=
  let '(st, d) := disk_status drv d in
  if test_mask st STA_NOINIT then Some (RES_NOTRDY, None, d)
  else
    '(res, v, b) ←
      match ctrl with
      | CTRL_SYNC => let '(ok, b) := select (spi d) in Some (if (ok : bool) then RES_OK else RES_ERROR, None, b)
      | GET_SECTOR_COUNT =>
          let '(r, b) := send_cmd CMD9 0 (spi d) in
          if r =? 0 then
            let '(csd, b) := rcvr_datablock 16 b in
            match csd with
            | Some csd => v ← sector_count csd; Some (RES_OK, Some v, b)
            | None => Some (RES_ERROR, None, b)
            end
          else Some (RES_ERROR, None, b)
      | GET_BLOCK_SIZE => Some (RES_OK, Some 128, spi d)
      | OtherControl => Some (RES_PARERR, None, spi d)
      end;
    Some (res, v, set_spi (deselect b) d).
End driver.

(** ** Time stamps of files *)

(** The date packed for FAT, in 32-bit arithmetic. *)
Definition get_fattime (date : Sleeptimer.date) : Z :=
  u32 (Z.shiftl (u32 (Sleeptimer.d_year date - 80)) 25) .| u32 (Z.shiftl (u32 (Sleeptimer.d_month date + 1)) 21)
  .| Z.shiftl (Sleeptimer.d_month_day date) 16 .| Z.shiftl (Sleeptimer.d_hour date) 11
  .| Z.shiftl (Sleeptimer.d_min date) 5 .| Z.shiftr (Sleeptimer.d_sec date) 1.

(** ** The bus is released *)

(** The level of the chip select after a log: [true] while the card is
    selected. *)
Definition selected (l : list bus_event) : bool :=
  fold_left (fun c e => match e with EvSelect low => low | _ => c end) l false.

Lemma selected_snoc l e : selected (l ++ [e]) = match e with EvSelect low => low | _ => selected l end.
Proof. unfold selected. by rewrite fold_left_app. Qed.

Section released.
Context {W : Type} {SB : SdBus W}.

Lemma rcvr_mmc_selected n (b : bus W) : selected (log (rcvr_mmc n b).2) = selected (log b).
Proof. unfold rcvr_mmc. destruct (spi_receive n (card b)) as [d w]. simpl. by rewrite selected_snoc. Qed.

Lemma deselect_released (b : bus W) : selected (log (deselect b)) = false.
Proof. unfold deselect. rewrite rcvr_mmc_selected. simpl. by rewrite selected_snoc. Qed.

Lemma power_selected c (b : bus W) : selected (log (power c b)) = selected (log b).
Proof. simpl. by rewrite selected_snoc. Qed.

(** Whatever the card answers, every disk operation leaves the bus released:
    it either did not use the bus at all or ends with the card deselected. *)
Lemma bus_released (drv sector count : Z) (buff : bytes) (ctrl : control) (d : disk (W := W)) :
  let released d' := log (spi d') = log (spi d) \/ selected (log (spi d')) = false in
  released (disk_initialize drv d).2
  /\ released (disk_read drv sector count d).2
  /\ released (disk_write drv buff sector count d).2
  /\ forall r, disk_ioctl drv ctrl d = Some r -> released r.2.
Proof.
  intros released. split_and!.
  - unfold disk_initialize. destruct (negb (drv =? 0)); [by left |]. unfold disk_status at 1.
    destruct (_ =? 0); [by left |]. right. destruct (rcvr_mmc 10 _) as [bf b]. destruct (identify b) as [ty b1].
    destruct (negb (ty =? 0)).
    + cbn [snd set_spi spi]. rewrite power_selected. apply deselect_released.
    + unfold disk_disable, disk_status. cbn [snd set_spi spi]. rewrite !power_selected. apply deselect_released.
  - unfold disk_read, disk_status. destruct (test_mask _ STA_NOINIT); [by left |]. right.
    destruct (send_cmd _ _ _) as [r b]. destruct (if r =? 0 then _ else _) as [[bf c] b1]. apply deselect_released.
  - unfold disk_write, disk_status. destruct (test_mask _ STA_NOINIT); [by left |]. right.
    destruct (if count =? 1 then _ else _) as [c b1]. apply deselect_released.
  - intros r. unfold disk_ioctl, disk_status. destruct (test_mask _ STA_NOINIT); [intros [= <-]; by left |].
    destruct (match ctrl with CTRL_SYNC => _ | GET_SECTOR_COUNT => _ | GET_BLOCK_SIZE => _ | OtherControl => _ end)
      as [[[res v] b1]|]; [| done]. intros [= <-]. right. apply deselect_released.
Qed.
End released.

(** ** Capacity *)

(** The register as one number, first byte first, and its bit fields as the
    SD specification numbers them. *)
Definition register (csd : bytes) : Z := foldl (fun v c => v * 256 + c) 0 csd.
Definition bits (hi lo v : Z) : Z := v / 2 ^ lo mod 2 ^ (hi - lo + 1).

(** The capacity in bytes that the specification derives from the register. *)
Definition capacity (csd : bytes) : Z :=
  let v := register csd in
  if bits 127 126 v =? 1 then (bits 69 48 v + 1) * 512 * 1024
  else (bits 73 62 v + 1) * 2 ^ (bits 49 47 v + 2) * 2 ^ bits 83 80 v.

Lemma register_app a b : register (a ++ b) = register a * 2 ^ (8 * Z.of_nat (length b)) + register b.
Proof.
  unfold register. rewrite foldl_app. generalize (foldl (fun v c => v * 256 + c) 0 a). intros v. revert v.
  induction b as [|c b IH]; intros v; cbn [foldl length]; [lia |].
  rewrite IH, (IH (0 * 256 + c)). replace (8 * Z.of_nat (S (length b))) with (8 * Z.of_nat (length b) + 8) by lia.
  rewrite Z.pow_add_r by lia. lia.
Qed.

Lemma register_range b : is_bytes b -> 0 <= register b < 2 ^ (8 * Z.of_nat (length b)).
Proof.
  induction b as [|c b IH] using rev_ind; intros Hb; [done |]. apply Forall_app in Hb as [Hb Hc].
  rewrite list.Forall_cons in Hc. destruct Hc as [Hc _]. specialize (IH Hb). unfold is_u8 in Hc.
  rewrite register_app, length_app. cbn [length]. change (register [c]) with (0 * 256 + c).
  replace (8 * Z.of_nat (length b + 1)) with (8 * Z.of_nat (length b) + 8) by lia.
  rewrite Z.pow_add_r by lia. change (8 * Z.of_nat 1) with 8. lia.
Qed.

Lemma bits_low hi lo k a b : 0 <= k <= lo -> 0 <= b < 2 ^ k -> bits hi lo (a * 2 ^ k + b) = bits (hi - k) (lo - k) a.
Proof.
  intros Hk Hb. unfold bits. replace (hi - k - (lo - k) + 1) with (hi - lo + 1) by lia.
  replace (2 ^ lo) with (2 ^ k * 2 ^ (lo - k)) by (rewrite <- Z.pow_add_r by lia; f_equal; lia).
  rewrite <- Z.div_div by lia. by rewrite Z.div_add_l, (Z.div_small b), Z.add_0_r by lia.
Qed.

Lemma bits_high hi lo j h r : 0 <= lo <= hi -> hi < j -> bits hi lo (h * 2 ^ j + r) = bits hi lo r.
Proof.
  intros Hlo Hj. unfold bits.
  replace (h * 2 ^ j) with (h * 2 ^ (j - hi - 1) * 2 ^ (hi - lo + 1) * 2 ^ lo)
    by (rewrite <- !Z.mul_assoc, <- !Z.pow_add_r by lia; do 2 f_equal; lia).
  rewrite Z.div_add_l by lia. rewrite Z.add_comm. by rewrite Z.mod_add by lia.
Qed.

(** A field lies in the bytes in the middle. *)
Lemma bits_middle hi lo pre mid post :
  is_bytes post -> 8 * Z.of_nat (length post) <= lo -> lo <= hi ->
  hi < 8 * Z.of_nat (length post) + 8 * Z.of_nat (length mid) ->
  bits hi lo (register (pre ++ mid ++ post))
  = bits (hi - 8 * Z.of_nat (length post)) (lo - 8 * Z.of_nat (length post)) (register mid).
Proof.
  intros Hp Hlo Hh Hhi. rewrite app_assoc, register_app.
  rewrite bits_low by (lia || by apply register_range).
  rewrite register_app. apply bits_high; lia.
Qed.

(** The fields in terms of the bytes. *)
Lemma register_fields b0 b1 b2 b3 b4 b5 b6 b7 b8 b9 b10 b11 b12 b13 b14 b15 :
  let csd := [b0; b1; b2; b3; b4; b5; b6; b7; b8; b9; b10; b11; b12; b13; b14; b15] in
  is_bytes csd ->
  bits 127 126 (register csd) = b0 / 64
  /\ bits 69 48 (register csd) = (b7 mod 64) * 65536 + b8 * 256 + b9
  /\ bits 83 80 (register csd) = b5 mod 16
  /\ bits 73 62 (register csd) = (b6 mod 4) * 1024 + b7 * 4 + b8 / 64
  /\ bits 49 47 (register csd) = (b9 mod 4) * 2 + b10 / 128.
Proof.
  intros csd H. unfold is_bytes, csd in H. assert (forall n, is_bytes (drop n csd)) as Hd by (intros; by apply Forall_drop).
  rewrite !list.Forall_cons in H. unfold is_u8 in H. destruct H as (H0 & _ & _ & _ & _ & H5 & H6 & H7 & H8 & H9 & H10 & _).
  split_and!.
  - change csd with ([] ++ [b0] ++ drop 1 csd). rewrite bits_middle by (apply Hd || (simpl; lia)).
    unfold bits, register. simpl. divlia.
  - change csd with ([b0; b1; b2; b3; b4; b5; b6] ++ [b7; b8; b9] ++ drop 10 csd).
    rewrite bits_middle by (apply Hd || (simpl; lia)). unfold bits, register. simpl. divlia.
  - change csd with ([b0; b1; b2; b3; b4] ++ [b5] ++ drop 6 csd). rewrite bits_middle by (apply Hd || (simpl; lia)).
    unfold bits, register. simpl. divlia.
  - change csd with ([b0; b1; b2; b3; b4; b5] ++ [b6; b7; b8] ++ drop 9 csd).
    rewrite bits_middle by (apply Hd || (simpl; lia)). unfold bits, register. simpl. divlia.
  - change csd with ([b0; b1; b2; b3; b4; b5; b6; b7; b8] ++ [b9; b10] ++ drop 11 csd).
    rewrite bits_middle by (apply Hd || (simpl; lia)). unfold bits, register. simpl. divlia.
Qed.

Lemma land_low z m k : m = Z.ones k -> 0 <= k -> z .& m = z mod 2 ^ k.
Proof. intros -> Hk. by apply Z.land_ones. Qed.

Lemma bit_128 b : is_u8 b -> Z.shiftr (b .& 128) 7 = b / 128.
Proof.
  intros Hb. rewrite Z.shiftr_land. change (Z.shiftr 128 7) with (Z.ones 1).
  rewrite Z.land_ones, Z.shiftr_div_pow2 by lia. unfold is_u8 in Hb. change (2 ^ 7) with 128. divlia.
Qed.

(** The field computations of the code. *)
Lemma csd_terms b5 b6 b7 b8 b9 b10 :
  is_u8 b5 -> is_u8 b6 -> is_u8 b7 -> is_u8 b8 -> is_u8 b9 -> is_u8 b10 ->
  b9 + Z.shiftl b8 8 + Z.shiftl (b7 .& 63) 16 + 1 = (b7 mod 64) * 65536 + b8 * 256 + b9 + 1
  /\ (b5 .& 15) + Z.shiftr (b10 .& 128) 7 + Z.shiftl (b9 .& 3) 1 + 2
     = b5 mod 16 + ((b9 mod 4) * 2 + b10 / 128) + 2
  /\ Z.shiftr b8 6 + Z.shiftl b7 2 + Z.shiftl (b6 .& 3) 10 + 1
     = (b6 mod 4) * 1024 + b7 * 4 + b8 / 64 + 1.
Proof.
  intros H5 H6 H7 H8 H9 H10. rewrite bit_128 by done.
  rewrite (land_low b7 63 6), (land_low b5 15 4), (land_low b9 3 2), (land_low b6 3 2) by (reflexivity || lia).
  rewrite !Z.shiftl_mul_pow2, !Z.shiftr_div_pow2 by lia.
  change (2 ^ 6) with 64. change (2 ^ 8) with 256. change (2 ^ 4) with 16. change (2 ^ 2) with 4.
  change (2 ^ 16) with 65536. change (2 ^ 10) with 1024. change (2 ^ 1) with 2. split_and!; lia.
Qed.

Lemma sectors_v2 a : 0 < a -> a * 512 * 1024 < 2 ^ 41 -> u32 (Z.shiftl (u32 a) 10) = a * 512 * 1024 / 512.
Proof.
  intros Ha Hc. rewrite (u32_id a) by (unfold is_u32; lia). rewrite Z.shiftl_mul_pow2 by lia. change (2 ^ 10) with 1024.
  rewrite u32_id by (unfold is_u32; lia). replace (a * 512 * 1024) with (a * 1024 * 512) by lia. by rewrite Z.div_mul.
Qed.

Lemma sectors_v1 c m r :
  0 < c <= 4096 -> 0 <= m <= 7 -> 9 <= r <= 15 ->
  u8 (r + m + 2) - 9 >= 0
  /\ u32 (Z.shiftl (u32 c) (u8 (r + m + 2) - 9)) = c * 2 ^ (m + 2) * 2 ^ r / 512.
Proof.
  intros Hc Hm Hr. rewrite (u8_id (r + m + 2)) by (unfold is_u8; lia). split; [lia |].
  rewrite (u32_id c) by (unfold is_u32; lia). rewrite Z.shiftl_mul_pow2 by lia.
  assert (2 ^ (r + m + 2 - 9) <= 2 ^ 15) as Hp by (apply Z.pow_le_mono_r; lia).
  assert (0 < 2 ^ (r + m + 2 - 9)) as Hp' by (apply Z.pow_pos_nonneg; lia).
  rewrite u32_id by (unfold is_u32; nia).
  rewrite <- Z.mul_assoc, <- Z.pow_add_r by lia. replace (m + 2 + r) with (r + m + 2 - 9 + 9) by lia.
  rewrite Z.pow_add_r by lia. change (2 ^ 9) with 512. by rewrite Z.mul_assoc, Z.div_mul by lia.
Qed.

(** The capacity the driver reports is the one the SD specification derives
    from the card-specific data register, divided into sectors of 512 bytes: for
    cards of version 2 below 2 TB, and for the others with blocks of at least
    512 bytes. *)
Lemma sector_count_exact (csd : bytes) :
  length csd = 16%nat -> is_bytes csd ->
  (bits 127 126 (register csd) = 1 -> capacity csd < 2 ^ 41) ->
  (bits 127 126 (register csd) <> 1 -> 9 <= bits 83 80 (register csd)) ->
  sector_count csd = Some (capacity csd / 512).
Proof.
  intros Hl Hb. do 16 (destruct csd as [|? csd]; [done |]). destruct csd; [| done]. clear Hl.
  destruct (register_fields _ _ _ _ _ _ _ _ _ _ _ _ _ _ _ _ Hb) as (F0 & F1 & F2 & F3 & F4).
  unfold capacity. rewrite F0, F1, F2, F3, F4. unfold is_bytes in Hb. rewrite !list.Forall_cons in Hb.
  destruct Hb as (H0 & _ & _ & _ & _ & H5 & H6 & H7 & H8 & H9 & H10 & _).
  destruct (csd_terms _ _ _ _ _ _ H5 H6 H7 H8 H9 H10) as (T1 & T2 & T3). unfold sector_count, byte_at. simpl default.
  rewrite T1, T2, T3, Z.shiftr_div_pow2 by lia. change (2 ^ 6) with 64. clear T1 T2 T3 F0 F1 F2 F3 F4. unfold is_u8 in *.
  destruct (Z.eqb_spec (z / 64) 1) as [Hv|Hv]; intros Hcap Hlen.
  - f_equal. apply sectors_v2; [divlia | by apply Hcap].
  - specialize (Hlen Hv). clear Hcap. rewrite !Z.add_assoc in *.
    destruct (sectors_v1 (z5 mod 4 * 1024 + z6 * 4 + z7 / 64 + 1) (z8 mod 4 * 2 + z9 / 128) (z4 mod 16)) as [H1 H2];
      [divlia | divlia | divlia |].
    rewrite !Z.add_assoc in *. rewrite H2. destruct (Z.ltb_spec (u8 (z4 mod 16 + z8 mod 4 * 2 + z9 / 128 + 2) - 9) 0); [lia | done].
Qed.

(** The register of a 2 GB card of version 1, and of a 32 GB card of version 2. *)
Definition csd_v1 : bytes := [0x00; 0x26; 0x00; 0x32; 0x5B; 0x5A; 0x83; 0xBA; 0xF6; 0xDB; 0xFF; 0x9F; 0x16; 0x80; 0x00; 0x01].
Definition csd_v2 : bytes := [0x40; 0x0E; 0x00; 0x32; 0x5B; 0x59; 0x00; 0x00; 0xEB; 0x7F; 0x7F; 0x80; 0x0A; 0x40; 0x00; 0x01].

Lemma sector_count_exact_witness :
  sector_count csd_v2 = Some (capacity csd_v2 / 512) /\ capacity csd_v2 / 512 = 61734912.
Proof.
  split; [| vm_compute; reflexivity].
  apply sector_count_exact; [reflexivity | repeat constructor; discriminate | intros _; vm_compute; reflexivity |].
  vm_compute. intros H. destruct (H eq_refl).
Defined.

Example csd_v1_sectors : sector_count csd_v1 = Some 3911680.
Proof. vm_compute. reflexivity. Qed.

(** A version 2 register with all size bits set wraps to zero sectors. *)
Example csd_wraps :
  sector_count (take 7 csd_v2 ++ [0x3F; 0xFF; 0xFF] ++ drop 10 csd_v2) = Some 0.
Proof. vm_compute. reflexivity. Qed.

(** ** Status and time stamps *)

(** Asking for the status of another drive marks the card as not initialised. *)
Lemma other_drive_disables {W} {SB : SdBus W} drv (d : disk (W := W)) :
  drv <> 0 -> test_mask (Stat (disk_status drv d).2) STA_NOINIT = true.
Proof.
  intros Hd. unfold disk_status. destruct (Z.eqb_spec drv 0); [done |]. simpl. apply test_mask_true.
  intros H. apply Z.bits_inj_iff in H. specialize (H 0). revert H.
  destruct (card_inserted _); rewrite Z.land_spec, ?Z.ldiff_spec, !Z.lor_spec, Z.bits_0; simpl;
    rewrite ?orb_true_r; discriminate.
Qed.

(** The fields FAT reads from a time stamp. *)
Definition fat_fields (t : Z) : Z * Z * Z * Z * Z * Z :=
  (bits 31 25 t + 1980, bits 24 21 t, bits 20 16 t, bits 15 11 t, bits 10 5 t, bits 4 0 t * 2).

(** From 1980 on the time stamp holds the date, with even seconds. *)
Lemma fattime_fields (y mo d h mi s wd yd tz : Z) :
  80 <= y < 208 -> 0 <= mo <= 11 -> 1 <= d <= 31 -> 0 <= h <= 23 -> 0 <= mi <= 59 -> 0 <= s <= 59 ->
  fat_fields (get_fattime (Sleeptimer.mk_date s mi h d mo y wd yd tz)) = (y + 1900, mo + 1, d, h, mi, 2 * (s / 2)).
Proof.
  intros Hy Hmo Hd Hh Hmi Hs. unfold get_fattime.
  cbn [Sleeptimer.d_year Sleeptimer.d_month Sleeptimer.d_month_day Sleeptimer.d_hour Sleeptimer.d_min Sleeptimer.d_sec].
  rewrite (u32_id (y - 80)), (u32_id (mo + 1)) by (unfold is_u32; lia).
  rewrite (u32_id (Z.shiftl (y - 80) 25)) by (unfold is_u32; rewrite Z.shiftl_mul_pow2 by lia; lia).
  rewrite (u32_id (Z.shiftl (mo + 1) 21)) by (unfold is_u32; rewrite Z.shiftl_mul_pow2 by lia; lia).
  assert (forall a b c e f g, a .| b .| c .| e .| f .| g = a .| (b .| (c .| (e .| (f .| g))))) as Has
    by (intros; by rewrite !Z.lor_assoc).
  rewrite Has, Z.shiftr_div_pow2 by lia. change (2 ^ 1) with 2.
  pose proof (Z.div_pos s 2 ltac:(lia) ltac:(lia)). pose proof (Z.div_lt_upper_bound s 2 30 ltac:(lia) ltac:(lia)).
  assert (s = 2 * (s / 2) + s mod 2 /\ 0 <= s mod 2 < 2) as Hsec by divlia. set (q := s / 2) in *. clearbody q.
  rewrite (shiftl_lor_add mi q 5) by lia. change (2 ^ 5) with 32.
  rewrite (shiftl_lor_add h _ 11) by lia. change (2 ^ 11) with 2048.
  rewrite (shiftl_lor_add d _ 16) by lia. change (2 ^ 16) with 65536.
  rewrite (shiftl_lor_add (mo + 1) _ 21) by lia. change (2 ^ 21) with 2097152.
  rewrite (shiftl_lor_add (y - 80) _ 25) by lia. change (2 ^ 25) with 33554432.
  unfold fat_fields, bits. repeat match goal with |- (_, _) = (_, _) => apply f_equal2 end; clear Hsec; divlia.
Qed.

(** Before the clock is set it is 1970, and the stamp says 2098. *)
Example fattime_1970 :
  fat_fields (get_fattime (Sleeptimer.mk_date 0 0 0 1 0 70 4 1 0)) = (2098, 1, 1, 0, 0, 0).
Proof. vm_compute. reflexivity. Qed.

(** A card that is taken out and put back, or replaced, counts as initialised:
    only the missing-disk bit is set while it is out, so that the driver does not
    identify the card that is found next. *)
Lemma replaced_card_not_identified {W} {SB : SdBus W} (d : disk (W := W)) (w : W) (lg : list bus_event) :
  Stat d = 0 -> card_inserted (card (spi d)) = false -> card_inserted w = true ->
  disk_initialize 0 (set_spi (mk_bus w lg) (disk_status 0 d).2) = (0, mk_disk 0 (CardType d) (mk_bus w lg)).
Proof.
  intros Hs Ho Hi. unfold disk_status, set_spi. rewrite Ho, Hs. cbn [negb Z.eqb Stat CardType snd].
  unfold disk_initialize, disk_status. cbn [spi card Stat]. rewrite Hi. reflexivity.
Qed.
End SdCard.
