(* ===== verification/SdCardModel.v ===== *)
(** * A card for the SD card driver

    An SD card of version 2 in SPI mode as the SD specification describes it, byte
    by byte: it collects command frames, answers after some idle bytes, sends and
    accepts data packets, and is busy for a while after a write.  With it on the
    bus, the driver of [SdCard.v] refines an array of sectors: initialisation
    identifies the card, a read returns the sectors asked for, and a write
    replaces them and nothing else.

    How long the card takes to answer a command, to fetch a block and to store
    one are parameters within what the driver waits for. *)

From S2P Require Import Prelude SdCard.

Module SdCardModel.
Import SdCard.

(** ** The card *)

(** What the card does between commands: nothing, sending blocks from an address
    on, waiting for a data token, or taking a data packet. *)
Inductive mode :=
| Ready
| Reading (sector : Z)
| Writing (multi : bool) (sector : Z)
| Data (multi : bool) (sector : Z) (received : bytes).

Record sd_card := mk_card {
  cs : bool;                               (* selected *)
  cmd : bytes;                             (* the frame so far *)
  out : bytes;                             (* bytes to be sent *)
  md : mode;
  app_cmd : bool;                          (* after CMD55 *)
  idle : bool;
  polls : nat;                             (* ACMD41 until the card leaves the idle state *)
  mem : Z -> bytes }.

Definition set_cs v s := mk_card v (cmd s) (out s) (md s) (app_cmd s) (idle s) (polls s) (mem s).
Definition set_cmd v s := mk_card (cs s) v (out s) (md s) (app_cmd s) (idle s) (polls s) (mem s).
Definition set_out v s := mk_card (cs s) (cmd s) v (md s) (app_cmd s) (idle s) (polls s) (mem s).
Definition set_md v s := mk_card (cs s) (cmd s) (out s) v (app_cmd s) (idle s) (polls s) (mem s).
Definition set_app v s := mk_card (cs s) (cmd s) (out s) (md s) v (idle s) (polls s) (mem s).
Definition set_idle v s := mk_card (cs s) (cmd s) (out s) (md s) (app_cmd s) v (polls s) (mem s).
Definition set_polls v s := mk_card (cs s) (cmd s) (out s) (md s) (app_cmd s) (idle s) v (mem s).
Definition set_mem v s := mk_card (cs s) (cmd s) (out s) (md s) (app_cmd s) (idle s) (polls s) v.

Section card.
(** Block addressing, the register with the card's data, and idle bytes before a
    response, before a data packet and after a write. *)
Context (block_addr : bool) (csd : bytes) (ncr nac nbusy : nat).

Definition packet (data : bytes) : bytes := replicate nac 0xFF ++ 0xFE :: data ++ [0; 0].
Definition response (l : bytes) : bytes := replicate ncr 0xFF ++ l.

Definition r1 (s : sd_card) : Z := if idle s then 1 else 0.
Definition sector_of (arg : Z) : Z := if block_addr then arg else arg / 512.

Definition execute_app (idx : Z) (s : sd_card) : sd_card :=
  if idx =? 41 then
    match polls s with
    | O => set_idle false (set_out (response [0]) s)
    | S k => set_polls k (set_out (response [1]) s)
    end
  else if idx =? 23 then set_out (response [r1 s]) s
  else set_out (response [r1 s .| 4]) s.

Definition execute (idx arg : Z) (s : sd_card) : sd_card :=
  if app_cmd s then execute_app idx (set_app false s)
  else if idx =? 0 then set_idle true (set_md Ready (set_out (response [1]) s))
  else if idx =? 8 then set_out (response [r1 s; 0; 0; 1; 0xAA]) s
  else if idx =? 9 then set_out (response (r1 s :: packet csd)) s
  else if idx =? 12 then set_md Ready (set_out (0 :: response [r1 s]) s)
  else if idx =? 17 then set_out (response (r1 s :: packet (mem s (sector_of arg)))) s
  else if idx =? 18 then set_md (Reading (sector_of arg)) (set_out (response [r1 s]) s)
  else if idx =? 24 then set_md (Writing false (sector_of arg)) (set_out (response [r1 s]) s)
  else if idx =? 25 then set_md (Writing true (sector_of arg)) (set_out (response [r1 s]) s)
  else if idx =? 55 then set_app true (set_out (response [r1 s]) s)
  else if idx =? 58 then set_out (response [r1 s; if block_addr then 0xC0 else 0x80; 0xFF; 0x80; 0]) s
  else set_out (response [r1 s .| 4]) s.

(** The byte the card shifts out; a card that sends blocks prepares the next. *)
Definition refill (s : sd_card) : sd_card :=
  match out s, md s with
  | [], Reading a => set_md (Reading (a + 1)) (set_out (packet (mem s a)) s)
  | _, _ => s
  end.
Definition shift_out (s : sd_card) : Z * sd_card :=
  let s := refill s in
  match out s with
  | [] => (0xFF, s)
  | o :: q => (o, set_out q s)
  end.

(** What a byte from the host does. *)
Definition take_command (b : Z) (s : sd_card) : sd_card :=
  match cmd s with
  | [] => if b .& 0xC0 =? 0x40 then set_cmd [b] s else s
  | [c0; c1; c2; c3; c4] => execute (c0 .& 0x3F) (be32 [c1; c2; c3; c4]) (set_cmd [] s)
  | c => set_cmd (c ++ [b]) s
  end.

Definition store_block (multi : bool) (a : Z) (received : bytes) (s : sd_card) : sd_card :=
  set_md (if multi then Writing true (a + 1) else Ready)
    (set_out (0x05 :: replicate nbusy 0)
      (set_mem (fun i => if i =? a then take 512 received else mem s i) s)).

Definition shift_in (b : Z) (s : sd_card) : sd_card :=
  match md s with
  | Ready | Reading _ => take_command b s
  | Writing multi a =>
      if b =? (if multi then 0xFC else 0xFE) then set_md (Data multi a []) s
      else if multi && (b =? 0xFD) then set_md Ready (set_out (replicate nbusy 0) s)
      else s
  | Data multi a received =>
      let received := received ++ [b] in
      if (length received =? 514)%nat then store_block multi a received s
      else set_md (Data multi a received) s
  end.

(** One byte in each direction; a card that is not selected ignores the bus. *)
Definition clock_byte (b : Z) (s : sd_card) : Z * sd_card :=
  if cs s then let '(o, s) := shift_out s in (o, shift_in b s) else (0xFF, s).

Fixpoint clock_in (n : nat) (s : sd_card) : bytes * sd_card :=
  match n with
  | O => ([], s)
  | S n => let '(o, s) := clock_byte 0xFF s in let '(l, s) := clock_in n s in (o :: l, s)
  end.

#[local] Instance spi_card : SdBus sd_card := {|
  spi_select := set_cs;
  spi_send l s := fold_left (fun s b => (clock_byte b s).2) l s;
  spi_receive := clock_in;
  card_inserted _ := true;
  board_power _ s := s |}.
End card.

(** ** The bus with the card *)

Section facts.
Context (block_addr : bool) (csd : bytes) (ncr nac nbusy : nat).
#[local] Set Default Proof Using "All".
Hypothesis Hncr : (ncr <= 9)%nat.
Hypothesis Hnac : (nac < 1000)%nat.
Hypothesis Hbusy : (nbusy < 5000)%nat.
Local Abbreviation clock_byte := (clock_byte block_addr csd ncr nac nbusy).
Local Abbreviation clock_in := (clock_in block_addr csd ncr nac nbusy).
Local Abbreviation execute := (execute block_addr csd ncr nac).
Local Abbreviation refill := (refill nac).
Local Abbreviation packet := (packet nac).
Local Abbreviation response := (response ncr).
#[local] Instance the_card : SdBus sd_card := spi_card block_addr csd ncr nac nbusy.

(** A function of the driver takes the card from one state to another, with a
    result, whatever has been logged. *)
Definition yields {A} (f : bus sd_card -> A * bus sd_card) (s : sd_card) (r : A) (s' : sd_card) : Prop :=
  forall lg, exists lg', f (mk_bus s lg) = (r, mk_bus s' lg').
Definition moves (f : bus sd_card -> bus sd_card) (s s' : sd_card) : Prop :=
  forall lg, exists lg', f (mk_bus s lg) = mk_bus s' lg'.

(** The card ignores the byte the host clocks out while it receives. *)
Definition quiet (s : sd_card) : Prop :=
  cmd s = [] /\ match md s with Data _ _ _ => False | _ => True end.

Lemma shift_in_ff s : quiet s -> shift_in block_addr csd ncr nac nbusy 0xFF s = s.
Proof. intros [Hc Hm]. unfold shift_in, take_command. rewrite Hc. by destruct (md s) as [| |[]|]. Qed.

Lemma refill_quiet s : quiet s -> quiet (refill s).
Proof.
  intros [Hc Hm]. unfold SdCardModel.refill. destruct (out s); [| done]. destruct (md s) eqn:E; try (split; [done | by rewrite E]). done.
Qed.

Lemma refill_cs s : cs (refill s) = cs s.
Proof. unfold SdCardModel.refill. destruct (out s), (md s); done. Qed.

Lemma exchange_out s o q : cs s = true -> quiet s -> out (refill s) = o :: q -> clock_byte 0xFF s = (o, set_out q (refill s)).
Proof.
  intros Hcs Hq Ho. unfold SdCardModel.clock_byte, shift_out. rewrite Hcs, Ho.
  rewrite shift_in_ff; [done |]. by destruct (refill_quiet s Hq).
Qed.

Lemma refill_out s o q : out s = o :: q -> refill s = s.
Proof. intros Ho. unfold SdCardModel.refill. by rewrite Ho. Qed.

(** Bytes that are queued are received. *)
Lemma receive_queue l : forall s q, cs s = true -> quiet s -> out s = l ++ q -> clock_in (length l) s = (l, set_out q s).
Proof.
  induction l as [|o l IH]; intros s q Hcs Hq Ho; simpl.
  - simpl in Ho. rewrite <- Ho. by destruct s.
  - rewrite (exchange_out _ o (l ++ q)); [| done | done | by rewrite (refill_out _ _ _ Ho)].
    rewrite (refill_out _ _ _ Ho). rewrite (IH (set_out (l ++ q) s) q); [done | done | by destruct Hq | done].
Qed.

Lemma rcvr_queue n s l q :
  cs s = true -> quiet s -> out s = l ++ q -> length l = n -> yields (rcvr_mmc n) s l (set_out q s).
Proof.
  intros Hcs Hq Ho <- lg. unfold rcvr_mmc. simpl. rewrite (receive_queue l s q) by done. by eexists.
Qed.

Lemma rcvr_byte_queue s o q : cs s = true -> quiet s -> out s = o :: q -> yields rcvr_byte s o (set_out q s).
Proof.
  intros Hcs Hq Ho lg. unfold rcvr_byte. destruct (rcvr_queue 1 s [o] q Hcs Hq Ho eq_refl lg) as [lg' ->]. by eexists.
Qed.

(** A card with nothing to send and no blocks to follow. *)
Definition silent (s : sd_card) : Prop := out s = [] /\ match md s with Reading _ => False | _ => True end.

Lemma exchange_silent s : cs s = true -> quiet s -> silent s -> clock_byte 0xFF s = (0xFF, s).
Proof.
  intros Hcs Hq [Ho Hm]. unfold SdCardModel.clock_byte, shift_out. rewrite Hcs.
  assert (refill s = s) as -> by (unfold SdCardModel.refill; rewrite Ho; by destruct (md s)).
  rewrite Ho. by rewrite shift_in_ff.
Qed.

Lemma rcvr_byte_silent s : cs s = true -> quiet s -> silent s -> yields rcvr_byte s 0xFF s.
Proof.
  intros Hcs Hq Hs lg. unfold rcvr_byte, rcvr_mmc. simpl. rewrite exchange_silent by done. by eexists.
Qed.

(** A busy card becomes ready. *)
Lemma ready_busy k : forall tmr s,
  (k < tmr)%nat -> cs s = true -> quiet s -> match md s with Reading _ => False | _ => True end ->
  out s = replicate k 0 -> yields (ready_loop tmr) s true (set_out [] s).
Proof.
  induction k as [|k IH]; intros [|tmr] s Hk Hcs Hq Hm Ho lg; [lia | | lia |]; cbn [ready_loop].
  - destruct (rcvr_byte_silent s Hcs Hq (conj Ho Hm) lg) as [lg' ->]. simpl. eexists. f_equal. f_equal.
    simpl in Ho. rewrite <- Ho. by destruct s.
  - destruct (rcvr_byte_queue s 0 (replicate k 0) Hcs Hq Ho lg) as [lg' ->]. simpl.
    by destruct (IH tmr (set_out (replicate k 0) s) ltac:(lia) Hcs Hq Hm eq_refl lg') as [lg'' ->]; eexists.
Qed.

Lemma wait_ready_busy k s :
  (k < 5000)%nat -> cs s = true -> quiet s -> match md s with Reading _ => False | _ => True end ->
  out s = replicate k 0 -> yields wait_ready s true (set_out [] s).
Proof. intros Hk. apply ready_busy. rewrite <- (Nat2Z.id k). apply Z2Nat.inj_lt; lia. Qed.

Lemma deselect_moves s : moves deselect s (set_cs false s).
Proof. intros lg. unfold deselect, CS_H, rcvr_mmc. simpl. by eexists. Qed.

(** A card between two operations: no frame or packet under way, at most busy. *)
Definition settled (s : sd_card) : Prop :=
  cmd s = [] /\ md s = Ready /\ exists k, (k <= nbusy)%nat /\ out s = replicate k 0.

Lemma settled_quiet s : settled s -> quiet s.
Proof. intros (Hc & Hm & _). split; [done | by rewrite Hm]. Qed.

Lemma skip_busy k s :
  cs s = true -> quiet s -> match md s with Reading _ => False | _ => True end -> out s = replicate k 0 ->
  moves (fun b => (rcvr_mmc 1 b).2) s (set_out (replicate (k - 1) 0) s).
Proof.
  intros Hcs Hq Hm Ho lg. destruct k as [|k].
  - unfold rcvr_mmc. simpl. rewrite exchange_silent by (done || by split). eexists. simpl. f_equal.
    simpl in Ho. rewrite <- Ho. by destruct s.
  - destruct (rcvr_queue 1 s [0] (replicate k 0) Hcs Hq Ho eq_refl lg) as [lg' ->]. simpl. rewrite Nat.sub_0_r. by eexists.
Qed.

Lemma select_settled s : settled s -> yields select s true (set_cs true (set_out [] s)).
Proof.
  intros (Hc & Hm & k & Hk & Ho) lg. unfold select.
  change (CS_L (mk_bus s lg)) with (mk_bus (set_cs true s) (lg ++ [EvSelect true])).
  assert (quiet (set_cs true s)) as Hq by (split; [done | simpl; by rewrite Hm]).
  destruct (skip_busy k (set_cs true s) eq_refl Hq ltac:(simpl; by rewrite Hm) Ho (lg ++ [EvSelect true])) as [lg1 ->].
  destruct (wait_ready_busy (k - 1) (set_out (replicate (k - 1) 0) (set_cs true s)) ltac:(lia) eq_refl Hq
              ltac:(simpl; by rewrite Hm) eq_refl lg1) as [lg2 ->].
  by eexists.
Qed.

(** ** Commands *)

(** Responses: the first byte below 0x80 ends the wait. *)
Lemma response_ready k : forall n s r q,
  (k <= n)%nat -> cs s = true -> quiet s -> test_mask r 0x80 = false ->
  out s = replicate k 0xFF ++ r :: q -> yields (response_loop n) s r (set_out q s).
Proof.
  induction k as [|k IH]; intros n s r q Hk Hcs Hq Hr Ho lg.
  - destruct n; cbn [response_loop]; destruct (rcvr_byte_queue s r q Hcs Hq Ho lg) as [lg' ->]; [by eexists |].
    rewrite Hr. by eexists.
  - destruct n as [|n]; [lia |]. cbn [response_loop].
    destruct (rcvr_byte_queue s 0xFF (replicate k 0xFF ++ r :: q) Hcs Hq Ho lg) as [lg' ->].
    change (test_mask 255 128) with true. cbv iota.
    by destruct (IH n (set_out (replicate k 0xFF ++ r :: q) s) r q ltac:(lia) Hcs Hq Hr eq_refl lg') as [lg'' ->]; eexists.
Qed.

Lemma response_card s r q :
  cs s = true -> quiet s -> test_mask r 0x80 = false -> out s = response (r :: q) ->
  yields (response_loop 9) s r (set_out q s).
Proof. intros. by apply (response_ready ncr). Qed.

(** A frame reaches the card.  While it is sent the card may go on sending. *)
Definition commanding (s : sd_card) : Prop := match md s with Ready | Reading _ => True | _ => False end.

Lemma shift_out_keeps s :
  commanding s ->
  exists q m, (shift_out nac s).2 = set_md m (set_out q s)
    /\ match m with Ready | Reading _ => True | _ => False end
    /\ (md s = Ready -> m = Ready /\ (out s = [] -> q = [])).
Proof.
  unfold commanding, shift_out, SdCardModel.refill. intros Hm.
  destruct (out s) as [|o q] eqn:Eo.
  - destruct (md s) eqn:Em; try done.
    + exists [], Ready. rewrite Eo. split; [| done]. simpl. rewrite <- Eo, <- Em at 1. by destruct s; simpl in *; subst.
    + simpl. destruct (SdCardModel.packet nac (mem s sector)) as [|o q] eqn:Ep; [by destruct nac |].
      exists q, (Reading (sector + 1)). done.
  - exists q, (md s). rewrite Eo. split; [by destruct s |]. split; [done |]. done.
Qed.

(** The state while a frame is sent: what has been collected, and what the card
    does besides. *)
Definition framing (c q : bytes) (m : mode) (s : sd_card) : sd_card := set_cmd c (set_md m (set_out q s)).
Definition goes_on (q : bytes) (m : mode) (s : sd_card) : Prop :=
  match m with Ready | Reading _ => True | _ => False end /\ (md s = Ready -> m = Ready /\ (out s = [] -> q = [])).

Lemma frame_byte b c q m s :
  cs s = true -> goes_on q m s ->
  exists q' m', (clock_byte b (framing c q m s)).2 = take_command block_addr csd ncr nac b (framing c q' m' s)
    /\ goes_on q' m' s.
Proof.
  intros Hcs [Hm Hr]. unfold SdCardModel.clock_byte. simpl cs. rewrite Hcs.
  destruct (shift_out_keeps (framing c q m s) Hm) as (q' & m' & E & Hm' & Hr'). simpl in Hr'.
  destruct (shift_out nac (framing c q m s)) as [o s1]. simpl in E. subst s1. exists q', m'. split.
  - cbn [snd]. unfold shift_in. simpl md. by destruct m'.
  - split; [done |]. intros H. destruct (Hr H) as [H1 H2]. destruct (Hr' H1) as [H3 H4]. split; [done |]. intros Ho.
    apply H4. auto.
Qed.

Lemma be32_frame arg :
  is_u32 arg -> be32 [u8 (Z.shiftr arg 24); u8 (Z.shiftr arg 16); u8 (Z.shiftr arg 8); u8 arg] = arg.
Proof. intros Ha. unfold be32, u8, is_u32 in *. rewrite !Z.shiftr_div_pow2 by lia. divlia. Qed.

Lemma send_cons b l s : spi_send (b :: l) s = spi_send l (clock_byte b s).2.
Proof. done. Qed.

(** One more byte of a frame that has begun. *)
Lemma send_next b l c q m s :
  cs s = true -> goes_on q m s -> (1 <= length c <= 4)%nat ->
  exists q' m', spi_send (b :: l) (framing c q m s) = spi_send l (framing (c ++ [b]) q' m' s) /\ goes_on q' m' s.
Proof.
  intros Hcs Hg Hc. rewrite send_cons. destruct (frame_byte b c q m s Hcs Hg) as (q' & m' & -> & Hg').
  exists q', m'. split; [| done]. unfold take_command. simpl cmd.
  destruct c as [|c0 [|c1 [|c2 [|c3 [|c4 c]]]]]; simpl in Hc; (lia || done).
Qed.

Ltac next_byte Hcs H q m H' :=
  match goal with |- context [spi_send (?b :: ?l) (framing ?c ?q0 ?m0 ?s)] =>
    destruct (send_next b l c q0 m0 s Hcs H ltac:(simpl; lia)) as (q & m & -> & H') end.

Lemma frame_sent s idx arg :
  cs s = true -> cmd s = [] -> commanding s -> is_u32 arg ->
  (0x40 .| idx) .& 0xC0 = 0x40 -> (0x40 .| idx) .& 0x3F = idx ->
  exists q m, spi_send (frame idx arg) s = execute idx arg (framing [] q m s) /\ goes_on q m s.
Proof.
  intros Hcs Hc Hm Ha Hi Hx. assert (goes_on (out s) (md s) s) as H0 by (split; [done | by intros ->]).
  assert (spi_send (frame idx arg) s = spi_send (frame idx arg) (framing [] (out s) (md s) s)) as ->
    by (f_equal; unfold framing; destruct s; simpl in *; by subst).
  unfold frame. rewrite send_cons.
  destruct (frame_byte (0x40 .| idx) [] _ _ s Hcs H0) as (q1 & m1 & -> & H1).
  replace (take_command block_addr csd ncr nac (0x40 .| idx) (framing [] q1 m1 s)) with (framing [0x40 .| idx] q1 m1 s)
    by (unfold take_command; simpl cmd; cbv iota; by rewrite Hi).
  next_byte Hcs H1 q2 m2 H2. next_byte Hcs H2 q3 m3 H3. next_byte Hcs H3 q4 m4 H4. next_byte Hcs H4 q5 m5 H5.
  rewrite send_cons. match goal with |- context [clock_byte ?b (framing ?c q5 m5 s)] =>
    destruct (frame_byte b c q5 m5 s Hcs H5) as (q6 & m6 & -> & H6) end.
  exists q6, m6. split; [| done]. unfold take_command. cbn [cmd framing set_cmd app]. rewrite Hx, be32_frame by done. done.
Qed.

(** A command other than CMD12 to a settled card. *)
Lemma send_plain_card s idx arg r q s' :
  settled s -> idx <> 12 -> is_u32 arg -> (0x40 .| idx) .& 0xC0 = 0x40 -> (0x40 .| idx) .& 0x3F = idx ->
  execute idx arg (set_cs true (set_out [] s)) = s' ->
  cs s' = true -> quiet s' -> test_mask r 0x80 = false -> out s' = response (r :: q) ->
  yields (send_plain idx arg) s r (set_out q s').
Proof.
  intros Hs Hi Ha Hx1 Hx2 He Hcs Hq Hr Ho lg. unfold send_plain. change CMD12 with 12.
  destruct (Z.eqb_spec idx 12); [done |]. cbn [negb].
  destruct (deselect_moves s lg) as [lg1 ->].
  assert (settled (set_cs false s)) as Hs1 by (destruct Hs as (? & ? & ?); done).
  destruct (select_settled (set_cs false s) Hs1 lg1) as [lg2 ->]. cbn [negb].
  change (set_cs true (set_out [] (set_cs false s))) with (set_cs true (set_out [] s)).
  destruct Hs as (Hc & Hm & _).
  destruct (frame_sent (set_cs true (set_out [] s)) idx arg) as (qq & m & E & _ & Hgo); try done;
    [unfold commanding; simpl; by rewrite Hm |].
  destruct (Hgo Hm) as [-> Hout]. rewrite (Hout eq_refl) in E. unfold xmit_mmc. cbn [card log]. rewrite E.
  assert (framing [] [] Ready (set_cs true (set_out [] s)) = set_cs true (set_out [] s)) as ->
    by (unfold framing; destruct s; simpl in *; by subst).
  rewrite He. destruct (response_card s' r q Hcs Hq Hr Ho (lg2 ++ [EvSent (frame idx arg)])) as [lg3 ->]. by eexists.
Qed.

(** ** Data packets *)

Lemma token_ready k : forall tmr d s q,
  (k < tmr)%nat -> cs s = true -> quiet s -> out s = replicate k 0xFF ++ 0xFE :: q ->
  yields (token_loop tmr d) s 0xFE (set_out q s).
Proof.
  induction k as [|k IH]; intros [|tmr] d s q Hk Hcs Hq Ho lg; try lia; cbn [token_loop].
  - destruct (rcvr_byte_queue s 0xFE q Hcs Hq Ho lg) as [lg' ->]. by eexists.
  - destruct (rcvr_byte_queue s 0xFF (replicate k 0xFF ++ 0xFE :: q) Hcs Hq Ho lg) as [lg' ->]. cbn [negb Z.eqb Pos.eqb].
    by destruct (IH tmr 0xFF (set_out (replicate k 0xFF ++ 0xFE :: q) s) q ltac:(lia) Hcs Hq eq_refl lg') as [lg'' ->]; eexists.
Qed.

Lemma datablock_card n s data q :
  cs s = true -> quiet s -> out s = packet data ++ q -> length data = n ->
  yields (rcvr_datablock n) s (Some data) (set_out q s).
Proof.
  intros Hcs Hq Ho Hn lg. unfold rcvr_datablock. unfold SdCardModel.packet in Ho. rewrite <- app_assoc in Ho. simpl in Ho.
  destruct (token_ready nac (Z.to_nat 1000) 0 s ((data ++ [0; 0]) ++ q)) with (lg := lg) as [lg1 ->];
    [lia | done | done | done |]. cbn [negb Z.eqb Pos.eqb].
  destruct (rcvr_queue n (set_out ((data ++ [0; 0]) ++ q) s) data ([0; 0] ++ q) Hcs Hq) with (lg := lg1) as [lg2 ->];
    [simpl; by rewrite <- app_assoc | done |].
  destruct (rcvr_queue 2 (set_out ([0; 0] ++ q) s) [0; 0] q Hcs Hq eq_refl eq_refl lg2) as [lg3 E].
  change (set_out ([0; 0] ++ q) (set_out ((data ++ [0; 0]) ++ q) s)) with (set_out ([0; 0] ++ q) s). rewrite E. by eexists.
Qed.

(** A card that sends blocks has the next one ready when the queue is empty. *)
Lemma refill_reading s a : out s = [] -> md s = Reading a ->
  refill s = set_md (Reading (a + 1)) (set_out (packet (mem s a)) s).
Proof. intros Ho Hm. unfold SdCardModel.refill. by rewrite Ho, Hm. Qed.

Lemma packet_cons data : exists o q, packet data = o :: q.
Proof. unfold SdCardModel.packet. destruct nac; by eexists _, _. Qed.

Lemma refill_idem s : refill (refill s) = refill s.
Proof.
  unfold SdCardModel.refill at 2 3. destruct (out s) as [|o q] eqn:Eo; [| by apply (refill_out _ o q)].
  destruct (md s) eqn:Em; try (unfold SdCardModel.refill; by rewrite Eo, Em).
  destruct (packet_cons (mem s sector)) as (o & q & E). by apply (refill_out _ o q).
Qed.

Lemma datablock_refill n s lg :
  cs s = true -> rcvr_datablock n (mk_bus s lg) = rcvr_datablock n (mk_bus (refill s) lg).
Proof.
  intros Hcs. assert (rcvr_byte (mk_bus s lg) = rcvr_byte (mk_bus (refill s) lg)) as He.
  { unfold rcvr_byte, rcvr_mmc. simpl. unfold SdCardModel.clock_byte, shift_out.
    by rewrite refill_cs, refill_idem, Hcs. }
  unfold rcvr_datablock. replace (Z.to_nat 1000) with (S (Z.to_nat 999)) by lia. cbn [token_loop]. by rewrite He.
Qed.

(** Consecutive sectors. *)
Fixpoint sectors (m : Z -> bytes) (a : Z) (n : nat) : bytes :=
  match n with O => [] | S n => m a ++ sectors m (a + 1) n end.

Definition whole_blocks (m : Z -> bytes) : Prop := forall a, length (m a) = 512%nat.

Lemma read_blocks_card n : forall s a,
  cs s = true -> cmd s = [] -> out s = [] -> md s = Reading a -> whole_blocks (mem s) ->
  yields (read_blocks n) s (sectors (mem s) a n, O) (set_md (Reading (a + Z.of_nat n)) s).
Proof.
  induction n as [|n IH]; intros s a Hcs Hc Ho Hm Hb lg; cbn [read_blocks sectors].
  - rewrite Z.add_0_r, <- Hm. eexists. do 2 f_equal. by destruct s.
  - rewrite datablock_refill, (refill_reading s a) by done. set (s1 := set_md _ _).
    destruct (datablock_card 512 s1 (mem s a) [] Hcs ltac:(by split) (eq_sym (app_nil_r _)) (Hb a) lg) as [lg1 ->].
    destruct (IH (set_out [] s1) (a + 1) Hcs Hc eq_refl eq_refl Hb lg1) as [lg2 ->]. eexists.
    replace (a + Z.of_nat (S n)) with (a + 1 + Z.of_nat n) by lia. cbn [mem set_out]. do 2 f_equal.
    unfold s1. destruct s. simpl in *. by subst.
Qed.

Lemma stop_card s a :
  cs s = true -> cmd s = [] -> md s = Reading a -> app_cmd s = false -> idle s = false ->
  yields (send_cmd CMD12 0) s 0 (set_md Ready (set_out [] s)).
Proof.
  intros Hcs Hc Hm Ha Hi lg. change CMD12 with 12. unfold send_cmd. change (test_mask 12 128) with false. cbv iota.
  unfold send_plain. change CMD12 with 12. rewrite Z.eqb_refl. cbn [negb].
  destruct (frame_sent s 12 0 Hcs Hc) as (q & m & E & _); try done; [unfold commanding; by rewrite Hm |].
  assert (execute 12 0 (framing [] q m s) = set_md Ready (set_out (0 :: response [0]) s)) as Ex.
  { unfold SdCardModel.execute, framing. simpl. unfold r1. simpl. rewrite Ha, Hi. destruct s. simpl in *. by subst. }
  unfold xmit_mmc. cbn [card log]. rewrite E, Ex. set (s1 := set_md Ready _).
  destruct (rcvr_queue 1 s1 [0] (response [0]) Hcs ltac:(by split) eq_refl eq_refl
              (lg ++ [EvSent (frame 12 0)])) as [lg1 ->]. cbn [snd].
  destruct (response_card (set_out (response [0]) s1) 0 [] Hcs ltac:(by split) eq_refl eq_refl lg1) as [lg2 ->].
  by eexists.
Qed.

(** Bytes of a data packet. *)
Lemma exchange_data b s multi a r :
  cs s = true -> out s = [] -> md s = Data multi a r -> (length r < 513)%nat ->
  clock_byte b s = (0xFF, set_md (Data multi a (r ++ [b])) s).
Proof.
  intros Hcs Ho Hm Hr. unfold SdCardModel.clock_byte, shift_out. rewrite Hcs.
  assert (refill s = s) as -> by (unfold SdCardModel.refill; by rewrite Ho, Hm).
  rewrite Ho. unfold shift_in. rewrite Hm. destruct (Nat.eqb_spec (length (r ++ [b])) 514) as [E|]; [| done].
  rewrite length_app in E. simpl in E. lia.
Qed.

Lemma send_data l : forall s multi a r,
  cs s = true -> out s = [] -> md s = Data multi a r -> (length r + length l <= 513)%nat ->
  spi_send l s = set_md (Data multi a (r ++ l)) s.
Proof.
  induction l as [|b l IH]; intros s multi a r Hcs Ho Hm Hl.
  - rewrite app_nil_r, <- Hm. by destruct s.
  - rewrite send_cons. simpl in Hl. rewrite (exchange_data b s multi a r) by (done || lia). cbn [snd].
    rewrite (IH _ multi a (r ++ [b])); [by rewrite <- app_assoc | done | done | done |].
    rewrite length_app. simpl. lia.
Qed.

Definition stored (m : Z -> bytes) (a : Z) (data : bytes) : Z -> bytes := fun i => if i =? a then data else m i.

Lemma last_data s multi a r b :
  cs s = true -> out s = [] -> md s = Data multi a r -> length r = 513%nat ->
  clock_byte b s = (0xFF, store_block nbusy multi a (r ++ [b]) s).
Proof.
  intros Hcs Ho Hm Hr. unfold SdCardModel.clock_byte, shift_out. rewrite Hcs.
  assert (refill s = s) as -> by (unfold SdCardModel.refill; by rewrite Ho, Hm).
  rewrite Ho. unfold shift_in. rewrite Hm. by rewrite length_app, Hr.
Qed.

Lemma block_received data s multi a :
  cs s = true -> out s = [] -> md s = Data multi a data -> length data = 512%nat ->
  yields (rcvr_mmc 2) s [0xFF; 0xFF]
    (set_md (if multi then Writing true (a + 1) else Ready)
       (set_out (0x05 :: replicate nbusy 0) (set_mem (stored (mem s) a data) s))).
Proof.
  intros Hcs Ho Hm Hl lg. unfold rcvr_mmc. cbn [card spi_receive the_card spi_card SdCardModel.clock_in].
  rewrite (exchange_data _ s multi a data) by (done || lia).
  rewrite (last_data _ multi a (data ++ [0xFF])); [| done | done | done | rewrite length_app, Hl; done].
  eexists. unfold store_block, stored. rewrite <- app_assoc. simpl mem.
  assert (take 512 (data ++ [0xFF] ++ [0xFF]) = data) as -> by (by apply take_app_length'). do 2 f_equal.
Qed.

Definition token_of (multi : bool) : Z := if multi then 0xFC else 0xFE.

(** A data packet is accepted and stored. *)
Lemma xmit_card data s multi a k :
  cs s = true -> cmd s = [] -> md s = Writing multi a -> out s = replicate k 0 -> (k < 5000)%nat -> length data = 512%nat ->
  yields (xmit_datablock data (token_of multi)) s true
    (set_md (if multi then Writing true (a + 1) else Ready)
       (set_out (replicate nbusy 0) (set_mem (stored (mem s) a data) s))).
Proof.
  intros Hcs Hc Hm Ho Hk Hl lg. unfold xmit_datablock.
  destruct (wait_ready_busy k s Hk Hcs) with (lg := lg) as [lg1 ->]; [split; [done | by rewrite Hm] | by rewrite Hm | done |].
  cbn [negb]. set (s1 := set_out [] s). unfold xmit_mmc. cbn [card log].
  assert (spi_send [token_of multi] s1 = set_md (Data multi a []) s1) as ->.
  { rewrite send_cons. unfold SdCardModel.clock_byte, shift_out. change (cs s1) with (cs s). rewrite Hcs.
    assert (refill s1 = s1) as -> by (unfold SdCardModel.refill, s1; simpl; by rewrite Hm).
    simpl out. cbn [snd]. unfold shift_in, s1. simpl md. rewrite Hm. by destruct multi. }
  assert (negb (token_of multi =? 0xFD) = true) as -> by (by destruct multi).
  rewrite (send_data data (set_md (Data multi a []) s1) multi a []) by (done || (simpl; lia)).
  destruct (block_received data (set_md (Data multi a ([] ++ data)) (set_md (Data multi a []) s1)) multi a) with
    (lg := (lg1 ++ [EvSent [token_of multi]]) ++ [EvSent data]) as [lg2 ->]; try done.
  set (s2 := set_md (if multi then _ else _) _).
  destruct (rcvr_byte_queue s2 0x05 (replicate nbusy 0) Hcs) with (lg := lg2) as [lg3 ->];
    [split; [done | by destruct multi] | done |].
  by eexists.
Qed.

(** The stop token ends a multiple write. *)
Lemma xmit_stop s a k :
  cs s = true -> cmd s = [] -> md s = Writing true a -> out s = replicate k 0 -> (k < 5000)%nat ->
  yields (xmit_datablock [] 0xFD) s true (set_md Ready (set_out (replicate nbusy 0) s)).
Proof.
  intros Hcs Hc Hm Ho Hk lg. unfold xmit_datablock.
  destruct (wait_ready_busy k s Hk Hcs) with (lg := lg) as [lg1 ->]; [split; [done | by rewrite Hm] | by rewrite Hm | done |].
  cbn [negb]. set (s1 := set_out [] s). unfold xmit_mmc. cbn [card log].
  assert (spi_send [0xFD] s1 = set_md Ready (set_out (replicate nbusy 0) s1)) as ->.
  { rewrite send_cons. unfold SdCardModel.clock_byte, shift_out. change (cs s1) with (cs s). rewrite Hcs.
    assert (refill s1 = s1) as -> by (unfold SdCardModel.refill, s1; simpl; by rewrite Hm).
    simpl out. cbn [snd]. unfold shift_in, s1. simpl md. by rewrite Hm. }
  cbn [negb Z.eqb Pos.eqb]. by eexists.
Qed.

(** The memory after consecutive sectors have been written. *)
Fixpoint written (m : Z -> bytes) (a : Z) (data : bytes) (n : nat) : Z -> bytes :=
  match n with O => m | S n => written (stored m a (take 512 data)) (a + 1) (drop 512 data) n end.

Lemma write_blocks_card n : forall s a data k,
  cs s = true -> cmd s = [] -> md s = Writing true a -> out s = replicate k 0 -> (k < 5000)%nat ->
  length data = (512 * n)%nat ->
  exists k', (k' < 5000)%nat /\
  yields (write_blocks n data) s O
    (set_md (Writing true (a + Z.of_nat n)) (set_out (replicate k' 0) (set_mem (written (mem s) a data n) s))).
Proof.
  induction n as [|n IH]; intros s a data k Hcs Hc Hm Ho Hk Hl.
  - exists k. split; [done |]. intros lg. cbn [write_blocks written]. eexists. rewrite Z.add_0_r, <- Hm, <- Ho. by destruct s.
  - set (s1 := set_md (Writing true (a + 1)) (set_out (replicate nbusy 0) (set_mem (stored (mem s) a (take 512 data)) s))).
    destruct (IH s1 (a + 1) (drop 512 data) nbusy) as (k' & Hk' & Hy); try done; [rewrite length_drop; lia |].
    exists k'. split; [done |]. intros lg. cbn [write_blocks written].
    destruct (xmit_card (take 512 data) s true a k) with (lg := lg) as [lg1 E]; try done; [rewrite length_take; lia |].
    assert (xmit_datablock (take 512 data) 0xFC (mk_bus s lg) = (true, mk_bus s1 lg1)) as -> by exact E.
    destruct (Hy lg1) as [lg2 ->]. eexists.
    replace (a + Z.of_nat (S n)) with (a + 1 + Z.of_nat n) by lia. done.
Qed.

(** ** Operations *)

(** A card that has been initialised and is between two operations. *)
Record online (s : sd_card) : Prop := {
  online_settled : settled s; online_app : app_cmd s = false; online_idle : idle s = false;
  online_blocks : whole_blocks (mem s) }.

(** The driver's view of such a card. *)
Record ready_disk (d : disk (W := sd_card)) : Prop := {
  ready_stat : Stat d = 0;
  ready_block : test_mask (CardType d) CT_BLOCK = block_addr;
  ready_sdc : test_mask (CardType d) CT_SDC = true;
  ready_card : online (card (spi d)) }.

(** Sectors within what a 32-bit address reaches. *)
Definition in_range (sector count : Z) : Prop :=
  0 <= sector /\ 1 <= count /\ sector + count <= (if block_addr then 2 ^ 32 else 2 ^ 23).

Lemma address_sector sector count d :
  ready_disk d -> in_range sector count ->
  is_u32 (sector_address sector d) /\ sector_of block_addr (sector_address sector d) = sector.
Proof.
  intros [_ Hb _ _] (H0 & H1 & H2). unfold sector_address, sector_of. rewrite Hb.
  rewrite (u32_id sector) by (unfold is_u32; destruct block_addr; lia).
  destruct block_addr; simpl; [split; [unfold is_u32; lia | done] |].
  rewrite u32_id by (unfold is_u32; lia). split; [unfold is_u32; lia | by rewrite Z.div_mul].
Qed.

(** A command of an online card is answered with zero; its effect is that of
    [execute]. *)
Lemma send_online s idx arg q s' :
  online s -> test_mask idx 0x80 = false -> idx <> 12 -> is_u32 arg ->
  (0x40 .| idx) .& 0xC0 = 0x40 -> (0x40 .| idx) .& 0x3F = idx ->
  execute idx arg (set_cs true (set_out [] s)) = s' -> cs s' = true -> quiet s' -> out s' = response (0 :: q) ->
  yields (send_cmd idx arg) s 0 (set_out q s').
Proof.
  intros [Hs _ _ _] Hm Hi Ha Hx1 Hx2 He Hcs Hq Ho lg. unfold send_cmd. rewrite Hm. by apply (send_plain_card s idx arg).
Qed.

Lemma settled_empty s : cmd s = [] -> md s = Ready -> out s = [] -> settled s.
Proof. intros Hc Hm Ho. split; [done |]. split; [done |]. exists O. split; [lia | done]. Qed.

Lemma deselect_online s : online s -> online (set_cs false s).
Proof. by intros [(?&?&?) ? ? ?]. Qed.

(** The driver deselects the card. *)
Ltac deselecting :=
  match goal with |- context [deselect (mk_bus ?x ?l)] => destruct (deselect_moves x l) as [? ->] end.

Lemma read_card sector count d :
  ready_disk d -> in_range sector count ->
  exists d', disk_read 0 sector count d = (RES_OK, sectors (mem (card (spi d))) sector (Z.to_nat count), d')
    /\ ready_disk d' /\ mem (card (spi d')) = mem (card (spi d)).
Proof.
  intros Hd Hr. destruct (address_sector sector count d Hd Hr) as [Hu Hsec]. destruct Hr as (H0 & H1 & _).
  destruct Hd as [Hst Hb Hsd Hon]. unfold disk_read, disk_status. cbn [negb Z.eqb]. 
  assert (card_inserted (card (spi d)) = true) as -> by done. rewrite Hst. change (Z.ldiff 0 STA_NODISK) with 0.
  change (test_mask 0 STA_NOINIT) with false. cbv iota.
  change (sector_address sector {| Stat := 0; CardType := CardType d; spi := spi d |}) with (sector_address sector d).
  set (arg := sector_address sector d) in *. cbn [spi]. destruct (spi d) as [s lg] eqn:Espi. cbn [card] in *.
  destruct Hon as [Hs Happ Hidle Hblk]. pose proof Hs as (Hc & Hm & _).
  destruct (Z.ltb_spec 1 count) as [Hc1|Hc1].
  - set (s1 := set_md (Reading sector) (set_out (response [0]) (set_cs true (set_out [] s)))).
    destruct (send_online s 18 arg [] s1) with (lg := lg) as [lg1 E1]; try done.
    { unfold SdCardModel.execute. simpl. unfold r1. simpl. by rewrite Happ, Hidle, Hsec. }
    change CMD18 with 18. rewrite E1. cbn [Z.eqb]. unfold iterations. destruct (Z.eqb_spec count 0); [lia |].
    destruct (read_blocks_card (Z.to_nat count) (set_out [] s1) sector) with (lg := lg1) as [lg2 E2]; try done.
    rewrite E2. cbn [Z.eqb Pos.eqb].
    destruct (stop_card (set_md (Reading (sector + Z.of_nat (Z.to_nat count))) (set_out [] s1)) (sector + Z.of_nat (Z.to_nat count)))
      with (lg := lg2) as [lg3 E3]; try done.
    change CMD12 with 12 in E3. change CMD12 with 12. rewrite E3. cbn [snd]. change (u32 (Z.of_nat 0)) with 0. cbn [Z.eqb].
    deselecting.
    eexists. split; [done |]. split; [| done]. split; try done. split; try done. by apply settled_empty.
  - assert (count = 1) as -> by lia. set (s1 := set_out (response (0 :: packet (mem s sector))) (set_cs true (set_out [] s))).
    destruct (send_online s 17 arg (packet (mem s sector)) s1) with (lg := lg) as [lg1 E1]; try done.
    { unfold SdCardModel.execute. simpl. unfold r1. simpl. by rewrite Happ, Hidle, Hsec. }
    { split; [done | simpl; by rewrite Hm]. }
    change CMD17 with 17. rewrite E1. cbn [Z.eqb]. change (iterations 1) with 1%nat. change (Z.to_nat 1) with 1%nat. cbn [read_blocks sectors].
    destruct (datablock_card 512 (set_out (packet (mem s sector)) s1) (mem s sector) []) with (lg := lg1) as [lg2 E2];
      [done | split; [done | simpl; by rewrite Hm] | by rewrite app_nil_r | apply Hblk |].
    rewrite E2. unfold CMD18. cbn [Pos.eqb]. change (u32 (Z.of_nat 0)) with 0. cbn [Z.eqb].
    deselecting.
    eexists. split; [done |]. split; [| done]. split; try done. split; try done. by apply settled_empty.
Qed.

(** An application command: CMD55, then the command with the flag set. *)
Lemma send_app_card s acmd r0 r q s' :
  settled s -> app_cmd s = false -> r0 = r1 s -> test_mask acmd 0x80 = true -> acmd .& 0x7F <> 12 ->
  forall arg, is_u32 arg -> (0x40 .| (acmd .& 0x7F)) .& 0xC0 = 0x40 -> (0x40 .| (acmd .& 0x7F)) .& 0x3F = acmd .& 0x7F ->
  execute_app ncr (acmd .& 0x7F) (set_cs true (set_out [] s)) = s' ->
  cs s' = true -> quiet s' -> test_mask r 0x80 = false -> out s' = response (r :: q) ->
  yields (send_cmd acmd arg) s r (set_out q s').
Proof.
  intros Hs Ha Hr0 Ht Hi arg Hu Hx1 Hx2 He Hcs Hq Hr Ho lg. unfold send_cmd. rewrite Ht. change CMD55 with 55.
  set (s1 := set_app true (set_out (response [r1 s]) (set_cs true (set_out [] s)))). pose proof Hs as (Hc & Hm & _).
  destruct (send_plain_card s 55 0 (r1 s) [] s1) with (lg := lg) as [lg1 ->]; try done.
  { unfold SdCardModel.execute. simpl. by rewrite Ha. }
  { split; [done | simpl; by rewrite Hm]. }
  { unfold r1. by destruct (idle s). }
  assert ((1 <? r1 s) = false) as -> by (unfold r1; by destruct (idle s)).
  destruct (send_plain_card (set_out [] s1) (acmd .& 0x7F) arg r q s') with (lg := lg1) as [lg2 ->]; try done.
  { by apply settled_empty. }
  { rewrite <- He. unfold SdCardModel.execute. simpl. f_equal. destruct s. simpl in *. by subst. }
  by eexists.
Qed.

(** The pre-erase count before a multiple write. *)
Lemma pre_erase_card s count :
  online s -> is_u32 count -> exists s', yields (send_cmd ACMD23 count) s 0 s' /\ online s' /\ mem s' = mem s.
Proof.
  intros [Hs Happ Hidle Hblk] Hu. pose proof Hs as (Hc & Hm & _).
  set (s1 := set_out (response [0]) (set_cs true (set_out [] s))). exists (set_out [] s1). split; [| split; [| done]].
  - apply (send_app_card s ACMD23 (r1 s) 0 [] s1); try done; [| split; [done | simpl; by rewrite Hm]].
    unfold execute_app, r1. simpl. by rewrite Hidle.
  - split; try done. by apply settled_empty.
Qed.

Lemma settled_busy s : cmd s = [] -> md s = Ready -> out s = replicate nbusy 0 -> settled s.
Proof. intros Hc Hm Ho. split; [done |]. split; [done |]. by exists nbusy. Qed.

Lemma stored_blocks m a data : whole_blocks m -> length data = 512%nat -> whole_blocks (stored m a data).
Proof. intros Hm Hl i. unfold stored. destruct (i =? a); [done | apply Hm]. Qed.

Lemma written_blocks n : forall m a data,
  whole_blocks m -> length data = (512 * n)%nat -> whole_blocks (written m a data n).
Proof.
  induction n as [|n IH]; intros m a data Hm Hl; [done |]. cbn [written]. apply IH.
  - apply stored_blocks; [done | rewrite length_take; lia].
  - rewrite length_drop. lia.
Qed.

Lemma write_card buff sector count d :
  ready_disk d -> in_range sector count -> count < 2 ^ 32 -> length buff = (512 * Z.to_nat count)%nat ->
  exists d', disk_write 0 buff sector count d = (RES_OK, d')
    /\ ready_disk d' /\ mem (card (spi d')) = written (mem (card (spi d))) sector buff (Z.to_nat count).
Proof.
  intros Hd Hr Hcnt Hlen. destruct (address_sector sector count d Hd Hr) as [Hu Hsec]. destruct Hr as (H0 & H1 & _).
  destruct Hd as [Hst Hb Hsd Hon]. unfold disk_write, disk_status. cbn [negb Z.eqb].
  assert (card_inserted (card (spi d)) = true) as -> by done. rewrite Hst. change (Z.ldiff 0 STA_NODISK) with 0.
  change (test_mask 0 STA_NOINIT) with false. cbv iota.
  change (sector_address sector {| Stat := 0; CardType := CardType d; spi := spi d |}) with (sector_address sector d).
  set (arg := sector_address sector d) in *. cbn [spi CardType]. destruct (spi d) as [s lg] eqn:Espi. cbn [card] in *.
  destruct (Z.eqb_spec count 1) as [->|Hc1].
  - destruct Hon as [Hs Happ Hidle Hblk]. pose proof Hs as (Hc & Hm & _).
    set (s1 := set_md (Writing false sector) (set_out (response [0]) (set_cs true (set_out [] s)))).
    destruct (send_online s 24 arg [] s1) with (lg := lg) as [lg1 E1]; try done.
    { unfold SdCardModel.execute. simpl. unfold r1. simpl. by rewrite Happ, Hidle, Hsec. }
    change CMD24 with 24. rewrite E1. cbn [Z.eqb]. change (Z.to_nat 1) with 1%nat in *.
    destruct (xmit_card (take 512 buff) (set_out [] s1) false sector 0) with (lg := lg1) as [lg2 E2]; try done;
      [lia | rewrite length_take; lia |]. unfold token_of in E2. rewrite E2. cbn [Z.eqb].
    deselecting. eexists. split; [done |]. split; [| done]. split; try done. split; try done; [by apply settled_busy |].
    apply stored_blocks; [done | rewrite length_take; lia].
  - rewrite Hsd. destruct (pre_erase_card s count Hon ltac:(unfold is_u32; lia)) as (s0 & Hy & Hon0 & Hmem).
    destruct (Hy lg) as [lg0 ->]. cbn [snd]. pose proof Hon0 as [Hs Happ Hidle Hblk]. pose proof Hs as (Hc & Hm & _).
    set (s1 := set_md (Writing true sector) (set_out (response [0]) (set_cs true (set_out [] s0)))).
    destruct (send_online s0 25 arg [] s1) with (lg := lg0) as [lg1 E1]; try done.
    { unfold SdCardModel.execute. simpl. unfold r1. simpl. by rewrite Happ, Hidle, Hsec. }
    change CMD25 with 25. rewrite E1. cbn [Z.eqb]. unfold iterations. destruct (Z.eqb_spec count 0); [lia |].
    destruct (write_blocks_card (Z.to_nat count) (set_out [] s1) sector buff 0) as (k & Hk & Hy2); try done; [lia |].
    destruct (Hy2 lg1) as [lg2 ->].
    match goal with |- context [xmit_datablock [] 0xFD (mk_bus ?x ?l)] =>
      destruct (xmit_stop x (sector + Z.of_nat (Z.to_nat count)) k) with (lg := l) as [lg3 ->]; try done end.
    change (u32 (Z.of_nat 0)) with 0. cbn [Z.eqb].
    deselecting. eexists. split; [done |]. rewrite <- Hmem. split; [| done]. split; try done. split; try done; [by apply settled_busy |].
    apply written_blocks; [done | lia].
Qed.


(** ** Initialisation *)

Lemma receive_deselected n s : cs s = false -> (clock_in n s).2 = s.
Proof.
  intros Hcs. induction n as [|n IH]; [done |]. simpl. unfold SdCardModel.clock_byte at 1. rewrite Hcs.
  destruct (clock_in n s) as [l s']. by simpl in *.
Qed.

(** A card that has been asked to leave the idle state often enough does so. *)
Lemma leave_idle_card k : forall tmr s,
  polls s = k -> (k < tmr)%nat -> settled s -> app_cmd s = false -> idle s = true -> whole_blocks (mem s) ->
  exists s', yields (leave_idle tmr ACMD41 (Z.shiftl 1 30)) s true s' /\ online s' /\ mem s' = mem s.
Proof.
  induction k as [|k IH]; intros [|tmr] s Hp Hk Hs Ha Hi Hb; try lia; pose proof Hs as (Hc & Hm & _).
  - set (s1 := set_idle false (set_out (response [0]) (set_cs true (set_out [] s)))).
    exists (set_out [] s1). split; [| split; [| done]].
    + intros lg. cbn [leave_idle].
      destruct (send_app_card s ACMD41 (r1 s) 0 [] s1) with (arg := Z.shiftl 1 30) (lg := lg) as [lg1 ->]; try done.
      { unfold execute_app. simpl. by rewrite Hp. }
      { split; [done | simpl; by rewrite Hm]. }
      by eexists.
    + split; try done. by apply settled_empty.
  - set (s1 := set_polls k (set_out (response [1]) (set_cs true (set_out [] s)))).
    destruct (IH tmr (set_out [] s1)) as (s' & Hy & Hon & Hmem); try done; [lia | by apply settled_empty |].
    exists s'. split; [| done]. intros lg. cbn [leave_idle].
    destruct (send_app_card s ACMD41 (r1 s) 1 [] s1) with (arg := Z.shiftl 1 30) (lg := lg) as [lg1 ->]; try done.
    { unfold execute_app. simpl. by rewrite Hp. }
    { split; [done | simpl; by rewrite Hm]. }
    cbn [Z.eqb]. apply Hy.
Qed.

Lemma receive_four s l q : cs s = true -> quiet s -> out s = l ++ q -> length l = 4%nat -> yields (rcvr_mmc 4) s l (set_out q s).
Proof. intros. by apply rcvr_queue. Qed.

(** What is expected of a card that has just been powered. *)
Record powered (s : sd_card) : Prop := {
  powered_settled : settled s; powered_app : app_cmd s = false; powered_polls : (polls s < 1000)%nat;
  powered_blocks : whole_blocks (mem s) }.

Definition card_type : Z := if block_addr then CT_SDC2 .| CT_BLOCK else CT_SDC2.

Lemma identify_sdv2_card s :
  cs s = true -> cmd s = [] -> md s = Ready -> out s = [0; 0; 1; 0xAA] ->
  app_cmd s = false -> idle s = true -> (polls s < 1000)%nat -> whole_blocks (mem s) ->
  exists s', yields identify_sdv2 s card_type s' /\ online s' /\ mem s' = mem s.
Proof.
  intros Hcs Hc Hm Ho Ha Hi Hp Hb.
  destruct (leave_idle_card (polls s) (Z.to_nat 1000) (set_out [] s)) as (s1 & Hy & [Hs1 Ha1 Hi1 Hb1] & Hm1);
    try done; [by apply settled_empty |]. pose proof Hs1 as (Hc1 & Hmd1 & _).
  set (ocr := [if block_addr then 0xC0 else 0x80; 0xFF; 0x80; 0]).
  set (s2 := set_out (response (0 :: ocr)) (set_cs true (set_out [] s1))).
  exists (set_out [] (set_out ocr s2)). split; [| split; [| done]].
  - intros lg. unfold identify_sdv2.
    destruct (receive_four s [0; 0; 1; 0xAA] [] Hcs ltac:(split; [done | by rewrite Hm]) Ho eq_refl lg) as [lg1 ->].
    cbn [byte_at lookup list_lookup default Z.eqb Pos.eqb andb]. destruct (Hy lg1) as [lg2 E]. 
    change (byte_at [0; 0; 1; 170] 2) with 1. change (byte_at [0; 0; 1; 170] 3) with 170. cbn [Z.eqb Pos.eqb andb]. rewrite E. cbn [negb].
    destruct (send_online s1 58 0 ocr s2) with (lg := lg2) as [lg3 E3]; try done.
    { unfold SdCardModel.execute. simpl. unfold r1. simpl. by rewrite Ha1, Hi1. }
    { split; [done | simpl; by rewrite Hmd1]. }
    change CMD58 with 58. rewrite E3. cbn [Z.eqb].
    destruct (receive_four (set_out ocr s2) ocr [] eq_refl ltac:(split; [done | simpl; by rewrite Hmd1]) eq_refl eq_refl lg3) as [lg4 ->].
    eexists. unfold card_type, ocr. by destruct block_addr.
  - split; try done. by apply settled_empty.
Qed.

Lemma identify_card s : powered s -> exists s', yields identify s card_type s' /\ online s' /\ mem s' = mem s.
Proof.
  intros [Hs Ha Hp Hb]. pose proof Hs as (Hc & Hm & _).
  set (s1 := set_idle true (set_md Ready (set_out (response [1]) (set_cs true (set_out [] s))))).
  set (s2 := set_out (response [1; 0; 0; 1; 0xAA]) (set_cs true (set_out [] (set_out [] s1)))).
  destruct (identify_sdv2_card (set_out [0; 0; 1; 0xAA] s2)) as (s' & Hy & Hon & Hmem); try done.
  exists s'. split; [| done]. intros lg. unfold identify, send_cmd. change (test_mask CMD0 128) with false. 
  change (test_mask CMD8 128) with false. change CMD0 with 0. change CMD8 with 8. cbv iota.
  destruct (send_plain_card s 0 0 1 [] s1) with (lg := lg) as [lg1 ->]; try done.
  { unfold SdCardModel.execute. simpl. by rewrite Ha. }
  cbn [Z.eqb Pos.eqb].
  destruct (send_plain_card (set_out [] s1) 8 0x1AA 1 [0; 0; 1; 0xAA] s2) with (lg := lg1) as [lg2 ->]; try done.
  { by apply settled_empty. }
  { unfold SdCardModel.execute. simpl. by rewrite Ha. }
  cbn [Z.eqb Pos.eqb]. apply Hy.
Qed.

Lemma initialize_card d :
  Stat d = STA_NOINIT -> powered (card (spi d)) ->
  exists d', disk_initialize 0 d = (0, d') /\ ready_disk d' /\ mem (card (spi d')) = mem (card (spi d)).
Proof.
  intros Hst Hpow. unfold disk_initialize, disk_status. cbn [negb Z.eqb].
  assert (card_inserted (card (spi d)) = true) as -> by done. rewrite Hst. change (Z.ldiff STA_NOINIT STA_NODISK) with 1.
  cbn [Z.eqb spi]. destruct (spi d) as [s lg]. cbn [card] in *.
  unfold power, CS_H, CS_L, rcvr_mmc. cbn [card log]. cbn [board_power spi_select spi_receive the_card spi_card].
  set (s0 := set_cs false (set_cs true s)).
  destruct (clock_in 10 s0) as [l s1] eqn:E. pose proof (receive_deselected 10 s0 eq_refl) as Hs1. rewrite E in Hs1. simpl in Hs1. subst s1.
  destruct (identify_card s0) as (s' & Hy & [Hs Ha Hi Hb] & Hmem).
  { destruct Hpow as [(? & ? & ?) ? ? ?]. split; try done. }
  match goal with |- context [identify (mk_bus s0 ?x)] => destruct (Hy x) as [lg1 ->] end.
  assert (negb (card_type =? 0) = true) as -> by (unfold card_type; by destruct block_addr).
  deselecting. eexists. split; [done |]. split; [| done].
  split; try done; try (unfold card_type; simpl; by destruct block_addr).
Qed.
End facts.

(** ** The driver refines an array of sectors *)

Inductive request :=
| Read (sector count : Z)
| Write (sector count : Z) (data : bytes).

(** The specification: sectors of 512 bytes. *)
Definition array_read (m : Z -> bytes) (sector count : Z) : bytes := concat (m <$> seqZ sector count).
Definition array_write (m : Z -> bytes) (sector count : Z) (data : bytes) : Z -> bytes := fun i =>
  if (sector <=? i) && (i <? sector + count) then take 512 (drop (Z.to_nat (512 * (i - sector))) data) else m i.

Definition array_step (m : Z -> bytes) (r : request) : bytes * (Z -> bytes) :=
  match r with
  | Read sector count => (array_read m sector count, m)
  | Write sector count data => ([], array_write m sector count data)
  end.
Fixpoint array_run (m : Z -> bytes) (l : list request) : list (DRESULT * bytes) :=
  match l with
  | [] => []
  | r :: l => let '(data, m) := array_step m r in (RES_OK, data) :: array_run m l
  end.

(** The driver. *)
Definition disk_step {W} {SB : SdBus W} (r : request) (d : disk (W := W)) : DRESULT * bytes * disk (W := W) :=
  match r with
  | Read sector count => disk_read 0 sector count d
  | Write sector count data => let '(res, d) := disk_write 0 data sector count d in (res, [], d)
  end.
Fixpoint disk_run {W} {SB : SdBus W} (l : list request) (d : disk (W := W)) : list (DRESULT * bytes) :=
  match l with
  | [] => []
  | r :: l => let '(res, data, d) := disk_step r d in (res, data) :: disk_run l d
  end.

(** A request for sectors of the card, with a whole number of sectors to write. *)
Definition valid (block_addr : bool) (r : request) : Prop :=
  match r with
  | Read sector count => in_range block_addr sector count
  | Write sector count data =>
      in_range block_addr sector count /\ count < 2 ^ 32 /\ length data = (512 * Z.to_nat count)%nat
  end.

Lemma sectors_array m n : forall a, sectors m a n = array_read m a (Z.of_nat n).
Proof.
  induction n as [|n IH]; intros a; [done |]. unfold array_read. rewrite seqZ_cons by lia.
  cbn [sectors]. rewrite IH, fmap_cons. simpl concat. unfold array_read.
  replace (Z.pred (Z.of_nat (S n))) with (Z.of_nat n) by lia. by rewrite <- Z.add_1_r.
Qed.

Lemma sectors_ext m m' n : (forall i, m i = m' i) -> forall a, sectors m a n = sectors m' a n.
Proof. intros H. induction n as [|n IH]; intros a; [done |]. cbn [sectors]. by rewrite H, IH. Qed.

(** Blocks written one by one are the sectors written at once. *)
Lemma written_array n : forall m m' a data i,
  (forall j, m j = m' j) -> written m a data n i = array_write m' a (Z.of_nat n) data i.
Proof.
  induction n as [|n IH]; intros m m' a data i Hm; unfold array_write.
  - cbn [written]. destruct (Z.leb_spec a i), (Z.ltb_spec i (a + Z.of_nat 0)); try lia; apply Hm.
  - cbn [written]. rewrite (IH _ (stored m' a (take 512 data))) by (intros j; unfold stored; destruct (j =? a); [done | apply Hm]).
    unfold array_write, stored. rewrite Nat2Z.inj_succ, drop_drop.
    destruct (Z.leb_spec (a + 1) i), (Z.leb_spec a i), (Z.ltb_spec i (a + 1 + Z.of_nat n)),
      (Z.ltb_spec i (a + Z.succ (Z.of_nat n))), (Z.eqb_spec i a); try lia; try done; cbn [andb].
    + do 2 f_equal. lia.
    + subst i. by rewrite Z.sub_diag.
Qed.

Section refinement.
Context (block_addr : bool) (csd : bytes) (ncr nac nbusy : nat).
#[local] Instance card_bus : SdBus sd_card := spi_card block_addr csd ncr nac nbusy.
#[local] Set Default Proof Using "All".
Hypothesis Hncr : (ncr <= 9)%nat.
Hypothesis Hnac : (nac < 1000)%nat.
Hypothesis Hbusy : (nbusy < 5000)%nat.

(** The card holds the array. *)
Definition holds (d : disk (W := sd_card)) (m : Z -> bytes) : Prop :=
  ready_disk block_addr nbusy d /\ forall i, mem (card (spi d)) i = m i.

Lemma request_refines r d m :
  valid block_addr r -> holds d m ->
  exists d', disk_step r d = (RES_OK, (array_step m r).1, d') /\ holds d' (array_step m r).2.
Proof.
  intros Hv [Hd Hm]. destruct r as [sector count|sector count data]; simpl in Hv.
  - destruct (read_card block_addr csd ncr nac nbusy Hncr Hnac Hbusy sector count d Hd Hv) as (d' & E & Hd' & Hmem).
    exists d'. cbn [disk_step]. rewrite (sectors_ext _ m _ Hm), sectors_array in E. destruct Hv as (? & ? & _).
    rewrite Z2Nat.id in E by lia. split; [exact E |]. split; [done |]. intros i. by rewrite Hmem.
  - destruct Hv as (Hr & Hc & Hl).
    destruct (write_card block_addr csd ncr nac nbusy Hncr Hnac Hbusy data sector count d Hd Hr Hc Hl) as (d' & E & Hd' & Hmem).
    exists d'. split; [cbn [disk_step]; change card_bus with (the_card block_addr csd ncr nac nbusy); by rewrite E |]. split; [done |]. intros i. rewrite Hmem.
    rewrite (written_array _ _ m) by done. destruct Hr as (? & ? & _). by rewrite Z2Nat.id by lia.
Qed.

Lemma requests_refine l : forall d m, Forall (valid block_addr) l -> holds d m -> disk_run l d = array_run m l.
Proof.
  induction l as [|r l IH]; intros d m Hv Hd; [done |]. apply list.Forall_cons in Hv as [Hv Hl].
  destruct (request_refines r d m Hv Hd) as (d' & E & Hd'). cbn [disk_run array_run]. rewrite E.
  destruct (array_step m r) as [data m']. by rewrite (IH d' m').
Qed.

(** C4: With a card of version 2 on the bus that answers commands within ten
    bytes, delivers a block within a thousand, is busy for less than five thousand
    after a write and leaves the idle state within a thousand requests, the driver
    refines an array of sectors: initialisation succeeds, and any sequence of
    reads and writes of sectors of the card returns what the array returns, byte
    for byte and without errors. *)
Theorem disk_refines_array (l : list request) (d : disk) :
  Stat d = STA_NOINIT -> powered nbusy (card (spi d)) -> Forall (valid block_addr) l ->
  exists d', disk_initialize 0 d = (0, d') /\ disk_run l d' = array_run (mem (card (spi d))) l.
Proof.
  intros Hst Hp Hl. destruct (initialize_card block_addr csd ncr nac nbusy Hncr Hnac Hbusy d Hst Hp) as (d' & E & Hd & Hm).
  exists d'. split; [exact E |]. apply requests_refine; [done |]. split; [done |]. intros i. by rewrite Hm.
Qed.
End refinement.

(** An erased card, and a request that writes two sectors and reads one of them
    and the next. *)
Definition erased : sd_card := mk_card false [] [] Ready false true 3 (fun _ => replicate 512 0xFF).
Definition two_sectors : bytes := replicate 512 1 ++ replicate 512 2.

Lemma disk_refines_array_witness :
  exists d', @disk_initialize _ (spi_card true csd_v2 2 10 20) 0 (mk_disk STA_NOINIT 0 (mk_bus erased [])) = (0, d')
    /\ @disk_run _ (spi_card true csd_v2 2 10 20) [Write 7 2 two_sectors; Read 8 2] d'
       = [(RES_OK, []); (RES_OK, replicate 512 2 ++ replicate 512 0xFF)].
Proof.
  destruct (disk_refines_array true csd_v2 2 10 20 ltac:(lia) ltac:(lia) ltac:(lia)
              [Write 7 2 two_sectors; Read 8 2] (mk_disk STA_NOINIT 0 (mk_bus erased []))) as (d' & E & R).
  - reflexivity.
  - split; [split; [reflexivity | split; [reflexivity | exists 0%nat; split; [lia | reflexivity]]] | reflexivity | simpl; lia |].
    intros a. reflexivity.
  - repeat constructor; unfold in_range; try lia; reflexivity.
  - exists d'. split; [exact E |]. etransitivity; [exact R | vm_compute; reflexivity].
Defined.
End SdCardModel.
