(* ===== verification/FatTable.v ===== *)
(** * The FAT file system: window, table and cluster chains

    Models the lower half of [system/src/ff15/source/ff.c] (FatFs R0.15) in the
    firmware's configuration ([ffconf.h]: sectors of 512 bytes, one volume, no
    exFAT, no long names, no fast seek): the disk access window, the file
    allocation table in its three formats, and the chains of clusters in it.

    The disk functions are the class [DiskIo], of which [SdCard.v] has the
    firmware's own; [SectorDisk] says what a disk without errors does.  A volume
    is the [FATFS] structure with its disk.  The structure's window is a list of
    512 bytes; 32-bit numbers are kept at their width where the code relies on
    it. *)

From S2P Require Import Prelude.

(** ** Disks

    Reads and writes of whole sectors: success, the data read, the new state. *)
Class DiskIo (D : Type) := {
  disk_read : Z -> Z -> D -> bool * bytes * D;
  disk_write : bytes -> Z -> Z -> D -> bool * D;
  disk_sync : D -> bool * D;
  disk_status : D -> Z;
}.

(** A disk of [disk_size] sectors of 512 bytes on which every call succeeds. *)
Class SectorDisk (D : Type) {DI : DiskIo D} := {
  disk_ready : D -> Prop;
  disk_size : Z;
  sector : D -> Z -> bytes;
  sector_length d s : disk_ready d -> length (sector d s) = 512%nat /\ is_bytes (sector d s);
  disk_size_u32 : disk_size <= 2 ^ 32 - 1;
  disk_read_law s n d : disk_ready d -> 0 <= s -> 1 <= n -> s + n <= disk_size ->
    exists d', disk_read s n d = (true, concat (sector d <$> seqZ s n), d') /\ disk_ready d'
      /\ forall i, sector d' i = sector d i;
  disk_write_law b s n d : disk_ready d -> 0 <= s -> 1 <= n -> s + n <= disk_size ->
    Z.of_nat (length b) = 512 * n -> is_bytes b ->
    exists d', disk_write b s n d = (true, d') /\ disk_ready d'
      /\ forall i, sector d' i = if (s <=? i) && (i <? s + n)
                                 then take 512 (drop (Z.to_nat (512 * (i - s))) b) else sector d i;
  disk_sync_law d : disk_ready d ->
    exists d', disk_sync d = (true, d') /\ disk_ready d' /\ forall i, sector d' i = sector d i;
  disk_status_law d : disk_ready d -> disk_status d = 0;
}.

Module FatTable.

Definition SS : Z := 512.

Definition FR_OK : Z := 0.
Definition FR_DISK_ERR : Z := 1.
Definition FR_INT_ERR : Z := 2.

Definition FS_FAT12 : Z := 1.
Definition FS_FAT16 : Z := 2.
Definition FS_FAT32 : Z := 3.

Definition DISK_ERROR : Z := 0xFFFFFFFF.

(** ** Words in a block of bytes *)

Definition byte_at (b : bytes) (i : Z) : Z := nth (Z.to_nat i) b 0.
Definition put_byte (i x : Z) (b : bytes) : bytes := <[Z.to_nat i := u8 x]> b.

Definition ld_word (b : bytes) (i : Z) : Z := Z.shiftl (byte_at b (i + 1)) 8 .| byte_at b i.
Definition ld_dword (b : bytes) (i : Z) : Z :=
  Z.shiftl (Z.shiftl (Z.shiftl (byte_at b (i + 3)) 8 .| byte_at b (i + 2)) 8 .| byte_at b (i + 1)) 8 .| byte_at b i.

Definition st_word (i val : Z) (b : bytes) : bytes :=
  put_byte (i + 1) (Z.shiftr val 8) (put_byte i val b).
Definition st_dword (i val : Z) (b : bytes) : bytes :=
  put_byte (i + 3) (Z.shiftr val 24) (put_byte (i + 2) (Z.shiftr val 16)
    (put_byte (i + 1) (Z.shiftr val 8) (put_byte i val b))).

(** ** The volume *)

Record FATFS := mk_FATFS {
  fs_type : Z; n_fats : Z; wflag : bool; fsi_flag : Z; fs_id : Z; n_rootdir : Z; csize : Z; last_clst : Z; free_clst : Z;
  n_fatent : Z; fsize : Z; volbase : Z; fatbase : Z; dirbase : Z; database : Z; winsect : Z; win : bytes;
}.

Record vol (D : Type) := mk_vol { fs : FATFS; dk : D }.
Arguments mk_vol {D} _ _.
Arguments fs {D} _.
Arguments dk {D} _.

Definition set_window (s : Z) (w : bytes) (f : FATFS) : FATFS :=
  mk_FATFS (fs_type f) (n_fats f) (wflag f) (fsi_flag f) (fs_id f) (n_rootdir f) (csize f) (last_clst f) (free_clst f) (n_fatent f)
    (fsize f) (volbase f) (fatbase f) (dirbase f) (database f) s w.
Definition set_wflag (x : bool) (f : FATFS) : FATFS :=
  mk_FATFS (fs_type f) (n_fats f) x (fsi_flag f) (fs_id f) (n_rootdir f) (csize f) (last_clst f) (free_clst f) (n_fatent f)
    (fsize f) (volbase f) (fatbase f) (dirbase f) (database f) (winsect f) (win f).
Definition set_fsinfo (flag last free : Z) (f : FATFS) : FATFS :=
  mk_FATFS (fs_type f) (n_fats f) (wflag f) flag (fs_id f) (n_rootdir f) (csize f) last free (n_fatent f)
    (fsize f) (volbase f) (fatbase f) (dirbase f) (database f) (winsect f) (win f).

Section Volume.
Context {D : Type} {DI : DiskIo D}.
Implicit Types v : vol D.

Definition on_fs (g : FATFS -> FATFS) v : vol D := mk_vol (g (fs v)) (dk v).

(** ** The disk access window *)

Definition sync_window v : Z * vol D :=
  let f := fs v in
  if wflag f then
    let '(ok, d) := disk_write (win f) (winsect f) 1 (dk v) in
    if (ok : bool) then
      let f := set_wflag false f in
      if (u32 (winsect f - fatbase f) <? fsize f) && (n_fats f =? 2)
      then let '(_, d) := disk_write (win f) (u32 (winsect f + fsize f)) 1 d in (FR_OK, mk_vol f d)
      else (FR_OK, mk_vol f d)
    else (FR_DISK_ERR, mk_vol f d)
  else (FR_OK, v).

Definition move_window (sect : Z) v : Z * vol D :=
  if sect =? winsect (fs v) then (FR_OK, v)
  else
    let '(res, v) := sync_window v in
    if res =? FR_OK then
      let '(ok, b, d) := disk_read sect 1 (dk v) in
      if (ok : bool) then (FR_OK, mk_vol (set_window sect b (fs v)) d)
      else (FR_DISK_ERR, mk_vol (set_window (u32 (0 - 1)) b (fs v)) d)
    else (res, v).

Definition BS_55AA : Z := 510.
Definition FSI_LeadSig : Z := 0.
Definition FSI_StrucSig : Z := 484.
Definition FSI_Free_Count : Z := 488.
Definition FSI_Nxt_Free : Z := 492.

Definition fsinfo_sector (f : FATFS) : bytes :=
  st_dword FSI_Nxt_Free (last_clst f)
    (st_dword FSI_Free_Count (free_clst f)
      (st_dword FSI_StrucSig 0x61417272
        (st_dword FSI_LeadSig 0x41615252
          (st_word BS_55AA 0xAA55 (replicate 512 0))))).

(** The FSINFO sector is written through the window when it has changed. *)
Definition write_fsinfo v : vol D :=
  if (fs_type (fs v) =? FS_FAT32) && (fsi_flag (fs v) =? 1) then
    let f := set_window (u32 (volbase (fs v) + 1)) (fsinfo_sector (fs v)) (fs v) in
    let '(_, d) := disk_write (win f) (winsect f) 1 (dk v) in
    mk_vol (set_fsinfo 0 (last_clst f) (free_clst f) f) d
  else v.

Definition sync_fs v : Z * vol D :=
  let '(res, v) := sync_window v in
  if res =? FR_OK then
    let v := write_fsinfo v in
    let '(ok, d) := disk_sync (dk v) in
    (if (ok : bool) then res else FR_DISK_ERR, mk_vol (fs v) d)
  else (res, v).

Definition clst2sect (clst : Z) v : Z :=
  let clst := u32 (clst - 2) in
  if u32 (n_fatent (fs v) - 2) <=? clst then 0 else u32 (database (fs v) + csize (fs v) * clst).

(** ** The table *)

(** The sector of the table with the byte at [bc], in the window. *)
Definition fat_window (bc : Z) v : Z * vol D := move_window (u32 (fatbase (fs v) + bc / SS)) v.

Definition get_fat (clst : Z) v : Z * vol D :=
  if (clst <? 2) || (n_fatent (fs v) <=? clst) then (1, v)
  else if fs_type (fs v) =? FS_FAT12 then
    let bc := clst + clst / 2 in
    let '(res, v) := fat_window bc v in
    if negb (res =? FR_OK) then (DISK_ERROR, v)
    else
      let wc := byte_at (win (fs v)) (bc mod SS) in
      let bc := bc + 1 in
      let '(res, v) := fat_window bc v in
      if negb (res =? FR_OK) then (DISK_ERROR, v)
      else
        let wc := wc .| Z.shiftl (byte_at (win (fs v)) (bc mod SS)) 8 in
        (if clst .& 1 =? 0 then wc .& 0xFFF else Z.shiftr wc 4, v)
  else if fs_type (fs v) =? FS_FAT16 then
    let '(res, v) := move_window (u32 (fatbase (fs v) + clst / (SS / 2))) v in
    if negb (res =? FR_OK) then (DISK_ERROR, v)
    else (ld_word (win (fs v)) (u32 (clst * 2) mod SS), v)
  else if fs_type (fs v) =? FS_FAT32 then
    let '(res, v) := move_window (u32 (fatbase (fs v) + clst / (SS / 4))) v in
    if negb (res =? FR_OK) then (DISK_ERROR, v)
    else (ld_dword (win (fs v)) (u32 (clst * 4) mod SS) .& 0x0FFFFFFF, v)
  else (1, v).

(** Change the window and mark it. *)
Definition edit (g : bytes -> bytes) v : vol D :=
  on_fs (fun f => set_wflag true (set_window (winsect f) (g (win f)) f)) v.

Definition put_fat (clst val : Z) v : Z * vol D :=
  if (2 <=? clst) && (clst <? n_fatent (fs v)) then
    if fs_type (fs v) =? FS_FAT12 then
      let bc := clst + clst / 2 in
      let '(res, v) := fat_window bc v in
      if negb (res =? FR_OK) then (res, v)
      else
        let p := bc mod SS in
        let old := byte_at (win (fs v)) p in
        let v := edit (put_byte p (if clst .& 1 =? 0 then u8 val else (old .& 0x0F) .| Z.shiftl (u8 val) 4)) v in
        let bc := bc + 1 in
        let '(res, v) := fat_window bc v in
        if negb (res =? FR_OK) then (res, v)
        else
          let p := bc mod SS in
          let old := byte_at (win (fs v)) p in
          (FR_OK, edit (put_byte p (if clst .& 1 =? 0 then (old .& 0xF0) .| (u8 (Z.shiftr val 8) .& 0x0F)
                                    else u8 (Z.shiftr val 4))) v)
    else if fs_type (fs v) =? FS_FAT16 then
      let '(res, v) := move_window (u32 (fatbase (fs v) + clst / (SS / 2))) v in
      if negb (res =? FR_OK) then (res, v)
      else (FR_OK, edit (st_word (u32 (clst * 2) mod SS) (u16 val)) v)
    else if fs_type (fs v) =? FS_FAT32 then
      let '(res, v) := move_window (u32 (fatbase (fs v) + clst / (SS / 4))) v in
      if negb (res =? FR_OK) then (res, v)
      else
        let val := (val .& 0x0FFFFFFF) .| (ld_dword (win (fs v)) (u32 (clst * 4) mod SS) .& 0xF0000000) in
        (FR_OK, edit (st_dword (u32 (clst * 4) mod SS) val) v)
    else (FR_INT_ERR, v)
  else (FR_INT_ERR, v).

End Volume.

(** ** Bits and bytes *)

Lemma land_high a m n : 0 <= n -> a .& Z.shiftl m n = Z.shiftl (Z.shiftr a n .& m) n.
Proof.
  intros Hn. apply Z.bits_inj'. intros i Hi. rewrite Z.land_spec, !Z.shiftl_spec by done.
  destruct (Z.ltb_spec i n); [rewrite !(Z.testbit_neg_r _ (i - n)) by lia; apply andb_false_r |].
  rewrite Z.land_spec, Z.shiftr_spec by lia. by replace (i - n + n) with i by lia.
Qed.

Lemma lor_shift a b n : 0 <= n -> 0 <= b < 2 ^ n -> b .| Z.shiftl a n = a * 2 ^ n + b.
Proof. intros Hn Hb. by rewrite Z.lor_comm, shiftl_lor_add. Qed.

Lemma byte_at_range b i : is_bytes b -> 0 <= byte_at b i < 256.
Proof.
  intros Hb. unfold byte_at. destruct (nth_in_or_default (Z.to_nat i) b 0) as [Hin | ->]; [| lia].
  apply (proj1 (list.Forall_forall is_u8 b) Hb). by apply list_elem_of_In.
Qed.

Lemma put_byte_length i x b : length (put_byte i x b) = length b.
Proof. apply length_insert. Qed.

Lemma put_byte_bytes i x b : is_bytes b -> is_bytes (put_byte i x b).
Proof. intros H. apply Forall_insert; [done | apply u8_range]. Qed.

Lemma byte_at_put i j x b :
  0 <= i < Z.of_nat (length b) -> 0 <= j -> byte_at (put_byte i x b) j = if j =? i then u8 x else byte_at b j.
Proof.
  intros Hi Hj. unfold byte_at, put_byte. rewrite !nth_lookup. destruct (Z.eqb_spec j i) as [-> | Hne].
  - rewrite list_lookup_insert_eq by lia. done.
  - rewrite list_lookup_insert_ne by lia. done.
Qed.

Section Disk.
Context {D : Type} {DI : DiskIo D} {SD : SectorDisk D}.
Implicit Types v : vol D.

(** ** Well-formed volumes *)

(** The largest number of entries of each format, and the bytes [n] entries
    take. *)
Definition max_entries (type : Z) : Z :=
  if type =? FS_FAT12 then 0xFF7 else if type =? FS_FAT16 then 0xFFF7 else 0x0FFFFFF7.
Definition table_bytes (type n : Z) : Z :=
  if type =? FS_FAT12 then n + (n + 1) / 2 else if type =? FS_FAT16 then 2 * n else 4 * n.

Record geometry (f : FATFS) : Prop := {
  geo_type : fs_type f = FS_FAT12 \/ fs_type f = FS_FAT16 \/ fs_type f = FS_FAT32;
  geo_fats : n_fats f = 1 \/ n_fats f = 2;
  geo_entries : 3 <= n_fatent f <= max_entries (fs_type f);
  geo_table : table_bytes (fs_type f) (n_fatent f) <= 512 * fsize f;
  geo_info : 0 <= volbase f < fatbase f /\ (fs_type f = FS_FAT32 -> volbase f + 1 < fatbase f);
  geo_base : fatbase f + n_fats f * fsize f <= database f;
  geo_csize : 1 <= csize f;
  geo_size : database f + csize f * (n_fatent f - 2) <= disk_size;
}.

(** The second copy of the table, which nobody reads. *)
Definition mirror (f : FATFS) (s : Z) : Prop := n_fats f = 2 /\ fatbase f + fsize f <= s < fatbase f + 2 * fsize f.

Record good v : Prop := {
  good_geo : geometry (fs v);
  good_disk : disk_ready (dk v);
  good_win : length (win (fs v)) = 512%nat /\ is_bytes (win (fs v));
  good_winsect : 0 <= winsect (fs v) < disk_size /\ ~ mirror (fs v) (winsect (fs v));
  good_clean : wflag (fs v) = false -> win (fs v) = sector (dk v) (winsect (fs v));
}.

(** What the sectors hold, the window included. *)
Definition view v (s : Z) : bytes := if s =? winsect (fs v) then win (fs v) else sector (dk v) s.

(** The second copy of the table is the first, but for a sector of the table
    that is still in the window. *)
Definition mirrored v : Prop := n_fats (fs v) = 2 -> forall s,
  fatbase (fs v) <= s < fatbase (fs v) + fsize (fs v) -> (s = winsect (fs v) /\ wflag (fs v) = true)
  \/ sector (dk v) (s + fsize (fs v)) = sector (dk v) s.

(** Everything but the window. *)
Definition core (f : FATFS) : FATFS := set_window 0 [] (set_wflag false f).

Lemma core_mirror f g s : core f = core g -> mirror f s -> mirror g s.
Proof.
  intros E. unfold mirror. change (n_fats f) with (n_fats (core f)). change (fatbase f) with (fatbase (core f)).
  change (fsize f) with (fsize (core f)). by rewrite E.
Qed.

Lemma core_geometry f g : core f = core g -> geometry f -> geometry g.
Proof.
  intros E [H1 H2 H3 H4 H5 H6 H7 H8].
  assert (forall h, geometry (core h) -> geometry h) as Hh by (intros h [? ? ? ? ? ? ? ?]; by split).
  apply Hh. rewrite <- E. by split.
Qed.

Lemma fsize_pos f : geometry f -> 0 < fsize f.
Proof. intros [_ _ [H3 _] Ht _ _ _ _]. unfold table_bytes in Ht. repeat case_match; divlia. Qed.

(** The window has stayed where it was, or is below the data area. *)
Definition parked v v' : Prop := winsect (fs v') = winsect (fs v) \/ winsect (fs v') < database (fs v).

(** The volume holds the same sectors, and only the window may have moved. *)
Record same v v' : Prop := {
  same_good : good v';
  same_core : core (fs v') = core (fs v);
  same_view s : 0 <= s -> ~ mirror (fs v) s -> view v' s = view v s;
  same_mirrored : mirrored v -> mirrored v';
  same_parked : parked v v';
}.

Lemma same_refl v : good v -> same v v.
Proof. split; try done. by left. Qed.

Lemma parked_trans v1 v2 v3 : database (fs v2) = database (fs v1) -> parked v1 v2 -> parked v2 v3 -> parked v1 v3.
Proof. unfold parked. lia. Qed.

Lemma same_trans v1 v2 v3 : same v1 v2 -> same v2 v3 -> same v1 v3.
Proof.
  intros [G1 C1 V1 M1 P1] [G2 C2 V2 M2 P2]. split; [done | congruence | | auto |].
  - intros s Hs Hm. rewrite V2, V1; try done. intros Hm'. apply Hm. by apply (core_mirror (fs v2)).
  - apply (parked_trans v1 v2 v3); [| done | done]. change (database (core (fs v2)) = database (core (fs v1))). by rewrite C1.
Qed.

(** A field of the structure other than the window. *)
Lemma same_field {A} (p : FATFS -> A) v v' :
  (forall f, p (core f) = p f) -> same v v' -> p (fs v') = p (fs v).
Proof. intros Hp [_ E _ _ _]. by rewrite <- (Hp (fs v')), E, Hp. Qed.

Lemma view_ok v s : good v -> length (view v s) = 512%nat /\ is_bytes (view v s).
Proof. intros [_ Hd [Hl Hb] _ _]. unfold view. case_match; [done | by apply sector_length]. Qed.

(** ** The window moves without changing what is read *)

Lemma sync_window_same v : good v ->
  exists v', sync_window v = (FR_OK, v') /\ same v v' /\ wflag (fs v') = false
    /\ winsect (fs v') = winsect (fs v) /\ win (fs v') = win (fs v).
Proof.
  intros G. pose proof G as [Hg Hd [Hl Hb] [Hw Hm] Hc]. unfold sync_window.
  destruct (wflag (fs v)) eqn:Ef; [| exists v; split; [done |]; split; [by apply same_refl | done]].
  destruct (disk_write_law (win (fs v)) (winsect (fs v)) 1 (dk v) Hd) as (d1 & -> & Hd1 & S1); try done; try lia.
  pose proof Hg as [_ Hf _ Ht Hi Hb0 Hcs Hsz]. pose proof disk_size_u32 as Hu.
  pose proof (fsize_pos _ Hg) as Hfs.
  set (f1 := set_wflag false (fs v)).
  assert (forall i, i <> winsect (fs v) -> sector d1 i = sector (dk v) i) as S1n.
  { intros i Hi'. rewrite S1. replace ((winsect (fs v) <=? i) && (i <? winsect (fs v) + 1)) with false by lia. done. }
  assert (sector d1 (winsect (fs v)) = win (fs v)) as S1w.
  { rewrite S1, Z.leb_refl, (proj2 (Z.ltb_lt _ _)) by lia. cbn [andb]. rewrite Z.sub_diag. cbn [Z.mul Z.to_nat drop].
    apply take_ge. lia. }
  assert (forall d, disk_ready d -> (forall i, ~ mirror (fs v) i -> sector d i = sector d1 i) ->
            (mirrored v -> mirrored (mk_vol f1 d)) -> same v (mk_vol f1 d)) as Hsame.
  { intros d Hrd Hsd Hmd. split; [| done | | done | by left].
    - split; cbn [fs dk]; try done.
      + by apply (core_geometry (fs v)).
      + intros _. change (win f1) with (win (fs v)). change (winsect f1) with (winsect (fs v)). by rewrite Hsd, S1w.
    - intros s Hs Hms. unfold view. cbn [fs dk]. change (winsect f1) with (winsect (fs v)). change (win f1) with (win (fs v)).
      destruct (Z.eqb_spec s (winsect (fs v))); [done |]. rewrite Hsd by done. by apply S1n. }
  destruct ((u32 (winsect f1 - fatbase f1) <? fsize f1) && (n_fats f1 =? 2)) eqn:Em.
  - apply andb_true_iff in Em as [Ew En]. apply Z.ltb_lt in Ew. apply Z.eqb_eq in En.
    change (winsect f1) with (winsect (fs v)) in *. change (fatbase f1) with (fatbase (fs v)) in *.
    change (fsize f1) with (fsize (fs v)) in *. change (n_fats f1) with (n_fats (fs v)) in *. change (win f1) with (win (fs v)).
    assert (fatbase (fs v) <= winsect (fs v) < fatbase (fs v) + fsize (fs v)) as Hin.
    { assert (0 <= csize (fs v) * (n_fatent (fs v) - 2)) by (destruct Hg as [_ _ [? _] _ _ _ _ _]; nia).
      unfold u32 in Ew. destruct (Z.ltb_spec (winsect (fs v)) (fatbase (fs v))).
      - rewrite <- (Z.mod_add _ 1) in Ew by lia. rewrite Z.mod_small in Ew by lia. lia.
      - rewrite Z.mod_small in Ew by lia. lia. }
    assert (0 <= csize (fs v) * (n_fatent (fs v) - 2)) by (destruct Hg as [_ _ [? _] _ _ _ _ _]; nia).
    rewrite u32_id by (unfold is_u32; lia).
    destruct (disk_write_law (win (fs v)) (winsect (fs v) + fsize (fs v)) 1 d1 Hd1) as (d2 & -> & Hd2 & S2); try done; try lia.
    exists (mk_vol f1 d2). split; [done |]. split; [| done].
    assert (forall i, i <> winsect (fs v) + fsize (fs v) -> sector d2 i = sector d1 i) as S2n.
    { intros i Hi'. rewrite S2. destruct (Z.leb_spec (winsect (fs v) + fsize (fs v)) i), (Z.ltb_spec i (winsect (fs v) + fsize (fs v) + 1)); try done. lia. }
    assert (sector d2 (winsect (fs v) + fsize (fs v)) = win (fs v)) as S2w.
    { rewrite S2, Z.leb_refl, (proj2 (Z.ltb_lt _ _)) by lia. cbn [andb]. rewrite Z.sub_diag. cbn [Z.mul Z.to_nat drop].
      apply take_ge. lia. }
    apply Hsame; [done | |].
    + intros i Hi'. apply S2n. intros ->. apply Hi'. split; [done | lia].
    + intros M _ s Hs. right. cbn [fs dk] in *. change (fsize f1) with (fsize (fs v)) in *. change (fatbase f1) with (fatbase (fs v)) in *.
      destruct (Z.eq_dec s (winsect (fs v))) as [-> | Hne]; [by rewrite S2w, S2n, S1w by lia |].
      rewrite !S2n, !S1n by (lia || (intros E0; rewrite <- E0 in Hm; apply Hm; split; [done | lia])).
      by destruct (M En s Hs) as [[? _] |].
  - exists (mk_vol f1 d1). split; [done |]. split; [| done]. apply Hsame; [done | done |].
    intros M En s Hs. right. cbn [fs dk] in *. change (fsize f1) with (fsize (fs v)) in *. change (fatbase f1) with (fatbase (fs v)) in *.
    change (n_fats f1) with (n_fats (fs v)) in *. change (winsect f1) with (winsect (fs v)) in *.
    assert (s <> winsect (fs v)) as Hne.
    { intros ->. rewrite En, u32_id, (proj2 (Z.ltb_lt _ _)) in Em by (unfold is_u32; lia). done. }
    rewrite !S1n by (done || (intros E0; rewrite <- E0 in Hm; apply Hm; split; [done | lia])). by destruct (M En s Hs) as [[? _] |].
Qed.

Lemma move_window_any s v : good v -> 0 <= s < disk_size -> ~ mirror (fs v) s ->
  exists v', move_window s v = (FR_OK, v') /\ good v' /\ core (fs v') = core (fs v) /\ winsect (fs v') = s
    /\ (mirrored v -> mirrored v') /\ forall s', 0 <= s' -> ~ mirror (fs v) s' -> view v' s' = view v s'.
Proof.
  intros G Hs Hm. unfold move_window. destruct (Z.eqb_spec s (winsect (fs v))) as [-> | Hne]; [by exists v |].
  destruct (sync_window_same v G) as (v1 & -> & S1 & Hf & Hws & Hw). change (FR_OK =? FR_OK) with true. cbv iota.
  pose proof S1 as [G1 C1 V1 M1 _]. destruct (disk_read_law s 1 (dk v1)) as (d & -> & Hd & Sd); [apply G1 | lia | lia | lia |].
  change (seqZ s 1) with [0 + s]. change (sector (dk v1) <$> [0 + s]) with [sector (dk v1) (0 + s)].
  cbn [concat]. rewrite app_nil_r, Z.add_0_l.
  set (f := set_window s (sector (dk v1) s) (fs v1)).
  exists (mk_vol f d). split; [done |]. split; [| split; [exact C1 |]; split; [done |]; split].
  - destruct (sector_length (dk v1) s (good_disk v1 G1)). split; cbn [fs dk]; try done.
    + by apply (core_geometry (fs v1)), G1.
    + split; [done |]. intros Hm1. apply Hm. by apply (core_mirror f).
  - intros M En s' Hs'. right. cbn [fs dk] in *. rewrite !Sd. destruct (M1 M En s' Hs') as [[_ Hf'] |]; [| done].
    by rewrite Hf in Hf'.
  - intros s' Hs' Hm'. rewrite <- V1 by done. unfold view. cbn [fs dk]. change (winsect f) with s. change (win f) with (sector (dk v1) s).
    destruct (Z.eqb_spec s' s) as [-> | Hn'].
    + rewrite (proj2 (Z.eqb_neq _ _)); [done | congruence].
    + destruct (Z.eqb_spec s' (winsect (fs v1))) as [-> |]; [| by rewrite Sd].
      rewrite Sd. symmetry. by apply (good_clean v1 G1).
Qed.

Lemma move_window_same s v : good v -> 0 <= s < disk_size -> ~ mirror (fs v) s -> s < database (fs v) ->
  exists v', move_window s v = (FR_OK, v') /\ same v v' /\ winsect (fs v') = s.
Proof.
  intros G Hs Hm Hd. destruct (move_window_any s v G Hs Hm) as (v' & E & G' & C & W & M & V). exists v'. split; [done |].
  split; [| done]. split; try done. right. by rewrite W.
Qed.

Lemma edit_win g v : good v -> length (g (win (fs v))) = 512%nat -> is_bytes (g (win (fs v))) ->
  good (edit g v) /\ core (fs (edit g v)) = core (fs v) /\ (mirrored v -> mirrored (edit g v))
  /\ forall s, view (edit g v) s = if s =? winsect (fs v) then g (win (fs v)) else view v s.
Proof.
  intros [Hg Hd _ Hw Hc] Hgl Hgb. split; [| split; [done |]; split].
  - split; cbn [edit on_fs fs dk]; try done. by apply (core_geometry (fs v)).
  - intros M En s Hs. cbn [edit on_fs fs dk set_wflag set_window winsect wflag] in *.
    destruct (M En s Hs) as [[? _] |]; [left; done | by right].
  - intros s. unfold view. cbn [edit on_fs fs dk set_wflag set_window win winsect]. by destruct (s =? winsect (fs v)).
Qed.

Lemma edit_good g v :
  good v -> (forall b, length (g b) = length b) -> (forall b, is_bytes b -> is_bytes (g b)) ->
  good (edit g v) /\ core (fs (edit g v)) = core (fs v) /\ (mirrored v -> mirrored (edit g v))
  /\ forall s, view (edit g v) s = if s =? winsect (fs v) then g (win (fs v)) else view v s.
Proof. intros G Hgl Hgb. destruct (good_win v G) as [Hl Hb]. apply edit_win; [done | by rewrite Hgl | by apply Hgb]. Qed.

(** ** The table as a string of bytes *)

Definition fat_byte v (i : Z) : Z := byte_at (view v (fatbase (fs v) + i / SS)) (i mod SS).

Definition in_table v (i : Z) : Prop := 0 <= i < 512 * fsize (fs v).

Lemma fat_sector v i : good v -> in_table v i ->
  0 <= fatbase (fs v) + i / SS < disk_size /\ ~ mirror (fs v) (fatbase (fs v) + i / SS)
  /\ u32 (fatbase (fs v) + i / SS) = fatbase (fs v) + i / SS /\ fatbase (fs v) + i / SS < database (fs v).
Proof.
  intros G Hi. pose proof (good_geo v G) as [_ Hf [Hn _] _ [Hv Hv'] Hb Hcs Hsz]. pose proof disk_size_u32 as Hu.
  unfold in_table, SS in *. assert (0 <= i / 512 < fsize (fs v)) as Hq by divlia.
  assert (0 <= csize (fs v) * (n_fatent (fs v) - 2)) by nia.
  split; [nia |]. split; [unfold mirror; lia |]. split; [apply u32_id; unfold is_u32; nia | nia].
Qed.

Lemma fat_byte_range v i : good v -> 0 <= fat_byte v i < 256.
Proof. intros G. apply byte_at_range. by apply view_ok. Qed.

Lemma same_fat_byte v v' i : good v -> same v v' -> in_table v i -> fat_byte v' i = fat_byte v i.
Proof.
  intros G S Hi. unfold fat_byte. rewrite (same_field fatbase v v') by done.
  destruct (fat_sector v i G Hi) as ([H0 _] & Hm & _). by rewrite (same_view _ _ S) by done.
Qed.

Lemma same_in_table v v' i : same v v' -> in_table v i -> in_table v' i.
Proof. intros S. unfold in_table. by rewrite (same_field fsize v v'). Qed.

(** The byte at [i] of the table, with its sector in the window. *)
Lemma fat_move v i : good v -> in_table v i ->
  exists v', move_window (u32 (fatbase (fs v) + i / SS)) v = (FR_OK, v') /\ same v v'
    /\ winsect (fs v') = fatbase (fs v) + i / SS
    /\ forall k, 0 <= k -> i / SS = (i + k) / SS -> byte_at (win (fs v')) (i mod SS + k) = fat_byte v (i + k).
Proof.
  intros G Hi. destruct (fat_sector v i G Hi) as (Hs & Hm & -> & Hdb).
  destruct (move_window_same _ v G Hs Hm Hdb) as (v' & E & S & Hw). exists v'. split; [done |]. split; [done |]. split; [done |].
  intros k Hk Hdiv. unfold fat_byte. rewrite <- Hdiv, <- (same_view _ _ S) by (done || lia). unfold view.
  rewrite Hw, Z.eqb_refl. f_equal. unfold SS in *. divlia.
Qed.

(** A byte of the window changed is that byte of the table changed. *)
Lemma fat_edit v i x : good v -> in_table v i -> winsect (fs v) = fatbase (fs v) + i / SS ->
  let v' := edit (put_byte (i mod SS) x) v in
  good v' /\ core (fs v') = core (fs v) /\ (mirrored v -> mirrored v') /\ winsect (fs v') = winsect (fs v)
  /\ (forall s, s <> winsect (fs v) -> view v' s = view v s)
  /\ forall j, 0 <= j -> fat_byte v' j = if j =? i then u8 x else fat_byte v j.
Proof.
  intros G Hi Hw v'. pose proof (good_win v G) as [Hl Hb].
  destruct (edit_good (put_byte (i mod SS) x) v G) as (G' & C' & M' & V'); [intros; apply put_byte_length | intros; by apply put_byte_bytes |].
  split; [done |]. split; [done |]. split; [done |]. split; [done |]. split.
  - intros s Hs. unfold v'. rewrite V'. by rewrite (proj2 (Z.eqb_neq _ _)).
  - intros j Hj. unfold fat_byte. change (fatbase (fs v')) with (fatbase (fs v)). unfold v'. rewrite V', Hw.
    unfold in_table, SS in *. destruct (Z.eqb_spec (fatbase (fs v) + j / 512) (fatbase (fs v) + i / 512)) as [E | E].
    + rewrite byte_at_put by (rewrite ?Hl; divlia). unfold view. rewrite Hw, E, Z.eqb_refl.
      destruct (Z.eqb_spec (j mod 512) (i mod 512)), (Z.eqb_spec j i); try done; subst; try done; exfalso; divlia.
    + destruct (Z.eqb_spec j i) as [-> |]; [done |]. done.
Qed.

(** ** Entries

    The three formats as functions of the bytes: 12 bits, two entries in three
    bytes; 16 bits; 28 bits of 32. *)
Definition entry12 (fb : Z -> Z) (c : Z) : Z :=
  let w := fb (c + c / 2) + 256 * fb (c + c / 2 + 1) in if Z.even c then w mod 4096 else w / 16.
Definition entry16 (fb : Z -> Z) (c : Z) : Z := fb (2 * c) + 256 * fb (2 * c + 1).
Definition entry32 (fb : Z -> Z) (c : Z) : Z :=
  (fb (4 * c) + 2 ^ 8 * fb (4 * c + 1) + 2 ^ 16 * fb (4 * c + 2) + 2 ^ 24 * fb (4 * c + 3)) mod 2 ^ 28.

Definition entry (type : Z) (fb : Z -> Z) (c : Z) : Z :=
  if type =? FS_FAT12 then entry12 fb c else if type =? FS_FAT16 then entry16 fb c else entry32 fb c.

(** The table the volume stands for, and its value range. *)
Definition table v (c : Z) : Z := entry (fs_type (fs v)) (fat_byte v) c.

Definition valid v (c : Z) : Prop := 2 <= c < n_fatent (fs v).

Definition entry_bits (type : Z) : Z := if type =? FS_FAT12 then 12 else if type =? FS_FAT16 then 16 else 28.

(** The bytes of an entry lie in the table. *)
Lemma entry_in_table v c : good v -> valid v c ->
  (fs_type (fs v) = FS_FAT12 -> in_table v (c + c / 2) /\ in_table v (c + c / 2 + 1)) /\
  (fs_type (fs v) = FS_FAT16 -> in_table v (2 * c) /\ in_table v (2 * c + 1)) /\
  (fs_type (fs v) = FS_FAT32 -> in_table v (4 * c) /\ in_table v (4 * c + 3)).
Proof.
  intros G Hc. pose proof (good_geo v G) as [_ _ _ Ht _ _ _ _]. unfold valid, in_table, table_bytes in *.
  split_and!; intros E; rewrite E in Ht; cbn [Z.eqb Pos.eqb FS_FAT12 FS_FAT16 FS_FAT32] in Ht; divlia.
Qed.

Lemma entry_ext type f g c :
  (type = FS_FAT12 -> f (c + c / 2) = g (c + c / 2) /\ f (c + c / 2 + 1) = g (c + c / 2 + 1)) ->
  (type = FS_FAT16 -> f (2 * c) = g (2 * c) /\ f (2 * c + 1) = g (2 * c + 1)) ->
  (type <> FS_FAT12 -> type <> FS_FAT16 ->
     f (4 * c) = g (4 * c) /\ f (4 * c + 1) = g (4 * c + 1) /\ f (4 * c + 2) = g (4 * c + 2) /\ f (4 * c + 3) = g (4 * c + 3)) ->
  entry type f c = entry type g c.
Proof.
  intros H1 H2 H3. unfold entry. destruct (Z.eqb_spec type FS_FAT12) as [E | E1].
  - destruct (H1 E) as [E1 E2]. unfold entry12. by rewrite E1, E2.
  - destruct (Z.eqb_spec type FS_FAT16) as [E | E2].
    + destruct (H2 E) as [Ea Eb]. unfold entry16. by rewrite Ea, Eb.
    + destruct (H3 E1 E2) as (Ea & Eb & Ec & Ed). unfold entry32. by rewrite Ea, Eb, Ec, Ed.
Qed.

Lemma table_same v v' c : good v -> same v v' -> valid v c -> table v' c = table v c.
Proof.
  intros G S Hc. unfold table. rewrite (same_field fs_type v v') by done.
  destruct (entry_in_table v c G Hc) as (H12 & H16 & H32). apply entry_ext.
  - intros E. destruct (H12 E). by rewrite !(same_fat_byte v v').
  - intros E. destruct (H16 E). by rewrite !(same_fat_byte v v').
  - intros E1 E2. destruct (good_geo v G) as [[? | [? | E]] _ _ _ _ _ _ _]; try done. destruct (H32 E) as [Ha Hb].
    unfold in_table in *. rewrite !(same_fat_byte v v') by (done || (unfold in_table; lia)). done.
Qed.

(** ** Reading an entry *)

Lemma odd_bit c : (c .& 1 =? 0) = Z.even c.
Proof. change 1 with (Z.ones 1). rewrite Z.land_ones by lia. rewrite Zmod_even. by destruct (Z.even c). Qed.

Lemma word_value b i : is_bytes b -> ld_word b i = byte_at b i + 256 * byte_at b (i + 1).
Proof.
  intros Hb. pose proof (byte_at_range b i Hb). unfold ld_word. rewrite shiftl_lor_add by lia. lia.
Qed.

Lemma dword_value b i : is_bytes b ->
  ld_dword b i = byte_at b i + 2 ^ 8 * byte_at b (i + 1) + 2 ^ 16 * byte_at b (i + 2) + 2 ^ 24 * byte_at b (i + 3).
Proof.
  intros Hb. pose proof (byte_at_range b i Hb). pose proof (byte_at_range b (i + 1) Hb). pose proof (byte_at_range b (i + 2) Hb).
  unfold ld_dword. rewrite !shiftl_lor_add by lia. lia.
Qed.

Lemma get_fat_ok c v : good v -> valid v c -> exists v', get_fat c v = (table v c, v') /\ same v v'.
Proof.
  intros G Hc. destruct (entry_in_table v c G Hc) as (H12 & H16 & H32). unfold get_fat, table, entry.
  rewrite (proj2 (Z.ltb_ge c 2)), (proj2 (Z.leb_gt (n_fatent (fs v)) c)) by (unfold valid in Hc; lia). cbn [orb].
  destruct (good_geo v G) as [[E | [E | E]] _ _ _ _ _ _ _]; rewrite E; cbn [Z.eqb Pos.eqb FS_FAT12 FS_FAT16 FS_FAT32].
  - destruct (H12 E) as [I1 I2]. unfold fat_window. destruct (fat_move v _ G I1) as (v1 & -> & S1 & _ & B1).
    change (FR_OK =? FR_OK) with true. cbn [negb].
    destruct (fat_move v1 _ (same_good _ _ S1) (same_in_table _ _ _ S1 I2)) as (v2 & -> & S2 & _ & B2).
    change (FR_OK =? FR_OK) with true. cbn [negb]. exists v2. split; [| by apply (same_trans v v1)]. f_equal.
    specialize (B1 0 ltac:(lia) ltac:(f_equal; lia)). specialize (B2 0 ltac:(lia) ltac:(f_equal; lia)).
    rewrite !Z.add_0_r in B1, B2. rewrite B1, B2, (same_fat_byte v v1) by done.
    pose proof (fat_byte_range v (c + c / 2) G). rewrite lor_shift by lia. unfold entry12. rewrite odd_bit.
    destruct (Z.even c); [change 0xFFF with (Z.ones 12); rewrite Z.land_ones by lia; f_equal; lia |].
    rewrite Z.shiftr_div_pow2 by lia. f_equal. lia.
  - destruct (H16 E) as [I1 I2]. unfold SS.
    replace (c / (512 / 2)) with (2 * c / 512) by (change (512 / 2) with 256; divlia).
    destruct (fat_move v _ G I1) as (v1 & E1 & S1 & _ & B1). unfold SS in E1, B1. rewrite E1.
    change (FR_OK =? FR_OK) with true. cbn [negb]. exists v1. split; [| done]. f_equal.
    rewrite word_value by apply (good_win v1 (same_good _ _ S1)). unfold u32.
    replace ((c * 2) mod 2 ^ 32 mod 512) with (2 * c mod 512) by divlia.
    pose proof (B1 0 ltac:(lia) ltac:(f_equal; lia)) as B0. rewrite !Z.add_0_r in B0. rewrite B0, B1 by divlia. done.
  - destruct (H32 E) as [I1 I2]. unfold SS.
    replace (c / (512 / 4)) with (4 * c / 512) by (change (512 / 4) with 128; divlia).
    destruct (fat_move v _ G I1) as (v1 & E1 & S1 & _ & B1). unfold SS in E1, B1. rewrite E1.
    change (FR_OK =? FR_OK) with true. cbn [negb]. exists v1. split; [| done]. f_equal.
    rewrite dword_value by apply (good_win v1 (same_good _ _ S1)). unfold u32.
    replace ((c * 4) mod 2 ^ 32 mod 512) with (4 * c mod 512) by divlia.
    pose proof (B1 0 ltac:(lia) ltac:(f_equal; lia)) as B0. rewrite !Z.add_0_r in B0. rewrite B0, !B1 by divlia.
    change 0x0FFFFFFF with (Z.ones 28). rewrite Z.land_ones by lia. done.
Qed.

(** ** Writing an entry *)

(** Bytes of the table replaced. *)
Definition patch (i x : Z) (fb : Z -> Z) : Z -> Z := fun j => if j =? i then x else fb j.

Lemma entry12_patch fb c val c' : (forall i, 0 <= fb i < 256) -> 2 <= c -> 2 <= c' ->
  let bc := c + c / 2 in
  let b1 := if Z.even c then val mod 256 else fb bc mod 16 + 16 * (val mod 16) in
  let b2 := if Z.even c then 16 * (fb (bc + 1) / 16) + val / 256 mod 16 else val / 16 mod 256 in
  entry12 (patch (bc + 1) b2 (patch bc b1 fb)) c' = if c' =? c then val mod 4096 else entry12 fb c'.
Proof.
  intros Hb Hc Hc' bc b1 b2. unfold entry12, patch. subst b1 b2 bc.
  destruct (Z.Even_or_Odd c) as [[k ->] | [k ->]]; destruct (Z.Even_or_Odd c') as [[k' ->] | [k' ->]];
    rewrite ?Z.even_even, ?Z.even_odd;
    repeat match goal with |- context [2 * ?z / 2] => replace (2 * z / 2) with z by divlia end;
    repeat match goal with |- context [(2 * ?z + 1) / 2] => replace ((2 * z + 1) / 2) with z by divlia end;
    repeat match goal with
    | |- context [?a =? ?b] => destruct (Z.eqb_spec a b); [try (exfalso; lia) | try (exfalso; lia)]
    end; try done; try (replace k' with k in * by lia).
  - pose proof (Hb (2 * k + k + 1)). divlia.
  - replace (2 * k + 1 + k) with (2 * k + k + 1) by lia. pose proof (Hb (2 * k + k + 1)). divlia.
  - replace (2 * k + 1 + k) with (2 * k + k + 1) by lia. pose proof (Hb (2 * k + k + 1)). pose proof (Hb (2 * k + k)). divlia.
  - pose proof (Hb (2 * k + 1 + k)). divlia.
Qed.

Lemma entry16_patch fb c val c' : 2 <= c -> 2 <= c' ->
  entry16 (patch (2 * c + 1) (val / 256 mod 256) (patch (2 * c) (val mod 256) fb)) c'
  = if c' =? c then val mod 2 ^ 16 else entry16 fb c'.
Proof.
  intros Hc Hc'. unfold entry16, patch.
  repeat match goal with |- context [?a =? ?b] => destruct (Z.eqb_spec a b); try (exfalso; lia) end; try done. divlia.
Qed.

Lemma entry32_patch fb c val c' : 2 <= c -> 2 <= c' ->
  entry32 (patch (4 * c + 3) (val / 2 ^ 24 mod 256) (patch (4 * c + 2) (val / 2 ^ 16 mod 256)
    (patch (4 * c + 1) (val / 256 mod 256) (patch (4 * c) (val mod 256) fb)))) c'
  = if c' =? c then val mod 2 ^ 28 else entry32 fb c'.
Proof.
  intros Hc Hc'. unfold entry32, patch.
  repeat match goal with |- context [?a =? ?b] => destruct (Z.eqb_spec a b); try (exfalso; lia) end; try done. divlia.
Qed.

(** What a change of the table leaves alone: everything but sectors of the
    first table, and what is in the structure besides the window. *)
Record retabled v v' : Prop := {
  ret_good : good v';
  ret_core : core (fs v') = core (fs v);
  ret_view s : 0 <= s -> ~ mirror (fs v) s -> ~ fatbase (fs v) <= s < fatbase (fs v) + fsize (fs v) -> view v' s = view v s;
  ret_mirrored : mirrored v -> mirrored v';
  ret_parked : parked v v';
}.

Lemma same_retabled v v' : same v v' -> retabled v v'.
Proof. intros [? ? ? ? ?]. split; auto. Qed.

Lemma retabled_trans v1 v2 v3 : retabled v1 v2 -> retabled v2 v3 -> retabled v1 v3.
Proof.
  intros [G1 C1 V1 M1 P1] [G2 C2 V2 M2 P2].
  assert (fatbase (fs v2) = fatbase (fs v1) /\ fsize (fs v2) = fsize (fs v1)) as [Eb Es].
  { change (fatbase (fs v2)) with (fatbase (core (fs v2))). change (fsize (fs v2)) with (fsize (core (fs v2))). by rewrite C1. }
  split; [done | congruence | | auto |].
  - intros s Hs Hm Ht. rewrite V2, V1; try done; [| by rewrite Eb, Es]. intros Hm'. apply Hm. by apply (core_mirror (fs v2)).
  - apply (parked_trans v1 v2 v3); [| done | done]. change (database (core (fs v2)) = database (core (fs v1))). by rewrite C1.
Qed.

(** One byte of the table: its sector comes into the window, and it is changed. *)
Lemma patch_byte v i x : good v -> in_table v i ->
  exists v1, move_window (u32 (fatbase (fs v) + i / SS)) v = (FR_OK, v1) /\ same v v1
    /\ winsect (fs v1) = fatbase (fs v1) + i / SS /\ byte_at (win (fs v1)) (i mod SS) = fat_byte v i
    /\ let v' := edit (put_byte (i mod SS) x) v1 in
       retabled v v' /\ forall j, in_table v j -> fat_byte v' j = patch i (u8 x) (fat_byte v) j.
Proof.
  intros G Hi. destruct (fat_move v i G Hi) as (v1 & E & S & Hw & B). exists v1. split; [done |]. split; [done |].
  rewrite (same_field fatbase v v1) by done. split; [done |].
  specialize (B 0 ltac:(lia) ltac:(f_equal; lia)). rewrite !Z.add_0_r in B. split; [done |]. intros v'.
  assert (winsect (fs v1) = fatbase (fs v1) + i / SS) as Hw1 by (by rewrite (same_field fatbase v v1)).
  destruct (fat_edit v1 i x (same_good _ _ S) (same_in_table _ _ _ S Hi) Hw1) as (G' & C' & M' & _ & V' & FB). split.
  - split; [done | | | | exact (same_parked _ _ S)].
    + unfold v'. rewrite C'. apply (same_core _ _ S).
    + intros s Hs Hm Ht. unfold v'. rewrite V'; [by apply (same_view _ _ S) |]. rewrite Hw. intros ->. apply Ht.
      unfold in_table, SS in *. divlia.
    + intros M. by apply M', (same_mirrored _ _ S).
  - intros j Hj. unfold v'. rewrite FB by (unfold in_table in Hj; lia). unfold patch. case_match; [done |].
    by apply (same_fat_byte v v1).
Qed.

(** Consecutive bytes in one sector. *)
Fixpoint put_bytes (i : Z) (xs : list Z) (b : bytes) : bytes :=
  match xs with [] => b | x :: xs => put_bytes (i + 1) xs (put_byte i x b) end.
Fixpoint patches (i : Z) (xs : list Z) (fb : Z -> Z) : Z -> Z :=
  match xs with [] => fb | x :: xs => patches (i + 1) xs (patch i (u8 x) fb) end.

Lemma edit_edit g h v : edit g (edit h v) = edit (fun b => g (h b)) v.
Proof. done. Qed.

Lemma patches_ext xs : forall i f g j, (forall k, 0 <= k -> f k = g k) -> 0 <= j -> patches i xs f j = patches i xs g j.
Proof.
  induction xs as [| x xs IH]; intros i f g j H Hj; [by apply H |]. cbn [patches]. apply IH; [| done].
  intros k Hk. unfold patch. by rewrite H.
Qed.

Lemma fat_edits xs : forall v i, good v -> in_table v (i + Z.of_nat (length xs) - 1) -> 0 <= i ->
  winsect (fs v) = fatbase (fs v) + i / SS -> i mod SS + Z.of_nat (length xs) <= SS -> xs <> [] ->
  let v' := edit (put_bytes (i mod SS) xs) v in
  good v' /\ core (fs v') = core (fs v) /\ (mirrored v -> mirrored v') /\ (forall s, s <> winsect (fs v) -> view v' s = view v s)
  /\ forall j, 0 <= j -> fat_byte v' j = patches i xs (fat_byte v) j.
Proof.
  induction xs as [| x xs IH]; intros v i G Hi H0 Hw Hin Hne v'; [done |].
  cbn [length] in Hi, Hin. assert (in_table v i) as Hi0 by (unfold in_table in *; lia).
  destruct (fat_edit v i x G Hi0 Hw) as (G1 & C1 & M1 & W1 & V1 & F1). set (v1 := edit (put_byte (i mod SS) x) v) in *.
  destruct xs as [| y xs].
  { split; [done |]. split; [done |]. split; [done |]. split; [done |]. intros j Hj. by rewrite F1. }
  assert ((i + 1) / SS = i / SS /\ (i + 1) mod SS = i mod SS + 1) as [Ed Em] by (unfold SS in *; cbn [length] in Hin; divlia).
  destruct (IH v1 (i + 1) G1) as (G2 & C2 & M2 & V2 & F2).
  - unfold in_table in *. change (fsize (fs v1)) with (fsize (fs v)). lia.
  - lia.
  - rewrite Ed. exact Hw.
  - rewrite Em. lia.
  - done.
  - assert (v' = edit (put_bytes ((i + 1) mod SS) (y :: xs)) v1) as -> by (by rewrite Em).
    split; [done |]. split; [congruence |]. split; [auto |]. split.
    + intros s Hs. rewrite V2 by (by rewrite W1). by apply V1.
    + intros j Hj. rewrite F2 by done. change (patches i (x :: y :: xs) (fat_byte v) j) with (patches (i + 1) (y :: xs) (patch i (u8 x) (fat_byte v)) j).
      apply patches_ext; [| done]. intros k Hk. by rewrite F1.
Qed.

(** A word of the table, little endian. *)
Lemma patch_word v i (n : nat) : good v -> in_table v i -> in_table v (i + Z.of_nat n - 1) ->
  i mod SS + Z.of_nat n <= SS -> (0 < n)%nat ->
  exists v1, move_window (u32 (fatbase (fs v) + i / SS)) v = (FR_OK, v1) /\ same v v1
    /\ (forall k, 0 <= k < Z.of_nat n -> byte_at (win (fs v1)) (i mod SS + k) = fat_byte v (i + k))
    /\ forall ys, length ys = n ->
       let v' := edit (put_bytes (i mod SS) ys) v1 in
       retabled v v' /\ forall j, in_table v j -> fat_byte v' j = patches i ys (fat_byte v) j.
Proof.
  intros G Hi Hi2 Hin Hne. destruct (fat_move v i G Hi) as (v1 & E & S & Hw & B). exists v1. split; [done |]. split; [done |]. split.
  { intros k Hk. apply B; [lia |]. unfold SS in *. divlia. }
  intros ys Hl v'. assert (winsect (fs v1) = fatbase (fs v1) + i / SS) as Hw1 by (by rewrite (same_field fatbase v v1)).
  destruct (fat_edits ys v1 i) as (G' & C' & M' & V' & FB); try done.
  - apply (same_good _ _ S).
  - rewrite Hl. by apply (same_in_table v v1).
  - unfold in_table in Hi. lia.
  - by rewrite Hl.
  - intros ->. simpl in Hl. lia.
  - split.
    + split; [done | | | | exact (same_parked _ _ S)].
      * unfold v'. rewrite C'. apply (same_core _ _ S).
      * intros s Hs Hm Ht. unfold v'. rewrite V'; [by apply (same_view _ _ S) |]. rewrite Hw. intros ->. apply Ht.
        unfold in_table, SS in *. divlia.
      * intros M. by apply M', (same_mirrored _ _ S).
    + intros j Hj. unfold v'. rewrite FB by (unfold in_table in Hj; lia).
      assert (forall zs i f g, (forall k, in_table v k -> f k = g k) -> patches i zs f j = patches i zs g j) as Hext.
      { clear -Hj. induction zs as [| z zs IH]; intros i f g H; [by apply H |]. cbn [patches]. apply IH.
        intros k Hk. unfold patch. by rewrite H. }
      apply Hext. intros k Hk. by apply (same_fat_byte v v1).
Qed.

(** Two tables whose bytes agree give the same entries. *)
Lemma table_bytes_eq v v' fb c : good v -> valid v c -> fs_type (fs v') = fs_type (fs v) ->
  (forall j, in_table v j -> fat_byte v' j = fb j) -> table v' c = entry (fs_type (fs v)) fb c.
Proof.
  intros G Hc Ht Hb. unfold table. rewrite Ht. destruct (entry_in_table v c G Hc) as (H12 & H16 & H32). apply entry_ext.
  - intros E. destruct (H12 E). split; by apply Hb.
  - intros E. destruct (H16 E). split; by apply Hb.
  - intros E1 E2. destruct (good_geo v G) as [[? | [? | E]] _ _ _ _ _ _ _]; try done. destruct (H32 E) as [Ha Hz].
    unfold in_table in *. split_and!; apply Hb; lia.
Qed.

Lemma retabled_field {A} (p : FATFS -> A) v v' :
  (forall f, p (core f) = p f) -> retabled v v' -> p (fs v') = p (fs v).
Proof. intros Hp [_ E _ _ _]. by rewrite <- (Hp (fs v')), E, Hp. Qed.

(** [put_fat] is an update of the table, in each format. *)
Definition updates v v' (c val : Z) : Prop := retabled v v' /\
  forall c', valid v c' -> table v' c' = if c' =? c then val mod 2 ^ entry_bits (fs_type (fs v)) else table v c'.

Lemma put_fat12 c val v : good v -> valid v c -> 0 <= val < 2 ^ 32 -> fs_type (fs v) = FS_FAT12 ->
  exists v', put_fat c val v = (FR_OK, v') /\ updates v v' c val.
Proof.
  intros G Hc Hv E. destruct (entry_in_table v c G Hc) as (H12 & _ & _). destruct (H12 E) as [I1 I2]. unfold put_fat.
  rewrite (proj2 (Z.leb_le 2 c)), (proj2 (Z.ltb_lt c (n_fatent (fs v)))) by (unfold valid in Hc; lia). rewrite E.
  cbn [andb Z.eqb Pos.eqb FS_FAT12]. unfold fat_window. set (bc := c + c / 2) in *. rewrite odd_bit.
  pose proof (fun i => fat_byte_range v i G) as HB.
  set (x1 := if Z.even c then val mod 256 else fat_byte v bc mod 16 + 16 * (val mod 16)).
  set (x2 := if Z.even c then 16 * (fat_byte v (bc + 1) / 16) + val / 256 mod 16 else val / 16 mod 256).
  destruct (patch_byte v bc (if Z.even c then u8 val else (fat_byte v bc .& 0x0F) .| Z.shiftl (u8 val) 4) G I1)
    as (v1 & -> & S1 & W1 & B1 & R2 & F2).
  change (FR_OK =? FR_OK) with true. cbn [negb]. rewrite B1.
  set (y1 := if Z.even c then u8 val else _) in *. set (v2 := edit (put_byte (bc mod SS) y1) v1) in *.
  assert (u8 y1 = x1) as Y1.
  { subst y1 x1. destruct (Z.even c); [unfold u8; divlia |]. change 0x0F with (Z.ones 4). rewrite Z.land_ones by lia.
    rewrite lor_shift by (try apply Z.mod_pos_bound; lia). specialize (HB bc). unfold u8. divlia. }
  assert (in_table v2 (bc + 1)) as I2' by (unfold in_table in *; by rewrite (retabled_field fsize v v2)).
  set (y2 := if Z.even c then (fat_byte v2 (bc + 1) .& 0xF0) .| (u8 (Z.shiftr val 8) .& 0x0F) else u8 (Z.shiftr val 4)).
  destruct (patch_byte v2 (bc + 1) y2 (ret_good _ _ R2) I2') as (v3 & -> & S3 & _ & B3 & R4 & F4).
  change (FR_OK =? FR_OK) with true. cbn [negb]. rewrite B3. fold y2.
  exists (edit (put_byte ((bc + 1) mod SS) y2) v3). split; [done |].
  assert (fat_byte v2 (bc + 1) = fat_byte v (bc + 1)) as Eb.
  { rewrite F2 by done. unfold patch. by rewrite (proj2 (Z.eqb_neq _ _)) by lia. }
  assert (u8 y2 = x2) as Y2.
  { subst y2 x2. rewrite Eb. destruct (Z.even c).
    - change 0xF0 with (Z.shiftl (Z.ones 4) 4). rewrite land_high by lia. change 0x0F with (Z.ones 4). rewrite !Z.land_ones by lia.
      rewrite shiftl_lor_add by (try apply Z.mod_pos_bound; lia). rewrite !Z.shiftr_div_pow2 by lia. specialize (HB (bc + 1)). unfold u8. divlia.
    - rewrite Z.shiftr_div_pow2 by lia. unfold u8. divlia. }
  split; [by apply (retabled_trans v v2) |]. intros c' Hc'.
  rewrite (table_bytes_eq v _ (patch (bc + 1) x2 (patch bc x1 (fat_byte v))) c'); try done.
  - rewrite E. unfold entry, table, entry, entry_bits. rewrite E. cbn [Z.eqb Pos.eqb FS_FAT12].
    apply entry12_patch; unfold valid in *; (done || lia).
  - by rewrite (retabled_field fs_type v2 _), (retabled_field fs_type v v2).
  - intros j Hj. rewrite F4 by (unfold in_table in *; by rewrite (retabled_field fsize v v2)).
    unfold patch at 1 2. rewrite Y2. case_match; [done |]. rewrite F2 by done. unfold patch. by rewrite Y1.
Qed.

Lemma put_bytes_word i val b : st_word i val b = put_bytes i [val; Z.shiftr val 8] b.
Proof. done. Qed.
Lemma put_bytes_dword i val b : st_dword i val b = put_bytes i [val; Z.shiftr val 8; Z.shiftr val 16; Z.shiftr val 24] b.
Proof. unfold st_dword. cbn [put_bytes]. replace (i + 1 + 1) with (i + 2) by lia. by replace (i + 2 + 1) with (i + 3) by lia. Qed.

Lemma edit_ext g h v : (forall b, g b = h b) -> edit g v = edit h v.
Proof. intros H. unfold edit, on_fs. by rewrite H. Qed.

Lemma put_fat16 c val v : good v -> valid v c -> 0 <= val < 2 ^ 32 -> fs_type (fs v) = FS_FAT16 ->
  exists v', put_fat c val v = (FR_OK, v') /\ updates v v' c val.
Proof.
  intros G Hc Hv E. destruct (entry_in_table v c G Hc) as (_ & H16 & _). destruct (H16 E) as [I1 I2]. unfold put_fat.
  rewrite (proj2 (Z.leb_le 2 c)), (proj2 (Z.ltb_lt c (n_fatent (fs v)))) by (unfold valid in Hc; lia). rewrite E.
  cbn [andb Z.eqb Pos.eqb FS_FAT12 FS_FAT16].
  replace (c / (SS / 2)) with (2 * c / SS) by (unfold SS; change (512 / 2) with 256; divlia).
  destruct (patch_word v (2 * c) 2 G I1) as (v1 & -> & S1 & _ & P1);
    [by replace (2 * c + Z.of_nat 2 - 1) with (2 * c + 1) by lia | unfold SS; divlia | lia |].
  change (FR_OK =? FR_OK) with true. cbn [negb].
  replace (u32 (c * 2) mod SS) with (2 * c mod SS) by (unfold u32, SS; divlia).
  rewrite (edit_ext _ _ v1 (put_bytes_word (2 * c mod SS) (u16 val))).
  destruct (P1 [u16 val; Z.shiftr (u16 val) 8] eq_refl) as (R & F). eexists. split; [done |]. split; [done |].
  intros c' Hc'. rewrite (table_bytes_eq v _ (patch (2 * c + 1) (val / 256 mod 256) (patch (2 * c) (val mod 256) (fat_byte v))) c'); try done.
  - rewrite E. unfold entry, table, entry, entry_bits. rewrite E. cbn [Z.eqb Pos.eqb FS_FAT12 FS_FAT16].
    apply entry16_patch; unfold valid in *; lia.
  - by rewrite (retabled_field fs_type v _).
  - intros j Hj. rewrite F by done. cbn [patches]. rewrite Z.shiftr_div_pow2 by lia. f_equal; [| f_equal]; unfold u8, u16; divlia.
Qed.

Lemma put_fat32 c val v : good v -> valid v c -> 0 <= val < 2 ^ 32 -> fs_type (fs v) = FS_FAT32 ->
  exists v', put_fat c val v = (FR_OK, v') /\ updates v v' c val.
Proof.
  intros G Hc Hv E. destruct (entry_in_table v c G Hc) as (_ & _ & H32). destruct (H32 E) as [I1 I2]. unfold put_fat.
  rewrite (proj2 (Z.leb_le 2 c)), (proj2 (Z.ltb_lt c (n_fatent (fs v)))) by (unfold valid in Hc; lia). rewrite E.
  cbn [andb Z.eqb Pos.eqb FS_FAT12 FS_FAT16 FS_FAT32].
  replace (c / (SS / 4)) with (4 * c / SS) by (unfold SS; change (512 / 4) with 128; divlia).
  destruct (patch_word v (4 * c) 4 G I1) as (v1 & -> & S1 & _ & P1);
    [by replace (4 * c + Z.of_nat 4 - 1) with (4 * c + 3) by lia | unfold SS; divlia | lia |].
  change (FR_OK =? FR_OK) with true. cbn [negb].
  replace (u32 (c * 4) mod SS) with (4 * c mod SS) by (unfold u32, SS; divlia).
  set (old := ld_dword _ _). set (w := (val .& 0x0FFFFFFF) .| (old .& 0xF0000000)).
  assert (exists h, w = val mod 2 ^ 28 + 2 ^ 28 * h) as (h & Hw).
  { exists (Z.shiftr old 28 .& Z.ones 4). subst w. change 0x0FFFFFFF with (Z.ones 28). change 0xF0000000 with (Z.shiftl (Z.ones 4) 28).
    rewrite land_high, Z.land_ones by lia. rewrite lor_shift by (try apply Z.mod_pos_bound; lia). lia. }
  rewrite (edit_ext _ _ v1 (put_bytes_dword (4 * c mod SS) w)).
  destruct (P1 [w; Z.shiftr w 8; Z.shiftr w 16; Z.shiftr w 24] eq_refl) as (R & F). eexists. split; [done |]. split; [done |].
  intros c' Hc'.
  rewrite (table_bytes_eq v _ (patch (4 * c + 3) (w / 2 ^ 24 mod 256) (patch (4 * c + 2) (w / 2 ^ 16 mod 256)
             (patch (4 * c + 1) (w / 256 mod 256) (patch (4 * c) (w mod 256) (fat_byte v))))) c'); try done.
  - rewrite E. unfold entry, table, entry, entry_bits. rewrite E. cbn [Z.eqb Pos.eqb FS_FAT12 FS_FAT16 FS_FAT32].
    rewrite entry32_patch by (unfold valid in *; lia). case_match; [| done]. rewrite Hw. divlia.
  - by rewrite (retabled_field fs_type v _).
  - intros j Hj. rewrite F by done. cbn [patches]. rewrite !Z.shiftr_div_pow2 by lia.
    replace (4 * c + 1 + 1) with (4 * c + 2) by lia. by replace (4 * c + 2 + 1) with (4 * c + 3) by lia.
Qed.

Lemma put_fat_ok c val v : good v -> valid v c -> 0 <= val < 2 ^ 32 ->
  exists v', put_fat c val v = (FR_OK, v') /\ updates v v' c val.
Proof.
  intros G Hc Hv. destruct (good_geo v G) as [[E | [E | E]] _ _ _ _ _ _ _].
  - by apply put_fat12.
  - by apply put_fat16.
  - by apply put_fat32.
Qed.

(** ** The volume at large

    What every operation on the table keeps: a well-formed volume with the same
    geometry, the data area, and the agreement of the two copies of the table.
    The FSINFO fields may change. *)
Definition layout (f : FATFS) : FATFS := set_fsinfo 0 0 0 (core f).

(** The first sector behind the tables: the root directory, or the data area. *)
Definition table_end (f : FATFS) : Z := fatbase f + n_fats f * fsize f.

Record kept v v' : Prop := {
  kept_good : good v';
  kept_layout : layout (fs v') = layout (fs v);
  kept_view s : table_end (fs v) <= s -> view v' s = view v s;
  kept_mirrored : mirrored v -> mirrored v';
  kept_parked : parked v v';
}.

Lemma kept_refl v : good v -> kept v v.
Proof. split; try done. by left. Qed.

Lemma kept_field {A} (p : FATFS -> A) v v' : (forall f, p (layout f) = p f) -> kept v v' -> p (fs v') = p (fs v).
Proof. intros Hp [_ E _ _ _]. by rewrite <- (Hp (fs v')), E, Hp. Qed.

Lemma kept_trans v1 v2 v3 : kept v1 v2 -> kept v2 v3 -> kept v1 v3.
Proof.
  intros K1 K2. pose proof (kept_field database _ _ ltac:(done) K1) as Hd. pose proof (kept_field table_end _ _ ltac:(done) K1) as He.
  destruct K1 as [G1 C1 V1 M1 P1], K2 as [G2 C2 V2 M2 P2]. split; [done | congruence | | auto | by apply (parked_trans v1 v2 v3)].
  intros s Hs. by rewrite V2, V1 by (rewrite ?He; done).
Qed.

Lemma retabled_kept v v' : good v -> retabled v v' -> kept v v'.
Proof.
  intros G [G' C V M P]. pose proof (fsize_pos _ (good_geo v G)). destruct (good_geo v G) as [_ Hf [Hn _] _ Hi Hb _ _]. split; [done | by unfold layout; rewrite C | | done | done].
  intros s Hs. unfold table_end in Hs. apply V; [| unfold mirror |]; destruct Hf as [Hf | Hf]; rewrite Hf in *; lia.
Qed.

Lemma same_kept v v' : good v -> same v v' -> kept v v'.
Proof. intros G S. by apply retabled_kept, same_retabled. Qed.

Lemma kept_valid v v' c : kept v v' -> valid v' c <-> valid v c.
Proof. intros K. unfold valid. by rewrite (kept_field n_fatent v v'). Qed.

(** The FSINFO fields are in nobody's way. *)
Lemma fsinfo_kept a b c v : good v -> kept v (on_fs (set_fsinfo a b c) v).
Proof.
  intros [Hg Hd Hw Hws Hc]. split; try done; [| by left]. split; try done. by destruct Hg as [? ? ? ? ? ? ? ?].
Qed.

Lemma fsinfo_table a b c v i : table (on_fs (set_fsinfo a b c) v) i = table v i.
Proof. done. Qed.

(** ** Flushing *)

Lemma fsinfo_sector_ok f : length (fsinfo_sector f) = 512%nat /\ is_bytes (fsinfo_sector f).
Proof.
  unfold fsinfo_sector, st_dword, st_word. split.
  - rewrite !put_byte_length. apply length_replicate.
  - repeat apply put_byte_bytes. apply Forall_replicate. unfold is_u8. lia.
Qed.

Lemma clean_view v s : good v -> wflag (fs v) = false -> view v s = sector (dk v) s.
Proof. intros G Hf. unfold view. case_match eqn:E; [| done]. apply Z.eqb_eq in E as ->. by apply (good_clean v G). Qed.

(** The FSINFO sector goes out through the window. *)
Lemma write_fsinfo_ok v : good v -> wflag (fs v) = false -> fs_type (fs v) = FS_FAT32 ->
  let f := set_window (u32 (volbase (fs v) + 1)) (fsinfo_sector (fs v)) (fs v) in
  exists d, disk_write (win f) (winsect f) 1 (dk v) = (true, d) /\ good (mk_vol f d)
    /\ (mirrored v -> mirrored (mk_vol f d)) /\ u32 (volbase (fs v) + 1) < fatbase (fs v)
    /\ forall s, s <> volbase (fs v) + 1 -> view (mk_vol f d) s = view v s.
Proof.
  intros G Hf Ht f. pose proof G as [Hg Hd [Hl Hb] [Hw Hm] Hc]. pose proof Hg as [_ Hfa [Hn _] _ [Hv Hv'] Hbase Hcs Hsz].
  specialize (Hv' Ht). pose proof disk_size_u32 as Hu. destruct (fsinfo_sector_ok (fs v)) as [Fl Fb].
  assert (0 <= csize (fs v) * (n_fatent (fs v) - 2)) by nia.
  pose proof (fsize_pos _ Hg) as Hfs.
  assert (u32 (volbase (fs v) + 1) = volbase (fs v) + 1) as E by (apply u32_id; unfold is_u32; nia).
  change (winsect f) with (u32 (volbase (fs v) + 1)). change (win f) with (fsinfo_sector (fs v)). rewrite E.
  destruct (disk_write_law (fsinfo_sector (fs v)) (volbase (fs v) + 1) 1 (dk v) Hd) as (d & Ew & Hd' & S); try done; try nia.
  assert (forall i, i <> volbase (fs v) + 1 -> sector d i = sector (dk v) i) as Sn.
  { intros i Hi. rewrite S. replace ((volbase (fs v) + 1 <=? i) && (i <? volbase (fs v) + 1 + 1)) with false by lia. done. }
  exists d. split; [done |]. split; [| split; [| split]].
  - split; cbn [fs dk]; try done.
    + by apply (core_geometry (fs v)).
    + change (winsect f) with (u32 (volbase (fs v) + 1)). rewrite E. split; [nia |]. intros [_ Hmm].
      change (fatbase f) with (fatbase (fs v)) in Hmm. change (fsize f) with (fsize (fs v)) in Hmm. lia.
    + intros _. change (winsect f) with (u32 (volbase (fs v) + 1)). change (win f) with (fsinfo_sector (fs v)).
      rewrite E, S, Z.leb_refl, (proj2 (Z.ltb_lt _ _)) by lia. cbn [andb]. rewrite Z.sub_diag. cbn [Z.mul Z.to_nat drop].
      symmetry. apply take_ge. lia.
  - intros M En s Hs. right. cbn [fs dk] in *. change (fsize f) with (fsize (fs v)) in *. change (fatbase f) with (fatbase (fs v)) in *.
    rewrite !Sn by lia. destruct (M En s Hs) as [[_ Hf'] |]; [congruence | done].
  - lia.
  - intros s Hs. rewrite (clean_view v) by done. unfold view. cbn [fs dk]. change (winsect f) with (u32 (volbase (fs v) + 1)).
    rewrite E, (proj2 (Z.eqb_neq _ _)) by done. by apply Sn.
Qed.

Lemma swap_disk v d : good v -> disk_ready d -> (forall i, sector d i = sector (dk v) i) ->
  good (mk_vol (fs v) d) /\ (mirrored v -> mirrored (mk_vol (fs v) d)) /\ forall s, view (mk_vol (fs v) d) s = view v s.
Proof.
  intros [Hg Hd Hw Hws Hc] Hd' S. split; [split; try done |].
  - cbn [fs dk]. intros Hf. rewrite S. by apply Hc.
  - split; [intros M En s Hs | intros s]; [cbn [fs dk] in *; rewrite !S; by apply M |].
    unfold view. cbn [fs dk]. by rewrite S.
Qed.

(** Views that agree on the table give the same entries. *)
Lemma table_views v v' c : good v -> valid v c -> layout (fs v') = layout (fs v) ->
  (forall s, fatbase (fs v) <= s < fatbase (fs v) + fsize (fs v) -> view v' s = view v s) -> table v' c = table v c.
Proof.
  intros G Hc El V. unfold table at 2.
  assert (fs_type (fs v') = fs_type (fs v)) as Et by (change (fs_type (layout (fs v')) = fs_type (layout (fs v))); by rewrite El).
  assert (fatbase (fs v') = fatbase (fs v)) as Eb by (change (fatbase (layout (fs v')) = fatbase (layout (fs v))); by rewrite El).
  apply table_bytes_eq; try done. intros j Hj. unfold fat_byte. rewrite Eb, V; [done |].
  unfold in_table, SS in *. divlia.
Qed.

Lemma write_fsinfo_kept v : good v -> wflag (fs v) = false ->
  good (write_fsinfo v) /\ layout (fs (write_fsinfo v)) = layout (fs v) /\ wflag (fs (write_fsinfo v)) = false
  /\ (mirrored v -> mirrored (write_fsinfo v))
  /\ (winsect (fs (write_fsinfo v)) = winsect (fs v) \/ winsect (fs (write_fsinfo v)) < fatbase (fs v))
  /\ forall s, s <> volbase (fs v) + 1 \/ fs_type (fs v) <> FS_FAT32 -> view (write_fsinfo v) s = view v s.
Proof.
  intros G Hf. unfold write_fsinfo. case_match eqn:Ec; [| split_and!; (done || by left)].
  apply andb_true_iff in Ec as [Ec _]. apply Z.eqb_eq in Ec. destruct (write_fsinfo_ok v G Hf Ec) as (d & E & G2 & M2 & W2 & V2). rewrite E.
  destruct (fsinfo_kept 0 (last_clst (fs v)) (free_clst (fs v)) _ G2) as [G3 _ _ M3 _].
  split; [exact G3 |]. split; [done |]. split; [done |]. split; [intros M; by apply M3, M2 |]. split; [right; exact W2 |].
  intros s [Hs | ?]; [| done]. by apply (V2 s).
Qed.

Lemma sync_fs_ok v : good v ->
  exists v', sync_fs v = (FR_OK, v') /\ kept v v' /\ wflag (fs v') = false /\ forall c, valid v c -> table v' c = table v c.
Proof.
  intros G. unfold sync_fs. destruct (sync_window_same v G) as (v1 & -> & S1 & Hf & _ & _). change (FR_OK =? FR_OK) with true. cbv iota.
  pose proof S1 as [G1 C1 V1 M1 P1].
  destruct (write_fsinfo_kept v1 G1 Hf) as (G2 & L2 & F2 & M2 & W2 & V2). set (v2 := write_fsinfo v1) in *.
  destruct (disk_sync_law (dk v2) (good_disk v2 G2)) as (d & -> & Hd & Sd).
  destruct (swap_disk v2 d G2 Hd Sd) as (G3 & M3 & V3). exists (mk_vol (fs v2) d). split; [done |].
  assert (volbase (fs v1) = volbase (fs v)) as Ev by (by apply same_field).
  pose proof (good_geo v G) as [_ Hfa [Hn _] _ [Hv Hv'] Hbase Hcs Hsz].
  assert (forall s, fatbase (fs v) <= s -> ~ mirror (fs v) s -> view (mk_vol (fs v2) d) s = view v s) as V.
  { intros s Hs Hm. rewrite V3, V2; [apply V1; [lia | done] |]. rewrite Ev, (same_field fs_type v v1) by done.
    destruct (Z.eq_dec (fs_type (fs v)) FS_FAT32) as [Et |]; [left; specialize (Hv' Et); lia | by right]. }
  split; [split; [done | | | auto |] |].
  - cbn [fs]. rewrite L2. unfold layout. by rewrite C1.
  - intros s Hs. unfold table_end in Hs. pose proof (fsize_pos _ (good_geo v G)). apply V; [| unfold mirror]; destruct Hfa as [Hfa | Hfa]; rewrite Hfa in *; lia.
  - apply (parked_trans v v1); [by apply same_field | done |]. pose proof (fsize_pos _ (good_geo v G)).
    unfold parked. cbn [fs]. destruct W2 as [W2 | W2]; [by left | right].
    rewrite (same_field fatbase v v1) in W2 by done. rewrite (same_field database v v1) by done. destruct Hfa as [Hfa | Hfa]; rewrite Hfa in *; lia.
  - split; [done |]. intros c Hc. apply table_views; [done | done | |].
    + cbn [fs]. rewrite L2. unfold layout. by rewrite C1.
    + intros s Hs. apply V; [| unfold mirror]; lia.
Qed.

(** ** Values of entries *)

Lemma table_range v c : good v -> 0 <= table v c < 2 ^ entry_bits (fs_type (fs v)).
Proof.
  intros G. pose proof (fun i => fat_byte_range v i G) as B. unfold table, entry, entry_bits.
  destruct (fs_type (fs v) =? FS_FAT12); [| destruct (fs_type (fs v) =? FS_FAT16)].
  - unfold entry12. pose proof (B (c + c / 2)). pose proof (B (c + c / 2 + 1)). destruct (Z.even c); divlia.
  - unfold entry16. pose proof (B (2 * c)). pose proof (B (2 * c + 1)). lia.
  - unfold entry32. apply Z.mod_pos_bound. lia.
Qed.

Lemma entry_bits_range v : good v -> 12 <= entry_bits (fs_type (fs v)) <= 28 /\ n_fatent (fs v) <= 2 ^ entry_bits (fs_type (fs v)) - 9.
Proof.
  intros G. destruct (good_geo v G) as [_ _ [_ Hn] _ _ _ _ _]. unfold max_entries, entry_bits in *.
  destruct (fs_type (fs v) =? FS_FAT12); [lia |]. destruct (fs_type (fs v) =? FS_FAT16); lia.
Qed.

Lemma table_not_error v c : good v -> table v c <> DISK_ERROR /\ table v c < 2 ^ 28.
Proof.
  intros G. destruct (table_range v c G) as [_ H]. destruct (entry_bits_range v G) as [Hb _].
  pose proof (Z.pow_le_mono_r 2 (entry_bits (fs_type (fs v))) 28). unfold DISK_ERROR. lia.
Qed.

Definition eoc v : Z := 2 ^ entry_bits (fs_type (fs v)) - 1.

Lemma eoc_value v : good v -> 0xFFFFFFFF mod 2 ^ entry_bits (fs_type (fs v)) = eoc v /\ n_fatent (fs v) <= eoc v.
Proof.
  intros G. destruct (entry_bits_range v G) as [_ Hn]. unfold eoc. split; [| lia]. unfold entry_bits.
  destruct (fs_type (fs v) =? FS_FAT12); [done |]. by destruct (fs_type (fs v) =? FS_FAT16).
Qed.

Lemma small_value v x : good v -> 0 <= x < n_fatent (fs v) -> x mod 2 ^ entry_bits (fs_type (fs v)) = x.
Proof. intros G Hx. destruct (entry_bits_range v G) as [_ Hn]. apply Z.mod_small. lia. Qed.

(** [put_fat] with the value as it will be read, and what it keeps. *)
Lemma put_fat_kept c val v x : good v -> valid v c -> 0 <= val < 2 ^ 32 -> val mod 2 ^ entry_bits (fs_type (fs v)) = x ->
  exists v', put_fat c val v = (FR_OK, v') /\ kept v v' /\ core (fs v') = core (fs v)
    /\ forall c', valid v c' -> table v' c' = if c' =? c then x else table v c'.
Proof.
  intros G Hc Hv <-. destruct (put_fat_ok c val v G Hc Hv) as (v' & E & R & T). exists v'. split; [done |].
  split; [by apply retabled_kept |]. split; [apply (ret_core _ _ R) | exact T].
Qed.

Lemma get_fat_kept c v : good v -> valid v c ->
  exists v', get_fat c v = (table v c, v') /\ kept v v' /\ core (fs v') = core (fs v)
    /\ forall c', valid v c' -> table v' c' = table v c'.
Proof.
  intros G Hc. destruct (get_fat_ok c v G Hc) as (v' & E & S). exists v'. split; [done |].
  split; [by apply same_kept |]. split; [apply (same_core _ _ S) |]. intros c' Hc'. by apply table_same.
Qed.

Lemma core_free f g : core f = core g -> free_clst f = free_clst g /\ last_clst f = last_clst g.
Proof. intros E. change (free_clst (core f) = free_clst (core g) /\ last_clst (core f) = last_clst (core g)). by rewrite E. Qed.

(** ** The table as a store of numbers

    Operations on the table, and what they mean for a function from clusters to
    numbers. *)
Inductive fat_op := Get (c : Z) | Put (c val : Z) | Sync.

Definition exec (o : fat_op) v : Z * vol D :=
  match o with Get c => get_fat c v | Put c val => put_fat c val v | Sync => sync_fs v end.

Fixpoint run (ops : list fat_op) v : list Z * vol D :=
  match ops with
  | [] => ([], v)
  | o :: ops => let '(r, v) := exec o v in let '(rs, v) := run ops v in (r :: rs, v)
  end.

Definition spec (n bits : Z) (o : fat_op) (t : Z -> Z) : Z * (Z -> Z) :=
  match o with
  | Get c => (if (2 <=? c) && (c <? n) then t c else 1, t)
  | Put c val => if (2 <=? c) && (c <? n) then (FR_OK, fun c' => if c' =? c then val mod 2 ^ bits else t c')
                 else (FR_INT_ERR, t)
  | Sync => (FR_OK, t)
  end.

Fixpoint spec_run (n bits : Z) (ops : list fat_op) (t : Z -> Z) : list Z * (Z -> Z) :=
  match ops with
  | [] => ([], t)
  | o :: ops => let '(r, t) := spec n bits o t in let '(rs, t) := spec_run n bits ops t in (r :: rs, t)
  end.

Definition op_ok (o : fat_op) : Prop := match o with Put _ val => 0 <= val < 2 ^ 32 | _ => True end.

(** The entry in a copy of the table on the disk, the window not looked at. *)
Definition fat_copy v (k c : Z) : Z :=
  entry (fs_type (fs v)) (fun i => byte_at (sector (dk v) (fatbase (fs v) + k * fsize (fs v) + i / SS)) (i mod SS)) c.

Lemma exec_refines o v t : good v -> op_ok o -> (forall c, valid v c -> table v c = t c) ->
  exists v', exec o v = ((spec (n_fatent (fs v)) (entry_bits (fs_type (fs v))) o t).1, v') /\ kept v v'
    /\ forall c, valid v c -> table v' c = (spec (n_fatent (fs v)) (entry_bits (fs_type (fs v))) o t).2 c.
Proof.
  intros G Ho Ht. destruct o as [c | c val |]; cbn [exec spec].
  - destruct ((2 <=? c) && (c <? n_fatent (fs v))) eqn:E.
    + apply andb_true_iff in E as [E1%Z.leb_le E2%Z.ltb_lt]. assert (valid v c) as Hc by done.
      destruct (get_fat_kept c v G Hc) as (v' & -> & K & _ & T). exists v'. rewrite (Ht c Hc). split; [done |]. split; [done |].
      intros c' Hc'. rewrite T by done. by apply Ht.
    + exists v. split; [| split; [by apply kept_refl | done]]. unfold get_fat.
      replace ((c <? 2) || (n_fatent (fs v) <=? c)) with true by lia. done.
  - unfold op_ok in Ho. destruct ((2 <=? c) && (c <? n_fatent (fs v))) eqn:E.
    + pose proof E as [E1%Z.leb_le E2%Z.ltb_lt]%andb_true_iff. assert (valid v c) as Hc by done.
      destruct (put_fat_kept c val v _ G Hc Ho eq_refl) as (v' & -> & K & _ & T). exists v'. split; [done |]. split; [done |].
      intros c' Hc'. rewrite T by done. cbn [snd]. case_match; [done |]. by apply Ht.
    + exists v. split; [| split; [by apply kept_refl | done]]. unfold put_fat. by rewrite E.
  - destruct (sync_fs_ok v G) as (v' & -> & K & _ & T). exists v'. split; [done |]. split; [done |].
    intros c' Hc'. rewrite T by done. by apply Ht.
Qed.

Lemma run_refines ops : forall v t, good v -> Forall op_ok ops -> (forall c, valid v c -> table v c = t c) ->
  exists v', run ops v = ((spec_run (n_fatent (fs v)) (entry_bits (fs_type (fs v))) ops t).1, v') /\ kept v v'
    /\ forall c, valid v c -> table v' c = (spec_run (n_fatent (fs v)) (entry_bits (fs_type (fs v))) ops t).2 c.
Proof.
  induction ops as [| o ops IH]; intros v t G Ho Ht; [exists v; split; [done |]; split; [by apply kept_refl | done] |].
  apply list.Forall_cons in Ho as [Ho Hops]. cbn [run spec_run]. destruct (exec_refines o v t G Ho Ht) as (v1 & -> & K1 & T1).
  destruct (spec _ _ o t) as [r t1]. cbn [fst snd] in *.
  destruct (IH v1 t1 (kept_good _ _ K1) Hops) as (v2 & E2 & K2 & T2); [intros c Hc; by apply T1, (kept_valid v v1) |].
  rewrite (kept_field n_fatent v v1), (kept_field fs_type v v1) in E2, T2 by done. rewrite E2.
  destruct (spec_run _ _ ops t1) as [rs t2]. exists v2. split; [done |]. split; [by apply (kept_trans v v1) |].
  intros c Hc. by apply T2, (kept_valid v v1).
Qed.

Lemma copies_agree v k c : good v -> mirrored v -> wflag (fs v) = false -> 0 <= k < n_fats (fs v) -> valid v c ->
  fat_copy v k c = table v c.
Proof.
  intros G M Hf Hk Hc. unfold fat_copy, table.
  assert (forall i, in_table v i -> byte_at (sector (dk v) (fatbase (fs v) + k * fsize (fs v) + i / SS)) (i mod SS) = fat_byte v i) as B.
  { intros i Hi. unfold fat_byte. rewrite clean_view by done. f_equal. destruct (good_geo v G) as [_ Hfa _ _ _ _ _ _].
    assert (k = 0 \/ (k = 1 /\ n_fats (fs v) = 2)) as [-> | [-> E]] by lia; [f_equal; lia |].
    destruct (M E (fatbase (fs v) + i / SS)) as [[_ ?] | <-]; [unfold in_table, SS in *; divlia | congruence | f_equal; lia]. }
  destruct (entry_in_table v c G Hc) as (H12 & H16 & H32). apply entry_ext.
  - intros E. destruct (H12 E). split; by apply B.
  - intros E. destruct (H16 E). split; by apply B.
  - intros E1 E2. destruct (good_geo v G) as [[? | [? | E]] _ _ _ _ _ _ _]; try done. destruct (H32 E) as [Ha Hz].
    unfold in_table in *. split_and!; apply B; unfold in_table; lia.
Qed.

(** C5: The file allocation table behaves as a store of numbers, whatever the
    format (FAT12 with entries across two sectors, FAT16, FAT32): a sequence of
    reads, writes and flushes, with a flush at the end, gives the results of the
    same sequence on a function from clusters to numbers, clusters out of range
    being refused; at the end every copy of the table on the disk holds that
    function, and the data area is as it was. *)
Theorem fat_refines ops v : good v -> mirrored v -> Forall op_ok ops ->
  let '(rs, t) := spec_run (n_fatent (fs v)) (entry_bits (fs_type (fs v))) ops (table v) in
  exists v', run (ops ++ [Sync]) v = (rs ++ [FR_OK], v')
    /\ (forall k c, 0 <= k < n_fats (fs v) -> valid v c -> fat_copy v' k c = t c)
    /\ forall s, database (fs v) <= s -> sector (dk v') s = view v s.
Proof.
  intros G M Ho. destruct (run_refines ops v (table v) G Ho) as (v1 & E1 & K1 & T1); [done |].
  destruct (spec_run _ _ ops (table v)) as [rs t]. cbn [fst snd] in *.
  destruct (sync_fs_ok v1 (kept_good _ _ K1)) as (v2 & E2 & K2 & F2 & T2).
  pose proof (kept_trans _ _ _ K1 K2) as K. exists v2.
  assert (forall ops2 v0 v0' rs0, run ops2 v0 = (rs0, v0') -> exec Sync v0' = (FR_OK, v2) -> run (ops2 ++ [Sync]) v0 = (rs0 ++ [FR_OK], v2)) as Hrun.
  { clear. induction ops2 as [| o ops2 IH]; intros v0 v0' rs0 E Es; cbn [app run] in *; [simplify_eq; by rewrite Es |].
    destruct (exec o v0) as [r w]. destruct (run ops2 w) as [rs w'] eqn:Er. simplify_eq. by rewrite (IH w v0' rs). }
  split; [by apply (Hrun _ _ v1) |]. split.
  - intros k c Hk Hc. rewrite copies_agree.
    + rewrite T2 by (by apply (kept_valid v v1)). by apply T1.
    + apply K.
    + by apply (kept_mirrored _ _ K).
    + done.
    + by rewrite (kept_field n_fats v v2).
    + by apply (kept_valid v v2).
  - intros s Hs. rewrite <- clean_view by (done || apply K). apply (kept_view _ _ K).
    destruct (good_geo v G). unfold table_end. lia.
Qed.

End Disk.

(** ** A disk in memory, on which the theorems are tried *)

#[global] Instance ram_io : DiskIo (Z -> bytes) := {
  disk_read s n d := (true, concat (d <$> seqZ s n), d);
  disk_write b s n d := (true, fun i => if (s <=? i) && (i <? s + n) then take 512 (drop (Z.to_nat (512 * (i - s))) b) else d i);
  disk_sync d := (true, d);
  disk_status _ := 0;
}.

#[global, refine] Instance ram_disk : SectorDisk (Z -> bytes) := {
  disk_ready d := forall s, length (d s) = 512%nat /\ is_bytes (d s);
  disk_size := 1000;
  sector d := d;
}.
Proof.
  - intros d s H. apply H.
  - lia.
  - intros s n d H _ _ _. by exists d.
  - intros b s n d H H0 H1 H2 Hl Hb. eexists. split; [done |]. split; [| done]. intros i.
    destruct ((s <=? i) && (i <? s + n)) eqn:E; [| done]. apply andb_true_iff in E. split.
    + rewrite length_take, length_drop. lia.
    + by apply Forall_take, Forall_drop.
  - intros d H. by exists d.
  - done.
Defined.

(** A small FAT12 volume with two copies of the table: one file in the clusters
    2 and 3, everything else free; the entry of cluster 341 lies across two
    sectors. *)
Definition ram_fat : bytes := [0xF8; 0xFF; 0xFF; 0x03; 0xF0; 0xFF] ++ replicate 506 0.
Definition ram_sectors (s : Z) : bytes := if (s =? 1) || (s =? 3) then ram_fat else replicate 512 0.
Definition ram_vol : vol (Z -> bytes) := mk_vol
  {| fs_type := FS_FAT12; n_fats := 2; wflag := false; fsi_flag := 0; fs_id := 1; n_rootdir := 80; csize := 1; last_clst := 3; free_clst := 396;
     n_fatent := 400; fsize := 2; volbase := 0; fatbase := 1; dirbase := 5; database := 10; winsect := 0; win := replicate 512 0 |} ram_sectors.

Lemma ram_good : good ram_vol.
Proof.
  assert (forall s, length (ram_sectors s) = 512%nat /\ is_bytes (ram_sectors s)) as Hs.
  { intros s. unfold ram_sectors. case_match; (split; [done |]); apply (bool_decide_unpack _); vm_compute; exact I. }
  split.
  - split; cbn; try lia; [divlia | split; [lia | discriminate]].
  - exact Hs.
  - apply (Hs 0).
  - cbn. split; [lia |]. unfold mirror. cbn. lia.
  - done.
Qed.

Lemma ram_mirrored : mirrored ram_vol.
Proof. intros _ s Hs. cbn in Hs. right. assert (s = 1 \/ s = 2) as [-> | ->] by lia; reflexivity. Qed.

Definition ram_ops : list fat_op := [Put 341 0xABC; Put 340 0x123; Get 341; Put 342 0xFFFFFFFF; Get 340; Get 341; Get 342; Get 400; Put 1 7].

Lemma fat_refines_witness :
  let '(rs, t) := spec_run 400 12 ram_ops (table ram_vol) in
  exists v', run (ram_ops ++ [Sync]) ram_vol = (rs ++ [FR_OK], v')
    /\ (forall k c, 0 <= k < 2 -> valid ram_vol c -> fat_copy v' k c = t c)
    /\ forall s, 10 <= s -> sector (dk v') s = view ram_vol s.
Proof.
  refine (fat_refines ram_ops ram_vol ram_good ram_mirrored _).
  repeat constructor; cbn; lia.
Defined.

(** The values, run. *)
Example ram_run : (run ram_ops ram_vol).1 = [0; 0; 0xABC; 0; 0x123; 0xABC; 0xFFF; 1; 2].
Proof. vm_compute. reflexivity. Qed.

End FatTable.
