(* ===== verification/FatChain.v ===== *)
(** * The FAT file system: chains of clusters

    Models [remove_chain] and [create_chain] of [system/src/ff15/source/ff.c]
    over the table of [FatTable.v], and the volumes they keep: chains that share
    no cluster, every other cluster free, the count of free clusters right. *)

From S2P Require Import Prelude FatTable.

Module FatChain.
Import FatTable.

Section Volume.
Context {D : Type} {DI : DiskIo D}.
Implicit Types v : vol D.

(** ** The operations *)

Definition bump_free v : vol D :=
  let f := fs v in
  if free_clst f <? u32 (n_fatent f - 2)
  then on_fs (set_fsinfo (fsi_flag f .| 1) (last_clst f) (free_clst f + 1)) v else v.

(** The do-while loop.  Each pass frees a cluster that was not free, so that the
    number of entries is enough fuel. *)
Fixpoint remove_loop (fuel : nat) (clst : Z) v : option (Z * vol D) :=
  match fuel with
  | O => None
  | S fuel =>
    let '(nxt, v) := get_fat clst v in
    if nxt =? 0 then Some (FR_OK, v)
    else if nxt =? 1 then Some (FR_INT_ERR, v)
    else if nxt =? DISK_ERROR then Some (FR_DISK_ERR, v)
    else
      let '(res, v) := put_fat clst 0 v in
      if negb (res =? FR_OK) then Some (res, v)
      else
        let v := bump_free v in
        if nxt <? n_fatent (fs v) then remove_loop fuel nxt v else Some (FR_OK, v)
  end.

Definition remove_chain (clst pclst : Z) v : option (Z * vol D) :=
  if (clst <? 2) || (n_fatent (fs v) <=? clst) then Some (FR_INT_ERR, v)
  else
    let '(res, v) := if negb (pclst =? 0) then put_fat pclst 0xFFFFFFFF v else (FR_OK, v) in
    if negb (res =? FR_OK) then Some (res, v)
    else remove_loop (Z.to_nat (n_fatent (fs v))) clst v.

(** The search for a free cluster behind [scl], around the end of the table.
    Result: the free cluster, or [inl] with the value to return. *)
Fixpoint find_loop (fuel : nat) (scl ncl : Z) v : option ((Z + Z) * vol D) :=
  match fuel with
  | O => None
  | S fuel =>
    let ncl := ncl + 1 in
    let '(ncl, stop) := if n_fatent (fs v) <=? ncl then (2, scl <? 2) else (ncl, false) in
    if (stop : bool) then Some (inl 0, v)
    else
      let '(cs, v) := get_fat ncl v in
      if cs =? 0 then Some (inr ncl, v)
      else if (cs =? 1) || (cs =? DISK_ERROR) then Some (inl cs, v)
      else if ncl =? scl then Some (inl 0, v)
      else find_loop fuel scl ncl v
  end.

(** Where to look first: the cluster behind the one to stretch, or the search. *)
Definition find_free (clst scl : Z) v : option ((Z + Z) * vol D) :=
  let search scl v := find_loop (Z.to_nat (n_fatent (fs v))) scl scl v in
  if scl =? clst then
    let ncl := if n_fatent (fs v) <=? scl + 1 then 2 else scl + 1 in
    let '(cs, v) := get_fat ncl v in
    if (cs =? 1) || (cs =? DISK_ERROR) then Some (inl cs, v)
    else if cs =? 0 then Some (inr ncl, v)
    else
      let cs := last_clst (fs v) in
      search (if (2 <=? cs) && (cs <? n_fatent (fs v)) then cs else scl) v
  else search scl v.

(** The new cluster is marked, linked and counted. *)
Definition link (clst ncl : Z) v : Z * vol D :=
  let '(res, v) := put_fat ncl 0xFFFFFFFF v in
  let '(res, v) := if (res =? FR_OK) && negb (clst =? 0) then put_fat clst ncl v else (res, v) in
  if res =? FR_OK then
    let f := fs v in
    let free := if free_clst f <=? u32 (n_fatent f - 2) then u32 (free_clst f - 1) else free_clst f in
    (ncl, on_fs (set_fsinfo (fsi_flag f .| 1) ncl free) v)
  else (if res =? FR_DISK_ERR then DISK_ERROR else 1, v).

Definition create_chain (clst : Z) v : option (Z * vol D) :=
  let '(r, v) :=
    if clst =? 0 then
      let scl := last_clst (fs v) in
      (inr (if (scl =? 0) || (n_fatent (fs v) <=? scl) then 1 else scl), v)
    else
      let '(cs, v) := get_fat clst v in
      (if cs <? 2 then inl 1
       else if cs =? DISK_ERROR then inl cs
       else if cs <? n_fatent (fs v) then inl cs
       else inr clst, v) in
  match r with
  | inl r => Some (r, v)
  | inr scl =>
    if free_clst (fs v) =? 0 then Some (0, v)
    else
      '(r, v) ← find_free clst scl v;
      match r with
      | inl r => Some (r, v)
      | inr ncl => Some (link clst ncl v)
      end
  end.

End Volume.

Section Disk.
Context {D : Type} {DI : DiskIo D} {SD : SectorDisk D}.
Implicit Types v : vol D.

(** ** Chains *)

(** The clusters [cs] are linked in this order, and the last one ends the chain. *)
Fixpoint chain (t : Z -> Z) (n : Z) (cs : list Z) : Prop :=
  match cs with
  | [] => True
  | c :: rest => 2 <= c < n /\ (match rest with [] => n <= t c | c' :: _ => t c = c' end) /\ chain t n rest
  end.

Lemma chain_ext t t' n cs : (forall c, c ∈ cs -> t' c = t c) -> chain t n cs -> chain t' n cs.
Proof.
  induction cs as [| c cs IH]; intros H Hc; [done |]. destruct Hc as (H1 & H2 & H3). split; [done |]. split.
  - rewrite H by apply list_elem_of_here. done.
  - apply IH; [| done]. intros c' Hc'. apply H. by apply list_elem_of_further.
Qed.

Lemma chain_valid t n cs c : chain t n cs -> c ∈ cs -> 2 <= c < n.
Proof.
  induction cs as [| c' cs IH]; intros Hc Hin; [by apply not_elem_of_nil in Hin |]. destruct Hc as (H1 & _ & H3).
  apply elem_of_cons in Hin as [-> | Hin]; [done | by apply IH].
Qed.

(** A chain is cut by ending it earlier, and extended by linking its end. *)
Lemma chain_cut t t' n pre p post : chain t n (pre ++ p :: post) -> (forall c, c ∈ pre -> t' c = t c) -> n <= t' p ->
  chain t' n (pre ++ [p]).
Proof.
  induction pre as [| c pre IH]; intros Hc Ht Hp.
  - destruct Hc as (H1 & _). split; [done |]. by split.
  - destruct Hc as (H1 & H2 & H3). cbn [app chain]. split; [done |]. split.
    + rewrite Ht by apply list_elem_of_here. by destruct pre.
    + apply IH; [done | | done]. intros c' Hc'. apply Ht. by apply list_elem_of_further.
Qed.

Lemma chain_extend t t' n pre p c : chain t n (pre ++ [p]) -> (forall x, x ∈ pre -> t' x = t x) ->
  t' p = c -> 2 <= c < n -> n <= t' c -> chain t' n (pre ++ [p; c]).
Proof.
  induction pre as [| x pre IH]; intros Hc Ht Hp Hv Hn.
  - destruct Hc as (H1 & _). split; [done |]. split; [done |]. split; [done |]. by split.
  - destruct Hc as (H1 & H2 & H3). cbn [app chain]. split; [done |]. split.
    + rewrite Ht by apply list_elem_of_here. by destruct pre.
    + apply IH; try done. intros c' Hc'. apply Ht. by apply list_elem_of_further.
Qed.

Lemma chain_app_split t n pre post : chain t n (pre ++ post) -> chain t n post.
Proof. induction pre as [| c pre IH]; [done |]. intros (_ & _ & H). by apply IH. Qed.

(** ** Freeing a chain *)

Lemma bump_free_kept v : good v ->
  let k := u32 (n_fatent (fs v) - 2) in
  kept v (bump_free v) /\ (forall c, table (bump_free v) c = table v c)
  /\ free_clst (fs (bump_free v)) = (if free_clst (fs v) <? k then free_clst (fs v) + 1 else free_clst (fs v)).
Proof.
  intros G k. unfold bump_free. fold k. case_match; [| split; [by apply kept_refl | done]].
  split; [by apply fsinfo_kept | done].
Qed.

(** What freeing [cs] leaves: the entries of [cs] are zero, the count is up. *)
Record freed v v' (cs : list Z) : Prop := {
  freed_kept : kept v v';
  freed_table c : valid v c -> table v' c = if bool_decide (c ∈ cs) then 0 else table v c;
  freed_count : free_clst (fs v) + Z.of_nat (length cs) <= n_fatent (fs v) - 2 ->
    free_clst (fs v') = free_clst (fs v) + Z.of_nat (length cs);
  freed_unknown : n_fatent (fs v) - 2 <= free_clst (fs v) -> free_clst (fs v') = free_clst (fs v);
}.

Lemma n_fatent_range v : good v -> 3 <= n_fatent (fs v) < 2 ^ 28.
Proof.
  intros G. destruct (good_geo v G) as [_ _ [? Hn] _ _ _ _ _]. split; [done |].
  unfold max_entries in Hn. repeat case_match; lia.
Qed.

Lemma free_one v c : good v -> valid v c ->
  exists v', put_fat c 0 v = (FR_OK, v') /\ freed v (bump_free v') [c] /\ n_fatent (fs (bump_free v')) = n_fatent (fs v).
Proof.
  intros G Hc. pose proof (n_fatent_range v G) as Hn. destruct (put_fat_kept c 0 v 0 G Hc) as (v' & E & K & C & T); [lia | done |].
  exists v'. split; [done |]. destruct (bump_free_kept v' (kept_good _ _ K)) as (K' & T' & F').
  pose proof (kept_field n_fatent v v' ltac:(done) K) as En. rewrite En, u32_id in F' by (unfold is_u32; lia).
  destruct (core_free _ _ C) as [Ef _]. rewrite Ef in F'.
  split; [split | by rewrite (kept_field n_fatent v' _)].
  - by apply (kept_trans v v').
  - intros c' Hc'. rewrite T', T by done. destruct (Z.eqb_spec c' c) as [-> | Hne].
    + by rewrite bool_decide_eq_true_2 by apply list_elem_of_here.
    + by rewrite bool_decide_eq_false_2 by (by rewrite list_elem_of_singleton).
  - cbn [length]. intros H. rewrite F', (proj2 (Z.ltb_lt _ _)) by lia. lia.
  - intros H. by rewrite F', (proj2 (Z.ltb_ge _ _)) by lia.
Qed.

Lemma freed_cons v v1 v2 c cs : freed v v1 [c] -> freed v1 v2 cs -> freed v v2 (c :: cs).
Proof.
  intros F1 F2. pose proof (kept_field n_fatent v v1 ltac:(done) (freed_kept _ _ _ F1)) as En.
  destruct F1 as [K1 T1 C1 U1], F2 as [K2 T2 C2 U2]. rewrite En in *. cbn [length] in *. split.
  - by apply (kept_trans v v1).
  - intros c' Hc'. rewrite T2 by (by apply (kept_valid v v1)). rewrite T1 by done.
    rewrite (bool_decide_ext (c' ∈ c :: cs) (c' ∈ cs \/ c' ∈ [c])) by (rewrite elem_of_cons, list_elem_of_singleton; tauto).
    rewrite bool_decide_or. by destruct (bool_decide (c' ∈ cs)).
  - cbn [length]. intros H. pose proof (C1 ltac:(lia)) as E. rewrite C2; lia.
  - intros H. pose proof (U1 H) as E. rewrite U2; lia.
Qed.

Lemma freed_same v v1 v2 cs : good v -> same v v1 -> freed v1 v2 cs -> freed v v2 cs.
Proof.
  intros G S [K T C U]. destruct (core_free _ _ (same_core _ _ S)) as [Ef _].
  rewrite (same_field n_fatent v v1), Ef in * by done. split; try done.
  - by apply (kept_trans v v1); [apply same_kept |].
  - intros c Hc. rewrite T by (unfold valid; by rewrite (same_field n_fatent v v1)). by rewrite (table_same v v1).
Qed.

Lemma remove_loop_ok cs : forall c v fuel, good v -> chain (table v) (n_fatent (fs v)) (c :: cs) -> NoDup (c :: cs) ->
  (length (c :: cs) <= fuel)%nat ->
  exists v', remove_loop fuel c v = Some (FR_OK, v') /\ freed v v' (c :: cs).
Proof.
  induction cs as [| c' cs IH]; intros c v fuel G (Hc & Hnxt & Hrest) Hnd Hf; (destruct fuel as [| fuel]; [cbn [length] in Hf; lia |]);
    cbn [remove_loop].
  - destruct (get_fat_ok c v G Hc) as (v1 & -> & S1). destruct (table_not_error v c G) as [He _]. pose proof (n_fatent_range v G) as Hn.
    rewrite !(proj2 (Z.eqb_neq _ _)) by (done || lia). pose proof (same_kept v v1 G S1) as K1.
    destruct (free_one v1 c (same_good _ _ S1)) as (v2 & -> & F2 & En); [by apply (kept_valid v v1) |].
    change (FR_OK =? FR_OK) with true. cbn [negb]. rewrite En, (same_field n_fatent v v1) by done. rewrite (proj2 (Z.ltb_ge _ _)) by done.
    eexists. split; [done |]. by apply (freed_same v v1).
  - destruct (get_fat_ok c v G Hc) as (v1 & -> & S1). destruct (table_not_error v c G) as [He _]. pose proof (n_fatent_range v G) as Hn.
    assert (2 <= c' < n_fatent (fs v)) as Hc' by apply Hrest. rewrite Hnxt in He |- *.
    rewrite !(proj2 (Z.eqb_neq _ _)) by (done || lia). pose proof (same_kept v v1 G S1) as K1.
    destruct (free_one v1 c (same_good _ _ S1)) as (v2 & -> & F2 & En); [by apply (kept_valid v v1) |].
    change (FR_OK =? FR_OK) with true. cbn [negb]. rewrite En, (same_field n_fatent v v1), (proj2 (Z.ltb_lt _ _)) by (done || lia).
    pose proof (freed_same v v1 _ _ G S1 F2) as F. set (v3 := bump_free v2) in *.
    apply list.NoDup_cons in Hnd as [Hnin Hnd].
    destruct (IH c' v3 fuel) as (v4 & E4 & F4).
    + apply (freed_kept _ _ _ F).
    + rewrite En, (same_field n_fatent v v1) by done. apply (chain_ext (table v)); [| done]. intros x Hx.
      rewrite (freed_table _ _ _ F) by (by apply (chain_valid (table v) _ (c' :: cs))). rewrite bool_decide_eq_false_2; [done |]. rewrite list_elem_of_singleton. by intros ->.
    + done.
    + cbn [length] in *. lia.
    + exists v4. split; [done |]. by apply (freed_cons v v3).
Qed.

(** The number of entries in use, which bounds the passes of the loop. *)
Definition used v : list Z := filter (fun c => table v c <> 0) (seqZ 2 (n_fatent (fs v) - 2)).

Lemma filter_shorter {A} (P Q : A -> Prop) `{!forall x, Decision (P x), !forall x, Decision (Q x)} (l : list A) (x : A) :
  (forall y, y ∈ l -> Q y -> P y) -> x ∈ l -> P x -> ~ Q x -> (length (filter Q l) < length (filter P l))%nat.
Proof.
  induction l as [| y l IH]; intros Hsub Hin Hp Hq; [by apply not_elem_of_nil in Hin |].
  assert (length (filter Q l) <= length (filter P l))%nat as Hle.
  { clear -Hsub. assert (forall z, z ∈ l -> Q z -> P z) as HPQ by (intros z Hz; apply Hsub; by apply list_elem_of_further). clear Hsub.
    induction l as [| z l IH]; [done |]. rewrite !filter_cons.
    assert (length (filter Q l) <= length (filter P l))%nat by (apply IH; intros w Hw; apply HPQ; by apply list_elem_of_further).
    pose proof (HPQ z (list_elem_of_here z l)). repeat case_decide; cbn [length]; tauto || lia. }
  rewrite !filter_cons. apply elem_of_cons in Hin as [-> | Hin].
  - repeat case_decide; cbn [length]; tauto || lia.
  - pose proof (Hsub y (list_elem_of_here y l)). assert (length (filter Q l) < length (filter P l))%nat.
    { apply IH; try done. intros z Hz. apply Hsub. by apply list_elem_of_further. }
    repeat case_decide; cbn [length]; tauto || lia.
Qed.

Lemma remove_loop_total fuel : forall c v, good v -> valid v c -> (length (used v) < fuel)%nat ->
  exists res v', remove_loop fuel c v = Some (res, v') /\ kept v v' /\ (res = FR_OK \/ res = FR_INT_ERR).
Proof.
  induction fuel as [| fuel IH]; intros c v G Hc Hu; [lia |]. cbn [remove_loop].
  destruct (get_fat_ok c v G Hc) as (v1 & -> & S1). destruct (table_not_error v c G) as [He _].
  pose proof (same_kept v v1 G S1) as K1.
  destruct (Z.eqb_spec (table v c) 0) as [E0 | E0]; [exists FR_OK, v1; auto |].
  destruct (Z.eqb_spec (table v c) 1) as [E1 | E1]; [exists FR_INT_ERR, v1; auto |].
  rewrite (proj2 (Z.eqb_neq _ _)) by done.
  destruct (free_one v1 c (same_good _ _ S1)) as (v2 & -> & F2 & En); [by apply (kept_valid v v1) |].
  change (FR_OK =? FR_OK) with true. cbn [negb]. pose proof (freed_same v v1 _ _ G S1 F2) as F. set (v3 := bump_free v2) in *.
  pose proof (freed_kept _ _ _ F) as K3. destruct (Z.ltb_spec (table v c) (n_fatent (fs v3))) as [Hlt | Hge]; [| exists FR_OK, v3; auto].
  pose proof (table_range v c G).
  destruct (IH (table v c) v3) as (res & v4 & E & K4 & Hr).
  - apply K3.
  - unfold valid. lia.
  - enough (length (used v3) < length (used v))%nat by lia. unfold used. rewrite (kept_field n_fatent v v3) by done.
    apply (filter_shorter _ _ _ c).
    + intros y Hy. apply elem_of_seqZ in Hy. rewrite (freed_table _ _ _ F) by (unfold valid; lia). by case_bool_decide.
    + apply elem_of_seqZ. unfold valid in Hc. lia.
    + done.
    + rewrite (freed_table _ _ _ F) by done. rewrite bool_decide_eq_true_2 by apply list_elem_of_here. lia.
  - exists res, v4. split; [done |]. split; [by apply (kept_trans v v3) | done].
Qed.

Lemma used_bound v : good v -> (length (used v) < Z.to_nat (n_fatent (fs v)))%nat.
Proof.
  intros G. pose proof (n_fatent_range v G). unfold used. pose proof (length_filter (fun c => table v c <> 0) (seqZ 2 (n_fatent (fs v) - 2))) as H1.
  rewrite length_seqZ in H1. lia.
Qed.

(** ** The search for a free cluster *)

(** The first free cluster of a list; an entry of 1 stops the search. *)
Fixpoint first_free (t : Z -> Z) (l : list Z) : Z + Z :=
  match l with
  | [] => inl 0
  | c :: l => if t c =? 0 then inr c else if t c =? 1 then inl 1 else first_free t l
  end.

Lemma first_free_ext t t' l : (forall c, c ∈ l -> t' c = t c) -> first_free t' l = first_free t l.
Proof.
  induction l as [| c l IH]; intros H; [done |]. cbn [first_free]. rewrite H by apply list_elem_of_here.
  rewrite IH; [done |]. intros c' Hc'. apply H. by apply list_elem_of_further.
Qed.

Lemma first_free_spec t l :
  (exists c, first_free t l = inr c /\ c ∈ l /\ t c = 0) \/ (first_free t l = inl 1 /\ exists c, c ∈ l /\ t c = 1)
  \/ (first_free t l = inl 0 /\ forall c, c ∈ l -> t c <> 0).
Proof.
  induction l as [| c l IH]; cbn [first_free]; [right; right; split; [done |]; intros c Hc; by apply not_elem_of_nil in Hc |].
  destruct (Z.eqb_spec (t c) 0) as [E0 | E0]; [left; exists c; split; [done |]; split; [apply list_elem_of_here | done] |].
  destruct (Z.eqb_spec (t c) 1) as [E1 | E1]; [right; left; split; [done |]; exists c; split; [apply list_elem_of_here | done] |].
  destruct IH as [(c' & H1 & H2 & H3) | [(H1 & c' & H2 & H3) | (H1 & H2)]].
  - left. exists c'. split; [done |]. split; [by apply list_elem_of_further | done].
  - right. left. split; [done |]. exists c'. split; [by apply list_elem_of_further | done].
  - right. right. split; [done |]. intros c' Hc'. apply elem_of_cons in Hc' as [-> | Hc']; [done | by apply H2].
Qed.

Lemma seqZ_step a b : a <= b -> seqZ a (b - a + 1) = a :: seqZ (a + 1) (b - (a + 1) + 1).
Proof. intros H. rewrite seqZ_cons by lia. f_equal. f_equal; lia. Qed.

(** One step of the search, at an entry in the table. *)
Lemma find_step fuel scl ncl v : good v -> valid v (ncl + 1) ->
  exists v1, same v v1 /\ find_loop (S fuel) scl ncl v =
    (if table v (ncl + 1) =? 0 then Some (inr (ncl + 1), v1)
     else if table v (ncl + 1) =? 1 then Some (inl 1, v1)
     else if ncl + 1 =? scl then Some (inl 0, v1) else find_loop fuel scl (ncl + 1) v1).
Proof.
  intros G Hc. cbn [find_loop]. rewrite (proj2 (Z.leb_gt _ _)) by (unfold valid in Hc; lia).
  destruct (get_fat_ok (ncl + 1) v G Hc) as (v1 & -> & S1). destruct (table_not_error v (ncl + 1) G) as [He _].
  exists v1. split; [done |]. destruct (table v (ncl + 1) =? 0) eqn:E0; [done |].
  rewrite (proj2 (Z.eqb_neq _ DISK_ERROR)) by done. rewrite orb_false_r. destruct (Z.eqb_spec (table v (ncl + 1)) 1) as [-> |]; done.
Qed.

Lemma first_free_same v v1 a n : good v -> same v v1 -> 2 <= a -> a + n <= n_fatent (fs v) -> first_free (table v1) (seqZ a n) = first_free (table v) (seqZ a n).
Proof. intros G S Ha Hn. apply first_free_ext. intros c Hc. apply elem_of_seqZ in Hc. apply table_same; try done. unfold valid. lia. Qed.

Lemma find_down fuel : forall scl ncl v, good v -> 1 <= ncl < scl -> scl < n_fatent (fs v) -> scl - ncl <= Z.of_nat fuel ->
  exists v', find_loop fuel scl ncl v = Some (first_free (table v) (seqZ (ncl + 1) (scl - (ncl + 1) + 1)), v') /\ same v v'.
Proof.
  induction fuel as [| fuel IH]; intros scl ncl v G Hn Hs Hf; [lia |].
  destruct (find_step fuel scl ncl v G) as (v1 & S1 & ->); [unfold valid; lia |].
  rewrite seqZ_step by lia. cbn [first_free]. case_match; [by exists v1 |]. case_match; [by exists v1 |].
  destruct (Z.eqb_spec (ncl + 1) scl) as [E | E].
  - exists v1. split; [| done]. by rewrite seqZ_nil by lia.
  - destruct (IH scl (ncl + 1) v1) as (v2 & -> & S2); rewrite ?(same_field n_fatent v v1); try (done || lia); [apply S1 |].
    exists v2. split; [| by apply (same_trans v v1)]. by rewrite (first_free_same v v1) by (done || lia).
Qed.

(** Up to the end of the table and from its start to the first cluster tried. *)
Definition search_order (n scl : Z) : list Z := seqZ (scl + 1) (n - 1 - (scl + 1) + 1) ++ seqZ 2 (scl - 2 + 1).

Lemma find_up fuel : forall scl ncl v, good v -> 1 <= scl <= ncl -> ncl < n_fatent (fs v) ->
  n_fatent (fs v) - ncl + scl - 1 <= Z.of_nat fuel ->
  exists v', find_loop fuel scl ncl v
      = Some (first_free (table v) (seqZ (ncl + 1) (n_fatent (fs v) - 1 - (ncl + 1) + 1) ++ seqZ 2 (scl - 2 + 1)), v')
    /\ same v v'.
Proof.
  induction fuel as [| fuel IH]; intros scl ncl v G Hn Hs Hf; [lia |].
  destruct (Z.eq_dec ncl (n_fatent (fs v) - 1)) as [E | E].
  - rewrite (seqZ_nil (ncl + 1)) by lia. cbn [app]. destruct (Z.ltb_spec scl 2) as [H2 | H2].
    + rewrite seqZ_nil by lia. cbn [find_loop first_free]. rewrite (proj2 (Z.leb_le _ _)) by lia.
      exists v. rewrite (proj2 (Z.ltb_lt _ _)) by lia. split; [done | by apply same_refl].
    + assert (find_loop (S fuel) scl ncl v = find_loop (S fuel) scl 1 v) as ->.
      { cbn [find_loop]. rewrite (proj2 (Z.leb_le _ _)) by lia. rewrite (proj2 (Z.ltb_ge _ _)) by lia.
        rewrite (proj2 (Z.leb_gt _ (1 + 1))) by lia. done. }
      apply (find_down (S fuel) scl 1 v); (done || lia).
  - destruct (find_step fuel scl ncl v G) as (v1 & S1 & ->); [unfold valid; lia |].
    rewrite seqZ_step by lia. cbn [app first_free]. case_match; [by exists v1 |]. case_match; [by exists v1 |].
    rewrite (proj2 (Z.eqb_neq _ _)) by lia.
    destruct (IH scl (ncl + 1) v1) as (v2 & -> & S2); rewrite ?(same_field n_fatent v v1) by done; try (done || lia); [apply S1 |].
    exists v2. split; [| by apply (same_trans v v1)]. f_equal. f_equal. apply first_free_ext. intros c Hc. apply table_same; try done.
    apply elem_of_app in Hc. rewrite !elem_of_seqZ in Hc. unfold valid. lia.
Qed.

Lemma search_ok scl v : good v -> 1 <= scl < n_fatent (fs v) ->
  exists v', find_loop (Z.to_nat (n_fatent (fs v))) scl scl v = Some (first_free (table v) (search_order (n_fatent (fs v)) scl), v') /\ same v v'.
Proof. intros G Hs. apply find_up; (done || lia). Qed.

Lemma search_order_elem n scl c : 1 <= scl < n -> c ∈ search_order n scl <-> 2 <= c < n.
Proof. intros H. unfold search_order. rewrite elem_of_app, !elem_of_seqZ. lia. Qed.

(** The clusters tried, in their order. *)
Definition candidates v (clst scl : Z) : list Z :=
  let n := n_fatent (fs v) in
  if scl =? clst then
    (if n <=? scl + 1 then 2 else scl + 1)
    :: search_order n (if (2 <=? last_clst (fs v)) && (last_clst (fs v) <? n) then last_clst (fs v) else scl)
  else search_order n scl.

Lemma candidates_elem v clst scl c : good v -> 1 <= scl < n_fatent (fs v) -> c ∈ candidates v clst scl <-> valid v c.
Proof.
  intros G Hs. pose proof (n_fatent_range v G) as Hn. unfold candidates, valid.
  destruct (scl =? clst); [| by apply search_order_elem]. rewrite elem_of_cons, search_order_elem.
  - case_match; lia.
  - case_match eqn:E; [| done]. apply andb_true_iff in E. lia.
Qed.

Lemma find_free_ok clst scl v : good v -> 1 <= scl < n_fatent (fs v) ->
  exists v', find_free clst scl v = Some (first_free (table v) (candidates v clst scl), v') /\ same v v'.
Proof.
  intros G Hs. pose proof (n_fatent_range v G) as Hn. unfold find_free, candidates. cbv zeta.
  destruct (scl =? clst); [| by apply search_ok].
  set (ncl := if n_fatent (fs v) <=? scl + 1 then 2 else scl + 1).
  assert (valid v ncl) as Hv by (unfold valid, ncl; case_match; lia).
  destruct (get_fat_ok ncl v G Hv) as (v1 & -> & S1). destruct (table_not_error v ncl G) as [He _]. cbn [first_free].
  rewrite (proj2 (Z.eqb_neq _ DISK_ERROR)) by done. rewrite orb_false_r.
  destruct (Z.eqb_spec (table v ncl) 1) as [E1 | E1]; [rewrite E1; by exists v1 |].
  destruct (Z.eqb_spec (table v ncl) 0) as [E0 | E0]; [by exists v1 |].
  destruct (core_free _ _ (same_core _ _ S1)) as [_ El]. pose proof (same_field n_fatent v v1 ltac:(done) S1) as En. rewrite El, En.
  set (s := if _ && _ then _ else scl).
  assert (1 <= s < n_fatent (fs v)) as Hs' by (unfold s; case_match eqn:E; [apply andb_true_iff in E |]; lia).
  destruct (search_ok s v1 (same_good _ _ S1)) as (v2 & E2 & S2); [by rewrite En |].
  rewrite En in E2. rewrite E2. exists v2. split; [| by apply (same_trans v v1)]. f_equal. f_equal. apply first_free_ext.
  intros c Hc. apply search_order_elem in Hc; [| done]. by apply table_same.
Qed.

(** ** Taking a cluster *)

(** [r] ends the chain in which it follows [clst], if any. *)
Record linked v v' (clst r : Z) : Prop := {
  linked_kept : kept v v';
  linked_table c : valid v c -> table v' c = if c =? clst then r else if c =? r then eoc v else table v c;
  linked_free : free_clst (fs v') = if free_clst (fs v) <=? n_fatent (fs v) - 2 then u32 (free_clst (fs v) - 1) else free_clst (fs v);
  linked_last : last_clst (fs v') = r;
}.

Lemma link_ok clst r v : good v -> clst = 0 \/ valid v clst -> valid v r ->
  exists v', link clst r v = (r, v') /\ linked v v' clst r.
Proof.
  intros G Hc Hr. pose proof (n_fatent_range v G) as Hn. unfold link. destruct (eoc_value v G) as [He1 He2].
  destruct (put_fat_kept r 0xFFFFFFFF v (eoc v) G Hr) as (v1 & -> & K1 & C1 & T1); [lia | exact He1 |].
  change (FR_OK =? FR_OK) with true. cbn [andb].
  assert (exists v2, (if negb (clst =? 0) then put_fat clst r v1 else (FR_OK, v1)) = (FR_OK, v2) /\ kept v v2 /\ core (fs v2) = core (fs v)
    /\ forall c, valid v c -> table v2 c = if c =? clst then r else if c =? r then eoc v else table v c) as (v2 & -> & K2 & C2 & T2).
  { destruct (Z.eqb_spec clst 0) as [-> | Hne]; cbn [negb].
    - exists v1. split; [done |]. split; [done |]. split; [done |]. intros c Hcv. rewrite (proj2 (Z.eqb_neq c 0)) by (unfold valid in Hcv; lia). by apply T1.
    - destruct Hc as [? | Hc]; [done |]. pose proof (kept_field n_fatent v v1 ltac:(done) K1) as En.
      destruct (put_fat_kept clst r v1 r (kept_good _ _ K1)) as (v2 & -> & K2 & C2 & T2).
      + by apply (kept_valid v v1).
      + unfold valid in Hr. lia.
      + apply small_value; [apply K1 |]. rewrite En. unfold valid in Hr. lia.
      + exists v2. split; [done |]. split; [by apply (kept_trans v v1) |]. split; [congruence |]. intros c Hcv.
        rewrite T2 by (by apply (kept_valid v v1)). case_match; [done |]. by apply T1. }
  change (FR_OK =? FR_OK) with true. cbv iota. eexists. split; [done |]. destruct (core_free _ _ C2) as [Ef _].
  pose proof (kept_field n_fatent v v2 ltac:(done) K2) as En. split.
  - apply (kept_trans v v2); [done |]. apply fsinfo_kept. apply K2.
  - intros c Hcv. rewrite fsinfo_table. by apply T2.
  - cbn [on_fs fs set_fsinfo free_clst]. rewrite Ef, En, u32_id by (unfold is_u32; lia). done.
  - done.
Qed.

Lemma linked_same v v1 v2 clst r : good v -> same v v1 -> linked v1 v2 clst r -> linked v v2 clst r.
Proof.
  intros G S [K T F L]. destruct (core_free _ _ (same_core _ _ S)) as [Ef _].
  rewrite Ef, (same_field n_fatent v v1) in F by done. split; try done.
  - by apply (kept_trans v v1); [apply same_kept |].
  - intros c Hc. rewrite T by (unfold valid; by rewrite (same_field n_fatent v v1)). unfold eoc.
    by rewrite (same_field fs_type v v1), (table_same v v1).
Qed.

(** ** Volumes without lost or shared clusters

    The chains [files] share no cluster, every other cluster is free, and the
    count of free clusters is right or unknown. *)
Record clean v (files : list (list Z)) : Prop := {
  clean_good : good v;
  clean_chains f : f ∈ files -> f <> [] /\ chain (table v) (n_fatent (fs v)) f;
  clean_nodup : NoDup (concat files);
  clean_free c : valid v c -> c ∉ concat files -> table v c = 0;
  clean_count : free_clst (fs v) = n_fatent (fs v) - 2 - Z.of_nat (length (concat files)) \/ n_fatent (fs v) - 2 < free_clst (fs v);
  clean_last : 0 <= last_clst (fs v);
}.

Definition all_used v (files : list (list Z)) : Prop := forall c, valid v c -> c ∈ concat files.

Lemma elem_concat {A} (ll : list (list A)) (x : A) : x ∈ concat ll <-> exists l, l ∈ ll /\ x ∈ l.
Proof.
  induction ll as [| l ll IH]; cbn [concat].
  - split; [intros H; by apply not_elem_of_nil in H | intros (l & H & _); by apply not_elem_of_nil in H].
  - rewrite elem_of_app, IH. split.
    + intros [H | (l' & H1 & H2)]; [exists l | exists l']; rewrite elem_of_cons; auto.
    + intros (l' & H1 & H2). apply elem_of_cons in H1 as [-> | H1]; [by left | right; eauto].
Qed.

Lemma clean_valid v files c : clean v files -> c ∈ concat files -> valid v c.
Proof.
  intros C H. apply elem_concat in H as (f & Hf & Hc). destruct (clean_chains _ _ C f Hf) as [_ Hch]. by apply (chain_valid (table v) _ f).
Qed.

Lemma concat_perm {A} (l l' : list (list A)) : l ≡ₚ l' -> concat l ≡ₚ concat l'.
Proof.
  induction 1 as [| x l l' _ IH | x y l | l1 l2 l3 _ IH1 _ IH2]; cbn [concat]; [done | by rewrite IH | | by rewrite IH1].
  rewrite !app_assoc. by rewrite (Permutation_app_comm x y).
Qed.

Lemma clean_perm v files files' : files ≡ₚ files' -> clean v files -> clean v files'.
Proof.
  intros P [G Hc Hn Hf Hk Hl]. pose proof (concat_perm _ _ P) as Pc. split; try done.
  - intros f H. apply Hc. by rewrite P.
  - by rewrite <- Pc.
  - intros c Hv Hin. apply Hf; [done |]. by rewrite Pc.
  - by rewrite <- Pc.
Qed.

(** No entry of a clean volume is 1: the links are clusters or ends of chains. *)
Lemma chain_entry t n cs c : 3 <= n -> chain t n cs -> c ∈ cs -> 2 <= t c.
Proof.
  intros Hn. induction cs as [| x cs IH]; intros Hc Hin; [by apply not_elem_of_nil in Hin |]. destruct Hc as (H1 & H2 & H3).
  apply elem_of_cons in Hin as [-> | Hin]; [| by apply IH]. destruct cs as [| y cs]; [lia |]. destruct H3 as (? & _). lia.
Qed.

Lemma clean_entry v files c : clean v files -> valid v c -> (table v c = 0 /\ c ∉ concat files) \/ (2 <= table v c /\ c ∈ concat files).
Proof.
  intros C Hc. pose proof (n_fatent_range v (clean_good _ _ C)) as Hn. destruct (decide (c ∈ concat files)) as [H | H].
  - right. split; [| done]. apply elem_concat in H as (f & Hf & Hin). destruct (clean_chains _ _ C f Hf) as [_ Hch].
    apply (chain_entry (table v) (n_fatent (fs v)) f); (done || lia).
  - left. split; [| done]. by apply (clean_free _ _ C).
Qed.

(** Counting: there are as many clusters as the volume says. *)
Lemma clean_sub v l : NoDup l -> (forall c, c ∈ l -> valid v c) -> l ⊆+ seqZ 2 (n_fatent (fs v) - 2).
Proof. intros Hn Hv. apply NoDup_submseteq; [done |]. intros c Hc. apply elem_of_seqZ. specialize (Hv c Hc). unfold valid in Hv. lia. Qed.

Lemma clean_full v files : clean v files -> n_fatent (fs v) - 2 <= Z.of_nat (length (concat files)) -> all_used v files.
Proof.
  intros C Hl c Hc. pose proof (clean_sub v (concat files) (clean_nodup _ _ C) (fun c => clean_valid v files c C)) as Hs.
  assert (concat files ≡ₚ seqZ 2 (n_fatent (fs v) - 2)) as ->.
  { apply submseteq_length_Permutation; [done |]. rewrite length_seqZ. lia. }
  apply elem_of_seqZ. unfold valid in Hc. lia.
Qed.

Lemma clean_room v files r : clean v files -> valid v r -> r ∉ concat files ->
  Z.of_nat (length (concat files)) + 1 <= n_fatent (fs v) - 2.
Proof.
  intros C Hr Hn. pose proof (n_fatent_range v (clean_good _ _ C)).
  assert (r :: concat files ⊆+ seqZ 2 (n_fatent (fs v) - 2)) as Hs.
  { apply clean_sub.
    - apply list.NoDup_cons. split; [done | apply (clean_nodup _ _ C)].
    - intros c Hc. apply elem_of_cons in Hc as [-> | Hc]; [done | by apply (clean_valid v files)]. }
  apply submseteq_length in Hs. rewrite length_seqZ in Hs. cbn [length] in Hs. lia.
Qed.

Lemma clean_same v v' files : clean v files -> same v v' -> clean v' files.
Proof.
  intros C S. pose proof (clean_good _ _ C) as G. pose proof (same_field n_fatent v v' ltac:(done) S) as En.
  destruct (core_free _ _ (same_core _ _ S)) as [Ef El]. destruct C as [_ Hc Hn Hf Hk Hl]. split.
  - apply S.
  - intros f H. destruct (Hc f H) as [Hne Hch]. split; [done |]. rewrite En. apply (chain_ext (table v)); [| done].
    intros c Hin. apply table_same; try done. by apply (chain_valid (table v) _ f).
  - done.
  - intros c Hv Hin. unfold valid in Hv. rewrite En in Hv. rewrite (table_same v v') by done. by apply Hf.
  - by rewrite Ef, En.
  - by rewrite El.
Qed.

(** ** A new cluster *)

Lemma create_ok clst v files : clean v files -> clst = 0 \/ (valid v clst /\ n_fatent (fs v) <= table v clst) ->
  exists r v', create_chain clst v = Some (r, v') /\
    ((r = 0 /\ same v v' /\ all_used v files) \/ (valid v r /\ (r ∉ concat files) /\ linked v v' clst r)).
Proof.
  intros C Hcl. pose proof (clean_good _ _ C) as G. pose proof (n_fatent_range v G) as Hn.
  assert (exists scl v1, same v v1 /\ 1 <= scl < n_fatent (fs v) /\ create_chain clst v =
    (if free_clst (fs v1) =? 0 then Some (0, v1)
    else ('(r, v) ← find_free clst scl v1; match r with inl r => Some (r, v) | inr ncl => Some (link clst ncl v) end)))
    as (scl & v1 & S1 & Hs & ->).
  { unfold create_chain. destruct (Z.eqb_spec clst 0) as [-> | Hne].
    - exists (if (last_clst (fs v) =? 0) || (n_fatent (fs v) <=? last_clst (fs v)) then 1 else last_clst (fs v)), v. split; [by apply same_refl |].
      split; [| done]. case_match eqn:E; [lia |]. apply orb_false_iff in E as [E1 E2]. pose proof (clean_last v files C). lia.
    - destruct Hcl as [? | [Hc Ht]]; [done |]. destruct (get_fat_ok clst v G Hc) as (v1 & -> & S1). exists clst, v1.
      split; [done |]. split; [unfold valid in Hc; lia |]. destruct (table_not_error v clst G) as [He _].
      rewrite (proj2 (Z.ltb_ge _ _)) by lia. rewrite (proj2 (Z.eqb_neq _ _)) by done.
      rewrite (same_field n_fatent v v1) by done. by rewrite (proj2 (Z.ltb_ge _ _)) by lia. }
  destruct (core_free _ _ (same_core _ _ S1)) as [Ef _]. rewrite Ef.
  destruct (Z.eqb_spec (free_clst (fs v)) 0) as [E0 | E0].
  { exists 0, v1. split; [done |]. left. split; [done |]. split; [done |]. apply clean_full; [done |]. destruct (clean_count _ _ C); lia. }
  pose proof (clean_same v v1 files C S1) as C1. pose proof (same_good _ _ S1) as G1. pose proof (same_field n_fatent v v1 ltac:(done) S1) as En.
  destruct (find_free_ok clst scl v1 G1) as (v2 & -> & S2); [by rewrite En |]. cbn [mbind option_bind].
  pose proof (same_trans v v1 v2 S1 S2) as S. assert (forall c, valid v1 c <-> valid v c) as Hv by (intros c; unfold valid; by rewrite En).
  assert (forall c, c ∈ candidates v1 clst scl <-> valid v1 c) as Hcand by (intros c; apply candidates_elem; [done | by rewrite En]).
  destruct (first_free_spec (table v1) (candidates v1 clst scl)) as [(c & -> & H1 & H2) | [(_ & c & H1 & H2) | (-> & H2)]].
  - apply Hcand in H1. destruct (clean_entry v1 files c C1 H1) as [[_ Hnin] | [? _]]; [| lia].
    destruct (link_ok clst c v2 (same_good _ _ S2)) as (v3 & -> & L3).
    + destruct Hcl as [? | [Hc _]]; [by left | right]. unfold valid in *. by rewrite (same_field n_fatent v v2).
    + unfold valid in *. by rewrite (same_field n_fatent v1 v2).
    + exists c, v3. split; [done |]. right. split; [by apply Hv |]. split; [done |]. by apply (linked_same v v2).
  - apply Hcand in H1. destruct (clean_entry v1 files c C1 H1); lia.
  - exists 0, v2. split; [done |]. left. split; [done |]. split; [done |]. intros c Hc. apply Hv in Hc.
    destruct (clean_entry v1 files c C1 Hc) as [[? _] | [_ ?]]; [| done]. exfalso. by apply (H2 c); [apply Hcand |].
Qed.

(** The count goes down by one, and stays unknown. *)
Lemma linked_count v v' files clst r : clean v files -> valid v r -> r ∉ concat files -> linked v v' clst r ->
  free_clst (fs v') = n_fatent (fs v) - 2 - (Z.of_nat (length (concat files)) + 1) \/ n_fatent (fs v) - 2 < free_clst (fs v').
Proof.
  intros C Hr Hnin L. pose proof (clean_room v files r C Hr Hnin). pose proof (n_fatent_range v (clean_good _ _ C)).
  rewrite (linked_free _ _ _ _ L). destruct (clean_count _ _ C) as [E | E].
  - left. rewrite (proj2 (Z.leb_le _ _)), u32_id by (unfold is_u32; lia). lia.
  - right. by rewrite (proj2 (Z.leb_gt _ _)) by lia.
Qed.

Lemma chain_linked v v' files f clst r : clean v files -> linked v v' clst r -> f ∈ files -> clst ∉ f -> r ∉ concat files ->
  chain (table v') (n_fatent (fs v')) f.
Proof.
  intros C L Hf Hc Hr. rewrite (kept_field n_fatent v v') by (done || apply L). destruct (clean_chains _ _ C f Hf) as [_ Hch].
  apply (chain_ext (table v)); [| done]. intros x Hx. rewrite (linked_table _ _ _ _ L) by (by apply (chain_valid (table v) _ f)).
  rewrite !(proj2 (Z.eqb_neq _ _)); [done | |]; intros ->; [| done]. apply Hr. apply elem_concat. eauto.
Qed.

Lemma clean_new v v' files r : clean v files -> valid v r -> r ∉ concat files -> linked v v' 0 r -> clean v' ([r] :: files).
Proof.
  intros C Hr Hnin L. pose proof (clean_good _ _ C) as G. pose proof (kept_field n_fatent v v' ltac:(done) (linked_kept _ _ _ _ L)) as En.
  destruct (eoc_value v G) as [_ He]. split.
  - apply L.
  - intros f Hf. apply elem_of_cons in Hf as [-> | Hf].
    + split; [done |]. rewrite En. split; [done |]. split; [| done]. rewrite (linked_table _ _ _ _ L) by done.
      rewrite (proj2 (Z.eqb_neq r 0)) by (unfold valid in Hr; lia). by rewrite Z.eqb_refl.
    + split; [by apply (clean_chains _ _ C) |]. apply (chain_linked v v' files f 0 r); try done. intros H0.
      destruct (clean_chains _ _ C f Hf) as [_ Hch]. pose proof (chain_valid _ _ _ _ Hch H0). lia.
  - cbn [concat app]. apply list.NoDup_cons. split; [done | apply (clean_nodup _ _ C)].
  - cbn [concat app]. intros c Hc Hin. unfold valid in Hc. rewrite En in Hc. rewrite (linked_table _ _ _ _ L) by done.
    apply not_elem_of_cons in Hin as [Hne Hin]. rewrite !(proj2 (Z.eqb_neq _ _)) by (done || lia). by apply (clean_free _ _ C).
  - rewrite En. cbn [concat app length]. pose proof (linked_count v v' files 0 r C Hr Hnin L). lia.
  - rewrite (linked_last _ _ _ _ L). unfold valid in Hr. lia.
Qed.

Lemma clean_extend v v' pre p others r : clean v ((pre ++ [p]) :: others) -> valid v r -> r ∉ concat ((pre ++ [p]) :: others) ->
  linked v v' p r -> clean v' ((pre ++ [p; r]) :: others).
Proof.
  intros C Hr Hnin L. pose proof (clean_good _ _ C) as G. pose proof (kept_field n_fatent v v' ltac:(done) (linked_kept _ _ _ _ L)) as En.
  destruct (eoc_value v G) as [_ He]. destruct (clean_chains _ _ C (pre ++ [p])) as [_ Hch]; [apply list_elem_of_here |].
  pose proof (clean_nodup _ _ C) as Hnd. cbn [concat] in Hnd, Hnin. apply list.NoDup_app in Hnd as (Hnd1 & Hdis & _).
  apply list.NoDup_app in Hnd1 as (_ & Hpre & _). rewrite !not_elem_of_app, list_elem_of_singleton in Hnin. destruct Hnin as [[Hr1 Hr2] Hr3].
  assert (valid v p) as Hp by (apply (chain_valid (table v) _ (pre ++ [p])); [done |]; apply elem_of_app; right; by apply list_elem_of_singleton).
  assert (concat ((pre ++ [p; r]) :: others) ≡ₚ r :: concat ((pre ++ [p]) :: others)) as Pm.
  { cbn [concat]. rewrite <- !app_assoc. cbn [app]. rewrite (Permutation_swap r p). by rewrite Permutation_middle. }
  split.
  - apply L.
  - intros f Hf. apply elem_of_cons in Hf as [-> | Hf].
    + split; [by destruct pre |]. rewrite En. apply (chain_extend (table v)); try done.
      * intros x Hx. assert (valid v x) by (apply (chain_valid (table v) _ (pre ++ [p])); [done |]; apply elem_of_app; by left).
        rewrite (linked_table _ _ _ _ L) by done. rewrite !(proj2 (Z.eqb_neq _ _)); [done | |]; intros ->; [done |].
        apply (Hpre p Hx). by apply list_elem_of_singleton.
      * by rewrite (linked_table _ _ _ _ L), Z.eqb_refl by done.
      * rewrite (linked_table _ _ _ _ L) by done. rewrite (proj2 (Z.eqb_neq r p)), Z.eqb_refl by done. done.
    + split; [apply (clean_chains _ _ C); by apply list_elem_of_further |].
      apply (chain_linked v v' ((pre ++ [p]) :: others) f p r); try done.
      * by apply list_elem_of_further.
      * intros Hin. apply (Hdis p); [apply elem_of_app; right; by apply list_elem_of_singleton |]. apply elem_concat. eauto.
      * cbn [concat]. rewrite !not_elem_of_app, list_elem_of_singleton. done.
  - rewrite Pm. apply list.NoDup_cons. split; [| apply (clean_nodup _ _ C)]. cbn [concat].
    rewrite !not_elem_of_app, list_elem_of_singleton. done.
  - intros c Hc Hin. rewrite Pm in Hin. unfold valid in Hc. rewrite En in Hc. rewrite (linked_table _ _ _ _ L) by done.
    apply not_elem_of_cons in Hin as [Hne Hin]. rewrite !(proj2 (Z.eqb_neq _ _)); [by apply (clean_free _ _ C) | done |].
    intros ->. apply Hin. cbn [concat]. rewrite !elem_of_app, list_elem_of_singleton. auto.
  - rewrite En, Pm. cbn [length]. assert (r ∉ concat ((pre ++ [p]) :: others)) as Hn'.
    { cbn [concat]. rewrite !not_elem_of_app, list_elem_of_singleton. done. }
    pose proof (linked_count v v' _ p r C Hr Hn' L). lia.
  - rewrite (linked_last _ _ _ _ L). unfold valid in Hr. lia.
Qed.

(** ** Cutting a chain *)

Definition kept_part (f : list Z) : list (list Z) := match f with [] => [] | _ => [f] end.

Lemma cut_prefix v v' pre c post : good v -> chain (table v) (n_fatent (fs v)) (pre ++ c :: post) -> NoDup (pre ++ c :: post) ->
  (forall x, valid v x -> table v' x = if bool_decide (x ∈ c :: post) then 0
                                      else if bool_decide (Some x = list.last pre) then eoc v else table v x) ->
  chain (table v') (n_fatent (fs v)) pre.
Proof.
  intros G Hch Hnd T. destruct (eoc_value v G) as [_ He]. pose proof Hnd as (Hnd4 & Hpre & _)%list.NoDup_app.
  destruct (list.last pre) as [p |] eqn:Elast; [| apply last_None in Elast as ->; done].
  apply last_Some in Elast as (pre' & E'). rewrite E' in *. rewrite <- app_assoc in Hch. cbn [app] in Hch.
  assert (forall x, x ∈ pre' ++ [p] -> valid v x) as Hval.
  { intros x Hx. apply (chain_valid (table v) _ (pre' ++ p :: c :: post)); [done |]. rewrite elem_of_app, list_elem_of_singleton in Hx.
    rewrite elem_of_app, elem_of_cons. tauto. }
  apply list.NoDup_app in Hnd4 as (_ & Hp' & _).
  apply (chain_cut (table v) _ _ pre' p (c :: post)); [done | |].
  - intros x Hx. rewrite T by (apply Hval, elem_of_app; by left).
    rewrite !bool_decide_eq_false_2; [done | |].
    + intros [= ->]. apply (Hp' p Hx). by apply list_elem_of_singleton.
    + apply Hpre. apply elem_of_app. by left.
  - rewrite T by (apply Hval, elem_of_app; right; by apply list_elem_of_singleton).
    rewrite bool_decide_eq_false_2, bool_decide_eq_true_2; [done | done |].
    apply Hpre. apply elem_of_app. right. by apply list_elem_of_singleton.
Qed.

Lemma cut_clean v v' pre c post others :
  clean v ((pre ++ c :: post) :: others) -> kept v v' -> 0 <= last_clst (fs v') ->
  (forall x, valid v x -> table v' x = if bool_decide (x ∈ c :: post) then 0
                                      else if bool_decide (Some x = list.last pre) then eoc v else table v x) ->
  (free_clst (fs v) + Z.of_nat (length (c :: post)) <= n_fatent (fs v) - 2 ->
     free_clst (fs v') = free_clst (fs v) + Z.of_nat (length (c :: post))) ->
  (n_fatent (fs v) - 2 <= free_clst (fs v) -> free_clst (fs v') = free_clst (fs v)) ->
  clean v' (kept_part pre ++ others).
Proof.
  intros C K Hl T F U. pose proof (clean_good _ _ C) as G. pose proof (kept_field n_fatent v v' ltac:(done) K) as En.
  destruct (eoc_value v G) as [_ He]. destruct (clean_chains _ _ C (pre ++ c :: post)) as [_ Hch]; [apply list_elem_of_here |].
  pose proof (clean_nodup _ _ C) as Hnd. cbn [concat] in Hnd.
  apply list.NoDup_app in Hnd as (Hnd1 & Hdis & Hnd3). pose proof Hnd1 as (Hnd4 & Hpre & Hnd5)%list.NoDup_app.
  assert (concat (kept_part pre ++ others) = pre ++ concat others) as Ec by (rewrite concat_app; destruct pre; cbn; by rewrite ?app_nil_r).
  assert (length (concat ((pre ++ c :: post) :: others)) = length (c :: post) + length (pre ++ concat others))%nat as El.
  { cbn [concat]. rewrite !length_app. lia. }
  split.
  - apply K.
  - intros f Hf. rewrite En. apply elem_of_app in Hf as [Hf | Hf].
    + destruct pre as [| x0 pre0]; cbn [kept_part] in Hf; [by apply not_elem_of_nil in Hf |]. apply list_elem_of_singleton in Hf as ->.
      split; [done |]. by apply (cut_prefix v v' _ c post).
    + destruct (clean_chains _ _ C f) as [Hne Hch']; [by apply list_elem_of_further |]. split; [done |].
      assert (forall x, x ∈ f -> x ∉ pre ++ c :: post) as Hout by (intros x Hx Hx'; apply (Hdis x Hx'), elem_concat; eauto).
      apply (chain_ext (table v)); [| done]. intros x Hx. rewrite T by (by apply (chain_valid (table v) _ f)).
      rewrite !bool_decide_eq_false_2; [done | |].
      * intros Hlast. symmetry in Hlast. apply last_Some in Hlast as (pre' & ->). apply (Hout x Hx). rewrite !elem_of_app, list_elem_of_singleton. auto.
      * intros Hin. apply (Hout x Hx). apply elem_of_app. by right.
  - rewrite Ec. apply list.NoDup_app. split; [done |]. split; [| done]. intros x Hx. apply Hdis. apply elem_of_app. by left.
  - intros x Hx Hin. rewrite Ec, not_elem_of_app in Hin. destruct Hin as [Hin1 Hin2]. unfold valid in Hx. rewrite En in Hx. rewrite T by done.
    case_bool_decide as Hb; [done |]. rewrite bool_decide_eq_false_2.
    + apply (clean_free _ _ C); [done |]. cbn [concat]. rewrite !not_elem_of_app. done.
    + intros Hlast. symmetry in Hlast. apply last_Some in Hlast as (pre' & ->). apply Hin1. rewrite elem_of_app, list_elem_of_singleton. auto.
  - rewrite En, Ec. destruct (clean_count _ _ C) as [E | E]; [left | right; rewrite U; lia]. rewrite F; lia.
  - done.
Qed.

(** Nothing but [link] moves the place where the next search starts. *)
Lemma bump_free_last v : last_clst (fs (bump_free v)) = last_clst (fs v).
Proof. unfold bump_free. by case_match. Qed.

Lemma remove_loop_last fuel : forall c v res v', good v -> valid v c ->
  remove_loop fuel c v = Some (res, v') -> last_clst (fs v') = last_clst (fs v).
Proof.
  induction fuel as [| fuel IH]; intros c v res v' G Hc E; [done |]. cbn [remove_loop] in E.
  destruct (get_fat_ok c v G Hc) as (v1 & E1 & S1). rewrite E1 in E. destruct (core_free _ _ (same_core _ _ S1)) as [_ El].
  destruct (put_fat_kept c 0 v1 0 (same_good _ _ S1)) as (v2 & E2 & K2 & C2 & _);
    [unfold valid in *; by rewrite (same_field n_fatent v v1) | lia | done |].
  destruct (core_free _ _ C2) as [_ El2]. rewrite E2 in E. change (FR_OK =? FR_OK) with true in E. cbn [negb] in E.
  repeat case_match; simplify_eq; try done; try (rewrite bump_free_last; congruence).
  pose proof (table_range v c G). destruct (bump_free_kept v2 (kept_good _ _ K2)) as (K3 & _ & _).
  assert (valid (bump_free v2) (table v c)) as Hv by (unfold valid; lia).
  rewrite (IH (table v c) _ _ _ (kept_good _ _ K3) Hv E), bump_free_last. congruence.
Qed.

Lemma remove_ok v pre c post others : clean v ((pre ++ c :: post) :: others) ->
  exists v', remove_chain c (default 0 (list.last pre)) v = Some (FR_OK, v') /\ kept v v' /\ clean v' (kept_part pre ++ others).
Proof.
  intros C. pose proof (clean_good _ _ C) as G. pose proof (n_fatent_range v G) as Hn.
  destruct (clean_chains _ _ C (pre ++ c :: post)) as [_ Hch]; [apply list_elem_of_here |].
  pose proof (clean_nodup _ _ C) as Hnd. cbn [concat] in Hnd. apply list.NoDup_app in Hnd as (Hnd & _ & _).
  pose proof Hnd as (_ & Hpre & Hnd5)%list.NoDup_app. pose proof (chain_app_split _ _ _ _ Hch) as Hpost.
  assert (valid v c) as Hc by apply Hpost. unfold remove_chain.
  rewrite (proj2 (Z.ltb_ge c 2)), (proj2 (Z.leb_gt _ c)) by (unfold valid in Hc; lia). cbn [orb].
  assert (exists v1, (if negb (default 0 (list.last pre) =? 0) then put_fat (default 0 (list.last pre)) 0xFFFFFFFF v else (FR_OK, v)) = (FR_OK, v1)
    /\ kept v v1 /\ core (fs v1) = core (fs v)
    /\ forall x, valid v x -> table v1 x = if bool_decide (Some x = list.last pre) then eoc v else table v x) as (v1 & -> & K1 & C1 & T1).
  { destruct (list.last pre) as [p |] eqn:El.
    - change (default 0 (Some p)) with p. assert (valid v p) as Hp.
      { apply last_Some in El as (pre' & ->). apply (chain_valid (table v) _ _ p Hch). rewrite !elem_of_app, list_elem_of_singleton. auto. }
      rewrite (proj2 (Z.eqb_neq p 0)) by (unfold valid in Hp; lia). cbn [negb].
      destruct (eoc_value v G) as [He _]. destruct (put_fat_kept p 0xFFFFFFFF v (eoc v) G Hp) as (v1 & -> & K & C' & T); [lia | done |].
      exists v1. split; [done |]. split; [done |]. split; [done |]. intros x Hx. rewrite T by done.
      destruct (Z.eqb_spec x p) as [-> | Hne]; [by rewrite bool_decide_eq_true_2 | rewrite bool_decide_eq_false_2; congruence].
    - exists v. split; [done |]. split; [by apply kept_refl |]. done. }
  change (FR_OK =? FR_OK) with true. cbn [negb]. pose proof (kept_field n_fatent v v1 ltac:(done) K1) as En.
  destruct (core_free _ _ C1) as [Ef El1].
  assert (forall x, x ∈ c :: post -> table v1 x = table v x) as Tp.
  { intros x Hx. rewrite T1 by (by apply (chain_valid (table v) _ (c :: post))). rewrite bool_decide_eq_false_2; [done |].
    intros Hl. symmetry in Hl. apply last_Some in Hl as (pre' & ->). apply (Hpre x); [| done]. rewrite elem_of_app, list_elem_of_singleton. auto. }
  destruct (remove_loop_ok post c v1 (Z.to_nat (n_fatent (fs v1)))) as (v2 & E2 & F2).
  - apply K1.
  - rewrite En. by apply (chain_ext (table v)).
  - done.
  - rewrite En. assert (c :: post ⊆+ seqZ 2 (n_fatent (fs v) - 2)) as Hs by (apply clean_sub; [done |]; intros x; by apply (chain_valid (table v))).
    apply submseteq_length in Hs. rewrite length_seqZ in Hs. lia.
  - exists v2. split; [done |]. destruct F2 as [K2 T2 F2 U2]. pose proof (kept_trans v v1 v2 K1 K2) as K. split; [done |].
    apply (cut_clean v v2 pre c post others C K).
    + erewrite (remove_loop_last _ c v1 _ v2 (kept_good _ _ K1)), El1; [apply (clean_last _ _ C) | by apply (kept_valid v v1) | exact E2].
    + intros x Hx. rewrite T2 by (by apply (kept_valid v v1)). by rewrite T1.
    + rewrite <- Ef, <- En. exact F2.
    + rewrite <- Ef, <- En. exact U2.
Qed.

(** ** What the operations keep *)

(** C6: The chains of a volume without lost or shared clusters stay so, and the
    count of free clusters stays right: a new chain, or a chain made longer, gets
    a cluster that no chain had, or nothing when every cluster is in use;
    a chain cut short gives exactly the clusters behind the cut back.  Sectors
    of the data area are not touched. *)
Theorem chains_kept v files : clean v files ->
  (exists r v', create_chain 0 v = Some (r, v') /\ kept v v'
     /\ ((r = 0 /\ all_used v files /\ clean v' files) \/ (valid v r /\ (r ∉ concat files) /\ clean v' ([r] :: files))))
  /\ (forall pre p others, files ≡ₚ (pre ++ [p]) :: others ->
     exists r v', create_chain p v = Some (r, v') /\ kept v v'
       /\ ((r = 0 /\ all_used v files /\ clean v' files)
           \/ (valid v r /\ (r ∉ concat files) /\ clean v' ((pre ++ [p; r]) :: others))))
  /\ (forall pre c post others, files ≡ₚ (pre ++ c :: post) :: others ->
     exists v', remove_chain c (default 0 (list.last pre)) v = Some (FR_OK, v') /\ kept v v' /\ clean v' (kept_part pre ++ others)).
Proof.
  intros C. pose proof (clean_good _ _ C) as G. split; [| split].
  - destruct (create_ok 0 v files C) as (r & v' & E & [(-> & S & U) | (Hr & Hn & L)]); [by left | |]; exists r, v' || exists 0, v'; (split; [done |]).
    + split; [by apply same_kept |]. left. split; [done |]. split; [done |]. by apply (clean_same v).
    + split; [apply L |]. right. split; [done |]. split; [done |]. by apply (clean_new v).
  - intros pre p others P. pose proof (clean_perm v _ _ P C) as C'.
    destruct (clean_chains _ _ C' (pre ++ [p])) as [_ Hch]; [apply list_elem_of_here |].
    pose proof (chain_app_split _ _ _ _ Hch) as (Hp & Hend & _).
    destruct (create_ok p v files C) as (r & v' & E & [(-> & S & U) | (Hr & Hn & L)]); [by right | |]; exists r, v' || exists 0, v'; (split; [done |]).
    + split; [by apply same_kept |]. left. split; [done |]. split; [done |]. by apply (clean_same v).
    + split; [apply L |]. right. split; [done |]. split; [done |]. apply (clean_extend v v' pre p others r); try done.
      by rewrite <- (concat_perm _ _ P).
  - intros pre c post others P. apply (remove_ok v pre c post others). by apply (clean_perm v files).
Qed.

Lemma find_total clst scl v : good v -> 1 <= scl < n_fatent (fs v) -> clst = 0 \/ valid v clst ->
  exists r v', ('(r, v) ← find_free clst scl v; match r with inl r => Some (r, v) | inr ncl => Some (link clst ncl v) end) = Some (r, v')
    /\ kept v v' /\ (r = 0 \/ r = 1 \/ valid v r).
Proof.
  intros G Hs Hc. destruct (find_free_ok clst scl v G Hs) as (v1 & -> & S1). cbn [mbind option_bind]. pose proof (same_kept v v1 G S1) as K1.
  pose proof (fun c => candidates_elem v clst scl c G Hs) as Hcand.
  destruct (first_free_spec (table v) (candidates v clst scl)) as [(c & -> & H1 & _) | [(-> & _) | (-> & _)]]; [| exists 1, v1; by auto | exists 0, v1; by auto].
  apply Hcand in H1. destruct (link_ok clst c v1 (same_good _ _ S1)) as (v2 & -> & L).
  - destruct Hc as [? | Hc]; [by left | right]. by apply (kept_valid v v1).
  - by apply (kept_valid v v1).
  - exists c, v2. split; [done |]. split; [apply (kept_trans v v1); [done | apply L] | auto].
Qed.

(** C21: Removing a chain and looking for a cluster end on every table, cyclic
    chains and wrong links included: with success or the report of an internal
    error, and for a new cluster also with none found.  The passes are at most
    as many as the table has entries. *)
Theorem chains_terminate v c p : good v -> 0 <= last_clst (fs v) -> 0 <= c ->
  (exists res v', remove_chain c p v = Some (res, v') /\ kept v v' /\ (res = FR_OK \/ res = FR_INT_ERR))
  /\ (exists r v', create_chain c v = Some (r, v') /\ kept v v' /\ (r = 0 \/ r = 1 \/ valid v r)).
Proof.
  intros G Hl Hc0. pose proof (n_fatent_range v G) as Hn. pose proof (kept_refl v G) as K0. split.
  - unfold remove_chain. destruct ((c <? 2) || (n_fatent (fs v) <=? c)) eqn:Ec; [exists FR_INT_ERR, v; by auto |].
    apply orb_false_iff in Ec as [E1%Z.ltb_ge E2%Z.leb_gt].
    assert (exists res v1, (if negb (p =? 0) then put_fat p 0xFFFFFFFF v else (FR_OK, v)) = (res, v1) /\ kept v v1
      /\ (res = FR_OK \/ res = FR_INT_ERR)) as (res & v1 & -> & K1 & Hr).
    { destruct (p =? 0); cbn [negb]; [exists FR_OK, v; by auto |].
      destruct ((2 <=? p) && (p <? n_fatent (fs v))) eqn:Ep.
      - apply andb_true_iff in Ep as [P1%Z.leb_le P2%Z.ltb_lt].
        destruct (put_fat_kept p 0xFFFFFFFF v (eoc v) G) as (v1 & -> & K1 & _); [done | lia | by apply eoc_value |]. eauto 6.
      - exists FR_INT_ERR, v. split; [unfold put_fat; by rewrite Ep |]. auto. }
    destruct Hr as [-> | ->]; cbn [Z.eqb FR_OK FR_INT_ERR negb]; [| exists FR_INT_ERR, v1; by auto].
    destruct (remove_loop_total (Z.to_nat (n_fatent (fs v1))) c v1 (kept_good _ _ K1)) as (res & v2 & E & K2 & Hr).
    + by apply (kept_valid v v1).
    + apply used_bound, K1.
    + exists res, v2. split; [done |]. split; [by apply (kept_trans v v1) | done].
  - unfold create_chain. destruct (Z.eqb_spec c 0) as [-> | Hne].
    + case_match; [exists 0, v; by auto |]. apply find_total; [done | | by left]. case_match eqn:E; [lia |].
      apply orb_false_iff in E. lia.
    + destruct ((c <? 2) || (n_fatent (fs v) <=? c)) eqn:Ec; [unfold get_fat; rewrite Ec; by exists 1, v; auto |].
      apply orb_false_iff in Ec as [E1%Z.ltb_ge E2%Z.leb_gt]. assert (valid v c) as Hc by done.
      destruct (get_fat_ok c v G Hc) as (v1 & -> & S1). pose proof (same_kept v v1 G S1) as K1.
      destruct (Z.ltb_spec (table v c) 2); [exists 1, v1; by auto |]. destruct (table_not_error v c G) as [He _].
      rewrite (proj2 (Z.eqb_neq _ _)) by done. rewrite (same_field n_fatent v v1) by done.
      destruct (Z.ltb_spec (table v c) (n_fatent (fs v))); [exists (table v c), v1; split; [done |]; split; [done |]; right; right; done |].
      case_match; [exists 0, v1; by auto |].
      destruct (find_total c c v1 (same_good _ _ S1)) as (r & v2 & E & K2 & Hr).
      * rewrite (same_field n_fatent v v1) by done. lia.
      * right. by apply (kept_valid v v1).
      * exists r, v2. split; [done |]. split; [by apply (kept_trans v v1) |]. unfold valid in *. by rewrite (same_field n_fatent v v1) in Hr.
Qed.

End Disk.

(** ** On the disk in memory *)

Lemma ram_clean : clean ram_vol [[2; 3]].
Proof.
  split.
  - apply ram_good.
  - intros f Hf. apply list_elem_of_singleton in Hf as ->. split; [done |].
    vm_compute. repeat split; discriminate.
  - apply (bool_decide_unpack _). vm_compute. exact I.
  - assert (forallb (fun c => bool_decide (c ∈ concat [[2; 3]]) || (table ram_vol c =? 0)) (seqZ 2 398) = true) as H by (vm_compute; reflexivity).
    rewrite forallb_forall in H. intros c Hc Hin. specialize (H c). rewrite bool_decide_eq_false_2 in H by done. apply Z.eqb_eq, H.
    apply list_elem_of_In, elem_of_seqZ. unfold valid in Hc. cbn in Hc. lia.
  - left. reflexivity.
  - cbn. lia.
Qed.

Lemma chains_kept_witness :
  (exists r v', create_chain 0 ram_vol = Some (r, v') /\ kept ram_vol v'
     /\ ((r = 0 /\ all_used ram_vol [[2; 3]] /\ clean v' [[2; 3]])
         \/ (valid ram_vol r /\ (r ∉ concat [[2; 3]]) /\ clean v' ([r] :: [[2; 3]]))))
  /\ exists v', remove_chain 3 2 ram_vol = Some (FR_OK, v') /\ kept ram_vol v' /\ clean v' [[2]].
Proof.
  destruct (chains_kept ram_vol [[2; 3]] ram_clean) as (H1 & _ & H3). split; [exact H1 |].
  exact (H3 [2] 3 [] [] (Permutation_refl _)).
Defined.

Lemma chains_terminate_witness :
  exists res v', remove_chain 2 0 ram_vol = Some (res, v') /\ kept ram_vol v' /\ (res = FR_OK \/ res = FR_INT_ERR).
Proof. apply (chains_terminate ram_vol 2 0 ram_good); cbn; lia. Defined.

End FatChain.
