(* ===== verification/FatFile.v ===== *)
(** * The FAT file system: open files

    Models [f_read], [f_write], [f_lseek], [f_truncate] and [f_sync] of
    [system/src/ff15/source/ff.c] over the chains of [FatChain.v], in the
    configuration with a sector buffer in each file object.

    The effects of a call are those on the file object and on the volume; a call
    stops early where the code aborts it or leaves its loop.  Loops run on fuel,
    which is the number of bytes to transfer or the number of clusters. *)

From S2P Require Import Prelude FatTable FatChain.

Module FatFile.
Import FatTable FatChain.

Definition FR_DENIED : Z := 7.
Definition FR_INVALID_OBJECT : Z := 9.
Definition FR_TIMEOUT : Z := 15.

Definition FA_READ : Z := 0x01.
Definition FA_WRITE : Z := 0x02.
Definition FA_MODIFIED : Z := 0x40.
Definition FA_DIRTY : Z := 0x80.

Definition AM_ARC : Z := 0x20.
Definition STA_NOINIT : Z := 0x01.

Definition DIR_Attr : Z := 11.
Definition DIR_LstAccDate : Z := 18.
Definition DIR_FstClusHI : Z := 20.
Definition DIR_ModTime : Z := 22.
Definition DIR_FstClusLO : Z := 26.
Definition DIR_FileSize : Z := 28.

(** The file object, with the object identifier it starts with.  [obj_fs] says
    whether it belongs to a volume; [dir_ptr] is the place of the directory
    entry in the window. *)
Record FIL := mk_FIL {
  obj_fs : bool; obj_id : Z; sclust : Z; objsize : Z;
  flag : Z; err : Z; fptr : Z; clust : Z; sect : Z; dir_sect : Z; dir_ptr : Z; buf : bytes;
}.

Definition set_alloc (sc size : Z) (f : FIL) : FIL :=
  mk_FIL (obj_fs f) (obj_id f) sc size (flag f) (err f) (fptr f) (clust f) (sect f) (dir_sect f) (dir_ptr f) (buf f).
Definition set_flag (x : Z) (f : FIL) : FIL :=
  mk_FIL (obj_fs f) (obj_id f) (sclust f) (objsize f) x (err f) (fptr f) (clust f) (sect f) (dir_sect f) (dir_ptr f) (buf f).
Definition set_err (x : Z) (f : FIL) : FIL :=
  mk_FIL (obj_fs f) (obj_id f) (sclust f) (objsize f) (flag f) x (fptr f) (clust f) (sect f) (dir_sect f) (dir_ptr f) (buf f).
Definition set_place (p c : Z) (f : FIL) : FIL :=
  mk_FIL (obj_fs f) (obj_id f) (sclust f) (objsize f) (flag f) (err f) p c (sect f) (dir_sect f) (dir_ptr f) (buf f).
Definition set_cache (s : Z) (b : bytes) (f : FIL) : FIL :=
  mk_FIL (obj_fs f) (obj_id f) (sclust f) (objsize f) (flag f) (err f) (fptr f) (clust f) s (dir_sect f) (dir_ptr f) b.

Definition set_fptr (p : Z) (f : FIL) : FIL := set_place p (clust f) f.
Definition set_clust (c : Z) (f : FIL) : FIL := set_place (fptr f) c f.
Definition set_sect (s : Z) (f : FIL) : FIL := set_cache s (buf f) f.
Definition set_buf (b : bytes) (f : FIL) : FIL := set_cache (sect f) b f.
Definition set_sclust (c : Z) (f : FIL) : FIL := set_alloc c (objsize f) f.
Definition set_objsize (n : Z) (f : FIL) : FIL := set_alloc (sclust f) n f.
Definition raise_flag (m : Z) (f : FIL) : FIL := set_flag (flag f .| m) f.
Definition drop_flag (m : Z) (f : FIL) : FIL := set_flag (Z.ldiff (flag f) m) f.

(** Bytes of a block replaced from a place on. *)
Definition splice (i : Z) (xs b : bytes) : bytes :=
  take (Z.to_nat i) b ++ xs ++ drop (Z.to_nat i + length xs) b.

(** ** Effects *)

Inductive stop := Abort (e : Z) | Break.

Section File.
Context {D : Type} {DI : DiskIo D}.
Implicit Types v : vol D.
Implicit Types fp : FIL.

Definition M (A : Type) : Type := FIL -> vol D -> option ((stop + A) * FIL * vol D).

Definition ret {A} (a : A) : M A := fun fp v => Some (inr a, fp, v).
Definition abort {A} (e : Z) : M A := fun fp v => Some (inl (Abort e), fp, v).
Definition leave {A} : M A := fun fp v => Some (inl Break, fp, v).
Definition bind {A B} (m : M A) (k : A -> M B) : M B := fun fp v =>
  match m fp v with
  | Some (inr a, fp, v) => k a fp v
  | Some (inl e, fp, v) => Some (inl e, fp, v)
  | None => None
  end.
Definition modify (g : FIL -> FIL) : M unit := fun fp v => Some (inr tt, g fp, v).
Definition with_file {A} (k : FIL -> vol D -> M A) : M A := fun fp v => k fp v fp v.

Definition call_get_fat (c : Z) : M Z := fun fp v => let '(r, v) := get_fat c v in Some (inr r, fp, v).
Definition call_create_chain (c : Z) : M Z := fun fp v => '(r, v) ← create_chain c v; Some (inr r, fp, v).
Definition call_remove_chain (c p : Z) : M Z := fun fp v => '(r, v) ← remove_chain c p v; Some (inr r, fp, v).
Definition call_disk_write (b : bytes) (s n : Z) : M bool := fun fp v =>
  let '(ok, d) := disk_write b s n (dk v) in Some (inr ok, fp, mk_vol (fs v) d).
Definition call_disk_read (s n : Z) : M (bool * bytes) := fun fp v =>
  let '(ok, b, d) := disk_read s n (dk v) in Some (inr (ok, b), fp, mk_vol (fs v) d).

Notation "'let!' x := m 'in' k" := (bind m (fun x => k)) (at level 10, x name, m at level 100, k at level 200).
Notation "m ;; k" := (bind m (fun _ => k)) (at level 100, k at level 200, right associativity).

(** ** Shared pieces of the calls *)

(** [granted]: the lock of the volume is obtained in time. *)
Definition validate (granted : bool) fp v : Z :=
  if obj_fs fp && negb (fs_type (fs v) =? 0) && (obj_id fp =? fs_id (fs v)) then
    if granted then if test_mask (disk_status (dk v)) STA_NOINIT then FR_INVALID_OBJECT else FR_OK
    else FR_TIMEOUT
  else FR_INVALID_OBJECT.

(** The sector buffer goes to the disk when it has been changed. *)
Definition write_back : M unit :=
  with_file (fun fp _ =>
    if test_mask (flag fp) FA_DIRTY then
      let! ok := call_disk_write (buf fp) (sect fp) 1 in
      if (ok : bool) then modify (drop_flag FA_DIRTY) else abort FR_DISK_ERR
    else ret tt).

(** A sector comes into the buffer. *)
Definition fill (s : Z) : M unit :=
  let! r := call_disk_read s 1 in
  modify (set_buf r.2);; if (r.1 : bool) then ret tt else abort FR_DISK_ERR.

(** The sector of the current cluster at [csect]. *)
Definition file_sector (csect : Z) : M Z :=
  with_file (fun fp v =>
    let s := clst2sect (clust fp) v in
    if s =? 0 then abort FR_INT_ERR else ret (u32 (s + csect))).

Definition csect_of fp v : Z := (fptr fp / SS) .& (csize (fs v) - 1).

(** At most up to the end of the cluster. *)
Definition clip (csect cc : Z) v : Z := if csize (fs v) <? csect + cc then csize (fs v) - csect else cc.

(** ** Reading *)

Definition read_cluster : M unit :=
  with_file (fun fp _ =>
    let! clst := if fptr fp =? 0 then ret (sclust fp) else call_get_fat (clust fp) in
    if clst <? 2 then abort FR_INT_ERR
    else if clst =? DISK_ERROR then abort FR_DISK_ERR
    else modify (set_clust clst)).

(** Whole sectors straight to the caller, with the buffer in its place. *)
Definition read_direct (s cc : Z) : M bytes :=
  let! r := call_disk_read s cc in
  if (r.1 : bool) then
    with_file (fun fp _ =>
      ret (if test_mask (flag fp) FA_DIRTY && (u32 (sect fp - s) <? cc) then splice (SS * (sect fp - s)) (buf fp) r.2 else r.2))
  else abort FR_DISK_ERR.

Definition read_partial (btr : Z) : M bytes :=
  with_file (fun fp _ =>
    let rcnt := SS - fptr fp mod SS in
    let rcnt := if btr <? rcnt then btr else rcnt in
    ret (take (Z.to_nat rcnt) (drop (Z.to_nat (fptr fp mod SS)) (buf fp)))).

Definition read_step (btr : Z) : M bytes :=
  with_file (fun fp v =>
    if fptr fp mod SS =? 0 then
      let csect := csect_of fp v in
      (if csect =? 0 then read_cluster else ret tt);;
      let! s := file_sector csect in
      let cc := btr / SS in
      if 0 <? cc then read_direct s (clip csect cc v)
      else
        (if negb (sect fp =? s) then write_back;; fill s else ret tt);;
        modify (set_sect s);; read_partial btr
    else read_partial btr).

Definition advance (n : Z) fp : FIL := set_fptr (u32 (fptr fp + n)) fp.

Fixpoint read_loop (fuel : nat) (btr : Z) fp v : option (Z * bytes * FIL * vol D) :=
  if btr =? 0 then Some (FR_OK, [], fp, v)
  else
    match fuel with
    | O => None
    | S fuel =>
      '(r, fp, v) ← read_step btr fp v;
      match r with
      | inl (Abort e) => Some (e, [], set_err e fp, v)
      | inl Break => None
      | inr b =>
        let rcnt := Z.of_nat (length b) in
        '(res, bs, fp, v) ← read_loop fuel (btr - rcnt) (advance rcnt fp) v; Some (res, b ++ bs, fp, v)
      end
    end.

Definition f_read (granted : bool) (btr : Z) fp v : option (Z * bytes * FIL * vol D) :=
  let res := validate granted fp v in
  if negb (res =? FR_OK) then Some (res, [], fp, v)
  else if negb (err fp =? FR_OK) then Some (err fp, [], fp, v)
  else if negb (test_mask (flag fp) FA_READ) then Some (FR_DENIED, [], fp, v)
  else
    let remain := u32 (objsize fp - fptr fp) in
    let btr := if remain <? btr then remain else btr in
    read_loop (Z.to_nat btr) btr fp v.

(** ** Writing *)

Definition write_cluster : M unit :=
  with_file (fun fp _ =>
    let! clst :=
      if fptr fp =? 0 then if sclust fp =? 0 then call_create_chain 0 else ret (sclust fp)
      else call_create_chain (clust fp) in
    if clst =? 0 then leave
    else if clst =? 1 then abort FR_INT_ERR
    else if clst =? DISK_ERROR then abort FR_DISK_ERR
    else modify (fun fp => if sclust fp =? 0 then set_sclust clst (set_clust clst fp) else set_clust clst fp)).

Definition write_direct (wbuff : bytes) (s cc : Z) : M Z :=
  let! ok := call_disk_write (take (Z.to_nat (SS * cc)) wbuff) s cc in
  if (ok : bool) then
    modify (fun fp =>
      if u32 (sect fp - s) <? cc
      then drop_flag FA_DIRTY (set_buf (take 512 (drop (Z.to_nat (SS * (sect fp - s))) wbuff)) fp) else fp);;
    ret (SS * cc)
  else abort FR_DISK_ERR.

Definition write_partial (wbuff : bytes) : M Z :=
  with_file (fun fp _ =>
    let btw := Z.of_nat (length wbuff) in
    let wcnt := SS - fptr fp mod SS in
    let wcnt := if btw <? wcnt then btw else wcnt in
    modify (fun fp => raise_flag FA_DIRTY (set_buf (splice (fptr fp mod SS) (take (Z.to_nat wcnt) wbuff) (buf fp)) fp));;
    ret wcnt).

Definition write_step (wbuff : bytes) : M Z :=
  with_file (fun fp v =>
    if fptr fp mod SS =? 0 then
      let csect := csect_of fp v in
      (if csect =? 0 then write_cluster else ret tt);;
      write_back;;
      let! s := file_sector csect in
      let cc := Z.of_nat (length wbuff) / SS in
      if 0 <? cc then write_direct wbuff s (clip csect cc v)
      else
        (if negb (sect fp =? s) && (fptr fp <? objsize fp) then fill s else ret tt);;
        modify (set_sect s);; write_partial wbuff
    else write_partial wbuff).

Definition grow (n : Z) fp : FIL :=
  let fp := advance n fp in if objsize fp <? fptr fp then set_objsize (fptr fp) fp else fp.

(** The error that ends the loop, if any, and the number of bytes written. *)
Fixpoint write_loop (fuel : nat) (wbuff : bytes) fp v : option (option Z * Z * FIL * vol D) :=
  match wbuff with
  | [] => Some (None, 0, fp, v)
  | _ =>
    match fuel with
    | O => None
    | S fuel =>
      '(r, fp, v) ← write_step wbuff fp v;
      match r with
      | inl (Abort e) => Some (Some e, 0, set_err e fp, v)
      | inl Break => Some (None, 0, fp, v)
      | inr wcnt =>
        '(res, bw, fp, v) ← write_loop fuel (drop (Z.to_nat wcnt) wbuff) (grow wcnt fp) v; Some (res, wcnt + bw, fp, v)
      end
    end
  end.

Definition f_write (granted : bool) (wbuff : bytes) fp v : option (Z * Z * FIL * vol D) :=
  let res := validate granted fp v in
  if negb (res =? FR_OK) then Some (res, 0, fp, v)
  else if negb (err fp =? FR_OK) then Some (err fp, 0, fp, v)
  else if negb (test_mask (flag fp) FA_WRITE) then Some (FR_DENIED, 0, fp, v)
  else
    let btw := Z.of_nat (length wbuff) in
    let btw := if u32 (fptr fp + btw) <? fptr fp then 0xFFFFFFFF - fptr fp else btw in
    '(e, bw, fp, v) ← write_loop (Z.to_nat btw) (take (Z.to_nat btw) wbuff) fp v;
    Some (match e with Some e => (e, bw, fp, v) | None => (FR_OK, bw, raise_flag FA_MODIFIED fp, v) end).

(** ** Moving the pointer *)

(** The cluster to start from and the distance from its start: the current one
    when the target is in it or behind it, the first one otherwise. *)
Definition seek_start (ifptr ofs : Z) : M (Z * Z) :=
  with_file (fun fp v =>
    let bcs := csize (fs v) * SS in
    if (0 <? ifptr) && ((ifptr - 1) / bcs <=? (ofs - 1) / bcs) then
      let p := Z.ldiff (ifptr - 1) (bcs - 1) in
      modify (set_fptr p);; ret (clust fp, ofs - p)
    else
      (if sclust fp =? 0 then
         let! clst := call_create_chain 0 in
         if clst =? 1 then abort FR_INT_ERR
         else if clst =? DISK_ERROR then abort FR_DISK_ERR
         else modify (set_sclust clst)
       else ret tt);;
      with_file (fun fp _ => modify (set_clust (sclust fp));; ret (sclust fp, ofs))).

(** The loop that follows the clusters, stretching the chain of a file that is
    open for writing; a full disk ends it at the end of the last cluster. *)
Fixpoint seek_loop (fuel : nat) (bcs clst ofs : Z) : M (Z * Z) :=
  if bcs <? ofs then
    match fuel with
    | O => fun _ _ => None
    | S fuel =>
      let ofs := ofs - bcs in
      modify (fun fp => set_fptr (u32 (fptr fp + bcs)) fp);;
      with_file (fun fp v =>
        let write := test_mask (flag fp) FA_WRITE in
        let! clst := if (write : bool) then call_create_chain clst else call_get_fat clst in
        if write && (clst =? 0) then ret (clst, 0)
        else if clst =? DISK_ERROR then abort FR_DISK_ERR
        else if (clst <=? 1) || (n_fatent (fs v) <=? clst) then abort FR_INT_ERR
        else modify (set_clust clst);; seek_loop fuel bcs clst ofs)
    end
  else ret (clst, ofs).

(** The new place and its sector, 0 on a sector boundary. *)
Definition seek_to (ifptr ofs : Z) : M Z :=
  modify (set_fptr 0);;
  if 0 <? ofs then
    let! start := seek_start ifptr ofs in
    if start.1 =? 0 then ret 0
    else
      with_file (fun _ v =>
        let! place := seek_loop (Z.to_nat (start.2 / (csize (fs v) * SS))) (csize (fs v) * SS) start.1 start.2 in
        modify (fun fp => set_fptr (u32 (fptr fp + place.2)) fp);;
        if negb (place.2 mod SS =? 0) then
          with_file (fun _ v =>
            let s := clst2sect place.1 v in
            if s =? 0 then abort FR_INT_ERR else ret (u32 (s + place.2 / SS)))
        else ret 0)
  else ret 0.

Definition seek (ofs : Z) : M unit :=
  with_file (fun fp _ =>
    let! nsect := seek_to (fptr fp) ofs in
    modify (fun fp => if objsize fp <? fptr fp then raise_flag FA_MODIFIED (set_objsize (fptr fp) fp) else fp);;
    with_file (fun fp _ =>
      if negb (fptr fp mod SS =? 0) && negb (nsect =? sect fp)
      then write_back;; fill nsect;; modify (set_sect nsect) else ret tt)).

Definition f_lseek (granted : bool) (ofs : Z) fp v : option (Z * FIL * vol D) :=
  let res := validate granted fp v in
  let res := if res =? FR_OK then err fp else res in
  if negb (res =? FR_OK) then Some (res, fp, v)
  else
    let ofs := if (objsize fp <? ofs) && negb (test_mask (flag fp) FA_WRITE) then objsize fp else ofs in
    '(r, fp, v) ← seek ofs fp v;
    match r with
    | inl (Abort e) => Some (e, set_err e fp, v)
    | inl Break => None
    | inr _ => Some (FR_OK, fp, v)
    end.

(** ** Cutting a file at the pointer *)

Definition truncate_chain : M Z :=
  with_file (fun fp v =>
    if fptr fp =? 0 then
      let! res := call_remove_chain (sclust fp) 0 in
      modify (set_sclust 0);; ret res
    else
      let! ncl := call_get_fat (clust fp) in
      let res := if ncl =? DISK_ERROR then FR_DISK_ERR else FR_OK in
      let res := if ncl =? 1 then FR_INT_ERR else res in
      if (res =? FR_OK) && (ncl <? n_fatent (fs v)) then call_remove_chain ncl (clust fp) else ret res).

Definition truncate : M Z :=
  let! res := truncate_chain in
  modify (fun fp => raise_flag FA_MODIFIED (set_objsize (fptr fp) fp));;
  with_file (fun fp _ =>
    if (res =? FR_OK) && test_mask (flag fp) FA_DIRTY then
      let! ok := call_disk_write (buf fp) (sect fp) 1 in
      if (ok : bool) then modify (drop_flag FA_DIRTY);; ret res else ret FR_DISK_ERR
    else ret res).

Definition f_truncate (granted : bool) fp v : option (Z * FIL * vol D) :=
  let res := validate granted fp v in
  if negb (res =? FR_OK) then Some (res, fp, v)
  else if negb (err fp =? FR_OK) then Some (err fp, fp, v)
  else if negb (test_mask (flag fp) FA_WRITE) then Some (FR_DENIED, fp, v)
  else if fptr fp <? objsize fp then
    '(r, fp, v) ← truncate fp v;
    match r with
    | inr res => Some (res, if res =? FR_OK then fp else set_err res fp, v)
    | inl _ => None
    end
  else Some (FR_OK, fp, v).

(** ** Flushing *)

Definition st_clust (type dir cl : Z) (w : bytes) : bytes :=
  let w := st_word (dir + DIR_FstClusLO) (u16 cl) w in
  if type =? FS_FAT32 then st_word (dir + DIR_FstClusHI) (u16 (Z.shiftr cl 16)) w else w.

(** The directory entry at [dir], with the time [tm]. *)
Definition dir_entry (type dir cl size tm : Z) (w : bytes) : bytes :=
  st_word (dir + DIR_LstAccDate) 0
    (st_dword (dir + DIR_ModTime) tm
      (st_dword (dir + DIR_FileSize) size
        (st_clust type dir cl
          (put_byte (dir + DIR_Attr) (byte_at w (dir + DIR_Attr) .| AM_ARC) w)))).

Definition f_sync (granted : bool) (tm : Z) fp v : Z * FIL * vol D :=
  let res := validate granted fp v in
  if (res =? FR_OK) && test_mask (flag fp) FA_MODIFIED then
    match write_back fp v with
    | Some (inr _, fp, v) =>
      let '(res, v) := move_window (dir_sect fp) v in
      if res =? FR_OK then
        let v := edit (dir_entry (fs_type (fs v)) (dir_ptr fp) (sclust fp) (objsize fp) tm) v in
        let '(res, v) := sync_fs v in
        (res, drop_flag FA_MODIFIED fp, v)
      else (res, fp, v)
    | Some (inl _, fp, v) => (FR_DISK_ERR, fp, v)
    | None => (FR_DISK_ERR, fp, v)
    end
  else (res, fp, v).

End File.

(** ** Bytes of lists *)

Lemma bytes_ext (l l' : bytes) : length l = length l' ->
  (forall i, 0 <= i < Z.of_nat (length l) -> byte_at l i = byte_at l' i) -> l = l'.
Proof.
  intros Hl H. apply (nth_ext _ _ 0 0 Hl). intros n Hn. specialize (H (Z.of_nat n) ltac:(lia)). unfold byte_at in H. by rewrite Nat2Z.id in H.
Qed.

Lemma byte_at_take n (l : bytes) i : 0 <= i < n -> byte_at (take (Z.to_nat n) l) i = byte_at l i.
Proof. intros H. unfold byte_at. rewrite !nth_lookup, lookup_take. by rewrite decide_True by lia. Qed.

Lemma byte_at_drop n (l : bytes) i : 0 <= i -> 0 <= n -> byte_at (drop (Z.to_nat n) l) i = byte_at l (n + i).
Proof. intros H Hn. unfold byte_at. rewrite !nth_lookup, lookup_drop. do 2 f_equal. lia. Qed.

Lemma byte_at_app (l1 l2 : bytes) i : 0 <= i ->
  byte_at (l1 ++ l2) i = if i <? Z.of_nat (length l1) then byte_at l1 i else byte_at l2 (i - Z.of_nat (length l1)).
Proof.
  intros Hi. unfold byte_at. case_match eqn:E.
  - rewrite app_nth1 by lia. done.
  - rewrite app_nth2 by lia. f_equal. lia.
Qed.

Lemma splice_length i xs b : 0 <= i -> i <= Z.of_nat (length b) ->
  Z.of_nat (length (splice i xs b)) = Z.max (Z.of_nat (length b)) (i + Z.of_nat (length xs)).
Proof. intros Hi Hb. unfold splice. rewrite !length_app, length_take, length_drop. lia. Qed.

Lemma splice_byte i xs b j : 0 <= i -> i <= Z.of_nat (length b) -> 0 <= j ->
  byte_at (splice i xs b) j = if (i <=? j) && (j <? i + Z.of_nat (length xs)) then byte_at xs (j - i) else byte_at b j.
Proof.
  intros Hi Hb Hj. unfold splice. rewrite !byte_at_app by (lia || rewrite length_take; lia). rewrite length_take.
  rewrite Nat.min_l by lia. rewrite Z2Nat.id by lia. destruct (Z.ltb_spec j i).
  - rewrite byte_at_take by lia. by rewrite (proj2 (Z.leb_gt i j)) by lia.
  - rewrite (proj2 (Z.leb_le i j)) by lia. cbn [andb]. rewrite byte_at_app by lia.
    destruct (Z.ltb_spec (j - i) (Z.of_nat (length xs))).
    + by rewrite (proj2 (Z.ltb_lt _ _)) by lia.
    + rewrite (proj2 (Z.ltb_ge j _)) by lia. replace (Z.to_nat i + length xs)%nat with (Z.to_nat (i + Z.of_nat (length xs))) by lia.
      rewrite byte_at_drop by lia. f_equal. lia.
Qed.

Lemma splice_bytes i xs b : is_bytes xs -> is_bytes b -> is_bytes (splice i xs b).
Proof. intros H1 H2. unfold splice. apply Forall_app. split; [by apply Forall_take |]. apply Forall_app. split; [done | by apply Forall_drop]. Qed.

(** Blocks of 512 bytes one after the other. *)
Lemma concat_blocks (g : Z -> bytes) n : forall s, (forall i, length (g i) = 512%nat) ->
  Z.of_nat (length (concat (g <$> seqZ s (Z.of_nat n)))) = 512 * Z.of_nat n
  /\ forall i, 0 <= i < 512 * Z.of_nat n -> byte_at (concat (g <$> seqZ s (Z.of_nat n))) i = byte_at (g (s + i / 512)) (i mod 512).
Proof.
  induction n as [| n IH]; intros s Hg; [split; [done | lia] |].
  rewrite seqZ_cons by lia. replace (Z.pred (Z.of_nat (S n))) with (Z.of_nat n) by lia. rewrite fmap_cons. cbn [concat].
  destruct (IH (Z.succ s) Hg) as [Hl Hb]. split; [rewrite length_app, Hg; lia |].
  intros i Hi. rewrite byte_at_app, Hg by lia. change (Z.of_nat 512) with 512. destruct (Z.ltb_spec i 512).
  - rewrite Z.div_small, Z.mod_small by lia. by rewrite Z.add_0_r.
  - rewrite Hb by lia. replace (Z.succ s + (i - 512) / 512) with (s + i / 512) by divlia. f_equal. divlia.
Qed.

(** ** Flags *)

Lemma flag_ldiff f m n : test_mask (Z.ldiff f m) n = test_mask f (Z.ldiff n m).
Proof.
  unfold test_mask. do 2 f_equal. apply Z.bits_inj'. intros i Hi. rewrite !Z.land_spec, !Z.ldiff_spec.
  destruct (Z.testbit f i), (Z.testbit m i), (Z.testbit n i); done.
Qed.

Lemma ldiff_clear f k : 0 <= k -> test_mask f (2 ^ k) = false -> Z.ldiff f (2 ^ k) = f.
Proof.
  intros Hk H. unfold test_mask in H. apply negb_false_iff, Z.eqb_eq in H. apply Z.bits_inj'. intros i Hi.
  rewrite Z.ldiff_spec. pose proof (f_equal (fun x => Z.testbit x i) H) as E. cbv beta in E. rewrite Z.land_spec, Z.bits_0 in E.
  destruct (Z.testbit f i), (Z.testbit (2 ^ k) i); done.
Qed.

Definition dirty (fp : FIL) : bool := test_mask (flag fp) FA_DIRTY.

Lemma dirty_raise fp : dirty (raise_flag FA_DIRTY fp) = true.
Proof. unfold dirty. cbn. by rewrite test_mask_lor, orb_true_r. Qed.

Lemma dirty_drop fp : dirty (drop_flag FA_DIRTY fp) = false.
Proof. unfold dirty. cbn. rewrite flag_ldiff. unfold test_mask. change (Z.ldiff FA_DIRTY FA_DIRTY) with 0. by rewrite Z.land_0_r. Qed.

Lemma drop_clean fp : dirty fp = false -> drop_flag FA_DIRTY fp = fp.
Proof. intros H. unfold drop_flag. destruct fp. unfold set_flag. cbn in *. f_equal. change FA_DIRTY with (2 ^ 7). apply ldiff_clear; [lia | done]. Qed.

Section Disk.
Context {D : Type} {DI : DiskIo D} {SD : SectorDisk D}.
Implicit Types v : vol D.
Implicit Types fp : FIL.

(** ** Sectors of a file *)

(** The sector [j] of the cluster [c], and the sector [k] of a chain. *)
Definition sec_of (f : FATFS) (c j : Z) : Z := database f + csize f * (c - 2) + j.
Definition cluster (cs : list Z) (i : Z) : Z := nth (Z.to_nat i) cs 0.
Definition fsect (f : FATFS) (cs : list Z) (k : Z) : Z := sec_of f (cluster cs (k / csize f)) (k mod csize f).

(** The number of sectors of a chain. *)
Definition room (f : FATFS) (cs : list Z) : Z := csize f * Z.of_nat (length cs).

Definition pow2 (n : Z) : Prop := exists k, 0 <= k <= 15 /\ n = 2 ^ k.

Lemma pow2_mod n x : pow2 n -> x .& (n - 1) = x mod n.
Proof. intros (k & Hk & ->). rewrite <- Z.land_ones by lia. by rewrite Z.ones_equiv, <- Z.sub_1_r. Qed.

Lemma pow2_range n : pow2 n -> 1 <= n <= 2 ^ 15.
Proof. intros (k & Hk & ->). split; [pose proof (Z.pow_pos_nonneg 2 k); lia | apply Z.pow_le_mono_r; lia]. Qed.

Lemma cluster_elem cs i : 0 <= i < Z.of_nat (length cs) -> cluster cs i ∈ cs.
Proof. intros Hi. apply list_elem_of_In, nth_In. lia. Qed.

Lemma cluster_app1 cs ds i : 0 <= i < Z.of_nat (length cs) -> cluster (cs ++ ds) i = cluster cs i.
Proof. intros Hi. apply app_nth1. lia. Qed.

Lemma cluster_inj cs i j : NoDup cs -> 0 <= i < Z.of_nat (length cs) -> 0 <= j < Z.of_nat (length cs) -> cluster cs i = cluster cs j -> i = j.
Proof.
  intros Hnd Hi Hj E. unfold cluster in E. enough (Z.to_nat i = Z.to_nat j) by lia.
  destruct (lookup_lt_is_Some_2 cs (Z.to_nat i)) as [x Hx]; [lia |]. destruct (lookup_lt_is_Some_2 cs (Z.to_nat j)) as [y Hy]; [lia |].
  rewrite !nth_lookup, Hx, Hy in E. cbn in E. subst y. by apply (NoDup_lookup cs (Z.to_nat i) (Z.to_nat j) x).
Qed.

(** Two sectors in clusters are the same only when cluster and place are. *)
Lemma sec_of_inj f c j c' j' : 0 <= j < csize f -> 0 <= j' < csize f -> sec_of f c j = sec_of f c' j' -> c = c' /\ j = j'.
Proof. unfold sec_of. intros H1 H2 H. assert (c = c') by nia. subst. split; [done | lia]. Qed.

Lemma room_index f cs k : 1 <= csize f -> 0 <= k < room f cs -> 0 <= k / csize f < Z.of_nat (length cs) /\ 0 <= k mod csize f < csize f.
Proof.
  unfold room. intros Hc Hk. pose proof (Z.mod_pos_bound k (csize f)). split; [| lia]. split; [apply Z.div_pos; lia |].
  apply Z.div_lt_upper_bound; lia.
Qed.

(** A run of sectors that ends in the cluster it starts in has room. *)
Lemma room_cluster f cs k cc : 1 <= csize f -> 0 <= k < room f cs -> k mod csize f + cc <= csize f -> k + cc <= room f cs.
Proof.
  intros Hc Hk H. destruct (room_index f cs k Hc Hk) as [H1 _]. unfold room. pose proof (Z.div_mod k (csize f) ltac:(lia)). nia.
Qed.

Lemma fsect_inj f cs k k' : 1 <= csize f -> NoDup cs -> 0 <= k < room f cs -> 0 <= k' < room f cs ->
  fsect f cs k = fsect f cs k' -> k = k'.
Proof.
  intros Hc Hnd Hk Hk' E. destruct (room_index f cs k Hc Hk) as [H1 H2], (room_index f cs k' Hc Hk') as [H3 H4].
  apply sec_of_inj in E as [E1 E2]; try done. apply cluster_inj in E1; try done.
  rewrite (Z.div_mod k (csize f)), (Z.div_mod k' (csize f)) by lia. congruence.
Qed.

Lemma fsect_app f cs ds k : 1 <= csize f -> 0 <= k < room f cs -> fsect f (cs ++ ds) k = fsect f cs k.
Proof. intros Hc Hk. unfold fsect. rewrite cluster_app1; [done |]. by apply room_index. Qed.

(** Consecutive sectors of a cluster. *)
Lemma fsect_next f cs k j : 1 <= csize f -> 0 <= k -> 0 <= j -> k mod csize f + j < csize f -> fsect f cs (k + j) = fsect f cs k + j.
Proof.
  intros Hc Hk Hj H. unfold fsect, sec_of. pose proof (Z.mod_pos_bound k (csize f) ltac:(lia)).
  assert ((k + j) / csize f = k / csize f /\ (k + j) mod csize f = k mod csize f + j) as [-> ->]; [| lia].
  pose proof (Z.div_mod k (csize f) ltac:(lia)).
  split; [symmetry; apply (Z.div_unique_pos _ _ _ (k mod csize f + j)); lia |].
  symmetry. apply (Z.mod_unique_pos _ _ (k / csize f)); lia.
Qed.

Lemma sec_of_range v c j : good v -> valid v c -> 0 <= j < csize (fs v) -> database (fs v) <= sec_of (fs v) c j < disk_size.
Proof. intros G Hc Hj. destruct (good_geo v G) as [_ _ _ _ _ _ _ Hsz]. unfold valid, sec_of in *. nia. Qed.

Lemma database_pos v : good v -> 0 < database (fs v) < 2 ^ 32.
Proof.
  intros G. pose proof disk_size_u32. pose proof (fsize_pos _ (good_geo v G)). pose proof (n_fatent_range v G).
  destruct (good_geo v G) as [_ Hf _ _ [Hv _] Hb Hc Hsz]. nia.
Qed.

Lemma clst2sect_ok c v : good v -> valid v c -> clst2sect c v = sec_of (fs v) c 0 /\ sec_of (fs v) c 0 <> 0.
Proof.
  intros G Hc. pose proof (n_fatent_range v G). pose proof (database_pos v G) as Hd. pose proof disk_size_u32.
  pose proof (good_geo v G) as [_ _ _ _ _ _ Hcs _]. pose proof (sec_of_range v c 0 G Hc ltac:(lia)) as Hr. unfold valid in Hc. unfold clst2sect.
  rewrite !u32_id by (unfold is_u32; lia). rewrite (proj2 (Z.leb_gt _ _)) by lia. unfold sec_of in *.
  rewrite u32_id by (unfold is_u32; lia). lia.
Qed.

(** ** The invariant of an open file *)

(** The sectors that are the file's, or may become: those of the clusters that
    the others do not have. *)
Definition mine (f : FATFS) (others : list (list Z)) (s : Z) : Prop :=
  exists c j, 2 <= c < n_fatent f /\ (c ∉ concat others) /\ 0 <= j < csize f /\ s = sec_of f c j.

(** The volume: the chain [cs] of the file and those of the others share nothing,
    and the window holds none of the sectors that are the file's. *)
Record vol_ok v (cs : list Z) (others : list (list Z)) : Prop := {
  vo_clean : clean v (kept_part cs ++ others);
  vo_csize : pow2 (csize (fs v));
  vo_window : ~ mine (fs v) others (winsect (fs v));
}.

(** What the file object makes of a sector. *)
Definition seen fp (d : D) (s : Z) : bytes := if s =? sect fp then buf fp else sector d s.

(** The buffer, and the data read through it. *)
Record content v fp (cs : list Z) (data : bytes) : Prop := {
  co_buf : length (buf fp) = 512%nat /\ is_bytes (buf fp);
  co_dirty : dirty fp = true -> exists k, 0 <= k < room (fs v) cs /\ sect fp = fsect (fs v) cs k;
  co_clean : dirty fp = false -> sect fp = 0 \/ (database (fs v) <= sect fp < disk_size /\ sect fp <> winsect (fs v) /\ buf fp = sector (dk v) (sect fp));
  co_data i : 0 <= i < Z.of_nat (length data) -> byte_at data i = byte_at (seen fp (dk v) (fsect (fs v) cs (i / 512))) (i mod 512);
  co_room : Z.of_nat (length data) <= 512 * room (fs v) cs;
  co_bytes : is_bytes data;
}.

(** The pointer and the sizes. *)
Record place (f : FATFS) fp (cs : list Z) (size : Z) : Prop := {
  pl_start : sclust fp = hd 0 cs;
  pl_size : objsize fp = size /\ size < 2 ^ 32;
  pl_ptr : 0 <= fptr fp <= size;
  pl_clust : 0 < fptr fp -> clust fp = cluster cs ((fptr fp - 1) / (512 * csize f));
  pl_sect : fptr fp mod 512 <> 0 -> sect fp = fsect f cs (fptr fp / 512);
}.

(** The sector in the buffer is the file's. *)
Definition safe_sect v fp (others : list (list Z)) : Prop := sect fp = 0 \/ mine (fs v) others (sect fp).

(** The bytes the file may have at most. *)
Definition capacity v (others : list (list Z)) : Z := 512 * (csize (fs v) * (n_fatent (fs v) - 2 - Z.of_nat (length (concat others)))).

Record file_ok v fp (cs : list Z) (data : bytes) (others : list (list Z)) : Prop := {
  fo_valid : obj_fs fp = true /\ obj_id fp = fs_id (fs v) /\ err fp = 0;
  fo_vol : vol_ok v cs others;
  fo_content : content v fp cs data;
  fo_place : place (fs v) fp cs (Z.of_nat (length data));
  fo_sect : safe_sect v fp others;
}.

(** What a step leaves alone: the sectors behind the table that are not the
    file's. *)
Record apart v v' (others : list (list Z)) : Prop := {
  ap_layout : layout (fs v') = layout (fs v);
  ap_mirrored : mirrored v -> mirrored v';
  ap_view s : table_end (fs v) <= s -> ~ mine (fs v) others s -> view v' s = view v s;
}.

(** ** Reasoning about effects

    [wp m fp v Q]: the call ends, in a result and a state that satisfy [Q]. *)
Definition wp {A} (m : M (D := D) A) fp v (Q : stop + A -> FIL -> vol D -> Prop) : Prop :=
  exists r fp' v', m fp v = Some (r, fp', v') /\ Q r fp' v'.

(** The call does not stop early. *)
Definition wpr {A} (m : M (D := D) A) fp v (Q : A -> FIL -> vol D -> Prop) : Prop :=
  wp m fp v (fun r fp v => match r with inr a => Q a fp v | inl _ => False end).

Lemma wp_mono {A} (m : M A) fp v (Q Q' : stop + A -> FIL -> vol D -> Prop) :
  wp m fp v Q -> (forall r fp' v', Q r fp' v' -> Q' r fp' v') -> wp m fp v Q'.
Proof. intros (r & fp' & v' & E & H) HQ. exists r, fp', v'. auto. Qed.

Lemma wpr_mono {A} (m : M A) fp v (Q Q' : A -> FIL -> vol D -> Prop) :
  wpr m fp v Q -> (forall a fp' v', Q a fp' v' -> Q' a fp' v') -> wpr m fp v Q'.
Proof. intros H HQ. apply (wp_mono _ _ _ _ _ H). intros [e | a] fp' v'; auto. Qed.

Lemma wp_of {A} (m : M A) fp v (Q : A -> FIL -> vol D -> Prop) (Q' : stop + A -> FIL -> vol D -> Prop) :
  wpr m fp v Q -> (forall a fp' v', Q a fp' v' -> Q' (inr a) fp' v') -> wp m fp v Q'.
Proof. intros H HQ. apply (wp_mono _ _ _ _ _ H). intros [e | a] fp' v'; [done | auto]. Qed.

Lemma wp_bind {A B} (m : M A) (k : A -> M B) fp v Q :
  wpr m fp v (fun a fp v => wp (k a) fp v Q) -> wp (bind m k) fp v Q.
Proof.
  intros ([e | a] & fp' & v' & E & H); [done |]. destruct H as (r & fp2 & v2 & E2 & H2).
  exists r, fp2, v2. split; [| done]. unfold bind. by rewrite E.
Qed.

(** A call that may stop early: then the whole stops. *)
Lemma wp_bind_stop {A B} (m : M A) (k : A -> M B) fp v (Q : stop + B -> FIL -> vol D -> Prop) :
  wp m fp v (fun r fp v => match r with inr a => wp (k a) fp v Q | inl e => Q (inl e) fp v end) -> wp (bind m k) fp v Q.
Proof.
  intros ([e | a] & fp' & v' & E & H); [| destruct H as (r & fp2 & v2 & E2 & H2)].
  - exists (inl e), fp', v'. split; [| done]. unfold bind. by rewrite E.
  - exists r, fp2, v2. split; [| done]. unfold bind. by rewrite E.
Qed.

Lemma wpr_bind {A B} (m : M A) (k : A -> M B) fp v Q :
  wpr m fp v (fun a fp v => wpr (k a) fp v Q) -> wpr (bind m k) fp v Q.
Proof. apply wp_bind. Qed.

Lemma bind_assoc {A B C} (m : M (D := D) A) (k : A -> M B) (h : B -> M C) fp v :
  bind (bind m k) h fp v = bind m (fun a => bind (k a) h) fp v.
Proof. unfold bind. by destruct (m fp v) as [[[[e | a] f] w] |]. Qed.

Lemma wpr_assoc {A B C} (m : M A) (k : A -> M B) (h : B -> M C) fp v Q :
  wpr (bind (bind m k) h) fp v Q <-> wpr (bind m (fun a => bind (k a) h)) fp v Q.
Proof. unfold wpr, wp. by rewrite bind_assoc. Qed.

Lemma wpr_ret {A} (a : A) fp v (Q : A -> FIL -> vol D -> Prop) : Q a fp v -> wpr (ret a) fp v Q.
Proof. intros H. by exists (inr a), fp, v. Qed.

Lemma wpr_modify g fp v (Q : unit -> FIL -> vol D -> Prop) : Q tt (g fp) v -> wpr (modify g) fp v Q.
Proof. intros H. by exists (inr tt), (g fp), v. Qed.

Lemma wp_modify g fp v (Q : stop + unit -> FIL -> vol D -> Prop) : Q (inr tt) (g fp) v -> wp (modify g) fp v Q.
Proof. intros H. by exists (inr tt), (g fp), v. Qed.

Lemma wp_with_file {A} (k : FIL -> vol D -> M A) fp v Q : wp (k fp v) fp v Q -> wp (with_file k) fp v Q.
Proof. done. Qed.

Lemma wpr_with_file {A} (k : FIL -> vol D -> M A) fp v Q : wpr (k fp v) fp v Q -> wpr (with_file k) fp v Q.
Proof. done. Qed.

(** ** The volume under reads and writes of sectors *)

Lemma layout_field {A} (p : FATFS -> A) f g : (forall f, p (layout f) = p f) -> layout f = layout g -> p f = p g.
Proof. intros Hp E. by rewrite <- (Hp f), E, Hp. Qed.

Lemma clean_table v v' files : clean v files -> good v' -> layout (fs v') = layout (fs v) ->
  free_clst (fs v') = free_clst (fs v) -> last_clst (fs v') = last_clst (fs v) ->
  (forall c, valid v c -> table v' c = table v c) -> clean v' files.
Proof.
  intros [G Hc Hn Hf Hk Hl] G' El E1 E2 T. pose proof (layout_field n_fatent _ _ ltac:(done) El) as En. split; try done.
  - intros f H. destruct (Hc f H) as [Hne Hch]. split; [done |]. rewrite En. apply (chain_ext (table v)); [| done].
    intros c Hin. apply T. by apply (chain_valid (table v) _ f).
  - intros c Hv Hin. unfold valid in Hv. rewrite En in Hv. rewrite T by done. by apply Hf.
  - by rewrite E1, En.
  - by rewrite E2.
Qed.

(** The parts of a write. *)
Lemma raw_write b s n v : good v -> database (fs v) <= s -> 1 <= n -> s + n <= disk_size ->
  ~ s <= winsect (fs v) < s + n -> Z.of_nat (length b) = 512 * n -> is_bytes b ->
  exists d, disk_write b s n (dk v) = (true, d) /\ good (mk_vol (fs v) d) /\ (mirrored v -> mirrored (mk_vol (fs v) d))
    /\ (forall i, sector d i = if (s <=? i) && (i <? s + n) then take 512 (drop (Z.to_nat (512 * (i - s))) b) else sector (dk v) i)
    /\ forall c, valid v c -> table (mk_vol (fs v) d) c = table v c.
Proof.
  intros G Hs Hn Hsz Hw Hl Hb. pose proof G as [Hg Hd Hwin Hws Hc]. pose proof (database_pos v G).
  destruct (disk_write_law b s n (dk v) Hd) as (d & E & Hd' & S); try (done || lia). exists d. split; [done |].
  pose proof (fsize_pos _ Hg) as Hf. pose proof Hg as [_ Hfa _ _ _ Hba _ _].
  assert (forall i, ~ s <= i < s + n -> sector d i = sector (dk v) i) as Sn.
  { intros i Hi. rewrite S. replace ((s <=? i) && (i <? s + n)) with false by lia. done. }
  assert (good (mk_vol (fs v) d)) as G'.
  { split; cbn [fs dk]; try done. intros Hf'. rewrite Sn by done. by apply Hc. }
  split; [done |]. split; [| split; [done |]].
  - intros M En i Hi. cbn [fs dk] in *. rewrite !Sn by (destruct Hfa as [E1 | E1]; rewrite E1 in *; lia). by apply M.
  - intros c Hc'. apply table_views; try done. intros i Hi. unfold view. cbn [fs dk]. case_match; [done |]. apply Sn.
    destruct Hfa as [E1 | E1]; rewrite E1 in *; lia.
Qed.

Lemma raw_read s n v : good v -> 0 <= s -> 1 <= n -> s + n <= disk_size ->
  exists d, disk_read s n (dk v) = (true, concat (sector (dk v) <$> seqZ s n), d) /\ good (mk_vol (fs v) d)
    /\ (mirrored v -> mirrored (mk_vol (fs v) d)) /\ (forall i, sector d i = sector (dk v) i)
    /\ (forall s, view (mk_vol (fs v) d) s = view v s) /\ forall c, valid v c -> table (mk_vol (fs v) d) c = table v c.
Proof.
  intros G Hs Hn Hsz. destruct (disk_read_law s n (dk v) (good_disk v G) Hs Hn Hsz) as (d & E & Hd & S).
  destruct (swap_disk v d G Hd S) as (G' & M' & V'). exists d. split; [done |]. split; [done |]. split; [done |]. split; [done |].
  split; [done |]. intros c Hc. by apply table_views.
Qed.

(** ** Own sectors *)

Lemma vo_good v cs others : vol_ok v cs others -> good v.
Proof. intros V. apply (clean_good _ _ (vo_clean _ _ _ V)). Qed.

Lemma own_parts v cs others : vol_ok v cs others ->
  NoDup cs /\ (forall c, c ∈ cs -> valid v c /\ (c ∉ concat others)) /\ (forall c, c ∈ concat others -> valid v c)
  /\ 1 <= csize (fs v).
Proof.
  intros V. pose proof (vo_clean _ _ _ V) as C. pose proof (clean_nodup _ _ C) as Hnd.
  assert (concat (kept_part cs ++ others) = cs ++ concat others) as Ec by (rewrite concat_app; destruct cs; cbn; by rewrite ?app_nil_r).
  rewrite Ec in Hnd. apply list.NoDup_app in Hnd as (H1 & H2 & _). split; [done |].
  assert (forall c, c ∈ cs ++ concat others -> valid v c) as Hv by (intros c Hc; apply (clean_valid v _ c C); by rewrite Ec).
  split; [| split; [intros c Hc; apply Hv, elem_of_app; by right | by apply pow2_range, (vo_csize _ _ _ V)]].
  intros c Hc. split; [apply Hv, elem_of_app; by left | by apply H2].
Qed.

Lemma own_mine v cs others k : vol_ok v cs others -> 0 <= k < room (fs v) cs -> mine (fs v) others (fsect (fs v) cs k).
Proof.
  intros V Hk. destruct (own_parts v cs others V) as (_ & Hown & _ & Hcs). destruct (room_index _ _ _ Hcs Hk) as [Hi Hm].
  destruct (Hown _ (cluster_elem cs _ Hi)) as [Hv Ho]. by exists (cluster cs (k / csize (fs v))), (k mod csize (fs v)).
Qed.

Lemma mine_range v others s : good v -> mine (fs v) others s -> database (fs v) <= s < disk_size.
Proof. intros G (c & j & Hc & _ & Hj & ->). by apply sec_of_range. Qed.

Lemma mine_layout f g others s : layout f = layout g -> mine f others s -> mine g others s.
Proof.
  intros El (c & j & Hc & Ho & Hj & ->). unfold sec_of.
  rewrite (layout_field n_fatent f g), (layout_field csize f g), (layout_field database f g) in * by done. by exists c, j.
Qed.

Lemma own_sector v cs others k : vol_ok v cs others -> 0 <= k < room (fs v) cs ->
  database (fs v) <= fsect (fs v) cs k < disk_size /\ winsect (fs v) <> fsect (fs v) cs k
  /\ valid v (cluster cs (k / csize (fs v))) /\ mine (fs v) others (fsect (fs v) cs k).
Proof.
  intros V Hk. pose proof (own_mine v cs others k V Hk) as Hm. destruct (own_parts v cs others V) as (_ & Hown & _ & Hcs).
  split; [by apply (mine_range v others); [apply (vo_good _ _ _ V) |] |].
  split; [intros E; apply (vo_window _ _ _ V); by rewrite E |]. split; [| done]. apply Hown, cluster_elem. by apply room_index.
Qed.

(** An own sector is safe in the buffer. *)
Lemma own_safe v fp cs others k : vol_ok v cs others -> 0 <= k < room (fs v) cs -> sect fp = fsect (fs v) cs k -> safe_sect v fp others.
Proof. intros V Hk E. right. rewrite E. by apply (own_mine v cs). Qed.

Lemma safe_kept v v' fp fp' others : safe_sect v fp others -> layout (fs v') = layout (fs v) -> sect fp' = sect fp -> safe_sect v' fp' others.
Proof. intros [H | H] El Es; [left; congruence | right]. rewrite Es. by apply (mine_layout (fs v)). Qed.

(** ** What the others see *)

Lemma apart_refl v others : apart v v others.
Proof. by split. Qed.

Lemma apart_trans v1 v2 v3 others : apart v1 v2 others -> apart v2 v3 others -> apart v1 v3 others.
Proof.
  intros [L1 M1 V1] [L2 M2 V2]. split; [congruence | auto |]. intros s Hs Hm.
  assert (table_end (fs v2) = table_end (fs v1)) as E by (by apply (layout_field table_end)).
  rewrite V2, V1 by (rewrite ?E; done || (intros H; by apply Hm, (mine_layout (fs v2)))). done.
Qed.

Lemma capacity_apart v v' others : apart v v' others -> capacity v' others = capacity v others.
Proof.
  intros [L _ _]. unfold capacity. by rewrite (layout_field csize _ _ ltac:(done) L), (layout_field n_fatent _ _ ltac:(done) L).
Qed.

Lemma apart_room v v' others cs : apart v v' others -> room (fs v') cs = room (fs v) cs.
Proof. intros [L _ _]. unfold room. by rewrite (layout_field csize _ _ ltac:(done) L). Qed.

(** A file has at most the clusters the others leave, and all of them on a full
    disk. *)
Lemma capacity_room v cs others : vol_ok v cs others -> 512 * room (fs v) cs <= capacity v others.
Proof.
  intros V. destruct (own_parts v cs others V) as (_ & _ & _ & Hcs). pose proof (vo_clean _ _ _ V) as C.
  pose proof (submseteq_length _ _ (clean_sub v _ (clean_nodup _ _ C) (fun c => clean_valid v _ c C))) as Hl.
  rewrite length_seqZ, concat_app, length_app in Hl. pose proof (n_fatent_range v (vo_good _ _ _ V)).
  assert (length (concat (kept_part cs)) = length cs) as E by (destruct cs; cbn; by rewrite ?app_nil_r). rewrite E in Hl.
  unfold room, capacity. nia.
Qed.

Lemma capacity_full v cs others : vol_ok v cs others -> all_used v (kept_part cs ++ others) -> 512 * room (fs v) cs = capacity v others.
Proof.
  intros V U. pose proof (capacity_room v cs others V) as Hle. destruct (own_parts v cs others V) as (_ & _ & _ & Hcs).
  assert (seqZ 2 (n_fatent (fs v) - 2) ⊆+ concat (kept_part cs ++ others)) as Hs.
  { apply NoDup_submseteq; [apply NoDup_seqZ |]. intros c Hc%elem_of_seqZ. apply U. unfold valid. lia. }
  apply submseteq_length in Hs. rewrite length_seqZ, concat_app, length_app in Hs. pose proof (n_fatent_range v (vo_good _ _ _ V)).
  assert (length (concat (kept_part cs)) = length cs) as E by (destruct cs; cbn; by rewrite ?app_nil_r). rewrite E in Hs.
  unfold room, capacity in *. nia.
Qed.

Lemma table_end_data v : good v -> table_end (fs v) <= database (fs v).
Proof. intros G. destruct (good_geo v G). unfold table_end. lia. Qed.

Lemma kept_apart v v' others : kept v v' -> apart v v' others.
Proof. intros [_ L V M _]. split; [done | done |]. intros s Hs _. by apply V. Qed.

(** Sectors of the data area outside the window are left alone by the table. *)
Lemma kept_sector v v' s : good v -> kept v v' -> database (fs v) <= s -> winsect (fs v) <> s ->
  sector (dk v') s = sector (dk v) s /\ winsect (fs v') <> s.
Proof.
  intros G [_ _ V _ P] Hs Hw. assert (winsect (fs v') <> s) as Hw' by (destruct P as [-> | P]; lia).
  split; [| done]. specialize (V s ltac:(pose proof (table_end_data v G); lia)). unfold view in V. by rewrite !(proj2 (Z.eqb_neq s _)) in V by congruence.
Qed.

Lemma kept_fsect v v' cs k : kept v v' -> fsect (fs v') cs k = fsect (fs v) cs k.
Proof. intros K. unfold fsect, sec_of. by rewrite (kept_field database v v'), (kept_field csize v v'). Qed.

Lemma content_kept v v' fp cs data others : vol_ok v cs others -> kept v v' -> content v fp cs data -> content v' fp cs data.
Proof.
  intros V K [Hb Hd Hc Ht Hr Hby]. assert (room (fs v') cs = room (fs v) cs) as Er by (unfold room; by rewrite (kept_field csize v v')).
  split; try done.
  - intros H. destruct (Hd H) as (k & Hk & E). exists k. by rewrite Er, (kept_fsect v v').
  - intros H. destruct (Hc H) as [-> | (H1 & H2 & H3)]; [by left | right]. destruct (kept_sector v v' (sect fp) (vo_good _ _ _ V) K) as [E W]; [lia | congruence |].
    rewrite (kept_field database v v') by done. split; [done |]. split; [congruence |]. by rewrite E.
  - intros i Hi. rewrite Ht by done. rewrite (kept_fsect v v') by done. unfold seen. case_match; [done |].
    destruct (own_sector v cs others (i / 512) V) as (H1 & H2 & _); [divlia |]. destruct (kept_sector v v' _ (vo_good _ _ _ V) K (proj1 H1) H2) as [E _]. by rewrite E.
  - by rewrite Er.
Qed.

Lemma window_kept v v' cs others : vol_ok v cs others -> kept v v' -> ~ mine (fs v') others (winsect (fs v')).
Proof.
  intros V K Hm. apply (mine_layout _ (fs v)) in Hm; [| apply (kept_layout _ _ K)]. pose proof (mine_range v others _ (vo_good _ _ _ V) Hm).
  destruct (kept_parked _ _ K) as [E | P]; [rewrite E in Hm; by apply (vo_window _ _ _ V) | lia].
Qed.

Lemma vol_same v v' cs others : vol_ok v cs others -> same v v' -> vol_ok v' cs others.
Proof.
  intros V S. pose proof (same_kept v v' (vo_good _ _ _ V) S) as K. split.
  - apply (clean_same v v'); [apply (vo_clean _ _ _ V) | done].
  - rewrite (kept_field csize v v') by done. apply (vo_csize _ _ _ V).
  - by apply (window_kept v v' cs others).
Qed.

(** ** Moves of sectors *)

(** Another state of the disk under the same structure. *)
Lemma vol_swap v d cs others : vol_ok v cs others -> good (mk_vol (fs v) d) -> (forall c, valid v c -> table (mk_vol (fs v) d) c = table v c) ->
  vol_ok (mk_vol (fs v) d) cs others.
Proof.
  intros [C P W] G T. split; [| done | done]. by apply (clean_table v).
Qed.

(** The changed buffer goes to its sector. *)
Lemma flush_ok v fp cs data : good v -> content v fp cs data -> database (fs v) <= sect fp < disk_size -> winsect (fs v) <> sect fp ->
  exists d, disk_write (buf fp) (sect fp) 1 (dk v) = (true, d) /\ good (mk_vol (fs v) d) /\ (mirrored v -> mirrored (mk_vol (fs v) d))
    /\ (forall i, i <> sect fp -> sector d i = sector (dk v) i) /\ (forall c, valid v c -> table (mk_vol (fs v) d) c = table v c)
    /\ content (mk_vol (fs v) d) (drop_flag FA_DIRTY fp) cs data.
Proof.
  intros G [[Hb1 Hb2] Hd Hc Ht Hr Hby] Hs Hw.
  destruct (raw_write (buf fp) (sect fp) 1 v G) as (d & E & G' & M & S & T); try (done || lia).
  assert (forall i, i <> sect fp -> sector d i = sector (dk v) i) as Sn.
  { intros i Hi. rewrite S. replace ((sect fp <=? i) && (i <? sect fp + 1)) with false by lia. done. }
  exists d. split_and!; try done. split; try done.
  - intros H. by rewrite dirty_drop in H.
  - intros _. right. cbn [drop_flag set_flag sect buf fs dk]. split; [done |]. split; [congruence |].
    rewrite S, Z.leb_refl, (proj2 (Z.ltb_lt _ _)) by lia. cbn [andb]. rewrite Z.sub_diag. cbn [Z.mul Z.to_nat drop]. symmetry. apply take_ge. lia.
  - intros i Hi. rewrite Ht by done. unfold seen. cbn [drop_flag set_flag sect buf fs dk]. case_match eqn:Ei; [done |]. rewrite Sn by lia. done.
Qed.

Lemma write_back_ok v fp cs data others : vol_ok v cs others -> content v fp cs data ->
  wpr write_back fp v (fun _ fp' v' => fp' = drop_flag FA_DIRTY fp /\ fs v' = fs v /\ vol_ok v' cs others
    /\ content v' fp' cs data /\ apart v v' others).
Proof.
  intros V C. apply wpr_with_file. change (test_mask (flag fp) FA_DIRTY) with (dirty fp). destruct (dirty fp) eqn:Ed.
  2:{ apply wpr_ret. rewrite drop_clean by done. split; [done |]. split; [done |]. split; [done |]. split; [done | apply apart_refl]. }
  destruct (co_dirty _ _ _ _ C Ed) as (k & Hk & Es). destruct (own_sector v cs others k V Hk) as (Hr1 & Hw & _ & Ho). rewrite <- Es in *.
  destruct (flush_ok v fp cs data (vo_good _ _ _ V) C Hr1 Hw) as (d & E & G & M & Sn & T & C').
  exists (inr tt), (drop_flag FA_DIRTY fp), (mk_vol (fs v) d). split; [unfold bind, call_disk_write; by rewrite E |].
  split; [done |]. split; [done |]. split; [by apply vol_swap |]. split; [done |].
  split; [done | done |]. intros s _ Hm. unfold view. cbn [fs dk]. case_match; [done |]. apply Sn. by intros ->.
Qed.

Lemma fill_ok s v fp cs others : vol_ok v cs others -> 0 <= s < disk_size ->
  wpr (fill s) fp v (fun _ fp' v' => fp' = set_buf (sector (dk v) s) fp /\ fs v' = fs v /\ vol_ok v' cs others
    /\ (forall i, sector (dk v') i = sector (dk v) i) /\ apart v v' others).
Proof.
  intros V Hs. destruct (raw_read s 1 v (vo_good _ _ _ V)) as (d & E & G & M & S & Vw & T); try lia.
  exists (inr tt), (set_buf (sector (dk v) s) fp), (mk_vol (fs v) d). split.
  { unfold fill, bind, call_disk_read. rewrite E. change (seqZ s 1) with [0 + s]. change (sector (dk v) <$> [0 + s]) with [sector (dk v) (0 + s)].
    cbn [concat modify fst snd ret]. by rewrite app_nil_r, Z.add_0_l. }
  split; [done |]. split; [done |]. split; [by apply vol_swap |]. split; [done |]. split; [done | done |]. intros i _ _. apply Vw.
Qed.

(** A clean buffer shows what is on the disk. *)
Lemma seen_clean v fp cs data others k : vol_ok v cs others -> content v fp cs data -> dirty fp = false -> 0 <= k < room (fs v) cs ->
  seen fp (dk v) (fsect (fs v) cs k) = sector (dk v) (fsect (fs v) cs k).
Proof.
  intros V C Ed Hk. unfold seen. case_match eqn:E; [| done]. apply Z.eqb_eq in E. pose proof (database_pos v (vo_good _ _ _ V)).
  destruct (own_sector v cs others k V Hk) as (H1 & _). destruct (co_clean _ _ _ _ C Ed) as [H0 | (_ & _ & ->)]; [lia | by rewrite E].
Qed.

(** A sector just read is in the buffer. *)
Lemma content_load v v' fp cs data others s : vol_ok v cs others -> content v fp cs data -> dirty fp = false -> fs v' = fs v ->
  (forall i, sector (dk v') i = sector (dk v) i) -> database (fs v) <= s < disk_size -> s <> winsect (fs v) ->
  content v' (set_sect s (set_buf (sector (dk v) s) fp)) cs data.
Proof.
  intros V C Ed Ef S Hs Hw. pose proof C as [Hb Hd Hc Ht Hr Hby].
  pose proof (sector_length (dk v) s (good_disk v (vo_good _ _ _ V))) as Hl.
  split; cbn [set_sect set_buf set_cache buf sect]; rewrite ?Ef; try done.
  - intros H. unfold dirty in *. cbn in H. congruence.
  - intros _. right. by rewrite S.
  - intros i Hi. rewrite Ht by done. f_equal. rewrite (seen_clean v fp cs data others) by (done || divlia).
    unfold seen. cbn [set_sect set_buf set_cache buf sect]. rewrite !S. case_match eqn:E; [| done]. apply Z.eqb_eq in E. by rewrite E.
Qed.

End Disk.

End FatFile.
