(* ===== verification/FatTransfer.v ===== *)
(** * The FAT file system: reading and writing

    [f_read] and [f_write] of [FatFile.v] keep the invariant of an open file: a
    read gives the bytes at the pointer, a write puts its own there, and is short
    only when the disk is full or the file has its largest size. *)

From S2P Require Import Prelude FatTable FatChain FatFile.

Module FatTransfer.
Import FatTable FatChain FatFile.

Section Disk.
Context {D : Type} {DI : DiskIo D} {SD : SectorDisk D}.
Implicit Types v : vol D.
Implicit Types fp : FIL.

(** ** Places in the chain *)

(** Sector boundaries against cluster boundaries. *)
Lemma cluster_index B p : 1 <= B -> p / (512 * B) = p / 512 / B.
Proof. intros HB. by rewrite Z.div_div by lia. Qed.

Lemma sector_index B k : 1 <= B -> 0 <= k -> k = B * (k / B) + k mod B /\ 0 <= k mod B < B /\ 0 <= k / B.
Proof. intros HB Hk. split; [apply Z.div_mod; lia |]. split; [apply Z.mod_pos_bound; lia | apply Z.div_pos; lia]. Qed.

Lemma index_unique B q r : 1 <= B -> 0 <= r < B -> (B * q + r) / B = q.
Proof. intros HB Hr. symmetry. apply (Z.div_unique_pos _ _ _ r); lia. Qed.

(** The byte before [p + n] lies in the cluster of [p]. *)
Lemma index_before B p n : 1 <= B -> 0 <= p -> 0 < n -> p / 512 mod B * 512 + p mod 512 + n <= 512 * B ->
  (p + n - 1) / (512 * B) = p / 512 / B.
Proof.
  intros HB Hp Hn H. destruct (sector_index B (p / 512) HB) as (E & Hm & _); [divlia |].
  symmetry. apply (Z.div_unique_pos _ _ _ (p / 512 mod B * 512 + p mod 512 + n - 1)); [divlia |].
  pose proof (Z.div_mod p 512). nia.
Qed.

Lemma index_boundary B p : 1 <= B -> 0 < p -> p mod 512 = 0 -> p / 512 mod B = 0 -> (p - 1) / (512 * B) = p / 512 / B - 1 /\ 1 <= p / 512 / B.
Proof.
  intros HB Hp Hm Hb. destruct (sector_index B (p / 512) HB) as (E & _ & Hq); [divlia |]. rewrite Hb in E.
  assert (p = 512 * B * (p / 512 / B)) as Ep by (pose proof (Z.div_mod p 512); nia). set (q := p / 512 / B) in *.
  assert (1 <= q) by nia. split; [| done]. symmetry. apply (Z.div_unique_pos _ _ _ (512 * B - 1)); nia.
Qed.

Lemma index_inside B p : 1 <= B -> 0 < p -> p mod 512 = 0 -> p / 512 mod B <> 0 -> (p - 1) / (512 * B) = p / 512 / B.
Proof.
  intros HB Hp Hm Hb. destruct (sector_index B (p / 512) HB) as (E & Hr & Hq); [divlia |].
  pose proof (Z.div_mod p 512). symmetry. apply (Z.div_unique_pos _ _ _ (p / 512 mod B * 512 - 1)); nia.
Qed.

(** Links along a chain. *)
Lemma chain_next t n cs : forall i, chain t n cs -> 0 <= i -> i + 1 < Z.of_nat (length cs) -> t (cluster cs i) = cluster cs (i + 1).
Proof.
  induction cs as [| c cs IH]; intros i Hc H0 H1; cbn [length] in H1; [lia |]. destruct Hc as (_ & Hn & Hch). unfold cluster in *.
  replace (Z.to_nat (i + 1)) with (S (Z.to_nat i)) by lia. destruct (Z.to_nat i) as [| m] eqn:Em; cbn [nth].
  - destruct cs; [cbn [length] in H1; lia | done].
  - specialize (IH (i - 1) Hch ltac:(lia) ltac:(lia)). replace (Z.to_nat (i - 1)) with m in IH by lia. replace (Z.to_nat (i - 1 + 1)) with (S m) in IH by lia. done.
Qed.

Lemma own_chain v cs others : vol_ok v cs others -> chain (table v) (n_fatent (fs v)) cs.
Proof.
  intros V. destruct cs as [| c cs]; [done |]. destruct (clean_chains _ _ (vo_clean _ _ _ V) (c :: cs)) as [_ H]; [| done].
  apply elem_of_app. left. by apply list_elem_of_singleton.
Qed.

Lemma file_sector_ok v fp cs others k : vol_ok v cs others -> 0 <= k < room (fs v) cs -> clust fp = cluster cs (k / csize (fs v)) ->
  wpr (file_sector (k mod csize (fs v))) fp v (fun s fp' v' => s = fsect (fs v) cs k /\ fp' = fp /\ v' = v).
Proof.
  intros V Hk Hc. destruct (own_sector v cs others k V Hk) as (Hr & _ & Hv & _). rewrite <- Hc in Hv.
  destruct (clst2sect_ok (clust fp) v (vo_good _ _ _ V) Hv) as [E Hne]. apply wpr_with_file. cbv zeta. rewrite E, (proj2 (Z.eqb_neq _ _)) by done.
  apply wpr_ret. split; [| done]. pose proof disk_size_u32. pose proof (database_pos v (vo_good _ _ _ V)).
  unfold fsect in *. rewrite <- Hc in *. unfold sec_of in *. rewrite Z.add_0_r. apply u32_id. unfold is_u32. lia.
Qed.

(** ** Reading *)

Lemma csect_mod fp v : pow2 (csize (fs v)) -> csect_of fp v = fptr fp / 512 mod csize (fs v).
Proof. intros H. unfold csect_of, SS. by apply pow2_mod. Qed.

Lemma read_cluster_ok v fp cs data others : file_ok v fp cs data others -> fptr fp < Z.of_nat (length data) -> fptr fp mod 512 = 0 ->
  fptr fp / 512 mod csize (fs v) = 0 ->
  wpr read_cluster fp v (fun _ fp' v' => fp' = set_clust (cluster cs (fptr fp / 512 / csize (fs v))) fp /\ same v v').
Proof.
  intros [_ V C [Pst _ [Pp _] Pc _] _] Hlt Hm Hb. pose proof (vo_good _ _ _ V) as G. destruct (own_parts v cs others V) as (_ & Hown & _ & Hcs).
  assert (0 <= fptr fp / 512 < room (fs v) cs) as Hk by (pose proof (co_room _ _ _ _ C); divlia).
  destruct (room_index _ _ _ Hcs Hk) as [Hi _]. set (q := fptr fp / 512 / csize (fs v)) in *.
  pose proof (Hown _ (cluster_elem cs q Hi)) as [Hv _].
  apply wpr_with_file, wpr_bind.
  assert (exists v', (if fptr fp =? 0 then ret (sclust fp) else call_get_fat (clust fp)) fp v = Some (inr (cluster cs q), fp, v') /\ same v v')
    as (v' & E & S).
  { destruct (Z.eqb_spec (fptr fp) 0) as [E0 | E0].
    - exists v. split; [| by apply same_refl]. unfold ret. rewrite Pst. unfold q. rewrite E0. by destruct cs.
    - destruct (index_boundary (csize (fs v)) (fptr fp)) as [Ei Hq]; [done | lia | done | done |]. fold q in Ei, Hq.
      pose proof (Hown _ (cluster_elem cs (q - 1) ltac:(lia))) as [Hv' _].
      destruct (get_fat_ok (cluster cs (q - 1)) v G Hv') as (v' & Eg & S). exists v'. split; [| done].
      unfold call_get_fat. rewrite Pc, Ei by lia. rewrite Eg. do 3 f_equal. f_equal.
      rewrite (chain_next _ _ cs (q - 1) (own_chain v cs others V)) by lia. f_equal. lia. }
  exists (inr (cluster cs q)), fp, v'. split; [done |]. pose proof (n_fatent_range v G). unfold valid in Hv.
  rewrite (proj2 (Z.ltb_ge _ _)), (proj2 (Z.eqb_neq _ DISK_ERROR)) by (unfold DISK_ERROR; lia). by apply wpr_modify.
Qed.

(** The buffer holds the bytes at the pointer. *)
Lemma partial_data v fp cs data n : content v fp cs data -> 0 <= fptr fp -> sect fp = fsect (fs v) cs (fptr fp / 512) ->
  0 <= n -> fptr fp mod 512 + n <= 512 -> fptr fp + n <= Z.of_nat (length data) ->
  take (Z.to_nat n) (drop (Z.to_nat (fptr fp mod 512)) (buf fp)) = take (Z.to_nat n) (drop (Z.to_nat (fptr fp)) data).
Proof.
  intros [[Hb _] _ _ Ht _ _] Hp Hs Hn H1 H2. apply bytes_ext.
  - rewrite !length_take, !length_drop. divlia.
  - rewrite length_take, length_drop. intros i Hi. rewrite !byte_at_take, !byte_at_drop by divlia. rewrite Ht by divlia.
    replace ((fptr fp + i) / 512) with (fptr fp / 512) by divlia. unfold seen. rewrite Hs, Z.eqb_refl. f_equal. divlia.
Qed.

(** The unsigned comparison that finds a sector in a range. *)
Lemma u32_within x s cc : 0 <= x < 2 ^ 32 -> 0 <= s -> 0 <= cc -> s + cc < 2 ^ 32 -> (u32 (x - s) <? cc) = (s <=? x) && (x <? s + cc).
Proof.
  intros Hx Hs Hcc He. destruct (Z.leb_spec s x) as [Hle | Hlt]; cbn [andb].
  - rewrite u32_id by (unfold is_u32; lia). lia.
  - apply Z.ltb_ge. unfold u32. rewrite <- (Z.mod_add _ 1), Z.mod_small by lia. lia.
Qed.

(** Whole sectors as the file object sees them. *)
Lemma direct_data v fp cs data others k cc : vol_ok v cs others -> content v fp cs data -> 0 <= k -> 1 <= cc ->
  k mod csize (fs v) + cc <= csize (fs v) -> 512 * (k + cc) <= Z.of_nat (length data) ->
  let s := fsect (fs v) cs k in
  let b := concat (sector (dk v) <$> seqZ s cc) in
  (if dirty fp && (u32 (sect fp - s) <? cc) then splice (SS * (sect fp - s)) (buf fp) b else b)
  = take (Z.to_nat (512 * cc)) (drop (Z.to_nat (512 * k)) data).
Proof.
  intros V C Hk Hcc Hin Hlen s b. pose proof C as [[Hb _] Hd _ Ht Hr _]. destruct (own_parts v cs others V) as (_ & _ & _ & Hcs).
  pose proof (vo_good _ _ _ V) as G. pose proof disk_size_u32 as Hu. pose proof (database_pos v G) as Hdb.
  assert (forall j, 0 <= j < cc -> fsect (fs v) cs (k + j) = s + j) as Hnext by (intros j Hj; apply fsect_next; lia).
  destruct (own_sector v cs others k V ltac:(lia)) as (Hs & _). fold s in Hs.
  destruct (own_sector v cs others (k + (cc - 1)) V ltac:(lia)) as (He & _). rewrite Hnext in He by lia.
  destruct (concat_blocks (sector (dk v)) (Z.to_nat cc) s) as [Hbl Hbb]; [intros i; by apply sector_length, G |].
  rewrite Z2Nat.id in Hbl, Hbb by lia. fold b in Hbl, Hbb.
  assert (dirty fp = true -> database (fs v) <= sect fp < disk_size) as Hsd.
  { intros Ed. destruct (Hd Ed) as (k' & Hk' & ->). by apply (own_sector v cs others). }
  assert (dirty fp && (u32 (sect fp - s) <? cc) = dirty fp && (s <=? sect fp) && (sect fp <? s + cc)) as ->.
  { destruct (dirty fp); [| done]. specialize (Hsd eq_refl). cbn [andb]. apply u32_within; lia. }
  apply bytes_ext.
  - apply Nat2Z.inj. rewrite length_take, length_drop. case_match eqn:E; [| lia].
    rewrite splice_length by (unfold SS; lia). rewrite Hb. unfold SS. lia.
  - intros i Hi. assert (0 <= i < 512 * cc) as Hi'.
    { case_match eqn:E; [| lia]. rewrite splice_length in Hi by (unfold SS; lia). rewrite Hb in Hi. unfold SS in *. lia. }
    rewrite byte_at_take, byte_at_drop by lia. rewrite Ht by lia.
    replace ((512 * k + i) / 512) with (k + i / 512) by divlia. replace ((512 * k + i) mod 512) with (i mod 512) by divlia.
    rewrite Hnext by divlia. unfold seen. case_match eqn:E.
    + rewrite splice_byte by (unfold SS; lia). rewrite Hb. unfold SS. change (Z.of_nat 512) with 512.
      destruct (Z.eqb_spec (s + i / 512) (sect fp)) as [Es | Es].
      * replace ((512 * (sect fp - s) <=? i) && (i <? 512 * (sect fp - s) + 512)) with true by divlia. f_equal. divlia.
      * replace ((512 * (sect fp - s) <=? i) && (i <? 512 * (sect fp - s) + 512)) with false by divlia. by apply Hbb.
    + destruct (Z.eqb_spec (s + i / 512) (sect fp)) as [Es | Es]; [| by apply Hbb].
      assert (dirty fp = false) as Ed by (destruct (dirty fp); [| done]; cbn [andb] in E; divlia).
      pose proof (seen_clean v fp cs data others (k + i / 512) V C Ed ltac:(divlia)) as Hsc. rewrite Hnext in Hsc by divlia.
      unfold seen in Hsc. rewrite (proj2 (Z.eqb_eq _ _)) in Hsc by done. rewrite Hsc. by apply Hbb.
Qed.

Lemma set_clust_id fp : set_clust (clust fp) fp = fp.
Proof. by destruct fp. Qed.

(** What stays of a file object. *)
Definition access fp : Z := flag fp .& 0x03.

Record stays fp fp' : Prop := {
  st_valid : obj_fs fp' = obj_fs fp /\ obj_id fp' = obj_id fp /\ err fp' = err fp;
  st_dir : dir_sect fp' = dir_sect fp /\ dir_ptr fp' = dir_ptr fp;
  st_access : access fp' = access fp;
}.

Lemma stays_refl fp : stays fp fp.
Proof. by split. Qed.

Lemma stays_trans fp1 fp2 fp3 : stays fp1 fp2 -> stays fp2 fp3 -> stays fp1 fp3.
Proof. intros [(?&?&?) [? ?] ?] [(?&?&?) [? ?] ?]. split; [split_and! | split |]; congruence. Qed.

Lemma access_drop fp m : m .& 0x03 = 0 -> access (drop_flag m fp) = access fp.
Proof.
  intros Hm. unfold access. cbn. apply Z.bits_inj'. intros i Hi. rewrite !Z.land_spec, Z.ldiff_spec.
  pose proof (f_equal (fun x => Z.testbit x i) Hm) as E. cbv beta in E. rewrite Z.land_spec, Z.bits_0 in E.
  destruct (Z.testbit (flag fp) i), (Z.testbit m i), (Z.testbit 3 i); done.
Qed.

Lemma access_raise fp m : m .& 0x03 = 0 -> access (raise_flag m fp) = access fp.
Proof. intros Hm. unfold access. cbn. by rewrite Z.land_lor_distr_l, Hm, Z.lor_0_r. Qed.

(** The file object in the middle of a transfer: [clust] is the cluster of the
    pointer. *)
Record midway v fp (cs : list Z) (data : bytes) (others : list (list Z)) : Prop := {
  mw_valid : obj_fs fp = true /\ obj_id fp = fs_id (fs v) /\ err fp = 0;
  mw_vol : vol_ok v cs others;
  mw_content : content v fp cs data;
  mw_start : sclust fp = hd 0 cs;
  mw_size : objsize fp = Z.of_nat (length data) /\ Z.of_nat (length data) < 2 ^ 32;
  mw_ptr : 0 <= fptr fp;
  mw_clust : clust fp = cluster cs (fptr fp / 512 / csize (fs v));
  mw_sect : safe_sect v fp others;
}.

(** The pointer moves on inside a cluster. *)
Lemma advance_ok v fp cs data others n : midway v fp cs data others -> 0 < n -> fptr fp + n <= Z.of_nat (length data) ->
  fptr fp / 512 mod csize (fs v) * 512 + fptr fp mod 512 + n <= 512 * csize (fs v) ->
  ((fptr fp + n) mod 512 <> 0 -> sect fp = fsect (fs v) cs ((fptr fp + n) / 512)) ->
  file_ok v (advance n fp) cs data others.
Proof.
  intros [Hval V C Hsc [Hos Hlim] Hp Hcl Hsafe] Hn Hle Hin Hse. destruct (own_parts v cs others V) as (_ & _ & _ & Hcs).
  assert (u32 (fptr fp + n) = fptr fp + n) as E by (apply u32_id; unfold is_u32; lia).
  split; [done | done | by destruct C | split | exact Hsafe]; unfold advance; cbn [set_fptr set_place sclust objsize fptr clust sect]; rewrite ?E; try done.
  - lia.
  - intros _. rewrite index_before by lia. exact Hcl.
Qed.

Lemma read_partial_ok v fp cs data others btr : midway v fp cs data others -> 0 < btr -> fptr fp + btr <= Z.of_nat (length data) ->
  sect fp = fsect (fs v) cs (fptr fp / 512) ->
  wpr (read_partial btr) fp v (fun b fp' v' => fp' = fp /\ v' = v /\ exists n, 0 < n <= btr
    /\ b = take (Z.to_nat n) (drop (Z.to_nat (fptr fp)) data) /\ file_ok v (advance n fp) cs data others).
Proof.
  intros Mw Hb Hle Hs. pose proof Mw as [_ V C _ _ Hp _ _]. apply wpr_with_file, wpr_ret. split; [done |]. split; [done |].
  destruct (own_parts v cs others V) as (_ & _ & _ & Hcs).
  set (n := if btr <? SS - fptr fp mod SS then btr else SS - fptr fp mod SS).
  assert (0 < n <= btr /\ fptr fp mod 512 + n <= 512) as [Hn Hn2] by (unfold n, SS; case_match; divlia).
  exists n. split; [done |]. split; [apply (partial_data v fp cs); (done || lia) |].
  apply advance_ok; try (done || lia).
  - pose proof (Z.mod_pos_bound (fptr fp / 512) (csize (fs v)) ltac:(lia)). nia.
  - intros Hm. rewrite Hs. f_equal. divlia.
Qed.

Lemma index_mid B p : 1 <= B -> p mod 512 <> 0 -> (p - 1) / (512 * B) = p / 512 / B.
Proof. intros HB Hm. rewrite cluster_index by done. f_equal. divlia. Qed.

Lemma file_midway v fp cs data others : file_ok v fp cs data others -> fptr fp mod 512 <> 0 -> midway v fp cs data others.
Proof.
  intros [Hv V C [P1 P2 [P3 _] P4 _] Hsafe] Hm. destruct (own_parts v cs others V) as (_ & _ & _ & Hcs). split; try done.
  rewrite P4 by divlia. f_equal. by apply index_mid.
Qed.

(** The cluster of the pointer, at the boundary of a sector. *)
Lemma enter_ok v fp cs data others : file_ok v fp cs data others -> fptr fp < Z.of_nat (length data) -> fptr fp mod 512 = 0 ->
  wpr (if csect_of fp v =? 0 then read_cluster else ret tt) fp v
    (fun _ fp' v' => fp' = set_clust (cluster cs (fptr fp / 512 / csize (fs v))) fp /\ same v v').
Proof.
  intros F Hlt Hm. pose proof F as [_ V C [_ _ [Pp _] Pc _] _]. destruct (own_parts v cs others V) as (_ & _ & _ & Hcs).
  rewrite csect_mod by apply (vo_csize _ _ _ V). destruct (Z.eqb_spec (fptr fp / 512 mod csize (fs v)) 0) as [E | E].
  - by apply (read_cluster_ok v fp cs data others).
  - apply wpr_ret. split; [| apply same_refl, (vo_good _ _ _ V)].
    assert (0 < fptr fp) by (destruct (Z.eq_dec (fptr fp) 0) as [E0 |]; [rewrite E0 in E; change (0 / 512) with 0 in E; by rewrite Z.mod_0_l in E by lia | lia]).
    rewrite <- (index_inside (csize (fs v)) (fptr fp)), <- Pc by (done || lia). by rewrite set_clust_id.
Qed.

Lemma file_same v v' fp cs data others : file_ok v fp cs data others -> same v v' -> file_ok v' fp cs data others.
Proof.
  intros [Hv V C [P1 P2 P3 P4 P5] Hsafe] S. pose proof (same_kept v v' (vo_good _ _ _ V) S) as K. split.
  - by rewrite (kept_field fs_id v v').
  - by apply (vol_same v v').
  - by apply (content_kept v v' fp cs data others).
  - split; try done; [by rewrite (kept_field csize v v') | by rewrite (kept_fsect v v')].
  - by apply (safe_kept v v' fp fp); [| apply (kept_layout _ _ K) |].
Qed.

(** The file object with the sector [s] in its buffer. *)
Lemma load_ok v fp cs data others k : vol_ok v cs others -> content v fp cs data -> 0 <= k < room (fs v) cs ->
  wpr (bind (if negb (sect fp =? fsect (fs v) cs k) then bind write_back (fun _ => fill (fsect (fs v) cs k)) else ret tt)
         (fun _ => modify (set_sect (fsect (fs v) cs k)))) fp v
    (fun _ fp' v' => stays fp fp' /\ sclust fp' = sclust fp /\ objsize fp' = objsize fp /\ fptr fp' = fptr fp /\ clust fp' = clust fp
       /\ sect fp' = fsect (fs v) cs k /\ fs v' = fs v /\ vol_ok v' cs others /\ content v' fp' cs data /\ apart v v' others).
Proof.
  intros V C Hk. set (s := fsect (fs v) cs k). destruct (own_sector v cs others k V Hk) as (Hs & Hw & _). fold s in Hs, Hw.
  pose proof (database_pos v (vo_good _ _ _ V)) as Hdb. apply wpr_bind. destruct (Z.eqb_spec (sect fp) s) as [E | E]; cbn [negb].
  - apply wpr_ret, wpr_modify. assert (set_sect s fp = fp) as -> by (rewrite <- E; by destruct fp).
    split; [apply stays_refl |]. by split_and!.
  - apply wpr_bind. eapply wpr_mono; [by apply (write_back_ok v fp cs data others) |].
    intros _ fp1 v1 (-> & Ef & V1 & C1 & A1). eapply wpr_mono; [apply (fill_ok s v1 _ cs others); [done | lia] |].
    intros _ fp2 v2 (-> & Ef2 & V2 & S2 & A2). apply wpr_modify.
    split; [split; [done | done | by apply access_drop] |]. split; [done |]. split; [done |]. split; [done |]. split; [done |]. split; [done |].
    split; [congruence |]. split; [done |]. split; [| by apply (apart_trans v v1)].
    apply (content_load v1 v2 _ cs data others s); try done; [apply dirty_drop | by rewrite Ef |]. rewrite Ef. congruence.
Qed.

Lemma read_direct_ok v fp cs data others k cc : vol_ok v cs others -> content v fp cs data -> 0 <= k -> 1 <= cc ->
  k mod csize (fs v) + cc <= csize (fs v) -> 512 * (k + cc) <= Z.of_nat (length data) ->
  wpr (read_direct (fsect (fs v) cs k) cc) fp v (fun b fp' v' => fp' = fp /\ fs v' = fs v
    /\ b = take (Z.to_nat (512 * cc)) (drop (Z.to_nat (512 * k)) data)
    /\ vol_ok v' cs others /\ content v' fp cs data /\ apart v v' others).
Proof.
  intros V C Hk Hcc Hin Hlen. pose proof (vo_good _ _ _ V) as G. destruct (own_parts v cs others V) as (_ & _ & _ & Hcs).
  pose proof (co_room _ _ _ _ C) as Hr. pose proof (database_pos v G) as Hdb.
  destruct (own_sector v cs others k V ltac:(lia)) as (Hs & _). destruct (own_sector v cs others (k + (cc - 1)) V ltac:(lia)) as (He & _).
  rewrite fsect_next in He by lia. set (s := fsect (fs v) cs k) in *.
  destruct (raw_read s cc v G) as (d & E & G' & M' & S & Vw & T); try lia.
  exists (inr (take (Z.to_nat (512 * cc)) (drop (Z.to_nat (512 * k)) data))), fp, (mk_vol (fs v) d). split.
  { unfold read_direct, bind, call_disk_read. rewrite E. cbn [fst snd with_file ret]. change (test_mask (flag fp) FA_DIRTY) with (dirty fp).
    unfold with_file, ret. do 3 f_equal. f_equal. by apply (direct_data v fp cs data others k cc). }
  split; [done |]. split; [done |]. split; [done |]. split; [by apply vol_swap |]. split.
  - destruct C as [H1 H2 H3 H4 H5 H6]. split; try done.
    + intros Ed. cbn [fs dk]. rewrite S. by apply H3.
    + intros i Hi. rewrite H4 by done. unfold seen. cbn [fs dk]. by rewrite S.
  - split; [done | done |]. intros i _ _. apply Vw.
Qed.

Lemma read_step_ok v fp cs data others btr : file_ok v fp cs data others -> 0 < btr -> fptr fp + btr <= Z.of_nat (length data) ->
  wpr (read_step btr) fp v (fun b fp' v' => stays fp fp' /\ fptr fp' = fptr fp /\ apart v v' others /\ exists n, 0 < n <= btr
    /\ b = take (Z.to_nat n) (drop (Z.to_nat (fptr fp)) data) /\ file_ok v' (advance n fp') cs data others).
Proof.
  intros F Hb Hle. pose proof F as [Hval V C P Hsafe]. destruct (own_parts v cs others V) as (_ & _ & Hoth & Hcs). apply wpr_with_file.
  pose proof P as [Pst [Ps Pl] [Pp _] Pc Pse].
  unfold SS at 1. destruct (Z.eqb_spec (fptr fp mod 512) 0) as [Hm | Hm].
  2:{ eapply wpr_mono; [apply (read_partial_ok v fp cs data others); [by apply file_midway | done | done | by apply Pse] |].
      intros b fp' v' (-> & -> & n & Hn & Eb & Fn). split; [apply stays_refl |]. split; [done |]. split; [apply apart_refl |]. eauto. }
  cbv zeta. apply wpr_bind. eapply wpr_mono; [apply (enter_ok v fp cs data others); (done || lia) |].
  intros _ fp1 v1 [-> S1]. pose proof (same_kept v v1 (vo_good _ _ _ V) S1) as K1. set (k := fptr fp / 512) in *.
  rewrite csect_mod by apply (vo_csize _ _ _ V). fold k.
  pose proof (file_same v v1 _ _ _ _ F S1) as [Hval1 V1 C1 P1 Hsafe1].
  assert (csize (fs v) = csize (fs v1)) as Ecs by (symmetry; by apply (kept_field csize v v1)). rewrite Ecs in *.
  assert (content v1 (set_clust (cluster cs (k / csize (fs v1))) fp) cs data) as C1' by (by destruct C1).
  pose proof (co_room _ _ _ _ C1) as Hroom. assert (0 <= k < room (fs v1) cs) as Hk by (unfold k; divlia).
  apply wpr_bind. eapply wpr_mono; [by apply (file_sector_ok v1 _ cs others k V1 Hk) |]. intros s fp1 v1' (-> & -> & ->).
  assert (apart v v1 others) as A1 by (by apply kept_apart).
  destruct (sector_index (csize (fs v1)) k) as (Hkq & Hkm & _); [done | lia |].
  destruct (Z.ltb_spec 0 (btr / SS)) as [Hcc | Hcc]; unfold SS in Hcc.
  - set (cc := clip (k mod csize (fs v1)) (btr / SS) v). unfold SS in cc.
    assert (1 <= cc <= btr / 512 /\ k mod csize (fs v1) + cc <= csize (fs v1)) as [Hc1 Hc2] by (unfold cc, clip; rewrite Ecs; case_match; lia).
    eapply wpr_mono; [apply (read_direct_ok v1 _ cs data others k cc V1 C1'); unfold k in *; divlia |].
    intros b fp' v' (-> & Ef & -> & V' & C' & A'). split; [by split |]. split; [done |]. split; [by apply (apart_trans v v1) |].
    exists (512 * cc). split; [divlia |]. split; [f_equal; f_equal; unfold k; divlia |].
    apply advance_ok.
    + split; try done; [by rewrite Ef | by cbn; rewrite Ef | by apply (safe_kept v1 v' fp); [| by rewrite Ef |]].
    + lia.
    + cbn [set_clust set_place fptr]. divlia.
    + cbn [set_clust set_place fptr]. rewrite Ef, Hm. fold k. lia.
    + cbn [set_clust set_place fptr]. intros Hx. exfalso. divlia.
  - apply wpr_assoc, wpr_bind. eapply wpr_mono; [apply (load_ok v1 _ cs data others k V1 C1' Hk) |].
    intros _ fp2 v2 (St & E1 & E2 & E3 & E4 & E5 & Ef & V2 & C2 & A2).
    assert (midway v2 fp2 cs data others) as Mw.
    { destruct St as [(H1 & H2 & H3) _ _]. split; rewrite ?H1, ?H2, ?H3, ?E1, ?E2, ?E3, ?E4, ?Ef; try done.
      apply (own_safe v2 fp2 cs others k); by rewrite ?Ef. }
    eapply wpr_mono; [apply (read_partial_ok v2 fp2 cs data others btr Mw); rewrite ?E3, ?E5, ?Ef; (done || lia) |].
    intros b fp' v' (-> & -> & n & Hn & Eb & Fn). split; [by destruct St |]. split; [done |]. split; [by apply (apart_trans v v1) |].
    exists n. split; [done |]. split; [by rewrite E3 in Eb | done].
Qed.

Lemma stays_advance fp n : stays fp (advance n fp).
Proof. by split. Qed.

Lemma take_drop_app {A} (l : list A) p n m : take n (drop p l) ++ take m (drop (p + n) l) = take (n + m) (drop p l).
Proof. by rewrite <- (take_take_drop (drop p l)), drop_drop. Qed.

Lemma read_loop_ok fuel : forall btr v fp cs data others, file_ok v fp cs data others -> 0 <= btr -> btr <= Z.of_nat fuel ->
  fptr fp + btr <= Z.of_nat (length data) ->
  exists fp' v', read_loop fuel btr fp v = Some (FR_OK, take (Z.to_nat btr) (drop (Z.to_nat (fptr fp)) data), fp', v')
    /\ file_ok v' fp' cs data others /\ fptr fp' = fptr fp + btr /\ stays fp fp' /\ apart v v' others.
Proof.
  induction fuel as [| fuel IH]; intros btr v fp cs data others F H0 Hf Hle; cbn [read_loop];
    (destruct (Z.eqb_spec btr 0) as [-> | Hne]; [exists fp, v; split; [done |]; split; [done |]; split; [lia |]; split; [apply stays_refl | apply apart_refl] |]); [lia |].
  destruct (read_step_ok v fp cs data others btr F) as ([e | b] & fp1 & v1 & E1 & H1); [lia | done | done |].
  destruct H1 as (St1 & Ep & A1 & n & Hn & Eb & F1). rewrite E1. cbn [mbind option_bind].
  pose proof (fo_place _ _ _ _ _ F) as [_ [_ Hlim] [Hp _] _ _].
  assert (Z.of_nat (length b) = n) as Hl by (rewrite Eb, length_take, length_drop; lia). rewrite Hl.
  assert (fptr (advance n fp1) = fptr fp + n) as Ep1 by (cbn; rewrite Ep; apply u32_id; unfold is_u32; lia).
  destruct (IH (btr - n) v1 (advance n fp1) cs data others F1) as (fp2 & v2 & E2 & F2 & Ep2 & St2 & A2); [lia | lia | lia |].
  rewrite E2. cbn [mbind option_bind]. exists fp2, v2. split.
  - do 3 f_equal. f_equal. rewrite Eb, Ep1. replace (Z.to_nat btr) with (Z.to_nat n + Z.to_nat (btr - n))%nat by lia.
    replace (Z.to_nat (fptr fp + n)) with (Z.to_nat (fptr fp) + Z.to_nat n)%nat by lia. apply take_drop_app.
  - split; [done |]. split; [lia |]. split; [| by apply (apart_trans v v1)].
    apply (stays_trans fp fp1); [done |]. by apply (stays_trans fp1 (advance n fp1)).
Qed.

Lemma validate_ok v fp cs data others : file_ok v fp cs data others -> validate true fp v = FR_OK.
Proof.
  intros [(H1 & H2 & _) V _ _ _]. pose proof (vo_good _ _ _ V) as G. unfold validate. rewrite H1, H2, Z.eqb_refl.
  assert (fs_type (fs v) <> 0) by (destruct (good_geo v G) as [[E | [E | E]] _ _ _ _ _ _ _]; by rewrite E).
  rewrite (proj2 (Z.eqb_neq _ _)) by done. cbn [andb negb]. rewrite disk_status_law by apply G. done.
Qed.

Lemma access_test fp fp' m : m = FA_READ \/ m = FA_WRITE -> access fp' = access fp -> test_mask (flag fp') m = test_mask (flag fp) m.
Proof.
  intros Hm E. assert (forall x, test_mask x m = test_mask (x .& 3) m) as H.
  { intros x. unfold test_mask. rewrite <- Z.land_assoc. by destruct Hm as [-> | ->]. }
  rewrite (H (flag fp)), (H (flag fp')). unfold access in E. by rewrite E.
Qed.

(** A read at the pointer. *)
Lemma f_read_ok btr v fp cs data others : file_ok v fp cs data others -> test_mask (flag fp) FA_READ = true -> 0 <= btr ->
  let b := take (Z.to_nat btr) (drop (Z.to_nat (fptr fp)) data) in
  exists fp' v', f_read true btr fp v = Some (FR_OK, b, fp', v') /\ file_ok v' fp' cs data others
    /\ fptr fp' = fptr fp + Z.of_nat (length b) /\ stays fp fp' /\ apart v v' others.
Proof.
  intros F Ha Hb b. unfold f_read. rewrite (validate_ok v fp cs data others F). pose proof F as [(_ & _ & He) _ _ P _].
  pose proof P as [_ [Hs Hlim] [Hp1 Hp2] _ _]. change (FR_OK =? FR_OK) with true. rewrite He, Ha. change (0 =? FR_OK) with true. cbn [negb].
  rewrite Hs, u32_id by (unfold is_u32; lia). set (n := if _ <? btr then _ else btr).
  assert (0 <= n /\ fptr fp + n <= Z.of_nat (length data) /\ (n = btr \/ n = Z.of_nat (length data) - fptr fp /\ n < btr)) as (Hn & Hn2 & Hn3)
    by (unfold n; case_match; lia).
  destruct (read_loop_ok (Z.to_nat n) n v fp cs data others F) as (fp' & v' & E & F' & Ep & St & A); [done | lia | done |].
  assert (take (Z.to_nat n) (drop (Z.to_nat (fptr fp)) data) = b) as Eb.
  { unfold b. destruct Hn3 as [-> | [-> Hlt]]; [done |]. rewrite !take_ge; [done | |]; rewrite length_drop; lia. }
  rewrite Eb in E. exists fp', v'. split; [done |]. split; [done |]. split; [| done]. rewrite Ep, <- Eb, length_take, length_drop. lia.
Qed.

(** ** Writing: the cluster at the pointer *)

Lemma create_follow p q v : good v -> valid v p -> valid v q -> table v p = q -> exists v', create_chain p v = Some (q, v') /\ same v v'.
Proof.
  intros G Hp Hq Ht. destruct (get_fat_ok p v G Hp) as (v' & E & S). exists v'. split; [| done]. pose proof (n_fatent_range v G).
  unfold create_chain, valid in *. rewrite (proj2 (Z.eqb_neq p 0)) by lia. rewrite E, Ht.
  rewrite (proj2 (Z.ltb_ge q 2)), (proj2 (Z.eqb_neq q _)), (same_field n_fatent v v'), (proj2 (Z.ltb_lt q _)) by (done || unfold DISK_ERROR; lia). done.
Qed.

Lemma content_app v fp cs ds data : 1 <= csize (fs v) -> content v fp cs data -> content v fp (cs ++ ds) data.
Proof.
  intros Hcs [Hb Hd Hc Ht Hr Hby]. assert (room (fs v) cs <= room (fs v) (cs ++ ds)) by (unfold room; rewrite length_app; nia). split; try done.
  - intros H0. destruct (Hd H0) as (k & Hk & E). exists k. split; [lia |]. by rewrite fsect_app.
  - intros i Hi. rewrite fsect_app by (done || divlia). by apply Ht.
  - lia.
Qed.

(** The chain with room for the sector [k]: as it is, or with a cluster more. *)
Definition stretched (cs cs' : list Z) : Prop := cs' = cs \/ exists r, cs' = cs ++ [r].

Lemma stretch_ok v cs others : vol_ok v cs others ->
  exists r v', create_chain (default 0 (list.last cs)) v = Some (r, v') /\
    ((r = 0 /\ same v v' /\ all_used v (kept_part cs ++ others)) \/ (valid v r /\ kept v v' /\ vol_ok v' (cs ++ [r]) others)).
Proof.
  intros V. pose proof (vo_clean _ _ _ V) as C. pose proof (vo_good _ _ _ V) as G.
  assert (default 0 (list.last cs) = 0 /\ cs = [] \/ exists pre p, cs = pre ++ [p] /\ default 0 (list.last cs) = p /\ valid v p /\ n_fatent (fs v) <= table v p) as Hcs.
  { destruct (list.last cs) as [p |] eqn:E; [right | left; split; [done | by apply last_None]]. apply last_Some in E as (pre & ->). exists pre, p.
    split; [done |]. split; [done |]. pose proof (own_chain v _ others V) as Hch. apply chain_app_split in Hch as (H1 & H2 & _). done. }
  destruct (create_ok (default 0 (list.last cs)) v _ C) as (r & v' & E & H).
  { destruct Hcs as [[-> _] | (pre & p & _ & -> & Hp)]; [by left | by right]. }
  exists r, v'. split; [done |]. destruct H as [H | (Hr & Hn & L)]; [by left | right]. pose proof (linked_kept _ _ _ _ L) as K.
  split; [done |]. split; [done |]. split.
  - destruct Hcs as [[Ed ->] | (pre & p & -> & Ed & _)]; rewrite Ed in L.
    + by apply (clean_new v).
    + assert (forall l x, kept_part (l ++ [x]) = [l ++ [x]]) as Hk by (intros l x; by destruct l).
      rewrite Hk in *. rewrite <- app_assoc. cbn [app].
      by apply (clean_extend v).
  - rewrite (kept_field csize v v') by done. apply (vo_csize _ _ _ V).
  - by apply (window_kept v v' cs others).
Qed.

Lemma last_cluster (cs : list Z) : cs <> [] -> default 0 (list.last cs) = cluster cs (Z.of_nat (length cs) - 1).
Proof.
  intros Hne. destruct (list.last cs) as [p |] eqn:E; [| by apply last_None in E]. apply last_Some in E as (pre & ->). unfold cluster.
  rewrite length_app. cbn [length]. replace (Z.to_nat _) with (length pre) by lia. by rewrite nth_middle.
Qed.

Lemma cluster_last cs r : cluster (cs ++ [r]) (Z.of_nat (length cs)) = r.
Proof. unfold cluster. rewrite Nat2Z.id. by rewrite nth_middle. Qed.

Lemma hd_app (cs : list Z) r : cs <> [] -> hd 0 (cs ++ [r]) = hd 0 cs.
Proof. by destruct cs. Qed.

Lemma set_sclust_id fp : set_sclust (sclust fp) fp = fp.
Proof. by destruct fp. Qed.

Lemma write_cluster_ok v fp cs data others : file_ok v fp cs data others -> fptr fp mod 512 = 0 -> fptr fp / 512 mod csize (fs v) = 0 ->
  wp write_cluster fp v (fun r fp' v' =>
    match r with
    | inr _ => exists cs', stretched cs cs' /\ fptr fp / 512 / csize (fs v) < Z.of_nat (length cs') /\ kept v v' /\ vol_ok v' cs' others
        /\ fp' = set_sclust (hd 0 cs') (set_clust (cluster cs' (fptr fp / 512 / csize (fs v))) fp)
    | inl Break => fp' = fp /\ same v v' /\ all_used v (kept_part cs ++ others) /\ fptr fp = 512 * room (fs v) cs
    | inl _ => False
    end).
Proof.
  intros [_ V C [Pst [Ps Pl] [Pp1 Pp2] Pc _] _] Hm Hb. pose proof (vo_good _ _ _ V) as G. destruct (own_parts v cs others V) as (_ & Hown & _ & Hcs).
  pose proof (n_fatent_range v G) as Hn. set (q := fptr fp / 512 / csize (fs v)) in *.
  destruct (sector_index (csize (fs v)) (fptr fp / 512) Hcs) as (Eq & _ & Hq0); [divlia |]. fold q in Eq, Hq0. rewrite Hb in Eq.
  assert (q <= Z.of_nat (length cs)) as Hq by (pose proof (co_room _ _ _ _ C); unfold room in *; pose proof (Z.div_mod (fptr fp) 512); nia).
  assert (forall c, c ∈ cs -> 2 <= c < 2 ^ 28) as Hrange by (intros c Hc; destruct (Hown c Hc) as [Hv _]; unfold valid in Hv; lia).
  (* the cluster that comes next *)
  assert (exists r v', (if fptr fp =? 0 then if sclust fp =? 0 then call_create_chain 0 else ret (sclust fp)
      else call_create_chain (clust fp)) fp v = Some (inr r, fp, v')
    /\ ((r = cluster cs q /\ q < Z.of_nat (length cs) /\ same v v') \/ (q = Z.of_nat (length cs) /\
        ((r = 0 /\ same v v' /\ all_used v (kept_part cs ++ others)) \/ (valid v r /\ kept v v' /\ vol_ok v' (cs ++ [r]) others)))))
    as (r & v' & E & H).
  { destruct (Z.eqb_spec (fptr fp) 0) as [E0 | E0].
    - assert (q = 0) as Eq0 by (unfold q; by rewrite E0). rewrite Pst. destruct cs as [| c cs].
      + destruct (stretch_ok v [] others V) as (r & v' & Ec & H). exists r, v'. split; [| by right]. cbn [hd]. rewrite Z.eqb_refl.
        unfold call_create_chain. cbn [list.last] in Ec. change (default 0 None) with 0 in Ec. by rewrite Ec.
      + cbn [hd]. rewrite (proj2 (Z.eqb_neq c 0)) by (specialize (Hrange c (list_elem_of_here _ _)); lia). exists c, v. split; [done |].
        left. rewrite Eq0. split; [done |]. split; [cbn [length]; lia | by apply same_refl].
    - destruct (index_boundary (csize (fs v)) (fptr fp)) as [Ei Hq1]; [done | lia | done | done |]. fold q in Ei, Hq1. rewrite Pc, Ei by lia.
      unfold call_create_chain. destruct (Z.eq_dec q (Z.of_nat (length cs))) as [El | El].
      + destruct (stretch_ok v cs others V) as (r & v' & Ec & H). rewrite last_cluster, <- El in Ec by (intros ->; cbn in El; lia).
        exists r, v'. rewrite Ec. split; [done | by right].
      + destruct (create_follow (cluster cs (q - 1)) (cluster cs q) v G) as (v' & Ec & S).
        * apply Hown, cluster_elem. lia.
        * apply Hown, cluster_elem. lia.
        * rewrite (chain_next _ _ cs (q - 1) (own_chain v cs others V)) by lia. f_equal. lia.
        * exists (cluster cs q), v'. rewrite Ec. split; [done |]. left. split; [done |]. split; [lia | done]. }
  unfold write_cluster, with_file. apply wp_bind. exists (inr r), fp, v'. split; [exact E |].
  destruct H as [(-> & Hlt & S) | (El & [(-> & S & U) | (Hr & K & V')])].
  - pose proof (Hrange _ (cluster_elem cs q ltac:(lia))). rewrite !(proj2 (Z.eqb_neq _ _)) by (unfold DISK_ERROR; lia).
    apply wp_modify. exists cs. split; [by left |]. split; [done |]. split; [by apply same_kept |]. split; [by apply (vol_same v v') |].
    cbn [set_clust set_place sclust]. destruct cs as [| c cs]; [cbn in Hlt; lia |].
    rewrite Pst. cbn [hd]. rewrite (proj2 (Z.eqb_neq c 0)) by (specialize (Hrange c (list_elem_of_here _ _)); lia).
    rewrite <- (set_sclust_id (set_clust _ fp)) at 1. f_equal. exact Pst.
  - exists (inl Break), fp, v'. split_and!; try done. unfold room. rewrite <- El. pose proof (Z.div_mod (fptr fp) 512 ltac:(lia)). lia.
  - unfold valid in Hr. rewrite !(proj2 (Z.eqb_neq _ _)) by (unfold DISK_ERROR; lia).
    apply wp_modify. exists (cs ++ [r]). split; [right; by exists r |]. split; [rewrite length_app; cbn [length]; lia |]. split; [done |]. split; [done |].
    rewrite El, cluster_last. cbn [set_clust set_place sclust]. rewrite Pst. destruct cs as [| c cs]; [done |].
    cbn [hd app]. rewrite (proj2 (Z.eqb_neq c 0)) by (specialize (Hrange c (list_elem_of_here _ _)); lia).
    rewrite <- (set_sclust_id (set_clust _ fp)) at 1. f_equal. exact Pst.
Qed.

(** ** Writing: the bytes *)

(** The fields a transfer of bytes leaves alone. *)
Definition fields fp : Z * Z * Z * Z := (sclust fp, objsize fp, fptr fp, clust fp).

(** A block of a longer buffer. *)
Lemma block_byte (w : bytes) m j i : 0 <= j -> 0 <= i < 512 -> j + 512 <= m -> m <= Z.of_nat (length w) ->
  byte_at (take 512 (drop (Z.to_nat j) (take (Z.to_nat m) w))) i = byte_at w (j + i).
Proof.
  intros Hj Hi Hm Hl. change 512%nat with (Z.to_nat 512). rewrite byte_at_take, byte_at_drop by lia. by apply byte_at_take; lia.
Qed.

Lemma block_length (w : bytes) j : 0 <= j -> j + 512 <= Z.of_nat (length w) -> length (take 512 (drop (Z.to_nat j) w)) = 512%nat.
Proof. intros Hj Hl. rewrite length_take, length_drop. lia. Qed.

Lemma block_take (w : bytes) m j : 0 <= j -> j + 512 <= m -> take 512 (drop (Z.to_nat j) (take (Z.to_nat m) w)) = take 512 (drop (Z.to_nat j) w).
Proof. intros Hj Hm. rewrite skipn_firstn_comm, take_take. f_equal. lia. Qed.

Lemma write_direct_ok v fp cs data others k cc w : vol_ok v cs others -> content v fp cs data -> dirty fp = false ->
  0 <= k -> 1 <= cc -> k mod csize (fs v) + cc <= csize (fs v) -> k + cc <= room (fs v) cs ->
  512 * cc <= Z.of_nat (length w) -> 512 * k <= Z.of_nat (length data) -> is_bytes w ->
  wpr (write_direct w (fsect (fs v) cs k) cc) fp v (fun n fp' v' => n = 512 * cc /\ stays fp fp' /\ fields fp' = fields fp /\ sect fp' = sect fp /\ fs v' = fs v
    /\ vol_ok v' cs others /\ content v' fp' cs (splice (512 * k) (take (Z.to_nat n) w) data) /\ apart v v' others).
Proof.
  intros V C Ed Hk Hcc Hin Hroom Hw Hlen Hbw. pose proof C as [[Hb Hb2] _ Hc Ht Hr Hby]. pose proof (vo_good _ _ _ V) as G.
  destruct (own_parts v cs others V) as (Hnd & _ & _ & Hcs). pose proof disk_size_u32 as Hu. pose proof (database_pos v G) as Hdb.
  set (s := fsect (fs v) cs k). assert (forall j, 0 <= j < cc -> fsect (fs v) cs (k + j) = s + j) as Hnext by (intros j Hj; apply fsect_next; lia).
  destruct (own_sector v cs others k V ltac:(lia)) as (Hs & _). fold s in Hs.
  destruct (own_sector v cs others (k + (cc - 1)) V ltac:(lia)) as (He & _). rewrite Hnext in He by lia.
  assert (forall x, s <= x < s + cc -> exists j, 0 <= j < cc /\ x = fsect (fs v) cs (k + j)) as Hown.
  { intros x Hx. exists (x - s). split; [lia |]. rewrite Hnext; lia. }
  assert (~ s <= winsect (fs v) < s + cc) as Hwin.
  { intros Hx. destruct (Hown _ Hx) as (j & Hj & E). destruct (own_sector v cs others (k + j) V ltac:(lia)) as (_ & H & _). done. }
  set (w' := take (Z.to_nat (512 * cc)) w). assert (Z.of_nat (length w') = 512 * cc) as Hlw by (unfold w'; rewrite length_take; lia).
  destruct (raw_write w' s cc v G) as (d & E & G' & M' & S & T); try (done || lia); [by apply Forall_take |].
  set (fp' := if u32 (sect fp - s) <? cc then drop_flag FA_DIRTY (set_buf (take 512 (drop (Z.to_nat (SS * (sect fp - s))) w)) fp) else fp).
  assert (0 <= sect fp < 2 ^ 32) as Hsect by (destruct (Hc Ed) as [-> | (? & _)]; lia).
  assert ((u32 (sect fp - s) <? cc) = (s <=? sect fp) && (sect fp <? s + cc)) as Ew by (apply u32_within; lia).
  assert (sect fp' = sect fp /\ dirty fp' = false /\ buf fp' = if (s <=? sect fp) && (sect fp <? s + cc) then take 512 (drop (Z.to_nat (512 * (sect fp - s))) w) else buf fp)
    as (F1 & F2 & F3).
  { unfold fp'. rewrite Ew. case_match; [| done]. split; [done |]. split; [apply dirty_drop | done]. }
  exists (inr (512 * cc)), fp', (mk_vol (fs v) d). split.
  { unfold write_direct, bind, call_disk_write. change (SS * cc) with (512 * cc). fold w'. by rewrite E. }
  split; [done |]. split; [unfold fp'; destruct (_ <? cc); [split; [done | done | exact (access_drop fp FA_DIRTY eq_refl)] | apply stays_refl] |].
  split; [unfold fp'; by destruct (_ <? cc) |]. split; [done |]. split; [done |]. split; [by apply vol_swap |]. split.
  - fold w'. split; cbn [fs dk].
    + rewrite F3. case_match eqn:Er; [| done]. split; [apply block_length; lia | by apply Forall_take, Forall_drop].
    + congruence.
    + intros _. rewrite F1, F3, S. case_match eqn:Er.
      * right. split; [lia |]. split; [lia |]. unfold w'. rewrite block_take by lia. done.
      * destruct (Hc Ed) as [H0 | (H1 & H2 & H3)]; [by left | right; done].
    + intros i Hi. rewrite splice_length in Hi by lia. rewrite splice_byte by lia. rewrite Hlw in *. unfold seen. rewrite F1, F3.
      destruct ((512 * k <=? i) && (i <? 512 * k + 512 * cc)) eqn:Ei.
      * apply andb_true_iff in Ei as [Ei1%Z.leb_le Ei2%Z.ltb_lt]. replace (i / 512) with (k + (i / 512 - k)) by lia. rewrite Hnext by divlia. set (x := s + (i / 512 - k)).
        assert (s <= x < s + cc) as Hx by (unfold x; divlia). rewrite S. replace ((s <=? x) && (x <? s + cc)) with true by lia.
        assert (byte_at w' (i - 512 * k) = byte_at w (512 * (x - s) + i mod 512)) as -> by (unfold w', x; rewrite byte_at_take by divlia; f_equal; divlia).
        destruct (Z.eqb_spec x (sect fp)) as [Ex | Ex].
        -- rewrite <- Ex. replace ((s <=? x) && (x <? s + cc)) with true by lia.
           rewrite <- (block_take w (512 * cc)) by lia. rewrite block_byte by divlia. done.
        -- unfold w'. rewrite block_byte by divlia. done.
      * assert (i < Z.of_nat (length data)) as Hi2 by lia. rewrite Ht by lia. unfold seen. set (y := fsect (fs v) cs (i / 512)).
        assert (~ s <= y < s + cc) as Hy.
        { intros Hy. destruct (Hown _ Hy) as (j & Hj & Ej). apply fsect_inj in Ej; [divlia | done | done | divlia | divlia]. }
        rewrite S. replace ((s <=? y) && (y <? s + cc)) with false by lia. destruct (Z.eqb_spec y (sect fp)) as [Ey | Ey]; [| done].
        rewrite <- Ey. replace ((s <=? y) && (y <? s + cc)) with false by lia. done.
    + rewrite splice_length by lia. rewrite Hlw. lia.
    + apply splice_bytes; [by apply Forall_take | done].
  - split; [done | done |]. intros x _ Hm. unfold view. cbn [fs dk]. destruct (x =? winsect (fs v)); [done |]. rewrite S.
    replace ((s <=? x) && (x <? s + cc)) with false; [done |]. symmetry. apply not_true_is_false. intros Hx.
    destruct (Hown x ltac:(lia)) as (j & Hj & ->). apply Hm, (own_mine v cs others); [done | lia].
Qed.

Lemma write_partial_ok v fp cs data others w : vol_ok v cs others -> length (buf fp) = 512%nat /\ is_bytes (buf fp) ->
  sect fp = fsect (fs v) cs (fptr fp / 512) -> 0 <= fptr fp / 512 < room (fs v) cs ->
  (forall i, 0 <= i < Z.of_nat (length data) -> byte_at data i = byte_at (seen fp (dk v) (fsect (fs v) cs (i / 512))) (i mod 512)) ->
  0 <= fptr fp <= Z.of_nat (length data) -> Z.of_nat (length data) <= 512 * room (fs v) cs -> is_bytes data -> w <> [] -> is_bytes w ->
  wpr (write_partial w) fp v (fun n fp' v' => v' = v /\ 0 < n <= Z.of_nat (length w) /\ fptr fp mod 512 + n <= 512 /\ stays fp fp'
    /\ fields fp' = fields fp /\ sect fp' = sect fp /\ content v fp' cs (splice (fptr fp) (take (Z.to_nat n) w) data)).
Proof.
  intros V [Hb Hb2] Hs Hk Ht [Hp Hp2] Hr Hby Hne Hbw. destruct (own_parts v cs others V) as (Hnd & _ & _ & Hcs).
  set (p := fptr fp) in *. assert (0 < Z.of_nat (length w)) as Hlw by (destruct w; [done | cbn [length]; lia]).
  set (n := if Z.of_nat (length w) <? SS - p mod SS then Z.of_nat (length w) else SS - p mod SS).
  assert (0 < n <= Z.of_nat (length w) /\ p mod 512 + n <= 512) as [Hn Hn2] by (unfold n, SS; case_match; divlia).
  assert (Z.of_nat (length (take (Z.to_nat n) w)) = n) as Hlt by (rewrite length_take; lia).
  exists (inr n), (raise_flag FA_DIRTY (set_buf (splice (p mod 512) (take (Z.to_nat n) w) (buf fp)) fp)), v. split; [done |].
  split; [done |]. split; [done |]. split; [done |]. split; [split; [done | done | exact (access_raise fp FA_DIRTY eq_refl)] |].
  split; [done |]. split; [done |]. split; cbn [raise_flag set_flag set_buf set_cache buf sect].
  - split; [| apply splice_bytes; [by apply Forall_take | done]]. apply Nat2Z.inj. rewrite splice_length by (rewrite ?Hb; divlia).
    rewrite Hb, Hlt. lia.
  - intros _. by exists (p / 512).
  - intros H. by rewrite dirty_raise in H.
  - intros i Hi. rewrite splice_length, Hlt in Hi by lia. rewrite splice_byte, Hlt by lia. unfold seen.
    cbn [raise_flag set_flag set_buf set_cache buf sect]. destruct ((p <=? i) && (i <? p + n)) eqn:Ei.
    + apply andb_true_iff in Ei as [Ei1%Z.leb_le Ei2%Z.ltb_lt]. assert (i / 512 = p / 512) as -> by divlia. rewrite Hs, Z.eqb_refl.
      rewrite splice_byte, Hlt by (rewrite ?Hb; divlia). replace ((p mod 512 <=? i mod 512) && (i mod 512 <? p mod 512 + n)) with true by divlia.
      f_equal. divlia.
    + assert (i < Z.of_nat (length data)) as Hi2 by lia. rewrite Ht by lia. unfold seen. rewrite Hs.
      destruct (Z.eqb_spec (fsect (fs v) cs (i / 512)) (fsect (fs v) cs (p / 512))) as [E | E]; [| done].
      apply fsect_inj in E; [| done | done | divlia | done]. rewrite splice_byte, Hlt by (rewrite ?Hb; divlia).
      replace ((p mod 512 <=? i mod 512) && (i mod 512 <? p mod 512 + n)) with false; [done |]. symmetry. apply not_true_is_false.
      intros Hx%andb_true_iff. destruct Hx as [Hx1%Z.leb_le Hx2%Z.ltb_lt]. apply andb_false_iff in Ei. divlia.
  - rewrite splice_length, Hlt by lia. divlia.
  - apply splice_bytes; [by apply Forall_take | done].
Qed.

Lemma grow_eq n fp : 0 <= fptr fp -> 0 <= n -> fptr fp + n < 2 ^ 32 ->
  grow n fp = advance n (set_objsize (Z.max (objsize fp) (fptr fp + n)) fp).
Proof.
  intros Hp Hn Hlim. unfold grow. assert (fptr (advance n fp) = fptr fp + n) as -> by (cbn; apply u32_id; unfold is_u32; lia).
  change (objsize (advance n fp)) with (objsize fp). destruct (Z.ltb_spec (objsize fp) (fptr fp + n)).
  - rewrite Z.max_r by lia. destruct fp. done.
  - rewrite Z.max_l by lia. destruct fp. done.
Qed.

(** The pointer and the size after bytes have been written. *)
Lemma grow_ok v fp cs (data data' : bytes) others n :
  obj_fs fp = true /\ obj_id fp = fs_id (fs v) /\ err fp = 0 -> vol_ok v cs others -> content v fp cs data' -> sclust fp = hd 0 cs ->
  objsize fp = Z.of_nat (length data) -> Z.of_nat (length data') = Z.max (Z.of_nat (length data)) (fptr fp + n) -> Z.of_nat (length data') < 2 ^ 32 ->
  0 <= fptr fp -> 0 < n -> fptr fp / 512 mod csize (fs v) * 512 + fptr fp mod 512 + n <= 512 * csize (fs v) ->
  clust fp = cluster cs (fptr fp / 512 / csize (fs v)) ->
  ((fptr fp + n) mod 512 <> 0 -> sect fp = fsect (fs v) cs ((fptr fp + n) / 512)) -> safe_sect v fp others ->
  file_ok v (grow n fp) cs data' others.
Proof.
  intros Hval V C Hsc Hos Hlen Hlim Hp Hn Hin Hcl Hse Hsafe. rewrite grow_eq by lia. rewrite Hos, <- Hlen.
  apply advance_ok; cbn [set_objsize set_alloc fptr sect]; try (done || lia). split; cbn [set_objsize set_alloc sclust objsize fptr clust]; try done.
  by destruct C.
Qed.

(** The chain has the cluster of the pointer. *)
Lemma enter_write_ok v fp cs data others : file_ok v fp cs data others -> fptr fp mod 512 = 0 ->
  wp (if csect_of fp v =? 0 then write_cluster else ret tt) fp v (fun r fp' v' =>
    match r with
    | inr _ => exists cs', stretched cs cs' /\ fptr fp / 512 < room (fs v) cs' /\ kept v v' /\ vol_ok v' cs' others
        /\ fp' = set_sclust (hd 0 cs') (set_clust (cluster cs' (fptr fp / 512 / csize (fs v))) fp)
    | inl Break => fp' = fp /\ same v v' /\ all_used v (kept_part cs ++ others) /\ fptr fp = 512 * room (fs v) cs
    | inl _ => False
    end).
Proof.
  intros F Hm. pose proof F as [_ V C [Pst [Ps Pl] [Pp1 Pp2] Pc _] _]. destruct (own_parts v cs others V) as (_ & _ & _ & Hcs).
  destruct (sector_index (csize (fs v)) (fptr fp / 512) Hcs) as (Eq & Hr & Hq0); [divlia |].
  rewrite csect_mod by apply (vo_csize _ _ _ V). destruct (Z.eqb_spec (fptr fp / 512 mod csize (fs v)) 0) as [E | E].
  - eapply wp_mono; [by apply (write_cluster_ok v fp cs data others) |]. intros [[e |] | u] fp' v' H; [done | done |].
    destruct H as (cs' & H1 & H2 & H3 & H4 & H5). exists cs'. split; [done |]. split; [unfold room; nia | done].
  - exists (inr tt), fp, v. split; [done |]. exists cs. split; [by left |].
    assert (0 < fptr fp) by (destruct (Z.eq_dec (fptr fp) 0) as [E0 |]; [rewrite E0 in E; change (0 / 512) with 0 in E; by rewrite Z.mod_0_l in E by lia | lia]).
    assert (fptr fp / 512 < room (fs v) cs) as Hroom.
    { pose proof (co_room _ _ _ _ C). unfold room in *. pose proof (Z.div_mod (fptr fp) 512 ltac:(lia)).
      destruct (Z.eq_dec (fptr fp / 512) (csize (fs v) * Z.of_nat (length cs))) as [Ex |]; [| nia].
      rewrite Ex, Z.mul_comm, Z.mod_mul in E by lia. done. }
    split; [done |]. split; [by apply kept_refl, (vo_good _ _ _ V) |]. split; [done |].
    rewrite <- (index_inside (csize (fs v)) (fptr fp)), <- Pc, set_clust_id, <- Pst by (done || lia). by rewrite set_sclust_id.
Qed.

(** A sector is taken up for writing: it is read unless it is at the growing
    edge of the file. *)
Lemma edge_ok v fp cs data others w : vol_ok v cs others -> content v fp cs data -> dirty fp = false -> fptr fp mod 512 = 0 ->
  0 <= fptr fp / 512 < room (fs v) cs -> 0 <= fptr fp <= Z.of_nat (length data) -> objsize fp = Z.of_nat (length data) -> w <> [] -> is_bytes w ->
  let s := fsect (fs v) cs (fptr fp / 512) in
  wpr (bind (if negb (sect fp =? s) && (fptr fp <? objsize fp) then fill s else ret tt) (fun _ => bind (modify (set_sect s)) (fun _ => write_partial w))) fp v
    (fun n fp' v' => 0 < n <= Z.of_nat (length w) /\ fptr fp mod 512 + n <= 512 /\ stays fp fp' /\ fields fp' = fields fp /\ sect fp' = s
       /\ fs v' = fs v /\ vol_ok v' cs others /\ content v' fp' cs (splice (fptr fp) (take (Z.to_nat n) w) data) /\ apart v v' others).
Proof.
  intros V C Ed Hm Hk Hp Hos Hne Hbw s. destruct (own_sector v cs others _ V Hk) as (Hs & Hw & _). fold s in Hs, Hw.
  destruct (own_parts v cs others V) as (Hnd & _ & _ & Hcs).
  apply wpr_assoc, wpr_bind.
  apply (wpr_mono _ _ _ (fun _ fp1 v1 => stays fp fp1 /\ fields fp1 = fields fp /\ sect fp1 = s /\ fs v1 = fs v /\ vol_ok v1 cs others
    /\ apart v v1 others /\ (length (buf fp1) = 512%nat /\ is_bytes (buf fp1))
    /\ forall i, 0 <= i < Z.of_nat (length data) -> byte_at data i = byte_at (seen fp1 (dk v1) (fsect (fs v) cs (i / 512))) (i mod 512))).
  - apply wpr_bind. destruct (negb (sect fp =? s) && (fptr fp <? objsize fp)) eqn:Ec.
    + eapply wpr_mono; [apply (fill_ok s v fp cs others V); pose proof (database_pos v (vo_good _ _ _ V)); lia |].
      intros _ fp1 v1 (-> & Ef & V1 & S1 & A1). apply wpr_modify.
      pose proof (content_load v v1 fp cs data others s V C Ed Ef S1 Hs ltac:(congruence)) as [Hb1 _ _ Ht1 _ _]. rewrite Ef in Ht1.
      split; [by split |]. split; [done |]. split; [done |]. split; [done |]. split; [done |]. split; [done |]. split; [exact Hb1 | exact Ht1].
    + apply wpr_ret, wpr_modify. split; [by split |]. split; [done |]. split; [done |]. split; [done |]. split; [done |]. split; [apply apart_refl |].
      split; [apply (co_buf _ _ _ _ C) |]. intros i Hi. rewrite (co_data _ _ _ _ C i Hi). f_equal. unfold seen. cbn [set_sect set_cache sect buf].
      apply andb_false_iff in Ec as [Ec | Ec]; [apply negb_false_iff, Z.eqb_eq in Ec; by rewrite Ec |]. apply Z.ltb_ge in Ec.
      assert (fsect (fs v) cs (i / 512) <> s) as Hns.
      { intros E. pose proof (co_room _ _ _ _ C). apply fsect_inj in E; [divlia | done | done | divlia | done]. }
      rewrite (proj2 (Z.eqb_neq _ s)) by done. pose proof (co_room _ _ _ _ C).
      apply (seen_clean v fp cs data others (i / 512) V C Ed). divlia.
  - intros _ fp1 v1 (St & Ef & Es & Efs & V1 & A1 & Hb1 & Ht1). assert (fptr fp1 = fptr fp) as Ep by (unfold fields in Ef; congruence).
    eapply wpr_mono; [apply (write_partial_ok v1 fp1 cs data others w V1 Hb1); rewrite ?Efs, ?Ep; try done |].
    + pose proof (co_room _ _ _ _ C). lia.
    + apply (co_bytes _ _ _ _ C).
    + intros n fp2 v2 (-> & Hn & Hn2 & St2 & Ef2 & Es2 & C2). rewrite Ep in *. split; [done |]. split; [done |]. split; [by apply (stays_trans fp fp1) |].
      split; [congruence |]. split; [congruence |]. done.
Qed.

(** A step of a write. *)
Lemma write_step_ok v fp cs data others w : file_ok v fp cs data others -> w <> [] -> is_bytes w -> fptr fp + Z.of_nat (length w) < 2 ^ 32 ->
  wp (write_step w) fp v (fun r fp' v' => stays fp fp' /\ fptr fp' = fptr fp /\ apart v v' others /\
    match r with
    | inr n => 0 < n <= Z.of_nat (length w) /\ exists cs', stretched cs cs'
        /\ file_ok v' (grow n fp') cs' (splice (fptr fp) (take (Z.to_nat n) w) data) others
    | inl Break => all_used v' (kept_part cs ++ others) /\ file_ok v' fp' cs data others /\ fptr fp = 512 * room (fs v) cs
    | inl _ => False
    end).
Proof.
  intros F Hne Hbw Hlim. pose proof F as [Hval V C P Hsafe]. pose proof P as [Pst [Ps Pl] [Pp1 Pp2] Pc Pse].
  destruct (own_parts v cs others V) as (Hnd & Hown & Hoth & Hcs). pose proof (co_room _ _ _ _ C) as Hroom.
  assert (0 < Z.of_nat (length w)) as Hlw by (destruct w; [done | cbn [length]; lia]).
  assert (forall n, 0 < n <= Z.of_nat (length w) -> Z.of_nat (length (splice (fptr fp) (take (Z.to_nat n) w) data)) = Z.max (Z.of_nat (length data)) (fptr fp + n)) as Hsl.
  { intros n Hn. rewrite splice_length by lia. rewrite length_take. lia. }
  apply wp_with_file. change (fptr fp mod SS) with (fptr fp mod 512). destruct (Z.eqb_spec (fptr fp mod 512) 0) as [Hm | Hm].
  2:{ destruct (write_partial_ok v fp cs data others w V (co_buf _ _ _ _ C)) as ([e | n] & fp' & v' & E & H); try done;
        [by apply Pse | divlia | apply (co_data _ _ _ _ C) | apply (co_bytes _ _ _ _ C) |].
      destruct H as (-> & Hn & Hn2 & St & Ef & Es & C'). exists (inr n), fp', v. split; [exact E |]. split; [exact St |].
      unfold fields in Ef. split; [congruence |]. split; [apply apart_refl |]. split; [done |]. exists cs. split; [by left |].
      destruct St as [(S1 & S2 & S3) _ _]. assert (fptr fp' = fptr fp) as Ep by congruence.
      apply (grow_ok v fp' cs data); rewrite ?S1, ?S2, ?S3, ?Ep, ?Es; try (done || congruence || lia).
      - by apply Hsl.
      - rewrite Hsl by done. lia.
      - pose proof (Z.mod_pos_bound (fptr fp / 512) (csize (fs v)) ltac:(lia)). nia.
      - assert (clust fp' = clust fp) as -> by congruence. rewrite Pc by divlia. f_equal. by apply index_mid.
      - intros Hx. rewrite Pse by done. f_equal. divlia.
      - by apply (safe_kept v v fp). }
  apply wp_bind_stop. eapply wp_mono; [by apply (enter_write_ok v fp cs data others) |].
  intros [[e |] | u] fp1 v1 H; [done | |].
  { destruct H as (-> & S & U & Hfull). split; [apply stays_refl |]. split; [done |]. split; [apply kept_apart; by apply same_kept; [apply (vo_good _ _ _ V) |] |].
    split; [| split; [by apply (file_same v v1) | done]]. intros c Hc. apply U. unfold valid in *. by rewrite (same_field n_fatent v v1) in Hc. }
  destruct H as (cs' & Hst & Hk & K & V1 & ->). set (fp1 := set_sclust _ _).
  assert (csize (fs v1) = csize (fs v)) as Ecs by (by apply (kept_field csize v v1)).
  assert (content v1 fp1 cs' data) as C1.
  { pose proof (content_kept v v1 fp cs data others V K C) as C1. destruct Hst as [-> | (r & ->)]; [by destruct C1 |].
    apply (content_app v1 fp cs [r]) in C1; [by destruct C1 | by rewrite Ecs]. }
  rewrite csect_mod by apply (vo_csize _ _ _ V). set (k := fptr fp / 512) in *.
  assert (room (fs v1) cs' = room (fs v) cs') as Er by (unfold room; by rewrite Ecs).
  assert (apart v v1 others) as A1 by (by apply kept_apart).
  apply wp_bind. eapply wpr_mono; [by apply (write_back_ok v1 fp1 cs' data others) |].
  intros _ fp2 v2 (-> & Ef2 & V2 & C2 & A2).
  assert (csize (fs v2) = csize (fs v)) as Ecs2 by (by rewrite Ef2). assert (room (fs v2) cs' = room (fs v) cs') as Er2 by (by rewrite Ef2).
  apply wp_bind. rewrite <- Ecs2. eapply wpr_mono; [apply (file_sector_ok v2 _ cs' others k V2); [rewrite Er2; unfold k; divlia | cbn; by rewrite Ecs2] |].
  intros s fp2 v2' (-> & -> & ->). set (fp2 := drop_flag FA_DIRTY fp1) in *.
  assert (stays fp fp2) as St2 by (split; [done | done | exact (access_drop fp FA_DIRTY eq_refl)]).
  assert (apart v v2 others) as A by (by apply (apart_trans v v1)).
  destruct (sector_index (csize (fs v2)) k) as (Hkq & Hkm & _); [by rewrite Ecs2 | unfold k; divlia |].
  assert (k < room (fs v2) cs') as Hk2 by (by rewrite Er2).
  (* the two ways to go on end the same way *)
  assert (forall n fp3 v3, 0 < n <= Z.of_nat (length w) -> k mod csize (fs v2) * 512 + n <= 512 * csize (fs v2) -> stays fp2 fp3 -> fields fp3 = fields fp2 ->
    fs v3 = fs v2 -> vol_ok v3 cs' others -> content v3 fp3 cs' (splice (fptr fp) (take (Z.to_nat n) w) data) -> apart v2 v3 others ->
    ((fptr fp + n) mod 512 <> 0 -> sect fp3 = fsect (fs v2) cs' ((fptr fp + n) / 512)) -> safe_sect v3 fp3 others ->
    stays fp fp3 /\ fptr fp3 = fptr fp /\ apart v v3 others /\ 0 < n <= Z.of_nat (length w) /\ exists cs', stretched cs cs'
      /\ file_ok v3 (grow n fp3) cs' (splice (fptr fp) (take (Z.to_nat n) w) data) others) as Hend.
  { intros n fp3 v3 Hn Hin St3 Ef3 Efs V3 C3 A3 Hse Hsafe3. pose proof (stays_trans _ _ _ St2 St3) as St. unfold fields in Ef3.
    injection Ef3 as Es1 Es2 Ep Es4.
    change (sclust fp2) with (hd 0 cs') in Es1. change (objsize fp2) with (objsize fp) in Es2. change (fptr fp2) with (fptr fp) in Ep.
    change (clust fp2) with (cluster cs' (k / csize (fs v))) in Es4.
    split; [done |]. split; [done |]. split; [by apply (apart_trans v v2) |]. split; [done |].
    exists cs'. split; [done |]. destruct St as [(S1 & S2 & S3) _ _].
    apply (grow_ok v3 fp3 cs' data); rewrite ?S1, ?S2, ?S3, ?Ep, ?Efs, ?Ecs2; try (done || congruence || lia).
    - rewrite Ef2, (kept_field fs_id v v1) by done. done.
    - by apply Hsl.
    - rewrite Hsl by done. lia.
    - fold k. rewrite Hm, <- Ecs2. lia. }
  cbv zeta. destruct (Z.ltb_spec 0 (Z.of_nat (length w) / SS)) as [Hcc | Hcc]; unfold SS in Hcc.
  - set (cc := clip (k mod csize (fs v2)) (Z.of_nat (length w) / SS) v). unfold SS in cc.
    assert (1 <= cc <= Z.of_nat (length w) / 512 /\ k mod csize (fs v2) + cc <= csize (fs v2)) as [Hc1 Hc2] by (unfold cc, clip; rewrite Ecs2 in *; case_match; lia).
    assert (0 <= k /\ 512 * k <= Z.of_nat (length data) /\ 512 * cc <= Z.of_nat (length w)) as (Hk0 & Hkl & Hcw) by (unfold k; divlia).
    assert (k + cc <= room (fs v2) cs') as Hkr by (apply room_cluster; (done || lia)).
    eapply wp_of; [apply (write_direct_ok v2 fp2 cs' data others k cc w V2 C2 (dirty_drop fp1)); (done || lia) |].
    intros n fp3 v3 (-> & St3 & Ef3 & Es3 & Efs & V3 & C3 & A3).
    assert (512 * k = fptr fp) as Ek by (unfold k; divlia). rewrite Ek in C3. apply Hend; try done; [divlia | lia | |].
    + intros Hx. exfalso. divlia.
    + apply (safe_kept v v3 fp); [done | rewrite Efs, Ef2; apply (kept_layout _ _ K) | by rewrite Es3].
  - pose proof (edge_ok v2 fp2 cs' data others w V2 C2 (dirty_drop fp1)) as He. cbv zeta in He.
    change (fptr fp2) with (fptr fp) in He. change (sect fp2) with (sect fp) in He. change (objsize fp2) with (objsize fp) in He. fold k in He.
    eapply wp_of; [apply He; try done; unfold k in *; divlia |].
    intros n fp3 v3 (Hn & Hn2 & St3 & Ef3 & Es3 & Efs & V3 & C3 & A3). apply Hend; try done; [rewrite Hm in Hn2; lia | |].
    + intros Hx. rewrite Es3. f_equal. unfold k. divlia.
    + apply (own_safe v3 fp3 cs' others k V3); rewrite Efs; [unfold k in *; divlia | done].
Qed.

Lemma splice_nil p (data : bytes) : 0 <= p -> splice p [] data = data.
Proof. intros Hp. unfold splice. cbn [length app]. rewrite Nat.add_0_r. apply take_drop. Qed.

(** Two pieces one after the other are one. *)
Lemma splice_splice p n m (w data : bytes) : 0 <= p <= Z.of_nat (length data) -> 0 <= n -> 0 <= m -> n + m <= Z.of_nat (length w) ->
  splice (p + n) (take (Z.to_nat m) (drop (Z.to_nat n) w)) (splice p (take (Z.to_nat n) w) data) = splice p (take (Z.to_nat (n + m)) w) data.
Proof.
  intros Hp Hn Hm Hw. assert (Z.of_nat (length (take (Z.to_nat n) w)) = n) as L1 by (rewrite length_take; lia).
  assert (Z.of_nat (length (take (Z.to_nat m) (drop (Z.to_nat n) w))) = m) as L2 by (rewrite length_take, length_drop; lia).
  assert (Z.of_nat (length (take (Z.to_nat (n + m)) w)) = n + m) as L3 by (rewrite length_take; lia).
  assert (Z.of_nat (length (splice p (take (Z.to_nat n) w) data)) = Z.max (Z.of_nat (length data)) (p + n)) as L4 by (rewrite splice_length, L1; lia).
  apply bytes_ext.
  - apply Nat2Z.inj. rewrite !splice_length, L1, L2, L3 by (rewrite ?splice_length, ?L1; lia). lia.
  - rewrite splice_length, L2, L4 by (rewrite ?L4; lia). intros i Hi. rewrite !splice_byte, L1, L2, L3 by (rewrite ?L4; lia).
    destruct (Z.leb_spec (p + n) i), (Z.ltb_spec i (p + n + m)), (Z.leb_spec p i), (Z.ltb_spec i (p + n)), (Z.ltb_spec i (p + (n + m))); cbn [andb]; try lia; try done.
    + rewrite byte_at_take, byte_at_drop, byte_at_take by lia. f_equal. lia.
    + by rewrite !byte_at_take by lia.
Qed.

Lemma file_flag v fp cs data others m : file_ok v fp cs data others -> test_mask m FA_DIRTY = false -> file_ok v (raise_flag m fp) cs data others.
Proof.
  intros [Hv V [H1 H2 H3 H4 H5 H6] [P1 P2 P3 P4 P5] Hsafe] Hm.
  assert (dirty (raise_flag m fp) = dirty fp) as E by (unfold dirty; cbn; rewrite test_mask_lor, Hm by done; apply orb_false_r).
  split; try done; split; try done; by rewrite E.
Qed.

Lemma stays_raise fp m : m .& 0x03 = 0 -> stays fp (raise_flag m fp).
Proof. intros Hm. split; [done | done | by apply access_raise]. Qed.

Lemma f_write_loop_ok fuel : forall w v fp cs data others, file_ok v fp cs data others -> is_bytes w -> (length w <= fuel)%nat ->
  fptr fp + Z.of_nat (length w) < 2 ^ 32 ->
  exists n fp' v' ds, write_loop fuel w fp v = Some (None, n, fp', v') /\ 0 <= n <= Z.of_nat (length w)
    /\ file_ok v' fp' (cs ++ ds) (splice (fptr fp) (take (Z.to_nat n) w) data) others /\ fptr fp' = fptr fp + n /\ stays fp fp' /\ apart v v' others
    /\ (n < Z.of_nat (length w) -> fptr fp + n = capacity v others).
Proof.
  induction fuel as [| fuel IH]; intros w v fp cs data others F Hbw Hf Hlim; pose proof (fo_place _ _ _ _ _ F) as [_ [_ Hl2] [Hp1 Hp2] _ _];
    (destruct w as [| x w1] eqn:Ew; [exists 0, fp, v, []; rewrite app_nil_r; cbn [length write_loop]; split; [done |]; split; [lia |];
      cbn [Z.to_nat take]; rewrite splice_nil by done; split; [done |]; split; [lia |]; split; [apply stays_refl |]; split; [apply apart_refl | lia] |]).
  { cbn [length] in Hf. lia. }
  rewrite <- Ew in *. assert (w <> []) as Hne by (by rewrite Ew). assert (write_loop (S fuel) w fp v = ('(r, fp, v) ← write_step w fp v;
      match r with
      | inl (Abort e) => Some (Some e, 0, set_err e fp, v)
      | inl Break => Some (None, 0, fp, v)
      | inr wcnt => '(res, bw, fp, v) ← write_loop fuel (drop (Z.to_nat wcnt) w) (grow wcnt fp) v; Some (res, wcnt + bw, fp, v)
      end)) as -> by (by rewrite Ew).
  destruct (write_step_ok v fp cs data others w F Hne Hbw Hlim) as ([[e |] | n] & fp1 & v1 & E1 & St1 & Ep1 & A1 & H1); [done | |];
    rewrite E1; cbn [mbind option_bind].
  - destruct H1 as (U & F1 & Hfull). exists 0, fp1, v1, []. rewrite app_nil_r. split; [done |]. split; [lia |]. cbn [Z.to_nat take]. rewrite splice_nil by done.
    split; [done |]. split; [lia |]. split; [done |]. split; [done |]. intros _.
    rewrite <- (capacity_apart v v1) by done. rewrite <- (capacity_full v1 cs) by (done || apply F1). rewrite (apart_room v v1 others) by done. lia.
  - destruct H1 as (Hn & cs' & Hst & F1). assert (exists ds, cs' = cs ++ ds) as (ds & ->).
    { destruct Hst as [-> | (r & ->)]; [exists []; by rewrite app_nil_r | by exists [r]]. }
    assert (fptr (grow n fp1) = fptr fp + n) as Eg by (rewrite grow_eq by lia; cbn; rewrite Ep1; apply u32_id; unfold is_u32; lia).
    destruct (IH (drop (Z.to_nat n) w) v1 (grow n fp1) (cs ++ ds) _ others F1) as (m & fp2 & v2 & ds2 & E2 & Hm & F2 & Ep2 & St2 & A2 & U2).
    + by apply Forall_drop.
    + rewrite length_drop. lia.
    + rewrite Eg, length_drop. lia.
    + rewrite E2. cbn [mbind option_bind]. rewrite length_drop in Hm, U2. exists (n + m), fp2, v2, (ds ++ ds2). split; [done |]. split; [lia |].
      rewrite app_assoc. rewrite Eg in F2, Ep2. rewrite splice_splice in F2 by lia. split; [done |]. split; [lia |].
      split; [apply (stays_trans fp fp1); [done |]; apply (stays_trans fp1 (grow n fp1)); [unfold grow; by case_match | done] |].
      split; [by apply (apart_trans v v1) |]. intros Hx. rewrite <- (capacity_apart v v1) by done. rewrite <- U2 by lia. lia.
Qed.

(** A write at the pointer.  It is short only when the disk is full or the file
    has reached the largest size. *)
Lemma f_write_ok w v fp cs data others : file_ok v fp cs data others -> test_mask (flag fp) FA_WRITE = true -> is_bytes w -> Z.of_nat (length w) < 2 ^ 32 ->
  exists n fp' v' ds, f_write true w fp v = Some (FR_OK, n, fp', v') /\ 0 <= n <= Z.of_nat (length w)
    /\ file_ok v' fp' (cs ++ ds) (splice (fptr fp) (take (Z.to_nat n) w) data) others /\ fptr fp' = fptr fp + n /\ stays fp fp' /\ apart v v' others
    /\ (n < Z.of_nat (length w) -> fptr fp + n = capacity v others \/ fptr fp + n = 2 ^ 32 - 1).
Proof.
  intros F Ha Hbw Hlw. unfold f_write. rewrite (validate_ok v fp cs data others F). pose proof F as [(_ & _ & He) _ _ P _].
  pose proof P as [_ [Hs Hlim] [Hp1 Hp2] _ _]. change (FR_OK =? FR_OK) with true. rewrite He, Ha. change (0 =? FR_OK) with true. cbn [negb].
  set (m := if u32 (fptr fp + Z.of_nat (length w)) <? fptr fp then 0xFFFFFFFF - fptr fp else Z.of_nat (length w)).
  assert (0 <= m <= Z.of_nat (length w) /\ fptr fp + m < 2 ^ 32 /\ (m < Z.of_nat (length w) -> fptr fp + m = 2 ^ 32 - 1)) as (Hm & Hm2 & Hm3).
  { unfold m. destruct (Z.ltb_spec (fptr fp + Z.of_nat (length w)) (2 ^ 32)).
    - rewrite u32_id by (unfold is_u32; lia). rewrite (proj2 (Z.ltb_ge _ _)) by lia. lia.
    - unfold u32. rewrite <- (Z.mod_add _ (-1)), Z.mod_small by lia. rewrite (proj2 (Z.ltb_lt _ _)) by lia. lia. }
  assert (length (take (Z.to_nat m) w) = Z.to_nat m) as Lt by (rewrite length_take; lia).
  destruct (f_write_loop_ok (Z.to_nat m) (take (Z.to_nat m) w) v fp cs data others F) as (n & fp1 & v1 & ds & E & Hn & F1 & Ep & St & A & U);
    [by apply Forall_take | lia | lia |].
  rewrite Lt in Hn, U. rewrite E. cbn [mbind option_bind]. exists n, (raise_flag FA_MODIFIED fp1), v1, ds. split; [done |]. split; [lia |].
  rewrite take_take, Nat.min_l in F1 by lia. split; [by apply file_flag |]. split; [done |].
  split; [apply (stays_trans fp fp1); [done | by apply stays_raise] |]. split; [done |].
  intros Hx. destruct (Z.eq_dec n m) as [-> |]; [right; apply Hm3; lia | left; apply U; lia].
Qed.

End Disk.

End FatTransfer.
