(* ===== verification/FatSeek.v ===== *)
(** * The FAT file system: moving, cutting and flushing

    [f_lseek], [f_truncate] and [f_sync] of [FatFile.v] keep the invariant of an
    open file. *)

From S2P Require Import Prelude FatTable FatChain FatFile FatTransfer.

Module FatSeek.
Import FatTable FatChain FatFile FatTransfer.

Section Disk.
Context {D : Type} {DI : DiskIo D} {SD : SectorDisk D}.
Implicit Types v : vol D.
Implicit Types fp : FIL.

(** ** Seeking *)

(** The start of the cluster of a byte. *)
Lemma cluster_start x n : 0 <= x -> pow2 n -> Z.ldiff x (n * SS - 1) = 512 * n * (x / (512 * n)).
Proof.
  intros Hx (k & Hk & ->). unfold SS. replace (2 ^ k * 512) with (2 ^ (k + 9)) by (rewrite Z.pow_add_r by lia; done).
  replace (512 * 2 ^ k) with (2 ^ (k + 9)) by (rewrite Z.pow_add_r by lia; lia).
  rewrite Z.sub_1_r, <- Z.ones_equiv, Z.ldiff_ones_r, Z.shiftl_mul_pow2, Z.shiftr_div_pow2 by lia. lia.
Qed.

Definition goes_on fp (cs : list Z) (B i ofs : Z) : Prop :=
  test_mask (flag fp) FA_WRITE = true \/ 512 * B * i + ofs <= 512 * B * Z.of_nat (length cs).

(** The file object at the cluster [i] of the chain. *)
Definition at_cluster fp (cs : list Z) (B i : Z) : FIL := set_place (512 * B * i) (cluster cs i) fp.

Lemma kept_csize v v' : kept v v' -> csize (fs v') = csize (fs v).
Proof. apply kept_field. done. Qed.

Lemma kept_used v v' files : kept v v' -> all_used v' files -> all_used v files.
Proof. intros K U c Hc. apply U. by apply (kept_valid v v'). Qed.

(** The next cluster, which a file open for writing may take from the free ones. *)
Lemma next_cluster_ok v fp cs others i : vol_ok v cs others -> 0 <= i < Z.of_nat (length cs) ->
  test_mask (flag fp) FA_WRITE = true \/ i + 1 < Z.of_nat (length cs) ->
  exists r v', (if test_mask (flag fp) FA_WRITE then call_create_chain (cluster cs i) else call_get_fat (cluster cs i)) fp v = Some (inr r, fp, v')
    /\ ((exists cs', stretched cs cs' /\ i + 1 < Z.of_nat (length cs') /\ r = cluster cs' (i + 1) /\ kept v v' /\ vol_ok v' cs' others)
        \/ (r = 0 /\ test_mask (flag fp) FA_WRITE = true /\ i + 1 = Z.of_nat (length cs) /\ kept v v' /\ vol_ok v' cs others
            /\ all_used v' (kept_part cs ++ others))).
Proof.
  intros V Hi Hw. pose proof (vo_good _ _ _ V) as G. destruct (own_parts v cs others V) as (_ & Hown & _ & _).
  destruct (Z.eq_dec (i + 1) (Z.of_nat (length cs))) as [El | El].
  - destruct Hw as [Hw | ?]; [| lia]. rewrite Hw. destruct (stretch_ok v cs others V) as (r & v' & E & H).
    rewrite last_cluster in E by (intros ->; cbn in Hi; lia). replace (Z.of_nat (length cs) - 1) with i in E by lia.
    exists r, v'. unfold call_create_chain. rewrite E. split; [done |]. destruct H as [(-> & S & U) | (Hr & K & V')].
    + right. split; [done |]. split; [done |]. split; [done |]. pose proof (same_kept v v' G S) as K. split; [done |]. split; [by apply (vol_same v) |].
      intros c Hc. apply U. by apply (kept_valid v v').
    + left. exists (cs ++ [r]). split; [right; by exists r |]. split; [rewrite length_app; cbn [length]; lia |]. split; [| done].
      by rewrite El, cluster_last.
  - assert (table v (cluster cs i) = cluster cs (i + 1)) as Hn by (apply (chain_next _ (n_fatent (fs v))); [by apply (own_chain v cs others) | lia | lia]).
    assert (valid v (cluster cs i) /\ valid v (cluster cs (i + 1))) as [Hv1 Hv2] by (split; apply Hown, cluster_elem; lia).
    assert (exists v', (if test_mask (flag fp) FA_WRITE then call_create_chain (cluster cs i) else call_get_fat (cluster cs i)) fp v
        = Some (inr (cluster cs (i + 1)), fp, v') /\ same v v') as (v' & E & S).
    { case_match.
      - destruct (create_follow _ _ v G Hv1 Hv2 Hn) as (v' & E & S). exists v'. unfold call_create_chain. by rewrite E.
      - destruct (get_fat_ok _ v G Hv1) as (v' & E & S). exists v'. unfold call_get_fat. by rewrite E, Hn. }
    exists (cluster cs (i + 1)), v'. split; [done |]. left. exists cs. split; [by left |]. split; [lia |]. split; [done |].
    split; [by apply same_kept | by apply (vol_same v)].
Qed.

Lemma seek_loop_ok B fuel : forall cs i ofs v fp others, vol_ok v cs others -> csize (fs v) = B -> 0 <= i < Z.of_nat (length cs) ->
  0 < ofs -> 512 * B * i + ofs < 2 ^ 32 -> ofs <= 512 * B * (Z.of_nat fuel + 1) -> goes_on fp cs B i ofs ->
  wpr (seek_loop fuel (512 * B) (cluster cs i) ofs) (at_cluster fp cs B i) v (fun r fp' v' => exists ds i', let cs' := cs ++ ds in
    kept v v' /\ vol_ok v' cs' others /\
    ((0 <= i' < Z.of_nat (length cs') /\ r.1 = cluster cs' i' /\ 0 < r.2 <= 512 * B /\ 512 * B * i' + r.2 = 512 * B * i + ofs /\ fp' = at_cluster fp cs' B i')
     \/ (r = (0, 0) /\ i' = Z.of_nat (length cs') /\ 512 * B * i' < 512 * B * i + ofs /\ all_used v' (kept_part cs' ++ others)
         /\ test_mask (flag fp) FA_WRITE = true /\ fp' = set_place (512 * B * i') (cluster cs' (i' - 1)) fp))).
Proof.
  induction fuel as [| fuel IH]; intros cs i ofs v fp others V HB Hi Ho Hlim Hf Hg; cbn [seek_loop]; pose proof (vo_good _ _ _ V) as G;
    (destruct (Z.ltb_spec (512 * B) ofs) as [Hlt | Hge];
      [| apply wpr_ret; exists [], i; cbv zeta; rewrite app_nil_r; split; [by apply kept_refl |]; split; [done |]; left; cbn [fst snd]; split_and!; (done || lia)]).
  { lia. }
  destruct (own_parts v cs others V) as (_ & Hown & _ & Hcs). rewrite HB in Hcs. pose proof (n_fatent_range v G) as Hn.
  apply wpr_bind, wpr_modify, wpr_with_file, wpr_bind.
  change (flag (set_fptr _ (at_cluster fp cs B i))) with (flag fp).
  set (fp1 := set_fptr (u32 (fptr (at_cluster fp cs B i) + 512 * B)) (at_cluster fp cs B i)).
  assert (fp1 = set_place (512 * B * (i + 1)) (cluster cs i) fp) as Efp.
  { unfold fp1, at_cluster, set_fptr. cbn [set_place fptr clust]. rewrite u32_id by (unfold is_u32; nia). unfold set_place. cbn. f_equal. lia. }
  destruct (next_cluster_ok v fp1 cs others i V Hi) as (r & v1 & E & H).
  { change (flag fp1) with (flag fp). destruct Hg as [Hg | Hg]; [by left | right; nia]. }
  change (flag fp1) with (flag fp) in E, H. exists (inr r), fp1, v1. split; [exact E |].
  destruct H as [(cs1 & Hst & Hl1 & -> & K1 & V1) | (-> & Hw & El & K1 & V1 & U1)].
  2:{ rewrite Hw. cbn [andb Z.eqb]. apply wpr_ret. exists [], (i + 1). cbv zeta. rewrite app_nil_r. split; [done |]. split; [done |]. right.
      rewrite Efp. replace (i + 1 - 1) with i by lia. split_and!; (done || lia). }
  assert (valid v1 (cluster cs1 (i + 1))) as Hv1 by (destruct (own_parts v1 cs1 others V1) as (_ & Ho1 & _ & _); apply Ho1, cluster_elem; lia).
  pose proof Hv1 as Hv. apply (kept_valid v v1 _ K1) in Hv. unfold valid in Hv.
  rewrite (proj2 (Z.eqb_neq (cluster cs1 (i + 1)) 0)), andb_false_r, (proj2 (Z.eqb_neq _ DISK_ERROR)), (proj2 (Z.leb_gt _ 1)), (proj2 (Z.leb_gt (n_fatent (fs v)) _))
    by (unfold DISK_ERROR; lia). cbn [orb].
  apply wpr_bind, wpr_modify. assert (set_clust (cluster cs1 (i + 1)) fp1 = at_cluster fp cs1 B (i + 1)) as -> by (by rewrite Efp).
  assert (exists ds, cs1 = cs ++ ds) as (ds & ->) by (destruct Hst as [-> | (x & ->)]; [exists []; by rewrite app_nil_r | by exists [x]]).
  eapply wpr_mono; [apply (IH (cs ++ ds) (i + 1) (ofs - 512 * B) v1 fp others V1) |].
  - by rewrite (kept_csize v v1).
  - lia.
  - lia.
  - nia.
  - nia.
  - destruct Hg as [Hg | Hg]; [by left | right]. rewrite length_app. nia.
  - intros r fp' v' (ds2 & i' & K2 & V2 & H). exists (ds ++ ds2), i'. cbv zeta in *. rewrite app_assoc. split; [by apply (kept_trans v v1) |]. split; [done |].
    replace (512 * B * (i + 1) + (ofs - 512 * B)) with (512 * B * i + ofs) in H by lia. done.
Qed.

Lemma hd_cluster cs : cs <> [] -> hd 0 cs = cluster cs 0.
Proof. by destruct cs. Qed.

(** Where the way to [ofs] starts. *)
Lemma seek_start_ok v fp cs data others ofs : file_ok v fp cs data others -> 0 < ofs ->
  test_mask (flag fp) FA_WRITE = true \/ ofs <= Z.of_nat (length data) ->
  wpr (seek_start (fptr fp) ofs) (set_fptr 0 fp) v (fun st fp' v' => exists ds, let cs' := cs ++ ds in
    kept v v' /\ vol_ok v' cs' others /\
    ((exists i, 0 <= i < Z.of_nat (length cs') /\ st = (cluster cs' i, ofs - 512 * csize (fs v) * i) /\ 0 < st.2
        /\ fp' = at_cluster (set_sclust (hd 0 cs') fp) cs' (csize (fs v)) i)
     \/ (st.1 = 0 /\ cs' = [] /\ all_used v' others /\ test_mask (flag fp) FA_WRITE = true /\ fp' = set_place 0 0 (set_sclust 0 fp)))).
Proof.
  intros [_ V C [Pst [Ps Pl] [Pp1 Pp2] Pc _] _] Ho Hw. pose proof (vo_good _ _ _ V) as G. destruct (own_parts v cs others V) as (_ & Hown & _ & Hcs).
  set (B := csize (fs v)) in *. pose proof (co_room _ _ _ _ C) as Hroom. unfold room in Hroom. fold B in Hroom. pose proof (n_fatent_range v G) as Hn.
  apply wpr_with_file. cbv zeta. fold B. unfold SS at 1 2. replace (B * 512) with (512 * B) by lia.
  destruct ((0 <? fptr fp) && ((fptr fp - 1) / (512 * B) <=? (ofs - 1) / (512 * B))) eqn:Ec.
  - apply andb_true_iff in Ec as [E1%Z.ltb_lt E2%Z.leb_le]. unfold B. rewrite cluster_start by (lia || apply (vo_csize _ _ _ V)). fold B.
    set (i := (fptr fp - 1) / (512 * B)) in *. apply wpr_bind, wpr_modify, wpr_ret. exists []. rewrite app_nil_r.
    split; [by apply kept_refl |]. split; [done |]. left. exists i.
    assert (0 <= i /\ i < Z.of_nat (length cs)) as [Hi0 Hi1] by (unfold i; split; [apply Z.div_pos; lia | apply Z.div_lt_upper_bound; nia]).
    change (clust (set_fptr 0 fp)) with (clust fp). rewrite Pc by lia. fold i.
    assert (512 * B * i < ofs) as Hlt by (pose proof (Z.mul_div_le (ofs - 1) (512 * B) ltac:(lia)); nia).
    split; [done |]. split; [done |]. split; [cbn [snd]; lia |]. unfold at_cluster. rewrite <- Pst, set_sclust_id.
    unfold set_fptr, set_place. cbn. by rewrite Pc by lia.
  - change (sclust (set_fptr 0 fp)) with (sclust fp). rewrite Pst. apply wpr_bind. destruct cs as [| c cs].
    + cbn [hd]. rewrite Z.eqb_refl. destruct (stretch_ok v [] others V) as (r & v' & E & H). apply wpr_bind.
      exists (inr r), (set_fptr 0 fp), v'. split; [unfold call_create_chain; cbn [list.last] in E; change (default 0 None) with 0 in E; by rewrite E |].
      destruct H as [(-> & S & U) | (Hr & K & V')].
      * cbn [Z.eqb DISK_ERROR]. apply wpr_modify, wpr_with_file, wpr_bind, wpr_modify, wpr_ret. exists []. pose proof (same_kept v v' G S) as K.
        split; [done |]. split; [by apply (vol_same v) |]. right. split; [done |]. split; [done |]. split; [|].
        -- intros c Hc. apply U. by apply (kept_valid v v').
        -- split; [destruct Hw as [? | Hw]; [done |]; cbn [length] in *; lia | done].
      * unfold valid in Hr. rewrite !(proj2 (Z.eqb_neq r _)) by (unfold DISK_ERROR; lia).
        apply wpr_modify, wpr_with_file, wpr_bind, wpr_modify, wpr_ret. exists [r]. split; [done |]. split; [done |]. left. exists 0.
        cbn [app length hd]. split; [lia |]. split; [by rewrite Z.mul_0_r, Z.sub_0_r |]. split; [cbn [snd]; lia |].
        unfold at_cluster. by rewrite Z.mul_0_r.
    + destruct (Hown c (list_elem_of_here _ _)) as [Hv _]. unfold valid in Hv. cbn [hd]. rewrite (proj2 (Z.eqb_neq c 0)) by lia.
      apply wpr_ret, wpr_with_file, wpr_bind, wpr_modify, wpr_ret. exists []. rewrite app_nil_r. split; [by apply kept_refl |]. split; [done |]. left.
      exists 0. change (sclust (set_fptr 0 fp)) with (sclust fp). rewrite Pst. cbn [hd length].
      split; [lia |]. split; [by rewrite Z.mul_0_r, Z.sub_0_r |]. split; [cbn [snd]; lia |].
      unfold at_cluster. rewrite Z.mul_0_r. assert (set_sclust c fp = fp) as -> by (transitivity (set_sclust (sclust fp) fp); [by rewrite Pst | apply set_sclust_id]). done.
Qed.

(** Moving to [ofs], or to the end of the chain on a full disk. *)
Lemma seek_to_ok v fp cs data others ofs : file_ok v fp cs data others -> 0 <= ofs < 2 ^ 32 ->
  test_mask (flag fp) FA_WRITE = true \/ ofs <= Z.of_nat (length data) ->
  wpr (seek_to (fptr fp) ofs) fp v (fun ns fp' v' => exists n cl ds, let cs' := cs ++ ds in
    kept v v' /\ vol_ok v' cs' others /\ 0 <= n <= ofs /\ n <= 512 * room (fs v) cs'
    /\ (n < ofs -> n = capacity v others)
    /\ fp' = set_place n cl (set_sclust (hd 0 cs') fp) /\ (0 < n -> cl = cluster cs' ((n - 1) / (512 * csize (fs v))))
    /\ (n mod 512 <> 0 -> n / 512 < room (fs v) cs' /\ ns = fsect (fs v) cs' (n / 512))).
Proof.
  intros F Ho Hw. pose proof F as [_ V C [Pst _ _ _ _] _]. pose proof (vo_good _ _ _ V) as G. destruct (own_parts v cs others V) as (_ & _ & _ & Hcs).
  assert (forall v' cs', kept v v' -> vol_ok v' cs' others -> all_used v' (kept_part cs' ++ others) -> 512 * room (fs v) cs' = capacity v others) as Hcap.
  { intros v' cs' K V' U. assert (apart v v' others) as A by (by apply kept_apart).
    rewrite <- (capacity_apart v v'), <- (apart_room v v' others) by done. by apply capacity_full. }
  set (B := csize (fs v)) in *. pose proof (co_room _ _ _ _ C) as Hroom. unfold room in Hroom. fold B in Hroom.
  apply wpr_bind, wpr_modify. destruct (Z.ltb_spec 0 ofs) as [Hpos | Hz].
  2:{ apply wpr_ret. exists 0, (clust fp), []. rewrite app_nil_r. split; [by apply kept_refl |]. split; [done |]. split; [lia |].
      split; [unfold room; nia |]. split; [lia |]. split; [by rewrite <- Pst, set_sclust_id |]. split; [lia | done]. }
  apply wpr_bind. eapply wpr_mono; [by apply (seek_start_ok v fp cs data others ofs) |].
  intros st fp1 v1 (ds & K1 & V1 & H). cbv zeta in *. fold B in H. set (cs1 := cs ++ ds) in *.
  destruct H as [(i & Hi & -> & Hst & ->) | (Est & Enil & U & Hwr & ->)].
  2:{ rewrite Est, Z.eqb_refl. apply wpr_ret. exists 0, 0, ds. fold cs1. rewrite Enil in *. split; [done |]. split; [done |]. split; [lia |].
      split; [unfold room; cbn [length]; lia |]. split; [intros _ |]. 2:{ split; [done |]. split; [lia | done]. }
      rewrite <- (Hcap v1 []) by done. unfold room. cbn [length]. lia. }
  cbn [fst snd] in *. destruct (own_parts v1 cs1 others V1) as (_ & Hown1 & _ & _). destruct (Hown1 _ (cluster_elem cs1 i Hi)) as [Hvi _].
  unfold valid in Hvi. rewrite (proj2 (Z.eqb_neq (cluster cs1 i) 0)) by lia. apply wpr_with_file. rewrite (kept_csize v v1) by done. fold B.
  change SS with 512. replace (B * 512) with (512 * B) by lia. set (fp0 := set_sclust (hd 0 cs1) fp).
  apply wpr_bind. eapply wpr_mono; [apply (seek_loop_ok B _ cs1 i (ofs - 512 * B * i) v1 fp0 others V1); try done |].
  { by rewrite (kept_csize v v1). }
  { lia. }
  { pose proof (Z.div_mod (ofs - 512 * B * i) (512 * B) ltac:(lia)). pose proof (Z.mod_pos_bound (ofs - 512 * B * i) (512 * B) ltac:(lia)).
    rewrite Z2Nat.id by (apply Z.div_pos; lia). lia. }
  { destruct Hw as [Hw | Hw]; [by left | right]. unfold cs1. rewrite length_app. nia. }
  intros [cl r2] fp2 v2 (ds2 & i' & K2 & V2 & H). cbv zeta in *. cbn [fst snd] in *. set (cs2 := cs1 ++ ds2) in *.
  assert (cs ++ (ds ++ ds2) = cs2) as E2 by (unfold cs2, cs1; by rewrite app_assoc).
  pose proof (kept_trans v v1 v2 K1 K2) as K. assert (csize (fs v2) = B) as EB by (by rewrite (kept_csize v v2)).
  assert (cs <> [] -> hd 0 cs1 = hd 0 cs2) as Hhd0 by (intros _; unfold cs2; destruct cs1; [cbn in Hi; lia | done]).
  assert (hd 0 cs1 = hd 0 cs2) as Hhd by (unfold cs2; destruct cs1; [cbn in Hi; lia | done]). clear Hhd0.
  assert (forall f, csize f = B -> room f cs2 = B * Z.of_nat (length cs2)) as Er by (intros f Ef; unfold room; by rewrite Ef).
  apply wpr_bind, wpr_modify. destruct H as [(Hi' & -> & Hr2 & Esum & ->) | (Er2 & -> & Hlt & U & Hwr & ->)].
  - assert (set_fptr (u32 (fptr (at_cluster fp0 cs2 B i') + r2)) (at_cluster fp0 cs2 B i') = set_place ofs (cluster cs2 i') fp0) as ->.
    { unfold at_cluster, set_fptr. cbn [set_place fptr clust]. rewrite u32_id by (unfold is_u32; lia). unfold set_place. cbn. f_equal. lia. }
    assert ((ofs - 1) / (512 * B) = i') as Ei by (symmetry; apply (Z.div_unique_pos _ _ _ (r2 - 1)); lia).
    assert (kept v v2 /\ vol_ok v2 (cs ++ (ds ++ ds2)) others /\ 0 <= ofs <= ofs /\ ofs <= 512 * room (fs v) (cs ++ (ds ++ ds2))
      /\ (ofs < ofs -> ofs = capacity v others)
      /\ set_place ofs (cluster cs2 i') fp0 = set_place ofs (cluster cs2 i') (set_sclust (hd 0 (cs ++ (ds ++ ds2))) fp)
      /\ (0 < ofs -> cluster cs2 i' = cluster (cs ++ (ds ++ ds2)) ((ofs - 1) / (512 * B)))) as Hfirst.
    { rewrite E2, Ei. split; [done |]. split; [done |]. split; [lia |]. split; [rewrite Er by done; nia |]. split; [lia |].
      split; [unfold fp0; by rewrite Hhd | done]. }
    destruct (Z.eqb_spec (r2 mod 512) 0) as [Em | Em]; cbn [negb].
    + apply wpr_ret. exists ofs, (cluster cs2 i'), (ds ++ ds2). split_and!; try apply Hfirst. intros Hx. exfalso. apply Hx.
      replace ofs with (r2 + (B * i') * 512) by lia. rewrite Z.mod_add by lia. done.
    + apply wpr_with_file. destruct (own_parts v2 cs2 others V2) as (_ & Hown2 & _ & _). destruct (Hown2 _ (cluster_elem cs2 i' Hi')) as [Hvi' _].
      destruct (clst2sect_ok _ v2 (vo_good _ _ _ V2) Hvi') as [Ec Hne]. rewrite Ec. cbv zeta. rewrite (proj2 (Z.eqb_neq _ 0)) by done.
      apply wpr_ret. exists ofs, (cluster cs2 i'), (ds ++ ds2). split_and!; try apply Hfirst. intros _. rewrite E2.
      assert (ofs / 512 = B * i' + r2 / 512 /\ 0 <= r2 / 512 < B) as [Eo Hrb].
      { split; [replace ofs with (r2 + (B * i') * 512) by lia; rewrite Z.div_add by lia; lia |]. divlia. }
      assert (0 <= ofs / 512 < room (fs v2) cs2) as Hk by (rewrite Er by done; nia).
      split; [rewrite (Er (fs v)), <- (Er (fs v2)) by done; lia |]. destruct (own_sector v2 cs2 others (ofs / 512) V2 Hk) as (Hs & _).
      rewrite <- (kept_fsect v v2) by done. unfold fsect in *. rewrite EB in *. rewrite Eo in *.
      assert ((B * i' + r2 / 512) / B = i' /\ (B * i' + r2 / 512) mod B = r2 / 512) as [E3 E4].
      { split; [by apply index_unique |]. symmetry. by apply (Z.mod_unique_pos _ _ i'). }
      rewrite E3, E4 in *. unfold sec_of in *. rewrite Z.add_0_r. pose proof disk_size_u32. pose proof (database_pos v2 (vo_good _ _ _ V2)).
      apply u32_id. unfold is_u32. lia.
  - injection Er2 as -> ->. set (i' := Z.of_nat (length cs2)) in *.
    assert (set_fptr (u32 (fptr (set_place (512 * B * i') (cluster cs2 (i' - 1)) fp0) + 0)) (set_place (512 * B * i') (cluster cs2 (i' - 1)) fp0)
      = set_place (512 * B * i') (cluster cs2 (i' - 1)) fp0) as ->.
    { unfold set_fptr. cbn [set_place fptr clust]. rewrite Z.add_0_r, u32_id by (unfold is_u32; nia). done. }
    rewrite Z.mod_0_l by lia. cbn [Z.eqb negb]. apply wpr_ret. exists (512 * B * i'), (cluster cs2 (i' - 1)), (ds ++ ds2). rewrite E2.
    split; [done |]. split; [done |]. split; [lia |]. split; [rewrite Er by done; fold i'; lia |].
    split; [intros _; rewrite <- (Hcap v2 cs2) by done; rewrite Er by done; fold i'; lia |]. split; [unfold fp0; by rewrite Hhd |].
    split.
    + intros Hp. f_equal. apply (Z.div_unique_pos _ _ _ (512 * B - 1)); nia.
    + intros Hx. exfalso. apply Hx. replace (512 * B * i') with ((B * i') * 512) by lia. apply Z.mod_mul. lia.
Qed.

(** Behind its end a file has the bytes that lie there. *)
Lemma content_extend v fp cs data others n : vol_ok v cs others -> content v fp cs data -> 0 <= n -> Z.of_nat (length data) + n <= 512 * room (fs v) cs ->
  exists junk, Z.of_nat (length junk) = n /\ content v fp cs (data ++ junk).
Proof.
  intros V [Hb Hd Hc Ht Hr Hby] Hn Hle. set (l := Z.of_nat (length data)) in *.
  set (g := fun i => byte_at (seen fp (dk v) (fsect (fs v) cs (i / 512))) (i mod 512)).
  assert (Z.of_nat (length (g <$> seqZ l n)) = n) as Hlen by (rewrite length_fmap, length_seqZ; lia).
  exists (g <$> seqZ l n). split; [done |]. split; try done.
  - intros i Hi. rewrite length_app in Hi. rewrite byte_at_app by lia. fold l. destruct (Z.ltb_spec i l) as [Hlt | Hge]; [apply Ht; lia |].
    unfold byte_at at 1. rewrite nth_lookup, list_lookup_fmap, lookup_seqZ_lt by lia.
    replace (l + Z.of_nat (Z.to_nat (i - l))) with i by lia. done.
  - rewrite length_app. lia.
  - apply Forall_app. split; [done |]. apply Forall_fmap, list.Forall_forall. intros i _. apply byte_at_range. unfold seen.
    case_match; [apply Hb |]. by apply sector_length, (good_disk v), (vo_good v cs others).
Qed.

Lemma stays_access fp fp' m : stays fp fp' -> m = FA_READ \/ m = FA_WRITE -> test_mask (flag fp') m = test_mask (flag fp) m.
Proof. intros [_ _ H] Hm. by apply access_test. Qed.

(** The size follows the pointer. *)
Definition resize fp : FIL := if objsize fp <? fptr fp then raise_flag FA_MODIFIED (set_objsize (fptr fp) fp) else fp.

Lemma resize_fields fp : stays fp (resize fp) /\ sclust (resize fp) = sclust fp /\ fptr (resize fp) = fptr fp /\ clust (resize fp) = clust fp
  /\ sect (resize fp) = sect fp /\ buf (resize fp) = buf fp /\ dirty (resize fp) = dirty fp /\ objsize (resize fp) = Z.max (objsize fp) (fptr fp).
Proof.
  unfold resize. destruct (Z.ltb_spec (objsize fp) (fptr fp)); [| by split_and!; (done || lia)].
  split; [split; [done | done | exact (access_raise _ FA_MODIFIED eq_refl)] |].
  assert (dirty (raise_flag FA_MODIFIED (set_objsize (fptr fp) fp)) = dirty fp) as Ed.
  { unfold dirty. cbn. rewrite test_mask_lor by done. apply orb_false_r. }
  split_and!; (done || cbn; lia).
Qed.

(** A buffer that shows the same. *)
Lemma content_ext v fp fp' cs data : content v fp cs data -> sect fp' = sect fp -> buf fp' = buf fp -> dirty fp' = dirty fp -> content v fp' cs data.
Proof. intros [H1 H2 H3 H4 H5 H6] Es Eb Ed. split; rewrite ?Es, ?Eb, ?Ed; try done. intros i Hi. unfold seen. rewrite Es, Eb. by apply H4. Qed.

(** A seek: the pointer ends at the target or, on a full disk, at the end of the
    last cluster; the file grows to the pointer. *)
Lemma seek_ok v fp cs data others ofs : file_ok v fp cs data others -> 0 <= ofs < 2 ^ 32 ->
  test_mask (flag fp) FA_WRITE = true \/ ofs <= Z.of_nat (length data) ->
  wpr (seek ofs) fp v (fun _ fp' v' => exists n ds junk,
    file_ok v' fp' (cs ++ ds) (data ++ junk) others /\ fptr fp' = n /\ 0 <= n <= ofs /\ Z.of_nat (length (data ++ junk)) = Z.max (Z.of_nat (length data)) n
    /\ (n < ofs -> n = capacity v others) /\ stays fp fp' /\ apart v v' others).
Proof.
  intros F Ho Hw. pose proof F as [Hval V C [Pst [Ps Pl] [Pp1 Pp2] Pc Pse] Hsafe]. destruct (own_parts v cs others V) as (_ & _ & Hoth & Hcs).
  apply wpr_with_file, wpr_bind. eapply wpr_mono; [by apply (seek_to_ok v fp cs data others ofs) |].
  intros ns fp1 v1 (n & cl & ds & K & V1 & Hn & Hroom & Hfull & -> & Hcl & Hns). cbv zeta in *. set (cs1 := cs ++ ds) in *.
  assert (csize (fs v1) = csize (fs v)) as EB by (by apply kept_csize).
  assert (room (fs v1) cs1 = room (fs v) cs1) as Er by (unfold room; by rewrite EB).
  set (fp1 := set_place n cl (set_sclust (hd 0 cs1) fp)). change (wpr _ fp1 v1) with (wpr (bind (modify resize) (fun _ => with_file (fun fp _ =>
      if negb (fptr fp mod SS =? 0) && negb (ns =? sect fp) then bind write_back (fun _ => bind (fill ns) (fun _ => modify (set_sect ns))) else ret tt))) fp1 v1).
  apply wpr_bind, wpr_modify, wpr_with_file. destruct (resize_fields fp1) as (St & R1 & R2 & R3 & R4 & R5 & R6 & R7). set (fp2 := resize fp1) in *.
  (* the bytes behind the end *)
  assert (content v1 fp2 cs1 data) as C1.
  { apply (content_ext v1 fp); [| done | done | done]. apply content_app; [by rewrite EB |]. by apply (content_kept v v1 fp cs data others). }
  destruct (content_extend v1 fp2 cs1 data others (Z.max (Z.of_nat (length data)) n - Z.of_nat (length data)) V1 C1) as (junk & Hj & C2).
  { lia. }
  { rewrite Er. pose proof (co_room _ _ _ _ C1). rewrite Er in *. lia. }
  assert (Z.of_nat (length (data ++ junk)) = Z.max (Z.of_nat (length data)) n) as Hlen by (rewrite length_app; lia).
  change (fptr fp1) with n in R2, R7. change (objsize fp1) with (objsize fp) in R7. change (sclust fp1) with (hd 0 cs1) in R1. change (clust fp1) with cl in R3.
  assert (stays fp fp2) as St2 by (apply (stays_trans fp fp1); [by split | done]).
  assert (apart v v1 others) as A1 by (by apply kept_apart).
  assert (forall fp3 v3, stays fp2 fp3 -> sclust fp3 = hd 0 cs1 -> objsize fp3 = objsize fp2 -> fptr fp3 = n -> clust fp3 = cl -> fs v3 = fs v1 -> vol_ok v3 cs1 others ->
    content v3 fp3 cs1 (data ++ junk) -> apart v1 v3 others -> (n mod 512 <> 0 -> sect fp3 = ns) -> safe_sect v3 fp3 others -> exists n ds junk,
    file_ok v3 fp3 (cs ++ ds) (data ++ junk) others /\ fptr fp3 = n /\ 0 <= n <= ofs /\ Z.of_nat (length (data ++ junk)) = Z.max (Z.of_nat (length data)) n
    /\ (n < ofs -> n = capacity v others) /\ stays fp fp3 /\ apart v v3 others) as Hend.
  { intros fp3 v3 St3 E1 E2 E3 E4 Efs V3 C3 A3 Hse Hsafe3. pose proof (stays_trans _ _ _ St2 St3) as St4. exists n, ds, junk. fold cs1.
    split; [| split; [done |]; split; [done |]; split; [done |]; split; [done | split; [done | by apply (apart_trans v v1)]]].
    pose proof St4 as [(S1 & S2 & S3) _ _]. split; rewrite ?S1, ?S2, ?S3; try done.
    - rewrite Efs, (kept_field fs_id v v1) by done. done.
    - split; rewrite ?E1, ?E2, ?E3, ?E4, ?Efs, ?EB; try done; [by rewrite R7, Ps, Hlen; lia | rewrite Hlen; lia |].
      intros Hm. rewrite (kept_fsect v v1) by done. rewrite Hse by done. by apply Hns. }
  assert (forall v3 fp3, fs v3 = fs v1 -> sect fp3 = sect fp -> safe_sect v3 fp3 others) as Hsafe1.
  { intros v3 fp3 Ef Es. apply (safe_kept v v3 fp); [done | rewrite Ef; apply (kept_layout _ _ K) | done]. }
  rewrite R2, R4. change (sect fp1) with (sect fp). change (n mod SS) with (n mod 512). destruct (Z.eqb_spec (n mod 512) 0) as [Em | Em]; cbn [negb andb].
  { apply wpr_ret. apply Hend; try done. by apply Hsafe1. }
  destruct (Hns Em) as [Hk Ens]. rewrite <- (kept_fsect v v1) in Ens by done.
  destruct (Z.eqb_spec ns (sect fp)) as [Es | Es]; cbn [negb].
  { apply wpr_ret. apply Hend; try done; [intros _; by rewrite R4 | by apply Hsafe1]. }
  apply wpr_assoc. assert (0 <= n / 512 < room (fs v1) cs1) as Hk' by (rewrite Er; divlia).
  pose proof (load_ok v1 fp2 cs1 (data ++ junk) others (n / 512) V1 C2 Hk') as Hload. rewrite <- Ens, R4 in Hload.
  change (sect fp1) with (sect fp) in Hload. rewrite (proj2 (Z.eqb_neq (sect fp) ns)) in Hload by congruence. cbn [negb] in Hload.
  eapply wpr_mono; [exact Hload |]. intros _ fp3 v3 (St3 & E1 & E2 & E3 & E4 & E5 & Efs & V3 & C3 & A3). apply Hend; try done; try congruence.
  apply (own_safe v3 fp3 cs1 others (n / 512) V3); rewrite Efs; [done | congruence].
Qed.

Lemma f_lseek_ok v fp cs data others ofs : file_ok v fp cs data others -> 0 <= ofs < 2 ^ 32 ->
  exists fp' v' n ds junk, f_lseek true ofs fp v = Some (FR_OK, fp', v') /\ file_ok v' fp' (cs ++ ds) (data ++ junk) others /\ fptr fp' = n
    /\ Z.of_nat (length (data ++ junk)) = Z.max (Z.of_nat (length data)) n /\ stays fp fp' /\ apart v v' others
    /\ let target := if test_mask (flag fp) FA_WRITE then ofs else Z.min ofs (Z.of_nat (length data)) in
       0 <= n <= target /\ (n < target -> n = capacity v others).
Proof.
  intros F Ho. unfold f_lseek. rewrite (validate_ok v fp cs data others F). pose proof F as [(_ & _ & He) _ _ [_ [Hs _] _ _ _] _].
  change (FR_OK =? FR_OK) with true. rewrite He. change (0 =? FR_OK) with true. cbn [negb].
  set (t := if (objsize fp <? ofs) && negb (test_mask (flag fp) FA_WRITE) then objsize fp else ofs).
  assert (t = (if test_mask (flag fp) FA_WRITE then ofs else Z.min ofs (Z.of_nat (length data)))) as Et.
  { unfold t. rewrite Hs. destruct (test_mask (flag fp) FA_WRITE); cbn [negb]; [by rewrite andb_false_r |]. rewrite andb_true_r. case_match; lia. }
  destruct (seek_ok v fp cs data others t F) as ([e | u] & fp' & v' & E & H); [rewrite Et; case_match; lia | rewrite Et; case_match; [by left | right; lia] | done |].
  destruct H as (n & ds & junk & F' & Ep & Hn & Hlen & U & St & A). rewrite E. cbn [mbind option_bind]. exists fp', v', n, ds, junk. by rewrite <- Et.
Qed.

(** ** Cutting *)

Lemma content_cut v fp cs rest data p : 1 <= csize (fs v) -> content v fp (cs ++ rest) data -> dirty fp = false -> 0 <= p <= Z.of_nat (length data) ->
  p <= 512 * room (fs v) cs -> content v fp cs (take (Z.to_nat p) data).
Proof.
  intros Hcs [Hb Hd Hc Ht Hr Hby] Ed Hp Hroom. split; try done.
  - intros H. congruence.
  - intros i Hi. rewrite length_take in Hi. rewrite byte_at_take by lia. rewrite Ht by lia. by rewrite fsect_app by (done || divlia).
  - rewrite length_take. lia.
  - by apply Forall_take.
Qed.

(** The chain up to the cluster of the pointer. *)
Lemma truncate_chain_ok v fp cs data others : file_ok v fp cs data others -> fptr fp < Z.of_nat (length data) ->
  wpr truncate_chain fp v (fun res fp' v' => exists cs' rest, cs = cs' ++ rest /\ res = FR_OK /\ kept v v' /\ vol_ok v' cs' others
    /\ fp' = set_sclust (hd 0 cs') fp /\ fptr fp <= 512 * room (fs v) cs' /\ (0 < fptr fp -> (fptr fp - 1) / (512 * csize (fs v)) < Z.of_nat (length cs'))).
Proof.
  intros [_ V C [Pst [Ps Pl] [Pp1 Pp2] Pc _] _] Hlt. pose proof (vo_good _ _ _ V) as G. destruct (own_parts v cs others V) as (_ & Hown & _ & Hcs).
  pose proof (co_room _ _ _ _ C) as Hroom. unfold room in Hroom. set (B := csize (fs v)) in *. pose proof (n_fatent_range v G) as Hn.
  assert (forall v' cs', kept v v' -> clean v' (kept_part cs' ++ others) -> vol_ok v' cs' others) as Hvol.
  { intros v' cs' K C'. split; [done | rewrite (kept_csize v v') by done; apply (vo_csize _ _ _ V) | by apply (window_kept v v' cs others)]. }
  apply wpr_with_file. destruct (Z.eqb_spec (fptr fp) 0) as [E0 | E0].
  - destruct cs as [| c cs]; [cbn [length] in *; lia |]. rewrite Pst. cbn [hd].
    destruct (remove_ok v [] c cs others) as (v' & E & K & C'); [apply (vo_clean _ _ _ V) |]. change (default 0 (list.last [])) with 0 in E.
    apply wpr_bind. exists (inr FR_OK), fp, v'. split; [unfold call_remove_chain; by rewrite E |].
    apply wpr_bind, wpr_modify, wpr_ret. exists [], (c :: cs). split; [done |]. split; [done |]. split; [done |]. split; [by apply Hvol |].
    split; [done |]. split; [unfold room; cbn [length]; lia | lia].
  - rewrite Pc by lia. set (i := (fptr fp - 1) / (512 * B)).
    assert (0 <= i < Z.of_nat (length cs)) as Hi by (unfold i; split; [apply Z.div_pos; lia | apply Z.div_lt_upper_bound; nia]).
    assert (fptr fp <= 512 * B * (i + 1)) as Hpi.
    { pose proof (Z.div_mod (fptr fp - 1) (512 * B) ltac:(lia)). pose proof (Z.mod_pos_bound (fptr fp - 1) (512 * B) ltac:(lia)). fold i in H. lia. }
    destruct (Hown _ (cluster_elem cs i Hi)) as [Hv _].
    destruct (get_fat_ok (cluster cs i) v G Hv) as (v1 & E & Sm). apply wpr_bind. exists (inr (table v (cluster cs i))), fp, v1.
    split; [unfold call_get_fat; by rewrite E |]. cbv zeta. destruct (table_not_error v (cluster cs i) G) as [He _].
    rewrite (proj2 (Z.eqb_neq _ DISK_ERROR)) by done. pose proof (own_chain v cs others V) as Hch.
    destruct (Z.eq_dec (i + 1) (Z.of_nat (length cs))) as [El | El].
    + assert (n_fatent (fs v) <= table v (cluster cs i)) as Hend.
      { destruct (list.last cs) as [q |] eqn:Eq; [| apply last_None in Eq; subst; cbn in Hi; lia]. apply last_Some in Eq as (pre & ->).
        assert (cluster (pre ++ [q]) i = q) as ->. { replace i with (Z.of_nat (length pre)) by (rewrite length_app in El; cbn [length] in El; lia). apply cluster_last. }
        by apply chain_app_split in Hch as (_ & H & _). }
      rewrite (proj2 (Z.eqb_neq _ 1)), (proj2 (Z.ltb_ge _ (n_fatent (fs v)))) by lia. cbn [andb Z.eqb FR_OK]. apply wpr_ret. exists cs, []. rewrite app_nil_r.
      split; [done |]. split; [done |]. split; [by apply same_kept |]. split; [by apply (vol_same v) |].
      split; [by rewrite <- Pst, set_sclust_id |]. unfold room. fold B. split; [nia | lia].
    + assert (0 <= i + 1 < Z.of_nat (length cs)) as Hi1 by lia. destruct (Hown _ (cluster_elem cs (i + 1) Hi1)) as [Hv1 _]. unfold valid in Hv1.
      rewrite (chain_next _ _ cs i Hch) by lia. rewrite (proj2 (Z.eqb_neq _ 1)), (proj2 (Z.ltb_lt _ (n_fatent (fs v)))) by lia. cbn [andb Z.eqb FR_OK].
      (* the chain, cut *)
      set (m := Z.to_nat (i + 1)). assert (cs = take m cs ++ cluster cs (i + 1) :: drop (S m) cs) as Ecs.
      { unfold cluster. fold m. rewrite <- (take_drop m cs) at 1. f_equal. apply drop_S. rewrite nth_lookup.
        destruct (lookup_lt_is_Some_2 cs m) as [x Hx]; [lia |]. by rewrite Hx. }
      assert (default 0 (list.last (take m cs)) = cluster cs i /\ length (take m cs) = m) as [Elast Elen].
      { assert (length (take m cs) = m) as Hlm by (rewrite length_take; lia). split; [| done].
        rewrite last_cluster by (intros Hnil; rewrite Hnil in Hlm; cbn in Hlm; lia). rewrite Hlm. unfold m at 2. unfold cluster at 1.
        replace (Z.of_nat (Z.to_nat (i + 1)) - 1) with i by lia. rewrite nth_lookup, lookup_take, decide_True by lia. unfold cluster. by rewrite nth_lookup. }
      pose proof (same_kept v v1 G Sm) as K1. pose proof (clean_same _ _ _ (vo_clean _ _ _ V) Sm) as C1.
      destruct (remove_ok v1 (take m cs) (cluster cs (i + 1)) (drop (S m) cs) others) as (v2 & E2 & K2 & C2).
      { rewrite <- Ecs. destruct cs; [cbn in Hi; lia | done]. }
      rewrite Elast in E2. exists (inr FR_OK), fp, v2. split; [unfold call_remove_chain; by rewrite E2 |].
      exists (take m cs), (drop m cs). rewrite take_drop. split; [done |]. split; [done |]. pose proof (kept_trans v v1 v2 K1 K2) as K.
      split; [done |]. split; [by apply Hvol |]. split; [| unfold room; rewrite Elen; fold B; unfold m; rewrite Z2Nat.id by lia; lia].
      assert (hd 0 (take m cs) = sclust fp) as ->. { rewrite Pst. unfold m. replace (Z.to_nat (i + 1)) with (S (Z.to_nat i)) by lia. by destruct cs. }
      by rewrite set_sclust_id.
Qed.

Lemma f_truncate_ok v fp cs data others : file_ok v fp cs data others -> test_mask (flag fp) FA_WRITE = true ->
  exists fp' v' cs' rest, f_truncate true fp v = Some (FR_OK, fp', v') /\ cs = cs' ++ rest
    /\ file_ok v' fp' cs' (take (Z.to_nat (fptr fp)) data) others /\ fptr fp' = fptr fp /\ stays fp fp' /\ apart v v' others.
Proof.
  intros F Ha. unfold f_truncate. rewrite (validate_ok v fp cs data others F). pose proof F as [(Hv1 & Hv2 & He) V C [Pst [Ps Pl] [Pp1 Pp2] Pc Pse] Hsafe].
  change (FR_OK =? FR_OK) with true. rewrite He, Ha. change (0 =? FR_OK) with true. cbn [negb]. rewrite Ps.
  destruct (own_parts v cs others V) as (_ & _ & Hoth & Hcs).
  destruct (Z.ltb_spec (fptr fp) (Z.of_nat (length data))) as [Hlt | Hge].
  2:{ exists fp, v, cs, []. rewrite app_nil_r. split; [done |]. split; [done |]. rewrite take_ge by lia. split; [done |]. split; [done |].
      split; [apply stays_refl | apply apart_refl]. }
  destruct (truncate_chain_ok v fp cs data others F Hlt) as ([e | res] & fp1 & v1 & E1 & H1); [done |].
  destruct H1 as (cs' & rest & Ecs & -> & K & V1 & -> & Hroom & Hidx). pose proof (vo_good _ _ _ V) as G.
  assert (csize (fs v1) = csize (fs v)) as EB by (by apply kept_csize).
  set (fp2 := raise_flag FA_MODIFIED (set_objsize (fptr fp) (set_sclust (hd 0 cs') fp))).
  assert (dirty fp2 = dirty fp) as Ed by (unfold dirty, fp2; cbn; rewrite test_mask_lor by done; apply orb_false_r).
  assert (stays fp fp2) as St by (split; [done | done | exact (access_raise fp FA_MODIFIED eq_refl)]).
  assert (content v1 fp2 (cs' ++ rest) data) as C1 by (rewrite <- Ecs; apply (content_ext v1 fp); [by apply (content_kept v v1 fp cs data others) | done | done | done]).
  assert (apart v v1 others) as A1 by (by apply kept_apart).
  (* the end, with a clean buffer *)
  assert (forall fp3 v3, truncate fp v = Some (inr FR_OK, fp3, v3) -> stays fp2 fp3 -> fields fp3 = fields fp2 -> sect fp3 = sect fp -> dirty fp3 = false -> fs v3 = fs v1 ->
    vol_ok v3 cs' others -> content v3 fp3 (cs' ++ rest) data -> apart v1 v3 others -> exists fp' v' cs'0 rest0,
    ('(r, fp0, v0) ← truncate fp v; match r with inr res => Some (res, if res =? FR_OK then fp0 else set_err res fp0, v0) | inl _ => None end) = Some (FR_OK, fp', v')
    /\ cs = cs'0 ++ rest0 /\ file_ok v' fp' cs'0 (take (Z.to_nat (fptr fp)) data) others /\ fptr fp' = fptr fp /\ stays fp fp' /\ apart v v' others) as Hend.
  { intros fp3 v3 E St3 Ef Es Ed3 Efs V3 C3 A3. exists fp3, v3, cs', rest. rewrite E. cbn [mbind option_bind]. change (FR_OK =? FR_OK) with true. cbv iota.
    split; [done |]. split; [done |]. injection Ef as F1 F2 F3 F4. change (fptr fp2) with (fptr fp) in F3. pose proof (stays_trans _ _ _ St St3) as St4.
    split; [| split; [done |]; split; [done | by apply (apart_trans v v1)]]. pose proof St4 as [(S1 & S2 & S3) _ _].
    assert (length (take (Z.to_nat (fptr fp)) data) = Z.to_nat (fptr fp)) as Hl by (rewrite length_take; lia). split; rewrite ?S1, ?S2, ?S3; try done.
    - rewrite Efs, (kept_field fs_id v v1) by done. done.
    - apply (content_cut v3 fp3 cs' rest); rewrite ?Efs, ?EB; try (done || lia). unfold room in *. by rewrite EB.
    - split; rewrite ?F1, ?F2, ?F3, ?F4, ?Hl, ?Efs, ?EB.
      + done.
      + change (objsize fp2) with (fptr fp). lia.
      + lia.
      + intros Hp. change (clust fp2) with (clust fp). rewrite Pc by done. rewrite Ecs. apply cluster_app1. split; [apply Z.div_pos; lia | by apply Hidx].
      + intros Hm. rewrite (kept_fsect v v1), Es, Pse by done. rewrite Ecs. apply fsect_app; [done |]. divlia.
    - apply (safe_kept v v3 fp); [done | rewrite Efs; apply (kept_layout _ _ K) | done]. }
  assert (truncate fp v = (with_file (fun fp _ =>
      if (FR_OK =? FR_OK) && test_mask (flag fp) FA_DIRTY then
        bind (call_disk_write (buf fp) (sect fp) 1) (fun ok => if (ok : bool) then bind (modify (drop_flag FA_DIRTY)) (fun _ => ret FR_OK) else ret FR_DISK_ERR)
      else ret FR_OK)) fp2 v1) as Etr.
  { unfold truncate, bind at 1. rewrite E1. done. }
  unfold with_file in Etr. change (test_mask (flag fp2) FA_DIRTY) with (dirty fp2) in Etr. change (FR_OK =? FR_OK) with true in Etr. cbn [andb] in Etr.
  destruct (dirty fp2) eqn:Ed2.
  2:{ apply (Hend fp2 v1); try done; apply stays_refl || apply apart_refl. }
  destruct (co_dirty _ _ _ _ C) as (k & Hk & Es); [by rewrite <- Ed |]. destruct (own_sector v cs others k V Hk) as (Hs & Hw & _ & Ho). rewrite <- Es in *.
  destruct (kept_sector v v1 (sect fp) G K (proj1 Hs) Hw) as [_ Hw1].
  destruct (flush_ok v1 fp2 (cs' ++ rest) data (vo_good _ _ _ V1) C1) as (d & E & G' & M & Sn & T & C').
  { by rewrite (kept_field database v v1). }
  { done. }
  apply (Hend (drop_flag FA_DIRTY fp2) (mk_vol (fs v1) d)); try done.
  - rewrite Etr. unfold bind, call_disk_write. by rewrite E.
  - split; [done | done | exact (access_drop fp2 FA_DIRTY eq_refl)].
  - apply dirty_drop.
  - by apply vol_swap.
  - split; [done | done |]. intros x _ Hm. unfold view. cbn [fs dk]. case_match; [done |]. apply Sn. intros ->. apply Hm.
    by apply (mine_layout (fs v)); [rewrite (kept_layout _ _ K) |].
Qed.

End Disk.

End FatSeek.
