(* ===== verification/FatSync.v ===== *)
(** * The FAT file system: flushing a file, and opening it again

    [f_sync] of [FatFile.v], and the part of [f_open] of
    [system/src/ff15/source/ff.c] that makes a file object of a directory entry.
    The directory entry that a flush writes gives the file back. *)

From S2P Require Import Prelude FatTable FatChain FatFile FatTransfer FatSeek.

Module FatSync.
Import FatTable FatChain FatFile FatTransfer FatSeek.

Definition FA_SEEKEND : Z := 0x20.

Definition ld_clust (type dir : Z) (w : bytes) : Z :=
  let cl := ld_word w (dir + DIR_FstClusLO) in
  if type =? FS_FAT32 then cl .| Z.shiftl (ld_word w (dir + DIR_FstClusHI)) 16 else cl.

Section File.
Context {D : Type} {DI : DiskIo D}.
Implicit Types v : vol D.
Implicit Types fp : FIL.

(** The file object for the entry at [dir] of the window. *)
Definition fresh (mode dir : Z) fp v : FIL :=
  mk_FIL true (fs_id (fs v)) (ld_clust (fs_type (fs v)) dir (win (fs v))) (ld_dword (win (fs v)) (dir + DIR_FileSize))
    mode 0 0 (clust fp) 0 (winsect (fs v)) dir (replicate 512 0).

(** The way along the chain to the last byte, which stops at the first error. *)
Fixpoint append_loop (fuel : nat) (bcs clst ofs : Z) v : option (Z * Z * Z * vol D) :=
  if bcs <? ofs then
    match fuel with
    | O => None
    | S fuel =>
      let '(clst, v) := get_fat clst v in
      let res := if clst <=? 1 then FR_INT_ERR else FR_OK in
      let res := if clst =? DISK_ERROR then FR_DISK_ERR else res in
      if res =? FR_OK then append_loop fuel bcs clst (ofs - bcs) v else Some (res, clst, ofs - bcs, v)
    end
  else Some (FR_OK, clst, ofs, v).

(** The end of the file, with its sector in the buffer. *)
Definition seek_end fp v : option (Z * FIL * vol D) :=
  let fp := set_fptr (objsize fp) fp in
  let bcs := csize (fs v) * SS in
  '(res, clst, ofs, v) ← append_loop (Z.to_nat (objsize fp / bcs)) bcs (sclust fp) (objsize fp) v;
  let fp := set_clust clst fp in
  Some (if (res =? FR_OK) && negb (ofs mod SS =? 0) then
    let sc := clst2sect clst v in
    if sc =? 0 then (FR_INT_ERR, fp, v)
    else
      let fp := set_sect (u32 (sc + ofs / SS)) fp in
      let '(ok, b, d) := disk_read (sect fp) 1 (dk v) in
      (if (ok : bool) then FR_OK else FR_DISK_ERR, set_buf b fp, mk_vol (fs v) d)
  else (res, fp, v)).

Definition invalidate fp : FIL :=
  mk_FIL false (obj_id fp) (sclust fp) (objsize fp) (flag fp) (err fp) (fptr fp) (clust fp) (sect fp) (dir_sect fp) (dir_ptr fp) (buf fp).

Definition open_entry (mode dir : Z) fp v : option (Z * FIL * vol D) :=
  let fp := fresh mode dir fp v in
  '(res, fp, v) ← (if test_mask mode FA_SEEKEND && (0 <? objsize fp) then seek_end fp v else Some (FR_OK, fp, v));
  Some (res, if negb (res =? FR_OK) then invalidate fp else fp, v).

End File.

Section Disk.
Context {D : Type} {DI : DiskIo D} {SD : SectorDisk D}.
Implicit Types v : vol D.
Implicit Types fp : FIL.

(** ** A sector changed through the window *)

Lemma sync_fs_free v : free_clst (fs (sync_fs v).2) = free_clst (fs v) /\ last_clst (fs (sync_fs v).2) = last_clst (fs v).
Proof.
  assert (forall w, free_clst (fs (write_fsinfo w)) = free_clst (fs w) /\ last_clst (fs (write_fsinfo w)) = last_clst (fs w)) as Hi.
  { intros w. unfold write_fsinfo. case_match; [| done]. by case_match. }
  assert (free_clst (fs (sync_window v).2) = free_clst (fs v) /\ last_clst (fs (sync_window v).2) = last_clst (fs v)) as Hs.
  { unfold sync_window. repeat case_match; done. }
  unfold sync_fs. destruct (sync_window v) as [res w]. cbn [snd] in Hs. rewrite <- (proj1 Hs), <- (proj2 Hs).
  case_match; [| done]. destruct (disk_sync (dk (write_fsinfo w))) as [ok d]. apply Hi.
Qed.

Lemma update_sector s g v : good v -> table_end (fs v) <= s < disk_size -> (forall b, length (g b) = length b) -> (forall b, is_bytes b -> is_bytes (g b)) ->
  exists v1 v', move_window s v = (FR_OK, v1) /\ fs_type (fs v1) = fs_type (fs v) /\ sync_fs (edit g v1) = (FR_OK, v') /\ good v'
    /\ layout (fs v') = layout (fs v) /\ free_clst (fs v') = free_clst (fs v) /\ last_clst (fs v') = last_clst (fs v)
    /\ (mirrored v -> mirrored v') /\ wflag (fs v') = false /\ (winsect (fs v') = s \/ winsect (fs v') < database (fs v))
    /\ (forall t, table_end (fs v) <= t -> view v' t = if t =? s then g (view v s) else view v t)
    /\ forall c, valid v c -> table v' c = table v c.
Proof.
  intros G Hs Hgl Hgb. pose proof (good_geo v G) as [_ Hfa _ _ Hi Hba _ _]. pose proof (fsize_pos _ (good_geo v G)) as Hf.
  assert (forall t, table_end (fs v) <= t -> 0 <= t /\ ~ mirror (fs v) t) as Hm by (intros t Ht; unfold table_end, mirror in *; destruct Hfa as [E | E]; rewrite E in *; lia).
  destruct (Hm s (proj1 Hs)) as [Hs0 Hms]. destruct (move_window_any s v G) as (v1 & E1 & G1 & C1 & W1 & M1 & V1); [lia | done |].
  destruct (edit_good g v1 G1 Hgl Hgb) as (G2 & C2 & M2 & V2). set (v2 := edit g v1) in *.
  destruct (sync_fs_ok v2 G2) as (v3 & E3 & K3 & F3 & T3). pose proof (sync_fs_free v2) as [Hfr Hla]. rewrite E3 in Hfr, Hla. cbn [snd] in Hfr, Hla.
  assert (core (fs v2) = core (fs v)) as C by congruence. assert (layout (fs v2) = layout (fs v)) as L by (unfold layout; by rewrite C).
  destruct (core_free _ _ C) as [Cf Cl]. assert (win (fs v1) = view v s) as Hw.
  { rewrite <- (V1 s) by done. unfold view. by rewrite W1, Z.eqb_refl. }
  assert (forall t, 0 <= t -> ~ mirror (fs v) t -> view v2 t = if t =? s then g (view v s) else view v t) as V12.
  { intros t Ht Hmt. rewrite V2, W1, Hw. case_match; [done |]. by apply V1. }
  exists v1, v3. split; [done |]. split; [change (fs_type (core (fs v1)) = fs_type (core (fs v))); by rewrite C1 |]. split; [done |]. split; [apply K3 |].
  split; [rewrite (kept_layout _ _ K3); exact L |]. split; [congruence |]. split; [congruence |].
  split; [intros M; apply (kept_mirrored _ _ K3); auto |]. split; [done |].
  split; [destruct (kept_parked _ _ K3) as [E | P]; [left; rewrite E; exact W1 | right; by rewrite <- (layout_field database _ _ ltac:(done) L)] |].
  assert (table_end (fs v2) = table_end (fs v)) as Et by (by apply (layout_field table_end)). split.
  - intros t Ht. rewrite (kept_view _ _ K3) by lia. destruct (Hm t Ht). by apply V12.
  - intros c Hc. assert (valid v2 c) as Hc2 by (unfold valid; by rewrite (layout_field n_fatent _ _ ltac:(done) L)). rewrite T3 by done.
    apply table_views; [done | done | done |]. intros t Ht. rewrite V12 by (unfold mirror; lia).
    rewrite (proj2 (Z.eqb_neq t s)); [done |]. unfold table_end in Hs. destruct Hfa as [E | E]; rewrite E in *; lia.
Qed.

(** ** The entry *)

Lemma st_clust_ok type dir cl w : length (st_clust type dir cl w) = length w /\ (is_bytes w -> is_bytes (st_clust type dir cl w)).
Proof. unfold st_clust, st_word. split; [case_match; by rewrite !put_byte_length |]. intros H. case_match; by repeat apply put_byte_bytes. Qed.

Lemma dir_entry_ok type dir cl size tm w : length (dir_entry type dir cl size tm w) = length w
  /\ (is_bytes w -> is_bytes (dir_entry type dir cl size tm w)).
Proof.
  unfold dir_entry. set (w1 := put_byte (dir + DIR_Attr) _ w). destruct (st_clust_ok type dir cl w1) as [Hl Hb]. unfold st_word, st_dword. split.
  - rewrite !put_byte_length, Hl. apply put_byte_length.
  - intros H. repeat apply put_byte_bytes. apply Hb. by apply put_byte_bytes.
Qed.

Ltac entry_bytes := repeat first
  [ rewrite byte_at_put by (rewrite ?put_byte_length; lia)
  | match goal with |- context [?a =? ?b] => first [rewrite (proj2 (Z.eqb_eq a b)) by lia | rewrite (proj2 (Z.eqb_neq a b)) by lia] end ].

Lemma word_parts x : 0 <= x < 2 ^ 16 -> u8 x + 256 * u8 (Z.shiftr x 8) = x.
Proof. intros Hx. unfold u8. rewrite Z.shiftr_div_pow2 by lia. divlia. Qed.

Lemma dword_parts x : 0 <= x < 2 ^ 32 -> u8 x + 2 ^ 8 * u8 (Z.shiftr x 8) + 2 ^ 16 * u8 (Z.shiftr x 16) + 2 ^ 24 * u8 (Z.shiftr x 24) = x.
Proof. intros Hx. unfold u8. rewrite !Z.shiftr_div_pow2 by lia. divlia. Qed.

(** The bytes around the entry stay; what is read of the entry is what was written. *)
Lemma dir_entry_out type dir cl size tm w j : 0 <= dir -> dir + 32 <= Z.of_nat (length w) -> 0 <= j -> ~ dir <= j < dir + 32 ->
  byte_at (dir_entry type dir cl size tm w) j = byte_at w j.
Proof.
  intros H0 Hl Hj Ho. unfold dir_entry, st_clust, st_word, st_dword, DIR_Attr, DIR_LstAccDate, DIR_ModTime, DIR_FileSize, DIR_FstClusHI, DIR_FstClusLO.
  destruct (type =? FS_FAT32); by entry_bytes.
Qed.

Lemma dir_entry_size type dir cl size tm w : 0 <= dir -> dir + 32 <= Z.of_nat (length w) -> is_bytes w -> 0 <= size < 2 ^ 32 ->
  ld_dword (dir_entry type dir cl size tm w) (dir + DIR_FileSize) = size.
Proof.
  intros H0 Hl Hb Hs. rewrite dword_value by (by apply dir_entry_ok).
  unfold dir_entry, st_clust, st_word, st_dword, DIR_Attr, DIR_LstAccDate, DIR_ModTime, DIR_FileSize, DIR_FstClusHI, DIR_FstClusLO.
  destruct (type =? FS_FAT32); entry_bytes; by apply dword_parts.
Qed.

Lemma dir_entry_clust type dir cl size tm w : 0 <= dir -> dir + 32 <= Z.of_nat (length w) -> is_bytes w ->
  0 <= cl < 2 ^ 28 -> (type <> FS_FAT32 -> cl < 2 ^ 16) -> ld_clust type dir (dir_entry type dir cl size tm w) = cl.
Proof.
  intros H0 Hl Hb Hc Ht. unfold ld_clust. pose proof (proj2 (dir_entry_ok type dir cl size tm w) Hb) as Hb'. rewrite !word_value by done.
  unfold dir_entry, st_clust, st_word, st_dword, DIR_Attr, DIR_LstAccDate, DIR_ModTime, DIR_FileSize, DIR_FstClusHI, DIR_FstClusLO.
  destruct (Z.eqb_spec type FS_FAT32) as [E | E]; entry_bytes; rewrite !word_parts by (unfold u16; divlia).
  - rewrite lor_shift by (unfold u16; divlia). unfold u16. rewrite Z.shiftr_div_pow2 by lia. divlia.
  - apply Z.mod_small. specialize (Ht E). lia.
Qed.

(** ** Volumes that differ outside the file *)

Lemma file_frame v v' fp cs data others : file_ok v fp cs data others -> clean v' (kept_part cs ++ others) -> layout (fs v') = layout (fs v) ->
  ~ mine (fs v) others (winsect (fs v')) -> (forall s, mine (fs v) others s -> sector (dk v') s = sector (dk v) s) -> file_ok v' fp cs data others.
Proof.
  intros [Hval V [Hb Hd Hc Ht Hr Hby] [P1 P2 P3 P4 P5] Hsafe] C L W S.
  pose proof (layout_field csize _ _ ltac:(done) L) as E1. pose proof (layout_field database _ _ ltac:(done) L) as E2.
  assert (room (fs v') cs = room (fs v) cs) as Er by (unfold room; by rewrite E1).
  assert (forall k, fsect (fs v') cs k = fsect (fs v) cs k) as Es by (intros k; unfold fsect, sec_of; by rewrite E1, E2).
  split.
  - by rewrite (layout_field fs_id _ _ ltac:(done) L).
  - split; [done | rewrite E1; apply (vo_csize _ _ _ V) |]. intros Hm. by apply W, (mine_layout (fs v')).
  - split; try done.
    + intros H. destruct (Hd H) as (k & Hk & E). exists k. by rewrite Er, Es.
    + intros H. destruct (Hc H) as [-> | (H1 & H2 & H3)]; [by left |]. destruct Hsafe as [H0 | Hm]; [by left | right].
      rewrite E2, S by done. split; [done |]. split; [| done]. intros E. by rewrite E in Hm.
    + intros i Hi. rewrite Ht by done. rewrite Es. unfold seen. case_match; [done |]. rewrite S; [done |]. apply (own_mine v cs); [done | divlia].
    + by rewrite Er.
  - split; rewrite ?E1; try done. intros Hm. rewrite Es. by apply P5.
  - by apply (safe_kept v v' fp).
Qed.

(** ** Flushing *)

(** The place of the entry: in the root directory, or in a cluster of the others. *)
Record entry_ok (f : FATFS) fp (others : list (list Z)) : Prop := {
  en_sect : table_end f <= dir_sect fp < disk_size /\ ~ mine f others (dir_sect fp);
  en_ptr : 0 <= dir_ptr fp /\ dir_ptr fp + 32 <= 512;
}.

(** A file is on the disk: its data in its sectors, its entry in the directory. *)
Record stored (tm : Z) v0 v' fp (cs : list Z) (data : bytes) (others : list (list Z)) : Prop := {
  sd_layout : layout (fs v') = layout (fs v0);
  sd_mirrored : mirrored v0 -> mirrored v';
  sd_clean : wflag (fs v') = false;
  sd_data i : 0 <= i < Z.of_nat (length data) -> byte_at data i = byte_at (sector (dk v') (fsect (fs v') cs (i / 512))) (i mod 512);
  sd_entry : sector (dk v') (dir_sect fp) = dir_entry (fs_type (fs v0)) (dir_ptr fp) (hd 0 cs) (Z.of_nat (length data)) tm (view v0 (dir_sect fp));
  sd_others s : table_end (fs v0) <= s -> ~ mine (fs v0) others s -> s <> dir_sect fp -> sector (dk v') s = view v0 s;
}.

Lemma test_drop f m n : Z.ldiff n m = n -> test_mask (Z.ldiff f m) n = test_mask f n.
Proof. intros H. by rewrite flag_ldiff, H. Qed.

Lemma f_sync_ok tm v fp cs data others : file_ok v fp cs data others -> entry_ok (fs v) fp others -> test_mask (flag fp) FA_MODIFIED = true ->
  exists v', f_sync true tm fp v = (FR_OK, drop_flag FA_MODIFIED (drop_flag FA_DIRTY fp), v')
    /\ file_ok v' (drop_flag FA_MODIFIED (drop_flag FA_DIRTY fp)) cs data others /\ stored tm v v' fp cs data others.
Proof.
  intros F [[Hs Hm] Hp] Hmod. unfold f_sync. rewrite (validate_ok v fp cs data others F). pose proof F as [Hval V C P Hsafe].
  change (FR_OK =? FR_OK) with true. rewrite Hmod. cbn [andb].
  destruct (write_back_ok v fp cs data others V C) as ([e | u] & fp1 & v1 & E1 & H1); [done |]. destruct H1 as (-> & Ef & V1 & C1 & [_ M1 W1]). rewrite E1.
  set (fp1 := drop_flag FA_DIRTY fp) in *. assert (file_ok v1 fp1 cs data others) as F1.
  { split; [by rewrite Ef | done | done | rewrite Ef; by destruct P | by apply (safe_kept v v1 fp); rewrite ?Ef]. }
  change (dir_sect fp1) with (dir_sect fp). change (dir_ptr fp1) with (dir_ptr fp). change (sclust fp1) with (sclust fp). change (objsize fp1) with (objsize fp).
  set (g := dir_entry (fs_type (fs v)) (dir_ptr fp) (sclust fp) (objsize fp) tm).
  pose proof (vo_good _ _ _ V1) as G1. destruct (update_sector (dir_sect fp) g v1 G1) as (v2 & v3 & E2 & Et & E3 & G3 & L & Hf & Hl & M3 & Hw & Hws & W3 & T3);
    [by rewrite Ef | intros b; apply dir_entry_ok | intros b; apply dir_entry_ok |].
  rewrite E2, Et, Ef. change (FR_OK =? FR_OK) with true. cbv iota. fold g. rewrite E3. exists v3. split; [done |].
  assert (forall s, mine (fs v1) others s -> sector (dk v3) s = sector (dk v1) s) as Hmine.
  { intros s Hms. pose proof (mine_range v1 others s G1 Hms). pose proof (table_end_data v1 G1). rewrite <- clean_view, W3 by (done || lia).
    rewrite (proj2 (Z.eqb_neq s _)) by (intros ->; apply Hm; by rewrite <- Ef). unfold view. case_match eqn:E; [| done].
    apply Z.eqb_eq in E as ->. by destruct (vo_window _ _ _ V1). }
  assert (file_ok v3 fp1 cs data others) as F3.
  { apply (file_frame v1); try done.
    - by apply (clean_table v1); [apply (vo_clean _ _ _ V1) | | | | |].
    - rewrite Ef in *. destruct Hws as [-> | Hws]; [done |]. intros Hms. rewrite <- Ef in Hms. apply mine_range in Hms; [rewrite Ef in Hms; lia | done]. }
  assert (forall x, dirty (drop_flag FA_MODIFIED x) = dirty x) as Edr by (intros x; unfold dirty; cbn; by apply test_drop). split.
  - destruct F3 as [A1 A2 A3 A4 A5]. split; [done | done | by apply (content_ext v3 fp1) | by destruct A4 | done].
  - assert (forall s, table_end (fs v) <= s -> ~ mine (fs v) others s -> view v1 s = view v s) as W by done. split.
    + congruence.
    + auto.
    + done.
    + intros i Hi. pose proof F3 as [_ V3 C3 _ _]. rewrite (co_data _ _ _ _ C3) by done. f_equal.
      apply (seen_clean v3 fp1 cs data others); [done | done | apply dirty_drop | pose proof (co_room _ _ _ _ C3); divlia].
    + rewrite <- clean_view, W3, Z.eqb_refl by (rewrite ?Ef; done || lia). rewrite W by (done || lia). unfold g.
      destruct P as [-> [-> _] _ _ _]. done.
    + intros s Hts Hns Hne. rewrite <- clean_view, W3 by (rewrite ?Ef; done). rewrite (proj2 (Z.eqb_neq s _)) by done. by apply W.
Qed.

(** ** Opening *)

Lemma fresh_ok mode dir fp v cs data others : vol_ok v cs others -> ld_clust (fs_type (fs v)) dir (win (fs v)) = hd 0 cs ->
  ld_dword (win (fs v)) (dir + DIR_FileSize) = Z.of_nat (length data) -> Z.of_nat (length data) < 2 ^ 32 -> is_bytes data ->
  Z.of_nat (length data) <= 512 * room (fs v) cs -> test_mask mode FA_DIRTY = false ->
  (forall i, 0 <= i < Z.of_nat (length data) -> byte_at data i = byte_at (sector (dk v) (fsect (fs v) cs (i / 512))) (i mod 512)) ->
  file_ok v (fresh mode dir fp v) cs data others.
Proof.
  intros V Hc Hs Hlim Hby Hr Hm Hd. pose proof (vo_good _ _ _ V) as G. split; try done; [| | by left].
  - split; try done.
    + split; [done |]. apply Forall_replicate. unfold is_u8. lia.
    + intros H. unfold dirty in H. cbn in H. congruence.
    + intros _. by left.
    + intros i Hi. rewrite Hd by done. unfold seen. cbn [fresh sect]. case_match eqn:E; [| done]. apply Z.eqb_eq in E.
      destruct (own_sector v cs others (i / 512) V) as (H1 & _); [divlia |]. pose proof (database_pos v G). lia.
  - split; cbn [fresh sclust objsize fptr]; try done; lia.
Qed.

Lemma append_loop_ok fuel : forall i ofs v cs others, vol_ok v cs others -> 0 <= i < Z.of_nat (length cs) -> 0 < ofs ->
  ofs <= 512 * csize (fs v) * (Z.of_nat fuel + 1) -> 512 * csize (fs v) * i + ofs <= 512 * room (fs v) cs ->
  exists i' v', append_loop fuel (csize (fs v) * SS) (cluster cs i) ofs v = Some (FR_OK, cluster cs i', 512 * csize (fs v) * i + ofs - 512 * csize (fs v) * i', v')
    /\ same v v' /\ 0 <= i' < Z.of_nat (length cs) /\ 0 < 512 * csize (fs v) * i + ofs - 512 * csize (fs v) * i' <= 512 * csize (fs v).
Proof.
  induction fuel as [| fuel IH]; intros i ofs v cs others V Hi Ho Hf Hr; pose proof (vo_good _ _ _ V) as G; cbn [append_loop]; unfold SS in *;
    (destruct (Z.ltb_spec (csize (fs v) * 512) ofs) as [Hlt | Hge]; [| exists i, v; split; [do 2 f_equal; f_equal; lia |]; split; [by apply same_refl | lia]]).
  { lia. }
  destruct (own_parts v cs others V) as (_ & Hown & _ & Hcs). unfold room in *. assert (i + 1 < Z.of_nat (length cs)) as Hi1 by nia.
  destruct (Hown _ (cluster_elem cs i Hi)) as [Hv _]. destruct (Hown _ (cluster_elem cs (i + 1) ltac:(lia))) as [Hv1 _].
  destruct (get_fat_ok _ v G Hv) as (v1 & -> & S). rewrite (chain_next _ _ cs i (own_chain v cs others V)) by lia.
  pose proof (n_fatent_range v G). unfold valid in Hv1. rewrite (proj2 (Z.leb_gt _ 1)), (proj2 (Z.eqb_neq _ DISK_ERROR)) by (unfold DISK_ERROR; lia).
  change (FR_OK =? FR_OK) with true. cbv iota. assert (csize (fs v1) = csize (fs v)) as E by (by apply same_field).
  destruct (IH (i + 1) (ofs - csize (fs v) * 512) v1 cs others) as (i' & v' & E' & S' & Hi' & Hb); rewrite ?E; try lia; [by apply (vol_same v) |].
  rewrite E in *. exists i', v'. rewrite E'. split; [do 2 f_equal; f_equal; lia |]. split; [by apply (same_trans v v1) | lia].
Qed.

(** The file object at the end of the file. *)
Lemma end_ok v fp cs data others cl : file_ok v fp cs data others -> 0 < Z.of_nat (length data) ->
  cl = cluster cs ((Z.of_nat (length data) - 1) / (512 * csize (fs v))) ->
  (Z.of_nat (length data) mod 512 <> 0 -> sect fp = fsect (fs v) cs (Z.of_nat (length data) / 512)) ->
  file_ok v (set_place (Z.of_nat (length data)) cl fp) cs data others.
Proof.
  intros [Hval V C [P1 P2 P3 P4 P5] Hsafe] Hpos Hcl Hse. split; try done; [by destruct C |]. split; cbn [set_place sclust objsize fptr clust sect]; try done. lia.
Qed.

Lemma seek_end_ok v fp cs data others : file_ok v fp cs data others -> dirty fp = false -> 0 < Z.of_nat (length data) ->
  exists fp' v', seek_end fp v = Some (FR_OK, fp', v') /\ file_ok v' fp' cs data others /\ fptr fp' = Z.of_nat (length data)
    /\ flag fp' = flag fp /\ dir_sect fp' = dir_sect fp /\ dir_ptr fp' = dir_ptr fp /\ apart v v' others.
Proof.
  intros F Ed Hpos. pose proof F as [Hval V C [P1 [P2 P3] _ _ _] Hsafe]. pose proof (co_room _ _ _ _ C) as Hr. set (n := Z.of_nat (length data)) in *.
  destruct (own_parts v cs others V) as (_ & Hown & _ & Hcs). pose proof (vo_good _ _ _ V) as G. set (B := csize (fs v)) in *.
  assert (0 < Z.of_nat (length cs)) as Hlc by (unfold room in Hr; fold B in Hr; nia).
  pose proof (Z.div_mod n (B * 512) ltac:(lia)). pose proof (Z.mod_pos_bound n (B * 512) ltac:(lia)).
  destruct (append_loop_ok (Z.to_nat (n / (B * SS))) 0 n v cs others V) as (i & v1 & E & S & Hi & Hb); unfold SS in *; fold B;
    [lia | done | rewrite Z2Nat.id by (apply Z.div_pos; lia); lia | lia |].
  fold B in E, Hb. unfold seek_end. change (objsize (set_fptr (objsize fp) fp)) with (objsize fp). change (sclust (set_fptr (objsize fp) fp)) with (sclust fp). cbv zeta. fold B.
  rewrite P2, P1, (hd_cluster cs) by (intros ->; cbn in Hlc; lia). unfold SS. rewrite E. cbn [mbind option_bind]. clear E.
  pose proof (file_same v v1 fp cs data others F S) as F1. pose proof F1 as [_ V1 C1 _ _]. assert (csize (fs v1) = B) as EB by (by apply same_field).
  pose proof (kept_apart v v1 others (same_kept v v1 G S)) as A1. change (FR_OK =? FR_OK) with true. cbn [andb].
  replace (512 * B * 0 + n - 512 * B * i) with (n - 512 * (B * i)) in * by lia. set (q := n - 512 * (B * i)) in *.
  assert (q mod 512 = n mod 512 /\ n / 512 = B * i + q / 512) as [Em Eq] by (unfold q; split; divlia). rewrite Em.
  assert (cluster cs i = cluster cs ((n - 1) / (512 * csize (fs v1)))) as Ecl by (rewrite EB; f_equal; apply (Z.div_unique_pos _ _ _ (q - 1)); lia).
  change (set_clust (cluster cs i) (set_fptr n fp)) with (set_place n (cluster cs i) fp).
  destruct (Z.eqb_spec (n mod 512) 0) as [Hm | Hm]; cbn [negb].
  { exists (set_place n (cluster cs i) fp), v1. split; [done |]. split; [by apply end_ok |]. done. }
  destruct (own_parts v1 cs others V1) as (_ & Hown1 & _ & _). destruct (Hown1 _ (cluster_elem cs i Hi)) as [Hvi _].
  destruct (clst2sect_ok _ v1 (vo_good _ _ _ V1) Hvi) as [Ec Hne]. rewrite Ec. cbv zeta. rewrite (proj2 (Z.eqb_neq _ 0)) by done.
  assert (0 <= q / 512 < B) as Hqb by divlia. assert (0 <= n / 512 < room (fs v1) cs) as Hk by (unfold room; rewrite EB; nia).
  destruct (own_sector v1 cs others (n / 512) V1 Hk) as (Hs & Hw & _).
  assert (u32 (sec_of (fs v1) (cluster cs i) 0 + q / 512) = fsect (fs v1) cs (n / 512)) as ->.
  { unfold fsect in *. rewrite EB in *. rewrite Eq in *.
    assert ((B * i + q / 512) / B = i /\ (B * i + q / 512) mod B = q / 512) as [E3 E4].
    { split; [by apply index_unique |]. symmetry. by apply (Z.mod_unique_pos _ _ i). }
    rewrite E3, E4 in *. unfold sec_of in *. rewrite Z.add_0_r. pose proof disk_size_u32. pose proof (database_pos v1 (vo_good _ _ _ V1)).
    apply u32_id. unfold is_u32. lia. }
  set (s := fsect (fs v1) cs (n / 512)) in *. pose proof (database_pos v1 (vo_good _ _ _ V1)) as Hdb.
  destruct (raw_read s 1 v1 (vo_good _ _ _ V1)) as (d & E & G' & M & Sd & Vw & T); try lia.
  change (sect (set_sect s (set_place n (cluster cs i) fp))) with s. rewrite E.
  change (seqZ s 1) with [0 + s]. change (sector (dk v1) <$> [0 + s]) with [sector (dk v1) (0 + s)]. cbn [concat]. rewrite app_nil_r, Z.add_0_l.
  pose proof (vol_swap v1 d cs others V1 G' T) as V'. pose proof (content_load v1 (mk_vol (fs v1) d) fp cs data others s V1 C1 Ed eq_refl Sd Hs ltac:(congruence)) as C'.
  exists (set_buf (sector (dk v1) s) (set_sect s (set_place n (cluster cs i) fp))), (mk_vol (fs v1) d). split; [done |]. split; [| split; [done |]].
  - split; [by rewrite <- (same_field fs_id v v1) in Hval | done | by apply (content_ext _ _ _ _ _ C') | split; try done; cbn [set_buf set_sect set_cache set_place fptr]; lia |].
    by apply (own_safe _ _ cs others (n / 512) V').
  - split; [done |]. split; [done |]. split; [done |]. apply (apart_trans v v1); [done |]. split; [done | done |]. intros x _ _. apply Vw.
Qed.

Lemma open_entry_ok mode dir fp v cs data others : vol_ok v cs others -> ld_clust (fs_type (fs v)) dir (win (fs v)) = hd 0 cs ->
  ld_dword (win (fs v)) (dir + DIR_FileSize) = Z.of_nat (length data) -> Z.of_nat (length data) < 2 ^ 32 -> is_bytes data ->
  Z.of_nat (length data) <= 512 * room (fs v) cs -> test_mask mode FA_DIRTY = false ->
  (forall i, 0 <= i < Z.of_nat (length data) -> byte_at data i = byte_at (sector (dk v) (fsect (fs v) cs (i / 512))) (i mod 512)) ->
  exists fp' v', open_entry mode dir fp v = Some (FR_OK, fp', v') /\ file_ok v' fp' cs data others
    /\ fptr fp' = (if test_mask mode FA_SEEKEND then Z.of_nat (length data) else 0)
    /\ flag fp' = mode /\ dir_sect fp' = winsect (fs v) /\ dir_ptr fp' = dir /\ apart v v' others.
Proof.
  intros V Hc Hs Hlim Hby Hr Hm Hd. pose proof (fresh_ok mode dir fp v cs data others V Hc Hs Hlim Hby Hr Hm Hd) as F.
  unfold open_entry. cbv zeta. change (objsize (fresh mode dir fp v)) with (ld_dword (win (fs v)) (dir + DIR_FileSize)). rewrite Hs.
  destruct (test_mask mode FA_SEEKEND); cbn [andb].
  - destruct (Z.ltb_spec 0 (Z.of_nat (length data))) as [Hpos | Hz].
    + destruct (seek_end_ok v _ cs data others F Hm Hpos) as (fp' & v' & E & F' & Hp & Hf & Hds & Hdp & A). rewrite E. cbn [mbind option_bind].
      exists fp', v'. done.
    + cbn [mbind option_bind]. exists (fresh mode dir fp v), v. split; [done |]. split; [done |]. split; [cbn; lia |]. split; [done |].
      split; [done |]. split; [done | apply apart_refl].
  - cbn [mbind option_bind]. exists (fresh mode dir fp v), v. split; [done |]. split; [done |]. split; [done |]. split; [done |].
    split; [done |]. split; [done | apply apart_refl].
Qed.

(** ** A file as an array of bytes with a pointer *)

Inductive file_op := Read (n : Z) | Write (w : bytes) | Seek (ofs : Z) | Truncate | Flush (tm : Z).

(** The result of a call, the bytes read and the number of bytes written. *)
Definition reply : Type := Z * bytes * Z.

Definition call (o : file_op) fp v : option (reply * FIL * vol D) :=
  match o with
  | Read n => '(res, b, fp, v) ← f_read true n fp v; Some (res, b, 0, fp, v)
  | Write w => '(res, n, fp, v) ← f_write true w fp v; Some (res, [], n, fp, v)
  | Seek ofs => '(res, fp, v) ← f_lseek true ofs fp v; Some (res, [], 0, fp, v)
  | Truncate => '(res, fp, v) ← f_truncate true fp v; Some (res, [], 0, fp, v)
  | Flush tm => let '(res, fp, v) := f_sync true tm fp v in Some (res, [], 0, fp, v)
  end.

Fixpoint calls (ops : list file_op) fp v : option (list reply * FIL * vol D) :=
  match ops with
  | [] => Some ([], fp, v)
  | o :: ops => '(r, fp, v) ← call o fp v; '(rs, fp, v) ← calls ops fp v; Some (r :: rs, fp, v)
  end.

Definition call_ok (o : file_op) : Prop :=
  match o with
  | Read n => 0 <= n
  | Write w => is_bytes w /\ Z.of_nat (length w) < 2 ^ 32
  | Seek ofs => 0 <= ofs < 2 ^ 32
  | _ => True
  end.

(** The calls on an array of at most [limit] bytes, with the rights to read and
    to write.  Only the bytes that a seek adds at the end are left open. *)
Inductive array_step (limit : Z) (r w : bool) : file_op -> bytes * Z -> reply -> bytes * Z -> Prop :=
  | array_read d p n : r = true ->
    let b := take (Z.to_nat n) (drop (Z.to_nat p) d) in
    array_step limit r w (Read n) (d, p) (FR_OK, b, 0) (d, p + Z.of_nat (length b))
  | array_read_denied d p n : r = false -> array_step limit r w (Read n) (d, p) (FR_DENIED, [], 0) (d, p)
  | array_write d p x : w = true ->
    let n := Z.min (Z.of_nat (length x)) (Z.min limit (2 ^ 32 - 1) - p) in
    array_step limit r w (Write x) (d, p) (FR_OK, [], n) (splice p (take (Z.to_nat n) x) d, p + n)
  | array_write_denied d p x : w = false -> array_step limit r w (Write x) (d, p) (FR_DENIED, [], 0) (d, p)
  | array_seek d p ofs junk :
    let n := Z.min ofs (if w then limit else Z.of_nat (length d)) in
    Z.of_nat (length (d ++ junk)) = Z.max (Z.of_nat (length d)) n ->
    array_step limit r w (Seek ofs) (d, p) (FR_OK, [], 0) (d ++ junk, n)
  | array_truncate d p : w = true -> array_step limit r w Truncate (d, p) (FR_OK, [], 0) (take (Z.to_nat p) d, p)
  | array_truncate_denied d p : w = false -> array_step limit r w Truncate (d, p) (FR_DENIED, [], 0) (d, p)
  | array_flush d p tm : array_step limit r w (Flush tm) (d, p) (FR_OK, [], 0) (d, p).

Inductive array_steps (limit : Z) (r w : bool) : list file_op -> bytes * Z -> list reply -> bytes * Z -> Prop :=
  | array_nil a : array_steps limit r w [] a [] a
  | array_cons o ops a1 a2 a3 x xs : array_step limit r w o a1 x a2 -> array_steps limit r w ops a2 xs a3 ->
    array_steps limit r w (o :: ops) a1 (x :: xs) a3.

(** What calls on a file leave alone: everything but the file and the sector of
    its entry. *)
Record beside v v' fp (others : list (list Z)) : Prop := {
  bs_layout : layout (fs v') = layout (fs v);
  bs_mirrored : mirrored v -> mirrored v';
  bs_view s : table_end (fs v) <= s -> ~ mine (fs v) others s -> s <> dir_sect fp -> view v' s = view v s;
}.

Lemma beside_trans v1 v2 v3 fp fp2 others : dir_sect fp2 = dir_sect fp -> beside v1 v2 fp others -> beside v2 v3 fp2 others -> beside v1 v3 fp others.
Proof.
  intros Ed [L1 M1 V1] [L2 M2 V2]. split; [congruence | auto |]. intros s Hs Hm Hd.
  assert (table_end (fs v2) = table_end (fs v1)) as E by (by apply (layout_field table_end)).
  rewrite V2, V1; rewrite ?E, ?Ed; try done. intros H. by apply Hm, (mine_layout (fs v2)).
Qed.

Lemma apart_beside v v' fp others : apart v v' others -> beside v v' fp others.
Proof. intros [L M V]. split; auto. Qed.

Lemma entry_kept f g fp fp' others : layout g = layout f -> dir_sect fp' = dir_sect fp -> dir_ptr fp' = dir_ptr fp -> entry_ok f fp others -> entry_ok g fp' others.
Proof.
  intros L E1 E2 [[H1 H2] H3]. split; rewrite ?E1, ?E2; [| done].
  assert (table_end g = table_end f) as -> by (by apply (layout_field table_end)). split; [done |]. intros H. by apply H2, (mine_layout g).
Qed.

Lemma file_limit v fp cs data others : file_ok v fp cs data others ->
  Z.of_nat (length data) <= capacity v others /\ Z.of_nat (length data) < 2 ^ 32 /\ 0 <= fptr fp <= Z.of_nat (length data).
Proof.
  intros [_ V C [_ [_ H2] H3 _ _] _]. pose proof (capacity_room v cs others V). pose proof (co_room _ _ _ _ C). lia.
Qed.

(** One call. *)
Lemma call_refines o v fp cs data others r w : file_ok v fp cs data others -> entry_ok (fs v) fp others -> call_ok o ->
  test_mask (flag fp) FA_READ = r -> test_mask (flag fp) FA_WRITE = w ->
  exists x fp' v' cs' data', call o fp v = Some (x, fp', v') /\ array_step (capacity v others) r w o (data, fptr fp) x (data', fptr fp')
    /\ file_ok v' fp' cs' data' others /\ stays fp fp' /\ beside v v' fp others.
Proof.
  intros F En Ho Hr Hw. destruct (file_limit v fp cs data others F) as (Hl1 & Hl2 & Hp). destruct o as [n | x | ofs | | tm]; cbn [call call_ok] in *.
  - destruct r.
    + destruct (f_read_ok n v fp cs data others F Hr Ho) as (fp' & v' & E & F' & Ep & St & A). rewrite E. cbn [mbind option_bind].
      exists (FR_OK, take (Z.to_nat n) (drop (Z.to_nat (fptr fp)) data), 0), fp', v', cs, data. split; [done |]. split; [rewrite Ep; by constructor |].
      split; [done |]. split; [done | by apply apart_beside].
    + unfold f_read. rewrite (validate_ok v fp cs data others F), (proj2 (proj2 (fo_valid _ _ _ _ _ F))), Hr. cbn [Z.eqb FR_OK negb mbind option_bind].
      exists (FR_DENIED, [], 0), fp, v, cs, data. split; [done |]. split; [by constructor |]. split; [done |]. split; [apply stays_refl | apply apart_beside, apart_refl].
  - destruct Ho as [Hb Hlx]. destruct w.
    + destruct (f_write_ok x v fp cs data others F Hw Hb Hlx) as (n & fp' & v' & ds & E & Hn & F' & Ep & St & A & Hfull). rewrite E. cbn [mbind option_bind].
      destruct (file_limit _ _ _ _ _ F') as (Hc1 & Hc2 & Hc3). rewrite (capacity_apart v v') in Hc1 by done.
      assert (n = Z.min (Z.of_nat (length x)) (Z.min (capacity v others) (2 ^ 32 - 1) - fptr fp)) as En'.
      { destruct (Z.eq_dec n (Z.of_nat (length x))) as [-> |]; [lia |]. destruct Hfull; lia. }
      exists (FR_OK, [], n), fp', v', (cs ++ ds), (splice (fptr fp) (take (Z.to_nat n) x) data). split; [done |].
      split; [rewrite Ep, En'; by constructor |]. split; [done |]. split; [done | by apply apart_beside].
    + unfold f_write. rewrite (validate_ok v fp cs data others F), (proj2 (proj2 (fo_valid _ _ _ _ _ F))), Hw. cbn [Z.eqb FR_OK negb mbind option_bind].
      exists (FR_DENIED, [], 0), fp, v, cs, data. split; [done |]. split; [by constructor |]. split; [done |]. split; [apply stays_refl | apply apart_beside, apart_refl].
  - destruct (f_lseek_ok v fp cs data others ofs F Ho) as (fp' & v' & n & ds & junk & E & F' & Ep & Hlen & St & A & Hn). rewrite E. cbn [mbind option_bind]. rewrite Hw in Hn.
    destruct (file_limit _ _ _ _ _ F') as (Hc1 & Hc2 & Hc3). rewrite (capacity_apart v v') in Hc1 by done. cbv zeta in Hn.
    assert (n = Z.min ofs (if w then capacity v others else Z.of_nat (length data))) as En' by (destruct Hn as [Hn1 Hn2]; destruct w; lia).
    exists (FR_OK, [], 0), fp', v', (cs ++ ds), (data ++ junk). split; [done |]. split; [rewrite Ep, En'; constructor; by rewrite <- En' |].
    split; [done |]. split; [done | by apply apart_beside].
  - destruct w.
    + destruct (f_truncate_ok v fp cs data others F Hw) as (fp' & v' & cs' & rest & E & _ & F' & Ep & St & A). rewrite E. cbn [mbind option_bind].
      exists (FR_OK, [], 0), fp', v', cs', (take (Z.to_nat (fptr fp)) data). split; [done |]. split; [rewrite Ep; by constructor |]. split; [done |].
      split; [done | by apply apart_beside].
    + unfold f_truncate. rewrite (validate_ok v fp cs data others F), (proj2 (proj2 (fo_valid _ _ _ _ _ F))), Hw. cbn [Z.eqb FR_OK negb mbind option_bind].
      exists (FR_DENIED, [], 0), fp, v, cs, data. split; [done |]. split; [by constructor |]. split; [done |]. split; [apply stays_refl | apply apart_beside, apart_refl].
  - destruct (test_mask (flag fp) FA_MODIFIED) eqn:Hm.
    + destruct (f_sync_ok tm v fp cs data others F En Hm) as (v' & E & F' & [L M Hc _ _ Ho']). rewrite E. eexists _, _, v', cs, data. split; [done |].
      split; [by constructor |]. split; [done |].
      assert (access (drop_flag FA_MODIFIED (drop_flag FA_DIRTY fp)) = access fp) as Ea by (by rewrite !access_drop).
      split; [by split |]. split; [done | done |]. intros s Hs Hms Hd. rewrite clean_view; [by apply Ho' | by apply (vo_good _ _ _ (fo_vol _ _ _ _ _ F')) | done].
    + unfold f_sync. rewrite (validate_ok v fp cs data others F), Hm. cbn [Z.eqb FR_OK andb]. exists (FR_OK, [], 0), fp, v, cs, data. split; [done |].
      split; [by constructor |]. split; [done |]. split; [apply stays_refl | apply apart_beside, apart_refl].
Qed.

(** What is not in the buffer of the file object is on the disk. *)
Lemma file_stored v fp cs data others : file_ok v fp cs data others ->
  forall i, 0 <= i < Z.of_nat (length data) -> dirty fp = false \/ sect fp <> fsect (fs v) cs (i / 512) ->
    byte_at data i = byte_at (sector (dk v) (fsect (fs v) cs (i / 512))) (i mod 512).
Proof.
  intros [_ V C _ _] i Hi Hd. pose proof (co_room _ _ _ _ C). rewrite (co_data _ _ _ _ C i Hi). f_equal.
  destruct Hd as [Hd | Hd]; [apply (seen_clean v fp cs data others); (done || divlia) |]. unfold seen. by rewrite (proj2 (Z.eqb_neq _ _)).
Qed.

(** A sequence of calls. *)
Lemma calls_refine ops v fp cs data others : file_ok v fp cs data others -> entry_ok (fs v) fp others -> Forall call_ok ops ->
  exists rs fp' v' cs' data', calls ops fp v = Some (rs, fp', v')
    /\ array_steps (capacity v others) (test_mask (flag fp) FA_READ) (test_mask (flag fp) FA_WRITE) ops (data, fptr fp) rs (data', fptr fp')
    /\ file_ok v' fp' cs' data' others /\ beside v v' fp others.
Proof.
  revert v fp cs data. induction ops as [| o ops IH]; intros v fp cs data F En Ho.
  { exists [], fp, v, cs, data. split; [done |]. split; [constructor |]. split; [done | apply apart_beside, apart_refl]. }
  apply list.Forall_cons in Ho as [Ho Hops]. destruct (call_refines o v fp cs data others _ _ F En Ho eq_refl eq_refl) as (x & fp1 & v1 & cs1 & d1 & E1 & S1 & F1 & St & B1).
  pose proof St as [_ [D1 D2] _]. destruct (IH v1 fp1 cs1 d1 F1) as (rs & fp2 & v2 & cs2 & d2 & E2 & S2 & F2 & B2); [by apply (entry_kept (fs v) _ fp); [apply B1 | | |] | done |].
  assert (capacity v1 others = capacity v others) as Ec.
  { destruct B1 as [L _ _]. unfold capacity. by rewrite (layout_field csize _ _ ltac:(done) L), (layout_field n_fatent _ _ ltac:(done) L). }
  rewrite Ec, (stays_access fp fp1 FA_READ), (stays_access fp fp1 FA_WRITE) in S2 by auto.
  exists (x :: rs), fp2, v2, cs2, d2. cbn [calls]. rewrite E1. cbn [mbind option_bind]. rewrite E2. split; [done |].
  split; [by apply (array_cons _ _ _ _ _ _ (d1, fptr fp1)) |]. split; [done |]. by apply (beside_trans v v1 v2 fp fp1).
Qed.

(** C8: An open file behaves as an array of bytes with a pointer: a sequence of
    reads, writes, seeks, truncations and flushes always returns, with the
    results that the array gives, on every format and across sectors and clusters.
    A write is short only at the capacity of the disk or of the format, a seek
    stops there, calls without the right to them are denied, and no sector
    outside the file and its directory entry is changed.  What is not in the
    buffer of the file object is on the disk. *)
Theorem file_refines ops v fp cs data others : file_ok v fp cs data others -> entry_ok (fs v) fp others -> Forall call_ok ops ->
  exists rs fp' v' cs' data', calls ops fp v = Some (rs, fp', v')
    /\ array_steps (capacity v others) (test_mask (flag fp) FA_READ) (test_mask (flag fp) FA_WRITE) ops (data, fptr fp) rs (data', fptr fp')
    /\ file_ok v' fp' cs' data' others /\ beside v v' fp others
    /\ forall i, 0 <= i < Z.of_nat (length data') -> dirty fp' = false \/ sect fp' <> fsect (fs v') cs' (i / 512) ->
         byte_at data' i = byte_at (sector (dk v') (fsect (fs v') cs' (i / 512))) (i mod 512).
Proof.
  intros F En Ho. destruct (calls_refine ops v fp cs data others F En Ho) as (rs & fp' & v' & cs' & d' & E & S & F' & B).
  exists rs, fp', v', cs', d'. split; [done |]. split; [done |]. split; [done |]. split; [done |]. by apply (file_stored v' fp' cs' d' others).
Qed.

(** ** What a flush writes, an opening reads *)

Lemma start_range v fp cs data others : file_ok v fp cs data others -> 0 <= hd 0 cs < 2 ^ 28 /\ (fs_type (fs v) <> FS_FAT32 -> hd 0 cs < 2 ^ 16).
Proof.
  intros F. pose proof (fo_vol _ _ _ _ _ F) as V. destruct cs as [| c cs]; [cbn; lia |]. destruct (own_parts v _ others V) as (_ & Hown & _ & _).
  destruct (Hown c (list_elem_of_here _ _)) as [Hv _]. unfold valid in Hv. pose proof (n_fatent_range v (vo_good _ _ _ V)). cbn [hd]. split; [lia |].
  intros Ht. destruct (good_geo v (vo_good _ _ _ V)) as [[E | [E | E]] _ [_ Hn] _ _ _ _ _]; rewrite E in *; unfold max_entries in Hn; cbn in Hn; (lia || done).
Qed.

(** The window moves to a sector that is not the file's. *)
Lemma window_moved s v fp cs data others : file_ok v fp cs data others -> table_end (fs v) <= s < disk_size -> ~ mine (fs v) others s ->
  exists v', move_window s v = (FR_OK, v') /\ file_ok v' fp cs data others /\ core (fs v') = core (fs v) /\ winsect (fs v') = s /\ win (fs v') = view v s.
Proof.
  intros F Hs Hm. pose proof (fo_vol _ _ _ _ _ F) as V. pose proof (vo_good _ _ _ V) as G.
  pose proof (good_geo v G) as [_ Hfa _ _ Hi Hba _ _]. pose proof (fsize_pos _ (good_geo v G)) as Hf.
  assert (forall t, table_end (fs v) <= t -> 0 <= t /\ ~ mirror (fs v) t) as Hmir by (intros t Ht; unfold table_end, mirror in *; destruct Hfa as [E | E]; rewrite E in *; lia).
  destruct (Hmir s (proj1 Hs)) as [Hs0 Hms]. destruct (move_window_any s v G) as (v1 & E1 & G1 & C1 & W1 & M1 & V1); [lia | done |].
  exists v1. split; [done |]. assert (layout (fs v1) = layout (fs v)) as L by (unfold layout; by rewrite C1). destruct (core_free _ _ C1) as [Cf Cl].
  split; [| split; [done |]; split; [done |]; rewrite <- (V1 s) by done; unfold view; by rewrite W1, Z.eqb_refl].
  apply (file_frame v); try done; [| by rewrite W1 |].
  - apply (clean_table v); try done; [apply (vo_clean _ _ _ V) |]. intros c Hc. apply table_views; [done | done | done |].
    intros t Ht. apply V1; [lia |]. unfold mirror. lia.
  - intros t Ht. pose proof (mine_range v others t G Ht). pose proof (table_end_data v G). destruct (Hmir t) as [Hx Hy]; [lia |].
    specialize (V1 t Hx Hy). unfold view in V1. rewrite (proj2 (Z.eqb_neq t (winsect (fs v1)))) in V1 by (intros ->; by rewrite W1 in Ht).
    by rewrite (proj2 (Z.eqb_neq t (winsect (fs v)))) in V1 by (intros ->; by apply (vo_window _ _ _ V)).
Qed.

(** C9: A flush of a changed file puts its data, and the entry with its size and
    first cluster, on the disk and touches no other sector behind the table; the
    other entries of the directory's sector keep their bytes.  When the entry is
    then opened, from the start or for appending, the new file object has the
    same clusters and the same data. *)
Theorem flush_reopens tm mode v fp fp0 cs data others : file_ok v fp cs data others -> entry_ok (fs v) fp others ->
  test_mask (flag fp) FA_MODIFIED = true -> test_mask mode FA_DIRTY = false ->
  exists fp' v', f_sync true tm fp v = (FR_OK, fp', v') /\ file_ok v' fp' cs data others /\ stored tm v v' fp cs data others
    /\ (forall j, 0 <= j -> ~ dir_ptr fp <= j < dir_ptr fp + 32 -> byte_at (sector (dk v') (dir_sect fp)) j = byte_at (view v (dir_sect fp)) j)
    /\ exists v1 fp1 v2, move_window (dir_sect fp) v' = (FR_OK, v1) /\ open_entry mode (dir_ptr fp) fp0 v1 = Some (FR_OK, fp1, v2)
       /\ file_ok v2 fp1 cs data others /\ fptr fp1 = (if test_mask mode FA_SEEKEND then Z.of_nat (length data) else 0)
       /\ flag fp1 = mode /\ dir_sect fp1 = dir_sect fp /\ dir_ptr fp1 = dir_ptr fp.
Proof.
  intros F En Hmod Hmode. destruct (f_sync_ok tm v fp cs data others F En Hmod) as (v' & E & F' & St). eexists _, v'. split; [done |]. split; [exact F' |]. split; [done |].
  pose proof En as [[Hs Hm] [Hp1 Hp2]]. pose proof (vo_good _ _ _ (fo_vol _ _ _ _ _ F)) as G. destruct (view_ok v (dir_sect fp) G) as [Hvl Hvb].
  pose proof St as [L _ Hcl _ He _]. split.
  { intros j Hj Ho. rewrite He. apply dir_entry_out; (lia || done). }
  set (fp' := drop_flag FA_MODIFIED (drop_flag FA_DIRTY fp)) in *. pose proof (vo_good _ _ _ (fo_vol _ _ _ _ _ F')) as G'.
  assert (table_end (fs v') = table_end (fs v)) as Et by (by apply (layout_field table_end)).
  destruct (window_moved (dir_sect fp) v' fp' cs data others F') as (v1 & E1 & F1 & C1 & W1 & Ew); [by rewrite Et | intros H; by apply Hm, (mine_layout (fs v')) |].
  rewrite clean_view, He in Ew by done. assert (fs_type (fs v1) = fs_type (fs v)) as Ety.
  { transitivity (fs_type (fs v')); [change (fs_type (core (fs v1)) = fs_type (core (fs v'))); by rewrite C1 | by apply (layout_field fs_type)]. }
  pose proof F1 as [_ V1 Cn [_ [_ Hlim] _ _ _] _]. destruct (start_range v fp cs data others F) as [Hc1 Hc2].
  destruct (open_entry_ok mode (dir_ptr fp) fp0 v1 cs data others V1) as (fp1 & v2 & E2 & F2 & Hp & Hf & Hds & Hdp & _).
  - rewrite Ew, Ety. apply dir_entry_clust; (done || lia).
  - rewrite Ew. apply dir_entry_size; (done || lia).
  - done.
  - apply (co_bytes _ _ _ _ Cn).
  - apply (co_room _ _ _ _ Cn).
  - done.
  - intros i Hi. rewrite (co_data _ _ _ _ Cn) by done. f_equal. apply (seen_clean v1 fp' cs data others); [done | done | | pose proof (co_room _ _ _ _ Cn); divlia].
    unfold fp', dirty. cbn. rewrite flag_ldiff. apply (dirty_drop fp).
  - exists v1, fp1, v2. split; [done |]. split; [done |]. split; [done |]. split; [done |]. split; [done |]. split; [by rewrite Hds | done].
Qed.

End Disk.

(** ** On the disk in memory *)

(** The file in the clusters 2 and 3, 600 bytes long, with its entry in the root
    directory. *)
Definition ram_fil (mode : Z) : FIL := mk_FIL true 1 2 600 mode 0 0 0 0 5 64 (replicate 512 0).

Lemma ram_not_mine s : s < 10 -> ~ mine (fs ram_vol) [] s.
Proof. intros Hs Hm. apply mine_range in Hm; [| apply ram_good]. cbn in Hm. lia. Qed.

Lemma ram_vol_ok : vol_ok ram_vol [2; 3] [].
Proof. split; [exact ram_clean | exists 0; by split | by apply ram_not_mine]. Qed.

Lemma zeros_byte n i : byte_at (replicate n 0) i = 0.
Proof. unfold byte_at. rewrite nth_lookup. destruct (replicate n 0 !! Z.to_nat i) as [x |] eqn:E; [| done]. by apply lookup_replicate in E as [-> _]. Qed.

Lemma ram_file_ok mode : test_mask mode FA_DIRTY = false -> file_ok ram_vol (ram_fil mode) [2; 3] (replicate 600 0) [].
Proof.
  intros Hm. assert (forall n, is_bytes (replicate n 0)) as Hz by (intros n; apply Forall_replicate; unfold is_u8; lia).
  split; [done | exact ram_vol_ok | | | by left].
  - split; [split; [done | apply Hz] | intros H; change (test_mask mode FA_DIRTY = true) in H; congruence | by left | | by vm_compute | apply Hz].
    intros i Hi. rewrite length_replicate in Hi. rewrite zeros_byte. unfold seen. destruct (own_sector ram_vol [2; 3] [] (i / 512) ram_vol_ok) as (Hr & _); [change (room (fs ram_vol) [2; 3]) with 2; change (Z.of_nat 600) with 600 in Hi; divlia |].
    change (database (fs ram_vol)) with 10 in Hr. change (sect (ram_fil mode)) with 0. rewrite (proj2 (Z.eqb_neq _ 0)) by lia.
    change (sector (dk ram_vol)) with ram_sectors. unfold ram_sectors. rewrite !(proj2 (Z.eqb_neq _ _)) by lia. cbn [orb]. by rewrite zeros_byte.
  - rewrite length_replicate. split; cbn; (done || lia).
Qed.

Lemma ram_entry_ok mode : entry_ok (fs ram_vol) (ram_fil mode) [].
Proof. split; [split; [change (5 <= 5 < 1000); lia | by apply ram_not_mine] | cbn; lia]. Qed.

Definition ram_calls : list file_op :=
  [Seek 505; Write (seqZ 1 20); Seek 510; Read 6; Seek 1000; Write (replicate 600 7); Truncate; Flush 0x12345678; Seek 1590; Read 100].

Lemma file_refines_witness :
  exists rs fp' v' cs' data', calls ram_calls (ram_fil 3) ram_vol = Some (rs, fp', v')
    /\ array_steps (512 * 398) true true ram_calls (replicate 600 0, 0) rs (data', fptr fp')
    /\ file_ok v' fp' cs' data' [] /\ beside ram_vol v' (ram_fil 3) []
    /\ forall i, 0 <= i < Z.of_nat (length data') -> dirty fp' = false \/ sect fp' <> fsect (fs v') cs' (i / 512) ->
         byte_at data' i = byte_at (sector (dk v') (fsect (fs v') cs' (i / 512))) (i mod 512).
Proof.
  refine (file_refines ram_calls ram_vol (ram_fil 3) [2; 3] (replicate 600 0) [] (ram_file_ok 3 eq_refl) (ram_entry_ok 3) _).
  repeat constructor; cbn; lia.
Defined.

(** The replies, run: the bytes across the first sector, and the last ten. *)
Example ram_replies : ((fun r => r.1.1) <$> calls ram_calls (ram_fil 3) ram_vol) =
  Some [(0, [], 0); (0, [], 20); (0, [], 0); (0, [6; 7; 8; 9; 10; 11], 0); (0, [], 0); (0, [], 600); (0, [], 0); (0, [], 0); (0, [], 0); (0, replicate 10 7, 0)].
Proof. vm_compute. reflexivity. Qed.

Lemma flush_reopens_witness :
  exists fp' v', f_sync true 0 (ram_fil 0x43) ram_vol = (FR_OK, fp', v') /\ file_ok v' fp' [2; 3] (replicate 600 0) []
    /\ stored 0 ram_vol v' (ram_fil 0x43) [2; 3] (replicate 600 0) []
    /\ (forall j, 0 <= j -> ~ 64 <= j < 96 -> byte_at (sector (dk v') 5) j = byte_at (view ram_vol 5) j)
    /\ exists v1 fp1 v2, move_window 5 v' = (FR_OK, v1) /\ open_entry 0x23 64 (ram_fil 0) v1 = Some (FR_OK, fp1, v2)
       /\ file_ok v2 fp1 [2; 3] (replicate 600 0) [] /\ fptr fp1 = 600 /\ flag fp1 = 0x23 /\ dir_sect fp1 = 5 /\ dir_ptr fp1 = 64.
Proof.
  exact (flush_reopens 0 0x23 ram_vol (ram_fil 0x43) (ram_fil 0) [2; 3] (replicate 600 0) []
    (ram_file_ok 0x43 eq_refl) (ram_entry_ok 0x43) eq_refl eq_refl).
Defined.

End FatSync.
