(* ===== verification/FatShare.v ===== *)
(** * The FAT file system: sharing of open files

    Models the file sharing control of [system/src/ff15/source/ff.c]
    ([chk_share], [enq_share], [inc_share], [dec_share], [clear_share]): the table
    [Files] of open objects, of one entry in the firmware's configuration
    ([FF_FS_LOCK]), of any number here.  The state machine of opening and closing
    shows that a file open for writing is open once. *)

From stdpp Require Import relations.
From S2P Require Import Prelude FatTable.

Module FatShare.
Import FatTable.

Definition FF_FS_LOCK : nat := 1.

Definition FR_LOCKED : Z := 16.
Definition FR_TOO_MANY_OPEN_FILES : Z := 18.

(** An entry; the volume 0 marks a blank one. *)
Record FILESEM := mk_sem { sem_fs : Z; clu : Z; ofs : Z; ctr : Z }.

Definition set_sem_fs (x : Z) (e : FILESEM) : FILESEM := mk_sem x (clu e) (ofs e) (ctr e).
Definition set_ctr (x : Z) (e : FILESEM) : FILESEM := mk_sem (sem_fs e) (clu e) (ofs e) x.

(** The object: its volume, the cluster of its directory and its place there. *)
Record object := mk_object { o_fs : Z; o_clu : Z; o_ofs : Z }.

Definition blank (e : FILESEM) : bool := sem_fs e =? 0.
Definition is_at (dp : object) (e : FILESEM) : bool := (sem_fs e =? o_fs dp) && (clu e =? o_clu dp) && (ofs e =? o_ofs dp).

Definition no_sem : FILESEM := mk_sem 0 0 0 0.
Definition entry_at (files : list FILESEM) (i : nat) : FILESEM := nth i files no_sem.

(** The index of the first entry with the property, the number of entries when
    none has it. *)
Fixpoint first_index (p : FILESEM -> bool) (files : list FILESEM) : nat :=
  match files with [] => O | e :: files => if p e then O else S (first_index p files) end.

Definition chk_share (dp : object) (acc : Z) (files : list FILESEM) : Z :=
  let i := first_index (fun e => negb (blank e) && is_at dp e) files in
  if Nat.eqb i (length files) then
    if negb (existsb blank files) && negb (acc =? 2) then FR_TOO_MANY_OPEN_FILES else FR_OK
  else if negb (acc =? 0) || (ctr (entry_at files i) =? 0x100) then FR_LOCKED else FR_OK.

Definition enq_share (files : list FILESEM) : bool := negb (Nat.eqb (first_index blank files) (length files)).

(** The entry of the object, which is made if there is none. *)
Definition place_share (dp : object) (files : list FILESEM) : option (nat * list FILESEM) :=
  let i := first_index (is_at dp) files in
  if Nat.eqb i (length files) then
    let i := first_index blank files in
    if Nat.eqb i (length files) then None else Some (i, <[i := mk_sem (o_fs dp) (o_clu dp) (o_ofs dp) 0]> files)
  else Some (i, files).

Definition inc_share (dp : object) (acc : Z) (files : list FILESEM) : Z * list FILESEM :=
  match place_share dp files with
  | None => (0, files)
  | Some (i, files) =>
    let e := entry_at files i in
    if (1 <=? acc) && negb (ctr e =? 0) then (0, files)
    else (Z.of_nat i + 1, <[i := set_ctr (if acc =? 0 then u32 (ctr e + 1) else 0x100) e]> files)
  end.

Definition dec_share (i : Z) (files : list FILESEM) : Z * list FILESEM :=
  let i := u32 (i - 1) in
  if i <? Z.of_nat (length files) then
    let e := entry_at files (Z.to_nat i) in
    let n := ctr e in
    let n := if n =? 0x100 then 0 else n in
    let n := if 0 <? n then n - 1 else n in
    let e := set_ctr n e in
    (FR_OK, <[Z.to_nat i := if n =? 0 then set_sem_fs 0 e else e]> files)
  else (FR_INT_ERR, files).

Definition clear_share (fs : Z) (files : list FILESEM) : list FILESEM :=
  (fun e => if sem_fs e =? fs then set_sem_fs 0 e else e) <$> files.

(** ** Opening and closing

    The open files: the indices the calls gave, and whether for writing.  A file
    is opened as [f_open] does: checked, then registered. *)
Abbreviation handle := (Z * bool)%type.

Inductive share_step : list FILESEM * list handle -> list FILESEM * list handle -> Prop :=
  | share_open dp (w : bool) files i files' hs : o_fs dp <> 0 -> chk_share dp (if w then 1 else 0) files = FR_OK ->
    inc_share dp (if w then 1 else 0) files = (i, files') -> Z.of_nat (length hs) < 0xFF ->
    share_step (files, hs) (files', (i, w) :: hs)
  | share_close i w files files' hs hs' : hs ≡ₚ (i, w) :: hs' -> dec_share i files = (FR_OK, files') ->
    share_step (files, hs) (files', hs').

Definition blank_table (n : nat) : list FILESEM := replicate n no_sem.

(** ** The table and the open files *)

Definition held (i : nat) (w : bool) (hs : list handle) : Z :=
  Z.of_nat (length (filter (fun h => h = (Z.of_nat i + 1, w)) hs)).

(** The counter of an entry is the number of its readers, or says that its one
    handle writes. *)
Definition sem_ok (e : FILESEM) (r w : Z) : Prop :=
  if blank e then r = 0 /\ w = 0 else (w = 1 /\ r = 0 /\ ctr e = 0x100) \/ (w = 0 /\ r = ctr e /\ 1 <= r < 0x100).

Record table_ok (files : list FILESEM) (hs : list handle) : Prop := {
  tb_size : Z.of_nat (length files) < 2 ^ 32 - 1;
  tb_sem i : sem_ok (entry_at files i) (held i false hs) (held i true hs);
  tb_distinct i j dp : o_fs dp <> 0 -> is_at dp (entry_at files i) = true -> is_at dp (entry_at files j) = true -> i = j;
  tb_range i w : (i, w) ∈ hs -> 1 <= i <= Z.of_nat (length files);
}.

Lemma first_index_spec p files :
  (first_index p files = length files /\ forall e, e ∈ files -> p e = false)
  \/ (exists e, files !! first_index p files = Some e /\ p e = true /\ (first_index p files < length files)%nat).
Proof.
  induction files as [| e files IH]; cbn [first_index length]; [left; split; [done |]; intros e He; by apply not_elem_of_nil in He |].
  destruct (p e) eqn:E; [right; exists e; split; [done |]; split; [done | lia] |].
  destruct IH as [[-> H] | (x & H1 & H2 & H3)].
  - left. split; [done |]. intros x Hx. apply elem_of_cons in Hx as [-> | Hx]; auto.
  - right. exists x. split; [done |]. split; [done | lia].
Qed.

Lemma entry_lookup files i e : files !! i = Some e -> entry_at files i = e.
Proof. intros H. unfold entry_at. by rewrite nth_lookup, H. Qed.

Lemma entry_out files i : files !! i = None -> entry_at files i = no_sem.
Proof. intros H. unfold entry_at. by rewrite nth_lookup, H. Qed.

Lemma entry_insert files i j e : entry_at (<[i := e]> files) j = if bool_decide (i = j /\ (i < length files)%nat) then e else entry_at files j.
Proof.
  unfold entry_at. rewrite !nth_lookup. case_bool_decide as H.
  - destruct H as [-> H]. by rewrite list_lookup_insert_eq.
  - destruct (decide (i = j)) as [-> |]; [| by rewrite list_lookup_insert_ne]. assert (~ (j < length files)%nat) by (intros ?; by apply H).
    rewrite list_insert_ge by lia. done.
Qed.

Lemma is_at_true dp e : is_at dp e = true <-> sem_fs e = o_fs dp /\ clu e = o_clu dp /\ ofs e = o_ofs dp.
Proof. unfold is_at. rewrite !andb_true_iff, !Z.eqb_eq. tauto. Qed.

Lemma is_at_ctr dp x e : is_at dp (set_ctr x e) = is_at dp e.
Proof. done. Qed.

Lemma held_cons i w j x hs : held i w ((j, x) :: hs) = (if (j =? Z.of_nat i + 1) && Bool.eqb x w then 1 else 0) + held i w hs.
Proof.
  unfold held. rewrite filter_cons. case_decide as E.
  - injection E as -> ->. rewrite Z.eqb_refl, eqb_reflx. cbn [andb length]. lia.
  - replace ((j =? Z.of_nat i + 1) && Bool.eqb x w) with false; [lia |]. symmetry. apply not_true_is_false.
    intros [H1%Z.eqb_eq H2%eqb_prop]%andb_true_iff. congruence.
Qed.

Lemma held_perm i w hs hs' : hs ≡ₚ hs' -> held i w hs = held i w hs'.
Proof. intros H. unfold held. by rewrite H. Qed.

Lemma held_range i w hs : 0 <= held i w hs <= Z.of_nat (length hs).
Proof. unfold held. pose proof (length_filter (fun h => h = (Z.of_nat i + 1, w)) hs). lia. Qed.

Lemma held_elem i w hs : 0 < held i w hs <-> (Z.of_nat i + 1, w) ∈ hs.
Proof.
  unfold held. split.
  - intros H. destruct (filter _ hs) as [| h l] eqn:E; [cbn in H; lia |]. assert (h ∈ filter (fun h => h = (Z.of_nat i + 1, w)) hs) as Hh by (rewrite E; apply list_elem_of_here).
    apply list_elem_of_filter in Hh as [-> Hh]. done.
  - intros H. assert ((Z.of_nat i + 1, w) ∈ filter (fun h => h = (Z.of_nat i + 1, w)) hs) as Hh by (by apply list_elem_of_filter).
    destruct (filter _ hs); [by apply not_elem_of_nil in Hh | cbn [length]; lia].
Qed.

Lemma blank_ok n : Z.of_nat n < 2 ^ 32 - 1 -> table_ok (blank_table n) [].
Proof.
  intros Hn. split.
  - unfold blank_table. by rewrite length_replicate.
  - intros i. assert (entry_at (blank_table n) i = no_sem) as ->; [| done]. unfold entry_at, blank_table. rewrite nth_lookup.
    destruct (replicate n no_sem !! i) as [e |] eqn:E; [by apply lookup_replicate in E as [-> _] | done].
  - intros i j dp Hd H. apply is_at_true in H as [H _]. exfalso. apply Hd. rewrite <- H. unfold entry_at, blank_table. rewrite nth_lookup.
    destruct (replicate n no_sem !! i) as [e |] eqn:E; [by apply lookup_replicate in E as [-> _] | done].
  - intros i w H. by apply not_elem_of_nil in H.
Qed.

(** An entry changed, and its handles. *)
Lemma update_ok files hs hs' i e : table_ok files hs -> (i < length files)%nat ->
  (forall dp j, o_fs dp <> 0 -> is_at dp e = true -> j <> i -> is_at dp (entry_at files j) = false) ->
  sem_ok e (held i false hs') (held i true hs') -> (forall j w, j <> i -> held j w hs' = held j w hs) ->
  (forall j w, (j, w) ∈ hs' -> 1 <= j <= Z.of_nat (length files)) -> table_ok (<[i := e]> files) hs'.
Proof.
  intros [H1 H2 H3 H4] Hi Hd Hs Hh Hr. assert (forall j, entry_at (<[i := e]> files) j = if bool_decide (i = j) then e else entry_at files j) as He.
  { intros j. rewrite entry_insert. by rewrite (bool_decide_ext (i = j /\ (i < length files)%nat) (i = j)) by tauto. }
  split; rewrite ?length_insert; try done.
  - intros j. rewrite He. case_bool_decide as E; [by subst j |]. rewrite !Hh by congruence. apply H2.
  - intros j k dp Ho. rewrite !He. repeat case_bool_decide; subst; try done.
    + intros Ha Hb. by rewrite Hd in Hb.
    + intros Ha Hb. by rewrite Hd in Ha.
    + by apply H3.
Qed.

Lemma first_index_ext p q files : (forall e, p e = q e) -> first_index p files = first_index q files.
Proof. intros H. induction files as [| e files IH]; [done |]. cbn [first_index]. by rewrite H, IH. Qed.

(** Registering what the check allowed. *)
Lemma place_ok files hs dp (w : bool) : table_ok files hs -> o_fs dp <> 0 -> chk_share dp (if w then 1 else 0) files = FR_OK ->
  exists i files', place_share dp files = Some (i, files') /\ (i < length files)%nat /\
    ((files' = files /\ is_at dp (entry_at files i) = true /\ w = false /\ ctr (entry_at files i) <> 0x100)
     \/ (files' = <[i := mk_sem (o_fs dp) (o_clu dp) (o_ofs dp) 0]> files /\ blank (entry_at files i) = true
         /\ forall j, is_at dp (entry_at files j) = false)).
Proof.
  intros T Ho. unfold chk_share, place_share.
  assert (first_index (fun e => negb (blank e) && is_at dp e) files = first_index (is_at dp) files) as ->.
  { apply first_index_ext. intros e. destruct (is_at dp e) eqn:E; [| apply andb_false_r]. apply is_at_true in E as [E _].
    unfold blank. rewrite E. by rewrite (proj2 (Z.eqb_neq _ _)). }
  destruct (first_index_spec (is_at dp) files) as [[E H] | (e & E & He & Hl)].
  - rewrite E, Nat.eqb_refl. intros Hc. destruct (first_index_spec blank files) as [[Eb Hb] | (e & Eb & Hb & Hl)].
    + exfalso. assert (existsb blank files = false) as Hx.
      { apply not_true_is_false. intros (e & Hin & He)%existsb_exists. rewrite Hb in He; [done | by apply list_elem_of_In]. }
      rewrite Hx in Hc. by destruct w.
    + rewrite (proj2 (Nat.eqb_neq _ _)) by lia. eexists _, _. split; [done |]. split; [done |]. right. split; [done |].
      split; [by rewrite (entry_lookup _ _ _ Eb) |]. intros j. destruct (files !! j) as [x |] eqn:Ex.
      * rewrite (entry_lookup _ _ _ Ex). apply H. by eapply list_elem_of_lookup_2.
      * rewrite entry_out by done. apply not_true_is_false. intros [Hx _]%is_at_true. by cbn in Hx.
  - rewrite (proj2 (Nat.eqb_neq _ _)) by lia. intros Hc. exists (first_index (is_at dp) files), files. split; [done |]. split; [done |]. left.
    rewrite (entry_lookup _ _ _ E) in *. split; [done |]. split; [done |]. case_match eqn:Ec; [by cbn in Hc |]. apply orb_false_iff in Ec as [E1 E2%Z.eqb_neq].
    by destruct w.
Qed.

Lemma open_ok files hs dp (w : bool) : table_ok files hs -> o_fs dp <> 0 -> chk_share dp (if w then 1 else 0) files = FR_OK -> Z.of_nat (length hs) < 0xFF ->
  exists i files', inc_share dp (if w then 1 else 0) files = (Z.of_nat i + 1, files') /\ (i < length files)%nat /\ is_at dp (entry_at files' i) = true
    /\ table_ok files' ((Z.of_nat i + 1, w) :: hs).
Proof.
  intros T Ho Hc Hlen. destruct (place_ok files hs dp w T Ho Hc) as (i & files1 & E & Hi & H). unfold inc_share. rewrite E.
  assert (forall j x, j <> i -> held j x ((Z.of_nat i + 1, w) :: hs) = held j x hs) as Hother.
  { intros j x Hj. rewrite held_cons. rewrite (proj2 (Z.eqb_neq _ _)) by lia. done. }
  assert (forall j x, (j, x) ∈ (Z.of_nat i + 1, w) :: hs -> 1 <= j <= Z.of_nat (length files)) as Hrange.
  { intros j x [[= -> ->] | Hx]%elem_of_cons; [lia | by apply (tb_range _ _ T j x)]. }
  assert (forall x, held i x ((Z.of_nat i + 1, w) :: hs) = (if Bool.eqb w x then 1 else 0) + held i x hs) as Hown by (intros x; rewrite held_cons, Z.eqb_refl; done).
  pose proof (tb_sem _ _ T i) as Hsem. unfold sem_ok in Hsem. destruct H as [(-> & Ha & -> & Hctr) | (-> & Hb & Hno)].
  - pose proof (proj1 (proj1 (is_at_true _ _) Ha)) as Hfs. assert (blank (entry_at files i) = false) as Hnb by (unfold blank; rewrite Hfs; by apply Z.eqb_neq).
    rewrite Hnb in Hsem. destruct Hsem as [(_ & _ & ?) | (Hw & Hr & Hc1)]; [done |]. pose proof (held_range i false hs).
    cbn [Z.leb Z.compare andb Z.eqb]. rewrite u32_id by (unfold is_u32; lia).
    eexists i, _. split; [done |]. split; [done |]. split; [rewrite entry_insert; by case_bool_decide |].
    apply (update_ok _ hs); try done.
    + intros dp' j Ho' Ha' Hj. rewrite is_at_ctr in Ha'. apply not_true_is_false. intros Hx. apply Hj. by apply (tb_distinct _ _ T j i dp').
    + rewrite !Hown. cbn [Bool.eqb]. unfold sem_ok. change (blank (set_ctr _ (entry_at files i))) with (blank (entry_at files i)). rewrite Hnb. cbn [set_ctr ctr]. lia.
  - rewrite Hb in Hsem. destruct Hsem as [Hr Hw]. set (e := mk_sem (o_fs dp) (o_clu dp) (o_ofs dp) 0).
    assert (entry_at (<[i := e]> files) i = e) as He by (rewrite entry_insert; by case_bool_decide; [| tauto]). rewrite He.
    rewrite list_insert_insert_eq. cbn [ctr e Z.eqb negb]. rewrite andb_false_r. eexists i, _. split; [done |]. split; [done |].
    assert (forall x, is_at dp (set_ctr x e) = true) as Hat by (intros x; by apply is_at_true).
    split; [rewrite entry_insert; by case_bool_decide; [| tauto] |].
    apply (update_ok _ hs); try done.
    + intros dp' j Ho' Ha' Hj. apply not_true_is_false. intros Hx. rewrite is_at_ctr in Ha'. apply is_at_true in Ha' as (A1 & A2 & A3), Hx as (B1 & B2 & B3).
      cbn in A1, A2, A3. specialize (Hno j). apply not_true_iff_false in Hno. apply Hno, is_at_true. split_and!; congruence.
    + rewrite !Hown. unfold sem_ok, blank. cbn [set_ctr sem_fs ctr e]. rewrite (proj2 (Z.eqb_neq _ _)) by done. destruct w; cbn; change (u32 (0 + 1)) with 1; lia.
Qed.

Lemma close_ok files hs hs' i (w : bool) : table_ok files hs -> hs ≡ₚ (i, w) :: hs' -> exists files', dec_share i files = (FR_OK, files') /\ table_ok files' hs'.
Proof.
  intros T P. assert ((i, w) ∈ hs) as Hin by (rewrite P; apply list_elem_of_here). pose proof (tb_range _ _ T i w Hin) as Hi. pose proof (tb_size _ _ T) as Hsz.
  unfold dec_share. rewrite u32_id by (unfold is_u32; lia). rewrite (proj2 (Z.ltb_lt _ _)) by lia. eexists. split; [done |].
  set (k := Z.to_nat (i - 1)). replace i with (Z.of_nat k + 1) in * by lia.
  assert (forall x, held k x hs = (if Bool.eqb w x then 1 else 0) + held k x hs') as Hown by (intros x; rewrite (held_perm k x _ _ P), held_cons, Z.eqb_refl; done).
  pose proof (tb_sem _ _ T k) as Hsem. unfold sem_ok in Hsem. rewrite !Hown in Hsem. pose proof (held_range k false hs') as R1. pose proof (held_range k true hs') as R2.
  destruct (blank (entry_at files k)) eqn:Hb; [exfalso; destruct w; cbn in Hsem; lia |].
  apply (update_ok _ hs); try done.
  - lia.
  - intros dp j Ho Ha Hj. apply not_true_is_false. intros Hx. apply Hj. apply (tb_distinct _ _ T j k dp Ho Hx). case_match; [| done].
    apply is_at_true in Ha as [Ha _]. cbn in Ha. congruence.
  - unfold sem_ok. destruct w; cbn [Bool.eqb] in Hsem.
    + assert (ctr (entry_at files k) = 0x100) as -> by lia. cbn. lia.
    + rewrite (proj2 (Z.eqb_neq (ctr _) 0x100)), (proj2 (Z.ltb_lt 0 _)) by lia. destruct (Z.eqb_spec (ctr (entry_at files k) - 1) 0); [cbn; lia |].
      change (blank (set_ctr _ (entry_at files k))) with (blank (entry_at files k)). rewrite Hb. cbn [set_ctr ctr]. lia.
  - intros j x Hj. rewrite (held_perm j x _ _ P), held_cons, (proj2 (Z.eqb_neq _ _)) by lia. done.
  - intros j x Hx. apply (tb_range _ _ T j x). rewrite P. by apply list_elem_of_further.
Qed.

(** C34: A file that is open for writing is open once: in every table reached from
    a blank one by checked openings and closings (fewer than 255 open at a time),
    a writer's entry has no other handle, different entries are different
    files, an opening that the check allows gets an entry of its file, and every
    open file can be closed. *)
Theorem share_exclusive n files hs : Z.of_nat n < 2 ^ 32 - 1 -> rtc share_step (blank_table n, []) (files, hs) ->
  (forall i w, (i, true) ∈ hs -> (i, w) ∈ hs -> w = true /\ held (Z.to_nat (i - 1)) true hs = 1)
  /\ (forall i j dp, o_fs dp <> 0 -> is_at dp (entry_at files i) = true -> is_at dp (entry_at files j) = true -> i = j)
  /\ (forall dp (w : bool), o_fs dp <> 0 -> chk_share dp (if w then 1 else 0) files = FR_OK -> Z.of_nat (length hs) < 0xFF ->
       exists i files', inc_share dp (if w then 1 else 0) files = (Z.of_nat i + 1, files') /\ is_at dp (entry_at files' i) = true)
  /\ (forall i w, (i, w) ∈ hs -> (dec_share i files).1 = FR_OK).
Proof.
  intros Hn H. assert (table_ok files hs) as T.
  { assert (forall a b, rtc share_step a b -> table_ok a.1 a.2 -> table_ok b.1 b.2) as Hinv; [| by apply (Hinv _ _ H), blank_ok].
    induction 1 as [| x y z Hs _ IH]; [done |]. intros T. apply IH. destruct Hs as [dp w f i f' hs0 Ho Hc E Hl | i w f f' hs0 hs1 P E]; cbn [fst snd] in *.
    - destruct (open_ok f hs0 dp w T Ho Hc Hl) as (k & f2 & E2 & _ & _ & T2). rewrite E2 in E. by injection E as <- <-.
    - destruct (close_ok f hs0 hs1 i w T P) as (f2 & E2 & T2). rewrite E2 in E. by injection E as <-. }
  split; [| split; [apply (tb_distinct _ _ T) | split]].
  - intros i w H1 H2. pose proof (tb_range _ _ T i true H1). set (k := Z.to_nat (i - 1)). replace i with (Z.of_nat k + 1) in * by lia.
    apply held_elem in H1, H2. pose proof (tb_sem _ _ T k) as Hs. unfold sem_ok in Hs. case_match; [lia |]. destruct w; [split; [done | lia] | lia].
  - intros dp w Ho Hc Hl. destruct (open_ok files hs dp w T Ho Hc Hl) as (i & f & E & _ & Ha & _). by exists i, f.
  - intros i w Hin. destruct (elem_of_Permutation hs (i, w)) as [H1 _]. destruct (H1 Hin) as (hs' & P). destruct (close_ok files hs hs' i w T P) as (f & -> & _). done.
Qed.

(** ** One entry, as in the firmware *)

Definition file_a : object := mk_object 1 0 64.
Definition file_b : object := mk_object 1 0 96.

Definition one_reader : list FILESEM := [mk_sem 1 0 64 1].

Lemma one_reader_reached : rtc share_step (blank_table FF_FS_LOCK, []) (one_reader, [(1, false)]).
Proof. apply rtc_once. by apply (share_open file_a false). Qed.

Lemma share_exclusive_witness :
  (forall i w, (i, true) ∈ [(1, false)] -> (i, w) ∈ [(1, false)] -> w = true /\ held (Z.to_nat (i - 1)) true [(1, false)] = 1)
  /\ (forall i j dp, o_fs dp <> 0 -> is_at dp (entry_at one_reader i) = true -> is_at dp (entry_at one_reader j) = true -> i = j)
  /\ (forall dp (w : bool), o_fs dp <> 0 -> chk_share dp (if w then 1 else 0) one_reader = FR_OK -> Z.of_nat (length [(1, false)]) < 0xFF ->
       exists i files', inc_share dp (if w then 1 else 0) one_reader = (Z.of_nat i + 1, files') /\ is_at dp (entry_at files' i) = true)
  /\ (forall i w, (i, w) ∈ [(1, false)] -> (dec_share i one_reader).1 = FR_OK).
Proof. exact (share_exclusive FF_FS_LOCK one_reader [(1, false)] ltac:(done) one_reader_reached). Defined.

(** With one entry a second file is not opened, nor the first one for writing;
    it is opened for reading again, and closing gives the entry back. *)
Example one_entry : (chk_share file_b 0 one_reader, chk_share file_a 1 one_reader, chk_share file_a 0 one_reader, enq_share one_reader)
    = (FR_TOO_MANY_OPEN_FILES, FR_LOCKED, FR_OK, false)
  /\ inc_share file_a 0 one_reader = (1, [mk_sem 1 0 64 2]) /\ dec_share 1 one_reader = (FR_OK, [mk_sem 0 0 64 0])
  /\ dec_share 0 one_reader = (FR_INT_ERR, one_reader) /\ clear_share 1 one_reader = [mk_sem 0 0 64 1].
Proof. vm_compute. by repeat split. Qed.

(** The reader that makes the counter 0x100 makes the entry look like a writer's:
    the first of the 256 readers that closes the file frees the entry of the others. *)
Example readers_overflow : dec_share 1 (Nat.iter 255 (fun files => (inc_share file_a 0 files).2) one_reader) = (FR_OK, [mk_sem 0 0 64 0])
  /\ Forall (fun k => chk_share file_a 0 (Nat.iter k (fun files => (inc_share file_a 0 files).2) one_reader) = FR_OK) (seq 0 255).
Proof. split; [vm_compute; reflexivity |]. apply (bool_decide_unpack _). vm_compute. exact I. Qed.

End FatShare.
