(* ===== verification/FatDir.v ===== *)
(** * The FAT file system: directories

    Models the directory handling of [system/src/ff15/source/ff.c] without long
    names ([dir_clear], [dir_sdi], [dir_next], [dir_alloc], [dir_find],
    [dir_register], [dir_remove]) over the window of [FatTable.v] and the chains of
    [FatChain.v].  A directory is a list of entries of 32 bytes, in the sectors of
    the fixed root directory or in those of a chain; a search, a registration and
    a removal are stated on that list. *)

From S2P Require Import Prelude FatTable FatChain FatFile FatTransfer.

Module FatDir.
Import FatTable FatChain FatFile FatTransfer.

Definition FR_NO_FILE : Z := 4.

Definition MAX_DIR : Z := 0x200000.
Definition SZDIRE : Z := 32.
Definition DDEM : Z := 0xE5.

Definition DIR_Name : Z := 0.
Definition AM_VOL : Z := 0x08.
Definition AM_MASK : Z := 0x3F.

(** The directory object.  [d_dir] is the place of the entry in the window,
    [d_fn] the name in the form of an entry, with the status byte behind it. *)
Record DIR := mk_DIR { d_sclust : Z; d_attr : Z; dptr : Z; d_clust : Z; d_sect : Z; d_dir : Z; d_fn : bytes }.

Implicit Types dp : DIR.

Definition set_dptr (x : Z) dp : DIR := mk_DIR (d_sclust dp) (d_attr dp) x (d_clust dp) (d_sect dp) (d_dir dp) (d_fn dp).
Definition set_attr (x : Z) dp : DIR := mk_DIR (d_sclust dp) x (dptr dp) (d_clust dp) (d_sect dp) (d_dir dp) (d_fn dp).
Definition set_where (c s : Z) dp : DIR := mk_DIR (d_sclust dp) (d_attr dp) (dptr dp) c s (d_dir dp) (d_fn dp).
Definition set_dsect (s : Z) dp : DIR := set_where (d_clust dp) s dp.
Definition set_ddir (x : Z) dp : DIR := mk_DIR (d_sclust dp) (d_attr dp) (dptr dp) (d_clust dp) (d_sect dp) x (d_fn dp).
Definition set_dsclust (x : Z) dp : DIR := mk_DIR x (d_attr dp) (dptr dp) (d_clust dp) (d_sect dp) (d_dir dp) (d_fn dp).
Definition set_fn (x : bytes) dp : DIR := mk_DIR (d_sclust dp) (d_attr dp) (dptr dp) (d_clust dp) (d_sect dp) (d_dir dp) x.

Ltac fields := unfold set_ddir, set_dsect, set_where, set_dptr, set_attr; cbn [d_sclust d_attr dptr d_clust d_sect d_dir d_fn].

(** No directory has more entries, so that a walk takes at most so many steps. *)
Definition MAX_ENTRIES : nat := Z.to_nat (MAX_DIR / SZDIRE).

Section Volume.
Context {D : Type} {DI : DiskIo D}.
Implicit Types v : vol D.

(** A cluster of zeros, written sector by sector from the window. *)
Fixpoint clear_loop (n : nat) (w : bytes) (sect : Z) (d : D) : bool * D :=
  match n with
  | O => (true, d)
  | S n => let '(ok, d) := disk_write w sect 1 d in if (ok : bool) then clear_loop n w (u32 (sect + 1)) d else (false, d)
  end.

Definition dir_clear (clst : Z) v : Z * vol D :=
  let '(res, v) := sync_window v in
  if negb (res =? FR_OK) then (FR_DISK_ERR, v)
  else
    let v := on_fs (set_window (clst2sect clst v) (replicate 512 0)) v in
    let '(ok, d) := clear_loop (Z.to_nat (csize (fs v))) (win (fs v)) (winsect (fs v)) (dk v) in
    (if (ok : bool) then FR_OK else FR_DISK_ERR, mk_vol (fs v) d).

(** The way along the chain to the cluster with the entry; [csz] is the size of
    a cluster in bytes. *)
Fixpoint sdi_loop (fuel : nat) (csz clst ofs : Z) v : option ((Z + Z * Z) * vol D) :=
  if csz <=? ofs then
    match fuel with
    | O => None
    | S fuel =>
      let '(clst, v) := get_fat clst v in
      if clst =? DISK_ERROR then Some (inl FR_DISK_ERR, v)
      else if (clst <? 2) || (n_fatent (fs v) <=? clst) then Some (inl FR_INT_ERR, v)
      else sdi_loop fuel csz clst (ofs - csz) v
    end
  else Some (inr (clst, ofs), v).

(** The last lines: the sector and the place in the window. *)
Definition sdi_place (clst sect ofs : Z) dp : Z * DIR :=
  let dp := set_where clst sect dp in
  if sect =? 0 then (FR_INT_ERR, dp) else (FR_OK, set_ddir (ofs mod SS) (set_dsect (u32 (sect + ofs / SS)) dp)).

Definition dir_sdi (ofs : Z) dp v : option (Z * DIR * vol D) :=
  if (MAX_DIR <=? ofs) || negb (ofs mod SZDIRE =? 0) then Some (FR_INT_ERR, dp, v)
  else
    let dp := set_dptr ofs dp in
    let clst := if (d_sclust dp =? 0) && (FS_FAT32 <=? fs_type (fs v)) then dirbase (fs v) else d_sclust dp in
    if clst =? 0 then
      if n_rootdir (fs v) <=? ofs / SZDIRE then Some (FR_INT_ERR, dp, v)
      else Some (sdi_place clst (dirbase (fs v)) ofs dp, v)
    else
      let csz := csize (fs v) * SS in
      '(r, v) ← sdi_loop (Z.to_nat (ofs / csz)) csz clst ofs v;
      Some (match r with inl e => (e, dp) | inr (clst, ofs) => sdi_place clst (clst2sect clst v) ofs dp end, v).

(** The cluster behind the current one, which is added when the table may grow:
    an error, or the cluster. *)
Definition next_cluster (stretch : bool) (clust : Z) v : option ((Z + Z) * vol D) :=
  let '(clst, v) := get_fat clust v in
  if clst <=? 1 then Some (inl FR_INT_ERR, v)
  else if clst =? DISK_ERROR then Some (inl FR_DISK_ERR, v)
  else if n_fatent (fs v) <=? clst then
    if stretch then
      '(clst, v) ← create_chain clust v;
      if clst =? 0 then Some (inl FR_DENIED, v)
      else if clst =? 1 then Some (inl FR_INT_ERR, v)
      else if clst =? DISK_ERROR then Some (inl FR_DISK_ERR, v)
      else
        let '(res, v) := dir_clear clst v in
        Some (if negb (res =? FR_OK) then inl FR_DISK_ERR else inr clst, v)
    else Some (inl FR_NO_FILE, v)
  else Some (inr clst, v).

Definition dir_next (stretch : bool) dp v : option (Z * DIR * vol D) :=
  let ofs := u32 (dptr dp + SZDIRE) in
  let dp := if MAX_DIR <=? ofs then set_dsect 0 dp else dp in
  let step dp v := Some (FR_OK, set_ddir (ofs mod SS) (set_dptr ofs dp), v) in
  if d_sect dp =? 0 then Some (FR_NO_FILE, dp, v)
  else if ofs mod SS =? 0 then
    let dp := set_dsect (u32 (d_sect dp + 1)) dp in
    if d_clust dp =? 0 then
      if n_rootdir (fs v) <=? ofs / SZDIRE then Some (FR_NO_FILE, set_dsect 0 dp, v) else step dp v
    else if ofs / SS .& (csize (fs v) - 1) =? 0 then
      '(r, v) ← next_cluster stretch (d_clust dp) v;
      match r with
      | inl e => Some (e, if e =? FR_NO_FILE then set_dsect 0 dp else dp, v)
      | inr clst => step (set_where clst (clst2sect clst v) dp) v
      end
    else step dp v
  else step dp v.

(** The entry the object stands at. *)
Definition entry_byte (i : Z) dp v : Z := byte_at (win (fs v)) (d_dir dp + i).

Definition is_free dp v : bool := (entry_byte DIR_Name dp v =? DDEM) || (entry_byte DIR_Name dp v =? 0).

(** [n] counts the free entries met in a row. *)
Fixpoint alloc_loop (fuel : nat) (n_ent n : Z) dp v : option (Z * DIR * vol D) :=
  match fuel with
  | O => None
  | S fuel =>
    let '(res, v) := move_window (d_sect dp) v in
    if negb (res =? FR_OK) then Some (res, dp, v)
    else
      let n := if is_free dp v then n + 1 else 0 in
      if is_free dp v && (n =? n_ent) then Some (FR_OK, dp, v)
      else
        '(res, dp, v) ← dir_next true dp v;
        if res =? FR_OK then alloc_loop fuel n_ent n dp v else Some (res, dp, v)
  end.

Definition dir_alloc (n_ent : Z) dp v : option (Z * DIR * vol D) :=
  '(res, dp, v) ← dir_sdi 0 dp v;
  '(res, dp, v) ← (if res =? FR_OK then alloc_loop MAX_ENTRIES n_ent 0 dp v else Some (res, dp, v));
  Some (if res =? FR_NO_FILE then FR_DENIED else res, dp, v).

Definition same_name dp v : bool :=
  negb (test_mask (entry_byte DIR_Attr dp v) AM_VOL)
  && bool_decide (take 11 (drop (Z.to_nat (d_dir dp)) (win (fs v))) = take 11 (d_fn dp)).

Fixpoint find_entry (fuel : nat) dp v : option (Z * DIR * vol D) :=
  match fuel with
  | O => None
  | S fuel =>
    let '(res, v) := move_window (d_sect dp) v in
    if negb (res =? FR_OK) then Some (res, dp, v)
    else if entry_byte DIR_Name dp v =? 0 then Some (FR_NO_FILE, dp, v)
    else
      let dp := set_attr (entry_byte DIR_Attr dp v .& AM_MASK) dp in
      if same_name dp v then Some (FR_OK, dp, v)
      else
        '(res, dp, v) ← dir_next false dp v;
        if res =? FR_OK then find_entry fuel dp v else Some (res, dp, v)
  end.

Definition dir_find dp v : option (Z * DIR * vol D) :=
  '(res, dp, v) ← dir_sdi 0 dp v;
  if negb (res =? FR_OK) then Some (res, dp, v) else find_entry MAX_ENTRIES dp v.

(** A clean entry with the name. *)
Definition new_entry (fn : bytes) : bytes := take 11 fn ++ replicate 21 0.

Definition dir_register dp v : option (Z * DIR * vol D) :=
  '(res, dp, v) ← dir_alloc 1 dp v;
  if res =? FR_OK then
    let '(res, v) := move_window (d_sect dp) v in
    Some (res, dp, if res =? FR_OK then edit (splice (d_dir dp) (new_entry (d_fn dp))) v else v)
  else Some (res, dp, v).

Definition dir_remove dp v : Z * vol D :=
  let '(res, v) := move_window (d_sect dp) v in
  (res, if res =? FR_OK then edit (put_byte (d_dir dp + DIR_Name) DDEM) v else v).

End Volume.

Section Disk.
Context {D : Type} {DI : DiskIo D} {SD : SectorDisk D}.
Implicit Types v : vol D.

(** ** Moves of the window *)

(** Only the window has moved, to any place. *)
Record still v v' : Prop := {
  sl_good : good v';
  sl_core : core (fs v') = core (fs v);
  sl_view s : 0 <= s -> ~ mirror (fs v) s -> view v' s = view v s;
  sl_mirrored : mirrored v -> mirrored v';
}.

Lemma still_refl v : good v -> still v v.
Proof. by split. Qed.

Lemma same_still v v' : same v v' -> still v v'.
Proof. intros [G C V M _]. by split. Qed.

Lemma still_trans v1 v2 v3 : still v1 v2 -> still v2 v3 -> still v1 v3.
Proof.
  intros [G1 C1 V1 M1] [G2 C2 V2 M2]. split; [done | congruence | | auto].
  intros s Hs Hm. rewrite V2, V1; try done. intros Hm'. apply Hm. by apply (core_mirror (fs v2)).
Qed.

Lemma still_field {A} (p : FATFS -> A) v v' : (forall f, p (core f) = p f) -> still v v' -> p (fs v') = p (fs v).
Proof. intros Hp [_ E _ _]. by rewrite <- (Hp (fs v')), E, Hp. Qed.

Lemma still_layout v v' : still v v' -> layout (fs v') = layout (fs v).
Proof. intros [_ C _ _]. unfold layout. by rewrite C. Qed.

Lemma behind_table v s : good v -> table_end (fs v) <= s -> 0 <= s /\ ~ mirror (fs v) s.
Proof.
  intros G Hs. pose proof (good_geo v G) as [_ Hfa _ _ Hi Hba _ _]. pose proof (fsize_pos _ (good_geo v G)).
  unfold table_end, mirror in *. destruct Hfa as [E | E]; rewrite E in *; lia.
Qed.

Lemma still_table v v' c : good v -> still v v' -> valid v c -> table v' c = table v c.
Proof.
  intros G S Hc. pose proof (good_geo v G) as [_ Hfa _ _ Hi Hba _ _]. apply table_views; [done | done | by apply still_layout |].
  intros s Hs. apply (sl_view _ _ S); [lia |]. unfold mirror. lia.
Qed.

Lemma still_clean v v' files : clean v files -> still v v' -> clean v' files.
Proof.
  intros C S. pose proof (clean_good _ _ C) as G. destruct (core_free _ _ (sl_core _ _ S)).
  apply (clean_table v); try done; [apply S | by apply still_layout |]. intros c Hc. by apply still_table.
Qed.

Lemma move_still s v : good v -> table_end (fs v) <= s < disk_size ->
  exists v', move_window s v = (FR_OK, v') /\ still v v' /\ winsect (fs v') = s /\ win (fs v') = view v s.
Proof.
  intros G Hs. destruct (behind_table v s G) as [H0 Hm]; [lia |]. destruct (move_window_any s v G) as (v' & E & G' & C & W & M & V); [lia | done |].
  exists v'. split; [done |]. split; [by split |]. split; [done |]. rewrite <- (V s) by done. unfold view. by rewrite W, Z.eqb_refl.
Qed.

(** ** The entries of a directory *)

(** The clusters [dc] of a directory, none for the fixed root directory, and its
    sectors. *)
Definition dsect (f : FATFS) (dc : list Z) (k : Z) : Z := match dc with [] => dirbase f + k | _ => fsect f dc k end.

Definition dir_size (f : FATFS) (dc : list Z) : Z := Z.min 65536 (match dc with [] => n_rootdir f | _ => 16 * room f dc end).

(** The start [sc] as the parent's entry has it, which is 0 for the root. *)
Record dir_ok v (sc : Z) (dc : list Z) : Prop := {
  dr_good : good v;
  dr_csize : pow2 (csize (fs v));
  dr_root : dc = [] -> sc = 0 /\ fs_type (fs v) < FS_FAT32 /\ table_end (fs v) <= dirbase (fs v)
    /\ 0 < n_rootdir (fs v) /\ n_rootdir (fs v) mod 16 = 0 /\ dirbase (fs v) + n_rootdir (fs v) / 16 <= database (fs v);
  dr_start : dc <> [] -> sc = cluster dc 0 \/ (sc = 0 /\ fs_type (fs v) = FS_FAT32 /\ dirbase (fs v) = cluster dc 0);
  dr_chain : chain (table v) (n_fatent (fs v)) dc;
  dr_nodup : NoDup dc;
}.

Definition slot v (dc : list Z) (i : Z) : bytes := take 32 (drop (Z.to_nat (32 * (i mod 16))) (view v (dsect (fs v) dc (i / 16)))).

Definition entries v (dc : list Z) : list bytes := slot v dc <$> seqZ 0 (dir_size (fs v) dc).

(** The object at the entry [i]. *)
Definition at_entry (f : FATFS) (dc : list Z) (i : Z) dp : DIR :=
  mk_DIR (d_sclust dp) (d_attr dp) (32 * i) (match dc with [] => 0 | _ => cluster dc (i / 16 / csize f) end) (dsect f dc (i / 16))
    (32 * (i mod 16)) (d_fn dp).

Lemma still_dsect v v' dc k : still v v' -> dsect (fs v') dc k = dsect (fs v) dc k.
Proof.
  intros S. unfold dsect, fsect, sec_of. rewrite (still_field csize v v'), (still_field database v v'), (still_field dirbase v v') by done. done.
Qed.

Lemma still_size v v' dc : still v v' -> dir_size (fs v') dc = dir_size (fs v) dc.
Proof. intros S. unfold dir_size, room. by rewrite (still_field csize v v'), (still_field n_rootdir v v'). Qed.

Lemma still_at v v' dc i dp : still v v' -> at_entry (fs v') dc i dp = at_entry (fs v) dc i dp.
Proof. intros S. unfold at_entry. by rewrite (still_dsect v v'), (still_field csize v v'). Qed.

Lemma still_dir v v' sc dc : still v v' -> dir_ok v sc dc -> dir_ok v' sc dc.
Proof.
  intros S [G P R St Ch Nd].
  assert (table_end (fs v') = table_end (fs v)) as Et by (unfold table_end; by rewrite (still_field fatbase v v'), (still_field n_fats v v'), (still_field fsize v v')).
  split; rewrite ?Et, ?(still_field csize v v'), ?(still_field fs_type v v'), ?(still_field dirbase v v'), ?(still_field n_rootdir v v'),
    ?(still_field database v v'), ?(still_field n_fatent v v') by done; try done; [apply S |].
  apply (chain_ext (table v)); [| done]. intros c Hc. apply still_table; [done | done |]. by apply (chain_valid (table v) _ dc).
Qed.

Lemma slot_sector i r : 0 <= i < Z.min 65536 (16 * r) -> 0 <= i / 16 < r.
Proof. intros Hi. divlia. Qed.

Lemma last_sector i r : i + 1 = 16 * r -> (i + 1) mod 16 = 0 /\ (i + 1) / 16 = r /\ i / 16 = r - 1.
Proof. intros E. rewrite E. split; [rewrite Z.mul_comm; by apply Z.mod_mul |]. split; [rewrite Z.mul_comm; by apply Z.div_mul |]. divlia. Qed.

Lemma dsect_range v sc dc i : dir_ok v sc dc -> 0 <= i < dir_size (fs v) dc ->
  table_end (fs v) <= dsect (fs v) dc (i / 16) < disk_size /\ 0 < dsect (fs v) dc (i / 16).
Proof.
  intros [G P R St Ch Nd] Hi. pose proof (database_pos v G). pose proof (table_end_data v G). pose proof (good_geo v G) as [_ Hfa [Hn _] _ [Hv _] _ Hcs Hsz].
  pose proof (fsize_pos _ (good_geo v G)). assert (0 < table_end (fs v)) by (unfold table_end; nia).
  unfold dir_size in Hi. destruct dc as [| c dc]; cbn [dsect].
  - destruct (R eq_refl) as (_ & _ & Hb & _ & _ & He). assert (i / 16 < n_rootdir (fs v) / 16 \/ n_rootdir (fs v) mod 16 <> 0) by divlia.
    assert (database (fs v) <= disk_size) by nia. divlia.
  - pose proof (pow2_range _ P). pose proof (slot_sector i (room (fs v) (c :: dc)) ltac:(lia)) as Hk. destruct (room_index (fs v) _ _ ltac:(lia) Hk) as [Hq Hm].
    pose proof (sec_of_range v _ ((i / 16) mod csize (fs v)) G (chain_valid _ _ _ _ Ch (cluster_elem _ _ Hq)) Hm). unfold fsect. lia.
Qed.

Lemma still_slot v v' sc dc i : still v v' -> dir_ok v sc dc -> 0 <= i < dir_size (fs v) dc -> slot v' dc i = slot v dc i.
Proof.
  intros S K Hi. unfold slot. rewrite (still_dsect v v') by done. destruct (dsect_range v sc dc i K Hi) as [Hr _].
  destruct (behind_table v _ (dr_good _ _ _ K) (proj1 Hr)). by rewrite (sl_view _ _ S).
Qed.

Lemma still_entries v v' sc dc : still v v' -> dir_ok v sc dc -> entries v' dc = entries v dc.
Proof.
  intros S K. unfold entries. rewrite (still_size v v') by done. apply list_fmap_ext. intros j i Hi.
  apply (still_slot v v' sc); try done. apply list_elem_of_lookup_2, elem_of_seqZ in Hi. lia.
Qed.

(** ** Walking along the entries *)

Lemma sdi_loop_ok fuel : forall q ofs v sc dc, dir_ok v sc dc -> 0 <= q -> 0 <= ofs -> ofs / (512 * csize (fs v)) <= Z.of_nat fuel ->
  q + ofs / (512 * csize (fs v)) < Z.of_nat (length dc) ->
  exists v', sdi_loop fuel (csize (fs v) * SS) (cluster dc q) ofs v
      = Some (inr (cluster dc (q + ofs / (512 * csize (fs v))), ofs mod (512 * csize (fs v))), v') /\ still v v'.
Proof.
  induction fuel as [| fuel IH]; intros q ofs v sc dc K Hq Ho Hf Hr; pose proof (dr_good _ _ _ K) as G; pose proof (pow2_range _ (dr_csize _ _ _ K)) as HB;
    cbn [sdi_loop]; unfold SS in *; rewrite (Z.mul_comm (csize (fs v)) 512) in *; set (B := 512 * csize (fs v)) in *;
    (destruct (Z.leb_spec B ofs) as [Hge | Hlt];
     [| exists v; rewrite Z.div_small, Z.mod_small, Z.add_0_r by lia; split; [done | by apply still_refl]]).
  { assert (1 <= ofs / B) by (apply Z.div_le_lower_bound; lia). lia. }
  assert (ofs / B = (ofs - B) / B + 1 /\ ofs mod B = (ofs - B) mod B) as [Ed Em].
  { replace ofs with (ofs - B + 1 * B) at 1 3 by lia. rewrite Z.div_add, Z.mod_add by lia. done. }
  assert (0 <= (ofs - B) / B) by (apply Z.div_pos; lia). pose proof (dr_chain _ _ _ K) as Hch.
  pose proof (chain_valid _ _ _ _ Hch (cluster_elem dc q ltac:(lia))) as Hv. pose proof (chain_valid _ _ _ _ Hch (cluster_elem dc (q + 1) ltac:(lia))) as Hv1.
  destruct (get_fat_ok _ v G Hv) as (v1 & -> & S1). rewrite (chain_next _ _ dc q Hch) by lia. pose proof (n_fatent_range v G).
  pose proof (same_still v v1 S1) as S. rewrite (still_field n_fatent v v1) by done.
  rewrite (proj2 (Z.eqb_neq _ DISK_ERROR)), (proj2 (Z.ltb_ge _ 2)), (proj2 (Z.leb_gt _ _)) by (unfold DISK_ERROR; lia). cbn [orb].
  destruct (IH (q + 1) (ofs - B) v1 sc dc) as (v' & E & S'); rewrite ?(still_field csize v v1) by done; fold B; try lia; [by apply (still_dir v) |].
  rewrite (still_field csize v v1) in E by done. unfold SS in E. rewrite (Z.mul_comm (csize (fs v)) 512) in E. fold B in E. exists v'. rewrite E, Em, Ed.
  replace (q + ((ofs - B) / B + 1)) with (q + 1 + (ofs - B) / B) by lia. split; [done | by apply (still_trans v v1)].
Qed.

Lemma slot_offset ofs m i : ofs = 512 * m + 32 * (i mod 16) -> ofs / SS = m /\ ofs mod SS = 32 * (i mod 16).
Proof.
  intros E. pose proof (Z.mod_pos_bound i 16 ltac:(lia)). unfold SS.
  split; symmetry; [apply (Z.div_unique_pos _ _ _ (32 * (i mod 16))) | apply (Z.mod_unique_pos _ _ m)]; lia.
Qed.

Lemma dir_sdi_ok i v sc dc dp : dir_ok v sc dc -> d_sclust dp = sc -> 0 <= i < dir_size (fs v) dc ->
  exists v', dir_sdi (32 * i) dp v = Some (FR_OK, at_entry (fs v) dc i dp, v') /\ still v v'.
Proof.
  intros K Hsc Hi. pose proof (dr_good _ _ _ K) as G. destruct (dsect_range v sc dc i K Hi) as [Hr Hpos]. pose proof disk_size_u32.
  pose proof Hi as Hi'. unfold dir_size in Hi'. unfold dir_sdi, MAX_DIR, SZDIRE. rewrite (proj2 (Z.leb_gt _ _)) by lia.
  replace (32 * i mod 32) with 0 by divlia. cbn [Z.eqb negb orb]. change (d_sclust (set_dptr (32 * i) dp)) with (d_sclust dp). rewrite Hsc. cbv zeta.
  replace (32 * i / 32) with i by divlia. destruct dc as [| c dc].
  - destruct (dr_root _ _ _ K eq_refl) as (-> & Ht & _ & _ & _ & _). rewrite (proj2 (Z.leb_gt FS_FAT32 _)) by done. cbn [Z.eqb andb].
    rewrite (proj2 (Z.leb_gt _ _)) by lia. exists v. split; [| by apply still_refl]. unfold sdi_place. cbn [dsect] in *.
    pose proof (table_end_data v G). assert (0 < dirbase (fs v)) as Hd.
    { destruct (dr_root _ _ _ K eq_refl) as (_ & _ & Hb & _). pose proof (good_geo v G) as [_ Hfa _ _ [Hv _] _ _ _]. pose proof (fsize_pos _ (good_geo v G)). unfold table_end in *. nia. }
    rewrite (proj2 (Z.eqb_neq _ 0)) by lia. unfold SS, set_ddir, set_dsect, set_where, set_dptr, at_entry. cbn [d_sclust d_attr dptr d_clust d_sect d_dir d_fn dsect].
    rewrite u32_id by (unfold is_u32; divlia). do 3 f_equal. f_equal; divlia.
  - set (cs := c :: dc) in *. pose proof (dr_start _ _ _ K ltac:(done)) as Hs. pose proof (pow2_range _ (dr_csize _ _ _ K)) as HB.
    assert (valid v (cluster cs 0)) as Hv0 by (apply (chain_valid _ _ _ _ (dr_chain _ _ _ K)), cluster_elem; cbn; lia). unfold valid in Hv0.
    assert ((if (sc =? 0) && (FS_FAT32 <=? fs_type (fs v)) then dirbase (fs v) else sc) = cluster cs 0) as ->.
    { destruct Hs as [-> | (-> & -> & ->)]; [| done]. by rewrite (proj2 (Z.eqb_neq _ 0)) by lia. }
    rewrite (proj2 (Z.eqb_neq _ 0)) by lia.
    pose proof (slot_sector i (room (fs v) cs) ltac:(cbn [cs] in Hi'; lia)) as Hk. destruct (room_index (fs v) _ _ ltac:(lia) Hk) as [Hq Hm].
    assert (32 * i / (512 * csize (fs v)) = i / 16 / csize (fs v)) as Eq.
    { rewrite <- Z.div_div by lia. f_equal. divlia. }
    destruct (sdi_loop_ok (Z.to_nat (32 * i / (csize (fs v) * SS))) 0 (32 * i) v sc cs K) as (v' & E & S); unfold SS in *; rewrite ?(Z.mul_comm (csize (fs v)) 512), ?Eq in *; try lia.
    rewrite E. cbn [mbind option_bind]. exists v'. split; [| done]. f_equal. f_equal. rewrite Z.add_0_l.
    assert (valid v' (cluster cs (i / 16 / csize (fs v)))) as Hv.
    { unfold valid. rewrite (still_field n_fatent v v') by done. apply (chain_valid _ _ _ _ (dr_chain _ _ _ K)), cluster_elem. lia. }
    destruct (clst2sect_ok _ v' (sl_good _ _ S) Hv) as [-> Hne]. unfold sdi_place. rewrite (proj2 (Z.eqb_neq _ 0)) by done.
    set (ofs := 32 * i mod (512 * csize (fs v))).
    assert (ofs = 512 * ((i / 16) mod csize (fs v)) + 32 * (i mod 16)) as Eo.
    { unfold ofs. symmetry. apply (Z.mod_unique_pos _ _ (i / 16 / csize (fs v))).
      - pose proof (Z.mod_pos_bound i 16 ltac:(lia)). lia.
      - pose proof (Z.div_mod (i / 16) (csize (fs v)) ltac:(lia)). pose proof (Z.div_mod i 16 ltac:(lia)). nia. }
    unfold at_entry. fields. cbn [cs].
    destruct (slot_offset ofs _ i Eo) as [-> ->].
    f_equal. f_equal. unfold dsect, fsect, sec_of in *. cbn [cs] in *.
    rewrite (still_field database v v'), (still_field csize v v') by done. rewrite u32_id by (unfold is_u32; lia). lia.
Qed.

Lemma div_next k B : 1 <= B -> (k + 1) / B = (if (k + 1) mod B =? 0 then k / B + 1 else k / B) /\ ((k + 1) mod B <> 0 -> k mod B + 1 < B).
Proof.
  intros HB. pose proof (Z.div_mod k B ltac:(lia)). pose proof (Z.mod_pos_bound k B ltac:(lia)). destruct (Z.eq_dec (k mod B) (B - 1)) as [E | E].
  - assert ((k + 1) / B = k / B + 1) as -> by (symmetry; apply (Z.div_unique_pos _ _ _ 0); lia).
    assert ((k + 1) mod B = 0) as -> by (symmetry; apply (Z.mod_unique_pos _ _ (k / B + 1)); lia). done.
  - assert ((k + 1) / B = k / B) as -> by (symmetry; apply (Z.div_unique_pos _ _ _ (k mod B + 1)); lia).
    assert ((k + 1) mod B = k mod B + 1) as -> by (symmetry; apply (Z.mod_unique_pos _ _ (k / B)); lia). rewrite (proj2 (Z.eqb_neq _ 0)) by lia. split; [done | lia].
Qed.

(** The numbers of the next entry. *)
Lemma next_offset i : 0 <= i < 65536 ->
  u32 (32 * i + SZDIRE) = 32 * (i + 1) /\ 32 * (i + 1) mod SS = 32 * ((i + 1) mod 16) /\ 32 * (i + 1) / SS = (i + 1) / 16 /\ 32 * (i + 1) / SZDIRE = i + 1
  /\ (MAX_DIR <=? 32 * (i + 1)) = (65536 <=? i + 1).
Proof. intros Hi. unfold SZDIRE, SS, MAX_DIR. rewrite u32_id by (unfold is_u32; lia). split; [lia |]. split; [divlia |]. split; [divlia |]. split; [divlia |]. apply eq_true_iff_eq. rewrite !Z.leb_le. lia. Qed.

Lemma next_sector i : 0 <= i -> (32 * ((i + 1) mod 16) =? 0) = ((i + 1) mod 16 =? 0)
  /\ (i + 1) / 16 = (if (i + 1) mod 16 =? 0 then i / 16 + 1 else i / 16).
Proof. intros Hi. split; [apply eq_true_iff_eq; rewrite !Z.eqb_eq; lia |]. destruct (Z.eqb_spec ((i + 1) mod 16) 0); divlia. Qed.

Lemma next_in_chain st q v sc dc : dir_ok v sc dc -> 0 <= q -> q + 1 < Z.of_nat (length dc) ->
  exists v', next_cluster st (cluster dc q) v = Some (inr (cluster dc (q + 1)), v') /\ still v v'.
Proof.
  intros K Hq Hr. pose proof (dr_good _ _ _ K) as G. pose proof (dr_chain _ _ _ K) as Hch. pose proof (n_fatent_range v G).
  pose proof (chain_valid _ _ _ _ Hch (cluster_elem dc q ltac:(lia))) as Hv. pose proof (chain_valid _ _ _ _ Hch (cluster_elem dc (q + 1) ltac:(lia))) as Hv1.
  destruct (get_fat_ok _ v G Hv) as (v1 & E & S1). pose proof (same_still v v1 S1) as S. exists v1. split; [| done].
  unfold next_cluster. rewrite E, (chain_next _ _ dc q Hch), (still_field n_fatent v v1) by (done || lia).
  by rewrite (proj2 (Z.leb_gt _ 1)), (proj2 (Z.eqb_neq _ DISK_ERROR)), (proj2 (Z.leb_gt _ _)) by (unfold DISK_ERROR; lia).
Qed.

Lemma chain_end t n cs : chain t n cs -> cs <> [] -> n <= t (cluster cs (Z.of_nat (length cs) - 1)).
Proof.
  induction cs as [| c cs IH]; intros Hc Hne; [done |]. destruct Hc as (_ & Hn & Hch). destruct cs as [| c' cs]; [done |].
  specialize (IH Hch ltac:(done)). unfold cluster in *. cbn [length] in *. replace (Z.to_nat (Z.of_nat (S (S (length cs))) - 1)) with (S (length cs)) by lia.
  replace (Z.to_nat (Z.of_nat (S (length cs)) - 1)) with (length cs) in IH by lia. exact IH.
Qed.

(** The end of the chain: the table is not stretched, or it is. *)
Lemma next_at_end st v sc dc : dir_ok v sc dc -> dc <> [] -> let p := cluster dc (Z.of_nat (length dc) - 1) in
  exists v1, still v v1 /\ next_cluster st p v =
    (if (st : bool) then
       '(clst, v) ← create_chain p v1;
       if clst =? 0 then Some (inl FR_DENIED, v) else if clst =? 1 then Some (inl FR_INT_ERR, v) else if clst =? DISK_ERROR then Some (inl FR_DISK_ERR, v)
       else let '(res, v) := dir_clear clst v in Some (if negb (res =? FR_OK) then inl FR_DISK_ERR else inr clst, v)
     else Some (inl FR_NO_FILE, v1)).
Proof.
  intros K Hne p. pose proof (dr_good _ _ _ K) as G. pose proof (dr_chain _ _ _ K) as Hch. pose proof (n_fatent_range v G).
  assert (valid v p) as Hv by (apply (chain_valid _ _ _ _ Hch), cluster_elem; destruct dc; [done | cbn [length]; lia]).
  destruct (get_fat_ok _ v G Hv) as (v1 & E & S1). pose proof (same_still v v1 S1) as S. exists v1. split; [done |].
  pose proof (chain_end _ _ _ Hch Hne) as He. destruct (table_not_error v p G) as [Hn _]. fold p in He. unfold next_cluster.
  rewrite E, (still_field n_fatent v v1) by done. by rewrite (proj2 (Z.leb_gt _ 1)), (proj2 (Z.eqb_neq _ DISK_ERROR)), (proj2 (Z.leb_le _ _)) by (done || lia).
Qed.

Lemma dir_next_ok st i v sc dc dp : dir_ok v sc dc -> 0 <= i -> i + 1 < dir_size (fs v) dc ->
  exists v', dir_next st (at_entry (fs v) dc i dp) v = Some (FR_OK, at_entry (fs v) dc (i + 1) dp, v') /\ still v v'.
Proof.
  intros K H0 Hi. pose proof (dr_good _ _ _ K) as G. destruct (dsect_range v sc dc i K) as [Hr Hpos]; [lia |].
  destruct (dsect_range v sc dc (i + 1) K) as [Hr1 Hpos1]; [lia |]. pose proof disk_size_u32. pose proof Hi as Hi'. unfold dir_size in Hi'.
  destruct (next_offset i) as (E1 & E2 & E3 & E4 & E5); [lia |]. destruct (next_sector i H0) as [E6 E7].
  unfold dir_next. cbn [at_entry dptr]. rewrite E1, E5, (proj2 (Z.leb_gt _ _)), E2, E3, E4, E6 by lia. cbn [at_entry d_sect].
  rewrite (proj2 (Z.eqb_neq _ 0)) by lia. destruct (Z.eqb_spec ((i + 1) mod 16) 0) as [Em | Em].
  2:{ exists v. split; [| by apply still_refl]. unfold at_entry. fields. by rewrite E7. }
  destruct dc as [| c dc]; cbn [set_dsect set_where d_clust d_sect Z.eqb].
  { rewrite (proj2 (Z.leb_gt _ _)) by lia. exists v. split; [| by apply still_refl].
    unfold at_entry. fields. cbn [dsect] in *. rewrite E7 in *. rewrite u32_id by (unfold is_u32; lia).
    by rewrite Z.add_assoc. }
  set (cs := c :: dc) in *. pose proof (pow2_range _ (dr_csize _ _ _ K)) as HB. pose proof (slot_sector (i + 1) (room (fs v) cs) ltac:(cbn [cs] in Hi'; lia)) as Hk.
  pose proof (slot_sector i (room (fs v) cs) ltac:(cbn [cs] in Hi'; lia)) as Hk0. destruct (room_index (fs v) _ _ ltac:(lia) Hk) as [Hq Hm]. destruct (room_index (fs v) _ _ ltac:(lia) Hk0) as [Hq0 Hm0].
  pose proof (chain_valid _ _ _ _ (dr_chain _ _ _ K) (cluster_elem _ _ Hq0)) as Hv0.
  change (d_clust (at_entry (fs v) cs i dp)) with (cluster cs (i / 16 / csize (fs v))). rewrite (proj2 (Z.eqb_neq _ 0)) by lia.
  rewrite pow2_mod by apply K. rewrite E7 in *. set (k := i / 16) in *. set (B := csize (fs v)) in *.
  destruct (div_next k B ltac:(lia)) as [Eq Hin]. destruct (Z.eqb_spec ((k + 1) mod B) 0) as [Ek | Ek].
  - destruct (next_in_chain st (k / B) v sc cs K) as (v' & E & S); [lia | lia |]. rewrite E. cbn [mbind option_bind]. exists v'. split; [| done].
    assert (valid v' (cluster cs (k / B + 1))) as Hv.
    { unfold valid. rewrite (still_field n_fatent v v') by done. apply (chain_valid _ _ _ _ (dr_chain _ _ _ K)), cluster_elem. lia. }
    destruct (clst2sect_ok _ v' (sl_good _ _ S) Hv) as [-> _]. unfold at_entry. fields.
    cbn [dsect cs]. unfold fsect, sec_of. fold B. rewrite E7, Eq, Ek, (still_field database v v'), (still_field csize v v') by done. done.
  - exists v. split; [| by apply still_refl]. unfold at_entry. fields. rewrite E7. fold B k.
    rewrite Eq. cbn [dsect cs] in *. assert (fsect (fs v) cs (k + 1) = fsect (fs v) cs k + 1) as E8.
    { apply fsect_next; try lia. fold B. auto. }
    change (c :: dc) with cs. rewrite E8. change (fsect (fs v) (c :: dc)) with (fsect (fs v) cs) in Hr1, Hr. rewrite E8 in Hr1. by rewrite u32_id by (unfold is_u32; lia).
Qed.

(** The object at the end of the table. *)
Definition at_eot dp dp' : Prop := d_sect dp' = 0 /\ d_sclust dp' = d_sclust dp /\ d_fn dp' = d_fn dp.

(** The last entry: the end of the table, where the clusters end below the limit
    of the format or not. *)
Lemma dir_next_end st i v sc dc dp : dir_ok v sc dc -> 0 <= i -> i + 1 = dir_size (fs v) dc -> st = false \/ dc = [] \/ dir_size (fs v) dc = 65536 ->
  exists dp' v', dir_next st (at_entry (fs v) dc i dp) v = Some (FR_NO_FILE, dp', v') /\ still v v' /\ at_eot dp dp'.
Proof.
  intros K H0 Hi Hst. pose proof (dr_good _ _ _ K) as G. destruct (dsect_range v sc dc i K) as [Hr Hpos]; [lia |]. pose proof Hi as Hi'. unfold dir_size in Hi'.
  destruct (next_offset i) as (E1 & E2 & E3 & E4 & E5); [lia |]. destruct (next_sector i H0) as [E6 E7].
  unfold dir_next. cbn [at_entry dptr]. rewrite E1, E5. destruct (Z.leb_spec 65536 (i + 1)) as [Hmax | Hmax].
  { cbn [set_dsect set_where d_sect Z.eqb]. eexists _, v. split; [done |]. split; [by apply still_refl | done]. }
  rewrite E2, E3, E4, E6. cbn [at_entry d_sect]. rewrite (proj2 (Z.eqb_neq _ 0)) by lia. destruct dc as [| c dc].
  - destruct (dr_root _ _ _ K eq_refl) as (_ & _ & _ & _ & Hm & _). assert (i + 1 = n_rootdir (fs v)) as En by lia. replace ((i + 1) mod 16) with 0 by (by rewrite En). cbn [Z.eqb set_dsect set_where d_clust d_sect].
    rewrite (proj2 (Z.leb_le _ _)) by lia. eexists _, v. split; [done |]. split; [by apply still_refl | done].
  - set (cs := c :: dc) in *. pose proof (pow2_range _ (dr_csize _ _ _ K)) as HB. assert (i + 1 = 16 * room (fs v) cs) as Er by (cbn [cs] in Hi'; lia).
    destruct (last_sector i _ Er) as (Em & Ed & Ek). rewrite Em in *. cbn [Z.eqb] in *.
    cbn [set_dsect set_where d_clust d_sect]. rewrite pow2_mod by apply K. rewrite Ed.
    assert (room (fs v) cs mod csize (fs v) = 0) as -> by (unfold room; rewrite Z.mul_comm; apply Z.mod_mul; lia). cbn [Z.eqb].
    change (d_clust (at_entry (fs v) cs i dp)) with (cluster cs (i / 16 / csize (fs v))).
    assert (i / 16 / csize (fs v) = Z.of_nat (length cs) - 1) as ->.
    { rewrite Ek. unfold room. symmetry. apply (Z.div_unique_pos _ _ _ (csize (fs v) - 1)); nia. }
    destruct Hst as [-> | [? | ?]]; [| done | lia]. destruct (next_at_end false v sc cs K ltac:(done)) as (v1 & S & E). cbv zeta in E.
    rewrite (proj2 (Z.eqb_neq _ 0)).
    2:{ pose proof (chain_valid _ _ _ _ (dr_chain _ _ _ K) (cluster_elem cs (Z.of_nat (length cs) - 1) ltac:(cbn [cs length]; lia))). lia. }
    rewrite E. cbn [mbind option_bind]. eexists _, v1. split; [done |]. split; [done |]. done.
Qed.

(** ** The search *)

(** An entry that is a file or a directory of that name. *)
Definition has_name (name e : bytes) : bool :=
  negb (test_mask (byte_at e DIR_Attr) AM_VOL) && bool_decide (take 11 e = take 11 name).

(** The first one before the end mark. *)
Fixpoint search (name : bytes) (es : list bytes) : option nat :=
  match es with
  | [] => None
  | e :: es => if byte_at e DIR_Name =? 0 then None else if has_name name e then Some O else S <$> search name es
  end.

Lemma search_lt name es n : search name es = Some n -> (n < length es)%nat.
Proof.
  revert n. induction es as [| e es IH]; intros n H; cbn [search length] in *; [done |]. repeat case_match; simplify_eq; [lia |].
  apply fmap_Some in H as (m & Hm & ->). specialize (IH m Hm). lia.
Qed.

Lemma entry_byte_slot v v1 dc i j dp : win (fs v1) = view v (dsect (fs v) dc (i / 16)) -> 0 <= j < 32 ->
  entry_byte j (at_entry (fs v) dc i dp) v1 = byte_at (slot v dc i) j.
Proof.
  intros Hw Hj. unfold entry_byte, slot. rewrite Hw. cbn [at_entry d_dir]. change 32%nat with (Z.to_nat 32). rewrite byte_at_take by lia.
  rewrite byte_at_drop by divlia. done.
Qed.

Lemma same_name_slot v v1 dc i dp : win (fs v1) = view v (dsect (fs v) dc (i / 16)) ->
  same_name (at_entry (fs v) dc i dp) v1 = has_name (d_fn dp) (slot v dc i).
Proof.
  intros Hw. unfold same_name, has_name. rewrite (entry_byte_slot v) by (done || (unfold DIR_Attr; lia)). f_equal. unfold slot. rewrite Hw. cbn [at_entry d_dir d_fn].
  by rewrite take_take.
Qed.

(** From the entry [i] on. *)
Lemma find_entry_ok fuel : forall i v sc dc dp, dir_ok v sc dc -> 0 <= i < dir_size (fs v) dc -> dir_size (fs v) dc - i <= Z.of_nat fuel ->
  exists dp' v', still v v' /\ d_sclust dp' = d_sclust dp /\ d_fn dp' = d_fn dp
    /\ match search (d_fn dp) (slot v dc <$> seqZ i (dir_size (fs v) dc - i)) with
       | Some n => find_entry fuel (at_entry (fs v) dc i dp) v = Some (FR_OK, dp', v')
           /\ dp' = at_entry (fs v) dc (i + Z.of_nat n) (set_attr (byte_at (slot v dc (i + Z.of_nat n)) DIR_Attr .& AM_MASK) dp)
           /\ winsect (fs v') = d_sect dp'
       | None => find_entry fuel (at_entry (fs v) dc i dp) v = Some (FR_NO_FILE, dp', v')
       end.
Proof.
  induction fuel as [| fuel IH]; intros i v sc dc dp K Hi Hf; [lia |].
  pose proof (dr_good _ _ _ K) as G. destruct (dsect_range v sc dc i K Hi) as [Hr _].
  rewrite seqZ_cons by lia. rewrite fmap_cons. cbn [search find_entry]. cbn [at_entry d_sect].
  destruct (move_still _ v G Hr) as (v1 & -> & S1 & W1 & E1). change (FR_OK =? FR_OK) with true. cbn [negb]. pose proof (still_dir v v1 sc dc S1 K) as K1.
  rewrite (entry_byte_slot v) by (done || (unfold DIR_Name; lia)). destruct (byte_at (slot v dc i) DIR_Name =? 0).
  { exists (at_entry (fs v) dc i dp), v1. done. }
  rewrite (entry_byte_slot v) by (done || (unfold DIR_Attr; lia)). set (a := byte_at (slot v dc i) DIR_Attr .& AM_MASK).
  change (set_attr a (at_entry (fs v) dc i dp)) with (at_entry (fs v) dc i (set_attr a dp)). rewrite (same_name_slot v) by done.
  change (d_fn (set_attr a dp)) with (d_fn dp). destruct (has_name (d_fn dp) (slot v dc i)).
  { exists (at_entry (fs v) dc i (set_attr a dp)), v1. split; [done |]. split; [done |]. split; [done |]. split; [done |]. rewrite Z.add_0_r. done. }
  rewrite <- (still_at v v1 dc i) by done. rewrite <- (still_size v v1 dc) in Hi, Hf by done. replace (Z.pred (dir_size (fs v) dc - i)) with (dir_size (fs v) dc - (i + 1)) by lia.
  destruct (Z.eq_dec (i + 1) (dir_size (fs v1) dc)) as [Ee | Ee].
  - destruct (dir_next_end false i v1 sc dc (set_attr a dp) K1) as (dp' & v' & -> & S' & _ & Hs & Hn); [lia | done | by left |]. cbn [mbind option_bind].
    change (FR_NO_FILE =? FR_OK) with false. cbv iota. rewrite (still_size v v1) in Ee by done. rewrite seqZ_nil by lia. cbn [fmap list_fmap search].
    exists dp', v'. split; [by apply (still_trans v v1) |]. done.
  - destruct (dir_next_ok false i v1 sc dc (set_attr a dp) K1) as (v2 & -> & S2); [lia | lia |]. cbn [mbind option_bind].
    change (FR_OK =? FR_OK) with true. cbv iota. pose proof (still_trans v v1 v2 S1 S2) as St. pose proof (still_dir v v2 sc dc St K) as K2.
    rewrite (still_at v v1) by done. rewrite <- (still_at v v2) by done. rewrite (still_size v v1), <- (still_size v v2) in * by done.
    destruct (IH (i + 1) v2 sc dc (set_attr a dp) K2) as (dp' & v' & S' & Hs & Hn & Hm); [lia | lia |].
    assert (slot v2 dc <$> seqZ (i + 1) (dir_size (fs v2) dc - (i + 1)) = slot v dc <$> seqZ (Z.succ i) (dir_size (fs v2) dc - (i + 1))) as El.
    { apply list_fmap_ext. intros j x Hx%list_elem_of_lookup_2%elem_of_seqZ. apply (still_slot v v2 sc); try done. rewrite <- (still_size v v2) by done. lia. }
    rewrite El in Hm. change (d_fn (set_attr a dp)) with (d_fn dp) in Hm. exists dp', v'. split; [by apply (still_trans v v2) |]. split; [done |]. split; [done |].
    destruct (search (d_fn dp) _) as [n |] eqn:Es; cbn [fmap option_fmap option_map]; [| done].
    destruct Hm as (Hm & -> & Hw). replace (i + Z.of_nat (S n)) with (i + 1 + Z.of_nat n) by lia.
    assert (0 <= i + 1 + Z.of_nat n < dir_size (fs v) dc) as Hin.
    { apply search_lt in Es. rewrite length_fmap, length_seqZ in Es. rewrite <- (still_size v v2) by done. lia. }
    rewrite (still_slot v v2 sc), !(still_at v v2 dc (i + 1 + Z.of_nat n)) in * by done. split; [exact Hm |]. split; [done |]. exact Hw.
Qed.

Lemma max_entries : Z.of_nat MAX_ENTRIES = 65536.
Proof. unfold MAX_ENTRIES. by rewrite Z2Nat.id. Qed.
#[global] Opaque MAX_ENTRIES.

Lemma dir_size_range v sc dc : dir_ok v sc dc -> 0 < dir_size (fs v) dc <= 65536.
Proof.
  intros K. unfold dir_size, room. pose proof (pow2_range _ (dr_csize _ _ _ K)). destruct dc as [| c dc]; [destruct (dr_root _ _ _ K eq_refl) as (_ & _ & _ & ? & _ & _); lia |].
  cbn [length]. nia.
Qed.

Lemma dir_find_ok v sc dc dp : dir_ok v sc dc -> d_sclust dp = sc ->
  exists dp' v', still v v' /\ d_sclust dp' = d_sclust dp /\ d_fn dp' = d_fn dp
    /\ match search (d_fn dp) (entries v dc) with
       | Some n => dir_find dp v = Some (FR_OK, dp', v')
           /\ dp' = at_entry (fs v) dc (Z.of_nat n) (set_attr (byte_at (slot v dc (Z.of_nat n)) DIR_Attr .& AM_MASK) dp) /\ winsect (fs v') = d_sect dp'
       | None => dir_find dp v = Some (FR_NO_FILE, dp', v')
       end.
Proof.
  intros K Hsc. pose proof (dir_size_range v sc dc K) as Hn. destruct (dir_sdi_ok 0 v sc dc dp K Hsc) as (v1 & E1 & S1); [lia |]. rewrite Z.mul_0_r in E1.
  pose proof (still_dir v v1 sc dc S1 K) as K1. pose proof max_entries as Hm.
  destruct (find_entry_ok MAX_ENTRIES 0 v1 sc dc dp K1) as (dp' & v' & S' & Hs & Hf & H); rewrite ?(still_size v v1) in * by done; try lia.
  clear Hm. rewrite Z.sub_0_r in H.
  replace (slot v1 dc <$> seqZ 0 (dir_size (fs v) dc)) with (entries v dc) in H
    by (rewrite <- (still_entries v v1 sc) by done; unfold entries; by rewrite (still_size v v1)).
  exists dp', v'. split; [by apply (still_trans v v1) |]. split; [done |]. split; [done |]. unfold dir_find. rewrite E1. cbn [mbind option_bind].
  change (FR_OK =? FR_OK) with true. cbn [negb]. rewrite (still_at v v1) in H by done. destruct (search (d_fn dp) (entries v dc)) as [n |] eqn:Es; [| exact H].
  destruct H as (H & -> & Hw). apply search_lt in Es. unfold entries in Es. rewrite length_fmap, length_seqZ in Es.
  rewrite Z.add_0_l, (still_slot v v1 sc), !(still_at v v1 dc (Z.of_nat n)) in * by (done || lia). done.
Qed.

(** ** Clearing a cluster *)

Lemma clear_loop_ok w n : forall s d, disk_ready d -> 0 <= s -> s + Z.of_nat n <= disk_size -> length w = 512%nat -> is_bytes w ->
  exists d', clear_loop n w s d = (true, d') /\ disk_ready d'
    /\ forall i, sector d' i = if (s <=? i) && (i <? s + Z.of_nat n) then w else sector d i.
Proof.
  induction n as [| n IH]; intros s d Hd Hs Hn Hl Hb; cbn [clear_loop].
  { exists d. split; [done |]. split; [done |]. intros i. rewrite Z.add_0_r. destruct (Z.leb_spec s i), (Z.ltb_spec i s); (done || lia). }
  destruct (disk_write_law w s 1 d Hd) as (d1 & -> & Hd1 & S1); try (done || lia). pose proof disk_size_u32.
  rewrite u32_id by (unfold is_u32; lia). destruct (IH (s + 1) d1) as (d2 & -> & Hd2 & S2); try (done || lia).
  exists d2. split; [done |]. split; [done |]. intros i. rewrite S2, S1. destruct (Z.eq_dec i s) as [-> | Hne].
  - replace ((s + 1 <=? s) && (s <? s + 1 + Z.of_nat n)) with false by lia. replace ((s <=? s) && (s <? s + 1)) with true by (symmetry; rewrite andb_true_iff, Z.leb_le, Z.ltb_lt; lia).
    replace ((s <=? s) && (s <? s + Z.of_nat (S n))) with true by (symmetry; rewrite andb_true_iff, Z.leb_le, Z.ltb_lt; lia). rewrite Z.sub_diag. apply take_ge. cbn. lia.
  - replace ((s <=? i) && (i <? s + 1)) with false by lia.
    destruct (Z.leb_spec s i), (Z.ltb_spec i (s + Z.of_nat (S n))), (Z.leb_spec (s + 1) i), (Z.ltb_spec i (s + 1 + Z.of_nat n)); (done || lia).
Qed.

Definition zeros : bytes := replicate 512 0.

(** The sectors of a cluster. *)
Definition in_cluster (f : FATFS) (c s : Z) : bool := (sec_of f c 0 <=? s) && (s <? sec_of f c 0 + csize f).

Lemma dir_clear_ok c v : good v -> valid v c ->
  exists v', dir_clear c v = (FR_OK, v') /\ good v' /\ layout (fs v') = layout (fs v) /\ free_clst (fs v') = free_clst (fs v)
    /\ last_clst (fs v') = last_clst (fs v) /\ (mirrored v -> mirrored v') /\ winsect (fs v') = sec_of (fs v) c 0
    /\ (forall s, table_end (fs v) <= s -> view v' s = if in_cluster (fs v) c s then zeros else view v s)
    /\ forall x, valid v x -> table v' x = table v x.
Proof.
  intros G Hc. unfold dir_clear. destruct (sync_window_same v G) as (v1 & -> & S1 & Hf & _ & _). change (FR_OK =? FR_OK) with true. cbn [negb].
  pose proof S1 as [G1 C1 V1 M1 _]. assert (valid v1 c) as Hc1 by (unfold valid; by rewrite (same_field n_fatent v v1)).
  destruct (clst2sect_ok c v1 G1 Hc1) as [-> _]. assert (sec_of (fs v1) c 0 = sec_of (fs v) c 0) as -> by (unfold sec_of; by rewrite (same_field database v v1), (same_field csize v v1)).
  set (s0 := sec_of (fs v) c 0). set (f := set_window s0 (replicate 512 0) (fs v1)).
  change (on_fs (set_window s0 (replicate 512 0)) v1) with (mk_vol f (dk v1)). cbn [fs dk].
  change (winsect f) with s0. change (win f) with zeros. assert (csize f = csize (fs v)) as -> by (by apply (same_field csize v v1)).
  pose proof (good_geo v G) as [_ Hfa _ _ Hi Hba Hcs _]. pose proof (sec_of_range v c 0 G Hc ltac:(lia)) as Hr. pose proof (sec_of_range v c (csize (fs v) - 1) G Hc ltac:(lia)) as Hr2.
  assert (sec_of (fs v) c (csize (fs v) - 1) = s0 + csize (fs v) - 1) as E2 by (unfold s0, sec_of; lia). fold s0 in Hr.
  assert (is_bytes zeros) as Hz by (apply Forall_replicate; unfold is_u8; lia). pose proof (database_pos v G).
  destruct (clear_loop_ok zeros (Z.to_nat (csize (fs v))) s0 (dk v1)) as (d & -> & Hd & Sd); [apply G1 | lia | lia | done | done |].
  rewrite Z2Nat.id in Sd by lia. exists (mk_vol f d). split; [done |].
  assert (~ mirror f s0) as Hm.
  { intros Hm. apply (core_mirror f (fs v)) in Hm; [| exact C1]. unfold mirror in Hm. destruct Hfa as [E | E]; rewrite E in *; lia. }
  assert (good (mk_vol f d)) as G'.
  { split; cbn [fs dk]; [by apply (core_geometry (fs v1)), G1 | done | split; [done | exact Hz] | split; [change (0 <= s0 < disk_size); lia | exact Hm] |].
    intros _. change (winsect f) with s0. change (win f) with zeros. rewrite Sd. by replace ((s0 <=? s0) && (s0 <? s0 + csize (fs v))) with true by (symmetry; rewrite andb_true_iff, Z.leb_le, Z.ltb_lt; lia). }
  assert (forall s, 0 <= s -> ~ mirror (fs v) s -> view (mk_vol f d) s = if in_cluster (fs v) c s then zeros else view v s) as Vw.
  { intros s Hs Hms. rewrite clean_view by done. cbn [dk]. rewrite Sd. unfold in_cluster. fold s0. case_match; [done |].
    rewrite <- (clean_view v1) by done. by apply V1. }
  assert (layout f = layout (fs v)) as L by (unfold layout; by rewrite <- C1). destruct (core_free _ _ C1) as [Cf Cl].
  split; [done |]. split; [exact L |]. split; [exact Cf |]. split; [exact Cl |]. split; [| split; [done |]; split].
  - intros M En s Hs. right. cbn [fs dk] in *. pose proof (table_end_data v G) as Ht.
    destruct (M1 M En s Hs) as [[_ Hx] | Hx]; [by rewrite Hx in Hf |]. change (fsize (fs v1)) with (fsize f) in Hx.
    assert (n_fats f = n_fats (fs v) /\ fatbase f = fatbase (fs v) /\ fsize f = fsize (fs v)) as (E3 & E4 & E5)
      by (rewrite (layout_field n_fats _ _ ltac:(done) L), (layout_field fatbase _ _ ltac:(done) L), (layout_field fsize _ _ ltac:(done) L); done).
    unfold table_end in Ht. rewrite E3, E4, E5 in *. rewrite !Sd. rewrite En in *.
    replace ((s0 <=? s + fsize (fs v)) && (s + fsize (fs v) <? s0 + csize (fs v))) with false by lia.
    by replace ((s0 <=? s) && (s <? s0 + csize (fs v))) with false by lia.
  - intros s Hs. destruct (behind_table v s G Hs). by apply Vw.
  - intros x Hx. apply table_views; [done | done | exact L |]. intros s Hs. rewrite Vw; [| lia | unfold mirror; lia].
    unfold in_cluster. fold s0. replace ((s0 <=? s) && (s <? s0 + csize (fs v))) with false; [done |]. destruct Hfa as [E | E]; rewrite E in *; lia.
Qed.

(** ** A directory and the other chains *)

Record dirs_ok v (sc : Z) (dc : list Z) (others : list (list Z)) : Prop := {
  ds_dir : dir_ok v sc dc;
  ds_clean : clean v (kept_part dc ++ others);
}.

Lemma kept_concat (dc : list Z) others : concat (kept_part dc ++ others) = dc ++ concat others.
Proof. rewrite concat_app. destruct dc; cbn; by rewrite ?app_nil_r. Qed.

Lemma still_dirs v v' sc dc others : still v v' -> dirs_ok v sc dc others -> dirs_ok v' sc dc others.
Proof. intros S [K C]. split; [by apply (still_dir v) | by apply (still_clean v)]. Qed.

(** What a new cluster at the end of the chain leaves. *)
Record stretched v v' (sc : Z) (dc : list Z) (others : list (list Z)) (c : Z) : Prop := {
  st_valid : valid v c /\ (c ∉ concat (kept_part dc ++ others));
  st_dirs : dirs_ok v' sc (dc ++ [c]) others;
  st_layout : layout (fs v') = layout (fs v);
  st_mirrored : mirrored v -> mirrored v';
  st_window : winsect (fs v') = sec_of (fs v) c 0;
  st_view s : table_end (fs v) <= s -> view v' s = if in_cluster (fs v) c s then zeros else view v s;
}.

Lemma stretch_dir v sc dc others : dirs_ok v sc dc others -> dc <> [] ->
  exists r v', next_cluster true (cluster dc (Z.of_nat (length dc) - 1)) v = Some (r, v')
    /\ ((r = inl FR_DENIED /\ still v v' /\ all_used v (kept_part dc ++ others)) \/ exists c, r = inr c /\ stretched v v' sc dc others c).
Proof.
  intros [K C] Hne. pose proof (dr_good _ _ _ K) as G. destruct (next_at_end true v sc dc K Hne) as (v1 & S1 & E). cbv zeta in E. rewrite E. clear E.
  set (p := cluster dc (Z.of_nat (length dc) - 1)). pose proof (still_clean v v1 _ C S1) as C1. pose proof (still_dir v v1 sc dc S1 K) as K1.
  assert (valid v1 p) as Hp by (apply (chain_valid _ _ _ _ (dr_chain _ _ _ K1)), cluster_elem; destruct dc; [done | cbn [length]; lia]).
  destruct (create_ok p v1 _ C1) as (r & v2 & -> & H); [right; split; [done | by apply chain_end, Hne; apply K1] |]. cbn [mbind option_bind].
  destruct H as [(-> & S2 & U) | (Hr & Hnin & L)].
  { cbn [Z.eqb]. exists (inl FR_DENIED), v2. split; [done |]. left. split; [done |]. split; [by apply (still_trans v v1); [| apply same_still] |].
    intros x Hx. apply U. unfold valid. by rewrite (still_field n_fatent v v1). }
  pose proof (n_fatent_range v1 (dr_good _ _ _ K1)) as Hn. assert (2 <= r < 2 ^ 28) as Hr2 by (unfold valid in Hr; lia).
  rewrite (proj2 (Z.eqb_neq r 0)), (proj2 (Z.eqb_neq r 1)), (proj2 (Z.eqb_neq r DISK_ERROR)) by (unfold DISK_ERROR; lia).
  pose proof (linked_kept _ _ _ _ L) as K12. assert (valid v2 r) as Hr' by (by apply (kept_valid v1 v2)).
  destruct (dir_clear_ok r v2 (kept_good _ _ K12) Hr') as (v3 & -> & G3 & L3 & Hf & Hl & M3 & W3 & V3 & T3). change (negb (FR_OK =? FR_OK)) with false. cbv iota.
  assert (layout (fs v2) = layout (fs v)) as L2 by (rewrite (kept_layout _ _ K12); by apply still_layout).
  assert (layout (fs v3) = layout (fs v)) as L' by congruence. pose proof (layout_field n_fatent _ _ ltac:(done) L') as En.
  assert (exists pre, dc = pre ++ [p]) as [pre Ep].
  { destruct (exists_last Hne) as (pre & x & Ex). exists pre. rewrite Ex. do 2 f_equal. unfold p. rewrite Ex, length_app. cbn [length].
    replace (Z.of_nat (length pre + 1) - 1) with (Z.of_nat (length pre)) by lia. by rewrite cluster_last. }
  assert (kept_part dc = [dc]) as Ek by (by destruct dc). rewrite Ek in *.
  assert (clean v2 ((dc ++ [r]) :: others)) as C2.
  { rewrite Ep, <- app_assoc. apply (clean_extend v1); [by rewrite <- Ep | done | by rewrite <- Ep | done]. }
  assert (clean v3 ((dc ++ [r]) :: others)) as C3 by (by apply (clean_table v2)). assert (kept_part (dc ++ [r]) = [dc ++ [r]]) as Ek' by (by destruct dc).
  assert (forall A (q : FATFS -> A), (forall f, q (layout f) = q f) -> q (fs v3) = q (fs v)) as Hlf by (intros A q Hq; by apply layout_field).
  exists (inr r), v3. split; [done |]. right. exists r. split; [done |]. split.
  - rewrite Ek. split; [| done]. unfold valid in *. by rewrite <- (still_field n_fatent v v1).
  - split; [| by rewrite Ek']. destruct (clean_chains _ _ C3 (dc ++ [r])) as [_ Hch]; [apply list_elem_of_here |]. split; [done | | | | done |].
    + rewrite (Hlf _ csize) by done. apply K.
    + intros E. by destruct dc.
    + intros _. rewrite (Hlf _ fs_type), (Hlf _ dirbase), cluster_app1 by (done || (destruct dc; [done | cbn [length]; lia])). by apply (dr_start _ _ _ K).
    + pose proof (clean_nodup _ _ C3) as Hnd. cbn [concat] in Hnd. by apply list.NoDup_app in Hnd as (Hnd & _).
  - done.
  - intros M. apply M3, (kept_mirrored _ _ K12). by apply (sl_mirrored _ _ S1).
  - rewrite W3. unfold sec_of. by rewrite (layout_field database _ _ ltac:(done) L2), (layout_field csize _ _ ltac:(done) L2).
  - intros s Hs. assert (table_end (fs v2) = table_end (fs v)) as Et by (by apply (layout_field table_end)). rewrite V3 by lia.
    assert (in_cluster (fs v2) r s = in_cluster (fs v) r s) as ->
      by (unfold in_cluster, sec_of; by rewrite (layout_field database _ _ ltac:(done) L2), (layout_field csize _ _ ltac:(done) L2)).
    case_match; [done |]. rewrite (kept_view _ _ K12) by (by rewrite (layout_field table_end _ _ ltac:(done) (still_layout _ _ S1))).
    destruct (behind_table v s G Hs). by apply (sl_view _ _ S1).
Qed.

Definition blank_entry : bytes := replicate 32 0.

(** The entries of the new cluster are blank. *)
Lemma stretched_entries v v' sc dc others c : dirs_ok v sc dc others -> stretched v v' sc dc others c -> dc <> [] -> dir_size (fs v) dc < 65536 ->
  dir_size (fs v) dc < dir_size (fs v') (dc ++ [c])
  /\ entries v' (dc ++ [c]) = entries v dc ++ replicate (Z.to_nat (dir_size (fs v') (dc ++ [c]) - dir_size (fs v) dc)) blank_entry.
Proof.
  intros [K C] [[Hc Hnin] [K' C'] L M W V] Hne Hlt. pose proof (pow2_range _ (dr_csize _ _ _ K)) as HB.
  pose proof (layout_field csize _ _ ltac:(done) L) as Ec. pose proof (layout_field database _ _ ltac:(done) L) as Ed.
  assert (dir_size (fs v) dc = 16 * room (fs v) dc) as Es by (unfold dir_size in *; destruct dc; [done | lia]).
  assert (dir_size (fs v') (dc ++ [c]) = Z.min 65536 (16 * (room (fs v) dc + csize (fs v)))) as Es'.
  { unfold dir_size. destruct (dc ++ [c]) eqn:E; [by destruct dc |]. rewrite <- E. unfold room. rewrite Ec, length_app. cbn [length]. do 2 f_equal. lia. }
  assert (forall k, dsect (fs v') (dc ++ [c]) k = fsect (fs v) (dc ++ [c]) k) as Ef.
  { intros k. unfold dsect. destruct (dc ++ [c]) eqn:E; [by destruct dc |]. unfold fsect, sec_of. by rewrite Ec, Ed. }
  assert (forall k, dsect (fs v) dc k = fsect (fs v) dc k) as Ef0 by (intros k; by destruct dc). pose proof (dir_size_range v sc dc K) as Hpos.
  split; [lia |]. set (n := dir_size (fs v) dc) in *. set (n' := dir_size (fs v') (dc ++ [c])) in *. unfold entries. fold n n'.
  replace n' with (n + (n' - n)) at 1 by lia. rewrite seqZ_app, fmap_app by lia. rewrite Z.add_0_l. f_equal.
  - apply list_fmap_ext. intros j i Hi%list_elem_of_lookup_2%elem_of_seqZ. unfold slot. destruct (dsect_range v sc dc i K) as [Hr _]; [fold n; lia |].
    pose proof (slot_sector i (room (fs v) dc) ltac:(lia)) as Hk. rewrite Ef, fsect_app by lia. rewrite Ef0 in Hr. rewrite V by lia.
    replace (in_cluster (fs v) c (fsect (fs v) dc (i / 16))) with false; [by rewrite Ef0 |]. symmetry. unfold in_cluster, fsect.
    destruct (room_index (fs v) dc (i / 16) ltac:(lia) Hk) as [Hq Hm]. apply not_true_iff_false. rewrite andb_true_iff, Z.leb_le, Z.ltb_lt. intros [H1 H2].
    assert (sec_of (fs v) (cluster dc (i / 16 / csize (fs v))) ((i / 16) mod csize (fs v))
      = sec_of (fs v) c (sec_of (fs v) (cluster dc (i / 16 / csize (fs v))) ((i / 16) mod csize (fs v)) - sec_of (fs v) c 0)) as Ex by (unfold sec_of; lia).
    apply sec_of_inj in Ex as [Ex _]; [| lia | lia]. apply Hnin. rewrite <- Ex, kept_concat. apply elem_of_app. left. by apply cluster_elem.
  - assert (forall i, n <= i < n' -> slot v' (dc ++ [c]) i = blank_entry) as Hz.
    { intros i Hi. unfold slot. rewrite Ef. pose proof (slot_sector i (room (fs v) dc + csize (fs v)) ltac:(lia)) as Hk.
      assert (room (fs v) dc <= i / 16) by (apply Z.div_le_lower_bound; lia). unfold room in *.
      assert (i / 16 / csize (fs v) = Z.of_nat (length dc)) as Eq by (symmetry; apply (Z.div_unique_pos _ _ _ (i / 16 - csize (fs v) * Z.of_nat (length dc))); lia).
      unfold fsect. rewrite Eq, cluster_last. pose proof (Z.mod_pos_bound (i / 16) (csize (fs v)) ltac:(lia)).
      pose proof (sec_of_range v c _ (dr_good _ _ _ K) Hc ltac:(done)). pose proof (table_end_data v (dr_good _ _ _ K)). rewrite V by lia.
      replace (in_cluster (fs v) c (sec_of (fs v) c ((i / 16) mod csize (fs v)))) with true by (symmetry; unfold in_cluster, sec_of; rewrite andb_true_iff, Z.leb_le, Z.ltb_lt; lia).
      unfold zeros, blank_entry. rewrite drop_replicate, take_replicate. f_equal. pose proof (Z.mod_pos_bound i 16 ltac:(lia)). lia. }
    apply list_eq_same_length with (n := Z.to_nat (n' - n)); [by rewrite length_replicate | by rewrite length_fmap, length_seqZ |].
    intros j x y Hj Hx Hy. rewrite list_lookup_fmap in Hx. apply fmap_Some in Hx as (i & Hi & ->). apply list_elem_of_lookup_2, elem_of_seqZ in Hi.
    apply lookup_replicate in Hy as [-> _]. apply Hz. lia.
Qed.

Lemma dir_next_stretch i v sc dc others dp : dirs_ok v sc dc others -> 0 <= i -> i + 1 = dir_size (fs v) dc -> dc <> [] -> dir_size (fs v) dc < 65536 ->
  exists res dp' v', dir_next true (at_entry (fs v) dc i dp) v = Some (res, dp', v')
    /\ ((res = FR_DENIED /\ still v v' /\ all_used v (kept_part dc ++ others))
        \/ (res = FR_OK /\ exists c, stretched v v' sc dc others c /\ dp' = at_entry (fs v') (dc ++ [c]) (i + 1) dp)).
Proof.
  intros Ks H0 Hi Hne Hlt. pose proof (ds_dir _ _ _ _ Ks) as K. destruct (dsect_range v sc dc i K) as [Hr Hpos]; [lia |].
  destruct (next_offset i) as (E1 & E2 & E3 & E4 & E5); [lia |]. destruct (next_sector i H0) as [E6 E7]. pose proof (pow2_range _ (dr_csize _ _ _ K)) as HB.
  assert (i + 1 = 16 * room (fs v) dc) as Er by (unfold dir_size in *; destruct dc; [done | lia]). destruct (last_sector i _ Er) as (Em & Ed & Ek).
  assert (i / 16 / csize (fs v) = Z.of_nat (length dc) - 1) as Eq.
  { rewrite Ek. unfold room. symmetry. apply (Z.div_unique_pos _ _ _ (csize (fs v) - 1)); nia. }
  assert (d_clust (at_entry (fs v) dc i dp) = cluster dc (Z.of_nat (length dc) - 1)) as Ec by (rewrite <- Eq; by destruct dc).
  unfold dir_next. change (dptr (at_entry (fs v) dc i dp)) with (32 * i). rewrite E1, E5, (proj2 (Z.leb_gt _ _)), E2, E3, E6, Em by lia.
  change (d_sect (at_entry (fs v) dc i dp)) with (dsect (fs v) dc (i / 16)). rewrite (proj2 (Z.eqb_neq _ 0)) by lia. cbn [Z.eqb].
  change (d_clust (set_dsect ?s ?x)) with (d_clust x). rewrite Ec. rewrite (proj2 (Z.eqb_neq _ 0)).
  2:{ pose proof (chain_valid _ _ _ _ (dr_chain _ _ _ K) (cluster_elem dc (Z.of_nat (length dc) - 1) ltac:(destruct dc; [done | cbn [length]; lia]))). lia. }
  rewrite pow2_mod by apply K. rewrite Ed. assert (room (fs v) dc mod csize (fs v) = 0) as -> by (unfold room; rewrite Z.mul_comm; apply Z.mod_mul; lia). cbn [Z.eqb].
  destruct (stretch_dir v sc dc others Ks Hne) as (r & v' & -> & [(-> & S & U) | (c & -> & St)]); cbn [mbind option_bind].
  { eexists FR_DENIED, _, v'. split; [done |]. by left. }
  eexists FR_OK, _, v'. split; [done |]. right. split; [done |]. exists c. split; [done |].
  destruct St as [[Hc Hnin] [K' C'] L M W V]. assert (valid v' c) as Hc' by (unfold valid in *; by rewrite (layout_field n_fatent _ _ ltac:(done) L)).
  destruct (clst2sect_ok c v' (dr_good _ _ _ K') Hc') as [-> _]. pose proof (layout_field csize _ _ ltac:(done) L) as Ecs. unfold at_entry. fields. rewrite ?Em, ?Ed, Ecs.
  assert (room (fs v) dc / csize (fs v) = Z.of_nat (length dc)) as -> by (unfold room; rewrite Z.mul_comm; apply Z.div_mul; lia).
  rewrite cluster_last. assert (dsect (fs v') (dc ++ [c]) (room (fs v) dc) = sec_of (fs v') c 0) as ->; [| by destruct dc].
  unfold dsect. destruct (dc ++ [c]) eqn:E; [by destruct dc |]. rewrite <- E. unfold fsect. rewrite Ecs.
  assert (room (fs v) dc / csize (fs v) = Z.of_nat (length dc)) as -> by (unfold room; rewrite Z.mul_comm; apply Z.div_mul; lia).
  assert (room (fs v) dc mod csize (fs v) = 0) as -> by (unfold room; rewrite Z.mul_comm; apply Z.mod_mul; lia). by rewrite cluster_last.
Qed.

(** ** Reserving an entry *)

Definition free_slot (e : bytes) : bool := (byte_at e DIR_Name =? DDEM) || (byte_at e DIR_Name =? 0).

Fixpoint first_slot (es : list bytes) : option nat :=
  match es with [] => None | e :: es => if free_slot e then Some O else S <$> first_slot es end.

(** No entry can be added: the table may not grow, or the disk is full. *)
Definition table_full v (dc : list Z) (others : list (list Z)) : Prop :=
  dc = [] \/ dir_size (fs v) dc = 65536 \/ all_used v (kept_part dc ++ others).

Lemma is_free_slot v v1 dc i dp : win (fs v1) = view v (dsect (fs v) dc (i / 16)) -> is_free (at_entry (fs v) dc i dp) v1 = free_slot (slot v dc i).
Proof. intros Hw. unfold is_free, free_slot. by rewrite !(entry_byte_slot v) by (done || (unfold DIR_Name; lia)). Qed.

Lemma all_used_still v v' files : still v v' -> all_used v' files -> all_used v files.
Proof. intros S U c Hc. apply U. unfold valid. by rewrite (still_field n_fatent v v'). Qed.

Lemma stretched_still v v1 v2 sc dc others c : good v -> still v v1 -> stretched v1 v2 sc dc others c -> stretched v v2 sc dc others c.
Proof.
  intros G S [H1 H2 H3 H4 H5 H6]. assert (in_cluster (fs v1) c = in_cluster (fs v) c) as E by (unfold in_cluster, sec_of; by rewrite (still_field database v v1), (still_field csize v v1)).
  pose proof (still_layout _ _ S) as L. split; try done.
  - unfold valid in *. by rewrite <- (still_field n_fatent v v1).
  - congruence.
  - intros M. by apply H4, (sl_mirrored _ _ S).
  - rewrite H5. unfold sec_of. by rewrite (still_field database v v1), (still_field csize v v1).
  - intros s Hs. rewrite H6, E by (by rewrite (layout_field table_end _ _ ltac:(done) L)). case_match; [done |]. destruct (behind_table v s G Hs). by apply (sl_view _ _ S).
Qed.

(** The first entry of the new cluster, which is in the window. *)
Lemma stretched_first v v' sc dc others c : dirs_ok v sc dc others -> stretched v v' sc dc others c -> dc <> [] -> dir_size (fs v) dc < 65536 ->
  let i := dir_size (fs v) dc in
  winsect (fs v') = dsect (fs v') (dc ++ [c]) (i / 16) /\ slot v' (dc ++ [c]) i = blank_entry /\ 0 <= i < dir_size (fs v') (dc ++ [c]).
Proof.
  intros Ks St Hne Hlt i. pose proof (ds_dir _ _ _ _ Ks) as K. destruct (stretched_entries v v' sc dc others c Ks St Hne Hlt) as [Hlt' He].
  pose proof (dir_size_range v sc dc K) as Hpos. split; [| split; [| unfold i; lia]].
  - rewrite (st_window _ _ _ _ _ _ St). pose proof (layout_field csize _ _ ltac:(done) (st_layout _ _ _ _ _ _ St)) as Ec.
    pose proof (layout_field database _ _ ltac:(done) (st_layout _ _ _ _ _ _ St)) as Edb. pose proof (pow2_range _ (dr_csize _ _ _ K)).
    assert (i - 1 + 1 = 16 * room (fs v) dc) as Er by (unfold i, dir_size in *; destruct dc; [done | lia]). destruct (last_sector _ _ Er) as (_ & Ed & _).
    rewrite Z.sub_add in Ed. rewrite Ed. unfold dsect. destruct (dc ++ [c]) eqn:E; [by destruct dc |]. rewrite <- E. unfold fsect. rewrite Ec.
    assert (room (fs v) dc / csize (fs v) = Z.of_nat (length dc)) as -> by (unfold room; rewrite Z.mul_comm; apply Z.div_mul; lia).
    assert (room (fs v) dc mod csize (fs v) = 0) as -> by (unfold room; rewrite Z.mul_comm; apply Z.mod_mul; lia). rewrite cluster_last. unfold sec_of. by rewrite Ec, Edb.
  - apply (f_equal (fun l => l !! Z.to_nat i)) in He. unfold entries in He. fold i in He, Hlt', Hpos |- *.
    rewrite lookup_app_r in He by (rewrite length_fmap, length_seqZ; lia). rewrite length_fmap, length_seqZ, Nat.sub_diag in He.
    rewrite list_lookup_fmap, lookup_seqZ_lt in He by lia. rewrite lookup_replicate_2 in He by lia. cbn [fmap option_fmap option_map] in He.
    apply Some_inj in He. rewrite <- He. f_equal. lia.
Qed.

Lemma alloc_found fuel i v sc dc dp : dir_ok v sc dc -> 0 <= i < dir_size (fs v) dc -> winsect (fs v) = dsect (fs v) dc (i / 16) ->
  free_slot (slot v dc i) = true -> alloc_loop (Datatypes.S fuel) 1 0 (at_entry (fs v) dc i dp) v = Some (FR_OK, at_entry (fs v) dc i dp, v).
Proof.
  intros K Hi Hw Hf. cbn [alloc_loop]. change (d_sect (at_entry (fs v) dc i dp)) with (dsect (fs v) dc (i / 16)). unfold move_window.
  rewrite <- Hw, Z.eqb_refl. change (FR_OK =? FR_OK) with true. cbn [negb]. rewrite (is_free_slot v), Hf; [done |]. rewrite <- Hw. unfold view. by rewrite Z.eqb_refl.
Qed.

(** The last entry is in use: the table grows or not. *)
Lemma alloc_end fuel i v sc dc others dp : dirs_ok v sc dc others -> 0 <= i -> i + 1 = dir_size (fs v) dc -> (if dir_size (fs v) dc <? 65536 then 1 else 0) <= Z.of_nat fuel ->
  exists res dp' v', ('(res, dp, v) ← dir_next true (at_entry (fs v) dc i dp) v; if res =? FR_OK then alloc_loop fuel 1 0 dp v else Some (res, dp, v)) = Some (res, dp', v')
    /\ (((res = FR_NO_FILE \/ res = FR_DENIED) /\ still v v' /\ table_full v dc others)
        \/ (res = FR_OK /\ dc <> [] /\ dir_size (fs v) dc < 65536
            /\ exists c, stretched v v' sc dc others c /\ dp' = at_entry (fs v') (dc ++ [c]) (dir_size (fs v) dc) dp)).
Proof.
  intros Ks H0 He Hf. pose proof (ds_dir _ _ _ _ Ks) as K. destruct (decide (dc <> [] /\ dir_size (fs v) dc < 65536)) as [[Hne Hlt] | Hn].
  - destruct (dir_next_stretch i v sc dc others dp Ks H0 He Hne Hlt) as (res & dp' & v2 & -> & H). cbn [mbind option_bind].
    destruct H as [(-> & S2 & U) | (-> & c & St & ->)].
    { change (FR_DENIED =? FR_OK) with false. cbv iota. eexists FR_DENIED, _, v2. split; [done |]. left. split; [by right |]. split; [done |]. right. by right. }
    change (FR_OK =? FR_OK) with true. cbv iota. rewrite (proj2 (Z.ltb_lt _ _)) in Hf by lia. destruct fuel as [| fuel]; [lia |].
    destruct (stretched_first v v2 sc dc others c Ks St Hne Hlt) as (Hw & Eb & Hr). rewrite He.
    rewrite (alloc_found fuel _ v2 sc) by (done || apply (ds_dir _ _ _ _ (st_dirs _ _ _ _ _ _ St)) || (by rewrite Eb)).
    eexists FR_OK, _, v2. split; [done |]. right. split; [done |]. split; [done |]. split; [done |]. by exists c.
  - pose proof (dir_size_range v sc _ K) as Hr. assert (dc = [] \/ dir_size (fs v) dc = 65536) as Hfull.
    { destruct dc as [| c dc]; [by left | right]. destruct (decide (dir_size (fs v) (c :: dc) = 65536)); [done |]. destruct Hn. split; [done | lia]. }
    destruct (dir_next_end true i v sc dc dp K H0 He) as (dp' & v2 & -> & S2 & _); [by right |].
    cbn [mbind option_bind]. change (FR_NO_FILE =? FR_OK) with false. cbv iota. eexists FR_NO_FILE, _, v2. split; [done |]. left. split; [by left |].
    split; [done |]. destruct Hfull; [by left | right; by left].
Qed.

Lemma alloc_loop_ok fuel : forall i v sc dc others dp, dirs_ok v sc dc others -> 0 <= i < dir_size (fs v) dc ->
  dir_size (fs v) dc - i + (if dir_size (fs v) dc <? 65536 then 1 else 0) <= Z.of_nat fuel ->
  exists res dp' v', alloc_loop fuel 1 0 (at_entry (fs v) dc i dp) v = Some (res, dp', v') /\
    match first_slot (slot v dc <$> seqZ i (dir_size (fs v) dc - i)) with
    | Some n => res = FR_OK /\ dp' = at_entry (fs v) dc (i + Z.of_nat n) dp /\ still v v' /\ winsect (fs v') = d_sect dp'
    | None => (((res = FR_NO_FILE \/ res = FR_DENIED) /\ still v v' /\ table_full v dc others)
        \/ (res = FR_OK /\ dc <> [] /\ dir_size (fs v) dc < 65536
            /\ exists c, stretched v v' sc dc others c /\ dp' = at_entry (fs v') (dc ++ [c]) (dir_size (fs v) dc) dp))
    end.
Proof.
  induction fuel as [| fuel IH]; intros i v sc dc others dp Ks Hi Hf; [case_match; lia |]. pose proof (ds_dir _ _ _ _ Ks) as K.
  pose proof (dr_good _ _ _ K) as G. destruct (dsect_range v sc dc i K Hi) as [Hr _].
  rewrite seqZ_cons by lia. rewrite fmap_cons. cbn [first_slot alloc_loop]. change (d_sect (at_entry (fs v) dc i dp)) with (dsect (fs v) dc (i / 16)).
  destruct (move_still _ v G Hr) as (v1 & -> & S1 & W1 & E1). change (FR_OK =? FR_OK) with true. cbn [negb].
  rewrite (is_free_slot v) by done. destruct (free_slot (slot v dc i)); cbn [andb].
  { change (0 + 1 =? 1) with true. cbv iota. eexists FR_OK, _, v1. split; [done |]. rewrite Z.add_0_r. done. }
  pose proof (still_dirs v v1 sc dc others S1 Ks) as Ks1. pose proof (still_dir v v1 sc dc S1 K) as K1.
  rewrite <- (still_at v v1 dc i) by done. replace (Z.pred (dir_size (fs v) dc - i)) with (dir_size (fs v) dc - (i + 1)) by lia.
  pose proof (still_size v v1 dc S1) as Es. destruct (Z.eq_dec (i + 1) (dir_size (fs v) dc)) as [Ee | Ee].
  - rewrite seqZ_nil by lia. cbn [fmap list_fmap first_slot]. destruct (alloc_end fuel i v1 sc dc others dp Ks1) as (res & dp' & v2 & -> & H); [lia | lia | rewrite Es; lia |].
    rewrite Es in H. exists res, dp', v2. split; [done |]. destruct H as [(Hres & S2 & Hfull) | (-> & Hne & Hlt & c & St & ->)].
    + left. split; [done |]. split; [by apply (still_trans v v1) |]. destruct Hfull as [? | [? | U]]; [by left | right; left; lia | right; right; by apply (all_used_still v v1)].
    + right. split; [done |]. split; [done |]. split; [done |]. exists c. split; [by apply (stretched_still v v1) | done].
  - destruct (dir_next_ok true i v1 sc dc dp K1) as (v2 & -> & S2); [lia | lia |]. cbn [mbind option_bind].
    change (FR_OK =? FR_OK) with true. cbv iota. pose proof (still_trans v v1 v2 S1 S2) as S. pose proof (still_dirs v v2 sc dc others S Ks) as Ks2.
    rewrite (still_at v v1) by done. rewrite <- (still_at v v2) by done. rewrite <- (still_size v v2 dc S) in *.
    destruct (IH (i + 1) v2 sc dc others dp Ks2) as (res & dp' & v' & E & Hm); [lia | lia |]. rewrite E. exists res, dp', v'. split; [done |].
    assert (slot v2 dc <$> seqZ (i + 1) (dir_size (fs v2) dc - (i + 1)) = slot v dc <$> seqZ (Z.succ i) (dir_size (fs v2) dc - (i + 1))) as El.
    { apply list_fmap_ext. intros j x Hx%list_elem_of_lookup_2%elem_of_seqZ. apply (still_slot v v2 sc); try done. rewrite <- (still_size v v2) by done. lia. }
    rewrite El in Hm. destruct (first_slot _) as [n |] eqn:En; cbn [fmap option_fmap option_map].
    + destruct Hm as (-> & -> & S' & Hw). replace (i + Z.of_nat (Datatypes.S n)) with (i + 1 + Z.of_nat n) by lia.
      rewrite !(still_at v v2 dc (i + 1 + Z.of_nat n)) in * by done. split; [done |]. split; [done |]. split; [by apply (still_trans v v2) | done].
    + destruct Hm as [(Hres & S' & Hfull) | (-> & Hne & Hlt & c & St & ->)].
      * left. split; [done |]. split; [by apply (still_trans v v2) |]. destruct Hfull as [? | [? | U]]; [by left | right; left; by rewrite <- (still_size v v2 dc S) | right; right; by apply (all_used_still v v2)].
      * right. split; [done |]. split; [done |]. split; [done |]. exists c. split; [by apply (stretched_still v v2) | done].
Qed.

End Disk.

End FatDir.
