(* ===== verification/FatEntries.v ===== *)
(** * The FAT file system: a directory as a map

    The search, the registration and the removal of [FatDir.v] on the list of the
    entries of a directory, and on the map from names to entries that the list
    stands for. *)

From S2P Require Import Prelude FatTable FatChain FatFile FatTransfer FatDir.

Module FatEntries.
Import FatTable FatChain FatFile FatTransfer FatDir.

(** ** Lists of entries *)

(** A name as [create_name] makes it, with its status byte. *)
Definition name_ok (fn : bytes) : Prop := length fn = 12%nat /\ is_bytes fn /\ byte_at fn 0 <> 0 /\ byte_at fn 0 <> DDEM.

(** What a directory says of a name. *)
Definition named (es : list bytes) (fn : bytes) : option bytes := n ← search fn es; es !! n.

(** No entry behind the end mark, and no name twice. *)
Record tidy (es : list bytes) : Prop := {
  td_length e : e ∈ es -> length e = 32%nat;
  td_end i j e e' : es !! i = Some e -> es !! j = Some e' -> (i < j)%nat -> byte_at e DIR_Name = 0 -> byte_at e' DIR_Name = 0;
  td_once i j e e' fn : es !! i = Some e -> es !! j = Some e' -> name_ok fn -> has_name fn e = true -> has_name fn e' = true -> i = j;
}.

Lemma has_name_first fn e : name_ok fn -> length e = 32%nat -> has_name fn e = true -> byte_at e DIR_Name = byte_at fn 0.
Proof.
  intros (Hl & _) He H. unfold has_name in H. apply andb_true_iff in H as [_ H%bool_decide_eq_true]. unfold DIR_Name.
  rewrite <- (byte_at_take 11 e 0), <- (byte_at_take 11 fn 0) by lia. by change (Z.to_nat 11) with 11%nat; rewrite H.
Qed.

Lemma search_spec fn es n : search fn es = Some n <->
  (exists e, es !! n = Some e /\ has_name fn e = true /\ byte_at e DIR_Name <> 0)
  /\ forall m e, (m < n)%nat -> es !! m = Some e -> has_name fn e = false /\ byte_at e DIR_Name <> 0.
Proof.
  revert n. induction es as [| x es IH]; intros n; cbn [search].
  { split; [done |]. intros [(e & H & _) _]. by rewrite lookup_nil in H. }
  destruct (Z.eqb_spec (byte_at x DIR_Name) 0) as [E0 | E0].
  { split; [done |]. intros [(e & H & _ & H0) Hb]. destruct n as [| n]; [cbn in H; simplify_eq; done |]. by destruct (Hb 0%nat x ltac:(lia) eq_refl). }
  destruct (has_name fn x) eqn:Ex.
  { split; [intros [= <-]; split; [by exists x | intros m e Hm; lia] |]. intros [_ Hb]. destruct n as [| n]; [done |]. destruct (Hb 0%nat x ltac:(lia) eq_refl). congruence. }
  rewrite fmap_Some. split.
  - intros (m & Hm & ->). apply IH in Hm as [He Hb]. split; [done |]. intros [| k] e Hk He'; [cbn in He'; simplify_eq; done |]. apply (Hb k e); [lia | done].
  - intros [(e & He & Hn) Hb]. destruct n as [| n]; [cbn in He; simplify_eq; destruct Hn; congruence |]. exists n. split; [| done]. apply IH. split; [by exists e |].
    intros m e' Hm. apply (Hb (S m)). lia.
Qed.

Lemma search_none fn es : search fn es = None <->
  forall n e, es !! n = Some e -> has_name fn e = true -> byte_at e DIR_Name <> 0 -> exists m e', (m < n)%nat /\ es !! m = Some e' /\ byte_at e' DIR_Name = 0.
Proof.
  induction es as [| x es IH]; cbn [search]; [split; [intros _ n e H; by rewrite lookup_nil in H | done] |].
  destruct (Z.eqb_spec (byte_at x DIR_Name) 0) as [E0 | E0].
  { split; [| done]. intros _ [| n] e He Hn H0; [cbn in He; simplify_eq; done |]. exists 0%nat, x. split; [lia | done]. }
  destruct (has_name fn x) eqn:Ex.
  { split; [done |]. intros H. destruct (H 0%nat x eq_refl Ex E0) as (m & _ & Hm & _). lia. }
  rewrite fmap_None, IH. split; intros H n e He Hn H0.
  - destruct n as [| n]; [cbn in He; simplify_eq; congruence |]. destruct (H n e He Hn H0) as (m & e' & Hm & He' & Hz). exists (S m), e'. split; [lia | done].
  - destruct (H (S n) e He Hn H0) as ([| m] & e' & Hm & He' & Hz); [cbn in He'; simplify_eq; done |]. exists m, e'. split; [lia | done].
Qed.

Lemma first_slot_spec es n : first_slot es = Some n ->
  (exists e, es !! n = Some e /\ free_slot e = true) /\ forall m e, (m < n)%nat -> es !! m = Some e -> free_slot e = false.
Proof.
  revert n. induction es as [| x es IH]; intros n H; cbn [first_slot] in H; [done |]. destruct (free_slot x) eqn:E.
  { simplify_eq. split; [by exists x | intros; lia]. }
  apply fmap_Some in H as (m & Hm & ->). destruct (IH m Hm) as [He Hb]. split; [done |]. intros [| k] e Hk He'; [cbn in He'; by simplify_eq | apply (Hb k); [lia | done]].
Qed.

(** In a tidy list a name is found exactly when an entry has it. *)
Lemma named_some es fn e : tidy es -> name_ok fn -> named es fn = Some e <-> e ∈ es /\ has_name fn e = true.
Proof.
  intros T Hf. unfold named. split.
  - destruct (search fn es) as [n |] eqn:E; [| done]. cbn. intros He. apply search_spec in E as [(x & Hx & Hn & _) _]. simplify_eq. split; [by eapply list_elem_of_lookup_2 | done].
  - intros [Hin Hn]. apply list_elem_of_lookup in Hin as [n He]. assert (byte_at e DIR_Name <> 0) as H0.
    { rewrite (has_name_first fn); [apply Hf | done | | done]. apply (td_length _ T). by apply list_elem_of_lookup_2 in He. }
    destruct (search fn es) as [m |] eqn:E.
    + apply search_spec in E as [(x & Hx & Hn' & _) _]. cbn. rewrite Hx. f_equal. assert (n = m) as -> by (by apply (td_once _ T n m e x fn)). by simplify_eq.
    + destruct (proj1 (search_none fn es) E n e He Hn H0) as (m & x & Hm & Hx & Hz). by destruct H0; apply (td_end _ T m n x e).
Qed.

Lemma named_ext es es' fn : tidy es -> tidy es' -> name_ok fn -> (forall e, e ∈ es /\ has_name fn e = true <-> e ∈ es' /\ has_name fn e = true) -> named es' fn = named es fn.
Proof.
  intros T T' Hf H. destruct (named es fn) as [e |] eqn:E.
  - apply named_some; [done | done |]. apply H. by apply named_some.
  - destruct (named es' fn) as [e |] eqn:E'; [| done]. apply named_some in E'; [| done | done]. apply H in E'. apply named_some in E'; [congruence | done | done].
Qed.

(** ** Blank entries at the end, a new entry, a deleted one *)

Lemma blank_name fn : name_ok fn -> has_name fn blank_entry = false.
Proof.
  intros Hf. destruct (has_name fn blank_entry) eqn:E; [| done]. apply (has_name_first fn) in E; [| done | done]. change (byte_at blank_entry DIR_Name) with 0 in E. by destruct Hf as (_ & _ & ? & _).
Qed.

Lemma tidy_blank es k : tidy es -> tidy (es ++ replicate k blank_entry).
Proof.
  intros T. assert (forall i e, (es ++ replicate k blank_entry) !! i = Some e -> es !! i = Some e \/ (e = blank_entry /\ (length es <= i)%nat)) as Hl.
  { intros i e He. apply lookup_app_Some in He as [He | [Hi He]]; [by left | right]. by apply lookup_replicate in He as [-> _]. }
  split.
  - intros e [He | He]%elem_of_app; [by apply (td_length _ T) | by apply elem_of_replicate in He as [-> _]].
  - intros i j e e' Hi Hj Hij H0. destruct (Hl j e' Hj) as [Hj' | [-> _]]; [| done]. destruct (Hl i e Hi) as [Hi' | [_ Hle]]; [by apply (td_end _ T i j e e') |].
    apply lookup_lt_Some in Hj'. lia.
  - intros i j e e' fn Hi Hj Hf He He'. destruct (Hl i e Hi) as [Hi' | [-> _]]; [| by rewrite blank_name in He]. destruct (Hl j e' Hj) as [Hj' | [-> _]]; [| by rewrite blank_name in He'].
    by apply (td_once _ T i j e e' fn).
Qed.

Lemma named_blank es k fn : tidy es -> name_ok fn -> named (es ++ replicate k blank_entry) fn = named es fn.
Proof.
  intros T Hf. apply named_ext; [done | by apply tidy_blank | done |]. intros e. rewrite elem_of_app, elem_of_replicate. split; [tauto |].
  intros [[He | [-> _]] Hn]; [done |]. by rewrite blank_name in Hn.
Qed.

(** An entry replaced.  No name is lost with the old one. *)
Lemma tidy_insert es n x y : tidy es -> es !! n = Some x -> length y = 32%nat ->
  (byte_at y DIR_Name <> 0 -> forall m e, (m < n)%nat -> es !! m = Some e -> byte_at e DIR_Name <> 0) -> (byte_at y DIR_Name = 0 -> byte_at x DIR_Name = 0) ->
  (forall fn e, name_ok fn -> has_name fn y = true -> e ∈ es -> has_name fn e = false) -> tidy (<[n := y]> es).
Proof.
  intros T Hx Hy Hb Hz Hnew. pose proof (lookup_lt_Some _ _ _ Hx) as Hlt.
  assert (forall i e, <[n := y]> es !! i = Some e -> (i = n /\ e = y) \/ (i <> n /\ es !! i = Some e)) as Hl.
  { intros i e He. destruct (decide (i = n)) as [-> | Hne]; [rewrite list_lookup_insert_eq in He by done; left; by simplify_eq | right]. by rewrite list_lookup_insert_ne in He by done. }
  split.
  - intros e [i He]%list_elem_of_lookup. destruct (Hl i e He) as [[_ ->] | [_ He']]; [done |]. apply (td_length _ T). by apply list_elem_of_lookup_2 in He'.
  - intros i j e e' Hi Hj Hij H0. destruct (Hl i e Hi) as [[-> ->] | [Hni Hi']], (Hl j e' Hj) as [[-> ->] | [Hnj Hj']]; [lia | | |].
    + apply (td_end _ T n j x e'); [done | done | done | by apply Hz].
    + destruct (decide (byte_at y DIR_Name = 0)) as [| Hne]; [done |]. by destruct (Hb Hne i e).
    + by apply (td_end _ T i j e e').
  - intros i j e e' fn Hi Hj Hf He He'. destruct (Hl i e Hi) as [[-> ->] | [Hni Hi']], (Hl j e' Hj) as [[-> ->] | [Hnj Hj']]; [done | | |].
    + rewrite (Hnew fn e') in He'; [done | done | done |]. by apply list_elem_of_lookup_2 in Hj'.
    + rewrite (Hnew fn e) in He; [done | done | done |]. by apply list_elem_of_lookup_2 in Hi'.
    + by apply (td_once _ T i j e e' fn).
Qed.

Lemma insert_elem {A} (es : list A) n y e : (n < length es)%nat -> e ∈ <[n := y]> es <-> e = y \/ exists i, i <> n /\ es !! i = Some e.
Proof.
  intros Hlt. rewrite list_elem_of_lookup. split.
  - intros [i Hi]. destruct (decide (i = n)) as [-> | Hne]; [rewrite list_lookup_insert_eq in Hi by done; left; by simplify_eq | right]. exists i. by rewrite list_lookup_insert_ne in Hi by done.
  - intros [-> | (i & Hne & Hi)]; [exists n; by rewrite list_lookup_insert_eq | exists i; by rewrite list_lookup_insert_ne].
Qed.

(** Names are the same when their eleven bytes are. *)
Definition same_fn (a b : bytes) : bool := bool_decide (take 11 a = take 11 b).

Lemma has_name_same a b e : same_fn a b = true -> has_name a e = has_name b e.
Proof. unfold same_fn, has_name. intros H%bool_decide_eq_true. by rewrite H. Qed.

Lemma has_name_both a b e : has_name a e = true -> has_name b e = true -> same_fn a b = true.
Proof. unfold has_name, same_fn. intros [_ H1%bool_decide_eq_true]%andb_true_iff [_ H2%bool_decide_eq_true]%andb_true_iff. apply bool_decide_eq_true. congruence. Qed.

Lemma new_entry_ok fn : name_ok fn -> length (new_entry fn) = 32%nat /\ is_bytes (new_entry fn) /\ has_name fn (new_entry fn) = true.
Proof.
  intros (Hl & Hb & _). assert (length (take 11 fn) = 11%nat) as Ht by (rewrite length_take; lia). unfold new_entry. split; [by rewrite length_app, length_replicate, Ht |].
  split; [apply Forall_app; split; [by apply Forall_take | apply Forall_replicate; unfold is_u8; lia] |]. unfold has_name. apply andb_true_iff. split.
  - unfold DIR_Attr, byte_at. rewrite app_nth2 by lia. rewrite nth_lookup, lookup_replicate_2 by lia. done.
  - apply bool_decide_eq_true. rewrite take_app_le by lia. by rewrite take_take.
Qed.

Lemma free_nameless fn e : name_ok fn -> length e = 32%nat -> free_slot e = true -> has_name fn e = false.
Proof.
  intros Hf He H. destruct (has_name fn e) eqn:E; [| done]. apply (has_name_first fn) in E; [| done | done]. destruct Hf as (_ & _ & H0 & HD). unfold free_slot in H.
  apply orb_true_iff in H as [H%Z.eqb_eq | H%Z.eqb_eq]; congruence.
Qed.

(** An entry of a new name in the first free place. *)
Lemma register_list es fn n : tidy es -> name_ok fn -> named es fn = None -> first_slot es = Some n ->
  tidy (<[n := new_entry fn]> es)
  /\ forall m, name_ok m -> named (<[n := new_entry fn]> es) m = if same_fn fn m then Some (new_entry fn) else named es m.
Proof.
  intros T Hf Hn Hs. destruct (first_slot_spec es n Hs) as [(x & Hx & Hfx) Hb]. pose proof (lookup_lt_Some _ _ _ Hx) as Hlt. destruct (new_entry_ok fn Hf) as (Hl & _ & Hnn).
  assert (forall e, e ∈ es -> has_name fn e = false) as Hno.
  { intros e He. destruct (has_name fn e) eqn:E; [| done]. assert (named es fn = Some e) as Es by (by apply named_some). congruence. }
  assert (length x = 32%nat) as Hlx by (apply (td_length _ T); by apply list_elem_of_lookup_2 in Hx).
  assert (tidy (<[n := new_entry fn]> es)) as T'.
  { apply (tidy_insert es n x); try done.
    - intros _ m e Hm He. specialize (Hb m e Hm He). unfold free_slot in Hb. apply orb_false_iff in Hb as [_ Hb%Z.eqb_neq]. done.
    - intros H0. rewrite (has_name_first fn) in H0 by done. by destruct Hf as (_ & _ & ? & _).
    - intros g e Hg Hgn He. rewrite <- (has_name_same fn g) by (by apply (has_name_both _ _ (new_entry fn))). by apply Hno. }
  split; [done |]. intros m Hm. destruct (same_fn fn m) eqn:E.
  - apply named_some; [done | done |]. split; [apply insert_elem; [done | by left] |]. by rewrite <- (has_name_same fn m).
  - apply named_ext; [done | done | done |]. intros e. rewrite insert_elem by done. split.
    + intros [[i Hi]%list_elem_of_lookup He]. split; [| done]. right. exists i. split; [| done]. intros ->. simplify_eq. by rewrite free_nameless in He.
    + intros [[-> | (i & _ & Hi)] He]; [by rewrite (has_name_both fn m _ Hnn He) in E |]. split; [| done]. by apply list_elem_of_lookup_2 in Hi.
Qed.

(** The entry of a name marked as deleted. *)
Lemma remove_list es fn n x : tidy es -> name_ok fn -> search fn es = Some n -> es !! n = Some x ->
  let es' := <[n := put_byte DIR_Name DDEM x]> es in
  tidy es' /\ forall m, name_ok m -> named es' m = if same_fn fn m then None else named es m.
Proof.
  intros T Hf Hs Hx es'. pose proof (lookup_lt_Some _ _ _ Hx) as Hlt. pose proof Hs as [(y & Hy & Hn & H0) Hb]%search_spec. simplify_eq.
  assert (length x = 32%nat) as Hlx by (apply (td_length _ T); by apply list_elem_of_lookup_2 in Hx). set (z := put_byte DIR_Name DDEM x) in *.
  assert (length z = 32%nat) as Hlz by (unfold z; by rewrite put_byte_length). assert (byte_at z DIR_Name = DDEM) as Hz by (unfold z, DIR_Name; rewrite byte_at_put, Z.eqb_refl by lia; done).
  assert (forall g, name_ok g -> has_name g z = false) as Hnz by (intros g Hg; apply free_nameless; try done; unfold free_slot; by rewrite Hz).
  assert (tidy es') as T'.
  { apply (tidy_insert es n x); try done.
    - intros _ m e Hm He. by destruct (Hb m e Hm He).
    - by rewrite Hz.
    - intros g e Hg Hgn. by rewrite Hnz in Hgn. }
  split; [done |]. intros m Hm. destruct (same_fn fn m) eqn:E.
  - destruct (named es' m) as [e |] eqn:Em; [| done]. apply named_some in Em as [He Hen]; [| done | done]. apply insert_elem in He as [-> | (i & Hi & He)]; [by rewrite Hnz in Hen | | done].
    destruct Hi. apply (td_once _ T i n e x fn); try done. by rewrite (has_name_same fn m).
  - apply named_ext; [done | done | done |]. intros e. unfold es'. rewrite insert_elem by done. split.
    + intros [[i Hi]%list_elem_of_lookup He]. split; [| done]. right. exists i. split; [| done]. intros ->. simplify_eq. by rewrite (has_name_both fn m _ Hn He) in E.
    + intros [[-> | (i & _ & Hi)] He]; [by rewrite Hnz in He |]. split; [| done]. by apply list_elem_of_lookup_2 in Hi.
Qed.

Section Disk.
Context {D : Type} {DI : DiskIo D} {SD : SectorDisk D}.
Implicit Types v : vol D.
Implicit Types dp : DIR.

(** ** Changes of one entry *)

(** A change of the window within the entry at [off]. *)
Record local_edit (off : Z) (g : bytes -> bytes) (w : bytes) : Prop := {
  le_length : length (g w) = 512%nat;
  le_bytes : is_bytes (g w);
  le_local j : 0 <= j < 512 -> ~ off <= j < off + 32 -> byte_at (g w) j = byte_at w j;
}.

Lemma dsect_inj v sc dc i j : dir_ok v sc dc -> 0 <= i < dir_size (fs v) dc -> 0 <= j < dir_size (fs v) dc ->
  dsect (fs v) dc (i / 16) = dsect (fs v) dc (j / 16) -> i / 16 = j / 16.
Proof.
  intros K Hi Hj E. unfold dir_size in *. destruct dc as [| c dc]; cbn [dsect] in E; [lia |]. pose proof (pow2_range _ (dr_csize _ _ _ K)).
  apply (fsect_inj (fs v) (c :: dc)); [lia | apply K | apply slot_sector; lia | apply slot_sector; lia | done].
Qed.

Lemma edit_entry g v sc dc others i : dirs_ok v sc dc others -> 0 <= i < dir_size (fs v) dc -> winsect (fs v) = dsect (fs v) dc (i / 16) ->
  local_edit (32 * (i mod 16)) g (win (fs v)) ->
  dirs_ok (edit g v) sc dc others /\ core (fs (edit g v)) = core (fs v) /\ (mirrored v -> mirrored (edit g v))
  /\ (forall s, s <> winsect (fs v) -> view (edit g v) s = view v s)
  /\ entries (edit g v) dc = <[Z.to_nat i := take 32 (drop (Z.to_nat (32 * (i mod 16))) (g (win (fs v))))]> (entries v dc).
Proof.
  intros [K C] Hi Hw [Hgl Hgb Hgo]. pose proof (dr_good _ _ _ K) as G. destruct (edit_win g v G Hgl Hgb) as (G' & Cr & M & V). set (v' := edit g v) in *.
  destruct (dsect_range v sc dc i K Hi) as [Hr _]. assert (layout (fs v') = layout (fs v)) as L by (unfold layout; by rewrite Cr).
  assert (forall s, s <> winsect (fs v) -> view v' s = view v s) as Vn by (intros s Hs; rewrite V; by rewrite (proj2 (Z.eqb_neq _ _))).
  assert (forall c, valid v c -> table v' c = table v c) as T.
  { intros c Hc. apply table_views; try done. intros s Hs. apply Vn. pose proof (good_geo v G) as [_ Hfa _ _ _ _ _ _]. rewrite Hw. unfold table_end in Hr.
    pose proof (fsize_pos _ (good_geo v G)). destruct Hfa as [E | E]; rewrite E in *; lia. }
  destruct (core_free _ _ Cr) as [Ef El]. split; [split |].
  - destruct K as [_ K2 K3 K4 K5 K6]. split; try done. apply (chain_ext (table v)); [| done]. intros c Hc. apply T. by apply (chain_valid (table v) _ dc).
  - by apply (clean_table v).
  - split; [done |]. split; [done |]. split; [done |]. unfold entries. change (dir_size (fs v') dc) with (dir_size (fs v) dc). set (n := dir_size (fs v) dc) in *.
    assert (forall j, 0 <= j < n -> slot v' dc j = if j =? i then take 32 (drop (Z.to_nat (32 * (i mod 16))) (g (win (fs v)))) else slot v dc j) as Hsl.
    { intros j Hj. unfold slot. change (dsect (fs v') dc) with (dsect (fs v) dc). rewrite V, Hw. pose proof (dsect_inj v sc dc j i K Hj Hi) as Hinj.
      destruct (Z.eqb_spec j i) as [-> | Hne]; [by rewrite Z.eqb_refl |]. destruct (Z.eqb_spec (dsect (fs v) dc (j / 16)) (dsect (fs v) dc (i / 16))) as [E | E]; [| done].
      specialize (Hinj E). rewrite E. pose proof (Z.mod_pos_bound j 16 ltac:(lia)). pose proof (Z.mod_pos_bound i 16 ltac:(lia)).
      assert (j mod 16 <> i mod 16) as Hm by (intros Hm; apply Hne; rewrite (Z.div_mod j 16), (Z.div_mod i 16) by lia; congruence).
      assert (view v (dsect (fs v) dc (i / 16)) = win (fs v)) as -> by (unfold view; by rewrite Hw, Z.eqb_refl). destruct (good_win v G) as [Hwl _].
      apply bytes_ext; [rewrite !length_take, !length_drop; lia |]. intros k Hk. rewrite length_take, length_drop in Hk.
      change 32%nat with (Z.to_nat 32). rewrite !byte_at_take, !byte_at_drop by lia. apply Hgo; lia. }
    apply list_eq. intros k. rewrite list_lookup_fmap. destruct (decide (k < Z.to_nat n)%nat) as [Hk | Hk].
    + rewrite lookup_seqZ_lt by lia. cbn [fmap option_fmap option_map]. rewrite Hsl by lia. destruct (Z.eqb_spec (0 + Z.of_nat k) i) as [E | E].
      * replace (Z.to_nat i) with k by lia. rewrite list_lookup_insert_eq; [done |]. rewrite length_fmap, length_seqZ. lia.
      * rewrite list_lookup_insert_ne by lia. rewrite list_lookup_fmap, lookup_seqZ_lt by lia. done.
    + rewrite lookup_seqZ_ge by lia. symmetry. apply lookup_ge_None_2. rewrite length_insert, length_fmap, length_seqZ. lia.
Qed.

(** ** Room for an entry *)

(** The volume after a reservation: the directory may have grown. *)
Record reserved v v' (sc : Z) (dc dc' : list Z) (others : list (list Z)) : Prop := {
  rs_dirs : dirs_ok v' sc dc' others;
  rs_chain : dc' = dc \/ (dc <> [] /\ exists c, dc' = dc ++ [c] /\ valid v c /\ (c ∉ concat (kept_part dc ++ others)));
  rs_layout : layout (fs v') = layout (fs v);
  rs_mirrored : mirrored v -> mirrored v';
  rs_entries : exists k, entries v' dc' = entries v dc ++ replicate k blank_entry;
  rs_view s : table_end (fs v) <= s -> ~ mine (fs v) (kept_part dc ++ others) s -> view v' s = view v s;
}.

Lemma still_reserved v v' sc dc others : dirs_ok v sc dc others -> still v v' -> reserved v v' sc dc dc others.
Proof.
  intros Ks S. split; [by apply (still_dirs v) | by left | by apply still_layout | apply (sl_mirrored _ _ S) | |].
  - exists 0%nat. cbn [replicate]. rewrite app_nil_r. apply (still_entries v v' sc); [done | apply Ks].
  - intros s Hs _. destruct (behind_table v s (dr_good _ _ _ (ds_dir _ _ _ _ Ks)) Hs). by apply (sl_view _ _ S).
Qed.

Lemma stretched_reserved v v' sc dc others c : dirs_ok v sc dc others -> dc <> [] -> dir_size (fs v) dc < 65536 -> stretched v v' sc dc others c ->
  reserved v v' sc dc (dc ++ [c]) others.
Proof.
  intros Ks Hne Hlt St. pose proof St as [[Hc Hn] H2 H3 H4 H5 H6]. split; try done.
  - right. split; [done |]. by exists c.
  - destruct (stretched_entries v v' sc dc others c Ks St Hne Hlt) as [_ He]. by eexists.
  - intros s Hs Hm. rewrite H6 by done. case_match eqn:E; [| done]. destruct Hm. unfold in_cluster in E. apply andb_true_iff in E as [E1%Z.leb_le E2%Z.ltb_lt].
    exists c, (s - sec_of (fs v) c 0). unfold valid in Hc. unfold sec_of in *. split; [done |]. split; [done |]. lia.
Qed.

Lemma entries_lookup v dc n e : entries v dc !! n = Some e -> Z.of_nat n < dir_size (fs v) dc /\ e = slot v dc (Z.of_nat n).
Proof.
  intros H. pose proof (lookup_lt_Some _ _ _ H) as Hl. unfold entries in *. rewrite length_fmap, length_seqZ in Hl.
  rewrite list_lookup_fmap, lookup_seqZ_lt in H by lia. cbn in H. simplify_eq. split; [lia | by rewrite Z.add_0_l].
Qed.

Lemma first_slot_app es k : first_slot es = None -> first_slot (es ++ replicate (Datatypes.S k) blank_entry) = Some (length es).
Proof. induction es as [| e es IH]; cbn [first_slot app length]; [done |]. destruct (free_slot e); [done |]. intros H%fmap_None. by rewrite IH. Qed.

Lemma dir_alloc_ok v sc dc others dp : dirs_ok v sc dc others -> d_sclust dp = sc ->
  (exists v' dc' n, dir_alloc 1 dp v = Some (FR_OK, at_entry (fs v') dc' (Z.of_nat n) dp, v') /\ reserved v v' sc dc dc' others
     /\ first_slot (entries v' dc') = Some n /\ winsect (fs v') = dsect (fs v') dc' (Z.of_nat n / 16))
  \/ (exists dp' v', dir_alloc 1 dp v = Some (FR_DENIED, dp', v') /\ still v v' /\ first_slot (entries v dc) = None /\ table_full v dc others).
Proof.
  intros Ks Hsc. unfold dir_alloc. generalize max_entries. generalize MAX_ENTRIES. intros fuel Hm.
  pose proof (ds_dir _ _ _ _ Ks) as K. pose proof (dir_size_range v sc dc K) as Hn. destruct (dir_sdi_ok 0 v sc dc dp K Hsc) as (v1 & E1 & S1); [lia |].
  rewrite Z.mul_0_r in E1. pose proof (still_dirs v v1 sc dc others S1 Ks) as Ks1. pose proof (still_size v v1 dc S1) as Es.
  destruct (alloc_loop_ok fuel 0 v1 sc dc others dp Ks1) as (res & dp' & v2 & E2 & H); [lia | rewrite Es, Hm; case_match; lia |]. clear Hm.
  rewrite Z.sub_0_r in H. change (slot v1 dc <$> seqZ 0 (dir_size (fs v1) dc)) with (entries v1 dc) in H. rewrite (still_entries v v1 sc dc S1 K), Es in H.
  rewrite (still_at v v1 dc 0 dp S1) in E2. rewrite E1. cbn [mbind option_bind]. change (FR_OK =? FR_OK) with true. cbv iota. rewrite E2. cbn [mbind option_bind].
  destruct (first_slot (entries v dc)) as [n |] eqn:En.
  - destruct H as (-> & -> & S2 & Hw). left. pose proof (still_trans v v1 v2 S1 S2) as S. exists v2, dc, n. rewrite Z.add_0_l in *. cbn [at_entry d_sect] in Hw.
    rewrite (still_at v v2) by done. rewrite (still_at v v1) by done. split; [done |]. split; [by apply still_reserved |]. split; [by rewrite (still_entries v v2 sc) |].
    rewrite Hw, (still_dsect v v2), (still_dsect v v1) by done. done.
  - destruct H as [(Hres & S2 & Hf) | (-> & Hne & Hlt & c & St & ->)].
    + right. exists dp', v2. pose proof (still_trans v v1 v2 S1 S2) as S. split; [by destruct Hres as [-> | ->] |]. split; [done |]. split; [done |].
      destruct Hf as [? | [? | U]]; [by left | right; left; by rewrite <- Es | right; right; by apply (all_used_still v v1)].
    + left. pose proof (stretched_still v v1 v2 sc dc others c (dr_good _ _ _ K) S1 St) as St'. exists v2, (dc ++ [c]), (Z.to_nat (dir_size (fs v) dc)). rewrite Z2Nat.id by lia.
      split; [done |]. split; [by apply stretched_reserved |]. destruct (stretched_first v v2 sc dc others c Ks St' Hne Hlt) as (Hw & _). split; [| done].
      destruct (stretched_entries v v2 sc dc others c Ks St' Hne Hlt) as [Hgt ->]. destruct (Z.to_nat (dir_size (fs v2) (dc ++ [c]) - dir_size (fs v) dc)) as [| k] eqn:Ek; [lia |].
      rewrite first_slot_app by done. unfold entries. by rewrite length_fmap, length_seqZ.
Qed.

(** ** Registration and removal *)

(** The sectors of a directory. *)
Definition dir_sector (f : FATFS) (dc : list Z) (s : Z) : Prop :=
  match dc with [] => dirbase f <= s < dirbase f + n_rootdir f / 16 | _ => exists k, 0 <= k < room f dc /\ s = fsect f dc k end.

Lemma slot_in_dir v sc dc i : dir_ok v sc dc -> 0 <= i < dir_size (fs v) dc -> dir_sector (fs v) dc (dsect (fs v) dc (i / 16)).
Proof.
  intros K Hi. unfold dir_size in Hi. destruct dc as [| c dc]; cbn [dsect dir_sector].
  - destruct (dr_root _ _ _ K eq_refl) as (_ & _ & _ & _ & Hm & _). assert (0 <= i / 16 < n_rootdir (fs v) / 16); [| lia].
    split; [apply Z.div_pos; lia |]. apply Z.div_lt_upper_bound; [lia |]. pose proof (Z.div_mod (n_rootdir (fs v)) 16 ltac:(lia)). lia.
  - exists (i / 16). split; [apply slot_sector; lia | done].
Qed.

(** The sectors of the directory after a reservation. *)
Lemma reserved_sector v v' sc dc dc' others s : dirs_ok v sc dc others -> reserved v v' sc dc dc' others -> dir_sector (fs v') dc' s ->
  dir_sector (fs v) dc s \/ mine (fs v) (kept_part dc ++ others) s.
Proof.
  intros Ks R Hs. pose proof (rs_layout _ _ _ _ _ _ R) as L. pose proof (layout_field csize _ _ ltac:(done) L) as Ec. pose proof (pow2_range _ (dr_csize _ _ _ (ds_dir _ _ _ _ Ks))) as HB.
  assert (forall cs k, fsect (fs v') cs k = fsect (fs v) cs k) as Ef by (intros cs k; unfold fsect, sec_of; by rewrite Ec, (layout_field database _ _ ltac:(done) L)).
  assert (forall cs, room (fs v') cs = room (fs v) cs) as Er by (intros cs; unfold room; by rewrite Ec).
  destruct (rs_chain _ _ _ _ _ _ R) as [-> | (Hne & c & -> & Hc & Hn)].
  - left. destruct dc as [| d dc]; cbn [dir_sector] in *; [by rewrite <- (layout_field dirbase _ _ ltac:(done) L), <- (layout_field n_rootdir _ _ ltac:(done) L) |].
    destruct Hs as (k & Hk & ->). exists k. by rewrite Er in Hk.
  - assert (exists k, 0 <= k < room (fs v) (dc ++ [c]) /\ s = fsect (fs v) (dc ++ [c]) k) as (k & Hk & ->).
    { destruct dc as [| d dc]; [done |]. destruct Hs as (k & Hk & ->). exists k. rewrite Er in Hk. by rewrite Ef. }
    destruct (room_index (fs v) _ k ltac:(lia) Hk) as [Hq Hm]. rewrite length_app in Hq. cbn [length] in Hq.
    destruct (decide (k / csize (fs v) < Z.of_nat (length dc))) as [Hlt | Hge].
    + left. assert (0 <= k < room (fs v) dc) as Hk'. { unfold room in *. pose proof (Z.div_mod k (csize (fs v)) ltac:(lia)). nia. }
      rewrite fsect_app by lia. destruct dc; [done |]. by exists k.
    + right. exists c, (k mod csize (fs v)). unfold valid in Hc. split; [done |]. split; [done |]. split; [done |]. unfold fsect.
      replace (k / csize (fs v)) with (Z.of_nat (length dc)) by lia. by rewrite cluster_last.
Qed.

Lemma splice_local off xs w : length xs = 32%nat -> is_bytes xs -> length w = 512%nat -> is_bytes w -> 0 <= off -> off + 32 <= 512 ->
  local_edit off (splice off xs) w /\ take 32 (drop (Z.to_nat off) (splice off xs w)) = xs.
Proof.
  intros Hl Hb Hw Hwb H0 H1. split; [split |].
  - apply Nat2Z.inj. rewrite splice_length by lia. lia.
  - by apply splice_bytes.
  - intros j Hj Ho. rewrite splice_byte by lia. destruct (Z.leb_spec off j), (Z.ltb_spec j (off + Z.of_nat (length xs))); cbn [andb]; (done || lia).
  - unfold splice. rewrite drop_app_ge by (rewrite length_take; lia). rewrite length_take. replace (Z.to_nat off - _)%nat with 0%nat by lia. cbn [drop].
    rewrite <- Hl. apply take_app_length.
Qed.

Lemma put_local off x w : length w = 512%nat -> is_bytes w -> 0 <= off -> off + 32 <= 512 ->
  local_edit off (put_byte (off + DIR_Name) x) w
  /\ take 32 (drop (Z.to_nat off) (put_byte (off + DIR_Name) x w)) = put_byte DIR_Name x (take 32 (drop (Z.to_nat off) w)).
Proof.
  intros Hw Hwb H0 H1. unfold DIR_Name. rewrite Z.add_0_r. split; [split |].
  - by rewrite put_byte_length.
  - by apply put_byte_bytes.
  - intros j Hj Ho. rewrite byte_at_put by lia. by rewrite (proj2 (Z.eqb_neq _ _)) by lia.
  - apply bytes_ext; [rewrite put_byte_length, !length_take, !length_drop, put_byte_length; lia |].
    intros i Hi. rewrite length_take, length_drop, put_byte_length in Hi. change 32%nat with (Z.to_nat 32). rewrite byte_at_take, byte_at_drop, byte_at_put by lia.
    rewrite byte_at_put by (rewrite ?length_take, ?length_drop; lia). rewrite byte_at_take, byte_at_drop by lia.
    destruct (Z.eqb_spec (off + i) off), (Z.eqb_spec i 0); (done || lia).
Qed.

Definition full_table v (dc : list Z) others : Prop := first_slot (entries v dc) = None /\ table_full v dc others.

Lemma dir_register_ok v sc dc others dp : dirs_ok v sc dc others -> d_sclust dp = sc -> name_ok (d_fn dp) ->
  (exists v' dc' n k, dir_register dp v = Some (FR_OK, at_entry (fs v') dc' (Z.of_nat n) dp, v') /\ dirs_ok v' sc dc' others /\ winsect (fs v') = dsect (fs v') dc' (Z.of_nat n / 16)
     /\ Z.of_nat n < dir_size (fs v') dc' /\ layout (fs v') = layout (fs v) /\ (mirrored v -> mirrored v') /\ (dc' = dc \/ dc <> [] /\ exists c, dc' = dc ++ [c])
     /\ first_slot (entries v dc ++ replicate k blank_entry) = Some n
     /\ entries v' dc' = <[n := new_entry (d_fn dp)]> (entries v dc ++ replicate k blank_entry)
     /\ (forall s, table_end (fs v) <= s -> ~ mine (fs v) (kept_part dc ++ others) s -> ~ dir_sector (fs v) dc s -> view v' s = view v s))
  \/ (exists dp' v', dir_register dp v = Some (FR_DENIED, dp', v') /\ still v v' /\ full_table v dc others).
Proof.
  intros Ks Hsc Hf. destruct (dir_alloc_ok v sc dc others dp Ks Hsc) as [(v1 & dc' & n & E & R & Hn & Hw) | (dp' & v' & E & S & Hfull)].
  2:{ right. exists dp', v'. split; [unfold dir_register; rewrite E; done |]. by split. }
  left. pose proof (rs_dirs _ _ _ _ _ _ R) as Ks1. pose proof (ds_dir _ _ _ _ Ks1) as K1. destruct (new_entry_ok _ Hf) as (Hl & Hb & _).
  destruct (first_slot_spec _ _ Hn) as [(x & Hx & _) _]. destruct (entries_lookup _ _ _ _ Hx) as [Hlt _]. pose proof (Z.mod_pos_bound (Z.of_nat n) 16 ltac:(lia)).
  destruct (good_win v1 (dr_good _ _ _ K1)) as [Hwl Hwb]. destruct (splice_local (32 * (Z.of_nat n mod 16)) _ _ Hl Hb Hwl Hwb) as [Hloc Hsl]; [lia | lia |].
  destruct (edit_entry _ v1 sc dc' others (Z.of_nat n) Ks1 ltac:(lia) Hw Hloc) as (Ks2 & Cr & M & V & He). rewrite Hsl, Nat2Z.id in He.
  set (v' := edit (splice (32 * (Z.of_nat n mod 16)) (new_entry (d_fn dp))) v1) in *. destruct (rs_entries _ _ _ _ _ _ R) as [k Hk]. rewrite Hk in *.
  exists v', dc', n, k. split.
  { unfold dir_register. rewrite E. cbn [mbind option_bind]. change (FR_OK =? FR_OK) with true. cbv iota. cbn [at_entry d_sect]. unfold move_window. rewrite <- Hw, Z.eqb_refl. done. }
  split; [done |]. split; [done |]. split; [done |]. assert (layout (fs v') = layout (fs v1)) as L by (unfold layout; by rewrite Cr).
  split; [rewrite L; apply R |]. split; [intros M0; by apply M, (rs_mirrored _ _ _ _ _ _ R) |]. split; [destruct (rs_chain _ _ _ _ _ _ R) as [| (? & c & ? & _)]; [by left | right; split; [done | by exists c]] |].
  split; [done |]. split; [done |].
  intros s Hs Hm Hd. rewrite V; [by apply (rs_view _ _ _ _ _ _ R) |]. rewrite Hw. intros ->.
  destruct (reserved_sector v v1 sc dc dc' others _ Ks R (slot_in_dir v1 sc dc' (Z.of_nat n) K1 ltac:(lia))); done.
Qed.

Lemma dir_remove_ok v sc dc others dp i : dirs_ok v sc dc others -> 0 <= i < dir_size (fs v) dc ->
  exists v', dir_remove (at_entry (fs v) dc i dp) v = (FR_OK, v') /\ dirs_ok v' sc dc others /\ core (fs v') = core (fs v) /\ (mirrored v -> mirrored v')
    /\ entries v' dc = <[Z.to_nat i := put_byte DIR_Name DDEM (slot v dc i)]> (entries v dc)
    /\ (forall s, table_end (fs v) <= s -> ~ dir_sector (fs v) dc s -> view v' s = view v s).
Proof.
  intros Ks Hi. pose proof (ds_dir _ _ _ _ Ks) as K. destruct (dsect_range v sc dc i K Hi) as [Hr _]. destruct (move_still _ v (dr_good _ _ _ K) Hr) as (v1 & E1 & S1 & W1 & Hw1).
  pose proof (still_dirs v v1 sc dc others S1 Ks) as Ks1. pose proof (ds_dir _ _ _ _ Ks1) as K1. destruct (good_win v1 (dr_good _ _ _ K1)) as [Hwl Hwb].
  pose proof (Z.mod_pos_bound i 16 ltac:(lia)). destruct (put_local (32 * (i mod 16)) DDEM _ Hwl Hwb) as [Hloc Hsl]; [lia | lia |].
  destruct (edit_entry (put_byte (32 * (i mod 16) + DIR_Name) DDEM) v1 sc dc others i Ks1) as (Ks2 & Cr & M & V & He); [by rewrite (still_size v v1) | by rewrite (still_dsect v v1) | exact Hloc |].
  exists (edit (put_byte (32 * (i mod 16) + DIR_Name) DDEM) v1). split; [unfold dir_remove; cbn [at_entry d_sect d_dir]; by rewrite E1 |]. split; [done |].
  split; [rewrite Cr; apply S1 |]. split; [intros M0; by apply M, (sl_mirrored _ _ S1) |]. split.
  - rewrite He, (still_entries v v1 sc) by done. rewrite Hsl, Hw1. done.
  - intros s Hs Hd. rewrite V; [destruct (behind_table v s (dr_good _ _ _ K) Hs); by apply (sl_view _ _ S1) |]. rewrite W1. intros ->. apply Hd. by apply (slot_in_dir v sc).
Qed.

(** C10: A directory is a map from names to entries, wherever its entries lie: a
    search finds exactly the names that are in it; a new name that is registered
    is in it with a clean entry, and every other name as before, in a table that
    has grown by a cluster where it was full, or the call is denied because the
    table may not grow or the disk is full; a name that is removed is not in it
    any more, and every other name as before.  No sector outside the directory and
    the new cluster is changed. *)
Theorem directory_map v sc dc others dp : dirs_ok v sc dc others -> tidy (entries v dc) -> d_sclust dp = sc -> name_ok (d_fn dp) ->
  exists dp' v', still v v' /\ dir_find dp v = Some (match named (entries v dc) (d_fn dp) with Some _ => FR_OK | None => FR_NO_FILE end, dp', v')
    /\ match named (entries v dc) (d_fn dp) with
       | Some e => d_attr dp' = byte_at e DIR_Attr .& AM_MASK
           /\ exists v2, dir_remove dp' v' = (FR_OK, v2) /\ dirs_ok v2 sc dc others /\ tidy (entries v2 dc)
                /\ (forall m, name_ok m -> named (entries v2 dc) m = if same_fn (d_fn dp) m then None else named (entries v dc) m)
                /\ (forall s, table_end (fs v) <= s -> ~ dir_sector (fs v) dc s -> view v2 s = view v s)
       | None => (exists dp2 v2, dir_register dp' v' = Some (FR_DENIED, dp2, v2) /\ still v v2 /\ full_table v dc others)
           \/ exists dp2 v2 dc', dir_register dp' v' = Some (FR_OK, dp2, v2) /\ dirs_ok v2 sc dc' others /\ tidy (entries v2 dc')
                /\ (forall m, name_ok m -> named (entries v2 dc') m = if same_fn (d_fn dp) m then Some (new_entry (d_fn dp)) else named (entries v dc) m)
                /\ (forall s, table_end (fs v) <= s -> ~ mine (fs v) (kept_part dc ++ others) s -> ~ dir_sector (fs v) dc s -> view v2 s = view v s)
       end.
Proof.
  intros Ks T Hsc Hf. pose proof (ds_dir _ _ _ _ Ks) as K. destruct (dir_find_ok v sc dc dp K Hsc) as (dp' & v' & S & Hs & Hn & H).
  pose proof (still_dirs v v' sc dc others S Ks) as Ks'. exists dp', v'. split; [done |]. pose proof (still_entries v v' sc dc S K) as Ee.
  assert (forall s, table_end (fs v) <= s -> view v' s = view v s) as Hv' by (intros s Hs'; destruct (behind_table v s (dr_good _ _ _ K) Hs'); by apply (sl_view _ _ S)).
  assert (table_end (fs v') = table_end (fs v)) as Et by (by rewrite (layout_field table_end _ _ ltac:(done) (still_layout _ _ S))).
  assert (forall s, dir_sector (fs v') dc s <-> dir_sector (fs v) dc s) as Hds.
  { intros s. unfold dir_sector, room, fsect, sec_of. rewrite (still_field csize v v'), (still_field dirbase v v'), (still_field n_rootdir v v'), (still_field database v v') by done. done. }
  unfold named. destruct (search (d_fn dp) (entries v dc)) as [n |] eqn:Es.
  - pose proof Es as [(e & He & Hen & _) _]%search_spec. destruct H as (H & -> & Hw). destruct (entries_lookup _ _ _ _ He) as [Hlt Esl]. cbn [mbind option_bind]. rewrite He.
    split; [done |]. split; [by rewrite Esl |].
    set (dp' := set_attr _ dp). rewrite <- (still_at v v' dc (Z.of_nat n)) by done.
    destruct (dir_remove_ok v' sc dc others dp' (Z.of_nat n) Ks') as (v2 & E2 & Ks2 & _ & _ & He2 & V2); [rewrite (still_size v v') by done; lia |].
    exists v2. split; [done |]. split; [done |]. rewrite Ee, (still_slot v v' sc), <- Esl, Nat2Z.id in He2 by (done || lia). rewrite He2.
    destruct (remove_list (entries v dc) (d_fn dp) n e T Hf Es He) as [T2 Hm]. split; [done |]. split; [exact Hm |].
    intros s Hts Hd. rewrite V2; [by apply Hv' | by rewrite Et | by rewrite Hds].
  - cbn [mbind option_bind]. split; [done |]. destruct (dir_register_ok v' sc dc others dp' Ks') as [(v2 & dc' & n & k & E2 & Ks2 & _ & _ & _ & _ & _ & Hfs & He2 & V2) | (dp2 & v2 & E2 & S2 & Hfull)];
      [congruence | by rewrite Hn | |].
    + right. rewrite Ee, Hn in *. eexists _, v2, dc'. split; [done |]. split; [done |]. rewrite He2.
      destruct (register_list (entries v dc ++ replicate k blank_entry) (d_fn dp) n) as [T2 Hm]; [by apply tidy_blank | done | rewrite named_blank by done; unfold named; by rewrite Es | done |].
      split; [done |]. split.
      * intros m Hm'. specialize (Hm m Hm'). rewrite named_blank in Hm by done. exact Hm.
      * intros s Hts Hmi Hd. rewrite V2; [by apply Hv' | by rewrite Et | | by rewrite Hds]. intros Hx. apply Hmi. by apply (mine_layout (fs v')); [apply still_layout |].
    + left. exists dp2, v2. split; [done |]. split; [by apply (still_trans v v') |]. destruct Hfull as [H1 H2]. split; [by rewrite <- Ee |].
      destruct H2 as [? | [? | U]]; [by left | right; left; by rewrite <- (still_size v v') | right; right; by apply (all_used_still v v')].
Qed.

End Disk.

(** ** On the disk in memory *)

Lemma ram_dirs : dirs_ok ram_vol 0 [] [[2; 3]].
Proof.
  split; [| exact ram_clean]. split; [exact ram_good | exists 0; by split | intros _; cbn; done | done | done | apply NoDup_nil_2].
Qed.

Lemma ram_entries : entries ram_vol [] = replicate 80 blank_entry.
Proof. vm_compute. reflexivity. Qed.

Lemma tidy_nil : tidy [].
Proof. split; [intros e He; by apply not_elem_of_nil in He | intros i j e e' Hi; by rewrite lookup_nil in Hi | intros i j e e' fn Hi; by rewrite lookup_nil in Hi]. Qed.

(** LOG.TXT, the last segment of its path. *)
Definition log_txt : bytes := [76; 79; 71; 32; 32; 32; 32; 32; 84; 88; 84; 4].
Definition root_dir (fn : bytes) : DIR := mk_DIR 0 0 0 0 0 0 fn.

Lemma log_name : name_ok log_txt.
Proof. split; [done |]. split; [apply (bool_decide_unpack _); vm_compute; exact I | done]. Qed.

Lemma directory_map_witness :
  exists dp' v', still ram_vol v' /\ dir_find (root_dir log_txt) ram_vol = Some (FR_NO_FILE, dp', v')
    /\ ((exists dp2 v2, dir_register dp' v' = Some (FR_DENIED, dp2, v2) /\ still ram_vol v2 /\ full_table ram_vol [] [[2; 3]])
        \/ exists dp2 v2 dc', dir_register dp' v' = Some (FR_OK, dp2, v2) /\ dirs_ok v2 0 dc' [[2; 3]] /\ tidy (entries v2 dc')
             /\ (forall m, name_ok m -> named (entries v2 dc') m = if same_fn log_txt m then Some (new_entry log_txt) else named (entries ram_vol []) m)
             /\ (forall s, 5 <= s -> ~ mine (fs ram_vol) [[2; 3]] s -> ~ 5 <= s < 10 -> view v2 s = view ram_vol s)).
Proof.
  assert (tidy (entries ram_vol [])) as T by (rewrite ram_entries; exact (tidy_blank [] 80 tidy_nil)).
  destruct (directory_map ram_vol 0 [] [[2; 3]] (root_dir log_txt) ram_dirs T eq_refl log_name) as (dp' & v' & S & E & H).
  assert (named (entries ram_vol []) (d_fn (root_dir log_txt)) = None) as En by (rewrite ram_entries; vm_compute; reflexivity).
  rewrite En in E, H. exists dp', v'. split; [exact S |]. split; [exact E |]. exact H.
Defined.

(** Two names registered, the first one removed and the other one still found. *)
Definition config_txt : bytes := [67; 79; 78; 70; 73; 71; 32; 32; 84; 88; 84; 4].

Definition two_names : option (Z * Z * Z * Z * Z) :=
  '(r1, dp1, v) ← dir_register (root_dir log_txt) ram_vol;
  '(r2, dp2, v) ← dir_register (root_dir config_txt) v;
  '(_, dp, v) ← dir_find (root_dir log_txt) v;
  let '(_, v) := dir_remove dp v in
  '(r3, _, v) ← dir_find (root_dir log_txt) v;
  '(r4, dp, _) ← dir_find (root_dir config_txt) v;
  Some (r1, r2, r3, r4, dptr dp).

Example names_kept : two_names = Some (FR_OK, FR_OK, FR_NO_FILE, FR_OK, 32).
Proof. vm_compute. reflexivity. Qed.

End FatEntries.
