(* ===== verification/FatName.v ===== *)
(** * The FAT file system: names

    Models [create_name] and the name part of [get_fileinfo] of
    [system/src/ff15/source/ff.c] without long names, in code page 932 with its
    two-byte characters ([dbc_1st], [dbc_2nd]): from a segment of a path to the
    eleven bytes of an entry, and back.  A path is its bytes without the
    terminator. *)

From S2P Require Import Prelude FatTable FatFile FatDir FatEntries.

Module FatName.
Import FatTable FatFile FatDir FatEntries.

Definition FR_INVALID_NAME : Z := 6.

Definition NSFLAG : Z := 11.
Definition NS_LAST : Z := 0x04.
Definition NS_DOT : Z := 0x20.
Definition NS_NONAME : Z := 0x80.
Definition RDDEM : Z := 0x05.

Definition SPACE : Z := 32.
Definition DOT : Z := 46.

Definition IsLower (c : Z) : bool := (97 <=? c) && (c <=? 122).
Definition IsSeparator (c : Z) : bool := (c =? 47) || (c =? 92).

(** The ranges of the table [DbcTbl] for code page 932. *)
Definition dbc_1st (c : Z) : bool := (0x81 <=? c) && ((c <=? 0x9F) || ((0xE0 <=? c) && (c <=? 0xFC))).
Definition dbc_2nd (c : Z) : bool := (0x40 <=? c) && ((c <=? 0x7E) || ((0x80 <=? c) && (c <=? 0xFC))).

(** The characters that a short name may not have. *)
Definition illegal (c : Z) : bool := existsb (Z.eqb c) [42; 43; 44; 58; 59; 60; 61; 62; 91; 93; 124; 34; 63; 127].

Definition upper (c : Z) : Z := if IsLower c then c - 32 else c.

Fixpoint skip_separators (p : bytes) : bytes :=
  match p with [] => [] | c :: p' => if IsSeparator c then skip_separators p' else p end.

(** The loop over the bytes of a segment: [None] for an invalid name, or the byte
    that ended it, the index [i], the name and the rest of the path. *)
Fixpoint name_loop (p : bytes) (i ni : Z) (sfn : bytes) : option (Z * Z * bytes * bytes) :=
  match p with
  | [] => Some (0, i, sfn, [])
  | c :: p =>
    if c <=? SPACE then Some (c, i, sfn, p)
    else if IsSeparator c then Some (c, i, sfn, skip_separators p)
    else if (c =? DOT) || (ni <=? i) then
      if (ni =? 11) || negb (c =? DOT) then None else name_loop p 8 11 sfn
    else if dbc_1st c then
      match p with
      | [] => None
      | d :: p => if negb (dbc_2nd d) || (ni - 1 <=? i) then None else name_loop p (i + 2) ni (put_byte (i + 1) d (put_byte i c sfn))
      end
    else if illegal c then None
    else name_loop p (i + 1) ni (put_byte i (upper c) sfn)
  end.

Definition char_at (p : bytes) (i : Z) : Z := nth (Z.to_nat i) p 0.

(** The loop for a name of dots: how many there are, and the byte read last. *)
Definition dot_name (p : bytes) : Z * Z := if char_at p 1 =? DOT then (2, char_at p 2) else (1, char_at p 1).

(** The result, the name with its status byte, and the rest of the path.  After
    an error nobody reads the name. *)
Definition create_name (p : bytes) (fn : bytes) : Z * bytes * bytes :=
  let sfn := replicate 11 SPACE in
  if char_at p 0 =? DOT then
    let '(n, c) := dot_name p in
    if negb (IsSeparator c) && (SPACE <? c) then (FR_INVALID_NAME, fn, p)
    else (FR_OK, (replicate (Z.to_nat n) DOT ++ replicate (Z.to_nat (11 - n)) SPACE) ++ [if c <=? SPACE then NS_LAST .| NS_DOT else NS_DOT],
          drop (Z.to_nat (n + 1)) p)
  else
    match name_loop p 0 8 sfn with
    | None => (FR_INVALID_NAME, fn, p)
    | Some (c, i, sfn, rest) =>
      if i =? 0 then (FR_INVALID_NAME, fn, rest)
      else
        let sfn := if byte_at sfn 0 =? DDEM then put_byte 0 RDDEM sfn else sfn in
        (FR_OK, sfn ++ [if (c <=? SPACE) || (char_at rest 0 <=? SPACE) then NS_LAST else 0], rest)
    end.

(** The name of an entry as a directory listing shows it. *)
Fixpoint info_name (si : Z) (dir : bytes) : bytes :=
  match dir with
  | [] => []
  | c :: dir =>
    let si := si + 1 in
    if c =? SPACE then info_name si dir
    else (if si =? 9 then [DOT] else []) ++ (if c =? RDDEM then DDEM else c) :: info_name si dir
  end.

Definition file_name (e : bytes) : bytes := info_name 0 (take 11 e).

(** ** What [create_name] makes *)

Lemma name_loop_bytes n : forall p i ni sfn c j sfn' rest, (length p <= n)%nat -> name_loop p i ni sfn = Some (c, j, sfn', rest) ->
  length sfn' = length sfn /\ (is_bytes sfn -> is_bytes sfn') /\ (is_bytes sfn -> byte_at sfn 0 <> 0 -> is_bytes p -> 0 <= i -> (length sfn > 0)%nat -> byte_at sfn' 0 <> 0).
Proof.
  induction n as [| n IH]; intros p i ni sfn c j sfn' rest Hn H; (destruct p as [| x p]; cbn [name_loop length] in *; [by simplify_eq | try lia]).
  destruct (Z.leb_spec x SPACE); [by simplify_eq |]. destruct (IsSeparator x); [by simplify_eq |].
  destruct ((x =? DOT) || (ni <=? i)).
  { destruct ((ni =? 11) || negb (x =? DOT)); [done |]. apply IH in H as (H1 & H2 & H3); [| lia]. split; [done |]. split; [done |]. intros Hb Hz Hp Hi Hl. apply H3; try done. by inversion Hp. }
  assert (forall y k, 0 <= k -> (length sfn > 0)%nat -> is_u8 y -> y <> 0 -> byte_at sfn 0 <> 0 -> byte_at (put_byte k y sfn) 0 <> 0) as Hput.
  { intros y k Hk Hl Hy Hy0 Hs. destruct (decide (k < Z.of_nat (length sfn))) as [Hlt | Hge].
    - rewrite byte_at_put by lia. destruct (Z.eqb_spec 0 k); [rewrite u8_id by exact Hy; exact Hy0 | exact Hs].
    - unfold put_byte. by rewrite list_insert_ge by lia. }
  destruct (dbc_1st x).
  - destruct p as [| d p]; [done |]. destruct (negb (dbc_2nd d) || (ni - 1 <=? i)) eqn:Ed; [done |]. cbn [length] in Hn. apply IH in H as (H1 & H2 & H3); [| lia].
    rewrite !put_byte_length in *. split; [done |]. split; [intros Hb; by apply H2, put_byte_bytes, put_byte_bytes |]. intros Hb Hz Hp Hi Hl. inversion Hp as [| ? ? Hx Hp']. inversion Hp' as [| ? ? Hd Hp'']. subst.
    apply H3; [by apply put_byte_bytes, put_byte_bytes | | done | lia | done]. unfold SPACE in *.
    destruct (decide (i + 1 < Z.of_nat (length sfn))) as [Hlt | Hge].
    + rewrite byte_at_put by (rewrite ?put_byte_length; lia). rewrite (proj2 (Z.eqb_neq 0 (i + 1))) by lia. apply Hput; (done || lia).
    + unfold put_byte at 1. rewrite list_insert_ge by (rewrite put_byte_length; lia). apply Hput; (done || lia).
  - destruct (illegal x); [done |]. apply IH in H as (H1 & H2 & H3); [| lia]. rewrite !put_byte_length in *. split; [done |]. split; [intros Hb; by apply H2, put_byte_bytes |].
    intros Hb Hz Hp Hi Hl. inversion Hp as [| ? ? Hx Hp']. subst. apply H3; [by apply put_byte_bytes | | done | lia | done]. unfold SPACE, is_u8 in *.
    apply Hput; try done; unfold upper, IsLower, is_u8; case_match eqn:E; lia.
Qed.

Lemma create_name_ok p fn fn' rest : is_bytes p -> create_name p fn = (FR_OK, fn', rest) -> name_ok fn'.
Proof.
  intros Hp H. unfold create_name in H. destruct (char_at p 0 =? DOT).
  - unfold dot_name in H. assert (forall x, is_u8 (if x <=? SPACE then NS_LAST .| NS_DOT else NS_DOT)) as Hf by (intros x; unfold is_u8; destruct (x <=? SPACE); apply (bool_decide_unpack _); vm_compute; exact I).
    assert (forall n, is_bytes (replicate n DOT) /\ is_bytes (replicate n SPACE)) as Hr by (intros n; split; apply Forall_replicate; unfold is_u8, DOT, SPACE; lia).
    destruct (char_at p 1 =? DOT); (case_match; [done |]); simplify_eq; (split; [done |]; split; [| done]);
      cbn; repeat (apply list.Forall_cons; split); try apply Hf; try apply list.Forall_nil; try done; unfold is_u8, DOT, SPACE; lia.
  - destruct (name_loop p 0 8 (replicate 11 SPACE)) as [[[[c i] sfn] r] |] eqn:E; [| done]. destruct (i =? 0); [done |].
    assert (is_bytes (replicate 11 SPACE)) as Hr by (apply Forall_replicate; unfold is_u8, SPACE; lia).
    destruct (name_loop_bytes _ _ _ _ _ _ _ _ _ (le_n _) E) as (Hl & Hb & H0). rewrite length_replicate in Hl. specialize (Hb Hr). specialize (H0 Hr ltac:(done) Hp ltac:(lia) ltac:(cbn; lia)).
    set (s := if byte_at sfn 0 =? DDEM then put_byte 0 RDDEM sfn else sfn) in *. assert (length s = 11%nat /\ is_bytes s /\ byte_at s 0 <> 0 /\ byte_at s 0 <> DDEM) as (S1 & S2 & S3 & S4).
    { unfold s. destruct (Z.eqb_spec (byte_at sfn 0) DDEM) as [Ed | Ed]; [| done]. rewrite put_byte_length. split; [done |]. split; [by apply put_byte_bytes |]. rewrite byte_at_put, Z.eqb_refl by lia. done. }
    simplify_eq. split; [by rewrite length_app, S1 |]. split; [apply Forall_app; split; [done |]; apply list.Forall_singleton; unfold is_u8; case_match; apply (bool_decide_unpack _); vm_compute; exact I |].
    rewrite byte_at_app by lia. rewrite (proj2 (Z.ltb_lt _ _)) by lia. done.
Qed.

(** ** The characters of a name *)

(** A character of one byte or of two. *)
Inductive char := Sb (c : Z) | Db (c d : Z).

Definition bytes_of (u : char) : bytes := match u with Sb c => [c] | Db c d => [c; d] end.
Definition flat (us : list char) : bytes := concat (bytes_of <$> us).

Definition char_ok (u : char) : Prop :=
  match u with
  | Sb c => SPACE < c < 256 /\ IsSeparator c = false /\ c <> DOT /\ dbc_1st c = false /\ illegal c = false /\ IsLower c = false
  | Db c d => dbc_1st c = true /\ dbc_2nd d = true
  end.

Lemma dbc_range c d : dbc_1st c = true -> dbc_2nd d = true -> (0x81 <= c < 256 /\ IsSeparator c = false) /\ 0x40 <= d < 256.
Proof. unfold dbc_1st, dbc_2nd, IsSeparator. intros H1 H2. lia. Qed.

(** No byte of a name is a space, the mark 0x05 or a dot at the start of a character. *)
Lemma flat_bytes us : Forall char_ok us -> Forall (fun c => SPACE < c < 256) (flat us).
Proof.
  induction 1 as [| u us Hu _ IH]; [by constructor |]. unfold flat. cbn [fmap list_fmap concat]. apply Forall_app. split; [| exact IH].
  destruct u as [c | c d]; cbn [bytes_of char_ok] in *; [constructor; [apply Hu | constructor] |]. destruct Hu as [H1 H2]. destruct (dbc_range c d H1 H2) as [[Hc _] Hd].
  unfold SPACE. constructor; [lia |]. constructor; [lia | constructor].
Qed.

Lemma flat_cons u us : flat (u :: us) = bytes_of u ++ flat us.
Proof. done. Qed.

Lemma splice_cons i x xs (b : bytes) : 0 <= i < Z.of_nat (length b) -> is_u8 x -> splice (i + 1) xs (put_byte i x b) = splice i (x :: xs) b.
Proof.
  intros Hi Hx. unfold splice, put_byte. rewrite u8_id by done. replace (Z.to_nat (i + 1)) with (S (Z.to_nat i)) by lia.
  rewrite drop_insert_lt by lia. cbn [length]. replace (Z.to_nat i + S (length xs))%nat with (S (Z.to_nat i) + length xs)%nat by lia.
  assert (take (S (Z.to_nat i)) (<[Z.to_nat i:=x]> b) = take (Z.to_nat i) b ++ [x]) as ->; [| by rewrite <- app_assoc].
  rewrite (take_S_r _ _ x) by (rewrite list_lookup_insert_eq; [done | lia]). by rewrite take_insert_ge by lia.
Qed.

Lemma splice_none i (b : bytes) : 0 <= i -> splice i [] b = b.
Proof. intros Hi. unfold splice. cbn [length app]. rewrite Nat.add_0_r. apply take_drop. Qed.

Lemma name_loop_units us : forall i ni sfn tail, Forall char_ok us -> 0 <= i -> i + Z.of_nat (length (flat us)) <= ni -> ni <= Z.of_nat (length sfn) ->
  name_loop (flat us ++ tail) i ni sfn = name_loop tail (i + Z.of_nat (length (flat us))) ni (splice i (flat us) sfn).
Proof.
  induction us as [| u us IH]; intros i ni sfn tail Hus Hi Hn Hl; [cbn; by rewrite Z.add_0_r, splice_none |].
  apply list.Forall_cons in Hus as [Hu Hus]. rewrite flat_cons in *. rewrite <- app_assoc. rewrite length_app in Hn. destruct u as [c | c d]; cbn [bytes_of app char_ok length name_loop] in *.
  - destruct Hu as (H1 & H2 & H3 & H4 & H5 & H6). rewrite (proj2 (Z.leb_gt c _)), H2, (proj2 (Z.eqb_neq c DOT)), (proj2 (Z.leb_gt ni i)), H4, H5 by (done || lia). cbn [orb].
    unfold upper. rewrite H6. unfold SPACE in H1. rewrite IH by (rewrite ?put_byte_length; (done || lia)). rewrite splice_cons by (unfold is_u8; lia). f_equal. lia.
  - destruct Hu as [H1 H2]. destruct (dbc_range c d H1 H2) as [[Hc Hsep] Hd]. rewrite (proj2 (Z.leb_gt c _)), Hsep, (proj2 (Z.eqb_neq c DOT)), (proj2 (Z.leb_gt ni i)), H1, H2 by (unfold SPACE, DOT; lia).
    cbn [orb negb]. rewrite (proj2 (Z.leb_gt (ni - 1) i)) by lia. rewrite IH by (rewrite ?put_byte_length; (done || lia)).
    replace (i + 2) with (i + 1 + 1) by lia. rewrite splice_cons by (rewrite ?put_byte_length; unfold is_u8; lia). rewrite splice_cons by (unfold is_u8; lia). f_equal. lia.
Qed.

Lemma upper_ok x : is_u8 x -> SPACE < x -> IsSeparator x = false -> x <> DOT -> dbc_1st x = false -> illegal x = false -> char_ok (Sb (upper x)).
Proof.
  intros Hx Hs Hsep Hd Hdbc Hi. unfold upper. destruct (IsLower x) eqn:El; cbn [char_ok]; [| unfold is_u8 in Hx; split; [lia | done]]. unfold IsLower in El. unfold SPACE, DOT, is_u8 in *.
  split; [lia |]. unfold IsSeparator, dbc_1st, illegal, IsLower. cbn [existsb]. rewrite !(proj2 (Z.eqb_neq (x - 32) _)) by lia. split; [done |]. split; [lia |].
  split; [lia |]. split; [done | lia].
Qed.

(** Every name the loop makes has this form: the body, and the extension. *)
Lemma name_loop_inv n : forall p i ni sfn c j sfn' rest, (length p <= n)%nat -> is_bytes p -> ni = 8 \/ ni = 11 -> 0 <= i <= ni -> length sfn = 11%nat ->
  name_loop p i ni sfn = Some (c, j, sfn', rest) ->
  exists us es, Forall char_ok us /\ Forall char_ok es /\ i + Z.of_nat (length (flat us)) <= ni
    /\ ((j = i + Z.of_nat (length (flat us)) /\ es = [] /\ sfn' = splice i (flat us) sfn)
        \/ (ni = 8 /\ Z.of_nat (length (flat es)) <= 3 /\ (us = [] -> char_at p 0 = DOT) /\ sfn' = splice 8 (flat es) (splice i (flat us) sfn))).
Proof.
  induction n as [| n IH]; intros p i ni sfn c j sfn' rest Hn Hp Hni Hi Hl H; (destruct p as [| x p]; cbn [name_loop length] in *; try lia).
  1,2: simplify_eq; exists [], []; cbn; rewrite splice_none by lia; split; [done |]; split; [done |]; split; [lia |]; left; split; [lia | done].
  apply list.Forall_cons in Hp as [Hx Hp].
  assert (Some (x, i, sfn, p) = Some (c, j, sfn', rest) \/ Some (x, i, sfn, skip_separators p) = Some (c, j, sfn', rest) -> exists us es, Forall char_ok us /\ Forall char_ok es /\ i + Z.of_nat (length (flat us)) <= ni
    /\ ((j = i + Z.of_nat (length (flat us)) /\ es = [] /\ sfn' = splice i (flat us) sfn) \/ (ni = 8 /\ Z.of_nat (length (flat es)) <= 3 /\ (us = [] -> char_at (x :: p) 0 = DOT) /\ sfn' = splice 8 (flat es) (splice i (flat us) sfn)))) as Hend.
  { intros [E | E]; simplify_eq; exists [], []; cbn; rewrite splice_none by lia; (split; [done |]; split; [done |]; split; [lia |]; left; split; [lia | done]). }
  destruct (Z.leb_spec x SPACE) as [| Hsp]; [apply Hend; by left |]. destruct (IsSeparator x) eqn:Esep; [apply Hend; by right |]. clear Hend.
  destruct ((x =? DOT) || (ni <=? i)) eqn:Ed.
  { destruct ((ni =? 11) || negb (x =? DOT)) eqn:E11; [done |]. apply orb_false_iff in E11 as [E11%Z.eqb_neq Ex%negb_false_iff%Z.eqb_eq]. destruct Hni as [-> | ->]; [| done].
    apply IH in H as (us & es & H1 & H2 & H3 & [(H4 & -> & H5) | (H4 & _)]); try (done || lia). exists [], us. split; [constructor |]. split; [done |]. split; [cbn; lia |].
    right. split; [done |]. split; [lia |]. split; [done |]. cbn [flat fmap list_fmap concat]. rewrite (splice_none i) by lia. exact H5. }
  apply orb_false_iff in Ed as [Hdot%Z.eqb_neq Hlt%Z.leb_gt]. destruct (dbc_1st x) eqn:Edbc.
  - destruct p as [| d p]; [done |]. destruct (negb (dbc_2nd d) || (ni - 1 <=? i)) eqn:E2; [done |]. apply orb_false_iff in E2 as [E2%negb_false_iff Hlt2%Z.leb_gt]. cbn [length] in Hn.
    apply list.Forall_cons in Hp as [Hd Hp]. destruct (dbc_range x d Edbc E2) as [[Hxr _] Hdr].
    apply IH in H as (us & es & H1 & H2 & H3 & H4); try (done || lia); [| by rewrite !put_byte_length]. exists (Db x d :: us), es. rewrite flat_cons, length_app. cbn [bytes_of length app].
    split; [by constructor |]. split; [done |]. split; [lia |]. replace (i + 2) with (i + 1 + 1) in H4 by lia.
    rewrite splice_cons in H4 by (rewrite ?put_byte_length; unfold is_u8; lia). rewrite splice_cons in H4 by (unfold is_u8; lia).
    destruct H4 as [(-> & -> & ->) | (-> & H4 & _ & ->)]; [left; split; [lia | done] | right; done].
  - destruct (illegal x) eqn:Eill; [done |]. assert (is_u8 (upper x)) as Hu by (unfold upper, IsLower, is_u8 in *; case_match; lia).
    apply IH in H as (us & es & H1 & H2 & H3 & H4); try (done || lia); [| by rewrite !put_byte_length]. exists (Sb (upper x) :: us), es. rewrite flat_cons, length_app. cbn [bytes_of length app].
    split; [constructor; [by apply upper_ok | done] |]. split; [done |]. split; [lia |]. rewrite splice_cons in H4 by (done || lia). destruct H4 as [(-> & -> & ->) | (-> & H4 & _ & ->)]; [left; split; [lia | done] | right; done].
Qed.

(** The eleven bytes of a body and an extension. *)
Definition mark_first (sfn : bytes) : bytes := if byte_at sfn 0 =? DDEM then put_byte 0 RDDEM sfn else sfn.
Definition name11 (b e : bytes) : bytes := b ++ replicate (8 - length b) SPACE ++ e ++ replicate (3 - length e) SPACE.

Lemma splice_name b e : (length b <= 8)%nat -> (length e <= 3)%nat -> splice 8 e (splice 0 b (replicate 11 SPACE)) = name11 b e.
Proof.
  intros Hb He. unfold name11, splice. change (Z.to_nat 0) with 0%nat. change (Z.to_nat 8) with 8%nat. cbn [take app].
  rewrite take_0, !app_nil_l, drop_replicate, take_app_ge, take_replicate, drop_app_ge, drop_replicate, <- app_assoc by lia.
  do 2 f_equal; [f_equal; lia |]. do 2 f_equal. lia.
Qed.

Lemma splice_body b : (length b <= 8)%nat -> splice 0 b (replicate 11 SPACE) = name11 b [].
Proof. intros Hb. rewrite <- splice_name by (cbn; lia). by rewrite splice_none by lia. Qed.

Lemma create_name_form p fn fn' rest : is_bytes p -> char_at p 0 <> DOT -> create_name p fn = (FR_OK, fn', rest) ->
  exists us es, Forall char_ok us /\ Forall char_ok es /\ us <> [] /\ (length (flat us) <= 8)%nat /\ (length (flat es) <= 3)%nat
    /\ take 11 fn' = mark_first (name11 (flat us) (flat es)).
Proof.
  intros Hp Hd H. unfold create_name in H. rewrite (proj2 (Z.eqb_neq _ DOT)) in H by done.
  destruct (name_loop p 0 8 (replicate 11 SPACE)) as [[[[c i] sfn] r] |] eqn:E; [| done]. destruct (Z.eqb_spec i 0) as [| Hi]; [done |].
  destruct (name_loop_inv _ p 0 8 (replicate 11 SPACE) c i sfn r (le_n _) Hp) as (us & es & Hu & He & Hl & Hc); [by left | lia | done | done |].
  assert (take 11 fn' = mark_first sfn) as Ht.
  { destruct (name_loop_bytes _ _ _ _ _ _ _ _ _ (le_n _) E) as (Hls & _). rewrite length_replicate in Hls. unfold mark_first. simplify_eq. apply take_app_length'. by case_match; rewrite ?put_byte_length. }
  exists us, es. split; [done |]. split; [done |]. rewrite Ht. destruct Hc as [(-> & -> & ->) | (_ & Hle & Hne & ->)].
  - split; [by intros -> |]. split; [lia |]. split; [cbn; lia |]. by rewrite splice_body by lia.
  - split; [auto |]. split; [lia |]. split; [lia |]. by rewrite splice_name by lia.
Qed.

(** ** Names read from a directory *)

Lemma info_spaces n : forall si tail, info_name si (replicate n SPACE ++ tail) = info_name (si + Z.of_nat n) tail.
Proof. induction n as [| n IH]; intros si tail; [by rewrite Z.add_0_r |]. cbn [replicate app info_name Z.eqb Pos.eqb SPACE]. rewrite IH. f_equal. lia. Qed.

Lemma info_bytes b : forall si tail, Forall (fun c => SPACE < c < 256) b -> (si + Z.of_nat (length b) <= 8 \/ 9 <= si) ->
  info_name si (b ++ tail) = b ++ info_name (si + Z.of_nat (length b)) tail.
Proof.
  induction b as [| c b IH]; intros si tail Hb Hs; [by rewrite Z.add_0_r |]. apply list.Forall_cons in Hb as [Hc Hb]. cbn [app info_name length] in *. unfold SPACE in Hc.
  rewrite (proj2 (Z.eqb_neq c _)), (proj2 (Z.eqb_neq _ 9)), (proj2 (Z.eqb_neq c RDDEM)) by (unfold SPACE, RDDEM; lia). cbn [app]. rewrite IH by (done || lia). do 2 f_equal. f_equal. lia.
Qed.

Lemma info_ext e tail : Forall (fun c => SPACE < c < 256) e -> e <> [] -> info_name 8 (e ++ tail) = DOT :: e ++ info_name (8 + Z.of_nat (length e)) tail.
Proof.
  intros He Hne. destruct e as [| c e]; [done |]. apply list.Forall_cons in He as [Hc He]. cbn [app info_name]. unfold SPACE in Hc.
  rewrite (proj2 (Z.eqb_neq c _)), (proj2 (Z.eqb_neq c RDDEM)) by (unfold SPACE, RDDEM; lia). change (8 + 1 =? 9) with true. cbn [app]. rewrite info_bytes by (done || lia).
  cbn [length]. do 3 f_equal. f_equal. lia.
Qed.

(** The first byte is restored. *)
Lemma info_mark b tail : Forall (fun c => SPACE < c < 256) b -> b <> [] -> info_name 0 (mark_first (b ++ tail)) = info_name 0 (b ++ tail).
Proof.
  intros Hb Hne. destruct b as [| c b]; [done |]. apply list.Forall_cons in Hb as [Hc _]. unfold SPACE in Hc. unfold mark_first. change (byte_at ((c :: b) ++ tail) 0) with c.
  destruct (Z.eqb_spec c DDEM) as [-> |]; [| done]. done.
Qed.

Lemma info_name11 us es : Forall char_ok us -> Forall char_ok es -> us <> [] -> (length (flat us) <= 8)%nat ->
  info_name 0 (mark_first (name11 (flat us) (flat es))) = flat us ++ (if decide (flat es = []) then [] else DOT :: flat es).
Proof.
  intros Hu He Hne Hl. pose proof (flat_bytes us Hu) as Hub. pose proof (flat_bytes es He) as Heb.
  assert (flat us <> []) as Hf by (destruct us as [| [|] us]; done). unfold name11. rewrite info_mark, info_bytes, info_spaces by (done || lia). f_equal.
  replace (0 + Z.of_nat (length (flat us)) + Z.of_nat (8 - length (flat us))) with 8 by lia.
  assert (forall si n, info_name si (replicate n SPACE) = []) as Hz by (intros si n; rewrite <- (app_nil_r (replicate n SPACE)); by rewrite info_spaces).
  destruct (decide (flat es = [])) as [-> | Hes]; [by rewrite app_nil_l, Hz |]. by rewrite info_ext, Hz, app_nil_r.
Qed.

(** C35: A name that is read from a directory opens the entry it was read from:
    the name of an entry that was made from the segment of a path, in upper case
    and with its characters of two bytes, is made into the same eleven bytes
    again. *)
Theorem name_roundtrip p fn fn' rest : is_bytes p -> char_at p 0 <> DOT -> create_name p fn = (FR_OK, fn', rest) ->
  create_name (file_name fn') fn = (FR_OK, take 11 fn' ++ [NS_LAST], []) /\ (length (file_name fn') <= 12)%nat.
Proof.
  intros Hp Hd H. destruct (create_name_form p fn fn' rest Hp Hd H) as (us & es & Hu & He & Hne & Hlu & Hle & Hf). unfold file_name. rewrite Hf, info_name11 by done.
  assert (char_at (flat us ++ (if decide (flat es = []) then [] else DOT :: flat es)) 0 <> DOT) as Hd'.
  { destruct us as [| u us]; [done |]. apply list.Forall_cons in Hu as [Hu _]. rewrite flat_cons. destruct u as [c | c d]; cbn [bytes_of app char_ok] in *; change (c <> DOT).
    - apply Hu.
    - destruct Hu as [H1 H2]. destruct (dbc_range c d H1 H2) as [[Hc _] _]. unfold DOT. lia. }
  unfold create_name. rewrite (proj2 (Z.eqb_neq _ DOT)) by done. assert (0 < Z.of_nat (length (flat us))) as Hpos by (destruct us as [| [|] us]; cbn; (done || lia)).
  rewrite name_loop_units by (rewrite ?length_replicate; (done || lia)). rewrite Z.add_0_l, splice_body by done. destruct (decide (flat es = [])) as [Ee | Ee].
  - cbn [name_loop]. rewrite (proj2 (Z.eqb_neq _ 0)) by lia. rewrite Ee, app_nil_r. split; [done | lia].
  - cbn [name_loop]. change (DOT <=? SPACE) with false. change (IsSeparator DOT) with false. change (DOT =? DOT) with true. cbn [orb negb Z.eqb Pos.eqb].
    rewrite <- (app_nil_r (flat es)) at 1. assert (Z.of_nat (length (name11 (flat us) [])) = 11) as Hl11.
    { unfold name11. rewrite !length_app, !length_replicate. cbn [length]. lia. }
    rewrite name_loop_units by (done || lia). cbn [name_loop]. rewrite (proj2 (Z.eqb_neq _ 0)) by lia. rewrite <- splice_body, splice_name by done. split; [done |].
    rewrite length_app. cbn [length]. lia.
Qed.

(** "sd.Txt/x", with a character of two bytes that starts with the deletion mark
    in front. *)
Definition some_path : bytes := [0xE5; 0x5C; 115; 100; 46; 84; 120; 116; 47; 120].

Lemma name_roundtrip_witness :
  create_name [0xE5; 0x5C; 83; 68; 46; 84; 88; 84] [] = (FR_OK, [5; 0x5C; 83; 68; 32; 32; 32; 32; 84; 88; 84; NS_LAST], []) /\ (8 <= 12)%nat.
Proof.
  refine (name_roundtrip some_path [] [5; 0x5C; 83; 68; 32; 32; 32; 32; 84; 88; 84; 0] [120] _ _ _).
  - apply (bool_decide_unpack _). vm_compute. exact I.
  - vm_compute. discriminate.
  - vm_compute. reflexivity.
Defined.

(** A path with a trailing dot or a third extension byte too many; a name of nine
    characters; a dot name. *)
Example names_made :
  (create_name [65; 46] [] = (FR_OK, [65] ++ replicate 10 32 ++ [NS_LAST], []))
  /\ (create_name [65; 46; 65; 66; 67; 68] []).1.1 = FR_INVALID_NAME
  /\ (create_name (replicate 9 65) []).1.1 = FR_INVALID_NAME
  /\ create_name [46; 46; 47; 65] [] = (FR_OK, [46; 46] ++ replicate 9 32 ++ [NS_DOT], [65]).
Proof. vm_compute. done. Qed.

End FatName.
