(* ===== verification/FatOnCard.v ===== *)
(** * The FAT file system on the SD card

    The driver of [SdCard.v] is a disk for the file system of [FatTable.v], over
    any bus; with the card of [SdCardModel.v] on the bus it is a disk of sectors,
    so that the theorems about tables, chains and files hold down to the bytes on
    the bus. *)

From S2P Require Import Prelude SdCard SdCardModel FatTable FatChain FatFile FatTransfer FatSeek FatSync.

Module FatOnCard.
Import SdCard.

Definition is_ok (r : DRESULT) : bool := match r with RES_OK => true | _ => false end.

(** The calls the file system makes of its drive 0.  A status is computed anew in
    every call, so that the stored one need not be kept here. *)
#[global] Instance sd_io {W} {SB : SdBus W} : FatTable.DiskIo (disk (W := W)) := {
  disk_read s n d := let '(r, b, d) := disk_read 0 s n d in (is_ok r, b, d);
  disk_write b s n d := let '(r, d) := disk_write 0 b s n d in (is_ok r, d);
  disk_sync d := match disk_ioctl 0 CTRL_SYNC d with Some (r, _, d) => (is_ok r, d) | None => (false, d) end;
  disk_status d := (disk_status 0 d).1;
}.

(** ** Disks with the same sectors *)

Module Transfer.
Import FatTable FatChain FatFile FatTransfer FatSeek FatSync.
Section Disks.
Context {D1 D2 : Type} {I1 : DiskIo D1} {I2 : DiskIo D2} {S1 : SectorDisk D1} {S2 : SectorDisk D2}.
Context (f : FATFS) (d1 : D1) (d2 : D2).
Hypothesis Hready : disk_ready d2.
Hypothesis Hsize : disk_size (D := D1) <= disk_size (D := D2).
Hypothesis Hsame : forall i, sector d2 i = sector d1 i.
Local Abbreviation v1 := (mk_vol f d1).
Local Abbreviation v2 := (mk_vol f d2).

Lemma transfer_view s : view v2 s = view v1 s.
Proof using Hsame. unfold view. cbn [fs dk]. by rewrite Hsame. Qed.

Lemma transfer_table c : table v2 c = table v1 c.
Proof using Hsame.
  unfold table. cbn [fs]. apply entry_ext; intros; unfold fat_byte; cbn [fs]; by rewrite !transfer_view.
Qed.

Lemma transfer_good : good v1 -> good v2.
Proof using Hready Hsize Hsame.
  intros [[G1 G2 G3 G4 G5 G6 G7 G8] _ Hw [Hs Hm] Hc]. split; cbn [fs dk] in *; try done.
  - split; (done || lia).
  - split; [lia | done].
  - rewrite Hsame. exact Hc.
Qed.

Lemma transfer_clean files : clean v1 files -> clean v2 files.
Proof using Hready Hsize Hsame.
  intros [G Hc Hn Hf Hk Hl]. split; try done; [by apply transfer_good | |].
  - intros l H. destruct (Hc l H) as [Hne Hch]. split; [done |]. apply (chain_ext (table v1)); [| done]. intros c _. apply transfer_table.
  - intros c Hv Hin. rewrite transfer_table. by apply Hf.
Qed.

Lemma transfer_file fp cs data others : file_ok v1 fp cs data others -> file_ok v2 fp cs data others.
Proof using Hready Hsize Hsame.
  intros [Hval [Hcl Hp Hw] [Hb Hd Hc Ht Hr Hby] P Hs]. split; try done.
  - split; [by apply transfer_clean | done | done].
  - split; try done; cbn [fs dk] in *.
    + intros H. destruct (Hc H) as [H0 | (H1 & H2 & H3)]; [by left | right]. rewrite Hsame. split; [lia | done].
    + intros i Hi. rewrite Ht by done. unfold seen. by rewrite Hsame.
Qed.

Lemma transfer_entry fp others : entry_ok (D := D1) f fp others -> entry_ok (D := D2) f fp others.
Proof using Hsize. intros [[H1 H2] H3]. split; [split; [lia | done] | done]. Qed.

End Disks.

End Transfer.

(** ** The card *)

Section Card.
Context (block_addr : bool) (csd : bytes) (ncr nac nbusy : nat).
#[local] Set Default Proof Using "All".
Hypothesis Hncr : (ncr <= 9)%nat.
Hypothesis Hnac : (nac < 1000)%nat.
Hypothesis Hbusy : (nbusy < 5000)%nat.
Import SdCardModel.
#[local] Instance bus_card : SdBus sd_card := spi_card block_addr csd ncr nac nbusy.

Definition card_ready (d : disk (W := sd_card)) : Prop :=
  ready_disk block_addr nbusy d /\ forall i, is_bytes (mem (card (spi d)) i).

(** A flush waits until the card is not busy. *)
Lemma sync_card d : ready_disk block_addr nbusy d ->
  exists d', disk_ioctl 0 CTRL_SYNC d = Some (RES_OK, None, d') /\ ready_disk block_addr nbusy d' /\ mem (card (spi d')) = mem (card (spi d)).
Proof.
  intros [Hst Hb Hsd Hon]. unfold disk_ioctl, disk_status. cbn [negb Z.eqb]. assert (card_inserted (card (spi d)) = true) as -> by done.
  rewrite Hst. change (Z.ldiff 0 STA_NODISK) with 0. change (test_mask 0 STA_NOINIT) with false. cbv iota.
  cbn [spi]. destruct (spi d) as [s lg] eqn:Espi. cbn [card] in *. destruct Hon as [Hs Happ Hidle Hblk]. pose proof Hs as (Hc & Hm & _).
  destruct (select_settled block_addr csd ncr nac nbusy Hncr Hnac Hbusy s Hs lg) as [lg1 E]. change bus_card with (the_card block_addr csd ncr nac nbusy). rewrite E.
  cbn [mbind option_bind]. destruct (deselect_moves block_addr csd ncr nac nbusy Hncr Hnac Hbusy (set_cs true (set_out [] s)) lg1) as [lg2 E2]. rewrite E2.
  eexists. split; [done |]. split; [| done]. split; try done. split; try done. by apply (settled_empty block_addr csd ncr nac nbusy Hncr Hnac Hbusy).
Qed.

(** The card as a disk of sectors, as many as a 32-bit address reaches. *)
#[local, refine] Instance sd_disk : FatTable.SectorDisk (disk (W := sd_card)) := {
  disk_ready := card_ready;
  disk_size := if block_addr then 2 ^ 32 - 1 else 2 ^ 23;
  sector d := mem (card (spi d));
}.
Proof.
  - intros d s [[_ _ _ [_ _ _ Hw]] Hb]. split; [apply Hw | apply Hb].
  - destruct block_addr; lia.
  - intros s n d [Hd Hb] H0 H1 H2. assert (in_range block_addr s n) as Hr by (unfold in_range; destruct block_addr; lia).
    destruct (request_refines block_addr csd ncr nac nbusy Hncr Hnac Hbusy (Read s n) d (mem (card (spi d))) Hr) as (d' & E & Hd' & Hm); [done |].
    cbn [disk_step array_step fst snd] in *. exists d'. cbn [FatTable.disk_read sd_io]. change bus_card with (card_bus block_addr csd ncr nac nbusy). rewrite E.
    split; [done |]. split; [split; [done | intros i; rewrite Hm; apply Hb] | done].
  - intros b s n d [Hd Hb] H0 H1 H2 Hl Hby. assert (in_range block_addr s n) as Hr by (unfold in_range; destruct block_addr; lia).
    assert (n < 2 ^ 32) as Hn by (destruct block_addr; lia). assert (length b = (512 * Z.to_nat n)%nat) as Hlen by lia.
    destruct (request_refines block_addr csd ncr nac nbusy Hncr Hnac Hbusy (Write s n b) d (mem (card (spi d))) (conj Hr (conj Hn Hlen))) as (d' & E & Hd' & Hm); [done |].
    cbn [disk_step array_step fst snd] in *. change (card_bus block_addr csd ncr nac nbusy) with bus_card in E. destruct (disk_write 0 b s n d) as [r d1] eqn:Ew. injection E as -> ->. exists d'. cbn [FatTable.disk_write sd_io]. rewrite Ew.
    split; [done |]. split; [split; [done |] |]; intros i; rewrite Hm; unfold array_write.
    + destruct ((s <=? i) && (i <? s + n)); [by apply Forall_take, Forall_drop | apply Hb].
    + by destruct ((s <=? i) && (i <? s + n)).
  - intros d [Hd Hb]. destruct (sync_card d Hd) as (d' & E & Hd' & Hm). exists d'. cbn [FatTable.disk_sync sd_io]. rewrite E.
    split; [done |]. split; [split; [done | by rewrite Hm] | by rewrite Hm].
  - intros d [[Hst _ _ _] _]. cbn [FatTable.disk_status sd_io]. unfold disk_status. cbn [negb Z.eqb]. by rewrite Hst.
Defined.

Import FatTable FatFile FatSync.

(** The card holds the sectors of a disk, all of them in reach of an address. *)
Definition card_holds {D} {DI : DiskIo D} {SD : SectorDisk D} (image : D) (d : disk (W := sd_card)) : Prop :=
  disk_size (D := D) <= (if block_addr then 2 ^ 32 - 1 else 2 ^ 23) /\ forall i, mem (card (spi d)) i = sector image i.

(** C7: Files on the card: when the card is switched on with a volume in its
    memory, the driver initialises it, and a sequence of calls on an open file of
    the volume, down to the bytes on the bus, gives the results of an array of
    bytes; the data that is not in the buffer of the file object is in the card's
    memory.  [image] is the content of the card. *)
Theorem files_on_card {D} {DI : DiskIo D} {SD : SectorDisk D} (image : D) (d : disk (W := sd_card)) f fp cs data others ops :
  Stat d = STA_NOINIT -> powered nbusy (card (spi d)) -> card_holds image d -> file_ok (mk_vol f image) fp cs data others -> entry_ok (D := D) f fp others ->
  Forall call_ok ops ->
  exists d' rs fp' f' d2 cs' data', disk_initialize 0 d = (0, d') /\ calls ops fp (mk_vol f d') = Some (rs, fp', mk_vol f' d2)
    /\ array_steps (capacity (mk_vol f d') others) (test_mask (flag fp) FA_READ) (test_mask (flag fp) FA_WRITE) ops (data, fptr fp) rs (data', fptr fp')
    /\ forall i, 0 <= i < Z.of_nat (length data') -> dirty fp' = false \/ sect fp' <> fsect f' cs' (i / 512) ->
         byte_at data' i = byte_at (mem (card (spi d2)) (fsect f' cs' (i / 512))) (i mod 512).
Proof.
  intros Hst Hp [Hsize Hm] F En Ho. destruct (initialize_card block_addr csd ncr nac nbusy Hncr Hnac Hbusy d Hst Hp) as (d' & E & Hd & Hmem).
  assert (forall i, mem (card (spi d')) i = sector image i) as Hm' by (intros i; by rewrite Hmem).
  assert (card_ready d') as Hr.
  { split; [done |]. intros i. rewrite Hm'. by apply sector_length, (good_disk (mk_vol f image)), (vo_good _ _ _ (fo_vol _ _ _ _ _ F)). }
  pose proof (Transfer.transfer_file f image d' Hr Hsize Hm' fp cs data others F) as F'.
  destruct (calls_refine ops (mk_vol f d') fp cs data others F' (Transfer.transfer_entry (S2 := sd_disk) f Hsize fp others En) Ho)
    as (rs & fp' & [f' d2] & cs' & data' & Ec & Hs & F2 & _).
  exists d', rs, fp', f', d2, cs', data'. split; [done |]. split; [done |]. split; [done |]. exact (file_stored (mk_vol f' d2) fp' cs' data' others F2).
Qed.

End Card.

Import FatTable FatFile FatSync.

(** The volume of [ram_vol] on a card with block addresses, read and written over
    the bus. *)
Definition card_off : disk (W := SdCardModel.sd_card) :=
  mk_disk SdCard.STA_NOINIT 0 (mk_bus (SdCardModel.mk_card false [] [] SdCardModel.Ready false true 3 ram_sectors) []).
#[local] Instance card_on_bus : SdBus SdCardModel.sd_card := SdCardModel.spi_card true csd_v2 2 10 20.

Definition card_calls : list file_op := [Seek 505; FatSync.Write (seqZ 1 20); Flush 0; Seek 510; FatSync.Read 6].

Lemma files_on_card_witness :
  exists d' rs fp' f' d2 cs' data', disk_initialize 0 card_off = (0, d') /\ calls card_calls (ram_fil 3) (mk_vol (fs ram_vol) d') = Some (rs, fp', mk_vol f' d2)
    /\ array_steps (512 * 398) true true card_calls (replicate 600 0, 0) rs (data', fptr fp')
    /\ forall i, 0 <= i < Z.of_nat (length data') -> dirty fp' = false \/ sect fp' <> fsect f' cs' (i / 512) ->
         byte_at data' i = byte_at (SdCardModel.mem (card (spi d2)) (fsect f' cs' (i / 512))) (i mod 512).
Proof.
  apply (files_on_card true csd_v2 2 10 20 ltac:(lia) ltac:(lia) ltac:(lia) (dk ram_vol) card_off (fs ram_vol) (ram_fil 3) [2; 3] (replicate 600 0) [] card_calls).
  - reflexivity.
  - split; [split; [reflexivity | split; [reflexivity | exists 0%nat; split; [lia | reflexivity]]] | reflexivity | simpl; lia |].
    intros a. apply ram_good.
  - split; [simpl; lia | reflexivity].
  - exact (ram_file_ok 3 eq_refl).
  - exact (ram_entry_ok 3).
  - repeat constructor; cbn; lia.
Defined.

(** The replies, from the bytes on the bus. *)
Example card_replies : ((fun r => r.1.1) <$> calls card_calls (ram_fil 3) (mk_vol (fs ram_vol) (disk_initialize 0 card_off).2)) =
  Some [(0, [], 0); (0, [], 20); (0, [], 0); (0, [], 0); (0, [6; 7; 8; 9; 10; 11], 0)].
Proof. vm_compute. reflexivity. Qed.
End FatOnCard.
