(* ===== verification/Bma2.v ===== *)
(** * The accelerometer driver

    Models the functions of [system/src/BMA2-Sensor-API-master/bma2.c] that the
    sensor service uses: register access, power modes, configuration, interrupts,
    the FIFO and the self-test.

    The bus is the interface [BmaBus] with one transfer per call.  A driver
    function is a computation with the outcomes of the C code: an error code, a
    result, or undefined behaviour ([None]).  Delays have no effect here. *)

From S2P Require Import Prelude Statistics.

Module Bma2.
Import Statistics.

(** ** The bus and the device *)

(** A read returns whether the transfer succeeded and what the buffer holds
    afterwards; a write sends one byte to a register. *)
Class BmaBus (W : Type) := {
  bma_read : Z -> nat -> W -> bool * bytes * W;
  bma_write : Z -> Z -> W -> bool * W }.

Definition BMA2_OK : Z := 0.
Definition BMA2_E_NULL_PTR : Z := -1.
Definition BMA2_E_COM_FAIL : Z := -2.
Definition BMA2_E_INVALID_POWERMODE : Z := -4.
Definition BMA2_E_INVALID_CONFIG : Z := -5.
Definition BMA2_E_RW_LEN_INVALID : Z := -6.
Definition BMA2_E_FIFO_FRAME_EMPTY : Z := -7.
Definition BMA2_E_OUT_OF_RANGE : Z := -10.
Definition BMA2_W_NO_NEW_AVAILABLE : Z := 1.

Definition BMA2_NORMAL_MODE : Z := 0x00.
Definition BMA2_DEEP_SUSPEND_MODE : Z := 0x01.
Definition BMA2_LOW_POWER_MODE_1 : Z := 0x02.
Definition BMA2_SUSPEND_MODE : Z := 0x04.
Definition BMA2_LOW_POWER_MODE_2 : Z := 0x0A.
Definition BMA2_STANDBY_MODE : Z := 0x0C.

Definition BMA2_REG_BGW_CHIPID : Z := 0x00.
Definition BMA2_REG_ACCD_X_LSB : Z := 0x02.
Definition BMA2_REG_ACCD_TEMP : Z := 0x08.
Definition BMA2_REG_INT_STATUS_0 : Z := 0x09.
Definition BMA2_REG_FIFO_STATUS : Z := 0x0E.
Definition BMA2_REG_PMU_RANGE : Z := 0x0F.
Definition BMA2_REG_PMU_LPW : Z := 0x11.
Definition BMA2_REG_LOW_NOISE : Z := 0x12.
Definition BMA2_REG_ACCD_HBW : Z := 0x13.
Definition BMA2_REG_BGW_SOFT_RESET : Z := 0x14.
Definition BMA2_REG_INT_EN_0 : Z := 0x16.
Definition BMA2_REG_INT_MAP_0 : Z := 0x19.
Definition BMA2_REG_INT_OUT_CTRL : Z := 0x20.
Definition BMA2_REG_INT_RST_LATCH : Z := 0x21.
Definition BMA2_REG_FIFO_CONFIG_0 : Z := 0x30.
Definition BMA2_REG_PMU_SELF_TEST : Z := 0x32.
Definition BMA2_REG_FIFO_CONFIG_1 : Z := 0x3E.
Definition BMA2_REG_FIFO_DATA : Z := 0x3F.

Definition BMA2_SOFT_RESET_CMD : Z := 0xB6.
Definition BMA2_BMA223_CHIP_ID : Z := 0xF8.
Definition BMA2_BMA280_CHIP_ID : Z := 0xFB.
Definition BMA2_BMA253_CHIP_ID : Z := 0xFA.

(** Bit fields: mask and position. *)
Definition BMA2_SET_BITS (msk pos reg data : Z) : Z := Z.ldiff reg msk .| (Z.shiftl data pos .& msk).
Definition BMA2_GET_BITS (msk pos reg : Z) : Z := Z.shiftr (reg .& msk) pos.
Definition BMA2_SET_BIT_VAL_0 (msk reg : Z) : Z := Z.ldiff reg msk.

(** [struct bma2_dev]: [enabled] says that the function pointers are set. *)
Record dev (W : Type) := mk_dev {
  enabled : bool; chip_id : Z; intf_rslt : Z; resolution : Z;
  maximum_val : Z; negating_val : Z; shift_value : Z; power_mode : Z; chip : W }.
Arguments mk_dev {W} _ _ _ _ _ _ _ _ _.
Arguments enabled {W} _.
Arguments chip_id {W} _.
Arguments intf_rslt {W} _.
Arguments resolution {W} _.
Arguments maximum_val {W} _.
Arguments negating_val {W} _.
Arguments shift_value {W} _.
Arguments power_mode {W} _.
Arguments chip {W} _.

Record bma2_acc_conf := mk_acc_conf { range : Z; bw : Z; shadow_dis : Z; data_high_bw : Z }.
Record bma2_int_pin := mk_int_pin { int1_lvl : Z; int1_od : Z; int2_lvl : Z; int2_od : Z; latch_int : Z }.
Record bma2_fifo_frame := mk_fifo {
  data : bytes; length_ : Z; fifo_data_select : Z; fifo_mode_select : Z; wm_level : Z;
  fifo_frame_count : Z; fifo_overrun : Z }.

(** ** Computations *)

Section driver.
Context {W : Type} {BB : BmaBus W}.

Definition E (A : Type) : Type := dev W -> option ((Z + A) * dev W).
Definition ret {A} (a : A) : E A := fun d => Some (inr a, d).
Definition fail {A} (rslt : Z) : E A := fun d => Some (inl rslt, d).
Definition bind {A B} (m : E A) (k : A -> E B) : E B := fun d =>
  '(r, d) ← m d; match r with inl e => Some (inl e, d) | inr a => k a d end.
Notation "'let!' x ':=' m 'in' k" := (bind m (fun x => k)) (at level 10, x pattern, m at level 100, k at level 200).
Notation "m ;; k" := (bind m (fun _ => k)) (at level 100, right associativity).

(** Reading and changing the device structure. *)
Definition gets {A} (f : dev W -> A) : E A := fun d => Some (inr (f d), d).
Definition modify (f : dev W -> dev W) : E unit := fun d => Some (inr tt, f d).

Definition set_chip (w : W) (d : dev W) : dev W :=
  mk_dev (enabled d) (chip_id d) (intf_rslt d) (resolution d) (maximum_val d) (negating_val d) (shift_value d) (power_mode d) w.
Definition set_intf (r : Z) (d : dev W) : dev W :=
  mk_dev (enabled d) (chip_id d) r (resolution d) (maximum_val d) (negating_val d) (shift_value d) (power_mode d) (chip d).
Definition set_mode (m : Z) (d : dev W) : dev W :=
  mk_dev (enabled d) (chip_id d) (intf_rslt d) (resolution d) (maximum_val d) (negating_val d) (shift_value d) m (chip d).
Definition set_resolution (r : Z) (d : dev W) : dev W :=
  mk_dev (enabled d) (chip_id d) (intf_rslt d) r (maximum_val d) (negating_val d) (shift_value d) (power_mode d) (chip d).
Definition set_conversion (mx ng sh : Z) (d : dev W) : dev W :=
  mk_dev (enabled d) (chip_id d) (intf_rslt d) (resolution d) mx ng sh (power_mode d) (chip d).
Definition set_chip_id (i : Z) (d : dev W) : dev W :=
  mk_dev (enabled d) i (intf_rslt d) (resolution d) (maximum_val d) (negating_val d) (shift_value d) (power_mode d) (chip d).

(** ** Register access *)

Definition null_ptr_check (d : dev W) : Z := if enabled d then BMA2_OK else BMA2_E_NULL_PTR.

(** The result and the buffer. *)
Definition get_regs (reg : Z) (length : nat) (d : dev W) : Z * bytes * dev W :=
  if negb (null_ptr_check d =? BMA2_OK) then (BMA2_E_NULL_PTR, [], d)
  else if (0 <? length)%nat then
    let '(ok, buf, w) := bma_read reg length (chip d) in
    let d := set_intf (if (ok : bool) then 0 else BMA2_E_COM_FAIL) (set_chip w d) in
    (if negb (intf_rslt d =? 0) then BMA2_E_COM_FAIL else BMA2_OK, buf, d)
  else (BMA2_E_RW_LEN_INVALID, [], d).
Definition bma2_get_regs (reg : Z) (length : nat) : E bytes := fun d =>
  let '(rslt, buf, d) := get_regs reg length d in Some (if rslt =? BMA2_OK then inr buf else inl rslt, d).

Fixpoint write_each (reg : Z) (l : bytes) (rslt : Z) (d : dev W) : Z * dev W :=
  match l with
  | [] => (rslt, d)
  | b :: l =>
      if intf_rslt d =? 0 then
        let '(ok, w) := bma_write reg b (chip d) in
        let d := set_intf (if (ok : bool) then 0 else BMA2_E_COM_FAIL) (set_chip w d) in
        write_each (u8 (reg + 1)) l (if intf_rslt d =? BMA2_OK then rslt else BMA2_E_COM_FAIL) d
      else (rslt, d)
  end.
Definition bma2_set_regs (reg : Z) (l : bytes) : E unit := fun d =>
  let rslt := null_ptr_check d in
  if negb (rslt =? BMA2_OK) then Some (inl BMA2_E_NULL_PTR, d)
  else if (0 <? length l)%nat then
    let '(rslt, d) := write_each reg l rslt d in Some (if rslt =? BMA2_OK then inr tt else inl rslt, d)
  else Some (inl BMA2_E_RW_LEN_INVALID, d).

(** One register. *)
Definition get_reg (reg : Z) : E Z := let! l := bma2_get_regs reg 1 in ret (default 0 (l !! 0%nat)).
Definition byte (l : bytes) (i : nat) : Z := default 0 (l !! i).

(** ** Initialisation and power modes *)

Definition conversion : E unit := fun d =>
  let d := if chip_id d =? BMA2_BMA223_CHIP_ID then set_resolution 8 d else d in
  let d := if chip_id d =? BMA2_BMA280_CHIP_ID then set_resolution 14 d else d in
  let d := if chip_id d =? BMA2_BMA253_CHIP_ID then set_resolution 12 d else d in
  let d := if resolution d =? 8 then set_conversion 127 256 8 d else d in
  let d := if resolution d =? 10 then set_conversion 511 1024 6 d else d in
  let d := if resolution d =? 12 then set_conversion 2047 4096 4 d else d in
  let d := if resolution d =? 14 then set_conversion 8191 16384 2 d else d in
  Some (inr tt, d).

Definition bma2_init : E unit :=
  let! id := get_reg BMA2_REG_BGW_CHIPID in modify (set_chip_id id);; conversion.

Definition bma2_soft_reset : E unit := bma2_set_regs BMA2_REG_BGW_SOFT_RESET [BMA2_SOFT_RESET_CMD].

Definition set_normal_mode : E unit :=
  let! reg := bma2_get_regs BMA2_REG_PMU_LPW 2 in
  let! pm := gets power_mode in
  if pm =? BMA2_DEEP_SUSPEND_MODE then bma2_soft_reset
  else
    bma2_set_regs BMA2_REG_PMU_LPW [BMA2_SET_BIT_VAL_0 0xE0 (byte reg 0)];;
    bma2_set_regs BMA2_REG_LOW_NOISE [BMA2_SET_BIT_VAL_0 0x40 (byte reg 1)].

Definition one_of (l : list Z) (v : Z) : bool := existsb (Z.eqb v) l.

Definition bma2_set_power_mode (mode : Z) : E unit :=
  let! reg := bma2_get_regs BMA2_REG_PMU_LPW 2 in
  let! pm := gets power_mode in
  (if one_of [BMA2_NORMAL_MODE; BMA2_DEEP_SUSPEND_MODE] mode then set_normal_mode
   else if one_of [BMA2_LOW_POWER_MODE_1; BMA2_SUSPEND_MODE] mode then
     if one_of [BMA2_LOW_POWER_MODE_2; BMA2_STANDBY_MODE; BMA2_DEEP_SUSPEND_MODE] pm then set_normal_mode else ret tt
   else if one_of [BMA2_LOW_POWER_MODE_2; BMA2_STANDBY_MODE] mode then
     if one_of [BMA2_LOW_POWER_MODE_1; BMA2_SUSPEND_MODE; BMA2_DEEP_SUSPEND_MODE] pm then set_normal_mode else ret tt
   else fail BMA2_E_INVALID_POWERMODE);;
  let low_power_mode := BMA2_GET_BITS 0x08 3 mode in
  let reg1 := BMA2_SET_BITS 0x40 6 (byte reg 1) low_power_mode in
  let mode := mode .& 0x07 in
  let reg0 := BMA2_SET_BITS 0xE0 5 (byte reg 0) mode in
  bma2_set_regs BMA2_REG_PMU_LPW [reg0];;
  bma2_set_regs BMA2_REG_LOW_NOISE [reg1];;
  modify (set_mode mode).

(** ** Configuration *)

Definition bma2_get_accel_conf : E bma2_acc_conf :=
  let! reg := bma2_get_regs BMA2_REG_PMU_RANGE 2 in
  let! hbw := get_reg BMA2_REG_ACCD_HBW in
  ret (mk_acc_conf (byte reg 0 .& 0x0F) (byte reg 1 .& 0x1F) (BMA2_GET_BITS 0x40 6 hbw) (BMA2_GET_BITS 0x80 7 hbw)).

Definition bma2_set_accel_conf (c : bma2_acc_conf) : E unit :=
  let! reg := bma2_get_regs BMA2_REG_PMU_LPW 2 in
  let reg0 := BMA2_SET_BITS 0x0F 0 (byte reg 0) (range c) in
  let reg1 := BMA2_SET_BITS 0x1F 0 (byte reg 1) (bw c) in
  bma2_set_regs BMA2_REG_PMU_RANGE [reg0; reg1];;
  let reg0 := BMA2_SET_BITS 0x40 6 reg0 (shadow_dis c) in
  let reg0 := BMA2_SET_BITS 0x80 7 reg0 (data_high_bw c) in
  bma2_set_regs BMA2_REG_ACCD_HBW [reg0].

Definition bma2_get_temperature_data : E Z := get_reg BMA2_REG_ACCD_TEMP.

(** The structure is filled as far as the reads succeed; it keeps the result. *)
Definition bma2_get_fifo_config (f : bma2_fifo_frame) (d : dev W) : Z * bma2_fifo_frame * dev W :=
  let '(rslt, buf, d) := get_regs BMA2_REG_FIFO_STATUS 1 d in
  if rslt =? BMA2_OK then
    let f := mk_fifo (data f) (length_ f) (fifo_data_select f) (fifo_mode_select f) (wm_level f)
               (byte buf 0 .& 0x7F) (BMA2_GET_BITS 0x80 7 (byte buf 0)) in
    let '(rslt, buf, d) := get_regs BMA2_REG_FIFO_CONFIG_0 1 d in
    if rslt =? BMA2_OK then
      let f := mk_fifo (data f) (length_ f) (fifo_data_select f) (fifo_mode_select f) (byte buf 0 .& 0x3F)
                 (fifo_frame_count f) (fifo_overrun f) in
      let '(rslt, buf, d) := get_regs BMA2_REG_FIFO_CONFIG_1 1 d in
      (rslt, mk_fifo (data f) (length_ f) (byte buf 0 .& 0x03) (BMA2_GET_BITS 0xC0 6 (byte buf 0)) (wm_level f)
               (fifo_frame_count f) (fifo_overrun f), d)
    else (rslt, f, d)
  else (rslt, f, d).

Definition bma2_set_fifo_config (f : bma2_fifo_frame) : E unit :=
  let! r := get_reg BMA2_REG_FIFO_CONFIG_0 in
  bma2_set_regs BMA2_REG_FIFO_CONFIG_0 [BMA2_SET_BITS 0x3F 0 r (wm_level f)];;
  let! r := get_reg BMA2_REG_FIFO_CONFIG_1 in
  let r := BMA2_SET_BITS 0x03 0 r (fifo_data_select f) in
  bma2_set_regs BMA2_REG_FIFO_CONFIG_1 [BMA2_SET_BITS 0xC0 6 r (fifo_mode_select f)].


(** ** Interrupts *)

Definition bma2_get_int_status : E bytes := bma2_get_regs BMA2_REG_INT_STATUS_0 4.

(** The three registers of an interrupt mask: [int_en] spread over the masks. *)
Definition spread (reg : bytes) (v : Z) : bytes :=
  [u8 (Z.ldiff (byte reg 0) 0x0000FF .| (v .& 0x0000FF));
   u8 (Z.shiftr (Z.ldiff (byte reg 1) 0x00FF00 .| (v .& 0x00FF00)) 8);
   u8 (Z.shiftr (Z.ldiff (byte reg 2) 0xFF0000 .| (v .& 0xFF0000)) 16)].
Definition gathered (reg : bytes) : Z := Z.shiftl (byte reg 2) 16 .| u16 (Z.shiftl (byte reg 1) 8) .| byte reg 0.

Definition bma2_enable_interrupt (int_en : Z) : E unit :=
  let! reg := bma2_get_regs BMA2_REG_INT_EN_0 3 in bma2_set_regs BMA2_REG_INT_EN_0 (spread reg int_en).

Definition bma2_get_enabled_interrupts : E Z :=
  let! reg := bma2_get_regs BMA2_REG_INT_EN_0 3 in ret (gathered reg).

Definition bma2_get_int_out_ctrl : E bma2_int_pin :=
  let! reg := bma2_get_regs BMA2_REG_INT_OUT_CTRL 2 in
  let r := byte reg 0 in
  ret (mk_int_pin (r .& 0x01) (BMA2_GET_BITS 0x02 1 r) (BMA2_GET_BITS 0x04 2 r) (BMA2_GET_BITS 0x08 3 r)
         (byte reg 1 .& 0x0F)).

Definition bma2_set_int_out_ctrl (p : bma2_int_pin) : E unit :=
  let r := BMA2_SET_BITS 0x01 0 0 (int1_lvl p) in
  let r := BMA2_SET_BITS 0x02 1 r (int1_od p) in
  let r := BMA2_SET_BITS 0x04 2 r (int2_lvl p) in
  let r := BMA2_SET_BITS 0x08 3 r (int2_od p) in
  bma2_set_regs BMA2_REG_INT_OUT_CTRL [r; BMA2_SET_BITS 0x0F 0 0 (latch_int p)].

Definition BMA2_INT_MAP : Z := 0x01.
Definition BMA2_INT_UNMAP : Z := 0x00.

Definition bma2_set_int_mapping (map int_map : Z) : E unit :=
  let! reg := bma2_get_regs BMA2_REG_INT_MAP_0 3 in
  if map =? BMA2_INT_MAP then bma2_set_regs BMA2_REG_INT_MAP_0 (spread reg int_map)
  else if map =? BMA2_INT_UNMAP then bma2_set_regs BMA2_REG_INT_MAP_0 (spread reg (Z.ldiff (gathered reg) int_map))
  else fail BMA2_E_INVALID_CONFIG.

Definition bma2_int_rst_latch (reset_cmd : Z) : E unit :=
  let! r := get_reg BMA2_REG_INT_RST_LATCH in
  bma2_set_regs BMA2_REG_INT_RST_LATCH [BMA2_SET_BITS 0x80 7 r reset_cmd].

(** ** The FIFO *)

Definition BMA2_XYZ_AXES : Z := 0.
Definition BMA2_X_AXIS : Z := 1.
Definition BMA2_Y_AXIS : Z := 2.
Definition BMA2_Z_AXIS : Z := 3.

Definition set_length (n : Z) (f : bma2_fifo_frame) : bma2_fifo_frame :=
  mk_fifo (data f) n (fifo_data_select f) (fifo_mode_select f) (wm_level f) (fifo_frame_count f) (fifo_overrun f).
Definition set_data (l : bytes) (f : bma2_fifo_frame) : bma2_fifo_frame :=
  mk_fifo l (length_ f) (fifo_data_select f) (fifo_mode_select f) (wm_level f) (fifo_frame_count f) (fifo_overrun f).

(** The bytes are stored at the start of the buffer. *)
Definition bma2_read_fifo_data (f : bma2_fifo_frame) (d : dev W) : Z * bma2_fifo_frame * dev W :=
  let '(rslt, f, d) := bma2_get_fifo_config f d in
  if rslt =? BMA2_OK then
    let count := u16 (fifo_frame_count f * (if fifo_data_select f =? BMA2_XYZ_AXES then 6 else 2)) in
    let f := if count <? length_ f then set_length count f else f in
    let '(rslt, buf, d) := get_regs BMA2_REG_FIFO_DATA (Z.to_nat (length_ f)) d in
    (rslt, set_data (buf ++ drop (length buf) (data f)) f, d)
  else (rslt, f, d).

(** Two bytes as a signed number. *)
Definition le16s (lo hi : Z) : Z := s16 (Z.shiftl hi 8 .| lo).

(** [n] bytes from an index of the buffer on; [None] past its end. *)
Definition bytes_at (l : bytes) (i : Z) (n : nat) : option bytes :=
  let b := take n (drop (Z.to_nat i) l) in if (length b =? n)%nat then Some b else None.

Definition fifo_frame_empty_check (i : Z) (f : bma2_fifo_frame) : option (Z * Z) :=
  b ← bytes_at (data f) i 4;
  Some (if forallb (Z.eqb 0) b then (BMA2_E_FIFO_FRAME_EMPTY, length_ f) else (BMA2_OK, i)).

(** The result, the sample if one is stored, and the index after it. *)
Definition single_axis (make : Z -> sensor_data) (i : Z) (f : bma2_fifo_frame) : option (Z * option sensor_data * Z) :=
  '(rslt, i) ← fifo_frame_empty_check i f;
  if rslt =? BMA2_OK then b ← bytes_at (data f) i 2; Some (BMA2_OK, Some (make (le16s (byte b 0) (byte b 1))), u16 (i + 2))
  else Some (rslt, None, i).

Definition unpack_accel_data (i : Z) (f : bma2_fifo_frame) : option (Z * option sensor_data * Z) :=
  if fifo_data_select f =? BMA2_XYZ_AXES then
    b ← bytes_at (data f) i 6;
    Some (if negb (forallb (Z.eqb 0) b) then
            (BMA2_OK, Some (mk_sensor_data (le16s (byte b 0) (byte b 1)) (le16s (byte b 2) (byte b 3)) (le16s (byte b 4) (byte b 5))),
             u16 (i + 6))
          else (BMA2_E_FIFO_FRAME_EMPTY, None, length_ f))
  else if fifo_data_select f =? BMA2_X_AXIS then single_axis (fun v => mk_sensor_data v 0 0) i f
  else if fifo_data_select f =? BMA2_Y_AXIS then single_axis (fun v => mk_sensor_data 0 v 0) i f
  else if fifo_data_select f =? BMA2_Z_AXIS then single_axis (fun v => mk_sensor_data 0 0 v) i f
  else Some (BMA2_E_INVALID_CONFIG, Some (mk_sensor_data 0 0 0), i).

(** [accel_data[index] = ...], [None] past the end of the array. *)
Definition store_sample (index : Z) (s : option sensor_data) (acc : list sensor_data) : option (list sensor_data) :=
  match s with
  | None => Some acc
  | Some v => if (Z.to_nat index <? length acc)%nat then Some (<[Z.to_nat index := v]> acc) else None
  end.

Fixpoint extract_loop (fuel : nat) (rslt i index acc_index : Z) (f : bma2_fifo_frame) (acc : list sensor_data)
    : option (Z * Z * list sensor_data) :=
  if (i <? length_ f) && negb (rslt =? BMA2_E_FIFO_FRAME_EMPTY) && negb (rslt =? BMA2_E_INVALID_CONFIG) then
    match fuel with
    | O => None
    | S fuel =>
        '(rslt, s, i) ← unpack_accel_data i f;
        acc ← store_sample index s acc;
        let index := u16 (index + 1) in
        extract_loop fuel rslt i index index f acc
    end
  else Some (rslt, acc_index, acc).

(** The result, the count stored through [acc_index], and the array. *)
Definition bma2_extract_accel (acc : list sensor_data) (acc_index : Z) (f : bma2_fifo_frame)
    : option (Z * Z * list sensor_data) :=
  extract_loop (Z.to_nat (length_ f)) 0 0 0 acc_index f acc.

(** ** The self-test *)

Definition axis_value (d : dev W) (lo hi : Z) : Z :=
  let reg_data := Z.shiftr (u16 (Z.shiftl hi 8) .| lo) (shift_value d) in
  if maximum_val d <? reg_data then s16 (u32 (reg_data - negating_val d)) else s16 reg_data.
Definition get_accel_data (l : bytes) (d : dev W) : sensor_data :=
  mk_sensor_data (axis_value d (byte l 0) (byte l 1)) (axis_value d (byte l 2) (byte l 3)) (axis_value d (byte l 4) (byte l 5)).

Definition bma2_get_accel_data : E sensor_data :=
  let! l := bma2_get_regs BMA2_REG_ACCD_X_LSB 6 in
  let new_data_xyz := u8 (Z.shiftl (byte l 4 .& 1) 2) .| u8 (Z.shiftl (byte l 2 .& 1) 1) .| (byte l 0 .& 1) in
  if new_data_xyz =? 0x07 then gets (get_accel_data l) else fail BMA2_W_NO_NEW_AVAILABLE.

Definition change_self_test (f : Z -> Z) : E unit :=
  let! r := get_reg BMA2_REG_PMU_SELF_TEST in bma2_set_regs BMA2_REG_PMU_SELF_TEST [f r].
Definition set_accel_selftest_enable (axis : Z) : E unit := change_self_test (fun r => BMA2_SET_BITS 0x03 0 r axis).
Definition set_accel_selftest_sign (sign : Z) : E unit := change_self_test (fun r => BMA2_SET_BITS 0x04 2 r sign).
Definition set_accel_selftest_amp (amp : Z) : E unit :=
  if amp <=? 1 then change_self_test (fun r => BMA2_SET_BITS 0x10 4 r amp) else fail BMA2_E_OUT_OF_RANGE.
Definition selftest_config (axis sign : Z) : E unit :=
  set_accel_selftest_enable axis;; set_accel_selftest_sign sign;; set_accel_selftest_amp 1.

(** The positive and the negative excitation so far. *)
Definition excitations : Type := sensor_data * sensor_data.
Definition set_x v (s : sensor_data) := mk_sensor_data v (y s) (z s).
Definition set_y v (s : sensor_data) := mk_sensor_data (x s) v (z s).
Definition set_z v (s : sensor_data) := mk_sensor_data (x s) (y s) v.

Definition BMA2_SELFTEST_X_AXIS : Z := 0x01.
Definition BMA2_SELFTEST_Y_AXIS : Z := 0x02.
Definition BMA2_SELFTEST_Z_AXIS : Z := 0x03.
Definition BMA2_SELFTEST_DISABLE : Z := 0x00.

Definition self_test_excitation_data (axis : Z) (e : excitations) : E excitations :=
  selftest_config axis 1;;
  let! positive := bma2_get_accel_data in
  selftest_config axis 0;;
  let! negative := bma2_get_accel_data in
  let '(p, n) := e in
  let '(p, n) := if axis =? BMA2_SELFTEST_X_AXIS then (set_x (x positive) p, set_x (x negative) n) else (p, n) in
  let '(p, n) := if axis =? BMA2_SELFTEST_Y_AXIS then (set_y (y positive) p, set_y (y negative) n) else (p, n) in
  let '(p, n) := if axis =? BMA2_SELFTEST_Z_AXIS then (set_z (z positive) p, set_z (z negative) n) else (p, n) in
  ret (p, n).

Definition BMA2_SELFTEST_PASS : Z := 0.
Definition BMA2_SELFTEST_FAIL : Z := 8.

(** The differences in mg are at most the limits: which axes fail. *)
Definition validate_selftest (dx dy dz : Z) : Z :=
  let bx := dx <=? 800 in
  let b_y := dy <=? 800 in
  let bz := dz <=? 400 in
  if bx && b_y && bz then 7
  else if bx && b_y then 4
  else if bx && bz then 5
  else if b_y && bz then 6
  else if bx then 1
  else if b_y then 2
  else if bz then 3
  else BMA2_SELFTEST_PASS.

(** [value * base], [resolution] times, in 32-bit arithmetic. *)
Definition power (base resolution : Z) : Z := Nat.iter (Z.to_nat resolution) (fun v => s32 (v * base)) 1.

(** [None] when the divisor is zero. *)
Definition convert_lsb_g (diff resolution : Z) : option Z :=
  let lsb_per_g := s32 (u32 (Z.quot (power 2 resolution) (2 * 4))) in
  if lsb_per_g =? 0 then None else Some (Z.quot diff lsb_per_g * 1000).

Definition get_accel_data_difference_and_validate (e : excitations) (resolution : Z) : option Z :=
  let '(p, n) := e in
  dx ← convert_lsb_g (Z.abs (x p - x n)) resolution;
  dy ← convert_lsb_g (Z.abs (y p - y n)) resolution;
  dz ← convert_lsb_g (Z.abs (z p - z n)) resolution;
  Some (validate_selftest dx dy dz).

(** The result code, the excitations and the self-test result. *)
Definition read_selftest_data (axis : Z) (e : excitations) (result : Z) (d : dev W)
    : option (Z * excitations * Z * dev W) :=
  if negb (axis =? BMA2_SELFTEST_DISABLE) then
    '(r, d) ← self_test_excitation_data axis e d;
    match r with inl c => Some (c, e, result, d) | inr e => Some (BMA2_OK, e, result, d) end
  else
    '(r, d) ← selftest_config axis 0 d;
    match r with
    | inl c => Some (c, e, result, d)
    | inr _ =>
        v ← get_accel_data_difference_and_validate e (resolution d);
        if v =? BMA2_OK then
          '(r, d) ← bma2_soft_reset d;
          Some (match r with inl c => c | inr _ => BMA2_OK end, e, v, d)
        else Some (v, e, v, d)
    end.

Fixpoint selftest_loop (axes : list Z) (rslt : Z) (e : excitations) (result : Z) (d : dev W) : option (Z * Z * dev W) :=
  match axes with
  | [] => Some (rslt, result, d)
  | a :: axes => '(rslt, e, result, d) ← read_selftest_data a e result d; selftest_loop axes rslt e result d
  end.

Definition no_data : sensor_data := mk_sensor_data 0 0 0.

(** The result code and the self-test result. *)
Definition bma2_perform_accel_selftest (d : dev W) : option (Z * Z * dev W) :=
  if negb (null_ptr_check d =? BMA2_OK) then Some (BMA2_E_NULL_PTR, BMA2_SELFTEST_FAIL, d)
  else
    '(r, d) ← (let! c := bma2_get_accel_conf in
               bma2_set_accel_conf (mk_acc_conf 0x05 (bw c) (shadow_dis c) (data_high_bw c))) d;
    match r with
    | inl c => Some (c, BMA2_SELFTEST_FAIL, d)
    | inr _ =>
        selftest_loop [BMA2_SELFTEST_X_AXIS; BMA2_SELFTEST_Y_AXIS; BMA2_SELFTEST_Z_AXIS; BMA2_SELFTEST_DISABLE]
          BMA2_OK (no_data, no_data) BMA2_SELFTEST_FAIL d
    end.
End driver.

(** ** Data registers *)

(** The device is set up for a resolution. *)
Definition converts {W} (d : dev W) (r : Z) : Prop :=
  (r = 8 \/ r = 10 \/ r = 12 \/ r = 14)
  /\ maximum_val d = 2 ^ (r - 1) - 1 /\ negating_val d = 2 ^ r /\ shift_value d = 16 - r.

Lemma lor_bytes lo hi : is_u8 lo -> is_u8 hi -> Z.shiftl hi 8 .| lo = hi * 256 + lo.
Proof. intros Hl Hh. unfold is_u8 in *. by rewrite shiftl_lor_add by lia. Qed.

(** Subtracting the range from a value above the maximum is sign extension. *)
Lemma axis_value_exact {W} (d : dev W) r lo hi :
  converts d r -> is_u8 lo -> is_u8 hi -> axis_value d lo hi = le16s lo hi / 2 ^ (16 - r).
Proof.
  intros (Hr & Hm & Hn & Hs) Hl Hh. unfold axis_value, le16s. rewrite Hm, Hn, Hs.
  rewrite (u16_id (Z.shiftl hi 8)) by (rewrite Z.shiftl_mul_pow2 by lia; unfold is_u8, is_u16 in *; lia).
  rewrite lor_bytes, Z.shiftr_div_pow2 by (done || lia). set (v := hi * 256 + lo).
  assert (0 <= v < 65536) as Hv by (unfold is_u8, v in *; lia). clearbody v. clear Hm Hn Hs.
  destruct Hr as [-> | [-> | [-> | ->]]]; simpl Z.sub; simpl Z.pow; unfold s16, u32;
    match goal with |- context [?a <? ?b] => destruct (Z.ltb_spec a b) end; divlia.
Qed.

(** What the conversion constants become for the known chips. *)
Definition chip_resolution (id : Z) : Z := if id =? 0xF8 then 8 else if id =? 0xFA then 12 else 14.

Lemma conversion_exact {W} (d d' : dev W) :
  conversion d = Some (inr tt, d') -> one_of [0xF8; 0xFA; 0xFB] (chip_id d) = true ->
  chip_id d' = chip_id d /\ converts d' (chip_resolution (chip_id d)).
Proof.
  destruct d as [en id ir rs mx ng sh pm ch]. unfold one_of, chip_resolution. simpl. intros [= <-] Hid.
  assert (id = 248 \/ id = 250 \/ id = 251) as H
    by (destruct (Z.eqb_spec id 248); [lia |]; destruct (Z.eqb_spec id 250); [lia |]; destruct (Z.eqb_spec id 251); [lia | done]).
  destruct H as [-> | [-> | ->]]; (split; [done |]); (split; [simpl; lia | done]).
Qed.

Lemma conversion_keeps_id {W} (d d' : dev W) : conversion d = Some (inr tt, d') -> chip_id d' = chip_id d.
Proof.
  unfold conversion. intros [= <-]. repeat match goal with |- context [if ?b then _ else _] => destruct b end; reflexivity.
Qed.

(** After the initialisation has identified the chip, the data registers are
    converted to the signed number in their upper bits, for every content: an
    arithmetic shift of the two's complement number by the unused bits. *)
Lemma accel_data_exact {W} {BB : BmaBus W} (d d' : dev W) (l : bytes) :
  bma2_init d = Some (inr tt, d') -> one_of [0xF8; 0xFA; 0xFB] (chip_id d') = true ->
  length l = 6%nat -> is_bytes l ->
  let v i := le16s (byte l i) (byte l (S i)) / 2 ^ (16 - chip_resolution (chip_id d')) in
  get_accel_data l d' = mk_sensor_data (v 0%nat) (v 2%nat) (v 4%nat).
Proof.
  intros Hi Hid Hl Hb. unfold bma2_init, bind, get_reg, bind in Hi.
  destruct (bma2_get_regs BMA2_REG_BGW_CHIPID 1 d) as [[[c|buf] d1]|] eqn:E; simpl in Hi; try done.
  destruct (conversion_exact _ _ Hi) as [Hid' Hc].
  { rewrite <- Hid. by rewrite (conversion_keeps_id _ _ Hi). }
  rewrite <- Hid' in Hc. clear Hi E. revert Hc. generalize (chip_resolution (chip_id d')). intros r Hc.
  unfold get_accel_data. do 6 (destruct l as [|? l]; [done |]).
  unfold is_bytes in Hb. rewrite !list.Forall_cons in Hb. destruct Hb as (? & ? & ? & ? & ? & ? & _). unfold byte. simpl.
  by rewrite !(axis_value_exact d' r).
Qed.

(** ** The self-test verdict *)

(** Which axes moved by less than a bound. *)
Definition verdict (bx b_y bz : bool) : Z :=
  match bx, b_y, bz with
  | true, true, true => 7 | true, true, false => 4 | true, false, true => 5 | false, true, true => 6
  | true, false, false => 1 | false, true, false => 2 | false, false, true => 3 | false, false, false => 0
  end.

(** With 14 bits the differences are divided by 2048 before the conversion to mg:
    every axis has to move by a full g, although the limits are 800, 800 and 400
    mg. *)
Lemma selftest_needs_whole_g (p n : sensor_data) :
  get_accel_data_difference_and_validate (p, n) 14
  = Some (verdict (Z.abs (x p - x n) <? 2048) (Z.abs (y p - y n) <? 2048) (Z.abs (z p - z n) <? 2048)).
Proof.
  assert (forall v, convert_lsb_g (Z.abs v) 14 = Some (Z.abs v / 2048 * 1000)) as Hc.
  { intros v. unfold convert_lsb_g. change (s32 (u32 (Z.quot (power 2 14) (2 * 4)))) with 2048. simpl.
    by rewrite Z.quot_div_nonneg by lia. }
  unfold get_accel_data_difference_and_validate. rewrite !Hc. simpl. f_equal. unfold validate_selftest.
  assert (forall v k, 0 <= v -> 0 <= k < 1000 -> (v / 2048 * 1000 <=? k) = (v <? 2048)) as Hl.
  { intros v k Hv Hk. destruct (Z.ltb_spec v 2048).
    - rewrite Z.div_small by lia. apply Z.leb_le. lia.
    - apply Z.leb_gt. assert (1 <= v / 2048) by (apply Z.div_le_lower_bound; lia). lia. }
  rewrite !Hl by lia. by destruct (_ <? _), (_ <? _), (_ <? _).
Qed.

(** A chip with an unknown identifier keeps resolution 0: the division by the
    resolution is undefined. *)
Lemma selftest_unknown_chip e : get_accel_data_difference_and_validate e 0 = None.
Proof. by destruct e as [p n]. Qed.

(** ** Extraction of FIFO frames *)

Definition frame_bytes (s : sensor_data) : bytes :=
  [u8 (x s); u8 (x s / 256); u8 (y s); u8 (y s / 256); u8 (z s); u8 (z s / 256)].

(** The samples before the first frame of zeros, and whether there was one. *)
Fixpoint valid_frames (l : list sensor_data) : list sensor_data * bool :=
  match l with
  | [] => ([], false)
  | s :: l =>
      if forallb (Z.eqb 0) (frame_bytes s) then ([], true)
      else let '(v, e) := valid_frames l in (s :: v, e)
  end.

Lemma le16s_bytes v : is_s16 v -> le16s (u8 v) (u8 (v / 256)) = v.
Proof.
  intros Hv. unfold le16s. rewrite lor_bytes by apply u8_range. unfold u8, s16, is_s16 in *.
  change (2 ^ 8) with 256. divlia.
Qed.

Lemma bytes_at_app pre mid post : bytes_at (pre ++ mid ++ post) (Z.of_nat (length pre)) (length mid) = Some mid.
Proof.
  unfold bytes_at. rewrite Nat2Z.id, drop_app_length, take_app_length. by rewrite Nat.eqb_refl.
Qed.

Lemma unpack_frame f s pre post :
  fifo_data_select f = BMA2_XYZ_AXES -> data f = pre ++ frame_bytes s ++ post -> sample_ok s ->
  unpack_accel_data (Z.of_nat (length pre)) f
  = Some (if forallb (Z.eqb 0) (frame_bytes s) then (BMA2_E_FIFO_FRAME_EMPTY, None, length_ f)
          else (BMA2_OK, Some s, u16 (Z.of_nat (length pre) + 6))).
Proof.
  intros Hs Hd (Hx & Hy & Hz). unfold unpack_accel_data. rewrite Hs, Hd. simpl Z.eqb. cbv iota.
  rewrite (bytes_at_app pre (frame_bytes s) post : bytes_at _ _ 6 = _). cbn [mbind option_bind].
  destruct (forallb _ _); [done |]. cbn [negb]. unfold byte, frame_bytes. simpl.
  rewrite !le16s_bytes by done. by destruct s.
Qed.

(** The array with the samples stored from an index on. *)
Definition overwrite (acc : list sensor_data) (i : nat) (l : list sensor_data) : list sensor_data :=
  take i acc ++ l ++ drop (i + length l) acc.

Lemma overwrite_cons acc i s l :
  (i < length acc)%nat -> overwrite (<[i := s]> acc) (S i) l = overwrite acc i (s :: l).
Proof.
  intros Hi. unfold overwrite. rewrite (take_S_r _ _ s) by (by rewrite list_lookup_insert_eq).
  rewrite take_insert_ge by lia. rewrite drop_insert_lt by lia. rewrite <- app_assoc. simpl.
  by replace (i + S (length l))%nat with (S i + length l)%nat by lia.
Qed.

Lemma overwrite_nil acc i : overwrite acc i [] = acc.
Proof. unfold overwrite. rewrite Nat.add_0_r. apply take_drop. Qed.

Lemma extract_frames l : forall fuel f pre post i acc k,
  fifo_data_select f = BMA2_XYZ_AXES -> data f = pre ++ concat (map frame_bytes l) ++ post ->
  length_ f = Z.of_nat (length pre) + 6 * Z.of_nat (length l) -> length_ f < 2 ^ 16 ->
  Forall sample_ok l -> (length l <= fuel)%nat -> (i + length l <= length acc)%nat -> Z.of_nat (length acc) < 2 ^ 15 ->
  extract_loop fuel BMA2_OK (Z.of_nat (length pre)) (Z.of_nat i) k f acc
  = let '(v, e) := valid_frames l in
    Some (if (e : bool) then BMA2_E_FIFO_FRAME_EMPTY else BMA2_OK,
          match l with [] => k | _ => Z.of_nat (i + length v + (if e then 1 else 0)) end,
          overwrite acc i v).
Proof.
  induction l as [|s l IH]; intros fuel f pre post i acc k Hsel Hd Hlen Hmax Hok Hf Hi Hacc.
  - simpl. rewrite overwrite_nil. destruct fuel; simpl; rewrite Hlen; simpl; by rewrite Z.add_0_r, Z.ltb_irrefl.
  - apply list.Forall_cons in Hok as [Hs Hok]. simpl length in *. destruct fuel as [|fuel]; [lia |].
    cbn [map concat] in Hd. rewrite <- app_assoc in Hd. cbn [extract_loop].
    destruct (Z.ltb_spec (Z.of_nat (length pre)) (length_ f)); [| lia]. cbn [andb negb].
    change (BMA2_OK =? BMA2_E_FIFO_FRAME_EMPTY) with false. change (BMA2_OK =? BMA2_E_INVALID_CONFIG) with false. cbn [negb].
    rewrite (unpack_frame f s pre (concat (map frame_bytes l) ++ post)) by done. cbn [valid_frames].
    assert (u16 (Z.of_nat i + 1) = Z.of_nat (S i)) as Hu
      by (rewrite u16_id; [lia | unfold is_u16; lia]).
    destruct (forallb (Z.eqb 0) (frame_bytes s)).
    + cbn [mbind option_bind store_sample]. rewrite Hu, overwrite_nil.
      destruct fuel; simpl; rewrite Z.ltb_irrefl; simpl; do 3 f_equal; lia.
    + cbn [mbind option_bind store_sample]. rewrite Nat2Z.id. destruct (Nat.ltb_spec i (length acc)); [| lia].
      cbn [mbind option_bind]. rewrite Hu.
      rewrite u16_id by (unfold is_u16; lia).
      replace (Z.of_nat (length pre) + 6) with (Z.of_nat (length (pre ++ frame_bytes s))) by (rewrite length_app; simpl; lia).
      rewrite (IH fuel f _ post (S i) (<[i := s]> acc)); try done.
      * destruct (valid_frames l) as [v e] eqn:Ev. rewrite overwrite_cons by done. do 3 f_equal.
        destruct l; [simpl in Ev; injection Ev as <- <-; simpl; lia | simpl length; lia].
      * by rewrite <- app_assoc.
      * rewrite length_app. simpl. lia.
      * lia.
      * rewrite length_insert. lia.
      * by rewrite length_insert.
Qed.

(** Extraction of a FIFO of frames with all axes. *)
Lemma extract_accel_frames l post f acc k :
  fifo_data_select f = BMA2_XYZ_AXES -> data f = concat (map frame_bytes l) ++ post ->
  length_ f = 6 * Z.of_nat (length l) -> Forall sample_ok l -> (length l <= length acc)%nat -> Z.of_nat (length acc) < 2 ^ 13 ->
  bma2_extract_accel acc k f
  = let '(v, e) := valid_frames l in
    Some (if (e : bool) then BMA2_E_FIFO_FRAME_EMPTY else BMA2_OK,
          match l with [] => k | _ => Z.of_nat (length v + (if e then 1 else 0)) end,
          v ++ drop (length v) acc).
Proof.
  intros Hsel Hd Hlen Hok Hi Hacc. unfold bma2_extract_accel.
  rewrite (extract_frames l _ f [] post 0 acc k); try done; simpl length; lia.
Qed.

(** A write after a failed transfer is skipped, and reported as done: the loop
    looks at the result of the transfer before it. *)
Lemma write_skipped_after_failure {W} {BB : BmaBus W} (reg b : Z) (l : bytes) (d : dev W) :
  enabled d = true -> intf_rslt d <> 0 -> bma2_set_regs reg (b :: l) d = Some (inr tt, d).
Proof.
  intros He Hi. unfold bma2_set_regs, null_ptr_check. rewrite He. simpl. destruct (Z.eqb_spec (intf_rslt d) 0); done.
Qed.

(** The power mode the driver remembers loses a bit: after the standby mode it
    takes the chip to be suspended. *)
Lemma standby_remembered_as_suspend {W} {BB : BmaBus W} (d d' : dev W) :
  bma2_set_power_mode BMA2_STANDBY_MODE d = Some (inr tt, d') -> power_mode d' = BMA2_SUSPEND_MODE.
Proof.
  unfold bma2_set_power_mode, bind, modify. intros H.
  repeat match type of H with mbind _ ?m = _ => destruct m as [[[?|?] ?]|]; simpl in H; try done end.
  by injection H as <-.
Qed.
End Bma2.
