(* ===== verification/BoardI2c.v ===== *)
(** * The I2C bus of the sensors

    Models [src/board/board_i2c_sensors.c] and the bus functions of
    [src/board/board_bma280.c].  Two tasks share the bus: a transfer takes a
    mutex, starts the hardware, and waits for the result that the interrupt
    handler posts in a queue of one entry.

    The steps of the tasks and of the handler are labels; [step] says what a label
    does and when it is possible.  A transfer has a number, which the hardware,
    the queue and the result carry along, so that theorems can speak of whose
    result a task is handed.  [I2C_TransferInit] and [I2C_Transfer] are the
    driver's: the first starts a transfer or refuses it and returns the state at
    that time; the second returns the state, in the handler after it has gone on. *)

From S2P Require Import Prelude Bma2.

Module BoardI2c.
Import Bma2.

Definition i2cTransferInProgress : Z := 1.
Definition i2cTransferDone : Z := 0.
Definition i2cTransferUsageFault : Z := -4.
Definition i2cTransferSwFault : Z := -5.

(** The tasks that use the bus. *)
Inductive task := SensorTask | Bme280Task.
#[export] Instance task_eq_dec : EqDecision task.
Proof. solve_decision. Defined.

(** Where a task is in [board_i2c0_transfer]; a result comes with the number of
    the transfer it belongs to. *)
Inductive place :=
| Away                                     (* not in the function *)
| Taking (n : nat)                         (* xSemaphoreTake *)
| Starting (n : nat)                       (* has the mutex, before I2C_TransferInit *)
| Started (n : nat)                        (* in I2C_TransferInit, hardware started *)
| Waiting (n : nat)                        (* xQueueReceive *)
| Polling (n : nat)                        (* the transfer was done at once *)
| Ending (n : nat) (from : nat) (r : Z)    (* before the interrupt is disabled *)
| Giving (n : nat) (from : nat) (r : Z)    (* before xSemaphoreGive *)
| Returned (n : nat) (from : nat) (r : Z).

Record sys := mk_sys {
  i2c0_mutex : option task;
  i2c0_queue : option (nat * Z);
  irq : bool;                              (* NVIC *)
  hardware : option (nat * Z);             (* the last transfer started and its state *)
  places : task -> place;
  next : nat }.

Definition set_place (t : task) (p : place) (s : sys) : sys :=
  mk_sys (i2c0_mutex s) (i2c0_queue s) (irq s) (hardware s) (fun u => if decide (u = t) then p else places s u) (next s).
Definition set_mutex (m : option task) (s : sys) : sys :=
  mk_sys m (i2c0_queue s) (irq s) (hardware s) (places s) (next s).
Definition set_queue (q : option (nat * Z)) (s : sys) : sys :=
  mk_sys (i2c0_mutex s) q (irq s) (hardware s) (places s) (next s).
Definition set_irq (b : bool) (s : sys) : sys :=
  mk_sys (i2c0_mutex s) (i2c0_queue s) b (hardware s) (places s) (next s).
Definition set_hardware (h : option (nat * Z)) (s : sys) : sys :=
  mk_sys (i2c0_mutex s) (i2c0_queue s) (irq s) h (places s) (next s).
Definition count_up (s : sys) : sys :=
  mk_sys (i2c0_mutex s) (i2c0_queue s) (irq s) (hardware s) (places s) (S (next s)).

Inductive label :=
| Call (t : task)
| TakeMutex (t : task)
| TakeTimeout (t : task)
| TransferInit (t : task) (accepted : bool)
| InitReturns (t : task)
| QueueReceive (t : task)
| TransferAgain (t : task)
| DisableIrq (t : task)
| GiveMutex (t : task)
| Leave (t : task)
| Irq (result : Z).

(** [board_i2c0_transfer] step by step. *)
Definition transfer_step (t : task) (l : label) (s : sys) : option sys :=
  match l, places s t with
  | Call _, Away => Some (count_up (set_place t (Taking (next s)) s))
  | TakeMutex _, Taking n =>
      match i2c0_mutex s with None => Some (set_mutex (Some t) (set_place t (Starting n) s)) | Some _ => None end
  | TakeTimeout _, Taking n =>
      match i2c0_mutex s with None => None | Some _ => Some (set_place t (Returned n n i2cTransferSwFault) s) end
  | TransferInit _ true, Starting n =>
      Some (set_place t (Started n) (set_hardware (Some (n, i2cTransferInProgress)) (set_irq true s)))
  | TransferInit _ false, Starting n => Some (set_place t (Ending n n i2cTransferUsageFault) (set_irq true s))
  | InitReturns _, Started n =>
      '(k, r) ← hardware s;
      Some (set_place t (if 0 <? r then Waiting n else if r =? 0 then Polling n else Ending n k r) s)
  | QueueReceive _, Waiting n =>
      '(k, r) ← i2c0_queue s; Some (set_queue None (set_place t (Ending n k r) s))
  | TransferAgain _, Polling n => '(k, r) ← hardware s; Some (set_place t (Ending n k r) s)
  | DisableIrq _, Ending n k r => Some (set_irq false (set_place t (Giving n k r) s))
  | GiveMutex _, Giving n k r => Some (set_mutex None (set_place t (Returned n k r) s))
  | Leave _, Returned n k r => Some (set_place t Away s)
  | _, _ => None
  end.

(** [I2C0_IRQHandler]: possible while the interrupt is enabled and a transfer is
    in progress; [result] is what [I2C_Transfer] returns.  A queue that is full
    keeps its entry. *)
Definition I2C0_IRQHandler (result : Z) (s : sys) : option sys :=
  if irq s then
    match hardware s with
    | Some (n, 1) =>
        if result =? i2cTransferInProgress then Some s
        else if 0 <? result then None
        else
          let s := set_hardware (Some (n, result)) s in
          Some (match i2c0_queue s with None => set_queue (Some (n, result)) s | Some _ => s end)
    | _ => None
    end
  else None.

Definition actor (l : label) : option task :=
  match l with
  | Call t | TakeMutex t | TakeTimeout t | TransferInit t _ | InitReturns t | QueueReceive t | TransferAgain t
  | DisableIrq t | GiveMutex t | Leave t => Some t
  | Irq _ => None
  end.

Definition step (l : label) (s : sys) : option sys :=
  match l with
  | Irq r => I2C0_IRQHandler r s
  | _ => t ← actor l; transfer_step t l s
  end.

Definition initial : sys := mk_sys None None false None (fun _ => Away) 0.

Fixpoint run (ls : list label) (s : sys) : option sys :=
  match ls with [] => Some s | l :: ls => s' ← step l s; run ls s' end.

(** ** Transfers of the accelerometer *)

(** A transfer sends the register address and then data, or receives data. *)
Inductive sequence :=
| WriteRead (addr reg : Z) (len : nat)
| WriteWrite (addr reg : Z) (buf : bytes).

(** What a caller sees of [board_i2c0_transfer]: its result, and what the buffer
    of a read holds afterwards. *)
Class I2cTransfer (W : Type) := { i2c_transfer : sequence -> W -> Z * bytes * W }.

Section bma280.
Context {W : Type} {T : I2cTransfer W}.

Definition BMA2_I2C_ADDR1 : Z := 0x18.

Definition bma280_read (reg : Z) (len : nat) (w : W) : bool * bytes * W :=
  let '(r, buf, w) := i2c_transfer (WriteRead (Z.shiftl BMA2_I2C_ADDR1 1) reg len) w in
  (r =? i2cTransferDone, buf, w).
Definition bma280_write (reg b : Z) (w : W) : bool * W :=
  let '(r, _, w) := i2c_transfer (WriteWrite (Z.shiftl BMA2_I2C_ADDR1 1) reg [b]) w in
  (r =? i2cTransferDone, w).

#[export] Instance bma280_bus : BmaBus W := {| bma_read := bma280_read; bma_write := bma280_write |}.
End bma280.

(** ** Every task is handed its own result *)

(** The handler ends a transfer while [I2C_TransferInit] has not returned: the
    task was held up for the time the bus needs for an address. *)
Definition premature (l : label) (s : sys) : bool :=
  match l with
  | Irq r =>
      negb (r =? i2cTransferInProgress)
      && existsb (fun t => match places s t with Started _ => true | _ => false end) [SensorTask; Bme280Task]
  | _ => false
  end.

Fixpoint orderly (ls : list label) (s : sys) : bool :=
  match ls with
  | [] => true
  | l :: ls => negb (premature l s) && match step l s with Some s' => orderly ls s' | None => true end
  end.

(** Whether a task has the mutex at a place. *)
Definition inside (p : place) : bool :=
  match p with Away | Taking _ | Returned _ _ _ => false | _ => true end.

Definition settled (s : sys) : Prop := forall n, hardware s <> Some (n, i2cTransferInProgress).

(** What holds of the bus while a task is at a place. *)
Definition bus_at (p : place) (s : sys) : Prop :=
  match p with
  | Starting _ => i2c0_queue s = None /\ irq s = false /\ settled s
  | Started n => i2c0_queue s = None /\ irq s = true /\ hardware s = Some (n, i2cTransferInProgress)
  | Waiting n =>
      irq s = true
      /\ (i2c0_queue s = None /\ hardware s = Some (n, i2cTransferInProgress)
          \/ exists r, r <> i2cTransferInProgress /\ i2c0_queue s = Some (n, r) /\ hardware s = Some (n, r))
  | Polling _ => False
  | Ending n k _ => k = n /\ i2c0_queue s = None /\ irq s = true /\ settled s
  | Giving n k _ => k = n /\ i2c0_queue s = None /\ irq s = false /\ settled s
  | Returned n k _ => k = n
  | _ => True
  end.

Record inv (s : sys) : Prop := {
  inv_mutex t : inside (places s t) = true <-> i2c0_mutex s = Some t;
  inv_place t : bus_at (places s t) s;
  inv_free : i2c0_mutex s = None -> i2c0_queue s = None /\ irq s = false /\ settled s }.

Lemma inv_initial : inv initial.
Proof. by split. Qed.

(** At a place outside, the bus does not matter. *)
Lemma bus_at_outside p s s' : inside p = false -> bus_at p s -> bus_at p s'.
Proof. by destruct p. Qed.

(** A step of one task keeps the invariant if the other task is outside, or
    nothing shared changes. *)
Lemma inv_move t p s s' :
  inv s ->
  (forall u, places s' u = if decide (u = t) then p else places s u) ->
  bus_at p s' ->
  (inside p = true <-> i2c0_mutex s' = Some t) ->
  (i2c0_mutex s' = None -> i2c0_queue s' = None /\ irq s' = false /\ settled s') ->
  (forall u, u <> t -> inside (places s u) = false /\ i2c0_mutex s' <> Some u
             \/ bus_at (places s u) s' /\ (i2c0_mutex s' = Some u <-> i2c0_mutex s = Some u)) ->
  inv s'.
Proof.
  intros [Hm Hp Hf] Hpl Hb Hin Hfree Hoth. split; [| | done]; intros u; rewrite Hpl; destruct (decide (u = t)) as [-> |Hu]; try done.
  - destruct (Hoth u Hu) as [[-> Ho]|[_ Ho]]; [by split |]. rewrite Ho. apply Hm.
  - destruct (Hoth u Hu) as [[Ho _]|[Ho _]]; [| done]. eapply bus_at_outside; [done | apply Hp].
Qed.

(** The other task is outside while one has the mutex. *)
Lemma other_outside s t u : inv s -> i2c0_mutex s = Some t -> u <> t -> inside (places s u) = false.
Proof.
  intros [Hm _ _] Ht Hu. destruct (inside (places s u)) eqn:E; [| done]. apply Hm in E. congruence.
Qed.

Ltac other_out Hi Ht := intros u Hu; left; split; [by eapply (other_outside _ _ u Hi Ht) | simpl; congruence].

Lemma irq_inv r s s' : inv s -> premature (Irq r) s = false -> I2C0_IRQHandler r s = Some s' -> inv s'.
Proof.
  intros Hi Hpre Hs. unfold I2C0_IRQHandler in Hs. destruct (irq s) eqn:Eq; [| done].
  destruct (hardware s) as [[n h]|] eqn:Eh; [| done]. destruct (decide (h = 1)) as [-> |Hh].
  2:{ destruct h as [|p|p]; try done. by destruct p. }
  destruct (Z.eqb_spec r i2cTransferInProgress) as [-> |Hr]; [by injection Hs as <- |].
  destruct (0 <? r); [done |]. injection Hs as Hs.
  assert (exists t, i2c0_mutex s = Some t) as [t Ht].
  { destruct (i2c0_mutex s) eqn:E; [by eexists |]. apply (inv_free s Hi) in E as (_ & ? & _). congruence. }
  assert (places s t = Waiting n /\ i2c0_queue s = None) as [Hpl Hq].
  { pose proof (proj2 (inv_mutex s Hi t) Ht) as Hin. pose proof (inv_place s Hi t) as Hb.
    assert (forall m, places s t <> Started m) as Hst.
    { intros m E. unfold premature in Hpre. apply andb_false_iff in Hpre as [Hpre|Hpre]; [apply negb_false_iff, Z.eqb_eq in Hpre; done |].
      simpl in Hpre. destruct t; rewrite E in Hpre; simpl in Hpre; by rewrite ?orb_true_r in Hpre. }
    destruct (places s t) as [| | |m|m| |m k v|m k v|]; try done; simpl in Hb.
    - destruct Hb as (_ & ? & _). congruence.
    - by destruct (Hst m).
    - destruct Hb as (_ & [[? Hh]|(v & Hv & _ & Hh)]); rewrite Eh in Hh; [by injection Hh as -> | by injection Hh as -> <-].
    - destruct Hb as (_ & _ & _ & Hn). by destruct (Hn n).
    - destruct Hb as (_ & _ & ? & _). congruence. }
  simpl in Hs. rewrite Hq in Hs. subst s'. apply (inv_move t (Waiting n) s); try done.
  - intros u. simpl. by destruct (decide (u = t)) as [-> |].
  - split; [done |]. right. by exists r.
  - simpl. by rewrite Ht.
  - other_out Hi Ht.
Qed.

Lemma transfer_inv t l s s' : inv s -> transfer_step t l s = Some s' -> inv s'.
Proof.
  intros Hi Hs. pose proof (inv_place s Hi t) as Hb. pose proof (inv_mutex s Hi t) as Hm.
  unfold transfer_step in Hs. destruct l as [?|?|?|? a|?|?|?|?|?|?|?];
    try (destruct a); destruct (places s t) as [|n|n|n|n|n|n k r|n k r|n k r] eqn:Ep; try done; simpl in Hb, Hm.
  all: try (assert (i2c0_mutex s = Some t) as Ht by (by apply Hm)).
  - injection Hs as <-. eapply (inv_move t (Taking (next s)) s); simpl; try done; [apply (inv_free s Hi) |].
    intros u Hu. right. split; [| done]. apply (inv_place s Hi).
  - destruct (i2c0_mutex s) eqn:E; [done |]. injection Hs as <-.
    destruct (inv_free s Hi E) as (? & ? & ?). eapply (inv_move t (Starting n) s); simpl; try done.
    intros u Hu. left. split; [| congruence]. destruct (inside (places s u)) eqn:Eu; [| done]. apply (inv_mutex s Hi) in Eu. congruence.
  - destruct (i2c0_mutex s) eqn:E; [| done]. injection Hs as <-. eapply (inv_move t _ s); simpl; try done; rewrite ?E; try done.
    intros u Hu. right. split; [| done]. apply (inv_place s Hi).
  - injection Hs as <-. eapply (inv_move t (Started n) s); simpl; try done; rewrite ?Ht; try done; [by destruct Hb | other_out Hi Ht].
  - injection Hs as <-. destruct Hb as (? & ? & ?). eapply (inv_move t (Ending n n _) s); simpl; try done; rewrite ?Ht; try done. other_out Hi Ht.
  - destruct Hb as (Hq & Hir & Hh). rewrite Hh in Hs. injection Hs as <-.
    eapply (inv_move t (Waiting n) s); simpl; try done; rewrite ?Ht; try done; [| other_out Hi Ht].
    split; [done |]. by left.
  - destruct Hb as (Hir & [[Hq _]|(v & Hv & Hq & Hh)]); rewrite Hq in Hs; [done |]. injection Hs as <-.
    eapply (inv_move t (Ending n n v) s); simpl; try done; rewrite ?Ht; try done; [| other_out Hi Ht].
    split_and!; try done. intros m E. simpl in E. rewrite Hh in E. by injection E as _ ->.
  - destruct Hb as (-> & ? & ? & ?). injection Hs as <-. eapply (inv_move t (Giving n n r) s); simpl; try done; rewrite ?Ht; try done. other_out Hi Ht.
  - destruct Hb as (-> & ? & ? & ?). injection Hs as <-. eapply (inv_move t (Returned n n r) s); simpl; try done. other_out Hi Ht.
  - injection Hs as <-. eapply (inv_move t Away s); simpl; try done; [| intros u Hu; right; split; [apply (inv_place s Hi) | done]].
    apply (inv_free s Hi).
Qed.

Lemma step_inv l s s' : inv s -> premature l s = false -> step l s = Some s' -> inv s'.
Proof.
  intros Hi Hpre Hs. destruct (actor l) as [t|] eqn:Ea.
  - apply (transfer_inv t l s); [done |]. destruct l; simpl in Ea; try done; by simplify_eq.
  - destruct l; try done. by eapply irq_inv.
Qed.

Lemma run_inv ls : forall s s', inv s -> orderly ls s = true -> run ls s = Some s' -> inv s'.
Proof.
  induction ls as [|l ls IH]; intros s s' Hi Ho Hr; simpl in *; [by injection Hr as <- |].
  apply andb_true_iff in Ho as [Hp Ho]. destruct (step l s) as [s1|] eqn:E; [| done].
  eapply IH; [| done | done]. eapply step_inv; [done | by apply negb_true_iff | done].
Qed.

(** C24: In every interleaving of the two tasks and the interrupt handler in which
    the handler does not end a transfer before [I2C_TransferInit] has returned,
    a task is handed the result of its own transfer; at most one task is between
    taking and giving the mutex; while the mutex is free the interrupt is disabled
    and the queue is empty; and a task that waits for the queue has its transfer in
    progress or its result in the queue. *)
Theorem transfers_own_result (ls : list label) (s : sys) :
  run ls initial = Some s -> orderly ls initial = true ->
  (forall t n k r, places s t = Returned n k r -> k = n)
  /\ (forall t u, inside (places s t) = true -> inside (places s u) = true -> t = u)
  /\ (i2c0_mutex s = None -> i2c0_queue s = None /\ irq s = false)
  /\ (forall t n, places s t = Waiting n ->
        irq s = true
        /\ (hardware s = Some (n, i2cTransferInProgress) \/ exists r, i2c0_queue s = Some (n, r))).
Proof.
  intros Hr Ho. pose proof (run_inv ls initial s inv_initial Ho Hr) as Hi. split_and!.
  - intros t n k r E. pose proof (inv_place s Hi t) as Hb. by rewrite E in Hb.
  - intros t u Ht Hu. apply (inv_mutex s Hi) in Ht, Hu. congruence.
  - intros E. by destruct (inv_free s Hi E) as (? & ? & _).
  - intros t n E. pose proof (inv_place s Hi t) as Hb. rewrite E in Hb.
    destruct Hb as (Hq & [[_ ?]|(r & _ & ? & _)]); (split; [done |]); [by left | right; by exists r].
Qed.

(** Two transfers, one after the other, the second called during the first. *)
Definition two_transfers : list label :=
  [Call SensorTask; TakeMutex SensorTask; TransferInit SensorTask true; InitReturns SensorTask; Call Bme280Task;
   Irq i2cTransferInProgress; Irq i2cTransferDone; QueueReceive SensorTask; DisableIrq SensorTask; GiveMutex SensorTask;
   TakeMutex Bme280Task; TransferInit Bme280Task true; InitReturns Bme280Task; Irq (-1); QueueReceive Bme280Task;
   DisableIrq Bme280Task; GiveMutex Bme280Task].

(** What a run leaves. *)
Definition view (s : sys) : place * place * option (nat * Z) := (places s SensorTask, places s Bme280Task, hardware s).

Lemma transfers_own_result_witness :
  exists s, run two_transfers initial = Some s
    /\ view s = (Returned 0 0 i2cTransferDone, Returned 1 1 (-1), Some (1%nat, -1))
    /\ forall t n k r, places s t = Returned n k r -> k = n.
Proof.
  assert (view <$> run two_transfers initial = Some (Returned 0 0 i2cTransferDone, Returned 1 1 (-1), Some (1%nat, -1))) as V
    by (vm_compute; reflexivity).
  destruct (run two_transfers initial) as [s|] eqn:E; [| discriminate V]. apply (inj Some) in V.
  exists s. split; [reflexivity |]. split; [exact V |].
  refine (proj1 (transfers_own_result two_transfers s E _)). vm_compute. reflexivity.
Defined.

(** When the handler ends a transfer before [I2C_TransferInit] returns, the result
    stays in the queue, and the next transfer is handed it while the hardware is
    still at work. *)
Definition held_up : list label :=
  [Call SensorTask; TakeMutex SensorTask; TransferInit SensorTask true; Irq i2cTransferDone; InitReturns SensorTask;
   TransferAgain SensorTask; DisableIrq SensorTask; GiveMutex SensorTask;
   Call Bme280Task; TakeMutex Bme280Task; TransferInit Bme280Task true; InitReturns Bme280Task; QueueReceive Bme280Task].

Example stale_result :
  view <$> run held_up initial
  = Some (Returned 0 0 i2cTransferDone, Ending 1 0 i2cTransferDone, Some (1%nat, i2cTransferInProgress)).
Proof. vm_compute. reflexivity. Qed.
End BoardI2c.
