(* ===== verification/SensorService.v ===== *)
(** * The sensor service

    Models [src/sensor_service.c]: the two tasks that read the accelerometer and
    the environment sensor and hand their values to the LwM2M client, and the
    set-up of both sensors.

    The accelerometer driver is [Bma2.v], the statistics [Statistics.v].  The
    driver of the environment sensor computes in floating point and is the
    interface [Bme280Driver]; the client is the interface [SensorClient], which
    the client of [Lwm2mClient.v] implements.  A float is its 32 bits. *)

From S2P Require Import Prelude Platform Statistics Bma2 BoardI2c Lwm2mObjects Lwm2mClient.

Module SensorService.
Import Statistics Bma2.

(** ** Interfaces *)

Class SensorClient (C : Type) := {
  update_accel : Z -> Z -> Z -> C -> C;
  update_temperature : Z -> C -> C }.

#[export] Instance lwm2m_sensor_client {W L LS LT K N} {NT : TaskNotify N} :
    SensorClient (Lwm2mClient.client W L LS LT K N) := {|
  update_accel := Lwm2mClient.lwm2m_client_update_accel;
  update_temperature := Lwm2mClient.lwm2m_client_update_temperature |}.

(** Settings of the environment sensor, and a reading: doubles by their bits. *)
Record bme280_settings := mk_settings { filter : Z; standby_time : Z; osr_h : Z; osr_p : Z; osr_t : Z }.
Record bme280_data := mk_data { pressure : Z; temperature : Z; humidity : Z }.

(** The functions of the driver with their result codes; a reading is stored
    through a pointer, and [double_to_float] is the conversion of the compiler. *)
Class Bme280Driver (V : Type) := {
  bme280_init : V -> Z * V;
  bme280_set_sensor_mode : Z -> V -> Z * V;
  bme280_get_sensor_settings : V -> Z * V;
  bme280_set_sensor_settings : bme280_settings -> V -> Z * V;
  bme280_get_sensor_data : bme280_data -> V -> Z * bme280_data * V;
  double_to_float : Z -> Z }.

(** ** Events *)

Definition sensor_event_bme280 : Z := Z.shiftl 1 0.
Definition sensor_event_bma280_int1 : Z := Z.shiftl 1 1.
Definition sensor_event_bma280_timer : Z := Z.shiftl 1 3.

(** Conversion of an integer below 2^24 to a float: sign, exponent and fraction. *)
Definition int_to_float (n : Z) : Z :=
  if n =? 0 then 0
  else
    let m := Z.abs n in
    let e := Z.log2 m in
    (if n <? 0 then 2 ^ 31 else 0) + (e + 127) * 2 ^ 23 + (m * 2 ^ (23 - e) - 2 ^ 23).

(** ** The accelerometer task *)

(** What the task keeps: the driver's device, the FIFO structure with its buffer
    of 192 bytes, the array of 32 samples, the statistics, its notification and
    the client. *)
Record sensor (W N C : Type) := mk_sensor {
  bma280 : dev W; bma280_fifo : bma2_fifo_frame; bma280_accelerometer_data : list sensor_data;
  statistics : accelerometer_statistics; box : N; client : C }.
Arguments mk_sensor {W N C} _ _ _ _ _ _.
Arguments bma280 {W N C} _.
Arguments bma280_fifo {W N C} _.
Arguments bma280_accelerometer_data {W N C} _.
Arguments statistics {W N C} _.
Arguments box {W N C} _.
Arguments client {W N C} _.

Definition BMA2_FIFO_BUFFER : Z := 192.
Definition BMA2_INT_1_ASSERTED_FIFO_FULL : Z := 0x20.

Section task.
Context {W N C : Type} {BB : BmaBus W} {NT : TaskNotify N} {SC : SensorClient C}.
Implicit Types s : sensor W N C.

Definition set_bma280 (d : dev W) s : sensor W N C :=
  mk_sensor d (bma280_fifo s) (bma280_accelerometer_data s) (statistics s) (box s) (client s).
Definition set_box (b : N) s : sensor W N C :=
  mk_sensor (bma280 s) (bma280_fifo s) (bma280_accelerometer_data s) (statistics s) b (client s).

Definition bma280_timer_callback s : sensor W N C :=
  set_box (notify_set_bits sensor_event_bma280_timer (box s)) s.
Definition bma280_int1_callback s : sensor W N C :=
  set_box (notify_set_bits sensor_event_bma280_int1 (box s)) s.

(** A full FIFO is read, and the means are published. *)
Definition read_window s : option (sensor W N C) :=
  let f := set_length BMA2_FIFO_BUFFER (bma280_fifo s) in
  let '(rslt, f, d) := bma2_read_fifo_data f (bma280 s) in
  if rslt =? BMA2_OK then
    '(rslt, accelerometer_values, acc) ← bma2_extract_accel (bma280_accelerometer_data s) 0 f;
    if rslt =? BMA2_OK then
      st ← mean_and_variance (statistics s) (take (Z.to_nat accelerometer_values) acc);
      let m := mean st in
      Some (mk_sensor d f acc st (box s)
              (update_accel (int_to_float (x m)) (int_to_float (y m)) (int_to_float (z m)) (client s)))
    else Some (mk_sensor d f acc (statistics s) (box s) (client s))
  else Some (mk_sensor d f (bma280_accelerometer_data s) (statistics s) (box s) (client s)).

Definition on_int1 s : option (sensor W N C) :=
  '(r, d) ← bma2_get_int_status (bma280 s);
  let s := set_bma280 d s in
  match r with
  | inl _ => Some s
  | inr status => if test_mask (byte status 1) BMA2_INT_1_ASSERTED_FIFO_FULL then read_window s else Some s
  end.

(** The temperature is only printed. *)
Definition on_timer s : option (sensor W N C) :=
  '(_, d) ← bma2_get_temperature_data (bma280 s); Some (set_bma280 d s).

Definition when (b : bool) (f : sensor W N C -> option (sensor W N C)) s : option (sensor W N C) :=
  if b then f s else Some s.

(** One pass of the loop of [sensor_task]. *)
Definition sensor_turn s : option (sensor W N C) :=
  let '(v, b) := notify_wait 0 (box s) in
  let s := set_box b s in
  match v with
  | None => Some s
  | Some v =>
      s ← when (test_mask v sensor_event_bma280_int1) on_int1 s;
      when (test_mask v sensor_event_bma280_timer) on_timer s
  end.

(** ** Set-up of the accelerometer *)

(** Calls whose result is not used. *)
Definition ignore {A} (m : E (W := W) A) : E (W := W) unit := fun d => '(_, d) ← m d; Some (inr tt, d).

(** The result code as a computation, and back. *)
Definition checked (m : dev W -> option (Z * Z * dev W)) : E (W := W) unit := fun d =>
  '(rslt, _, d) ← m d; Some (if rslt =? BMA2_OK then inr tt else inl rslt, d).
Definition code (m : E (W := W) unit) (d : dev W) : option (Z * dev W) :=
  '(r, d) ← m d; Some (match r with inl c => c | inr _ => BMA2_OK end, d).

(** [board_bma280_enable]: the function pointers of the device. *)
Definition board_bma280_enable (d : dev W) : dev W :=
  mk_dev true (chip_id d) (intf_rslt d) (resolution d) (maximum_val d) (negating_val d) (shift_value d) (power_mode d) (chip d).

Definition BMA2_ACC_BW_62_5_HZ : Z := 0x0B.
Definition BMA2_ACC_RANGE_4G : Z := 0x05.
Definition BMA2_INT1_MAP_FIFO_FULL : Z := 0x000400.
Definition BMA2_INT_EN_FIFO_FULL : Z := 0x002000.
Definition BMA2_MODE_FIFO : Z := 1.

(** The FIFO structure is an uninitialised local variable: [garbage]. *)
Definition configure_fifo (garbage : bma2_fifo_frame) : E (W := W) unit := fun d =>
  let '(_, f, d) := bma2_get_fifo_config garbage d in
  bma2_set_fifo_config
    (mk_fifo (data f) BMA2_FIFO_BUFFER BMA2_XYZ_AXES BMA2_MODE_FIFO (wm_level f) (fifo_frame_count f) (fifo_overrun f)) d.

Definition configure_interrupts : E (W := W) unit :=
  bind bma2_get_int_out_ctrl (fun p =>
  bind (bma2_set_int_out_ctrl (mk_int_pin 0 0 (int2_lvl p) (int2_od p) 0)) (fun _ =>
  bind (bma2_set_int_mapping BMA2_INT_MAP BMA2_INT1_MAP_FIFO_FULL) (fun _ =>
  bind (ignore bma2_get_enabled_interrupts) (fun _ =>
  bma2_enable_interrupt BMA2_INT_EN_FIFO_FULL)))).

Definition configure_accel : E (W := W) unit :=
  bind bma2_get_accel_conf (fun _ => bma2_set_accel_conf (mk_acc_conf BMA2_ACC_RANGE_4G BMA2_ACC_BW_62_5_HZ 0 0)).

(** What follows the self-test. *)
Definition configuration (garbage : bma2_fifo_frame) : E (W := W) unit :=
  bind (bma2_set_power_mode BMA2_STANDBY_MODE) (fun _ =>
  bind configure_accel (fun _ =>
  bind (ignore (bma2_int_rst_latch 1)) (fun _ =>
  bind configure_interrupts (fun _ =>
  bind (bma2_set_power_mode BMA2_NORMAL_MODE) (fun _ =>
  configure_fifo garbage))))).

Definition setup_steps (garbage : bma2_fifo_frame) : E (W := W) unit :=
  bind bma2_init (fun _ =>
  bind bma2_soft_reset (fun _ =>
  bind (checked bma2_perform_accel_selftest) (fun _ =>
  configuration garbage))).

Definition initialize_bma280 (garbage : bma2_fifo_frame) (d : dev W) : option (Z * dev W) :=
  code (setup_steps garbage) (board_bma280_enable d).
End task.

(** ** The environment task *)

Record collector (V N C : Type) := mk_collector {
  bme280 : V; bme280_sensor_data : bme280_data; bme280_box : N; bme280_client : C }.
Arguments mk_collector {V N C} _ _ _ _.
Arguments bme280 {V N C} _.
Arguments bme280_sensor_data {V N C} _.
Arguments bme280_box {V N C} _.
Arguments bme280_client {V N C} _.

Section bme280.
Context {V N C : Type} {BD : Bme280Driver V} {NT : TaskNotify N} {SC : SensorClient C}.

Definition BME280_SLEEP_MODE : Z := 0.
Definition BME280_FORCED_MODE : Z := 1.

Definition bme280_sampling_timer_callback (s : collector V N C) : collector V N C :=
  mk_collector (bme280 s) (bme280_sensor_data s) (notify_set_bits sensor_event_bme280 (bme280_box s)) (bme280_client s).

(** One pass of the loop of [bme280_task]: the result codes are not looked at. *)
Definition bme280_turn (s : collector V N C) : collector V N C :=
  let '(v, b) := notify_wait 0 (bme280_box s) in
  match v with
  | Some v =>
      if test_mask v sensor_event_bme280 then
        let '(_, w) := bme280_set_sensor_mode BME280_FORCED_MODE (bme280 s) in
        let '(_, r, w) := bme280_get_sensor_data (bme280_sensor_data s) w in
        mk_collector w r b (update_temperature (double_to_float (temperature r)) (bme280_client s))
      else mk_collector (bme280 s) (bme280_sensor_data s) b (bme280_client s)
  | None => mk_collector (bme280 s) (bme280_sensor_data s) b (bme280_client s)
  end.

Definition initialize_bme280 (w : V) : Z * V :=
  let '(ret, w) := bme280_init w in
  let '(ret, w) := if ret =? 0 then bme280_set_sensor_mode BME280_SLEEP_MODE w else (ret, w) in
  if ret =? 0 then
    let '(ret, w) := bme280_get_sensor_settings w in
    if ret =? 0 then bme280_set_sensor_settings (mk_settings 0 0 5 5 5) w else (ret, w)
  else (ret, w).
End bme280.

(** ** An accelerometer *)

(** A chip with a register file, a FIFO, and data registers that follow the
    excitation of the self-test; a soft reset restores the defaults. *)
Record bma280_chip := mk_chip { regs : Z -> Z; fifo : bytes; excitation : Z -> bytes }.

Definition defaults (r : Z) : Z :=
  if r =? 0x00 then 0xFB else if r =? 0x0F then 0x03 else if r =? 0x10 then 0x0F else if r =? 0x20 then 0x05 else 0.

Definition reg_value (c : bma280_chip) (r : Z) : Z :=
  if (2 <=? r) && (r <=? 7) then byte (excitation c (regs c 0x32)) (Z.to_nat (r - 2))
  else if r =? 0x0E then Z.of_nat (length (fifo c)) / 6
  else regs c r.

Definition chip_read (reg : Z) (len : nat) (c : bma280_chip) : bytes * bma280_chip :=
  if reg =? 0x3F then (take len (fifo c), mk_chip (regs c) (drop len (fifo c)) (excitation c))
  else (map (reg_value c) (seqZ reg (Z.of_nat len)), c).

Definition write_reg (reg b : Z) (rg : Z -> Z) : Z -> Z := fun r => if r =? reg then b else rg r.
Definition chip_write (reg b : Z) (c : bma280_chip) : bma280_chip :=
  if (reg =? 0x14) && (b =? 0xB6) then mk_chip defaults [] (excitation c)
  else mk_chip (write_reg reg b (regs c)) (fifo c) (excitation c).

(** The chip on the bus, at its address. *)
#[local] Instance chip_bus : BoardI2c.I2cTransfer bma280_chip := {|
  BoardI2c.i2c_transfer q c :=
    match q with
    | BoardI2c.WriteRead a reg len => if a =? 0x30 then let '(d, c) := chip_read reg len c in (0, d, c) else (-1, [], c)
    | BoardI2c.WriteWrite a reg buf =>
        if a =? 0x30 then (0, [], foldl (fun c b => chip_write reg b c) c buf) else (-1, [], c)
    end |}.
#[local] Existing Instance BoardI2c.bma280_bus.

Lemma get_regs_chip reg len (d : dev bma280_chip) :
  enabled d = true -> (0 < len)%nat ->
  get_regs reg len d = (BMA2_OK, (chip_read reg len (chip d)).1, set_intf 0 (set_chip (chip_read reg len (chip d)).2 d)).
Proof.
  intros He Hl. unfold get_regs, null_ptr_check. rewrite He. cbn [negb Z.eqb]. change (BMA2_OK =? BMA2_OK) with true. cbn [negb].
  destruct (Nat.ltb_spec 0 len); [| lia]. unfold bma_read, BoardI2c.bma280_bus, BoardI2c.bma280_read. simpl.
  by destruct (chip_read reg len (chip d)).
Qed.

(** ** A full FIFO *)

(** The FIFO holds the frames of the samples, and the chip is set up to store
    all axes. *)
Definition fifo_holds (l : list sensor_data) (c : bma280_chip) : Prop :=
  fifo c = concat (map frame_bytes l) /\ regs c 0x3E .& 0x03 = BMA2_XYZ_AXES.

Definition nonzero (s : sensor_data) : Prop := forallb (Z.eqb 0) (frame_bytes s) = false.

Lemma valid_frames_all l : Forall nonzero l -> valid_frames l = (l, false).
Proof. induction 1 as [|s l Hs _ IH]; [done |]. simpl. unfold nonzero in Hs. simpl in Hs. by rewrite Hs, IH. Qed.

Lemma frames_length l : length (concat (map frame_bytes l)) = (6 * length l)%nat.
Proof. induction l as [|s l IH]; [done |]. cbn [map concat]. rewrite length_app, IH. simpl. lia. Qed.

Lemma frames_prefix k l : take (6 * k) (concat (map frame_bytes l)) = concat (map frame_bytes (take k l)).
Proof.
  revert l. induction k as [|k IH]; intros [|s l]; try done.
  replace (6 * S k)%nat with (length (frame_bytes s) + 6 * k)%nat by (simpl; lia).
  cbn [map concat take]. by rewrite take_app_add, IH.
Qed.

Lemma one_reg c r : r <> 0x3F -> chip_read r 1 c = ([reg_value c r], c).
Proof. intros Hr. unfold chip_read. destruct (Z.eqb_spec r 0x3F); [done |]. by rewrite seqZ_cons by lia. Qed.

(** The device after a transfer that succeeded. *)
Definition after (c : bma280_chip) (d : dev bma280_chip) : dev bma280_chip := set_intf 0 (set_chip c d).

Lemma read_fifo_chip l f (d : dev bma280_chip) :
  enabled d = true -> fifo_holds l (chip d) -> (1 <= length l <= 32)%nat -> length_ f = BMA2_FIFO_BUFFER ->
  exists f', bma2_read_fifo_data f d = (BMA2_OK, f', after (mk_chip (regs (chip d)) [] (excitation (chip d))) d)
    /\ data f' = concat (map frame_bytes l) ++ drop (6 * length l) (data f)
    /\ length_ f' = 6 * Z.of_nat (length l) /\ fifo_data_select f' = BMA2_XYZ_AXES.
Proof.
  intros He [Hf Hsel] Hl Hlen. unfold bma2_read_fifo_data, bma2_get_fifo_config.
  rewrite (get_regs_chip BMA2_REG_FIFO_STATUS), (one_reg (chip d)) by (done || lia). cbn [fst snd Z.eqb].
  change (BMA2_OK =? BMA2_OK) with true. cbv iota.
  rewrite (get_regs_chip BMA2_REG_FIFO_CONFIG_0), (one_reg _ BMA2_REG_FIFO_CONFIG_0) by (done || lia). cbn [fst snd].
  change (BMA2_OK =? BMA2_OK) with true. cbv iota.
  rewrite (get_regs_chip BMA2_REG_FIFO_CONFIG_1), (one_reg _ BMA2_REG_FIFO_CONFIG_1) by (done || lia). cbn [fst snd].
  change (BMA2_OK =? BMA2_OK) with true. cbv iota. set (d3 := set_intf 0 _).
  cbn [fifo_data_select fifo_frame_count data length_].
  assert (byte [reg_value (chip d) BMA2_REG_FIFO_STATUS] 0 .& 0x7F = Z.of_nat (length l)) as ->.
  { change (byte [reg_value (chip d) BMA2_REG_FIFO_STATUS] 0) with (Z.of_nat (length (fifo (chip d))) / 6).
    rewrite Hf, frames_length. replace (Z.of_nat (6 * length l)) with (Z.of_nat (length l) * 6) by lia.
    rewrite Z.div_mul by lia. change 0x7F with (Z.ones 7). rewrite Z.land_ones by lia. apply Z.mod_small. lia. }
  repeat match goal with |- context [byte [reg_value ?c BMA2_REG_FIFO_CONFIG_1] 0 .& 3] =>
    change (byte [reg_value c BMA2_REG_FIFO_CONFIG_1] 0 .& 3) with (regs (chip d) 0x3E .& 3) end. rewrite Hsel.
  change (BMA2_XYZ_AXES =? BMA2_XYZ_AXES) with true. cbv iota. rewrite (u16_id (Z.of_nat (length l) * 6)) by (unfold is_u16; lia).
  set (f1 := mk_fifo _ _ _ _ _ _ _).
  set (f2 := if _ <? _ then set_length _ f1 else f1).
  assert (length_ f2 = 6 * Z.of_nat (length l)) as Hl2.
  { unfold f2, f1. simpl. rewrite Hlen. unfold BMA2_FIFO_BUFFER. destruct (Z.ltb_spec (Z.of_nat (length l) * 6) 192); simpl; lia. }
  assert (data f2 = data f /\ fifo_data_select f2 = 0) as [Hd2 Hs2] by (unfold f2; by destruct (_ <? _)).
  rewrite Hl2, (get_regs_chip BMA2_REG_FIFO_DATA) by (done || lia).
  replace (Z.to_nat (6 * Z.of_nat (length l))) with (length (fifo (chip d))) by (rewrite Hf, frames_length; lia).
  unfold chip_read. change (BMA2_REG_FIFO_DATA =? 0x3F) with true. cbv iota. change (fifo (chip d3)) with (fifo (chip d)).
  rewrite take_ge, drop_all by lia. cbn [fst snd]. eexists. split; [done |]. cbn [data set_data length_ fifo_data_select].
  rewrite Hd2, Hf, frames_length. done.
Qed.

(** C23: When the accelerometer signals a full FIFO, the task reads the frames,
    decodes them and hands the means of the three axes to the LwM2M client, as
    floats, exactly once; the FIFO is empty afterwards and the notification is
    consumed.  The buffers of 192 bytes and 32 samples suffice for every window
    of up to 32 frames, whatever the samples are, as long as no frame is all
    zeros, which the chip uses for an empty one. *)
Theorem window_published {N C : Type} {NT : TaskNotify N} {NL : TaskNotifyLaws N} {SC : SensorClient C}
    (s : sensor bma280_chip N C) (l : list sensor_data) :
  notify_pending (box s) = true -> notify_word (box s) = sensor_event_bma280_int1 ->
  enabled (bma280 s) = true -> fifo_holds l (chip (bma280 s)) ->
  test_mask (regs (chip (bma280 s)) 0x0A) BMA2_INT_1_ASSERTED_FIFO_FULL = true ->
  (1 <= length l <= 32)%nat -> Forall sample_ok l -> Forall nonzero l ->
  length (bma280_accelerometer_data s) = 32%nat ->
  let mean_of f := int_to_float (Z.quot (sum f l) (Z.of_nat (length l))) in
  exists s', sensor_turn s = Some s'
    /\ client s' = update_accel (mean_of x) (mean_of y) (mean_of z) (client s)
    /\ take (length l) (bma280_accelerometer_data s') = l
    /\ fifo (chip (bma280 s')) = [] /\ notify_pending (box s') = false.
Proof.
  intros Hp Hw He Hf Hi Hl Hok Hnz Hacc mean_of. unfold sensor_turn.
  pose proof (notify_wait_some 0 (box s) Hp) as (Hv & _ & Hnp).
  destruct (notify_wait 0 (box s)) as [v b]. simpl in Hv, Hnp. subst v. rewrite Hw.
  change (test_mask sensor_event_bma280_int1 sensor_event_bma280_int1) with true.
  change (test_mask sensor_event_bma280_int1 sensor_event_bma280_timer) with false. unfold when.
  unfold on_int1, bma2_get_int_status, bma2_get_regs. rewrite get_regs_chip by (done || lia).
  cbn [bma280 set_box fst snd]. change (BMA2_OK =? BMA2_OK) with true. cbn [mbind option_bind].
  change (test_mask (byte (chip_read BMA2_REG_INT_STATUS_0 4 (chip (bma280 s))).1 1) BMA2_INT_1_ASSERTED_FIFO_FULL)
    with (test_mask (regs (chip (bma280 s)) 0x0A) BMA2_INT_1_ASSERTED_FIFO_FULL). rewrite Hi.
  unfold read_window. cbn [bma280_fifo bma280 set_bma280 set_box bma280_accelerometer_data statistics client box].
  set (d1 := set_intf 0 _).
  destruct (read_fifo_chip l (set_length BMA2_FIFO_BUFFER (bma280_fifo s)) d1) as (f' & E & Hd & Hlen & Hsel); try done.
  rewrite E. change (BMA2_OK =? BMA2_OK) with true. cbv iota.
  rewrite (extract_accel_frames l (drop (6 * length l) (data (set_length BMA2_FIFO_BUFFER (bma280_fifo s)))))
    by (done || (rewrite Hacc; lia)).
  rewrite (valid_frames_all l Hnz). cbn [mbind option_bind]. change (BMA2_OK =? BMA2_OK) with true. cbv iota.
  destruct l as [|s0 l0] eqn:El; [simpl in Hl; lia |]. rewrite <- El in *. rewrite Nat.add_0_r, Nat2Z.id, take_app_length.
  destruct (mean_exact (statistics s) l) as [Hst _]; [done | by rewrite El | lia |].
  rewrite Hst. cbn [mbind option_bind]. eexists. split; [reflexivity |].
  cbn [client bma280_accelerometer_data bma280 box]. rewrite take_app_length. split_and!; try done.
  unfold mean_of. by rewrite <- El.
Qed.

(** ** Set-up *)

(** A computation that succeeds hands its result on. *)
Lemma bind_ok {W A B} {BB : BmaBus W} (m : E (W := W) A) (k : A -> E (W := W) B) d a d' :
  m d = Some (inr a, d') -> bind m k d = k a d'.
Proof. intros H. unfold bind. by rewrite H. Qed.

Section setup.
(** The readings under excitation, as numbers of 14 bits with the flag for new
    data. *)
Context (sample : Z -> sensor_data).
#[local] Set Default Proof Using "Type".
Definition is_s14 (v : Z) : Prop := - 2 ^ 13 <= v < 2 ^ 13.
Definition reading (s : sensor_data) : bytes :=
  [u8 (4 * x s + 1); u8 ((4 * x s + 1) / 256); u8 (4 * y s + 1); u8 ((4 * y s + 1) / 256); u8 (4 * z s + 1); u8 ((4 * z s + 1) / 256)].
Hypothesis Hsample : forall r, is_s14 (x (sample r)) /\ is_s14 (y (sample r)) /\ is_s14 (z (sample r)).

Definition on_chip (rg : Z -> Z) : bma280_chip := mk_chip rg [] (fun r => reading (sample r)).
(** The device after [bma2_init]. *)
Definition ready (c : bma280_chip) : dev bma280_chip := mk_dev true 0xFB 0 14 8191 16384 2 0 c.
Definition powered_on (rg : Z -> Z) : dev bma280_chip := mk_dev false 0 0 0 0 0 0 0 (on_chip rg).

Lemma init_chip rg : rg 0 = 0xFB -> bma2_init (board_bma280_enable (powered_on rg)) = Some (inr tt, ready (on_chip rg)).
Proof.
  intros H. unfold bma2_init, bind, get_reg, bind, bma2_get_regs. rewrite get_regs_chip by (done || lia). rewrite one_reg by done.
  assert (reg_value (chip (board_bma280_enable (powered_on rg))) BMA2_REG_BGW_CHIPID = 0xFB) as -> by exact H. reflexivity.
Qed.

Lemma change_self_test_chip f rg :
  change_self_test f (ready (on_chip rg)) = Some (inr tt, ready (on_chip (write_reg 0x32 (f (rg 0x32)) rg))).
Proof. reflexivity. Qed.

(** The self-test register for an axis and a sign. *)
Definition self_test_bits (v axis sign : Z) : Z :=
  BMA2_SET_BITS 0x10 4 (BMA2_SET_BITS 0x04 2 (BMA2_SET_BITS 0x03 0 v axis) sign) 1.

Lemma selftest_config_chip axis sign rg :
  exists rg', selftest_config axis sign (ready (on_chip rg)) = Some (inr tt, ready (on_chip rg'))
    /\ rg' 0x32 = self_test_bits (rg 0x32) axis sign.
Proof.
  unfold selftest_config. erewrite bind_ok by apply change_self_test_chip. erewrite bind_ok by apply change_self_test_chip.
  unfold set_accel_selftest_amp. change (1 <=? 1) with true. cbv iota. rewrite change_self_test_chip. by eexists.
Qed.

Lemma le16s_reading v : is_s14 v -> le16s (u8 (4 * v + 1)) (u8 ((4 * v + 1) / 256)) / 2 ^ 2 = v.
Proof. intros Hv. rewrite le16s_bytes by (unfold is_s14, is_s16 in *; lia). unfold is_s14 in Hv. change (2 ^ 2) with 4. divlia. Qed.

Lemma new_data v : u8 (4 * v + 1) .& 1 = 1.
Proof. change 1 with (Z.ones 1) at 2. rewrite Z.land_ones by lia. unfold u8. change (2 ^ 8) with 256. change (2 ^ 1) with 2. divlia. Qed.

Lemma reading_bytes s :
  byte (reading s) 0 = u8 (4 * x s + 1) /\ byte (reading s) 1 = u8 ((4 * x s + 1) / 256)
  /\ byte (reading s) 2 = u8 (4 * y s + 1) /\ byte (reading s) 3 = u8 ((4 * y s + 1) / 256)
  /\ byte (reading s) 4 = u8 (4 * z s + 1) /\ byte (reading s) 5 = u8 ((4 * z s + 1) / 256).
Proof. done. Qed.

Lemma accel_data_chip rg : bma2_get_accel_data (ready (on_chip rg)) = Some (inr (sample (rg 0x32)), ready (on_chip rg)).
Proof using Hsample.
  unfold bma2_get_accel_data, bind, bma2_get_regs. rewrite get_regs_chip by (done || lia).
  assert ((chip_read BMA2_REG_ACCD_X_LSB 6 (chip (ready (on_chip rg)))).1 = reading (sample (rg 0x32))) as -> by reflexivity.
  change (BMA2_OK =? BMA2_OK) with true. cbn [mbind option_bind].
  destruct (reading_bytes (sample (rg 0x32))) as (B0 & B1 & B2 & B3 & B4 & B5). rewrite B0, B2, B4, !new_data.
  change (u8 (Z.shiftl 1 2) .| u8 (Z.shiftl 1 1) .| 1 =? 7) with true. cbv iota.
  unfold gets, get_accel_data. rewrite B0, B1, B2, B3, B4, B5.
  destruct (Hsample (rg 0x32)) as (Hx & Hy & Hz).
  match goal with |- context [axis_value ?d] => assert (converts d 14) as Hc by (split_and!; try done; lia) end.
  rewrite !(axis_value_exact _ 14) by (done || apply u8_range). change (16 - 14) with 2. rewrite !le16s_reading by done.
  by destruct (sample (rg 0x32)).
Qed.


Definition record_axis (axis : Z) (positive negative : sensor_data) (e : excitations) : excitations :=
  let '(p, n) := e in
  if axis =? 1 then (set_x (x positive) p, set_x (x negative) n)
  else if axis =? 2 then (set_y (y positive) p, set_y (y negative) n)
  else (set_z (z positive) p, set_z (z negative) n).

Lemma excitation_chip axis e rg :
  axis = 1 \/ axis = 2 \/ axis = 3 ->
  let pos := self_test_bits (rg 0x32) axis 1 in
  let neg := self_test_bits pos axis 0 in
  exists rg', self_test_excitation_data axis e (ready (on_chip rg))
              = Some (inr (record_axis axis (sample pos) (sample neg) e), ready (on_chip rg'))
    /\ rg' 0x32 = neg.
Proof using Hsample.
  intros Ha pos neg. unfold self_test_excitation_data.
  destruct (selftest_config_chip axis 1 rg) as (rg1 & E1 & H1). rewrite (bind_ok _ _ _ _ _ E1).
  rewrite (bind_ok _ _ _ _ _ (accel_data_chip rg1)).
  destruct (selftest_config_chip axis 0 rg1) as (rg2 & E2 & H2). rewrite (bind_ok _ _ _ _ _ E2).
  rewrite (bind_ok _ _ _ _ _ (accel_data_chip rg2)).
  exists rg2. rewrite H1 in H2. fold pos in H1, H2. fold neg in H2. split; [| exact H2].
  rewrite H2, H1. clearbody pos neg. unfold record_axis. destruct e as [p n]. by destruct Ha as [-> | [-> | ->]].
Qed.

(** The three axes, one after the other, and the verdict. *)
Definition self_test_verdict : Z :=
  let moved f r1 r2 := Z.abs (f (sample r1) - f (sample r2)) <? 2048 in
  verdict (moved x 0x15 0x11) (moved y 0x16 0x12) (moved z 0x17 0x13).

Lemma read_axis_chip axis e result rg :
  axis = 1 \/ axis = 2 \/ axis = 3 ->
  let pos := self_test_bits (rg 0x32) axis 1 in
  let neg := self_test_bits pos axis 0 in
  exists rg', read_selftest_data axis e result (ready (on_chip rg))
              = Some (BMA2_OK, record_axis axis (sample pos) (sample neg) e, result, ready (on_chip rg'))
    /\ rg' 0x32 = neg.
Proof using Hsample.
  intros Ha pos neg. destruct (excitation_chip axis e rg Ha) as (rg' & E & H). exists rg'. split; [| exact H].
  unfold read_selftest_data. assert (negb (axis =? BMA2_SELFTEST_DISABLE) = true) as -> by (by destruct Ha as [-> | [-> | ->]]).
  by rewrite E.
Qed.

Lemma read_verdict_chip p n result rg :
  let v := verdict (Z.abs (x p - x n) <? 2048) (Z.abs (y p - y n) <? 2048) (Z.abs (z p - z n) <? 2048) in
  exists c, read_selftest_data 0 (p, n) result (ready (on_chip rg)) = Some (v, (p, n), v, ready c)
    /\ (v = 0 -> c = on_chip defaults).
Proof using Hsample.
  intros v. unfold read_selftest_data. change (negb (0 =? BMA2_SELFTEST_DISABLE)) with false. cbv iota.
  destruct (selftest_config_chip 0 0 rg) as (rg' & E & _).
  change (selftest_config BMA2_SELFTEST_DISABLE 0) with (selftest_config (W := bma280_chip) 0 0). rewrite E. cbn [mbind option_bind].
  change (resolution (ready (on_chip rg'))) with 14. rewrite selftest_needs_whole_g. fold v. cbn [mbind option_bind].
  destruct (Z.eqb_spec v BMA2_OK) as [Ev|Ev].
  - exists (on_chip defaults). split; [| done]. by rewrite Ev.
  - exists (on_chip rg'). split; [done |]. by intros ?.
Qed.

Lemma selftest_loop_cons a axes rslt e result d rslt' e' result' d' :
  read_selftest_data a e result d = Some (rslt', e', result', d') ->
  selftest_loop (a :: axes) rslt e result d = selftest_loop axes rslt' e' result' d'.
Proof using Type. intros H. cbn [selftest_loop]. by rewrite H. Qed.

Lemma selftest_chip rg :
  rg 0x32 = 0 ->
  exists c, selftest_loop [1; 2; 3; 0] BMA2_OK (no_data, no_data) BMA2_SELFTEST_FAIL (ready (on_chip rg))
            = Some (self_test_verdict, self_test_verdict, ready c)
    /\ (self_test_verdict = 0 -> c = on_chip defaults).
Proof using Hsample.
  intros H0.
  destruct (read_axis_chip 1 (no_data, no_data) BMA2_SELFTEST_FAIL rg ltac:(lia)) as (rg1 & E1 & H1). rewrite H0 in E1, H1.
  rewrite (selftest_loop_cons _ _ _ _ _ _ _ _ _ _ E1). clear E1.
  match goal with |- context [selftest_loop _ _ ?e _ _] =>
    destruct (read_axis_chip 2 e BMA2_SELFTEST_FAIL rg1 ltac:(lia)) as (rg2 & E2 & H2) end. rewrite H1 in E2, H2.
  rewrite (selftest_loop_cons _ _ _ _ _ _ _ _ _ _ E2). clear E2.
  match goal with |- context [selftest_loop _ _ ?e _ _] =>
    destruct (read_axis_chip 3 e BMA2_SELFTEST_FAIL rg2 ltac:(lia)) as (rg3 & E3 & H3) end. rewrite H2 in E3, H3.
  rewrite (selftest_loop_cons _ _ _ _ _ _ _ _ _ _ E3). clear E3 H1 H2 H3.
  change (self_test_bits 0 1 1) with 0x15. change (self_test_bits 0x15 1 0) with 0x11.
  change (self_test_bits 0x11 2 1) with 0x16. change (self_test_bits 0x16 2 0) with 0x12.
  change (self_test_bits 0x12 3 1) with 0x17. change (self_test_bits 0x17 3 0) with 0x13.
  match goal with |- context [selftest_loop _ _ ?e _ _] => set (ee := e) end.
  assert (ee = (mk_sensor_data (x (sample 0x15)) (y (sample 0x16)) (z (sample 0x17)),
                mk_sensor_data (x (sample 0x11)) (y (sample 0x12)) (z (sample 0x13)))) as -> by reflexivity.
  match goal with |- context [selftest_loop _ _ (?p, ?n) _ _] =>
    destruct (read_verdict_chip p n BMA2_SELFTEST_FAIL rg3) as (c & E & Hc) end.
  exists c. split; [| exact Hc]. rewrite (selftest_loop_cons _ _ _ _ _ _ _ _ _ _ E). reflexivity.
Qed.


Lemma perform_selftest_chip :
  exists c, bma2_perform_accel_selftest (ready (on_chip defaults)) = Some (self_test_verdict, self_test_verdict, ready c)
    /\ (self_test_verdict = 0 -> c = on_chip defaults).
Proof using Hsample.
  set (rg := write_reg 0x13 0x05 (write_reg 0x10 0x0F (write_reg 0x0F 0x05 defaults))).
  destruct (selftest_chip rg eq_refl) as (c & E & Hc). exists c. split; [| exact Hc].
  unfold bma2_perform_accel_selftest. change (negb (null_ptr_check (ready (on_chip defaults)) =? BMA2_OK)) with false. cbv iota.
  match goal with |- context [mbind _ (?m (ready (on_chip defaults)))] =>
    assert (m (ready (on_chip defaults)) = Some (inr tt, ready (on_chip rg))) as -> by (vm_compute; reflexivity) end.
  cbn [mbind option_bind]. exact E.
Qed.

Definition configured : list (Z * Z) :=
  [(0x0F, 0x85); (0x10, 0x4B); (0x11, 0x00); (0x12, 0x00); (0x13, 0x05);   (* range, bandwidth, power, filter *)
   (0x16, 0x00); (0x17, 0x20); (0x18, 0x00);                               (* interrupt enable: FIFO full *)
   (0x19, 0x00); (0x1A, 0x04); (0x1B, 0x00);                               (* FIFO full on INT1 *)
   (0x20, 0x04); (0x21, 0x00);                                             (* INT1 active low, not latched *)
   (0x30, 0x00); (0x3E, 0x40)].                                            (* FIFO mode, all axes *)

Lemma configuration_chip garbage :
  exists d, configuration garbage (ready (on_chip defaults)) = Some (inr tt, d)
    /\ map (fun '(r, _) => regs (chip d) r) configured = map snd configured /\ enabled d = true /\ power_mode d = BMA2_NORMAL_MODE.
Proof using Type. eexists. split; [vm_compute; reflexivity |]. split; [vm_compute; reflexivity |]. split; reflexivity. Qed.

(** Set-up of a BMA280 whose registers hold anything: the result is the
    verdict of the self-test, and when that is zero the chip is in normal mode with
    a range of 4 g and 62.5 Hz, signals a full FIFO on its first pin, active low
    and not latched, and collects all axes in its FIFO.  The registers of range,
    bandwidth and filter get bits of the power registers besides, which the driver
    reads instead of them. *)
Lemma initialize_configures (garbage : bma2_fifo_frame) (rg : Z -> Z) :
  rg BMA2_REG_BGW_CHIPID = BMA2_BMA280_CHIP_ID ->
  exists d, initialize_bma280 garbage (powered_on rg) = Some (self_test_verdict, d)
    /\ (self_test_verdict = 0 ->
        map (fun '(r, _) => regs (chip d) r) configured = map snd configured
        /\ enabled d = true /\ power_mode d = BMA2_NORMAL_MODE).
Proof using Hsample.
  intros Hid. unfold initialize_bma280, code, setup_steps. rewrite (bind_ok _ _ _ _ _ (init_chip rg Hid)).
  rewrite (bind_ok bma2_soft_reset _ (ready (on_chip rg)) tt (ready (on_chip defaults))) by reflexivity.
  destruct perform_selftest_chip as (c & E & Hc). destruct (Z.eqb_spec self_test_verdict BMA2_OK) as [Ev|Ev].
  - assert (checked bma2_perform_accel_selftest (ready (on_chip defaults)) = Some (inr tt, ready (on_chip defaults))) as Es
      by (unfold checked; rewrite E, (Hc Ev); cbn [mbind option_bind]; by rewrite Ev).
    rewrite (bind_ok _ _ _ _ _ Es). destruct (configuration_chip garbage) as (d & Ed & Hd).
    exists d. rewrite Ed. cbn [mbind option_bind]. split; [rewrite Ev; reflexivity | intros _; exact Hd].
  - exists (ready c). split; [| done]. unfold bind at 1. unfold checked. rewrite E. cbn [mbind option_bind].
    destruct (Z.eqb_spec self_test_verdict BMA2_OK); [done |]. done.
Qed.
End setup.

(** A chip that moves by 1.5 g, and one that moves by 0.9 g on one axis, which the
    data sheet allows. *)
Definition moves_by (v : Z) (r : Z) : sensor_data :=
  let a := if test_mask r 4 then v else 0 in mk_sensor_data a a a.

Lemma initialize_configures_witness :
  exists d, initialize_bma280 (mk_fifo [] 0 0 0 0 0 0) (powered_on (moves_by 3072) (fun _ => 0xFB)) = Some (0, d)
    /\ regs (chip d) 0x3E = 0x40.
Proof.
  destruct (initialize_configures (moves_by 3072)
              ltac:(intros r; unfold moves_by, is_s14; destruct (test_mask r 4); simpl; lia)
              (mk_fifo [] 0 0 0 0 0 0) (fun _ => 0xFB) eq_refl) as (d & E & H).
  exists d. split; [exact E |]. destruct (H ltac:(vm_compute; reflexivity)) as [H1 _]. unfold configured in H1. simpl in H1. congruence.
Defined.

Example selftest_rejects_900mg :
  fst <$> initialize_bma280 (mk_fifo [] 0 0 0 0 0 0) (powered_on (moves_by 1843) (fun _ => 0xFB)) = Some 7.
Proof. vm_compute. reflexivity. Qed.

(** An unknown chip is not rejected, and the self-test divides by zero. *)
Example unknown_chip_faults :
  initialize_bma280 (mk_fifo [] 0 0 0 0 0 0) (powered_on (moves_by 3072) (fun r => if r =? 0 then 0xF9 else 0)) = None.
Proof. vm_compute. reflexivity. Qed.

(** ** Runs *)

(** A client that records what it is told. *)
#[local] Instance recording : SensorClient (list (Z * Z * Z) * list Z) := {|
  update_accel vx vy vz c := (c.1 ++ [(vx, vy, vz)], c.2);
  update_temperature v c := (c.1, c.2 ++ [v]) |}.

Definition two_samples : list sensor_data := [mk_sensor_data (-3) 100 8191; mk_sensor_data (-4) 101 8190].
Definition chip_with_window : bma280_chip :=
  mk_chip (fun r => if r =? 0x0A then 0x20 else 0) (concat (map frame_bytes two_samples)) (fun _ => []).
Definition window_task : sensor bma280_chip notif (list (Z * Z * Z) * list Z) :=
  mk_sensor (mk_dev true 0xFB 0 14 8191 16384 2 0 chip_with_window) (mk_fifo (replicate 192 0) 0 0 0 0 0 0)
    (replicate 32 no_data) (mk_statistics no_data (mk_vector32 0 0 0)) (mk_notif sensor_event_bma280_int1 true) ([], []).

(** -3.0, 100.0 and 8190.0 as floats. *)
Lemma window_published_witness :
  exists s', sensor_turn window_task = Some s' /\ client s' = ([(0xC0400000, 0x42C80000, 0x45FFF000)], []).
Proof.
  destruct (window_published window_task two_samples) as (s' & E & Hc & _).
  - reflexivity.
  - reflexivity.
  - reflexivity.
  - split; reflexivity.
  - reflexivity.
  - simpl; lia.
  - repeat constructor; simpl; lia.
  - repeat constructor; vm_compute; reflexivity.
  - reflexivity.
  - exists s'. split; [exact E | rewrite Hc; vm_compute; reflexivity].
Defined.

(** A frame of zeros ends the extraction with an error: the whole window is
    dropped, and the FIFO is empty. *)
Example zero_frame_drops_window :
  let c := mk_chip (regs chip_with_window) (concat (map frame_bytes (two_samples ++ [no_data]))) (fun _ => []) in
  let s := mk_sensor (mk_dev true 0xFB 0 14 8191 16384 2 0 c) (bma280_fifo window_task)
             (bma280_accelerometer_data window_task) (statistics window_task) (box window_task) (client window_task) in
  (fun s' => (client s', fifo (chip (bma280 s')))) <$> sensor_turn s = Some (([], []), []).
Proof. vm_compute. reflexivity. Qed.

(** A reading of the environment sensor that failed is published as well: the
    client gets the temperature of the last reading again. *)
Lemma failed_reading_published {V N C} {BD : Bme280Driver V} {NT : TaskNotify N} {NL : TaskNotifyLaws N} {SC : SensorClient C}
    (s : collector V N C) (r : Z) :
  notify_pending (bme280_box s) = true -> test_mask (notify_word (bme280_box s)) sensor_event_bme280 = true ->
  (forall d w, (bme280_get_sensor_data d w).1 = (r, d)) -> r <> 0 ->
  bme280_client (bme280_turn s)
  = update_temperature (double_to_float (temperature (bme280_sensor_data s))) (bme280_client s).
Proof.
  intros Hp Hw Hd _. unfold bme280_turn. pose proof (notify_wait_some 0 (bme280_box s) Hp) as (Hv & _ & _).
  destruct (notify_wait 0 (bme280_box s)) as [v b]. simpl in Hv. subst v. rewrite Hw.
  destruct (bme280_set_sensor_mode BME280_FORCED_MODE (bme280 s)) as [m w]. pose proof (Hd (bme280_sensor_data s) w) as E.
  destruct (bme280_get_sensor_data (bme280_sensor_data s) w) as [[c d] w']. simpl in E. by injection E as -> ->.
Qed.

(** In the firmware the client of [Lwm2mClient.v] stores the values of the window
    and is notified. *)
Lemma window_reaches_objects {W L LS LT K N} {NT : TaskNotify N} {NL : TaskNotifyLaws N} (vx vy vz : Z)
    (c : Lwm2mClient.client W L LS LT K N) :
  let c' := update_accel vx vy vz c in
  Lwm2mObjects.accel_x (Lwm2mClient.accel c') = vx /\ Lwm2mObjects.accel_y (Lwm2mClient.accel c') = vy
  /\ Lwm2mObjects.accel_z (Lwm2mClient.accel c') = vz
  /\ notify_word (Lwm2mClient.box c') = notify_word (Lwm2mClient.box c) .| Lwm2mClient.lwm2m_notify_accelerometer
  /\ notify_pending (Lwm2mClient.box c') = true.
Proof. split_and!; try done; [apply notify_set_bits_word | apply notify_set_bits_pending]. Qed.
End SensorService.
