(* ===== verification/SystemTasks.v ===== *)
(** * The system monitor and the user task

    Models [src/monitor_service.c] and [src/user.c].  The system monitor is woken
    by a timer once a minute and appends a line of numbers to [LOG.TXT] on the SD
    card; the user task runs the LwM2M client again and again and resets the
    device when it fails.

    The file system is the class [FatFs]; [FatFsLaws] states what its manual says
    of the calls the monitor makes.  A file object is [None] until [f_open] has
    filled it, and closing such an object is undefined: [f_close] follows the
    pointer in it. *)

From Stdlib Require Import String.
From S2P Require Import Prelude Platform Printf.

(** ** The file system

    The calls give their result and the new state; [f_open] also gives the file
    object, which it fills in any case, and [f_write] the number of bytes
    written. *)
Class FatFs (F : Type) := {
  FIL : Type;
  f_mount : bytes -> F -> Z * F;
  f_open : bytes -> Z -> F -> Z * FIL * F;
  f_size : FIL -> Z;
  f_lseek : Z -> FIL -> F -> Z * FIL * F;
  f_write : bytes -> FIL -> F -> (Z * Z) * FIL * F;
  f_close : FIL -> F -> Z * F;
  f_unmount : bytes -> F -> Z * F;
}.
#[global] Arguments FIL F {_}.

(** An open file has the text written so far and a position; the text is on the
    volume once the file is closed. *)
Class FatFsLaws (F : Type) {FS : FatFs F} := {
  on_volume : bytes -> F -> bytes;
  text_of : FIL F -> bytes;
  position : FIL F -> nat;
  name_of : FIL F -> bytes;
  mount_law drive v : forall name, on_volume name (snd (f_mount drive v)) = on_volume name v;
  unmount_law drive v : forall name, on_volume name (snd (f_unmount drive v)) = on_volume name v;
  open_append_law path v f v' : f_open path 0x32 v = (0, f, v') ->   (* for writing, at the end *)
    text_of f = on_volume path v /\ name_of f = path /\ on_volume path v' = on_volume path v;
  size_law f : f_size f = Z.of_nat (length (text_of f));
  lseek_law ofs f v f' v' : 0 <= ofs <= f_size f -> f_lseek ofs f v = (0, f', v') ->
    position f' = Z.to_nat ofs /\ text_of f' = text_of f /\ name_of f' = name_of f /\
    on_volume (name_of f) v' = on_volume (name_of f) v;
  write_law bs f v n f' v' : f_write bs f v = ((0, n), f', v') -> n = Z.of_nat (length bs) ->
    text_of f' = take (position f) (text_of f) ++ bs ++ drop (position f + length bs) (text_of f) /\
    name_of f' = name_of f;
  close_law f v v' : f_close f v = (0, v') -> on_volume (name_of f) v' = text_of f;
}.

Module SystemTasks.
Import Printf.

Definition FR_OK : Z := 0.
Definition FA_WRITE : Z := 0x02.
Definition FA_OPEN_APPEND : Z := 0x30.

(** ** The system monitor *)

(** The numbers of one line: those the kernel and the clock gave, after the
    notification value. *)
Record readings := mk_readings {
  timestamp : Z; stack_high_watermark_lwm2m : Z; stack_high_watermark_mqtt : Z; stack_high_watermark_wifi : Z;
  stack_high_watermark_network_monitor : Z; stack_high_watermark_simplelink : Z; free_heap_size : Z;
}.

Definition numbers_of (notification_value : Z) (r : readings) : list Z :=
  [notification_value; timestamp r; stack_high_watermark_lwm2m r; stack_high_watermark_mqtt r;
   stack_high_watermark_wifi r; stack_high_watermark_network_monitor r; stack_high_watermark_simplelink r;
   free_heap_size r].

(** The format "%u, %u, ..., %u\r\n". *)
Fixpoint separated (ns : list Z) : bytes :=
  match ns with
  | [] => []
  | [n] => fmt_u n ++ [13; 10]
  | n :: ns => fmt_u n ++ lit ", " ++ separated ns
  end.

Definition system_monitor_msg (notification_value : Z) (r : readings) : option bytes :=
  sprintf 100 (separated (numbers_of notification_value r)).

(** The task's notification word, which the timer increments and the task never
    clears: [xTaskNotifyWait] with both masks 0. *)
Record counter := mk_counter { value : Z; pending : bool }.
Definition sytem_monitor_timer (c : counter) : counter := mk_counter (u32 (value c + 1)) true.
Definition notify_wait_keep (c : counter) : counter := mk_counter (value c) false.

Section Monitor.
Context {F : Type} {FS : FatFs F}.

(** The calls in the order the task makes them, each only after the one before
    succeeded; the file is closed and the volume unmounted in any case. *)
Definition append_line (msg : bytes) (v : F) : option (Z * F) :=
  let '(fRes, v) := f_mount (lit "SD") v in
  let '(fRes, file, v) :=
    if fRes =? FR_OK
    then let '(r, f, v) := f_open (lit "SD:/LOG.TXT") (FA_WRITE .| FA_OPEN_APPEND) v in (r, Some f, v)
    else (fRes, None, v) in
  '(fRes, file, v) ←
    (if fRes =? FR_OK
     then f ← file; let '(r, f, v) := f_lseek (f_size f) f v in Some (r, Some f, v)
     else Some (fRes, file, v));
  '(fRes, file, v) ←
    (if fRes =? FR_OK
     then f ← file; let '((r, _), f, v) := f_write msg f v in Some (r, Some f, v)
     else Some (fRes, file, v));
  f ← file;
  let '(r, v) := f_close f v in
  let fRes := if fRes =? FR_OK then r else fRes in
  let '(r, v) := f_unmount (lit "SD") v in
  Some (if fRes =? FR_OK then r else fRes, v).

(** One pass of the task's loop, when it was notified. *)
Definition system_monitor_turn (r : readings) (c : counter) (v : F) : option (counter * F) :=
  if pending c then
    let c := notify_wait_keep c in
    msg ← system_monitor_msg (value c) r;
    '(_, v) ← append_line msg v;
    Some (c, v)
  else Some (c, v).

Inductive event := Minute | Pass (r : readings).

Fixpoint monitor_history (es : list event) (c : counter) (v : F) : option (counter * F) :=
  match es with
  | [] => Some (c, v)
  | Minute :: es => monitor_history es (sytem_monitor_timer c) v
  | Pass r :: es => '(c, v) ← system_monitor_turn r c v; monitor_history es c v
  end.
End Monitor.

(** ** The user task *)

Inductive action := RunClient (ret : Z) | MsDelay (ms : Z) | Reset.

(** [user_task] with the results of the runs of the client; it ends, with the
    reset, after the first that is not 0. *)
Fixpoint user_task (rets : list Z) : list action :=
  match rets with
  | [] => []
  | ret :: rets =>
    [RunClient ret; MsDelay (60 * 1000)]
    ++ (if ret =? 0 then user_task rets else [MsDelay (2 * 60 * 1000); Reset])
  end.


(** ** The line *)

(** Reading a log back, without looking at how it was printed: the text is cut
    behind each pair of characters [a b]; what follows the last pair is the last
    piece. *)
Fixpoint pieces (a b : Z) (s : bytes) : list bytes :=
  match s with
  | [] => [[]]
  | c :: rest =>
    match rest with
    | d :: rest' =>
      if (c =? a) && (d =? b) then [] :: pieces a b rest'
      else match pieces a b rest with p :: ps => (c :: p) :: ps | [] => [[c]] end
    | [] => [[c]]
    end
  end.

(** A number is a non-empty row of digits, a line is numbers between commas, and
    a log is lines that all end in carriage return and line feed. *)
Definition read_number (s : bytes) : option Z :=
  if bool_decide (s <> []) && forallb (fun c => (48 <=? c) && (c <=? 57)) s then Some (decimal_value s) else None.
Definition read_line (s : bytes) : option (list Z) := mapM read_number (pieces 44 32 s).
Fixpoint read_lines (ps : list bytes) : option (list (list Z)) :=
  match ps with
  | [] => None
  | [p] => if bool_decide (p = []) then Some [] else None
  | p :: ps => l ← read_line p; ls ← read_lines ps; Some (l :: ls)
  end.
Definition read_log (s : bytes) : option (list (list Z)) := read_lines (pieces 13 10 s).

Lemma pieces_whole a b x : a ∉ x -> pieces a b x = [x].
Proof.
  induction x as [| c x IH]; [done |]. rewrite not_elem_of_cons. intros [Hc Hx]. specialize (IH Hx).
  cbn [pieces]. destruct x as [| d x]; [done |]. destruct (Z.eqb_spec c a); [congruence |]. cbn [andb]. by rewrite IH.
Qed.

Lemma pieces_cut a b x s : a ∉ x -> pieces a b (x ++ a :: b :: s) = x :: pieces a b s.
Proof.
  induction x as [| c x IH]; intros Hx; [cbn; by rewrite !Z.eqb_refl |].
  apply not_elem_of_cons in Hx as [Hc Hx]. specialize (IH Hx).
  change ((c :: x) ++ a :: b :: s) with (c :: (x ++ a :: b :: s)). cbn [pieces].
  destruct (x ++ a :: b :: s) as [| d y] eqn:E; [by destruct x |].
  destruct (Z.eqb_spec c a); [congruence |]. cbn [andb]. by rewrite IH.
Qed.

Lemma pieces_nonempty a b s : pieces a b s <> [].
Proof. destruct s as [| c [| d s]]; cbn [pieces]; [done | done |]. destruct (_ && _); [done |]. by destruct (match s with [] => _ | _ => _ end). Qed.

Lemma fmt_u_plain n c : is_u32 n -> ~ is_digit c -> c ∉ fmt_u n.
Proof.
  intros Hn Hc Hin. destruct (fmt_u_spec n Hn) as (_ & Hd & _). rewrite list.Forall_forall in Hd. by apply Hc, Hd.
Qed.

Lemma read_number_fmt n : is_u32 n -> read_number (fmt_u n) = Some n.
Proof.
  intros Hn. destruct (fmt_u_spec n Hn) as (Hv & Hd & Hl). unfold read_number.
  rewrite bool_decide_eq_true_2 by (intros E; rewrite E in Hl; simpl in Hl; lia).
  assert (forallb (fun c => (48 <=? c) && (c <=? 57)) (fmt_u n) = true) as ->; [| cbn [andb]; congruence].
  apply forallb_forall. intros c Hc%list_elem_of_In. rewrite list.Forall_forall in Hd. specialize (Hd c Hc).
  unfold is_digit in Hd. lia.
Qed.

(** A printed line: what stands before its terminator reads back as the numbers. *)
Lemma separated_line ns : ns <> [] -> Forall is_u32 ns ->
  exists l, separated ns = l ++ [13; 10] /\ (13 ∉ l) /\ read_line l = Some ns.
Proof.
  intros Hne Hns. induction Hns as [| n ns Hn Hns IH]; [done |].
  assert (forall c, ~ is_digit c -> c ∉ fmt_u n) as Hp by (intros; by apply fmt_u_plain).
  destruct ns as [| n2 ns].
  - exists (fmt_u n). split; [done |]. split; [apply Hp; unfold is_digit; lia |].
    unfold read_line. rewrite pieces_whole by (apply Hp; unfold is_digit; lia). cbn [mapM].
    by rewrite read_number_fmt.
  - destruct IH as (l & E & Hl & Hr); [done |]. exists (fmt_u n ++ 44 :: 32 :: l). split; [| split].
    + change (separated (n :: n2 :: ns)) with (fmt_u n ++ lit ", " ++ separated (n2 :: ns)). by rewrite E, <- (assoc_L (++)).
    + rewrite elem_of_app, !elem_of_cons. intros [H | [H | [H | H]]]; [| done | done | done].
      by apply (Hp 13); [unfold is_digit; lia |].
    + unfold read_line in *. rewrite pieces_cut by (apply Hp; unfold is_digit; lia). cbn [mapM].
      by rewrite read_number_fmt, Hr.
Qed.

(** A line in front of a log is the first line of the result. *)
Lemma read_log_line ns s ls : ns <> [] -> Forall is_u32 ns ->
  read_log s = Some ls -> read_log (separated ns ++ s) = Some (ns :: ls).
Proof.
  intros Hne Hns Hs. destruct (separated_line ns Hne Hns) as (l & -> & Hl & Hr). unfold read_log in *.
  rewrite <- (assoc_L (++)). change ([13; 10] ++ s) with (13 :: 10 :: s). rewrite pieces_cut by done.
  pose proof (pieces_nonempty 13 10 s). destruct (pieces 13 10 s) as [| p ps]; [done |].
  change (read_lines (l :: p :: ps)) with (l ← read_line l; ls ← read_lines (p :: ps); Some (l :: ls)).
  rewrite Hr, Hs. done.
Qed.

Lemma separated_length ns : ns <> [] -> Forall is_u32 ns -> (length (separated ns) <= 12 * length ns)%nat.
Proof.
  intros Hne Hns. induction Hns as [| n ns Hn Hns IH]; [done |].
  destruct (fmt_u_spec n Hn) as (_ & _ & Hl). destruct ns as [| n2 ns].
  - cbn [separated]. rewrite length_app. cbn [length]. lia.
  - change (separated (n :: n2 :: ns)) with (fmt_u n ++ lit ", " ++ separated (n2 :: ns)).
    rewrite !length_app. change (length (lit ", ")) with 2%nat. specialize (IH ltac:(done)). cbn [length] in *. lia.
Qed.

(** What the kernel's functions return: 32-bit numbers. *)
Definition readings_ok (r : readings) : Prop := Forall is_u32 (numbers_of 0 r).

Lemma numbers_ok n r : is_u32 n -> readings_ok r -> Forall is_u32 (numbers_of n r).
Proof. intros Hn Hr. inversion Hr as [| x l H1 H2]. by constructor. Qed.

(** The text always fits its array of 100 characters. *)
Lemma system_monitor_msg_fits n r : is_u32 n -> readings_ok r ->
  system_monitor_msg n r = Some (separated (numbers_of n r)).
Proof.
  intros Hn Hr. pose proof (separated_length (numbers_of n r) ltac:(done) (numbers_ok n r Hn Hr)) as Hl.
  unfold system_monitor_msg, sprintf. rewrite decide_True; [done |]. cbn [length numbers_of] in Hl. lia.
Qed.

(** ** The file *)

Definition LOG : bytes := lit "SD:/LOG.TXT".

Section File.
Context {F : Type} {FS : FatFs F} {FL : FatFsLaws F}.

(** Whether the task survives depends on the mount alone: when it fails, a file
    object that was never filled is closed. *)
Lemma append_line_defined msg v :
  is_Some (append_line msg v) <-> fst (f_mount (lit "SD") v) = FR_OK.
Proof.
  unfold append_line. destruct (f_mount (lit "SD") v) as [r v1]. cbn [fst].
  destruct (Z.eqb_spec r FR_OK) as [-> | Hr].
  - split; [done |]. intros _. destruct (f_open _ _ v1) as [[r2 f] v2].
    destruct (r2 =? FR_OK) eqn:R2; cbn [mbind option_bind]; rewrite ?R2; cbn [mbind option_bind].
    + destruct (f_lseek _ f v2) as [[r3 f3] v3]. cbn [mbind option_bind]. destruct (r3 =? FR_OK); cbn [mbind option_bind].
      * destruct (f_write msg f3 v3) as [[[r4 n4] f4] v4]. cbn [mbind option_bind].
        destruct (f_close f4 v4) as [r5 v5]. destruct (f_unmount (lit "SD") v5). by eexists.
      * destruct (f_close f3 v3) as [r5 v5]. destruct (f_unmount (lit "SD") v5). by eexists.
    + destruct (f_close f v2) as [r5 v5]. destruct (f_unmount (lit "SD") v5). by eexists.
  - do 2 (rewrite ?(proj2 (Z.eqb_neq _ _) Hr); cbn [mbind option_bind]). split; [by intros [] | done].
Qed.

(** A card on which the calls succeed and that has room. *)
Record healthy : Prop := {
  ok_mount d v : fst (f_mount d v) = FR_OK;
  ok_open p m v : fst (fst (f_open p m v)) = FR_OK;
  ok_lseek o f v : fst (fst (f_lseek o f v)) = FR_OK;
  ok_write b f v : fst (fst (f_write b f v)) = (FR_OK, Z.of_nat (length b));
  ok_close f v : fst (f_close f v) = FR_OK;
}.

(** Then exactly the line is appended. *)
Lemma append_line_appends msg v :
  healthy -> exists r v', append_line msg v = Some (r, v') /\ on_volume LOG v' = on_volume LOG v ++ msg.
Proof.
  intros [H1 H2 H3 H4 H5]. unfold append_line.
  pose proof (mount_law (lit "SD") v LOG) as L1. specialize (H1 (lit "SD") v).
  destruct (f_mount (lit "SD") v) as [r1 v1]. cbn [fst snd] in H1, L1. subst r1. change (FR_OK =? FR_OK) with true. cbv iota.
  specialize (H2 LOG (FA_WRITE .| FA_OPEN_APPEND) v1). fold LOG.
  destruct (f_open LOG _ v1) as [[r2 f2] v2] eqn:E2. cbn [fst] in H2. subst r2.
  destruct (open_append_law _ _ _ _ E2) as (T2 & N2 & V2). change (FR_OK =? FR_OK) with true. cbn [mbind option_bind].
  specialize (H3 (f_size f2) f2 v2). destruct (f_lseek (f_size f2) f2 v2) as [[r3 f3] v3] eqn:E3. cbn [fst] in H3. subst r3.
  pose proof (size_law f2) as S2. destruct (lseek_law (f_size f2) f2 v2 f3 v3 ltac:(rewrite S2; lia) E3) as (P3 & T3 & N3 & _).
  cbn [mbind option_bind]. change (FR_OK =? FR_OK) with true. cbn [mbind option_bind].
  specialize (H4 msg f3 v3). destruct (f_write msg f3 v3) as [[[r4 n4] f4] v4] eqn:E4. cbn [fst] in H4. injection H4 as -> ->.
  destruct (write_law _ _ _ _ _ _ E4 eq_refl) as (T4 & N4). cbn [mbind option_bind].
  specialize (H5 f4 v4). destruct (f_close f4 v4) as [r5 v5] eqn:E5. cbn [fst] in H5. subst r5.
  pose proof (close_law _ _ _ E5) as C5. rewrite N4, N3, N2, T4, T3, P3, S2, Nat2Z.id, T2, L1 in C5.
  pose proof (unmount_law (lit "SD") v5 LOG) as L6. destruct (f_unmount (lit "SD") v5) as [r6 v6]. cbn [snd] in L6.
  eexists _, v6. split; [reflexivity |]. rewrite L6, C5, take_ge, drop_ge by lia. by rewrite app_nil_r.
Qed.
End File.

(** ** The log *)

(** The lines due in a history: one for each pass that follows a minute, with
    the minutes so far. *)
Fixpoint lines_due (minutes : Z) (woken : bool) (es : list event) : list (list Z) :=
  match es with
  | [] => []
  | Minute :: es => lines_due (u32 (minutes + 1)) true es
  | Pass r :: es =>
    if woken
    then [minutes; timestamp r; stack_high_watermark_lwm2m r; stack_high_watermark_mqtt r;
          stack_high_watermark_wifi r; stack_high_watermark_network_monitor r;
          stack_high_watermark_simplelink r; free_heap_size r] :: lines_due minutes false es
    else lines_due minutes false es
  end.

Definition event_ok (e : event) : Prop := match e with Minute => True | Pass r => readings_ok r end.

Lemma lines_due_ok minutes woken es :
  is_u32 minutes -> Forall event_ok es ->
  Forall (fun ns => ns <> [] /\ Forall is_u32 ns) (lines_due minutes woken es).
Proof.
  intros Hm He. revert minutes woken Hm. induction He as [| [| r] es Hr _ IH]; intros minutes woken Hm; cbn [lines_due];
    [constructor | apply IH, u32_range |].
  destruct woken; [constructor; [split; [done | by apply numbers_ok] |] |]; by apply IH.
Qed.

(** All lines of a log, in order. *)
Lemma log_reads_back lines : Forall (fun ns => ns <> [] /\ Forall is_u32 ns) lines ->
  read_log (concat (separated <$> lines)) = Some lines.
Proof.
  induction 1 as [| ns lines [Hne Hns] _ IH]; [done |]. rewrite fmap_cons. cbn [concat]. by apply read_log_line.
Qed.

Lemma monitor_appends {F} {FS : FatFs F} {FL : FatFsLaws F} es :
  forall c (v : F), healthy -> Forall event_ok es -> is_u32 (value c) ->
  exists c' v', monitor_history es c v = Some (c', v')
    /\ on_volume LOG v' = on_volume LOG v ++ concat (separated <$> lines_due (value c) (pending c) es).
Proof.
  induction es as [| e es IH]; intros c v Hh He Hc.
  { exists c, v. cbn. by rewrite app_nil_r. }
  apply list.Forall_cons in He as [Hr He]. destruct e as [| r]; cbn [monitor_history lines_due].
  - destruct (IH (sytem_monitor_timer c) v) as (c' & v' & E & HL); try done; [apply u32_range |].
    exists c', v'. split; [done | exact HL].
  - unfold system_monitor_turn. destruct (pending c) eqn:Ep.
    + rewrite system_monitor_msg_fits by done. cbn [mbind option_bind].
      destruct (append_line_appends (separated (numbers_of (value (notify_wait_keep c)) r)) v Hh) as (x & v1 & -> & H1).
      cbn [mbind option_bind]. destruct (IH (notify_wait_keep c) v1) as (c' & v' & E & HL); try done.
      exists c', v'. split; [done |]. rewrite HL, H1, fmap_cons. cbn [concat]. by rewrite <- (assoc_L (++)).
    + cbn [mbind option_bind]. destruct (IH c v) as (c' & v' & E & HL); try done. rewrite Ep in HL. by exists c', v'.
Qed.

(** C38: the log of the system monitor: through any history of its timer and its
    passes, on a card whose calls succeed, every pass returns and the text added
    to the file reads back as exactly one line for each pass that follows a
    minute, in order: lines ended by carriage return and line feed, each with
    the minutes counted so far, the time, the five stack marks and the free heap
    in decimal between commas, and nothing else. *)
Theorem log_faithful {F} {FS : FatFs F} {FL : FatFsLaws F} es c (v : F) :
  healthy -> Forall event_ok es -> is_u32 (value c) ->
  exists c' v' added, monitor_history es c v = Some (c', v')
    /\ on_volume LOG v' = on_volume LOG v ++ added
    /\ read_log added = Some (lines_due (value c) (pending c) es).
Proof.
  intros Hh He Hc. destruct (monitor_appends es c v Hh He Hc) as (c' & v' & E & HL).
  exists c', v', (concat (separated <$> lines_due (value c) (pending c) es)). split; [done |]. split; [done |].
  apply log_reads_back. by apply lines_due_ok.
Qed.

(** A volume with one file. *)
Module Example.
Record open_file := mk_open_file { of_name : bytes; of_text : bytes; of_pos : nat }.

#[export] Instance card : FatFs (bytes * bytes) := {|
  FIL := open_file;
  f_mount _ v := (0, v);
  f_open path _ v := (0, mk_open_file path (if decide (path = fst v) then snd v else []) 0, v);
  f_size f := Z.of_nat (length (of_text f));
  f_lseek o f v := (0, mk_open_file (of_name f) (of_text f) (Z.to_nat o), v);
  f_write b f v := ((0, Z.of_nat (length b)),
    mk_open_file (of_name f) (take (of_pos f) (of_text f) ++ b ++ drop (of_pos f + length b) (of_text f))
      (of_pos f + length b), v);
  f_close f v := (0, (of_name f, of_text f));
  f_unmount _ v := (0, v);
|}.

#[export] Instance card_laws : FatFsLaws (bytes * bytes).
Proof.
  refine {| on_volume name v := if decide (name = fst v) then snd v else [];
            text_of := of_text : FIL (bytes * bytes) -> bytes; position := of_pos : FIL (bytes * bytes) -> nat;
            name_of := of_name : FIL (bytes * bytes) -> bytes |}.
  - done.
  - done.
  - intros path v f v' [= <- <-]. done.
  - done.
  - intros ofs f v f' v' _ [= <- <-]. done.
  - intros bs f v n f' v' [= <- <- <-] _. done.
  - intros f v v' [= <-]. cbn. by rewrite decide_True.
Defined.

Definition hour : list event :=
  [Minute; Pass (mk_readings 1700000000 100 200 300 400 500 60000); Minute; Minute;
   Pass (mk_readings 1700000180 100 200 300 400 500 4294967295)].
End Example.
Import Example.

Lemma log_faithful_witness :
  exists c' v' added, monitor_history hour (mk_counter 0 false) (LOG, lit "x") = Some (c', v')
    /\ on_volume LOG v' = on_volume LOG (LOG, lit "x") ++ added
    /\ read_log added
       = Some [[1; 1700000000; 100; 200; 300; 400; 500; 60000];
               [3; 1700000180; 100; 200; 300; 400; 500; 4294967295]].
Proof.
  apply (log_faithful hour (mk_counter 0 false) (LOG, lit "x")).
  - by split.
  - repeat constructor; cbn; unfold is_u32; lia.
  - split; by vm_compute.
Defined.

(** ** The user task *)

(** The task ends with the reset after the first run that fails: the runs that
    returned 0 are repeated, one minute apart, and the reset comes three minutes
    after the failure. *)
Lemma user_task_resets k ret rest : ret <> 0 ->
  user_task (replicate k 0 ++ ret :: rest)
  = concat (replicate k [RunClient 0; MsDelay 60000]) ++ [RunClient ret; MsDelay 60000; MsDelay 120000; Reset].
Proof.
  intros Hr. induction k as [| k IH].
  - cbn [replicate app user_task concat]. by rewrite (proj2 (Z.eqb_neq _ _) Hr).
  - cbn [replicate app concat user_task]. by rewrite IH.
Qed.
End SystemTasks.
